(* ===== verification/_CoqProject ===== *)
-Q . S2P
Prelude.v
CppString.v
StdMap.v
Boost.v
Types.v
Modbus.v
FuncUtil.v
EspStringUtils.v
EspAttribute.v
Alarm.v
IoTUrl.v
Bson.v
Collection.v
MultiIndex.v
Device.v
Cache.v
Command.v
CommandCollection.v
CommandCache.v
Json.v
Configurator.v
DevFile.v
NgsiAttribute.v
NgsiContext.v
DeviceCollection.v
NgsiMessages.v
NgsiRegister.v
Iso8601.v
CbComm.v
CommandHandle.v
RestHandle.v
CommandService.v
CommandNgsi.v
CommandRegister.v
CommandTheorems.v
CommandEnds.v
CommandRace.v
AgentExample.v
UltraLight.v
UlService.v
OperationProcessor.v
EspXml.v
EspContext.v
EspParser.v
EspParserSpec.v
EspFields.v
EspMqtt.v
EspMqttSpec.v
EspSensor.v
EspRunner.v
EspMqttAgent.v
EspMqttAgentSpec.v
MqttService.v
MqttServiceSpec.v
MqttSendSpec.v
Statistic.v
OAuth.v
Filters.v
OAuthFilter.v
OAuthSpec.v
OAuthExample.v
ServiceTables.v
AdminService.v
CollectionSpec.v
AdminSpec.v
AdminDevices.v
AdminExample.v
AdminMgmt.v
AdminMgmtSpec.v
AdminMgmtExample.v
AdminPages.v
AdminPagesExample.v
