(* ===== verification/Prelude.v ===== *)
(** * fiware IoT agents in C++: a verification library

    This library models the parts of the agents of [src/src] that compute, and
    proves what makes them correct.  The agents take measures of devices in
    several protocols (UltraLight 2.0 over HTTP, Modbus over SMS, MQTT, Thinking
    Things), turn them into NGSI updates for a context broker, and carry the
    commands of the broker back to the devices.

    ** The parts and their files

    What all the parts share:

    - [Prelude] (this file): outcomes of C++ code ([outcome]: a value, an
      exception, undefined behaviour), code that changes an object ([M]),
      recursive code on fuel ([fueled]), what holds of every way a piece of
      code ends ([runs], [keeps], [ends_try], [yields]), integers of fixed
      width, vectors, tactics and the hint databases [iota] and [ends].
    - [CppString]: [std::string] and the character functions of the C library;
      [split_char] and [join_char]; decimal numbers and [atoi].  [StdMap]:
      [std::map] with string keys.
    - [Boost]: the Boost calls as a class [Boost] with the laws [BoostLaws],
      and property trees, [PropertyTree]; reference instances of both.
    - [Types]: constants of [rest/types.cc] and [util/store_const.cc].
    - [Json]: the document object model of rapidjson, its events, and
      [get_str_value] of [util/json_util.cc].
    - [FuncUtil], [IoTUrl], [Iso8601]: [util/FuncUtil.cc],
      [util/iot_url.cc] and [util/RiotISO8601.cc]: query strings, percent
      decoding, hexadecimal dumps, checks of headers, forbidden characters,
      identifiers, URLs and times.
    - [Alarm]: [util/alarm.cc], the map of alarms that are on.
    - [Bson], [Collection]: documents, the driver of MongoDB as the class
      [Mongo], and [util/collection.cc], the calls on a collection with their
      retries, errors and alarms.
    - [MultiIndex]: the interface of the Boost container the caches are built
      on, as the classes [Item] and [Container] with their laws, and a list
      that satisfies them.

    The protocols:

    - [Modbus]: [modbus/modbus.cc].  The record [Modbus] is the class;
      [new_request] and [new_write] its constructors, [receive_modbus_frame]
      the reception of a piece of a response, [get_mapped_values] the registers
      as named values, [crc] the CRC over the two tables of the source.
    - [UltraLight], [UlService]: [ultra_light/ULInsertObservation.cc] and
      [ul20_service.cc]: the translation of measures, commands and responses,
      and the HTTP handler, over the class [UlEnv] of what it calls in the
      rest of the agent.
    - [EspStringUtils], [EspAttribute]: [esp/source/ESP_StringUtils.cpp] and
      [ESP_Attribute.cpp]; a value is the block of bytes behind its pointer.
    - [OperationProcessor]: [modbus/operation_processor.cc], the operations,
      commands and parameters of Modbus read from a property tree.
    - [EspXml], [EspContext], [EspParser]: the parser of frames of
      [esp/source/TDA.cpp] and the [parser_basic] plug-in: elements, the
      buffers of a parse, and the tags of a command as a tree that is run.  A
      tag reaches its parents: [EspParser.run] takes their data as a path.
      [EspParserSpec] and [EspFields] hold what is proved of it.
    - [EspMqtt], [EspMqttSpec]: the [input_mqtt] plug-in: queues of messages,
      connections, clients and brokers, over the class [IMosquitto] of the
      mosquitto library.
    - [EspSensor], [EspRunner]: postprocessors, outputs, and the loop of a
      client, [ESP_Runner_Client::runLoop], over the class [EspInput].
    - [EspMqttAgent], [EspMqttAgentSpec]: the sensor of
      [mqtt/config/sensormqtt.xml], and the way of a message from its topic to
      the call of the MQTT service.
    - [MqttService]: [mqtt/MqttService.cc], [IotaMqttService.cc],
      [IotaMqttServiceImpl.cc] and [util/TTCBPublisher.cc]: measures to the
      broker, commands to devices and the answers of commands;
      [MqttServiceSpec] and [MqttSendSpec] hold what is proved of it.

    The messages of the context broker:

    - [NgsiAttribute], [NgsiContext], [NgsiMessages], [NgsiRegister]: the
      classes of [ngsi/], each with its constructors from JSON and its
      [Serialize]; [NgsiContext.add_attribute] follows the mappings of names.
    - [CbComm]: [rest/iot_cb_comm.cc], the requests to the broker, the second
      try with a new token, the alarm; connections are the class [Network].

    Devices and commands:

    - [Device], [Cache], [DeviceCollection], [DevFile]: [util/device.h],
      [util/cache.cc], the documents of [util/device_collection.cc] and the
      file of [util/dev_file.cc].
    - [Command], [CommandCache], [CommandCollection]: [util/command.cc],
      [util/command_cache.cc] and [util/command_collection.cc]: the commands
      in flight, their timers, and the documents they are kept as.
    - [Configurator]: [rest/riot_conf.cc], the configuration and its checks;
      the class [Config] is what the rest of the agent asks of it.

    The agent:

    - [RestHandle]: [rest/rest_handle.cc].  The record [Agent] is the state of
      a resource: its caches, its database, its traffic with the broker.
      Dispatch of requests, services and devices from the cache, the database
      or the configuration, publication of elements.
    - [CommandHandle], [CommandService], [CommandNgsi], [CommandRegister]:
      [rest/command_handle.cc]: templates; the life of a command; the two
      handlers of the broker's requests; the registrations of devices.
    - [CommandTheorems], [CommandEnds], [CommandRace]: what the life of a
      command guarantees, where it ends, and the interleavings of agents that
      share a database.  [AgentExample] is an agent that can be run.

    Who may ask:

    - [Filters]: [rest/http_filter.h], [media_filter.cc] and
      [rest_functions.cc]: the callbacks of requests that wait, the checks on
      headers and media types, patterns of URLs.
    - [OAuth], [OAuthFilter]: [util/oauth_comm.cc], [util/access_control.cc]
      and [rest/oauth_filter.cc].  The record [Client] is an object that asks
      the identity service, with its requests in flight; a [Session] is a
      request the filter is asked about, and [deliver] a response that
      arrives.  [OAuthSpec] gives the machine of stages they implement and
      what follows from it, [OAuthExample] a session that is let through.
    - [Statistic]: [rest/iot_statistic.cc], counters by hour.

    The administration:

    - [ServiceTables]: [util/service_collection.cc],
      [protocol_collection.cc] and [service_mgmt_collection.cc], the queries of
      the tables of services and protocols.
    - [AdminService]: [services/admin_service.cc].  The record [Admin] is the
      table of resources with the database and the plug-ins, which the class
      [Plugins] stands for; [devices], [device], [services] and [service] are
      the handlers of the four resources.
    - [CollectionSpec]: what the calls of [Collection] keep and how they end on
      a driver that may fail half-way.  [AdminSpec] and [AdminDevices] hold
      what is proved of the handlers, [AdminExample] an administration of two
      tenants.
    - [AdminMgmt]: [services/admin_mgmt_service.cc], the manager of several
      agents.  The record [Manager] is its tables with the outside.  What it
      asks each agent for a request on devices, services or protocols, how it
      merges their answers and their errors, and their registrations; the
      responses and checks are those of [AdminService].  [AdminMgmtSpec] holds
      what is proved of it, with [serves_pages], what a manager relies on of
      its agents; [AdminPages] shows that the handler of [AdminService] gives
      it, and puts both together.  [AdminMgmtExample] is a manager of two
      agents, [AdminPagesExample] one whose agents run [AdminService].

    A measure goes this way: [UlService.service] reads the query with
    [FuncUtil], finds the [Device], hands the body to [UltraLight.translate],
    which makes an [NgsiAttribute] of each measure and adds it to a
    [NgsiContext.ContextElement] named from the device and the service, and
    [CbComm] sends it.  A command goes the other way:
    [CommandNgsi.default_op_ngsi] reads an update of the broker with
    [NgsiMessages], [CommandService.updateCommand] fills the template with
    [CommandHandle], saves the command in the [CommandCache] or, through
    [CommandCollection] and [Collection], in the database, and pushes it to
    the device or leaves it to be polled; the answer of the device, or the
    timer of the cache, ends it, and every change of state is published.  A
    message of MQTT is kept by [EspMqtt], accepted as a client, read by
    [EspRunner] and parsed by [EspParser]; [EspSensor] formats the measures and
    hands them to [MqttService], which publishes them or, when the topic is one
    of commands, answers the command as [CommandService] does.  A command for a
    device of MQTT goes through [MqttService.execute_mqtt_command] to a runner
    of [EspRunner] whose output is a broker of [EspMqtt].  A request of an
    administrator passes [Filters] and [OAuthFilter] before [AdminService]
    handles it: it reads the body with the schemas, asks the plug-ins of the
    protocol, and inserts, updates or removes documents of the same tables
    [DeviceCollection] and [RestHandle] read the devices from.

    ** Conventions

    Functions and fields keep the names of the source.  Each operation is a
    function that can be evaluated; an operation that changes an object takes
    it and returns it, or runs in a monad over it.  Exceptions are values of
    [exn] with the reason, the text and the code the source gives them; an
    access the language does not define, and a failed assertion of rapidjson,
    is [Undefined], which no handler catches.  Integers are [Z], wrapped where
    the source has a narrow type.  Code that is not in the repository (Boost,
    pion, the clock, the reader and writer of JSON text, floating point) is a
    parameter with the documented laws that are used, and every law has an
    instance.  Logging and mutexes are left out.  A shared pointer is modelled
    by the object when there is one owner at a time, and by a number with a
    store where several refer to it (the caches).

    ** What the theorems show

    - Commands: whatever the interleaving of the agents that share a database,
      the timeout of a command is reported once; without a database, the timer
      reports it; an update of the broker is answered element by element and
      sends each command as its device asks; the answer of a device removes
      the command and publishes its result; both handlers always answer; the
      update of a command ends; durations are the seconds they name.
    - Caches: after any sequence of calls they are bounded, hold each item
      once, keep a timer for each item that expires, and (devices) are the
      least-recently-used cache; commands are handed over once when they time
      out, and all of them do.
    - Database and configuration: a removal answers the number of documents
      removed; the retries of a call are counted, but for [update], which
      tries for ever; commands and devices are read back from their
      documents; a configuration that is loaded stays loaded, and its services
      are well formed; the file of devices is read up to its first error.
    - NGSI: attributes, elements, updates, responses, registrations, queries
      and subscriptions are read back from what they serialise to;
      [add_attribute] refines a relation that follows the mappings, and does
      not end when a name is mapped to itself.
    - Context broker: a request refused for its token is sent once more with a
      new one, and no more; sending ends.
    - Modbus: the table-driven CRC is the CRC-16 of the standard; a response
      cut in any pieces is reassembled into the registers asked for; no bytes
      received make the code throw; writes are accepted on the right echo only.
    - UltraLight: a message of measures becomes one element for each, a
      malformed one is refused (or reads past its fields); templates are
      filled in order; a request publishes all its measures or none.
    - ESP: a command consumes its input in order and keeps to its buffers; noise
      before a frame is skipped; delimited fields become exactly the attributes
      named; values do not wait for their bytes and loops do not count; the
      buffer of a connection is a stream; what is published is what a reader of
      the topic gets; a message reaches the service as the measure of its
      topic, with the topics that are taken for another device's, and the
      measures of two clients may mix.
    - MQTT services: a command is published once, with an identifier that is
      read back from the topic of the answer, and however often it is answered
      it is closed once.
    - Access control: the filter follows a machine of stages, one request in
      flight at a time; a request is let through only when the token, the user
      of the domain, the project and the decision on exactly the user's roles
      say so; each request is answered once, after five responses at most.
      Counters are those of the last 24 hours in which something was counted.
    - Administration: a request of a service changes no document of another
      one, also when it fails half-way; requests are answered whatever the
      driver and the plug-ins throw; devices are posted in order, those before
      a refused one staying; a device is removed under every protocol and
      nobody unregisters it; the devices of a path go with its last service.
      The manager answers a page of the devices of all its agents, shorter by
      those of the agents before the offset, and tells when only some of them
      accepted a request, and which did not.
    - Operations of Modbus: parameters in order of address, and what the read
      made of a command gives back.
    - Texts: query strings, URLs and hexadecimal dumps are read back; the
      string utilities against specifications, with the calls that do not end.
      Attributes of ESP keep the value and its size together.  Alarms refine a
      set of pairs of a code and an endpoint.

    ** Fuel

    Loops whose recursion is not structural take fuel, and the theorems say how
    much is enough: the length of the text for [EspStringUtils], [hex_pairs]
    and [replace_params], the length of the response for [read_registers].  For
    [add_attribute] it is the number of mappings followed, so one unit is
    enough without mappings and two when no mapping leads to another.  The
    calls of [Collection] take one unit for each try: two are enough but for
    [update], for which no number is.  A request of [CbComm] takes two.  A run
    of tags takes one unit for each level of the tree and one for each turn of
    a loop or subtag, a command one more for each byte it skips; a runner one
    for each read: four do for a message, and three turns for a command that is
    sent.  A pattern of a URL takes one unit for each placeholder.

    ** What is not modelled

    The threads, sockets, connection pools and the plug-in loader, the HTTP
    client and the logger only call libraries; TinyXML is vendored.  Of ESP,
    the loading of plug-ins and of sensors from files, the threads of servers,
    the SensorML and Thinking Things postprocessors and the binary parser are
    left out.  Of the administration, the resources that describe the process
    (about, agents, agent), the text of the schemas and the pool of connections
    are left out, and so is the service of Thinking Things, whose formats are
    those of its own parser. *)
From stdpp Require Import base tactics list gmap strings pretty sorting.
From Stdlib Require Import ZArith Lia Ascii String.

Open Scope Z_scope.

(** ** Outcomes of C++ code *)

(** The exceptions of the program and of the libraries. *)
Inductive exn : Type :=
| IotaException (reason details : string) (status : Z)
| RuntimeError (what : string)
| OutOfRange
| BadLexicalCast
| BadNumericCast
| StdException (* an object of [std::exception] itself *)
| ThrownPointer. (* [throw new T]: only [catch (...)] catches it *)

(** [catch (std::runtime_error& e)] and [e.what()]; [IotaException] derives
    from [std::runtime_error]. *)
Definition runtime_what (e : exn) : option string :=
  match e with
  | IotaException _ details _ => Some details
  | RuntimeError what => Some what
  | _ => None
  end.

(** What a piece of C++ code does: it returns a value, it throws, or its
    behaviour is undefined by the language (an unchecked access out of range). *)
Inductive outcome (A : Type) : Type :=
| Ret (a : A)
| Throw (e : exn)
| Undefined.
Arguments Ret {A} a.
Arguments Throw {A} e.
Arguments Undefined {A}.

Definition obind {A B} (c : outcome A) (k : A -> outcome B) : outcome B :=
  match c with
  | Ret a => k a
  | Throw e => Throw e
  | Undefined => Undefined
  end.

(** A handler [catch (...)]: undefined behaviour is not caught. *)
Definition ocatch {A} (c : outcome A) (h : exn -> outcome A) : outcome A :=
  match c with
  | Ret a => Ret a
  | Throw e => h e
  | Undefined => Undefined
  end.

(** A loop that runs [f] on each element and collects the results. *)
Fixpoint omapM {A B} (f : A -> outcome B) (l : list A) : outcome (list B) :=
  match l with
  | [] => Ret []
  | x :: l' => obind (f x) (fun y => obind (omapM f l') (fun ys => Ret (y :: ys)))
  end.

Lemma omapM_inverse {A B} (f : A -> outcome B) (g : B -> A) (l : list B) :
  Forall (fun y => f (g y) = Ret y) l -> omapM f (map g l) = Ret l.
Proof. induction 1 as [|y l Hy Hl IH]; cbn; [done|]. rewrite Hy. cbn. by rewrite IH. Qed.

(** Recursive code on fuel: [None] is not finished. *)
Definition fueled (A : Type) : Type := option (outcome A).

Definition fbind {A B} (c : fueled A) (k : A -> fueled B) : fueled B :=
  match c with
  | Some (Ret a) => k a
  | Some (Throw e) => Some (Throw e)
  | Some Undefined => Some Undefined
  | None => None
  end.

Definition returns {A} (c : outcome A) : bool :=
  match c with Ret _ => true | _ => false end.

(** ** Code that reads and writes an object and may throw

    The object is threaded through even when the code throws: writes made
    before the exception stay, as in the program. *)
Definition M (S A : Type) : Type := S -> S * outcome A.

Definition sret {S A} (a : A) : M S A := fun s => (s, Ret a).
Definition sbind {S A B} (c : M S A) (k : A -> M S B) : M S B :=
  fun s => let '(s', r) := c s in
           match r with
           | Ret a => k a s'
           | Throw e => (s', Throw e)
           | Undefined => (s', Undefined)
           end.
Definition sget {S} : M S S := fun s => (s, Ret s).
Definition smodify {S} (f : S -> S) : M S unit := fun s => (f s, Ret tt).
Definition slift {S A} (c : outcome A) : M S A := fun s => (s, c).

(** [c] keeps a property of the state, whatever its outcome. *)
Definition preserves {S A} (P : S -> Prop) (c : M S A) : Prop := forall s, P s -> P (fst (c s)).

Lemma preserves_bind {S A B} (P : S -> Prop) (c : M S A) (k : A -> M S B) :
  preserves P c -> (forall a, preserves P (k a)) -> preserves P (sbind c k).
Proof.
  intros Hc Hk s Hs. unfold sbind. pose proof (Hc s Hs) as H. destruct (c s) as [s' [a|e|]]; cbn in *;
    [by apply Hk|done|done].
Qed.

Lemma preserves_ret {S A} (P : S -> Prop) (a : A) : preserves P (sret a).
Proof. by intros s Hs. Qed.

Lemma preserves_lift {S A} (P : S -> Prop) (c : outcome A) : preserves P (slift c).
Proof. by intros s Hs. Qed.

Lemma preserves_get {S} (P : S -> Prop) : preserves P sget.
Proof. by intros s Hs. Qed.

(** After a value that does not come from the state. *)
Lemma preserves_lift_bind {S A B} (P : S -> Prop) (c : outcome A) (k : A -> M S B) :
  (forall a, c = Ret a -> preserves P (k a)) -> preserves P (sbind (slift c) k).
Proof. intros Hk s Hs. unfold sbind, slift. destruct c; cbn; [by apply Hk|done|done]. Qed.

Lemma preserves_modify {S} (P : S -> Prop) f :
  (forall s, P s -> P (f s)) -> preserves P (smodify f).
Proof. intros Hf s Hs. exact (Hf s Hs). Qed.

(** ** Fueled code over a state

    Code that reads and writes the state of the program, may throw, and may
    need fuel. *)

Definition FM (S A : Type) : Type := S -> option (S * outcome A).

Definition fret {S A} (a : A) : FM S A := fun s => Some (s, Ret a).
Definition fthrow {S A} (e : exn) : FM S A := fun s => Some (s, Throw e).
Definition flift {S A} (c : fueled A) : FM S A :=
  fun s => match c with Some r => Some (s, r) | None => None end.
Definition fmbind {S A B} (c : FM S A) (k : A -> FM S B) : FM S B := fun s =>
  match c s with
  | Some (s', Ret a) => k a s'
  | Some (s', Throw e) => Some (s', Throw e)
  | Some (s', Undefined) => Some (s', Undefined)
  | None => None
  end.

(** [try] and its handlers: what was written before the exception stays. *)
Definition fmcatch {S A} (c : FM S A) (h : exn -> FM S A) : FM S A := fun s =>
  match c s with
  | Some (s', Throw e) => h e s'
  | r => r
  end.

(** The outcome as a value, for handlers that go on with it. *)
Definition fmtry {S A} (c : FM S A) : FM S (A + exn) := fun s =>
  match c s with
  | Some (s', Ret a) => Some (s', Ret (inl a))
  | Some (s', Throw e) => Some (s', Ret (inr e))
  | Some (s', Undefined) => Some (s', Undefined)
  | None => None
  end.

Definition fmget {S} : FM S S := fun s => Some (s, Ret s).
Definition fmmodify {S} (f : S -> S) : FM S unit := fun s => Some (f s, Ret tt).

Lemma fmbind_ret {S A D} (c : FM S A) (k : A -> FM S D) s s' a :
  c s = Some (s', Ret a) -> fmbind c k s = k a s'.
Proof. intros E. unfold fmbind. by rewrite E. Qed.

Lemma fmbind_throw {S A D} (c : FM S A) (k : A -> FM S D) s s' e :
  c s = Some (s', Throw e) -> fmbind c k s = Some (s', Throw e).
Proof. intros E. unfold fmbind. by rewrite E. Qed.

(** Code that ends in every state. *)
Definition ends {S A} (c : FM S A) : Prop := forall s, c s <> None.

Lemma ends_bind {S A B} (c : FM S A) (k : A -> FM S B) :
  ends c -> (forall a, ends (k a)) -> ends (fmbind c k).
Proof. intros Hc Hk s. unfold fmbind. specialize (Hc s). destruct (c s) as [[s' [a|e|]]|]; try done. apply Hk. Qed.

Lemma ends_catch {S A} (c : FM S A) (h : exn -> FM S A) :
  ends c -> (forall e, ends (h e)) -> ends (fmcatch c h).
Proof. intros Hc Hh s. unfold fmcatch. specialize (Hc s). destruct (c s) as [[s' [a|e|]]|]; try done. apply Hh. Qed.

Lemma ends_ret {S A} (a : A) : ends (S := S) (fret a).
Proof. done. Qed.
Lemma ends_throw {S A} e : ends (S := S) (A := A) (fthrow e).
Proof. done. Qed.
Lemma ends_lift {S A} (o : outcome A) : ends (S := S) (flift (Some o)).
Proof. done. Qed.
Lemma ends_modify {S} f : ends (S := S) (fmmodify f).
Proof. done. Qed.
Lemma ends_get {S} : ends (S := S) fmget.
Proof. done. Qed.

Lemma ends_try {S A} (c : FM S A) : ends c -> ends (fmtry c).
Proof. intros Hc s. unfold fmtry. specialize (Hc s). by destruct (c s) as [[s' [a|e|]]|]. Qed.

(** Code that ends, with [P] of what it returns. *)
Definition yields {S A} (c : FM S A) (P : A -> Prop) : Prop :=
  forall s, exists s' r, c s = Some (s', r) /\ forall a, r = Ret a -> P a.

Lemma yields_ends {S A} (c : FM S A) P : yields c P -> ends c.
Proof. intros Hc s E. destruct (Hc s) as (s' & r & E' & _). by rewrite E in E'. Qed.

Lemma yields_ret {S A} (a : A) (P : A -> Prop) : P a -> yields (S := S) (fret a) P.
Proof. intros HP s. exists s, (Ret a). split; [done|]. by intros b [= <-]. Qed.

Lemma yields_lift {S A} (c : fueled A) (P : A -> Prop) :
  (exists o, c = Some o /\ forall a, o = Ret a -> P a) -> yields (S := S) (flift c) P.
Proof. intros (o & -> & Ho) s. by exists s, o. Qed.

Lemma yields_bind {S A B} (c : FM S A) (k : A -> FM S B) (P : A -> Prop) (Q : B -> Prop) :
  yields c P -> (forall a, P a -> yields (k a) Q) -> yields (fmbind c k) Q.
Proof.
  intros Hc Hk s. destruct (Hc s) as (s1 & r & E & Hr). unfold fmbind. rewrite E.
  destruct r as [a|e|]; [apply Hk; by apply Hr|by eexists _, _..].
Qed.

Lemma ends_yields_bind {S A B} (c : FM S A) (k : A -> FM S B) (P : A -> Prop) :
  yields c P -> (forall a, P a -> ends (k a)) -> ends (fmbind c k).
Proof.
  intros Hc Hk s. destruct (Hc s) as (s1 & r & E & Hr). unfold fmbind. rewrite E.
  destruct r as [a|e|]; [apply Hk; by apply Hr|done..].
Qed.

(** [runs P c Q]: from a state with [P], if [c] ends, it ends with [Q]. *)
Definition runs {S A} (P : S -> Prop) (c : FM S A) (Q : outcome A -> S -> Prop) : Prop :=
  forall s s' r, P s -> c s = Some (s', r) -> Q r s'.

Lemma runs_bind {S A B} (P : S -> Prop) (R : outcome A -> S -> Prop) (Q : outcome B -> S -> Prop)
    (c : FM S A) (k : A -> FM S B) :
  runs P c R -> (forall a, runs (R (Ret a)) (k a) Q) ->
  (forall e s, R (Throw e) s -> Q (Throw e) s) -> (forall s, R Undefined s -> Q Undefined s) ->
  runs P (fmbind c k) Q.
Proof.
  intros Hc Hk He Hu s s' r Hs E. unfold fmbind in E.
  destruct (c s) as [[s1 [a|e|]]|] eqn:E1; try done; [by eapply Hk; [by eapply Hc|]|..].
  - injection E as <- <-. apply He. by eapply Hc.
  - injection E as <- <-. apply Hu. by eapply Hc.
Qed.

Lemma runs_catch {S A} (P : S -> Prop) (R Q : outcome A -> S -> Prop) (c : FM S A)
    (h : exn -> FM S A) :
  runs P c R -> (forall e, runs (R (Throw e)) (h e) Q) ->
  (forall a s, R (Ret a) s -> Q (Ret a) s) -> (forall s, R Undefined s -> Q Undefined s) ->
  runs P (fmcatch c h) Q.
Proof.
  intros Hc Hh Ha Hu s s' r Hs E. unfold fmcatch in E.
  destruct (c s) as [[s1 [a|e|]]|] eqn:E1; try done; [..|by eapply Hh; [by eapply Hc|]|].
  - injection E as <- <-. apply Ha. by eapply Hc.
  - injection E as <- <-. apply Hu. by eapply Hc.
Qed.

Lemma runs_ret {S A} (P : S -> Prop) (Q : outcome A -> S -> Prop) (a : A) :
  (forall s, P s -> Q (Ret a) s) -> runs P (fret a) Q.
Proof. intros H s s' r Hs [= <- <-]. auto. Qed.

Lemma runs_lift {S A} (P : S -> Prop) (Q : outcome A -> S -> Prop) (c : fueled A) :
  (forall s r, P s -> c = Some r -> Q r s) -> runs P (flift c) Q.
Proof. intros H s s' r Hs. unfold flift. destruct c; [|done]. intros [= <- <-]. auto. Qed.

Lemma runs_modify {S} (P : S -> Prop) (Q : outcome unit -> S -> Prop) (f : S -> S) :
  (forall s, P s -> Q (Ret tt) (f s)) -> runs P (fmmodify f) Q.
Proof. intros H s s' r Hs [= <- <-]. auto. Qed.

Lemma runs_post {S A} (P : S -> Prop) (Q R : outcome A -> S -> Prop) (c : FM S A) :
  runs P c R -> (forall r s, R r s -> Q r s) -> runs P c Q.
Proof. intros H HQ s s' r Hs E. eapply HQ, H; eauto. Qed.

Lemma runs_pre {S A} (P P' : S -> Prop) (Q : outcome A -> S -> Prop) (c : FM S A) :
  (forall s, P s -> P' s) -> runs P' c Q -> runs P c Q.
Proof. intros H Hc s s' r Hs. apply Hc. auto. Qed.

(** [c] leaves what [f] looks at as it was. *)
Definition keeps {S X A} (f : S -> X) (c : FM S A) : Prop :=
  forall s s' r, c s = Some (s', r) -> f s' = f s.

Lemma keeps_bind {S X A B} (f : S -> X) (c : FM S A) (k : A -> FM S B) :
  keeps f c -> (forall a, keeps f (k a)) -> keeps f (fmbind c k).
Proof.
  intros Hc Hk s s' r E. unfold fmbind in E. destruct (c s) as [[s1 [a|e|]]|] eqn:E1; try done.
  - transitivity (f s1); [by eapply Hk|by eapply Hc].
  - injection E as <- <-. by eapply Hc.
  - injection E as <- <-. by eapply Hc.
Qed.

Lemma keeps_catch {S X A} (f : S -> X) (c : FM S A) (h : exn -> FM S A) :
  keeps f c -> (forall e, keeps f (h e)) -> keeps f (fmcatch c h).
Proof.
  intros Hc Hh s s' r E. unfold fmcatch in E. destruct (c s) as [[s1 [a|e|]]|] eqn:E1; try done.
  - injection E as <- <-. by eapply Hc.
  - transitivity (f s1); [by eapply Hh|by eapply Hc].
  - injection E as <- <-. by eapply Hc.
Qed.

Lemma keeps_try {S X A} (f : S -> X) (c : FM S A) : keeps f c -> keeps f (fmtry c).
Proof.
  intros Hc s s' r E. unfold fmtry in E.
  destruct (c s) as [[s1 [a|e|]]|] eqn:E1; try done; injection E as <- <-; by eapply Hc.
Qed.

Lemma keeps_ret {S X A} (f : S -> X) (a : A) : keeps f (fret a).
Proof. by intros s s' r [= <- <-]. Qed.
Lemma keeps_throw {S X A} (f : S -> X) e : keeps f (fthrow (A := A) e).
Proof. by intros s s' r [= <- <-]. Qed.
Lemma keeps_lift {S X A} (f : S -> X) (c : fueled A) : keeps f (flift c).
Proof. intros s s' r. unfold flift. by destruct c; [intros [= <- <-]|]. Qed.
Lemma keeps_get {S X} (f : S -> X) : keeps f fmget.
Proof. by intros s s' r [= <- <-]. Qed.
Lemma keeps_modify {S X} (f : S -> X) g : (forall s, f (g s) = f s) -> keeps f (fmmodify g).
Proof. intros Hg s s' r [= <- <-]. apply Hg. Qed.

Lemma keeps_runs {S X A} (f : S -> X) (c : FM S A) x :
  keeps f c -> runs (fun s => f s = x) c (fun _ s => f s = x).
Proof. intros Hc s s' r <- E. by eapply Hc. Qed.

Lemma keeps_then {S X A B} (f : S -> X) x (c : FM S A) (k : A -> FM S B)
    (Q : outcome B -> S -> Prop) :
  keeps f c -> (forall a, runs (fun s => f s = x) (k a) Q) ->
  (forall e s, f s = x -> Q (Throw e) s) -> (forall s, f s = x -> Q Undefined s) ->
  runs (fun s => f s = x) (fmbind c k) Q.
Proof.
  intros Hc Hk He Hu. apply (runs_bind _ (fun _ s => f s = x)); [by apply keeps_runs|done..].
Qed.

Declare Scope cpp_scope.
Delimit Scope cpp_scope with cpp.
Notation "'let!' x ':=' c 'in' k" := (obind c (fun x => k))
  (at level 10, x name, c at level 100, k at level 200) : cpp_scope.
Notation "'do!' x ':=' c 'in' k" := (sbind c (fun x => k))
  (at level 10, x name, c at level 100, k at level 200) : cpp_scope.
Notation "'run!' c 'in' k" := (sbind c (fun _ => k))
  (at level 10, c at level 100, k at level 200) : cpp_scope.
Notation "'fuel!' x ':=' c 'in' k" := (fbind c (fun x => k))
  (at level 10, x name, c at level 100, k at level 200) : cpp_scope.
Notation "'act!' x ':=' c 'in' k" := (fmbind c (fun x => k))
  (at level 10, x name, c at level 100, k at level 200) : cpp_scope.
Notation "'then!' c 'in' k" := (fmbind c (fun _ => k))
  (at level 10, c at level 100, k at level 200) : cpp_scope.
Open Scope cpp_scope.

(** ** Fixed-width integers *)

Definition u8 (z : Z) : Z := z mod 256.
Definition u16 (z : Z) : Z := z mod 65536.
Definition i32 (z : Z) : Z := (z + 2 ^ 31) mod 2 ^ 32 - 2 ^ 31.
Definition u32 (z : Z) : Z := z mod 2 ^ 32.
Definition u64 (z : Z) : Z := z mod 2 ^ 64.

Definition is_byte (z : Z) : Prop := 0 <= z < 256.
Definition is_byteb (z : Z) : bool := (0 <=? z) && (z <? 256).

Lemma is_byteb_spec z : is_byteb z = true <-> is_byte z.
Proof. unfold is_byteb, is_byte. rewrite andb_true_iff, Z.leb_le, Z.ltb_lt. tauto. Qed.

Lemma u8_byte z : is_byte (u8 z).
Proof. apply Z.mod_pos_bound. lia. Qed.

Lemma u8_small z : is_byte z -> u8 z = z.
Proof. intros. apply Z.mod_small. exact H. Qed.

Lemma u16_small z : 0 <= z < 65536 -> u16 z = z.
Proof. intros. apply Z.mod_small. exact H. Qed.

Lemma u32_small z : 0 <= z < 2 ^ 32 -> u32 z = z.
Proof. intros. apply Z.mod_small. exact H. Qed.

Lemma u16_range z : 0 <= u16 z < 65536.
Proof. apply Z.mod_pos_bound. lia. Qed.

Lemma i32_small z : - 2 ^ 31 <= z < 2 ^ 31 -> i32 z = z.
Proof. intros. unfold i32. rewrite Z.mod_small; lia. Qed.

(** ** Bits *)

Lemma land_255_u8 z : Z.land z 255 = u8 z.
Proof. change 255 with (Z.ones 8). rewrite Z.land_ones by lia. reflexivity. Qed.

(** [hi << 8 | lo] is the sum when [lo] is a byte. *)
Lemma lor_shift8 hi lo : is_byte lo -> Z.lor (Z.shiftl hi 8) lo = 256 * hi + lo.
Proof.
  intros [H0 H1]. rewrite Z.lor_comm. rewrite <- Z.lxor_lor, <- Z.add_nocarry_lxor.
  - rewrite Z.shiftl_mul_pow2 by lia. lia.
  - apply Z.bits_inj'. intros n Hn. rewrite Z.land_spec, Z.bits_0.
    destruct (Z.lt_ge_cases n 8) as [Hl|Hl].
    + rewrite Z.shiftl_spec_low by lia. apply andb_false_r.
    + rewrite <- (Z.mod_small lo (2 ^ 8)) by lia.
      rewrite Z.mod_pow2_bits_high by lia. reflexivity.
  - apply Z.bits_inj'. intros n Hn. rewrite Z.land_spec, Z.bits_0.
    destruct (Z.lt_ge_cases n 8) as [Hl|Hl].
    + rewrite Z.shiftl_spec_low by lia. apply andb_false_r.
    + rewrite <- (Z.mod_small lo (2 ^ 8)) by lia.
      rewrite Z.mod_pow2_bits_high by lia. reflexivity.
Qed.

Lemma shiftr8 z : Z.shiftr z 8 = z / 256.
Proof. rewrite Z.shiftr_div_pow2 by lia. reflexivity. Qed.

Lemma lxor_byte a b : is_byte a -> is_byte b -> is_byte (Z.lxor a b).
Proof.
  unfold is_byte. intros Ha Hb.
  assert (0 <= Z.lxor a b) by (apply Z.lxor_nonneg; lia).
  split; [assumption|].
  destruct (Z.eq_dec (Z.lxor a b) 0) as [->|Hne]; [lia|].
  apply (Z.log2_lt_pow2 _ 8); [lia|].
  pose proof (Z.log2_lxor a b ltac:(lia) ltac:(lia)) as Hl.
  pose proof (Z.log2_le_mono a 255 ltac:(lia)) as H1.
  pose proof (Z.log2_le_mono b 255 ltac:(lia)) as H2.
  change (Z.log2 255) with 7 in *. lia.
Qed.

Lemma lxor_inj_r a b c : Z.lxor a c = Z.lxor b c -> a = b.
Proof.
  intros H. rewrite <- (Z.lxor_0_r a), <- (Z.lxor_0_r b), <- (Z.lxor_nilpotent c).
  rewrite <- !Z.lxor_assoc. congruence.
Qed.

Lemma lxor_inj_l a b c : Z.lxor c a = Z.lxor c b -> a = b.
Proof. rewrite !(Z.lxor_comm c). apply lxor_inj_r. Qed.

(** ** Lists indexed as C++ vectors *)

(** [v.at(i)]: throws [std::out_of_range]. *)
Definition vat {A} (v : list A) (i : Z) : outcome A :=
  if i <? 0 then Throw OutOfRange
  else match v !! Z.to_nat i with Some x => Ret x | None => Throw OutOfRange end.

(** [v[i]]: undefined out of range. *)
Definition vix {A} (v : list A) (i : Z) : outcome A :=
  if i <? 0 then Undefined
  else match v !! Z.to_nat i with Some x => Ret x | None => Undefined end.

Definition zlen {A} (v : list A) : Z := Z.of_nat (List.length v).

Lemma zlen_app {A} (v w : list A) : zlen (v ++ w) = zlen v + zlen w.
Proof. unfold zlen. rewrite length_app. lia. Qed.

Lemma zlen_cons {A} (x : A) v : zlen (x :: v) = 1 + zlen v.
Proof. unfold zlen. cbn [List.length]. lia. Qed.

Lemma zlen_nonneg {A} (v : list A) : 0 <= zlen v.
Proof. unfold zlen. lia. Qed.

Lemma vat_lookup {A} (v : list A) i x :
  0 <= i -> v !! Z.to_nat i = Some x -> vat v i = Ret x.
Proof.
  intros Hi H. unfold vat. destruct (i <? 0) eqn:E; [apply Z.ltb_lt in E; lia|].
  by rewrite H.
Qed.

Lemma vix_lookup {A} (v : list A) i x : 0 <= i -> v !! Z.to_nat i = Some x -> vix v i = Ret x.
Proof.
  intros Hi H. unfold vix. destruct (i <? 0) eqn:E; [apply Z.ltb_lt in E; lia|]. by rewrite H.
Qed.

Lemma vat_Ret {A} (v : list A) i x : vat v i = Ret x -> v !! Z.to_nat i = Some x.
Proof.
  unfold vat. destruct (i <? 0); [discriminate|].
  destruct (v !! Z.to_nat i); [congruence|discriminate].
Qed.

Lemma vat_ok {A} (v : list A) i : 0 <= i < zlen v -> exists x, vat v i = Ret x.
Proof.
  unfold zlen. intros [H0 H1].
  destruct (lookup_lt_is_Some_2 v (Z.to_nat i)) as [x Hx]; [lia|].
  exists x. by apply vat_lookup.
Qed.

Lemma fold_left_cons {A B} (f : A -> B -> A) b l a :
  fold_left f (b :: l) a = fold_left f l (f a b).
Proof. reflexivity. Qed.

Lemma StronglySorted_impl {A} (R S : A -> A -> Prop) l :
  (forall x y, R x y -> S x y) -> StronglySorted R l -> StronglySorted S l.
Proof.
  intros Himp. induction 1; constructor; [assumption|].
  eapply Forall_impl; [eassumption|]. auto.
Qed.

Lemma StronglySorted_NoDup {A} (R : A -> A -> Prop) l :
  (forall x, ~ R x x) -> StronglySorted R l -> NoDup l.
Proof.
  intros Hirr. induction 1 as [|x l Hs IH Hf]; constructor; [|assumption].
  intros Hin. rewrite Forall_forall in Hf. exact (Hirr x (Hf x Hin)).
Qed.

(** A finite domain checked by computation. *)
Lemma forallb_seqZ (P : Z -> bool) (n : Z) :
  forallb P (seqZ 0 n) = true -> forall z, 0 <= z < n -> P z = true.
Proof.
  intros H z Hz. rewrite forallb_forall in H. apply H.
  apply list_elem_of_In, elem_of_seqZ. lia.
Qed.

(** ** Tactics *)

(** Split the tests of a boolean hypothesis into propositions. *)
Ltac breflect :=
  repeat match goal with
  | H : (_ && _)%bool = true |- _ => apply andb_true_iff in H; destruct H
  | H : (_ || _)%bool = false |- _ => apply orb_false_iff in H; destruct H
  | H : negb _ = true |- _ => apply negb_true_iff in H
  | H : negb _ = false |- _ => apply negb_false_iff in H
  | H : (_ <? _) = true |- _ => apply Z.ltb_lt in H
  | H : (_ <? _) = false |- _ => apply Z.ltb_ge in H
  | H : (_ <=? _) = true |- _ => apply Z.leb_le in H
  | H : (_ <=? _) = false |- _ => apply Z.leb_gt in H
  | H : (_ =? _) = true |- _ => apply Z.eqb_eq in H
  | H : (_ =? _) = false |- _ => apply Z.eqb_neq in H
  | H : String.eqb _ _ = true |- _ => apply String.eqb_eq in H
  | H : String.eqb _ _ = false |- _ => apply String.eqb_neq in H
  end.

(** Case analysis on the scrutinee of the goal's first [match] or [if]. *)
Ltac destruct_match :=
  match goal with
  | |- context [match ?x with _ => _ end] => destruct x eqn:?
  end.

(** [lia] with division and modulo. *)
Ltac dlia := Z.to_euclidean_division_equations; lia.

(** A literal frame is made of bytes. *)
Ltac solve_bytes :=
  repeat (apply Forall_cons_2; [first [assumption | unfold is_byte; lia]|]);
  apply Forall_nil_2.

Create HintDb iota.
Create Rewrite HintDb iota.
#[export] Hint Resolve u8_byte u16_range lxor_byte zlen_nonneg : iota.
#[export] Hint Resolve ends_bind ends_catch ends_ret ends_throw ends_lift ends_modify ends_get : iota.
#[export] Hint Resolve preserves_bind preserves_ret preserves_lift preserves_get : iota.
#[export] Hint Rewrite @zlen_app @zlen_cons : iota.
Create HintDb keeps.
#[export] Hint Resolve keeps_ret keeps_throw keeps_lift keeps_get : keeps.

Create HintDb ends.
#[export] Hint Resolve ends_ret ends_throw ends_lift ends_modify ends_get : ends.

(** The steps of code that ends; what each operation is known to do is in the
    base [ends]. *)
Ltac ends_tac :=
  repeat (cbn zeta; intros;
    match goal with
    | |- ends (fmbind _ _) => apply ends_bind
    | |- ends (fmcatch _ _) => apply ends_catch
    | |- ends (fmtry _) => apply ends_try
    | |- ends (match ?x with _ => _ end) => destruct x
    | |- ends _ => by auto with ends
    end).

(** The steps of code that leaves a part of the state as it was; what each
    operation keeps is in the base [keeps]. *)
Ltac keeps_tac :=
  repeat (cbn zeta; intros;
    match goal with
    | |- keeps _ (fmbind _ _) => apply keeps_bind
    | |- keeps _ (fmcatch _ _) => apply keeps_catch
    | |- keeps _ (fmtry _) => apply keeps_try
    | |- keeps _ (match ?x with _ => _ end) => destruct x
    | |- keeps _ (fmmodify _) => first [by auto with keeps | apply keeps_modify; reflexivity]
    | |- keeps _ _ => by auto with keeps
    end).
