(* ===== verification/CppString.v ===== *)
(** * [std::string] as the sources use it

    Positions are [nat], [npos] is [None].  [find], [find_first_of],
    [find_last_of], [rfind], [substr] (which throws [std::out_of_range]),
    character classes of the "C" locale on [char] values, decimal printing and
    [atoi]; and the facts on search, filtering and splitting the components
    share. *)
From stdpp Require Import base tactics list strings pretty.
From Stdlib Require Import ZArith Lia Ascii String.
From S2P Require Import Prelude.

Local Open Scope string_scope.
Local Open Scope Z_scope.

#[global] Arguments String.append !s1 s2 / : simpl nomatch.

(** ** Characters *)

(** The value of a [char] converted to [int]: bytes above 127 are negative. *)
Definition char_int (c : ascii) : Z :=
  let n := Z.of_N (N_of_ascii c) in if n <? 128 then n else n - 256.

(** The value of the character as [unsigned char]. *)
Definition char_byte (c : ascii) : Z := Z.of_N (N_of_ascii c).

Definition byte_char (z : Z) : ascii := ascii_of_N (Z.to_N (u8 z)).

Definition between (lo hi : Z) (c : ascii) : bool :=
  (lo <=? char_byte c) && (char_byte c <=? hi).

Definition isdigit (c : ascii) : bool := between 48 57 c.
Definition isupper (c : ascii) : bool := between 65 90 c.
Definition islower (c : ascii) : bool := between 97 122 c.
Definition isalpha (c : ascii) : bool := isupper c || islower c.
Definition isalnum (c : ascii) : bool := isalpha c || isdigit c.
Definition isspace (c : ascii) : bool := (char_byte c =? 32) || between 9 13 c.

Lemma char_byte_range c : is_byte (char_byte c).
Proof.
  unfold char_byte, is_byte. pose proof (N_ascii_bounded c). lia.
Qed.

Lemma byte_char_byte c : byte_char (char_byte c) = c.
Proof.
  unfold byte_char. rewrite u8_small by apply char_byte_range.
  unfold char_byte. rewrite N2Z.id. apply ascii_N_embedding.
Qed.

Lemma char_byte_char z : is_byte z -> char_byte (byte_char z) = z.
Proof.
  intros Hz. unfold char_byte, byte_char. rewrite u8_small by assumption.
  unfold is_byte in Hz. rewrite N_ascii_embedding by lia. lia.
Qed.

(** ** Strings as sequences of characters *)

Fixpoint str_forall (p : ascii -> bool) (s : string) : bool :=
  match s with
  | EmptyString => true
  | String c s' => p c && str_forall p s'
  end.

Definition str_exists (p : ascii -> bool) (s : string) : bool :=
  negb (str_forall (fun c => negb (p c)) s).

Fixpoint str_filter (p : ascii -> bool) (s : string) : string :=
  match s with
  | EmptyString => EmptyString
  | String c s' => if p c then String c (str_filter p s') else str_filter p s'
  end.

Fixpoint str_map (f : ascii -> ascii) (s : string) : string :=
  match s with
  | EmptyString => EmptyString
  | String c s' => String (f c) (str_map f s')
  end.

(** [push_back]. *)
Definition push_back (s : string) (c : ascii) : string := (s ++ String c "")%string.

Definition nonempty (s : string) : bool := negb (String.eqb s "").

Definition slen (s : string) : Z := Z.of_nat (String.length s).

(** Membership of a character in a set written as a string. *)
Fixpoint in_set (chars : string) (c : ascii) : bool :=
  match chars with
  | EmptyString => false
  | String d s' => Ascii.eqb c d || in_set s' c
  end.

(** ** Search *)

(** Position of the first character that satisfies [p]. *)
Fixpoint find_if (p : ascii -> bool) (s : string) : option nat :=
  match s with
  | EmptyString => None
  | String c s' => if p c then Some O else S <$> find_if p s'
  end.

(** Position of the last one. *)
Fixpoint rfind_if (p : ascii -> bool) (s : string) : option nat :=
  match s with
  | EmptyString => None
  | String c s' =>
      match rfind_if p s' with
      | Some n => Some (S n)
      | None => if p c then Some O else None
      end
  end.

Definition find_first_of (chars s : string) : option nat := find_if (in_set chars) s.
Definition find_last_of (chars s : string) : option nat := rfind_if (in_set chars) s.
Definition find_first_not_of (chars s : string) : option nat :=
  find_if (fun c => negb (in_set chars c)) s.
Definition find_last_not_of (chars s : string) : option nat :=
  rfind_if (fun c => negb (in_set chars c)) s.

(** [s.find(pat, pos)]. *)
Definition find (pat s : string) (pos : nat) : option nat := String.index pos pat s.

(** [s.rfind(pat)]: the last position where [pat] occurs. *)
Fixpoint rfind (pat s : string) : option nat :=
  match s with
  | EmptyString => if String.prefix pat s then Some O else None
  | String _ s' =>
      match rfind pat s' with
      | Some n => Some (S n)
      | None => if String.prefix pat s then Some O else None
      end
  end.

(** [s.substr(pos, n)], and [s.substr(pos)]. *)
Definition substr (s : string) (pos n : nat) : outcome string :=
  if Nat.leb pos (String.length s) then Ret (String.substring pos n s) else Throw OutOfRange.

Fixpoint str_drop (n : nat) (s : string) : string :=
  match n, s with
  | O, _ => s
  | S n', String _ s' => str_drop n' s'
  | S _, EmptyString => EmptyString
  end.

Fixpoint str_take (n : nat) (s : string) : string :=
  match n, s with
  | O, _ => EmptyString
  | S n', String c s' => String c (str_take n' s')
  | S _, EmptyString => EmptyString
  end.

Definition substr_from (s : string) (pos : nat) : outcome string :=
  if Nat.leb pos (String.length s) then Ret (str_drop pos s) else Throw OutOfRange.

(** [s.substr(0, pos)], all of [s] for [npos]. *)
Definition str_upto (s : string) (pos : option nat) : string :=
  match pos with Some n => str_take n s | None => s end.

(** ** Splitting and joining on one character *)

Fixpoint split_char (d : ascii) (s : string) : list string :=
  match s with
  | EmptyString => [EmptyString]
  | String c s' =>
      if Ascii.eqb c d then EmptyString :: split_char d s'
      else match split_char d s' with
           | [] => [String c EmptyString]
           | w :: ws => String c w :: ws
           end
  end.

Fixpoint join_char (d : ascii) (ws : list string) : string :=
  match ws with
  | [] => EmptyString
  | [w] => w
  | w :: ws' => (w ++ String d (join_char d ws'))%string
  end.

(** ** Numbers *)

(** The digits [atoi] consumes, most significant first. *)
Fixpoint digits_value (s : string) (acc : Z) : Z :=
  match s with
  | String c s' => if isdigit c then digits_value s' (10 * acc + (char_byte c - 48)) else acc
  | EmptyString => acc
  end.

Fixpoint skip_spaces (s : string) : string :=
  match s with
  | String c s' => if isspace c then skip_spaces s' else s
  | EmptyString => EmptyString
  end.

(** The integer [strtol] reads in base 10. *)
Definition strtol10 (s : string) : Z :=
  match skip_spaces s with
  | String "-" s' => - digits_value s' 0
  | String "+" s' => digits_value s' 0
  | s' => digits_value s' 0
  end.

(** [atoi]: defined by the language only when the value is an [int]. *)
Definition atoi (s : string) : outcome Z :=
  let v := strtol10 s in
  if (- 2 ^ 31 <=? v) && (v <? 2 ^ 31) then Ret v else Undefined.

(** ** Lemmas: concatenation, take and drop *)


Lemma str_app_nil_r (s : string) : s ++ "" = s.
Proof. induction s as [|c s IH]; cbn; congruence. Qed.

Lemma str_app_assoc (a b c : string) : a ++ (b ++ c) = (a ++ b) ++ c.
Proof. induction a as [|x a IH]; cbn; congruence. Qed.

Lemma str_length_app (a b : string) :
  String.length (a ++ b) = (String.length a + String.length b)%nat.
Proof. induction a as [|x a IH]; cbn; congruence. Qed.

Lemma str_app_inj_l (a b c : string) : a ++ b = a ++ c -> b = c.
Proof. induction a as [|x a IH]; cbn; [done|]. intros H. injection H. exact IH. Qed.

Lemma str_app_cons (a b : string) c : a ++ String c b = push_back a c ++ b.
Proof. unfold push_back. by rewrite <- str_app_assoc. Qed.

Lemma str_length_push_back a c : String.length (push_back a c) = S (String.length a).
Proof. unfold push_back. rewrite str_length_app. cbn. lia. Qed.

Lemma slen_cons c s : slen (String c s) = 1 + slen s.
Proof. unfold slen. cbn [String.length]. lia. Qed.

Lemma slen_nonneg s : 0 <= slen s.
Proof. unfold slen. lia. Qed.

Lemma nonempty_true s : nonempty s = true <-> s <> "".
Proof. unfold nonempty. rewrite negb_true_iff. apply String.eqb_neq. Qed.

Lemma nonempty_push_back s c : nonempty (push_back s c) = true.
Proof. by destruct s. Qed.

Lemma str_take_drop n s : str_take n s ++ str_drop n s = s.
Proof. revert s. induction n as [|n IH]; intros [|c s]; cbn; [done..|]. by rewrite IH. Qed.

Lemma str_take_app a b : str_take (String.length a) (a ++ b) = a.
Proof. induction a as [|c a IH]; cbn; congruence. Qed.

Lemma str_drop_app a b : str_drop (String.length a) (a ++ b) = b.
Proof. induction a as [|c a IH]; cbn; congruence. Qed.

Lemma str_length_take n s : String.length (str_take n s) = Nat.min n (String.length s).
Proof. revert s. induction n as [|n IH]; intros [|c s]; cbn; [done..|]. by rewrite IH. Qed.

Lemma str_take_ge n s : (String.length s <= n)%nat -> str_take n s = s.
Proof.
  revert s. induction n as [|n IH]; intros [|c s] H; cbn in *; [done|lia|done|].
  rewrite IH by lia. done.
Qed.

(** ** Lemmas: predicates and filters *)

Lemma str_forall_cons p c s : str_forall p (String c s) = p c && str_forall p s.
Proof. reflexivity. Qed.

Lemma str_forall_app p a b : str_forall p (a ++ b) = str_forall p a && str_forall p b.
Proof. induction a as [|c a IH]; cbn; [done|]. by rewrite IH, andb_assoc. Qed.

Lemma str_forall_impl p q s :
  (forall c, p c = true -> q c = true) -> str_forall p s = true -> str_forall q s = true.
Proof.
  intros Himp. induction s as [|c s IH]; cbn; [done|]. rewrite !andb_true_iff. naive_solver.
Qed.

Lemma str_forall_take p n s : str_forall p s = true -> str_forall p (str_take n s) = true.
Proof.
  revert s. induction n as [|n IH]; intros [|c s]; cbn; [done..|].
  rewrite !andb_true_iff. naive_solver.
Qed.

Lemma str_exists_false p s : str_exists p s = false <-> str_forall (fun c => negb (p c)) s = true.
Proof. unfold str_exists. apply negb_false_iff. Qed.

Lemma str_filter_forall p s : str_forall p (str_filter p s) = true.
Proof. induction s as [|c s IH]; cbn; [done|]. destruct (p c) eqn:E; cbn; [by rewrite E|done]. Qed.

Lemma str_filter_id p s : str_forall p s = true -> str_filter p s = s.
Proof.
  induction s as [|c s IH]; cbn; [done|]. rewrite andb_true_iff. intros [-> H].
  by rewrite IH.
Qed.

Lemma str_filter_app p a b : str_filter p (a ++ b) = str_filter p a ++ str_filter p b.
Proof. induction a as [|c a IH]; cbn; [done|]. destruct (p c); cbn; by rewrite IH. Qed.

(** ** Lemmas: search *)

Lemma find_if_none p s : find_if p s = None <-> str_forall (fun c => negb (p c)) s = true.
Proof.
  induction s as [|c s IH]; cbn; [done|]. destruct (p c); cbn; [done|].
  rewrite fmap_None. exact IH.
Qed.

(** The first match splits the string. *)
Lemma find_if_some p s n : find_if p s = Some n ->
  exists a c b, s = a ++ String c b /\ String.length a = n /\ p c = true
    /\ str_forall (fun d => negb (p d)) a = true.
Proof.
  revert n. induction s as [|c s IH]; intros n; cbn; [done|].
  destruct (p c) eqn:E.
  - intros [= <-]. by exists "", c, s.
  - destruct (find_if p s) as [m|]; [|done]. intros [= <-].
    destruct (IH m eq_refl) as (a & d & b & -> & <- & Hd & Ha).
    exists (String c a), d, b. cbn. by rewrite E, Ha.
Qed.

Lemma find_if_app p a c b :
  str_forall (fun d => negb (p d)) a = true -> p c = true ->
  find_if p (a ++ String c b) = Some (String.length a).
Proof.
  intros Ha Hc. induction a as [|d a IH]; cbn in *; [by rewrite Hc|].
  apply andb_true_iff in Ha as [Hd Ha]. apply negb_true_iff in Hd.
  by rewrite Hd, (IH Ha).
Qed.

Lemma rfind_if_app p a c b :
  str_forall (fun d => negb (p d)) b = true -> p c = true ->
  rfind_if p (a ++ String c b) = Some (String.length a).
Proof.
  intros Hb Hc.
  assert (Hn : rfind_if p b = None).
  { clear a Hc. induction b as [|d b IH]; cbn in *; [done|].
    apply andb_true_iff in Hb as [Hd Hb]. rewrite (IH Hb). apply negb_true_iff in Hd. by rewrite Hd. }
  induction a as [|d a IH]; cbn; [by rewrite Hn, Hc|]. by rewrite IH.
Qed.

Lemma rfind_if_app_gen p a c b : p c = true ->
  rfind_if p (a ++ String c b)
  = Some (match rfind_if p b with Some m => String.length a + S m | None => String.length a end)%nat.
Proof.
  intros Hc. induction a as [|d a IH]; cbn.
  - destruct (rfind_if p b); [done|]. by rewrite Hc.
  - rewrite IH. by destruct (rfind_if p b).
Qed.

Lemma in_set_char d c : in_set (String d "") c = Ascii.eqb c d.
Proof. cbn. apply orb_false_r. Qed.

(** ** Lemmas: occurrences of a pattern *)

Lemma prefix_cons c p d s :
  String.prefix (String c p) (String d s) = if ascii_dec c d then String.prefix p s else false.
Proof. reflexivity. Qed.

Lemma prefix_iff p s : String.prefix p s = true <-> exists t, s = p ++ t.
Proof.
  revert s. induction p as [|c p IH]; intros s; cbn [String.append].
  - split; [by exists s|by destruct s].
  - destruct s as [|d s]; [split; [done|by intros [t ?]]|]. rewrite prefix_cons.
    destruct (ascii_dec c d) as [->|Hn].
    + rewrite IH. split; intros [t Ht]; exists t; congruence.
    + split; [done|]. intros [t Ht]. congruence.
Qed.

Lemma find_cons p c s :
  find p (String c s) 0 = if String.prefix p (String c s) then Some O else S <$> find p s 0.
Proof. reflexivity. Qed.

Lemma find_some p s n : find p s 0 = Some n -> exists a b, s = a ++ p ++ b /\ String.length a = n.
Proof.
  revert n. induction s as [|c s IH]; intros n.
  - destruct p; [|done]. intros [= <-]. by exists "", "".
  - rewrite find_cons. destruct (String.prefix p (String c s)) eqn:E.
    + intros [= <-]. apply prefix_iff in E as [t ->]. by exists "", t.
    + destruct (find p s 0) as [m|]; [|done]. intros [= <-].
      destruct (IH m eq_refl) as (a & b & -> & <-). by exists (String c a), b.
Qed.

Lemma find_none p s : find p s 0 = None -> forall a b, s <> a ++ p ++ b.
Proof.
  induction s as [|c s IH].
  - destruct p as [|d p]; [done|]. intros _ a b H. by destruct a.
  - rewrite find_cons. destruct (String.prefix p (String c s)) eqn:E; [done|].
    destruct (find p s 0) as [m|]; [done|]. intros _ a b H. destruct a as [|d a].
    + assert (String.prefix p (String c s) = true) by (apply prefix_iff; by exists b). congruence.
    + injection H as -> H. by apply (IH eq_refl a b).
Qed.

(** The first occurrence is the one put after a text that has none. *)
Lemma find_prefix p s : find p (p ++ s) 0 = Some 0%nat.
Proof.
  assert (E : String.prefix p (p ++ s) = true) by (apply prefix_iff; by exists s).
  destruct (p ++ s) as [|c t] eqn:Ep; [by destruct p|]. by rewrite find_cons, E.
Qed.

Lemma prefix_app_le p u r : (String.length p <= String.length u)%nat ->
  String.prefix p (u ++ r) = String.prefix p u.
Proof.
  revert u. induction p as [|c p IH]; intros [|d u] Hl; cbn in Hl; [by destruct r|done|lia|].
  cbn [String.append]. rewrite !prefix_cons, IH by lia. done.
Qed.

Lemma find_before p c t x : find (p ++ String c "") (t ++ p) 0 = None ->
  find (p ++ String c "") (t ++ (p ++ String c "") ++ x) 0 = Some (String.length t).
Proof.
  induction t as [|a t IH]; [intros _; exact (find_prefix (p ++ String c "") x)|]. cbn [String.append String.length].
  rewrite !find_cons. intros Hn.
  replace (String a (t ++ (p ++ String c "") ++ x)) with (String a (t ++ p) ++ String c x)
    by (cbn; by rewrite <- !str_app_assoc).
  rewrite prefix_app_le by (rewrite str_length_app; cbn; rewrite str_length_app; lia).
  destruct (String.prefix _ _); [done|]. rewrite IH; [done|]. by destruct (find _ _ _).
Qed.

(** Searching from a position is searching the rest. *)
Lemma find_drop c p s n : find (String c p) s n = Nat.add n <$> find (String c p) (str_drop n s) 0.
Proof.
  revert s. induction n as [|n IH]; intros s.
  - cbn [str_drop]. by destruct (find (String c p) s 0).
  - destruct s as [|d s]; [done|]. unfold find in *. cbn [String.index str_drop].
    rewrite IH. by destruct (String.index 0 (String c p) (str_drop n s)).
Qed.

Lemma find_char c s : find (String c "") s 0 = find_if (fun d => Ascii.eqb d c) s.
Proof.
  induction s as [|d s IH]; [done|]. cbn [find_if].
  rewrite find_cons, prefix_cons, IH. destruct (ascii_dec c d) as [->|Hn].
  - rewrite Ascii.eqb_refl. by destruct s.
  - destruct (Ascii.eqb_spec d c); [congruence|done].
Qed.

Lemma str_length_drop n s : String.length (str_drop n s) = (String.length s - n)%nat.
Proof. revert s. induction n as [|n IH]; intros [|c s]; cbn; [done..|]. by rewrite IH. Qed.

Lemma str_drop_drop n m s : str_drop n (str_drop m s) = str_drop (m + n) s.
Proof. revert s. induction m as [|m IH]; intros [|c s]; cbn; [done..|by destruct n|]. apply IH. Qed.

Lemma substring_take n s : String.substring 0 n s = str_take n s.
Proof. revert s. induction n as [|n IH]; intros [|c s]; cbn; [done..|]. by rewrite IH. Qed.

Lemma substring_drop p n s : String.substring p n s = str_take n (str_drop p s).
Proof.
  revert s. induction p as [|p IH]; intros s; [apply substring_take|].
  destruct s as [|c s]; cbn; [by destruct n|]. apply IH.
Qed.

(** ** Lemmas: split and join *)

Definition no_char (d : ascii) (s : string) : bool :=
  str_forall (fun c => negb (Ascii.eqb c d)) s.

Lemma split_char_nonnil d s : split_char d s <> [].
Proof. induction s as [|c s IH]; cbn; [done|]. destruct (Ascii.eqb c d), (split_char d s); done. Qed.

Lemma join_cons d w ws : ws <> [] -> join_char d (w :: ws) = w ++ String d (join_char d ws).
Proof. by destruct ws. Qed.

Lemma join_split d s : join_char d (split_char d s) = s.
Proof.
  induction s as [|c s IH]; [done|]. cbn [split_char].
  pose proof (split_char_nonnil d s). destruct (Ascii.eqb c d) eqn:E.
  - apply Ascii.eqb_eq in E. subst d. rewrite join_cons by assumption. cbn. by rewrite IH.
  - destruct (split_char d s) as [|w ws]; [done|]. destruct ws; cbn in *; by rewrite IH.
Qed.

Lemma split_char_no d s : no_char d s = true -> split_char d s = [s].
Proof.
  induction s as [|c s IH]; cbn; [done|]. rewrite andb_true_iff. intros [Hc Hs].
  apply negb_true_iff in Hc. by rewrite Hc, (IH Hs).
Qed.

Lemma split_char_app d a b : no_char d a = true ->
  split_char d (a ++ String d b) = a :: split_char d b.
Proof.
  induction a as [|c a IH]; cbn.
  - intros _. by rewrite Ascii.eqb_refl.
  - rewrite andb_true_iff. intros [Hc Ha]. apply negb_true_iff in Hc. by rewrite Hc, (IH Ha).
Qed.

(** A text up to a mark determines what is before the mark. *)
Lemma prefix_mark d a b rest : no_char d a = true -> no_char d b = true ->
  String.prefix (a ++ String d "") (b ++ String d rest) = true <-> a = b.
Proof.
  intros Ha Hb. rewrite prefix_iff. split; [intros [t E]|intros <-; exists rest].
  - assert (E2 : b ++ String d rest = a ++ String d t).
    { rewrite E. clear. induction a as [|c a IH]; cbn; [done|by rewrite IH]. }
    pose proof (f_equal (split_char d) E2) as E3. rewrite !split_char_app in E3 by done.
    by simplify_eq.
  - clear. induction a as [|c a IH]; cbn; [done|by rewrite IH].
Qed.

Lemma split_join d ws : ws <> [] -> Forall (fun w => no_char d w = true) ws ->
  split_char d (join_char d ws) = ws.
Proof.
  induction ws as [|w ws IH]; [done|]. intros _ Hf. inversion_clear Hf as [|? ? Hw Hws].
  destruct ws as [|w' ws]; [by apply split_char_no|].
  rewrite join_cons, split_char_app by done. by rewrite IH.
Qed.

Lemma str_forall_join p d ws : p d = true -> Forall (fun w => str_forall p w = true) ws ->
  str_forall p (join_char d ws) = true.
Proof.
  intros Hd. induction 1 as [|w ws Hw Hws IH]; [done|].
  destruct ws as [|w' ws]; [done|]. rewrite join_cons, str_forall_app, Hw by done.
  cbn [str_forall andb]. by rewrite Hd.
Qed.

(** ** Lemmas: printed numbers *)

Lemma pretty_char_digit n : (n < 10)%N ->
  isdigit (pretty_N_char n) = true /\ char_byte (pretty_N_char n) - 48 = Z.of_N n.
Proof.
  intros Hn. rewrite <- (N2Nat.id n). assert (Hk : (N.to_nat n < 10)%nat) by lia.
  revert Hk. generalize (N.to_nat n). clear. intros k Hk.
  do 10 (destruct k as [|k]; [by vm_compute|]). lia.
Qed.

Lemma pretty_go_digits s x : str_forall isdigit s = true ->
  str_forall isdigit (pretty_N_go x s) = true.
Proof.
  revert s. induction (N.lt_wf_0 x) as [x _ IH]; intros s Hs.
  destruct (decide (x = 0)%N) as [->|Hx]; [by rewrite pretty_N_go_0|].
  rewrite pretty_N_go_step by lia. apply IH; [apply N.div_lt; lia|].
  cbn. rewrite Hs. destruct (pretty_char_digit (x mod 10)) as [-> _]; [|done].
  apply N.mod_lt. lia.
Qed.

Lemma pretty_go_value x : forall s, (x <> 0)%N ->
  digits_value (pretty_N_go x s) 0 = digits_value s (Z.of_N x).
Proof.
  induction (N.lt_wf_0 x) as [x _ IH]; intros s Hx.
  rewrite pretty_N_go_step by lia.
  destruct (pretty_char_digit (x mod 10)) as [Hd Hv]; [apply N.mod_lt; lia|].
  assert (Hlt : (x / 10 < x)%N) by (apply N.div_lt; lia).
  destruct (decide (x / 10 = 0)%N) as [E|E].
  - rewrite E, pretty_N_go_0. cbn [digits_value]. rewrite Hd, Hv. f_equal.
    pose proof (N.div_mod x 10). lia.
  - rewrite IH by assumption. cbn [digits_value]. rewrite Hd, Hv. f_equal.
    pose proof (N.div_mod x 10). lia.
Qed.

Lemma pretty_N_digits (n : N) : str_forall isdigit (pretty n) = true /\ pretty n <> "".
Proof.
  unfold pretty, pretty_N. destruct (decide _) as [|Hn]; [done|]. split.
  - by apply pretty_go_digits.
  - intros E. pose proof (pretty_go_value n "" Hn) as H. rewrite E in H. cbn in H. lia.
Qed.

Lemma pretty_N_value (n : N) : digits_value (pretty n) 0 = Z.of_N n.
Proof.
  unfold pretty, pretty_N. destruct (decide _) as [->|Hn]; [done|].
  by rewrite pretty_go_value.
Qed.

Lemma digit_not_special c : isdigit c = true -> isspace c = false /\ c <> "-"%char /\ c <> "+"%char.
Proof. destruct c as [[] [] [] [] [] [] [] []]; vm_compute; intros H; try discriminate H; done. Qed.

Lemma pretty_Z_shape (z : Z) : exists n : N, pretty z = (if z <? 0 then "-" else "") ++ pretty n /\ Z.of_N n = Z.abs z.
Proof. destruct z as [|p|p]; [by exists 0%N|by exists (Npos p)|by exists (Npos p)]. Qed.

(** A printed number reads back, whatever follows that is not a digit. *)
Lemma digits_value_app a b acc : str_forall isdigit a = true ->
  digits_value (a ++ b) acc = digits_value b (digits_value a acc).
Proof.
  revert acc. induction a as [|c a IH]; intros acc; [done|]. cbn.
  rewrite andb_true_iff. intros [-> Ha]. by apply IH.
Qed.

Lemma strtol10_pretty (z : Z) : strtol10 (pretty z) = z.
Proof.
  destruct (pretty_Z_shape z) as (n & -> & Hn). destruct (pretty_N_digits n) as [Hd Hne].
  destruct (z <? 0) eqn:E; breflect.
  - change (strtol10 ("-" ++ pretty n)) with (- digits_value (pretty n) 0).
    rewrite pretty_N_value. lia.
  - cbn [String.append]. pose proof (pretty_N_value n) as Hv.
    destruct (pretty n) as [|c t] eqn:Ep; [done|]. cbn in Hd. apply andb_true_iff in Hd as [Hc Hd].
    destruct (digit_not_special c Hc) as (Hs & H1 & H2).
    unfold strtol10. cbn [skip_spaces]. rewrite Hs.
    assert (Ev : digits_value (String c t) 0 = z) by lia.
    destruct c as [[] [] [] [] [] [] [] []]; try exact Ev; by exfalso; auto.
Qed.

Lemma atoi_pretty (z : Z) : - 2 ^ 31 <= z < 2 ^ 31 -> atoi (pretty z) = Ret z.
Proof.
  intros Hz. unfold atoi. rewrite strtol10_pretty.
  replace ((- 2 ^ 31 <=? z) && (z <? 2 ^ 31)) with true; [done|].
  symmetry. apply andb_true_iff. rewrite Z.leb_le, Z.ltb_lt. exact Hz.
Qed.

#[export] Hint Rewrite str_app_nil_r str_length_app str_forall_app str_filter_app : iota.
#[export] Hint Resolve str_filter_forall : iota.

(** ** C strings *)

(** The text of a [const char*]: it ends at the first NUL. *)
Definition c_string (s : string) : string :=
  str_upto s (find_if (fun c => Ascii.eqb c (ascii_of_N 0)) s).

Definition no_nul (s : string) : bool :=
  str_forall (fun c => negb (Ascii.eqb c (ascii_of_N 0))) s.

Lemma c_string_id s : no_nul s = true -> c_string s = s.
Proof. intros H. unfold c_string, str_upto. by rewrite (proj2 (find_if_none _ _) H). Qed.
