(* ===== verification/StdMap.v ===== *)
(** * [std::map] with string keys

    A map is a [gmap]; [entries] walks it from [begin] to [end], in the order
    of the keys, and [emplace] is [insert], which keeps an entry that is
    there. *)
From stdpp Require Import base tactics list gmap strings sorting.
From Stdlib Require Import ZArith Lia Ascii String.
From S2P Require Import Prelude CppString.

Section StdMap.
  Context {A : Type}.
  Implicit Types m : gmap string A.

Definition entry_le (a b : string * A) : Prop := String.leb (fst a) (fst b) = true.

#[local] Instance entry_le_dec : RelDecision entry_le.
Proof. intros a b. unfold entry_le. apply _. Defined.

Definition entries m : list (string * A) := merge_sort entry_le (map_to_list m).

Definition emplace m (k : string) (v : A) : gmap string A :=
  match m !! k with Some _ => m | None => <[k := v]> m end.

Lemma entries_perm m : entries m ≡ₚ map_to_list m.
Proof. apply merge_sort_Permutation. Qed.

Lemma elem_of_entries m k v : (k, v) ∈ entries m <-> m !! k = Some v.
Proof. rewrite entries_perm. apply elem_of_map_to_list. Qed.

Lemma entries_keys m : NoDup (entries m).*1.
Proof. rewrite entries_perm. apply NoDup_fst_map_to_list. Qed.

Lemma entries_empty : entries ∅ = [].
Proof. unfold entries. by rewrite map_to_list_empty. Qed.

Lemma length_entries m : List.length (entries m) = base.size m.
Proof. rewrite (Permutation_length (entries_perm m)). apply length_map_to_list. Qed.

Lemma lookup_emplace m k v k' :
  emplace m k v !! k' = if bool_decide (k = k') then Some (default v (m !! k)) else m !! k'.
Proof.
  unfold emplace. destruct (m !! k) eqn:E; case_bool_decide as Hk; subst; cbn; try done.
  - by rewrite lookup_insert_eq.
  - by rewrite lookup_insert_ne.
Qed.

Lemma emplace_old m k v k' w : m !! k' = Some w -> emplace m k v !! k' = Some w.
Proof.
  intros Hw. rewrite lookup_emplace. case_bool_decide as Hk; [subst|done]. by rewrite Hw.
Qed.
End StdMap.

Lemma leb_total a b : String.leb a b = true \/ String.leb b a = true.
Proof. destruct (String.leb_total a b); auto. Qed.

(** The entries of a map are in order of their keys. *)
Lemma entries_sorted {A} (m : gmap string A) : Sorted entry_le (entries m).
Proof.
  apply Sorted_merge_sort. intros a b. unfold entry_le. apply leb_total.
Qed.

(** Keys stay distinct among the entries that pass a test. *)
Lemma NoDup_fst_filter {A} (p : string * A -> bool) (l : list (string * A)) :
  NoDup l.*1 -> NoDup (List.filter p l).*1.
Proof.
  induction l as [|[k a] l IH]; cbn; [done|]. intros Hl. apply NoDup_cons in Hl as [Hk Hl].
  specialize (IH Hl). destruct (p (k, a)); cbn; [|done]. apply NoDup_cons. split; [|done].
  intros Hin. apply Hk. clear - Hin. apply list_elem_of_fmap in Hin as ([k' a'] & -> & Hin).
  apply list_elem_of_In, filter_In in Hin as [Hin _]. apply list_elem_of_fmap.
  eexists. split; [|by apply list_elem_of_In]. done.
Qed.
