(* ===== verification/Boost.v ===== *)
(** * The Boost functions the sources call

    Boost is not part of the repository: what the code calls is a parameter,
    the class [Boost], and what it relies on is the class [BoostLaws], which
    states the documented behaviour of each call.  [boost_reference] is a
    concrete instance, on which the laws hold, for the examples. *)
From stdpp Require Import base tactics list strings pretty.
From Stdlib Require Import ZArith Lia Ascii String.
From S2P Require Import Prelude CppString.

(** ** Documented meaning of the calls *)

(** White space removed at both ends. *)
Fixpoint trim_left (s : string) : string :=
  match s with
  | String c s' => if isspace c then trim_left s' else s
  | EmptyString => EmptyString
  end.

Fixpoint trim_right (s : string) : string :=
  match s with
  | String c s' =>
      match trim_right s' with
      | EmptyString => if isspace c then EmptyString else String c EmptyString
      | t => String c t
      end
  | EmptyString => EmptyString
  end.

Definition hex_digit (n : Z) : ascii :=
  byte_char (if n <? 10 then 48 + n else 55 + n).

Definition lower_char (c : ascii) : ascii :=
  if isupper c then byte_char (char_byte c + 32) else c.

(** ** The operations *)

Class Boost : Type := {
  (** [boost::trim] *)
  trim : string -> string;
  (** [boost::erase_all(s, x)] for a one-character [x] *)
  erase_all : string -> ascii -> string;
  (** [boost::tokenizer] with [char_separator(sep, "", keep_empty_tokens)] for
      a one-character [sep] *)
  tokenize : ascii -> string -> list string;
  (** [boost::to_lower_copy] *)
  to_lower_copy : string -> string;
  (** [boost::format("%02X ")] of a byte *)
  format_02X_space : Z -> string;
  (** [boost::lexical_cast<std::string>] of an integer *)
  lexical_cast : Z -> string;
  (** [boost::erase_all_regex_copy] for the expression [[chars]+] *)
  erase_all_class : string -> string -> string;
  (** [boost::split(.., s, is_any_of(d))] for a one-character [d] *)
  split : ascii -> string -> list string;
  (** [boost::starts_with(input, test)] *)
  starts_with : string -> string -> bool
}.

Class BoostLaws (B : Boost) : Prop := {
  trim_law s : trim s = trim_right (trim_left s);
  erase_all_law s c : erase_all s c = str_filter (fun d => negb (Ascii.eqb d c)) s;
  tokenize_nil d : tokenize d "" = [];
  tokenize_law d s : s <> ""%string -> tokenize d s = split_char d s;
  to_lower_copy_law s : to_lower_copy s = str_map lower_char s;
  format_02X_law b : is_byte b ->
    format_02X_space b
    = String (hex_digit (b / 16)) (String (hex_digit (b mod 16)) (String " " ""));
  lexical_cast_law z : lexical_cast z = pretty z;
  erase_all_class_law chars s :
    erase_all_class chars s = str_filter (fun c => negb (in_set chars c)) s;
  split_law d s : split d s = split_char d s;
  starts_with_law input test : starts_with input test = String.prefix test input
}.

(** ** A reference instance *)

Definition boost_reference : Boost := {|
  trim s := trim_right (trim_left s);
  erase_all s c := str_filter (fun d => negb (Ascii.eqb d c)) s;
  tokenize d s := if String.eqb s "" then [] else split_char d s;
  to_lower_copy := str_map lower_char;
  format_02X_space b :=
    String (hex_digit (b / 16)) (String (hex_digit (b mod 16)) (String " " ""));
  lexical_cast := pretty;
  erase_all_class chars s := str_filter (fun c => negb (in_set chars c)) s;
  split := split_char;
  starts_with input test := String.prefix test input
|}.

Lemma boost_reference_laws : BoostLaws boost_reference.
Proof.
  constructor; try reflexivity.
  intros d s Hs. cbn. apply String.eqb_neq in Hs. by rewrite Hs.
Qed.

Lemma trim_no_space `{BoostLaws} s :
  str_forall (fun c => negb (isspace c)) s = true -> trim s = s.
Proof.
  intros Hs. rewrite trim_law.
  assert (Hl : trim_left s = s).
  { destruct s as [|c s]; [done|]. cbn in *. by destruct (isspace c). }
  rewrite Hl. clear Hl. induction s as [|c s IH]; [done|]. cbn in *.
  apply andb_true_iff in Hs as [Hc Hs]. rewrite IH by done.
  destruct s; [by destruct (isspace c)|done].
Qed.

Lemma erase_all_no `{BoostLaws} s c : no_char c s = true -> erase_all s c = s.
Proof. intros Hs. rewrite erase_all_law. by apply str_filter_id. Qed.

(** ** Property trees

    [boost::property_tree::ptree], with the serialisation of
    [src/src/util/json_parser.hpp], a copy of Boost's. *)
Class PropertyTree : Type := {
  ptree : Type;
  pt_empty : ptree;
  (** [get_optional<std::string>] *)
  pt_get : ptree -> string -> option string;
  (** [put] of a string *)
  pt_put : ptree -> string -> string -> ptree;
  (** the children of [get_child], which throws [ptree_bad_path] without it *)
  pt_get_child : ptree -> string -> option (list (string * ptree));
  write_json : ptree -> string
}.

Class PropertyTreeLaws (P : PropertyTree) : Prop := {
  pt_get_put t k v : pt_get (pt_put t k v) k = Some v;
  pt_get_child_empty k : k <> EmptyString -> pt_get_child pt_empty k = None
}.

(** [get<std::string>(path, default)] *)
Definition pt_get_default `{PropertyTree} (t : ptree) (path default : string) : string :=
  match pt_get t path with Some v => v | None => default end.

(** A reference instance: the text of each path, and the text of the children
    of [attributes] and [static_attributes]. *)
Inductive tree : Type := Tree (fields : list (string * string)) (children : list (string * list tree)).

Fixpoint assoc {A} (l : list (string * A)) (k : string) : option A :=
  match l with
  | [] => None
  | (k', v) :: l' => if String.eqb k' k then Some v else assoc l' k
  end.

Definition ptree_reference (show : tree -> string) : PropertyTree := {|
  ptree := tree;
  pt_empty := Tree [] [];
  pt_get t k := let '(Tree fs _) := t in assoc fs k;
  pt_put t k v := let '(Tree fs cs) := t in Tree ((k, v) :: fs) cs;
  pt_get_child t k :=
    let '(Tree _ cs) := t in
    match assoc cs k with Some ts => Some (map (fun t => (EmptyString, t)) ts) | None => None end;
  write_json := show
|}.

Lemma ptree_reference_laws show : PropertyTreeLaws (ptree_reference show).
Proof. constructor; [|done]. intros [fs cs] k v. cbn. by rewrite String.eqb_refl. Qed.

(** Walking a property tree: its children from [begin] to [end], and [data]. *)
Class PropertyTreeIter `{PropertyTree} : Type := {
  pt_children : ptree -> list (string * ptree);
  pt_data : ptree -> string
}.

Class PropertyTreeIterLaws `{PI : PropertyTreeIter} : Prop := {
  pt_children_empty : pt_children pt_empty = [];
  (** a name without a separator of paths *)
  pt_children_put k v : no_char "." k = true ->
    exists t, pt_children (pt_put pt_empty k v) = [(k, t)] /\ pt_data t = v
}.

(** Children are the fields, the latest value of each; the text of a leaf is
    its field without name. *)
Fixpoint first_fields (fs : list (string * string)) (seen : list string)
    : list (string * string) :=
  match fs with
  | [] => []
  | (k, v) :: fs' =>
      if existsb (String.eqb k) seen then first_fields fs' seen
      else ((k, v) :: first_fields fs' (k :: seen))%list
  end.

Definition ptree_iter_reference (show : tree -> string)
    : @PropertyTreeIter (ptree_reference show) :=
  @Build_PropertyTreeIter (ptree_reference show)
    (fun t : tree => let '(Tree fs _) := t in
       map (fun kv => (fst kv, Tree [(EmptyString, snd kv)] [])) (first_fields fs []))
    (fun t : tree => let '(Tree fs _) := t in
       match assoc fs EmptyString with Some v => v | None => EmptyString end).

Lemma ptree_iter_reference_laws show : @PropertyTreeIterLaws _ (ptree_iter_reference show).
Proof. constructor; [done|]. intros k v _. by eexists. Qed.

(** Integers in a property tree, [get<int>] and [put] of an [int], and
    [lexical_cast<int>] of a text, [None] when it throws. *)
Class PropertyTreeInt `{PropertyTree} : Type := {
  pt_get_int : ptree -> string -> option Z;
  pt_put_int : ptree -> string -> Z -> ptree;
  lexical_cast_int : string -> option Z
}.

Class PropertyTreeIntLaws `{PN : PropertyTreeInt} : Prop := {
  pt_get_int_put t k z : pt_get_int (pt_put_int t k z) k = Some z;
  pt_get_put_int t k z k' : k <> k' -> pt_get (pt_put_int t k z) k' = pt_get t k';
  pt_get_int_text t k v k' : k <> k' -> pt_get_int (pt_put t k v) k' = pt_get_int t k';
  pt_get_put_ne t k v k' : k <> k' -> pt_get (pt_put t k v) k' = pt_get t k'
}.

Definition int_of_text (s : string) : option Z :=
  let z := strtol10 s in if String.eqb (pretty z) s then Some z else None.

Definition ptree_int_reference (show : tree -> string)
    : @PropertyTreeInt (ptree_reference show) :=
  @Build_PropertyTreeInt (ptree_reference show)
    (fun t : tree => fun k => let '(Tree fs _) := t in
       match assoc fs k with Some s => int_of_text s | None => None end)
    (fun t : tree => fun k z => let '(Tree fs cs) := t in Tree ((k, pretty z) :: fs)%list cs)
    int_of_text.

Lemma ptree_int_reference_laws show : @PropertyTreeIntLaws _ (ptree_int_reference show).
Proof.
  constructor.
  - intros [fs cs] k z. cbn. rewrite String.eqb_refl. unfold int_of_text.
    by rewrite strtol10_pretty, String.eqb_refl.
  - intros [fs cs] k z k' Hk. cbn. apply String.eqb_neq in Hk. by rewrite Hk.
  - intros [fs cs] k v k' Hk. cbn. apply String.eqb_neq in Hk. by rewrite Hk.
  - intros [fs cs] k v k' Hk. cbn. apply String.eqb_neq in Hk. by rewrite Hk.
Qed.
