(* ===== verification/Types.v ===== *)
(** * Constants of the sources

    The names, messages and codes of [src/src/rest/types.cc] and the field names of
    [src/src/util/store_const.cc]; the latter are in the module [Store], as in the namespace [iota::store::types]. *)
From Stdlib Require Import ZArith Ascii String.

Local Open Scope string_scope.
Local Open Scope Z_scope.

Definition CONF_FILE_RESOURCES : string := "resources".
Definition CONF_FILE_RESOURCE : string := "resource".
Definition CONF_FILE_SERVICES : string := "services".
Definition CONF_FILE_APIKEY : string := "apikey".
Definition CONF_FILE_SERVICE : string := "service".
Definition CONF_FILE_SERVICE_PATH : string := "service_path".
Definition CONF_FILE_TOKEN : string := "token".
Definition CONF_FILE_CBROKER : string := "cbroker".
Definition CONF_FILE_PROXY : string := "http_proxy".
Definition CONF_FILE_ENTITY_TYPE : string := "entity_type".
Definition CONF_FILE_STATISTICS : string := "statistics".
Definition CONF_FILE_OPTIONS : string := "options".
Definition CONF_FILE_FILE_NAME : string := "FileName".
Definition CONF_FILE_TIMEOUT : string := "timeout".
Definition CONF_FILE_DIR_LOG : string := "dir_log".
Definition CONF_FILE_TIMEZONES : string := "timezones".
Definition CONF_FILE_TCP_SERVERS : string := "tcp_servers".
Definition CONF_FILE_IOTA_MANAGER : string := "iota_manager".
Definition CONF_FILE_DEVICES_STORE : string := "devices_store".
Definition CONF_FILE_MONGO : string := "mongodb".
Definition CONF_FILE_OAUTH : string := "oauth".
Definition CONF_FILE_OAUTH_TRUST_TOKEN_URL : string := "on_behalf_trust_url".
Definition CONF_FILE_OAUTH_VALIDATE_TOKEN_URL : string := "validate_token_url".
Definition CONF_FILE_OAUTH_ROLES_URL : string := "get_roles_url".
Definition CONF_FILE_OAUTH_PROJECTS_URL : string := "retrieve_subservices_url".
Definition CONF_FILE_ACCESS_CONTROL : string := "access_control_url".
Definition CONF_FILE_PEP_USER : string := "pep_user".
Definition CONF_FILE_PEP_PASSWORD : string := "pep_password".
Definition CONF_FILE_PEP_DOMAIN : string := "pep_domain".
Definition CONF_FILE_ON_BEHALF_USER : string := "on_behalf_user".
Definition CONF_FILE_ON_BEHALF_PASSWORD : string := "on_behalf_password".
Definition CONF_FILE_OAUTH_TIMEOUT : string := "timeout".
Definition CONF_FILE_PEP_RULES : string := "pep_rules".
Definition CONF_FILE_PEP_RULES_URI : string := "uri".
Definition CONF_FILE_PEP_RULES_ACTION : string := "action".
Definition CONF_FILE_PEP_RULES_VERB : string := "verb".
Definition CONF_FILE_SCHEMA_PATH : string := "schema_path".
Definition MULTIPART_ERROR : string := "Multipart content error".
Definition CONF_FILE_ERROR : string := "Configuration file with errors".
Definition RESPONSE_MESSAGE_NONE : string := "Undefined".
Definition RESPONSE_MESSAGE_OK : string := "OK".
Definition RESPONSE_MESSAGE_FOUND : string := "Found".
Definition RESPONSE_MESSAGE_BAD_REQUEST : string := "The request is not well formed".
Definition RESPONSE_MESSAGE_FORBIDDEN : string := "The request is not allowed".
Definition RESPONSE_MESSAGE_METHOD_NOT_ALLOWED : string := "The method is not allowed".
Definition RESPONSE_MESSAGE_CONTEXT_ELEMENT_NOT_FOUND : string := "No context element found".
Definition RESPONSE_MESSAGE_BAD_VERB : string := "Request ok but verb/method NOT OK".
Definition RESPONSE_MESSAGE_BAD_URI : string := "An uri parameter is not valid".
Definition RESPONSE_MESSAGE_NOT_ACCEPTABLE : string :=
  "The Accept header in the request is not supported".
Definition RESPONSE_MESSAGE_LENGTH_REQUIRED : string := "Content-Length header missing".
Definition RESPONSE_MESSAGE_REQUEST_ENTITY_TOO_LARGE : string :=
  "Request Entity Too Large - over 1Mb of payload".
Definition RESPONSE_MESSAGE_UNSUPPORTED_MEDIA_TYPE : string :=
  "Unsupported Media Type (only support application/json)".
Definition RESPONSE_MESSAGE_SUBSCRIPTION_ID_NOT_FOUND : string :=
  "The subscriptionId does not correspond to an active subscription".
Definition RESPONSE_MESSAGE_MISSING_PARAMETER : string := "A parameter is missing in the request".
Definition RESPONSE_MESSAGE_MISSING_IOTAGENTS : string :=
  "there aren't iotagents for this operation".
Definition RESPONSE_MESSAGE_INVALID_PARAMETER : string :=
  "A parameter of the request is invalid/not allowed".
Definition RESPONSE_MESSAGE_ERROR_IN_METADATA : string :=
  "Generic error in metadata (e.g. 'expires' older than 'timestamp')".
Definition RESPONSE_MESSAGE_ENTITY_ID_RE_NOT_ALLOWED : string :=
  "Regular Expression for EntityId is not allowed by receiver".
Definition RESPONSE_MESSAGE_ENTITY_TYPE_REQUIRED : string :=
  "The EntityType is required by the receiver".
Definition RESPONSE_MESSAGE_ATTRIBUTE_LIST_REQUIRED : string :=
  "The Attribute List is required by the receiver".
Definition RESPONSE_MESSAGE_RECEIVER_INTERNAL_ERROR : string :=
  "An unknown error at the receiver has occurred".
Definition RESPONSE_MESSAGE_NOT_IMPLEMENTED : string := "The given operation is not implemented".
Definition RESPONSE_MESSAGE_BAD_GATEWAY : string := "Bad Gateway".
Definition RESPONSE_MESSAGE_NO_REGISTERED_DEVICE : string :=
  "The given device is not registered in IotAgent".
Definition RESPONSE_MESSAGE_NO_COMMAND : string := "The attribute must be of type command".
Definition RESPONSE_MESSAGE_NO_DEVICE_NO_COMMAND : string :=
  "the device does not have implemented this command".
Definition RESPONSE_MESSAGE_COMMAND_BAD : string := "this is not a valid command".
Definition RESPONSE_MESSAGE_DEVICE_NO_ACTIVE : string := "The device is not active".
Definition RESPONSE_MESSAGE_BAD_CONFIG : string :=
  "The config file for iotagent is not correct".
Definition RESPONSE_MESSAGE_NO_SERVICE : string := "The service does not exist".
Definition RESPONSE_MESSAGE_NO_DEVICE : string := "The device does not exist".
Definition RESPONSE_MESSAGE_MORE_ONE_SERVICE : string :=
  "There are conflicts in provisioned service".
Definition RESPONSE_MESSAGE_DUPLICATED_DATA : string :=
  "There are conflicts, object already exists".
Definition RESPONSE_MESSAGE_BAD_PROTOCOL : string :=
  "There are conflicts, protocol is not correct".
Definition RESPONSE_MESSAGE_DATA_NOT_FOUND : string := "Field or data not found".
Definition REASON_MALFORMED_HEADER : string := "Malformed header".
Definition REASON_MALFORMED_DATA : string := "Malformed data".
Definition DETAILS_HEADER_FIWARE_SERVICE : string :=
  "Fiware-Service not accepted - a service string must not be longer than 50 characters and may only contain underscores and alphanumeric characters and lowercase".
Definition DETAILS_HEADER_FIWARE_SERVICE_PATH : string :=
  "Fiware-ServicePath not accepted - a service path string must only contain underscores and alphanumeric characters and starts with character /".
Definition DETAILS_FORBIDDEN_CHARACTERS : string := "Forbidden characters".
Definition RESPONSE_MESSAGE_INTERNAL_ERROR : string :=
  "Conctact with your administrator, there was an internal error".
Definition RESPONSE_MESSAGE_DATABASE_ERROR : string := "Database error".
Definition RESPONSE_MESSAGE_ENTITY_ALREADY_EXISTS : string :=
  "There are conflicts, entity already exists".
Definition RESPONSE_MESSAGE_ENTITY_COMMANDS_ALREADY_EXISTS : string :=
  "There are conflicts, entity with this command, already exists".
Definition IOTA_FORBIDDEN_CHARACTERS : string :=
  "<>" ++ String (ascii_of_nat 34) "'=;()".
Definition RESPONSE_CODE_NONE : Z := 0.
Definition RESPONSE_CODE_OK : Z := 200.
Definition RESPONSE_CODE_FOUND : Z := 302.
Definition RESPONSE_CODE_BAD_REQUEST : Z := 400.
Definition RESPONSE_CODE_BAD_CONFIG : Z := 400.
Definition RESPONSE_CODE_FORBIDDEN : Z := 403.
Definition RESPONSE_CODE_CONTEXT_ELEMENT_NOT_FOUND : Z := 404.
Definition RESPONSE_CODE_NO_SERVICE : Z := 404.
Definition RESPONSE_CODE_MORE_ONE_SERVICE : Z := 409.
Definition RESPONSE_CODE_DEVICE_NO_ACTIVE : Z := 409.
Definition RESPONSE_CODE_ENTITY_ALREADY_EXISTS : Z := 409.
Definition RESPONSE_CODE_BAD_VERB : Z := 405.
Definition RESPONSE_CODE_METHOD_NOT_ALLOWED : Z := 405.
Definition RESPONSE_CODE_NOT_ACCEPTABLE : Z := 406.
Definition RESPONSE_CODE_LENGTH_REQUIRED : Z := 411.
Definition RESPONSE_CODE_REQUEST_ENTITY_TOO_LARGE : Z := 413.
Definition RESPONSE_CODE_UNSUPPORTED_MEDIA_TYPE : Z := 415.
Definition RESPONSE_CODE_SUBSCRIPTION_ID_NOT_FOUND : Z := 470.
Definition RESPONSE_CODE_MISSING_PARAMETER : Z := 471.
Definition RESPONSE_CODE_INVALID_PARAMETER : Z := 472.
Definition RESPONSE_CODE_ERROR_IN_METADATA : Z := 473.
Definition RESPONSE_CODE_ENTITY_ID_RE_NOT_ALLOWED : Z := 480.
Definition RESPONSE_CODE_ENTITY_TYPE_REQUIRED : Z := 481.
Definition RESPONSE_CODE_ATTRIBUTE_LIST_REQUIRED : Z := 482.
Definition RESPONSE_CODE_RECEIVER_INTERNAL_ERROR : Z := 500.
Definition RESPONSE_CODE_NOT_IMPLEMENTED : Z := 501.
Definition RESPONSE_CODE_BAD_GATEWAY : Z := 502.
Definition RESPONSE_CODE_NO_REGISTERED_DEVICE : Z := 404.
Definition RESPONSE_CODE_NO_COMMAND : Z := 400.
Definition RESPONSE_CODE_NO_DEVICE_NO_COMMAND : Z := 400.
Definition RESPONSE_CODE_DATA_NOT_FOUND : Z := 404.
Definition RESPONSE_CODE_FIWARE_SERVICE_ERROR : Z := 1000.
Definition RESPONSE_CODE_FIWARE_SERVICE_PATH_ERROR : Z := 1001.
Definition RESPONSE_CODE_FORBIDDEN_CHARACTERS : Z := 1002.
Definition ALARM_CODE_BAD_CONFIGURATION : Z := 999.
Definition ALARM_CODE_NO_MONGO : Z := 100.
Definition ALARM_CODE_NO_CB : Z := 200.
Definition ALARM_CODE_NO_IOTA : Z := 300.
Definition ALARM_CODE_NO_IOTA_MANAGER : Z := 400.
Definition ALARM_CODE_LOST_MEASURE : Z := 1000.
Definition ALARM_CODE_LOST_API : Z := 1100.
Definition ALARM_MESSAGE_NO_MONGO : string := "couldn't connect to mongo ".
Definition ALARM_MESSAGE_NO_CB : string := "couldn't connect to context broker ".
Definition ALARM_MESSAGE_NO_IOTA : string := "couldn't connect to IoTA ".
Definition ALARM_MESSAGE_NO_IOTA_MANAGER : string := "couldn't connect to IoTA Manager".
Definition ERROR_DELIMITER : string := "@@ERROR_DELIMITER@@".
Definition ERROR_BAD_REQUEST : string := "@@ERROR_BAD_REQUEST@@".
Definition HEADER_TRACE_MESSAGES : string := "X-Trace-Message".
Definition HEADER_OUTGOING_ROUTE : string := "X-M2M-Outgoing-Route".
Definition HEADER_INTERNAL_TYPE : string := "X-Async-Internal".
Definition STAT_TRAFFIC : string := "traffic".
Definition STAT_TRAFFIC_IN : string := "in".
Definition STAT_TRAFFIC_OUT : string := "out".
Definition STAT_TRAFFIC_DURATION : string := "duration".
Definition FIWARE_SERVICE : string := "Fiware-Service".
Definition FIWARE_SERVICEPATH : string := "Fiware-ServicePath".
Definition FIWARE_SERVICEPATH_DEFAULT : string := "/".
Definition IOT_HTTP_HEADER_ACCEPT : string := "Accept".
Definition IOT_CONTENT_TYPE_JSON : string := "application/json".
Definition IOT_CONTENT_SUBTYPE_JSON : string := "/json".
Definition IOT_HTTP_HEADER_AUTH : string := "X-Auth-Token".
Definition IOT_MANAGER_ERRORS : string := "errors".
Definition IOT_MANAGER_ERRORS_CODE : string := "code".
Definition IOT_MANAGER_ERRORS_DETAILS : string := "details".
Definition IOT_MANAGER_ERRORS_ENDPOINT : string := "endpoint".
Definition LIMIT_DEFAULT : Z := 20.
Definition LIMIT_MAX : Z := 1000.
Definition MAX_SIZE_CACHE : Z := 1000.
Definition MAX_SIZE_COMMAND_CACHE : Z := 1000.
Definition STATUS : string := "status".
Definition STATUS_TYPE : string := "string".
Definition STATUS_OP : string := "APPEND".
Definition INFO : string := "info".
Definition INFO_TYPE : string := "string".
Definition INFO_OP : string := "APPEND".
Definition ERROR : string := "error".
Definition COMMAND_TYPE : string := "command".
Definition PENDING : string := "pending".
Definition RAW : string := "@@RAW@@".
Definition READY_FOR_READ : Z := 0.
Definition READY_FOR_READ_MESSAGE : string := "pending".
Definition EXPIRED_READ : Z := 1.
Definition EXPIRED_READ_MESSAGE : string := "expired read".
Definition DELIVERED : Z := 2.
Definition DELIVERED_MESSAGE : string := "delivered".
Definition EXPIRED_DELIVERY : Z := 3.
Definition EXPIRED_DELIVERY_MESSAGE : string := "delivered but no respond".
Definition EXECUTED : Z := 4.
Definition EXECUTED_MESSAGE : string := "OK".
Definition NOT_DELIVERED : Z := 5.
Definition NOT_DELIVERED_MESSAGE : string := "not delivered".

Module Store.
Definition IOTAGENT_ID : string := "identifier".
Definition IOTAGENT_NAME : string := "name".
Definition DEVICE_TABLE : string := "DEVICE".
Definition DEVICE_SORT : string := "device_id".
Definition DEVICES : string := "devices".
Definition DEVICE_ID : string := "device_id".
Definition ENDPOINT : string := "endpoint".
Definition ENTITY_TYPE : string := "entity_type".
Definition ENTITY_NAME : string := "entity_name".
Definition SERVICE : string := "service".
Definition SERVICE_PATH : string := "service_path".
Definition ATTRIBUTES : string := "attributes".
Definition ATTRIBUTE : string := "attribute".
Definition STATIC_ATTRIBUTES : string := "static_attributes".
Definition STATUS : string := "status".
Definition COMMANDS : string := "commands".
Definition COMMAND : string := "value".
Definition NAME : string := "name".
Definition TIMEZONE : string := "timezone".
Definition MODEL : string := "model".
Definition ACTIVATE : string := "activate".
Definition REGISTRATION_ID : string := "registration_id".
Definition DURATION_CB : string := "duration".
Definition TIMESTAMP_DATA : string := "timestamp_data".
Definition ATTRIBUTE_ID : string := "object_id".
Definition ATTRIBUTE_VALUE : string := "value".
Definition TYPE : string := "type".
Definition ENTITY : string := "entity".
Definition COMMAND_TABLE : string := "COMMAND".
Definition COMMAND_SORT : string := "node".
Definition COMMAND_ID : string := "id".
Definition ID : string := "id".
Definition TIMEOUT : string := "timeout".
Definition DEVICE : string := "node".
Definition URI_RESP : string := "uri".
Definition SEQUENCE : string := "sequence".
Definition EXPIRED : string := "expired".
Definition BODY : string := "body".
Definition SERVICE_TABLE : string := "SERVICE".
Definition SERVICE_SORT : string := "service".
Definition SERVICE_ID : string := "service".
Definition SERVICES : string := "services".
Definition RESOURCE : string := "resource".
Definition APIKEY : string := "apikey".
Definition TOKEN : string := "token".
Definition CBROKER : string := "cbroker".
Definition OUTGOING_ROUTE : string := "outgoing_route".
Definition PUBLIC_IP : string := "public_ip".
Definition MANAGER_SERVICE_TABLE : string := "SERVICE_MGMT".
Definition PROTOCOL : string := "protocol".
Definition IOTAGENT : string := "iotagent".
Definition PROTOCOL_TABLE : string := "PROTOCOL".
Definition PROTOCOL_DESCRIPTION : string := "description".
Definition PROTOCOL_NAME : string := "protocol".
Definition PROTOCOL_ID : string := "_id".
Definition ENDPOINTS : string := "endpoints".
Definition ENDPOINT_AG : string := "endpoint".
Definition ENDPOINT_ID : string := "identifier".
Definition STORAGE : string := "storage".
Definition FILE : string := "file".
Definition HOST : string := "host".
Definition POOL_SIZE : string := "pool_size".
Definition REPLICA_SET : string := "replicaset".
Definition PORT : string := "port".
Definition USER : string := "user".
Definition PWD : string := "pwd".
Definition DBNAME : string := "dbname".
Definition MONGODB : string := "mongodb".
Definition INACTIVE : string := "inactive".
Definition ACTIVE : string := "active".
Definition DEFAULT : string := "default".
Definition ON : string := "on".
Definition OFF : string := "off".
Definition COUNT : string := "count".
Definition LIMIT : string := "limit".
Definition OFFSET : string := "offset".
Definition DETAILED : string := "detailed".
Definition DEVICE_PAR : string := "device".
Definition COORDS : string := "coords".
End Store.
