(* ===== verification/Modbus.v ===== *)
(** * Modbus master: frames, CRC and the reception state machine

    Models [src/src/modbus/modbus.cc]: the CRC tables and [crc], the two
    constructors that build request frames, [check_crc], [check_completed],
    [receive_modbus_frame] and the projection of the registers read to
    attribute names ([get_mapped_values]).  Bytes and shorts are [Z] with the
    truncations of the code; an [at()] out of range throws, and
    [receive_modbus_frame] catches it as the code does. *)
From stdpp Require Import base tactics list gmap strings pretty sorting.
From Stdlib Require Import ZArith Lia String.
From S2P Require Import Prelude.

Definition table_crc_hi : list Z := [
  0x00; 0xC1; 0x81; 0x40; 0x01; 0xC0; 0x80; 0x41; 0x01; 0xC0; 0x80; 0x41;
  0x00; 0xC1; 0x81; 0x40; 0x01; 0xC0; 0x80; 0x41; 0x00; 0xC1; 0x81; 0x40;
  0x00; 0xC1; 0x81; 0x40; 0x01; 0xC0; 0x80; 0x41; 0x01; 0xC0; 0x80; 0x41;
  0x00; 0xC1; 0x81; 0x40; 0x00; 0xC1; 0x81; 0x40; 0x01; 0xC0; 0x80; 0x41;
  0x00; 0xC1; 0x81; 0x40; 0x01; 0xC0; 0x80; 0x41; 0x01; 0xC0; 0x80; 0x41;
  0x00; 0xC1; 0x81; 0x40; 0x01; 0xC0; 0x80; 0x41; 0x00; 0xC1; 0x81; 0x40;
  0x00; 0xC1; 0x81; 0x40; 0x01; 0xC0; 0x80; 0x41; 0x00; 0xC1; 0x81; 0x40;
  0x01; 0xC0; 0x80; 0x41; 0x01; 0xC0; 0x80; 0x41; 0x00; 0xC1; 0x81; 0x40;
  0x00; 0xC1; 0x81; 0x40; 0x01; 0xC0; 0x80; 0x41; 0x01; 0xC0; 0x80; 0x41;
  0x00; 0xC1; 0x81; 0x40; 0x01; 0xC0; 0x80; 0x41; 0x00; 0xC1; 0x81; 0x40;
  0x00; 0xC1; 0x81; 0x40; 0x01; 0xC0; 0x80; 0x41; 0x01; 0xC0; 0x80; 0x41;
  0x00; 0xC1; 0x81; 0x40; 0x00; 0xC1; 0x81; 0x40; 0x01; 0xC0; 0x80; 0x41;
  0x00; 0xC1; 0x81; 0x40; 0x01; 0xC0; 0x80; 0x41; 0x01; 0xC0; 0x80; 0x41;
  0x00; 0xC1; 0x81; 0x40; 0x00; 0xC1; 0x81; 0x40; 0x01; 0xC0; 0x80; 0x41;
  0x01; 0xC0; 0x80; 0x41; 0x00; 0xC1; 0x81; 0x40; 0x01; 0xC0; 0x80; 0x41;
  0x00; 0xC1; 0x81; 0x40; 0x00; 0xC1; 0x81; 0x40; 0x01; 0xC0; 0x80; 0x41;
  0x00; 0xC1; 0x81; 0x40; 0x01; 0xC0; 0x80; 0x41; 0x01; 0xC0; 0x80; 0x41;
  0x00; 0xC1; 0x81; 0x40; 0x01; 0xC0; 0x80; 0x41; 0x00; 0xC1; 0x81; 0x40;
  0x00; 0xC1; 0x81; 0x40; 0x01; 0xC0; 0x80; 0x41; 0x01; 0xC0; 0x80; 0x41;
  0x00; 0xC1; 0x81; 0x40; 0x00; 0xC1; 0x81; 0x40; 0x01; 0xC0; 0x80; 0x41;
  0x00; 0xC1; 0x81; 0x40; 0x01; 0xC0; 0x80; 0x41; 0x01; 0xC0; 0x80; 0x41;
  0x00; 0xC1; 0x81; 0x40].

Definition table_crc_lo : list Z := [
  0x00; 0xC0; 0xC1; 0x01; 0xC3; 0x03; 0x02; 0xC2; 0xC6; 0x06; 0x07; 0xC7;
  0x05; 0xC5; 0xC4; 0x04; 0xCC; 0x0C; 0x0D; 0xCD; 0x0F; 0xCF; 0xCE; 0x0E;
  0x0A; 0xCA; 0xCB; 0x0B; 0xC9; 0x09; 0x08; 0xC8; 0xD8; 0x18; 0x19; 0xD9;
  0x1B; 0xDB; 0xDA; 0x1A; 0x1E; 0xDE; 0xDF; 0x1F; 0xDD; 0x1D; 0x1C; 0xDC;
  0x14; 0xD4; 0xD5; 0x15; 0xD7; 0x17; 0x16; 0xD6; 0xD2; 0x12; 0x13; 0xD3;
  0x11; 0xD1; 0xD0; 0x10; 0xF0; 0x30; 0x31; 0xF1; 0x33; 0xF3; 0xF2; 0x32;
  0x36; 0xF6; 0xF7; 0x37; 0xF5; 0x35; 0x34; 0xF4; 0x3C; 0xFC; 0xFD; 0x3D;
  0xFF; 0x3F; 0x3E; 0xFE; 0xFA; 0x3A; 0x3B; 0xFB; 0x39; 0xF9; 0xF8; 0x38;
  0x28; 0xE8; 0xE9; 0x29; 0xEB; 0x2B; 0x2A; 0xEA; 0xEE; 0x2E; 0x2F; 0xEF;
  0x2D; 0xED; 0xEC; 0x2C; 0xE4; 0x24; 0x25; 0xE5; 0x27; 0xE7; 0xE6; 0x26;
  0x22; 0xE2; 0xE3; 0x23; 0xE1; 0x21; 0x20; 0xE0; 0xA0; 0x60; 0x61; 0xA1;
  0x63; 0xA3; 0xA2; 0x62; 0x66; 0xA6; 0xA7; 0x67; 0xA5; 0x65; 0x64; 0xA4;
  0x6C; 0xAC; 0xAD; 0x6D; 0xAF; 0x6F; 0x6E; 0xAE; 0xAA; 0x6A; 0x6B; 0xAB;
  0x69; 0xA9; 0xA8; 0x68; 0x78; 0xB8; 0xB9; 0x79; 0xBB; 0x7B; 0x7A; 0xBA;
  0xBE; 0x7E; 0x7F; 0xBF; 0x7D; 0xBD; 0xBC; 0x7C; 0xB4; 0x74; 0x75; 0xB5;
  0x77; 0xB7; 0xB6; 0x76; 0x72; 0xB2; 0xB3; 0x73; 0xB1; 0x71; 0x70; 0xB0;
  0x50; 0x90; 0x91; 0x51; 0x93; 0x53; 0x52; 0x92; 0x96; 0x56; 0x57; 0x97;
  0x55; 0x95; 0x94; 0x54; 0x9C; 0x5C; 0x5D; 0x9D; 0x5F; 0x9F; 0x9E; 0x5E;
  0x5A; 0x9A; 0x9B; 0x5B; 0x99; 0x59; 0x58; 0x98; 0x88; 0x48; 0x49; 0x89;
  0x4B; 0x8B; 0x8A; 0x4A; 0x4E; 0x8E; 0x8F; 0x4F; 0x8D; 0x4D; 0x4C; 0x8C;
  0x44; 0x84; 0x85; 0x45; 0x87; 0x47; 0x46; 0x86; 0x82; 0x42; 0x43; 0x83;
  0x41; 0x81; 0x80; 0x40].

(** ** The CRC of a frame *)

(** One turn of the [while] of [crc] on the pair [(crc_hi, crc_lo)]. *)
Definition crc_step (st : Z * Z) (b : Z) : Z * Z :=
  let '(crc_hi, crc_lo) := st in
  let i := Z.to_nat (Z.lxor crc_hi b) in
  (Z.lxor crc_lo (nth i table_crc_hi 0), nth i table_crc_lo 0).

Definition crc (frame : list Z) : Z :=
  let '(crc_hi, crc_lo) := fold_left crc_step frame (0xFF, 0xFF) in
  Z.lor (Z.shiftl crc_hi 8) crc_lo.

(** ** The object *)

(** [FunctionCode], and the byte each enumerator is. *)
Inductive FunctionCode : Type :=
| READ_HOLDING_REGISTERS
| PRESET_SINGLE_REGISTER
| PRESET_MULTIPLE_REGISTER.

Definition function_code_value (f : FunctionCode) : Z :=
  match f with
  | READ_HOLDING_REGISTERS => 0x03
  | PRESET_SINGLE_REGISTER => 0x06
  | PRESET_MULTIPLE_REGISTER => 0x10
  end.

#[global] Instance FunctionCode_eq_dec : EqDecision FunctionCode.
Proof. solve_decision. Defined.

Record Modbus : Type := mkModbus {
  _app_operation : string;
  _modbus_frame : list Z;
  _modbus_frame_response : list Z;
  _slave_address : Z;
  _function_code : FunctionCode;
  _address_data : Z;
  _number_of_or_value : Z;
  _values_to_write : list Z;
  _values : gmap Z Z;
  _finished : bool;
  _completed : bool;
  _confirmed : bool;
  _need_be_confirmed : bool;
  _time_instant : Z
}.

Definition set_response (m : Modbus) (r : list Z) : Modbus :=
  mkModbus (_app_operation m) (_modbus_frame m) r (_slave_address m)
    (_function_code m) (_address_data m) (_number_of_or_value m)
    (_values_to_write m) (_values m) (_finished m) (_completed m)
    (_confirmed m) (_need_be_confirmed m) (_time_instant m).

Definition set_values (m : Modbus) (v : gmap Z Z) : Modbus :=
  mkModbus (_app_operation m) (_modbus_frame m) (_modbus_frame_response m)
    (_slave_address m) (_function_code m) (_address_data m)
    (_number_of_or_value m) (_values_to_write m) v (_finished m) (_completed m)
    (_confirmed m) (_need_be_confirmed m) (_time_instant m).

Definition set_finished (m : Modbus) (b : bool) : Modbus :=
  mkModbus (_app_operation m) (_modbus_frame m) (_modbus_frame_response m)
    (_slave_address m) (_function_code m) (_address_data m)
    (_number_of_or_value m) (_values_to_write m) (_values m) b (_completed m)
    (_confirmed m) (_need_be_confirmed m) (_time_instant m).

Definition set_completed (m : Modbus) (b : bool) : Modbus :=
  mkModbus (_app_operation m) (_modbus_frame m) (_modbus_frame_response m)
    (_slave_address m) (_function_code m) (_address_data m)
    (_number_of_or_value m) (_values_to_write m) (_values m) (_finished m) b
    (_confirmed m) (_need_be_confirmed m) (_time_instant m).

Definition set_confirmed (m : Modbus) (b : bool) : Modbus :=
  mkModbus (_app_operation m) (_modbus_frame m) (_modbus_frame_response m)
    (_slave_address m) (_function_code m) (_address_data m)
    (_number_of_or_value m) (_values_to_write m) (_values m) (_finished m)
    (_completed m) b (_need_be_confirmed m) (_time_instant m).

(** [set_time_instant]. *)
Definition set_time_instant (m : Modbus) (t : Z) : Modbus :=
  mkModbus (_app_operation m) (_modbus_frame m) (_modbus_frame_response m)
    (_slave_address m) (_function_code m) (_address_data m)
    (_number_of_or_value m) (_values_to_write m) (_values m) (_finished m)
    (_completed m) (_confirmed m) (_need_be_confirmed m) t.

(** [finish]. *)
Definition finish (m : Modbus) : Modbus := set_finished m true.

(** ** The constructors *)

(** The two bytes a short is pushed as. *)
Definition push_short (v : Z) : list Z := [Z.land (Z.shiftr v 8) 0xFF; Z.land v 0xFF].

(** [frame] followed by the bytes of its CRC. *)
Definition with_crc (frame : list Z) : list Z := frame ++ push_short (crc frame).

(** [Modbus(slave_addr, function_code, address_data, number_of, app_operation)]. *)
Definition new_request (slave_addr : Z) (function_code : FunctionCode)
    (address_data number_of : Z) (app_operation : string) : Modbus :=
  let frame :=
    [slave_addr; function_code_value function_code]
      ++ push_short address_data ++ push_short number_of in
  mkModbus app_operation (with_crc frame) [] slave_addr function_code
    address_data number_of [] ∅ false false true false (-1).

(** The constructor that writes several registers. *)
Definition new_write (slave_addr : Z) (function_code : FunctionCode)
    (address_data : Z) (values : list Z) (app_operation : string)
    (confirmed : bool) : Modbus :=
  let frame :=
    [slave_addr; function_code_value function_code]
      ++ push_short address_data
      ++ [Z.land (Z.shiftr (zlen values) 8) 0xFF; u8 (zlen values);
          Z.land (zlen values * 2) 0xFF]
      ++ flat_map push_short values in
  mkModbus app_operation (with_crc frame) [] slave_addr function_code
    address_data 0 values ∅ false false (negb confirmed) confirmed (-1).

(** ** Checks on a response *)

(** [check_crc]: the iterator [frame.end() - 2] of a shorter frame is undefined. *)
Definition check_crc (frame : list Z) : outcome bool :=
  if zlen frame <? 2 then Undefined
  else
    let f := take (List.length frame - 2) frame in
    let! h := vat frame (zlen frame - 2) in
    let! l := vat frame (zlen frame - 1) in
    let received_crc := u16 (Z.lor (Z.shiftl h 8) l) in
    Ret (received_crc =? crc f).

(** [std::equal] over frames of one length. *)
Definition frame_eqb (f g : list Z) : bool := bool_decide (f = g).

(** [check_completed]: appends the bytes received, tells whether the response
    is complete, and consumes the echo of a request that needs confirmation. *)
Definition check_completed (frame : list Z) (m0 : Modbus) : Modbus * outcome bool :=
  let m := set_response m0 (_modbus_frame_response m0 ++ frame) in
  let resp := _modbus_frame_response m in
  match _function_code m with
  | READ_HOLDING_REGISTERS =>
      if 3 <=? zlen resp then
        match vat resp 2 with
        | Ret bytes => (m, Ret (zlen resp - 2 =? bytes + 3))
        | Throw e => (m, Throw e)
        | Undefined => (m, Undefined)
        end
      else (m, Ret false)
  | PRESET_SINGLE_REGISTER =>
      (m, Ret (zlen resp =? zlen (_modbus_frame m)))
  | PRESET_MULTIPLE_REGISTER =>
      let completed :=
        if (negb (_need_be_confirmed m)
            || (_need_be_confirmed m && _confirmed m))%bool
        then 8 <=? zlen resp else false in
      if (_need_be_confirmed m && negb (_confirmed m))%bool then
        if zlen resp =? zlen (_modbus_frame m) then
          if frame_eqb resp (_modbus_frame m)
          then (set_response (set_confirmed m true) [], Ret completed)
          else (m, Ret true)
        else if zlen (_modbus_frame m) <? zlen resp then (m, Ret true)
        else (m, Ret completed)
      else (m, Ret completed)
  end.

(** ** Reception *)

(** The [while] that reads the registers: [i] walks the response two bytes at
    a time, [num_reg] counts them, [_values.insert] keeps an existing key.
    The fuel is the length of the response; [read_registers_fuel] shows the
    branch without fuel is not reached from [receive_modbus_frame]. *)
Fixpoint read_registers (fuel : nat) (resp : list Z) (address bytes i num_reg : Z)
    : M Modbus unit :=
  match fuel with
  | O => slift Undefined
  | S fuel' =>
      if i <? bytes + 3 then
        do! h := slift (vat resp i) in
        do! l := slift (vat resp (i + 1)) in
        let value := u16 (Z.lor (Z.shiftl h 8) l) in
        let num_reg' := u16 (num_reg + 1) in
        run! smodify (fun m =>
          let k := u16 (address + num_reg') in
          match _values m !! k with
          | Some _ => m
          | None => set_values m (<[k := value]> (_values m))
          end) in
        read_registers fuel' resp address bytes (i + 2) num_reg'
      else sret tt
  end.

(** The test of address, function code and CRC of a complete response. *)
Definition bad_frame : M Modbus bool :=
  do! m := sget in
  let resp := _modbus_frame_response m in
  do! a := slift (vat resp 0) in
  if negb (a =? _slave_address m) then sret true
  else
    do! f := slift (vat resp 1) in
    if negb (f =? function_code_value (_function_code m)) then sret true
    else do! c := slift (check_crc resp) in sret (negb c).

(** The branch of each function code; the value is [frame_ok]. *)
Definition receive_body : M Modbus bool :=
  do! m := sget in
  let resp := _modbus_frame_response m in
  match _function_code m with
  | READ_HOLDING_REGISTERS =>
      do! bytes := slift (vat resp 2) in
      if negb (zlen resp - 2 =? bytes + 3) then sret false
      else
        run! read_registers (List.length resp) resp (_address_data m) bytes 3 0 in
        sret true
  | PRESET_SINGLE_REGISTER =>
      do! b2 := slift (vat resp 2) in
      do! b3 := slift (vat resp 3) in
      do! b4 := slift (vat resp 4) in
      do! b5 := slift (vat resp 5) in
      let addr_response := u16 (Z.lor (Z.shiftl b2 8) b3) in
      let value := u16 (Z.lor (Z.shiftl b4 8) b5) in
      sret (negb (negb (addr_response =? _address_data m)
                  || negb (value =? _number_of_or_value m)))
  | PRESET_MULTIPLE_REGISTER =>
      if negb (_confirmed m) then sret false
      else
        do! b2 := slift (vat resp 2) in
        do! b3 := slift (vat resp 3) in
        do! b4 := slift (vat resp 4) in
        do! b5 := slift (vat resp 5) in
        let addr_response := u16 (Z.lor (Z.shiftl b2 8) b3) in
        let values := u16 (Z.lor (Z.shiftl b4 8) b5) in
        sret (negb (negb (addr_response =? _address_data m)
                    || negb (values =? zlen (_values_to_write m))
                    || negb (zlen resp =? 8)))
  end.

(** [receive_modbus_frame] on a complete response. *)
Definition receive_completed : M Modbus bool :=
  do! bad := bad_frame in
  if bad : bool then sret false else receive_body.

(** The [try] block. *)
Definition receive_try (mb_msg : list Z) : M Modbus bool :=
  do! completed := check_completed mb_msg in
  run! smodify (fun m => set_completed m completed) in
  if completed : bool then
    run! smodify (fun m => set_finished m true) in
    receive_completed
  else sret true.

(** [receive_modbus_frame]: the result is [frame_ok]; an exception of the
    [try] makes it [false] and keeps what was written before. *)
Definition receive_modbus_frame (mb_msg : list Z) (m : Modbus) : Modbus * outcome bool :=
  let '(m1, r) :=
    if Nat.eqb (List.length (_modbus_frame m)) 0 then (m, Ret false)
    else
      match receive_try mb_msg m with
      | (m', Throw _) => (m', Ret false)
      | x => x
      end in
  match r with
  | Ret false => (set_completed (set_finished m1 true) true, Ret false)
  | _ => (m1, r)
  end.

(** Several reads in a row. *)
Fixpoint receive_all (chunks : list (list Z)) (m : Modbus) : Modbus * list (outcome bool) :=
  match chunks with
  | [] => (m, [])
  | c :: cs =>
      let '(m1, r) := receive_modbus_frame c m in
      let '(m2, rs) := receive_all cs m1 in
      (m2, r :: rs)
  end.

(** ** The registers by name *)

(** [get_values] iterated: a [std::map] is walked by increasing key. *)
Definition key_le (a b : Z * Z) : Prop := fst a <= fst b.

#[global] Instance key_le_dec : RelDecision key_le.
Proof. intros a b. unfold key_le. apply _. Defined.

Definition values_in_order (v : gmap Z Z) : list (Z * Z) :=
  merge_sort key_le (map_to_list v).

(** [std::map::insert] keeps the first value of a key. *)
Definition insert_new {A} (k : string) (v : A) (m : gmap string A) : gmap string A :=
  match m !! k with Some _ => m | None => <[k := v]> m end.

Section MappedValues.
(** [FloatPosition::factor] with the arithmetic and the formatting the code
    gets from [double] and [std::fixed << std::setprecision]. *)
Context {F : Type} (render_scaled : F -> Z -> Z -> string).
(** [boost::lexical_cast<std::string>] of a short. *)
Context (lexical_cast : Z -> string).

Record FloatPosition : Type := mkFloatPosition {
  fp_name : string;
  fp_factor : F;
  fp_precision : Z
}.

(** The [for] over the fields, walking the values in step. *)
Fixpoint mapped_fields_loop (fields : list FloatPosition) (vs : list (Z * Z))
    (acc : gmap string string) : gmap string string :=
  match fields, vs with
  | f :: fs, (_, v) :: vs' =>
      let acc' :=
        if String.eqb (fp_name f) "" then acc
        else insert_new (fp_name f) (render_scaled (fp_factor f) v (fp_precision f)) acc in
      mapped_fields_loop fs vs' acc'
  | _, _ => acc
  end.

Definition get_mapped_values (mapped_fields : list FloatPosition) (m : Modbus)
    : gmap string string :=
  let vs := values_in_order (_values m) in
  match mapped_fields with
  | [] =>
      fold_left (fun acc kv => insert_new (lexical_cast (fst kv)) (lexical_cast (snd kv)) acc) vs ∅
  | _ =>
      if Nat.eqb (List.length mapped_fields) (size (_values m))
      then mapped_fields_loop mapped_fields vs ∅
      else ∅
  end.
End MappedValues.

(** ** The CRC is the bitwise CRC-16 of the Modbus specification

    The reference: a 16-bit register, one [xor] and eight conditional shifts
    per byte with the reflected polynomial [0xA001].  The code returns it with
    its bytes swapped, the order they go on the wire. *)
Definition crc16_shift (r : Z) : Z :=
  Z.lxor (Z.shiftr r 1) (if Z.odd r then 0xA001 else 0).

Fixpoint crc16_shifts (n : nat) (r : Z) : Z :=
  match n with O => r | S n' => crc16_shift (crc16_shifts n' r) end.

Definition crc16_byte (r b : Z) : Z := crc16_shifts 8 (Z.lxor r b).

Definition crc16 (frame : list Z) : Z := fold_left crc16_byte frame 0xFFFF.

Definition swap_bytes (r : Z) : Z := 256 * (r mod 256) + r / 256.

Lemma crc16_shift_lxor a b :
  crc16_shift (Z.lxor a b) = Z.lxor (crc16_shift a) (crc16_shift b).
Proof.
  unfold crc16_shift. rewrite Z.shiftr_lxor, <- !Z.bit0_odd, Z.lxor_spec.
  destruct (Z.testbit a 0), (Z.testbit b 0); cbn [xorb];
    apply Z.bits_inj'; intros n Hn; rewrite ?Z.lxor_spec, ?Z.bits_0;
    repeat match goal with |- context [Z.testbit ?x n] => destruct (Z.testbit x n) end;
    reflexivity.
Qed.

Lemma crc16_shifts_lxor n a b :
  crc16_shifts n (Z.lxor a b)
  = Z.lxor (crc16_shifts n a) (crc16_shifts n b).
Proof.
  induction n as [|n IH]; [reflexivity|].
  cbn [crc16_shifts]. by rewrite IH, crc16_shift_lxor.
Qed.

#[global] Opaque crc16_shifts.

(** Computed on the 256 bytes: the tables hold the eight shifts of their
    index, and the shifts of a high byte bring it down. *)
Definition table_entry_ok (i : Z) : bool :=
  (crc16_shifts 8 i
     =? 256 * nth (Z.to_nat i) table_crc_lo 0 + nth (Z.to_nat i) table_crc_hi 0)
  && (crc16_shifts 8 (256 * i) =? i)
  && is_byteb (nth (Z.to_nat i) table_crc_lo 0)
  && is_byteb (nth (Z.to_nat i) table_crc_hi 0).

Lemma table_entries_ok : forallb table_entry_ok (seqZ 0 256) = true.
Proof. vm_compute. reflexivity. Qed.

Lemma table_entry i :
  is_byte i ->
  let l := nth (Z.to_nat i) table_crc_lo 0 in
  let h := nth (Z.to_nat i) table_crc_hi 0 in
  crc16_shifts 8 i = 256 * l + h
  /\ crc16_shifts 8 (256 * i) = i /\ is_byte l /\ is_byte h.
Proof.
  intros Hi. pose proof (forallb_seqZ _ _ table_entries_ok i Hi) as H.
  unfold table_entry_ok in H. breflect. rewrite !is_byteb_spec in *. auto.
Qed.

(** Both registers of the code are bytes. *)
Definition crc_state_ok (st : Z * Z) : Prop := is_byte (fst st) /\ is_byte (snd st).

Lemma crc_step_ok st b : crc_state_ok st -> is_byte b -> crc_state_ok (crc_step st b).
Proof.
  destruct st as [h l]. intros [Hh Hl] Hb. cbn in Hh, Hl.
  destruct (table_entry (Z.lxor h b)) as (_ & _ & H1 & H2); [auto with iota|].
  split; cbn; auto with iota.
Qed.

Lemma crc_fold_ok frame : forall st,
  crc_state_ok st -> Forall is_byte frame -> crc_state_ok (fold_left crc_step frame st).
Proof.
  induction frame as [|b frame IH]; intros st Hst Hf; [exact Hst|].
  inversion_clear Hf. cbn. apply IH; [by apply crc_step_ok|assumption].
Qed.

Lemma crc_init_ok : crc_state_ok (0xFF, 0xFF).
Proof. split; unfold is_byte; cbn; lia. Qed.

(** The register of the reference that the pair stands for. *)
Definition crc_register (st : Z * Z) : Z := 256 * snd st + fst st.

Lemma lxor_split h l : is_byte h -> is_byte l ->
  256 * l + h = Z.lxor (256 * l) h.
Proof.
  intros Hh Hl. rewrite <- (lor_shift8 l h Hh).
  replace (256 * l) with (Z.shiftl l 8) by (rewrite Z.shiftl_mul_pow2 by lia; lia).
  symmetry. apply Z.lxor_lor, Z.bits_inj'. intros n Hn. rewrite Z.land_spec, Z.bits_0.
  destruct (Z.lt_ge_cases n 8) as [Hlt|Hge].
  - by rewrite Z.shiftl_spec_low by lia.
  - rewrite <- (Z.mod_small h (2 ^ 8)) by (unfold is_byte in Hh; lia).
    rewrite Z.mod_pow2_bits_high by lia. apply andb_false_r.
Qed.

Lemma crc_step_register st b : crc_state_ok st -> is_byte b ->
  crc_register (crc_step st b) = crc16_byte (crc_register st) b.
Proof.
  destruct st as [h l]. intros [Hh Hl] Hb. cbn in Hh, Hl.
  assert (Hi : is_byte (Z.lxor h b)) by auto with iota.
  destruct (table_entry _ Hi) as (H1 & _ & H3 & H4).
  destruct (table_entry _ Hl) as (_ & H2 & _ & _).
  unfold crc16_byte, crc_register. cbn [fst snd crc_step].
  rewrite (lxor_split h l), Z.lxor_assoc by assumption.
  rewrite crc16_shifts_lxor, H2, H1.
  rewrite !(lxor_split _ (nth _ table_crc_lo 0)) by auto with iota.
  rewrite <- !Z.lxor_assoc. f_equal. apply Z.lxor_comm.
Qed.

Lemma crc_fold_register frame : forall st,
  crc_state_ok st -> Forall is_byte frame ->
  crc_register (fold_left crc_step frame st) = fold_left crc16_byte frame (crc_register st).
Proof.
  induction frame as [|b frame IH]; intros st Hst Hf; [reflexivity|].
  inversion_clear Hf.
  rewrite !fold_left_cons, IH by (assumption || by apply crc_step_ok).
  by rewrite crc_step_register by assumption.
Qed.

Lemma crc_unfold frame : Forall is_byte frame ->
  crc frame = 256 * fst (fold_left crc_step frame (255, 255))
              + snd (fold_left crc_step frame (255, 255)).
Proof.
  intros Hf. unfold crc.
  pose proof (crc_fold_ok frame _ crc_init_ok Hf) as [H1 H2].
  destruct (fold_left crc_step frame (255, 255)) as [h l]. by apply lor_shift8.
Qed.

Lemma crc_range frame : Forall is_byte frame -> 0 <= crc frame < 65536.
Proof.
  intros Hf. rewrite crc_unfold by assumption.
  pose proof (crc_fold_ok frame _ crc_init_ok Hf) as [H1 H2].
  unfold is_byte in *. lia.
Qed.

Lemma swap_of_parts h l : is_byte h ->
  256 * ((256 * l + h) mod 256) + (256 * l + h) / 256 = 256 * h + l.
Proof.
  intros Hh. replace (256 * l + h) with (h + l * 256) by lia.
  rewrite Z.mod_add, Z.div_add by lia. unfold is_byte in Hh.
  rewrite Z.mod_small, Z.div_small by lia. lia.
Qed.

(** C28. The table-driven [crc] of the code computes, on every frame of bytes,
    the bitwise reflected CRC-16 with polynomial 0xA001 and initial value
    0xFFFF of the Modbus specification, low byte first. *)
Theorem crc_is_crc16 (frame : list Z) (Hf : Forall is_byte frame) :
  crc frame = swap_bytes (crc16 frame).
Proof.
  rewrite crc_unfold by assumption. unfold crc16, swap_bytes.
  replace 0xFFFF with (crc_register (255, 255)) by reflexivity.
  rewrite <- crc_fold_register by (assumption || apply crc_init_ok).
  pose proof (crc_fold_ok frame _ crc_init_ok Hf) as [H1 H2].
  unfold crc_register, is_byte in *. destruct (fold_left _ _ _) as [h l]. cbn in *.
  rewrite (swap_of_parts h l) by (unfold is_byte; lia). reflexivity.
Qed.

Lemma crc_is_crc16_witness :
  Forall is_byte [0x01; 0x06; 0x02; 0xDF; 0x00; 0x01]
  /\ crc [0x01; 0x06; 0x02; 0xDF; 0x00; 0x01] = 0x7848
  /\ crc [0x01; 0x06; 0x02; 0xDF; 0x00; 0x01]
     = swap_bytes (crc16 [0x01; 0x06; 0x02; 0xDF; 0x00; 0x01]).
Proof.
  assert (H : Forall is_byte [0x01; 0x06; 0x02; 0xDF; 0x00; 0x01])
    by solve_bytes.
  split; [exact H|]. split; [vm_compute; reflexivity|].
  exact (crc_is_crc16 _ H).
Defined.

(** ** Error detection *)

(** The low table is a permutation of the bytes: its inverse, by search. *)
Definition lo_index (v : Z) : Z :=
  match list_find (fun x => x = v) table_crc_lo with
  | Some (i, _) => Z.of_nat i
  | None => 0
  end.

Lemma lo_index_ok :
  forallb (fun i => lo_index (nth (Z.to_nat i) table_crc_lo 0) =? i) (seqZ 0 256) = true.
Proof. vm_compute. reflexivity. Qed.

Lemma table_lo_inj i j : is_byte i -> is_byte j ->
  nth (Z.to_nat i) table_crc_lo 0 = nth (Z.to_nat j) table_crc_lo 0 -> i = j.
Proof.
  intros Hi Hj E.
  pose proof (forallb_seqZ _ _ lo_index_ok i Hi) as H1.
  pose proof (forallb_seqZ _ _ lo_index_ok j Hj) as H2.
  cbn beta in H1, H2. rewrite E in H1. breflect. congruence.
Qed.

(** Equal states after one more byte: the index is the one of the low
    register, and the byte is determined by the state before, or the reverse. *)
Lemma crc_step_inv st st' b b' :
  crc_state_ok st -> crc_state_ok st' -> is_byte b -> is_byte b' ->
  crc_step st b = crc_step st' b' ->
  Z.lxor (fst st) b = Z.lxor (fst st') b' /\ snd st = snd st'.
Proof.
  destruct st as [h l], st' as [h' l']. intros [Hh Hl] [Hh' Hl'] Hb Hb' E.
  cbn in Hh, Hl, Hh', Hl'. unfold crc_step in E. injection E as E1 E2.
  apply table_lo_inj in E2; [|auto with iota|auto with iota].
  rewrite E2 in E1. apply lxor_inj_r in E1. auto.
Qed.

Lemma crc_fold_inj frame : forall st st',
  crc_state_ok st -> crc_state_ok st' -> Forall is_byte frame ->
  fold_left crc_step frame st = fold_left crc_step frame st' -> st = st'.
Proof.
  induction frame as [|b frame IH]; intros st st' Hst Hst' Hf E; [exact E|].
  inversion_clear Hf. rewrite !fold_left_cons in E.
  apply IH in E; [|by apply crc_step_ok|by apply crc_step_ok|assumption].
  apply crc_step_inv in E as [E1 E2]; [|assumption..].
  destruct st, st'. cbn in *. apply lxor_inj_r in E1. congruence.
Qed.

(** Two bytes are determined by the states around them. *)
Lemma crc_two_bytes_inj st a b a' b' :
  crc_state_ok st -> Forall is_byte [a; b; a'; b'] ->
  fold_left crc_step [a; b] st = fold_left crc_step [a'; b'] st -> a = a' /\ b = b'.
Proof.
  intros Hst Hf E. rewrite !Forall_cons in Hf. destruct Hf as (Ha & Hb & Ha' & Hb' & _).
  cbn [fold_left] in E.
  pose proof (crc_step_ok st a Hst Ha) as Hs. pose proof (crc_step_ok st a' Hst Ha') as Hs'.
  apply crc_step_inv in E as [E1 E2]; [|assumption..].
  destruct st as [h l]. destruct Hst as [Hh Hl]. cbn in Hh, Hl.
  cbn [crc_step fst snd] in E1, E2.
  apply table_lo_inj in E2; [|auto with iota|auto with iota].
  rewrite E2 in E1. apply lxor_inj_l in E1, E2. auto.
Qed.

Lemma crc_state_of_crc f g :
  Forall is_byte f -> Forall is_byte g -> crc f = crc g ->
  fold_left crc_step f (255, 255) = fold_left crc_step g (255, 255).
Proof.
  intros Hf Hg. rewrite !crc_unfold by assumption.
  pose proof (crc_fold_ok f _ crc_init_ok Hf) as [H1 H2].
  pose proof (crc_fold_ok g _ crc_init_ok Hg) as [H3 H4].
  destruct (fold_left crc_step f _) as [h l], (fold_left crc_step g _) as [h' l'].
  unfold is_byte in *. cbn in *. intros E. f_equal; lia.
Qed.

(** Error detection: a transmission error confined to two consecutive
    bytes of a frame (a burst of up to 16 bits on byte boundaries) always
    changes the value the code computes with [crc]. *)
Theorem crc_detects_burst (pre post : list Z) (a b a' b' : Z)
    (Hf : Forall is_byte (pre ++ a :: b :: post))
    (Hg : Forall is_byte (pre ++ a' :: b' :: post))
    (Hne : (a, b) <> (a', b')) :
  crc (pre ++ a :: b :: post) <> crc (pre ++ a' :: b' :: post).
Proof.
  intros E. apply crc_state_of_crc in E; [|assumption..].
  rewrite !Forall_app, !Forall_cons in *.
  destruct Hf as (Hp & Ha & Hb & Hq), Hg as (_ & Ha' & Hb' & _).
  change (a :: b :: post) with ([a; b] ++ post) in E.
  change (a' :: b' :: post) with ([a'; b'] ++ post) in E.
  rewrite !fold_left_app in E.
  pose proof (crc_fold_ok pre _ crc_init_ok Hp) as Hst.
  apply crc_fold_inj in E; [|apply crc_fold_ok; auto..|assumption].
  apply crc_two_bytes_inj in E as [-> ->]; [by apply Hne|assumption|].
  solve_bytes.
Qed.

Lemma crc_detects_burst_witness :
  crc ([1; 6] ++ 2 :: 223 :: [0; 1]) <> crc ([1; 6] ++ 3 :: 222 :: [0; 1]).
Proof.
  apply (crc_detects_burst [1; 6] [0; 1] 2 223 3 222);
    [solve_bytes | solve_bytes | discriminate].
Defined.

(** ** Request frames *)

Definition is_short (z : Z) : Prop := 0 <= z < 65536.

Lemma push_short_bytes v : Forall is_byte (push_short v).
Proof. unfold push_short. rewrite !land_255_u8. repeat (apply Forall_cons_2; [auto with iota|]). constructor. Qed.

Lemma flat_push_short_bytes vs : Forall is_byte (flat_map push_short vs).
Proof.
  induction vs as [|v vs IH]; [constructor|]. cbn [flat_map].
  apply Forall_app. split; [apply push_short_bytes|exact IH].
Qed.

Lemma flat_push_short_length vs :
  List.length (flat_map push_short vs) = (2 * List.length vs)%nat.
Proof. induction vs as [|v vs IH]; [reflexivity|]. cbn. rewrite IH. lia. Qed.

(** A short read back from two bytes. *)
Lemma read_short a b : is_byte a -> is_byte b ->
  u16 (Z.lor (Z.shiftl a 8) b) = 256 * a + b.
Proof.
  intros Ha Hb. rewrite lor_shift8 by assumption.
  apply u16_small. unfold is_byte in *. lia.
Qed.

Lemma short_bytes v : is_short v ->
  Z.land (Z.shiftr v 8) 0xFF = v / 256 /\ Z.land v 0xFF = v mod 256
  /\ is_byte (v / 256) /\ is_byte (v mod 256).
Proof.
  unfold is_short. intros Hv. rewrite !land_255_u8, shiftr8.
  assert (is_byte (v / 256)) by (unfold is_byte; dlia).
  assert (is_byte (v mod 256)) by (apply u8_byte).
  rewrite (u8_small (v / 256)) by assumption. auto.
Qed.

Lemma push_short_eq v : is_short v -> push_short v = [v / 256; v mod 256].
Proof. intros Hv. unfold push_short. by destruct (short_bytes v Hv) as (-> & -> & _). Qed.

Lemma read_push_short v : is_short v ->
  u16 (Z.lor (Z.shiftl (v / 256) 8) (v mod 256)) = v.
Proof.
  intros Hv. destruct (short_bytes v Hv) as (_ & _ & H1 & H2).
  rewrite read_short by assumption. dlia.
Qed.

Lemma with_crc_bytes f : Forall is_byte f -> Forall is_byte (with_crc f).
Proof. intros. apply Forall_app. split; [assumption|apply push_short_bytes]. Qed.

(** [check_crc] accepts exactly the frames that end with their CRC. *)
Lemma check_crc_iff f h l : Forall is_byte f -> is_byte h -> is_byte l ->
  check_crc (f ++ [h; l]) = Ret (bool_decide (f ++ [h; l] = with_crc f)).
Proof.
  intros Hf Hh Hl. unfold check_crc. autorewrite with iota.
  change (zlen (A := Z) []) with 0. pose proof (zlen_nonneg f).
  destruct (_ <? 2) eqn:E; breflect; [lia|].
  assert (Hn : List.length (f ++ [h; l]) = (List.length f + 2)%nat)
    by (rewrite length_app; reflexivity).
  rewrite Hn. replace (List.length f + 2 - 2)%nat with (List.length f) by lia.
  rewrite take_app_length.
  rewrite (vat_lookup _ _ h), (vat_lookup _ _ l); try (unfold zlen in *; lia).
  - cbn [obind]. rewrite read_short by assumption. f_equal.
    pose proof (crc_range f Hf) as Hr.
    apply eq_true_iff_eq. rewrite Z.eqb_eq, bool_decide_eq_true. unfold with_crc.
    rewrite push_short_eq by exact Hr. split.
    + intros <-. f_equal. unfold is_byte in *. f_equal; [|f_equal]; dlia.
    + intros E2. apply app_inv_head in E2. injection E2 as -> ->. dlia.
  - rewrite lookup_app_r by (unfold zlen in *; lia).
    replace (_ - _)%nat with 1%nat by (unfold zlen in *; lia). reflexivity.
  - rewrite lookup_app_r by (unfold zlen in *; lia).
    replace (_ - _)%nat with 0%nat by (unfold zlen in *; lia). reflexivity.
Qed.

Lemma check_crc_with_crc f : Forall is_byte f -> check_crc (with_crc f) = Ret true.
Proof.
  intros Hf. pose proof (crc_range f Hf) as Hr.
  destruct (short_bytes _ Hr) as (_ & _ & H1 & H2).
  unfold with_crc at 1. rewrite push_short_eq, check_crc_iff by assumption.
  unfold with_crc. rewrite push_short_eq by assumption. by rewrite bool_decide_true.
Qed.

Lemma request_body_bytes slave fc addr n vs : is_byte slave ->
  Forall is_byte ([slave; function_code_value fc] ++ push_short addr ++ push_short n)
  /\ Forall is_byte ([slave; function_code_value fc] ++ push_short addr
            ++ [Z.land (Z.shiftr (zlen vs) 8) 0xFF; u8 (zlen vs); Z.land (zlen vs * 2) 0xFF]
            ++ flat_map push_short vs).
Proof.
  intros Hs.
  assert (Hfc : is_byte (function_code_value fc)) by (destruct fc; unfold is_byte; cbn; lia).
  split.
  - apply Forall_app; split; [solve_bytes|]. apply Forall_app; split; apply push_short_bytes.
  - apply Forall_app; split; [solve_bytes|]. apply Forall_app; split; [apply push_short_bytes|].
    apply Forall_app; split; [|apply flat_push_short_bytes].
    rewrite !land_255_u8. repeat (apply Forall_cons_2; [apply u8_byte|]). constructor.
Qed.

Lemma request_frames_bytes slave fc addr n vs op conf : is_byte slave ->
  Forall is_byte (_modbus_frame (new_request slave fc addr n op))
  /\ Forall is_byte (_modbus_frame (new_write slave fc addr vs op conf)).
Proof.
  intros Hs. destruct (request_body_bytes slave fc addr n vs Hs).
  split; by apply with_crc_bytes.
Qed.

(** Every request frame the constructors build is made of bytes, starts
    with the slave address and the function code, carries a CRC that
    [check_crc] accepts, and has 8 bytes (one register) or 9 bytes plus two
    per register (several registers). *)
Theorem request_frames_ok (slave : Z) (fc : FunctionCode) (addr n : Z) (vs : list Z)
    (op : string) (conf : bool) (Hs : is_byte slave) :
  let f := _modbus_frame (new_request slave fc addr n op) in
  let g := _modbus_frame (new_write slave fc addr vs op conf) in
  Forall is_byte f /\ Forall is_byte g
  /\ take 2 f = [slave; function_code_value fc]
  /\ take 2 g = [slave; function_code_value fc]
  /\ check_crc f = Ret true /\ check_crc g = Ret true
  /\ zlen f = 8 /\ zlen g = 9 + 2 * zlen vs.
Proof.
  destruct (request_body_bytes slave fc addr n vs Hs) as [Hb1 Hb2].
  cbn zeta. repeat split; try reflexivity;
    try (apply with_crc_bytes; assumption); try (apply check_crc_with_crc; assumption).
  unfold new_write, with_crc. cbn [_modbus_frame]. unfold zlen.
  rewrite !length_app, flat_push_short_length. cbn. lia.
Qed.

Lemma request_frames_ok_witness :
  _modbus_frame (new_request 1 READ_HOLDING_REGISTERS 2500 25 "AppOperation")
    = [0x01; 0x03; 0x09; 0xC4; 0x00; 0x19; 0xC6; 0x61]
  /\ _modbus_frame (new_write 0x11 PRESET_MULTIPLE_REGISTER 1 [10; 258] "AppOperation" false)
    = [0x11; 0x10; 0x00; 0x01; 0x00; 0x02; 0x04; 0x00; 0x0A; 0x01; 0x02; 0xC6; 0xF0]
  /\ check_crc (_modbus_frame (new_write 0x11 PRESET_MULTIPLE_REGISTER 1 [10; 258] "" false))
     = Ret true.
Proof.
  assert (H : is_byte 0x11) by (unfold is_byte; lia).
  destruct (request_frames_ok 0x11 PRESET_MULTIPLE_REGISTER 1 0 [10; 258] "" false H)
    as (_ & _ & _ & _ & _ & H6 & _).
  split; [vm_compute; reflexivity|]. split; [vm_compute; reflexivity|exact H6].
Defined.

(** ** Reception of a read response *)

(** What the loop adds to [_values] for registers [vs] after [num_reg] ones. *)
Fixpoint insert_registers (address num_reg : Z) (vs : list Z) (acc : gmap Z Z) : gmap Z Z :=
  match vs with
  | [] => acc
  | v :: vs' =>
      let num_reg' := u16 (num_reg + 1) in
      let k := u16 (address + num_reg') in
      insert_registers address num_reg' vs'
        (match acc !! k with Some _ => acc | None => <[k := v]> acc end)
  end.

Lemma set_values_id m : set_values m (_values m) = m.
Proof. by destruct m. Qed.

Lemma set_values_twice m a b : set_values (set_values m a) b = set_values m b.
Proof. reflexivity. Qed.

Lemma slift_bind_ret {S A B} (a : A) (k : A -> M S B) (s : S) :
  sbind (slift (Ret a)) k s = k a s.
Proof. reflexivity. Qed.

Lemma sget_bind {S B} (k : S -> M S B) (s : S) : sbind sget k s = k s s.
Proof. reflexivity. Qed.

(** Only the header and the CRC decide whether the branches are reached. *)
Lemma receive_completed_good m resp :
  _modbus_frame_response m = resp -> vat resp 0 = Ret (_slave_address m) ->
  vat resp 1 = Ret (function_code_value (_function_code m)) ->
  check_crc resp = Ret true -> receive_completed m = receive_body m.
Proof.
  intros Hr H0 H1 Hc. unfold receive_completed, bad_frame.
  unfold sbind at 1. rewrite sget_bind, Hr, H0, slift_bind_ret, Z.eqb_refl. cbn [negb].
  rewrite H1, slift_bind_ret, Z.eqb_refl. cbn [negb]. rewrite Hc. reflexivity.
Qed.

(** The loop over a response whose bytes from [i] are the registers [vs]. *)
Lemma read_registers_spec vs : forall fuel resp address bytes i num pre post m,
  resp = pre ++ flat_map push_short vs ++ post ->
  i = zlen pre -> bytes + 3 = i + 2 * zlen vs ->
  (List.length vs < fuel)%nat -> Forall is_short vs ->
  read_registers fuel resp address bytes i num m
  = (set_values m (insert_registers address num vs (_values m)), Ret tt).
Proof.
  induction vs as [|v vs IH]; intros fuel resp address bytes i num pre post m
    Hresp Hi Hb Hfuel Hv; (destruct fuel as [|fuel]; [cbn in Hfuel; lia|]); cbn [read_registers].
  - unfold zlen in Hb. cbn [List.length] in Hb.
    destruct (_ <? _) eqn:E; breflect; [lia|]. cbn. by rewrite set_values_id.
  - inversion_clear Hv as [|? ? Hv0 Hvs]. autorewrite with iota in Hb.
    pose proof (zlen_nonneg vs). pose proof (zlen_nonneg pre).
    destruct (_ <? _) eqn:E; breflect; [|lia].
    cbn [flat_map] in Hresp. rewrite push_short_eq in Hresp by assumption.
    rewrite (vat_lookup resp i (v / 256)); [|lia|].
    2: { rewrite Hresp, lookup_app_r by (unfold zlen in *; lia).
         replace (_ - _)%nat with 0%nat by (unfold zlen in *; lia). reflexivity. }
    rewrite (vat_lookup resp (i + 1) (v mod 256)); [|lia|].
    2: { rewrite Hresp, lookup_app_r by (unfold zlen in *; lia).
         replace (_ - _)%nat with 1%nat by (unfold zlen in *; lia). reflexivity. }
    rewrite !slift_bind_ret, read_push_short by assumption.
    cbn [insert_registers sbind smodify].
    rewrite (IH fuel resp address bytes (i + 2) (u16 (num + 1))
               (pre ++ [v / 256; v mod 256]) post).
    + f_equal. destruct (_values m !! u16 (address + u16 (num + 1))) eqn:Ek; reflexivity.
    + rewrite Hresp, <- !app_assoc. reflexivity.
    + rewrite zlen_app. unfold zlen at 2. cbn. lia.
    + lia.
    + cbn [List.length] in Hfuel. lia.
    + assumption.
Qed.

(** The key of the [i]-th register, counted from 0. *)
Definition register_key (address i : Z) : Z := u16 (address + i + 1).

Lemma register_key_inj address i j :
  0 <= i < 65536 -> 0 <= j < 65536 -> register_key address i = register_key address j -> i = j.
Proof. unfold register_key, u16. intros. dlia. Qed.

Lemma insert_registers_other address vs k : forall num acc,
  0 <= num -> num + zlen vs < 65536 ->
  (forall i, num <= i < num + zlen vs -> register_key address i <> k) ->
  insert_registers address num vs acc !! k = acc !! k.
Proof.
  induction vs as [|v vs IH]; intros num acc Hn Hl Hk; [reflexivity|].
  autorewrite with iota in *. pose proof (zlen_nonneg vs).
  cbn [insert_registers]. rewrite (u16_small (num + 1)) by lia.
  rewrite IH; [|lia|lia|intros i Hi; apply Hk; lia].
  replace (address + (num + 1)) with (address + num + 1) by lia.
  fold (register_key address num).
  destruct (acc !! register_key address num) eqn:E; [reflexivity|].
  apply lookup_insert_ne. apply Hk. lia.
Qed.

Lemma insert_registers_lookup address vs : forall num acc,
  0 <= num -> num + zlen vs < 65536 ->
  (forall i, num <= i < num + zlen vs -> acc !! register_key address i = None) ->
  forall j v, vs !! j = Some v ->
  insert_registers address num vs acc !! register_key address (num + Z.of_nat j) = Some v.
Proof.
  induction vs as [|w vs IH]; intros num acc Hn Hl Hacc j v Hj; [discriminate|].
  autorewrite with iota in *. pose proof (zlen_nonneg vs).
  cbn [insert_registers]. rewrite (u16_small (num + 1)) by lia.
  replace (address + (num + 1)) with (address + num + 1) by lia.
  fold (register_key address num). rewrite Hacc by lia.
  destruct j as [|j]; cbn in Hj.
  - injection Hj as ->. rewrite Z.add_0_r, insert_registers_other; [|lia|lia|].
    + apply lookup_insert_eq.
    + intros i Hi E. apply register_key_inj in E; lia.
  - replace (num + Z.of_nat (S j)) with (num + 1 + Z.of_nat j) by lia.
    apply IH; [lia|lia| |assumption].
    intros i Hi. rewrite lookup_insert_ne; [apply Hacc; lia|].
    intros E. apply register_key_inj in E; lia.
Qed.

Lemma insert_registers_size address vs : forall num acc,
  0 <= num -> num + zlen vs < 65536 ->
  (forall i, num <= i < num + zlen vs -> acc !! register_key address i = None) ->
  size (insert_registers address num vs acc) = (size acc + List.length vs)%nat.
Proof.
  induction vs as [|w vs IH]; intros num acc Hn Hl Hacc; [cbn; lia|].
  autorewrite with iota in *. pose proof (zlen_nonneg vs).
  cbn [insert_registers]. rewrite (u16_small (num + 1)) by lia.
  replace (address + (num + 1)) with (address + num + 1) by lia.
  fold (register_key address num). rewrite Hacc by lia.
  rewrite IH; [|lia|lia|].
  - rewrite map_size_insert_None by (apply Hacc; lia). cbn [List.length]. lia.
  - intros i Hi. rewrite lookup_insert_ne; [apply Hacc; lia|].
    intros E. apply register_key_inj in E; lia.
Qed.

(** The response of a slave to a read of registers with the values [vs]. *)
Definition read_response (slave : Z) (vs : list Z) : list Z :=
  with_crc ([slave; 0x03; 2 * zlen vs] ++ flat_map push_short vs).

Lemma read_response_length slave vs : zlen (read_response slave vs) = 2 * zlen vs + 5.
Proof.
  unfold read_response, with_crc, zlen.
  rewrite !length_app, flat_push_short_length. cbn. lia.
Qed.

Lemma read_response_bytes_field slave vs r rest :
  r ++ rest = read_response slave vs -> 3 <= zlen r -> vat r 2 = Ret (2 * zlen vs).
Proof.
  intros E Hr. apply vat_lookup; [lia|].
  assert (Hl : (r ++ rest) !! 2%nat = Some (2 * zlen vs)) by (rewrite E; reflexivity).
  rewrite lookup_app_l in Hl by (unfold zlen in Hr; lia). exact Hl.
Qed.

(** A read request whose response so far is [r]. *)
Definition reading (slave addr n : Z) (op : string) (r : list Z) : Modbus :=
  set_response (new_request slave READ_HOLDING_REGISTERS addr n op) r.

Lemma reading_partial slave addr n op vs r c rest :
  r ++ c ++ rest = read_response slave vs -> rest <> [] ->
  receive_modbus_frame c (reading slave addr n op r)
  = (reading slave addr n op (r ++ c), Ret true).
Proof.
  intros E Hrest. rewrite app_assoc in E.
  assert (Hlen : zlen (r ++ c) < 2 * zlen vs + 5).
  { rewrite <- (read_response_length slave vs), <- E, (zlen_app (r ++ c) rest).
    destruct rest; [done|]. rewrite zlen_cons. pose proof (zlen_nonneg rest). lia. }
  assert (Hcc : check_completed c (reading slave addr n op r)
                = (reading slave addr n op (r ++ c), Ret false)).
  { unfold check_completed, reading. cbn [_modbus_frame_response set_response _function_code new_request].
    destruct (3 <=? zlen (r ++ c)) eqn:H3; breflect; [|reflexivity].
    rewrite (read_response_bytes_field slave vs _ rest E H3).
    destruct (_ =? _) eqn:E5; breflect; [lia|reflexivity]. }
  unfold receive_modbus_frame. cbn [reading set_response new_request _modbus_frame].
  change (Nat.eqb (List.length (with_crc _)) 0) with false. cbn [negb].
  unfold receive_try. unfold sbind at 1. rewrite Hcc. reflexivity.
Qed.

(** The object once the read has completed with the registers [vs]. *)
Definition read_done (slave addr n : Z) (op : string) (vs : list Z) : Modbus :=
  set_values
    (set_finished (set_completed (reading slave addr n op (read_response slave vs)) true) true)
    (insert_registers addr 0 vs ∅).

Lemma read_response_body_bytes slave vs : is_byte slave -> zlen vs <= 127 ->
  Forall is_byte ([slave; 0x03; 2 * zlen vs] ++ flat_map push_short vs).
Proof.
  intros Hs Hl. pose proof (zlen_nonneg vs). apply Forall_app.
  split; [solve_bytes|apply flat_push_short_bytes].
Qed.

Lemma reading_last slave addr n op vs r c :
  is_byte slave -> zlen vs <= 127 -> Forall is_short vs ->
  r ++ c = read_response slave vs ->
  receive_modbus_frame c (reading slave addr n op r)
  = (read_done slave addr n op vs, Ret true).
Proof.
  intros Hs Hl Hvs E. pose proof (zlen_nonneg vs).
  pose proof (read_response_length slave vs) as Hlen.
  assert (H2 : vat (read_response slave vs) 2 = Ret (2 * zlen vs)).
  { apply (read_response_bytes_field slave vs _ []); [apply app_nil_r|lia]. }
  assert (Hcc : check_completed c (reading slave addr n op r)
                = (reading slave addr n op (read_response slave vs), Ret true)).
  { unfold check_completed, reading. cbn [_modbus_frame_response set_response _function_code new_request].
    rewrite E. destruct (3 <=? _) eqn:H3; breflect; [|lia].
    rewrite H2. replace (_ =? _) with true by (symmetry; apply Z.eqb_eq; lia). reflexivity. }
  unfold receive_modbus_frame. cbn [reading set_response new_request _modbus_frame].
  change (Nat.eqb (List.length (with_crc _)) 0) with false.
  unfold receive_try. unfold sbind at 1. rewrite Hcc. cbn [sbind smodify].
  rewrite (receive_completed_good _ (read_response slave vs));
    [|reflexivity|reflexivity|reflexivity
     |exact (check_crc_with_crc _ (read_response_body_bytes slave vs Hs Hl))].
  set (m := set_finished _ true). unfold receive_body.
  rewrite sget_bind. change (_function_code m) with READ_HOLDING_REGISTERS.
  change (_modbus_frame_response m) with (read_response slave vs).
  rewrite H2, slift_bind_ret.
  replace (_ =? _) with true by (symmetry; apply Z.eqb_eq; lia). cbn [negb].
  unfold sbind at 1.
  erewrite (read_registers_spec vs _ _ _ _ 3 0 [slave; 3; 2 * zlen vs]
              (push_short (crc ([slave; 3; 2 * zlen vs] ++ flat_map push_short vs))));
    [reflexivity| |reflexivity|lia| |assumption].
  - unfold read_response, with_crc. by rewrite <- app_assoc.
  - unfold zlen in *. lia.
Qed.

Lemma receive_all_partial chunks : forall slave addr n op vs r rest,
  r ++ List.concat chunks ++ rest = read_response slave vs -> rest <> [] ->
  receive_all chunks (reading slave addr n op r)
  = (reading slave addr n op (r ++ List.concat chunks), map (fun _ => Ret true) chunks).
Proof.
  induction chunks as [|c cs IH]; intros slave addr n op vs r rest E Hrest.
  - cbn. by rewrite app_nil_r.
  - cbn [List.concat] in E. cbn [receive_all].
    rewrite (reading_partial slave addr n op vs r c (List.concat cs ++ rest)).
    + rewrite (IH _ _ _ _ vs _ rest).
      * cbn [List.concat map]. by rewrite app_assoc.
      * by rewrite <- !app_assoc in *.
      * assumption.
    + by rewrite <- !app_assoc in *.
    + intros H. apply app_eq_nil in H. tauto.
Qed.

Lemma receive_all_app cs ds m :
  receive_all (cs ++ ds) m
  = let '(m1, rs) := receive_all cs m in
    let '(m2, rs') := receive_all ds m1 in (m2, rs ++ rs').
Proof.
  revert m. induction cs as [|c cs IH]; intros m; cbn.
  - by destruct (receive_all ds m).
  - destruct (receive_modbus_frame c m) as [m1 r]. rewrite IH.
    destruct (receive_all cs m1) as [m2 rs]. by destruct (receive_all ds m2).
Qed.

Lemma read_done_values slave addr n op vs :
  zlen vs <= 127 ->
  size (_values (read_done slave addr n op vs)) = List.length vs
  /\ forall j v, vs !! j = Some v ->
     _values (read_done slave addr n op vs) !! register_key addr (Z.of_nat j) = Some v.
Proof.
  intros Hl. cbn. split.
  - rewrite insert_registers_size; [|lia|lia|intros; apply lookup_empty].
    by rewrite map_size_empty.
  - intros j v Hj.
    apply (insert_registers_lookup addr vs 0 ∅); [lia|lia|intros; apply lookup_empty|assumption].
Qed.

(** C29. Reassembly and decoding of a read.  However the slave's response to a
    read request is cut into pieces by the transport, every piece is accepted,
    the operation finishes with the last one and not before, and
    [_values] then holds exactly the registers sent, the [j]-th one under the
    requested address plus [j] plus 1 (modulo 2^16). *)
Theorem read_reassembled (slave addr n : Z) (op : string) (vs : list Z)
    (chunks : list (list Z)) (last : list Z)
    (Hs : is_byte slave) (Hl : zlen vs <= 127) (Hvs : Forall is_short vs)
    (Hlast : last <> []) (Hcut : List.concat chunks ++ last = read_response slave vs) :
  let req := new_request slave READ_HOLDING_REGISTERS addr n op in
  let '(m1, rs) := receive_all chunks req in
  let '(m, r) := receive_modbus_frame last m1 in
  rs = map (fun _ => Ret true) chunks /\ r = Ret true
  /\ _finished m1 = false /\ _finished m = true /\ _completed m = true
  /\ size (_values m) = List.length vs
  /\ forall j v, vs !! j = Some v ->
     _values m !! u16 (addr + Z.of_nat j + 1) = Some v.
Proof.
  cbn zeta. change (new_request slave _ addr n op) with (reading slave addr n op []).
  rewrite (receive_all_partial chunks slave addr n op vs [] last) by assumption.
  rewrite (reading_last slave addr n op vs) by assumption.
  destruct (read_done_values slave addr n op vs Hl) as [H1 H2].
  repeat split; auto.
Qed.

Lemma read_reassembled_witness :
  let resp := [0x01; 0x03; 0x04; 0x00; 0x0A; 0x01; 0x02; 0x5A; 0x60] in
  read_response 1 [10; 258] = resp
  /\ let '(m1, rs) := receive_all [[0x01]; [0x03; 0x04; 0x00]] (new_request 1 READ_HOLDING_REGISTERS 2500 2 "op") in
     let '(m, r) := receive_modbus_frame [0x0A; 0x01; 0x02; 0x5A; 0x60] m1 in
     rs = [Ret true; Ret true] /\ r = Ret true
     /\ _finished m1 = false /\ _finished m = true /\ _completed m = true
     /\ size (_values m) = 2%nat
     /\ forall j v, [10; 258] !! j = Some v ->
        _values m !! u16 (2500 + Z.of_nat j + 1) = Some v.
Proof.
  split; [vm_compute; reflexivity|].
  apply (read_reassembled 1 2500 2 "op" [10; 258] [[0x01]; [0x03; 0x04; 0x00]]
           [0x0A; 0x01; 0x02; 0x5A; 0x60]);
    [unfold is_byte; lia|unfold zlen; cbn; lia
    |apply Forall_cons_2; [|apply Forall_cons_2; [|apply Forall_nil_2]]; unfold is_short; lia
    |discriminate|vm_compute; reflexivity].
Defined.

(** ** No exception inside the [try] *)

(** Objects the constructors build and receptions keep: a request of at least
    8 bytes, no confirmation pending without a request that needs it, and a
    response of bytes. *)
Definition modbus_wf (m : Modbus) : Prop :=
  8 <= zlen (_modbus_frame m) /\ Forall is_byte (_modbus_frame_response m).

(** No run of [c] from [m] throws or is undefined. *)
Definition no_throw {A} (c : M Modbus A) (m : Modbus) : Prop :=
  returns (snd (c m)) = true.

Lemma no_throw_vat {A} (v : list Z) i (k : Z -> M Modbus A) m :
  0 <= i < zlen v -> (forall x, no_throw (k x) m) -> no_throw (sbind (slift (vat v i)) k) m.
Proof.
  intros Hi Hk. destruct (vat_ok v i Hi) as [x ->]. unfold no_throw.
  rewrite slift_bind_ret. apply Hk.
Qed.

Lemma no_throw_check_crc {A} (v : list Z) (k : bool -> M Modbus A) m :
  2 <= zlen v -> (forall x, no_throw (k x) m) -> no_throw (sbind (slift (check_crc v)) k) m.
Proof.
  intros Hi Hk. unfold check_crc. destruct (_ <? 2) eqn:E; breflect; [lia|].
  destruct (vat_ok v (zlen v - 2)) as [h ->]; [lia|].
  destruct (vat_ok v (zlen v - 1)) as [l ->]; [lia|]. apply Hk.
Qed.

(** The fuel of the loop is enough and its accesses are in range: each turn
    moves [i] by two below a bound the response covers. *)
Lemma read_registers_no_throw resp address bytes fuel : forall i num m,
  0 <= i <= bytes + 4 -> bytes + 3 < zlen resp -> bytes + 3 - i < 2 * Z.of_nat fuel - 1 ->
  no_throw (read_registers fuel resp address bytes i num) m.
Proof.
  induction fuel as [|fuel IH]; intros i num m Hi Hb Hf; [lia|].
  cbn [read_registers]. destruct (_ <? _) eqn:E; breflect; [|reflexivity].
  apply no_throw_vat; [lia|]. intros h. apply no_throw_vat; [lia|]. intros l.
  unfold no_throw. cbn [sbind smodify]. apply IH; lia.
Qed.

(** The frames of the object are not touched once the response is complete. *)
Definition same_frames (m m' : Modbus) : Prop :=
  _modbus_frame m' = _modbus_frame m /\ _modbus_frame_response m' = _modbus_frame_response m.

Lemma same_frames_slift {A B} (c : outcome B) (k : B -> M Modbus A) m :
  (forall x, same_frames m (fst (k x m))) -> same_frames m (fst (sbind (slift c) k m)).
Proof. intros Hk. destruct c; [apply Hk|split; reflexivity..]. Qed.

Lemma read_registers_same_frames resp address bytes fuel : forall i num m,
  same_frames m (fst (read_registers fuel resp address bytes i num m)).
Proof.
  induction fuel as [|fuel IH]; intros i num m; [split; reflexivity|].
  cbn [read_registers]. destruct (_ <? _); [|split; reflexivity].
  do 2 (apply same_frames_slift; intros ?). cbn [sbind smodify].
  destruct (_values m !! _); [apply IH|].
  match goal with |- same_frames m (fst (read_registers _ _ _ _ _ _ ?m0)) =>
    exact (IH (i + 2) (u16 (num + 1)) m0) end.
Qed.

Lemma receive_body_same_frames m : same_frames m (fst (receive_body m)).
Proof.
  unfold receive_body. rewrite sget_bind. destruct (_function_code m).
  - apply same_frames_slift. intros bytes. destruct (negb _); [split; reflexivity|].
    pose proof (read_registers_same_frames (_modbus_frame_response m) (_address_data m) bytes
      (List.length (_modbus_frame_response m)) 3 0 m) as H.
    unfold sbind. destruct (read_registers _ _ _ _ _ _ m) as [m' [u|e|]]; exact H.
  - do 4 (apply same_frames_slift; intros ?). split; reflexivity.
  - destruct (negb _); [split; reflexivity|].
    do 4 (apply same_frames_slift; intros ?). split; reflexivity.
Qed.

Lemma bad_frame_no_throw m :
  2 <= zlen (_modbus_frame_response m) ->
  returns (snd (bad_frame m)) = true /\ fst (bad_frame m) = m.
Proof.
  intros Hr. unfold bad_frame. rewrite sget_bind.
  destruct (vat_ok (_modbus_frame_response m) 0) as [a ->]; [lia|]. rewrite slift_bind_ret.
  destruct (negb (a =? _)); [done|].
  destruct (vat_ok (_modbus_frame_response m) 1) as [f ->]; [lia|]. rewrite slift_bind_ret.
  destruct (negb (f =? _)); [done|].
  unfold check_crc. destruct (_ <? 2) eqn:E; breflect; [lia|].
  destruct (vat_ok (_modbus_frame_response m) (zlen (_modbus_frame_response m) - 2)) as [h ->]; [lia|].
  destruct (vat_ok (_modbus_frame_response m) (zlen (_modbus_frame_response m) - 1)) as [l ->]; [lia|].
  done.
Qed.

(** What [check_completed] guarantees when it reports a complete response. *)
Definition response_complete (m : Modbus) : Prop :=
  match _function_code m with
  | READ_HOLDING_REGISTERS =>
      exists bytes, vat (_modbus_frame_response m) 2 = Ret bytes
        /\ 0 <= bytes /\ zlen (_modbus_frame_response m) = bytes + 5
  | _ => 8 <= zlen (_modbus_frame_response m)
  end.

Lemma response_complete_length m : response_complete m -> 5 <= zlen (_modbus_frame_response m).
Proof.
  unfold response_complete. destruct (_function_code m); [|lia..].
  intros (b & _ & Hb & ->). lia.
Qed.

Lemma receive_body_no_throw m : response_complete m -> no_throw receive_body m.
Proof.
  intros H. pose proof (response_complete_length m H) as H5.
  unfold no_throw, receive_body. rewrite sget_bind. unfold response_complete in H.
  destruct (_function_code m).
  - destruct H as (bytes & -> & Hb & Hl). rewrite slift_bind_ret.
    destruct (negb _); [reflexivity|].
    pose proof (read_registers_no_throw (_modbus_frame_response m) (_address_data m) bytes
      (List.length (_modbus_frame_response m)) 3 0 m ltac:(lia) ltac:(lia)) as Hn.
    unfold no_throw in Hn. unfold sbind at 1.
    destruct (read_registers _ _ _ _ _ _ m) as [m' [u|e|]]; [reflexivity|..];
      cbn in Hn; specialize (Hn ltac:(unfold zlen in *; lia)); discriminate.
  - apply no_throw_vat; [lia|intros]. apply no_throw_vat; [lia|intros].
    apply no_throw_vat; [lia|intros]. apply no_throw_vat; [lia|intros]. reflexivity.
  - destruct (negb _); [reflexivity|].
    apply no_throw_vat; [lia|intros]. apply no_throw_vat; [lia|intros].
    apply no_throw_vat; [lia|intros]. apply no_throw_vat; [lia|intros]. reflexivity.
Qed.

Lemma receive_completed_no_throw m : response_complete m ->
  no_throw receive_completed m /\ same_frames m (fst (receive_completed m)).
Proof.
  intros H. pose proof (response_complete_length m H).
  destruct (bad_frame_no_throw m ltac:(lia)) as [H1 H2].
  unfold no_throw, receive_completed, sbind.
  destruct (bad_frame m) as [m' [b|e|]]; cbn in H1, H2; [|discriminate..]. subst m'.
  destruct b; [by repeat split|].
  split; [by apply receive_body_no_throw|apply receive_body_same_frames].
Qed.

(** [check_completed] itself never throws, and what it reports is true. *)
Lemma check_completed_spec frame m : modbus_wf m -> Forall is_byte frame ->
  exists m' b, check_completed frame m = (m', Ret b)
    /\ modbus_wf m' /\ (b = true -> response_complete m').
Proof.
  intros [Hf Hr] Hb. unfold check_completed. cbn [_modbus_frame_response set_response].
  set (resp := _modbus_frame_response m ++ frame).
  assert (Hresp : Forall is_byte resp) by (apply Forall_app; auto).
  unfold modbus_wf, response_complete. cbn [_function_code set_response].
  destruct (_function_code m) eqn:Efc.
  - destruct (3 <=? zlen resp) eqn:E3; breflect.
    + destruct (vat_ok resp 2) as [bytes Ev]; [lia|]. rewrite Ev.
      eexists _, _. split; [reflexivity|]. split; [done|]. cbn. rewrite Efc.
      intros E; breflect. exists bytes. split; [assumption|]. split; [|lia].
      apply vat_Ret in Ev. rewrite Forall_lookup in Hresp. apply Hresp in Ev.
      unfold is_byte in Ev. lia.
    + eexists _, _. split; [reflexivity|]. by split.
  - eexists _, _. split; [reflexivity|]. split; [done|]. cbn. rewrite Efc.
    intros E; breflect. lia.
  - cbn [_need_be_confirmed _confirmed _modbus_frame set_response].
    destruct (_need_be_confirmed m), (_confirmed m); cbn [negb andb orb];
      repeat (destruct_match; breflect; cbn [set_response set_confirmed]);
      (eexists _, _; split; [reflexivity|]; split; [by split|]; cbn; rewrite ?Efc;
       intros E; breflect; first [discriminate | lia]).
Qed.

(** The exception handler of [receive_modbus_frame] ("Modbus internal
    error") is dead code: on an object in use (built by a constructor, or kept
    by a reception) and whatever bytes arrive, the [try] block returns - no
    [at()] out of range, no access before the start of a short frame, and the
    register loop ends - and the object stays well formed. *)
Theorem receive_try_returns (mb_msg : list Z) (m : Modbus)
    (Hwf : modbus_wf m) (Hb : Forall is_byte mb_msg) :
  returns (snd (receive_try mb_msg m)) = true
  /\ modbus_wf (fst (receive_modbus_frame mb_msg m)).
Proof.
  destruct (check_completed_spec mb_msg m Hwf Hb) as (m' & b & Hcc & [Hw1 Hw2] & Hc).
  assert (H : exists m1 b1, receive_try mb_msg m = (m1, Ret b1) /\ same_frames m' m1).
  { unfold receive_try. unfold sbind at 1. rewrite Hcc. cbn [sbind smodify].
    destruct b; [|by eexists _, _].
    destruct (receive_completed_no_throw (set_finished (set_completed m' true) true))
      as [Hn Hs]; [exact (Hc eq_refl)|].
    unfold no_throw in Hn. cbn [sbind smodify].
    destruct (receive_completed _) as [m1 [b1|e|]]; [by eexists _, _|by cbn in Hn..]. }
  destruct H as (m1 & b1 & E & [H1 H2]). rewrite E. split; [reflexivity|].
  unfold receive_modbus_frame. rewrite E.
  destruct (Nat.eqb _ 0); [done|]. destruct b1; unfold modbus_wf; cbn; by rewrite H1, H2.
Qed.

Lemma new_objects_wf slave fc addr n vs op conf :
  modbus_wf (new_request slave fc addr n op)
  /\ modbus_wf (new_write slave fc addr vs op conf).
Proof.
  split; (split; [|constructor]); [unfold zlen; cbn; lia|].
  unfold new_write, with_crc, zlen. cbn [_modbus_frame].
  rewrite !length_app, flat_push_short_length. cbn. lia.
Qed.

Lemma receive_try_returns_witness :
  modbus_wf (new_write 17 PRESET_MULTIPLE_REGISTER 1 [10; 258] "op" true)
  /\ returns (snd (receive_try [3; 2; 255] (new_write 17 PRESET_MULTIPLE_REGISTER 1 [10; 258] "op" true))) = true
  /\ modbus_wf (fst (receive_modbus_frame [3; 2; 255] (new_write 17 PRESET_MULTIPLE_REGISTER 1 [10; 258] "op" true))).
Proof.
  assert (H : modbus_wf (new_write 17 PRESET_MULTIPLE_REGISTER 1 [10; 258] "op" true))
    by apply (new_objects_wf 17 PRESET_MULTIPLE_REGISTER 1 0 [10; 258] "op" true).
  split; [exact H|]. apply (receive_try_returns [3; 2; 255] _ H). solve_bytes.
Defined.

(** ** Writes *)

(** Two bytes are read as the short [w] exactly when they are its bytes. *)
Lemma read_short_eqb a b w : is_byte a -> is_byte b -> is_short w ->
  (u16 (Z.lor (Z.shiftl a 8) b) =? w) = bool_decide ([a; b] = push_short w).
Proof.
  intros Ka Kb Kw. rewrite read_short, push_short_eq by assumption.
  apply eq_true_iff_eq. rewrite Z.eqb_eq, bool_decide_eq_true.
  unfold is_byte, is_short in *. split.
  - intros <-. f_equal; [|f_equal]; dlia.
  - intros E. injection E as -> ->. dlia.
Qed.

(** The verdict on a complete 8-byte response to a write, by its four parts. *)
Definition write_verdict (m : Modbus) (w : Z) (msg : list Z) : bool :=
  bool_decide (take 6 msg
    = [_slave_address m; function_code_value (_function_code m)]
        ++ push_short (_address_data m) ++ push_short w)
  && bool_decide (msg = with_crc (take 6 msg)).

Lemma write_verdict_spec m w (b0 b1 b2 b3 b4 b5 h l : Z) :
  let msg := [b0; b1; b2; b3; b4; b5; h; l] in
  _modbus_frame_response m = msg -> Forall is_byte msg ->
  is_short (_address_data m) -> is_short w ->
  receive_body m = (m, Ret (negb (negb (u16 (Z.lor (Z.shiftl b2 8) b3) =? _address_data m)
                            || negb (u16 (Z.lor (Z.shiftl b4 8) b5) =? w)))) ->
  receive_completed m = (m, Ret (write_verdict m w msg)).
Proof.
  cbn zeta. intros Hr Hb Ha Hw Hbody.
  assert (Hcrc := Hb). rewrite !Forall_cons in Hb. destruct_and! Hb.
  assert (Hc : check_crc [b0; b1; b2; b3; b4; b5; h; l]
     = Ret (bool_decide ([b0; b1; b2; b3; b4; b5; h; l] = with_crc [b0; b1; b2; b3; b4; b5]))).
  { apply (check_crc_iff [b0; b1; b2; b3; b4; b5]); [solve_bytes|assumption..]. }
  unfold write_verdict. cbn [take].
  unfold receive_completed, bad_frame. unfold sbind at 1. rewrite sget_bind, Hr.
  change (vat (b0 :: _) 0) with (Ret b0). change (vat (b0 :: b1 :: _) 1) with (Ret b1).
  rewrite slift_bind_ret.
  destruct (b0 =? _slave_address m) eqn:E0; cbn [negb]; breflect.
  2: { rewrite bool_decide_false; [reflexivity|]. intros E. by injection E. }
  rewrite slift_bind_ret.
  destruct (b1 =? function_code_value _) eqn:E1; cbn [negb]; breflect.
  2: { rewrite bool_decide_false; [reflexivity|]. intros E. by injection E. }
  rewrite Hc, slift_bind_ret. cbn [sret].
  destruct (bool_decide (_ = with_crc _)); cbn [negb]; [|by rewrite andb_false_r].
  rewrite Hbody, !read_short_eqb by assumption. do 2 f_equal.
  rewrite <- negb_andb, negb_involutive, andb_true_r. rewrite E0, E1.
  unfold push_short at 1 2. apply eq_true_iff_eq.
  rewrite andb_true_iff, !bool_decide_eq_true. unfold push_short. split.
  - intros [E2 E3]. injection E2 as -> ->. injection E3 as -> ->. reflexivity.
  - intros E. injection E as -> -> -> ->. auto.
Qed.

(** A single-register write is confirmed by an echo: of the 8-byte
    responses, exactly the request itself is accepted; any other finishes the
    operation with an error, and no register value is recorded. *)
Theorem single_write_echo (slave addr v : Z) (op : string) (msg : list Z)
    (Ha : is_short addr) (Hv : is_short v)
    (Hmsg : Forall is_byte msg) (Hlen : List.length msg = 8%nat) :
  let req := new_request slave PRESET_SINGLE_REGISTER addr v op in
  let '(m, r) := receive_modbus_frame msg req in
  r = Ret (bool_decide (msg = _modbus_frame req))
  /\ _finished m = true /\ _completed m = true /\ _values m = ∅.
Proof.
  do 8 (destruct msg as [|? msg]; [discriminate Hlen|]).
  destruct msg; [clear Hlen|discriminate Hlen]. cbn zeta.
  set (req := new_request _ _ _ _ _).
  unfold receive_modbus_frame. change (Nat.eqb (List.length (_modbus_frame req)) 0) with false.
  unfold receive_try. unfold sbind at 1. unfold check_completed.
  cbn [_function_code set_response req new_request _modbus_frame_response app].
  change (zlen _ =? zlen _) with true. cbn [sbind smodify]. set (m := set_finished _ true).
  rewrite (write_verdict_spec m v z z0 z1 z2 z3 z4 z5 z6); [|done..].
  assert (Hv' : write_verdict m v [z; z0; z1; z2; z3; z4; z5; z6]
     = bool_decide ([z; z0; z1; z2; z3; z4; z5; z6] = _modbus_frame req)).
  { unfold write_verdict. cbn [take]. apply eq_true_iff_eq.
    rewrite andb_true_iff, !bool_decide_eq_true. split.
    - intros [E1 E2]. rewrite E1 in E2. exact E2.
    - intros E. assert (E1 : take 6 [z; z0; z1; z2; z3; z4; z5; z6] = take 6 (_modbus_frame req))
        by (by rewrite E). split; [exact E1|]. cbn [take] in E1. rewrite E1. exact E. }
  rewrite Hv'. destruct (bool_decide _); auto.
Qed.

Lemma single_write_echo_witness :
  let req := new_request 1 PRESET_SINGLE_REGISTER 735 1 "op" in
  let '(m, r) := receive_modbus_frame [0x01; 0x06; 0x02; 0xDF; 0x00; 0x01; 0x78; 0x48] req in
  r = Ret (bool_decide ([0x01; 0x06; 0x02; 0xDF; 0x00; 0x01; 0x78; 0x48] = _modbus_frame req))
  /\ _finished m = true /\ _completed m = true /\ _values m = ∅.
Proof.
  apply (single_write_echo 1 735 1 "op" [0x01; 0x06; 0x02; 0xDF; 0x00; 0x01; 0x78; 0x48]);
    [unfold is_short; lia|unfold is_short; lia|solve_bytes|reflexivity].
Defined.

(** The slave's reply to a write of several registers. *)
Definition write_reply (slave addr : Z) (vs : list Z) : list Z :=
  with_crc ([slave; 0x10] ++ push_short addr ++ push_short (zlen vs)).

Lemma new_write_frame_length slave addr vs op conf :
  zlen (_modbus_frame (new_write slave PRESET_MULTIPLE_REGISTER addr vs op conf))
  = 9 + 2 * zlen vs.
Proof.
  unfold new_write, with_crc, zlen. cbn [_modbus_frame].
  rewrite !length_app, flat_push_short_length. cbn. lia.
Qed.

Lemma modbus_frame_nonempty m : 8 <= zlen (_modbus_frame m) ->
  Nat.eqb (List.length (_modbus_frame m)) 0 = false.
Proof. unfold zlen. intros. apply Nat.eqb_neq. lia. Qed.

(** The write that waits for an echo and receives [r]: at its exact length the
    echo confirms it, beyond it the operation fails. *)
Section ConfirmedWrite.
Context (slave addr : Z) (vs : list Z) (op : string).
Context (Hs : is_byte slave) (Ha : is_short addr) (Hn : zlen vs < 65536).

Local Abbreviation req := (new_write slave PRESET_MULTIPLE_REGISTER addr vs op true).

Lemma confirmed_write_echo :
  receive_modbus_frame (_modbus_frame req) req
  = (set_completed (set_response (set_confirmed req true) []) false, Ret true).
Proof.
  unfold receive_modbus_frame.
  rewrite (modbus_frame_nonempty req) by (rewrite new_write_frame_length; pose proof (zlen_nonneg vs); lia).
  unfold receive_try. unfold sbind at 1. unfold check_completed.
  cbn [_function_code _modbus_frame_response _need_be_confirmed _confirmed set_response
       _modbus_frame new_write app negb andb orb].
  rewrite Z.eqb_refl. unfold frame_eqb. rewrite bool_decide_true by reflexivity. reflexivity.
Qed.

Lemma confirmed_write_overrun (msg : list Z) :
  zlen (_modbus_frame req) < zlen msg -> Forall is_byte msg ->
  let '(m, r) := receive_modbus_frame msg req in
  r = Ret false /\ _finished m = true /\ _completed m = true.
Proof.
  intros Hl Hb. pose proof (zlen_nonneg vs) as Hz. pose proof Hl as Hl2.
  rewrite new_write_frame_length in Hl2.
  unfold receive_modbus_frame.
  rewrite (modbus_frame_nonempty req) by (rewrite new_write_frame_length; lia).
  assert (Hcc : check_completed msg req = (set_response req msg, Ret true)).
  { unfold check_completed.
    cbn [_function_code _modbus_frame_response _need_be_confirmed _confirmed set_response
         new_write app negb andb orb].
    change (_modbus_frame (set_response req msg)) with (_modbus_frame req).
    destruct (zlen msg =? _) eqn:E; breflect; [lia|].
    destruct (_ <? zlen msg) eqn:E2; breflect; [reflexivity|lia]. }
  unfold receive_try. unfold sbind at 1. rewrite Hcc. cbn [sbind smodify].
  set (m := set_finished _ true).
  destruct (bad_frame_no_throw m) as [H1 H2].
  { change (_modbus_frame_response m) with msg. lia. }
  unfold receive_completed. unfold sbind.
  destruct (bad_frame m) as [m' [b|e|]]; cbn in H1, H2; [|discriminate..]. subst m'.
  destruct b; cbn; auto.
Qed.

Lemma confirmed_write_reply :
  let m := set_completed (set_response (set_confirmed req true) []) false in
  let '(m', r) := receive_modbus_frame (write_reply slave addr vs) m in
  r = Ret true /\ _finished m' = true /\ _completed m' = true.
Proof.
  pose proof (zlen_nonneg vs) as Hz. cbn zeta. set (m := set_completed _ false).
  assert (Hbody : Forall is_byte ([slave; 0x10] ++ push_short addr ++ push_short (zlen vs))).
  { apply Forall_app; split; [solve_bytes|]. apply Forall_app; split; apply push_short_bytes. }
  assert (Hbytes : Forall is_byte (write_reply slave addr vs)) by (by apply with_crc_bytes).
  unfold receive_modbus_frame.
  rewrite (modbus_frame_nonempty m)
    by (change (_modbus_frame m) with (_modbus_frame req); rewrite new_write_frame_length; lia).
  assert (Hcc : check_completed (write_reply slave addr vs) m
                = (set_response m (write_reply slave addr vs), Ret true)) by reflexivity.
  unfold receive_try. unfold sbind at 1. rewrite Hcc. cbn [sbind smodify].
  set (m1 := set_finished _ true).
  assert (Hv : receive_completed m1
     = (m1, Ret (write_verdict m1 (zlen vs) (write_reply slave addr vs)))).
  { apply write_verdict_spec; [reflexivity|exact Hbytes|exact Ha|unfold is_short; lia|].
    unfold receive_body. rewrite sget_bind.
    change (_function_code m1) with PRESET_MULTIPLE_REGISTER.
    change (_modbus_frame_response m1) with (write_reply slave addr vs).
    change (zlen (write_reply slave addr vs) =? 8) with true.
    set (w := write_reply slave addr vs).
    change (vat w 2) with (Ret (nth 2 w 0)). change (vat w 3) with (Ret (nth 3 w 0)).
    change (vat w 4) with (Ret (nth 4 w 0)). change (vat w 5) with (Ret (nth 5 w 0)).
    change (_confirmed m1) with true. cbn [negb].
    rewrite !slift_bind_ret, orb_false_r. reflexivity. }
  rewrite Hv. unfold write_verdict. rewrite !bool_decide_true by reflexivity.
  cbn. auto.
Qed.
End ConfirmedWrite.

(** Writes that ask for confirmation: the echo of the request is consumed
    without finishing the operation and the slave's reply then completes it;
    but when the transport delivers echo and reply in one read, the operation
    finishes with an error. *)
Theorem confirmed_write_states (slave addr : Z) (vs : list Z) (op : string)
    (Hs : is_byte slave) (Ha : is_short addr) (Hn : zlen vs < 65536) :
  let req := new_write slave PRESET_MULTIPLE_REGISTER addr vs op true in
  let echo := _modbus_frame req in
  let reply := write_reply slave addr vs in
  (let '(m1, r1) := receive_modbus_frame echo req in
   let '(m2, r2) := receive_modbus_frame reply m1 in
   r1 = Ret true /\ _confirmed m1 = true /\ _finished m1 = false
   /\ r2 = Ret true /\ _finished m2 = true)
  /\ (let '(m, r) := receive_modbus_frame (echo ++ reply) req in
      r = Ret false /\ _finished m = true).
Proof.
  cbn zeta. split.
  - rewrite confirmed_write_echo.
    pose proof (confirmed_write_reply slave addr vs op Hs Ha Hn) as H. cbn zeta in H.
    destruct (receive_modbus_frame _ _) as [m2 r2]. destruct H as (-> & -> & _). auto.
  - pose proof (confirmed_write_overrun slave addr vs op
      (_modbus_frame (new_write slave PRESET_MULTIPLE_REGISTER addr vs op true)
         ++ write_reply slave addr vs)) as H.
    destruct (receive_modbus_frame _ _) as [m r].
    destruct H as (-> & -> & _); [| |auto].
    + rewrite zlen_app. unfold zlen at 3, write_reply, with_crc. cbn. lia.
    + apply Forall_app. split.
      * by apply (request_frames_bytes slave PRESET_MULTIPLE_REGISTER addr 0 vs op true).
      * apply with_crc_bytes. apply Forall_app; split; [solve_bytes|].
        apply Forall_app; split; apply push_short_bytes.
Qed.

Lemma confirmed_write_states_witness :
  let req := new_write 0x11 PRESET_MULTIPLE_REGISTER 1 [10; 258] "op" true in
  let echo := _modbus_frame req in
  let reply := write_reply 0x11 1 [10; 258] in
  reply = [0x11; 0x10; 0x00; 0x01; 0x00; 0x02; 0x12; 0x98]
  /\ (let '(m1, r1) := receive_modbus_frame echo req in
      let '(m2, r2) := receive_modbus_frame reply m1 in
      r1 = Ret true /\ _confirmed m1 = true /\ _finished m1 = false
      /\ r2 = Ret true /\ _finished m2 = true)
  /\ (let '(m, r) := receive_modbus_frame (echo ++ reply) req in
      r = Ret false /\ _finished m = true).
Proof.
  cbn zeta. split; [vm_compute; reflexivity|].
  apply (confirmed_write_states 0x11 1 [10; 258] "op");
    [unfold is_byte; lia|unfold is_short; lia|unfold zlen; cbn; lia].
Defined.

(** ** From registers to names *)

(** The registers read, as a list of keys and values in response order. *)
Fixpoint register_list (addr num : Z) (vs : list Z) : list (Z * Z) :=
  match vs with
  | [] => []
  | v :: vs' => (register_key addr num, v) :: register_list addr (num + 1) vs'
  end.

Lemma register_list_lookup addr vs : forall num j,
  register_list addr num vs !! j
  = (fun v => (register_key addr (num + Z.of_nat j), v)) <$> vs !! j.
Proof.
  induction vs as [|v vs IH]; intros num [|j]; cbn [register_list]; [done|done| |].
  - cbn. by rewrite Z.add_0_r.
  - cbn. rewrite IH. by replace (num + 1 + Z.of_nat j) with (num + Z.of_nat (S j)) by lia.
Qed.

(** Without wrap-around of the address the keys grow. *)
Lemma register_list_sorted addr vs : forall num,
  0 <= addr -> 0 <= num -> addr + num + zlen vs < 65536 ->
  Forall (fun kv => addr + num < fst kv) (register_list addr num vs)
  /\ StronglySorted (fun a b => fst a < fst b) (register_list addr num vs).
Proof.
  induction vs as [|v vs IH]; intros num Ha Hn Hw; cbn [register_list]; [split; constructor|].
  rewrite zlen_cons in Hw. pose proof (zlen_nonneg vs).
  destruct (IH (num + 1)) as [H1 H2]; [lia..|].
  assert (Hk : register_key addr num = addr + num + 1) by (apply u16_small; lia).
  rewrite Hk. split.
  - constructor; [cbn; lia|]. eapply Forall_impl; [exact H1|]. cbn. lia.
  - constructor; [exact H2|]. eapply Forall_impl; [exact H1|]. cbn. lia.
Qed.

Lemma read_done_lookup slave addr n op vs k v : zlen vs <= 127 ->
  _values (read_done slave addr n op vs) !! k = Some v <-> (k, v) ∈ register_list addr 0 vs.
Proof.
  intros Hl. destruct (read_done_values slave addr n op vs Hl) as [_ Hv].
  assert (Hv' : forall j w, vs !! j = Some w -> _values (read_done slave addr n op vs) !! register_key addr (0 + Z.of_nat j) = Some w) by exact Hv.
  split.
  - intros Hk. destruct (decide (Exists (fun kv => fst kv = k) (register_list addr 0 vs))) as [He|Hne].
    + apply Exists_exists in He as ((k' & v') & He & E). cbn in E. subst k'.
      apply list_elem_of_lookup in He as [j Hj]. pose proof Hj as Hj2.
      rewrite register_list_lookup in Hj2.
      destruct (vs !! j) as [w|] eqn:Ej; [|discriminate]. injection Hj2 as Hk2 ->.
      apply Hv' in Ej. rewrite Hk2 in Ej. rewrite Ej in Hk. injection Hk as ->.
      apply list_elem_of_lookup. by exists j.
    + cbn in Hk. rewrite insert_registers_other in Hk; [discriminate|lia|lia|].
      intros i Hi E. apply Hne. apply Exists_exists.
      destruct (lookup_lt_is_Some_2 vs (Z.to_nat i)) as [w Hw]; [unfold zlen in Hi; lia|].
      exists (k, w). split; [|reflexivity]. apply list_elem_of_lookup. exists (Z.to_nat i).
      rewrite register_list_lookup, Hw. cbn. rewrite Z2Nat.id by lia.
      try rewrite Z.add_0_l. by rewrite E.
  - intros He. apply list_elem_of_lookup in He as [j Hj]. rewrite register_list_lookup in Hj.
    destruct (vs !! j) as [w|] eqn:Ej; [|discriminate]. injection Hj as <- <-. by apply Hv'.
Qed.

(** Without wrap-around of the address the walk of the map is the order of the
    registers in the response. *)
Lemma read_done_in_order slave addr n op vs :
  0 <= addr -> addr + zlen vs < 65536 -> zlen vs <= 127 ->
  values_in_order (_values (read_done slave addr n op vs)) = register_list addr 0 vs.
Proof.
  intros Ha Hw Hl.
  destruct (register_list_sorted addr vs 0 ltac:(lia) ltac:(lia) ltac:(lia)) as [_ Hs].
  assert (Hdup : NoDup (register_list addr 0 vs)).
  { eapply StronglySorted_NoDup; [|exact Hs]. intros x Hx; cbn in Hx; lia. }
  assert (Hle : StronglySorted key_le (register_list addr 0 vs)).
  { eapply StronglySorted_impl; [|exact Hs]. intros x y Hx; unfold key_le; cbn in Hx; lia. }
  assert (Htot : Total key_le) by (intros x y; unfold key_le; lia).
  assert (Htr : Transitive key_le) by (intros x y z; unfold key_le; lia).
  apply (Sorted_unique_strong key_le).
  - intros [k1 v1] [k2 v2] H1 H2 H12 H21.
    unfold values_in_order in H1. rewrite merge_sort_Permutation in H1.
    apply elem_of_map_to_list in H1.
    apply (proj2 (read_done_lookup slave addr n op vs k2 v2 Hl)) in H2.
    unfold key_le in *. cbn in H12, H21. assert (k1 = k2) as -> by lia.
    rewrite H1 in H2. congruence.
  - apply Sorted_merge_sort. exact Htot.
  - by apply StronglySorted_Sorted.
  - unfold values_in_order. rewrite merge_sort_Permutation.
    apply NoDup_Permutation; [apply NoDup_map_to_list|assumption|].
    intros [k v]. rewrite elem_of_map_to_list. by apply read_done_lookup.
Qed.

Section MappedSpec.
Context {F : Type} (render_scaled : F -> Z -> Z -> string).
Context (lexical_cast : Z -> string).

Local Abbreviation gmv := (get_mapped_values render_scaled lexical_cast).
Local Abbreviation loop := (mapped_fields_loop render_scaled).

Lemma insert_new_other {A} k k' (v : A) m : k <> k' -> insert_new k v m !! k' = m !! k'.
Proof. intros H. unfold insert_new. destruct (m !! k); [done|]. by apply lookup_insert_ne. Qed.

Lemma mapped_fields_other fields : forall kvs acc x,
  x ∉ map fp_name fields -> loop fields kvs acc !! x = acc !! x.
Proof.
  induction fields as [|f fs IH]; intros [|[k v] kvs] acc x Hx; [done..|].
  cbn [map] in Hx. apply not_elem_of_cons in Hx as [Hx1 Hx2].
  cbn [mapped_fields_loop]. rewrite IH by assumption.
  destruct (String.eqb _ _); [done|]. by apply insert_new_other.
Qed.

Lemma mapped_fields_lookup fields : forall kvs acc,
  NoDup (map fp_name fields) ->
  (forall f, f ∈ fields -> acc !! fp_name f = None) ->
  forall j f k v, fields !! j = Some f -> kvs !! j = Some (k, v) -> fp_name f <> "" ->
  loop fields kvs acc !! fp_name f = Some (render_scaled (fp_factor f) v (fp_precision f)).
Proof.
  induction fields as [|g fs IH]; intros kvs acc Hnd Hacc j f k v Hf Hk Hne; [discriminate|].
  destruct kvs as [|[k0 v0] kvs]; [discriminate|].
  cbn [map] in Hnd. apply NoDup_cons in Hnd as [Hg Hnd]. cbn [mapped_fields_loop].
  destruct j as [|j]; cbn in Hf, Hk.
  - injection Hf as ->. injection Hk as -> ->. rewrite mapped_fields_other by assumption.
    apply String.eqb_neq in Hne. rewrite Hne. unfold insert_new.
    rewrite (Hacc f) by apply list_elem_of_here. apply lookup_insert_eq.
  - eapply IH; [assumption| |eassumption..]. intros f' Hf'.
    assert (fp_name f' ∈ map fp_name fs) by (apply list_elem_of_In, in_map, list_elem_of_In; assumption).
    destruct (String.eqb _ _); [|rewrite insert_new_other by (intros E; congruence)];
      apply Hacc, list_elem_of_further; assumption.
Qed.

(** Decoding by name.  After a complete read of as many registers as there
    are labels, whose addresses do not wrap, [get_mapped_values] gives each
    (distinct, non-empty) label the register sent in its position, scaled by
    its own factor and precision; with a different number of labels it gives
    nothing at all. *)
Theorem mapped_values_by_position (slave addr n : Z) (op : string) (vs : list Z)
    (fields : list (FloatPosition (F := F)))
    (Ha : 0 <= addr) (Hw : addr + zlen vs < 65536) (Hl : zlen vs <= 127)
    (Hnd : NoDup (map fp_name fields)) (Hpos : fields <> []) :
  let m := read_done slave addr n op vs in
  (List.length fields = List.length vs ->
   forall j f v, fields !! j = Some f -> vs !! j = Some v -> fp_name f <> "" ->
   gmv fields m !! fp_name f = Some (render_scaled (fp_factor f) v (fp_precision f)))
  /\ (List.length fields <> List.length vs -> gmv fields m = ∅).
Proof.
  cbn zeta. unfold get_mapped_values. destruct fields as [|f0 fs]; [done|].
  destruct (read_done_values slave addr n op vs Hl) as [-> _]. split.
  - intros Hlen j f v Hf Hv Hne. rewrite (proj2 (Nat.eqb_eq _ _) Hlen).
    rewrite read_done_in_order by assumption.
    eapply mapped_fields_lookup; [assumption|intros; apply lookup_empty|eassumption| |assumption].
    rewrite register_list_lookup, Hv. reflexivity.
  - intros Hlen. by rewrite (proj2 (Nat.eqb_neq _ _) Hlen).
Qed.
End MappedSpec.

Lemma mapped_values_by_position_witness :
  let fields := [mkFloatPosition "temp" 2 0; mkFloatPosition "hum" 3 0] in
  let render := fun (f v _ : Z) => pretty (f * v) in
  get_mapped_values render pretty fields (read_done 1 2500 2 "op" [10; 258]) !! "hum"
  = Some "774".
Proof.
  destruct (mapped_values_by_position (fun (f v _ : Z) => pretty (f * v)) pretty
    1 2500 2 "op" [10; 258] [mkFloatPosition "temp" 2 0; mkFloatPosition "hum" 3 0])
    as [H _]; [lia|unfold zlen; cbn; lia|unfold zlen; cbn; lia| |discriminate|].
  - apply (bool_decide_unpack _). vm_compute. exact I.
  - cbn zeta. exact (H eq_refl 1%nat (mkFloatPosition "hum" 3 0) 258 eq_refl eq_refl ltac:(discriminate)).
Defined.
