(* ===== verification/FuncUtil.v ===== *)
(** * General functions: [src/src/util/FuncUtil.cc]

    Query strings, percent decoding, hexadecimal dumps, the checks of the
    [Fiware-Service] and [Fiware-ServicePath] headers, forbidden characters
    and identifier rendering.  [boost] and [pion] calls are parameters. *)
From stdpp Require Import base tactics list gmap strings pretty.
From Stdlib Require Import ZArith Lia Ascii String.
From S2P Require Import Prelude CppString Boost Types.

Local Open Scope string_scope.
Local Open Scope Z_scope.

(** [KVP] (KVP.h). *)
Record KVP : Type := mkKVP { getKey : string; getValue : string }.

#[global] Instance KVP_eq_dec : EqDecision KVP.
Proof. solve_decision. Defined.

(** ** Tokens *)

Definition riot_tokenizer `{Boost} (str : string) (sep : ascii) : list string :=
  tokenize sep str.

(** [riot_uuid]: [counter] is the global of the namespace, [u] the UUID drawn
    from the generator; [ULONG_MAX] on a 64-bit target. *)
Definition ULONG_MAX : Z := 2 ^ 64 - 1.

Definition riot_uuid (u : string) (counter : Z) : string * Z :=
  let counter := if ULONG_MAX <=? counter then 0 else counter in
  ((u ++ "-" ++ pretty counter)%string, u64 (counter + 1)).

(** ** Percent decoding *)

(** The value of a hexadecimal digit. *)
Definition hex_value (c : ascii) : option Z :=
  if isdigit c then Some (char_byte c - 48)
  else if between 65 70 c then Some (char_byte c - 55)
  else if between 97 102 c then Some (char_byte c - 87)
  else None.

Fixpoint hex_digits_value (s : string) (acc : Z) : Z :=
  match s with
  | String c s' =>
      match hex_value c with
      | Some d => hex_digits_value s' (16 * acc + d)
      | None => acc
      end
  | EmptyString => acc
  end.

(** [strtol(buf, 0, 16)] on a short buffer: white space, a sign, then digits;
    a prefix "0x" reads as the digit 0 when no digit follows it. *)
Definition strtol16 (s : string) : Z :=
  match skip_spaces s with
  | String "-" s' => - hex_digits_value s' 0
  | String "+" s' => hex_digits_value s' 0
  | s' => hex_digits_value s' 0
  end.

(** [url_decode]: the loop on the position, as a walk of the rest of the
    string; [pos + 2 < size] holds when two characters follow the [%]. *)
Fixpoint url_decode (str : string) : string :=
  match str with
  | EmptyString => EmptyString
  | String "%" (String a (String b rest)) =>
      String (byte_char (strtol16 (String a (String b "")))) (url_decode rest)
  | String c rest => String c (url_decode rest)
  end.

(** ** Query strings *)

Definition isControl (c : Z) : bool := ((0 <=? c) && (c <=? 31)) || (c =? 127).

Inductive QueryParseState : Type := QUERY_PARSE_NAME | QUERY_PARSE_VALUE.

Definition QUERY_NAME_MAX : Z := 1024.
Definition QUERY_VALUE_MAX : Z := 1024 * 1024.

(** The [while] over the decoded query: the boolean is the value returned. *)
Fixpoint query_loop (m_query : string) (parse_state : QueryParseState)
    (query_name query_value : string) (q_param : list KVP) : bool * list KVP :=
  match m_query with
  | EmptyString =>
      if nonempty query_name
      then (true, (q_param ++ [mkKVP query_name query_value])%list)
      else (true, q_param)
  | String c rest =>
      match parse_state with
      | QUERY_PARSE_NAME =>
          if Ascii.eqb c "=" then
            if negb (nonempty query_name) then (false, q_param)
            else query_loop rest QUERY_PARSE_VALUE query_name query_value q_param
          else if Ascii.eqb c "&" then
            if nonempty query_name
            then query_loop rest QUERY_PARSE_NAME "" query_value
                   (q_param ++ [mkKVP query_name query_value])%list
            else query_loop rest QUERY_PARSE_NAME query_name query_value q_param
          else if Ascii.eqb c "013" || Ascii.eqb c "010" then
            query_loop rest parse_state query_name query_value q_param
          else if isControl (char_int c) || (QUERY_NAME_MAX <=? slen query_name) then
            (false, q_param)
          else query_loop rest parse_state (push_back query_name c) query_value q_param
      | QUERY_PARSE_VALUE =>
          if Ascii.eqb c "&" then
            query_loop rest QUERY_PARSE_NAME "" ""
              (q_param ++ [mkKVP query_name query_value])%list
          else if Ascii.eqb c "013" || Ascii.eqb c "010" then
            query_loop rest parse_state query_name query_value q_param
          else if isControl (char_int c) || (QUERY_VALUE_MAX <=? slen query_value) then
            (false, q_param)
          else query_loop rest parse_state query_name (push_back query_value c) q_param
      end
  end.

Definition riot_getQueryParams (q_str : string) (q_param : list KVP) : bool * list KVP :=
  if negb (nonempty q_str) then (false, q_param)
  else query_loop (url_decode q_str) QUERY_PARSE_NAME "" "" q_param.

(** [make_query_string]: the pairs of the multimap in its order, the index [i]
    of the loop; [url_encode] is pion's. *)
Fixpoint make_query_loop (url_encode : string -> string) (ps : list (string * string))
    (i : nat) (query_string : string) : string :=
  match ps with
  | [] => query_string
  | (k, v) :: ps' =>
      if nonempty v then
        let q := if Nat.eqb i 0 then query_string else query_string ++ "&" in
        make_query_loop url_encode ps' (S i) (q ++ url_encode k ++ "=" ++ url_encode v)
      else make_query_loop url_encode ps' i query_string
  end%string.

Definition make_query_string (url_encode : string -> string)
    (query_parameters : list (string * string)) : string :=
  make_query_loop url_encode query_parameters 0 "".

(** ** Comparison and hexadecimal dumps *)

Definition isEqualString `{Boost} (case_sensitive : bool) (str1 str2 : string) : bool :=
  if Nat.eqb (String.length str1) (String.length str2) then
    if case_sensitive then String.eqb str1 str2
    else String.eqb (to_lower_copy str1) (to_lower_copy str2)
  else false.

(** [str_to_hex] of a vector of bytes. *)
Fixpoint hex_append `{Boost} (fr : list Z) (trama_hex : string) : string :=
  match fr with
  | [] => trama_hex
  | b :: fr' => hex_append fr' (trama_hex ++ format_02X_space b)%string
  end.

Definition str_to_hex `{Boost} (fr : list Z) : string := trim (hex_append fr "").

(** [str_to_hex] of a string: each [char] as an [unsigned char]. *)
Fixpoint string_bytes (s : string) : list Z :=
  match s with
  | EmptyString => []
  | String c s' => char_byte c :: string_bytes s'
  end.

Definition str_to_hex_string `{Boost} (fr : string) : string :=
  trim (hex_append (string_bytes fr) "").

(** [ss >> std::hex >> x] for an [unsigned short]: leading white space, a
    sign, at least one digit; [None] is a failed extraction. *)
Definition extract_hex_short (s : string) : option Z :=
  let digits t := match t with
                  | String c _ => match hex_value c with
                                  | Some _ => Some (hex_digits_value t 0)
                                  | None => None
                                  end
                  | EmptyString => None
                  end in
  let body t := match t with
                | String "0" (String x t') =>
                    if Ascii.eqb x "x" || Ascii.eqb x "X" then digits t' else digits t
                | _ => digits t
                end in
  match skip_spaces s with
  | String "-" t => u16 ∘ Z.opp <$> body t
  | String "+" t => body t
  | t => body t
  end.

(** The [for] by steps of two: [v.push_back(x)] keeps the low byte. *)
Fixpoint hex_pairs (fuel : nat) (s : string) (v : list Z) : list Z :=
  match fuel, s with
  | _, EmptyString => v
  | O, _ => v
  | S fuel', _ =>
      match extract_hex_short (str_take 2 s) with
      | None => []
      | Some x => hex_pairs fuel' (str_drop 2 s) (v ++ [u8 x])%list
      end
  end.

Definition hex_str_to_vector `{Boost} (str : string) : list Z :=
  let s := erase_all str " " in
  hex_pairs (String.length s) s [].

(** ** Header checks *)

Definition FIWARE_SERVICE_LENGTH : Z := 50.

(** [isalnum], [isalpha], [islower] get the [char] converted to [int]. *)
Definition service_char_bad (c : ascii) : bool :=
  (negb (isalnum c) && negb (Ascii.eqb c "_")) || (isalpha c && negb (islower c)).

Definition check_fiware_service_name (header_fiware_service : string) : outcome unit :=
  let error :=
    negb (nonempty header_fiware_service)
    || (FIWARE_SERVICE_LENGTH <? slen header_fiware_service)
    || str_exists service_char_bad header_fiware_service in
  if error
  then Throw (IotaException REASON_MALFORMED_HEADER DETAILS_HEADER_FIWARE_SERVICE
                RESPONSE_CODE_FIWARE_SERVICE_ERROR)
  else Ret tt.

(** [header[i]], which is the terminating [\0] at [size()]. *)
Definition char_at (s : string) (i : nat) : ascii :=
  match String.get i s with Some c => c | None => "000" end.

Definition path_char_bad (c : ascii) : bool := negb (isalnum c) && negb (Ascii.eqb c "_").

Definition check_fiware_service_path_name (header_fiware_service_path : string)
    : outcome unit :=
  if negb (nonempty header_fiware_service_path) then Ret tt
  else
    let error1 := negb (Ascii.eqb (char_at header_fiware_service_path 0) "/") in
    let wild_card := Ascii.eqb (char_at header_fiware_service_path 1) "*"
                     || Ascii.eqb (char_at header_fiware_service_path 1) "#" in
    let start := if wild_card then 2%nat else 1%nat in
    let error2 := wild_card && (2 <? slen header_fiware_service_path) in
    let error3 := FIWARE_SERVICE_LENGTH + 1 <? slen header_fiware_service_path in
    let error := error1 || error2 || error3
                 || str_exists path_char_bad (str_drop start header_fiware_service_path) in
    if error
    then Throw (IotaException REASON_MALFORMED_HEADER DETAILS_HEADER_FIWARE_SERVICE_PATH
                  RESPONSE_CODE_FIWARE_SERVICE_PATH_ERROR)
    else Ret tt.

(** ** Forbidden characters *)

Definition check_forbidden_characters (forbidden str : string) : bool :=
  match find_first_of forbidden str with Some _ => true | None => false end.

(** A BSON document, as far as the walk distinguishes its elements: the end
    marker, a nested document, an array, any other value with its string. *)
Inductive bson_element : Type :=
| BEOO
| BValue (valuestrsafe : string)
| BObject (fields : list bson_element)
| BArray (elements : list bson_element).

(** [check_forbidden_characters(BSONObjBuilder)]: [array_obj[i].Obj()] throws
    on an element that is not a document; [has_forbidden] short-circuits the
    recursive calls, not the [Obj()]. *)
Fixpoint check_forbidden_bson (e_obj : bson_element) (has_forbidden : bool) : outcome bool :=
  let fix fields_loop (fs : list bson_element) (has : bool) : outcome bool :=
    match fs with
    | [] => Ret has
    | f :: fs' => let! has' := check_forbidden_bson f has in fields_loop fs' has'
    end in
  let fix array_loop (es : list bson_element) (has : bool) : outcome bool :=
    match es with
    | [] => Ret has
    | BObject fs :: es' =>
        let! r := (if has then Ret true else fields_loop fs false) in
        array_loop es' r
    | _ :: _ => Throw (RuntimeError "BSONElement: not an object")
    end in
  match e_obj with
  | BEOO => Ret has_forbidden
  | BValue v => Ret (has_forbidden || check_forbidden_characters IOTA_FORBIDDEN_CHARACTERS v)
  | BObject fs => if has_forbidden then Ret true else fields_loop fs false
  | BArray es => array_loop es has_forbidden
  end.

Fixpoint check_forbidden_fields (fs : list bson_element) (has : bool) : outcome bool :=
  match fs with
  | [] => Ret has
  | f :: fs' => let! has' := check_forbidden_bson f has in check_forbidden_fields fs' has'
  end.

Definition check_forbidden_object (fields : list bson_element) : outcome bool :=
  check_forbidden_fields fields false.

(** ** Others *)

Definition number_of_decimals (str : string) : Z :=
  match find "." str 0 with
  | None => 0
  | Some pos => slen (str_drop (pos + 1) str)
  end.

Definition REGEX_IDENTIFIER_FORBIDDEN_CHARACTERS : string :=
  "<>();'=" ++ String (ascii_of_nat 34) "/?#& ".
Definition IDENTIFIER_MAX_LENGTH : nat := 256.

Definition render_identifier `{Boost} (str_to_render : string) : string :=
  str_take IDENTIFIER_MAX_LENGTH
    (erase_all_class REGEX_IDENTIFIER_FORBIDDEN_CHARACTERS str_to_render).

(** ** Percent decoding undoes percent encoding

    The encoder is pion's; what is used of it: each character is sent as
    itself, unless it is the [%] sign, or as [%] and two hexadecimal digits. *)
Definition encodes_char (c : ascii) (e : string) : Prop :=
  (e = String c "" /\ c <> "%"%char)
  \/ exists a b x y, e = String "%" (String a (String b ""))
       /\ hex_value a = Some x /\ hex_value b = Some y /\ 16 * x + y = char_byte c.

Class PercentEncoder (enc : string -> string) : Prop := {
  enc_nil : enc "" = "";
  enc_cons c s : exists e, encodes_char c e /\ enc (String c s) = e ++ enc s
}.

Lemma hex_value_shape a x : hex_value a = Some x ->
  isspace a = false /\ a <> "-"%char /\ a <> "+"%char.
Proof.
  destruct (isspace a) eqn:Es; [|destruct (ascii_dec a "-") as [->|];
    [|destruct (ascii_dec a "+") as [->|]; [|done]]]; [|done..].
  unfold isspace, hex_value, isdigit, between in *. intros H. exfalso.
  apply orb_true_iff in Es. destruct Es as [Es|Es]; breflect.
  - rewrite Es in H. done.
  - repeat match goal with H : context [if ?b then _ else _] |- _ => destruct b eqn:?; breflect; try lia end.
    done.
Qed.

Lemma strtol16_two a b x y : hex_value a = Some x -> hex_value b = Some y ->
  strtol16 (String a (String b "")) = 16 * x + y.
Proof.
  intros Ha Hb. destruct (hex_value_shape a x Ha) as (Hs & H1 & H2).
  unfold strtol16. cbn [skip_spaces]. rewrite Hs.
  assert (E : hex_digits_value (String a (String b "")) 0 = 16 * x + y).
  { cbn [hex_digits_value]. rewrite Ha, Hb. lia. }
  destruct a as [[] [] [] [] [] [] [] []]; try exact E; exfalso; auto.
Qed.

Lemma url_decode_plain c s : c <> "%"%char -> url_decode (String c s) = String c (url_decode s).
Proof.
  intros Hc. destruct c as [[] [] [] [] [] [] [] []]; try reflexivity. by exfalso.
Qed.

Lemma url_decode_encoded c e s : encodes_char c e ->
  url_decode (e ++ s) = String c (url_decode s).
Proof.
  intros [[-> Hc]|(a & b & x & y & -> & Ha & Hb & E)].
  - by apply url_decode_plain.
  - cbn. rewrite (strtol16_two a b x y Ha Hb), E. by rewrite byte_char_byte.
Qed.

Lemma url_decode_enc enc `{PercentEncoder enc} s t :
  url_decode (enc s ++ t) = s ++ url_decode t.
Proof.
  induction s as [|c s IH]; [by rewrite enc_nil|].
  destruct (enc_cons c s) as (e & He & ->).
  rewrite <- str_app_assoc, (url_decode_encoded c e) by assumption. cbn. by rewrite IH.
Qed.

(** ** Parsing a query string *)

Definition name_char (c : ascii) : bool :=
  negb (Ascii.eqb c "=") && negb (Ascii.eqb c "&") && negb (Ascii.eqb c "013")
  && negb (Ascii.eqb c "010") && negb (isControl (char_int c)).

Definition value_char (c : ascii) : bool :=
  negb (Ascii.eqb c "&") && negb (Ascii.eqb c "013")
  && negb (Ascii.eqb c "010") && negb (isControl (char_int c)).

Lemma query_loop_name n : forall acc v rest q,
  str_forall name_char n = true -> slen acc + slen n <= QUERY_NAME_MAX ->
  query_loop (n ++ rest) QUERY_PARSE_NAME acc v q
  = query_loop rest QUERY_PARSE_NAME (acc ++ n) v q.
Proof.
  induction n as [|c n IH]; intros acc v rest q Hn Hl.
  - by rewrite str_app_nil_r.
  - cbn [str_forall] in Hn. apply andb_true_iff in Hn as [Hc Hn].
    unfold name_char in Hc. breflect.
    assert (Hl1 : slen (push_back acc c) + slen n <= QUERY_NAME_MAX).
    { unfold slen in *. rewrite str_length_push_back. cbn [String.length] in Hl. lia. }
    cbn. repeat match goal with H : _ = false |- _ => rewrite H end. cbn [orb].
    destruct (_ <=? _) eqn:E; breflect.
    + unfold slen in *. cbn [String.length] in Hl. lia.
    + rewrite IH by assumption. by rewrite <- str_app_cons.
Qed.

Lemma query_loop_value w : forall n acc rest q,
  str_forall value_char w = true -> slen acc + slen w <= QUERY_VALUE_MAX ->
  query_loop (w ++ rest) QUERY_PARSE_VALUE n acc q
  = query_loop rest QUERY_PARSE_VALUE n (acc ++ w) q.
Proof.
  induction w as [|c w IH]; intros n acc rest q Hw Hl.
  - by rewrite str_app_nil_r.
  - cbn [str_forall] in Hw. apply andb_true_iff in Hw as [Hc Hw].
    unfold value_char in Hc. breflect.
    assert (Hl1 : slen (push_back acc c) + slen w <= QUERY_VALUE_MAX).
    { unfold slen in *. rewrite str_length_push_back. cbn [String.length] in Hl. lia. }
    cbn. repeat match goal with H : _ = false |- _ => rewrite H end. cbn [orb].
    destruct (_ <=? _) eqn:E; breflect.
    + unfold slen in *. cbn [String.length] in Hl. lia.
    + rewrite IH by assumption. by rewrite <- str_app_cons.
Qed.

(** Pairs that survive the trip: a name of 1 to 1024 characters, a value of at
    most 1 MB, no control character, no separator. *)
Definition kvp_ok (p : KVP) : Prop :=
  getKey p <> "" /\ str_forall name_char (getKey p) = true
  /\ slen (getKey p) <= QUERY_NAME_MAX
  /\ getValue p <> "" /\ str_forall value_char (getValue p) = true
  /\ slen (getValue p) <= QUERY_VALUE_MAX.

(** The plain text of a list of pairs. *)
Fixpoint plain_query (ps : list KVP) : string :=
  match ps with
  | [] => ""
  | [p] => getKey p ++ "=" ++ getValue p
  | p :: ps' => getKey p ++ "=" ++ getValue p ++ "&" ++ plain_query ps'
  end.

Lemma query_loop_pair p rest q : kvp_ok p ->
  query_loop (getKey p ++ "=" ++ getValue p ++ rest) QUERY_PARSE_NAME "" "" q
  = query_loop rest QUERY_PARSE_VALUE (getKey p) (getValue p) q.
Proof.
  intros (H1 & H2 & H3 & H4 & H5 & H6).
  rewrite query_loop_name by (assumption || (unfold slen in *; cbn; lia)).
  apply nonempty_true in H1. cbn. rewrite H1. cbn.
  rewrite query_loop_value by (assumption || (unfold slen in *; cbn; lia)). reflexivity.
Qed.

Lemma query_loop_plain ps : forall q, Forall kvp_ok ps ->
  query_loop (plain_query ps) QUERY_PARSE_NAME "" "" q = (true, (q ++ ps)%list).
Proof.
  induction ps as [|p ps IH]; intros q Hf; [cbn; by rewrite app_nil_r|].
  inversion_clear Hf as [|? ? Hp Hps].
  pose proof Hp as (H1 & _). apply nonempty_true in H1.
  destruct ps as [|p' ps].
  - cbn [plain_query]. rewrite <- (str_app_nil_r (getValue p)), query_loop_pair by assumption.
    cbn. rewrite H1. by destruct p.
  - change (plain_query (p :: p' :: ps)) with
      (getKey p ++ "=" ++ getValue p ++ ("&" ++ plain_query (p' :: ps))).
    rewrite query_loop_pair by assumption.
    cbn [query_loop String.append]. cbn -[plain_query].
    rewrite IH by assumption. rewrite <- app_assoc. by destruct p.
Qed.

Definition pairs_of (ps : list KVP) : list (string * string) :=
  map (fun p => (getKey p, getValue p)) ps.

(** The text built, without its accumulator. *)
Fixpoint encoded_query (enc : string -> string) (ps : list KVP) : string :=
  match ps with
  | [] => ""
  | [p] => enc (getKey p) ++ "=" ++ enc (getValue p)
  | p :: ps' => enc (getKey p) ++ "=" ++ enc (getValue p) ++ "&" ++ encoded_query enc ps'
  end.

Lemma make_query_loop_later enc ps : forall i acc, Forall kvp_ok ps ->
  make_query_loop enc (pairs_of ps) (S i) acc
  = acc ++ match ps with [] => "" | _ => "&" ++ encoded_query enc ps end.
Proof.
  induction ps as [|p ps IH]; intros i acc Hf; cbn [pairs_of map make_query_loop].
  - by rewrite str_app_nil_r.
  - inversion_clear Hf as [|? ? (_ & _ & _ & H4 & _) Hps].
    apply nonempty_true in H4. rewrite H4. cbn [Nat.eqb]. fold (pairs_of ps).
    rewrite IH by assumption. rewrite <- !str_app_assoc. do 2 f_equal.
    destruct ps; cbn [encoded_query]; rewrite ?str_app_nil_r, <- ?str_app_assoc; reflexivity.
Qed.

Lemma make_query_string_encoded enc ps : Forall kvp_ok ps ->
  make_query_string enc (pairs_of ps) = encoded_query enc ps.
Proof.
  intros Hf. unfold make_query_string. destruct ps as [|p ps]; [reflexivity|].
  inversion_clear Hf as [|? ? (_ & _ & _ & H4 & _) Hps]. apply nonempty_true in H4.
  cbn [pairs_of map make_query_loop]. rewrite H4. cbn [Nat.eqb].
  fold (pairs_of ps). rewrite make_query_loop_later by assumption.
  destruct ps; cbn [encoded_query]; rewrite ?str_app_nil_r, <- ?str_app_assoc; reflexivity.
Qed.

Lemma url_decode_encoded_query enc `{PercentEncoder enc} ps :
  url_decode (encoded_query enc ps) = plain_query ps.
Proof.
  induction ps as [|p ps IH]; [reflexivity|]. destruct ps as [|p' ps].
  - cbn [encoded_query plain_query]. rewrite url_decode_enc by assumption. f_equal.
    cbn [String.append]. rewrite url_decode_plain by done. f_equal.
    rewrite <- (str_app_nil_r (enc _)), url_decode_enc by assumption. apply str_app_nil_r.
  - change (encoded_query enc (p :: p' :: ps)) with
      (enc (getKey p) ++ "=" ++ enc (getValue p) ++ ("&" ++ encoded_query enc (p' :: ps))).
    rewrite url_decode_enc by assumption.
    change (plain_query (p :: p' :: ps)) with
      (getKey p ++ "=" ++ getValue p ++ ("&" ++ plain_query (p' :: ps))). f_equal.
    cbn [String.append]. rewrite url_decode_plain by done. f_equal.
    rewrite url_decode_enc by assumption. f_equal.
    rewrite url_decode_plain by done. by rewrite IH.
Qed.

(** Query strings round trip: the parameters [make_query_string] writes
    are the ones [riot_getQueryParams] reads, in order, for every encoder that
    percent-encodes, as long as there is one and each has a name and a value
    free of separators and control characters and within the length limits. *)
Theorem query_roundtrip (enc : string -> string) `{!PercentEncoder enc} (ps : list KVP)
    (q : list KVP) (Hok : Forall kvp_ok ps) (Hne : ps <> []) :
  riot_getQueryParams (make_query_string enc (pairs_of ps)) q = (true, (q ++ ps)%list).
Proof.
  rewrite make_query_string_encoded by assumption. unfold riot_getQueryParams.
  assert (Hn : nonempty (encoded_query enc ps) = true).
  { apply nonempty_true. intros E.
    pose proof (url_decode_encoded_query enc ps) as H. rewrite E in H.
    destruct ps as [|p ps]; [done|]. inversion_clear Hok as [|? ? (H1 & _) _].
    apply H1. destruct ps; cbn in H; by destruct (getKey p). }
  rewrite Hn, (url_decode_encoded_query enc). cbn [negb]. by apply query_loop_plain.
Qed.

(** ** A concrete encoder: every character as [%XX] *)

Lemma hex_digit_value n : 0 <= n < 16 -> hex_value (hex_digit n) = Some n.
Proof.
  intros Hn.
  assert (H : match hex_value (hex_digit n) with Some m => m =? n | None => false end = true).
  { apply (forallb_seqZ (fun n => match hex_value (hex_digit n) with
                                  | Some m => m =? n | None => false end) 16);
      [by vm_compute|assumption]. }
  destruct (hex_value (hex_digit n)); [|done]. apply Z.eqb_eq in H. by subst.
Qed.

Lemma byte_nibbles b : is_byte b ->
  0 <= b / 16 < 16 /\ 0 <= b mod 16 < 16 /\ 16 * (b / 16) + b mod 16 = b.
Proof. unfold is_byte. intros. split; [|split]; dlia. Qed.

Fixpoint encode_all (s : string) : string :=
  match s with
  | EmptyString => ""
  | String c s' =>
      String "%" (String (hex_digit (char_byte c / 16))
        (String (hex_digit (char_byte c mod 16)) (encode_all s')))
  end.

#[global] Instance encode_all_encoder : PercentEncoder encode_all.
Proof.
  constructor; [reflexivity|]. intros c s.
  destruct (byte_nibbles (char_byte c) (char_byte_range c)) as (H1 & H2 & H3).
  eexists (String "%" (String _ (String _ ""))). split; [|reflexivity].
  right. do 4 eexists. split; [reflexivity|].
  by rewrite !hex_digit_value.
Qed.

Definition sample_query : list KVP := [mkKVP "i" "dev 1"; mkKVP "d" "t|15=x"; mkKVP "k" "%41"].

Lemma query_roundtrip_witness :
  Forall kvp_ok sample_query /\ sample_query <> [] /\
  riot_getQueryParams (make_query_string encode_all (pairs_of sample_query)) []
  = (true, sample_query).
Proof.
  assert (Hok : Forall kvp_ok sample_query).
  { repeat constructor; (discriminate || reflexivity || (intros Hc; discriminate Hc)). }
  split; [exact Hok|]. split; [discriminate|].
  exact (query_roundtrip encode_all sample_query [] Hok ltac:(discriminate)).
Defined.

(** ** Hexadecimal dumps *)

Section HexDump.
  Context `{HL : BoostLaws}.

(** The digits of a dump, without the separators. *)
Fixpoint hex_digits (v : list Z) : string :=
  match v with
  | [] => ""
  | b :: v' => String (hex_digit (b / 16)) (String (hex_digit (b mod 16)) (hex_digits v'))
  end.

Lemma hex_append_app v : forall acc, Forall is_byte v ->
  hex_append v acc = acc ++ hex_append v "".
Proof.
  induction v as [|b v IH]; intros acc Hv; cbn [hex_append]; [by rewrite str_app_nil_r|].
  inversion_clear Hv as [|? ? Hb Hv']. rewrite IH by assumption.
  rewrite (IH ("" ++ _)) by assumption. by rewrite <- str_app_assoc.
Qed.

Lemma hex_value_not_space c x : hex_value c = Some x -> isspace c = false /\ Ascii.eqb c " " = false.
Proof.
  intros H. destruct (hex_value_shape c x H) as (Hs & _). split; [assumption|].
  destruct (Ascii.eqb_spec c " "); [subst; done|done].
Qed.

Lemma nibble_not_space n : 0 <= n < 16 ->
  isspace (hex_digit n) = false /\ Ascii.eqb (hex_digit n) " " = false.
Proof. intros Hn. eapply hex_value_not_space, hex_digit_value, Hn. Qed.

(** Trimming only removes blanks, which the reader removes anyway. *)
Definition not_blank (c : ascii) : bool := negb (Ascii.eqb c " ").

Lemma hex_append_cons b v : is_byte b -> Forall is_byte v ->
  hex_append (b :: v) ""
  = String (hex_digit (b / 16)) (String (hex_digit (b mod 16)) (String " " (hex_append v ""))).
Proof.
  intros Hb Hv. cbn [hex_append String.append]. rewrite hex_append_app by assumption.
  by rewrite (format_02X_law b Hb).
Qed.

Lemma hex_append_trim v : Forall is_byte v ->
  str_filter not_blank (trim (hex_append v "")) = hex_digits v.
Proof.
  intros Hv. rewrite trim_law.
  assert (El : trim_left (hex_append v "") = hex_append v "").
  { destruct v as [|b v]; [done|]. inversion_clear Hv as [|? ? Hb Hv'].
    destruct (byte_nibbles b Hb) as (H1 & _). rewrite hex_append_cons by assumption.
    cbn [trim_left]. by rewrite (proj1 (nibble_not_space _ H1)). }
  rewrite El. clear El. induction Hv as [|b v Hb Hv IH]; [done|].
  destruct (byte_nibbles b Hb) as (H1 & H2 & _).
  destruct (nibble_not_space _ H1) as [S1 E1], (nibble_not_space _ H2) as [S2 E2].
  rewrite hex_append_cons by assumption. cbn [trim_right hex_digits].
  assert (F1 : not_blank (hex_digit (b / 16)) = true) by (unfold not_blank; by rewrite E1).
  assert (F2 : not_blank (hex_digit (b mod 16)) = true) by (unfold not_blank; by rewrite E2).
  destruct (trim_right (hex_append v "")) as [|c t] eqn:Et.
  - cbn [str_filter] in IH. rewrite <- IH. change (isspace " ") with true. cbn iota.
    rewrite S2. cbn [str_filter]. by rewrite F1, F2.
  - rewrite <- IH. cbn [str_filter]. rewrite F1, F2. reflexivity.
Qed.

Lemma extract_hex_pair a b x y : hex_value a = Some x -> hex_value b = Some y ->
  extract_hex_short (String a (String b "")) = Some (16 * x + y).
Proof.
  intros Ha Hb. destruct (hex_value_shape a x Ha) as (Hs & H1 & H2).
  destruct (hex_value_shape b y Hb) as (_ & H3 & H4).
  assert (Hv : hex_digits_value (String a (String b "")) 0 = 16 * x + y).
  { cbn [hex_digits_value]. rewrite Ha, Hb. lia. }
  assert (Hx : Ascii.eqb b "x" || Ascii.eqb b "X" = false).
  { destruct (Ascii.eqb_spec b "x"); [subst; done|]. by destruct (Ascii.eqb_spec b "X"); subst. }
  unfold extract_hex_short. cbn [skip_spaces]. rewrite Hs.
  destruct (ascii_dec a "0") as [->|Hn0].
  - cbn iota beta. rewrite Hx, Ha, Hv. reflexivity.
  - destruct a as [[] [] [] [] [] [] [] []];
      try (exfalso; auto; fail); rewrite Ha, Hv; reflexivity.
Qed.

Lemma hex_pairs_digits v : forall fuel acc, Forall is_byte v ->
  (2 * List.length v <= fuel)%nat -> hex_pairs fuel (hex_digits v) acc = (acc ++ v)%list.
Proof.
  induction v as [|b v IH]; intros fuel acc Hv Hf.
  - cbn [hex_digits]. rewrite app_nil_r. by destruct fuel.
  - inversion_clear Hv as [|? ? Hb Hv'].
    destruct fuel as [|fuel]; [cbn in Hf; lia|].
    destruct (byte_nibbles b Hb) as (H1 & H2 & H3).
    cbn [hex_digits hex_pairs str_take str_drop].
    rewrite (extract_hex_pair _ _ _ _ (hex_digit_value _ H1) (hex_digit_value _ H2)), H3.
    rewrite u8_small by assumption.
    rewrite IH by (assumption || (cbn in Hf; lia)). by rewrite <- app_assoc.
Qed.

Lemma length_hex_digits v : String.length (hex_digits v) = (2 * List.length v)%nat.
Proof. induction v as [|b v IH]; cbn; [done|]. rewrite IH. lia. Qed.

(** Dumps round trip: reading the hexadecimal dump of a frame gives back
    the frame, byte for byte. *)
Theorem hex_roundtrip (v : list Z) (Hv : Forall is_byte v) :
  hex_str_to_vector (str_to_hex v) = v.
Proof.
  unfold hex_str_to_vector, str_to_hex. rewrite erase_all_law.
  fold not_blank. rewrite (hex_append_trim v Hv).
  rewrite hex_pairs_digits by (assumption || (rewrite length_hex_digits; lia)). reflexivity.
Qed.
End HexDump.

Lemma hex_roundtrip_witness :
  Forall is_byte [0; 255; 16; 10] /\
  @hex_str_to_vector boost_reference (@str_to_hex boost_reference [0; 255; 16; 10])
  = [0; 255; 16; 10] /\
  @str_to_hex boost_reference [0; 255; 16; 10] = "00 FF 10 0A".
Proof.
  assert (H : Forall is_byte [0; 255; 16; 10]) by solve_bytes.
  split; [exact H|]. split; [|reflexivity].
  exact (@hex_roundtrip boost_reference boost_reference_laws [0; 255; 16; 10] H).
Defined.

(** ** The header checks as languages *)

Definition service_char (c : ascii) : bool := islower c || isdigit c || Ascii.eqb c "_".
Definition word_char (c : ascii) : bool := isalnum c || Ascii.eqb c "_".

(** What the two checks accept: a service is 1 to 50 lower-case letters,
    digits or underscores; a path is empty, [/*], [/#], or a slash and at most
    50 letters, digits or underscores. *)
Definition service_name (s : string) : Prop :=
  1 <= slen s <= FIWARE_SERVICE_LENGTH /\ str_forall service_char s = true.

Definition service_path (s : string) : Prop :=
  s = "" \/ s = "/*" \/ s = "/#"
  \/ exists t, s = String "/" t /\ slen t <= FIWARE_SERVICE_LENGTH
       /\ str_forall word_char t = true.

Lemma service_char_bad_spec c : service_char_bad c = negb (service_char c).
Proof. by destruct c as [[] [] [] [] [] [] [] []]. Qed.

Lemma str_exists_negb p q s : (forall c, p c = negb (q c)) ->
  str_exists p s = negb (str_forall q s).
Proof.
  intros H. unfold str_exists. f_equal. induction s as [|c s IH]; cbn; [done|].
  by rewrite IH, H, negb_involutive.
Qed.

Lemma path_char_bad_spec c : path_char_bad c = negb (word_char c).
Proof. unfold path_char_bad, word_char. by rewrite negb_orb. Qed.

Lemma if_throw {A} (b : bool) (e : exn) (a : A) (P : Prop) :
  (b = false <-> P) ->
  ((if b then Throw e else Ret a) = Ret a <-> P)
  /\ ((if b then Throw e else Ret a) = Throw e <-> ~ P).
Proof. destruct b; split; split; intros; try done; try tauto; intuition congruence. Qed.

Lemma service_error_false s :
  negb (nonempty s) || (FIWARE_SERVICE_LENGTH <? slen s) || str_exists service_char_bad s = false
  <-> service_name s.
Proof.
  rewrite (str_exists_negb _ service_char) by apply service_char_bad_spec.
  unfold service_name. rewrite !orb_false_iff, !negb_false_iff, Z.ltb_ge, nonempty_true.
  pose proof (slen_nonneg s). destruct s as [|c s]; [unfold slen; cbn; intuition (done || lia)|].
  rewrite slen_cons. pose proof (slen_nonneg s). intuition (try lia; try done).
Qed.

Definition wild_path (s : string) : bool :=
  Ascii.eqb (char_at s 1) "*" || Ascii.eqb (char_at s 1) "#".

Lemma wild_path_cons c d t : wild_path (String c (String d t)) = Ascii.eqb d "*" || Ascii.eqb d "#".
Proof. reflexivity. Qed.

Lemma word_char_wild d : word_char d = true -> Ascii.eqb d "*" || Ascii.eqb d "#" = false.
Proof.
  intros H. destruct (Ascii.eqb_spec d "*"); [by subst|]. by destruct (Ascii.eqb_spec d "#"); subst.
Qed.

(** The header checks accept exactly the documented services and paths,
    and reject every other string with their own exception. *)
Theorem header_checks (s : string) :
  (check_fiware_service_name s = Ret tt <-> service_name s)
  /\ (check_fiware_service_name s
      = Throw (IotaException REASON_MALFORMED_HEADER DETAILS_HEADER_FIWARE_SERVICE
                 RESPONSE_CODE_FIWARE_SERVICE_ERROR) <-> ~ service_name s)
  /\ (check_fiware_service_path_name s = Ret tt <-> service_path s)
  /\ (check_fiware_service_path_name s
      = Throw (IotaException REASON_MALFORMED_HEADER DETAILS_HEADER_FIWARE_SERVICE_PATH
                 RESPONSE_CODE_FIWARE_SERVICE_PATH_ERROR) <-> ~ service_path s).
Proof.
  destruct (if_throw _ (IotaException REASON_MALFORMED_HEADER DETAILS_HEADER_FIWARE_SERVICE
                 RESPONSE_CODE_FIWARE_SERVICE_ERROR) tt _ (service_error_false s)) as [H1 H2].
  split; [exact H1|]. split; [exact H2|]. clear H1 H2.
  unfold check_fiware_service_path_name. fold (wild_path s).
  destruct s as [|c s]; cbn [nonempty String.eqb negb].
  { change (negb (nonempty "")) with true. cbn iota.
    split; (split; [intros H; try done; by left|intros H; try done; exfalso; apply H; by left]). }
  change (negb (nonempty (String c s))) with false. cbn iota.
  apply if_throw.
  rewrite (str_exists_negb _ word_char) by apply path_char_bad_spec.
  rewrite !orb_false_iff, !negb_false_iff, !Z.ltb_ge, Ascii.eqb_eq, slen_cons.
  cbn [char_at String.get].
  split.
  - intros [[[-> Hw] Hl] Hf]. destruct s as [|d s].
    + right; right; right. exists "". cbn. repeat split; done.
    + rewrite wild_path_cons in *. destruct (Ascii.eqb d "*" || Ascii.eqb d "#") eqn:E.
      * cbn [andb] in Hw. apply Z.ltb_ge in Hw. rewrite slen_cons in Hw.
        pose proof (slen_nonneg s). destruct s; [|rewrite slen_cons in Hw; pose proof (slen_nonneg s); lia].
        apply orb_true_iff in E as [E|E]; apply Ascii.eqb_eq in E; subst d; [right; left|right; right; left]; done.
      * right; right; right. exists (String d s). cbn [str_drop] in Hf.
        split; [done|]. split; [lia|done].
  - intros [?|[[= -> ->]|[[= -> ->]|(t & [= -> ->] & Hl & Hf)]]]; [done|done|done|].
    assert (Hw : wild_path (String "/" t) = false).
    { destruct t as [|d t]; [done|]. rewrite wild_path_cons. cbn in Hf.
      apply andb_true_iff in Hf as [Hd _]. by apply word_char_wild. }
    rewrite Hw. cbn [andb str_drop]. repeat split; (done || lia).
Qed.

(** ** Identifiers *)

Section Identifiers.
  Context `{HL : BoostLaws}.

Definition identifier_char (c : ascii) : bool :=
  negb (in_set REGEX_IDENTIFIER_FORBIDDEN_CHARACTERS c).

Lemma render_identifier_eq s : render_identifier s = str_take IDENTIFIER_MAX_LENGTH (str_filter identifier_char s).
Proof. unfold render_identifier. by rewrite erase_all_class_law. Qed.

Lemma render_identifier_clean s :
  str_forall identifier_char s = true -> (String.length s <= IDENTIFIER_MAX_LENGTH)%nat ->
  render_identifier s = s.
Proof.
  intros Hc Hl. rewrite render_identifier_eq, str_filter_id by assumption. by apply str_take_ge.
Qed.

Lemma render_identifier_range s :
  str_forall identifier_char (render_identifier s) = true
  /\ (String.length (render_identifier s) <= IDENTIFIER_MAX_LENGTH)%nat.
Proof.
  rewrite render_identifier_eq. split.
  - apply str_forall_take, str_filter_forall.
  - rewrite str_length_take. lia.
Qed.

(** [render_identifier] projects on the identifiers: its result has no
    forbidden character and at most 256 characters, exactly the strings with
    both are left alone, and rendering twice is rendering once. *)
Theorem render_identifier_projects (s : string) :
  str_forall identifier_char (render_identifier s) = true
  /\ (String.length (render_identifier s) <= IDENTIFIER_MAX_LENGTH)%nat
  /\ (render_identifier s = s <->
      str_forall identifier_char s = true /\ (String.length s <= IDENTIFIER_MAX_LENGTH)%nat)
  /\ render_identifier (render_identifier s) = render_identifier s.
Proof.
  destruct (render_identifier_range s) as [H1 H2]. split; [assumption|]. split; [assumption|].
  split; [|by apply render_identifier_clean]. split.
  - intros E. rewrite E in *. done.
  - intros [? ?]. by apply render_identifier_clean.
Qed.
End Identifiers.

Lemma render_identifier_projects_witness :
  @render_identifier boost_reference "a<b> #c" = "abc" /\
  @render_identifier boost_reference (@render_identifier boost_reference "a<b> #c")
  = @render_identifier boost_reference "a<b> #c".
Proof.
  split; [reflexivity|].
  exact (proj2 (proj2 (proj2 (@render_identifier_projects boost_reference
    boost_reference_laws "a<b> #c")))).
Defined.

(** ** Forbidden characters in a document *)

(** Every array element is a document, at every depth. *)
Fixpoint bson_ok (e : bson_element) : bool :=
  match e with
  | BEOO | BValue _ => true
  | BObject fs => forallb bson_ok fs
  | BArray es => forallb (fun e => match e with BObject _ => bson_ok e | _ => false end) es
  end.

(** Some string in the document has a forbidden character. *)
Fixpoint bson_forbidden (e : bson_element) : bool :=
  match e with
  | BEOO => false
  | BValue v => str_exists (in_set IOTA_FORBIDDEN_CHARACTERS) v
  | BObject fs => existsb bson_forbidden fs
  | BArray es => existsb bson_forbidden es
  end.

Lemma check_forbidden_characters_spec f s : check_forbidden_characters f s = str_exists (in_set f) s.
Proof.
  unfold check_forbidden_characters, find_first_of.
  destruct (find_if (in_set f) s) as [n|] eqn:E.
  - symmetry. unfold str_exists. apply negb_true_iff.
    destruct (str_forall _ s) eqn:Ef; [|done]. apply find_if_none in Ef. congruence.
  - apply find_if_none in E. unfold str_exists. by rewrite E.
Qed.

Section BsonInduction.
  Variable P : bson_element -> Prop.
  Hypothesis H0 : P BEOO.
  Hypothesis H1 : forall v, P (BValue v).
  Hypothesis H2 : forall fs, Forall P fs -> P (BObject fs).
  Hypothesis H3 : forall es, Forall P es -> P (BArray es).

Fixpoint bson_element_rect' (e : bson_element) : P e :=
  let all := fix all (l : list bson_element) : Forall P l :=
    match l with
    | [] => Forall_nil_2 P
    | x :: l' => Forall_cons_2 P x l' (bson_element_rect' x) (all l')
    end in
  match e with
  | BEOO => H0
  | BValue v => H1 v
  | BObject fs => H2 fs (all fs)
  | BArray es => H3 es (all es)
  end.
End BsonInduction.

Lemma check_forbidden_fields_ok fs :
  Forall (fun e => bson_ok e = true ->
            forall has, check_forbidden_bson e has = Ret (has || bson_forbidden e)) fs ->
  forallb bson_ok fs = true ->
  forall has, check_forbidden_fields fs has = Ret (has || existsb bson_forbidden fs).
Proof.
  induction 1 as [|e fs He Hfs IH]; intros Hok has; cbn in *; [by rewrite orb_false_r|].
  apply andb_true_iff in Hok as [Ho Hok]. rewrite He by assumption. cbn.
  rewrite IH by assumption. by rewrite orb_assoc.
Qed.

Lemma check_forbidden_object_eq fs has :
  check_forbidden_bson (BObject fs) has
  = if has then Ret true else check_forbidden_fields fs false.
Proof.
  cbn. destruct has; [done|]. generalize false. induction fs as [|f fs IH]; intros b; cbn; [done|].
  destruct (check_forbidden_bson f b); cbn; [apply IH|done|done].
Qed.

Lemma check_forbidden_array_cons e es has :
  check_forbidden_bson (BArray (e :: es)) has
  = match e with
    | BObject _ => let! r := check_forbidden_bson e has in check_forbidden_bson (BArray es) r
    | _ => Throw (RuntimeError "BSONElement: not an object")
    end.
Proof. by destruct e. Qed.

Lemma check_forbidden_bson_ok e : bson_ok e = true ->
  forall has, check_forbidden_bson e has = Ret (has || bson_forbidden e).
Proof.
  induction e as [|v|fs IH|es IH] using bson_element_rect'; intros Hok has.
  - cbn. by rewrite orb_false_r.
  - cbn. by rewrite check_forbidden_characters_spec.
  - rewrite check_forbidden_object_eq. destruct has; [done|].
    by rewrite check_forbidden_fields_ok.
  - revert has. induction IH as [|e es He Hes IH']; intros has.
    + cbn. by rewrite orb_false_r.
    + cbn in Hok. apply andb_true_iff in Hok as [Ho Hok].
      rewrite check_forbidden_array_cons.
      destruct e as [|v|fs|es']; try discriminate Ho.
      rewrite He by assumption. cbn [obind]. rewrite IH' by exact Hok.
      cbn [bson_forbidden existsb]. by rewrite orb_assoc.
Qed.

(** The walk of a document finds a forbidden character exactly when some
    string of it, however deep, has one, as long as its arrays hold only
    documents; a document whose first field is an array of anything else makes
    it throw. *)
Theorem check_forbidden_object_spec (fs : list bson_element) :
  (forallb bson_ok fs = true ->
   check_forbidden_object fs = Ret (existsb bson_forbidden fs))
  /\ (forall e es, (forall gs, e <> BObject gs) ->
      exists x, check_forbidden_object (BArray (e :: es) :: fs) = Throw x).
Proof.
  split.
  - intros Hok. unfold check_forbidden_object. rewrite check_forbidden_fields_ok; [done| |done].
    apply Forall_forall. intros e _. apply check_forbidden_bson_ok.
  - intros e es He. eexists. unfold check_forbidden_object.
    cbn [check_forbidden_fields]. rewrite check_forbidden_array_cons.
    destruct e as [|v|gs|es']; [reflexivity|reflexivity| |reflexivity]. by destruct (He gs).
Qed.

Lemma check_forbidden_object_spec_witness :
  let doc := [BValue "ok"; BArray [BObject [BValue "a"; BObject [BValue "x<y"]]]] in
  forallb bson_ok doc = true /\ check_forbidden_object doc = Ret true
  /\ exists x, check_forbidden_object (BArray [BValue "tag"] :: doc) = Throw x.
Proof.
  intros doc. assert (H : forallb bson_ok doc = true) by reflexivity.
  split; [exact H|]. split.
  - exact (proj1 (check_forbidden_object_spec doc) H).
  - exact (proj2 (check_forbidden_object_spec doc) (BValue "tag") [] ltac:(discriminate)).
Defined.
