(* ===== verification/EspStringUtils.v ===== *)
(** * String utilities of the ESP library: [src/src/esp/source/ESP_StringUtils.cpp]

    [ESP_StringUtils] and [CC_StringTokenizer].  Positions are [size_t] (64
    bits) except where the code stores them in an [unsigned int], as [condense]
    does: there they wrap at 32 bits, [npos] included. *)
From stdpp Require Import base tactics list gmap strings pretty.
From Stdlib Require Import ZArith Lia Ascii String.
From S2P Require Import Prelude CppString.

Local Open Scope string_scope.
Local Open Scope Z_scope.

Definition NPOS : Z := 2 ^ 64 - 1.

(** A position as a [size_t]. *)
Definition size_of (p : option nat) : Z := match p with Some n => Z.of_nat n | None => NPOS end.

(** [s.erase(pos, n)], which throws past the end. *)
Definition erase (s : string) (pos n : nat) : outcome string :=
  if Nat.leb pos (String.length s)
  then Ret (str_take pos s ++ str_drop (pos + n) s)%string else Throw OutOfRange.

(** [" \t\n\r\f\v"], the default set of [trim]. *)
Definition WHITESPACE : string :=
  String " " (String "009" (String "010" (String "013" (String "012" (String "011" ""))))).

(** [trim]: [erase(0, npos)] empties the string, and so does [erase(npos + 1)]. *)
Definition trim (s t : string) : string :=
  let s := match find_first_not_of t s with Some n => str_drop n s | None => "" end in
  match find_last_not_of t s with Some n => str_take (S n) s | None => "" end.

(** The case conversions return their argument. *)
Definition strToLower (str : string) : string := str.
Definition strToUpper (str : string) : string := str.
Definition strToFirstCapital (str : string) : string := str.

Definition AddEndingString (inOriginalString inSearchString : string) : string :=
  match rfind inSearchString inOriginalString with
  | None => inOriginalString ++ inSearchString
  | Some nPos =>
      if Nat.ltb (nPos + String.length inSearchString) (String.length inOriginalString)
      then inOriginalString ++ inSearchString
      else inOriginalString
  end.

Definition applyFormat (source format : string) : string :=
  let operation := strToLower format in
  if String.eqb operation "uppercase" then strToUpper source
  else if String.eqb operation "lowercase" then strToLower source
  else if String.eqb operation "firstcapital" then strToFirstCapital source
  else if String.eqb operation "addsemicolon" then AddEndingString source ":"
  else source.

(** [replaceChar] writes through the pointer, up to the first [\0]. *)
Fixpoint replaceChar (dest : string) (srch repl : ascii) : string :=
  match dest with
  | EmptyString => EmptyString
  | String c s =>
      if Ascii.eqb c "000" then dest
      else String (if Ascii.eqb c srch then repl else c) (replaceChar s srch repl)
  end.

(** [iss >> int]: what is read and what is left, [None] for a failed
    extraction (no digit, or a value that is not an [int]). *)
Fixpoint extract_digits (s : string) (acc : Z) : Z * string :=
  match s with
  | String c s' => if isdigit c then extract_digits s' (10 * acc + (char_byte c - 48)) else (acc, s)
  | EmptyString => (acc, EmptyString)
  end.

Definition extract_int (s : string) : option (Z * string) :=
  let digits neg t :=
    match t with
    | String c _ =>
        if isdigit c then
          let '(v, rest) := extract_digits t 0 in
          let v := if neg : bool then - v else v in
          if (- 2 ^ 31 <=? v) && (v <? 2 ^ 31) then Some (v, rest) else None
        else None
    | EmptyString => None
    end in
  match skip_spaces s with
  | String "-" t => digits true t
  | String "+" t => digits false t
  | t => digits false t
  end.

Definition isIntegerNumber (str : string) : bool :=
  match extract_int str with
  | None => false
  | Some (_, rest) => String.eqb rest ""
  end.

Definition isValidLogin (str : string) : bool :=
  str_forall (fun c => (between 65 90 c) || (between 97 122 c) || (between 48 57 c)) str.

(** The bytes before the first [\0], which [strlen] counts. *)
Fixpoint c_str (s : string) : string :=
  match s with
  | String c s' => if Ascii.eqb c "000" then EmptyString else String c (c_str s')
  | EmptyString => EmptyString
  end.

Definition isValidUtf8 (pIn : string) : bool :=
  str_forall (fun c => let c := char_byte c in
    negb ((c =? 192) || (c =? 193) || ((245 <=? c) && (c <=? 255)))) (c_str pIn).

(** [AnsiToUtf8]: [c] is a (signed) [char], promoted to [int]. *)
Fixpoint AnsiToUtf8 (pIn : string) : string :=
  match pIn with
  | EmptyString => EmptyString
  | String x s =>
      let c := char_int x in
      if negb (Z.land c 128 =? 0) then
        let c1 := Z.lor 192 (Z.shiftr c 6) in
        let c2 := Z.lor 128 (Z.land c 63) in
        String (byte_char c1) (String (byte_char c2) (AnsiToUtf8 s))
      else String x (AnsiToUtf8 s)
  end.

Definition replaceNonAlphanumeric (origin : string) (newChar : ascii) : string :=
  str_map (fun c => if negb (isalnum c) then newChar else c) origin.

(** The [while] of [replaceString]; it does not end when [oldStr] is empty. *)
Fixpoint replace_loop (fuel : nat) (origin oldStr newStr : string) (pos lastPos : nat)
    (ss : string) : option (outcome string) :=
  match fuel with
  | O => None
  | S fuel' =>
      match find oldStr origin pos with
      | Some pos =>
          match substr origin lastPos (pos - lastPos) with
          | Ret piece =>
              let pos := (pos + String.length oldStr)%nat in
              replace_loop fuel' origin oldStr newStr pos pos (ss ++ piece ++ newStr)%string
          | Throw e => Some (Throw e)
          | Undefined => Some Undefined
          end
      | None =>
          Some (let! tail := substr_from origin lastPos in Ret (ss ++ tail)%string)
      end
  end.

Definition replaceString (origin oldStr newStr : string) : option (outcome string) :=
  replace_loop (S (String.length origin)) origin oldStr newStr 0 0 "".

Definition startsWith (fullString starting : string) : bool :=
  if Nat.leb (String.length starting) (String.length fullString)
  then String.eqb (str_take (String.length starting) fullString) starting
  else false.

Definition endsWith (fullString ending : string) : bool :=
  if Nat.leb (String.length ending) (String.length fullString)
  then String.eqb (str_drop (String.length fullString - String.length ending) fullString) ending
  else false.

(** One turn of the [while (exists)] of [condense]; [None] leaves it. *)
Definition condense_step (str : string) : option (outcome string) :=
  let iniSpaceString := u32 (size_of (find "  " str 0)) in
  if negb (iniSpaceString =? NPOS) then
    if u32 (iniSpaceString + 1) <? slen str then
      let from := u32 (iniSpaceString + 1) in
      let pos := u32 (size_of (Nat.add (Z.to_nat from)
                   <$> find_first_not_of " " (str_drop (Z.to_nat from) str))) in
      let endSpaceString := if negb (pos =? NPOS) then u32 (pos - 1) else u32 (slen str - 1) in
      let spaceStringLen := i32 (u32 (endSpaceString - iniSpaceString + 1)) in
      if 2 <=? spaceStringLen
      then Some (erase str (Z.to_nat from) (Z.to_nat (spaceStringLen - 1)))
      else None
    else None
  else None.

Fixpoint condense_loop (fuel : nat) (str : string) : option (outcome string) :=
  match fuel with
  | O => None
  | S fuel' =>
      match condense_step str with
      | None => Some (Ret str)
      | Some (Ret str') => condense_loop fuel' str'
      | Some (Throw e) => Some (Throw e)
      | Some Undefined => Some Undefined
      end
  end.

(** Sequencing of two computations that may run out of fuel or throw. *)
Definition then_str (c : option (outcome string)) (k : string -> option (outcome string))
    : option (outcome string) :=
  match c with
  | Some (Ret s) => k s
  | Some (Throw e) => Some (Throw e)
  | Some Undefined => Some Undefined
  | None => None
  end.

Definition condense (str : string) : option (outcome string) :=
  let str := trim str WHITESPACE in
  then_str (replaceString str (String "010" "") " ") (fun str =>
  then_str (replaceString str (String "009" "") " ") (fun str =>
  then_str (replaceString str (String "013" "") " ") (fun str =>
  then_str (replaceString str (String "012" "") " ") (fun str =>
  then_str (replaceString str (String "011" "") " ") (fun str =>
  condense_loop (S (String.length str)) str))))).

(** [splitPathAndFilename]: the flag, the path, the file name; [n] is the
    length, and [pos - 1], [pos + 1] are [size_t]. *)
Definition splitPathAndFilename (fullPath : string) : bool * string * string :=
  let n := slen fullPath in
  let backslash := String (ascii_of_nat 92) "" in
  let pos := match rfind backslash fullPath with
             | Some p => Some p
             | None => rfind "/" fullPath
             end in
  match pos with
  | Some p =>
      let '(ok1, path) :=
        if u64 (Z.of_nat p - 1) <? n then (true, str_take p fullPath) else (false, "") in
      let '(ok2, filename) :=
        if u64 (Z.of_nat p + 1) <? n then (true, str_drop (p + 1) fullPath) else (false, "") in
      (ok1 && ok2, path, filename)
  | None => (false, "", fullPath)
  end.

(** [getStringOcurrencesPosition]: the last of the first [n] occurrences. *)
Fixpoint occurrences_loop (fuel : nat) (str search : string) (n occurrences : Z)
    (start : nat) (result : option nat) : option (option nat) :=
  match fuel with
  | O => None
  | S fuel' =>
      match find search str start with
      | Some start =>
          if occurrences <? n
          then occurrences_loop fuel' str search n (occurrences + 1)
                 (start + String.length search) (Some start)
          else Some result
      | None => Some result
      end
  end.

Definition getStringOcurrencesPosition (str search : string) (n : Z) : option (option nat) :=
  occurrences_loop (S (Z.to_nat n)) str search n 0 0 None.

Definition intToString (n : Z) : string := pretty n.
Definition longToString (n : Z) : string := pretty n.

Fixpoint convertToPassword (str : string) (convert : bool) : string :=
  match str with
  | EmptyString => EmptyString
  | String c s => String (if convert then "*"%char else c) (convertToPassword s convert)
  end.

(** ** [CC_StringTokenizer] *)

Record CC_StringTokenizer : Type := mkTokenizer {
  elements : list string;
  index : Z;
  count : Z;
  sep : string
}.

(** The [for] of the constructor on a one-character separator; [maxtokens] is
    [0] for no limit. *)
Fixpoint tokenizer_loop (str : string) (d : ascii) (maxtokens : nat) (str1 : string)
    (elements : list string) : list string :=
  match str with
  | EmptyString =>
      if nonempty str1 && (Nat.eqb maxtokens 0 || Nat.ltb (List.length elements) maxtokens)
      then (elements ++ [str1])%list else elements
  | String c s =>
      if Ascii.eqb c d then
        tokenizer_loop s d maxtokens ""
          (if Nat.eqb maxtokens 0 || Nat.ltb (List.length elements) maxtokens
           then (elements ++ [str1])%list else elements)
      else tokenizer_loop s d maxtokens (push_back str1 c) elements
  end.

Definition newTokenizer (str sep : string) (maxtokens : nat) : CC_StringTokenizer :=
  let es := match sep with
            | String d "" => tokenizer_loop str d maxtokens "" []
            | _ => []
            end in
  mkTokenizer es 0 (zlen es) sep.

Definition getNextElement (st : CC_StringTokenizer) : CC_StringTokenizer * outcome string :=
  if index st <? count st then
    (mkTokenizer (elements st) (index st + 1) (count st) (sep st), vix (elements st) (index st))
  else (st, Ret "").

Definition countElements (st : CC_StringTokenizer) : Z := count st.

Definition elementAt (st : CC_StringTokenizer) (index : Z) : outcome string :=
  if (count st <=? index) || (index <? 0) then Ret "" else vix (elements st) index.

(** The loop from [i] to [finalIndex], [fuel] being the number of turns. *)
Fixpoint between_loop (fuel : nat) (st : CC_StringTokenizer) (i finalIndex : Z)
    (result : string) : outcome string :=
  match fuel with
  | O => Ret result
  | S fuel' =>
      let! e := vix (elements st) i in
      let result := (result ++ e)%string in
      between_loop fuel' st (i + 1) finalIndex
        (if i <? finalIndex then (result ++ sep st)%string else result)
  end.

Definition getStringBetweenElements (st : CC_StringTokenizer) (initialIndex finalIndex : Z)
    : outcome string :=
  between_loop (Z.to_nat (finalIndex - initialIndex + 1)) st initialIndex finalIndex "".

Fixpoint vector_between_loop (fuel : nat) (st : CC_StringTokenizer) (i : Z)
    (vector : list string) : outcome (list string) :=
  match fuel with
  | O => Ret vector
  | S fuel' =>
      let! e := vix (elements st) i in
      vector_between_loop fuel' st (i + 1) (vector ++ [e])%list
  end.

Definition getVectorStringBetweenElements (st : CC_StringTokenizer)
    (initialIndex finalIndex : Z) : outcome (list string) :=
  vector_between_loop (Z.to_nat (finalIndex - initialIndex + 1)) st initialIndex [].

(** [parseParamsString]: [insert] keeps the first value of a key. *)
Definition CC_ParamsType : Type := gmap string string.

Definition params_insert (pt : CC_ParamsType) (k v : string) : CC_ParamsType :=
  match pt !! k with Some _ => pt | None => <[k := v]> pt end.

Fixpoint params_loop (tokens : list string) (valueToLower : bool) (pt : CC_ParamsType)
    : outcome CC_ParamsType :=
  match tokens with
  | [] => Ret pt
  | t :: ts =>
      let ST2 := newTokenizer t "=" 0 in
      if countElements ST2 =? 2 then
        let! k := elementAt ST2 0 in
        let! v := elementAt ST2 1 in
        params_loop ts valueToLower
          (params_insert pt (strToLower k) (if valueToLower then strToLower v else v))
      else params_loop ts valueToLower pt
  end.

Definition parseParamsString (str : string) (valueToLower : bool) : outcome CC_ParamsType :=
  params_loop (elements (newTokenizer str "," 0)) valueToLower ∅.

(** ** Substitution *)


Fixpoint subst_char (d : ascii) (new s : string) : string :=
  match s with
  | EmptyString => ""
  | String c s' => (if Ascii.eqb c d then new else String c "") ++ subst_char d new s'
  end.

Lemma subst_char_no d new a b : str_forall (fun c => negb (Ascii.eqb c d)) a = true ->
  subst_char d new (a ++ b) = a ++ subst_char d new b.
Proof.
  induction a as [|c a IH]; cbn; [done|]. rewrite andb_true_iff. intros [Hc Ha].
  apply negb_true_iff in Hc. rewrite Hc. cbn. by rewrite (IH Ha).
Qed.

Lemma subst_char_blank d s : subst_char d " " s = str_map (fun c => if Ascii.eqb c d then " "%char else c) s.
Proof. induction s as [|c s IH]; cbn; [done|]. rewrite IH. by destruct (Ascii.eqb c d). Qed.

Lemma substr_from_ok s n : (n <= String.length s)%nat -> substr_from s n = Ret (str_drop n s).
Proof. intros H. unfold substr_from. apply Nat.leb_le in H. by rewrite H. Qed.

Lemma substr_ok s p n : (p <= String.length s)%nat -> substr s p n = Ret (str_take n (str_drop p s)).
Proof.
  intros H. unfold substr. apply Nat.leb_le in H. by rewrite H, substring_drop.
Qed.

(** One turn of the loop on a non-empty pattern: the text before the next
    occurrence is copied, the search restarts after it. *)
Lemma replace_loop_some c old s new fuel pos ss a b :
  (pos <= String.length s)%nat -> str_drop pos s = a ++ String c old ++ b ->
  find (String c old) (str_drop pos s) 0 = Some (String.length a) ->
  replace_loop (S fuel) s (String c old) new pos pos ss
  = replace_loop fuel s (String c old) new
      (pos + String.length a + String.length (String c old))
      (pos + String.length a + String.length (String c old)) (ss ++ a ++ new).
Proof.
  intros Hp Hd Hf. cbn [replace_loop]. rewrite find_drop, Hf. cbn [fmap option_fmap option_map].
  rewrite substr_ok by assumption.
  replace (pos + String.length a - pos)%nat with (String.length a) by lia.
  by rewrite Hd, str_take_app.
Qed.

Lemma replace_loop_none c old s new fuel pos ss :
  (pos <= String.length s)%nat -> find (String c old) (str_drop pos s) 0 = None ->
  replace_loop (S fuel) s (String c old) new pos pos ss = Some (Ret (ss ++ str_drop pos s)).
Proof.
  intros Hp Hf. cbn [replace_loop]. rewrite find_drop, Hf. cbn.
  by rewrite substr_from_ok.
Qed.

(** After an occurrence, the position stays in the string and the rest is
    what follows it. *)
Lemma drop_after a p b s pos : (pos <= String.length s)%nat -> str_drop pos s = a ++ p ++ b ->
  str_drop (pos + String.length a + String.length p) s = b
  /\ (pos + String.length a + String.length p + String.length b = String.length s)%nat.
Proof.
  intros Hp Hd. rewrite <- Nat.add_assoc, <- str_drop_drop, Hd, <- str_drop_drop.
  rewrite str_drop_app, str_drop_app. split; [done|].
  pose proof (str_length_drop pos s) as H. rewrite Hd, !str_length_app in H. lia.
Qed.

Lemma replace_loop_terminates c old s new fuel : forall pos ss,
  (pos <= String.length s)%nat -> (String.length (str_drop pos s) < fuel)%nat ->
  exists r, replace_loop fuel s (String c old) new pos pos ss = Some (Ret r).
Proof.
  induction fuel as [|fuel IH]; intros pos ss Hp Hf; [lia|].
  destruct (find (String c old) (str_drop pos s) 0) as [m|] eqn:E.
  - destruct (find_some _ _ _ E) as (a & b & Hd & <-).
    rewrite (replace_loop_some c old s new fuel pos ss a b) by assumption.
    destruct (drop_after a (String c old) b s pos Hp Hd) as [Hb Hl].
    apply IH; [lia|]. rewrite Hb. rewrite Hd, !str_length_app in Hf. cbn in Hf. lia.
  - eexists. by apply replace_loop_none.
Qed.

Lemma replace_loop_char d s new fuel : forall pos ss,
  (pos <= String.length s)%nat -> (String.length (str_drop pos s) < fuel)%nat ->
  replace_loop fuel s (String d "") new pos pos ss
  = Some (Ret (ss ++ subst_char d new (str_drop pos s))).
Proof.
  induction fuel as [|fuel IH]; intros pos ss Hp Hf; [lia|].
  destruct (find (String d "") (str_drop pos s) 0) as [m|] eqn:E.
  - pose proof E as E'. rewrite find_char in E'.
    destruct (find_if_some _ _ _ E') as (a & c & b & Hd & <- & Hc & Ha).
    apply Ascii.eqb_eq in Hc. subst c.
    rewrite (replace_loop_some d "" s new fuel pos ss a b) by assumption.
    destruct (drop_after a (String d "") b s pos Hp Hd) as [Hb Hl].
    rewrite IH; [|lia|rewrite Hb; rewrite Hd, !str_length_app in Hf; cbn in Hf; lia].
    rewrite Hb, Hd, subst_char_no by exact Ha. cbn. rewrite Ascii.eqb_refl.
    by rewrite <- !str_app_assoc.
  - rewrite replace_loop_none by assumption. rewrite find_char in E. apply find_if_none in E.
    do 3 f_equal. rewrite <- (str_app_nil_r (str_drop pos s)) at 2.
    rewrite subst_char_no by exact E. cbn. by rewrite str_app_nil_r.
Qed.

Lemma replaceString_char s d new : replaceString s (String d "") new = Some (Ret (subst_char d new s)).
Proof. unfold replaceString. rewrite replace_loop_char by (cbn; lia). done. Qed.

Lemma replace_loop_empty fuel origin new : forall pos lastPos ss,
  (lastPos <= pos <= String.length origin)%nat ->
  find "" origin pos = Some pos -> replace_loop fuel origin "" new pos lastPos ss = None.
Proof.
  induction fuel as [|fuel IH]; intros pos lastPos ss Hp Hf; [done|].
  cbn [replace_loop]. rewrite Hf, substr_ok by lia.
  cbn [String.length]. rewrite Nat.add_0_r. apply IH; [lia|assumption].
Qed.

(** [replaceString] returns for every non-empty pattern; on a
    one-character pattern it substitutes every occurrence and nothing else; on
    the empty pattern it never returns, whatever the number of turns. *)
Theorem replaceString_spec (origin newStr : string) :
  (forall oldStr, oldStr <> "" -> exists r, replaceString origin oldStr newStr = Some (Ret r))
  /\ (forall d, replaceString origin (String d "") newStr = Some (Ret (subst_char d newStr origin)))
  /\ (forall fuel, replace_loop fuel origin "" newStr 0 0 "" = None).
Proof.
  split; [|split].
  - intros [|c old] H; [done|]. apply replace_loop_terminates; cbn; lia.
  - intros d. apply replaceString_char.
  - intros fuel. apply replace_loop_empty; [lia|]. by destruct origin.
Qed.

Lemma replaceString_spec_witness :
  "ab" <> "" /\ (exists r, replaceString "xabyab" "ab" "-" = Some (Ret r))
  /\ replaceString "xabyab" "ab" "-" = Some (Ret "x-y-").
Proof.
  split; [discriminate|]. split; [|reflexivity].
  exact (proj1 (replaceString_spec "xabyab" "-") "ab" ltac:(discriminate)).
Defined.

(** ** Words *)

(** The maximal runs of characters that are not white space. *)
Fixpoint words (s : string) : list string :=
  match s with
  | EmptyString => []
  | String c s' =>
      if isspace c then words s'
      else match s' with
           | EmptyString => [String c ""]
           | String d _ =>
               if isspace d then String c "" :: words s'
               else match words s' with
                    | [] => [String c ""]
                    | w :: ws => String c w :: ws
                    end
           end
  end.

Definition head_word (s : string) : bool :=
  match s with String c _ => negb (isspace c) | EmptyString => false end.

Fixpoint last_word (s : string) : bool :=
  match s with
  | EmptyString => false
  | String c EmptyString => negb (isspace c)
  | String _ s' => last_word s'
  end.

(** The only white space is the blank. *)
Definition blanks_only (s : string) : bool :=
  str_forall (fun c => negb (isspace c) || Ascii.eqb c " ") s.

Lemma words_head c s : isspace c = false -> exists w ws, words (String c s) = w :: ws.
Proof.
  intros Hc. cbn [words]. rewrite Hc. destruct s as [|d s]; [by repeat eexists|].
  destruct (isspace d); [by repeat eexists|]. destruct (words (String d s)); by repeat eexists.
Qed.

Lemma words_split c a b : isspace c = true -> words (a ++ String c b) = (words a ++ words b)%list.
Proof.
  intros Hc. induction a as [|d a IH]; cbn [String.append words]; [by rewrite Hc|].
  destruct (isspace d) eqn:Hd; [exact IH|].
  destruct a as [|e a]; cbn [String.append] in *.
  - rewrite Hc. by rewrite IH.
  - destruct (isspace e) eqn:He; [by rewrite IH|].
    rewrite IH. destruct (words_head e a He) as (w & ws & ->). reflexivity.
Qed.

Lemma words_spaces_l a b : str_forall isspace a = true -> words (a ++ b) = words b.
Proof.
  induction a as [|c a IH]; cbn; [done|]. rewrite andb_true_iff. intros [-> Ha]. exact (IH Ha).
Qed.

Lemma words_gap a c x b : isspace c = true -> str_forall isspace x = true ->
  words (a ++ String c (x ++ b)) = words (a ++ String c b).
Proof. intros Hc Hx. by rewrite !words_split, words_spaces_l. Qed.

Lemma words_spaces_r a x : str_forall isspace x = true -> words (a ++ x) = words a.
Proof.
  destruct x as [|c x]; [by rewrite str_app_nil_r|]. cbn. rewrite andb_true_iff. intros [Hc Hx].
  rewrite words_split by assumption.
  rewrite <- (str_app_nil_r x), words_spaces_l by assumption. cbn. by rewrite app_nil_r.
Qed.

Lemma words_map f s : (forall c, isspace (f c) = isspace c) ->
  (forall c, isspace c = false -> f c = c) -> words (str_map f s) = words s.
Proof.
  intros H1 H2. induction s as [|c s IH]; [done|]. cbn [str_map words]. rewrite H1.
  destruct (isspace c) eqn:Hc; [exact IH|]. rewrite (H2 c Hc).
  destruct s as [|d s]; [done|]. cbn [str_map] in *. rewrite H1. by rewrite IH.
Qed.

(** A string with single blanks only, strictly inside, is its words joined. *)
Lemma join_words_len n : forall s, (String.length s <= n)%nat ->
  head_word s = true -> last_word s = true -> blanks_only s = true ->
  (forall a b, s <> a ++ "  " ++ b) -> join_char " " (words s) = s.
Proof.
  induction n as [|n IH]; intros s Hn Hh Hl Hb Hd; [destruct s; [done|cbn in Hn; lia]|].
  destruct s as [|c s]; [done|]. cbn in Hh. apply negb_true_iff in Hh.
  cbn [words]. rewrite Hh. destruct s as [|d s]; [done|].
  unfold blanks_only in Hb. rewrite str_forall_cons in Hb. apply andb_true_iff in Hb as [_ Hb].
  destruct (isspace d) eqn:Hs.
  - pose proof Hb as Hb'. rewrite str_forall_cons, Hs in Hb'. cbn [negb orb] in Hb'.
    apply andb_true_iff in Hb' as [Hd' Hb']. apply Ascii.eqb_eq in Hd'. subst d.
    destruct s as [|e s]; [done|].
    assert (He : isspace e = false).
    { destruct (isspace e) eqn:He; [|done]. exfalso.
      rewrite str_forall_cons, He in Hb'. cbn [negb orb] in Hb'.
      apply andb_true_iff in Hb' as [E _]. apply Ascii.eqb_eq in E. subst e.
      by apply (Hd (String c "") s). }
    assert (Ej : join_char " " (words (String e s)) = String e s).
    { apply IH; [cbn in *; lia|cbn; by rewrite He|exact Hl|exact Hb'|].
      intros a b E. apply (Hd (String c (String " " a)) b). cbn. by rewrite E. }
    change (words (String " " (String e s))) with (words (String e s)).
    destruct (words_head e s He) as (w & ws & Hw). rewrite join_cons by (by rewrite Hw).
    by rewrite Ej.
  - assert (Ej : join_char " " (words (String d s)) = String d s).
    { apply IH; [cbn in *; lia|cbn; by rewrite Hs|exact Hl|exact Hb|].
      intros a b E. apply (Hd (String c a) b). cbn. by rewrite E. }
    destruct (words_head d s Hs) as (w & ws & Hw). rewrite Hw in *.
    destruct ws; cbn in *; by rewrite Ej.
Qed.

Lemma join_words s : head_word s = true -> last_word s = true -> blanks_only s = true ->
  (forall a b, s <> a ++ "  " ++ b) -> join_char " " (words s) = s.
Proof. apply (join_words_len (String.length s)). lia. Qed.

(** ** Trimming *)

Lemma in_whitespace c : in_set WHITESPACE c = isspace c.
Proof. by destruct c as [[] [] [] [] [] [] [] []]. Qed.

Lemma last_word_app a b : b <> "" -> last_word (a ++ b) = last_word b.
Proof.
  intros Hb. induction a as [|c a IH]; [done|]. cbn [String.append last_word]. rewrite IH.
  destruct (a ++ b) eqn:E; [|done]. by destruct a, b.
Qed.

Lemma last_word_forall s : last_word s = true -> str_forall isspace s = false.
Proof.
  induction s as [|c s IH]; [done|]. cbn [last_word str_forall]. destruct s as [|d s].
  - intros H. apply negb_true_iff in H. by rewrite H.
  - intros H. rewrite (IH H). apply andb_false_r.
Qed.

Lemma str_forall_ext p q s : (forall c, p c = q c) -> str_forall p s = str_forall q s.
Proof. intros H. induction s as [|c s IH]; cbn; [done|]. by rewrite H, IH. Qed.

Lemma rfind_if_none p s : rfind_if p s = None -> str_forall (fun c => negb (p c)) s = true.
Proof.
  induction s as [|c s IH]; cbn; [done|]. destruct (rfind_if p s); [done|].
  destruct (p c); [done|]. intros _. cbn. by apply IH.
Qed.

Lemma rfind_if_some p s n : rfind_if p s = Some n ->
  exists a c b, s = a ++ String c b /\ String.length a = n /\ p c = true
    /\ str_forall (fun d => negb (p d)) b = true.
Proof.
  revert n. induction s as [|c s IH]; intros n; cbn; [done|].
  destruct (rfind_if p s) as [m|] eqn:E.
  - intros [= <-]. destruct (IH m eq_refl) as (a & d & b & -> & <- & Hd & Hb).
    by exists (String c a), d, b.
  - destruct (p c) eqn:Ec; [|done]. intros [= <-]. exists "", c, s.
    repeat split; [done|]. by apply rfind_if_none.
Qed.

Lemma not_not_space x : str_forall (fun c => negb (negb (in_set WHITESPACE c))) x = str_forall isspace x.
Proof. apply str_forall_ext. intros c. by rewrite negb_involutive, in_whitespace. Qed.

(** What [trim] leaves: the same words, and nothing or a string that starts
    and ends with a character that is not white space. *)
Lemma trim_spec s : words (trim s WHITESPACE) = words s
  /\ (trim s WHITESPACE = "" \/
      head_word (trim s WHITESPACE) = true /\ last_word (trim s WHITESPACE) = true).
Proof.
  unfold trim, find_first_not_of, find_last_not_of.
  destruct (find_if _ s) as [n|] eqn:E.
  - destruct (find_if_some _ _ _ E) as (a & c & b & -> & <- & Hc & Ha).
    rewrite not_not_space in Ha. rewrite in_whitespace in Hc. rewrite str_drop_app.
    destruct (rfind_if _ (String c b)) as [m|] eqn:E2.
    + destruct (rfind_if_some _ _ _ E2) as (a' & c' & b' & Hs & <- & Hc' & Hb').
      rewrite not_not_space in Hb'. rewrite in_whitespace in Hc'.
      rewrite words_spaces_l by assumption. rewrite Hs.
      replace (str_take (S (String.length a')) (a' ++ String c' b')) with (a' ++ String c' "").
      * split.
        -- rewrite (str_app_cons a' b'), (str_app_cons a' ""), str_app_nil_r.
           by rewrite words_spaces_r.
        -- right. rewrite last_word_app by done. split; [|exact Hc'].
           destruct a' as [|x a']; [exact Hc'|]. cbn in Hs. injection Hs as -> _. exact Hc.
      * rewrite (str_app_cons a' b'), (str_app_cons a' ""), str_app_nil_r.
        rewrite <- (str_length_push_back a' c'). by rewrite str_take_app.
    + exfalso. apply rfind_if_none in E2. cbn [str_forall] in E2.
      rewrite in_whitespace, Hc in E2. done.
  - apply find_if_none in E. rewrite not_not_space in E. cbn. split; [|by left].
    rewrite <- (str_app_nil_r s), words_spaces_l by assumption. done.
Qed.

(** ** The loop of [condense] *)

Definition condensable (s : string) : Prop :=
  head_word s = true /\ last_word s = true /\ blanks_only s = true.

Lemma blanks_only_app a b : blanks_only (a ++ b) = blanks_only a && blanks_only b.
Proof. apply str_forall_app. Qed.

Lemma in_blank c : in_set " " c = Ascii.eqb c " ".
Proof. apply in_set_char. Qed.

(** Without a double blank the positions wrap to 0 and the loop stops. *)
Lemma condense_step_none s : condensable s -> find "  " s 0 = None -> condense_step s = None.
Proof.
  intros (Hh & _) Hf. unfold condense_step. rewrite Hf. cbn [size_of].
  change (u32 NPOS) with (2 ^ 32 - 1). change (u32 (2 ^ 32 - 1 + 1)) with 0.
  change (2 ^ 32 - 1 =? NPOS) with false. cbn [negb].
  destruct s as [|c s]; [done|]. rewrite slen_cons.
  destruct (0 <? _); [|done]. change (Z.to_nat 0) with O.
  unfold find_first_not_of. cbn [str_drop find_if]. rewrite in_blank.
  cbn in Hh. destruct (Ascii.eqb_spec c " "); [by subst c|]. reflexivity.
Qed.

(** A double blank starts a run [x] of blanks after the first one, which is
    erased whole. *)
Lemma condense_step_some s n : condensable s -> find "  " s 0 = Some n -> slen s < 2 ^ 31 ->
  exists a x c y, s = a ++ " " ++ x ++ String c y /\ x <> "" /\ str_forall isspace x = true
    /\ isspace c = false /\ condense_step s = Some (Ret (a ++ " " ++ String c y)).
Proof.
  intros (_ & Hl & Hb) Hf Hlen. destruct (find_some _ _ _ Hf) as (a & b & Hs & Ha).
  assert (Hb2 : exists m, find_first_not_of " " (" " ++ b) = Some m).
  { unfold find_first_not_of. destruct (find_if _ _) as [m|] eqn:E; [by exists m|]. exfalso.
    apply find_if_none in E. rewrite Hs, last_word_app in Hl by done.
    apply last_word_forall in Hl.
    cut (str_forall isspace ("  " ++ b) = true); [congruence|].
    change ("  " ++ b) with (String " " (" " ++ b)). cbn [str_forall].
    change (isspace " ") with true. cbn [andb].
    eapply str_forall_impl, E. intros c. cbn beta. rewrite negb_involutive, in_blank.
    intros Hc. apply Ascii.eqb_eq in Hc. by subst. }
  destruct Hb2 as [m Hm].
  destruct (find_if_some _ _ _ Hm) as (x & c & y & Hx & Hxm & Hc & Hxf).
  rewrite in_blank in Hc.
  assert (Hxs : str_forall isspace x = true).
  { eapply str_forall_impl, Hxf. intros d. cbn beta. rewrite negb_involutive, in_blank.
    intros Hd. apply Ascii.eqb_eq in Hd. by subst. }
  assert (Es : s = a ++ " " ++ x ++ String c y).
  { rewrite Hs. f_equal. cbn [String.append] in *. by rewrite <- Hx. }
  assert (Hn0 : x <> "") by (intros ->; injection Hx as <- _; done).
  assert (Hsp : isspace c = false).
  { rewrite Es, !blanks_only_app in Hb. cbn [blanks_only str_forall] in Hb. breflect.
    destruct (isspace c); [|done]. cbn in *. by rewrite H2 in Hc. }
  exists a, x, c, y. repeat split; try assumption.
  assert (Hls : slen s = Z.of_nat n + 1 + Z.of_nat m + 1 + slen y).
  { rewrite Es. unfold slen. rewrite !str_length_app. cbn [String.length]. lia. }
  assert (Hm1 : (1 <= m)%nat) by (subst m; destruct x; cbn; [done|lia]).
  pose proof (slen_nonneg y) as Hy.
  unfold condense_step. rewrite Hf. cbn [size_of].
  rewrite !(u32_small (Z.of_nat n)) by lia.
  replace (Z.of_nat n =? NPOS) with false by (symmetry; apply Z.eqb_neq; unfold NPOS; lia).
  cbn [negb]. rewrite !(u32_small (Z.of_nat n + 1)) by lia.
  replace (Z.of_nat n + 1 <? slen s) with true by (symmetry; apply Z.ltb_lt; lia).
  replace (Z.to_nat (Z.of_nat n + 1)) with (n + 1)%nat by lia.
  replace (str_drop (n + 1) s) with (" " ++ b).
  2: { rewrite Hs, <- Ha, <- str_drop_drop, str_drop_app. reflexivity. }
  rewrite Hm. cbn [fmap option_fmap option_map size_of].
  rewrite !(u32_small (Z.of_nat _)) by lia.
  replace (Z.of_nat (n + 1 + m) =? NPOS) with false by (symmetry; apply Z.eqb_neq; unfold NPOS; lia).
  cbn [negb].
  replace (i32 _) with (Z.of_nat m + 1).
  2: { rewrite (u32_small (_ - 1)), u32_small, i32_small by lia. lia. }
  replace (2 <=? Z.of_nat m + 1) with true by (symmetry; apply Z.leb_le; lia).
  replace (Z.to_nat (Z.of_nat m + 1 - 1)) with m by lia.
  unfold erase. replace (Nat.leb (n + 1) (String.length s)) with true.
  2: { symmetry. apply Nat.leb_le. unfold slen in *. lia. }
  do 2 f_equal.
  assert (E1 : (n + 1)%nat = String.length (a ++ " ")) by (rewrite str_length_app, Ha; done).
  rewrite <- str_drop_drop, E1, Es.
  rewrite (str_app_assoc a " "), str_take_app, str_drop_app, <- Hxm, str_drop_app.
  by rewrite <- str_app_assoc.
Qed.

Lemma condensable_step a x c y : x <> "" ->
  condensable (a ++ " " ++ x ++ String c y) -> condensable (a ++ " " ++ String c y).
Proof.
  intros Hx (Hh & Hl & Hb). unfold condensable.
  rewrite (str_app_assoc a), (str_app_assoc (a ++ " ")) in Hl.
  rewrite !last_word_app in Hl by done. rewrite !str_app_assoc, last_word_app by done.
  rewrite !blanks_only_app in *. breflect. rewrite <- str_app_assoc.
  split; [by destruct a|]. split; [done|].
  repeat match goal with H : ?b = true |- context [?b] => rewrite H end. done.
Qed.

Lemma condense_loop_spec fuel : forall s, condensable s -> slen s < 2 ^ 31 ->
  (String.length s < fuel)%nat ->
  condense_loop fuel s = Some (Ret (join_char " " (words s))).
Proof.
  induction fuel as [|fuel IH]; intros s Hs Hl Hf; [lia|]. cbn [condense_loop].
  destruct (find "  " s 0) as [n|] eqn:E.
  - destruct (condense_step_some s n Hs E Hl) as (a & x & c & y & -> & Hx & Hxs & Hc & ->).
    pose proof (condensable_step a x c y Hx Hs) as Hs'.
    assert (Hlt : (String.length (a ++ " " ++ String c y)
                   < String.length (a ++ " " ++ x ++ String c y))%nat).
    { rewrite !str_length_app. destruct x; [done|]. cbn. lia. }
    rewrite IH; [|exact Hs'|unfold slen in *; lia|lia].
    do 3 f_equal. symmetry. exact (words_gap a " " x (String c y) eq_refl Hxs).
  - rewrite condense_step_none by assumption. destruct Hs as (H1 & H2 & H3).
    rewrite join_words; [done..|]. by apply find_none.
Qed.

(** The five substitutions of [condense], on one character. *)
Definition blank (c : ascii) : ascii := if isspace c then " "%char else c.

Lemma str_map_map f g s : str_map f (str_map g s) = str_map (fun c => f (g c)) s.
Proof. induction s as [|c s IH]; cbn; congruence. Qed.

Lemma str_map_ext f g s : (forall c, f c = g c) -> str_map f s = str_map g s.
Proof. intros H. induction s as [|c s IH]; cbn; [done|]. by rewrite H, IH. Qed.

Lemma blanks_eq s :
  subst_char "011" " " (subst_char "012" " " (subst_char "013" " "
    (subst_char "009" " " (subst_char "010" " " s)))) = str_map blank s.
Proof.
  rewrite !subst_char_blank, !str_map_map. apply str_map_ext.
  by intros [[] [] [] [] [] [] [] []].
Qed.

Lemma isspace_blank c : isspace (blank c) = isspace c.
Proof. unfold blank. by destruct (isspace c) eqn:E. Qed.

Lemma str_length_map f s : String.length (str_map f s) = String.length s.
Proof. induction s as [|c s IH]; cbn; congruence. Qed.

Lemma condensable_blank s : head_word s = true -> last_word s = true ->
  condensable (str_map blank s).
Proof.
  intros Hh Hl. split; [|split].
  - destruct s; [done|]. cbn in *. by rewrite isspace_blank.
  - clear Hh. induction s as [|c s IH]; [done|]. cbn [str_map last_word] in *.
    destruct s as [|d s]; [cbn; by rewrite isspace_blank|]. exact (IH Hl).
  - unfold blanks_only. clear. induction s as [|c s IH]; [done|]. cbn [str_map str_forall].
    rewrite IH, isspace_blank. unfold blank. by destruct (isspace c).
Qed.

Lemma length_trim s t : (String.length (trim s t) <= String.length s)%nat.
Proof.
  unfold trim. destruct (find_first_not_of t s) as [n|]; [|cbn; destruct (find_last_not_of t ""); cbn; lia].
  destruct (find_last_not_of t (str_drop n s)); [|cbn; lia].
  rewrite str_length_take, str_length_drop. lia.
Qed.

(** [condense] returns the words of its argument separated by single
    blanks, for every string shorter than 2 GB: all white space at the ends
    goes, and every run of it inside becomes one blank.  The position [npos]
    truncated to 32 bits does not disturb it. *)
Theorem condense_spec (str : string) (Hlen : slen str < 2 ^ 31) :
  condense str = Some (Ret (join_char " " (words str))).
Proof.
  unfold condense. destruct (trim_spec str) as [Hw Ht].
  pose proof (length_trim str WHITESPACE) as Hl.
  rewrite !replaceString_char. cbn [then_str].
  rewrite !replaceString_char. cbn [then_str].
  rewrite !replaceString_char. cbn [then_str].
  rewrite !replaceString_char. cbn [then_str].
  rewrite !replaceString_char. cbn [then_str].
  rewrite blanks_eq, <- Hw. destruct Ht as [->|[Hh Hl2]]; [reflexivity|].
  rewrite condense_loop_spec.
  - do 2 f_equal. f_equal. apply words_map; [apply isspace_blank|].
    intros c Hc. unfold blank. by rewrite Hc.
  - by apply condensable_blank.
  - unfold slen in *. rewrite str_length_map. lia.
  - lia.
Qed.

Lemma condense_spec_witness :
  slen (String "009" "  a   bc  d ") < 2 ^ 31 /\
  condense (String "009" "  a   bc  d ") = Some (Ret "a bc d").
Proof.
  assert (H : slen (String "009" "  a   bc  d ") < 2 ^ 31) by reflexivity.
  split; [exact H|]. exact (condense_spec (String "009" "  a   bc  d ") H).
Defined.

(** ** Encoding *)

Definition ascii_char (c : ascii) : bool := char_byte c <? 128.

Lemma ansi_ascii c s : ascii_char c = true -> AnsiToUtf8 (String c s) = String c (AnsiToUtf8 s).
Proof. by destruct c as [[] [] [] [] [] [] [] []]. Qed.

(** The sign extension of [c >> 6] sets every high bit of the first byte. *)
Lemma ansi_high c s : ascii_char c = false ->
  exists c1 c2, AnsiToUtf8 (String c s) = String c1 (String c2 (AnsiToUtf8 s))
    /\ (char_byte c1 = 254 \/ char_byte c1 = 255).
Proof.
  destruct c as [[] [] [] [] [] [] [] []]; try discriminate; intros _;
    do 2 eexists; (split; [reflexivity|]); vm_compute; auto.
Qed.

(** [AnsiToUtf8] leaves ASCII text alone, and only that text comes out
    as something [isValidUtf8] accepts: any character above 127 gives a first
    byte of [FE] or [FF], which no UTF-8 text has. *)
Theorem ansi_to_utf8_valid (s : string)
    (Hnul : str_forall (fun c => negb (Ascii.eqb c "000")) s = true) :
  isValidUtf8 (AnsiToUtf8 s) = str_forall ascii_char s
  /\ (str_forall ascii_char s = true -> AnsiToUtf8 s = s).
Proof.
  induction s as [|c s IH]; [done|]. rewrite str_forall_cons in Hnul |- *.
  apply andb_true_iff in Hnul as [Hc Hs]. destruct (IH Hs) as [IH1 IH2].
  apply negb_true_iff in Hc. destruct (ascii_char c) eqn:Ea.
  - rewrite (ansi_ascii c s Ea). cbn [andb]. split; [|intros H; by rewrite IH2].
    rewrite <- IH1. unfold isValidUtf8. cbn [c_str]. rewrite Hc, str_forall_cons.
    unfold ascii_char in Ea. breflect. cbn beta zeta.
    replace (char_byte c =? 192) with false by (symmetry; apply Z.eqb_neq; lia).
    replace (char_byte c =? 193) with false by (symmetry; apply Z.eqb_neq; lia).
    replace (245 <=? char_byte c) with false by (symmetry; apply Z.leb_gt; lia). done.
  - destruct (ansi_high c s Ea) as (c1 & c2 & -> & H1). cbn [andb]. split; [|done].
    unfold isValidUtf8. cbn [c_str].
    destruct (Ascii.eqb_spec c1 "000") as [->|_]; [by destruct H1|].
    rewrite str_forall_cons. cbn beta zeta. by destruct H1 as [-> | ->].
Qed.

Lemma ansi_to_utf8_valid_witness :
  let s := String "A" (String "233" "") in
  str_forall (fun c => negb (Ascii.eqb c "000")) s = true
  /\ isValidUtf8 (AnsiToUtf8 s) = false /\ AnsiToUtf8 "A" = "A".
Proof.
  intros s. assert (H : str_forall (fun c => negb (Ascii.eqb c "000")) s = true) by reflexivity.
  split; [exact H|]. split; [|reflexivity].
  rewrite (proj1 (ansi_to_utf8_valid s H)). reflexivity.
Defined.

(** ** Tokens *)

(** A final empty token is dropped. *)
Fixpoint drop_last_empty (ws : list string) : list string :=
  match ws with
  | [] => []
  | [w] => if nonempty w then [w] else []
  | w :: ws' => w :: drop_last_empty ws'
  end.

Definition head_app (acc : string) (ws : list string) : list string :=
  match ws with [] => [] | w :: ws' => (acc ++ w) :: ws' end.

Lemma head_app_nil ws : head_app "" ws = ws.
Proof. by destruct ws. Qed.

Lemma tokenizer_loop_split d str : forall acc els,
  tokenizer_loop str d 0 acc els = (els ++ drop_last_empty (head_app acc (split_char d str)))%list.
Proof.
  induction str as [|c str IH]; intros acc els; cbn [tokenizer_loop split_char Nat.eqb orb].
  - rewrite andb_true_r. cbn [head_app drop_last_empty]. rewrite str_app_nil_r.
    destruct (nonempty acc); [done|by rewrite app_nil_r].
  - destruct (Ascii.eqb c d).
    + rewrite IH, head_app_nil. cbn [head_app]. rewrite str_app_nil_r.
      pose proof (split_char_nonnil d str). destruct (split_char d str); [done|].
      by rewrite <- app_assoc.
    + rewrite IH. pose proof (split_char_nonnil d str).
      destruct (split_char d str) as [|w ws]; [done|]. cbn [head_app].
      by rewrite str_app_cons.
Qed.

Lemma drop_last_empty_or ws d :
  drop_last_empty ws = ws \/ ws = [""] \/ exists a, join_char d ws = a ++ String d "".
Proof.
  induction ws as [|w ws IH]; [by left|]. destruct ws as [|w' ws].
  - destruct w; [right; by left|by left].
  - destruct IH as [IH|[IH|[a IH]]].
    + left. cbn [drop_last_empty] in *. by rewrite IH.
    + injection IH as -> ->. right. right. by exists w.
    + right. right. exists (w ++ String d a). rewrite join_cons, IH by done.
      by rewrite <- str_app_assoc.
Qed.

Lemma between_loop_join d es ix ct k : forall i result,
  0 <= i -> (Z.to_nat i + k = List.length es)%nat -> (0 < k)%nat ->
  between_loop k (mkTokenizer es ix ct (String d "")) i (zlen es - 1) result
  = Ret (result ++ join_char d (drop (Z.to_nat i) es)).
Proof.
  induction k as [|k IH]; intros i result Hi Hk Hpos; [lia|].
  destruct (lookup_lt_is_Some_2 es (Z.to_nat i)) as [e He]; [lia|].
  cbn [between_loop elements sep]. rewrite (vix_lookup es i e Hi He). cbn [obind].
  rewrite (drop_S es e (Z.to_nat i) He).
  destruct k as [|k].
  - cbn [between_loop]. replace (i <? zlen es - 1) with false.
    2: { symmetry. apply Z.ltb_ge. unfold zlen. lia. }
    rewrite drop_ge by lia. done.
  - replace (i <? zlen es - 1) with true by (symmetry; apply Z.ltb_lt; unfold zlen; lia).
    rewrite IH by lia. replace (Z.to_nat (i + 1)) with (S (Z.to_nat i)) by lia.
    rewrite join_cons.
    + by rewrite <- !str_app_assoc.
    + intros E. apply (f_equal List.length) in E. rewrite length_drop in E. cbn in E. lia.
Qed.

(** The last character. *)
Fixpoint str_last (s : string) : option ascii :=
  match s with
  | EmptyString => None
  | String c EmptyString => Some c
  | String _ s' => str_last s'
  end.

Lemma str_last_app a d : str_last (a ++ String d "") = Some d.
Proof.
  induction a as [|c a IH]; [done|]. cbn [String.append str_last]. rewrite IH. by destruct a.
Qed.

(** [n] calls of [getNextElement]. *)
Fixpoint next_elements (n : nat) (st : CC_StringTokenizer) : CC_StringTokenizer * list (outcome string) :=
  match n with
  | O => (st, [])
  | S n' => let '(st, e) := getNextElement st in
            let '(st, es) := next_elements n' st in (st, e :: es)
  end.

Lemma next_elements_from es sep n : forall i, (i + n = List.length es)%nat ->
  next_elements n (mkTokenizer es (Z.of_nat i) (zlen es) sep)
  = (mkTokenizer es (zlen es) (zlen es) sep, map Ret (drop i es)).
Proof.
  induction n as [|n IH]; intros i Hn; cbn [next_elements].
  - replace i with (List.length es) by lia. rewrite drop_ge by lia. done.
  - destruct (lookup_lt_is_Some_2 es i) as [e He]; [lia|].
    unfold getNextElement. cbn [index count elements CppString.substr].
    replace (Z.of_nat i <? zlen es) with true by (symmetry; apply Z.ltb_lt; unfold zlen; lia).
    rewrite (vix_lookup es (Z.of_nat i) e) by (lia || by rewrite Nat2Z.id).
    replace (Z.of_nat i + 1) with (Z.of_nat (S i)) by lia. cbn [EspStringUtils.sep].
    rewrite IH by lia. by rewrite (drop_S es e i He).
Qed.

(** A tokenizer on one separator holds the pieces of the string, less a
    final empty one; calling [getNextElement] as many times as there are
    pieces returns them in order, and then empty strings; and joining all of
    them gives the string back unless it is empty or ends in the separator. *)
Theorem tokenizer_spec (str : string) (d : ascii) :
  let st := newTokenizer str (String d "") 0 in
  elements st = drop_last_empty (split_char d str)
  /\ countElements st = zlen (elements st)
  /\ snd (next_elements (List.length (elements st)) st) = map Ret (elements st)
  /\ snd (getNextElement (fst (next_elements (List.length (elements st)) st))) = Ret ""
  /\ (str <> "" -> str_last str <> Some d ->
      getStringBetweenElements st 0 (countElements st - 1) = Ret str).
Proof.
  intros st. assert (He : elements st = drop_last_empty (split_char d str)).
  { subst st. cbn [newTokenizer elements]. rewrite tokenizer_loop_split. by rewrite head_app_nil. }
  split; [exact He|]. split; [reflexivity|].
  assert (Hst : st = mkTokenizer (elements st) (Z.of_nat 0) (zlen (elements st)) (String d "")) by done.
  pose proof (next_elements_from (elements st) (String d "") _ 0 eq_refl) as Hn.
  rewrite <- Hst in Hn. rewrite Hn. split; [done|]. split.
  { unfold getNextElement. cbn [fst index count]. by rewrite Z.ltb_irrefl. }
  intros H1 H2. unfold getStringBetweenElements, countElements.
  pose proof (split_char_nonnil d str) as Hnn.
  destruct (drop_last_empty_or (split_char d str) d) as [E|[E|[a E]]].
  - rewrite E in He.
    assert (Hl : (0 < List.length (elements st))%nat).
    { rewrite He. destruct (split_char d str); [done|cbn; lia]. }
    change (count st) with (zlen (elements st)).
    replace (Z.to_nat _) with (List.length (elements st)) by (unfold zlen; lia).
    rewrite Hst at 2.
    rewrite between_loop_join by (change (Z.to_nat 0) with O; lia).
    change (drop (Z.to_nat 0) (elements st)) with (elements st). rewrite He. by rewrite join_split.
  - exfalso. apply H1. rewrite <- (join_split d str), E. done.
  - exfalso. apply H2. rewrite <- (join_split d str), E. apply str_last_app.
Qed.

Lemma tokenizer_spec_witness :
  "a,b,c" <> "" /\ str_last "a,b,c" <> Some ","%char
  /\ getStringBetweenElements (newTokenizer "a,b,c" "," 0) 0 2 = Ret "a,b,c".
Proof.
  assert (H1 : "a,b,c" <> "") by discriminate.
  assert (H2 : str_last "a,b,c" <> Some ","%char) by discriminate.
  split; [exact H1|]. split; [exact H2|].
  exact (proj2 (proj2 (proj2 (proj2 (tokenizer_spec "a,b,c" ",")))) H1 H2).
Defined.
