(* ===== verification/EspAttribute.v ===== *)
(** * Attributes of the ESP frames: [src/src/esp/source/ESP_Attribute.cpp]

    A value is the block of bytes the [void*] points to, read back through
    casts on a little-endian machine with a 4-byte [int] and an 8-byte
    [long long].  Conversions to and from floating point are those of the C
    library, taken as a parameter. *)
From stdpp Require Import base tactics list gmap strings pretty.
From Stdlib Require Import ZArith Lia Ascii String.
From S2P Require Import Prelude CppString.

Local Open Scope string_scope.
Local Open Scope Z_scope.

(** [atof] and the operators on the bytes of a [float] and a [double]. *)
Class FloatLib : Type := {
  float_of_string : string -> list Z;
  double_of_string : string -> list Z;
  float_lt : list Z -> list Z -> bool;
  double_lt : list Z -> list Z -> bool;
  print_float : list Z -> string;
  print_double : list Z -> string
}.

(** What is used of it: the sizes. *)
Class FloatLibLaws (F : FloatLib) : Prop := {
  float_size s : List.length (float_of_string s) = 4%nat;
  double_size s : List.length (double_of_string s) = 8%nat
}.

Inductive ESP_DataTypeEnum : Type :=
| ESP_DataType_UNKNOWN | ESP_DataType_INT | ESP_DataType_FLOAT | ESP_DataType_LONG
| ESP_DataType_DOUBLE | ESP_DataType_STRING.

Inductive ESP_DataCodeEnum : Type :=
| ESP_DataCode_UNKNOWN | ESP_DataCode_MSB | ESP_DataCode_LSB | ESP_DataCode_STRING
| ESP_DataCode_STRINGDELIM.

#[global] Instance ESP_DataTypeEnum_eq_dec : EqDecision ESP_DataTypeEnum.
Proof. solve_decision. Defined.

Definition ESP_PARSER_MAX_VALUE_SIZE : Z := 102400.

Record ESP_Attribute : Type := mkAttribute {
  _name : string;
  _value : option (list Z);
  _datasize : Z;
  _datatype : ESP_DataTypeEnum;
  _datacode : ESP_DataCodeEnum
}.

Definition new_attribute : ESP_Attribute :=
  mkAttribute "" None 0 ESP_DataType_UNKNOWN ESP_DataCode_UNKNOWN.

(** [memcpy] out of a block: undefined past its end, or for a negative size. *)
Definition read_block (value : list Z) (n : Z) : outcome (list Z) :=
  if (0 <=? n) && (n <=? zlen value) then Ret (take (Z.to_nat n) value) else Undefined.

(** The copy constructor, and [operator=]. *)
Definition copy_attribute (pa : ESP_Attribute) : outcome ESP_Attribute :=
  let! v := match _value pa with
            | Some b => if 0 <? _datasize pa
                        then let! c := read_block b (_datasize pa) in Ret (Some c)
                        else Ret None
            | None => Ret None
            end in
  Ret (mkAttribute (_name pa) v (_datasize pa) (_datatype pa) (_datacode pa)).

Definition clearValue (a : ESP_Attribute) : ESP_Attribute :=
  match _value a with
  | Some _ => mkAttribute (_name a) None 0 (_datatype a) (_datacode a)
  | None => a
  end.

Definition operator_assign (this pa : ESP_Attribute) : outcome ESP_Attribute :=
  let this := clearValue this in
  let! v := match _value pa with
            | Some b => if 0 <? _datasize pa
                        then let! c := read_block b (_datasize pa) in Ret (Some c)
                        else Ret (_value this)
            | None => Ret (_value this)
            end in
  Ret (mkAttribute (_name pa) v (_datasize pa) (_datatype pa) (_datacode pa)).

(** ** Numbers in memory *)

Fixpoint le_bytes (n : nat) (z : Z) : list Z :=
  match n with
  | O => []
  | S n' => u8 z :: le_bytes n' (z / 256)
  end.

Fixpoint le_value (bs : list Z) : Z :=
  match bs with
  | [] => 0
  | b :: bs' => b + 256 * le_value bs'
  end.

Definition i64 (z : Z) : Z := (z + 2 ^ 63) mod 2 ^ 64 - 2 ^ 63.

(** The characters of a block. *)
Fixpoint block_string (bs : list Z) : string :=
  match bs with
  | [] => ""
  | b :: bs' => String (byte_char b) (block_string bs')
  end.

(** The C string at the pointer: undefined without a final [\0]. *)
Fixpoint block_c_str (bs : list Z) : outcome string :=
  match bs with
  | [] => Undefined
  | b :: bs' => if b =? 0 then Ret ""
                else let! s := block_c_str bs' in Ret (String (byte_char b) s)
  end.

(** The part of a string [c_str()] shows. *)
Fixpoint c_str (s : string) : string :=
  match s with
  | String c s' => if Ascii.eqb c "000" then EmptyString else String c (c_str s')
  | EmptyString => EmptyString
  end.

(** [ss >> long long]: 0 without digits, saturated out of range. *)
Definition extract_long_long (s : string) : Z :=
  let v := strtol10 s in
  if v <? - 2 ^ 63 then - 2 ^ 63 else if 2 ^ 63 <=? v then 2 ^ 63 - 1 else v.

Section SetValue.
  Context `{FloatLib}.

(** [result], cleared by [memset]. *)
Definition zero_buffer : list Z := replicate (Z.to_nat ESP_PARSER_MAX_VALUE_SIZE) 0.

(** [memcpy(result, value, datasize)] into the zeroed buffer, of which the
    first [final] bytes are kept: undefined past either block. *)
Definition copied (value : list Z) (datasize final : Z) : outcome (list Z) :=
  let! b := read_block value datasize in
  if ESP_PARSER_MAX_VALUE_SIZE <? datasize then Undefined
  else Ret (take (Z.to_nat final) (b ++ zero_buffer)%list).

(** The two [STRING] codes. *)
Definition is_string_code (datacode : ESP_DataCodeEnum) : bool :=
  match datacode with
  | ESP_DataCode_STRING | ESP_DataCode_STRINGDELIM => true
  | _ => false
  end.

(** The [switch] of [setValue]: the bytes of [result] that are kept, and the
    size recorded. *)
Definition converted (value : list Z) (datasize : Z) (datatype : ESP_DataTypeEnum)
    (datacode : ESP_DataCodeEnum) : outcome (list Z * Z) :=
  match datatype with
  | ESP_DataType_INT =>
      if is_string_code datacode then
        let! b := read_block value datasize in
        let! temp := atoi (c_str (block_string b)) in
        Ret (le_bytes 4 temp, 4)
      else let! b := copied value datasize 4 in Ret (b, 4)
  | ESP_DataType_LONG =>
      if is_string_code datacode then
        let! s := block_c_str value in
        Ret (le_bytes 8 (extract_long_long s), 8)
      else let! b := copied value datasize 8 in Ret (b, 8)
  | ESP_DataType_FLOAT =>
      if is_string_code datacode then
        let! b := read_block value datasize in
        Ret (float_of_string (c_str (block_string b)), 4)
      else let! b := copied value datasize 4 in Ret (b, 4)
  | ESP_DataType_DOUBLE =>
      if is_string_code datacode then
        let! b := read_block value datasize in
        Ret (double_of_string (c_str (block_string b)), 8)
      else let! b := copied value datasize 8 in Ret (b, 8)
  | ESP_DataType_STRING => let! b := copied value datasize datasize in Ret (b, datasize)
  | ESP_DataType_UNKNOWN =>
      if (0 <=? datasize) && (datasize <=? ESP_PARSER_MAX_VALUE_SIZE)
      then Ret (replicate (Z.to_nat datasize) 0, datasize) else Undefined
  end.

(** [setValue]; [value] is the block at the pointer, [None] for [NULL]. *)
Definition setValue (this : ESP_Attribute) (name : string) (value : option (list Z))
    (datasize : Z) (datatype : ESP_DataTypeEnum) (datacode : ESP_DataCodeEnum)
    : outcome ESP_Attribute :=
  match value with
  | None => Ret (mkAttribute name (_value this) (_datasize this) (_datatype this) (_datacode this))
  | Some value =>
      let! r := converted value datasize datatype datacode in
      let '(b, size) := r in
      Ret (mkAttribute name (Some b) size datatype datacode)
  end.

(** ** Getters *)

Definition getIntValue (a : ESP_Attribute) : outcome Z :=
  match _value a with
  | Some b => let! c := read_block b 4 in Ret (i32 (le_value c))
  | None => Ret 0
  end.

Definition getLongValue (a : ESP_Attribute) : outcome Z :=
  match _value a with
  | Some b => let! c := read_block b 8 in Ret (i64 (le_value c))
  | None => Ret 0
  end.

Definition getFloatValue (a : ESP_Attribute) : outcome (list Z) :=
  match _value a with
  | Some b => read_block b 4
  | None => Ret (le_bytes 4 0)
  end.

Definition getDoubleValue (a : ESP_Attribute) : outcome (list Z) :=
  match _value a with
  | Some b => read_block b 8
  | None => Ret (le_bytes 8 0)
  end.

Definition getStringValue (a : ESP_Attribute) : outcome string :=
  match _value a with
  | Some b => let! c := read_block b (_datasize a) in Ret (block_string c)
  | None => Ret ""
  end.

Definition getValueAsString (a : ESP_Attribute) : outcome string :=
  match _datatype a with
  | ESP_DataType_INT => let! v := getIntValue a in Ret (pretty v)
  | ESP_DataType_FLOAT => let! v := getFloatValue a in Ret (print_float v)
  | ESP_DataType_LONG => let! v := getLongValue a in Ret (pretty v)
  | ESP_DataType_DOUBLE => let! v := getDoubleValue a in Ret (print_double v)
  | ESP_DataType_STRING => getStringValue a
  | ESP_DataType_UNKNOWN => Ret ""
  end.

(** [a < b ? -1 : a > b ? 1 : 0]. *)
Definition three_way (lt gt : bool) : Z := if lt then -1 else if gt then 1 else 0.

(** [std::string::compare], as its sign. *)
Definition string_compare (s t : string) : Z :=
  match String.compare s t with Lt => -1 | Eq => 0 | Gt => 1 end.

Definition compareValue (pa1 pa2 : option ESP_Attribute) : outcome Z :=
  match pa1, pa2 with
  | Some a1, Some a2 =>
      if decide (_datatype a1 = _datatype a2) then
        match _datatype a1 with
        | ESP_DataType_INT =>
            let! x := getIntValue a1 in
            let! y := getIntValue a2 in Ret (three_way (x <? y) (y <? x))
        | ESP_DataType_FLOAT =>
            let! x := getFloatValue a1 in
            let! y := getFloatValue a2 in Ret (three_way (float_lt x y) (float_lt y x))
        | ESP_DataType_LONG =>
            let! x := getLongValue a1 in
            let! y := getLongValue a2 in Ret (three_way (x <? y) (y <? x))
        | ESP_DataType_DOUBLE =>
            let! x := getDoubleValue a1 in
            let! y := getDoubleValue a2 in Ret (three_way (double_lt x y) (double_lt y x))
        | ESP_DataType_STRING =>
            let! x := getStringValue a1 in
            let! y := getStringValue a2 in Ret (string_compare x y)
        | ESP_DataType_UNKNOWN => Ret (-1)
        end
      else Ret (-1)
  | _, _ => Ret (-1)
  end.
End SetValue.

(** ** Bits and names *)

(** [1 << bitpos] on an [int]: defined for the positions of an [int]. *)
Definition bit_mask (bitpos : Z) : outcome Z :=
  if (0 <=? bitpos) && (bitpos <? 32) then Ret (i32 (Z.shiftl 1 bitpos)) else Undefined.

Definition setBitN (result bitpos value : Z) : outcome Z :=
  let! temp := bit_mask bitpos in
  Ret (if negb (value =? 0) then Z.lor result temp else Z.land result (Z.lnot temp)).

Definition getBitN (result bitpos : Z) : outcome Z :=
  let! temp := bit_mask bitpos in
  Ret (if negb (Z.land result temp =? 0) then 1 else 0).

Definition getDataTypeFromString (type : string) : ESP_DataTypeEnum :=
  if String.eqb type "int" then ESP_DataType_INT
  else if String.eqb type "float" then ESP_DataType_FLOAT
  else if String.eqb type "long" then ESP_DataType_LONG
  else if String.eqb type "double" then ESP_DataType_DOUBLE
  else if String.eqb type "string" then ESP_DataType_STRING
  else ESP_DataType_UNKNOWN.

Definition getDataCodeFromString (type : string) : ESP_DataCodeEnum :=
  if String.eqb type "msb" then ESP_DataCode_MSB
  else if String.eqb type "lsb" then ESP_DataCode_LSB
  else if String.eqb type "string" then ESP_DataCode_STRING
  else if String.eqb type "stringdelim" then ESP_DataCode_STRINGDELIM
  else ESP_DataCode_UNKNOWN.

Definition CC_AttributesType : Type := gmap string ESP_Attribute.

Definition searchAttributeRefByName (attributes : CC_AttributesType) (name : string)
    : option ESP_Attribute := attributes !! name.

(** ** Memory lemmas *)

Lemma length_le_bytes n z : List.length (le_bytes n z) = n.
Proof. revert z. induction n as [|n IH]; intros z; cbn; [done|]. by rewrite IH. Qed.

Lemma le_bytes_value n : forall z, le_value (le_bytes n z) = z mod 256 ^ Z.of_nat n.
Proof.
  induction n as [|n IH]; intros z; cbn [le_bytes le_value].
  - by rewrite Z.mod_1_r.
  - rewrite IH. rewrite Nat2Z.inj_succ, Z.pow_succ_r by lia.
    rewrite Z.rem_mul_r by (lia || (apply Z.pow_pos_nonneg; lia)). unfold u8. lia.
Qed.

Lemma le_value_app a b : le_value (a ++ b) = le_value a + 256 ^ zlen a * le_value b.
Proof.
  induction a as [|x a IH]; cbn [app le_value];
    [change (256 ^ zlen []) with 1; lia|]. rewrite IH, zlen_cons.
  rewrite Z.pow_add_r, Z.pow_1_r by (lia || apply zlen_nonneg). ring.
Qed.

Lemma le_value_zeros n : le_value (replicate n 0) = 0.
Proof. induction n as [|n IH]; cbn [replicate le_value]; [done|]. rewrite IH. lia. Qed.

Lemma le_value_range a : Forall is_byte a -> 0 <= le_value a < 256 ^ zlen a.
Proof.
  induction 1 as [|x a Hx Ha IH]; [by cbn|]. cbn [le_value]. rewrite zlen_cons.
  rewrite Z.pow_add_r, Z.pow_1_r by (lia || apply zlen_nonneg). unfold is_byte in Hx. lia.
Qed.

Lemma read_block_all b n : zlen b = n -> read_block b n = Ret b.
Proof.
  intros <-. unfold read_block. pose proof (zlen_nonneg b).
  replace (0 <=? zlen b) with true by (symmetry; apply Z.leb_le; lia).
  rewrite Z.leb_refl. cbn [andb]. unfold zlen. by rewrite Nat2Z.id, take_ge by lia.
Qed.

Lemma i32_mod z : i32 (z mod 2 ^ 32) = i32 z.
Proof. unfold i32. by rewrite Zplus_mod_idemp_l. Qed.

Lemma i64_mod z : i64 (z mod 2 ^ 64) = i64 z.
Proof. unfold i64. by rewrite Zplus_mod_idemp_l. Qed.

Lemma i64_small z : - 2 ^ 63 <= z < 2 ^ 63 -> i64 z = z.
Proof. intros. unfold i64. rewrite Z.mod_small; lia. Qed.

Lemma int_of_bytes name z code :
  getIntValue (mkAttribute name (Some (le_bytes 4 z)) 4 ESP_DataType_INT code) = Ret (i32 z).
Proof.
  unfold getIntValue. cbn [_value].
  rewrite read_block_all by (unfold zlen; by rewrite length_le_bytes). cbn [obind].
  rewrite le_bytes_value. change (256 ^ Z.of_nat 4) with (2 ^ 32). by rewrite i32_mod.
Qed.

Lemma long_of_bytes name z code :
  getLongValue (mkAttribute name (Some (le_bytes 8 z)) 8 ESP_DataType_LONG code) = Ret (i64 z).
Proof.
  unfold getLongValue. cbn [_value].
  rewrite read_block_all by (unfold zlen; by rewrite length_le_bytes). cbn [obind].
  rewrite le_bytes_value. change (256 ^ Z.of_nat 8) with (2 ^ 64). by rewrite i64_mod.
Qed.

Lemma length_replicate_Z n (x : Z) : List.length (replicate n x) = n.
Proof. apply length_replicate. Qed.

Lemma length_zero_buffer : List.length zero_buffer = Z.to_nat ESP_PARSER_MAX_VALUE_SIZE.
Proof. apply length_replicate. Qed.

(** A block of at most [n] bytes is copied and completed with zeros. *)
Lemma copied_short b n : zlen b <= n -> n <= ESP_PARSER_MAX_VALUE_SIZE ->
  copied b (zlen b) n = Ret (b ++ replicate (Z.to_nat (n - zlen b)) 0)%list.
Proof.
  intros H1 H2. unfold copied. rewrite read_block_all by done. cbn [obind].
  pose proof (zlen_nonneg b).
  replace (ESP_PARSER_MAX_VALUE_SIZE <? zlen b) with false by (symmetry; apply Z.ltb_ge; lia).
  f_equal. rewrite take_app_ge by (unfold zlen in *; lia). f_equal.
  unfold zero_buffer. rewrite take_replicate. f_equal. unfold zlen in *. lia.
Qed.

Lemma zlen_completed b n : 0 <= n -> zlen b <= n -> zlen (b ++ replicate (Z.to_nat (n - zlen b)) 0) = n.
Proof. intros. rewrite zlen_app. unfold zlen at 2. rewrite length_replicate_Z. lia. Qed.

Lemma le_value_completed b k : le_value (b ++ replicate k 0) = le_value b.
Proof. rewrite le_value_app, le_value_zeros. lia. Qed.

Lemma block_string_app a b : block_string (a ++ b) = block_string a ++ block_string b.
Proof. induction a as [|x a IH]; cbn; congruence. Qed.

#[local] Opaque zero_buffer.

Lemma read_block_app b rest : read_block (b ++ rest)%list (zlen b) = Ret b.
Proof.
  unfold read_block. pose proof (zlen_nonneg b). pose proof (zlen_nonneg rest).
  replace ((0 <=? zlen b) && (zlen b <=? zlen (b ++ rest)%list)) with true.
  - unfold zlen. by rewrite Nat2Z.id, take_app_length.
  - symmetry. apply andb_true_iff. rewrite !Z.leb_le, zlen_app. lia.
Qed.

Lemma read_block_size b n c : read_block b n = Ret c -> 0 <= n /\ zlen c = n.
Proof.
  unfold read_block. destruct (_ && _) eqn:E; [|done]. intros [= <-]. breflect.
  unfold zlen in *. rewrite length_take. lia.
Qed.

Lemma copied_size value n k c : copied value n k = Ret c -> 0 <= k ->
  k <= ESP_PARSER_MAX_VALUE_SIZE -> zlen c = k.
Proof.
  unfold copied. destruct (read_block value n) as [b| |]; [|done|done]. cbn [obind].
  destruct (_ <? _); [done|]. intros [= <-] H0 H1. unfold zlen.
  rewrite length_take, length_app, length_zero_buffer. lia.
Qed.

Lemma stored_size `{FL : FloatLib} `{!FloatLibLaws FL} value n t c b size :
  converted value n t c = Ret (b, size) -> zlen b = size.
Proof.
  assert (Hk : forall k, 0 <= k <= 8 -> (let! b := copied value n k in Ret (b, k)) = Ret (b, size) ->
    zlen b = size).
  { intros k Hk. destruct (copied value n k) eqn:E; [|done|done]. cbn. intros [= <- <-].
    eapply copied_size; [exact E|lia|unfold ESP_PARSER_MAX_VALUE_SIZE; lia]. }
  unfold converted. destruct t.
  - destruct (_ && _) eqn:E; [|done]. intros [= <- <-]. breflect. unfold zlen.
    rewrite length_replicate_Z. lia.
  - destruct (is_string_code c); [|apply Hk; lia].
    destruct (read_block value n); [|done|done]. cbn [obind].
    destruct (atoi _); [|done|done]. by intros [= <- <-].
  - destruct (is_string_code c); [|apply Hk; lia].
    destruct (read_block value n); [|done|done]. cbn [obind].
    intros [= <- <-]. unfold zlen. by rewrite float_size.
  - destruct (is_string_code c); [|apply Hk; lia].
    destruct (block_c_str value); [|done|done]. cbn [obind]. by intros [= <- <-].
  - destruct (is_string_code c); [|apply Hk; lia].
    destruct (read_block value n); [|done|done]. cbn [obind].
    intros [= <- <-]. unfold zlen. by rewrite double_size.
  - destruct (copied value n n) eqn:E; [|done|done]. cbn. intros [= <- <-].
    assert (0 <= n /\ n <= ESP_PARSER_MAX_VALUE_SIZE).
    { unfold copied in E. destruct (read_block value n) eqn:Er; [|done|done].
      apply read_block_size in Er. cbn [obind] in E. destruct (_ <? _) eqn:El; [done|]. breflect. lia. }
    eapply copied_size; [exact E|lia|lia].
Qed.

Lemma clearValue_null a : _value (clearValue a) = None.
Proof. unfold clearValue. by destruct (_value a) eqn:E. Qed.

(** ** Bits *)

Lemma testbit_int r i : - 2 ^ 31 <= r < 2 ^ 31 -> 31 <= i -> Z.testbit r i = (r <? 0).
Proof.
  intros Hr Hi. destruct (r <? 0) eqn:E; breflect.
  - rewrite <- (Z.lnot_involutive r), Z.lnot_spec by lia.
    destruct (Z.eq_dec (Z.lnot r) 0) as [->|Hne]; [by rewrite Z.bits_0|].
    rewrite Z.bits_above_log2; [done|unfold Z.lnot; lia|].
    apply Z.log2_lt_pow2; [unfold Z.lnot in *; lia|].
    eapply Z.lt_le_trans; [|apply Z.pow_le_mono_r with (b := 31); lia]. unfold Z.lnot. lia.
  - destruct (Z.eq_dec r 0) as [->|Hne]; [by rewrite Z.bits_0|].
    apply Z.bits_above_log2; [lia|]. apply Z.log2_lt_pow2; [lia|].
    eapply Z.lt_le_trans; [|apply Z.pow_le_mono_r with (b := 31); lia]. lia.
Qed.

Definition is_int (z : Z) : Prop := - 2 ^ 31 <= z < 2 ^ 31.

(** The mask has the bit and, at the sign, all the bits above. *)
Lemma mask_bits p i : 0 <= p < 32 -> 0 <= i < 32 ->
  exists m, bit_mask p = Ret m /\ is_int m /\ Z.testbit m i = (i =? p).
Proof.
  intros Hp Hi. unfold bit_mask.
  replace ((0 <=? p) && (p <? 32)) with true.
  2: { symmetry. apply andb_true_iff. by rewrite Z.leb_le, Z.ltb_lt. }
  eexists. split; [reflexivity|].
  assert (H : forallb (fun p => let m := i32 (Z.shiftl 1 p) in
      (- 2 ^ 31 <=? m) && (m <? 2 ^ 31)
      && forallb (fun i => Bool.eqb (Z.testbit m i) (i =? p)) (seqZ 0 32)) (seqZ 0 32) = true)
    by by vm_compute.
  pose proof (forallb_seqZ _ 32 H p Hp) as H1. cbn beta zeta in H1. breflect.
  split; [by split|]. apply Bool.eqb_prop.
  exact (forallb_seqZ (fun i => Bool.eqb (Z.testbit (i32 (Z.shiftl 1 p)) i) (i =? p)) 32 H1 i Hi).
Qed.

(** The bits above the sign bit repeat it. *)
Definition int_bits (z : Z) : Prop := forall i, 31 <= i -> Z.testbit z i = Z.testbit z 31.

Lemma is_int_bits z : is_int z -> int_bits z.
Proof. intros Hz i Hi. by rewrite !testbit_int by (assumption || lia). Qed.

Lemma getBitN_testbit r p : int_bits r -> 0 <= p < 32 ->
  getBitN r p = Ret (if Z.testbit r p then 1 else 0).
Proof.
  intros Hr Hp. unfold getBitN. destruct (mask_bits p p Hp Hp) as (m & Hm & Hi & Hb).
  rewrite Hm. cbn [obind]. f_equal. rewrite Z.eqb_refl in Hb.
  destruct (Z.testbit r p) eqn:E.
  - destruct (Z.eqb_spec (Z.land r m) 0) as [E0|]; [|done].
    pose proof (Z.bits_0 p) as H0. rewrite <- E0, Z.land_spec, E, Hb in H0. done.
  - destruct (Z.eqb_spec (Z.land r m) 0) as [|Hne]; [done|]. exfalso. apply Hne.
    apply Z.bits_inj'. intros i Hn. rewrite Z.bits_0.
    assert (Hlow : forall i, 0 <= i < 32 -> Z.testbit (Z.land r m) i = false).
    { intros j Hj. rewrite Z.land_spec. destruct (mask_bits p j Hp Hj) as (m' & Hm' & _ & Hb').
      rewrite Hm in Hm'. injection Hm' as <-. rewrite Hb'.
      destruct (Z.eqb_spec j p) as [->|]; [by rewrite E|apply andb_false_r]. }
    destruct (Z_lt_le_dec i 32); [apply Hlow; lia|].
    rewrite Z.land_spec, Hr, (is_int_bits m Hi) by lia. rewrite <- Z.land_spec. apply Hlow. lia.
Qed.

(** Setting a bit changes that bit and no other. *)
Lemma getBitN_setBitN r p v q : is_int r -> 0 <= p < 32 -> 0 <= q < 32 ->
  exists r', setBitN r p v = Ret r' /\ int_bits r'
    /\ getBitN r' q = if q =? p then Ret (if v =? 0 then 0 else 1) else getBitN r q.
Proof.
  intros Hr Hp Hq. unfold setBitN. destruct (mask_bits p q Hp Hq) as (m & -> & Hm & Hb).
  cbn [obind]. eexists. split; [reflexivity|]. apply is_int_bits in Hr, Hm.
  assert (Hi : int_bits (if negb (v =? 0) then Z.lor r m else Z.land r (Z.lnot m))).
  { intros i Hi. destruct (negb _); rewrite ?Z.lor_spec, ?Z.land_spec, ?Z.lnot_spec by lia;
      by rewrite (Hr i Hi), (Hm i Hi). }
  split; [exact Hi|]. rewrite !getBitN_testbit by assumption.
  destruct (v =? 0); cbn [negb]; rewrite ?Z.lor_spec, ?Z.land_spec, ?Z.lnot_spec by lia;
    rewrite Hb; destruct (q =? p); destruct (Z.testbit r q); reflexivity.
Qed.

(** ** What a value reads back as *)

(** A stored value reads back: bytes given for an [int] or a [long long]
    are the little-endian number they spell, completed with zeros; text given
    for an [int] is the number [atoi] reads in its [datasize] first
    characters; a string is its bytes.  The other fields are the arguments, and
    a [NULL] value changes the name only. *)
Theorem setValue_reads_back `{FloatLib} (a : ESP_Attribute) (name : string) (b : list Z)
    (code : ESP_DataCodeEnum) (Hb : Forall is_byte b) :
  (is_string_code code = false -> zlen b <= 4 -> exists a',
     setValue a name (Some b) (zlen b) ESP_DataType_INT code = Ret a'
     /\ getIntValue a' = Ret (i32 (le_value b)) /\ _name a' = name /\ _datasize a' = 4)
  /\ (is_string_code code = false -> zlen b <= 8 -> exists a',
     setValue a name (Some b) (zlen b) ESP_DataType_LONG code = Ret a'
     /\ getLongValue a' = Ret (i64 (le_value b)) /\ _name a' = name /\ _datasize a' = 8)
  /\ (forall rest v, is_string_code code = true -> atoi (c_str (block_string b)) = Ret v ->
     exists a', setValue a name (Some (b ++ rest)%list) (zlen b) ESP_DataType_INT code = Ret a'
     /\ getIntValue a' = Ret (i32 v) /\ getValueAsString a' = Ret (pretty (i32 v)))
  /\ (zlen b <= ESP_PARSER_MAX_VALUE_SIZE -> exists a',
     setValue a name (Some b) (zlen b) ESP_DataType_STRING code = Ret a'
     /\ getStringValue a' = Ret (block_string b) /\ getValueAsString a' = Ret (block_string b))
  /\ (forall n t, setValue a name None n t code
     = Ret (mkAttribute name (_value a) (_datasize a) (_datatype a) (_datacode a))).
Proof.
  pose proof (zlen_nonneg b) as Hn. split; [|split; [|split; [|split]]].
  - intros Hc Hl. unfold setValue, converted. rewrite Hc, copied_short by (unfold ESP_PARSER_MAX_VALUE_SIZE; lia).
    cbn [obind]. eexists. split; [reflexivity|]. split; [|done]. unfold getIntValue. cbn [_value].
    rewrite read_block_all by (apply zlen_completed; lia). cbn [obind]. by rewrite le_value_completed.
  - intros Hc Hl. unfold setValue, converted. rewrite Hc, copied_short by (unfold ESP_PARSER_MAX_VALUE_SIZE; lia).
    cbn [obind]. eexists. split; [reflexivity|]. split; [|done]. unfold getLongValue. cbn [_value].
    rewrite read_block_all by (apply zlen_completed; lia). cbn [obind]. by rewrite le_value_completed.
  - intros rest v Hc Hv. unfold setValue, converted. rewrite Hc, read_block_app. cbn [obind].
    rewrite Hv. cbn [obind]. eexists. split; [reflexivity|].
    assert (E := int_of_bytes name v code). split; [exact E|].
    unfold getValueAsString. cbn [_datatype]. by rewrite E.
  - intros Hl. unfold setValue, converted. rewrite copied_short by lia. cbn [obind].
    eexists. split; [reflexivity|].
    assert (E : getStringValue (mkAttribute name
      (Some (b ++ replicate (Z.to_nat (zlen b - zlen b)) 0)%list) (zlen b) ESP_DataType_STRING code)
      = Ret (block_string b)).
    { rewrite Z.sub_diag. change (replicate (Z.to_nat 0) 0) with (@nil Z). rewrite app_nil_r.
      unfold getStringValue. cbn [_value _datasize]. by rewrite read_block_all. }
    split; [exact E|]. exact E.
  - reflexivity.
Qed.

(** A floating point library for the examples: the conversions to text and
    from text that give zero. *)
Definition float_zero : FloatLib :=
  {| float_of_string _ := le_bytes 4 0; double_of_string _ := le_bytes 8 0;
     float_lt _ _ := false; double_lt _ _ := false;
     print_float _ := "0"; print_double _ := "0" |}.

Lemma setValue_reads_back_witness :
  Forall is_byte [52; 50] /\ is_string_code ESP_DataCode_STRING = true
  /\ atoi (c_str (block_string [52; 50])) = Ret 42
  /\ exists a', @setValue float_zero new_attribute "t" (Some [52; 50; 57]) 2 ESP_DataType_INT
                  ESP_DataCode_STRING = Ret a'
     /\ getIntValue a' = Ret 42 /\ @getValueAsString float_zero a' = Ret "42".
Proof.
  assert (Hb : Forall is_byte [52; 50]) by solve_bytes.
  assert (Hv : atoi (c_str (block_string [52; 50])) = Ret 42) by reflexivity.
  split; [exact Hb|]. split; [reflexivity|]. split; [exact Hv|].
  exact (proj1 (proj2 (proj2 (@setValue_reads_back float_zero new_attribute "t" [52; 50]
    ESP_DataCode_STRING Hb))) [57] 42 eq_refl Hv).
Defined.

(** ** Copies *)

(** A block as long as its size says, which every setter establishes. *)
Definition attribute_ok (a : ESP_Attribute) : Prop :=
  match _value a with
  | Some b => zlen b = _datasize a
  | None => True
  end.

(** The invariant of attributes: every value [setValue] stores is a block
    of exactly [_datasize] bytes; on such attributes the copy constructor and
    the assignment never read out of the block and what they copy reads the
    same, as a string, as an [int] and as a [long long]. *)
Theorem attribute_invariant `{FL : FloatLib} `{!FloatLibLaws FL} (a : ESP_Attribute)
    (Ha : attribute_ok a) :
  (forall name value n t c a', setValue a name value n t c = Ret a' -> attribute_ok a')
  /\ (forall this, attribute_ok this -> exists a1 a2,
        copy_attribute a = Ret a1 /\ operator_assign this a = Ret a2
        /\ attribute_ok a1 /\ attribute_ok a2
        /\ getStringValue a1 = getStringValue a /\ getStringValue a2 = getStringValue a
        /\ _name a1 = _name a /\ _name a2 = _name a /\ _datatype a1 = _datatype a
        /\ _datatype a2 = _datatype a).
Proof.
  split.
  - intros name [value|] n t c a' H; [|by injection H as <-].
    unfold setValue in H.
    destruct (converted value n t c) as [[b size]| |] eqn:Er; [|done|done].
    cbn [obind] in H. injection H as <-. unfold attribute_ok. cbn [_value _datasize].
    exact (stored_size value n t c b size Er).
  - intros this Hthis. unfold copy_attribute, operator_assign, attribute_ok in *.
    destruct (_value a) as [b|] eqn:Eb.
    + destruct (0 <? _datasize a) eqn:Ez.
      * rewrite read_block_all by assumption. cbn [obind].
        do 2 eexists. repeat split; cbn; try assumption; unfold getStringValue; by rewrite Eb.
      * apply Z.ltb_ge in Ez. pose proof (zlen_nonneg b).
        destruct b as [|x b]; [|rewrite zlen_cons in *; pose proof (zlen_nonneg b); lia].
        cbn [obind]. rewrite clearValue_null. do 2 eexists.
        assert (E0 : _datasize a = 0) by (rewrite <- Ha; done).
        repeat split; cbn; unfold getStringValue; cbn [_value]; rewrite Eb, E0; done.
    + cbn [obind]. rewrite clearValue_null. do 2 eexists.
      repeat split; cbn; unfold getStringValue; by rewrite Eb.
Qed.

Lemma float_zero_laws : FloatLibLaws float_zero.
Proof. by constructor. Qed.

Lemma attribute_invariant_witness :
  let a := mkAttribute "t" (Some [52; 50]) 2 ESP_DataType_STRING ESP_DataCode_STRING in
  attribute_ok a /\
  exists a1, copy_attribute a = Ret a1 /\ attribute_ok a1 /\ getStringValue a1 = Ret "42".
Proof.
  intros a. assert (Ha : attribute_ok a) by reflexivity. split; [exact Ha|].
  destruct (proj2 (@attribute_invariant float_zero float_zero_laws a Ha) a Ha)
    as (a1 & a2 & H1 & H2 & H3 & H4 & H5 & _).
  exists a1. split; [exact H1|]. split; [exact H3|exact H5].
Defined.
