(* ===== verification/Alarm.v ===== *)
(** * Alarms: [src/src/util/alarm.cc]

    The alarms that are on, by a key made of the code and the endpoint.  The
    object is the singleton [Alarm::instance()]; logging is left out, and so is
    the [recursive_mutex], every method being one critical section. *)
From stdpp Require Import base tactics list gmap strings pretty.
From Stdlib Require Import ZArith Lia Ascii String.
From S2P Require Import Prelude CppString Boost.

Local Open Scope string_scope.
Local Open Scope Z_scope.

(** [ptree::get<std::string>(path, default)] on the property tree of an alarm. *)
Definition info_tree : Type := string -> option string.
Definition get_or (servicept : info_tree) (path default : string) : string :=
  match servicept path with Some v => v | None => default end.

Local Abbreviation alarms_map := (gmap string string).

Section Alarm.
  Context {B : Boost}.

Definition message (code : Z) (endpoint status text : string) : string :=
  " code=" ++ lexical_cast code ++ " to=" ++ endpoint ++ " info=" ++ text.

Definition message_service (code : Z) (endpoint content : string) (servicept : info_tree)
    (status text : string) : string :=
  " code=" ++ lexical_cast code ++ " to=" ++ endpoint
  ++ " service=" ++ get_or servicept "service" ""
  ++ " service_path=" ++ get_or servicept "service_path" "/"
  ++ " content=" ++ content ++ " info=" ++ text.

Definition get_key (code : Z) (endpoint status : string) : string :=
  lexical_cast code ++ endpoint.

(** [_alarms.insert(pair)], which keeps an entry that is there. *)
Definition map_insert (m : alarms_map) (k v : string) : alarms_map :=
  match m !! k with Some _ => m | None => <[k := v]> m end.

Definition put (_alarms : alarms_map) (code : Z) (endpoint status text : string) : alarms_map :=
  let errorSTR := " event=ALARM" ++ message code endpoint status text in
  map_insert _alarms (get_key code endpoint status) errorSTR.

Definition put_service (_alarms : alarms_map) (code : Z) (endpoint content : string)
    (additional_info : info_tree) (status text : string) : alarms_map :=
  let errorSTR := " event=ALARM"
    ++ message_service code endpoint content additional_info status text in
  map_insert _alarms (get_key code endpoint status) errorSTR.

Definition remove (_alarms : alarms_map) (code : Z) (endpoint status text : string) : alarms_map :=
  delete (get_key code endpoint status) _alarms.

Definition reset (_alarms : alarms_map) : alarms_map := ∅.

Definition size (_alarms : alarms_map) : Z := Z.of_nat (base.size _alarms).

(** [begin()->second]: the entry with the least key; undefined when empty. *)
Fixpoint least_entry (l : list (string * string)) : option (string * string) :=
  match l with
  | [] => None
  | e :: l' =>
      match least_entry l' with
      | Some e' => if String.leb (fst e) (fst e') then Some e else Some e'
      | None => Some e
      end
  end.

Definition get_last (_alarms : alarms_map) : outcome string :=
  match least_entry (map_to_list _alarms) with
  | Some e => Ret (snd e)
  | None => Undefined
  end.

(** The static methods [error] and [info], as the calls clients make. *)
Inductive alarm_op : Type :=
| error (code : Z) (endpoint status text : string)
| error_service (code : Z) (endpoint content : string) (additional_info : info_tree)
    (status text : string)
| info (code : Z) (endpoint status text : string)
| do_reset.

Definition alarm_step (_alarms : alarms_map) (op : alarm_op) : alarms_map :=
  match op with
  | error code endpoint status text => put _alarms code endpoint status text
  | error_service code endpoint content ai status text =>
      put_service _alarms code endpoint content ai status text
  | info code endpoint status text => remove _alarms code endpoint status text
  | do_reset => reset _alarms
  end.

(** ** The specification: the set of alarms that are on *)

Local Abbreviation alarm_id := (Z * string)%type.

Definition spec_step (on : gset alarm_id) (op : alarm_op) : gset alarm_id :=
  match op with
  | error code endpoint _ _ | error_service code endpoint _ _ _ _ => {[(code, endpoint)]} ∪ on
  | info code endpoint _ _ => on ∖ {[(code, endpoint)]}
  | do_reset => ∅
  end.

(** An endpoint that does not start with a digit, as a URL does not. *)
Definition plain_endpoint (endpoint : string) : Prop :=
  match endpoint with String c _ => isdigit c = false | EmptyString => True end.

Definition op_plain (op : alarm_op) : Prop :=
  match op with
  | error _ endpoint _ _ | error_service _ endpoint _ _ _ _ | info _ endpoint _ _ =>
      plain_endpoint endpoint
  | do_reset => True
  end.

  Context {BL : BoostLaws B}.

(** The number at the start of a key. *)
Fixpoint digits_prefix (s : string) : string :=
  match s with
  | String c s' => if isdigit c then String c (digits_prefix s') else ""
  | EmptyString => ""
  end.

Lemma digits_prefix_app a b : str_forall isdigit a = true -> plain_endpoint b ->
  digits_prefix (a ++ b) = a.
Proof.
  intros Ha Hb. induction a as [|c a IH].
  - destruct b as [|c b]; [done|]. cbn in *. by rewrite Hb.
  - cbn in *. apply andb_true_iff in Ha as [-> Ha]. by rewrite IH.
Qed.

Lemma digits_app_inj a a' b b' : str_forall isdigit a = true -> str_forall isdigit a' = true ->
  plain_endpoint b -> plain_endpoint b' -> a ++ b = a' ++ b' -> a = a' /\ b = b'.
Proof.
  intros Ha Ha' Hb Hb' E. assert (a = a') as <-.
  { rewrite <- (digits_prefix_app a b), <- (digits_prefix_app a' b') by assumption. by rewrite E. }
  split; [done|]. by eapply str_app_inj_l.
Qed.

Lemma minus_not_digits (n : N) t : pretty n <> ("-" ++ t).
Proof. intros E. destruct (pretty_N_digits n) as [H _]. rewrite E in H. done. Qed.

Lemma get_key_inj c1 e1 s1 c2 e2 s2 : plain_endpoint e1 -> plain_endpoint e2 ->
  get_key c1 e1 s1 = get_key c2 e2 s2 -> (c1, e1) = (c2, e2).
Proof.
  unfold get_key. rewrite !lexical_cast_law. intros H1 H2 E.
  destruct (pretty_Z_shape c1) as (n1 & P1 & V1), (pretty_Z_shape c2) as (n2 & P2 & V2).
  rewrite P1, P2, <- !str_app_assoc in E.
  destruct (pretty_N_digits n1) as [D1 N1], (pretty_N_digits n2) as [D2 N2].
  assert (Hs : (c1 <? 0) = (c2 <? 0) /\ pretty n1 ++ e1 = pretty n2 ++ e2).
  { destruct (c1 <? 0), (c2 <? 0); cbn in E.
    - by injection E.
    - exfalso. destruct (pretty n2) as [|c t]; [done|]. injection E as <- _. done.
    - exfalso. destruct (pretty n1) as [|c t]; [done|]. injection E as -> _. done.
    - done. }
  destruct Hs as [Hs E'].
  destruct (digits_app_inj _ _ _ _ D1 D2 H1 H2 E') as [Ep ->]. f_equal.
  assert (pretty c1 = pretty c2) by (rewrite P1, P2, Hs, Ep; done).
  by apply (inj pretty).
Qed.

(** The keys of the map are those of the alarms that are on. *)
Definition refines (_alarms : alarms_map) (on : gset alarm_id) : Prop :=
  (forall x, x ∈ on -> plain_endpoint (snd x))
  /\ dom _alarms = set_map (fun x : alarm_id => get_key (fst x) (snd x) "") on.

Lemma dom_map_insert m k v : dom (map_insert m k v) = {[k]} ∪ dom m.
Proof.
  unfold map_insert. destruct (m !! k) eqn:E.
  - assert (k ∈ dom m) by (by apply elem_of_dom_2 in E). set_solver.
  - by rewrite dom_insert_L.
Qed.

Lemma refines_put m on k v c e : refines m on -> plain_endpoint e -> k = get_key c e "" ->
  refines (map_insert m k v) ({[(c, e)]} ∪ on).
Proof.
  intros [Hp Hd] He ->. split; [set_solver|].
  rewrite dom_map_insert, Hd, set_map_union_L, set_map_singleton_L. done.
Qed.

Lemma alarm_step_refines m on op : refines m on -> op_plain op ->
  refines (alarm_step m op) (spec_step on op).
Proof.
  intros HR Hop. destruct op as [c e s t|c e ct ai s t|c e s t|]; cbn [alarm_step spec_step].
  - by apply refines_put.
  - by apply refines_put.
  - destruct HR as [Hp Hd]. split; [set_solver|]. unfold remove. rewrite dom_delete_L, Hd.
    apply set_eq. intros k. rewrite elem_of_difference, !elem_of_map, elem_of_singleton. split.
    + intros [(x & -> & Hx) Hne]. exists x. split; [done|].
      apply elem_of_difference. split; [done|]. intros E. apply elem_of_singleton in E. by subst.
    + intros (x & -> & Hx). apply elem_of_difference in Hx as [Hx Hne].
      split; [by exists x|]. intros E. apply Hne, elem_of_singleton. destruct x as [c' e'].
      by apply (get_key_inj c' e' "" c e s); [apply (Hp (c', e'))| |].
  - by split; [set_solver|].
Qed.

Lemma alarm_run_refines ops m on : refines m on -> Forall op_plain ops ->
  refines (fold_left alarm_step ops m) (fold_left spec_step ops on).
Proof.
  intros HR Hops. revert m on HR. induction Hops as [|op ops Hop Hops IH]; intros m on HR; [done|].
  cbn [fold_left]. by apply IH, alarm_step_refines.
Qed.

Lemma refines_size m on : refines m on -> size m = Z.of_nat (base.size on).
Proof.
  intros [Hp Hd]. unfold size. rewrite <- size_dom, Hd. f_equal.
  clear Hd m. induction on as [|x on Hx IH] using set_ind_L; [done|].
  rewrite set_map_union_L, set_map_singleton_L.
  rewrite (size_union {[x]} on), size_union, !size_singleton, IH; [done|set_solver| |set_solver].
  intros k H1 H2. apply elem_of_singleton in H1. subst k.
  apply elem_of_map in H2 as (y & E & Hy). apply get_key_inj in E; [|apply Hp; set_solver..].
  destruct x, y. cbn in E. injection E as -> ->. done.
Qed.

(** The alarms refine a set of (code, endpoint) pairs: after any sequence
    of calls on endpoints that do not start with a digit, there are as many
    alarms as pairs that are on, an alarm is found under its pair's key exactly
    when the pair is on, and raising an alarm that is on leaves its first
    message.  Without that condition two pairs can share a key. *)
Theorem alarms_refine (ops : list alarm_op) (Hops : Forall op_plain ops) :
  let m := fold_left alarm_step ops ∅ in
  let on := fold_left spec_step ops ∅ in
  size m = Z.of_nat (base.size on)
  /\ (forall c e s, plain_endpoint e -> ((exists v, m !! get_key c e s = Some v) <-> (c, e) ∈ on))
  /\ (forall c e s t v, m !! get_key c e s = Some v ->
        alarm_step m (error c e s t) = m)
  /\ get_key 1 "0.0.0.1" "" = get_key 10 ".0.0.1" "".
Proof.
  intros m on. assert (HR : refines m on).
  { apply alarm_run_refines; [|done]. split; [set_solver|]. by rewrite dom_empty_L. }
  split; [by apply refines_size|]. split; [|split].
  - intros c e s He. destruct HR as [Hp Hd].
    change (is_Some (m !! get_key c e s) <-> (c, e) ∈ on).
    rewrite <- elem_of_dom, Hd, elem_of_map. split.
    + intros (x & E & Hx). apply get_key_inj in E; [|done|by apply Hp].
      destruct x. cbn in E. by injection E as -> ->.
    + intros Hin. by exists (c, e).
  - intros c e s t v E. cbn [alarm_step]. unfold put, map_insert. by rewrite E.
  - unfold get_key. by rewrite !lexical_cast_law.
Qed.
End Alarm.

Definition sample_alarms : list alarm_op :=
  [error 1 "http://cb" "" "down"; error 2 "http://cb" "" "down"; error 1 "http://cb" "" "again";
   info 2 "http://cb" "" "up"].

Lemma alarms_refine_witness :
  Forall op_plain sample_alarms /\
  @size (fold_left (@alarm_step boost_reference) sample_alarms ∅) = 1
  /\ (exists v, fold_left (@alarm_step boost_reference) sample_alarms ∅
        !! @get_key boost_reference 1 "http://cb" "" = Some v).
Proof.
  assert (Hops : Forall op_plain sample_alarms) by (repeat constructor).
  split; [exact Hops|].
  destruct (@alarms_refine boost_reference boost_reference_laws sample_alarms Hops)
    as (H1 & H2 & _).
  split; [rewrite H1; reflexivity|].
  apply (H2 1 "http://cb" "" eq_refl). vm_compute. reflexivity.
Defined.
