(* ===== verification/IoTUrl.v ===== *)
(** * Service URLs: [src/src/util/iot_url.cc]

    The constructor splits a URL into protocol, host, port, path and query; a
    failure inside becomes an [IotaException]. *)
From stdpp Require Import base tactics list gmap strings pretty.
From Stdlib Require Import ZArith Lia Ascii String.
From S2P Require Import Prelude CppString Types.

Local Open Scope string_scope.
Local Open Scope Z_scope.

Definition URL_PROTOCOL_DELIMITER : string := "://".
Definition URL_PATH_DELIMITER : string := "/".
Definition URL_PROTOCOL_HTTP : string := "http".
Definition URL_PROTOCOL_HTTPS : string := "https".

Record IoTUrl : Type := mkIoTUrl {
  _url : string;
  _protocol : string;
  _host : string;
  _port : Z;
  _path : string;
  _query : string
}.

#[global] Instance IoTUrl_eq_dec : EqDecision IoTUrl.
Proof. solve_decision. Defined.

(** Positions as the code keeps them: [None] is [npos], which no search and no
    [substr] starts from. *)
Definition find_from (pat s : string) (pos : option nat) : option nat :=
  match pos with Some p => find pat s p | None => None end.

(** [s.substr(from, to - from)]: [to] before [from] wraps around, to the end
    of the string, and so does [npos]. *)
Definition substr_range (s : string) (from to : option nat) : outcome string :=
  match from with
  | None => Throw OutOfRange
  | Some f =>
      match to with
      | Some t => if Nat.leb f t then substr s f (t - f) else substr_from s f
      | None => substr_from s f
      end
  end.

(** The first part of the [try]: protocol, host with port, path, query. *)
Definition split_url (url : string) : outcome (string * string * string * string) :=
  let prot := URL_PROTOCOL_DELIMITER in
  let pos_found := find prot url 0 in
  let _protocol := match pos_found with Some p => str_take p url | None => "" end in
  let pos_prot := (fun p => (p + String.length prot)%nat) <$> pos_found in
  let pos_path := find_from URL_PATH_DELIMITER url pos_prot in
  let! hp := match pos_path with
             | Some _ => substr_range url pos_prot pos_path
             | None => Ret ""
             end in
  let pos_query := find_from "?" url pos_prot in
  match pos_query with
  | Some q =>
      let! query := substr_from url (q + 1) in
      match pos_path with
      | None => let! hp := substr_range url pos_prot pos_query in Ret (_protocol, hp, "", query)
      | Some _ => let! path := substr_range url pos_path pos_query in
                  Ret (_protocol, hp, path, query)
      end
  | None =>
      match pos_path with
      | None => let! hp := substr_range url pos_prot None in Ret (_protocol, hp, "", "")
      | Some _ => let! path := substr_range url pos_path None in Ret (_protocol, hp, path, "")
      end
  end.

(** Host and port. *)
Definition split_host (hp : string) : outcome (string * Z) :=
  match find ":" hp 0 with
  | Some pos_port =>
      let! tail := substr_from hp (pos_port + 1) in
      let! port := atoi tail in
      Ret (str_take pos_port hp, port)
  | None => Ret (hp, -1)
  end.

(** The body of the [try]. *)
Definition parse_url (url : string) : outcome IoTUrl :=
  let! r := split_url url in
  let '(_protocol, hp, path, query) := r in
  let! hostport := split_host hp in
  let '(host, port) := hostport in
  let port :=
    if port =? -1 then
      if String.eqb _protocol URL_PROTOCOL_HTTP then 80
      else if String.eqb _protocol URL_PROTOCOL_HTTPS then 443
      else port
    else port in
  let path := if negb (nonempty path) then "/" else path in
  Ret (mkIoTUrl url _protocol host port path query).

(** The constructor. *)
Definition new_IoTUrl (url : string) : outcome IoTUrl :=
  if negb (nonempty url) then
    Throw (IotaException (RESPONSE_MESSAGE_INVALID_PARAMETER ++ "[ empty url ]") "empty url"
             RESPONSE_CODE_BAD_REQUEST)
  else
    ocatch (parse_url url) (fun _ =>
      Throw (IotaException (RESPONSE_MESSAGE_INVALID_PARAMETER ++ "[" ++ url ++ "]")
               (url ++ " is not a correct uri") RESPONSE_CODE_BAD_REQUEST)).

Definition getSSL (u : IoTUrl) : bool := String.eqb (_protocol u) URL_PROTOCOL_HTTPS.

(** ** Well-formed URLs *)

(** The parts of a URL: a path is empty or starts with a slash, a port is
    written or not. *)
Record parts : Type := mkParts {
  p_protocol : string;
  p_host : string;
  p_port : option Z;
  p_path : string;
  p_query : option string
}.

Definition no_chars (bad s : string) : bool := str_forall (fun c => negb (in_set bad c)) s.

Definition parts_ok (p : parts) : Prop :=
  no_chars ":" (p_protocol p) = true
  /\ no_chars ":/?" (p_host p) = true
  /\ (forall n, p_port p = Some n -> 0 <= n < 65536)
  /\ (p_path p = "" \/ exists t, p_path p = String "/" t /\ no_chars "?" t = true)
  /\ (p_path p = "" -> forall q, p_query p = Some q -> no_chars "/" q = true).

Definition render_port (o : option Z) : string :=
  match o with Some n => ":" ++ pretty n | None => "" end.
Definition render_query (o : option string) : string :=
  match o with Some q => "?" ++ q | None => "" end.
Definition render_url (p : parts) : string :=
  p_protocol p ++ "://" ++ p_host p ++ render_port (p_port p) ++ p_path p ++ render_query (p_query p).

Definition default_port (protocol : string) : Z :=
  if String.eqb protocol "http" then 80 else if String.eqb protocol "https" then 443 else -1.

(** What the constructor must make of them. *)
Definition url_of (p : parts) : IoTUrl :=
  mkIoTUrl (render_url p) (p_protocol p) (p_host p)
    (match p_port p with Some n => n | None => default_port (p_protocol p) end)
    (match p_path p with "" => "/" | _ => p_path p end)
    (match p_query p with Some q => q | None => "" end).

(** ** Searching in a concatenation *)

Lemma no_chars_app bad a b : no_chars bad (a ++ b) = no_chars bad a && no_chars bad b.
Proof. apply str_forall_app. Qed.

Lemma no_chars_one bad d s : in_set bad d = true -> no_chars bad s = true ->
  str_forall (fun c => negb (Ascii.eqb c d)) s = true.
Proof.
  intros Hd. apply str_forall_impl. intros c Hc. apply negb_true_iff in Hc.
  destruct (Ascii.eqb_spec c d) as [->|]; [congruence|done].
Qed.

Lemma find_char_app d a b : str_forall (fun c => negb (Ascii.eqb c d)) a = true ->
  find (String d "") (a ++ b) 0 = Nat.add (String.length a) <$> find (String d "") b 0.
Proof.
  intros Ha. rewrite !find_char. induction a as [|c a IH]; [cbn; by destruct (find_if _ b)|].
  cbn in *. apply andb_true_iff in Ha as [Hc Ha]. apply negb_true_iff in Hc. rewrite Hc.
  rewrite IH by assumption. by destruct (find_if _ b).
Qed.

Lemma find_char_none d a : str_forall (fun c => negb (Ascii.eqb c d)) a = true ->
  find (String d "") a 0 = None.
Proof. intros Ha. rewrite find_char. by apply find_if_none. Qed.

Lemma find_char_here d s : find (String d "") (String d s) 0 = Some O.
Proof. rewrite find_char. cbn. by rewrite Ascii.eqb_refl. Qed.

(** The delimiter is found after a protocol without a colon. *)
Lemma find_delimiter a b : no_chars ":" a = true ->
  find "://" (a ++ "://" ++ b) 0 = Some (String.length a).
Proof.
  intros Ha. induction a as [|c a IH]; [by destruct b|].
  cbn in Ha. apply andb_true_iff in Ha as [Hc Ha].
  change (String c a ++ "://" ++ b) with (String c (a ++ "://" ++ b)).
  rewrite find_cons, prefix_cons, IH by assumption.
  destruct (ascii_dec ":" c) as [<-|]; [done|]. reflexivity.
Qed.

Lemma find_from_app a b d : find_from (String d "") (a ++ b) (Some (String.length a))
  = Nat.add (String.length a) <$> find (String d "") b 0.
Proof. unfold find_from. by rewrite find_drop, str_drop_app. Qed.

Lemma substr_range_app a b c :
  substr_range (a ++ b ++ c) (Some (String.length a)) (Some (String.length a + String.length b)%nat)
  = Ret b.
Proof.
  unfold substr_range. replace (Nat.leb _ _) with true by (symmetry; apply Nat.leb_le; lia).
  unfold substr. replace (Nat.leb _ _) with true.
  2: { symmetry. apply Nat.leb_le. rewrite str_length_app. lia. }
  rewrite substring_drop, str_drop_app.
  replace (String.length a + String.length b - String.length a)%nat with (String.length b) by lia.
  by rewrite str_take_app.
Qed.

Lemma substr_from_app a b : substr_from (a ++ b) (String.length a) = Ret b.
Proof.
  unfold substr_from. replace (Nat.leb _ _) with true.
  - by rewrite str_drop_app.
  - symmetry. apply Nat.leb_le. rewrite str_length_app. lia.
Qed.

(** Digits are none of the delimiters. *)
Lemma digits_no_chars s : str_forall isdigit s = true -> no_chars ":/?" s = true.
Proof.
  apply str_forall_impl. intros c. by destruct c as [[] [] [] [] [] [] [] []].
Qed.

Lemma port_digits n : 0 <= n -> str_forall isdigit (pretty n) = true.
Proof.
  intros Hn. destruct (pretty_Z_shape n) as (k & -> & _).
  replace (n <? 0) with false by (symmetry; apply Z.ltb_ge; lia).
  apply pretty_N_digits.
Qed.

(** Host and port come apart at the colon. *)
Lemma split_host_port h (o : option Z) : no_chars ":/?" h = true ->
  (forall n, o = Some n -> 0 <= n < 65536) ->
  split_host (h ++ render_port o) = Ret (h, match o with Some n => n | None => -1 end).
Proof.
  intros Hh Ho. apply (no_chars_one _ ":") in Hh; [|done]. unfold split_host.
  destruct o as [n|]; cbn [render_port].
  - rewrite find_char_app by assumption. cbn [String.append]. rewrite find_char_here.
    cbn [fmap option_fmap option_map]. rewrite Nat.add_0_r, str_take_app.
    replace (String.length h + 1)%nat with (String.length (push_back h ":")).
    2: { rewrite str_length_push_back. lia. }
    rewrite str_app_cons, substr_from_app. cbn [obind].
    rewrite atoi_pretty; [done|]. specialize (Ho n eq_refl). lia.
  - rewrite str_app_nil_r, find_char_none by assumption. done.
Qed.

Lemma host_port_no_delims h o : no_chars ":/?" h = true ->
  (forall n, o = Some n -> 0 <= n < 65536) -> no_chars "/?" (h ++ render_port o) = true.
Proof.
  intros Hh Ho. rewrite no_chars_app. apply andb_true_iff. split.
  - eapply str_forall_impl, Hh. intros c. cbn. rewrite !negb_orb. by destruct (Ascii.eqb c ":").
  - destruct o as [n|]; [|done]. cbn. specialize (Ho n eq_refl).
    eapply str_forall_impl, (digits_no_chars _ (port_digits n ltac:(lia))).
    intros c. cbn. rewrite !negb_orb. by destruct (Ascii.eqb c ":").
Qed.

(** ** Parsing what was rendered *)

(** The rest after the delimiter, cut at the first slash or question mark. *)
Lemma parse_url_rest pr rest : no_chars ":" pr = true ->
  let url := pr ++ "://" ++ rest in
  let n := (String.length pr + 3)%nat in
  find "://" url 0 = Some (String.length pr)
  /\ find_from "/" url (Some n) = Nat.add n <$> find "/" rest 0
  /\ find_from "?" url (Some n) = Nat.add n <$> find "?" rest 0
  /\ (forall a b, rest = a ++ b ->
        substr_range url (Some n) (Some (n + String.length a)%nat) = Ret a)
  /\ substr_range url (Some n) None = Ret rest
  /\ (forall a b c, rest = a ++ b ++ c ->
        substr_range url (Some (n + String.length a)%nat)
          (Some (n + (String.length a + String.length b))%nat) = Ret b)
  /\ (forall a b, rest = a ++ b -> substr_range url (Some (n + String.length a)%nat) None = Ret b)
  /\ (forall a b, rest = a ++ b -> substr_from url (n + String.length a) = Ret b).
Proof.
  intros Hp url n.
  assert (En : n = String.length (pr ++ "://")) by (rewrite str_length_app; done).
  assert (Eu : url = (pr ++ "://") ++ rest) by (unfold url; by rewrite <- str_app_assoc).
  split; [by apply find_delimiter|].
  split; [rewrite Eu, En; apply find_from_app|].
  split; [rewrite Eu, En; apply find_from_app|].
  split; [intros a b ->; rewrite Eu, En; apply substr_range_app|].
  split; [rewrite Eu, En; apply substr_from_app|].
  split; [|split].
  - intros a b c ->. rewrite Eu, En, Nat.add_assoc, <- str_length_app.
    rewrite (str_app_assoc (pr ++ "://") a). apply substr_range_app.
  - intros a b ->. rewrite Eu, En, <- str_length_app, (str_app_assoc _ a). apply substr_from_app.
  - intros a b ->. rewrite Eu, En, <- str_length_app, (str_app_assoc _ a). apply substr_from_app.
Qed.

Lemma split_url_ok p : parts_ok p ->
  split_url (render_url p)
  = Ret (p_protocol p, p_host p ++ render_port (p_port p), p_path p,
         match p_query p with Some q => q | None => "" end).
Proof.
  intros (H1 & H2 & H3 & H4 & H5). set (hp := p_host p ++ render_port (p_port p)).
  assert (Er : render_url p = p_protocol p ++ "://" ++ (hp ++ p_path p ++ render_query (p_query p))).
  { unfold render_url, hp. by rewrite <- (str_app_assoc (p_host p)). }
  destruct (parse_url_rest (p_protocol p) (hp ++ p_path p ++ render_query (p_query p)) H1)
    as (F1 & F2 & F3 & F4 & F5 & F6 & F7 & F8).
  rewrite <- Er in F1, F2, F3, F4, F5, F6, F7, F8.
  pose proof (host_port_no_delims (p_host p) (p_port p) H2 H3) as Hhp. fold hp in Hhp.
  assert (Hs := no_chars_one "/?" "/" hp eq_refl Hhp).
  assert (Hq := no_chars_one "/?" "?" hp eq_refl Hhp).
  rewrite (find_char_app "/" hp) in F2 by assumption.
  rewrite (find_char_app "?" hp) in F3 by assumption.
  assert (Etake : str_take (String.length (p_protocol p)) (render_url p) = p_protocol p).
  { rewrite Er. apply str_take_app. }
  unfold split_url. change URL_PROTOCOL_DELIMITER with "://". rewrite F1.
  cbn [fmap option_fmap option_map]. change (String.length "://") with 3%nat.
  change URL_PATH_DELIMITER with "/". rewrite F2, F3, Etake.
  destruct H4 as [E|(t & E & Ht)]; rewrite E in *; destruct (p_query p) as [q|] eqn:Eq;
    cbn [render_query String.append] in *.
  - rewrite find_char_here.
    assert (Hsq : find "/" (String "?" q) 0 = None).
    { rewrite find_char. cbn [find_if]. change (Ascii.eqb "?" "/") with false. cbn iota.
      apply fmap_None, find_if_none, (no_chars_one "/"); [done|by apply H5]. }
    rewrite Hsq. cbn [fmap option_fmap option_map].
    rewrite Nat.add_0_r, (F4 hp _ eq_refl).
    replace (String.length (p_protocol p) + 3 + String.length hp + 1)%nat
      with (String.length (p_protocol p) + 3 + String.length (push_back hp "?"))%nat
      by (rewrite str_length_push_back; lia).
    rewrite (F8 (push_back hp "?") q) by apply str_app_cons. reflexivity.
  - rewrite F5, str_app_nil_r. reflexivity.
  - rewrite find_char_here. change (String "/" (t ++ String "?" q)) with (String "/" t ++ String "?" q).
    rewrite (find_char_app "?" (String "/" t)).
    2: { cbn. by apply (no_chars_one "?"). }
    rewrite find_char_here. cbn [fmap option_fmap option_map].
    rewrite !Nat.add_0_r, (F4 hp _ eq_refl).
    rewrite (F6 hp (String "/" t) (String "?" q) eq_refl).
    replace (String.length (p_protocol p) + 3 + (String.length hp + String.length (String "/" t)) + 1)%nat
      with (String.length (p_protocol p) + 3 + String.length (push_back (hp ++ String "/" t) "?"))%nat
      by (rewrite str_length_push_back, str_length_app; lia).
    rewrite (F8 (push_back (hp ++ String "/" t) "?") q); [reflexivity|].
    rewrite <- str_app_cons, <- str_app_assoc. reflexivity.
  - rewrite find_char_here, !str_app_nil_r in *.
    rewrite find_char_none by (cbn; by apply (no_chars_one "?")).
    cbn [fmap option_fmap option_map]. rewrite !Nat.add_0_r, (F4 hp _ eq_refl).
    rewrite (F7 hp _ eq_refl). reflexivity.
Qed.

(** URLs round trip: from the text of a protocol, a host, an optional
    port, a path and an optional query the constructor recovers each of them,
    with the default port of the protocol and the path [/] where they are not
    written.  Without a protocol delimiter it throws an [IotaException]. *)
Theorem url_roundtrip (p : parts) (Hp : parts_ok p) :
  new_IoTUrl (render_url p) = Ret (url_of p)
  /\ (forall s, find "://" s 0 = None ->
      exists r d, new_IoTUrl s = Throw (IotaException r d RESPONSE_CODE_BAD_REQUEST)).
Proof.
  split.
  - unfold new_IoTUrl. replace (negb (nonempty (render_url p))) with false.
    2: { unfold render_url. by destruct (p_protocol p). }
    unfold parse_url. rewrite (split_url_ok p Hp). cbn [obind].
    destruct Hp as (H1 & H2 & H3 & H4 & H5).
    rewrite (split_host_port (p_host p) (p_port p) H2 H3). cbn [obind ocatch].
    unfold url_of, default_port. do 2 f_equal.
    + destruct (p_port p) as [n|]; [|reflexivity]. specialize (H3 n eq_refl).
      destruct (Z.eqb_spec n (-1)); [lia|done].
    + by destruct (p_path p).
  - intros s Hs. unfold new_IoTUrl. destruct (negb (nonempty s)); [by do 2 eexists|].
    unfold parse_url, split_url. change URL_PROTOCOL_DELIMITER with "://". rewrite Hs. cbn.
    by do 2 eexists.
Qed.

Definition sample_parts : parts := mkParts "http" "cb.org" (Some 1026) "/v1/updateContext" (Some "k=/1").

Lemma url_roundtrip_witness :
  parts_ok sample_parts
  /\ new_IoTUrl "http://cb.org:1026/v1/updateContext?k=/1" = Ret (url_of sample_parts)
  /\ find "://" "cb.org/v1" 0 = None
  /\ exists r d, new_IoTUrl "cb.org/v1" = Throw (IotaException r d RESPONSE_CODE_BAD_REQUEST).
Proof.
  assert (Hp : parts_ok sample_parts).
  { split; [reflexivity|]. split; [reflexivity|]. split; [intros n E; injection E as <-; lia|].
    split; [right; exists "v1/updateContext"; done|discriminate]. }
  split; [exact Hp|]. split; [exact (proj1 (url_roundtrip sample_parts Hp))|].
  split; [reflexivity|].
  exact (proj2 (url_roundtrip sample_parts Hp) "cb.org/v1" eq_refl).
Defined.
