(* ===== verification/Bson.v ===== *)
(** * BSON documents and the driver of MongoDB

    The documents the collections keep, and the driver the sources call: the
    class [Mongo], over the state of the database, with its documented
    behaviour in [MongoLaws].  A call of the driver answers or fails with one
    of its exceptions; an update or a removal also says what
    [getLastErrorDetailed] answers after it.  [mongo_reference] is a concrete
    database, for the examples. *)
From stdpp Require Import base tactics list gmap strings.
From Stdlib Require Import ZArith Lia Ascii String.
From S2P Require Import Prelude CppString.

Local Open Scope string_scope.
Local Open Scope Z_scope.

(** ** Documents *)

Inductive bson : Type :=
| BStr (s : string)
| BNum (z : Z)
| BBool (b : bool)
| BObj (fields : list (string * bson))
| BArr (elements : list bson).

Definition document : Type := list (string * bson).

(** The first field of a name. *)
Fixpoint field (d : document) (name : string) : option bson :=
  match d with
  | [] => None
  | (k, v) :: d' => if String.eqb k name then Some v else field d' name
  end.

Definition has_field (d : document) (name : string) : bool :=
  match field d name with Some _ => true | None => false end.

(** ** Reading a document *)

(** [getStringField], [getIntField], [getBoolField] and [getObjectField] of
    [BSONObj]; the elements of an array are an object without names. *)
Class BsonReader : Type := {
  getStringField : document -> string -> string;
  getIntField : document -> string -> Z;
  getBoolField : document -> string -> bool;
  getObjectField : document -> string -> document
}.

Definition BSON_INT_MIN : Z := - 2 ^ 31.

Class BsonReaderLaws (R : BsonReader) : Prop := {
  getString_some d k s : field d k = Some (BStr s) -> getStringField d k = c_string s;
  getString_none d k : field d k = None -> getStringField d k = "";
  getInt_some d k z : field d k = Some (BNum z) -> - 2 ^ 31 <= z < 2 ^ 31 -> getIntField d k = z;
  getInt_none d k : field d k = None -> getIntField d k = BSON_INT_MIN;
  getBool_some d k b : field d k = Some (BBool b) -> getBoolField d k = b;
  getBool_none d k : field d k = None -> getBoolField d k = false;
  getObject_some d k fs : field d k = Some (BObj fs) -> getObjectField d k = fs;
  getObject_array d k es : field d k = Some (BArr es) -> map snd (getObjectField d k) = es;
  getObject_none d k : field d k = None -> getObjectField d k = []
}.

(** ** Queries and updates *)

Fixpoint bson_eqb (a b : bson) : bool :=
  let fix fields_eqb (fs gs : list (string * bson)) : bool :=
    match fs, gs with
    | [], [] => true
    | (k, v) :: fs', (k', v') :: gs' => String.eqb k k' && bson_eqb v v' && fields_eqb fs' gs'
    | _, _ => false
    end in
  let fix elements_eqb (xs ys : list bson) : bool :=
    match xs, ys with
    | [], [] => true
    | x :: xs', y :: ys' => bson_eqb x y && elements_eqb xs' ys'
    | _, _ => false
    end in
  match a, b with
  | BStr s, BStr t => String.eqb s t
  | BNum x, BNum y => x =? y
  | BBool x, BBool y => Bool.eqb x y
  | BObj fs, BObj gs => fields_eqb fs gs
  | BArr xs, BArr ys => elements_eqb xs ys
  | _, _ => false
  end.

(** A query of plain fields selects the documents with the same values. *)
Definition matches (q d : document) : bool :=
  forallb (fun kv => match field d (fst kv) with
                     | Some v => bson_eqb (snd kv) v
                     | None => false
                     end) q.

Definition scalar (v : bson) : bool :=
  match v with BObj _ | BArr _ => false | _ => true end.
Definition plain (q : document) : bool := forallb (fun kv => scalar (snd kv)) q.

(** [$set]: each field replaces the one of its name or is added. *)
Fixpoint set_field (d : document) (k : string) (v : bson) : document :=
  match d with
  | [] => [(k, v)]
  | (k', v') :: d' => if String.eqb k' k then (k, v) :: d' else (k', v') :: set_field d' k v
  end.

Definition set_fields (s d : document) : document :=
  fold_left (fun d kv => set_field d (fst kv) (snd kv)) s d.

(** An update without [multi] changes one document. *)
Fixpoint update_first (q s : document) (ds : list document) : list document * Z :=
  match ds with
  | [] => ([], 0)
  | d :: ds' =>
      if matches q d then (set_fields s d :: ds', 1)
      else let '(ds'', n) := update_first q s ds' in (d :: ds'', n)
  end.

(** ** The driver *)

(** The exceptions of the driver the sources tell apart; an operation
    exception has the code of the server. *)
Inductive driver_exception : Type :=
| SocketException
| ConnectException
| UserException
| AssertionException
| OperationException (code : Z)
| DBException.

Inductive answer (A : Type) : Type :=
| Done (a : A)
| Fails (e : driver_exception).
Arguments Done {A} a.
Arguments Fails {A} e.

(** The fields of [getLastErrorDetailed] that are read. *)
Record last_error : Type := mkLastError { le_code : Z; le_n : Z; le_ok : Z; le_err : string }.

Definition no_error (n : Z) : last_error := mkLastError 0 n 1 "".

(** Calls on the collection [ns]; the first flag of [drv_update] is
    [upsert].  A query takes a limit, an offset and an order; [drv_command] is
    [runCommand]. *)
Class Mongo : Type := {
  db : Type;
  drv_insert : db -> string -> document -> db * answer unit;
  drv_update : db -> string -> bool -> document -> document -> db * answer last_error;
  drv_remove : db -> string -> document -> db * answer last_error;
  drv_query : db -> string -> document -> Z -> Z -> document -> db * answer (list document);
  drv_count : db -> string -> document -> db * answer Z;
  drv_command : db -> string -> document -> db * answer (document * last_error);
  drv_create_index : db -> string -> document -> bool -> db * answer unit;
  drv_drop_indexes : db -> string -> db * answer unit;
  drv_reconnect : db -> db
}.

(** What the calls that succeed do, on the documents of each collection. *)
Class MongoLaws (D : Mongo) : Type := {
  docs : db -> string -> list document;
  insert_law m ns d m' : drv_insert m ns d = (m', Done tt) ->
    docs m' ns = (docs m ns ++ [d])%list /\ forall ns', ns' <> ns -> docs m' ns' = docs m ns';
  remove_law m ns q m' le : plain q = true -> drv_remove m ns q = (m', Done le) ->
    docs m' ns = List.filter (fun d => negb (matches q d)) (docs m ns)
    /\ le = no_error (zlen (List.filter (matches q) (docs m ns)))
    /\ forall ns', ns' <> ns -> docs m' ns' = docs m ns';
  update_law m ns q s m' le : plain q = true ->
    drv_update m ns false q [("$set", BObj s)] = (m', Done le) ->
    docs m' ns = fst (update_first q s (docs m ns))
    /\ le = no_error (snd (update_first q s (docs m ns)))
    /\ forall ns', ns' <> ns -> docs m' ns' = docs m ns';
  query_law m ns q m' l : plain q = true -> drv_query m ns q 0 0 [] = (m', Done l) ->
    l ≡ₚ List.filter (matches q) (docs m ns) /\ forall ns', docs m' ns' = docs m ns'
}.

(** ** A reference instance *)

Definition bson_reader_reference : BsonReader := {|
  getStringField d k := match field d k with Some (BStr s) => c_string s | _ => "" end;
  getIntField d k := match field d k with Some (BNum z) => i32 z | _ => BSON_INT_MIN end;
  getBoolField d k := match field d k with Some (BBool b) => b | _ => false end;
  getObjectField d k :=
    match field d k with
    | Some (BObj fs) => fs
    | Some (BArr es) => map (fun e => ("", e)) es
    | _ => []
    end
|}.

Lemma bson_reader_reference_laws : BsonReaderLaws bson_reader_reference.
Proof.
  constructor; intros d k; cbn.
  all: try (intros x E; by rewrite E).
  all: try (intros E; by rewrite E).
  - intros z E Hz. rewrite E. by apply i32_small.
  - intros es E. rewrite E, map_map. apply map_id.
Qed.

(** The documents of each collection, in order of insertion; every call
    succeeds. *)
Definition mongo_reference : Mongo := {|
  db := string -> list document;
  drv_insert m ns d :=
    (fun ns' => if String.eqb ns' ns then (m ns' ++ [d])%list else m ns', Done tt);
  drv_update m ns _ q s :=
    let set := match s with [("$set", BObj s)] => s | _ => [] end in
    let r := update_first q set (m ns) in
    (fun ns' => if String.eqb ns' ns then fst r else m ns', Done (no_error (snd r)));
  drv_remove m ns q :=
    (fun ns' => if String.eqb ns' ns then List.filter (fun d => negb (matches q d)) (m ns') else m ns',
     Done (no_error (zlen (List.filter (matches q) (m ns)))));
  drv_query m ns q limit skip order := (m, Done (List.filter (matches q) (m ns)));
  drv_count m ns q := (m, Done (zlen (List.filter (matches q) (m ns))));
  drv_command m ns c := (m, Done ([], no_error 0));
  drv_create_index m ns index is_unique := (m, Done tt);
  drv_drop_indexes m ns := (m, Done tt);
  drv_reconnect m := m
|}.

Definition mongo_reference_laws : @MongoLaws mongo_reference.
Proof.
  unshelve econstructor; [exact (fun m ns => m ns)|..]; cbn.
  - intros m ns d m' [= <-]. rewrite String.eqb_refl. split; [done|].
    intros ns' Hne. apply String.eqb_neq in Hne. by rewrite Hne.
  - intros m ns q m' le _ [= <- <-]. rewrite String.eqb_refl. split; [done|]. split; [done|].
    intros ns' Hne. apply String.eqb_neq in Hne. by rewrite Hne.
  - intros m ns q s m' le _ [= <- <-]. rewrite String.eqb_refl. split; [done|]. split; [done|].
    intros ns' Hne. apply String.eqb_neq in Hne. by rewrite Hne.
  - intros m ns q m' l _ [= <- <-]. done.
Defined.

(** ** Building a document *)

(** A field is left out when its value is empty or unset. *)
Definition append_str (name value : string) : document :=
  if String.eqb value "" then [] else [(name, BStr value)].
Definition append_unless (unset : Z) (name : string) (value : Z) : document :=
  if value =? unset then [] else [(name, BNum value)].

(** ** Facts *)

Lemma field_set_field d k v k' :
  field (set_field d k v) k' = if String.eqb k k' then Some v else field d k'.
Proof.
  induction d as [|[k1 v1] d IH]; cbn; [by destruct (String.eqb k k')|].
  destruct (String.eqb_spec k1 k) as [->|Hne]; cbn.
  - by destruct (String.eqb k k').
  - rewrite IH. destruct (String.eqb_spec k1 k') as [->|]; [|done].
    by destruct (String.eqb_spec k k').
Qed.

Lemma matches_cons k v q d : matches ((k, v) :: q) d
  = match field d k with Some w => bson_eqb v w | None => false end && matches q d.
Proof. reflexivity. Qed.

Lemma zlen_filter_pos {A} (f : A -> bool) l :
  0 < zlen (List.filter f l) <-> exists x, x ∈ l /\ f x = true.
Proof.
  split.
  - destruct (List.filter f l) as [|x r] eqn:E; [unfold zlen; cbn; lia|]. intros _. exists x.
    assert (In x (List.filter f l)) as Hin by (rewrite E; by left).
    apply filter_In in Hin. by rewrite list_elem_of_In.
  - intros (x & Hx & Hf). assert (In x (List.filter f l)) as Hin.
    { apply filter_In. by rewrite <- list_elem_of_In. }
    destruct (List.filter f l); [done|]. rewrite zlen_cons. pose proof (zlen_nonneg l0). lia.
Qed.

Lemma field_app d d' k :
  field (d ++ d')%list k = match field d k with Some v => Some v | None => field d' k end.
Proof. induction d as [|[k' v] d IH]; cbn; [done|]. by destruct (String.eqb k' k). Qed.

Lemma field_append_str n v k :
  field (append_str n v) k = if String.eqb n k && negb (String.eqb v "") then Some (BStr v) else None.
Proof.
  unfold append_str. destruct (String.eqb v ""); cbn; [by rewrite andb_false_r|].
  by destruct (String.eqb n k).
Qed.

Lemma field_append_unless u n v k :
  field (append_unless u n v) k = if String.eqb n k && negb (v =? u) then Some (BNum v) else None.
Proof.
  unfold append_unless. destruct (v =? u); cbn; [by rewrite andb_false_r|].
  by destruct (String.eqb n k).
Qed.

(** Decide the comparisons of two constants. *)
Ltac eval_eqb :=
  repeat match goal with
  | |- context [String.eqb ?a ?b] =>
      match eval vm_compute in (String.eqb a b) with
      | true => change (String.eqb a b) with true
      | false => change (String.eqb a b) with false
      end
  end; cbn [andb].
