(* ===== verification/Collection.v ===== *)
(** * Collections of documents: [src/src/util/collection.cc]

    The calls on one collection of the database: what they do with the
    exceptions of the driver, how often they try again, and the alarm they
    raise and lower.  The name of the database is given by
    [MongoConnection], as is the endpoint. *)
From stdpp Require Import base tactics list gmap strings.
From Stdlib Require Import ZArith Lia Ascii String.
From S2P Require Import Prelude CppString Boost Types Alarm Bson.

Local Open Scope string_scope.
Local Open Scope Z_scope.

Definition MAX_RETRY : Z := 1.
Definition ERROR_MONGO : Z := 500.
Definition ERROR_NO_DATA : Z := -1.

Section Collection.
  Context `{HB : Boost} `{HM : Mongo}.
  Context (database endpoint : string) (show : document -> string)
    (what : driver_exception -> string).

(** The connection, and the alarms of the process. *)
Record Database : Type := mkDatabase { conn : db; alarms : gmap string string }.

Definition alarm_error (text : string) : FM Database unit :=
  fmmodify (fun s => mkDatabase (conn s)
    (Alarm.put (alarms s) ALARM_CODE_NO_MONGO endpoint ERROR text)).
Definition alarm_info (text : string) : FM Database unit :=
  fmmodify (fun s => mkDatabase (conn s)
    (Alarm.remove (alarms s) ALARM_CODE_NO_MONGO endpoint ERROR text)).
Definition reconnect : FM Database unit :=
  fmmodify (fun s => mkDatabase (drv_reconnect (conn s)) (alarms s)).

(** A call of the driver: what it answers is a value of the code. *)
Definition call {A} (c : db -> db * answer A) : FM Database (answer A) :=
  fun s => let '(m, r) := c (conn s) in Some (mkDatabase m (alarms s), Ret r).

Definition database_error (details : string) : exn :=
  IotaException RESPONSE_MESSAGE_DATABASE_ERROR details ERROR_MONGO.

Definition namespace (a_bbdd : string) : string := database ++ "." ++ a_bbdd.

(** [getLastError]: [n], or the error of the last operation. *)
Definition getLastError (bbdd : string) (obj : document) (errObj : last_error)
    : FM Database Z :=
  then! alarm_info (le_err errObj) in
  let errCode := le_code errObj in
  if errCode =? 0 then
    if le_ok errObj =? 0
    then fthrow (database_error (le_err errObj ++ "   mongoiota::store:: " ++ bbdd ++ "::getLastError"))
    else fret (le_n errObj)
  else if (errCode =? 11000) || (errCode =? 11001)
  then fthrow (IotaException RESPONSE_MESSAGE_INVALID_PARAMETER "duplicate key " 409)
  else fthrow (database_error (bbdd ++ show obj ++ " error:" ++ lexical_cast errCode ++ ":" ++ le_err errObj)).

(** The [catch] clauses of [insert], [update_r], [remove] and [find], which
    differ in what a retry does and in whether an assertion reconnects. *)
Definition fail {A} (with_reconnect : bool) (details : string) : FM Database A :=
  then! alarm_error details in
  then! (if with_reconnect then reconnect else fret tt) in
  fthrow (database_error details).

Definition handlers {A} (assertion_reconnects : bool) (gave_up subject : string) (retry : Z)
    (again : FM Database A) (e : driver_exception) : FM Database A :=
  match e with
  | SocketException => fail true "SocketException "
  | ConnectException => fail true "ConnectException "
  | UserException => if retry <? MAX_RETRY then again else fail false gave_up
  | AssertionException => fail assertion_reconnects "AssertionException "
  | OperationException errCode =>
      if (errCode =? 11000) || (errCode =? 11001)
      then fthrow (IotaException RESPONSE_MESSAGE_DUPLICATED_DATA ("duplicate key: " ++ subject) 409)
      else fail false subject
  | DBException => fail true "DBException "
  end.

Definition no_user_connection : string := "problem with database UserConnection".

(** [insert] has no [return]: its result is never read. *)
Fixpoint insert (fuel : nat) (a_bbdd : string) (data : document) (retry : Z) : FM Database unit :=
  match fuel with
  | O => fun _ => None
  | S fuel =>
      let bbdd := namespace a_bbdd in
      act! r := call (fun m => drv_insert m bbdd data) in
      match r with
      | Done _ => alarm_info "insert OK"
      | Fails e => handlers false "problem with dabaseUSerConnection" (bbdd ++ " " ++ show data) retry
                     (insert fuel a_bbdd data (retry + 1)) e
      end
  end.

(** [update_r]; when it tries again it calls [update], which takes the
    document of [$set] as the data, ignores its [retry] and starts from 0; what
    that answers is dropped. *)
Fixpoint update_r (fuel : nat) (a_bbdd : string) (query setData : document) (upsert : bool)
    (retry : Z) : FM Database Z :=
  match fuel with
  | O => fun _ => None
  | S fuel =>
      let bbdd := namespace a_bbdd in
      act! r := call (fun m => drv_update m bbdd upsert query setData) in
      match r with
      | Done le => getLastError bbdd setData le
      | Fails e => handlers true no_user_connection (bbdd ++ " " ++ show query) retry
                     (then! update_r fuel a_bbdd query [("$set", BObj setData)] upsert 0 in fret 0) e
      end
  end.

Definition update (fuel : nat) (a_bbdd : string) (query setData : document) (upsert : bool)
    : FM Database Z :=
  update_r fuel a_bbdd query [("$set", BObj setData)] upsert 0.

(** [remove]; what the second try answers is dropped. *)
Fixpoint remove (fuel : nat) (a_bbdd : string) (query : document) (retry : Z) : FM Database Z :=
  match fuel with
  | O => fun _ => None
  | S fuel =>
      let bbdd := namespace a_bbdd in
      act! r := call (fun m => drv_remove m bbdd query) in
      match r with
      | Done le => getLastError bbdd query le
      | Fails e => handlers true no_user_connection (bbdd ++ " " ++ show query) retry
                     (then! remove fuel a_bbdd query (retry + 1) in fret 0) e
      end
  end.

(** [find]: the code, and the documents of the cursor.  A second try calls
    [obj] on a builder that has already given its object, which the driver
    does not allow. *)
Definition find (a_bbdd : string) (query : document) (limit skip : Z) (order : document)
    : FM Database (Z * list document) :=
  let bbdd := namespace a_bbdd in
  act! r := call (fun m => drv_query m bbdd query limit skip order) in
  match r with
  | Done cursor => fret (match cursor with [] => ERROR_NO_DATA | _ => 0 end, cursor)
  | Fails e => handlers true no_user_connection (bbdd ++ " " ++ show query) 0 (fun s => Some (s, Undefined)) e
  end.

(** [next]: the first document of the cursor and the rest of it. *)
Definition next (cursor : list document) : outcome (document * list document) :=
  match cursor with
  | d :: rest => Ret (d, rest)
  | [] => Throw (IotaException RESPONSE_MESSAGE_INVALID_PARAMETER "no more data"
                   RESPONSE_CODE_BAD_REQUEST)
  end.

(** [count]: every exception of the driver is caught together. *)
Definition count (a_bbdd : string) (query : document) : FM Database Z :=
  act! r := call (fun m => drv_count m (namespace a_bbdd) query) in
  match r with
  | Done n => fret n
  | Fails e =>
      let obj := "error: " ++ a_bbdd ++ ": " ++ show query ++ " what=" ++ what e in
      then! alarm_error obj in
      then! reconnect in
      fthrow (database_error obj)
  end.

(** [findAndModify], [aggregate] and [distinct] run a command, once more after
    a failure. *)
Definition run_command (command : document) : FM Database document :=
  let runCommand := call (fun m => drv_command m database command) in
  act! r := runCommand in
  act! a := (match r with
             | Done a => fret a
             | Fails original_exc =>
                 then! reconnect in
                 act! r := runCommand in
                 match r with
                 | Done a => fret a
                 | Fails e =>
                     then! alarm_error (what e) in
                     then! reconnect in
                     fthrow (database_error (what original_exc))
                 end
             end) in
  let '(res, le) := a in
  then! getLastError database res le in fret res.

Definition findAndModify (table : string) (query set : document) (upsert : bool)
    : FM Database document :=
  run_command ([("findandmodify", BStr table); ("query", BObj query); ("update", BObj set)]
               ++ (if upsert then [("upsert", BBool true)] else []))%list.

Definition aggregate (a_bbdd : string) (pipeline : list document) : FM Database document :=
  run_command [("aggregate", BStr a_bbdd); ("pipeline", BArr (map BObj pipeline))].

Definition distinct (a_bbdd field : string) (query : document) : FM Database document :=
  run_command [("distinct", BStr a_bbdd); ("key", BStr field); ("query", BObj query)].

(** [ensureIndex] and [dropIndexes]; the latter hides a failure. *)
Definition ensureIndex (a_bbdd : string) (index : document) (is_unique : bool) : FM Database Z :=
  act! r := call (fun m => drv_create_index m (namespace a_bbdd) index is_unique) in
  match r with
  | Done _ => fret 0
  | Fails _ => fail true "DBException "
  end.

Definition dropIndexes (a_bbdd : string) : FM Database Z :=
  act! r := call (fun m => drv_drop_indexes m (namespace a_bbdd)) in
  match r with
  | Done _ => fret 0
  | Fails _ => then! alarm_error "DBException in  dropIndexes" in then! reconnect in fret (-1)
  end.

(** [createIndex]: with two indexes it counts the one that is asked for, and
    compares the answer with [dropIndex] instead of assigning it; so an index
    is made exactly when there are not two. *)
Definition createIndex (a_bbdd : string) (index : document) (uniqueIndex : bool)
    : FM Database Z :=
  let bbdd := namespace a_bbdd in
  act! num_index := count "system.indexes" [("ns", BStr bbdd)] in
  if num_index =? 2 then
    then! count "system.indexes"
      ([("ns", BStr bbdd); ("key", BObj index)]
       ++ (if uniqueIndex then [("unique", BBool true)] else []))%list in
    fret 200
  else
    then! dropIndexes a_bbdd in
    then! ensureIndex a_bbdd index uniqueIndex in
    fret 200.

(** ** How often the driver is called *)

Lemma handlers_eq {A} b g sub retry (again again' : FM Database A) e s :
  (forall s, retry < MAX_RETRY -> again s = again' s) ->
  handlers b g sub retry again e s = handlers b g sub retry again' e s.
Proof.
  intros E. destruct e; try reflexivity. cbn [handlers].
  destruct (retry <? MAX_RETRY) eqn:Er; [|reflexivity]. apply E. by apply Z.ltb_lt.
Qed.

Lemma handlers_ends {A} b g sub retry (again : FM Database A) e s :
  (retry < MAX_RETRY -> again s <> None) -> handlers b g sub retry again e s <> None.
Proof.
  intros E. destruct e; cbn [handlers]; try discriminate.
  - destruct (retry <? MAX_RETRY) eqn:Er; [apply E; by apply Z.ltb_lt|discriminate].
  - destruct b; discriminate.
  - destruct (_ || _); discriminate.
Qed.

Lemma getLastError_ends bbdd obj le s : getLastError bbdd obj le s <> None.
Proof.
  unfold getLastError, fmbind, alarm_info, fmmodify.
  repeat (destruct (_ : bool); try discriminate).
Qed.

Lemma call_bind {A B} (c : db -> db * answer A) (k : answer A -> FM Database B) s :
  fmbind (call c) k s = k (snd (c (conn s))) (mkDatabase (fst (c (conn s))) (alarms s)).
Proof. unfold fmbind, call. by destruct (c (conn s)). Qed.

Lemma insert_S fuel a d retry s :
  insert (S fuel) a d retry s
  = let r := drv_insert (conn s) (namespace a) d in
    match snd r with
    | Done _ => alarm_info "insert OK"
    | Fails e => handlers false "problem with dabaseUSerConnection" (namespace a ++ " " ++ show d) retry
                   (insert fuel a d (retry + 1)) e
    end (mkDatabase (fst r) (alarms s)).
Proof. cbn [insert]. by rewrite call_bind. Qed.

Lemma remove_S fuel a q retry s :
  remove (S fuel) a q retry s
  = let r := drv_remove (conn s) (namespace a) q in
    match snd r with
    | Done le => getLastError (namespace a) q le
    | Fails e => handlers true no_user_connection (namespace a ++ " " ++ show q) retry
                   (then! remove fuel a q (retry + 1) in fret 0) e
    end (mkDatabase (fst r) (alarms s)).
Proof. cbn [remove]. by rewrite call_bind. Qed.

Lemma retry_bind {A B} (c c' : FM Database A) (k : A -> FM Database B) s :
  c s = c' s -> fmbind c k s = fmbind c' k s.
Proof. intros E. unfold fmbind. by rewrite E. Qed.

Lemma insert_last fuel a d s : insert (S fuel) a d 1 s = insert 1 a d 1 s.
Proof.
  rewrite !insert_S. cbn zeta. destruct (snd _); [done|]. apply handlers_eq. unfold MAX_RETRY. lia.
Qed.

Lemma remove_last fuel a q s : remove (S fuel) a q 1 s = remove 1 a q 1 s.
Proof.
  rewrite !remove_S. cbn zeta. destruct (snd _); [done|]. apply handlers_eq. unfold MAX_RETRY. lia.
Qed.

Lemma insert_once a d s : insert 1 a d 1 s <> None.
Proof.
  rewrite insert_S. cbn zeta. destruct (snd _); [discriminate|].
  apply handlers_ends. unfold MAX_RETRY. lia.
Qed.

Lemma remove_once a q s : remove 1 a q 1 s <> None.
Proof.
  rewrite remove_S. cbn zeta. destruct (snd _); [apply getLastError_ends|].
  apply handlers_ends. unfold MAX_RETRY. lia.
Qed.

(** An insertion and a removal are tried twice at most, whatever the driver
    answers: two units of fuel are enough and more change nothing. *)
Theorem insert_remove_end (fuel : nat) (a : string) (d : document) (s : Database) :
  (2 <= fuel)%nat ->
  (insert fuel a d 0 s = insert 2 a d 0 s /\ insert 2 a d 0 s <> None)
  /\ (remove fuel a d 0 s = remove 2 a d 0 s /\ remove 2 a d 0 s <> None).
Proof.
  intros Hf. destruct fuel as [|[|fuel]]; [lia..|].
  rewrite !(insert_S _ a d 0), !(remove_S _ a d 0). cbn zeta.
  split; (split; [|]).
  - destruct (snd _); [done|]. apply handlers_eq. intros s' _. apply insert_last.
  - destruct (snd _); [discriminate|]. apply handlers_ends. intros _. apply insert_once.
  - destruct (snd _); [done|]. apply handlers_eq. intros s' _. apply retry_bind, remove_last.
  - destruct (snd _); [apply getLastError_ends|]. apply handlers_ends. intros _. unfold fmbind.
    pose proof (remove_once a d) as Hr.
    destruct (remove 1 a d (0 + 1) _) as [[s' []]|] eqn:E; try discriminate. by apply Hr in E.
Qed.

(** An update starts counting again at each try: while the driver has no
    connection for the user, it never ends. *)
Theorem update_tries_for_ever (a : string) (upsert : bool) (query set : document) (s : Database)
    (Hdown : forall m q d, drv_update m (namespace a) upsert q d = (m, Fails UserException)) :
  forall fuel, update fuel a query set upsert s = None.
Proof.
  unfold update. intros fuel. generalize ([("$set", BObj set)] : document) as d.
  revert s. induction fuel as [|fuel IH]; intros s d; [done|].
  cbn [update_r]. rewrite call_bind, Hdown. cbn -[update_r]. unfold fmbind. by rewrite IH.
Qed.

(** ** What the documents become *)

Lemma getLastError_ok bbdd obj n s :
  getLastError bbdd obj (no_error n) s
  = Some (mkDatabase (conn s) (Alarm.remove (alarms s) ALARM_CODE_NO_MONGO endpoint ERROR ""), Ret n).
Proof. reflexivity. Qed.

Context {L : MongoLaws _}.

(** A removal answers how many documents it removed, unless the driver fails
    once for want of a connection: then the documents are removed by the
    second try, and the answer is 0. *)
Theorem remove_counts (fuel : nat) (a : string) (q : document) (s : Database) (m m' : db)
    (le : last_error) (Hq : plain q = true) (Hf : (2 <= fuel)%nat) :
  let ns := namespace a in
  let kept m := List.filter (fun d => negb (matches q d)) (docs m ns) in
  (drv_remove (conn s) ns q = (m', Done le) ->
   exists s', remove fuel a q 0 s = Some (s', Ret (zlen (List.filter (matches q) (docs (conn s) ns))))
     /\ docs (conn s') ns = kept (conn s))
  /\ (drv_remove (conn s) ns q = (m, Fails UserException) ->
      drv_remove m ns q = (m', Done le) ->
      exists s', remove fuel a q 0 s = Some (s', Ret 0) /\ docs (conn s') ns = kept m).
Proof.
  destruct fuel as [|[|fuel]]; [lia..|]. intros ns kept. split.
  - intros E. destruct (remove_law _ _ _ _ _ Hq E) as (Hd & -> & _).
    eexists (mkDatabase m' _). split; [|exact Hd]. rewrite remove_S. fold ns. rewrite E. cbn [fst snd].
    rewrite getLastError_ok. reflexivity.
  - intros E E'. destruct (remove_law _ _ _ _ _ Hq E') as (Hd & -> & _).
    eexists (mkDatabase m' _). split; [|exact Hd]. rewrite remove_S. fold ns. rewrite E.
    cbn [fst snd handlers]. change (0 <? MAX_RETRY) with true. cbn beta iota. unfold fmbind.
    rewrite remove_S. cbn [conn]. fold ns. rewrite E'. cbn [fst snd].
    rewrite getLastError_ok. reflexivity.
Qed.
End Collection.

Section Examples.
  Local Existing Instance boost_reference.
  Local Existing Instance mongo_reference.

Definition sample_query : document := [("id", BStr "7")].
Definition sample_db : db := fun ns =>
  if String.eqb ns "iot.COMMAND" then [[("id", BStr "7")]; [("id", BStr "8")]] else [].

(** A driver that has lost the connection of the user. *)
Definition mongo_down : Mongo := {|
  db := unit;
  drv_insert m ns d := (m, Fails UserException);
  drv_update m ns _ q s := (m, Fails UserException);
  drv_remove m ns q := (m, Fails UserException);
  drv_query m ns q limit skip order := (m, Fails UserException);
  drv_count m ns q := (m, Fails UserException);
  drv_command m ns c := (m, Fails UserException);
  drv_create_index m ns index is_unique := (m, Fails UserException);
  drv_drop_indexes m ns := (m, Fails UserException);
  drv_reconnect m := m
|}.

Lemma update_tries_for_ever_witness :
  (forall m q d, drv_update (Mongo := mongo_down) m "iot.COMMAND" false q d = (m, Fails UserException))
  /\ update (HM := mongo_down) "iot" "h" (fun _ => "") 100 "COMMAND" sample_query [("status", BNum 2)]
       false (mkDatabase (HM := mongo_down) tt ∅) = None.
Proof.
  assert (Hd : forall m q d,
    drv_update (Mongo := mongo_down) m "iot.COMMAND" false q d = (m, Fails UserException)) by done.
  split; [exact Hd|].
  exact (update_tries_for_ever (HM := mongo_down) "iot" "h" (fun _ => "") "COMMAND" false sample_query
    [("status", BNum 2)] (mkDatabase (HM := mongo_down) tt ∅) Hd 100%nat).
Defined.

Lemma remove_counts_witness :
  plain sample_query = true /\ (2 <= 2)%nat /\
  exists s', remove (HM := mongo_reference) "iot" "h" (fun _ => "") 2 "COMMAND" sample_query 0
               (mkDatabase sample_db ∅) = Some (s', Ret 1)
    /\ conn s' "iot.COMMAND" = [[("id", BStr "8")]].
Proof.
  assert (Hp : plain sample_query = true) by reflexivity. assert (Hf : (2 <= 2)%nat) by lia.
  split; [exact Hp|]. split; [exact Hf|].
  destruct (remove_counts (HM := mongo_reference) (L := mongo_reference_laws) "iot" "h" (fun _ => "") 2
    "COMMAND" sample_query (mkDatabase sample_db ∅) sample_db
    (fst (drv_remove (Mongo := mongo_reference) sample_db "iot.COMMAND" sample_query)) (no_error 1) Hp Hf)
    as [H1 _].
  destruct (H1 eq_refl) as (s' & E & Ed). exists s'. split; [exact E|exact Ed].
Defined.
End Examples.
