(* ===== verification/MultiIndex.v ===== *)
(** * The container of the caches: [boost::multi_index_container]

    [Cache] and [CommandCache] keep shared pointers in a container with a
    sequence, a unique hashed index on the object and non-unique hashed indexes
    on string keys.  The container is Boost's: it is the class [Container], and
    [ContainerLaws] is its documented behaviour.  A hashed index finds an
    element only in the bucket of its key, so a search for an object finds
    every element with the same hashed fields, and may find one that is only
    [operator==].  A pointer is an address and the object there.
    [list_container] is a concrete container, for the examples. *)
From stdpp Require Import base tactics list gmap.
From Stdlib Require Import ZArith Lia String.
From S2P Require Import Prelude.

(** What the stored objects give the container: [operator==], and the fields
    [hash_value] combines. *)
Class Item (I : Type) : Type := {
  item_eq : I -> I -> bool;
  hash_fields : I -> list string;
  item_dec :: EqDecision I
}.

(** Objects with the same hashed fields are equal. *)
Class ItemLaws (I : Type) `{Item I} : Prop := {
  item_eq_hash a b : hash_fields a = hash_fields b -> item_eq a b = true
}.

Definition ptr (I : Type) : Type := (positive * I)%type.

Definition erase_ptr {I} `{Item I} (q : ptr I) (l : list (ptr I)) : list (ptr I) :=
  List.filter (fun p => negb (bool_decide (p = q))) l.

(** [items] is the sequence, front first; a failed insertion gives the element
    that prevents it; [find_key f c k] searches the index on the key [f], and
    [begin_key f c] is the first element of that index, and [key_tail f c k]
    its elements from the one [find_key] gives to the end.  [write_item] is not
    a call: the program changes, through its pointer, an object that is in the
    container; the objects keep the fields that are hashed for identity. *)
Class Container (I : Type) `{Item I} : Type := {
  index : Type;
  empty_index : index;
  items : index -> list (ptr I);
  push_front : index -> ptr I -> index * option (ptr I);
  push_back : index -> ptr I -> index * option (ptr I);
  relocate_front : index -> ptr I -> index;
  relocate_back : index -> ptr I -> index;
  erase_item : index -> ptr I -> index;
  pop_back : index -> index;
  find_item : index -> I -> option (ptr I);
  find_key : (I -> string) -> index -> string -> option (ptr I);
  begin_key : (I -> string) -> index -> option (ptr I);
  key_tail : (I -> string) -> index -> string -> list (ptr I);
  write_item : index -> ptr I -> index
}.

(** What an insertion answers: the new sequence [l'], or the obstacle. *)
Definition pushed {I} `{Item I} (l l' : list (ptr I)) (p : ptr I) (r : list (ptr I))
    (o : option (ptr I)) : Prop :=
  match o with
  | None => r = l' /\ forall q, q ∈ l -> hash_fields (snd q) <> hash_fields (snd p)
  | Some q => r = l /\ q ∈ l /\ item_eq (snd p) (snd q) = true
  end.

Class ContainerLaws (I : Type) `{Container I} : Prop := {
  items_empty : items empty_index = [];
  push_front_law c p : pushed (items c) (p :: items c) p
    (items (fst (push_front c p))) (snd (push_front c p));
  push_back_law c p : pushed (items c) (items c ++ [p])%list p
    (items (fst (push_back c p))) (snd (push_back c p));
  relocate_front_law c q : q ∈ items c ->
    items (relocate_front c q) = q :: erase_ptr q (items c);
  relocate_back_law c q : q ∈ items c ->
    items (relocate_back c q) = (erase_ptr q (items c) ++ [q])%list;
  erase_item_law c q : q ∈ items c -> items (erase_item c q) = erase_ptr q (items c);
  pop_back_law c : items (pop_back c) = removelast (items c);
  find_item_some c key q : find_item c key = Some q ->
    q ∈ items c /\ item_eq key (snd q) = true;
  find_item_none c key p : find_item c key = None -> p ∈ items c ->
    hash_fields (snd p) <> hash_fields key;
  find_key_some f c k q : find_key f c k = Some q -> q ∈ items c /\ f (snd q) = k;
  find_key_none f c k p : find_key f c k = None -> p ∈ items c -> f (snd p) <> k;
  begin_key_some f c q : begin_key f c = Some q -> q ∈ items c;
  begin_key_none f c : begin_key f c = None -> items c = [];
  key_tail_none f c k : find_key f c k = None -> key_tail f c k = [];
  key_tail_some f c k q : find_key f c k = Some q ->
    exists r, key_tail f c k = q :: r /\ forall p, p ∈ r -> p ∈ items c;
  write_item_law c p :
    (forall q, q ∈ items c -> fst q = fst p -> hash_fields (snd q) = hash_fields (snd p)) ->
    items (write_item c p) = map (fun q => if decide (fst q = fst p) then p else q) (items c)
}.

Section Index.
  Context {I : Type} `{HI : Item I} `{HC : !Container I}.

(** [back()]. *)
Definition back (c : index) : option (ptr I) := last (items c).

(** ** Facts *)

(** No two elements with the same hashed fields. *)
Definition unique (l : list (ptr I)) : Prop := NoDup (map (fun p => hash_fields (snd p)) l).

Context `{!ContainerLaws I}.

Lemma in_filter (f : ptr I -> bool) (l : list (ptr I)) p :
  p ∈ List.filter f l <-> p ∈ l /\ f p = true.
Proof. rewrite !list_elem_of_In. apply filter_In. Qed.

Lemma elem_erase q p l : p ∈ erase_ptr q l <-> p ∈ l /\ p <> q.
Proof.
  unfold erase_ptr. rewrite in_filter, negb_true_iff, bool_decide_eq_false. done.
Qed.

Lemma unique_NoDup l : unique l -> NoDup l.
Proof. apply NoDup_fmap_1. Qed.

Lemma unique_filter f l : unique l -> unique (List.filter f l).
Proof.
  unfold unique. induction l as [|p l IH]; cbn [map List.filter]; [done|].
  intros Hn. apply NoDup_cons in Hn as [Hp Hn]. specialize (IH Hn).
  destruct (f p); [|exact IH]. cbn [map]. apply NoDup_cons. split; [|exact IH].
  intros Hin. apply Hp. apply list_elem_of_In, in_map_iff in Hin as (q & E & Hq).
  apply list_elem_of_In, in_map_iff. exists q. split; [done|]. by apply filter_In in Hq as [? _].
Qed.

Lemma unique_cons p l : unique (p :: l)
  <-> (forall q, q ∈ l -> hash_fields (snd q) <> hash_fields (snd p)) /\ unique l.
Proof.
  unfold unique. cbn [map]. rewrite NoDup_cons. split; intros [H1 H2]; (split; [|done]).
  - intros q Hq E. apply H1. rewrite <- E. apply list_elem_of_In, in_map_iff.
    exists q. split; [done|]. by apply list_elem_of_In.
  - intros Hin. apply list_elem_of_In, in_map_iff in Hin as (q & E & Hq).
    apply (H1 q); [by apply list_elem_of_In|done].
Qed.

Lemma unique_perm l l' : l ≡ₚ l' -> unique l -> unique l'.
Proof. unfold unique. intros Hp. by rewrite Hp. Qed.

Lemma unique_same l p q : unique l -> p ∈ l -> q ∈ l ->
  hash_fields (snd p) = hash_fields (snd q) -> p = q.
Proof.
  intros Hu Hp Hq E. apply list_elem_of_lookup in Hp as [i Hi], Hq as [j Hj].
  assert (i = j) as <-.
  { eapply (NoDup_lookup _ i j (hash_fields (snd p)) Hu).
    - by rewrite list_lookup_fmap, Hi.
    - rewrite list_lookup_fmap, Hj. cbn. by rewrite E. }
  congruence.
Qed.

Lemma erase_ptr_perm q l : NoDup l -> q ∈ l -> q :: erase_ptr q l ≡ₚ l.
Proof.
  intros Hn Hq. apply NoDup_Permutation; [|done|].
  - apply NoDup_cons. split; [intros Hin; apply elem_erase in Hin; tauto|].
    unfold erase_ptr. apply list_elem_of_In in Hq. apply NoDup_ListNoDup, List.NoDup_filter.
    by apply NoDup_ListNoDup.
  - intros p. rewrite elem_of_cons, elem_erase. destruct (decide (p = q)); naive_solver.
Qed.

Lemma length_erase_ptr q l : NoDup l -> q ∈ l -> S (List.length (erase_ptr q l)) = List.length l.
Proof. intros Hn Hq. exact (Permutation_length (erase_ptr_perm q l Hn Hq)). Qed.

Lemma erase_ptr_notin q l : q ∉ l -> erase_ptr q l = l.
Proof.
  intros Hq. unfold erase_ptr. induction l as [|p l IH]; [done|]. cbn [List.filter].
  apply not_elem_of_cons in Hq as [Hne Hq].
  rewrite bool_decide_eq_false_2 by done. cbn. by rewrite IH.
Qed.

Lemma removelast_sub (l : list (ptr I)) p : p ∈ removelast l -> p ∈ l.
Proof.
  intros Hp. destruct l as [|x l]; [done|].
  rewrite (app_removelast_last p (l := x :: l)) by done. apply elem_of_app. by left.
Qed.

Lemma removelast_take (l : list (ptr I)) : removelast l = take (pred (List.length l)) l.
Proof. apply removelast_firstn_len. Qed.

Lemma unique_take n l : unique l -> unique (take n l).
Proof.
  unfold unique. intros Hn. rewrite <- (take_drop n l), map_app in Hn.
  by apply NoDup_app in Hn as [? _].
Qed.

(** ** Bounded insertion *)

(** What [insert] does to the sequence. *)
Definition insert_list (max : nat) (lru : bool) (l : index) (item : ptr I) : index :=
  if lru then
    match push_front l item with
    | (l', Some q) => relocate_front l' q
    | (l', None) => if Nat.ltb max (List.length (items l')) then pop_back l' else l'
    end
  else if Nat.ltb (List.length (items l)) max then
    match push_back l item with
    | (l', Some q) => relocate_back l' q
    | (l', None) => l'
    end
  else l.

Lemma unique_snoc (l : list (ptr I)) p :
  (forall q, q ∈ l -> hash_fields (snd q) <> hash_fields (snd p)) -> unique l -> unique (l ++ [p])%list.
Proof.
  intros Hp Hu. apply (unique_perm (p :: l)); [by rewrite Permutation_app_comm|].
  by apply unique_cons.
Qed.

(** Moving an element keeps the invariant of the sequence. *)
Lemma relocate_ok (l l' : list (ptr I)) q n : q ∈ l -> l' ≡ₚ q :: erase_ptr q l ->
  (List.length l <= n)%nat -> unique l -> (List.length l' <= n)%nat /\ unique l'.
Proof.
  intros Hq Hl' Hn Hu.
  assert (Hp : l ≡ₚ l') by exact (symmetry (transitivity Hl' (erase_ptr_perm q l (unique_NoDup _ Hu) Hq))).
  split; [by rewrite <- (Permutation_length Hp)|by apply (unique_perm l)].
Qed.

Lemma fresh_unique (l : list (ptr I)) p : unique l ->
  (forall q, q ∈ l -> hash_fields (snd q) <> hash_fields (snd p)) -> unique (p :: l).
Proof. intros Hu Hf. by apply unique_cons. Qed.

Lemma insert_list_wf max lru l p : (List.length (items l) <= max)%nat -> unique (items l) ->
  (List.length (items (insert_list max lru l p)) <= max)%nat
  /\ unique (items (insert_list max lru l p)).
Proof.
  intros Hl Hu. unfold insert_list. destruct lru.
  - pose proof (push_front_law l p) as Hp.
    destruct (push_front l p) as [l' [q|]]; cbn [fst snd pushed] in Hp.
    + destruct Hp as (E & Hq & _). rewrite relocate_front_law by (by rewrite E). rewrite E.
      by apply (relocate_ok (items l) _ q).
    + destruct Hp as [E Hf]. pose proof (fresh_unique _ p Hu Hf) as Hu'. rewrite E.
      destruct (Nat.ltb _ _) eqn:Ef.
      * rewrite pop_back_law, E, removelast_take.
        split; [rewrite length_take; cbn; lia|by apply unique_take].
      * apply Nat.ltb_ge in Ef. by rewrite E.
  - destruct (Nat.ltb _ _) eqn:Ef; [|by split]. apply Nat.ltb_lt in Ef.
    pose proof (push_back_law l p) as Hp.
    destruct (push_back l p) as [l' [q|]]; cbn [fst snd pushed] in Hp.
    + destruct Hp as (E & Hq & _). rewrite relocate_back_law by (by rewrite E). rewrite E.
      apply (relocate_ok (items l) _ q); try done. by rewrite Permutation_app_comm.
    + destruct Hp as [E Hf]. rewrite E.
      split; [rewrite length_app; cbn; lia|by apply unique_snoc].
Qed.

Lemma insert_list_in max lru l p q :
  q ∈ items (insert_list max lru l p) -> q = p \/ q ∈ items l.
Proof.
  unfold insert_list. destruct lru.
  - pose proof (push_front_law l p) as Hp.
    destruct (push_front l p) as [l' [r|]]; cbn [fst snd pushed] in Hp.
    + destruct Hp as (E & Hr & _). rewrite relocate_front_law by (by rewrite E).
      rewrite E, elem_of_cons, elem_erase. naive_solver.
    + destruct Hp as [E _]. destruct (Nat.ltb _ _); rewrite ?pop_back_law, E; intros Hq;
        [apply removelast_sub in Hq|]; by apply elem_of_cons in Hq.
  - destruct (Nat.ltb _ _); [|by right]. pose proof (push_back_law l p) as Hp.
    destruct (push_back l p) as [l' [r|]]; cbn [fst snd pushed] in Hp.
    + destruct Hp as (E & Hr & _). rewrite relocate_back_law by (by rewrite E).
      rewrite E, elem_of_app, elem_erase, list_elem_of_singleton. naive_solver.
    + destruct Hp as [E _]. rewrite E, elem_of_app, list_elem_of_singleton. naive_solver.
Qed.

(** The last of a sequence and the rest. *)
Lemma removelast_back (l : list (ptr I)) b x : unique l -> last l = Some b -> x ∈ removelast l ->
  x ∈ l /\ x <> b.
Proof.
  intros Hu Hb Hx. apply last_Some in Hb as [l' ->]. rewrite removelast_last in Hx.
  apply unique_NoDup, NoDup_app in Hu as (_ & Hd & _). split; [apply elem_of_app; by left|].
  intros ->. apply (Hd b Hx). by left.
Qed.

(** The objects of an access log, latest first, each once. *)
Fixpoint recent (log : list (ptr I)) : list (ptr I) :=
  match log with
  | [] => []
  | p :: log' => p :: erase_ptr p (recent log')
  end.

Lemma NoDup_erase p (l : list (ptr I)) : NoDup l -> NoDup (erase_ptr p l).
Proof. intros Hn. unfold erase_ptr. by apply NoDup_ListNoDup, List.NoDup_filter, NoDup_ListNoDup. Qed.

Lemma recent_NoDup log : NoDup (recent log).
Proof.
  induction log as [|p log IH]; [constructor|]. cbn [recent]. apply NoDup_cons.
  split; [rewrite elem_erase; tauto|by apply NoDup_erase].
Qed.

Lemma erase_ptr_cons p q (l : list (ptr I)) :
  erase_ptr p (q :: l) = if decide (q = p) then erase_ptr p l else q :: erase_ptr p l.
Proof.
  unfold erase_ptr. cbn [List.filter]. destruct (decide (q = p)) as [->|Hne].
  - by rewrite bool_decide_eq_true_2.
  - by rewrite bool_decide_eq_false_2.
Qed.

Lemma take_erase p (r : list (ptr I)) : forall m, NoDup r ->
  take m (erase_ptr p (take (S m) r)) = take m (erase_ptr p r).
Proof.
  induction r as [|x r IH]; intros m Hn; [done|]. apply NoDup_cons in Hn as [Hx Hn].
  cbn [take]. rewrite !erase_ptr_cons. destruct (decide (x = p)) as [->|Hne].
  - rewrite !erase_ptr_notin; [by rewrite take_take, Nat.min_id|done|].
    intros Hin. apply Hx. rewrite <- (take_drop m r). apply elem_of_app. by left.
  - destruct m as [|m]; [done|]. cbn [take]. by rewrite IH.
Qed.

(** One pointer per object of a universe. *)
Definition single (U : ptr I -> Prop) : Prop :=
  forall p q, U p -> U q -> item_eq (snd p) (snd q) = true -> p = q.

Lemma insert_lru_items U n l p : single U -> U p -> (forall q, q ∈ items l -> U q) ->
  (List.length (items l) <= n)%nat -> NoDup (items l) ->
  items (insert_list n true l p) = take n (p :: erase_ptr p (items l)).
Proof.
  intros HS Hp HU Hl Hn. unfold insert_list. pose proof (push_front_law l p) as Hf.
  destruct (push_front l p) as [l' [q|]]; cbn [fst snd pushed] in Hf.
  - destruct Hf as (E & Hq & Heq). assert (p = q) as <- by (apply HS; auto).
    rewrite relocate_front_law by (by rewrite E). rewrite E, take_ge; [done|].
    cbn [List.length]. rewrite (length_erase_ptr p (items l)); done.
  - destruct Hf as [E Hf]. assert (Hnot : p ∉ items l) by (intros Hin; by apply (Hf p Hin)).
    rewrite (erase_ptr_notin p (items l) Hnot), E.
    destruct (Nat.ltb n (List.length (p :: items l))) eqn:Ef.
    + rewrite pop_back_law, E, removelast_take. apply Nat.ltb_lt in Ef.
      cbn [List.length pred] in *. f_equal. lia.
    + apply Nat.ltb_ge in Ef. by rewrite E, take_ge.
Qed.
End Index.

(** ** A concrete container *)

Section ListContainer.
  Context {I : Type} `{HI : Item I}.

(** The sequence itself; every search looks at all the elements, in order. *)
Definition list_find (f : I -> bool) (l : list (ptr I)) : option (ptr I) :=
  List.find (fun p => f (snd p)) l.

Fixpoint list_from (f : I -> bool) (l : list (ptr I)) : list (ptr I) :=
  match l with
  | [] => []
  | p :: l' => if f (snd p) then l else list_from f l'
  end.

Definition list_container : Container I := {|
  index := list (ptr I);
  empty_index := [];
  items l := l;
  push_front l p := match list_find (item_eq (snd p)) l with
                    | Some q => (l, Some q) | None => (p :: l, None) end;
  push_back l p := match list_find (item_eq (snd p)) l with
                   | Some q => (l, Some q) | None => (l ++ [p], None)%list end;
  relocate_front l q := q :: erase_ptr q l;
  relocate_back l q := (erase_ptr q l ++ [q])%list;
  erase_item l q := erase_ptr q l;
  pop_back l := removelast l;
  find_item l key := list_find (item_eq key) l;
  find_key f l k := list_find (fun d => String.eqb (f d) k) l;
  begin_key _ l := List.hd_error l;
  key_tail f l k := list_from (fun d => String.eqb (f d) k) l;
  write_item l p := map (fun q => if decide (fst q = fst p) then p else q) l
|}.

Lemma list_find_some f (l : list (ptr I)) q : list_find f l = Some q -> q ∈ l /\ f (snd q) = true.
Proof. intros E. apply List.find_some in E as [Hin E]. by apply list_elem_of_In in Hin. Qed.

Lemma list_find_none f (l : list (ptr I)) p : list_find f l = None -> p ∈ l -> f (snd p) = false.
Proof. intros E Hp. apply list_elem_of_In in Hp. by apply (List.find_none _ _ E p). Qed.

Lemma list_container_laws `{!ItemLaws I} : @ContainerLaws I HI list_container.
Proof.
  assert (Hnone : forall key (l : list (ptr I)) p, list_find (item_eq key) l = None -> p ∈ l ->
    hash_fields (snd p) <> hash_fields key).
  { intros key l p E Hp Eh. pose proof (list_find_none _ _ p E Hp) as Hf.
    rewrite item_eq_hash in Hf; done. }
  constructor; try reflexivity; cbn.
  - intros l p. destruct (list_find _ l) as [q|] eqn:E; cbn.
    + apply list_find_some in E. tauto.
    + split; [done|]. intros q Hq. by apply (Hnone _ l).
  - intros l p. destruct (list_find _ l) as [q|] eqn:E; cbn.
    + apply list_find_some in E. tauto.
    + split; [done|]. intros q Hq. by apply (Hnone _ l).
  - intros l key q E. by apply list_find_some in E.
  - intros l key p. apply Hnone.
  - intros f l k q E. apply list_find_some in E as [? E]. by apply String.eqb_eq in E.
  - intros f l k p E Hp. apply (list_find_none _ _ p E) in Hp. by apply String.eqb_neq in Hp.
  - intros f l q. destruct l; [done|]. intros [= ->]. by left.
  - intros f l. by destruct l.
  - intros f l k E. induction l as [|p l IH]; [done|]. cbn in *. by destruct (String.eqb _ k); auto.
  - intros f l k q E. induction l as [|p l IH]; [done|]. cbn in *. destruct (String.eqb _ k).
    + injection E as ->. exists l. split; [done|]. intros r Hr. by right.
    + destruct (IH E) as (r & Er & Hr). exists r. split; [done|]. intros x Hx. right. auto.
Qed.
End ListContainer.
