(* ===== verification/Device.v ===== *)
(** * Devices: [src/src/util/device.h]

    A registered device: its names, its maps of attributes and commands, and
    the keys under which the cache finds it.  The timer it inherits is in
    [Cache]. *)
From stdpp Require Import base tactics list gmap strings.
From Stdlib Require Import ZArith Lia Ascii String.
From S2P Require Import Prelude CppString Types MultiIndex.

Local Open Scope string_scope.
Local Open Scope Z_scope.

Definition INT_MIN : Z := - 2 ^ 31.
Definition LONG_MIN : Z := - 2 ^ 63.

Record Device : Type := mkDevice {
  _name : string;
  _protocol : string;
  _service : string;
  _service_path : string;
  _entity_type : string;
  _entity_name : string;
  _timezone : string;
  _endpoint : string;
  _attributes : gmap string string;
  _commands : gmap string string;
  _static_attributes : gmap string string;
  _lazy : gmap string string;
  _model : string;
  _active : Z;
  _registration_id : string;
  _duration_cb : Z;
  _timestamp_data : Z
}.

#[global] Instance Device_eq_dec : EqDecision Device.
Proof. solve_decision. Defined.

(** The two constructors. *)
Definition new_device (name service : string) : Device :=
  mkDevice name "" service "" "" "" "" "" ∅ ∅ ∅ ∅ "" INT_MIN "" LONG_MIN (-1).

Definition new_device_entity (entity_name entity_type service : string) : Device :=
  mkDevice "" "" service "" entity_type entity_name "" "" ∅ ∅ ∅ ∅ "" INT_MIN "" LONG_MIN (-1).

(** The copy constructor: each field in turn; the maps are filled one pair at
    a time with [insert]; [_lazy] is not copied. *)
Definition if_set (s : string) : string := if negb (String.eqb s "") then s else "".

Definition copy_map (m : gmap string string) : gmap string string :=
  fold_left (fun acc kv => match acc !! fst kv with
                           | Some _ => acc
                           | None => <[fst kv := snd kv]> acc
                           end) (map_to_list m) ∅.

Definition copy_device (dev : Device) : Device :=
  mkDevice (if_set (_name dev)) (if_set (_protocol dev)) (if_set (_service dev))
    (if_set (_service_path dev)) (if_set (_entity_type dev)) (if_set (_entity_name dev))
    (if_set (_timezone dev)) (if_set (_endpoint dev))
    (copy_map (_attributes dev)) (copy_map (_commands dev)) (copy_map (_static_attributes dev))
    ∅ (if_set (_model dev))
    (if negb (_active dev =? INT_MIN) then _active dev else INT_MIN)
    (if_set (_registration_id dev))
    (if negb (_duration_cb dev =? LONG_MIN) then _duration_cb dev else LONG_MIN)
    (if negb (_timestamp_data dev =? -1) then _timestamp_data dev else -1).

(** ** Keys *)

(** [operator==] looks at the name and the service; [hash_value] at the
    subservice too. *)
Definition device_eq (this a : Device) : bool :=
  String.eqb (_name this) (_name a) && String.eqb (_service this) (_service a).

(** The ordering [operator()]. *)
Definition device_less (one two : Device) : bool :=
  String.ltb (_name one ++ _service one) (_name two ++ _service two).

Definition device_hash_fields (item : Device) : list string :=
  [_name item; _service item; _service_path item].

#[global] Instance device_item : Item Device :=
  {| item_eq := device_eq; hash_fields := device_hash_fields |}.

#[global] Instance device_item_laws : ItemLaws Device.
Proof.
  constructor. intros a b E. cbn in *. unfold device_eq. injection E as -> -> _.
  by rewrite !String.eqb_refl.
Qed.

Definition unique_entity (d : Device) : string :=
  _service d ++ ":" ++ _service_path d ++ ":" ++ _entity_name d ++ ":" ++ _entity_type d
  ++ ":" ++ _protocol d.

Definition unique_name (d : Device) : string := _name d.

(** [get_real_name]: [service_ptree] is the property tree of the service, of
    which [get<string>(ENTITY_TYPE, "")] is asked. *)
Definition get_real_name (service_ptree : string -> option string) (d : Device) : string :=
  let service_entity_type :=
    match service_ptree Store.ENTITY_TYPE with Some v => v | None => "" end in
  let entity_type :=
    if nonempty (_entity_type d) && negb (String.eqb (_entity_type d) Store.DEFAULT)
    then _entity_type d
    else if nonempty service_entity_type then service_entity_type
    else "thing" in
  if nonempty (_entity_name d) && negb (String.eqb (_entity_name d) Store.DEFAULT)
  then _entity_name d
  else entity_type ++ ":" ++ _name d.

(** [_attributes[object_id]] inserts an empty string for a missing key. *)
Definition set_attributes (d : Device) (m : gmap string string) : Device :=
  mkDevice (_name d) (_protocol d) (_service d) (_service_path d) (_entity_type d)
    (_entity_name d) (_timezone d) (_endpoint d) m (_commands d) (_static_attributes d) (_lazy d)
    (_model d) (_active d) (_registration_id d) (_duration_cb d) (_timestamp_data d).

Definition get_attribute (d : Device) (object_id : string) : Device * string :=
  match _attributes d !! object_id with
  | Some v => (d, v)
  | None => (set_attributes d (<[object_id := ""]> (_attributes d)), "")
  end.

(** ** The copy is the device, without its lazy attributes *)

Lemma if_set_id s : if_set s = s.
Proof. unfold if_set. by destruct (String.eqb_spec s ""). Qed.

Lemma copy_map_acc l : forall acc : gmap string string, NoDup (map fst l) ->
  (forall k, k ∈ map fst l -> acc !! k = None) ->
  fold_left (fun acc kv => match acc !! fst kv with
                           | Some _ => acc
                           | None => <[fst kv := snd kv]> acc
                           end) l acc = list_to_map l ∪ acc.
Proof.
  induction l as [|[k v] l IH]; intros acc Hn Hacc; [by rewrite left_id_L by apply _|].
  cbn [map fst] in *. apply NoDup_cons in Hn as [Hk Hn]. cbn [fold_left fst snd].
  rewrite Hacc by left. rewrite IH; [|done|].
  - cbn [list_to_map foldr curry fst snd]. rewrite <- insert_union_l, insert_union_r; [done|].
    by apply not_elem_of_list_to_map_1.
  - intros k' Hk'. rewrite lookup_insert_ne by (intros ->; done). apply Hacc. by right.
Qed.

Lemma copy_map_id m : copy_map m = m.
Proof.
  unfold copy_map. rewrite copy_map_acc.
  - rewrite right_id_L by apply _. apply list_to_map_to_list.
  - apply NoDup_fst_map_to_list.
  - intros k _. apply lookup_empty.
Qed.

Definition without_lazy (d : Device) : Device :=
  mkDevice (_name d) (_protocol d) (_service d) (_service_path d) (_entity_type d)
    (_entity_name d) (_timezone d) (_endpoint d) (_attributes d) (_commands d)
    (_static_attributes d) ∅ (_model d) (_active d) (_registration_id d) (_duration_cb d)
    (_timestamp_data d).

Lemma copy_device_eq d : copy_device d = without_lazy d.
Proof.
  unfold copy_device, without_lazy. rewrite !if_set_id, !copy_map_id. f_equal.
  - by destruct (Z.eqb_spec (_active d) INT_MIN).
  - by destruct (Z.eqb_spec (_duration_cb d) LONG_MIN).
  - by destruct (Z.eqb_spec (_timestamp_data d) (-1)).
Qed.

(** A copied device has every field of the original but the lazy
    attributes, which are lost; so it has the same keys in every index of the
    cache and the same entity name in every service. *)
Theorem copy_device_spec (d : Device) (service_ptree : string -> option string) :
  copy_device d = without_lazy d
  /\ (copy_device d = d <-> _lazy d = ∅)
  /\ device_eq d (copy_device d) = true
  /\ device_hash_fields (copy_device d) = device_hash_fields d
  /\ unique_entity (copy_device d) = unique_entity d
  /\ unique_name (copy_device d) = unique_name d
  /\ get_real_name service_ptree (copy_device d) = get_real_name service_ptree d.
Proof.
  rewrite copy_device_eq. split; [done|]. split; [|split; [|done]].
  - split; [intros E; by rewrite <- E|]. intros E. unfold without_lazy. rewrite <- E. by destruct d.
  - unfold device_eq. cbn. by rewrite !String.eqb_refl.
Qed.
