(* ===== verification/Cache.v ===== *)
(** * The cache of devices: [src/src/util/cache.h], [cache.cc], [timer.h]

    A bounded sequence of shared pointers with three hashed indexes, and the
    timer of each device.  The methods take the (recursive) mutex for their
    whole body, so each is a step.  A timer is an address in [live]: its
    handler is pending; starting it again or cancelling it aborts the pending
    handler, which then does nothing. *)
From stdpp Require Import base tactics list gmap strings.
From Stdlib Require Import ZArith Lia Ascii String.
From S2P Require Import Prelude CppString MultiIndex Device.

Local Open Scope string_scope.
Local Open Scope Z_scope.

Local Abbreviation dptr := (ptr Device).

Section Cache.
  Context `{Ct : !Container Device}.

(** A search function given to the cache: from a key to a device. *)
Definition GetFunction_t : Type := Device -> option dptr.

Record Cache : Type := mkCache {
  _max_num_items : nat;
  _list : index;
  _lru : bool;
  _time_life : Z;
  _get_function : option GetFunction_t;
  _get_entity_function : option GetFunction_t;
  live : gset positive
}.

Definition set_list (c : Cache) (l : index) : Cache :=
  mkCache (_max_num_items c) l (_lru c) (_time_life c) (_get_function c)
    (_get_entity_function c) (live c).
Definition set_live (c : Cache) (t : gset positive) : Cache :=
  mkCache (_max_num_items c) (_list c) (_lru c) (_time_life c) (_get_function c)
    (_get_entity_function c) t.

Definition new_cache (capacity : nat) (lru : bool) (time_life : Z) : Cache :=
  mkCache capacity empty_index lru time_life None None ∅.

Definition set_function (c : Cache) (f : GetFunction_t) : Cache :=
  mkCache (_max_num_items c) (_list c) (_lru c) (_time_life c) (Some f)
    (_get_entity_function c) (live c).
Definition set_entity_function (c : Cache) (f : GetFunction_t) : Cache :=
  mkCache (_max_num_items c) (_list c) (_lru c) (_time_life c) (_get_function c)
    (Some f) (live c).

Definition set_time_to_life (c : Cache) (time_life : Z) : Cache :=
  if time_life =? 0 then c
  else if _time_life c =? 0 then
    mkCache (_max_num_items c) (_list c) (_lru c) time_life (_get_function c)
      (_get_entity_function c) (live c)
  else c.

(** [Timer::start] followed by [async_wait], and [Timer::cancel]. *)
Definition start (c : Cache) (item : dptr) : Cache := set_live c ({[fst item]} ∪ live c).
Definition cancel (c : Cache) (item : dptr) : Cache := set_live c (live c ∖ {[fst item]}).

Definition insert (c : Cache) (item : dptr) : Cache :=
  if _lru c then
    let '(l, p) := push_front (_list c) item in
    let c := set_list c l in
    let c := if 0 <? _time_life c then start c item else c in
    match p with
    | Some q => set_list c (relocate_front (_list c) q)
    | None =>
        if Nat.ltb (_max_num_items c) (List.length (items (_list c))) then
          let c := if 0 <? _time_life c
                   then match back (_list c) with Some b => cancel c b | None => c end
                   else c in
          set_list c (pop_back (_list c))
        else c
    end
  else
    if Nat.ltb (List.length (items (_list c))) (_max_num_items c) then
      let '(l, p) := push_back (_list c) item in
      let c := set_list c (match p with Some q => relocate_back l q | None => l end) in
      if 0 <? _time_life c then start c item else c
    else c.

(** [get]: a hit is inserted again; a miss asks the function, if there is
    one, and inserts what it gives. *)
Definition get (c : Cache) (key : Device) : Cache * outcome (option dptr) :=
  match find_item (_list c) key with
  | Some i => (insert c i, Ret (Some i))
  | None =>
      match _get_function c with
      | Some f =>
          match f key with
          | Some new_item => (insert c new_item, Ret (Some new_item))
          | None => (c, Ret None)
          end
      | None => (c, Ret None)
      end
  end.

(** Both searches test [_get_function] and call [_get_entity_function]:
    calling an empty [boost::function] throws [bad_function_call]. *)
Definition get_with (found : option dptr) (c : Cache) (key : Device)
    : Cache * outcome (option dptr) :=
  match found with
  | Some i => (insert c i, Ret (Some i))
  | None =>
      match _get_function c with
      | Some _ =>
          match _get_entity_function c with
          | Some f =>
              match f key with
              | Some new_item => (insert c new_item, Ret (Some new_item))
              | None => (c, Ret None)
              end
          | None => (c, Throw (RuntimeError "call to empty boost::function"))
          end
      | None => (c, Ret None)
      end
  end.

Definition get_by_entity (c : Cache) (key : Device) : Cache * outcome (option dptr) :=
  get_with (find_key unique_entity (_list c) (unique_entity key)) c key.
Definition get_by_name (c : Cache) (key : Device) : Cache * outcome (option dptr) :=
  get_with (find_key unique_name (_list c) (unique_name key)) c key.

Definition size (c : Cache) : nat := List.length (items (_list c)).

Definition remove (c : Cache) (item : Device) : Cache :=
  match find_item (_list c) item with
  | Some q => set_list (cancel c q) (erase_item (_list c) q)
  | None => c
  end.

(** The handler of a timer; [aborted] is [operation_aborted]. *)
Definition item_timeout (c : Cache) (timer : dptr) (aborted : bool) : Cache :=
  if aborted then c else remove c (snd timer).

(** The calls on a cache, and the events of its timers: a pending handler
    runs when its time comes, an aborted one may run at any time. *)
Inductive cache_op : Type :=
| Insert (p : dptr) | Get (key : Device) | GetByEntity (key : Device) | GetByName (key : Device)
| Remove (key : Device) | SetTime (time_life : Z) | Expire (p : dptr) | Aborted (p : dptr).

Definition cache_step (c : Cache) (op : cache_op) : Cache :=
  match op with
  | Insert p => insert c p
  | Get key => fst (get c key)
  | GetByEntity key => fst (get_by_entity c key)
  | GetByName key => fst (get_by_name c key)
  | Remove key => remove c key
  | SetTime t => set_time_to_life c t
  | Expire p => if decide (fst p ∈ live c)
                then item_timeout (set_live c (live c ∖ {[fst p]})) p false else c
  | Aborted p => item_timeout c p true
  end.

Definition run (c : Cache) (ops : list cache_op) : Cache := fold_left cache_step ops c.

(** ** The invariant *)

Context {CL : ContainerLaws Device}.

Definition cache_wf (c : Cache) : Prop :=
  (List.length (items (_list c)) <= _max_num_items c)%nat /\ unique (items (_list c)).

Lemma insert_list_eq c p :
  _list (insert c p) = insert_list (_max_num_items c) (_lru c) (_list c) p
  /\ _max_num_items (insert c p) = _max_num_items c
  /\ _time_life (insert c p) = _time_life c /\ _lru (insert c p) = _lru c.
Proof.
  unfold insert, insert_list. destruct (_lru c) eqn:El.
  - destruct (push_front (_list c) p) as [l' [q|]].
    + cbn. destruct (0 <? _time_life c); repeat split; cbn; congruence.
    + cbn -[Nat.ltb]. destruct (0 <? _time_life c) eqn:Et; cbn -[Nat.ltb];
        destruct (Nat.ltb _ _); cbn; rewrite ?Et; try (destruct (back l')); repeat split; cbn; congruence.
  - destruct (Nat.ltb _ _); [|repeat split; cbn; congruence].
    destruct (push_back (_list c) p) as [l' [q|]]; cbn;
      destruct (0 <? _time_life c); repeat split; cbn; congruence.
Qed.

Lemma insert_wf c p : cache_wf c -> cache_wf (insert c p).
Proof.
  intros [Hl Hu]. destruct (insert_list_eq c p) as (E1 & E2 & _). unfold cache_wf.
  rewrite E1, E2. by apply insert_list_wf.
Qed.

Lemma remove_list c d : _list (remove c d)
  = match find_item (_list c) d with Some q => erase_item (_list c) q | None => _list c end
  /\ _max_num_items (remove c d) = _max_num_items c.
Proof. unfold remove. by destruct (find_item (_list c) d). Qed.

Lemma remove_wf c d : cache_wf c -> cache_wf (remove c d).
Proof.
  intros [Hl Hu]. unfold remove. destruct (find_item (_list c) d) as [q|] eqn:E; [|done].
  destruct (find_item_some _ _ _ E) as [Hq _]. split; cbn; rewrite erase_item_law by done.
  - pose proof (length_erase_ptr q _ (unique_NoDup _ Hu) Hq). lia.
  - by apply unique_filter.
Qed.

Lemma get_with_wf found c key : cache_wf c -> cache_wf (fst (get_with found c key)).
Proof.
  intros Hc. unfold get_with. destruct found; [by apply insert_wf|].
  destruct (_get_function c), (_get_entity_function c) as [f|]; try done.
  destruct (f key); [by apply insert_wf|done].
Qed.

Lemma cache_step_wf c op : cache_wf c -> cache_wf (cache_step c op).
Proof.
  intros Hc. destruct op; cbn [cache_step]; try done.
  - by apply insert_wf.
  - unfold get. destruct (find_item _ key); [by apply insert_wf|].
    destruct (_get_function c) as [f|]; [|done]. destruct (f key); [by apply insert_wf|done].
  - by apply get_with_wf.
  - by apply get_with_wf.
  - by apply remove_wf.
  - unfold set_time_to_life. destruct (time_life =? 0); [done|]. by destruct (_time_life c =? 0).
  - destruct (decide _); [|done]. by apply remove_wf.
Qed.

Lemma run_wf ops c : cache_wf c -> cache_wf (run c ops).
Proof.
  revert c. induction ops as [|op ops IH]; intros c Hc; [done|]. by apply IH, cache_step_wf.
Qed.

(** ** Devices of one subservice *)

(** The pointers a program uses: an address has one object, and a device name
    is registered in one subservice of its service, so that [operator==] and
    the hash agree. *)
Definition coherent (U : dptr -> Prop) : Prop :=
  (forall p q, U p -> U q -> fst p = fst q -> p = q)
  /\ (forall p q, U p -> U q -> device_eq (snd p) (snd q) = true ->
        hash_fields (snd p) = hash_fields (snd q)).

Definition fun_in (U : dptr -> Prop) (f : option GetFunction_t) : Prop :=
  forall g key p, f = Some g -> g key = Some p -> U p.

Definition op_in (U : dptr -> Prop) (op : cache_op) : Prop :=
  match op with
  | Insert p | Expire p | Aborted p => U p
  | _ => True
  end.

Definition cache_in (U : dptr -> Prop) (c : Cache) : Prop :=
  (forall p, p ∈ items (_list c) -> U p)
  /\ fun_in U (_get_function c) /\ fun_in U (_get_entity_function c).

(** Every cached device has its timer pending. *)
Definition timed (c : Cache) : Prop :=
  0 < _time_life c /\ forall p, p ∈ items (_list c) -> fst p ∈ live c.

Lemma insert_functions c p :
  _get_function (insert c p) = _get_function c
  /\ _get_entity_function (insert c p) = _get_entity_function c.
Proof.
  unfold insert. destruct (_lru c).
  - destruct (push_front (_list c) p) as [l' [q|]]; cbn -[Nat.ltb];
      destruct (0 <? _time_life c) eqn:Et; cbn -[Nat.ltb]; [done..| |];
      destruct (Nat.ltb _ _); cbn; rewrite ?Et; try destruct (back l'); done.
  - destruct (Nat.ltb _ _); [|done].
    destruct (push_back (_list c) p) as [l' [q|]]; cbn; by destruct (0 <? _time_life c).
Qed.

Lemma insert_items_in c p q : q ∈ items (_list (insert c p)) -> q = p \/ q ∈ items (_list c).
Proof. rewrite (proj1 (insert_list_eq c p)). apply insert_list_in. Qed.

Lemma insert_in U c p : U p -> cache_in U c -> cache_in U (insert c p).
Proof.
  intros Hp (H1 & H2 & H3). destruct (insert_functions c p) as [E1 E2].
  unfold cache_in. rewrite E1, E2. split; [|done].
  intros q Hq. destruct (insert_items_in c p q Hq) as [->|]; auto.
Qed.

Lemma insert_timed U c p : coherent U -> U p -> cache_in U c -> cache_wf c ->
  timed c -> timed (insert c p).
Proof.
  intros [Hc _] Hp (HU & _) [Hl Hu] [Ht Hlive].
  destruct (insert_list_eq c p) as (_ & _ & Etl & _). split; [by rewrite Etl|].
  assert (Et : (0 <? _time_life c) = true) by by apply Z.ltb_lt.
  pose proof (insert_items_in c p) as Hin. unfold insert in *. destruct (_lru c).
  - pose proof (push_front_law (_list c) p) as Hf.
    destruct (push_front (_list c) p) as [l' [r|]]; cbn [fst snd pushed] in Hf;
      cbn -[Nat.ltb back] in *; rewrite Et in *; cbn -[Nat.ltb back] in *.
    + intros q Hq. destruct (Hin q Hq) as [->|]; set_solver.
    + destruct Hf as [El Hfresh]. destruct (Nat.ltb _ _) eqn:Ef; cbn -[back] in *.
      * rewrite Et in *. unfold back in *. rewrite El in *.
        intros q Hq. destruct (last (p :: items (_list c))) as [b|] eqn:Eb;
          [|by apply last_None in Eb]. cbn -[last] in *.
        rewrite pop_back_law, El in Hq.
        destruct (removelast_back _ b q (fresh_unique _ p Hu Hfresh) Eb Hq) as [Hq' Hne].
        assert (HUb : U b) by (apply last_Some_elem_of, elem_of_cons in Eb; naive_solver).
        apply elem_of_difference. apply elem_of_cons in Hq'. split; [set_solver|].
        rewrite elem_of_singleton. intros Ea. apply Hne, Hc; naive_solver.
      * intros q Hq. rewrite El in Hq. apply elem_of_cons in Hq. set_solver.
  - destruct (Nat.ltb _ _); [|done].
    destruct (push_back (_list c) p) as [l' [r|]]; cbn in *; rewrite Et in *; cbn in *;
      intros q Hq; destruct (Hin q Hq) as [->|]; set_solver.
Qed.

Lemma remove_in U c d : cache_in U c -> cache_in U (remove c d).
Proof.
  intros (H1 & H2). unfold remove. destruct (find_item _ d) as [q|] eqn:E; [|done].
  split; [|done]. cbn. destruct (find_item_some _ _ _ E) as [Hq _]. rewrite erase_item_law by done.
  intros p Hp. apply elem_erase in Hp as [? _]. auto.
Qed.

Lemma remove_timed U c d : coherent U -> cache_in U c -> timed c -> timed (remove c d).
Proof.
  intros [Hc _] (HU & _) [Ht Hlive]. unfold remove.
  destruct (find_item _ d) as [q|] eqn:E; [|done]. destruct (find_item_some _ _ _ E) as [Hq _].
  split; [done|]. cbn. rewrite erase_item_law by done.
  intros p Hp. apply elem_erase in Hp as [Hp Hne].
  apply elem_of_difference. split; [auto|]. rewrite elem_of_singleton. intros Ea.
  apply Hne, Hc; auto.
Qed.

(** The search for a cached device finds that very device. *)
Lemma find_cached U c p : coherent U -> U p -> cache_in U c -> cache_wf c ->
  p ∈ items (_list c) -> find_item (_list c) (snd p) = Some p.
Proof.
  intros [_ Hh] Hp (HU & _) [_ Hu] Hin. destruct (find_item (_list c) (snd p)) as [q|] eqn:E.
  - destruct (find_item_some _ _ _ E) as [Hq Heq]. f_equal.
    apply (unique_same (items (_list c))); [done..|]. symmetry. by apply Hh; auto.
  - exfalso. by apply (find_item_none _ _ p E Hin).
Qed.

Lemma expire_timed U c p : coherent U -> U p -> cache_in U c -> cache_wf c -> timed c ->
  timed (remove (set_live c (live c ∖ {[fst p]})) (snd p))
  /\ p ∉ items (_list (remove (set_live c (live c ∖ {[fst p]})) (snd p))).
Proof.
  intros HC Hp Hin Hwf [Ht Hlive]. pose proof HC as [Hc Hh]. pose proof Hin as (HU & _).
  unfold remove. cbn [_list set_live]. destruct (decide (p ∈ items (_list c))) as [Hpin|Hpin].
  - rewrite (find_cached U c p) by assumption. split.
    + split; [done|]. cbn. rewrite erase_item_law by done.
      intros q Hq. apply elem_erase in Hq as [Hq Hne].
      rewrite !elem_of_difference, !elem_of_singleton.
      assert (fst q <> fst p) by (intros Ea; apply Hne, Hc; auto). auto.
    + cbn. rewrite erase_item_law, elem_erase by done. tauto.
  - assert (Hne : forall q, q ∈ items (_list c) -> fst q <> fst p).
    { intros q Hq Ea. apply Hpin. by rewrite <- (Hc q p (HU q Hq) Hp Ea). }
    destruct (find_item _ (snd p)) as [r|] eqn:E; cbn.
    + destruct (find_item_some _ _ _ E) as [Hr _]. split.
      * split; [done|]. cbn. rewrite erase_item_law by done.
        intros q Hq. apply elem_erase in Hq as [Hq Hqr].
        rewrite !elem_of_difference, !elem_of_singleton.
        assert (fst q <> fst r) by (intros Ea; apply Hqr, Hc; auto). auto.
      * rewrite erase_item_law, elem_erase by done. tauto.
    + split; [|done]. split; [done|]. cbn. intros q Hq.
      rewrite elem_of_difference, elem_of_singleton. auto.
Qed.

(** The invariant of a run. *)
Definition cache_inv (U : dptr -> Prop) (c : Cache) : Prop :=
  cache_wf c /\ cache_in U c /\ timed c.

Lemma insert_inv U c p : coherent U -> U p -> cache_inv U c -> cache_inv U (insert c p).
Proof.
  intros HC Hp (H1 & H2 & H3).
  split; [by apply insert_wf|]. split; [by apply insert_in|by apply (insert_timed U)].
Qed.

Lemma get_with_inv U found c key : coherent U -> (forall p, found = Some p -> U p) ->
  cache_inv U c -> cache_inv U (fst (get_with found c key)).
Proof.
  intros HC Hf Hinv. unfold get_with. destruct found as [i|]; [apply insert_inv; auto|].
  destruct Hinv as (H1 & H2 & H3). pose proof H2 as (HU & _ & He).
  destruct (_get_function c); [|done]. destruct (_get_entity_function c) as [f|] eqn:E; [|done].
  destruct (f key) as [n|] eqn:En; [|done]. apply insert_inv; [done| |done]. by apply (He f key n).
Qed.

Lemma step_inv U c op : coherent U -> op_in U op -> cache_inv U c -> cache_inv U (cache_step c op).
Proof.
  intros HC Hop Hinv. pose proof Hinv as (H1 & H2 & H3). pose proof H2 as (HU & Hg & He).
  destruct op; cbn [cache_step op_in] in *; try done.
  - by apply insert_inv.
  - unfold get. destruct (find_item _ key) as [i|] eqn:E.
    + destruct (find_item_some _ _ _ E). apply insert_inv; auto.
    + destruct (_get_function c) as [f|] eqn:Ef; [|done].
      destruct (f key) as [n|] eqn:En; [|done]. apply insert_inv; [done| |done].
      by apply (Hg f key n).
  - apply get_with_inv; [done| |done]. intros p Hp. apply find_key_some in Hp. naive_solver.
  - apply get_with_inv; [done| |done]. intros p Hp. apply find_key_some in Hp. naive_solver.
  - split; [by apply remove_wf|]. split; [by apply remove_in|by apply (remove_timed U)].
  - unfold set_time_to_life. destruct (_ =? 0); [done|]. destruct H3 as [Ht _].
    destruct (Z.eqb_spec (_time_life c) 0); [lia|done].
  - destruct (decide _); [|done]. cbn [item_timeout].
    split; [by apply remove_wf|]. split; [by apply remove_in|].
    by apply (expire_timed U).
Qed.

Lemma run_inv U ops c : coherent U -> Forall (op_in U) ops -> cache_inv U c ->
  cache_inv U (run c ops).
Proof.
  intros HC Hops. revert c. induction Hops as [|op ops Hop Hops IH]; intros c Hc; [done|].
  by apply IH, step_inv.
Qed.

(** A cache never holds more devices than its capacity, nor two with the
    same name, service and subservice, whatever the calls, the timers and the
    hashing do; asked for a cached device, it gives that device. *)
Theorem cache_bounded (capacity : nat) (lru : bool) (time_life : Z)
    (get_function get_entity_function : GetFunction_t) (ops : list cache_op) :
  let c := run (set_entity_function (set_function (new_cache capacity lru time_life)
             get_function) get_entity_function) ops in
  (size c <= capacity)%nat
  /\ NoDup (map (fun p => device_hash_fields (snd p)) (items (_list c)))
  /\ (forall p, p ∈ items (_list c) -> exists q, q ∈ items (_list c)
        /\ snd (get c (snd p)) = Ret (Some q) /\ device_eq (snd p) (snd q) = true).
Proof.
  intros c. set (c0 := set_entity_function _ _) in c.
  assert (Hwf : cache_wf c0) by (unfold cache_wf; cbn; rewrite items_empty; split; [cbn; lia|constructor]).
  assert (Emax : forall ops c, _max_num_items (run c ops) = _max_num_items c).
  { clear. induction ops as [|op ops IH]; intros c; [done|]. cbn [run fold_left].
    change (fold_left cache_step ops (cache_step c op)) with (run (cache_step c op) ops).
    rewrite IH. destruct op; cbn [cache_step]; try done.
    - apply insert_list_eq.
    - unfold get. destruct (find_item _ _); [apply insert_list_eq|].
      destruct (_get_function c) as [f|]; [|done]. destruct (f key); [apply insert_list_eq|done].
    - unfold get_by_entity, get_with. destruct (find_key _ _ _); [apply insert_list_eq|].
      destruct (_get_function c), (_get_entity_function c) as [f|]; try done.
      destruct (f key); [apply insert_list_eq|done].
    - unfold get_by_name, get_with. destruct (find_key _ _ _); [apply insert_list_eq|].
      destruct (_get_function c), (_get_entity_function c) as [f|]; try done.
      destruct (f key); [apply insert_list_eq|done].
    - apply (proj2 (remove_list c key)).
    - unfold set_time_to_life. destruct (_ =? 0); [done|]. by destruct (_time_life c =? 0).
    - destruct (decide _); [|done]. cbn [item_timeout].
      by rewrite (proj2 (remove_list (set_live c _) _)). }
  pose proof (run_wf ops c0 Hwf) as [Hl Hu]. fold c in Hl, Hu.
  assert (Em : _max_num_items c = capacity) by (unfold c; by rewrite Emax).
  split; [rewrite <- Em; exact Hl|]. split; [exact Hu|].
  intros p Hp. unfold get. destruct (find_item (_list c) (snd p)) as [q|] eqn:E.
  - destruct (find_item_some _ _ _ E) as [Hq He]. by exists q.
  - exfalso. by apply (find_item_none _ _ p E Hp).
Qed.

(** With a lifetime, every cached device has its timer pending after any
    sequence of calls and timer events, and it leaves the cache when that
    timer expires; so no device stays for ever. *)
Theorem cache_devices_expire (U : dptr -> Prop) (capacity : nat) (lru : bool) (time_life : Z)
    (get_function get_entity_function : GetFunction_t) (ops : list cache_op)
    (HU : coherent U) (Htime : 0 < time_life) (Hops : Forall (op_in U) ops)
    (Hg : fun_in U (Some get_function)) (He : fun_in U (Some get_entity_function)) :
  let c := run (set_entity_function (set_function (new_cache capacity lru time_life)
             get_function) get_entity_function) ops in
  forall p, p ∈ items (_list c) ->
    fst p ∈ live c /\ p ∉ items (_list (cache_step c (Expire p))).
Proof.
  intros c p Hp. assert (Hinv : cache_inv U c).
  { apply run_inv; [done..|]. split.
    - unfold cache_wf. cbn. rewrite items_empty. split; [cbn; lia|constructor].
    - split; [split; [|done]|split; [done|]]; cbn; rewrite items_empty; intros x Hx;
        by apply not_elem_of_nil in Hx. }
  destruct Hinv as (H1 & H2 & H3). pose proof H3 as [_ Hlive]. pose proof H2 as (HUc & _).
  split; [auto|]. cbn [cache_step]. rewrite decide_True by auto. cbn [item_timeout].
  apply (expire_timed U); auto.
Qed.

(** ** Least recently used *)

Definition access (a : bool * dptr) : cache_op :=
  if fst a then Insert (snd a) else Get (snd (snd a)).

Lemma access_insert U c a f : single U -> U (snd a) -> cache_in U c ->
  _get_function c = Some f -> f (snd (snd a)) = Some (snd a) ->
  cache_step c (access a) = insert c (snd a).
Proof.
  intros HS Ha (HU & _) Hf Hload. unfold access. destruct (fst a); [done|]. cbn [cache_step].
  unfold get. destruct (find_item (_list c) (snd (snd a))) as [q|] eqn:E.
  - destruct (find_item_some _ _ _ E) as [Hq Heq]. cbn [fst]. f_equal. symmetry. apply HS; auto.
  - by rewrite Hf, Hload.
Qed.

Lemma run_snoc c ops op : run c (ops ++ [op]) = cache_step (run c ops) op.
Proof. unfold run. by rewrite fold_left_app. Qed.

(** C20. A cache in LRU mode is the log of its accesses, latest first, each
    device once, cut at the capacity: whether a device is inserted or asked
    for, it becomes the first, and only the least recently used ones are
    dropped. *)
Theorem cache_is_lru (U : dptr -> Prop) (capacity : nat) (time_life : Z)
    (load load_entity : GetFunction_t) (accesses : list (bool * dptr))
    (HS : single U) (Hload : forall p, U p -> load (snd p) = Some p)
    (Hin : fun_in U (Some load)) (Hin' : fun_in U (Some load_entity))
    (Ha : Forall (fun a => U (snd a)) accesses) :
  let c := run (set_entity_function (set_function (new_cache capacity true time_life) load)
             load_entity) (map access accesses) in
  items (_list c) = take capacity (recent (rev (map snd accesses))).
Proof.
  intros c. set (c0 := set_entity_function _ _) in c.
  assert (H : items (_list c) = take capacity (recent (rev (map snd accesses)))
    /\ _lru c = true /\ _max_num_items c = capacity /\ cache_in U c
    /\ _get_function c = Some load); [|tauto].
  subst c. induction accesses as [|a l IH] using rev_ind.
  - cbn. split; [rewrite items_empty; by destruct capacity|]. repeat split; try done.
    cbn. rewrite items_empty. intros p Hp. by apply not_elem_of_nil in Hp.
  - apply Forall_app in Ha as [Hl Ha]. apply Forall_inv in Ha.
    destruct (IH Hl) as (E1 & E2 & E3 & E4 & E5). rewrite !map_app. cbn [map].
    rewrite run_snoc, (access_insert U _ a load HS Ha E4 E5 (Hload _ Ha)).
    set (c := run c0 (map access l)) in *.
    destruct (insert_list_eq c (snd a)) as (F1 & F2 & _ & F4).
    rewrite F1, F2, F4, (proj1 (insert_functions c (snd a))), E2, E3.
    split; [|split; [done|split; [done|split; [by apply insert_in|done]]]].
    pose proof (recent_NoDup (rev (map snd l))) as Hn.
    rewrite rev_app_distr. cbn [rev app recent].
    rewrite (insert_lru_items U capacity (_list c) (snd a) HS Ha (proj1 E4)).
    + rewrite E1. destruct capacity as [|m]; [done|]. cbn [take]. f_equal. by apply take_erase.
    + rewrite E1, length_take. lia.
    + rewrite E1. rewrite <- (take_drop capacity (recent _)) in Hn. by apply NoDup_app in Hn as [? _].
Qed.
End Cache.

(** ** A concrete index and a run *)

Definition device_a : dptr := (1%positive, new_device "a" "s").
Definition device_b : dptr := (2%positive, new_device "b" "s").
Definition sample_universe (p : dptr) : Prop := p = device_a \/ p = device_b.
Definition sample_load : GetFunction_t := fun key =>
  if String.eqb (_name key) "a" && String.eqb (_service key) "s" then Some device_a
  else if String.eqb (_name key) "b" && String.eqb (_service key) "s" then Some device_b else None.

Lemma sample_load_in : fun_in sample_universe (Some sample_load).
Proof.
  intros g key p E Hg. injection E as <-. unfold sample_load in Hg.
  destruct (_ && _); [left; congruence|]. destruct (_ && _); [right; congruence|done].
Qed.

Lemma sample_coherent : coherent sample_universe.
Proof. split; intros p q [-> | ->] [-> | ->]; done. Qed.

Lemma sample_single : single sample_universe.
Proof. intros p q [-> | ->] [-> | ->]; done. Qed.

Lemma cache_devices_expire_witness :
  coherent sample_universe /\ 0 < 10 /\
  let c := @run list_container (set_entity_function (set_function (new_cache 1 true 10)
             sample_load) sample_load) [Insert device_a; Insert device_b] in
  items (_list c) = [device_b] /\ fst device_b ∈ live c
  /\ device_b ∉ items (_list (@cache_step list_container c (Expire device_b))).
Proof.
  split; [exact sample_coherent|]. split; [lia|].
  split; [reflexivity|].
  apply (@cache_devices_expire list_container list_container_laws sample_universe 1 true 10
    sample_load sample_load [Insert device_a; Insert device_b] sample_coherent ltac:(lia)).
  - apply Forall_cons_2; [by left|]. apply Forall_cons_2; [by right|]. apply Forall_nil_2.
  - exact sample_load_in.
  - exact sample_load_in.
  - by left.
Defined.

Lemma cache_is_lru_witness :
  single sample_universe /\ (forall p, sample_universe p -> sample_load (snd p) = Some p) /\
  items (_list (@run list_container (set_entity_function (set_function
    (new_cache 2 true 10) sample_load) sample_load)
    (map access [(true, device_a); (false, device_b); (false, device_a)])))
  = [device_a; device_b].
Proof.
  assert (Hl : forall p, sample_universe p -> sample_load (snd p) = Some p).
  { intros p [-> | ->]; reflexivity. }
  split; [exact sample_single|]. split; [exact Hl|].
  exact (@cache_is_lru list_container list_container_laws sample_universe 2 10
    sample_load sample_load [(true, device_a); (false, device_b); (false, device_a)]
    sample_single Hl sample_load_in sample_load_in
    ltac:(apply Forall_cons_2; [by left|]; apply Forall_cons_2; [by right|];
          apply Forall_cons_2; [by left|]; apply Forall_nil_2)).
Defined.

Lemma cache_bounded_witness :
  let c := @run list_container (set_entity_function (set_function (new_cache 1 true 0)
             sample_load) sample_load) [Insert device_a; Insert device_b; Get (snd device_a)] in
  items (_list c) = [device_a] /\ (@size list_container c <= 1)%nat
  /\ exists q, q ∈ items (_list c) /\ snd (@get list_container c (snd device_a)) = Ret (Some q)
       /\ device_eq (snd device_a) (snd q) = true.
Proof.
  destruct (@cache_bounded list_container list_container_laws 1 true 0 sample_load sample_load
    [Insert device_a; Insert device_b; Get (snd device_a)]) as (H1 & _ & H3).
  split; [reflexivity|]. split; [exact H1|]. apply H3. by left.
Defined.
