(* ===== verification/Command.v ===== *)
(** * Commands and their cache: [src/src/util/command.h], [command.cc],
    [command_cache.h], [command_cache.cc]

    As [Cache], but the lifetime is the timeout of each command, and a timer
    that expires hands the command to [_timeout_function] first.  The commands
    a timeout handed over are recorded, in order, in [timed_out]. *)
From stdpp Require Import base tactics list gmap strings.
From Stdlib Require Import ZArith Lia Ascii String.
From S2P Require Import Prelude CppString Boost MultiIndex.

Local Open Scope string_scope.
Local Open Scope Z_scope.

Definition INT_MIN : Z := - 2 ^ 31.

(** [ptree] is the property tree of the body of the command, carried along. *)
Section Command.
  Context {ptree : Type} `{EqDecision ptree}.

Record Command : Type := mkCommand {
  _timeout : Z;
  _entity : string;
  _entity_type : string;
  _responseURI : string;
  _id : string;
  _name : string;
  _expired : Z;
  _command : ptree;
  _status : Z;
  _service : string;
  _service_path : string;
  _sequence : string
}.

#[export] Instance Command_eq_dec : EqDecision Command.
Proof. solve_decision. Defined.

(** The three constructors; [empty] is the default property tree. *)
Definition new_key (empty : ptree) (id_entity service service_path : string) : Command :=
  mkCommand INT_MIN id_entity "" "" "" "" INT_MIN empty INT_MIN service service_path "".

Definition new_command (id_cmd service service_path sequence id_entity responseURI : string)
    (cmd : ptree) : Command :=
  mkCommand INT_MIN id_entity "" responseURI id_cmd "" INT_MIN cmd INT_MIN service service_path
    sequence.

(** [lexical_cast<int>] of a [double] with an integral value. *)
Definition cast_int (v : Z) : outcome Z :=
  if (- 2 ^ 31 <=? v) && (v <? 2 ^ 31) then Ret v else Throw BadLexicalCast.

(** The constructor for stored commands: [age] is the time since [timestamp]
    in milliseconds, [None] without a timestamp; [total_seconds] truncates. *)
Definition stored_command (id_cmd name service service_path sequence id_entity entity_type
    responseURI : string) (timeout : Z) (age : option Z) (cmd : ptree) : outcome Command :=
  let _timeout := if timeout <? 0 then INT_MIN else timeout in
  let! r :=
    match age with
    | Some diff =>
        if _timeout <=? diff then Ret (_timeout, 1)
        else let! t := cast_int (_timeout - Z.quot diff 1000) in Ret (t, 0)
    | None => Ret (_timeout, 0)
    end in
  let '(_, expired) := r in
  let _timeout := timeout in
  Ret (mkCommand _timeout id_entity entity_type responseURI id_cmd name expired cmd INT_MIN
         service service_path sequence).

Definition set_timeout (c : Command) (t_sec : Z) : Command :=
  mkCommand t_sec (_entity c) (_entity_type c) (_responseURI c) (_id c) (_name c) (_expired c)
    (_command c) (_status c) (_service c) (_service_path c) (_sequence c).

Definition set_status (c : Command) (status : Z) : Command :=
  mkCommand (_timeout c) (_entity c) (_entity_type c) (_responseURI c) (_id c) (_name c)
    (_expired c) (_command c) status (_service c) (_service_path c) (_sequence c).

(** ** Keys *)

Definition command_eq (this a : Command) : bool :=
  String.eqb (_sequence this) (_sequence a) && String.eqb (_service this) (_service a).

Definition command_less (one two : Command) : bool :=
  String.ltb (_sequence one ++ _service one) (_sequence two ++ _service two).

Definition command_hash_fields (item : Command) : list string :=
  [_sequence item; _service item; _service_path item].

#[export] Instance command_item : Item Command :=
  {| item_eq := command_eq; hash_fields := command_hash_fields |}.

#[export] Instance command_item_laws : ItemLaws Command.
Proof.
  constructor. intros a b E. cbn in *. unfold command_eq. injection E as -> -> _.
  by rewrite !String.eqb_refl.
Qed.

Definition unique_entity `{Boost} (c : Command) : string :=
  _service c ++ ":" ++ _service_path c ++ ":" ++ _entity c ++ ":" ++ lexical_cast (_status c).

Definition unique_id (c : Command) : string :=
  _service c ++ ":" ++ _service_path c ++ ":" ++ _id c.

(** A command read from the store keeps the timeout it was stored with,
    whatever its age; it counts as expired exactly when its age in
    milliseconds reaches the number of seconds of its timeout, so a negative
    timeout always counts as expired from then on. *)
Theorem stored_command_spec (id name service path seq entity type uri : string) (timeout age : Z)
    (cmd : ptree) (Ht : - 2 ^ 31 <= timeout < 2 ^ 31) (Ha : 0 <= age) :
  exists c, stored_command id name service path seq entity type uri timeout (Some age) cmd = Ret c
    /\ _timeout c = timeout
    /\ (_expired c = 1 <-> timeout <= age) /\ (_expired c = 0 <-> age < timeout)
    /\ _status c = INT_MIN /\ unique_id c = service ++ ":" ++ path ++ ":" ++ id.
Proof.
  unfold stored_command. destruct (timeout <? 0) eqn:En; breflect.
  - replace (INT_MIN <=? age) with true by (symmetry; apply Z.leb_le; unfold INT_MIN; lia).
    cbn [obind]. eexists. split; [reflexivity|]. cbn. repeat split; lia.
  - destruct (timeout <=? age) eqn:El; breflect.
    + cbn [obind]. eexists. split; [reflexivity|]. cbn. repeat split; lia.
    + unfold cast_int. replace (_ && _) with true; [|symmetry; apply andb_true_iff;
        rewrite Z.leb_le, Z.ltb_lt; dlia].
      cbn [obind]. eexists. split; [reflexivity|]. cbn. repeat split; lia.
Qed.
End Command.
Arguments Command : clear implicits.

Lemma stored_command_spec_witness :
  - 2 ^ 31 <= 10 < 2 ^ 31 /\ 0 <= 1000 /\
  exists c, @stored_command unit "1" "ping" "s" "/p" "7" "e" "t" "u" 10 (Some 1000) tt = Ret c
    /\ _timeout c = 10 /\ _expired c = 1.
Proof.
  assert (H1 : - 2 ^ 31 <= 10 < 2 ^ 31) by lia. assert (H2 : 0 <= 1000) by lia.
  split; [exact H1|]. split; [exact H2|].
  destruct (@stored_command_spec unit "1" "ping" "s" "/p" "7" "e" "t" "u" 10 1000 tt H1 H2)
    as (c & E & Et & [_ Ee] & _).
  exists c. split; [exact E|]. split; [exact Et|]. apply Ee. lia.
Defined.
