(* ===== verification/CommandCollection.v ===== *)
(** * Commands in the database: [src/src/util/command_collection.cc]

    The document a command is kept as, and the command a document is read as.
    [Obj2BSON] leaves out what is empty or unset, so that it also makes the
    queries. *)
From stdpp Require Import base tactics list gmap strings sorting.
From Stdlib Require Import ZArith Lia Ascii String.
From S2P Require Import Prelude CppString Boost Types Bson Collection MultiIndex Command.

Local Open Scope string_scope.
Local Open Scope Z_scope.

Definition append_int : string -> Z -> document := append_unless INT_MIN.

(** The names of the fields of a document, as a [std::set]. *)
Fixpoint insert_name (n : string) (l : list string) : list string :=
  match l with
  | [] => [n]
  | m :: l' => if String.eqb n m then l
               else if String.ltb n m then n :: l
               else m :: insert_name n l'
  end.

Definition getFieldNames (d : document) : list string :=
  fold_left (fun l kv => insert_name (fst kv) l) d [].

Section CommandCollection.
  Context `{HP : PropertyTree} `{HI : !PropertyTreeIter} `{HR : BsonReader}.

Local Abbreviation command := (Command ptree).

Definition command_document (pt : ptree) : document :=
  map (fun pos => (fst pos, BStr (pt_data (snd pos)))) (pt_children pt).

Definition Obj2BSON (c : command) (withShardKey : bool) : document :=
  ((if withShardKey then append_str Store.COMMAND_ID (_id c) else [])
   ++ append_str Store.NAME (_name c)
   ++ append_str Store.SERVICE (_service c)
   ++ append_str Store.SERVICE_PATH (_service_path c)
   ++ append_str Store.DEVICE (_entity c)
   ++ append_str Store.ENTITY_TYPE (_entity_type c)
   ++ append_int Store.EXPIRED (_expired c)
   ++ append_str Store.SEQUENCE (_sequence c)
   ++ append_int Store.STATUS (_status c)
   ++ append_int Store.TIMEOUT (_timeout c)
   ++ append_str Store.URI_RESP (_responseURI c)
   ++ match command_document (_command c) with
      | [] => []
      | body => [(Store.COMMAND, BObj body)]
      end)%list.

(** The tree of the body: one [put] for each name. *)
Definition read_body (body : document) : ptree :=
  fold_left (fun pt nname => pt_put pt nname (getStringField body nname)) (getFieldNames body)
    pt_empty.

Definition BSON2Obj (obj : document) : command :=
  let str := getStringField obj in
  let body := getObjectField obj Store.COMMAND in
  mkCommand (getIntField obj Store.TIMEOUT) (str Store.DEVICE) (str Store.ENTITY_TYPE)
    (str Store.URI_RESP) (str Store.COMMAND_ID) (str Store.NAME) INT_MIN
    (read_body body) (getIntField obj Store.STATUS) (str Store.SERVICE) (str Store.SERVICE_PATH)
    (str Store.SEQUENCE).

(** ** Looking for a field of a built document *)

(** The value of a field that is left out when it is unset. *)
Definition str_field (v : string) : option bson :=
  if negb (String.eqb v "") then Some (BStr v) else None.
Definition int_field (v : Z) : option bson :=
  if negb (v =? INT_MIN) then Some (BNum v) else None.

Definition body_field (c : command) : option bson :=
  match command_document (_command c) with [] => None | body => Some (BObj body) end.

Definition stored_field (c : command) (k : string) : option bson :=
  if String.eqb k Store.COMMAND_ID then str_field (_id c)
  else if String.eqb k Store.NAME then str_field (_name c)
  else if String.eqb k Store.SERVICE then str_field (_service c)
  else if String.eqb k Store.SERVICE_PATH then str_field (_service_path c)
  else if String.eqb k Store.DEVICE then str_field (_entity c)
  else if String.eqb k Store.ENTITY_TYPE then str_field (_entity_type c)
  else if String.eqb k Store.EXPIRED then int_field (_expired c)
  else if String.eqb k Store.SEQUENCE then str_field (_sequence c)
  else if String.eqb k Store.STATUS then int_field (_status c)
  else if String.eqb k Store.TIMEOUT then int_field (_timeout c)
  else if String.eqb k Store.URI_RESP then str_field (_responseURI c)
  else if String.eqb k Store.COMMAND then body_field c
  else None.

Lemma field_Obj2BSON c k :
  k ∈ [Store.COMMAND_ID; Store.NAME; Store.SERVICE; Store.SERVICE_PATH; Store.DEVICE;
       Store.ENTITY_TYPE; Store.EXPIRED; Store.SEQUENCE; Store.STATUS; Store.TIMEOUT;
       Store.URI_RESP; Store.COMMAND] ->
  field (Obj2BSON c true) k = stored_field c k.
Proof.
  assert (Hb : body_field c = field (match command_document (_command c) with
                | [] => [] | body => [(Store.COMMAND, BObj body)] end) Store.COMMAND).
  { unfold body_field. by destruct (command_document _). }
  assert (Hn : forall k, String.eqb Store.COMMAND k = false ->
    field (match command_document (_command c) with
           | [] => [] | body => [(Store.COMMAND, BObj body)] end) k = None).
  { intros k' Hk. destruct (command_document _); cbn [field]; [done|]. by rewrite Hk. }
  unfold Obj2BSON, stored_field, str_field, int_field, append_int.
  intros Hk. rewrite !field_app, !field_append_str, !field_append_unless.
  repeat (apply elem_of_cons in Hk as [->|Hk]; [eval_eqb; try rewrite Hn by reflexivity;
    solve [reflexivity | exact (eq_sym Hb) | by destruct (negb _)]|]).
  by apply not_elem_of_nil in Hk.
Qed.

(** ** Reading back *)

Context {HPI : PropertyTreeIterLaws} {HRL : BsonReaderLaws HR}.

Lemma str_back obj k v : field obj k = str_field v -> no_nul v = true -> getStringField obj k = v.
Proof.
  unfold str_field. intros E Hv. destruct (String.eqb_spec v "") as [Ev|]; cbn [negb] in E.
  - rewrite Ev. by apply getString_none.
  - rewrite (getString_some _ _ _ E). by apply c_string_id.
Qed.

Lemma int_back obj k v : field obj k = int_field v -> - 2 ^ 31 <= v < 2 ^ 31 ->
  getIntField obj k = v.
Proof.
  unfold int_field. intros E Hv. destruct (Z.eqb_spec v INT_MIN) as [Ev|]; cbn [negb] in E.
  - rewrite Ev. by apply getInt_none.
  - by apply getInt_some.
Qed.

(** The body of a command is empty or the text [transform_command] puts. *)
Definition body_ok (pt : ptree) : Prop :=
  pt = pt_empty \/ exists v, pt = pt_put pt_empty Store.BODY v /\ no_nul v = true.

Definition storable (c : command) : Prop :=
  Forall (fun s => no_nul s = true)
    [_entity c; _entity_type c; _responseURI c; _id c; _name c; _service c; _service_path c; _sequence c]
  /\ - 2 ^ 31 <= _timeout c < 2 ^ 31 /\ - 2 ^ 31 <= _status c < 2 ^ 31
  /\ _expired c = INT_MIN /\ body_ok (_command c).

Lemma body_back c : body_ok (_command c) ->
  read_body (getObjectField (Obj2BSON c true) Store.COMMAND) = _command c.
Proof.
  assert (Hf : field (Obj2BSON c true) Store.COMMAND = body_field c).
  { rewrite field_Obj2BSON; [done|]. repeat (left + right). }
  unfold body_field, command_document in Hf. intros [E|(v & E & Hv)]; rewrite E in *.
  - rewrite pt_children_empty in Hf. by rewrite (getObject_none _ _ Hf).
  - destruct (pt_children_put Store.BODY v eq_refl) as (t & Et & Ev).
    rewrite Et in Hf. cbn [map fst snd] in Hf. rewrite Ev in Hf.
    rewrite (getObject_some _ _ _ Hf). unfold read_body. cbn. f_equal.
    rewrite (getString_some _ _ v); [by apply c_string_id|reflexivity].
Qed.

(** A command as it is saved, with its status and its timeout, is read back
    from the database as the same command. *)
Theorem command_roundtrip (c : command) : storable c -> BSON2Obj (Obj2BSON c true) = c.
Proof.
  intros (Hs & Ht & Hst & Hx & Hb).
  assert (Hf : forall k, k ∈ [Store.COMMAND_ID; Store.NAME; Store.SERVICE; Store.SERVICE_PATH;
    Store.DEVICE; Store.ENTITY_TYPE; Store.EXPIRED; Store.SEQUENCE; Store.STATUS; Store.TIMEOUT;
    Store.URI_RESP; Store.COMMAND] -> field (Obj2BSON c true) k = stored_field c k)
    by apply field_Obj2BSON.
  rewrite !Forall_cons in Hs. destruct Hs as (H1 & H2 & H3 & H4 & H5 & H6 & H7 & H8 & _).
  unfold BSON2Obj. rewrite (body_back c Hb), <- Hx.
  assert (Hstr : forall k v, stored_field c k = str_field v -> no_nul v = true ->
    k ∈ [Store.COMMAND_ID; Store.NAME; Store.SERVICE; Store.SERVICE_PATH;
    Store.DEVICE; Store.ENTITY_TYPE; Store.EXPIRED; Store.SEQUENCE; Store.STATUS; Store.TIMEOUT;
    Store.URI_RESP; Store.COMMAND] -> getStringField (Obj2BSON c true) k = v).
  { intros k v E Hv Hk. apply str_back; [|done]. by rewrite Hf. }
  rewrite (Hstr Store.DEVICE (_entity c)), (Hstr Store.ENTITY_TYPE (_entity_type c)),
    (Hstr Store.URI_RESP (_responseURI c)), (Hstr Store.COMMAND_ID (_id c)),
    (Hstr Store.NAME (_name c)), (Hstr Store.SERVICE (_service c)),
    (Hstr Store.SERVICE_PATH (_service_path c)), (Hstr Store.SEQUENCE (_sequence c))
    by first [done | reflexivity | repeat (left + right)].
  rewrite (int_back _ Store.TIMEOUT (_timeout c)), (int_back _ Store.STATUS (_status c));
    try (by rewrite Hf by repeat (left + right)); try done. by destruct c.
Qed.

(** ** Looking for a command *)

(** The command that only has a key, as [get_command], [remove_command] and
    the others make it. *)
Definition command_key (command_id service service_path : string) : command :=
  mkCommand INT_MIN "" "" "" command_id "" INT_MIN pt_empty INT_MIN service service_path "".

Definition same_key (c : command) (command_id service service_path : string) : bool :=
  String.eqb command_id (_id c) && String.eqb service (_service c)
  && String.eqb service_path (_service_path c).

Lemma key_query id service path : id <> "" -> service <> "" -> path <> "" ->
  Obj2BSON (command_key id service path) true
  = [(Store.COMMAND_ID, BStr id); (Store.SERVICE, BStr service); (Store.SERVICE_PATH, BStr path)].
Proof.
  intros H1 H2 H3. unfold Obj2BSON, command_key, command_document. cbn [_command].
  rewrite pt_children_empty. unfold append_str, append_int. cbn.
  apply String.eqb_neq in H1, H2, H3. by rewrite H1, H2, H3.
Qed.

Lemma bson_eqb_str_field v w : v <> "" ->
  match str_field w with Some x => bson_eqb (BStr v) x | None => false end = String.eqb v w.
Proof.
  intros Hv. unfold str_field. destruct (String.eqb_spec w "") as [E|E]; cbn; [|done].
  rewrite E. symmetry. by apply String.eqb_neq.
Qed.

Lemma matches_key c id service path : id <> "" -> service <> "" -> path <> "" ->
  matches (Obj2BSON (command_key id service path) true) (Obj2BSON c true)
  = same_key c id service path.
Proof.
  intros H1 H2 H3. rewrite key_query by done. rewrite !matches_cons.
  rewrite !field_Obj2BSON by (repeat (left + right)). unfold stored_field. eval_eqb.
  rewrite !bson_eqb_str_field by done. unfold same_key. cbn [matches forallb].
  by rewrite andb_true_r, andb_assoc.
Qed.

Lemma plain_key id service path : id <> "" -> service <> "" -> path <> "" ->
  plain (Obj2BSON (command_key id service path) true) = true.
Proof. intros H1 H2 H3. by rewrite key_query. Qed.

Lemma same_key_spec c id service path :
  same_key c id service path = true <-> _id c = id /\ _service c = service /\ _service_path c = path.
Proof. unfold same_key. rewrite !andb_true_iff, !String.eqb_eq. naive_solver. Qed.
End CommandCollection.

(** ** An example *)

Section Examples.
  Local Existing Instance bson_reader_reference.

#[local] Instance stored_ptree : PropertyTree := ptree_reference (fun _ => "").
#[local] Instance stored_iter : PropertyTreeIter := ptree_iter_reference (fun _ => "").

Definition stored_example : Command (@ptree stored_ptree) :=
  mkCommand 10 "room" "thing" "http://d" "7" "ping" INT_MIN (pt_put pt_empty Store.BODY "on") 0 "s" "/p" "7".

Lemma command_roundtrip_witness :
  storable stored_example
  /\ BSON2Obj (HR := bson_reader_reference) (Obj2BSON stored_example true) = stored_example.
Proof.
  assert (Hs : storable stored_example).
  { split; [repeat (apply Forall_cons_2; [reflexivity|]); apply Forall_nil_2|].
    split; [cbn; lia|]. split; [cbn; lia|]. split; [reflexivity|]. right. by exists "on". }
  split; [exact Hs|].
  exact (command_roundtrip (HPI := ptree_iter_reference_laws _) (HRL := bson_reader_reference_laws)
    stored_example Hs).
Defined.
End Examples.
