(* ===== verification/CommandCache.v ===== *)
(** * The cache of commands: [src/src/util/command_cache.h], [command_cache.cc]

    As [Cache], with a timer per command whose lifetime is the command's own
    timeout, and a function that is given each command whose timer expires:
    the commands it was given are recorded, in order, in [timed_out].  The
    function that loads a command by its entity is the one of
    [set_entity_function]. *)
From stdpp Require Import base tactics list gmap strings.
From Stdlib Require Import ZArith Lia Ascii String.
From S2P Require Import Prelude CppString Boost MultiIndex Command.

Local Open Scope string_scope.
Local Open Scope Z_scope.

Section CommandCache.
  Context {ptree : Type} `{EqDecision ptree} `{HB : Boost} `{Ct : !Container (Command ptree)}.

Local Abbreviation cptr := (ptr (Command ptree)).
Local Abbreviation cmd := (Command ptree).
Local Abbreviation cindex := (@index cmd _ Ct).

Definition GetFunction_t : Type := cmd -> option cptr.

Record CommandCache : Type := mkCommandCache {
  _max_num_items : nat;
  _list : cindex;
  _lru : bool;
  _get_function : option GetFunction_t;
  _get_id_function : option GetFunction_t;
  _timeout_function : bool;
  live : gset positive;
  timed_out : list cptr;
  _get_entity_function : option GetFunction_t
}.

Definition with_list (c : CommandCache) (l : cindex) : CommandCache :=
  mkCommandCache (_max_num_items c) l (_lru c) (_get_function c) (_get_id_function c)
    (_timeout_function c) (live c) (timed_out c) (_get_entity_function c).
Definition with_live (c : CommandCache) (t : gset positive) : CommandCache :=
  mkCommandCache (_max_num_items c) (_list c) (_lru c) (_get_function c) (_get_id_function c)
    (_timeout_function c) t (timed_out c) (_get_entity_function c).
Definition with_timed_out (c : CommandCache) (t : list cptr) : CommandCache :=
  mkCommandCache (_max_num_items c) (_list c) (_lru c) (_get_function c) (_get_id_function c)
    (_timeout_function c) (live c) t (_get_entity_function c).

Definition new_command_cache (capacity : nat) (lru : bool) : CommandCache :=
  mkCommandCache capacity empty_index lru None None false ∅ [] None.

Definition set_max_num_items (c : CommandCache) (capacity : nat) : CommandCache :=
  mkCommandCache capacity (_list c) (_lru c) (_get_function c) (_get_id_function c)
    (_timeout_function c) (live c) (timed_out c) (_get_entity_function c).

(** The functions the cache is given: to load a command, to load it by its id,
    and whether there is one for timeouts. *)
Definition set_functions (c : CommandCache) (get get_id : option GetFunction_t) (timeout : bool)
    : CommandCache :=
  mkCommandCache (_max_num_items c) (_list c) (_lru c) get get_id timeout (live c) (timed_out c)
    (_get_entity_function c).
Definition set_entity_function (c : CommandCache) (f : GetFunction_t) : CommandCache :=
  mkCommandCache (_max_num_items c) (_list c) (_lru c) (_get_function c) (_get_id_function c)
    (_timeout_function c) (live c) (timed_out c) (Some f).

Definition start (c : CommandCache) (item : cptr) : CommandCache :=
  with_live c ({[fst item]} ∪ live c).
Definition cancel (c : CommandCache) (item : cptr) : CommandCache :=
  with_live c (live c ∖ {[fst item]}).

(** [if (item->get_timeout() > 0)]: the timer is started. *)
Definition start_timer (c : CommandCache) (item : cptr) : CommandCache :=
  if 0 <? _timeout (snd item) then start c item else c.

Definition insert (c : CommandCache) (item : cptr) : CommandCache :=
  if _lru c then
    let '(l, p) := push_front (_list c) item in
    let c := start_timer (with_list c l) item in
    match p with
    | Some q => with_list c (relocate_front (_list c) q)
    | None =>
        if Nat.ltb (_max_num_items c) (List.length (items (_list c))) then
          let c := match back (_list c) with Some b => cancel c b | None => c end in
          with_list c (pop_back (_list c))
        else c
    end
  else
    if Nat.ltb (List.length (items (_list c))) (_max_num_items c) then
      let '(l, p) := push_back (_list c) item in
      let c := with_list c (match p with Some q => relocate_back l q | None => l end) in
      start_timer c item
    else c.

Definition get (c : CommandCache) (key : cmd) : CommandCache * outcome (option cptr) :=
  match find_item (_list c) key with
  | Some i => (insert c i, Ret (Some i))
  | None =>
      match _get_function c with
      | Some f =>
          match f key with
          | Some new_item => (insert c new_item, Ret (Some new_item))
          | None => (c, Ret None)
          end
      | None => (c, Ret None)
      end
  end.

(** The index on [unique_entity]; the functions it is given are called without
    a test of the one that is called. *)
Definition load_entity (c : CommandCache) (key : cmd) : outcome (option cptr) :=
  match _get_function c with
  | Some _ =>
      match _get_entity_function c with
      | Some f => Ret (f key)
      | None => Throw (RuntimeError "call to empty boost::function")
      end
  | None => Ret None
  end.

Definition get_by_entity (c : CommandCache) (key : cmd) : CommandCache * outcome (option cptr) :=
  match find_key unique_entity (_list c) (unique_entity key) with
  | Some i => (insert c i, Ret (Some i))
  | None =>
      match load_entity c key with
      | Ret (Some new_item) => (insert c new_item, Ret (Some new_item))
      | r => (c, r)
      end
  end.

(** [set_status] through the pointer. *)
Definition write_status (c : CommandCache) (p : cptr) (status : Z) : CommandCache * cptr :=
  let p' := (fst p, set_status (snd p) status) in
  (with_list c (write_item (_list c) p'), p').

(** The loop of [get_by_entityV]: it goes on from the element that is found to
    the end of the index, so past the commands of the entity. *)
Fixpoint deliver (c : CommandCache) (found : list cptr) (new_status : Z)
    : CommandCache * list cptr :=
  match found with
  | [] => (c, [])
  | i :: rest =>
      let '(c, i) := write_status c i new_status in
      let '(c, result) := deliver (insert c i) rest new_status in
      (c, i :: result)
  end.

(** The status is part of the key that was changed in place; the sources look
    for [READY_FOR_READ] only, and set nothing to it afterwards. *)
Definition get_by_entityV (c : CommandCache) (key : cmd) (new_status : Z)
    : CommandCache * outcome (list cptr) :=
  match key_tail unique_entity (_list c) (unique_entity key) with
  | [] =>
      match load_entity c key with
      | Ret (Some new_item) =>
          let '(c, i) := write_status c new_item new_status in (insert c i, Ret [i])
      | Ret None => (c, Ret [])
      | Throw e => (c, Throw e)
      | Undefined => (c, Undefined)
      end
  | found => let '(c, result) := deliver c found new_status in (c, Ret result)
  end.

(** The index on [unique_id]. *)
Definition find_id (c : CommandCache) (key : cmd) : option cptr :=
  find_key unique_id (_list c) (unique_id key).

Definition get_by_id (c : CommandCache) (key : cmd) : CommandCache * outcome (option cptr) :=
  match find_id c key with
  | Some i => (insert c i, Ret (Some i))
  | None =>
      match _get_function c with
      | Some _ =>
          match _get_id_function c with
          | Some f =>
              match f key with
              | Some new_item => (insert c new_item, Ret (Some new_item))
              | None => (c, Ret None)
              end
          | None => (c, Throw (RuntimeError "call to empty boost::function"))
          end
      | None => (c, Ret None)
      end
  end.

Definition get_by_id_from_mongo (c : CommandCache) (key : cmd) : outcome (option cptr) :=
  match _get_function c with
  | Some _ =>
      match _get_id_function c with
      | Some f => Ret (f key)
      | None => Throw (RuntimeError "call to empty boost::function")
      end
  | None => Ret None
  end.

(** [get_by_idV], as [get_by_entityV] on the index of ids; the same loop over
    the container, with the insertions only. *)
Definition get_by_idV (c : CommandCache) (key : cmd) : CommandCache * list cptr :=
  let found := key_tail unique_id (_list c) (unique_id key) in
  (fold_left insert found c, found).

Definition size (c : CommandCache) : nat := List.length (items (_list c)).

Definition remove (c : CommandCache) (key : cmd) : CommandCache :=
  match find_id c key with
  | Some q => with_list (cancel c q) (erase_item (_list c) q)
  | None => c
  end.

(** [remove_all] erases [begin()] of the id index, if there is one. *)
Definition remove_all (c : CommandCache) : CommandCache :=
  match begin_key unique_id (_list c) with
  | Some q => with_list c (erase_item (_list c) q)
  | None => c
  end.

Definition item_timeout (c : CommandCache) (timer : cptr) (aborted : bool) : CommandCache :=
  if aborted then c
  else
    let c := if _timeout_function c then with_timed_out c (timed_out c ++ [timer])%list else c in
    remove c (snd timer).

Inductive command_op : Type :=
| Insert (p : cptr) | Get (key : cmd) | GetById (key : cmd) | Remove (key : cmd) | RemoveAll
| Expire (p : cptr) | Aborted (p : cptr).

Definition command_step (c : CommandCache) (op : command_op) : CommandCache :=
  match op with
  | Insert p => insert c p
  | Get key => fst (get c key)
  | GetById key => fst (get_by_id c key)
  | Remove key => remove c key
  | RemoveAll => remove_all c
  | Expire p => if decide (fst p ∈ live c)
                then item_timeout (with_live c (live c ∖ {[fst p]})) p false else c
  | Aborted p => item_timeout c p true
  end.

Definition run (c : CommandCache) (ops : list command_op) : CommandCache :=
  fold_left command_step ops c.

(** ** The invariant *)

Context {CL : ContainerLaws (Command ptree)}.

Definition cache_wf (c : CommandCache) : Prop :=
  (List.length (items (_list c)) <= _max_num_items c)%nat /\ unique (items (_list c)).

Definition same_settings (c' c : CommandCache) : Prop :=
  _max_num_items c' = _max_num_items c /\ _lru c' = _lru c
  /\ _get_function c' = _get_function c /\ _get_id_function c' = _get_id_function c
  /\ _timeout_function c' = _timeout_function c /\ timed_out c' = timed_out c.

Lemma insert_spec c p :
  _list (insert c p) = insert_list (_max_num_items c) (_lru c) (_list c) p
  /\ same_settings (insert c p) c.
Proof.
  unfold insert, insert_list, start_timer, same_settings. destruct (_lru c) eqn:El.
  - destruct (push_front (_list c) p) as [l' [q|]]; cbn -[Nat.ltb];
      destruct (0 <? _timeout (snd p)); cbn -[Nat.ltb]; try (repeat split; congruence);
      destruct (Nat.ltb _ _); cbn; try destruct (back l'); repeat split; cbn; congruence.
  - destruct (Nat.ltb _ _); [|repeat split; congruence].
    destruct (push_back (_list c) p) as [l' [q|]]; cbn;
      destruct (0 <? _timeout (snd p)); repeat split; cbn; congruence.
Qed.

Lemma cmd_insert_wf c p : cache_wf c -> cache_wf (insert c p).
Proof.
  intros [Hl Hu]. destruct (insert_spec c p) as (E1 & E2 & _). unfold cache_wf.
  rewrite E1, E2. by apply insert_list_wf.
Qed.

Lemma erase_wf (l : cindex) q n : q ∈ items l -> (List.length (items l) <= n)%nat ->
  unique (items l) -> (List.length (items (erase_item l q)) <= n)%nat
  /\ unique (items (erase_item l q)).
Proof.
  intros Hq Hl Hu. rewrite erase_item_law by done. pose proof (length_erase_ptr q _ (unique_NoDup _ Hu) Hq).
  split; [lia|by apply unique_filter].
Qed.

Lemma find_id_some c key q : find_id c key = Some q ->
  q ∈ items (_list c) /\ unique_id (snd q) = unique_id key.
Proof. apply find_key_some. Qed.

Lemma remove_spec c key :
  same_settings (remove c key) c
  /\ (cache_wf c -> cache_wf (remove c key))
  /\ (forall p, p ∈ items (_list (remove c key)) -> p ∈ items (_list c)).
Proof.
  unfold remove. destruct (find_id c key) as [q|] eqn:E; [|done].
  destruct (find_id_some _ _ _ E) as [Hq _]. split; [done|]. split.
  - intros [Hl Hu]. by apply erase_wf.
  - cbn. rewrite erase_item_law by done. intros p Hp. by apply elem_erase in Hp as [? _].
Qed.

Lemma remove_all_wf c : cache_wf c -> cache_wf (remove_all c).
Proof.
  intros [Hl Hu]. unfold remove_all. destruct (begin_key _ _) as [q|] eqn:E; [|done].
  apply begin_key_some in E. by apply erase_wf.
Qed.

Lemma item_timeout_wf c p b : cache_wf c -> cache_wf (item_timeout c p b).
Proof.
  intros Hc. unfold item_timeout. destruct b; [done|]. apply remove_spec.
  by destruct (_timeout_function c).
Qed.

Lemma command_step_wf c op : cache_wf c -> cache_wf (command_step c op).
Proof.
  intros Hc. destruct op as [p|key|key|key| |p|p]; cbn [command_step]; try done.
  - by apply cmd_insert_wf.
  - unfold get. destruct (find_item _ key); [by apply cmd_insert_wf|].
    destruct (_get_function c) as [f|]; [|done]. destruct (f key); [by apply cmd_insert_wf|done].
  - unfold get_by_id. destruct (find_id c key); [by apply cmd_insert_wf|].
    destruct (_get_function c), (_get_id_function c) as [f|]; try done.
    destruct (f key); [by apply cmd_insert_wf|done].
  - by apply remove_spec.
  - by apply remove_all_wf.
  - destruct (decide _); [|done]. by apply item_timeout_wf.
Qed.

(** ** Commands with distinct identifiers *)

Definition distinct (U : cptr -> Prop) : Prop :=
  (forall p q, U p -> U q -> fst p = fst q -> p = q)
  /\ (forall p q, U p -> U q -> unique_id (snd p) = unique_id (snd q) -> p = q).

Definition fun_in (U : cptr -> Prop) (f : option GetFunction_t) : Prop :=
  forall g key p, f = Some g -> g key = Some p -> U p.

Definition op_in (U : cptr -> Prop) (op : command_op) : Prop :=
  match op with Insert p | Expire p | Aborted p => U p | _ => True end.

(** The invariant: bounded, of the universe, and every command with a positive
    timeout has its timer pending. *)
Definition cache_inv (U : cptr -> Prop) (c : CommandCache) : Prop :=
  cache_wf c
  /\ (forall p, p ∈ items (_list c) -> U p)
  /\ fun_in U (_get_function c) /\ fun_in U (_get_id_function c)
  /\ (forall p, p ∈ items (_list c) -> 0 < _timeout (snd p) -> fst p ∈ live c).

Lemma insert_live U c p : distinct U -> U p -> cache_inv U c ->
  forall q, q ∈ items (_list (insert c p)) -> 0 < _timeout (snd q) -> fst q ∈ live (insert c p).
Proof.
  intros [Hc _] Hp ((Hl & Hu) & HU & _ & _ & Hlive).
  assert (Hst : forall l q, 0 < _timeout (snd q) -> (q = p \/ q ∈ items (_list c)) ->
    fst q ∈ live (start_timer (with_list c l) p)).
  { intros l q Ht [->|Hq]; unfold start_timer.
    - apply Z.ltb_lt in Ht. rewrite Ht. cbn. set_solver.
    - specialize (Hlive q Hq Ht). destruct (0 <? _); cbn; set_solver. }
  intros q Hq Ht. pose proof Hq as Hin. rewrite (proj1 (insert_spec c p)) in Hin.
  apply insert_list_in in Hin. unfold insert in *. destruct (_lru c).
  - pose proof (push_front_law (_list c) p) as Hf.
    destruct (push_front (_list c) p) as [l' [r|]]; cbn [fst snd pushed] in Hf; [by apply Hst|].
    destruct Hf as [Hl' Hfresh]. set (c' := start_timer _ p) in *.
    assert (El : _list c' = l') by (unfold c', start_timer; by destruct (0 <? _)).
    destruct (Nat.ltb _ _) eqn:Ef; [|by apply Hst]. unfold back in *. rewrite El, Hl' in *.
    destruct (last (p :: items (_list c))) as [b|] eqn:Eb; [|by apply last_None in Eb].
    cbn [with_list _list live cancel with_live] in *. rewrite El, pop_back_law, Hl' in Hq.
    destruct (removelast_back _ b q (fresh_unique _ p Hu Hfresh) Eb Hq) as [_ Hne].
    assert (HUb : U b) by (apply last_Some_elem_of, elem_of_cons in Eb; naive_solver).
    apply elem_of_difference. split; [by apply Hst|]. rewrite elem_of_singleton.
    intros Ea. apply Hne, Hc; naive_solver.
  - destruct (Nat.ltb _ _); [|auto].
    destruct (push_back (_list c) p) as [l' [r|]]; by apply Hst.
Qed.

Lemma cmd_insert_inv U c p : distinct U -> U p -> cache_inv U c -> cache_inv U (insert c p).
Proof.
  intros HD Hp Hinv. pose proof Hinv as (H1 & H2 & H3 & H4 & H5).
  destruct (insert_spec c p) as (E & _ & _ & Eg & Ei & _).
  split; [by apply cmd_insert_wf|]. split.
  - intros q Hq. rewrite E in Hq. apply insert_list_in in Hq as [->|]; auto.
  - rewrite Eg, Ei. split; [done|]. split; [done|]. by apply (insert_live U).
Qed.

(** Erasing [q] and cancelling its timer keeps the other timers. *)
Lemma erase_inv U c q t : distinct U -> cache_inv U c -> q ∈ items (_list c) ->
  (t = live c \/ t = live c ∖ {[fst q]}) ->
  cache_inv U (with_list (with_live c t) (erase_item (_list c) q)).
Proof.
  intros [Hc _] ((Hl & Hu) & H2 & H3 & H4 & H5) Hq Ht.
  split; [by apply erase_wf|]. cbn. rewrite erase_item_law by done.
  split; [intros p Hp; apply elem_erase in Hp; naive_solver|].
  split; [done|]. split; [done|]. intros p Hp Hpos. apply elem_erase in Hp as [Hp Hne].
  assert (fst p <> fst q) by (intros Ea; apply Hne, Hc; auto).
  specialize (H5 p Hp Hpos). destruct Ht as [->| ->]; set_solver.
Qed.

Lemma cmd_remove_inv U c key : distinct U -> cache_inv U c -> cache_inv U (remove c key).
Proof.
  intros HD Hinv. unfold remove. destruct (find_id c key) as [q|] eqn:E; [|done].
  destruct (find_id_some _ _ _ E) as [Hq _]. apply erase_inv; auto.
Qed.

Lemma remove_all_inv U c : distinct U -> cache_inv U c -> cache_inv U (remove_all c).
Proof.
  intros HD Hinv. unfold remove_all. destruct (begin_key _ _) as [q|] eqn:E; [|done].
  apply begin_key_some in E.
  replace (with_list c _) with (with_list (with_live c (live c)) (erase_item (_list c) q)) by done.
  apply erase_inv; auto.
Qed.

Lemma find_id_cached U c p : distinct U -> cache_inv U c -> p ∈ items (_list c) ->
  find_id c (snd p) = Some p.
Proof.
  intros [_ Hd] (_ & HU & _) Hp. destruct (find_id c (snd p)) as [q|] eqn:E.
  - destruct (find_id_some _ _ _ E) as [Hq Hid]. f_equal. apply Hd; auto.
  - exfalso. by apply (find_key_none _ _ _ p E Hp).
Qed.

(** What the handler of an expired timer does: the command is handed over and
    is no longer cached; one element at most has gone. *)
Lemma expire_spec U c p : distinct U -> U p -> cache_inv U c -> fst p ∈ live c ->
  cache_inv U (command_step c (Expire p))
  /\ p ∉ items (_list (command_step c (Expire p)))
  /\ timed_out (command_step c (Expire p))
     = (timed_out c ++ if _timeout_function c then [p] else [])%list.
Proof.
  intros HD Hp Hinv Hlive. cbn [command_step]. rewrite decide_True by assumption.
  cbn [item_timeout]. set (c1 := if _timeout_function _ then _ else _).
  assert (E1 : _list c1 = _list c) by (unfold c1; by destruct (_timeout_function _)).
  assert (E2 : timed_out c1 = (timed_out c ++ if _timeout_function c then [p] else [])%list).
  { unfold c1. cbn. destruct (_timeout_function c); [done|]. by rewrite app_nil_r. }
  assert (E3 : live c1 = live c ∖ {[fst p]}) by (unfold c1; by destruct (_timeout_function _)).
  assert (Etm : timed_out (remove c1 (snd p)) = timed_out c1) by apply remove_spec.
  rewrite Etm, E2. cut (cache_inv U (remove c1 (snd p)) /\ p ∉ items (_list (remove c1 (snd p)))).
  { intros [? ?]. done. }
  pose proof HD as [Hc Hd]. pose proof Hinv as (Hw & HU & Hg & Hi & Ht).
  assert (Hinv1 : forall t, t = live c -> cache_inv U (with_live c1 t)).
  { intros t ->. unfold c1. by destruct (_timeout_function _). }
  destruct (decide (p ∈ items (_list c))) as [Hin|Hin].
  - assert (Ef : find_id c1 (snd p) = Some p).
    { unfold find_id. rewrite E1. apply (find_id_cached U c p HD Hinv Hin). }
    unfold remove. rewrite Ef. split.
    + specialize (Hinv1 _ eq_refl).
      assert (Hq : p ∈ items (_list (with_live c1 (live c)))) by (cbn; by rewrite E1).
      pose proof (erase_inv U _ p (live c ∖ {[fst p]}) HD Hinv1 Hq (or_intror eq_refl)) as H.
      assert (Es : live c1 ∖ {[fst p]} = live c ∖ {[fst p]}) by (rewrite E3; set_solver).
      unfold cancel. rewrite Es. exact H.
    + cbn. rewrite E1, erase_item_law, elem_erase by done. tauto.
  - assert (Hne : forall q, q ∈ items (_list c) -> fst q <> fst p).
    { intros q Hq Ea. apply Hin. by rewrite <- (Hc q p (HU q Hq) Hp Ea). }
    assert (Hinv2 : cache_inv U c1).
    { specialize (Hinv1 _ eq_refl). destruct Hinv1 as (A1 & A2 & A3 & A4 & A5).
      split; [exact A1|]. split; [exact A2|]. split; [exact A3|]. split; [exact A4|].
      intros q Hq Hpos. rewrite E1 in Hq. rewrite E3. specialize (Ht q Hq Hpos).
      specialize (Hne q Hq). set_solver. }
    split; [by apply cmd_remove_inv|]. intros Hp'. apply remove_spec in Hp'. rewrite E1 in Hp'. done.
Qed.

Lemma cmd_step_inv U c op : distinct U -> op_in U op -> cache_inv U c ->
  cache_inv U (command_step c op).
Proof.
  intros HD Hop Hinv. pose proof Hinv as (H1 & HU & Hg & Hi & H5).
  destruct op as [p|key|key|key| |p|p]; cbn [op_in] in *.
  - by apply cmd_insert_inv.
  - cbn [command_step]. unfold get. destruct (find_item _ key) as [i|] eqn:E.
    + destruct (find_item_some _ _ _ E). apply cmd_insert_inv; auto.
    + destruct (_get_function c) as [f|] eqn:Ef; [|done].
      destruct (f key) as [n|] eqn:En; [|done]. apply cmd_insert_inv; [done| |done].
      by apply (Hg f key n).
  - cbn [command_step]. unfold get_by_id. destruct (find_id c key) as [i|] eqn:E.
    + destruct (find_id_some _ _ _ E). apply cmd_insert_inv; auto.
    + destruct (_get_function c); [|done]. destruct (_get_id_function c) as [f|] eqn:Ef; [|done].
      destruct (f key) as [n|] eqn:En; [|done]. apply cmd_insert_inv; [done| |done].
      by apply (Hi f key n).
  - by apply cmd_remove_inv.
  - by apply remove_all_inv.
  - destruct (decide (fst p ∈ live c)) as [Hl|Hl].
    + by apply expire_spec.
    + cbn [command_step]. by rewrite decide_False.
  - done.
Qed.

Lemma cmd_run_inv U ops c : distinct U -> Forall (op_in U) ops -> cache_inv U c ->
  cache_inv U (run c ops).
Proof.
  intros HD Hops. revert c. induction Hops as [|op ops Hop Hops IH]; intros c Hc; [done|].
  by apply IH, cmd_step_inv.
Qed.

Lemma step_settings c op : _max_num_items (command_step c op) = _max_num_items c
  /\ _timeout_function (command_step c op) = _timeout_function c.
Proof.
  assert (Hi : forall p, _max_num_items (insert c p) = _max_num_items c
    /\ _timeout_function (insert c p) = _timeout_function c).
  { intros p. destruct (insert_spec c p) as (_ & ? & _ & _ & _ & ? & _). done. }
  destruct op as [p|key|key|key| |p|p]; cbn [command_step]; try done.
  - unfold get. destruct (find_item _ key); [apply Hi|].
    destruct (_get_function c) as [f|]; [|done]. destruct (f key); [apply Hi|done].
  - unfold get_by_id. destruct (find_id c key); [apply Hi|].
    destruct (_get_function c), (_get_id_function c) as [f|]; try done.
    destruct (f key); [apply Hi|done].
  - split; apply remove_spec.
  - unfold remove_all. by destruct (begin_key _ _).
  - destruct (decide _); [|done]. cbn [item_timeout].
    destruct (remove_spec (if _timeout_function (with_live c (live c ∖ {[fst p]}))
      then with_timed_out (with_live c (live c ∖ {[fst p]}))
             (timed_out (with_live c (live c ∖ {[fst p]})) ++ [p])
      else with_live c (live c ∖ {[fst p]})) (snd p)) as ((Em & _ & _ & _ & Et & _) & _).
    rewrite Em, Et. cbn. destruct (_timeout_function c) eqn:Ef; cbn; by rewrite ?Ef.
Qed.

Lemma run_settings ops : forall c, _max_num_items (run c ops) = _max_num_items c
  /\ _timeout_function (run c ops) = _timeout_function c.
Proof.
  induction ops as [|op ops IH]; intros c; [done|].
  change (run c (op :: ops)) with (run (command_step c op) ops).
  destruct (IH (command_step c op)) as [-> ->]. apply step_settings.
Qed.

Lemma reachable_inv U capacity lru get_function get_id_function ops :
  distinct U -> Forall (op_in U) ops -> fun_in U (Some get_function) -> fun_in U (Some get_id_function) ->
  cache_inv U (run (set_functions (new_command_cache capacity lru) (Some get_function)
    (Some get_id_function) true) ops).
Proof.
  intros HU Hops Hg Hi. apply cmd_run_inv; [done..|]. unfold cache_inv, cache_wf. cbn.
  rewrite items_empty. split; [split; [cbn; lia|constructor]|].
  split; [intros x Hx; by apply not_elem_of_nil in Hx|].
  split; [done|]. split; [done|]. intros x Hx; by apply not_elem_of_nil in Hx.
Qed.

(** ** Commands that nobody answers *)

Definition timed (l : list cptr) : list cptr :=
  List.filter (fun p => 0 <? _timeout (snd p)) l.

Lemma expire_items U c p : distinct U -> cache_inv U c -> p ∈ items (_list c) -> fst p ∈ live c ->
  items (_list (command_step c (Expire p))) = erase_ptr p (items (_list c)).
Proof.
  intros HD Hinv Hp Hlive. cbn [command_step]. rewrite decide_True by assumption. cbn [item_timeout].
  set (c1 := if _timeout_function _ then _ else _).
  assert (E1 : _list c1 = _list c) by (unfold c1; by destruct (_timeout_function _)).
  assert (Ef : find_id c1 (snd p) = Some p).
  { unfold find_id. rewrite E1. exact (find_id_cached U c p HD Hinv Hp). }
  unfold remove. rewrite Ef. cbn. by rewrite E1, erase_item_law.
Qed.

(** The timers of the cached commands [l] expire one after the other. *)
Lemma expire_all U l : forall c, distinct U -> cache_inv U c -> _timeout_function c = true ->
  NoDup l -> (forall p, p ∈ l -> p ∈ items (_list c) /\ 0 < _timeout (snd p)) ->
  let c' := run c (map Expire l) in
  timed_out c' = (timed_out c ++ l)%list
  /\ (forall p, p ∈ items (_list c') <-> p ∈ items (_list c) /\ p ∉ l).
Proof.
  induction l as [|p l IH]; intros c HD Hinv Ht Hnd Hl; cbn [map].
  - split; [by rewrite app_nil_r|]. intros p. split; [intros Hp; split; [done|apply not_elem_of_nil]|tauto].
  - change (run c (Expire p :: map Expire l)) with (run (command_step c (Expire p)) (map Expire l)).
    destruct (Hl p (list_elem_of_here _ _)) as [Hp Hpos].
    pose proof Hinv as (_ & HU & _ & _ & Hlive). specialize (Hlive p Hp Hpos).
    destruct (expire_spec U c p HD (HU p Hp) Hinv Hlive) as (Hinv' & _ & Hto).
    pose proof (expire_items U c p HD Hinv Hp Hlive) as Hit.
    apply NoDup_cons in Hnd as [Hni Hnd].
    destruct (IH (command_step c (Expire p)) HD Hinv') as [E1 E2]; [|done| |].
    + rewrite <- Ht. apply step_settings.
    + intros q Hq. destruct (Hl q) as [Hin Hq']; [by right|]. split; [|done].
      rewrite Hit, elem_erase. split; [done|]. intros ->. done.
    + split; [by rewrite E1, Hto, Ht, <- app_assoc|]. intros q. rewrite E2, Hit, elem_erase, elem_of_cons.
      tauto.
Qed.


(** ** Commands handed over *)

Lemma deliver_eq st found : forall c, exists c',
  deliver c found st = (c', map (fun p => (fst p, set_status (snd p) st)) found).
Proof.
  induction found as [|i found IH]; intros c; cbn [deliver]; [by eexists|].
  unfold write_status. destruct (IH (insert (with_list c (write_item (_list c) (fst i, set_status (snd i) st)))
    (fst i, set_status (snd i) st))) as [c' E]. rewrite E. by eexists.
Qed.

(** A poll with a command in the cache hands over that command and everything
    after it in the index, also the commands of other entities and those that
    were delivered before: all are marked as delivered. *)
Theorem polled_to_the_end (c : CommandCache) (key : cmd) (st : Z) (q : cptr) :
  find_key unique_entity (_list c) (unique_entity key) = Some q ->
  exists c' rest,
    key_tail unique_entity (_list c) (unique_entity key) = (q :: rest)%list
    /\ unique_entity (snd q) = unique_entity key
    /\ get_by_entityV c key st
       = (c', Ret (map (fun p => (fst p, set_status (snd p) st)) (q :: rest)%list)).
Proof.
  intros Hq. destruct (key_tail_some _ _ _ _ Hq) as (rest & Et & _).
  destruct (deliver_eq st (q :: rest)%list c) as [c' E].
  exists c', rest. split; [exact Et|]. split; [by apply (find_key_some _ _ _ _ Hq)|].
  unfold get_by_entityV. rewrite Et. by rewrite E.
Qed.
End CommandCache.

Definition command_a : ptr (Command unit) :=
  (1%positive, set_timeout (new_command "1" "s" "/p" "10" "e" "u" tt) 10).
Definition command_b : ptr (Command unit) :=
  (2%positive, new_command "2" "s" "/p" "11" "e" "u" tt).
Definition sample_commands (p : ptr (Command unit)) : Prop := p = command_a \/ p = command_b.


Lemma sample_distinct : distinct sample_commands.
Proof. split; intros p q [-> | ->] [-> | ->]; intros E; (reflexivity || discriminate E). Qed.


(** The command of another entity is given to the one that polls. *)
Definition for_entity (id entity : string) : Command unit :=
  set_status (new_command id "s" "/p" id entity "u" tt) 0.

Definition two_commands : list (ptr (Command unit)) :=
  [(1%positive, for_entity "1" "lamp"); (2%positive, for_entity "2" "door")].

Lemma polled_to_the_end_witness :
  let c : @CommandCache unit _ list_container :=
    @with_list unit _ list_container (new_command_cache 5 false) two_commands in
  let key := set_status (new_key tt "lamp" "s" "/p") 0 in
  exists c', get_by_entityV (HB := boost_reference) c key 2
    = (c', Ret [(1%positive, set_status (for_entity "1" "lamp") 2);
                (2%positive, set_status (for_entity "2" "door") 2)]).
Proof.
  intros c key.
  destruct (@polled_to_the_end unit _ boost_reference list_container list_container_laws c key 2
    (1%positive, for_entity "1" "lamp") eq_refl) as (c' & rest & Et & _ & E).
  exists c'. assert (Hr : rest = [(2%positive, for_entity "2" "door")]).
  { vm_compute in Et. by injection Et as <-. }
  subst rest. exact E.
Defined.
