(* ===== verification/Json.v ===== *)
(** * JSON documents: [rapidjson/document.h] and [src/src/util/json_util.cc]

    The document object model of the vendored rapidjson, with the accessors
    the sources call, and the events of a serialisation.  A failed assertion
    of rapidjson is [Undefined].  The reader and the writer of JSON text are a
    parameter, [Rapidjson]. *)
From stdpp Require Import base tactics list gmap strings.
From Stdlib Require Import ZArith Lia Ascii String.
From S2P Require Import Prelude CppString Boost.

Local Open Scope string_scope.
Local Open Scope Z_scope.

(** [rapidjson::Value]; a number is kept as its literal. *)
Inductive json : Type :=
| JNull
| JBool (b : bool)
| JNumber (literal : string)
| JString (s : string)
| JArray (elements : list json)
| JObject (members : list (string * json)).

(** The calls a [Writer], or the handler of a [Document], receives. *)
Inductive event : Type :=
| StartObject
| EndObject
| StartArray
| EndArray
| EvString (s : string)
| EvNumber (literal : string)
| EvBool (b : bool)
| EvNull.

Class Rapidjson : Type := {
  (** [Document::Parse<0>] of a text, [None] with [HasParseError()] *)
  json_parse : string -> option json;
  (** the text of [GetParseError()] and [GetErrorOffset()] *)
  parse_error : string -> string;
  (** the text a [Writer] over a [StringBuffer] makes of the events *)
  json_text : list event -> string;
  (** [boost::lexical_cast<std::string>(GetDouble())] *)
  show_double : string -> string
}.

(** For the examples: a reader of the texts of a table. *)
Definition rapidjson_table (texts : list (string * json)) : Rapidjson := {|
  json_parse s := assoc texts s;
  parse_error _ := "error";
  json_text _ := "";
  show_double l := l
|}.

(** ** Accessors *)

Definition IsNull (v : json) : bool := match v with JNull => true | _ => false end.
Definition IsObject (v : json) : bool := match v with JObject _ => true | _ => false end.
Definition IsArray (v : json) : bool := match v with JArray _ => true | _ => false end.
Definition IsString (v : json) : bool := match v with JString _ => true | _ => false end.

(** [FindMember]: the first member with the name. *)
Fixpoint find_name (members : list (string * json)) (name : string) : option json :=
  match members with
  | [] => None
  | (n, v) :: rest => if String.eqb n name then Some v else find_name rest name
  end.

Definition FindMember (v : json) (name : string) : outcome (option json) :=
  match v with
  | JObject members => Ret (find_name members name)
  | _ => Undefined
  end.

Definition HasMember (v : json) (name : string) : outcome bool :=
  let! m := FindMember v name in Ret (match m with Some _ => true | None => false end).

(** [operator[]]: a null value without the member. *)
Definition member (v : json) (name : string) : outcome json :=
  let! m := FindMember v name in Ret (match m with Some w => w | None => JNull end).

(** [GetString] gives a C string, which ends at the first NUL. *)
Definition GetString (v : json) : outcome string :=
  match v with JString s => Ret (c_string s) | _ => Undefined end.

(** The elements [0 .. Size() - 1]. *)
Definition Elements (v : json) : outcome (list json) :=
  match v with JArray es => Ret es | _ => Undefined end.

(** ** Building a document from events *)

(** The events of a value ([Accept]). *)
Fixpoint accept (v : json) : list event :=
  match v with
  | JNull => [EvNull]
  | JBool b => [EvBool b]
  | JNumber l => [EvNumber l]
  | JString s => [EvString s]
  | JArray es => (StartArray :: List.concat (map accept es) ++ [EndArray])%list
  | JObject ms =>
      (StartObject :: List.concat (map (fun m => EvString (fst m) :: accept (snd m)) ms)
         ++ [EndObject])%list
  end.

(** The handler of [Document]: a stack of the values under construction; the
    values of the innermost open object or array come first, latest first.  On
    [EndObject] they are taken in pairs. *)
Record frame : Type := mkFrame { is_object : bool; values : list json }.

Fixpoint pair_up (vs : list json) : option (list (string * json)) :=
  match vs with
  | [] => Some []
  | JString n :: v :: rest =>
      match pair_up rest with Some ms => Some ((n, v) :: ms) | None => None end
  | _ => None
  end.

Definition push_value (v : json) (st : list frame) : option (list frame) :=
  match st with
  | f :: st' => Some (mkFrame (is_object f) (v :: values f) :: st')
  | [] => None
  end.

Definition handle (e : event) (st : list frame) : option (list frame) :=
  match e with
  | StartObject => Some (mkFrame true [] :: st)
  | StartArray => Some (mkFrame false [] :: st)
  | EndObject =>
      match st with
      | mkFrame true vs :: st' =>
          match pair_up (rev vs) with Some ms => push_value (JObject ms) st' | None => None end
      | _ => None
      end
  | EndArray =>
      match st with
      | mkFrame false vs :: st' => push_value (JArray (rev vs)) st'
      | _ => None
      end
  | EvString s => push_value (JString s) st
  | EvNumber l => push_value (JNumber l) st
  | EvBool b => push_value (JBool b) st
  | EvNull => push_value JNull st
  end.

Fixpoint run_events (evs : list event) (st : list frame) : option (list frame) :=
  match evs with
  | [] => Some st
  | e :: evs' => match handle e st with Some st' => run_events evs' st' | None => None end
  end.

(** The only value on the stack is the root. *)
Definition document (evs : list event) : option json :=
  match run_events evs [mkFrame false []] with
  | Some [mkFrame false [v]] => Some v
  | _ => None
  end.

(** ** Values as strings *)

(** [get_str_value] of [json_util.cc]. *)
Fixpoint get_str_value `{Rapidjson} (data : json) : string :=
  match data with
  | JNull => ""
  | JBool d => if d then "1" else "0"
  | JNumber l => show_double l
  | JString s => c_string s
  | JArray es =>
      (fix elements (first : bool) (res : string) (es : list json) : string :=
         match es with
         | [] => res
         | e :: es' =>
             if first then elements false (get_str_value e) es'
             else elements false (res ++ "|" ++ get_str_value e)%string es'
         end) true "" es
  | JObject _ => ""
  end.

(** ** Numbers

    A literal of digits within 64 bits is an integer, any other a double. *)

Definition number_int (literal : string) : option Z :=
  let '(negative, digits) :=
    match literal with
    | String c rest => if Ascii.eqb c "-" then (true, rest) else (false, literal)
    | EmptyString => (false, literal)
    end in
  if nonempty digits && str_forall isdigit digits then
    let z := if negative then - digits_value digits 0 else digits_value digits 0 in
    if (- 2 ^ 63 <=? z) && (z <? 2 ^ 64) then Some z else None
  else None.

Definition IsNumber (v : json) : bool := match v with JNumber _ => true | _ => false end.

Definition GetInt64 (v : json) : outcome Z :=
  match v with
  | JNumber l => match number_int l with
                 | Some z => if z <? 2 ^ 63 then Ret z else Undefined
                 | None => Undefined
                 end
  | _ => Undefined
  end.

Definition GetInt (v : json) : outcome Z :=
  let! z := GetInt64 v in
  if (- 2 ^ 31 <=? z) && (z <? 2 ^ 31) then Ret z else Undefined.

(** [GetType]. *)
Definition GetType (v : json) : Z :=
  match v with
  | JNull => 0 | JBool b => if b then 2 else 1 | JObject _ => 3 | JArray _ => 4 | JString _ => 5
  | JNumber _ => 6
  end.

(** ** Lemmas *)

Lemma GetString_eq s : no_nul s = true -> GetString (JString s) = Ret s.
Proof. intros H. cbn. by rewrite c_string_id. Qed.

Lemma run_events_app a b st :
  run_events (a ++ b) st = match run_events a st with Some st' => run_events b st' | None => None end.
Proof. revert st; induction a as [|e a IH]; intros st; cbn; [done|]. destruct (handle e st); [apply IH|done]. Qed.

Section JsonInduction.
  Variable P : json -> Prop.
  Hypothesis Hnull : P JNull.
  Hypothesis Hbool : forall b, P (JBool b).
  Hypothesis Hnum : forall l, P (JNumber l).
  Hypothesis Hstr : forall s, P (JString s).
  Hypothesis Harr : forall es, Forall P es -> P (JArray es).
  Hypothesis Hobj : forall ms, Forall (fun m => P (snd m)) ms -> P (JObject ms).

Fixpoint json_rect' (v : json) : P v :=
  match v with
  | JNull => Hnull
  | JBool b => Hbool b
  | JNumber l => Hnum l
  | JString s => Hstr s
  | JArray es =>
      Harr es ((fix all (l : list json) : Forall P l :=
                  match l with
                  | [] => Forall_nil_2 _
                  | x :: l' => Forall_cons_2 _ x l' (json_rect' x) (all l')
                  end) es)
  | JObject ms =>
      Hobj ms ((fix all (l : list (string * json)) : Forall (fun m => P (snd m)) l :=
                  match l with
                  | [] => Forall_nil_2 _
                  | x :: l' => Forall_cons_2 _ x l' (json_rect' (snd x)) (all l')
                  end) ms)
  end.
End JsonInduction.

(** Events that put one value on the stack. *)
Definition builds (evs : list event) (v : json) : Prop :=
  forall rest f st, run_events (evs ++ rest) (f :: st)
    = run_events rest (mkFrame (is_object f) (v :: values f) :: st).

Lemma builds_string s : builds [EvString s] (JString s).
Proof. intros rest f st. reflexivity. Qed.

(** A sequence of values, in an object or an array. *)
Lemma builds_seq {A} (ev : A -> list event) (dom : A -> json) (l : list A) :
  Forall (fun x => builds (ev x) (dom x)) l ->
  forall rest f st, run_events (List.concat (map ev l) ++ rest) (f :: st)
    = run_events rest (mkFrame (is_object f) (rev (map dom l) ++ values f) :: st).
Proof.
  induction 1 as [|x l Hx Hl IH]; intros rest f st; cbn; [by destruct f|].
  rewrite <- app_assoc, Hx, IH. cbn. by rewrite <- app_assoc.
Qed.

Lemma builds_array {A} (ev : A -> list event) (dom : A -> json) (l : list A) :
  Forall (fun x => builds (ev x) (dom x)) l ->
  builds (StartArray :: List.concat (map ev l) ++ [EndArray]) (JArray (map dom l)).
Proof.
  intros Hl rest f st. cbn. rewrite <- app_assoc, (builds_seq ev dom) by done.
  cbn. by rewrite app_nil_r, rev_involutive.
Qed.

Lemma builds_array_2 {A} (ev : A -> list event) (l : list A) (ws : list json) :
  Forall2 (fun x w => builds (ev x) w) l ws ->
  builds (StartArray :: List.concat (map ev l) ++ [EndArray]) (JArray ws).
Proof.
  intros H. assert (E : l = map fst (zip l ws) /\ ws = map snd (zip l ws)).
  { induction H; cbn; [done|]. by destruct IHForall2 as [<- <-]. }
  destruct E as [El Ew]. rewrite Ew. rewrite El at 1. rewrite map_map.
  apply (builds_array (fun p => ev (fst p)) snd). clear El Ew.
  induction H; cbn; [apply Forall_nil_2|by apply Forall_cons_2].
Qed.

(** The events of the members of an object. *)
Definition member_events {A} (ev : A -> list event) (ms : list (string * A)) : list event :=
  List.concat (map (fun m => EvString (fst m) :: ev (snd m)) ms).

Lemma pair_up_members ms :
  pair_up (List.concat (map (fun m => [JString (fst m); snd m]) ms)) = Some ms.
Proof. induction ms as [|[n v] ms IH]; cbn; [done|]. by rewrite IH. Qed.

Lemma builds_object {A} (ev : A -> list event) (dom : A -> json) (ms : list (string * A)) :
  Forall (fun m => builds (ev (snd m)) (dom (snd m))) ms ->
  builds (StartObject :: member_events ev ms ++ [EndObject])
    (JObject (map (fun m => (fst m, dom (snd m))) ms)).
Proof.
  intros Hms rest f st. cbn. unfold member_events. rewrite <- app_assoc.
  assert (H : forall f', run_events (List.concat (map (fun m => EvString (fst m) :: ev (snd m)) ms)
                ++ [EndObject] ++ rest) (f' :: f :: st)
    = run_events ([EndObject] ++ rest) (mkFrame (is_object f')
        (rev (List.concat (map (fun m => [JString (fst m); dom (snd m)]) ms)) ++ values f') :: f :: st)).
  { clear - Hms. generalize (([EndObject] ++ rest)%list) as rest'.
    induction Hms as [|[n a] ms Hm Hms IH]; intros rest' f'; cbn; [by destruct f'|].
    rewrite <- app_assoc. cbn in Hm. rewrite Hm, IH. cbn. by rewrite <- !app_assoc. }
  rewrite H. cbn. rewrite app_nil_r, rev_involutive.
  pose proof (pair_up_members (map (fun m => (fst m, dom (snd m))) ms)) as Hp.
  rewrite map_map in Hp. cbn in Hp. by rewrite Hp.
Qed.

Lemma accept_builds v : builds (accept v) v.
Proof.
  induction v as [| | | |es IH|ms IH] using json_rect'; try (intros rest f st; reflexivity).
  - pose proof (builds_array accept (fun x => x) es IH) as H. by rewrite map_id in H.
  - pose proof (builds_object accept (fun x => x) ms IH) as H.
    rewrite (map_ext _ (fun m => m)), map_id in H by (by intros []). exact H.
Qed.

Lemma builds_document evs v : builds evs v -> document evs = Some v.
Proof. intros H. unfold document. rewrite <- (app_nil_r evs), H. reflexivity. Qed.

#[export] Hint Resolve builds_string accept_builds : iota.
