(* ===== verification/Configurator.v ===== *)
(** * The configuration: [src/src/rest/riot_conf.cc]

    The configuration file as the agent keeps it: its first-level fields, its
    resources, each with its services, and the rules of access.  [Config] is
    what the rest of the agent asks of it, and [configurator_config] the
    configuration as an instance.  The file is a text that is there or not. *)
From stdpp Require Import base tactics list gmap strings.
From Stdlib Require Import ZArith Lia Ascii String.
From S2P Require Import Prelude CppString StdMap Boost Types Json.

Local Open Scope string_scope.
Local Open Scope Z_scope.

(** What the handlers ask of the configuration. *)
Class Config : Type := {
  config_get : string -> outcome json;
  config_get_map : string -> outcome (gmap string string);
  getService : string -> string -> string -> outcome json;
  getServicebyApiKey : string -> string -> outcome json;
  getAllServicePath : string -> string -> outcome (list string);
  getResourceObject : string -> outcome json;
  getHttpMessage : Z -> string;
  listen_ip : string;
  listen_port : Z;
  iotagent_name : string;
  iotagent_identifier : string
}.

(** [v.HasMember(name) && v[name].IsX()] *)
Definition has_of (test : json -> bool) (v : json) (name : string) : outcome bool :=
  let! m := FindMember v name in
  Ret (match m with Some w => test w | None => false end).

(** ** [src/src/util/json_util.h], [json_util.cc] *)

(** [get_value_from_rapidjson<std::string>]; [stream_double] is what a stream
    writes of a double. *)
Definition get_value_from_rapidjson `{Boost} (stream_double : string -> string) (value : json)
    : outcome string :=
  match value with
  | JBool b => Ret (if b then "1" else "0")
  | JNumber l =>
      match number_int l with
      | Some _ => let! z := GetInt64 value in Ret (lexical_cast z)
      | None => Ret (stream_double l)
      end
  | JString s => Ret (c_string s)
  | _ => Throw (IotaException RESPONSE_MESSAGE_INVALID_PARAMETER
                  ("Value " ++ lexical_cast (GetType value)
                   ++ " unknown for conversion [boolean, number, string] are valid types")
                  RESPONSE_CODE_BAD_REQUEST)
  end.

Fixpoint insert_members `{Boost} (stream_double : string -> string) (ms : list (string * json))
    (to_map : gmap string string) : outcome (gmap string string) :=
  match ms with
  | [] => Ret to_map
  | (name, v) :: rest =>
      let! text := get_value_from_rapidjson stream_double v in
      insert_members stream_double rest (emplace to_map (c_string name) text)
  end.

Definition get_map_from_rapidjson `{Boost} (stream_double : string -> string) (value : json)
    (to_map : gmap string string) : outcome (gmap string string) :=
  match value with
  | JObject ms => insert_members stream_double ms to_map
  | _ => Ret to_map
  end.

Section Configurator.
  Context `{HB : Boost} `{HJ : Rapidjson}.
  (** the text of a [PrettyWriter], and of [GetParseError()] *)
  Context (pretty : list event -> string) (get_parse_error : string -> string).

Record Resource : Type := mkResource {
  _root_fields : json;
  _services : gmap string json
}.

Record PepRule : Type := mkPepRule { verb : string; uri : string }.

Record Configurator : Type := mkConfigurator {
  _error : string;
  _document : json;
  c_root_fields : option json;
  _resources : gmap string Resource;
  _pep_rules : list (string * PepRule);
  _file : option string
}.

(** The constructor. *)
Definition new_configurator (file : option string) : Configurator :=
  mkConfigurator "error, no config file was initializated" JNull None ∅ [] file.

Definition set_error (e : string) (c : Configurator) : Configurator :=
  mkConfigurator e (_document c) (c_root_fields c) (_resources c) (_pep_rules c) (_file c).
Definition set_document (d : json) (c : Configurator) : Configurator :=
  mkConfigurator (_error c) d (c_root_fields c) (_resources c) (_pep_rules c) (_file c).
Definition set_root_fields (r : json) (c : Configurator) : Configurator :=
  mkConfigurator (_error c) (_document c) (Some r) (_resources c) (_pep_rules c) (_file c).
Definition set_resources (r : gmap string Resource) (c : Configurator) : Configurator :=
  mkConfigurator (_error c) (_document c) (c_root_fields c) r (_pep_rules c) (_file c).
Definition add_pep_rule (action : string) (rule : PepRule) (c : Configurator) : Configurator :=
  mkConfigurator (_error c) (_document c) (c_root_fields c) (_resources c)
    (_pep_rules c ++ [(action, rule)])%list (_file c).
Definition set_file (f : option string) (c : Configurator) : Configurator :=
  mkConfigurator (_error c) (_document c) (c_root_fields c) (_resources c) (_pep_rules c) f.

(** ** Resources *)

Definition no_service (details : string) : exn :=
  IotaException RESPONSE_MESSAGE_NO_SERVICE details RESPONSE_CODE_NO_SERVICE.

Definition resource_get (r : Resource) (f : string) : outcome json :=
  let! m := FindMember (_root_fields r) f in
  match m with
  | Some v => Ret v
  | None => Throw (IotaException RESPONSE_MESSAGE_DATA_NOT_FOUND
                     ("Field : not found[" ++ f ++ "]") RESPONSE_CODE_DATA_NOT_FOUND)
  end.

Definition add_service (r : Resource) (service : json) : outcome Resource :=
  let! s := member service CONF_FILE_SERVICE in
  let! name := GetString s in
  let! p := member service CONF_FILE_SERVICE_PATH in
  let! path := GetString p in
  Ret (mkResource (_root_fields r) (emplace (_services r) (name ++ ":" ++ path) service)).

(** The loops over the services, in the order of their keys. *)
Fixpoint find_apikey (services : list (string * json)) (apikey : string) : outcome json :=
  match services with
  | [] => Throw (no_service ("Service by ApiKey: not found[" ++ apikey ++ "]"))
  | (_, d) :: rest =>
      let! is_string := has_of IsString d CONF_FILE_APIKEY in
      if is_string then
        let! m := member d CONF_FILE_APIKEY in
        let! apk := GetString m in
        if String.eqb apk apikey then Ret d else find_apikey rest apikey
      else find_apikey rest apikey
  end.

Definition get_service_by_apikey (r : Resource) (apikey : string) : outcome json :=
  find_apikey (entries (_services r)) apikey.

Definition of_service (service : string) (kv : string * json) : bool :=
  starts_with (fst kv) (service ++ ":").

Definition get_all_servicepath (r : Resource) (service : string) : outcome (list string) :=
  omapM (fun kv => let! m := member (snd kv) Store.SERVICE_PATH in GetString m)
    (List.filter (of_service service) (entries (_services r))).

(** Without a service path: the only service of the name. *)
Fixpoint only_service (service : string) (services : list (string * json)) (found : option json)
    : outcome json :=
  match services with
  | [] => match found with
          | Some d => Ret d
          | None => Throw (no_service (" " ++ service ++ " /# "))
          end
  | kv :: rest =>
      if of_service service kv then
        match found with
        | Some _ => Throw (IotaException RESPONSE_MESSAGE_MORE_ONE_SERVICE
                             ("Service : more than one " ++ service ++ " ")
                             RESPONSE_CODE_MORE_ONE_SERVICE)
        | None => only_service service rest (Some (snd kv))
        end
      else only_service service rest found
  end.

Definition get_service (r : Resource) (service service_path : string) : outcome json :=
  if String.eqb service_path "" then only_service service (entries (_services r)) None
  else match _services r !! (service ++ ":" ++ service_path) with
       | Some d => Ret d
       | None => Throw (no_service ("Service not found[service:" ++ service ++ " service_path:"
                                      ++ service_path ++ "]"))
       end.

(** A value copied through its text. *)
Definition reparse (v : json) : option json := json_parse (c_string (pretty (accept v))).
Definition copy (v : json) : outcome json :=
  match reparse v with Some d => Ret d | None => Undefined end.

Definition members (v : json) : outcome (list (string * json)) :=
  match v with JObject ms => Ret ms | _ => Undefined end.

Definition get_value (r : Resource) : outcome json :=
  let! root := copy (_root_fields r) in
  let! ms := members root in
  let! services := omapM (fun kv => let! d := copy (snd kv) in
                                    let! ms := members d in Ret (JObject ms))
                     (entries (_services r)) in
  Ret (JObject (ms ++ [(CONF_FILE_SERVICES, JArray services)])%list).

(** ** Checks *)

Definition conf_error (what : string) : string := CONF_FILE_ERROR ++ " [" ++ what ++ "]".

(** The fields every service has, as strings. *)
Definition service_fields : list string :=
  [CONF_FILE_APIKEY; CONF_FILE_SERVICE; CONF_FILE_ENTITY_TYPE; CONF_FILE_SERVICE_PATH;
   CONF_FILE_CBROKER; CONF_FILE_TOKEN].

Fixpoint check_fields (service_obj : json) (fields : list string) : outcome string :=
  match fields with
  | [] => Ret ""
  | f :: rest =>
      let! ok := has_of IsString service_obj f in
      if ok then check_fields service_obj rest else Ret (conf_error f)
  end.

Definition check_service (service_obj : json) : outcome string :=
  check_fields service_obj service_fields.

Fixpoint check_services (services : list json) (resource : Resource) (error : string)
    : outcome (Resource * string) :=
  match services with
  | [] => Ret (resource, error)
  | s :: rest =>
      let text := c_string (pretty (accept s)) in
      match json_parse text with
      | None => check_services rest resource (conf_error (get_parse_error text))
      | Some service_d =>
          let! local_error := check_service service_d in
          if String.eqb local_error "" then
            let! resource := add_service resource service_d in
            check_services rest resource error
          else check_services rest resource local_error
      end
  end.

Definition without (name : string) (ms : list (string * json)) : list (string * json) :=
  List.filter (fun m => negb (String.eqb (c_string (fst m)) name)) ms.

Definition check_resource (resource_obj : json) : outcome (Resource * string) :=
  let! has := HasMember resource_obj CONF_FILE_RESOURCE in
  if negb has then Ret (mkResource (JObject []) ∅, CONF_FILE_ERROR ++ " [resource field not found]")
  else
    let! ms := members resource_obj in
    let resource := mkResource (JObject (without CONF_FILE_SERVICES ms)) ∅ in
    let! is_array := has_of IsArray resource_obj CONF_FILE_SERVICES in
    if is_array then
      let! services := member resource_obj CONF_FILE_SERVICES in
      let! es := Elements services in
      check_services es resource ""
    else Ret (resource, "").

(** ** Loading *)

Definition add_resource_object (resource : Resource) : M Configurator unit :=
  do! rn := slift (resource_get resource CONF_FILE_RESOURCE) in
  do! resource_name := slift (GetString rn) in
  smodify (fun c => set_resources (emplace (_resources c) resource_name resource) c).

Fixpoint check_resources (resources : list json) (error : string) : M Configurator string :=
  match resources with
  | [] => sret error
  | r :: rest =>
      if negb (IsObject r)
      then check_resources rest (CONF_FILE_ERROR ++ " [resource is not a JSON object]")
      else
        let text := c_string (pretty (accept r)) in
        match json_parse text with
        | None => check_resources rest (conf_error (get_parse_error text))
        | Some resource_d =>
            do! res := slift (check_resource resource_d) in
            if String.eqb (snd res) "" then
              run! add_resource_object (fst res) in
              check_resources rest error
            else check_resources rest (snd res)
        end
  end.

Fixpoint check_pep_rules (rules : list json) : M Configurator unit :=
  match rules with
  | [] => sret tt
  | r :: rest =>
      do! a := slift (has_of IsString r CONF_FILE_PEP_RULES_ACTION) in
      do! v := slift (if a then has_of IsString r CONF_FILE_PEP_RULES_VERB else Ret false) in
      do! u := slift (if v then has_of IsString r CONF_FILE_PEP_RULES_URI else Ret false) in
      if u then
        do! action := slift (let! m := member r CONF_FILE_PEP_RULES_ACTION in GetString m) in
        do! verb := slift (let! m := member r CONF_FILE_PEP_RULES_VERB in GetString m) in
        do! uri := slift (let! m := member r CONF_FILE_PEP_RULES_URI in GetString m) in
        run! smodify (add_pep_rule action (mkPepRule verb uri)) in
        check_pep_rules rest
      else check_pep_rules rest
  end.

Definition check_configuration_json (config_doc : json) : M Configurator string :=
  if negb (IsObject config_doc) then sret (CONF_FILE_ERROR ++ " [No JSON object]")
  else
    do! ms := slift (members config_doc) in
    let root := JObject (without CONF_FILE_RESOURCES ms) in
    run! smodify (set_root_fields root) in
    do! is_array := slift (has_of IsArray config_doc CONF_FILE_RESOURCES) in
    if negb is_array then sret (CONF_FILE_ERROR ++ " [resources is not a JSON array]")
    else
      do! es := slift (let! m := member config_doc CONF_FILE_RESOURCES in Elements m) in
      do! error := check_resources es "" in
      do! has_rules := slift (has_of IsArray root CONF_FILE_PEP_RULES) in
      run! (if has_rules then
              do! rules := slift (let! m := member root CONF_FILE_PEP_RULES in Elements m) in
              check_pep_rules rules
            else sret tt) in
      sret error.

Definition read_file (text : string) : M Configurator string :=
  match json_parse (c_string text) with
  | None =>
      let e := "Configurator: " ++ parse_error (c_string text) in
      run! smodify (set_error e) in sret e
  | Some tmp_doc =>
      do! e := check_configuration_json tmp_doc in
      run! smodify (set_error e) in
      run! smodify (set_document (if String.eqb e "" then tmp_doc else JNull)) in
      sret e
  end.

Definition reload : M Configurator unit :=
  do! c := sget in
  match _file c with
  | Some text => run! read_file text in sret tt
  | None => sret tt
  end.

Definition init (filename : string) : M Configurator unit :=
  do! c := sget in
  match _file c with
  | Some text => run! read_file text in sret tt
  | None => smodify (set_error ("File does not exists: " ++ c_string filename))
  end.

Definition write : M Configurator unit :=
  smodify (fun c => set_file (Some (pretty (accept (_document c)))) c).

(** [update_conf]; its handler reads the file again. *)
Definition update_conf (text : string) : M Configurator string := fun c =>
  match (do! resp := read_file text in
         run! (if String.eqb resp "" then write else reload) in sret resp) c with
  | (c, Throw _) => (run! reload in sret "") c
  | r => r
  end.

(** ** Requests *)

Definition of_resource {A} (c : Configurator) (resource : string) (f : Resource -> outcome A)
    (e : exn) : outcome A :=
  match _resources c !! resource with Some r => f r | None => Throw e end.

Definition conf_getServicebyApiKey (c : Configurator) (resource apiKey : string) : outcome json :=
  of_resource c resource (fun r => get_service_by_apikey r apiKey)
    (no_service ("Service by ApiKey: not found[" ++ resource ++ "," ++ apiKey ++ "]")).

Definition conf_getService (c : Configurator) (resource service service_path : string)
    : outcome json :=
  of_resource c resource (fun r => get_service r service service_path)
    (no_service ("Service by Service: not found[" ++ resource ++ "," ++ service ++ "]")).

Definition conf_getAllServicePath (c : Configurator) (resource service : string)
    : outcome (list string) :=
  of_resource c resource (fun r => get_all_servicepath r service)
    (IotaException CONF_FILE_SERVICE_PATH
       ("Service get all Service Path: not found[" ++ resource ++ "," ++ service ++ "]")
       RESPONSE_CODE_RECEIVER_INTERNAL_ERROR).

Definition conf_getResourceObject (c : Configurator) (resource : string) : outcome json :=
  of_resource c resource get_value (no_service ("Resource: not found[" ++ resource ++ "]")).

Definition getResource (c : Configurator) (resource : string) : outcome string :=
  let! v := conf_getResourceObject c resource in Ret (c_string (pretty (accept v))).

Definition conf_get (c : Configurator) (f : string) : outcome json :=
  let! root :=
    match c_root_fields c with
    | Some (JObject ms) => Ret (find_name ms f)
    | _ => Ret None
    end in
  match root with
  | Some v => Ret v
  | None =>
      let! r := (if String.eqb f CONF_FILE_RESOURCES
                 then FindMember (_document c) CONF_FILE_RESOURCES else Ret None) in
      match r with
      | Some v => Ret v
      | None => Throw (RuntimeError ("Not found[" ++ f ++ "]"))
      end
  end.

(** [get(field, to_map)] on an empty map. *)
Definition conf_get_map (stream_double : string -> string) (c : Configurator) (f : string)
    : outcome (gmap string string) :=
  match c_root_fields c with
  | Some (JObject ms) =>
      match find_name ms f with
      | Some v => get_map_from_rapidjson stream_double v ∅
      | None => Throw (IotaException RESPONSE_MESSAGE_DATA_NOT_FOUND ("Not found[" ++ f ++ "]")
                         RESPONSE_CODE_DATA_NOT_FOUND)
      end
  | _ => Throw (IotaException RESPONSE_MESSAGE_DATA_NOT_FOUND ("Not found[" ++ f ++ "]")
                  RESPONSE_CODE_DATA_NOT_FOUND)
  end.

(** [getAll] builds the document again when there is none. *)
Definition getAll : M Configurator string :=
  do! c := sget in
  run! (if negb (IsNull (_document c)) then sret tt
        else
          do! root := slift (match c_root_fields c with
                             | Some r => let! d := copy r in members d
                             | None => Ret []
                             end) in
          do! rs := slift (omapM (fun kv => let! v := get_value (snd kv) in
                                            let! d := copy v in
                                            let! ms := members d in Ret (JObject ms))
                             (entries (_resources c))) in
          smodify (set_document (JObject (root ++ [(CONF_FILE_RESOURCES, JArray rs)])%list))) in
  do! c := sget in
  sret (c_string (pretty (accept (_document c)))).

(** [add_resource] of a text; it answers the error. *)
Definition add_resource (resource_name text : string) : M Configurator string :=
  match json_parse (c_string text) with
  | None => sret (get_parse_error (c_string text))
  | Some d =>
      do! has := slift (HasMember d CONF_FILE_RESOURCE) in
      do! ms := slift (members d) in
      let d := if has then d
               else JObject (ms ++ [(CONF_FILE_RESOURCE, JString resource_name)])%list in
      do! res := slift (check_resource d) in
      if String.eqb (snd res) "" then
        run! smodify (fun c => set_resources (delete resource_name (_resources c)) c) in
        run! add_resource_object (fst res) in
        run! smodify (set_document JNull) in
        do! all := getAll in
        run! update_conf all in
        sret ""
      else sret (snd res)
  end.

Definition get_iotagent_identifier (c : Configurator) (identifier : string) : outcome string :=
  if String.eqb identifier "" then
    ocatch (let! v := conf_get c Store.IOTAGENT_ID in
            if IsString v then GetString v else Ret identifier)
      (fun _ => Ret identifier)
  else Ret identifier.

(** The configuration as the handlers see it; [identifier] is the value kept
    by [get_iotagent_identifier]. *)
Definition configurator_config (stream_double : string -> string) (c : Configurator)
    (messages : Z -> string)
    (ip : string) (port : Z) (name identifier : string) : Config := {|
  config_get := conf_get c;
  config_get_map := conf_get_map stream_double c;
  getService := conf_getService c;
  getServicebyApiKey := conf_getServicebyApiKey c;
  getAllServicePath := conf_getAllServicePath c;
  getResourceObject := conf_getResourceObject c;
  getHttpMessage := messages;
  listen_ip := ip;
  listen_port := port;
  iotagent_name := name;
  iotagent_identifier := identifier
|}.

(** ** A resource that is loaded stays *)

Definition loaded (name : string) (r : Resource) (c : Configurator) : Prop :=
  _resources c !! name = Some r.

Section Keeps.
  (** A property of the resources and their services. *)
  Variable P : gmap string Resource -> Prop.

Let Q (c : Configurator) : Prop := P (_resources c).

  Hypothesis add_resource_object_keeps : forall d res,
    check_resource d = Ret (res, "") -> preserves Q (add_resource_object res).

Lemma check_resources_keeps rs e : preserves Q (check_resources rs e).
Proof.
  revert e. induction rs as [|r rs IH]; intros e; cbn [check_resources]; auto with iota.
  destruct (negb (IsObject r)); [apply IH|].
  destruct (json_parse _) as [d|]; [|apply IH].
  apply preserves_lift_bind. intros [res err] Hres. cbn [fst snd].
  destruct (String.eqb err "") eqn:E; [|apply IH].
  apply String.eqb_eq in E. subst err.
  apply preserves_bind; [by eapply add_resource_object_keeps|auto].
Qed.

Lemma check_pep_rules_keeps rules : preserves Q (check_pep_rules rules).
Proof.
  induction rules as [|r rules IH]; cbn [check_pep_rules]; auto with iota.
  do 3 (apply preserves_bind; [apply preserves_lift|intros ?]).
  destruct a1; [|done].
  do 3 (apply preserves_bind; [apply preserves_lift|intros ?]).
  apply preserves_bind; [by apply preserves_modify|done].
Qed.

Lemma check_configuration_json_keeps d : preserves Q (check_configuration_json d).
Proof.
  unfold check_configuration_json. destruct (negb (IsObject d)); auto with iota.
  apply preserves_bind; [apply preserves_lift|intros ms].
  apply preserves_bind; [by apply preserves_modify|intros _].
  apply preserves_bind; [apply preserves_lift|intros is_array].
  destruct (negb is_array); auto with iota.
  apply preserves_bind; [apply preserves_lift|intros es].
  apply preserves_bind; [apply check_resources_keeps|intros error].
  apply preserves_bind; [apply preserves_lift|intros has_rules].
  apply preserves_bind; [|auto with iota]. destruct has_rules; auto with iota.
  apply preserves_bind; [apply preserves_lift|intros rules]. apply check_pep_rules_keeps.
Qed.

Lemma read_file_keeps text : preserves Q (read_file text).
Proof.
  unfold read_file. destruct (json_parse _) as [d|].
  - apply preserves_bind; [apply check_configuration_json_keeps|intros e].
    apply preserves_bind; [by apply preserves_modify|intros _].
    apply preserves_bind; [by apply preserves_modify|intros _]. auto with iota.
  - apply preserves_bind; [by apply preserves_modify|intros _]. auto with iota.
Qed.

Lemma reload_keeps : preserves Q reload.
Proof.
  unfold reload. apply preserves_bind; [auto with iota|intros c].
  destruct (_file c); [|auto with iota].
  apply preserves_bind; [apply read_file_keeps|auto with iota].
Qed.

Lemma init_keeps filename : preserves Q (init filename).
Proof.
  unfold init. apply preserves_bind; [auto with iota|intros c].
  destruct (_file c); [|by apply preserves_modify].
  apply preserves_bind; [apply read_file_keeps|auto with iota].
Qed.

Lemma update_conf_keeps text : preserves Q (update_conf text).
Proof.
  intros c Hc. unfold update_conf.
  assert (H : preserves Q (do! resp := read_file text in
         run! (if String.eqb resp "" then write else reload) in sret resp)).
  { apply preserves_bind; [apply read_file_keeps|intros resp].
    apply preserves_bind; [|auto with iota].
    destruct (String.eqb resp ""); [by apply preserves_modify|apply reload_keeps]. }
  specialize (H c Hc). revert H.
  match goal with |- context [(?f c).1] => destruct (f c) as [c' [x|e|]] end;
    cbn [fst] in *; [done| |done].
  revert c'. apply preserves_bind; [apply reload_keeps|auto with iota].
Qed.
End Keeps.

Lemma add_resource_object_loaded name r res :
  preserves (loaded name r) (add_resource_object res).
Proof.
  unfold add_resource_object. do 2 (apply preserves_bind; [apply preserves_lift|intros ?]).
  apply preserves_modify. intros c. apply emplace_old.
Qed.

(** C36. A configuration that is sent in place of the one in use changes no
    resource that was loaded. *)
Theorem update_conf_keeps_loaded text c name r :
  loaded name r c -> loaded name r (fst (update_conf text c)).
Proof.
  revert c. refine (update_conf_keeps (fun m => m !! name = Some r) _ text).
  intros d res _. apply add_resource_object_loaded.
Qed.

(** ** The services of a configuration *)

(** A service has the six fields as strings, and is under its own key. *)
Definition service_ok (key : string) (d : json) : Prop :=
  Forall (fun f => has_of IsString d f = Ret true) service_fields /\
  exists s p, member d CONF_FILE_SERVICE = Ret (JString s) /\
    member d CONF_FILE_SERVICE_PATH = Ret (JString p) /\ key = c_string s ++ ":" ++ c_string p.

Definition resource_ok (r : Resource) : Prop := map_Forall service_ok (_services r).

Definition configuration_ok (rs : gmap string Resource) : Prop :=
  map_Forall (fun _ => resource_ok) rs.

Lemma check_fields_ok d fs : check_fields d fs = Ret "" ->
  Forall (fun f => has_of IsString d f = Ret true) fs.
Proof.
  induction fs as [|f fs IH]; cbn [check_fields]; intros H; [apply Forall_nil_2|].
  destruct (has_of IsString d f) as [[]|e|] eqn:E; cbn in H; try done.
  apply Forall_cons_2; auto.
Qed.

Lemma has_string d f : has_of IsString d f = Ret true ->
  exists s, member d f = Ret (JString s).
Proof.
  unfold has_of, member. destruct (FindMember d f) as [[v|]|e|]; cbn; try done.
  destruct v; cbn; try done. by eexists.
Qed.

Lemma add_service_ok r d r' :
  check_service d = Ret "" -> add_service r d = Ret r' -> resource_ok r -> resource_ok r'.
Proof.
  intros Hd Ha Hr. apply check_fields_ok in Hd.
  assert (Hs := Hd). assert (Hp := Hd). unfold service_fields in Hs, Hp.
  rewrite !Forall_cons in Hs. destruct Hs as (_ & Hs & _ & Hp' & _).
  destruct (has_string _ _ Hs) as [s Es]. destruct (has_string _ _ Hp') as [p Ep].
  unfold add_service in Ha. rewrite Es in Ha. cbn [obind GetString] in Ha.
  rewrite Ep in Ha. cbn [obind GetString] in Ha. simplify_eq.
  intros k v Hv. cbn [_services] in Hv. rewrite lookup_emplace in Hv.
  case_bool_decide as Hk; [|by apply Hr]. subst k. simplify_eq.
  destruct (_services r !! _) as [w|] eqn:E; cbn; [by apply Hr|].
  split; [done|]. by exists s, p.
Qed.

Lemma check_services_ok ss r e r' e' :
  check_services ss r e = Ret (r', e') -> resource_ok r -> resource_ok r'.
Proof.
  revert r e. induction ss as [|s ss IH]; intros r e; cbn [check_services]; intros H Hr;
    [by simplify_eq|].
  destruct (json_parse _) as [d|]; [|by eapply IH].
  destruct (check_service d) as [le|x|] eqn:Ec; cbn [obind] in H; try done.
  destruct (String.eqb le "") eqn:El; [|by eapply IH].
  apply String.eqb_eq in El. subst le.
  destruct (add_service r d) as [r1|x|] eqn:Ea; cbn [obind] in H; try done.
  eapply IH; [done|]. by eapply add_service_ok.
Qed.

Lemma check_resource_ok d r e : check_resource d = Ret (r, e) -> resource_ok r.
Proof.
  unfold check_resource. intros H.
  destruct (HasMember _ _) as [[]|x|]; cbn [obind negb] in H; try done;
    [|simplify_eq; apply map_Forall_empty].
  destruct (members d) as [ms|x|]; cbn [obind] in H; try done.
  destruct (has_of _ _ _) as [[]|x|]; cbn [obind] in H; try done;
    [|simplify_eq; apply map_Forall_empty].
  destruct (member _ _) as [ss|x|]; cbn [obind] in H; try done.
  destruct (Elements ss) as [es|x|]; cbn [obind] in H; try done.
  eapply check_services_ok; [done|]. apply map_Forall_empty.
Qed.

Lemma add_resource_object_ok r : resource_ok r ->
  preserves (fun c => configuration_ok (_resources c)) (add_resource_object r).
Proof.
  intros Hr. unfold add_resource_object.
  do 2 (apply preserves_bind; [apply preserves_lift|intros ?]).
  apply preserves_modify. intros c Hc k v. cbn [_resources set_resources].
  rewrite lookup_emplace. case_bool_decide; [|apply Hc]. intros ?; simplify_eq.
  destruct (_resources c !! _) eqn:E; cbn; [by eapply Hc|done].
Qed.

Lemma loads_ok d r : check_resource d = Ret (r, "") ->
  preserves (fun c => configuration_ok (_resources c)) (add_resource_object r).
Proof. intros H. apply add_resource_object_ok. by eapply check_resource_ok. Qed.

(** [add_resource] with the effect on the resources. *)
Lemma add_resource_ok name text :
  preserves (fun c => configuration_ok (_resources c)) (add_resource name text).
Proof.
  unfold add_resource. destruct (json_parse _) as [d|]; [|auto with iota].
  apply preserves_bind; [apply preserves_lift|intros has].
  apply preserves_bind; [apply preserves_lift|intros ms].
  apply preserves_lift_bind. intros [r e] Hr. cbn [fst snd].
  destruct (String.eqb e "") eqn:E; [|auto with iota].
  apply preserves_bind; [|intros _].
  { apply preserves_modify. intros c Hc. by apply map_Forall_delete. }
  apply preserves_bind; [apply add_resource_object_ok; by eapply check_resource_ok|intros _].
  apply preserves_bind; [by apply preserves_modify|intros _].
  apply preserves_bind; [|intros all].
  { unfold getAll. apply preserves_bind; [auto with iota|intros c].
    apply preserves_bind; [|auto with iota]. destruct (negb _); [auto with iota|].
    do 2 (apply preserves_bind; [apply preserves_lift|intros ?]). by apply preserves_modify. }
  apply preserves_bind; [apply (update_conf_keeps configuration_ok), loads_ok|auto with iota].
Qed.

(** The calls of the services of administration on the configuration. *)
Inductive conf_call : Type :=
| Init (filename : string)
| UpdateConf (text : string)
| Reload
| AddResource (name text : string).

Definition conf_run (call : conf_call) (c : Configurator) : Configurator :=
  match call with
  | Init f => fst (init f c)
  | UpdateConf text => fst (update_conf text c)
  | Reload => fst (reload c)
  | AddResource name text => fst (add_resource name text c)
  end.

(** C37. Whatever is loaded, by any calls: each service in the configuration has
    its fields as strings, and is kept under the name and the path it gives. *)
Theorem services_well_formed file calls :
  configuration_ok (_resources (fold_left (fun c call => conf_run call c) calls
                                  (new_configurator file))).
Proof.
  assert (H : configuration_ok (_resources (new_configurator file))) by apply map_Forall_empty.
  revert H. generalize (new_configurator file) as c.
  induction calls as [|call calls IH]; intros c Hc; [done|]. cbn. apply IH.
  destruct call; cbn [conf_run].
  - by apply (init_keeps configuration_ok loads_ok).
  - by apply (update_conf_keeps configuration_ok loads_ok).
  - by apply (reload_keeps configuration_ok loads_ok).
  - by apply add_resource_ok.
Qed.
End Configurator.

(** ** Asking for a service *)

Section Services.
  Context `{HB : Boost} `{HL : !BoostLaws HB}.

Definition named (service : string) (d : json) : Prop :=
  exists s, member d CONF_FILE_SERVICE = Ret (JString s) /\ c_string s = service.

(** The names of the services hold no colon, which separates the name and the
    path in the key. *)
Definition plain_names (r : Resource) : Prop :=
  forall k d s, _services r !! k = Some d -> named s d -> no_char ":" s = true.

Lemma of_service_named r service k d :
  resource_ok r -> plain_names r -> no_char ":" service = true -> _services r !! k = Some d ->
  of_service service (k, d) = true <-> named service d.
Proof.
  intros Hr Hn Hs Hd. destruct (Hr k d Hd) as [_ (s & p & Es & _ & ->)].
  assert (H : named (c_string s) d) by (by exists s).
  unfold of_service. cbn [fst]. rewrite starts_with_law.
  change (c_string s ++ ":" ++ c_string p) with (c_string s ++ String ":" (c_string p)).
  rewrite prefix_mark by eauto. unfold named. rewrite Es. split; [intros ->; eauto|].
  intros (s' & E & Hs'). by simplify_eq.
Qed.

Lemma only_service_filter service l :
  only_service service l None
  = match List.filter (of_service service) l with
    | [] => Throw (no_service (" " ++ service ++ " /# "))
    | [(_, d)] => Ret d
    | _ => Throw (IotaException RESPONSE_MESSAGE_MORE_ONE_SERVICE
                    ("Service : more than one " ++ service ++ " ") RESPONSE_CODE_MORE_ONE_SERVICE)
    end.
Proof.
  assert (H : forall l d, only_service service l (Some d)
    = match List.filter (of_service service) l with
      | [] => Ret d
      | _ => Throw (IotaException RESPONSE_MESSAGE_MORE_ONE_SERVICE
               ("Service : more than one " ++ service ++ " ") RESPONSE_CODE_MORE_ONE_SERVICE)
      end).
  { intros l' d. induction l' as [|kv l' IH]; cbn; [done|]. by destruct (of_service service kv). }
  induction l as [|[k d] l IH]; cbn [only_service List.filter]; [done|].
  destruct (of_service service (k, d)); [|exact IH]. rewrite H.
  by destruct (List.filter (of_service service) l).
Qed.

(** The services of a name, in the order of the keys. *)
Lemma elem_of_services r service k d :
  resource_ok r -> plain_names r -> no_char ":" service = true ->
  (k, d) ∈ List.filter (of_service service) (entries (_services r))
  <-> _services r !! k = Some d /\ named service d.
Proof.
  intros Hr Hn Hs. rewrite list_elem_of_In, filter_In, <- list_elem_of_In, elem_of_entries.
  split; intros [H1 H2]; (split; [done|]); by apply (of_service_named r service k d).
Qed.

(** Without a path, a service is found by its name when no other service of
    the resource has it; two of them, or none, are told apart by the code. *)
Theorem get_service_by_name_only r service
    (Hok : resource_ok r) (Hplain : plain_names r) (Hs : no_char ":" service = true) :
  (forall k d, _services r !! k = Some d -> named service d ->
     (forall k' d', _services r !! k' = Some d' -> named service d' -> k' = k) ->
     get_service r service "" = Ret d) /\
  (forall k k' d d', _services r !! k = Some d -> _services r !! k' = Some d' -> k <> k' ->
     named service d -> named service d' ->
     get_service r service "" = Throw (IotaException RESPONSE_MESSAGE_MORE_ONE_SERVICE
       ("Service : more than one " ++ service ++ " ") RESPONSE_CODE_MORE_ONE_SERVICE)) /\
  ((forall k d, _services r !! k = Some d -> ~ named service d) ->
     get_service r service "" = Throw (no_service (" " ++ service ++ " /# "))).
Proof.
  pose proof (fun k d => elem_of_services r service k d Hok Hplain Hs) as Hin.
  assert (Hnd : NoDup (List.filter (of_service service) (entries (_services r))).*1)
    by apply NoDup_fst_filter, entries_keys.
  unfold get_service. change (String.eqb "" "") with true. cbn [negb]. rewrite only_service_filter.
  destruct (List.filter _ _) as [|[k1 d1] [|[k2 d2] l]].
  - repeat split.
    + intros k d Hk Hd. exfalso. apply (not_elem_of_nil (k, d)), Hin. done.
    + intros k k' d d' Hk _ _ Hd. exfalso. apply (not_elem_of_nil (k, d)), Hin. done.
  - destruct (proj1 (Hin k1 d1)) as [H1 N1]; [set_solver|]. repeat split.
    + intros k d Hk Hd _. assert (H : (k, d) ∈ [(k1, d1)]) by (by apply Hin).
      apply list_elem_of_singleton in H. by simplify_eq.
    + intros k k' d d' Hk Hk' Hne Hd Hd'. assert (H : (k, d) ∈ [(k1, d1)]) by (by apply Hin).
      assert (H' : (k', d') ∈ [(k1, d1)]) by (by apply Hin).
      apply list_elem_of_singleton in H, H'. by simplify_eq.
    + intros H. by destruct (H k1 d1).
  - destruct (proj1 (Hin k1 d1)) as [H1 N1]; [set_solver|].
    destruct (proj1 (Hin k2 d2)) as [H2 N2]; [set_solver|]. repeat split.
    + intros k d Hk Hd Hu. exfalso. rewrite (Hu k1 d1), (Hu k2 d2) in Hnd by done.
      apply NoDup_cons in Hnd as [Hnd _]. apply Hnd. cbn. set_solver.
    + intros H. by destruct (H k1 d1).
Qed.
End Services.

(** ** Examples *)

(** A text for each sequence of events. *)
Definition event_text (e : event) : string :=
  match e with
  | StartObject => "{" | EndObject => "}" | StartArray => "[" | EndArray => "]"
  | EvString s => "'" ++ s ++ "'" | EvNumber l => l | EvBool b => if b then "1" else "0"
  | EvNull => "null"
  end.
Definition events_text (es : list event) : string := String.concat "" (map event_text es).

Definition example_service (apikey path : string) : json :=
  JObject [(CONF_FILE_APIKEY, JString apikey); (CONF_FILE_SERVICE, JString "smart");
           (CONF_FILE_ENTITY_TYPE, JString "thing"); (CONF_FILE_SERVICE_PATH, JString path);
           (CONF_FILE_CBROKER, JString "cb"); (CONF_FILE_TOKEN, JString "t")].

Definition example_resource (services : list json) : json :=
  JObject [(CONF_FILE_RESOURCE, JString "/iot/d"); (CONF_FILE_SERVICES, JArray services)].

Definition example_json (services : list json) : Rapidjson :=
  rapidjson_table
    (("conf", JObject [(CONF_FILE_RESOURCES, JArray [example_resource services])])
     :: (events_text (accept (example_resource services)), example_resource services)
     :: map (fun s => (events_text (accept s), s)) services)%list.

Definition example_configuration (services : list json) (c : Configurator) : Configurator :=
  fst (update_conf (HJ := example_json services) events_text (fun _ => "error") "conf" c).

(** A configuration with the key of the service changed: the agent goes on
    with the old one. *)
Lemma update_conf_keeps_loaded_witness :
  let c := example_configuration [example_service "old" "/"] (new_configurator None) in
  let c' := example_configuration [example_service "new" "/"] c in
  conf_getServicebyApiKey c' "/iot/d" "old" = Ret (example_service "old" "/") /\
  returns (conf_getServicebyApiKey c' "/iot/d" "new") = false /\
  forall r, loaded "/iot/d" r c -> loaded "/iot/d" r c'.
Proof.
  cbv zeta. split; [vm_compute; reflexivity|]. split; [vm_compute; reflexivity|].
  intros r. apply (update_conf_keeps_loaded (HJ := example_json [example_service "new" "/"])
    events_text (fun _ => "error") "conf").
Defined.

Definition two_paths : Resource :=
  match check_resource (HJ := example_json [example_service "k" "/a"; example_service "k" "/b"])
          events_text (fun _ => "error")
          (example_resource [example_service "k" "/a"; example_service "k" "/b"]) with
  | Ret (r, _) => r
  | _ => mkResource JNull ∅
  end.

Lemma two_paths_services k d : _services two_paths !! k = Some d ->
  exists p, k = "smart:" ++ c_string p /\ d = example_service "k" p.
Proof.
  intros H. apply elem_of_map_to_list in H.
  rewrite <- entries_perm in H.
  assert (E : entries (_services two_paths) =
    map (fun p => ("smart:" ++ p, example_service "k" p)) ["/a"; "/b"])
    by (vm_compute; reflexivity).
  rewrite E in H. clear E.
  apply list_elem_of_fmap in H as (p & E & Hp). exists p.
  simplify_eq. rewrite c_string_id; [done|].
  apply list_elem_of_In in Hp. by destruct Hp as [<-|[<-|[]]].
Qed.

Lemma get_service_by_name_only_witness :
  get_service (HB := boost_reference) two_paths "smart" ""
  = Throw (IotaException RESPONSE_MESSAGE_MORE_ONE_SERVICE "Service : more than one smart "
             RESPONSE_CODE_MORE_ONE_SERVICE) /\
  get_service (HB := boost_reference) two_paths "city" "" = Throw (no_service " city /# ").
Proof.
  assert (Hok : resource_ok two_paths).
  { intros k d H. destruct (two_paths_services k d H) as (p & -> & ->). split.
    - repeat apply Forall_cons_2; try apply Forall_nil_2; reflexivity.
    - exists "smart", p. repeat split. }
  assert (Hn : plain_names two_paths).
  { intros k d s H (s' & Es & <-). destruct (two_paths_services k d H) as (p & _ & ->).
    change (member (example_service "k" p) CONF_FILE_SERVICE) with (Ret (JString "smart")) in Es.
    by simplify_eq. }
  assert (Na : forall p, named "smart" (example_service "k" p)) by (by exists "smart").
  split.
  - destruct (get_service_by_name_only (HB := boost_reference)
      (HL := boost_reference_laws) two_paths "smart" Hok Hn eq_refl) as (_ & H & _).
    by apply (H "smart:/a" "smart:/b" (example_service "k" "/a") (example_service "k" "/b")).
  - destruct (get_service_by_name_only (HB := boost_reference)
      (HL := boost_reference_laws) two_paths "city" Hok Hn eq_refl) as (_ & _ & H).
    apply H. intros k d Hk (s & Es & Hs). destruct (two_paths_services k d Hk) as (p & _ & ->).
    change (member (example_service "k" p) CONF_FILE_SERVICE) with (Ret (JString "smart")) in Es.
    by simplify_eq.
Defined.
