(* ===== verification/DevFile.v ===== *)
(** * The file of devices: [src/src/util/dev_file.cc]

    The devices written in a file, read into the cache when the process
    starts: the ones before the first that cannot be read. *)
From stdpp Require Import base tactics list gmap strings.
From Stdlib Require Import ZArith Lia Ascii String.
From S2P Require Import Prelude CppString StdMap Boost Types Json Configurator MultiIndex Cache Device.

Local Open Scope string_scope.
Local Open Scope Z_scope.

Section DevFile.
  Context `{HB : Boost} `{HJ : Rapidjson} `{CD : !Container Device}.
  (** what a stream writes of a double, and [GetParseError()] with the offset *)
  Context (stream_double : string -> string) (get_parse_error : string -> string).

Local Abbreviation value_of := (get_value_from_rapidjson stream_double).

(** [_document] is null until a file is read. *)
Record DevicesFile : Type := mkDevicesFile {
  _document : json;
  _error : string
}.

Definition new_devices_file : DevicesFile :=
  mkDevicesFile JNull "error, no config file was initializated".

(** [read_file]: a document that cannot be parsed is null. *)
Definition read_file (text : string) : DevicesFile :=
  match json_parse (c_string text) with
  | Some d => mkDevicesFile d ""
  | None => mkDevicesFile JNull ("DevicesFile: " ++ get_parse_error (c_string text))
  end.

(** [init]: [content] is what the file holds, if there is one. *)
Definition init (filename : string) (content : option string) (f : DevicesFile)
    : DevicesFile * outcome unit :=
  match content with
  | Some text => (read_file text, Ret tt)
  | None =>
      let error := "File does not exists: " ++ filename in
      (mkDevicesFile (_document f) error,
       Throw (IotaException (RESPONSE_MESSAGE_INVALID_PARAMETER ++ " [" ++ filename ++ "]") error
                RESPONSE_CODE_RECEIVER_INTERNAL_ERROR))
  end.

(** [if (v.HasMember(name)) x = get_value_from_rapidjson<std::string>(v[name])] *)
Definition value_if (v : json) (name : string) : outcome string :=
  let! has := HasMember v name in
  if has then let! m := member v name in value_of m else Ret "".

(** A loop over the elements of a member that may be absent. *)
Definition each (step : json -> gmap string string -> outcome (gmap string string)) (v : json)
    (name : string) : outcome (gmap string string) :=
  let! has := HasMember v name in
  if has then
    let! m := member v name in
    let! es := Elements m in
    fold_left (fun acc e => let! acc := acc in step e acc) es (Ret ∅)
  else Ret ∅.

Definition read_command (e : json) (commands : gmap string string) : outcome (gmap string string) :=
  let! n := member e Store.NAME in
  let! attr_name := value_of n in
  let! c := member e Store.COMMAND in
  let! attr_cmd := value_of c in
  Ret (emplace commands attr_name attr_cmd).

Definition quoted (s : string) : string := String "034" s ++ String "034" "".

(** The text kept for a mapping. *)
Definition mapping_text (attr_type attr_attr : string) : string :=
  "{"
  ++ (if negb (String.eqb attr_type "") then quoted "type" ++ ":" ++ quoted attr_type ++ "," else "")
  ++ (if negb (String.eqb attr_attr "") then quoted "name" ++ ":" ++ quoted attr_attr else "")
  ++ "}".

Definition read_attribute (e : json) (attributes : gmap string string)
    : outcome (gmap string string) :=
  let! attr_name := value_if e Store.ATTRIBUTE_ID in
  let! attr_attr := value_if e Store.NAME in
  let! attr_type := value_if e Store.TYPE in
  Ret (emplace attributes attr_name (mapping_text attr_type attr_attr)).

Definition read_static (e : json) (statics : gmap string string) : outcome (gmap string string) :=
  let! n := member e Store.NAME in
  let! attr_name := value_of n in
  Ret (emplace statics attr_name (c_string (json_text (accept e)))).

(** One device of the file. *)
Definition read_device (v : json) : outcome Device :=
  let! i := member v Store.DEVICE_ID in
  let! id := value_of i in
  let! type := value_if v Store.ENTITY_TYPE in
  let! endpoint := value_if v Store.ENDPOINT in
  let! timezone := value_if v Store.TIMEZONE in
  let! entity := value_if v Store.ENTITY_NAME in
  let! service := value_if v Store.SERVICE in
  let! service_path := value_if v Store.SERVICE_PATH in
  let service_path := if String.eqb service_path "" then FIWARE_SERVICEPATH_DEFAULT
                      else service_path in
  let! status := value_if v Store.STATUS in
  let active := if negb (String.eqb status "") && String.eqb status Store.INACTIVE then 0 else 1 in
  let! commands := each read_command v Store.COMMANDS in
  let! attributes := each read_attribute v Store.ATTRIBUTES in
  let! statics := each read_static v Store.STATIC_ATTRIBUTES in
  let item := new_device_entity entity type service in
  Ret (mkDevice id (_protocol item) service service_path type entity timezone endpoint attributes
         commands statics (_lazy item) (_model item) active (_registration_id item)
         (_duration_cb item) (_timestamp_data item)).

(** The loop of [parse_to_cache]: each device is inserted when it is read, as a
    new object. *)
Fixpoint insert_devices (devices : list json) (s : Cache * positive)
    : (Cache * positive) * outcome unit :=
  match devices with
  | [] => (s, Ret tt)
  | v :: rest =>
      match read_device v with
      | Ret d => insert_devices rest (Cache.insert (fst s) (snd s, d), Pos.succ (snd s))
      | Throw e => (s, Throw e)
      | Undefined => (s, Undefined)
      end
  end.

(** [_document.IsObject() && _document.HasMember(DEVICES)], and the member. *)
Definition devices_member (f : DevicesFile) : option json :=
  match _document f with
  | JObject ms => find_name ms Store.DEVICES
  | _ => None
  end.

(** [parse_to_cache]; what is thrown is only logged. *)
Definition parse_to_cache (f : DevicesFile) (s : Cache * positive)
    : (Cache * positive) * outcome unit :=
  match devices_member f with
  | Some (JArray devices) =>
      match insert_devices devices s with
      | (s, Throw _) => (s, Ret tt)
      | r => r
      end
  | _ => (s, Ret tt)
  end.

(** [getDevicesObject]: without the member it returns nothing, a reference
    that is not defined. *)
Definition getDevicesObject (f : DevicesFile) : outcome json :=
  match devices_member f with
  | Some v => Ret v
  | None => Undefined
  end.

(** ** Which devices are loaded *)

(** The devices of a file that can be read. *)
Definition inserted (s : Cache * positive) (ds : list Device) : Cache * positive :=
  fold_left (fun s d => (Cache.insert (fst s) (snd s, d), Pos.succ (snd s))) ds s.

Lemma insert_devices_app vs ds rest s :
  Forall2 (fun v d => read_device v = Ret d) vs ds ->
  insert_devices (vs ++ rest) s = insert_devices rest (inserted s ds).
Proof.
  intros H. revert s. induction H as [|v d vs ds Hv _ IH]; intros s; [done|].
  cbn [app insert_devices]. by rewrite Hv, IH.
Qed.

(** The devices of the file are inserted in order up to the first that
    throws; that one and the ones after it are not in the cache, and no error
    is given.  With all of them readable, all are inserted. *)
Theorem parse_to_cache_stops (ms : list (string * json)) (error : string) (vs rest : list json)
    (ds : list Device) (s : Cache * positive) :
  find_name ms Store.DEVICES = Some (JArray (vs ++ rest)) ->
  Forall2 (fun v d => read_device v = Ret d) vs ds ->
  match rest with
  | [] => True
  | v :: _ => exists e, read_device v = Throw e
  end ->
  parse_to_cache (mkDevicesFile (JObject ms) error) s = (inserted s ds, Ret tt).
Proof.
  intros Hf Hvs Hrest. unfold parse_to_cache, devices_member. cbn [_document]. rewrite Hf.
  rewrite (insert_devices_app _ _ _ _ Hvs). destruct rest as [|v rest]; [done|].
  destruct Hrest as [e He]. cbn [insert_devices]. by rewrite He.
Qed.
End DevFile.

(** ** An example *)

Section Examples.
  Local Existing Instance boost_reference.

#[local] Instance file_json : Rapidjson := {|
  json_parse _ := None; parse_error _ := ""; json_text _ := ""; show_double l := l
|}.

Definition device_entry (id service : string) : json :=
  JObject [("device_id", JString id); ("service", JString service);
           ("attributes", JArray [JObject [("object_id", JString "t"); ("type", JString "number")]])].

(** The mapping of an attribute with a type and no name is not JSON: a comma
    precedes the brace. *)
Example mapping_without_name :
  mapping_text "number" "" = "{" ++ quoted "type" ++ ":" ++ quoted "number" ++ ",}".
Proof. reflexivity. Qed.

Lemma parse_to_cache_stops_witness :
  let file := mkDevicesFile (JObject [("devices", JArray [device_entry "a" "s"; JObject []; device_entry "b" "s"])]) "" in
  let empty := (Cache.new_cache (Ct := list_container) 5 true 0, 1%positive) in
  exists d, read_device (fun l => l) (device_entry "a" "s") = Ret d /\ _name d = "a"
  /\ parse_to_cache (CD := list_container) (fun l => l) file empty
     = (inserted (CD := list_container) empty [d], Ret tt).
Proof.
  intros file empty. eexists. split; [vm_compute; reflexivity|]. split; [reflexivity|].
  apply (parse_to_cache_stops (CD := list_container) (fun l => l) _ "" [device_entry "a" "s"]
           [JObject []; device_entry "b" "s"]).
  - reflexivity.
  - constructor; [reflexivity|constructor].
  - eexists. reflexivity.
Defined.
End Examples.
