(* ===== verification/NgsiAttribute.v ===== *)
(** * NGSI attributes: [src/src/ngsi/Attribute.h], [Attribute.cc]

    An attribute with its metadata and compound values, its constructors, from
    fields and from JSON, and its serialisation. *)
From stdpp Require Import base tactics list gmap strings.
From Stdlib Require Import ZArith Lia Ascii String.
From S2P Require Import Prelude CppString Boost Types FuncUtil Json.

Local Open Scope string_scope.
Local Open Scope Z_scope.

#[local] Arguments render_identifier : simpl never.

Definition EMPTY_VALUE : string := " ".

Inductive Attribute : Type :=
| mkAttribute (_name _type _value : string) (_metadata _value_compound : list Attribute)
    (_compound_as_object : bool).

Definition get_name (a : Attribute) : string := let '(mkAttribute n _ _ _ _ _) := a in n.
Definition get_type (a : Attribute) : string := let '(mkAttribute _ t _ _ _ _) := a in t.
Definition get_value (a : Attribute) : string := let '(mkAttribute _ _ v _ _ _) := a in v.
Definition get_metadatas (a : Attribute) : list Attribute :=
  let '(mkAttribute _ _ _ m _ _) := a in m.
Definition get_value_compound (a : Attribute) : list Attribute :=
  let '(mkAttribute _ _ _ _ c _) := a in c.
Definition compound_object (a : Attribute) : bool := let '(mkAttribute _ _ _ _ _ o) := a in o.

Definition or_empty_value (s : string) : string := if String.eqb s "" then EMPTY_VALUE else s.

Section Attribute.
  Context `{Boost} `{Rapidjson}.

(** ** Constructors from fields *)

Definition new_attribute (name type value : string) : Attribute :=
  mkAttribute (if String.eqb name "" then EMPTY_VALUE else render_identifier name)
    (render_identifier type) (or_empty_value value) [] [] false.

Definition new_attribute_no_value (name type : string) : Attribute :=
  mkAttribute (if String.eqb name "" then EMPTY_VALUE else render_identifier name)
    (render_identifier type) "" [] [] false.

(** ** Setters *)

Definition set_value (a : Attribute) (value : string) : Attribute :=
  let '(mkAttribute n t _ m c o) := a in mkAttribute n t value m c o.

Definition set_name (a : Attribute) (name : string) : Attribute :=
  let '(mkAttribute _ t v m c o) := a in mkAttribute (render_identifier name) t v m c o.

Definition set_type (a : Attribute) (type : string) : Attribute :=
  let '(mkAttribute n _ v m c o) := a in mkAttribute n (render_identifier type) v m c o.

Definition add_metadata (a metadata : Attribute) : Attribute :=
  let '(mkAttribute n t v m c o) := a in mkAttribute n t v (m ++ [metadata]) c o.

Definition add_value_compound (a val : Attribute) (compound_object : bool) : Attribute :=
  let '(mkAttribute n t v m c o) := a in
  if negb compound_object then mkAttribute n t v m (c ++ [val]) o
  else mkAttribute n t (get_value val) m c true.

(** ** Constructors from JSON *)

(** The name, type and value of an element of [value] or [metadatas]. *)
Definition simple_attribute (data : json) : outcome Attribute :=
  let! n := member data "name" in let! name := GetString n in
  let! t := member data "type" in let! type := GetString t in
  let! v := member data "value" in let! value := GetString v in
  Ret (new_attribute name type value).

(** The member [value]: an array of compound values, a compound or a command
    as an object, kept as text, or a scalar, read with [scalar]. *)
Definition read_value (scalar : json -> outcome string) (_type : string) (data : json)
    : outcome (string * list Attribute * bool) :=
  if String.eqb _type "compound" then
    if IsArray data then
      let! es := Elements data in
      let! vals := omapM simple_attribute es in
      Ret ("", vals, false)
    else Ret (c_string (json_text (accept data)), [], true)
  else if String.eqb _type "command" && IsObject data then
    Ret (c_string (json_text (accept data)), [], false)
  else
    let! v := scalar data in
    Ret (or_empty_value v, [], false).

Definition read_metadatas (attribute : json) : outcome (list Attribute) :=
  let! has := HasMember attribute "metadatas" in
  if has then
    let! metadata := member attribute "metadatas" in
    if IsArray metadata then
      let! es := Elements metadata in omapM simple_attribute es
    else Throw (RuntimeError "Attribute: invalid type field [metadatas]")
  else Ret [].

Definition read_type (attribute : json) : outcome string :=
  let! has := HasMember attribute "type" in
  if has then
    let! t := member attribute "type" in
    let! s := GetString t in
    Ret (render_identifier s)
  else Ret "".

Definition attribute_of_json (attribute : json) : outcome Attribute :=
  if negb (IsObject attribute) then Throw (RuntimeError "Invalid Object")
  else
    let! has_name := HasMember attribute "name" in
    if negb has_name then Throw (RuntimeError "Attribute: missing field [name]")
    else
      let! n := member attribute "name" in
      let! name := GetString n in
      let _name := render_identifier name in
      let! _type := read_type attribute in
      let! has_value := HasMember attribute "value" in
      let! r :=
        if has_value then
          let! data := member attribute "value" in
          read_value (fun data => Ret (get_str_value data)) _type data
        else Ret ("", [], false) in
      let '(_value, compound, as_object) := r in
      let! metadata := read_metadatas attribute in
      Ret (mkAttribute _name _type _value metadata compound as_object).

Definition attribute_of_string (str_attribute : string) : outcome Attribute :=
  match json_parse (c_string str_attribute) with
  | None => Throw (RuntimeError ("Attribute: " ++ parse_error (c_string str_attribute)))
  | Some document =>
      let! has_name := HasMember document "name" in
      if negb has_name then Throw (RuntimeError "Attribute: missing field [name]")
      else
        let! n := member document "name" in
        let! name := GetString n in
        let _name := or_empty_value (render_identifier name) in
        let! _type := read_type document in
        let! has_value := HasMember document "value" in
        let! r :=
          if has_value then
            let! data := member document "value" in
            read_value GetString _type data
          else Ret (EMPTY_VALUE, [], false) in
        let '(_value, compound, as_object) := r in
        let! metadata := read_metadatas document in
        Ret (mkAttribute _name _type _value metadata compound as_object)
  end.

(** ** Serialisation *)

Fixpoint Serialize (a : Attribute) : list event :=
  let '(mkAttribute _name _type _value _metadata _value_compound _) := a in
  ([StartObject; EvString "name"; EvString _name; EvString "type"; EvString _type;
    EvString "value"]
   ++ (if negb (String.eqb _type "compound") then [EvString _value]
       else if Nat.ltb 0 (List.length _value_compound) then
         StartArray :: List.concat (map Serialize _value_compound) ++ [EndArray]
       else
         match json_parse (c_string (if String.eqb _value "" then "{}" else _value)) with
         | Some doc_value => accept doc_value
         | None => []
         end)
   ++ (if negb (Nat.eqb (List.length _metadata) 0) then
         EvString "metadatas" :: StartArray :: List.concat (map Serialize _metadata)
           ++ [EndArray]
       else [])
   ++ [EndObject])%list.

Definition get_string (a : Attribute) : string := c_string (json_text (Serialize a)).

(** ** What is serialised is read back *)

(** A rendered name without NUL. *)
Definition identifier (s : string) : Prop := render_identifier s = s /\ no_nul s = true.

(** A value as the constructors make it. *)
Definition plain_value (s : string) : Prop := s <> "" /\ no_nul s = true.

Definition simple_ok (a : Attribute) : Prop :=
  identifier (get_name a) /\ get_name a <> "" /\ identifier (get_type a)
  /\ get_type a <> "compound" /\ plain_value (get_value a)
  /\ get_metadatas a = [] /\ get_value_compound a = [] /\ compound_object a = false.

(** The value: a scalar, a list of compound values, or the text of a JSON value
    that is not an array. *)
Inductive value_ok : Attribute -> Prop :=
| scalar_ok n t v m : t <> "compound" -> plain_value v ->
    value_ok (mkAttribute n t v m [] false)
| compound_ok n m c : c <> [] -> Forall simple_ok c ->
    value_ok (mkAttribute n "compound" "" m c false)
| as_object_ok n m v text : json_parse text = Some v -> json_text (accept v) = text ->
    IsArray v = false -> plain_value text ->
    value_ok (mkAttribute n "compound" text m [] true).

Definition attribute_ok (a : Attribute) : Prop :=
  identifier (get_name a) /\ identifier (get_type a) /\ value_ok a
  /\ Forall simple_ok (get_metadatas a).

(** The document of a simple attribute. *)
Definition simple_json (a : Attribute) : json :=
  JObject [("name", JString (get_name a)); ("type", JString (get_type a));
           ("value", JString (get_value a))].

Lemma simple_builds a : simple_ok a -> builds (Serialize a) (simple_json a).
Proof.
  destruct a as [n t v m c o]. intros (_ & _ & _ & Ht & _ & Hm & Hc & _). cbn in *. subst.
  apply String.eqb_neq in Ht. rewrite Ht. cbn.
  intros rest f st. reflexivity.
Qed.

Lemma simple_reads a : simple_ok a -> simple_attribute (simple_json a) = Ret a.
Proof.
  destruct a as [n t v m c o].
  intros ([Hn Hn'] & Hne & [Ht Ht'] & _ & [Hv Hv'] & Hm & Hc & Ho). cbn in *. subst.
  unfold simple_attribute. cbn. rewrite !c_string_id by done.
  unfold new_attribute, or_empty_value.
  apply String.eqb_neq in Hne, Hv. by rewrite Hne, Hv, Hn, Ht.
Qed.

(** The document of the value and of the whole attribute. *)
Definition value_json (a : Attribute) (w : json) : Prop :=
  match a with
  | mkAttribute _ t v _ c o =>
      if negb (String.eqb t "compound") then w = JString v
      else if o then json_parse v = Some w
      else w = JArray (map simple_json c)
  end.

Definition attribute_json (a : Attribute) (w : json) : json :=
  JObject ([("name", JString (get_name a)); ("type", JString (get_type a)); ("value", w)]
           ++ match get_metadatas a with
              | [] => []
              | ms => [("metadatas", JArray (map simple_json ms))]
              end)%list.

Lemma simples_build l : Forall simple_ok l ->
  builds (StartArray :: List.concat (map Serialize l) ++ [EndArray]) (JArray (map simple_json l)).
Proof. intros Hl. apply builds_array. eapply Forall_impl; [exact Hl|]. apply simple_builds. Qed.

(** The events of the value part. *)
Definition value_events (a : Attribute) : list event :=
  let '(mkAttribute _ _type _value _ _value_compound _) := a in
  (if negb (String.eqb _type "compound") then [EvString _value]
   else if Nat.ltb 0 (List.length _value_compound) then
     StartArray :: List.concat (map Serialize _value_compound) ++ [EndArray]
   else
     match json_parse (c_string (if String.eqb _value "" then "{}" else _value)) with
     | Some doc_value => accept doc_value
     | None => []
     end)%list.

Lemma value_builds a : value_ok a -> exists w, value_json a w /\ builds (value_events a) w
  /\ (forall scalar, (forall s, no_nul s = true -> scalar (JString s) = Ret s) ->
      read_value scalar (get_type a) w = Ret (get_value a, get_value_compound a, compound_object a)).
Proof.
  intros Ha. destruct Ha as [n t v m Ht [Hv Hv']|n m c Hc Hok|n m v text Hp Htext Harr [Hv Hv']].
  - exists (JString v). apply String.eqb_neq in Ht, Hv. cbn. rewrite Ht. cbn.
    split; [done|]. split; [apply builds_string|]. intros scalar Hs.
    unfold read_value. rewrite Ht, Hs, andb_false_r by done. cbn.
    unfold or_empty_value. by rewrite Hv.
  - exists (JArray (map simple_json c)). cbn.
    destruct c as [|c0 c]; [done|]. cbn [List.length].
    split; [done|]. split; [by apply simples_build|]. intros scalar _.
    unfold read_value. cbn [String.eqb Ascii.eqb Bool.eqb IsArray Elements obind].
    change (String.eqb "compound" "compound") with true. cbn iota.
    rewrite omapM_inverse; [done|]. eapply Forall_impl; [exact Hok|]. apply simple_reads.
  - exists v. cbn. apply String.eqb_neq in Hv. rewrite Hv, c_string_id, Hp by done.
    split; [done|]. split; [apply accept_builds|]. intros scalar _.
    unfold read_value. change (String.eqb "compound" "compound") with true. cbn iota.
    by rewrite Harr, Htext, c_string_id.
Qed.

Lemma Serialize_eq n t v m c o :
  Serialize (mkAttribute n t v m c o)
  = ([StartObject; EvString "name"; EvString n; EvString "type"; EvString t; EvString "value"]
     ++ value_events (mkAttribute n t v m c o)
     ++ (if negb (Nat.eqb (List.length m) 0) then
           EvString "metadatas" :: StartArray :: List.concat (map Serialize m) ++ [EndArray]
         else []) ++ [EndObject])%list.
Proof. reflexivity. Qed.

(** The members, each with its events and its document. *)
Definition attribute_members (a : Attribute) (w : json)
    : list (string * (list event * json)) :=
  ([("name", ([EvString (get_name a)], JString (get_name a)));
    ("type", ([EvString (get_type a)], JString (get_type a)));
    ("value", (value_events a, w))]
   ++ match get_metadatas a with
      | [] => []
      | m => [("metadatas", (StartArray :: List.concat (map Serialize m) ++ [EndArray],
                             JArray (map simple_json m)))]
      end)%list.

Lemma Serialize_members a w :
  Serialize a = (StartObject :: member_events fst (attribute_members a w) ++ [EndObject])%list.
Proof.
  destruct a as [n t v m c o]. rewrite Serialize_eq. unfold attribute_members, member_events.
  set (ve := value_events _). destruct m as [|m0 m].
  - cbn -[value_events]. subst ve. by rewrite app_nil_r.
  - cbn -[value_events Serialize]. fold ve. rewrite app_nil_r, <- !app_assoc. cbn -[Serialize].
    by rewrite <- !app_assoc.
Qed.

Lemma attribute_builds a w : builds (value_events a) w -> Forall simple_ok (get_metadatas a) ->
  builds (Serialize a) (attribute_json a w).
Proof.
  intros Hw Hm. rewrite (Serialize_members a w).
  replace (attribute_json a w)
    with (JObject (map (fun m => (fst m, snd (snd m))) (attribute_members a w)))
    by (unfold attribute_json, attribute_members; by destruct (get_metadatas a)).
  apply builds_object. unfold attribute_members. apply Forall_app. split.
  - repeat constructor; cbn; auto with iota.
  - destruct (get_metadatas a); constructor; [|constructor]. by apply simples_build.
Qed.

Lemma attribute_reads (a : Attribute) : attribute_ok a ->
  exists w, builds (Serialize a) w /\ attribute_of_json w = Ret a.
Proof.
  intros ([Hn Hn'] & [Ht Ht'] & Hv & Hm). destruct (value_builds a Hv) as (w & Hw & Hb & Hr).
  exists (attribute_json a w). split.
  - apply attribute_builds; assumption.
  - destruct a as [n t v m c o]. cbn [get_name get_type get_metadatas] in *.
    assert (Hms : omapM simple_attribute (map simple_json m) = Ret m).
    { apply omapM_inverse. eapply Forall_impl; [exact Hm|]. apply simple_reads. }
    assert (Hrv := Hr (fun data => Ret (get_str_value data))
      (fun s Hs => f_equal Ret (c_string_id s Hs))).
    cbn [get_value get_value_compound compound_object] in Hrv.
    destruct m as [|m0 m]; unfold attribute_of_json, attribute_json, read_type, read_metadatas;
      cbn -[read_value omapM simple_json]; rewrite !c_string_id, Hn, Ht by done;
      cbn [obind]; rewrite Hrv; cbn [obind]; [reflexivity|].
    cbn -[omapM simple_json] in *. by rewrite Hms.
Qed.
(** What an attribute serialises to is read back as the same attribute:
    the events build a document, and the constructor from that document gives
    the attribute again, whether its value is a scalar, a list of compound
    values or an object kept as text, and with all its metadata. *)
Theorem attribute_roundtrip (a : Attribute) :
  attribute_ok a ->
  exists v, document (Serialize a) = Some v /\ attribute_of_json v = Ret a.
Proof.
  intros Ha. destruct (attribute_reads a Ha) as (v & Hb & Hr). exists v. split; [|done].
  by apply builds_document.
Qed.
End Attribute.

#[export] Hint Resolve attribute_builds : iota.

(** A reader and writer for the examples: the text [{}] and its value. *)
Definition rapidjson_example : Rapidjson := {|
  json_parse s := if String.eqb s "{}" then Some (JObject []) else None;
  parse_error _ := "error";
  json_text evs := match evs with [StartObject; EndObject] => "{}" | _ => "" end;
  show_double l := l
|}.

Lemma attribute_roundtrip_witness :
  let meta := mkAttribute "TimeInstant" "ISO8601" "2015-01-01T00:00:00Z" [] [] false in
  let a := mkAttribute "position" "compound" ""
             [meta] [mkAttribute "lat" "float" "40" [] [] false] false in
  let b := mkAttribute "config" "compound" "{}" [meta; meta] [] true in
  (exists v, document (Serialize (H0 := rapidjson_example) a) = Some v
     /\ attribute_of_json (H := boost_reference) (H0 := rapidjson_example) v = Ret a)
  /\ (exists v, document (Serialize (H0 := rapidjson_example) b) = Some v
     /\ attribute_of_json (H := boost_reference) (H0 := rapidjson_example) v = Ret b).
Proof.
  intros meta a b.
  assert (Hm : simple_ok (H := boost_reference) meta).
  { repeat split; discriminate. }
  split; apply (attribute_roundtrip (H := boost_reference) (H0 := rapidjson_example)).
  - split; [by repeat split|]. split; [by repeat split|]. split.
    + apply compound_ok; [discriminate|]. apply Forall_cons_2; [|apply Forall_nil_2].
      repeat split; discriminate.
    + apply Forall_cons_2; [exact Hm|apply Forall_nil_2].
  - split; [by repeat split|]. split; [by repeat split|]. split.
    + apply (as_object_ok (H0 := rapidjson_example) _ _ (JObject [])); try reflexivity.
      split; [discriminate|reflexivity].
    + repeat (apply Forall_cons_2; [exact Hm|]). apply Forall_nil_2.
Defined.
