(* ===== verification/NgsiContext.v ===== *)
(** * NGSI context elements: [src/src/ngsi/ContextElement.h],
    [ContextElement.cc]

    The entity a measure is published under: its identifier and type, resolved
    from the device and the service, its attributes, renamed by the mappings of
    either, and the static attributes of both. *)
From stdpp Require Import base tactics list gmap strings sorting.
From Stdlib Require Import ZArith Lia Ascii String.
From S2P Require Import Prelude CppString Boost Types FuncUtil Device Json NgsiAttribute.

Local Open Scope string_scope.
Local Open Scope Z_scope.

#[local] Arguments render_identifier : simpl never.

(** ** The constants of [ngsi_const.cc] *)

Definition NGSI_NAME : string := "name".
Definition NGSI_ID : string := "id".
Definition NGSI_VALUE : string := "value".
Definition NGSI_TYPE : string := "type".
Definition NGSI_ISPATTERN : string := "isPattern".
Definition NGSI_ATTRIBUTES : string := "attributes".

Section ContextElement.
  Context `{Boost} `{Rapidjson} `{PropertyTree}.

(** [_device_info] is the device the shared pointer refers to; looking for a
    mapping changes it (see [Device.get_attribute]). *)
Record ContextElement : Type := mkContextElement {
  _id : string;
  _type : string;
  _is_pattern : string;
  _attributes : list Attribute;
  _service_info : ptree;
  _device_info : option Device
}.

Definition new_context_element (id type is_pattern : string) : ContextElement :=
  mkContextElement (render_identifier id) (render_identifier type) is_pattern [] pt_empty None.

Definition empty_context_element : ContextElement := mkContextElement "" "" "" [] pt_empty None.

Definition set_id (ce : ContextElement) (a_id : string) : ContextElement :=
  mkContextElement (render_identifier a_id) (_type ce) (_is_pattern ce) (_attributes ce)
    (_service_info ce) (_device_info ce).

Definition set_type (ce : ContextElement) (data : string) : ContextElement :=
  mkContextElement (_id ce) (render_identifier data) (_is_pattern ce) (_attributes ce)
    (_service_info ce) (_device_info ce).

Definition set_names (ce : ContextElement) (id type : string) : ContextElement :=
  mkContextElement id type (_is_pattern ce) (_attributes ce) (_service_info ce) (_device_info ce).

Definition set_device (ce : ContextElement) (d : option Device) : ContextElement :=
  mkContextElement (_id ce) (_type ce) (_is_pattern ce) (_attributes ce) (_service_info ce) d.

Definition push_attribute (ce : ContextElement) (a : Attribute) : ContextElement :=
  mkContextElement (_id ce) (_type ce) (_is_pattern ce) (_attributes ce ++ [a])%list
    (_service_info ce) (_device_info ce).

(** ** Identifier and type *)

(** [format]: a name of the device counts unless it is empty or ["default"]. *)
Definition named (s : string) : bool := nonempty s && negb (String.eqb s Store.DEFAULT).

Definition format (ce : ContextElement) : ContextElement :=
  let service_entity_type :=
    pt_get_default (_service_info ce) (Store.ENTITY ++ "_" ++ Store.TYPE) "" in
  match _device_info ce with
  | Some d =>
      let entity_type :=
        if named (_entity_type d) then _entity_type d
        else if nonempty (_type ce) then _type ce
        else if nonempty service_entity_type then service_entity_type
        else "thing" in
      let entity_id :=
        if named (_entity_name d) then _entity_name d
        else if negb (nonempty (_type ce)) then entity_type ++ ":" ++ _name d
        else _id ce in
      set_names ce entity_id entity_type
  | None =>
      let entity_type :=
        if nonempty (_type ce) then _type ce
        else if nonempty service_entity_type then service_entity_type
        else "thing" in
      let entity_id :=
        if negb (nonempty (_type ce)) then entity_type ++ ":" ++ _id ce else _id ce in
      set_names ce entity_id entity_type
  end.

(** ** Attributes and their mappings *)

(** The loop over the attributes of the service. *)
Fixpoint service_mapping (children : list (string * ptree)) (name : string) : string :=
  match children with
  | [] => ""
  | (_, child) :: rest =>
      if String.eqb (pt_get_default child Store.ATTRIBUTE_ID "") name then
        let attr_mapping := write_json child in
        if nonempty attr_mapping then attr_mapping else service_mapping rest name
      else service_mapping rest name
  end.

Definition find_mapping (ce : ContextElement) (name : string) : ContextElement * string :=
  let '(ce, attr_mapping) :=
    match _device_info ce with
    | Some d => let '(d, m) := get_attribute d name in (set_device ce (Some d), m)
    | None => (ce, "")
    end in
  if String.eqb attr_mapping "" then
    match pt_get_child (_service_info ce) Store.ATTRIBUTES with
    | Some children => (ce, service_mapping children name)
    | None => (ce, "")
    end
  else (ce, attr_mapping).

(** An attribute without type is a string. *)
Definition default_type (attribute : Attribute) : Attribute :=
  if String.eqb (get_type attribute) "" then NgsiAttribute.set_type attribute "string" else attribute.

Definition empty_value (attribute : Attribute) : bool :=
  if String.eqb (get_type attribute) "compound" then
    if negb (compound_object attribute)
    then match get_value_compound attribute with [] => true | _ => false end
    else String.eqb (get_value attribute) ""
  else String.eqb (get_value attribute) "".

(** [std::replace(.., '/', ',')] *)
Definition slash_to_comma (s : string) : string :=
  str_map (fun c => if Ascii.eqb c "/" then ","%char else c) s.

(** The attribute that replaces [attribute], from its mapping [d]. *)
Definition mapped_attribute (attribute : Attribute) (d : json) : outcome Attribute :=
  let! att := attribute_of_json d in
  let type := get_type att in
  let type := if String.eqb type "" || String.eqb (get_type attribute) "compound"
              then get_type attribute else type in
  let type := if String.eqb type "" then "string" else type in
  let mapped_attr := new_attribute (get_name att) type "" in
  let mapped_attr :=
    if String.eqb type "compound" then
      if negb (compound_object attribute)
      then fold_left (fun m v => add_value_compound m v false) (get_value_compound attribute) mapped_attr
      else set_value mapped_attr (get_value attribute)
    else if String.eqb type Store.COORDS then
      add_metadata (set_value mapped_attr (slash_to_comma (get_value attribute)))
        (new_attribute "location" "string" "WGS84")
    else set_value mapped_attr (get_value attribute) in
  let mapped_attr := fold_left add_metadata (get_metadatas attribute) mapped_attr in
  Ret (fold_left add_metadata (get_metadatas att) mapped_attr).

(** [add_attribute] calls itself with the mapped attribute: one unit of fuel
    for each mapping followed. *)
Fixpoint add_attribute (fuel : nat) (ce : ContextElement) (attribute : Attribute)
    : fueled ContextElement :=
  match fuel with
  | O => None
  | S fuel =>
      let attribute := default_type attribute in
      if empty_value attribute then Some (Ret ce)
      else
        let '(ce, attr_mapping) := find_mapping ce (get_name attribute) in
        if negb (String.eqb attr_mapping "") then
          match json_parse (c_string attr_mapping) with
          | Some d =>
              fuel! mapped_attr := Some (mapped_attribute attribute d) in
              add_attribute fuel ce mapped_attr
          | None => Some (Ret ce)
          end
        else Some (Ret (push_attribute ce attribute))
  end.

(** ** Static attributes *)

(** [exists] *)
Definition exists_attribute (ce : ContextElement) (name : string) : bool :=
  existsb (fun a => String.eqb (get_name a) name) (_attributes ce).

(** The order of a [std::map]. *)
Definition key_le (a b : string * string) : Prop := String.leb (fst a) (fst b) = true.

#[local] Instance key_le_dec : RelDecision key_le.
Proof. intros a b. unfold key_le. apply _. Defined.

Definition in_order (m : gmap string string) : list (string * string) :=
  merge_sort key_le (map_to_list m).

Definition time_metadata (timestamp : string) : Attribute :=
  new_attribute "TimeInstant" "ISO8601" timestamp.

Fixpoint add_device_static (fuel : nat) (timestamp : string) (ce : ContextElement)
    (statics : list (string * string)) : fueled ContextElement :=
  match statics with
  | [] => Some (Ret ce)
  | (_, text) :: rest =>
      fuel! ce :=
        match json_parse (c_string text) with
        | Some d =>
            fuel! att := Some (attribute_of_json d) in
            add_attribute fuel ce (add_metadata att (time_metadata timestamp))
        | None => Some (Ret ce)
        end in
      add_device_static fuel timestamp ce rest
  end.

Fixpoint add_service_static (fuel : nat) (timestamp : string) (ce : ContextElement)
    (statics : list (string * ptree)) : fueled ContextElement :=
  match statics with
  | [] => Some (Ret ce)
  | (_, v) :: rest =>
      fuel! ce :=
        let a_name := pt_get_default v NGSI_NAME "" in
        if nonempty a_name && negb (exists_attribute ce a_name) then
          let a_value := pt_get_default v NGSI_VALUE "" in
          if nonempty a_value then
            match json_parse (c_string (write_json v)) with
            | Some d =>
                fuel! att := Some (attribute_of_json d) in
                add_attribute fuel ce (add_metadata att (time_metadata timestamp))
            | None => Some (Ret ce)
            end
          else Some (Ret ce)
        else Some (Ret ce) in
      add_service_static fuel timestamp ce rest
  end.

(** [set_env_info]; [timestamp] is the current time. *)
Definition set_env_info (fuel : nat) (timestamp : string) (ce : ContextElement)
    (service_info : ptree) (device : option Device) : fueled ContextElement :=
  let ce := mkContextElement (_id ce) (_type ce) (_is_pattern ce) (_attributes ce)
              service_info device in
  let ce := format ce in
  fuel! ce :=
    match device with
    | Some d => add_device_static fuel timestamp ce (in_order (_static_attributes d))
    | None => Some (Ret ce)
    end in
  match pt_get_child service_info Store.STATIC_ATTRIBUTES with
  | Some statics => add_service_static fuel timestamp ce statics
  | None => Some (Ret ce)
  end.

(** ** JSON *)

Definition string_member (v : json) (name : string) (render : string -> string)
    : outcome string :=
  let! has := HasMember v name in
  if has then
    let! m := member v name in
    if IsString m then let! s := GetString m in Ret (render s) else Ret ""
  else Ret "".

Fixpoint add_read_attributes (fuel : nat) (ce : ContextElement) (attributes : list json)
    : fueled ContextElement :=
  match attributes with
  | [] => Some (Ret ce)
  | v :: rest =>
      fuel! attribute := Some (attribute_of_json v) in
      fuel! ce := add_attribute fuel ce attribute in
      add_read_attributes fuel ce rest
  end.

(** What both constructors read from the document. *)
Definition context_fields (fuel : nat) (v : json) : fueled ContextElement :=
  fuel! has_id := Some (HasMember v NGSI_ID) in
  if negb has_id then Some (Throw (RuntimeError "ContextElement: missing field [id]"))
  else
    fuel! id := Some (string_member v NGSI_ID render_identifier) in
    fuel! type := Some (string_member v NGSI_TYPE render_identifier) in
    fuel! is_pattern := Some (string_member v NGSI_ISPATTERN (fun s => s)) in
    let ce := mkContextElement id type is_pattern [] pt_empty None in
    fuel! has := Some (HasMember v NGSI_ATTRIBUTES) in
    if has then
      fuel! attributes := Some (member v NGSI_ATTRIBUTES) in
      if IsArray attributes then
        fuel! es := Some (Elements attributes) in add_read_attributes fuel ce es
      else Some (Ret ce)
    else Some (Ret ce).

Definition context_element_of_json (fuel : nat) (context_element : json)
    : fueled ContextElement :=
  if negb (IsObject context_element) then Some (Throw (RuntimeError "Invalid Object"))
  else context_fields fuel context_element.

Definition context_element_of_string (fuel : nat) (str_context_element : string)
    : fueled ContextElement :=
  match json_parse (c_string str_context_element) with
  | None => Some (Throw (RuntimeError
              ("ContextElement: " ++ parse_error (c_string str_context_element))))
  | Some document => context_fields fuel document
  end.

Definition Serialize (ce : ContextElement) : list event :=
  ([StartObject; EvString "id"; EvString (_id ce); EvString "type"; EvString (_type ce);
    EvString "isPattern"; EvString (_is_pattern ce)]
   ++ (if Nat.ltb 0 (List.length (_attributes ce)) then
         EvString "attributes" :: StartArray
           :: List.concat (map NgsiAttribute.Serialize (_attributes ce)) ++ [EndArray]
       else [])
   ++ [EndObject])%list.

Definition get_string (ce : ContextElement) : string := c_string (json_text (Serialize ce)).
End ContextElement.

(** ** Mappings *)

Section Mappings.
  Context `{HB : Boost} `{HR : Rapidjson} `{HP : PropertyTree}.

(** The text of the mapping of a name. *)
Definition mapping_text (ce : ContextElement) (name : string) : string :=
  snd (find_mapping ce name).

(** What a context element shows: looking for a mapping leaves it alone. *)
Definition same_view (ce ce' : ContextElement) : Prop :=
  _id ce' = _id ce /\ _type ce' = _type ce /\ _is_pattern ce' = _is_pattern ce
  /\ _service_info ce' = _service_info ce
  /\ (forall name, mapping_text ce' name = mapping_text ce name).

#[export] Instance same_view_preorder : PreOrder same_view.
Proof.
  split.
  - intros ce. by repeat split.
  - intros a b c (H1 & H2 & H3 & H4 & H5) (G1 & G2 & G3 & G4 & G5).
    repeat split; try congruence; intros; by rewrite G5.
Qed.

Lemma get_attribute_view (d : Device) (name m : string) :
  snd (get_attribute (fst (get_attribute d name)) m) = snd (get_attribute d m).
Proof.
  unfold get_attribute. destruct (Device._attributes d !! name) as [v|] eqn:E; cbn; [done|].
  destruct (decide (name = m)) as [->|Hne].
  - rewrite lookup_insert_eq. cbn. by rewrite E.
  - rewrite lookup_insert_ne by done. by destruct (Device._attributes d !! m).
Qed.

Lemma mapping_text_eq ce name :
  mapping_text ce name
  = let m := match _device_info ce with Some d => snd (get_attribute d name) | None => "" end in
    if String.eqb m "" then
      match pt_get_child (_service_info ce) Store.ATTRIBUTES with
      | Some children => service_mapping children name
      | None => ""
      end
    else m.
Proof.
  unfold mapping_text, find_mapping. destruct (_device_info ce) as [d|].
  - destruct (get_attribute d name) as [d' m]. cbn.
    destruct (String.eqb m ""); [|done]. by destruct (pt_get_child _ _).
  - cbn. by destruct (pt_get_child _ _).
Qed.

Lemma find_mapping_view ce name :
  same_view ce (fst (find_mapping ce name))
  /\ _attributes (fst (find_mapping ce name)) = _attributes ce.
Proof.
  assert (Hfst : fst (find_mapping ce name)
    = match _device_info ce with
      | Some d => set_device ce (Some (fst (get_attribute d name)))
      | None => ce
      end).
  { unfold find_mapping. destruct (_device_info ce) as [d|].
    - destruct (get_attribute d name) as [d' m]. cbn.
      destruct (String.eqb m ""); [|done]. by destruct (pt_get_child _ _).
    - cbn. by destruct (pt_get_child _ _). }
  rewrite Hfst. destruct (_device_info ce) as [d|] eqn:E; [|done].
  split; [|done]. repeat split. intros m. rewrite !mapping_text_eq, E. cbn.
  by rewrite get_attribute_view.
Qed.

Lemma push_attribute_view ce a : same_view ce (push_attribute ce a).
Proof. repeat split. intros m. by rewrite !mapping_text_eq. Qed.

(** The attribute published for one that is added, if any. *)
Inductive resolves (ce : ContextElement) : Attribute -> option Attribute -> Prop :=
| resolves_empty a : empty_value (default_type a) = true -> resolves ce a None
| resolves_unmapped a : empty_value (default_type a) = false ->
    mapping_text ce (get_name a) = "" -> resolves ce a (Some (default_type a))
| resolves_unreadable a : empty_value (default_type a) = false ->
    mapping_text ce (get_name a) <> "" ->
    json_parse (c_string (mapping_text ce (get_name a))) = None -> resolves ce a None
| resolves_mapped a d m r : empty_value (default_type a) = false ->
    mapping_text ce (get_name a) <> "" ->
    json_parse (c_string (mapping_text ce (get_name a))) = Some d ->
    mapped_attribute (default_type a) d = Ret m -> resolves ce m r -> resolves ce a r.

Lemma get_name_default_type a : get_name (default_type a) = get_name a.
Proof. destruct a. unfold default_type. by destruct (String.eqb _ _). Qed.

Lemma resolves_view ce ce' a r : same_view ce ce' -> resolves ce a r -> resolves ce' a r.
Proof.
  intros (_ & _ & _ & _ & Hm). induction 1.
  - by apply resolves_empty.
  - apply resolves_unmapped; [done|]. by rewrite Hm.
  - apply resolves_unreadable; rewrite ?Hm; done.
  - eapply resolves_mapped; rewrite ?Hm; done.
Qed.

(** One step of [add_attribute]. *)
Lemma add_attribute_S fuel ce a :
  add_attribute (S fuel) ce a
  = if empty_value (default_type a) then Some (Ret ce)
    else if negb (String.eqb (mapping_text ce (get_name a)) "") then
      match json_parse (c_string (mapping_text ce (get_name a))) with
      | Some d =>
          fuel! m := Some (mapped_attribute (default_type a) d) in
          add_attribute fuel (fst (find_mapping ce (get_name a))) m
      | None => Some (Ret (fst (find_mapping ce (get_name a))))
      end
    else Some (Ret (push_attribute (fst (find_mapping ce (get_name a))) (default_type a))).
Proof.
  cbn [add_attribute]. rewrite get_name_default_type. unfold mapping_text.
  by destruct (find_mapping ce (get_name a)).
Qed.

Lemma add_attribute_complete ce a r : resolves ce a r ->
  exists n, forall fuel, (n <= fuel)%nat -> forall ce0, same_view ce ce0 ->
    exists ce', add_attribute fuel ce0 a = Some (Ret ce') /\ same_view ce ce'
      /\ _attributes ce' = (_attributes ce0 ++ option_list r)%list.
Proof.
  induction 1 as [a He|a He Hm|a He Hm Hp|a d m r He Hm Hp Ha Hr [n IH]].
  1-3: exists 1%nat; intros [|fuel] Hf ce0 Hv; [lia|]; rewrite add_attribute_S, He;
    assert (Hm0 := proj2 (proj2 (proj2 (proj2 Hv))) (get_name a));
    destruct (find_mapping_view ce0 (get_name a)) as [Hv1 Ha1]; cbn [option_list].
  - eexists. split; [done|]. split; [done|]. by rewrite app_nil_r.
  - rewrite Hm0, Hm. cbn. eexists. split; [done|]. split.
    + etransitivity; [exact Hv|]. etransitivity; [exact Hv1|]. apply push_attribute_view.
    + cbn. by rewrite Ha1.
  - apply String.eqb_neq in Hm. rewrite Hm0, Hm, Hp. cbn. eexists. split; [done|]. split.
    + by etransitivity.
    + by rewrite Ha1, app_nil_r.
  - exists (S n). intros [|fuel] Hf ce0 Hv; [lia|]. rewrite add_attribute_S, He.
    assert (Hm0 := proj2 (proj2 (proj2 (proj2 Hv))) (get_name a)).
    destruct (find_mapping_view ce0 (get_name a)) as [Hv1 Ha1].
    apply String.eqb_neq in Hm. rewrite Hm0, Hm, Hp, Ha. cbn [negb fbind].
    destruct (IH fuel ltac:(lia) (fst (find_mapping ce0 (get_name a)))) as (ce' & E & Hv' & Hat).
    { by etransitivity. }
    exists ce'. by rewrite E, Hat, Ha1.
Qed.

Lemma add_attribute_sound fuel : forall ce a ce', add_attribute fuel ce a = Some (Ret ce') ->
  exists r, resolves ce a r /\ same_view ce ce'
    /\ _attributes ce' = (_attributes ce ++ option_list r)%list.
Proof.
  induction fuel as [|fuel IH]; intros ce a ce'; [discriminate|].
  rewrite add_attribute_S. destruct (find_mapping_view ce (get_name a)) as [Hv1 Ha1].
  destruct (empty_value (default_type a)) eqn:He.
  { intros [= <-]. exists None. split; [by apply resolves_empty|]. split; [done|].
    by rewrite app_nil_r. }
  destruct (String.eqb (mapping_text ce (get_name a)) "") eqn:Em; cbn [negb]; breflect.
  - intros [= <-]. exists (Some (default_type a)).
    split; [by apply resolves_unmapped|]. split; [|cbn; by rewrite Ha1].
    etransitivity; [exact Hv1|]. apply push_attribute_view.
  - destruct (json_parse _) as [d|] eqn:Ep.
    + destruct (mapped_attribute (default_type a) d) as [m| |] eqn:Ea; cbn; try discriminate.
      intros E. destruct (IH _ _ _ E) as (r & Hr & Hv & Hat). exists r.
      split; [|split; [by etransitivity|by rewrite Hat, Ha1]].
      eapply resolves_mapped; try done. eapply resolves_view; [|exact Hr].
      destruct Hv1 as (G1 & G2 & G3 & G4 & G5). repeat split; congruence.
    + intros [= <-]. exists None. split; [by apply resolves_unreadable|].
      split; [done|]. by rewrite Ha1, app_nil_r.
Qed.
End Mappings.

Section Theorems.
  Context `{HBL : BoostLaws} `{HR : Rapidjson} `{HP : PropertyTree}.

(** C33. Adding an attribute follows the mappings of its name, and of the name
    it is given, to the end: with enough fuel it returns exactly when the
    mappings lead to an attribute to publish, or to one that is empty or whose
    mapping cannot be read; then that attribute, if any, is the only one added,
    at the end, and nothing else the element shows has changed. *)
Theorem add_attribute_resolves (ce : ContextElement) (a : Attribute) :
  (forall r, resolves ce a r ->
     exists n, forall fuel, (n <= fuel)%nat ->
       exists ce', add_attribute fuel ce a = Some (Ret ce') /\ same_view ce ce'
         /\ _attributes ce' = (_attributes ce ++ option_list r)%list)
  /\ (forall fuel ce', add_attribute fuel ce a = Some (Ret ce') ->
      exists r, resolves ce a r /\ same_view ce ce'
        /\ _attributes ce' = (_attributes ce ++ option_list r)%list).
Proof.
  split.
  - intros r Hr. destruct (add_attribute_complete _ _ _ Hr) as [n Hn]. exists n.
    intros fuel Hf. by apply Hn.
  - intros fuel ce'. apply add_attribute_sound.
Qed.

Lemma fold_add_metadata ms n t v m c o :
  fold_left add_metadata ms (mkAttribute n t v m c o) = mkAttribute n t v (m ++ ms) c o.
Proof.
  revert m; induction ms as [|x ms IH]; intros m; cbn; [by rewrite app_nil_r|].
  rewrite IH. by rewrite <- app_assoc.
Qed.

(** The type a mapping gives to an attribute that is not compound. *)
Definition mapped_type (a att : Attribute) : string :=
  let type := if String.eqb (get_type att) "" then get_type a else get_type att in
  if String.eqb type "" then "string" else type.

(** The value and the metadata the mapping itself adds. *)
Definition mapped_value (a att : Attribute) : string :=
  if String.eqb (mapped_type a att) Store.COORDS then slash_to_comma (get_value a) else get_value a.

Definition mapped_location (a att : Attribute) : list Attribute :=
  if String.eqb (mapped_type a att) Store.COORDS then [new_attribute "location" "string" "WGS84"]
  else [].

Lemma mapped_attribute_simple a d att :
  attribute_of_json d = Ret att -> get_name att <> "" ->
  get_type a <> "compound" -> get_type att <> "compound" ->
  mapped_attribute a d
  = Ret (mkAttribute (render_identifier (get_name att)) (render_identifier (mapped_type a att))
           (mapped_value a att)
           (mapped_location a att ++ get_metadatas a ++ get_metadatas att) [] false).
Proof.
  intros Hd Hn Ha Hatt. unfold mapped_attribute. rewrite Hd. cbn [obind].
  assert (Hnew : forall t, new_attribute (get_name att) t ""
    = mkAttribute (render_identifier (get_name att)) (render_identifier t) EMPTY_VALUE [] [] false).
  { intros t. unfold new_attribute. apply String.eqb_neq in Hn. by rewrite Hn. }
  apply String.eqb_neq in Ha. rewrite Ha, orb_false_r, !Hnew.
  unfold mapped_value, mapped_location. fold (mapped_type a att).
  assert (Ht : String.eqb (mapped_type a att) "compound" = false).
  { unfold mapped_type. apply String.eqb_neq in Hatt.
    destruct (String.eqb (get_type att) "") eqn:E1; [destruct (String.eqb (get_type a) "") eqn:E2|].
    all: rewrite ?E1, ?E2; done. }
  rewrite Ht. destruct (String.eqb (mapped_type a att) Store.COORDS).
  - cbn [set_value add_metadata]. by rewrite !fold_add_metadata, <- app_assoc.
  - cbn [set_value]. by rewrite !fold_add_metadata.
Qed.

Lemma render_idem s : render_identifier (render_identifier s) = render_identifier s.
Proof.
  pose proof (render_identifier_range s) as [H1 H2]. by apply render_identifier_clean.
Qed.

Lemma slash_to_comma_nonempty s : s <> "" -> slash_to_comma s <> "".
Proof. by destruct s. Qed.

Lemma default_type_id a : get_type a <> "" -> default_type a = a.
Proof. intros H. unfold default_type. apply String.eqb_neq in H. by rewrite H. Qed.

(** An attribute with a value that is not compound: it is not empty. *)
Definition scalar (a : Attribute) : Prop :=
  get_value a <> "" /\ get_type a <> "compound" /\ render_identifier (get_type a) = get_type a.

Lemma render_string : render_identifier "string" = "string".
Proof.
  apply render_identifier_clean; [done|]. unfold IDENTIFIER_MAX_LENGTH. cbn [String.length]. lia.
Qed.

Lemma default_type_scalar a : scalar a ->
  scalar (default_type a) /\ get_type (default_type a) <> "" /\ empty_value (default_type a) = false
  /\ get_metadatas (default_type a) = get_metadatas a /\ get_value (default_type a) = get_value a.
Proof.
  destruct a as [n t v m c o]. unfold scalar, default_type. cbn [get_value get_type].
  intros (Hv & Ht & Hr). destruct (String.eqb t "") eqn:E; breflect.
  - cbn [NgsiAttribute.set_type get_value get_type get_metadatas]. rewrite !render_string.
    repeat split; try done. unfold empty_value. cbn [get_type]. cbn.
    by apply String.eqb_neq.
  - cbn [get_value get_type get_metadatas]. repeat split; try done.
    unfold empty_value. cbn [get_type get_value].
    apply String.eqb_neq in Ht, Hv. by rewrite Ht, Hv.
Qed.

Lemma mapped_type_ok a att : get_type a <> "" -> scalar a -> identifier (get_type att) ->
  get_type att <> "compound" ->
  render_identifier (mapped_type a att) = mapped_type a att /\ mapped_type a att <> ""
  /\ mapped_type a att <> "compound".
Proof.
  intros Hne (_ & Hc & Hr) [Hi _] Hic. unfold mapped_type.
  destruct (String.eqb (get_type att) "") eqn:E1.
  - apply String.eqb_neq in Hne. rewrite Hne. apply String.eqb_neq in Hne. done.
  - rewrite E1. breflect. done.
Qed.

(** A mapping to a name that has no mapping itself: the attribute is
    published once, with the name and type of the mapping, its own value (with
    commas for slashes when the type is [coords]) and the metadata of both. *)
Theorem mapped_once (ce : ContextElement) (a att : Attribute) (d : json) :
  scalar a ->
  mapping_text ce (get_name a) <> "" ->
  json_parse (c_string (mapping_text ce (get_name a))) = Some d ->
  attribute_of_json d = Ret att ->
  identifier (get_name att) -> get_name att <> "" ->
  identifier (get_type att) -> get_type att <> "compound" ->
  mapping_text ce (get_name att) = "" ->
  forall fuel, (2 <= fuel)%nat ->
    exists ce', add_attribute fuel ce a = Some (Ret ce')
      /\ _attributes ce'
         = (_attributes ce
            ++ [mkAttribute (get_name att) (mapped_type (default_type a) att)
                  (mapped_value (default_type a) att)
                  (mapped_location (default_type a) att ++ get_metadatas a ++ get_metadatas att)
                  [] false])%list.
Proof.
  intros Ha Hm Hp Hd [Hn Hn'] Hne Ht Htc Hfree fuel Hf.
  destruct (default_type_scalar a Ha) as (Hs & Hte & Hev & Hmd & Hval).
  destruct (mapped_type_ok _ _ Hte Hs Ht Htc) as (Hr & Hmt & Hmc).
  pose proof (mapped_attribute_simple (default_type a) d att Hd Hne (proj1 (proj2 Hs)) Htc) as Hmap.
  rewrite Hn, Hr, Hmd in Hmap.
  set (m := mkAttribute _ _ _ _ _ _) in Hmap.
  assert (Hv : mapped_value (default_type a) att <> "").
  { unfold mapped_value. rewrite Hval.
    destruct (String.eqb (mapped_type _ _) Store.COORDS); [apply slash_to_comma_nonempty|]; apply Ha. }
  assert (Hdm : default_type m = m) by (by apply default_type_id).
  assert (Hem : empty_value m = false).
  { unfold empty_value, m. cbn [get_type get_value].
    apply String.eqb_neq in Hmc, Hv. by rewrite Hmc. }
  destruct fuel as [|[|fuel]]; [lia|lia|].
  destruct (find_mapping_view ce (get_name a)) as [(_ & _ & _ & _ & Hview) Hat].
  rewrite add_attribute_S, Hev. apply String.eqb_neq in Hm. rewrite Hm, Hp, Hmap. cbn [negb fbind].
  rewrite add_attribute_S, Hdm, Hem, Hview.
  change (get_name m) with (get_name att). rewrite Hfree. cbn.
  eexists. split; [done|]. cbn. rewrite (proj2 (find_mapping_view _ _)). by rewrite Hat.
Qed.

(** A mapping that gives an attribute its own name, as a configuration
    that only sets the type does, makes [add_attribute] call itself for ever:
    no amount of fuel is enough. *)
Theorem self_mapping_diverges (ce : ContextElement) (a att : Attribute) (d : json) :
  scalar a ->
  mapping_text ce (get_name a) <> "" ->
  json_parse (c_string (mapping_text ce (get_name a))) = Some d ->
  attribute_of_json d = Ret att ->
  get_name att = get_name a -> identifier (get_name a) -> get_name a <> "" ->
  identifier (get_type att) -> get_type att <> "compound" ->
  forall fuel, add_attribute fuel ce a = None.
Proof.
  intros Ha Hm Hp Hd Hna [Hn Hn'] Hne Ht Htc fuel. apply String.eqb_neq in Hm.
  revert ce a Ha Hm Hp Hna Hn Hn' Hne.
  induction fuel as [|fuel IH]; intros ce a Ha Hm Hp Hna Hn Hn' Hne; [done|].
  destruct (default_type_scalar a Ha) as (Hs & Hte & Hev & Hmd & Hval).
  destruct (mapped_type_ok _ _ Hte Hs Ht Htc) as (Hr & Hmt & Hmc).
  destruct (find_mapping_view ce (get_name a)) as [(_ & _ & _ & _ & Hview) _].
  rewrite add_attribute_S, Hev, Hm, Hp. cbn [negb].
  rewrite (mapped_attribute_simple (default_type a) d att Hd); [|congruence|apply Hs|done].
  cbn [fbind]. rewrite Hna, Hn, Hr.
  apply IH; cbn [get_name]; rewrite ?Hview; try done.
  split; [|done]. cbn [get_value]. unfold mapped_value. rewrite Hval.
  destruct (String.eqb (mapped_type _ _) Store.COORDS); [apply slash_to_comma_nonempty|]; apply Ha.
Qed.

(** The entity published: [format] gives a context element built without
    a type the name [Device.get_real_name] gives the device, and
    [type:identifier] without a device; the type is the device's, the one the
    element has, the service's or ["thing"], in that order; formatting twice is
    formatting once. *)
Theorem format_spec (ce : ContextElement) :
  let service_type := pt_get_default (_service_info ce) "entity_type" "" in
  let fallback := if nonempty service_type then service_type else "thing" in
  let type := match _device_info ce with
              | Some d => if named (_entity_type d) then _entity_type d
                          else if nonempty (_type ce) then _type ce else fallback
              | None => if nonempty (_type ce) then _type ce else fallback
              end in
  _type (format ce) = type /\ type <> ""
  /\ (_type ce = "" ->
      _id (format ce) = match _device_info ce with
                        | Some d => get_real_name (pt_get (_service_info ce)) d
                        | None => type ++ ":" ++ _id ce
                        end)
  /\ (_type ce <> "" -> _id (format ce) = match _device_info ce with
                                          | Some d => if named (_entity_name d) then _entity_name d
                                                      else _id ce
                                          | None => _id ce
                                          end)
  /\ format (format ce) = format ce.
Proof.
  intros service_type fallback type.
  assert (Hfb : fallback <> "").
  { unfold fallback. destruct (nonempty service_type) eqn:E; [by apply nonempty_true|done]. }
  assert (Hty : _type (format ce) = type) by (unfold format, type; by destruct (_device_info ce)).
  assert (Hne : type <> "").
  { unfold type. destruct (_device_info ce) as [d|].
    - unfold named. destruct (nonempty (_entity_type d)) eqn:E; cbn [andb].
      + apply nonempty_true in E. destruct (negb _); [done|].
        destruct (nonempty (_type ce)) eqn:E2; [by apply nonempty_true|done].
      + destruct (nonempty (_type ce)) eqn:E2; [by apply nonempty_true|done].
    - destruct (nonempty (_type ce)) eqn:E2; [by apply nonempty_true|done]. }
  split; [done|]. split; [done|]. split; [|split].
  - intros He. unfold format, type, get_real_name. rewrite He. cbn [nonempty String.eqb negb].
    by destruct (_device_info ce) as [d|].
  - intros He. apply nonempty_true in He. unfold format. rewrite He.
    by destruct (_device_info ce) as [d|].
  - assert (Hf : format ce = set_names ce (_id (format ce)) type).
    { unfold format, set_names, type. by destruct (_device_info ce). }
    rewrite Hf. set (i := _id (format ce)).
    assert (Hi : forall d, _device_info ce = Some d -> named (_entity_name d) = true ->
                 i = _entity_name d).
    { intros d Hd Hn. unfold i, format. by rewrite Hd, Hn. }
    apply nonempty_true in Hne. unfold format, set_names.
    cbn [_device_info _service_info _is_pattern _attributes _type _id]. rewrite Hne. cbn [negb].
    unfold type in *. destruct (_device_info ce) as [d|] eqn:Ed; [|done]. f_equal.
    + destruct (named (_entity_name d)) eqn:En; [|done]. symmetry. by apply Hi.
    + by destruct (named (_entity_type d)).
Qed.
End Theorems.

(** ** Examples *)

Section Examples.
  Local Existing Instance boost_reference.

Definition example_texts : list (string * json) :=
  [("M1", JObject [("object_id", JString "t"); ("name", JString "temperature");
                   ("type", JString "float")]);
   ("M2", JObject [("object_id", JString "h"); ("name", JString "h"); ("type", JString "float")])].

Local Instance example_rapidjson : Rapidjson := rapidjson_table example_texts.
Local Instance example_ptree : PropertyTree := ptree_reference (fun _ => "").

Definition example_device : Device :=
  set_attributes (new_device "dev" "srv") (<["t" := "M1"]> (<["h" := "M2"]> ∅)).

Definition example_element : ContextElement :=
  mkContextElement "thing:dev" "thing" "false" [] (Tree [] []) (Some example_device).

Definition example_attribute (name : string) : Attribute :=
  mkAttribute name "" "15" [time_metadata "2015"] [] false.

Definition example_mapped : Attribute := mkAttribute "temperature" "float" "" [] [] false.

Lemma add_attribute_resolves_witness :
  let a := example_attribute "t" in
  (exists n, forall fuel, (n <= fuel)%nat -> exists ce',
     add_attribute fuel example_element a = Some (Ret ce') /\ same_view example_element ce'
     /\ _attributes ce' = [mkAttribute "temperature" "float" "15" [time_metadata "2015"] [] false])
  /\ (exists r, resolves example_element (example_attribute "x") r).
Proof.
  intros a. split.
  - apply (proj1 (add_attribute_resolves example_element a)
      (Some (mkAttribute "temperature" "float" "15" [time_metadata "2015"] [] false))).
    eapply resolves_mapped with (d := JObject [("object_id", JString "t");
      ("name", JString "temperature"); ("type", JString "float")]);
      [reflexivity|vm_compute; discriminate|vm_compute; reflexivity|vm_compute; reflexivity|].
    assert (E : default_type (mkAttribute "temperature" "float" "15" [time_metadata "2015"] [] false)
                = mkAttribute "temperature" "float" "15" [time_metadata "2015"] [] false)
      by (vm_compute; reflexivity).
    rewrite <- E. apply resolves_unmapped; vm_compute; reflexivity.
  - assert (E : exists ce', add_attribute 2 example_element (example_attribute "x") = Some (Ret ce'))
      by (eexists; vm_compute; reflexivity).
    destruct E as [ce' E].
    destruct (proj2 (add_attribute_resolves example_element _) 2%nat ce' E)
      as (r & Hr & _). by exists r.
Defined.

Lemma mapped_once_witness :
  exists ce', add_attribute 2 example_element (example_attribute "t") = Some (Ret ce')
    /\ _attributes ce' = [mkAttribute "temperature" "float" "15" [time_metadata "2015"] [] false].
Proof.
  apply (mapped_once (HBL := boost_reference_laws) example_element (example_attribute "t")
           example_mapped (JObject [("object_id", JString "t"); ("name", JString "temperature");
                                    ("type", JString "float")]));
    try (vm_compute; reflexivity); try (vm_compute; discriminate); try lia;
    repeat split; try (vm_compute; reflexivity); try (vm_compute; discriminate).
Defined.

Lemma self_mapping_diverges_witness :
  mapping_text example_element "h" = "M2"
  /\ forall fuel, add_attribute fuel example_element (example_attribute "h") = None.
Proof.
  split; [vm_compute; reflexivity|].
  apply (self_mapping_diverges (HBL := boost_reference_laws) example_element
           (example_attribute "h") (mkAttribute "h" "float" "" [] [] false)
           (JObject [("object_id", JString "h"); ("name", JString "h"); ("type", JString "float")]));
    try (vm_compute; reflexivity); try (vm_compute; discriminate);
    repeat split; try (vm_compute; reflexivity); try (vm_compute; discriminate).
Defined.

Lemma format_spec_witness :
  let ce := mkContextElement "dev" "" "false" [] (Tree [("entity_type", "meter")] [])
              (Some example_device) in
  _type (format ce) = "meter" /\ _id (format ce) = "meter:dev".
Proof.
  intros ce. destruct (format_spec ce) as (Ht & _ & Hi & _).
  split; [rewrite Ht; reflexivity|]. rewrite (Hi eq_refl). reflexivity.
Defined.
End Examples.
