(* ===== verification/DeviceCollection.v ===== *)
(** * Devices in the database: [src/src/util/device_collection.cc]

    The document a device is kept as, and the device a document is read as.
    The texts of attributes are documents themselves: [fromjson] and
    [jsonString] are those of the driver. *)
From stdpp Require Import base tactics list gmap strings sorting.
From Stdlib Require Import ZArith Lia Ascii String.
From S2P Require Import Prelude CppString Boost Types NgsiContext MultiIndex Device Bson Collection.

Local Open Scope string_scope.
Local Open Scope Z_scope.

(** JSON text of a document and back; [numberLong] of a field. *)
Class BsonJson : Type := {
  jsonString : document -> string;
  fromjson : string -> option document;
  numberLong : document -> string -> Z
}.

Section DeviceCollection.
  Context `{HR : BsonReader} `{HJ : BsonJson}.

(** [datamap.insert], which keeps a name that is there. *)
Definition insert_pair (datamap : gmap string string) (name value : string) : gmap string string :=
  match datamap !! name with Some _ => datamap | None => <[name := value]> datamap end.

(** The elements that are documents or arrays. *)
Definition element_object (elto : bson) : option document :=
  match elto with
  | BObj d => Some d
  | BArr es => Some (map (fun e => ("", e)) es)
  | _ => None
  end.

Definition BSON2Map (obj : document) (datamap : gmap string string) : gmap string string :=
  fold_left (fun datamap elto =>
    match element_object (snd elto) with
    | Some e => insert_pair datamap (getStringField e Store.NAME)
                  (getStringField e Store.ATTRIBUTE_VALUE)
    | None => datamap
    end) obj datamap.

Definition BSON2MapAttribute (obj : document) (datamap : gmap string string) (key_map : string)
    : gmap string string :=
  fold_left (fun datamap elto =>
    match element_object (snd elto) with
    | Some e => insert_pair datamap (getStringField e key_map) (jsonString e)
    | None => datamap
    end) obj datamap.

(** The value goes in a field with the name of the list. *)
Definition Map2BSON (fieldName : string) (datamap : gmap string string) : document :=
  [(fieldName, BArr (map (fun kv => BObj [(Store.NAME, BStr (fst kv)); (Store.TYPE, BStr fieldName);
                                          (fieldName, BStr (snd kv))]) (in_order datamap)))].

(** A text that is not a document is left out. *)
Definition Map2BSONAttribute (fieldName : string) (datamap : gmap string string)
    (key_map : string) : document :=
  [(fieldName, BArr (omap (fun kv => match fromjson (snd kv) with
                                     | Some d => Some (BObj (d ++ [(key_map, BStr (fst kv))])%list)
                                     | None => None
                                     end) (in_order datamap)))].

Definition append_map (m : gmap string string) (d : document) : document :=
  if Nat.ltb 0 (base.size m) then d else [].

Definition Obj2BSON (device : Device) (withShardKey : bool) : document :=
  ((if withShardKey then
      append_str Store.DEVICE_ID (_name device) ++ append_str Store.SERVICE (_service device)
      ++ append_str Store.SERVICE_PATH (_service_path device)
    else [])
   ++ append_unless INT_MIN Store.ACTIVATE (_active device)
   ++ append_str Store.ENDPOINT (_endpoint device)
   ++ append_str Store.PROTOCOL (_protocol device)
   ++ append_str Store.ENTITY_NAME (_entity_name device)
   ++ append_str Store.ENTITY_TYPE (_entity_type device)
   ++ append_str Store.MODEL (_model device)
   ++ append_str Store.REGISTRATION_ID (_registration_id device)
   ++ append_unless LONG_MIN Store.DURATION_CB (_duration_cb device)
   ++ append_unless (-1) Store.TIMESTAMP_DATA (_timestamp_data device)
   ++ append_str Store.TIMEZONE (_timezone device)
   ++ append_map (_commands device) (Map2BSON Store.COMMANDS (_commands device))
   ++ append_map (_attributes device)
        (Map2BSONAttribute Store.ATTRIBUTES (_attributes device) Store.ATTRIBUTE_ID)
   ++ append_map (_static_attributes device)
        (Map2BSONAttribute Store.STATIC_ATTRIBUTES (_static_attributes device) Store.NAME))%list.

Definition BSON2Obj (obj : document) : Device :=
  let str := getStringField obj in
  mkDevice (str Store.DEVICE_ID) (str Store.PROTOCOL) (str Store.SERVICE) (str Store.SERVICE_PATH)
    (str Store.ENTITY_TYPE) (str Store.ENTITY_NAME) (str Store.TIMEZONE) (str Store.ENDPOINT)
    (BSON2MapAttribute (getObjectField obj Store.ATTRIBUTES) ∅ Store.ATTRIBUTE_ID)
    (BSON2Map (getObjectField obj Store.COMMANDS) ∅)
    (BSON2MapAttribute (getObjectField obj Store.STATIC_ATTRIBUTES) ∅ Store.NAME)
    ∅ (str Store.MODEL)
    (if has_field obj Store.ACTIVATE then if getBoolField obj Store.ACTIVATE then 1 else 0 else 1)
    (str Store.REGISTRATION_ID) (getIntField obj Store.DURATION_CB)
    (numberLong obj Store.TIMESTAMP_DATA).

(** ** What is read back *)

Context {HRL : BsonReaderLaws HR}.

Lemma field_map_commands d k :
  field (append_map (_commands d) (Map2BSON Store.COMMANDS (_commands d))) k
  = if String.eqb Store.COMMANDS k && negb (bool_decide (_commands d = ∅))
    then Some (BArr (map (fun kv => BObj [(Store.NAME, BStr (fst kv)); (Store.TYPE, BStr Store.COMMANDS);
                                   (Store.COMMANDS, BStr (snd kv))]) (in_order (_commands d))))
    else None.
Proof.
  unfold append_map, Map2BSON. destruct (decide (_commands d = ∅)) as [E|E].
  - rewrite E, bool_decide_eq_true_2, andb_false_r by done. by rewrite map_size_empty.
  - rewrite bool_decide_eq_false_2, andb_true_r by done.
    destruct (Nat.ltb 0 (base.size (_commands d))) eqn:Es.
    + cbn [field]. by destruct (String.eqb Store.COMMANDS k).
    + apply Nat.ltb_ge in Es. destruct E. apply map_size_empty_inv. lia.
Qed.

(** The maps of attributes have fields of their own. *)
Lemma field_append_map m d n k : (forall k', k' <> n -> field d k' = None) -> k <> n ->
  field (append_map m d) k = None.
Proof. intros Hd Hk. unfold append_map. destruct (Nat.ltb _ _); [by apply Hd|done]. Qed.

Lemma field_attributes f m key k : k <> f -> field (append_map m (Map2BSONAttribute f m key)) k = None.
Proof.
  intros Hk. apply (field_append_map _ _ f); [|done]. intros k' Hk'. cbn [Map2BSONAttribute field].
  destruct (String.eqb_spec f k'); congruence.
Qed.

Ltac device_field :=
  unfold Obj2BSON; rewrite !field_app, !field_append_str, !field_append_unless, field_map_commands;
  rewrite !field_attributes by discriminate; eval_eqb;
  match goal with |- context [if ?b then _ else _] => destruct b; reflexivity end.

Definition text_field (v : string) : option bson :=
  if negb (String.eqb v "") then Some (BStr v) else None.

Lemma device_texts d :
  let f := field (Obj2BSON d true) in
  f Store.DEVICE_ID = text_field (_name d) /\ f Store.SERVICE = text_field (_service d)
  /\ f Store.SERVICE_PATH = text_field (_service_path d)
  /\ f Store.ENTITY_NAME = text_field (_entity_name d)
  /\ f Store.ENTITY_TYPE = text_field (_entity_type d)
  /\ f Store.PROTOCOL = text_field (_protocol d) /\ f Store.ENDPOINT = text_field (_endpoint d)
  /\ f Store.REGISTRATION_ID = text_field (_registration_id d).
Proof. unfold text_field. repeat split; device_field. Qed.

Lemma text_back obj k v : field obj k = text_field v -> no_nul v = true -> getStringField obj k = v.
Proof.
  unfold text_field. intros E Hv. destruct (String.eqb_spec v "") as [Ev|]; cbn [negb] in E.
  - rewrite Ev. by apply getString_none.
  - rewrite (getString_some _ _ _ E). by apply c_string_id.
Qed.

Lemma device_commands d : field (Obj2BSON d true) Store.COMMANDS
  = if negb (bool_decide (_commands d = ∅))
    then Some (BArr (map (fun kv => BObj [(Store.NAME, BStr (fst kv)); (Store.TYPE, BStr Store.COMMANDS);
                                   (Store.COMMANDS, BStr (snd kv))]) (in_order (_commands d))))
    else None.
Proof. device_field. Qed.

(** Reading a list of commands that [Map2BSON] wrote: the text of each is in
    the field [commands], and is looked for in [value]. *)
Lemma read_commands (l : list (string * string)) : forall names datamap, Forall (fun kv => no_nul (fst kv) = true) l ->
  map snd names = map (fun kv => BObj [(Store.NAME, BStr (fst kv)); (Store.TYPE, BStr Store.COMMANDS);
                                       (Store.COMMANDS, BStr (snd kv))]) l ->
  BSON2Map names datamap
  = fold_left (fun m kv => insert_pair m (fst kv) "") l datamap.
Proof.
  induction l as [|[k v] l IH]; intros [|[n e] names] datamap Hl E; try discriminate; [done|].
  apply Forall_cons in Hl as [Hk Hl]. injection E as -> E. unfold BSON2Map. cbn [fold_left snd fst element_object].
  rewrite (getString_some _ Store.NAME k), (getString_none _ Store.ATTRIBUTE_VALUE) by reflexivity.
  cbn [fst] in Hk. rewrite c_string_id by done. apply IH; done.
Qed.

Lemma elem_of_cons_ne (k n : string) (l : list (string * string)) : n <> k ->
  k ∈ l.*1 <-> k ∈ n :: l.*1.
Proof. rewrite elem_of_cons. naive_solver. Qed.

Lemma insert_pairs_lookup (l : list (string * string)) : forall (m : gmap string string) k,
  fold_left (fun m kv => insert_pair m (fst kv) "") l m !! k
  = match m !! k with
    | Some v => Some v
    | None => if bool_decide (k ∈ l.*1) then Some "" else None
    end.
Proof.
  induction l as [|[n v] l IH]; intros m k.
  - cbn. by destruct (m !! k).
  - cbn [fold_left fst]. rewrite IH. unfold insert_pair. cbn [fmap list_fmap fst].
    destruct (m !! n) eqn:En, (decide (n = k)) as [->|Hne].
    + by rewrite En.
    + by rewrite (bool_decide_ext _ _ (elem_of_cons_ne k n l Hne)).
    + rewrite lookup_insert_eq, En. by rewrite bool_decide_eq_true_2 by left.
    + rewrite lookup_insert_ne by done. by rewrite (bool_decide_ext _ _ (elem_of_cons_ne k n l Hne)).
Qed.

Lemma in_order_perm (m : gmap string string) : in_order m ≡ₚ map_to_list m.
Proof. apply merge_sort_Permutation. Qed.

Lemma in_order_keys (m : gmap string string) k : k ∈ (in_order m).*1 <-> is_Some (m !! k).
Proof.
  rewrite in_order_perm, list_elem_of_fmap. split.
  - intros ([k' v] & -> & Hk). apply elem_of_map_to_list in Hk. cbn. rewrite Hk. by eexists.
  - intros [v Hv]. exists (k, v). split; [done|]. by apply elem_of_map_to_list.
Qed.

(** A device written by [Obj2BSON] and read back has its names, its endpoint
    and its registration, but the texts of its commands are lost: the name of
    each command comes back with an empty text, because the text is written in
    the field [commands] and read from the field [value]. *)
Theorem device_read_back (d : Device) :
  Forall (fun s => no_nul s = true)
    [_name d; _service d; _service_path d; _entity_name d; _entity_type d; _protocol d; _endpoint d;
     _registration_id d] ->
  map_Forall (fun k _ => no_nul k = true) (_commands d) ->
  let d' := BSON2Obj (Obj2BSON d true) in
  (_name d' = _name d /\ _service d' = _service d /\ _service_path d' = _service_path d
   /\ _entity_name d' = _entity_name d /\ _entity_type d' = _entity_type d
   /\ _protocol d' = _protocol d /\ _endpoint d' = _endpoint d
   /\ _registration_id d' = _registration_id d)
  /\ _commands d' = (fun _ => "") <$> _commands d.
Proof.
  intros Hs Hc d'. destruct (device_texts d) as (F1 & F2 & F3 & F4 & F5 & F6 & F7 & F8).
  rewrite !Forall_cons in Hs. destruct Hs as (H1 & H2 & H3 & H4 & H5 & H6 & H7 & H8 & _).
  split; [repeat split; by apply text_back|]. unfold d', BSON2Obj. cbn [_commands].
  pose proof (device_commands d) as Hd. apply map_eq. intros k. rewrite lookup_fmap.
  destruct (decide (_commands d = ∅)) as [E|E].
  - rewrite bool_decide_eq_true_2 in Hd by done. rewrite (getObject_none _ _ Hd), E. done.
  - rewrite bool_decide_eq_false_2 in Hd by done. apply getObject_array in Hd.
    rewrite (read_commands (in_order (_commands d))); [|..|exact Hd].
    + rewrite insert_pairs_lookup, lookup_empty. case_bool_decide as Hk.
      * apply in_order_keys in Hk as [v ->]. done.
      * destruct (_commands d !! k) eqn:Ek; [|done]. destruct Hk. apply in_order_keys. by eexists.
    + rewrite in_order_perm. apply Forall_forall. intros [n v] Hn.
      apply elem_of_map_to_list in Hn. by apply (Hc n v).
Qed.
End DeviceCollection.

#[local] Instance bson_json_example : BsonJson := {|
  jsonString _ := "{}"; fromjson _ := None;
  numberLong d k := match field d k with Some (BNum z) => z | _ => 0 end
|}.

Definition pinging : Device :=
  mkDevice "dev" "ul" "s" "/p" "thing" "room" "" "http://d" ∅ {["ping" := "dev@ping|%s"]} ∅ ∅ "" 1
    "r1" 5 (-1).

Lemma device_read_back_witness :
  let d' := BSON2Obj (HR := bson_reader_reference)
              (Obj2BSON pinging true) in
  _name d' = "dev" /\ _commands d' = {["ping" := ""]}.
Proof.
  destruct (device_read_back (HRL := bson_reader_reference_laws) pinging) as [(H & _) Hc].
  - repeat (apply Forall_cons_2; [reflexivity|]). apply Forall_nil_2.
  - apply map_Forall_singleton. reflexivity.
  - split; [exact H|]. etransitivity; [exact Hc|]. apply map_fmap_singleton.
Defined.
