(* ===== verification/NgsiMessages.v ===== *)
(** * NGSI messages: [src/src/ngsi/Entity.cc], [UpdateContext.cc],
    [ContextResponse.cc], [ContextResponses.cc], and their headers

    The messages exchanged with the context broker: their constructors from
    JSON and their serialisation.  The constructors that read context elements
    take the fuel of [add_attribute]. *)
From stdpp Require Import base tactics list gmap strings pretty.
From Stdlib Require Import ZArith Lia Ascii String.
From S2P Require Import Prelude CppString Boost Types FuncUtil Device Json NgsiAttribute NgsiContext.

Local Open Scope string_scope.
Local Open Scope Z_scope.

#[local] Arguments render_identifier : simpl never.

Definition NGSI_STATUSCODE : string := "statusCode".
Definition NGSI_CODE : string := "code".
Definition NGSI_REASONPHRASE : string := "reasonPhrase".
Definition NGSI_DETAILS : string := "details".
Definition NGSI_CONTEXTELEMENT : string := "contextElement".

(** [v.HasMember(name) && v[name].IsX()] *)
Definition has_member_of (test : json -> bool) (v : json) (name : string) : outcome bool :=
  let! has := HasMember v name in
  if has then let! m := member v name in Ret (test m) else Ret false.

(** [if (v.HasMember(name) && v[name].IsString()) field.assign(v[name].GetString())] *)
Definition assign_member (v : json) (name : string) : outcome string :=
  let! is_string := has_member_of IsString v name in
  if is_string then let! m := member v name in GetString m else Ret "".

(** ** Entity *)

Module Entity.
Section Entity.
  Context `{Rapidjson}.

Record Entity : Type := mkEntity { _id : string; _type : string; _is_pattern : string }.

Definition missing_id : exn := RuntimeError ("Entity: missing field [" ++ NGSI_ID ++ "]").

Definition entity_fields (v : json) : outcome Entity :=
  let! id := has_member_of IsString v NGSI_ID in
  if negb id then Throw missing_id
  else
    let! m := member v NGSI_ID in
    let! id := GetString m in
    let! type := assign_member v NGSI_TYPE in
    let! is_pattern := assign_member v NGSI_ISPATTERN in
    Ret (mkEntity id type is_pattern).

Definition entity_of_json (entity : json) : outcome Entity :=
  if negb (IsObject entity) then Throw missing_id else entity_fields entity.

Definition entity_of_string (str_entity : string) : outcome Entity :=
  match json_parse (c_string str_entity) with
  | None => Throw (RuntimeError ("Entity: " ++ parse_error (c_string str_entity)))
  | Some document => entity_fields document
  end.

Definition set_id (e : Entity) (id : string) : Entity := mkEntity id (_type e) (_is_pattern e).
Definition set_type (e : Entity) (type : string) : Entity := mkEntity (_id e) type (_is_pattern e).

Definition Serialize (e : Entity) : list event :=
  [StartObject; EvString "id"; EvString (_id e); EvString "type"; EvString (_type e);
   EvString "isPattern"; EvString (_is_pattern e); EndObject].

Definition get_string (e : Entity) : string := c_string (json_text (Serialize e)).
End Entity.
End Entity.

(** ** Updates *)

Module UpdateContext.
Section UpdateContext.
  Context `{Boost} `{Rapidjson} `{PropertyTree}.

Record UpdateContext : Type := mkUpdateContext {
  _action : string;
  _context_elements : list ContextElement
}.

Definition add_context_element (u : UpdateContext) (context_element : ContextElement)
    : UpdateContext :=
  mkUpdateContext (_action u) (_context_elements u ++ [context_element])%list.

Fixpoint add_read_elements (fuel : nat) (u : UpdateContext) (es : list json)
    : fueled UpdateContext :=
  match es with
  | [] => Some (Ret u)
  | v :: rest =>
      fuel! context_element := context_element_of_json fuel v in
      add_read_elements fuel (add_context_element u context_element) rest
  end.

Definition update_fields (fuel : nat) (v : json) : fueled UpdateContext :=
  fuel! has_action := Some (HasMember v "updateAction") in
  if negb has_action then Some (Throw (RuntimeError "UpdateContext: missing field [updateAction]"))
  else
    fuel! a := Some (member v "updateAction") in
    fuel! action := Some (GetString a) in
    fuel! has := Some (HasMember v "contextElements") in
    if has then
      fuel! context_elements := Some (member v "contextElements") in
      if IsArray context_elements then
        fuel! es := Some (Elements context_elements) in
        add_read_elements fuel (mkUpdateContext action []) es
      else Some (Throw (RuntimeError "UpdateContext: invalid type field [contextElements]"))
    else Some (Throw (RuntimeError "UpdateContext: missing field [contextElements]")).

Definition update_of_json (fuel : nat) (operation : json) : fueled UpdateContext :=
  if negb (IsObject operation) then Some (Throw (RuntimeError "Invalid object"))
  else update_fields fuel operation.

Definition update_of_string (fuel : nat) (str_operation : string) : fueled UpdateContext :=
  match json_parse (c_string str_operation) with
  | None => Some (Throw (RuntimeError ("UpdateContext: " ++ parse_error (c_string str_operation))))
  | Some document => update_fields fuel document
  end.

Definition Serialize (u : UpdateContext) : list event :=
  ([StartObject; EvString "updateAction"; EvString (_action u); EvString "contextElements"]
   ++ (StartArray :: List.concat (map NgsiContext.Serialize (_context_elements u)) ++ [EndArray])
   ++ [EndObject])%list.

Definition get_string (u : UpdateContext) : string := c_string (json_text (Serialize u)).
End UpdateContext.
End UpdateContext.

(** ** Responses *)

Module ContextResponse.
Section ContextResponse.
  Context `{Boost} `{Rapidjson} `{PropertyTree}.

Record ContextResponse : Type := mkContextResponse {
  _code : string;
  _reason : string;
  _details : string;
  _context_element : ContextElement
}.

Definition default_response : ContextResponse :=
  mkContextResponse "200" "OK" "" empty_context_element.

Definition new_response (status_code reason_phrase : string) : ContextResponse :=
  mkContextResponse status_code reason_phrase "" empty_context_element.

Definition set_code (r : ContextResponse) (code : string) : ContextResponse :=
  mkContextResponse code (_reason r) (_details r) (_context_element r).

Definition set_int_code (r : ContextResponse) (icode : Z) : ContextResponse :=
  set_code r (lexical_cast icode).

Definition set_reason (r : ContextResponse) (reason : string) : ContextResponse :=
  mkContextResponse (_code r) (erase_all reason (ascii_of_nat 34)) (_details r)
    (_context_element r).

Definition set_details (r : ContextResponse) (details : string) : ContextResponse :=
  mkContextResponse (_code r) (_reason r) (erase_all details (ascii_of_nat 34))
    (_context_element r).

Definition add_context_element (r : ContextResponse) (ce : ContextElement) : ContextResponse :=
  mkContextResponse (_code r) (_reason r) (_details r) ce.

(** The test of [statusCode] and [code], the members in the order of [||]. *)
Definition has_code (v : json) : outcome bool :=
  let! status := has_member_of IsObject v NGSI_STATUSCODE in
  if negb status then Ret false
  else let! s := member v NGSI_STATUSCODE in has_member_of IsString s NGSI_CODE.

Definition response_of_json (fuel : nat) (v : json) : fueled ContextResponse :=
  fuel! ok := Some (has_code v) in
  if negb ok then
    Some (Throw (RuntimeError
      ("ContextResponse: invalid or missing field [" ++ NGSI_STATUSCODE ++ "]")))
  else
    fuel! status := Some (member v NGSI_STATUSCODE) in
    fuel! c := Some (member status NGSI_CODE) in
    fuel! code := Some (GetString c) in
    fuel! reason := Some (assign_member status NGSI_REASONPHRASE) in
    fuel! details := Some (assign_member status NGSI_DETAILS) in
    fuel! has := Some (has_member_of IsObject v NGSI_CONTEXTELEMENT) in
    if has then
      fuel! ce_value := Some (member v NGSI_CONTEXTELEMENT) in
      fuel! ce := context_element_of_json fuel ce_value in
      Some (Ret (mkContextResponse code reason details ce))
    else Some (Ret (mkContextResponse code reason details empty_context_element)).

Definition response_of_string (fuel : nat) (str_context_response : string)
    : fueled ContextResponse :=
  match json_parse (c_string str_context_response) with
  | None => Some (Throw (RuntimeError
              ("ContextResponse: " ++ parse_error (c_string str_context_response))))
  | Some document => response_of_json fuel document
  end.

Definition Serialize (r : ContextResponse) : list event :=
  ([StartObject; EvString "statusCode";
    StartObject; EvString "code"; EvString (_code r); EvString "reasonPhrase";
    EvString (_reason r); EvString "details"; EvString (_details r); EndObject;
    EvString "contextElement"]
   ++ NgsiContext.Serialize (_context_element r) ++ [EndObject])%list.

Definition get_string (r : ContextResponse) : string := c_string (json_text (Serialize r)).
End ContextResponse.
End ContextResponse.

Module ContextResponses.
Section ContextResponses.
  Context `{Boost} `{Rapidjson} `{PropertyTree}.
Import ContextResponse.

Definition add_context_response (rs : list ContextResponse) (r : ContextResponse)
    : list ContextResponse := (rs ++ [r])%list.

Fixpoint add_read_responses (fuel : nat) (rs : list ContextResponse) (es : list json)
    : fueled (list ContextResponse) :=
  match es with
  | [] => Some (Ret rs)
  | v :: rest =>
      fuel! context_response := response_of_json fuel v in
      add_read_responses fuel (add_context_response rs context_response) rest
  end.

Definition responses_of_string (fuel : nat) (str_context_responses : string)
    : fueled (list ContextResponse) :=
  match json_parse (c_string str_context_responses) with
  | None => Some (Throw (RuntimeError
              ("Operation: " ++ parse_error (c_string str_context_responses))))
  | Some document =>
      fuel! has := Some (HasMember document "contextResponses") in
      if has then
        fuel! context_responses := Some (member document "contextResponses") in
        if IsArray context_responses then
          fuel! es := Some (Elements context_responses) in add_read_responses fuel [] es
        else Some (Ret [])
      else Some (Ret [])
  end.

(** The constructor from a value: the inner variable [context_responses] hides
    the argument and is initialised from itself. *)
Definition responses_of_json (v : json) : outcome (list ContextResponse) :=
  let! has := HasMember v "contextResponses" in
  if has then Undefined else Ret [].

Definition Serialize (rs : list ContextResponse) : list event :=
  ([StartObject; EvString "contextResponses"]
   ++ (StartArray :: List.concat (map ContextResponse.Serialize rs) ++ [EndArray])
   ++ [EndObject])%list.

Definition get_string (rs : list ContextResponse) : string := c_string (json_text (Serialize rs)).

(** The loop of [get_message_response]. *)
Fixpoint message_loop (first : bool) (rs : list ContextResponse) (res : string) : string :=
  match rs with
  | [] => res
  | r :: rest => message_loop false rest ((if first then res else res ++ " ") ++ _reason r)%string
  end.

Definition get_message_response (rs : list ContextResponse) : string :=
  match rs with
  | [r] => _reason r
  | _ => message_loop true rs ""
  end.
End ContextResponses.
End ContextResponses.

(** ** Round trips *)

Section RoundTrips.
  Context `{HBL : BoostLaws} `{HR : Rapidjson} `{HPL : PropertyTreeLaws}.

(** A context element without its environment, as the constructors make it;
    its attributes have a type and a value. *)
Definition element_ok (ce : ContextElement) : Prop :=
  identifier (_id ce) /\ identifier (_type ce) /\ no_nul (_is_pattern ce) = true
  /\ _service_info ce = pt_empty /\ _device_info ce = None
  /\ Forall (fun a => attribute_ok a /\ get_type a <> "" /\ empty_value a = false)
       (_attributes ce).

Lemma add_attribute_unmapped fuel ce a : (1 <= fuel)%nat ->
  _device_info ce = None -> pt_get_child (_service_info ce) Store.ATTRIBUTES = None ->
  get_type a <> "" -> empty_value a = false ->
  add_attribute fuel ce a = Some (Ret (push_attribute ce a)).
Proof.
  intros Hf Hd Hs Ht He. destruct fuel as [|fuel]; [lia|]. cbn [add_attribute].
  rewrite default_type_id, He by done. unfold find_mapping. rewrite Hd. cbn. by rewrite Hs.
Qed.

Lemma add_read_attributes_eq fuel atts ws : (1 <= fuel)%nat ->
  Forall2 (fun a w => attribute_of_json w = Ret a /\ get_type a <> "" /\ empty_value a = false)
    atts ws ->
  forall id type p pre,
    add_read_attributes fuel (mkContextElement id type p pre pt_empty None) ws
    = Some (Ret (mkContextElement id type p (pre ++ atts) pt_empty None)).
Proof.
  intros Hf. induction 1 as [|a w atts ws (Hw & Ht & He) Hrest IH]; intros id type p pre; cbn.
  - by rewrite app_nil_r.
  - rewrite Hw. cbn. rewrite add_attribute_unmapped; [|done|done|by apply pt_get_child_empty|done|done].
    cbn. unfold push_attribute. cbn. rewrite IH. by rewrite <- app_assoc.
Qed.

(** A list of things that can be read back one by one. *)
Lemma collect {A} (ev : A -> list event) (Q : A -> json -> Prop) (l : list A) :
  Forall (fun a => exists w, builds (ev a) w /\ Q a w) l ->
  exists ws, Forall2 (fun a w => builds (ev a) w) l ws /\ Forall2 Q l ws.
Proof.
  induction 1 as [|a l (w & Hb & HP) _ (ws & Hbs & HPs)].
  - exists []. split; constructor.
  - exists (w :: ws). split; by constructor.
Qed.

Lemma attribute_readable a : attribute_ok a ->
  exists w, builds (NgsiAttribute.Serialize a) w /\ attribute_of_json w = Ret a.
Proof. apply attribute_reads. Qed.

Lemma element_reads ce : element_ok ce ->
  exists w, builds (NgsiContext.Serialize ce) w /\ IsObject w = true
    /\ forall fuel, (1 <= fuel)%nat -> context_element_of_json fuel w = Some (Ret ce).
Proof.
  destruct ce as [id type p atts si di].
  unfold element_ok. cbn [_id _type _is_pattern _attributes _service_info _device_info].
  intros ([Hi Hi'] & [Ht Ht'] & Hp & -> & -> & Hat).
  destruct (collect NgsiAttribute.Serialize
    (fun a w => attribute_of_json w = Ret a /\ get_type a <> "" /\ empty_value a = false) atts)
    as (ws & Hb & Hr).
  { eapply Forall_impl; [exact Hat|]. intros a (Ha & Hta & Hea).
    destruct (attribute_readable a Ha) as (w & Hw & Hrw). by exists w. }
  set (ms := ([("id", ([EvString id], JString id)); ("type", ([EvString type], JString type));
               ("isPattern", ([EvString p], JString p))]
              ++ match atts with
                 | [] => []
                 | _ => [("attributes", (StartArray :: List.concat (map NgsiAttribute.Serialize atts)
                                           ++ [EndArray], JArray ws))]
                 end)%list).
  exists (JObject (map (fun m => (fst m, snd (snd m))) ms)). split; [|split; [done|]].
  - pose proof (builds_object fst snd ms) as Hms.
    replace (NgsiContext.Serialize (mkContextElement id type p atts pt_empty None))
      with (StartObject :: member_events fst ms ++ [EndObject])%list.
    + apply Hms. unfold ms. apply Forall_app. split; [repeat constructor; cbn; auto with iota|].
      destruct atts as [|a atts]; constructor; [|constructor]. by apply builds_array_2.
    + unfold NgsiContext.Serialize, ms, member_events. destruct atts as [|a atts]; [done|].
      cbn -[NgsiAttribute.Serialize]. rewrite <- !app_assoc. cbn. done.
  - intros fuel Hf. unfold context_element_of_json, context_fields, string_member.
    destruct atts as [|a atts].
    + cbn. by rewrite !c_string_id, Hi, Ht.
    + cbn -[add_read_attributes]. rewrite !c_string_id, Hi, Ht by done.
      cbn -[add_read_attributes].
      by rewrite (add_read_attributes_eq _ _ _ Hf Hr).
Qed.

Lemma elements_collect l : Forall element_ok l ->
  exists ws, Forall2 (fun ce w => builds (NgsiContext.Serialize ce) w) l ws
    /\ Forall2 (fun ce w => IsObject w = true /\ forall fuel, (1 <= fuel)%nat ->
                  context_element_of_json fuel w = Some (Ret ce)) l ws.
Proof. intros Hl. apply collect. eapply Forall_impl; [exact Hl|]. apply element_reads. Qed.

Lemma add_read_elements_eq fuel l ws : (1 <= fuel)%nat ->
  Forall2 (fun ce w => IsObject w = true /\ forall fuel, (1 <= fuel)%nat ->
             context_element_of_json fuel w = Some (Ret ce)) l ws ->
  forall action pre,
    UpdateContext.add_read_elements fuel (UpdateContext.mkUpdateContext action pre) ws
    = Some (Ret (UpdateContext.mkUpdateContext action (pre ++ l))).
Proof.
  intros Hf. induction 1 as [|ce w l ws [_ Hw] Hrest IH]; intros action pre; cbn.
  - by rewrite app_nil_r.
  - rewrite Hw by done. cbn. unfold UpdateContext.add_context_element. cbn. rewrite IH.
    by rewrite <- app_assoc.
Qed.


Definition response_ok (r : ContextResponse.ContextResponse) : Prop :=
  no_nul (ContextResponse._code r) = true /\ no_nul (ContextResponse._reason r) = true
  /\ no_nul (ContextResponse._details r) = true /\ element_ok (ContextResponse._context_element r).

Lemma response_reads r : response_ok r ->
  exists w, builds (ContextResponse.Serialize r) w
    /\ forall fuel, (1 <= fuel)%nat -> ContextResponse.response_of_json fuel w = Some (Ret r).
Proof.
  destruct r as [code reason details ce]. unfold response_ok.
  cbn [ContextResponse._code ContextResponse._reason ContextResponse._details
       ContextResponse._context_element].
  intros (Hc & Hr & Hd & Hce). destruct (element_reads ce Hce) as (w & Hw & Ho & Hread).
  set (status := JObject [("code", JString code); ("reasonPhrase", JString reason);
                          ("details", JString details)]).
  exists (JObject [("statusCode", status); ("contextElement", w)]). split.
  - intros rest f st. unfold ContextResponse.Serialize. cbn [ContextResponse._context_element].
    rewrite <- !app_assoc. cbn -[NgsiContext.Serialize]. rewrite Hw. reflexivity.
  - intros fuel Hf. unfold ContextResponse.response_of_json, ContextResponse.has_code,
      has_member_of, assign_member. subst status. cbn -[context_element_of_json].
    rewrite !c_string_id, Ho by done. cbn [fbind]. by rewrite Hread.
Qed.

Lemma add_read_responses_eq fuel l ws : (1 <= fuel)%nat ->
  Forall2 (fun r w => forall fuel, (1 <= fuel)%nat ->
             ContextResponse.response_of_json fuel w = Some (Ret r)) l ws ->
  forall pre, ContextResponses.add_read_responses fuel pre ws = Some (Ret (pre ++ l)%list).
Proof.
  intros Hf. induction 1 as [|r w l ws Hw Hrest IH]; intros pre; [by rewrite app_nil_r|].
  cbn [ContextResponses.add_read_responses]. rewrite Hw by done. cbn [fbind]. unfold ContextResponses.add_context_response. rewrite IH.
  by rewrite <- app_assoc.
Qed.

Lemma message_loop_eq l res :
  ContextResponses.message_loop false l res
  = String.concat "" (res :: map (fun r => " " ++ ContextResponse._reason r) l).
Proof.
  revert res; induction l as [|r l IH]; intros res; cbn -[String.concat]; [done|].
  rewrite IH. destruct l as [|r' l]; cbn; [by rewrite <- !str_app_assoc|].
  by rewrite <- !str_app_assoc.
Qed.

Lemma concat_spaces r l :
  String.concat "" (r :: map (fun s => " " ++ s) l) = String.concat " " (r :: l).
Proof.
  revert r; induction l as [|s l IH]; intros r; [done|].
  change (r ++ "" ++ String.concat "" (map (fun s => " " ++ s) (s :: l))
          = r ++ " " ++ String.concat " " (s :: l)).
  rewrite <- (IH s). destruct l as [|s' l]; cbn; by rewrite <- ?str_app_assoc.
Qed.

Lemma get_message_response_eq rs :
  ContextResponses.get_message_response rs = String.concat " " (map ContextResponse._reason rs).
Proof.
  destruct rs as [|r [|r' rs]]; [done|done|].
  change (ContextResponses.message_loop false (r' :: rs) (ContextResponse._reason r)
          = String.concat " " (map ContextResponse._reason (r :: r' :: rs))).
  rewrite message_loop_eq, <- (map_map ContextResponse._reason (fun s => " " ++ s)).
  apply concat_spaces.
Qed.

(** The responses of the context broker: a text whose document is the one
    the responses serialise to is read back as the same responses, and the
    message shown is their reasons separated by spaces; but the constructor
    from a value reads a reference before it is initialised whenever there are
    responses to read. *)
Theorem responses_roundtrip (rs : list ContextResponse.ContextResponse) :
  Forall response_ok rs ->
  exists v, document (ContextResponses.Serialize rs) = Some v
    /\ (forall text fuel, (1 <= fuel)%nat -> json_parse (c_string text) = Some v ->
        ContextResponses.responses_of_string fuel text = Some (Ret rs))
    /\ ContextResponses.get_message_response rs
       = String.concat " " (map ContextResponse._reason rs)
    /\ ContextResponses.responses_of_json v = Undefined.
Proof.
  intros Hrs.
  destruct (collect ContextResponse.Serialize
    (fun r w => forall fuel, (1 <= fuel)%nat ->
       ContextResponse.response_of_json fuel w = Some (Ret r)) rs) as (ws & Hb & Hr).
  { eapply Forall_impl; [exact Hrs|]. apply response_reads. }
  exists (JObject [("contextResponses", JArray ws)]). split; [|split; [|split; [|done]]].
  - apply builds_document.
    pose proof (builds_object fst snd
      [("contextResponses", (StartArray :: List.concat (map ContextResponse.Serialize rs)
                               ++ [EndArray], JArray ws))]%list) as Hms.
    unfold member_events in Hms. cbn -[ContextResponse.Serialize] in Hms.
    rewrite app_nil_r in Hms. apply Hms. constructor; [|constructor]. by apply builds_array_2.
  - intros text fuel Hf Hp. unfold ContextResponses.responses_of_string. rewrite Hp.
    cbn -[ContextResponses.add_read_responses]. by rewrite (add_read_responses_eq _ _ _ Hf Hr).
  - apply get_message_response_eq.
Qed.
End RoundTrips.

Section Examples.
  Local Existing Instance boost_reference.
  Local Existing Instance rapidjson_example.

#[local] Instance example_pt : PropertyTree := ptree_reference (fun _ => "").

Definition example_ce : ContextElement :=
  mkContextElement "thing:dev" "thing" "false"
    [mkAttribute "t" "string" "15" [time_metadata "2015"] [] false] pt_empty None.

Lemma example_ce_ok : element_ok example_ce.
Proof.
  split; [by split|]. split; [by split|]. split; [done|]. split; [done|]. split; [done|].
  apply Forall_cons_2; [|apply Forall_nil_2]. split; [|by split].
  split; [by split|]. split; [by split|]. split.
  - apply scalar_ok; [done|]. split; done.
  - apply Forall_cons_2; [|apply Forall_nil_2]. repeat split; discriminate.
Qed.


Lemma responses_roundtrip_witness :
  let rs := [ContextResponse.mkContextResponse "200" "OK" "" example_ce;
             ContextResponse.mkContextResponse "404" "not found" "" example_ce] in
  ContextResponses.get_message_response rs = "OK not found"
  /\ exists v, document (ContextResponses.Serialize rs) = Some v
       /\ ContextResponses.responses_of_json v = Undefined.
Proof.
  intros rs. destruct (responses_roundtrip
    (HPL := ptree_reference_laws (fun _ => "")) rs) as (v & Hv & _ & Hm & Hu).
  - repeat (apply Forall_cons_2; [repeat split; try reflexivity; apply example_ce_ok|]).
    apply Forall_nil_2.
  - split; [exact Hm|]. by exists v.
Defined.
End Examples.
