(* ===== verification/NgsiRegister.v ===== *)
(** * Registrations, queries and subscriptions: [src/src/ngsi/]

    [AttributeRegister], [ContextRegistration], [RegisterContext],
    [RegisterResponse], [QueryContext], [NotifyCondition], [SubscribeContext]
    and [SubscribeResponse], with their headers: the constructors from JSON
    and the serialisation.  Each constructor from a text reads the document of
    the text; where it differs from the constructor from a value, both are
    given. *)
From stdpp Require Import base tactics list gmap strings.
From Stdlib Require Import ZArith Lia Ascii String.
From S2P Require Import Prelude CppString Boost Types Json NgsiAttribute NgsiContext NgsiMessages.
From S2P Require Import Device.

Local Open Scope string_scope.
Local Open Scope Z_scope.

Definition NGSI_ENTITIES : string := "entities".
Definition NGSI_PROVIDINGAPPLICATION : string := "providingApplication".
Definition NGSI_CONTEXTREGISTRATIONS : string := "contextRegistrations".
Definition NGSI_DURATION : string := "duration".
Definition NGSI_REGISTRATIONID : string := "registrationId".
Definition NGSI_CONDVALUES : string := "condValues".

Section Reading.
  Context `{HJ : Rapidjson}.

(** A constructor from a text. *)
Definition of_text {A} (class : string) (read : json -> outcome A) (text : string) : outcome A :=
  match json_parse (c_string text) with
  | None => Throw (RuntimeError (class ++ ": " ++ parse_error (c_string text)))
  | Some document => read document
  end.

Definition missing (class name : string) : exn :=
  RuntimeError (class ++ ": invalid or missing field [" ++ name ++ "]").

(** The elements of an array that has to be there. *)
Definition array_or (e : exn) (name : string) (v : json) : outcome (list json) :=
  let! ok := has_member_of IsArray v name in
  if negb ok then Throw e else let! m := member v name in Elements m.
Definition array_of (class name : string) (v : json) : outcome (list json) :=
  array_or (missing class name) name v.

(** The elements of an array, if it is there. *)
Definition array_if (name : string) (v : json) : outcome (list json) :=
  let! ok := has_member_of IsArray v name in
  if ok then let! m := member v name in Elements m else Ret [].

(** [if (v.HasMember(test)) field.assign(v[name].GetString())] *)
Definition string_if (test name : string) (v : json) : outcome string :=
  let! has := HasMember v test in
  if has then let! m := member v name in GetString m else Ret "".

Definition text_of (serialized : list event) : string := c_string (json_text serialized).

Lemma array_of_member e name ms es : find_name ms name = Some (JArray es) ->
  array_or e name (JObject ms) = Ret es.
Proof. intros E. unfold array_or, has_member_of, HasMember, member. cbn. by rewrite E. Qed.
End Reading.

Lemma omapM_Forall2 {A B} (f : A -> outcome B) l l' :
  Forall2 (fun x y => f x = Ret y) l l' -> omapM f l = Ret l'.
Proof. induction 1 as [|x y l l' Hx Hl IH]; cbn; [done|]. by rewrite Hx, IH. Qed.

(** ** Registrations *)

Module AttributeRegister.
Section AttributeRegister.
  Context `{HJ : Rapidjson}.

Record AttributeRegister : Type := mkAttributeRegister {
  _name : string;
  _type : string;
  _is_domain : string
}.

Definition missing_name : exn := RuntimeError "AttributeRegister:  missing field [name]".

Definition named (v : json) (type is_domain : json -> outcome string) : outcome AttributeRegister :=
  let! has := HasMember v "name" in
  if negb has then Throw missing_name
  else
    let! m := member v "name" in
    let! name := GetString m in
    let! type := type v in
    let! is_domain := is_domain v in
    Ret (mkAttributeRegister name type is_domain).

(** From a text, members that are no strings are left out; from a value, they
    fail an assertion. *)
Definition of_string : string -> outcome AttributeRegister :=
  of_text "AttributeRegister"
    (fun v => named v (fun v => assign_member v "type") (fun v => assign_member v "isDomain")).

Definition of_json (v : json) : outcome AttributeRegister :=
  if negb (IsObject v) then Throw (RuntimeError "Invalid Object")
  else named v (string_if "type" "type") (string_if "isDomain" "isDomain").

Definition Serialize (a : AttributeRegister) : list event :=
  [StartObject; EvString "name"; EvString (_name a); EvString "type"; EvString (_type a);
   EvString "isDomain"; EvString (_is_domain a); EndObject].

Definition to_json (a : AttributeRegister) : json :=
  JObject [("name", JString (_name a)); ("type", JString (_type a));
           ("isDomain", JString (_is_domain a))].

Definition plain (a : AttributeRegister) : Prop :=
  no_nul (_name a) = true /\ no_nul (_type a) = true /\ no_nul (_is_domain a) = true.

Lemma attr_register_serialize_eq a : Serialize a = accept (to_json a).
Proof. reflexivity. Qed.

Lemma attr_register_reads a : plain a -> of_json (to_json a) = Ret a.
Proof.
  destruct a as [n t d]. intros (H1 & H2 & H3). cbn in *.
  unfold of_json, named, string_if, HasMember, member. cbn. by rewrite !c_string_id.
Qed.
End AttributeRegister.
End AttributeRegister.

(** Entities, as the others. *)
Definition entity_json (e : Entity.Entity) : json :=
  JObject [("id", JString (Entity._id e)); ("type", JString (Entity._type e));
           ("isPattern", JString (Entity._is_pattern e))].

Definition plain_entity (e : Entity.Entity) : Prop :=
  no_nul (Entity._id e) = true /\ no_nul (Entity._type e) = true
  /\ no_nul (Entity._is_pattern e) = true.

Lemma entity_serialize_eq e : Entity.Serialize e = accept (entity_json e).
Proof. reflexivity. Qed.

Lemma entity_reads e : plain_entity e -> Entity.entity_of_json (entity_json e) = Ret e.
Proof.
  destruct e as [i t p]. intros (H1 & H2 & H3). cbn in *.
  unfold Entity.entity_of_json, Entity.entity_fields, assign_member, has_member_of. cbn.
  by rewrite !c_string_id.
Qed.

(** A list of things as a JSON array. *)
Lemma serialize_list {A} (ser : A -> list event) (to : A -> json) (l : list A) :
  (forall x, ser x = accept (to x)) ->
  (StartArray :: List.concat (map ser l) ++ [EndArray])%list = accept (JArray (map to l)).
Proof. intros H. cbn. rewrite map_map. by rewrite (map_ext _ _ H). Qed.

Lemma reads_list {A} (read : json -> outcome A) (to : A -> json) (P : A -> Prop) (l : list A) :
  (forall x, P x -> read (to x) = Ret x) -> Forall P l -> omapM read (map to l) = Ret l.
Proof.
  intros H Hl. apply omapM_inverse. eapply Forall_impl; [exact Hl|]. exact H.
Qed.

Lemma strings_list l : Forall (fun s => no_nul s = true) l ->
  omapM GetString (map JString l) = Ret l.
Proof. apply reads_list. intros s Hs. by apply GetString_eq. Qed.

Module ContextRegistration.
Section ContextRegistration.
  Context `{HB : Boost} `{HJ : Rapidjson} `{HP : PropertyTree}.

(** With the service and the device of [set_env_info]. *)
Record ContextRegistration : Type := mkContextRegistration {
  _entities : list Entity.Entity;
  _attributes : list AttributeRegister.AttributeRegister;
  _provider : string
}.

Definition empty_registration : ContextRegistration := mkContextRegistration [] [] "".

Definition add_entity (r : ContextRegistration) (e : Entity.Entity) : ContextRegistration :=
  mkContextRegistration (_entities r ++ [e])%list (_attributes r) (_provider r).
Definition add_attribute (r : ContextRegistration) (a : AttributeRegister.AttributeRegister)
    : ContextRegistration :=
  mkContextRegistration (_entities r) (_attributes r ++ [a])%list (_provider r).
Definition add_provider (r : ContextRegistration) (p : string) : ContextRegistration :=
  mkContextRegistration (_entities r) (_attributes r) p.

Definition class_name : string := "ContextRegistration".

Definition fields (v : json) : outcome ContextRegistration :=
  let! es := array_of class_name NGSI_ENTITIES v in
  let! entities := omapM Entity.entity_of_json es in
  let! ats := array_of class_name NGSI_ATTRIBUTES v in
  let! attributes := omapM AttributeRegister.of_json ats in
  let! provider := assign_member v NGSI_PROVIDINGAPPLICATION in
  Ret (mkContextRegistration entities attributes provider).

Definition of_string : string -> outcome ContextRegistration := of_text class_name fields.

Definition of_json (v : json) : outcome ContextRegistration :=
  if negb (IsObject v) then Throw (missing class_name NGSI_ENTITIES) else fields v.

Definition Serialize (r : ContextRegistration) : list event :=
  ([StartObject; EvString "entities"]
   ++ (StartArray :: List.concat (map Entity.Serialize (_entities r)) ++ [EndArray])
   ++ [EvString "attributes"]
   ++ (StartArray :: List.concat (map AttributeRegister.Serialize (_attributes r)) ++ [EndArray])
   ++ [EvString "providingApplication"; EvString (_provider r); EndObject])%list.

(** The entity of a device: its name and its type, which are also set in the
    device; without a device nothing is added. *)
Definition registered_entity (service_info : ptree) (d : Device) : Entity.Entity :=
  let service_entity_type := pt_get_default service_info (Store.ENTITY ++ "_" ++ Store.TYPE) "" in
  let entity_type :=
    if NgsiContext.named (_entity_type d) then _entity_type d
    else if nonempty service_entity_type then service_entity_type
    else if nonempty (_entity_type d) then _entity_type d
    else "thing" in
  let entity_id :=
    if NgsiContext.named (_entity_name d) then _entity_name d
    else if String.eqb (_entity_type d) "" then entity_type ++ ":" ++ _name d
    else _entity_name d in
  Entity.mkEntity entity_id entity_type "false".

Definition set_names (d : Device) (e : Entity.Entity) : Device :=
  mkDevice (_name d) (_protocol d) (_service d) (_service_path d) (Entity._type e) (Entity._id e)
    (_timezone d) (_endpoint d) (Device._attributes d) (_commands d) (_static_attributes d) (_lazy d)
    (_model d) (_active d) (_registration_id d) (_duration_cb d) (_timestamp_data d).

Definition set_env_info (r : ContextRegistration) (service_info : ptree) (device : option Device)
    : ContextRegistration * option Device :=
  match device with
  | None => (r, None)
  | Some d =>
      let ent := registered_entity service_info d in
      (add_entity r ent, Some (set_names d ent))
  end.

Definition to_json (r : ContextRegistration) : json :=
  JObject [("entities", JArray (map entity_json (_entities r)));
           ("attributes", JArray (map AttributeRegister.to_json (_attributes r)));
           ("providingApplication", JString (_provider r))].

Definition plain (r : ContextRegistration) : Prop :=
  Forall plain_entity (_entities r) /\ Forall AttributeRegister.plain (_attributes r)
  /\ no_nul (_provider r) = true.

Lemma registration_serialize_eq r : Serialize r = accept (to_json r).
Proof.
  unfold Serialize.
  rewrite (serialize_list Entity.Serialize entity_json), (serialize_list AttributeRegister.Serialize
    AttributeRegister.to_json) by done.
  cbn [to_json accept map List.concat fst snd]. by rewrite <- !app_assoc.
Qed.

Lemma registration_reads r : plain r -> of_json (to_json r) = Ret r.
Proof.
  destruct r as [es ats p]. intros (He & Ha & Hp). unfold of_json, fields, to_json.
  cbn [_entities _attributes _provider IsObject negb].
  unfold array_of. rewrite (array_of_member _ _ _ (map entity_json es)) by done. cbn [obind].
  rewrite (reads_list _ _ plain_entity) by (done || apply entity_reads). cbn [obind].
  unfold array_of. rewrite (array_of_member _ _ _ (map AttributeRegister.to_json ats)) by done. cbn [obind].
  rewrite (reads_list _ _ AttributeRegister.plain) by (done || apply AttributeRegister.attr_register_reads).
  unfold assign_member, has_member_of, HasMember, member. cbn. by rewrite c_string_id.
Qed.
End ContextRegistration.
End ContextRegistration.

Module RegisterContext.
Section RegisterContext.
  Context `{HB : Boost} `{HJ : Rapidjson} `{HP : PropertyTree}.
Import ContextRegistration.

Record RegisterContext : Type := mkRegisterContext {
  _context_registrations : list ContextRegistration;
  _duration : string;
  _registrationId : string
}.

Definition empty_register : RegisterContext := mkRegisterContext [] "" "".

Definition add_context_registration (r : RegisterContext) (c : ContextRegistration)
    : RegisterContext :=
  mkRegisterContext (_context_registrations r ++ [c])%list (_duration r) (_registrationId r).
Definition add_duration (r : RegisterContext) (d : string) : RegisterContext :=
  mkRegisterContext (_context_registrations r) d (_registrationId r).
Definition add_registrationId (r : RegisterContext) (i : string) : RegisterContext :=
  mkRegisterContext (_context_registrations r) (_duration r) i.

Definition class_name : string := "RegisterContext".

Definition fields (e : exn) (v : json) : outcome RegisterContext :=
  let! cs := array_or e NGSI_CONTEXTREGISTRATIONS v in
  let! regs := omapM ContextRegistration.of_json cs in
  let! duration := assign_member v NGSI_DURATION in
  let! id := assign_member v NGSI_REGISTRATIONID in
  Ret (mkRegisterContext regs duration id).

(** The two constructors differ in a space of their error. *)
Definition of_string : string -> outcome RegisterContext :=
  of_text class_name
    (fields (RuntimeError (class_name ++ ": invalid or missing  field ["
                             ++ NGSI_CONTEXTREGISTRATIONS ++ "]"))).

Definition of_json (v : json) : outcome RegisterContext :=
  let e := missing class_name NGSI_CONTEXTREGISTRATIONS in
  if negb (IsObject v) then Throw e else fields e v.

(** Empty strings are left out. *)
Definition string_field (name value : string) : list event :=
  if String.eqb value "" then [] else [EvString name; EvString value].

Definition Serialize (r : RegisterContext) : list event :=
  ([StartObject; EvString "contextRegistrations"]
   ++ (StartArray :: List.concat (map ContextRegistration.Serialize (_context_registrations r))
         ++ [EndArray])
   ++ string_field "duration" (_duration r) ++ string_field "registrationId" (_registrationId r)
   ++ [EndObject])%list.

Definition get_string (r : RegisterContext) : string := text_of (Serialize r).

Definition string_member (name value : string) : list (string * json) :=
  if String.eqb value "" then [] else [(name, JString value)].

Definition to_json (r : RegisterContext) : json :=
  JObject (("contextRegistrations", JArray (map ContextRegistration.to_json (_context_registrations r)))
           :: string_member "duration" (_duration r)
           ++ string_member "registrationId" (_registrationId r))%list.

Definition plain (r : RegisterContext) : Prop :=
  Forall ContextRegistration.plain (_context_registrations r) /\ no_nul (_duration r) = true
  /\ no_nul (_registrationId r) = true.

Lemma register_serialize_eq r : Serialize r = accept (to_json r).
Proof.
  unfold Serialize.
  rewrite (serialize_list ContextRegistration.Serialize ContextRegistration.to_json)
    by apply ContextRegistration.registration_serialize_eq.
  unfold to_json, string_member, string_field.
  by destruct (String.eqb (_duration r) ""), (String.eqb (_registrationId r) "");
    cbn; rewrite ?app_nil_r, <- ?app_assoc.
Qed.

(** C35. The registration that is sent to the context broker is read back as it
    was: its context registrations, and the duration and the identifier, which
    are left out when they are empty. *)
Theorem register_roundtrip (r : RegisterContext) (Hr : plain r) :
  document (Serialize r) = Some (to_json r) /\ of_json (to_json r) = Ret r.
Proof.
  split; [apply builds_document; rewrite register_serialize_eq; auto with iota|].
  destruct r as [cs d i]. destruct Hr as (Hc & Hd & Hi). cbn in Hc, Hd, Hi.
  unfold of_json, fields, to_json.
  cbn [_context_registrations _duration _registrationId IsObject negb].
  unfold array_of. rewrite (array_of_member _ _ _ (map ContextRegistration.to_json cs)) by done. cbn [obind].
  rewrite (reads_list _ _ ContextRegistration.plain) by (done || apply ContextRegistration.registration_reads).
  unfold assign_member, has_member_of, HasMember, member, string_member.
  destruct (String.eqb_spec d ""), (String.eqb_spec i ""); subst; cbn; by rewrite ?c_string_id.
Qed.
End RegisterContext.
End RegisterContext.

(** The answer to a registration. *)
Module RegisterResponse.
Section RegisterResponse.
  Context `{HJ : Rapidjson}.

Record RegisterResponse : Type := mkRegisterResponse {
  _registrationId : string;
  _duration : string
}.

(** From a text: the fields are at the top or under [registerResponse], and
    neither may be empty. *)
Definition fields (v : json) : outcome RegisterResponse :=
  let! nested := HasMember v "registerResponse" in
  let! v := (if nested then member v "registerResponse" else Ret v) in
  let! id := assign_member v NGSI_REGISTRATIONID in
  let! duration := assign_member v NGSI_DURATION in
  if String.eqb id "" then Throw (RuntimeError "RegisterResponse: [registrationId]Missing field")
  else if String.eqb duration ""
  then Throw (RuntimeError "RegisterResponse: [duration]Missing field")
  else Ret (mkRegisterResponse id duration).

Definition of_string : string -> outcome RegisterResponse := of_text "RegisterResponse" fields.

Definition of_json (v : json) : outcome RegisterResponse :=
  let! r := member v "registerResponse" in
  let! id := string_if NGSI_REGISTRATIONID NGSI_REGISTRATIONID r in
  let! duration := string_if NGSI_DURATION NGSI_DURATION r in
  Ret (mkRegisterResponse id duration).

(** The duration is written in an object of its own, after the one of the
    identifier. *)
Definition Serialize (r : RegisterResponse) : list event :=
  [StartObject; EvString "registerResponse";
   StartObject; EvString "registrationId"; EvString (_registrationId r); EndObject;
   StartObject; EvString "duration"; EvString (_duration r); EndObject; EndObject].

(** The answer to a registration is not a document when it is written: an
    object stands where the name of a member has to be.  What the context
    broker sends is read, with both fields at the top or under
    [registerResponse]. *)
Theorem register_response_malformed (r : RegisterResponse) :
  document (Serialize r) = None
  /\ (no_nul (_registrationId r) = true -> no_nul (_duration r) = true ->
      _registrationId r <> "" -> _duration r <> "" ->
      let v := JObject [("registrationId", JString (_registrationId r));
                        ("duration", JString (_duration r))] in
      fields v = Ret r /\ fields (JObject [("registerResponse", v)]) = Ret r).
Proof.
  split; [reflexivity|]. destruct r as [i d]. cbn [_registrationId _duration].
  intros Hi Hd Hi' Hd'. apply String.eqb_neq in Hi', Hd'. cbv zeta.
  unfold fields, assign_member, has_member_of, HasMember, member. cbn.
  rewrite !c_string_id by done. by rewrite Hi', Hd'.
Qed.
End RegisterResponse.
End RegisterResponse.

(** ** Queries *)

Module QueryContext.
Section QueryContext.
  Context `{HJ : Rapidjson}.

Record QueryContext : Type := mkQueryContext {
  _entities : list Entity.Entity;
  _attributes : list string
}.

Definition class_name : string := "QueryContext".

(** From a text: attributes that are not an array are refused; without them
    the size of a null value is asked for, which fails an assertion. *)
Definition fields (v : json) : outcome QueryContext :=
  let! es := array_of class_name NGSI_ENTITIES v in
  let! entities := omapM Entity.entity_of_json es in
  let! has := HasMember v NGSI_ATTRIBUTES in
  let! is_array := has_member_of IsArray v NGSI_ATTRIBUTES in
  if has && negb is_array then Throw (missing class_name NGSI_ATTRIBUTES)
  else
    let! attributes := member v "attributes" in
    let! ats := Elements attributes in
    let! names := omapM GetString ats in
    Ret (mkQueryContext entities names).

Definition of_string : string -> outcome QueryContext := of_text class_name fields.

Definition of_json (v : json) : outcome QueryContext :=
  if negb (IsObject v) then Throw (missing class_name NGSI_ENTITIES)
  else
    let! es := array_of class_name NGSI_ENTITIES v in
    let! ats := array_of class_name NGSI_ATTRIBUTES v in
    let! entities := omapM Entity.entity_of_json es in
    let! names := omapM GetString ats in
    Ret (mkQueryContext entities names).

Definition Serialize (q : QueryContext) : list event :=
  ([StartObject; EvString "entities"]
   ++ (StartArray :: List.concat (map Entity.Serialize (_entities q)) ++ [EndArray])
   ++ match _attributes q with
      | [] => []
      | names => EvString "attributes" :: StartArray :: map EvString names ++ [EndArray]
      end
   ++ [EndObject])%list.

Definition to_json (q : QueryContext) : json :=
  JObject (("entities", JArray (map entity_json (_entities q)))
           :: match _attributes q with
              | [] => []
              | names => [("attributes", JArray (map JString names))]
              end)%list.

Definition plain (q : QueryContext) : Prop :=
  Forall plain_entity (_entities q) /\ Forall (fun s => no_nul s = true) (_attributes q).

Lemma concat_strings names : List.concat (map accept (map JString names)) = map EvString names.
Proof. induction names as [|n names IH]; cbn; [done|]. by rewrite IH. Qed.

Lemma query_serialize_eq q : Serialize q = accept (to_json q).
Proof.
  unfold Serialize, to_json. rewrite (serialize_list Entity.Serialize entity_json) by done.
  destruct (_attributes q) as [|n names]; cbn; rewrite ?app_nil_r, <- ?app_assoc; [done|].
  rewrite concat_strings, <- ?app_assoc. cbn. by rewrite <- ?app_assoc.
Qed.

(** A query is read back as it was when it names attributes; without them,
    which NGSI allows and the serialisation leaves out, the constructor from a
    text fails an assertion and the one from a value throws. *)
Theorem query_context_roundtrip (q : QueryContext) (Hq : plain q) :
  document (Serialize q) = Some (to_json q)
  /\ (_attributes q <> [] -> fields (to_json q) = Ret q /\ of_json (to_json q) = Ret q)
  /\ (_attributes q = [] -> fields (to_json q) = Undefined
      /\ of_json (to_json q) = Throw (missing class_name NGSI_ATTRIBUTES)).
Proof.
  split; [apply builds_document; rewrite query_serialize_eq; auto with iota|].
  destruct q as [es names]. destruct Hq as [He Hn]. cbn in He, Hn.
  pose proof (reads_list _ _ plain_entity es entity_reads He) as Hes.
  pose proof (strings_list names Hn) as Hns.
  unfold fields, of_json, to_json. cbn [_entities _attributes IsObject negb].
  split; [intros Hne|intros ->].
  - destruct names as [|n names]; [done|].
    unfold array_of; rewrite !(array_of_member _ _ _ (map entity_json es)) by done. cbn [obind]. rewrite Hes.
    unfold array_of; rewrite !(array_of_member _ _ _ (map JString (n :: names))) by done.
    cbn [obind]. rewrite Hns. split; [|done].
    cbn -[omapM map]. by rewrite Hns.
  - unfold array_of; rewrite !(array_of_member _ _ _ (map entity_json es)) by done. cbn [obind]. rewrite Hes.
    done.
Qed.
End QueryContext.
End QueryContext.

(** ** Subscriptions *)

Module NotifyCondition.
Section NotifyCondition.
  Context `{HJ : Rapidjson}.

Record NotifyCondition : Type := mkNotifyCondition { _type : string; _values : list string }.

Definition fields (v : json) : outcome NotifyCondition :=
  let! is_type := has_member_of IsString v NGSI_TYPE in
  let! is_values := (if is_type then has_member_of IsArray v NGSI_CONDVALUES else Ret false) in
  if negb is_values then Throw (missing "NotifyCondition" (NGSI_TYPE ++ "/" ++ NGSI_CONDVALUES))
  else
    let! m := member v NGSI_TYPE in
    let! type := GetString m in
    let! m := member v NGSI_CONDVALUES in
    let! es := Elements m in
    let! values := omapM GetString es in
    Ret (mkNotifyCondition type values).

Definition of_string : string -> outcome NotifyCondition := of_text "NotifyCondition" fields.

Definition of_json (v : json) : outcome NotifyCondition :=
  if negb (IsObject v)
  then Throw (missing "NotifyCondition" (NGSI_TYPE ++ "/" ++ NGSI_CONDVALUES)) else fields v.

Definition Serialize (c : NotifyCondition) : list event :=
  ([StartObject; EvString "type"; EvString (_type c); EvString "condValues"; StartArray]
   ++ map EvString (_values c) ++ [EndArray; EndObject])%list.

Definition to_json (c : NotifyCondition) : json :=
  JObject [("type", JString (_type c)); ("condValues", JArray (map JString (_values c)))].

Definition plain (c : NotifyCondition) : Prop :=
  no_nul (_type c) = true /\ Forall (fun s => no_nul s = true) (_values c).

Lemma condition_serialize_eq c : Serialize c = accept (to_json c).
Proof.
  unfold Serialize, to_json. cbn. rewrite QueryContext.concat_strings, <- ?app_assoc. by cbn.
Qed.

Lemma condition_reads c : plain c -> of_json (to_json c) = Ret c.
Proof.
  destruct c as [t vs]. intros [Ht Hv]. cbn in Ht, Hv.
  unfold of_json, fields, to_json, has_member_of, HasMember, member. cbn -[omapM map].
  rewrite c_string_id by done. cbn -[omapM map]. by rewrite (strings_list vs Hv).
Qed.
End NotifyCondition.
End NotifyCondition.

Module SubscribeContext.
Section SubscribeContext.
  Context `{HJ : Rapidjson}.
Import NotifyCondition.

Record SubscribeContext : Type := mkSubscribeContext {
  _entities : list Entity.Entity;
  _attributes : list string;
  _reference : string;
  _duration : string;
  _throttling : string;
  _conditions : list NotifyCondition
}.

(** From a text. *)
Definition fields (v : json) : outcome SubscribeContext :=
  let! has := HasMember v "entities" in
  let! is_array := has_member_of IsArray v "entities" in
  if negb has then Throw (RuntimeError "SubscribeContext: [entities] Missing field")
  else if negb is_array then Throw (RuntimeError "SubscribeContext: [entities] Malformed field")
  else
    let! es := array_if "entities" v in
    let! entities := omapM Entity.entity_of_json es in
    let! ats := array_if "attributes" v in
    let! attributes := omapM GetString ats in
    let! throttling := string_if "throttling" "throttling" v in
    let! duration := string_if "duration" "duration" v in
    let! reference := string_if "reference" "reference" v in
    let! cs := array_if "notifyConditions" v in
    let! conditions := omapM NotifyCondition.of_json cs in
    Ret (mkSubscribeContext entities attributes reference duration throttling conditions).

Definition of_string : string -> outcome SubscribeContext := of_text "SubscribeContext" fields.

(** From a value: the duration is read from [reference]. *)
Definition of_json (v : json) : outcome SubscribeContext :=
  if negb (IsObject v) then Throw (RuntimeError "SubscribeContext: [entities] Missing field")
  else
    let! es := array_if "entities" v in
    let! entities := omapM Entity.entity_of_json es in
    let! ats := array_if "attributes" v in
    let! attributes := omapM GetString ats in
    let! reference := string_if "reference" "reference" v in
    let! duration := string_if "duration" "reference" v in
    let! throttling := string_if "throttling" "throttling" v in
    let! cs := array_if "notifyConditions" v in
    let! conditions := omapM NotifyCondition.of_json cs in
    Ret (mkSubscribeContext entities attributes reference duration throttling conditions).

Definition Serialize (s : SubscribeContext) : list event :=
  ([StartObject; EvString "entities"]
   ++ (StartArray :: List.concat (map Entity.Serialize (_entities s)) ++ [EndArray])
   ++ [EvString "attributes"; StartArray] ++ map EvString (_attributes s)
   ++ [EndArray; EvString "reference"; EvString (_reference s);
       EvString "duration"; EvString (_duration s); EvString "throttling"; EvString (_throttling s);
       EvString "notifyConditions"]
   ++ (StartArray :: List.concat (map NotifyCondition.Serialize (_conditions s)) ++ [EndArray])
   ++ [EndObject])%list.

Definition to_json (s : SubscribeContext) : json :=
  JObject [("entities", JArray (map entity_json (_entities s)));
           ("attributes", JArray (map JString (_attributes s)));
           ("reference", JString (_reference s)); ("duration", JString (_duration s));
           ("throttling", JString (_throttling s));
           ("notifyConditions", JArray (map NotifyCondition.to_json (_conditions s)))].

Definition plain (s : SubscribeContext) : Prop :=
  Forall plain_entity (_entities s) /\ Forall (fun t => no_nul t = true) (_attributes s)
  /\ no_nul (_reference s) = true /\ no_nul (_duration s) = true /\ no_nul (_throttling s) = true
  /\ Forall NotifyCondition.plain (_conditions s).

Definition with_duration (s : SubscribeContext) (d : string) : SubscribeContext :=
  mkSubscribeContext (_entities s) (_attributes s) (_reference s) d (_throttling s) (_conditions s).

Lemma subscribe_serialize_eq s : Serialize s = accept (to_json s).
Proof.
  unfold Serialize. rewrite (serialize_list Entity.Serialize entity_json) by done.
  rewrite (serialize_list NotifyCondition.Serialize NotifyCondition.to_json)
    by apply NotifyCondition.condition_serialize_eq.
  unfold to_json. cbn. rewrite QueryContext.concat_strings, <- ?app_assoc. cbn.
  rewrite <- ?app_assoc. cbn. by rewrite <- ?app_assoc.
Qed.

(** A subscription is read back from its text as it was; read from a value, it
    has the reference in place of its duration. *)
Theorem subscribe_roundtrip (s : SubscribeContext) (Hs : plain s) :
  document (Serialize s) = Some (to_json s)
  /\ fields (to_json s) = Ret s
  /\ of_json (to_json s) = Ret (with_duration s (_reference s)).
Proof.
  split; [apply builds_document; rewrite subscribe_serialize_eq; auto with iota|].
  destruct s as [es ats r d t cs]. destruct Hs as (He & Ha & Hr & Hd & Ht & Hc). cbn in *.
  pose proof (reads_list _ _ plain_entity es entity_reads He) as Hes.
  pose proof (strings_list ats Ha) as Has.
  pose proof (reads_list _ _ NotifyCondition.plain cs NotifyCondition.condition_reads Hc) as Hcs.
  unfold fields, of_json, to_json, array_if, string_if, has_member_of, HasMember, member.
  cbn -[omapM map]. rewrite Hes. cbn -[omapM map]. rewrite Has. cbn -[omapM map].
  rewrite !c_string_id by done. cbn -[omapM map]. rewrite Hcs. done.
Qed.
End SubscribeContext.
End SubscribeContext.

Module SubscribeResponse.
Section SubscribeResponse.
  Context `{HJ : Rapidjson}.

Record SubscribeResponse : Type := mkSubscribeResponse { _subscriptionId : string }.

Definition fields (v : json) : outcome SubscribeResponse :=
  let! nested := HasMember v "subscribeResponse" in
  let! id := (if nested then
                let! r := member v "subscribeResponse" in assign_member r "subscriptionId"
              else Ret "") in
  if String.eqb id "" then Throw (RuntimeError "SubscribeResponse: [subscriptionId]Missing field")
  else Ret (mkSubscribeResponse id).

Definition of_string : string -> outcome SubscribeResponse := of_text "SubscribeResponse" fields.

Definition of_json (v : json) : outcome SubscribeResponse :=
  let! r := member v "subscribeResponse" in
  let! id := string_if "subscriptionId" "subscriptionId" r in
  Ret (mkSubscribeResponse id).

Definition Serialize (r : SubscribeResponse) : list event :=
  [StartObject; EvString "subscribeResponse"; StartObject; EvString "subscriptionId";
   EvString (_subscriptionId r); EndObject; EndObject].
End SubscribeResponse.
End SubscribeResponse.

(** ** The entity that is registered and the entity that is published *)

Section Entities.
  Context `{HB : Boost} `{HJ : Rapidjson} `{HP : PropertyTree}.
Import ContextRegistration.

(** The entity an element of the device is published as. *)
Definition published (service : ptree) (d : Device) : Entity.Entity :=
  let ce := format (mkContextElement "" "" "false" [] service (Some d)) in
  Entity.mkEntity (NgsiContext._id ce) (NgsiContext._type ce) "false".

(** A device is registered as the entity its measures are published as when it
    has an entity name and a type other than [default], or no entity type; one
    with a type and without a name is registered with an empty identifier, and
    published with the type and the name of the device. *)
Theorem registered_as_published (service : ptree) (d : Device) :
  (NgsiContext.named (_entity_name d) = true /\ _entity_type d <> Store.DEFAULT
     \/ _entity_type d = "" ->
   registered_entity service d = published service d)
  /\ (_entity_name d = "" -> NgsiContext.named (_entity_type d) = true ->
      Entity._id (registered_entity service d) = ""
      /\ Entity._id (published service d) = _entity_type d ++ ":" ++ _name d).
Proof.
  unfold registered_entity, published, format. cbn [_device_info _service_info NgsiContext._type
    NgsiContext._id set_names].
  change (nonempty "") with false. cbn [negb]. split.
  - intros [[En Et]|Et].
    + rewrite En. unfold NgsiContext.named. apply String.eqb_neq in Et. rewrite Et, andb_true_r.
      by destruct (nonempty (_entity_type d)).
    + rewrite Et. change (NgsiContext.named "") with false. change (nonempty "") with false.
      change (String.eqb "" "") with true. cbn iota. reflexivity.
  - intros -> Et. rewrite Et. change (NgsiContext.named "") with false. cbn iota. cbn [Entity._id NgsiContext._id].
    unfold NgsiContext.named, nonempty in Et. by destruct (String.eqb (_entity_type d) "").
Qed.
End Entities.

(** ** Examples *)

Definition sample_entity : Entity.Entity := Entity.mkEntity "room" "thing" "false".

Lemma register_roundtrip_witness :
  let c := ContextRegistration.mkContextRegistration [sample_entity]
             [AttributeRegister.mkAttributeRegister "ping" "command" "false"] "http://agent" in
  let r := RegisterContext.mkRegisterContext [c] "PT24H" "" in
  document (RegisterContext.Serialize r) = Some (RegisterContext.to_json r)
  /\ RegisterContext.of_json (RegisterContext.to_json r) = Ret r.
Proof.
  cbv zeta. apply RegisterContext.register_roundtrip.
  split; [|by split]. apply Forall_cons_2; [|apply Forall_nil_2].
  split; [|split; [|done]]; (apply Forall_cons_2; [by repeat split|apply Forall_nil_2]).
Defined.

Lemma register_response_malformed_witness :
  let r := RegisterResponse.mkRegisterResponse "51c0ac9ed714fb3b37d7d5a8" "PT24H" in
  document (RegisterResponse.Serialize r) = None
  /\ RegisterResponse.fields (JObject [("registerResponse",
       JObject [("registrationId", JString "51c0ac9ed714fb3b37d7d5a8");
                ("duration", JString "PT24H")])]) = Ret r.
Proof.
  destruct (RegisterResponse.register_response_malformed
    (RegisterResponse.mkRegisterResponse "51c0ac9ed714fb3b37d7d5a8" "PT24H")) as [H1 H2].
  split; [exact H1|]. destruct H2 as [_ H2]; [reflexivity..|discriminate|discriminate|exact H2].
Defined.

Lemma query_context_roundtrip_witness :
  QueryContext.fields (QueryContext.to_json (QueryContext.mkQueryContext [sample_entity] ["t"]))
    = Ret (QueryContext.mkQueryContext [sample_entity] ["t"])
  /\ QueryContext.fields (QueryContext.to_json (QueryContext.mkQueryContext [sample_entity] []))
    = Undefined.
Proof.
  assert (He : Forall plain_entity [sample_entity])
    by (apply Forall_cons_2; [by repeat split|apply Forall_nil_2]).
  destruct (QueryContext.query_context_roundtrip (QueryContext.mkQueryContext [sample_entity] ["t"]))
    as (_ & H1 & _); [split; [exact He|by apply Forall_cons_2; [|apply Forall_nil_2]]|].
  destruct (QueryContext.query_context_roundtrip (QueryContext.mkQueryContext [sample_entity] []))
    as (_ & _ & H2); [split; [exact He|apply Forall_nil_2]|].
  split; [apply H1; discriminate|by apply H2].
Defined.

Lemma subscribe_roundtrip_witness :
  let s := SubscribeContext.mkSubscribeContext [sample_entity] ["t"] "http://agent" "P1M" ""
             [NotifyCondition.mkNotifyCondition "ONCHANGE" ["t"]] in
  SubscribeContext.fields (SubscribeContext.to_json s) = Ret s
  /\ SubscribeContext.of_json (SubscribeContext.to_json s)
     = Ret (SubscribeContext.with_duration s "http://agent").
Proof.
  intros s. destruct (SubscribeContext.subscribe_roundtrip s) as (_ & H1 & H2); [|by split].
  assert (Ht : Forall (fun t => no_nul t = true) ["t"])
    by (apply Forall_cons_2; [done|apply Forall_nil_2]).
  split; [apply Forall_cons_2; [by repeat split|apply Forall_nil_2]|].
  split; [exact Ht|]. do 3 (split; [reflexivity|]).
  apply Forall_cons_2; [by split|apply Forall_nil_2].
Defined.

Section DeviceExample.
#[local] Instance register_pt : PropertyTree := ptree_reference (fun _ => "").

Definition no_info : @ptree register_pt := Tree [] [].

Definition with_names_of (name type entity : string) : Device :=
  mkDevice name "" "s" "/" type entity "" "" ∅ ∅ ∅ ∅ "" 1 "" 0 0.

Definition typed_device : Device := with_names_of "dev" "room" "".

Lemma registered_as_published_witness :
  Entity._id (ContextRegistration.registered_entity no_info typed_device) = ""
  /\ Entity._id (published no_info typed_device) = "room:dev"
  /\ ContextRegistration.registered_entity no_info (with_names_of "dev" "room" "kitchen")
     = published no_info (with_names_of "dev" "room" "kitchen").
Proof.
  destruct (registered_as_published no_info typed_device) as [_ H].
  destruct H as [H1 H2]; [reflexivity..|].
  split; [exact H1|]. split; [exact H2|].
  apply (registered_as_published no_info (with_names_of "dev" "room" "kitchen")).
  left. by split.
Defined.
End DeviceExample.
