(* ===== verification/Iso8601.v ===== *)
(** * ISO 8601 times: [src/src/util/RiotISO8601.h], [RiotISO8601.cc]

    Times read from and printed to ISO 8601.  [boost::posix_time] is a
    parameter, [PosixTime], and what the code relies on [PosixTimeLaws]. *)
From stdpp Require Import base tactics list strings pretty.
From Stdlib Require Import ZArith Lia Ascii String.
From S2P Require Import Prelude CppString Types.

Local Open Scope string_scope.
Local Open Scope Z_scope.

Class PosixTime : Type := {
  ptime : Type;
  time_duration : Type;
  (** a default duration, and [hours(h) + minutes(m)] *)
  no_duration : time_duration;
  hours_minutes : Z -> Z -> time_duration;
  hours : time_duration -> Z;
  minutes : time_duration -> Z;
  duration_from_string : string -> outcome time_duration;
  from_iso_string : string -> outcome ptime;
  from_time_t : Z -> ptime;
  to_iso_string : ptime -> string;
  to_iso_extended_string : ptime -> string;
  ptime_minus : ptime -> time_duration -> ptime;
  ptime_less : ptime -> ptime -> bool;
  ptime_equal : ptime -> ptime -> bool;
  (** [boost::format] with [%02d] and [%03d] *)
  format_02d : Z -> string;
  format_03d : Z -> string
}.

Definition iso_mark (c : ascii) : bool := Ascii.eqb c ":" || Ascii.eqb c "-".

Class PosixTimeLaws (T : PosixTime) : Prop := {
  minutes_zero : hours (hours_minutes 0 0) = 0;
  minus_zero t : ptime_minus t (hours_minutes 0 0) = t;
  to_iso_nonempty t : to_iso_extended_string t <> "";
  from_to_iso t :
    from_iso_string (str_filter (fun c => negb (iso_mark c)) (to_iso_extended_string t)) = Ret t
}.

Section Iso8601.
  Context `{PosixTime}.

Record RiotISO8601 : Type := mkISO { _ptime : ptime; _dUTC : time_duration; _local : bool }.

(** ** Constructors *)

(** The default constructor, from the local time and its offset in seconds. *)
Definition iso_now (local_time : ptime) (tm_gmtoff : Z) : RiotISO8601 :=
  mkISO local_time (hours_minutes (Z.quot tm_gmtoff 3600) (Z.quot (Z.rem tm_gmtoff 3600) 60)) true.

(** [iso[iso.length() - n]] on a [std::string]: undefined before its start. *)
Definition char_from_end (iso : string) (n : nat) : outcome ascii :=
  match String.get (String.length iso - n) iso with
  | Some c => if Nat.ltb (String.length iso) n then Undefined else Ret c
  | None => Undefined
  end.

Definition offset_length : nat := 6.

(** The offset and the length of what comes before it. *)
Definition iso_offset (iso : string) : outcome (time_duration * nat * bool) :=
  let! last := char_from_end iso 1 in
  if Ascii.eqb last "Z" then Ret (hours_minutes 0 0, String.length iso - 1, false)%nat
  else
    let! sign := char_from_end iso offset_length in
    if Ascii.eqb sign "+" || Ascii.eqb sign "-" then
      let! d := duration_from_string (str_drop (String.length iso - offset_length) iso) in
      Ret (d, String.length iso - offset_length, true)%nat
    else Ret (no_duration, String.length iso, true).

Definition iso_of_string (iso : string) : outcome RiotISO8601 :=
  let! r := iso_offset iso in
  let '(d, iso_length_v, local) := r in
  let iso_nx := str_filter (fun c => negb (iso_mark c)) (str_take iso_length_v iso) in
  match from_iso_string iso_nx with
  | Ret t => Ret (mkISO t d local)
  | Throw e =>
      Throw (IotaException (RESPONSE_MESSAGE_INVALID_PARAMETER ++ " [" ++ iso ++ "]")
               (match runtime_what e with Some w => w | None => "" end)
               RESPONSE_CODE_BAD_REQUEST)
  | Undefined => Undefined
  end.

Definition iso_of_fields (a m d hh mm ss : string) : outcome RiotISO8601 :=
  let! t := from_iso_string (a ++ m ++ d ++ "T" ++ hh ++ mm ++ ss) in
  Ret (mkISO t no_duration true).

Definition iso_of_epoch (t_epoch : Z) : RiotISO8601 :=
  mkISO (from_time_t t_epoch) no_duration false.

(** ** Printing and conversion *)

Definition toString (x : RiotISO8601) : string :=
  let h := hours (_dUTC x) in
  to_iso_extended_string (_ptime x) ++
  (if (h =? 0) && negb (_local x) then "Z"
   else if _local x then
     if negb (h =? 0) then
       (if 0 <? h then "+" ++ format_02d h else format_03d h)
       ++ ":" ++ format_02d (minutes (_dUTC x))
     else ""
   else "").

Definition toSimpleISOString (x : RiotISO8601) : string := to_iso_string (_ptime x).

Definition toUTC (x : RiotISO8601) : outcome RiotISO8601 :=
  if negb (_local x) || (_local x && negb (hours (_dUTC x) =? 0)) then
    iso_of_string (to_iso_extended_string (ptime_minus (_ptime x) (_dUTC x)) ++ "Z")
  else Ret x.

(** ** Comparisons *)

Definition compare_utc (test : ptime -> ptime -> bool) (x iso : RiotISO8601) : outcome bool :=
  let! obj := toUTC x in
  let! obj_iso := toUTC iso in
  Ret (test (_ptime obj_iso) (_ptime obj)).

Definition operator_less (x iso : RiotISO8601) : outcome bool := compare_utc ptime_less x iso.
Definition operator_greater (x iso : RiotISO8601) : outcome bool :=
  compare_utc (fun a b => ptime_less b a) x iso.
Definition operator_equal (x iso : RiotISO8601) : outcome bool := compare_utc ptime_equal x iso.
Definition operator_not_equal (x iso : RiotISO8601) : outcome bool :=
  let! e := operator_equal x iso in Ret (negb e).

(** ** UTC times *)

(** A time in UTC, as a text ending in [Z] is read. *)
Definition utc (t : ptime) : RiotISO8601 := mkISO t (hours_minutes 0 0) false.

Context `{!PosixTimeLaws _}.

Lemma get_last s c : String.get (String.length s) (s ++ String c "") = Some c.
Proof. induction s; cbn; [done|assumption]. Qed.

Lemma iso_of_Z t : iso_of_string (to_iso_extended_string t ++ "Z") = Ret (utc t).
Proof.
  unfold iso_of_string, iso_offset, char_from_end.
  rewrite str_length_app. cbn [String.length]. rewrite Nat.add_sub, get_last.
  destruct (Nat.ltb_spec (String.length (to_iso_extended_string t) + 1) 1); [lia|].
  cbn [obind]. change (Ascii.eqb "Z" "Z") with true. cbn [obind].
  by rewrite str_take_app, from_to_iso.
Qed.

(** What [toUTC] gives: the time less the offset, unless the time is local
    without one. *)
Lemma toUTC_eq x :
  toUTC x = Ret (if _local x && (hours (_dUTC x) =? 0) then x
                 else utc (ptime_minus (_ptime x) (_dUTC x))).
Proof. unfold toUTC. destruct (_local x), (hours (_dUTC x) =? 0); cbn; rewrite ?iso_of_Z; done. Qed.

(** Times and UTC: converting to UTC always succeeds, subtracts the
    offset, and is idempotent; a UTC time is read back from what it prints;
    equality holds exactly when the UTC times are equal; but the operators for
    less and greater are exchanged: [x < y] holds when [y] is the earlier. *)
Theorem iso_utc (x y : RiotISO8601) :
  (_local x = false \/ hours (_dUTC x) <> 0 ->
   toUTC x = Ret (utc (ptime_minus (_ptime x) (_dUTC x)))
   /\ iso_of_string (toString (utc (ptime_minus (_ptime x) (_dUTC x))))
      = Ret (utc (ptime_minus (_ptime x) (_dUTC x))))
  /\ (exists u, toUTC x = Ret u /\ toUTC u = Ret u)
  /\ (exists u v, toUTC x = Ret u /\ toUTC y = Ret v
      /\ operator_less x y = Ret (ptime_less (_ptime v) (_ptime u))
      /\ operator_greater x y = Ret (ptime_less (_ptime u) (_ptime v))
      /\ operator_equal x y = Ret (ptime_equal (_ptime v) (_ptime u))).
Proof.
  split; [|split].
  - intros Hx. rewrite toUTC_eq.
    assert (E : _local x && (hours (_dUTC x) =? 0) = false).
    { destruct Hx as [->|Hh]; [done|]. apply andb_false_iff. right. by apply Z.eqb_neq. }
    rewrite E. split; [done|]. unfold toString, utc at 1 2. cbn [_dUTC _local _ptime].
    rewrite minutes_zero. cbn [Z.eqb negb andb]. apply iso_of_Z.
  - eexists. rewrite toUTC_eq. split; [done|]. rewrite toUTC_eq.
    destruct (_local x && (hours (_dUTC x) =? 0)) eqn:E; [by rewrite E|].
    cbn [utc _local andb _ptime _dUTC]. by rewrite minus_zero.
  - do 2 eexists. split; [apply toUTC_eq|]. split; [apply toUTC_eq|].
    unfold operator_less, operator_greater, operator_equal, compare_utc. by rewrite !toUTC_eq.
Qed.
End Iso8601.

(** A calendar for the examples: times as numbers of seconds, durations as
    numbers of minutes. *)
Definition posix_reference : PosixTime := {|
  ptime := N;
  time_duration := Z;
  no_duration := 0;
  hours_minutes h m := 60 * h + m;
  hours d := Z.quot d 60;
  minutes d := Z.rem d 60;
  duration_from_string s := Ret (60 * strtol10 s);
  from_iso_string s := if String.eqb s "" then Throw (RuntimeError "no time")
                       else Ret (Z.to_N (digits_value s 0));
  from_time_t z := Z.to_N z;
  to_iso_string t := pretty t;
  to_iso_extended_string t := pretty t;
  ptime_minus t d := Z.to_N (Z.of_N t - 60 * d);
  ptime_less a b := N.ltb a b;
  ptime_equal a b := N.eqb a b;
  format_02d z := if z <? 10 then "0" ++ pretty z else pretty z;
  format_03d z := pretty z
|}.

Lemma posix_reference_laws : PosixTimeLaws posix_reference.
Proof.
  constructor; cbn -[pretty].
  - done.
  - intros t. rewrite Z.sub_0_r. apply N2Z.id.
  - intros t. apply pretty_N_digits.
  - intros t. destruct (pretty_N_digits t) as [Hd Hne]. rewrite str_filter_id.
    + apply String.eqb_neq in Hne. by rewrite Hne, pretty_N_value, N2Z.id.
    + eapply str_forall_impl; [|exact Hd]. intros c Hc. unfold iso_mark.
      destruct (Ascii.eqb_spec c ":") as [->|]; [done|]. by destruct (Ascii.eqb_spec c "-") as [->|].
Qed.

Lemma iso_utc_witness :
  let early : RiotISO8601 (H := posix_reference) := mkISO (H := posix_reference) 100%N 0 false in
  let late : RiotISO8601 (H := posix_reference) := mkISO (H := posix_reference) 7300%N 60 true in
  toUTC late = Ret (utc (H := posix_reference) 3700%N)
  /\ operator_less early late = Ret false /\ operator_less late early = Ret true.
Proof.
  intros early late.
  split; [|split; vm_compute; reflexivity].
  apply (iso_utc (H := posix_reference) (PosixTimeLaws0 := posix_reference_laws) late early).
  right. discriminate.
Defined.
