(* ===== verification/CbComm.v ===== *)
(** * Talking to the context broker: [src/src/rest/iot_cb_comm.cc]

    The requests the agent sends, what it does with their responses, the
    second try with a new token, and the alarm of the broker.  The connections
    and the service of tokens ([util/http_client.cc], [util/oauth_comm.cc])
    are an interface, [Network]: a request that is sent and not waited for is
    recorded, and its response is a later call of [receive_event]. *)
From stdpp Require Import base tactics list gmap strings.
From Stdlib Require Import ZArith Lia Ascii String.
From S2P Require Import Prelude CppString StdMap Boost Types Alarm IoTUrl Json Configurator.
From S2P Require Import NgsiAttribute NgsiContext NgsiMessages Iso8601 Device.

Local Open Scope string_scope.
Local Open Scope Z_scope.

Definition NUMBER_OF_TRIES : string := "number_of_tries".

Record http_request : Type := mkHttpRequest {
  rq_method : string;
  rq_host : string;
  rq_port : Z;
  rq_resource : string;
  rq_query : string;
  rq_content : string;
  rq_content_type : string;
  rq_headers : list (string * string)
}.

Record http_response : Type := mkHttpResponse { rs_code : Z; rs_content : string }.

(** What a call over the network ends in: a response, if there is one, and the
    value and message of the error, if there is one. *)
Record exchange_result : Type := mkResult {
  ex_response : option http_response;
  ex_error : option (Z * string);
  ex_endpoint : string
}.

(** [N] is the state of the outside: [exchange] waits for the response of a
    request, with a timeout and a proxy; [get_token] asks the service of
    tokens for one, given its address, the trust token, the user, the password
    and the status. *)
Class Network : Type := {
  network : Type;
  exchange : network -> http_request -> Z -> string -> network * exchange_result;
  get_token : network -> string -> string -> string -> string -> Z -> network * outcome string
}.

Section CbComm.
  Context `{HB : Boost} `{HJ : Rapidjson} `{HP : PropertyTree} `{HI : !PropertyTreeInt}
    `{HC : Config} `{HN : Network}.
  (** [what()] of the exceptions of the libraries *)
  Context (std_what : exn -> string).

(** A request that was sent, with what its response will be handled with. *)
Record pending : Type := mkPending {
  p_request : http_request;
  p_timeout : Z;
  p_proxy : string;
  p_url : string;
  p_content : string;
  p_info : ptree
}.

(** The outside, the alarms of the process, and the requests in flight. *)
Record Net : Type := mkNet {
  outside : network;
  net_alarms : gmap string string;
  in_flight : list pending
}.

Definition exn_what (e : exn) : string :=
  match runtime_what e with Some text => text | None => std_what e end.

(** ** Requests *)

Definition change_header (headers : list (string * string)) (name value : string)
    : list (string * string) :=
  (List.filter (fun h => negb (String.eqb (fst h) name)) headers ++ [(name, value)])%list.

Definition HEADER_HOST : string := "Host".

Definition create_request (method host : string) (port : Z) (resource content query : string)
    (additional_info : ptree) : http_request :=
  let server := host ++ ":" ++ lexical_cast port in
  let forced_accept := pt_get_default additional_info IOT_HTTP_HEADER_ACCEPT "" in
  let accept := if String.eqb forced_accept "" then IOT_CONTENT_TYPE_JSON else forced_accept in
  let token := pt_get_default additional_info "token" "" in
  let trace := pt_get_default additional_info HEADER_TRACE_MESSAGES "" in
  let headers := [(IOT_HTTP_HEADER_ACCEPT, accept); (HEADER_HOST, server);
                  (FIWARE_SERVICE, pt_get_default additional_info "service" "");
                  (FIWARE_SERVICEPATH, pt_get_default additional_info "service_path" "/")] in
  let headers := if String.eqb token "" then headers
                 else change_header headers IOT_HTTP_HEADER_AUTH token in
  let headers := if String.eqb trace "" then headers
                 else change_header headers HEADER_TRACE_MESSAGES trace in
  mkHttpRequest method host port resource query content IOT_CONTENT_TYPE_JSON headers.

(** The three parameters of the service of tokens, empty without them; the
    handler is [catch (std::runtime_error&)]. *)
Definition oauth_parameters : outcome (string * string * string) :=
  let get (m : gmap string string) k := default "" (m !! k) in
  match config_get_map "oauth" with
  | Ret m => Ret (get m "on_behalf_trust_url", get m "on_behalf_user", get m "on_behalf_password")
  | Throw e => match runtime_what e with Some _ => Ret ("", "", "") | None => Throw e end
  | Undefined => Undefined
  end.

Definition no_cb_alarm (url content : string) (ai : ptree) (text : string) : FM Net unit :=
  fmmodify (fun s => mkNet (outside s)
    (Alarm.put_service (net_alarms s) ALARM_CODE_NO_CB url content (pt_get ai) ERROR text)
    (in_flight s)).
Definition cb_works (url text : string) : FM Net unit :=
  fmmodify (fun s => mkNet (outside s)
    (Alarm.remove (net_alarms s) ALARM_CODE_NO_CB url ERROR text) (in_flight s)).

Definition on_outside {A} (f : network -> network * A) : FM Net A := fun s =>
  let '(n, a) := f (outside s) in Some (mkNet n (net_alarms s) (in_flight s), Ret a).

(** The token of the trust, when there is one, is replaced by one of the
    service of tokens. *)
Definition authorize (additional_info : ptree) (oauth : string * string * string) (status_code : Z)
    : FM Net ptree :=
  let token := pt_get_default additional_info "token" "" in
  let '(url, user, pass) := oauth in
  if negb (String.eqb token "") && negb (String.eqb url "") then
    act! r := on_outside (fun n => get_token n url token user pass status_code) in
    act! auth_token := flift (Some r) in
    fret (pt_put additional_info "token" auth_token)
  else fret additional_info.

Definition timeout_of (ai : ptree) : outcome Z :=
  match lexical_cast_int (pt_get_default ai "timeout" "5") with
  | Some t => Ret t
  | None => Throw BadLexicalCast
  end.

(** The request for an address: its text in [dest], the token, the timeout and
    the proxy. *)
Definition prepare (method url content : string) (additional_info : ptree)
    (oauth : string * string * string) (status_code : Z)
    : FM Net (http_request * ptree * Z * string) :=
  act! dest := flift (Some (new_IoTUrl url)) in
  act! ai := authorize additional_info oauth status_code in
  let request := create_request method (_host dest) (_port dest) (_path dest) content
                   (_query dest) ai in
  act! timeout := flift (Some (timeout_of ai)) in
  fret (request, ai, timeout, pt_get_default ai "proxy" "").

(** [async_send]: it has no [return]; a request that cannot be made raises the
    alarm.  The information that is changed by [authorize] is the one the
    alarm has. *)
Definition async_send (method url content : string) (additional_info : ptree) (status_code : Z)
    : FM Net unit :=
  act! oauth := flift (Some oauth_parameters) in
  fmcatch
    (act! r := prepare method url content additional_info oauth status_code in
     let '(request, ai, timeout, proxy) := r in
     fmmodify (fun s => mkNet (outside s) (net_alarms s)
       (in_flight s ++ [mkPending request timeout proxy url content ai])%list))
    (fun e => no_cb_alarm url content additional_info (exn_what e)).

(** [receive_event]; what is left for the caller's callback is its answer: the
    text and the status, or minus the error. *)
Definition receive_event (method : string) (p : pending) (r : exchange_result)
    : FM Net (option (string * Z)) :=
  let number_of_tries := default 0 (pt_get_int (p_info p) NUMBER_OF_TRIES) in
  match ex_error r, ex_response r with
  | None, Some response =>
      if (rs_code response =? 401) && (number_of_tries <? 1) then
        let ai := pt_put_int (p_info p) NUMBER_OF_TRIES (number_of_tries + 1) in
        then! async_send method (p_url p) (p_content p) ai 401 in
        fret None
      else if rs_code response =? RESPONSE_CODE_BAD_GATEWAY then
        then! no_cb_alarm (p_url p) (p_content p) (p_info p) RESPONSE_MESSAGE_BAD_GATEWAY in
        fret None
      else
        then! cb_works (p_url p) "send ok" in
        fret (Some (rs_content response, rs_code response))
  | err, _ =>
      let '(value, message) := default (0, "") err in
      then! no_cb_alarm (p_url p) (p_content p) (p_info p) message in
      fret (Some ("", - value))
  end.

(** [process_response] *)
Definition process_response (url content : string) (ai : ptree) (r : exchange_result)
    : FM Net string :=
  match ex_error r, ex_response r with
  | None, Some response =>
      then! cb_works url ("send ok " ++ rs_content response) in fret (rs_content response)
  | err, _ =>
      then! no_cb_alarm url content ai
        ("Response error  -> " ++ ex_endpoint r ++ ": " ++ snd (default (0, "") err)) in
      fret ""
  end.

(** One try of [send]: the response, and the text that is answered. *)
Definition send_once (method url content : string) (additional_info : ptree)
    (oauth : string * string * string) (status_code : Z)
    : FM Net (option http_response * ptree * string) :=
  fmcatch
    (act! r := prepare method url content additional_info oauth status_code in
     let '(request, ai, timeout, proxy) := r in
     act! r := on_outside (fun n => exchange n request timeout proxy) in
     act! text := process_response url content ai r in
     fret (ex_response r, ai, text))
    (fun e => then! no_cb_alarm url content additional_info (exn_what e) in
              fret (None, additional_info, "")).

(** [send]: with tokens, an unauthorized request is sent once more. *)
Fixpoint send (fuel : nat) (method url content : string) (additional_info : ptree)
    (status_code : Z) : FM Net string :=
  match fuel with
  | O => fun _ => None
  | S fuel =>
      let token := pt_get_default additional_info "token" "" in
      act! oauth := flift (Some oauth_parameters) in
      let number_of_tries := default 0 (pt_get_int additional_info NUMBER_OF_TRIES) in
      act! r := send_once method url content additional_info oauth status_code in
      let '(response, ai, text) := r in
      match response with
      | Some response =>
          if negb (String.eqb token "") && negb (String.eqb (fst (fst oauth)) "")
             && (rs_code response =? 401) && (number_of_tries <? 1)
          then send fuel method url content
                 (pt_put_int ai NUMBER_OF_TRIES (number_of_tries + 1)) 401
          else fret text
      | None => fret text
      end
  end.

(** ** Updates *)

(** [get_ngsi_operation]: without the operation in [ngsi_url] the value is
    null, and [GetString] fails its assertion. *)
Definition get_ngsi_operation (operation : string) : outcome string :=
  let op := "/NGSI10/" ++ operation in
  ocatch (let! ngsi_url := config_get "ngsi_url" in
          let! v := member ngsi_url operation in GetString v)
    (fun _ => Ret op).

Definition broker_url (service : ptree) (operation : outcome string) : outcome string :=
  let cbrokerURL := pt_get_default service "cbroker" "" in
  if String.eqb cbrokerURL "" then Ret ""
  else let! op := operation in Ret (cbrokerURL ++ op).

Definition update_text (ce : ContextElement) (opSTR : string) : string :=
  UpdateContext.get_string
    (UpdateContext.add_context_element (UpdateContext.mkUpdateContext opSTR []) ce).

Definition send_element (fuel : nat) (method : string) (ngsi_context_element : ContextElement)
    (opSTR : string) (service : ptree) : FM Net (Z * string) :=
  act! cb_url := flift (Some (broker_url service (get_ngsi_operation "updateContext"))) in
  act! cb_response := send fuel method cb_url (update_text ngsi_context_element opSTR) service 200 in
  fret (200, cb_response).

(** The attribute of a command: [name_att], with the time. *)
Definition command_attribute (timestamp command_name command_att type value : string)
    : Attribute :=
  add_metadata (new_attribute (command_name ++ "_" ++ command_att) type value)
    (time_metadata timestamp).

Definition add_updateContext (fuel : nat) (timestamp command_name command_att type value : string)
    (ce : ContextElement) : fueled ContextElement :=
  add_attribute fuel ce (command_attribute timestamp command_name command_att type value).

Definition time_attribute (timestamp : string) : Attribute :=
  new_attribute "TimeInstant" "ISO8601" timestamp.

Definition send_updateContext (fuel : nat) (method timestamp command_name command_att type value
    : string) (item_dev : option Device) (service : ptree) (opSTR : string) : FM Net Z :=
  act! ce := flift (set_env_info fuel timestamp empty_context_element service item_dev) in
  act! ce := flift (add_updateContext fuel timestamp command_name command_att type value ce) in
  act! ce := flift (add_attribute fuel ce (time_attribute timestamp)) in
  act! r := send_element fuel method ce opSTR service in
  fret (fst r).

(** ** How often a request is sent *)

Context {HPN : PropertyTreeIntLaws}.

(** The tries so far. *)
Definition tries (ai : ptree) : Z := default 0 (pt_get_int ai NUMBER_OF_TRIES).

Lemma tries_put ai v : tries (pt_put ai "token" v) = tries ai.
Proof. unfold tries. by rewrite pt_get_int_text. Qed.

Lemma tries_next_of ai n : tries (pt_put_int ai NUMBER_OF_TRIES n) = n.
Proof. unfold tries. by rewrite pt_get_int_put. Qed.

(** Nothing but [async_send] puts a request in flight. *)
Definition flying (l : list pending) (s : Net) : Prop := in_flight s = l.

Lemma authorize_tries ai oauth code l :
  runs (flying l) (authorize ai oauth code)
    (fun r s => flying l s /\ match r with Ret ai' => tries ai' = tries ai | _ => True end).
Proof.
  destruct oauth as [[url user] pass]. unfold authorize. destruct (_ && _).
  - apply (runs_bind _ (fun r s => flying l s)).
    + intros s s' r Hs. unfold on_outside. destruct (get_token _ _ _ _ _ _) as [n a].
      intros [= <- <-]. exact Hs.
    + intros a. apply (runs_bind _ (fun r s => flying l s)); [by apply runs_lift| |done|done].
      intros token. apply runs_ret. intros s Hs. by rewrite tries_put.
    + done.
    + done.
  - by apply runs_ret.
Qed.

Lemma prepare_tries method url content ai oauth code l :
  runs (flying l) (prepare method url content ai oauth code)
    (fun r s => flying l s /\ match r with Ret (_, ai', _, _) => tries ai' = tries ai | _ => True end).
Proof.
  unfold prepare. apply (runs_bind _ (fun _ s => flying l s)); [by apply runs_lift| |done|done].
  intros dest. eapply runs_bind; [apply authorize_tries| |done|done].
  intros ai'. apply (runs_bind _ (fun _ s => flying l s /\ tries ai' = tries ai));
    [by apply runs_lift| |by intros ? ? [? _]|by intros ? [? _]].
  intros t. by apply runs_ret.
Qed.

(** What [async_send] puts in flight: one request at most, for the same
    address and content, and with the same number of tries. *)
Definition sent_once (l : list pending) (url content : string) (n : Z) (s : Net) : Prop :=
  in_flight s = l \/ exists q, in_flight s = (l ++ [q])%list /\ p_url q = url /\ p_content q = content
    /\ tries (p_info q) = n.

Lemma async_send_once method url content ai code l :
  runs (flying l) (async_send method url content ai code)
    (fun _ s => sent_once l url content (tries ai) s).
Proof.
  unfold async_send. apply (runs_bind _ (fun _ s => flying l s)); [by apply runs_lift| |by left|by left].
  intros oauth. apply (runs_catch _ (fun r s => match r with
                                                | Ret _ => sent_once l url content (tries ai) s
                                                | _ => flying l s end)).
  - eapply runs_bind; [apply prepare_tries| |naive_solver|naive_solver].
    intros [[[request ai'] t] proxy]. apply runs_modify. intros s [Hs Ht]. right.
    eexists. unfold flying in Hs. cbn. by rewrite Hs.
  - intros e. apply runs_modify. intros s Hs. by left.
  - done.
  - by left.
Qed.


(** ** Waiting for a response *)

Definition same_tries (ai : ptree) (r : outcome (option http_response * ptree * string)) : Prop :=
  match r with Ret (Some _, ai', _) => tries ai' = tries ai | _ => True end.

Lemma send_once_tries method url content ai oauth code l :
  runs (flying l) (send_once method url content ai oauth code) (fun r _ => same_tries ai r).
Proof.
  unfold send_once. apply (runs_catch _ (fun r _ => same_tries ai r)); [|intros e|done|done].
  - eapply runs_bind; [apply prepare_tries| |done|done].
    intros [[[request ai'] t] proxy].
    apply (runs_bind _ (fun _ s => tries ai' = tries ai)); [|intros r|done|done].
    + intros s s' r [_ Ht]. unfold on_outside. destruct (exchange _ _ _ _). by intros [= <- <-].
    + apply (runs_bind _ (fun _ s => tries ai' = tries ai)); [by intros s s' o Hs _| |done|done].
      intros text. apply runs_ret. intros s Hs. by destruct (ex_response r).
  - intros s s' r _. unfold fmbind, no_cb_alarm, fmmodify, fret. by intros [= <- <-].
Qed.

Lemma on_outside_ends {A} (f : network -> network * A) : ends (on_outside f).
Proof. intros s. unfold on_outside. by destruct (f (outside s)). Qed.

Lemma prepare_ends method url content ai oauth code : ends (prepare method url content ai oauth code).
Proof.
  destruct oauth as [[u user] pass]. unfold prepare. apply ends_bind; [auto with iota|intros dest].
  apply ends_bind; [|intros ai'; auto with iota].
  unfold authorize. destruct (_ && _); [|auto with iota].
  apply ends_bind; [apply on_outside_ends|auto with iota].
Qed.

Lemma send_once_ends method url content ai oauth code :
  ends (send_once method url content ai oauth code).
Proof.
  unfold send_once. apply ends_catch; [|intros e; unfold no_cb_alarm; auto with iota].
  apply ends_bind; [apply prepare_ends|intros [[[request ai'] t] proxy]].
  apply ends_bind; [apply on_outside_ends|intros r].
  apply ends_bind; [|auto with iota]. unfold process_response, cb_works, no_cb_alarm.
  destruct (ex_error r); [auto with iota|]. destruct (ex_response r); auto with iota.
Qed.

Lemma send_S fuel method url content ai code s :
  send (S fuel) method url content ai code s
  = match oauth_parameters with
    | Ret oauth =>
        match send_once method url content ai oauth code s with
        | Some (s', Ret (Some response, ai', text)) =>
            if negb (String.eqb (pt_get_default ai "token" "") "")
               && negb (String.eqb (fst (fst oauth)) "")
               && (rs_code response =? 401) && (tries ai <? 1)
            then send fuel method url content (pt_put_int ai' NUMBER_OF_TRIES (tries ai + 1)) 401 s'
            else Some (s', Ret text)
        | Some (s', Ret (None, _, text)) => Some (s', Ret text)
        | Some (s', Throw e) => Some (s', Throw e)
        | Some (s', Undefined) => Some (s', Undefined)
        | None => None
        end
    | Throw e => Some (s, Throw e)
    | Undefined => Some (s, Undefined)
    end.
Proof.
  cbn [send]. unfold fmbind, flift. fold (tries ai). destruct oauth_parameters as [oauth|e|]; try done.
  destruct (send_once _ _ _ _ _ _ s) as [[s2 [[[[response|] ai2] text]|e|]]|]; try done.
  by destruct (_ && _).
Qed.

Lemma send_last fuel method url content ai code s : 1 <= tries ai ->
  send (S fuel) method url content ai code s = send 1 method url content ai code s
  /\ send 1 method url content ai code s <> None.
Proof.
  intros Ht. rewrite (send_S fuel), (send_S 0). destruct oauth_parameters as [oauth|e|]; [|by split..].
  pose proof (send_once_ends method url content ai oauth code s) as He.
  destruct (send_once _ _ _ _ _ _ s) as [[s2 [[[[response|] ai2] text]|e|]]|]; try by split.
  replace (tries ai <? 1) with false by (symmetry; by apply Z.ltb_ge). by rewrite andb_false_r.
Qed.

(** A call that waits for the response ends, after two requests at most,
    whatever the broker answers. *)
Theorem send_ends (fuel : nat) (method url content : string) (ai : ptree) (code : Z) (s : Net) :
  0 <= tries ai ->
  send (S (S fuel)) method url content ai code s = send 2 method url content ai code s
  /\ send 2 method url content ai code s <> None.
Proof.
  intros Hn. rewrite (send_S (S fuel)), (send_S 1).
  destruct oauth_parameters as [oauth|e|]; [|by split..].
  pose proof (send_once_ends method url content ai oauth code s) as He.
  destruct (send_once _ _ _ _ _ _ s) as [[s2 [[[[response|] ai2] text]|e|]]|] eqn:E; try by split.
  pose proof (send_once_tries _ _ _ _ _ _ (in_flight s) s s2 _ eq_refl E) as Ht. cbn in Ht.
  destruct (_ && (tries ai <? 1)) eqn:Er; [|by split].
  apply send_last. rewrite tries_next_of ; lia.
Qed.
End CbComm.

(** ** Examples *)

(** A network that answers from a script, and fails when it is over. *)
Definition network_script : Network := {|
  network := list exchange_result;
  exchange n _ _ _ :=
    match n with
    | r :: n' => (n', r)
    | [] => ([], mkResult None (Some (110, "timeout")) "")
    end;
  get_token n _ _ _ _ _ := (n, Ret "new")
|}.

(** A configuration of a table of maps. *)
Definition config_table (maps : list (string * list (string * string))) : Config := {|
  config_get f := match assoc maps f with
                  | Some m => Ret (JObject (map (fun kv => (fst kv, JString (snd kv))) m))
                  | None => Throw (RuntimeError "Not found")
                  end;
  config_get_map f := match assoc maps f with
                      | Some m => Ret (list_to_map m)
                      | None => Throw (RuntimeError "Not found")
                      end;
  getService _ _ _ := Throw (RuntimeError "Not found");
  getServicebyApiKey _ _ := Throw (RuntimeError "Not found");
  getAllServicePath _ _ := Ret [];
  getResourceObject _ := Ret (JObject []);
  getHttpMessage _ := "";
  listen_ip := "127.0.0.1";
  listen_port := 8080;
  iotagent_name := "";
  iotagent_identifier := ""
|}.

Section Examples.
  Local Existing Instance boost_reference.
  Local Existing Instance network_script.

#[local] Instance broker_ptree : PropertyTree := ptree_reference (fun _ => "").
#[local] Instance broker_ptree_int : PropertyTreeInt := ptree_int_reference (fun _ => "").
#[local] Instance broker_config : Config :=
  config_table [("oauth", [("on_behalf_trust_url", "http://idm")])].

Definition unauthorized : exchange_result := mkResult (Some (mkHttpResponse 401 "no")) None "cb".
Definition accepted : exchange_result := mkResult (Some (mkHttpResponse 200 "yes")) None "cb".
Definition with_token : ptree := Tree [("token", "old")] [].
Definition start_net (script : list exchange_result) : Net := mkNet script ∅ [].

Definition example_pending : pending :=
  mkPending (mkHttpRequest "POST" "cb" 80 "/v1" "" "body" IOT_CONTENT_TYPE_JSON []) 5 "" "http://cb/v1"
    "body" with_token.


Lemma send_ends_witness :
  send (fun _ => "") 7 "POST" "http://cb/v1" "body" with_token 200
    (start_net [unauthorized; unauthorized; accepted])
  = Some (start_net [accepted], Ret "no").
Proof.
  destruct (send_ends (HPN := ptree_int_reference_laws _) (fun _ => "") 5 "POST" "http://cb/v1"
    "body" with_token 200 (start_net [unauthorized; unauthorized; accepted])) as [E _];
    [by vm_compute|].
  refine (eq_trans E _). vm_compute. reflexivity.
Defined.
End Examples.
