(* ===== verification/CommandHandle.v ===== *)
(** * Commands to devices: part of [src/src/rest/command_handle.cc]

    How a command of the context broker becomes the text sent to a device: the
    JSON of its value, and the template of the command. *)
From stdpp Require Import base tactics list gmap strings.
From Stdlib Require Import ZArith Lia Ascii String.
From S2P Require Import Prelude CppString Boost Types Json.

Local Open Scope string_scope.
Local Open Scope Z_scope.

(** ** JSON values *)

(** [json_value_to_ul] of [command_handle.cc]: the loop over the members. *)
Fixpoint members_to_ul (json_value : string) (ms : list (string * json)) (new_value : string)
    : outcome string :=
  match ms with
  | [] => Ret new_value
  | (name, value) :: rest =>
      let new_value := (new_value ++ c_string name ++ "=")%string in
      match value with
      | JString s =>
          let new_value := (new_value ++ c_string s)%string in
          members_to_ul json_value rest
            (match rest with [] => new_value | _ => new_value ++ "|" end)%string
      | _ => Throw (IotaException RESPONSE_MESSAGE_COMMAND_BAD json_value RESPONSE_CODE_BAD_REQUEST)
      end
  end.

Definition json_value_to_ul `{Rapidjson} (json_value : string) : outcome string :=
  if String.eqb json_value "" then Ret ""
  else match json_parse json_value with
       | None => Ret json_value
       | Some (JObject ms) => members_to_ul json_value ms ""
       | Some _ => Undefined
       end.

(** ** Templates *)

(** [std::count(.., '%')] *)
Fixpoint count_percent (s : string) : Z :=
  match s with
  | EmptyString => 0
  | String c s' => (if Ascii.eqb c "%" then 1 else 0) + count_percent s'
  end.

(** The loop over the occurrences of [%s]; one unit of fuel for each. *)
Fixpoint replace_params (fuel : nat) (command_value : string) (params : list string) (i : Z)
    (found1 : nat) (found2 : option nat) (result : string) : fueled string :=
  match fuel with
  | O => None
  | S fuel =>
      match found2 with
      | Some found2 =>
          fuel! text := Some (substr command_value found1 (found2 - found1)) in
          fuel! param := Some (vix params i) in
          let found1 := (found2 + 2)%nat in
          replace_params fuel command_value params (i + 1) found1
            (find "%s" command_value found1) (result ++ text ++ param)%string
      | None =>
          fuel! text := Some (substr command_value found1 (String.length command_value - found1)) in
          Some (Ret (result ++ text)%string)
      end
  end.

Section CommandHandle.
  Context `{Boost} `{PropertyTree}.

Definition malformed_command (command_value updateCommand_value : string) : string :=
  "malformed command " ++ command_value ++ " in relation with " ++ updateCommand_value
  ++ ".%s is replaced with  | value".

(** [transform_command]: the identifier of the command and its line; [uuid] is
    the one drawn.  The fuel is that of the loop, which takes an occurrence of
    [%s] from the template in each turn. *)
Definition transform_command (uuid command_value updateCommand_value sequence_id : string)
    (command_line : ptree) : fueled (string * ptree) :=
  fuel! command_line :=
    if negb (String.eqb command_value "") then
      if String.eqb command_value RAW then
        Some (Ret (pt_put command_line Store.BODY updateCommand_value))
      else
        let params := split "|" updateCommand_value in
        let count := count_percent command_value in
        if count =? 0 then Some (Ret (pt_put command_line Store.BODY command_value))
        else if zlen params <? count then
          Some (Throw (IotaException RESPONSE_MESSAGE_INVALID_PARAMETER
            (malformed_command command_value updateCommand_value) RESPONSE_CODE_BAD_REQUEST))
        else
          fuel! result := replace_params (S (String.length command_value)) command_value params 0 0
                            (find "%s" command_value 0) "" in
          Some (Ret (pt_put command_line Store.BODY result))
    else Some (Ret (pt_put command_line Store.BODY updateCommand_value)) in
  Some (Ret (if String.eqb sequence_id "" then uuid else sequence_id, command_line)).
End CommandHandle.

(** ** Templates and their pieces *)

(** The pieces of a template, between the occurrences of [%s]. *)
Fixpoint template (pieces : list string) : string :=
  match pieces with
  | [] => ""
  | [p] => p
  | p :: ps => p ++ "%s" ++ template ps
  end.

(** The pieces with parameters between them. *)
Fixpoint fill (pieces params : list string) : string :=
  match pieces, params with
  | [], _ => ""
  | [p], _ => p
  | p :: ps, x :: xs => p ++ x ++ fill ps xs
  | p :: _, [] => p
  end.

Definition piece (p : string) : Prop := find "%s" p 0 = None.

Lemma template_cons p q ps : template (p :: q :: ps) = p ++ "%s" ++ template (q :: ps).
Proof. reflexivity. Qed.

Lemma fill_cons p q ps x xs : fill (p :: q :: ps) (x :: xs) = p ++ x ++ fill (q :: ps) xs.
Proof. reflexivity. Qed.

Lemma find_piece p t : piece p -> find "%s" (p ++ "%s" ++ t) 0 = Some (String.length p).
Proof.
  unfold piece. induction p as [|c p IH]; intros Hp.
  - cbn [append]. rewrite find_cons, !prefix_cons. by destruct t.
  - cbn [append]. rewrite find_cons in Hp |- *.
    destruct (String.prefix "%s" (String c p)) eqn:E; [done|].
    assert (E' : String.prefix "%s" (String c (p ++ "%s" ++ t)) = false).
    { rewrite prefix_cons in E |- *. destruct (ascii_dec "%" c); [|done].
      destruct p as [|d p]; [done|]. cbn [append].
      rewrite prefix_cons in E |- *. destruct (ascii_dec "s" d); [|done]. by destruct p. }
    cbn [append] in E', IH. rewrite E'. rewrite IH; [done|].
    by destruct (find "%s" p 0).
Qed.

(** The first occurrence has a piece before it. *)
Lemma find_if_first s m : find "%s" s 0 = Some m ->
  exists a b, s = a ++ "%s" ++ b /\ piece a.
Proof.
  revert m. induction s as [|c s IH]; intros m; [done|]. rewrite find_cons.
  destruct (String.prefix "%s" (String c s)) eqn:E.
  - intros _. apply prefix_iff in E as [t ->]. by exists "", t.
  - destruct (find "%s" s 0) as [k|] eqn:Ek; [|done]. intros _.
    destruct (IH k eq_refl) as (a & b & -> & Ha). exists (String c a), b. split; [done|].
    unfold piece in *. rewrite find_cons, Ha.
    destruct (String.prefix "%s" (String c a)) eqn:E'; [|done].
    apply prefix_iff in E' as [t Ht].
    assert (String.prefix "%s" (String c (a ++ "%s" ++ b)) = true); [|congruence].
    apply prefix_iff. exists (t ++ "%s" ++ b).
    change (String c a ++ "%s" ++ b = "%s" ++ t ++ "%s" ++ b). by rewrite Ht.
Qed.

(** Every text is a template. *)
Lemma template_exists : forall n s, (String.length s <= n)%nat ->
  exists p ps, template (p :: ps) = s /\ Forall piece (p :: ps).
Proof.
  induction n as [|n IH]; intros s Hs.
  - destruct s; [|cbn in Hs; lia]. exists "", []. by repeat constructor.
  - destruct (find "%s" s 0) as [m|] eqn:E.
    + destruct (find_if_first s m E) as (a & b & -> & Ha).
      destruct (IH b) as (q & qs & <- & Hq).
      { rewrite !str_length_app in Hs. cbn in Hs. lia. }
      exists a, (q :: qs). split; [apply template_cons|]. by constructor.
    + exists s, []. by repeat constructor.
Qed.

Lemma count_percent_app a b : count_percent (a ++ b) = count_percent a + count_percent b.
Proof. induction a as [|c a IH]; cbn; [done|]. rewrite IH. lia. Qed.

Lemma count_percent_nonneg s : 0 <= count_percent s.
Proof. induction s as [|c s IH]; cbn; [lia|]. destruct (Ascii.eqb c "%"); lia. Qed.

Lemma template_count p ps : zlen ps <= count_percent (template (p :: ps)).
Proof.
  revert p. induction ps as [|q ps IH]; intros p; [apply count_percent_nonneg|].
  rewrite template_cons, !count_percent_app, zlen_cons. pose proof (IH q).
  pose proof (count_percent_nonneg p). cbn [count_percent Ascii.eqb Bool.eqb].
  change (if Ascii.eqb "%" "%" then 1 else 0) with 1.
  change (if Ascii.eqb "s" "%" then 1 else 0) with 0. lia.
Qed.

Lemma template_length p ps : (List.length ps <= String.length (template (p :: ps)))%nat.
Proof.
  revert p. induction ps as [|q ps IH]; intros p; [cbn; lia|].
  rewrite template_cons, !str_length_app. cbn [List.length]. specialize (IH q).
  change (String.length "%s") with 2%nat. lia.
Qed.

Lemma substr_app a b c : substr (a ++ b ++ c) (String.length a) (String.length b) = Ret b.
Proof.
  unfold substr. rewrite !str_length_app.
  destruct (Nat.leb_spec (String.length a) (String.length a + (String.length b + String.length c))); [|lia].
  by rewrite substring_drop, str_drop_app, str_take_app.
Qed.

(** The loop from a piece on. *)
Lemma replace_params_eq params ps : forall fuel pre p k xs result,
  Forall piece (p :: ps) -> (List.length ps < fuel)%nat ->
  drop k params = xs -> (List.length ps <= List.length xs)%nat ->
  let cv := (pre ++ template (p :: ps))%string in
  replace_params fuel cv params (Z.of_nat k) (String.length pre)
    (find "%s" cv (String.length pre)) result
  = Some (Ret (result ++ fill (p :: ps) xs)%string).
Proof.
  induction ps as [|q ps IH]; intros fuel pre p k xs result Hp Hf Hxs Hl cv;
    (destruct fuel as [|fuel]; [cbn in Hf; lia|]); apply Forall_cons_1 in Hp as [Hp Hps];
    cbn [replace_params]; rewrite find_drop; subst cv; rewrite str_drop_app.
  - cbn [template]. rewrite Hp. cbn [fmap option_fmap option_map].
    rewrite str_length_app, Nat.add_comm, Nat.add_sub.
    pose proof (substr_app pre p "") as Hs. rewrite str_app_nil_r in Hs.
    rewrite Hs. cbn [fbind]. by destruct xs.
  - rewrite template_cons, find_piece by done. cbn [fmap option_fmap option_map].
    replace (String.length pre + String.length p - String.length pre)%nat with (String.length p) by lia.
    rewrite substr_app. cbn [fbind].
    destruct xs as [|x xs]; [cbn in Hl; lia|].
    assert (Hx : params !! k = Some x).
    { rewrite <- (Nat.add_0_r k), <- lookup_drop, Hxs. reflexivity. }
    unfold vix. destruct (Z.ltb_spec (Z.of_nat k) 0); [lia|]. rewrite Nat2Z.id, Hx. cbn [fbind].
    replace (pre ++ p ++ "%s" ++ template (q :: ps))%string
      with ((pre ++ p ++ "%s") ++ template (q :: ps))%string by (by rewrite <- !str_app_assoc).
    replace (String.length pre + String.length p + 2)%nat
      with (String.length (pre ++ p ++ "%s")) by (rewrite !str_length_app; cbn; lia).
    replace (Z.of_nat k + 1) with (Z.of_nat (S k)) by lia.
    rewrite (IH fuel (pre ++ p ++ "%s")%string q (S k) xs); try done.
    + rewrite fill_cons. by rewrite <- !str_app_assoc.
    + cbn in Hf. lia.
    + rewrite <- Nat.add_1_r, <- drop_drop, Hxs. reflexivity.
    + cbn in Hl. lia.
Qed.

(** A command is its template with the parameters of the update in the
    place of each [%s], in order.  For every command the result is one of
    three: the update itself when the command is empty or [@@RAW@@], a refusal
    when the update has fewer parameters than the command has percent signs,
    and otherwise the filled template; the loop always ends and never reads
    past the parameters. *)
Theorem transform_command_spec `{BoostLaws} `{PropertyTree}
    (uuid cv ucv sequence_id : string) (line : ptree) :
  exists p ps, template (p :: ps) = cv /\ Forall piece (p :: ps)
  /\ transform_command uuid cv ucv sequence_id line
     = Some (let id := if String.eqb sequence_id "" then uuid else sequence_id in
             if String.eqb cv "" || String.eqb cv RAW
             then Ret (id, pt_put line Store.BODY ucv)
             else if negb (count_percent cv =? 0) && (zlen (split_char "|" ucv) <? count_percent cv)
             then Throw (IotaException RESPONSE_MESSAGE_INVALID_PARAMETER
                           (malformed_command cv ucv) RESPONSE_CODE_BAD_REQUEST)
             else Ret (id, pt_put line Store.BODY (fill (p :: ps) (split_char "|" ucv)))).
Proof.
  destruct (template_exists _ cv (Nat.le_refl _)) as (p & ps & Hcv & Hp).
  exists p, ps. split; [done|]. split; [done|]. unfold transform_command.
  destruct (String.eqb cv "") eqn:E1; [done|]. destruct (String.eqb cv RAW); [done|].
  cbn [negb orb]. rewrite split_law. pose proof (template_count p ps) as Hc. rewrite Hcv in Hc.
  destruct (Z.eqb_spec (count_percent cv) 0) as [E0|E0]; cbn [negb andb].
  - destruct ps as [|q ps]; [by rewrite <- Hcv|]. rewrite zlen_cons in Hc.
    pose proof (zlen_nonneg ps). lia.
  - destruct (Z.ltb_spec (zlen (split_char "|" ucv)) (count_percent cv)) as [Hl|Hl]; [done|].
    pose proof (replace_params_eq (split_char "|" ucv) ps (S (String.length cv)) "" p 0
                  (split_char "|" ucv) "" Hp) as Hr.
    pose proof (template_length p ps) as Hlen. rewrite Hcv in Hlen.
    cbn [append String.length] in Hr. rewrite Hcv in Hr. change (Z.of_nat 0) with 0 in Hr.
    rewrite Hr; [done|lia|done|]. unfold zlen in *. lia.
Qed.

Lemma transform_command_spec_witness :
  let P := ptree_reference (fun _ => "") in
  let run := transform_command (H := boost_reference) (H0 := P) "u" "set %s to %s" in
  run "lamp|on|spare" "" (Tree [] []) = Some (Ret ("u", Tree [("body", "set lamp to on")] []))
  /\ run "lamp" "" (Tree [] [])
     = Some (Throw (IotaException RESPONSE_MESSAGE_INVALID_PARAMETER
                      (malformed_command "set %s to %s" "lamp") RESPONSE_CODE_BAD_REQUEST))
  /\ exists p ps, template (p :: ps) = "set %s to %s" /\ Forall piece (p :: ps).
Proof.
  intros P run. split; [vm_compute; reflexivity|]. split; [vm_compute; reflexivity|].
  destruct (transform_command_spec (H := boost_reference_laws) (H0 := P) "u" "set %s to %s" "lamp"
              "" (Tree [] [])) as (p & ps & Ht & Hp & _).
  by exists p, ps.
Defined.
