(* ===== verification/RestHandle.v ===== *)
(** * The handler of a resource: [src/src/rest/rest_handle.cc]

    The state of an agent ([Agent]): its cache of devices, its cache of
    commands, its database, its traffic with the context broker; and what the
    handlers of all protocols share: services and devices looked for in the
    cache, the database or the configuration.  What a protocol overrides is
    an argument. *)
From stdpp Require Import base tactics list gmap strings.
From Stdlib Require Import ZArith Lia Ascii String.
From S2P Require Import Prelude CppString Boost Types FuncUtil Alarm IoTUrl Json Configurator.
From S2P Require Import NgsiAttribute NgsiContext NgsiMessages Iso8601 CbComm.
From S2P Require Import MultiIndex Cache Command CommandCache CommandCollection DeviceCollection.
From S2P Require Import Device Bson Collection.

Local Open Scope string_scope.
Local Open Scope Z_scope.

Definition DEFAULT_TIMEOUT : Z := 5.
Definition ERROR_MORE_THAN_ONE : Z := -100.
Definition ERROR_NO_SERVICE : Z := -404.
Definition ERROR_SERVICE_OK : Z := 0.

(** ** What the configuration says *)

Section Settings.
  Context `{HB : Boost} `{HC : Config}.

(** [instance()->get(field).GetString()], empty when it throws. *)
Definition config_string (f : string) : outcome string :=
  ocatch (let! v := config_get f in GetString v) (fun _ => Ret "").

Definition get_http_proxy : outcome string := config_string CONF_FILE_PROXY.

Definition get_default_context_broker : outcome string :=
  ocatch (let! ngsi_url := config_get "ngsi_url" in
          let! is_string := has_of IsString ngsi_url CONF_FILE_CBROKER in
          if is_string then let! m := member ngsi_url CONF_FILE_CBROKER in GetString m else Ret "")
    (fun _ => Ret "").

(** The number is converted to [int]. *)
Definition get_default_timeout : outcome Z :=
  ocatch (let! timeout := config_get CONF_FILE_TIMEOUT in
          let! t := GetInt64 timeout in Ret (i32 t))
    (fun _ => Ret DEFAULT_TIMEOUT).

Definition get_timeout_commands : outcome Z :=
  let! timeoutJSON := config_get CONF_FILE_TIMEOUT in
  if IsNumber timeoutJSON then GetInt timeoutJSON else Ret 0.

(** The address without which registrations cannot come back. *)
Definition get_public_ip : outcome string :=
  let! public_ip := config_string Store.PUBLIC_IP in
  let public_ip := if String.eqb public_ip "" then listen_ip ++ ":" ++ lexical_cast (u16 listen_port)
                   else public_ip in
  Ret (if negb (String.eqb public_ip "")
          && match CppString.find "http://" public_ip 0 with None => true | Some _ => false end
       then "http://" ++ public_ip else public_ip).

Definition get_iotagent_identifier : outcome string :=
  let id := iotagent_identifier in
  let id := if String.eqb id "" then iotagent_name else id in
  let! id := (if String.eqb id "" then
                let! ip := get_public_ip in
                if starts_with ip "http://" then substr_from ip 7 else Ret ip
              else Ret id) in
  Ret (match CppString.find ":" id 0 with
       | None => id ++ ":" ++ lexical_cast (u16 listen_port)
       | Some _ => id
       end).

(** The URL under the base of the process. *)
Definition remove_url_base (url_base url : string) : outcome string :=
  let! start := substr url 0 (String.length url_base) in
  if String.eqb start url_base then substr_from url (String.length url_base) else Ret url.

(** ** Answers *)

(** The status, its message, and the body. *)
Record http_answer : Type := mkAnswer {
  answer_code : Z;
  answer_message : string;
  answer_body : string
}.

Definition quote : string := String "034" "".

Definition error_body (reason details buffer : string) : string :=
  if String.eqb reason "" then buffer
  else
    "{" ++ quote ++ "reason" ++ quote ++ ": " ++ quote ++ erase_all reason "034"
    ++ (if String.eqb details "" then ""
        else quote ++ "," ++ quote ++ "details" ++ quote ++ ": " ++ quote ++ erase_all details "034")
    ++ quote ++ "}".

Definition error_response (reason details : string) (status_code : Z) (a : http_answer)
    : http_answer :=
  let code := if negb (status_code =? 0) then status_code else 404 in
  mkAnswer code (getHttpMessage code) (error_body reason details (answer_body a)).

(** [handle_end_filters]: the reason, the details and the code of a request
    that a filter refuses. *)
Definition filter_error (status : Z) : string * string * Z :=
  let reason := RESPONSE_MESSAGE_BAD_REQUEST in
  if status =? RESPONSE_CODE_NOT_ACCEPTABLE then (reason, RESPONSE_MESSAGE_NOT_ACCEPTABLE, status)
  else if status =? RESPONSE_CODE_UNSUPPORTED_MEDIA_TYPE
  then (reason, RESPONSE_MESSAGE_UNSUPPORTED_MEDIA_TYPE, status)
  else if status =? RESPONSE_CODE_FIWARE_SERVICE_ERROR
  then (REASON_MALFORMED_HEADER, DETAILS_HEADER_FIWARE_SERVICE, 400)
  else if status =? RESPONSE_CODE_FIWARE_SERVICE_PATH_ERROR
  then (REASON_MALFORMED_HEADER, DETAILS_HEADER_FIWARE_SERVICE_PATH, 400)
  else if status =? RESPONSE_CODE_FORBIDDEN_CHARACTERS
  then (REASON_MALFORMED_HEADER, DETAILS_FORBIDDEN_CHARACTERS, 400)
  else (reason, "", status).

(** ** The dispatch of a request *)

Section Dispatch.
  (** The request, the state of the handlers, and the arguments of an URL. *)
  Context {R S : Type}.
  Local Abbreviation handler := (R -> gmap string string -> http_answer -> S -> S * outcome http_answer).
  (** [restResourceParse]: whether the operation matches the pattern of an
      URL, and the arguments it adds to those there are. *)
  Context (parse : string -> string -> gmap string string -> bool * gmap string string).

(** The handlers in the order of their URLs, each with its pattern; the first
    one that matches.  The arguments are not cleared between them. *)
Fixpoint search_handler (handlers : list (string * (string * handler))) (operation : string)
    (url_args : gmap string string) : option handler * gmap string string :=
  match handlers with
  | [] => (None, url_args)
  | (_, (pattern, f)) :: rest =>
      let '(found, url_args) := parse pattern operation url_args in
      if found then (Some f, url_args) else search_handler rest operation url_args
  end.

(** [handle_request]: what a handler throws is the body of an error. *)
Definition handle_request (what : exn -> string) (handlers : list (string * (string * handler)))
    (operation : string) (request : R) : S -> S * outcome http_answer := fun s =>
  let start := mkAnswer 200 "" "" in
  match search_handler handlers operation ∅ with
  | (None, _) => (s, Ret (error_response RESPONSE_MESSAGE_BAD_REQUEST "" 0 start))
  | (Some f, url_args) =>
      match f request url_args start s with
      | (s', Throw e) => (s', Ret (error_response RESPONSE_MESSAGE_BAD_REQUEST (what e) 0 start))
      | r => r
      end
  end.

(** The filters: each looks at the request and says a status; [filters] has
    the pre-filters in order. *)
Fixpoint execute_filters (what : exn -> string) (handlers : list (string * (string * handler)))
    (operation : string) (filters : list (R -> S -> S * Z)) (request : R) (s : S)
    : S * outcome http_answer :=
  match filters with
  | [] => handle_request what handlers operation request s
  | filter :: rest =>
      let '(s', status) := filter request s in
      if status =? 200 then execute_filters what handlers operation rest request s'
      else
        let '(reason, details, code) := filter_error status in
        (s', Ret (error_response reason details code (mkAnswer 200 "" "")))
  end.
End Dispatch.
End Settings.

(** ** The agent *)

Section Agent.
  Context `{HB : Boost} `{HJ : Rapidjson} `{HP : PropertyTree} `{HI : !PropertyTreeInt}
    `{HPI : !PropertyTreeIter} `{HR : BsonReader} `{HBJ : BsonJson} `{HM : Mongo} `{HC : Config}
    `{HN : Network} {HE : EqDecision ptree} `{CD : !Container Device}
    `{CC : !Container (Command ptree)}.
  (** [read_json] of a text *)
  Context (read_json : string -> option ptree).
  (** [what()] of the exceptions of the libraries and of the driver; the text
      of a document *)
  Context (std_what : exn -> string) (what : driver_exception -> string)
    (show : document -> string).
  (** the name of the database, the resource, the type of the store, the name of the protocol *)
  Context (database endpoint resource storage_type protocol : string).
  (** [complete_info], which a protocol may override *)
  Context (complete_info : ptree -> ptree).

Local Abbreviation dptr := (ptr Device).
Local Abbreviation cptr := (ptr (Command ptree)).

(** A call of [execute_command], which sends a command to its device. *)
Record execution : Type := mkExecution {
  x_endpoint : string;
  x_command_id : string;
  x_command : ptree;
  x_timeout : Z;
  x_device : Device;
  x_service : ptree
}.

(** An update that was given to [async_send]. *)
Record update : Type := mkUpdate {
  u_element : ContextElement;
  u_action : string;
  u_service : ptree
}.

(** [readings] counts the readings of the clock and of the generator of
    identifiers; [next_address] is the address of the next object; [updates]
    and [executions] are what the agent asked to be sent, in order. *)
Record Agent : Type := mkAgent {
  registeredDevices : @Cache.Cache CD;
  m_asyncCommands : @CommandCache.CommandCache ptree HE CC;
  a_conn : db;
  a_alarms : gmap string string;
  a_outside : network;
  a_in_flight : list pending;
  updates : list update;
  executions : list execution;
  next_address : positive;
  readings : Z
}.

Definition with_devices (d : Cache.Cache) (a : Agent) : Agent :=
  mkAgent d (m_asyncCommands a) (a_conn a) (a_alarms a) (a_outside a) (a_in_flight a) (updates a)
    (executions a) (next_address a) (readings a).
Definition with_commands (c : CommandCache.CommandCache) (a : Agent) : Agent :=
  mkAgent (registeredDevices a) c (a_conn a) (a_alarms a) (a_outside a) (a_in_flight a) (updates a)
    (executions a) (next_address a) (readings a).
Definition with_database (d : Database) (a : Agent) : Agent :=
  mkAgent (registeredDevices a) (m_asyncCommands a) (conn d) (alarms d) (a_outside a)
    (a_in_flight a) (updates a) (executions a) (next_address a) (readings a).
Definition with_net (n : Net) (a : Agent) : Agent :=
  mkAgent (registeredDevices a) (m_asyncCommands a) (a_conn a) (net_alarms n) (outside n)
    (in_flight n) (updates a) (executions a) (next_address a) (readings a).
Definition with_update (u : update) (a : Agent) : Agent :=
  mkAgent (registeredDevices a) (m_asyncCommands a) (a_conn a) (a_alarms a) (a_outside a)
    (a_in_flight a) (updates a ++ [u])%list (executions a) (next_address a) (readings a).
Definition with_execution (x : execution) (a : Agent) : Agent :=
  mkAgent (registeredDevices a) (m_asyncCommands a) (a_conn a) (a_alarms a) (a_outside a)
    (a_in_flight a) (updates a) (executions a ++ [x])%list (next_address a) (readings a).
Definition with_next (p : positive) (a : Agent) : Agent :=
  mkAgent (registeredDevices a) (m_asyncCommands a) (a_conn a) (a_alarms a) (a_outside a)
    (a_in_flight a) (updates a) (executions a) p (readings a).
Definition with_readings (n : Z) (a : Agent) : Agent :=
  mkAgent (registeredDevices a) (m_asyncCommands a) (a_conn a) (a_alarms a) (a_outside a)
    (a_in_flight a) (updates a) (executions a) (next_address a) n.

(** The database and the network within the agent; they share the alarms of
    the process. *)
Definition on_db {A} (c : FM Database A) : FM Agent A := fun a =>
  match c (mkDatabase (a_conn a) (a_alarms a)) with
  | Some (d, r) => Some (with_database d a, r)
  | None => None
  end.
Definition on_net {A} (c : FM Net A) : FM Agent A := fun a =>
  match c (mkNet (a_outside a) (a_alarms a) (a_in_flight a)) with
  | Some (n, r) => Some (with_net n a, r)
  | None => None
  end.

Definition new_object {A} (x : A) : FM Agent (positive * A) := fun a =>
  Some (with_next (Pos.succ (next_address a)) a, Ret (next_address a, x)).
Definition reading : FM Agent Z := fun a =>
  Some (with_readings (readings a + 1) a, Ret (readings a)).

Definition mongodb : bool := String.eqb storage_type Store.MONGODB.

(** ** Devices *)

Definition find_in (table : string) (query : document) : FM Agent (Z * list document) :=
  on_db (Collection.find database endpoint show table query 0 0 []).

(** [get_func]: the device of the database, without its exceptions. *)
Definition get_func (item : Device) : FM Agent (option dptr) :=
  fmcatch
    (act! r := find_in Store.DEVICE_TABLE (DeviceCollection.Obj2BSON item true) in
     match snd r with
     | d :: _ =>
         act! p := new_object (copy_device (DeviceCollection.BSON2Obj d)) in fret (Some p)
     | [] => fret None
     end)
    (fun _ => fret None).

(** A search in the cache; the function it calls on a miss is [get_func] when
    the store is a database.  The database is asked first, and the cache is
    given the answer. *)
Definition cached (hit : Cache.Cache -> Device -> bool)
    (search : Cache.Cache -> Device -> Cache.Cache * outcome (option dptr))
    (key : Device) : FM Agent (option dptr) :=
  act! a := fmget in
  act! loaded := (if mongodb && negb (hit (registeredDevices a) key) then get_func key
                  else fret None) in
  fun a =>
    let c := registeredDevices a in
    let c := if mongodb then Cache.set_entity_function (Cache.set_function c (fun _ => loaded))
                               (fun _ => loaded) else c in
    let '(c, r) := search c key in Some (with_devices c a, r).

Definition is_some {A} (o : option A) : bool := match o with Some _ => true | None => false end.

Definition cache_get : Device -> FM Agent (option dptr) :=
  cached (fun c key => is_some (find_item (Cache._list c) key)) Cache.get.
Definition cache_get_by_entity : Device -> FM Agent (option dptr) :=
  cached (fun c key => is_some (find_key Device.unique_entity (Cache._list c) (Device.unique_entity key)))
    Cache.get_by_entity.
Definition cache_get_by_name : Device -> FM Agent (option dptr) :=
  cached (fun c key => is_some (find_key Device.unique_name (Cache._list c) (Device.unique_name key)))
    Cache.get_by_name.

Definition with_path (d : Device) (path : string) : Device :=
  mkDevice (_name d) (_protocol d) (_service d) path (_entity_type d) (_entity_name d)
    (_timezone d) (_endpoint d) (_attributes d) (_commands d) (_static_attributes d) (_lazy d)
    (_model d) (_active d) (_registration_id d) (_duration_cb d) (_timestamp_data d).
Definition with_entity (d : Device) (name type : string) : Device :=
  mkDevice (_name d) (_protocol d) (_service d) (_service_path d) type name
    (_timezone d) (_endpoint d) (_attributes d) (_commands d) (_static_attributes d) (_lazy d)
    (_model d) (_active d) (_registration_id d) (_duration_cb d) (_timestamp_data d).
Definition with_protocol (d : Device) (p : string) : Device :=
  mkDevice (_name d) p (_service d) (_service_path d) (_entity_type d) (_entity_name d)
    (_timezone d) (_endpoint d) (_attributes d) (_commands d) (_static_attributes d) (_lazy d)
    (_model d) (_active d) (_registration_id d) (_duration_cb d) (_timestamp_data d).

(** [get_device_empty_service_path]: each path of the service in turn. *)
Fixpoint first_path (paths : list string) (itemQ : Device) : FM Agent (option dptr) :=
  match paths with
  | [] => fret None
  | path :: rest =>
      let itemQ := with_path itemQ path in
      act! result := cache_get itemQ in
      match result with
      | Some p => fret (Some p)
      | None => first_path rest itemQ
      end
  end.

Definition get_device_empty_service_path (itemQ : Device) : FM Agent (option dptr) :=
  act! paths := flift (Some (getAllServicePath resource (_service itemQ))) in
  first_path paths itemQ.

Definition no_active (text : string) : exn :=
  IotaException RESPONSE_MESSAGE_DEVICE_NO_ACTIVE text RESPONSE_CODE_DEVICE_NO_ACTIVE.

(** Only an active device is given. *)
Definition active_or (text : string) (result : option dptr) : FM Agent (option dptr) :=
  match result with
  | Some p => if _active (snd p) =? 0 then fthrow (no_active text) else fret (Some p)
  | None => fret None
  end.

Definition get_device (name service service_path : string) : FM Agent (option dptr) :=
  let itemQ := new_device name service in
  let itemQ := if negb (String.eqb service_path "") then with_path itemQ service_path else itemQ in
  act! result :=
    (if String.eqb storage_type Store.FILE && String.eqb service_path ""
        && negb (String.eqb service "")
     then get_device_empty_service_path itemQ
     else if String.eqb service "" then cache_get_by_name itemQ
     else cache_get itemQ) in
  active_or (" iota::Device " ++ name ++ " is not active. Service " ++ service ++ " " ++ service_path)
    result.

(** The key of a device by its entity. *)
Definition entity_key (name entity_type service service_path : string) : Device :=
  let itemQ := with_entity (new_device "" service) name entity_type in
  let itemQ := with_path itemQ (if String.eqb service_path "" then FIWARE_SERVICEPATH_DEFAULT
                                else service_path) in
  if negb (String.eqb protocol "") then with_protocol itemQ protocol else itemQ.

(** The second search: by the name after the colon, when there is one.  The
    test on the path is the opposite of the one meant, and its other branch
    sets the path of the first key, so the second key has no path. *)
Definition second_search (name service service_path : string) (itemQ : Device)
    : FM Agent (option dptr) :=
  match find_first_of ":" name with
  | Some pos_i =>
      act! name_device := flift (Some (substr_from name (pos_i + 1))) in
      let itemQD := new_device name_device service in
      let itemQD := if String.eqb service_path "" then with_path itemQD service_path else itemQD in
      cache_get itemQD
  | None => cache_get_by_entity (with_entity itemQ (_entity_name itemQ) "")
  end.

Definition get_device_by_entity (name entity_type service service_path : string)
    : FM Agent dptr :=
  let itemQ := entity_key name entity_type service service_path in
  act! result := cache_get_by_entity itemQ in
  act! result := (match result with
                  | Some p => fret (Some p)
                  | None => second_search name service service_path itemQ
                  end) in
  act! result := active_or
    ("iota::Device " ++ name ++ " is not active. Service " ++ service ++ " " ++ service_path
     ++ " entity type: " ++ entity_type) result in
  match result with
  | Some p => fret p
  | None => fthrow (IotaException RESPONSE_MESSAGE_NO_DEVICE
              ("RestHandle::get_device_by_entity no exists device " ++ name ++ service ++ " "
               ++ service_path ++ " entity type: " ++ entity_type)
              RESPONSE_CODE_CONTEXT_ELEMENT_NOT_FOUND)
  end.

Definition remove_devices_from_cache (device : Device) : FM Agent unit :=
  fmmodify (fun a => with_devices (Cache.remove (registeredDevices a) device) a).

Definition update_endpoint_device (fuel : nat) (dev : Device) (new_endpoint : string)
    : FM Agent unit :=
  if mongodb then
    then! on_db (Collection.update database endpoint show fuel Store.DEVICE_TABLE
      [(Store.DEVICE_ID, BStr (_name dev)); (Store.SERVICE, BStr (_service dev));
       (Store.SERVICE_PATH, BStr (_service_path dev))]
      [(Store.ENDPOINT, BStr new_endpoint)] false) in
    fret tt
  else fret tt.

(** ** Services *)

(** [read_json], which throws a [json_parser_error]. *)
Definition read_ptree (text : string) : FM Agent ptree :=
  match read_json text with
  | Some pt => fret pt
  | None => fthrow (RuntimeError "json_parser_error")
  end.

(** The defaults of a service: the timeout, the context broker and the proxy. *)
Definition service_defaults : outcome (Z * string * string) :=
  let! default_timeout := get_default_timeout in
  let! default_context_broker := get_default_context_broker in
  let! http_proxy := get_http_proxy in
  Ret (default_timeout, default_context_broker, http_proxy).

(** What is put in the tree of a service, whichever store it comes from. *)
Definition complete_service (defaults : Z * string * string) (pt : ptree) : ptree :=
  let '(default_timeout, default_context_broker, http_proxy) := defaults in
  let pt := if String.eqb (pt_get_default pt Store.CBROKER "") ""
            then pt_put pt Store.CBROKER default_context_broker else pt in
  let pt := if default (-1) (pt_get_int pt Store.TIMEOUT) =? -1
            then pt_put_int pt Store.TIMEOUT default_timeout else pt in
  pt_put pt CONF_FILE_PROXY http_proxy.

Definition fill_service_with_bson (bson : document) : FM Agent ptree :=
  act! defaults := flift (Some service_defaults) in
  act! pt := read_ptree (jsonString bson) in
  fret (complete_info (complete_service defaults pt)).

(** [get_service_by_name_bbdd] and [get_service_by_apiKey_bbdd], which differ
    in the query: the code, and the tree when there is a service. *)
Definition get_service_bbdd (query : document) : FM Agent (Z * option ptree) :=
  act! r := find_in Store.SERVICE_TABLE query in
  match snd r with
  | [] => fret (ERROR_NO_SERVICE, None)
  | r1 :: more =>
      act! pt := fill_service_with_bson r1 in
      fret (match more with [] => ERROR_SERVICE_OK | _ => ERROR_MORE_THAN_ONE end, Some pt)
  end.

Definition resource_field : document :=
  if negb (String.eqb resource "") then [(Store.RESOURCE, BStr resource)] else [].

Definition get_service_by_name_bbdd (name service_path : string) : FM Agent (Z * option ptree) :=
  get_service_bbdd ([(Store.SERVICE, BStr name)]
    ++ (if negb (String.eqb service_path "") then [(Store.SERVICE_PATH, BStr service_path)] else [])
    ++ resource_field)%list.

Definition get_service_by_apiKey_bbdd (apiKey : string) : FM Agent (Z * option ptree) :=
  get_service_bbdd ((Store.APIKEY, BStr apiKey) :: resource_field).

(** [get_service_by_name_file] and [get_service_by_apiKey_file]. *)
Definition get_service_file (service_object : outcome json) : FM Agent ptree :=
  act! defaults := flift (Some service_defaults) in
  act! v := flift (Some service_object) in
  act! pt := read_ptree (c_string (json_text (accept v))) in
  fret (complete_service defaults pt).

(** The database first, when it is the store, and then the file. *)
Definition get_service (bbdd : FM Agent (Z * option ptree)) (file : outcome json) : FM Agent ptree :=
  act! r := (if mongodb then bbdd else fret (ERROR_NO_SERVICE, None)) in
  act! pt := (if fst r =? ERROR_NO_SERVICE then get_service_file file
              else fret (default pt_empty (snd r))) in
  fret (complete_info pt).

Definition get_service_by_name (name service_path : string) : FM Agent ptree :=
  get_service (get_service_by_name_bbdd name service_path) (getService resource name service_path).

Definition get_service_by_apiKey (apiKey : string) : FM Agent ptree :=
  get_service (get_service_by_apiKey_bbdd apiKey) (getServicebyApiKey resource apiKey).

(** ** Publishing *)

(** The attributes of [send_update_context], each with the time. *)
Fixpoint add_timed (fuel : nat) (timestamp : string) (pt_cb : ptree) (dev : option Device)
    (attributes : list Attribute) (ce : ContextElement) : fueled ContextElement :=
  match attributes with
  | [] => Some (Ret ce)
  | att :: rest =>
      fuel! ce := set_env_info fuel timestamp ce pt_cb dev in
      fuel! ce := add_attribute fuel ce (add_metadata att (time_metadata timestamp)) in
      add_timed fuel timestamp pt_cb dev rest ce
  end.

Definition send_update_context (clock : Z -> string) (fuel : nat) (apikey device_id : string)
    (attributes : list Attribute) : FM Agent unit :=
  act! pt_cb := get_service_by_apiKey apikey in
  act! dev := get_device device_id (pt_get_default pt_cb Store.SERVICE "")
                (pt_get_default pt_cb Store.SERVICE_PATH "") in
  act! n := reading in
  act! ce := flift (add_timed fuel (clock n) pt_cb (option_map snd dev) attributes
                      (new_context_element device_id "" "false")) in
  then! on_net (send_element std_what fuel "POST" ce "APPEND" pt_cb) in
  fret tt.
End Agent.
