(* ===== verification/CommandService.v ===== *)
(** * The life of a command: [src/src/rest/command_handle.cc]

    From the update of the context broker to the device and back: a command is
    saved and pushed or left to be polled, delivered, answered or timed out,
    and every change of its state is published.  The state is [Agent].  A
    protocol overrides [transform_command], [execute_command] and
    [transform_response], which are arguments.  Device pointers are
    written as the devices they point to: the empty entries that looking for a
    mapping leaves in the attributes of a device are not kept. *)
From stdpp Require Import base tactics list gmap strings.
From Stdlib Require Import ZArith Lia Ascii String.
From S2P Require Import Prelude CppString Boost Types FuncUtil Alarm IoTUrl Json Configurator.
From S2P Require Import NgsiAttribute NgsiContext NgsiMessages NgsiRegister Iso8601 CbComm.
From S2P Require Import MultiIndex Cache Command CommandCache CommandCollection DeviceCollection.
From S2P Require Import CommandHandle Device Bson Collection RestHandle.

Local Open Scope string_scope.
Local Open Scope Z_scope.

Definition DEFAULT_REG_TIMEOUT : Z := 1.
Definition UNKOWN_PROVIDING_APP : string := "unkown".

(** ** Durations *)

(** The text before the first of the marks that is found, and the seconds of
    its unit. *)
Fixpoint before_mark (saux : string) (marks : list (string * Z)) : string * Z :=
  match marks with
  | [] => ("", 3600)
  | (mark, seconds) :: rest =>
      match CppString.find mark saux 0 with
      | Some pos => (str_take pos saux, seconds)
      | None => before_mark saux rest
      end
  end.

Definition day_marks : list (string * Z) := [("H", 3600); ("M", 60); ("S", 1)].
Definition date_marks : list (string * Z) :=
  [("Y", 365 * 24 * 3600); ("M", 30 * 24 * 3600); ("W", 7 * 24 * 3600); ("D", 24 * 3600)].

(** [get_duration_seconds]: the product is of [int]s. *)
Definition get_duration_seconds (data : string) : outcome Z :=
  let '(sresu, tseg) :=
    match CppString.find "PT" data 0 with
    | Some pos => before_mark (str_drop (pos + 2) data) day_marks
    | None =>
        match CppString.find "P" data 0 with
        | Some pos => before_mark (str_drop (pos + 1) data) date_marks
        | None => ("", 3600)
        end
    end in
  if String.eqb sresu "" then Ret DEFAULT_REG_TIMEOUT
  else
    let! naux := atoi (c_string sresu) in
    if 0 <? naux then
      if naux * tseg <? 2 ^ 31 then Ret (naux * tseg) else Undefined
    else Ret DEFAULT_REG_TIMEOUT.

(** [find_service_name] *)
Definition find_service_name (services_names : list string) (srv : string) : bool :=
  existsb (fun s => String.eqb s srv) services_names.

(** [create_ngsi_response] *)
Definition create_ngsi_response `{Boost} (code : Z) (reason details : string) : string :=
  (if code =? 200 then "{ " ++ quote ++ "statusCode" ++ quote ++ " : "
   else "{ " ++ quote ++ "errorCode" ++ quote ++ " : ")
  ++ "{ " ++ quote ++ "code" ++ quote ++ ":" ++ lexical_cast code
  ++ ", " ++ quote ++ "reasonPhrase" ++ quote ++ ":" ++ quote ++ reason ++ quote ++ "}}".

(** [is_push_type_of_command] *)
Definition is_push_type_of_command (device : Device) : bool :=
  negb (String.eqb (_endpoint device) "").

(** ** Commands *)

Section CommandService.
  Context `{HB : Boost} `{HJ : Rapidjson} `{HP : PropertyTree} `{HI : !PropertyTreeInt}
    `{HPI : !PropertyTreeIter} `{HR : BsonReader} `{HBJ : BsonJson} `{HM : Mongo} `{HC : Config}
    `{HN : Network} {HE : EqDecision ptree} `{CD : !Container Device}
    `{CC : !Container (Command ptree)}.
  Context (read_json : string -> option ptree).
  Context (std_what : exn -> string) (what : driver_exception -> string)
    (show : document -> string).
  Context (database endpoint resource storage_type protocol : string).
  Context (complete_info : ptree -> ptree).
  (** the time at each reading of the clock, and the identifier drawn at each *)
  Context (clock uuid : Z -> string).
  (** whether debug messages are written, and commands are answered later *)
  Context (log_debug _callback : bool).
  (** what a protocol defines *)
  Context (transform_command : string -> string -> string -> string -> Device -> ptree ->
             FM Agent (string * ptree)).
  Context (execute_command : execution -> FM Agent (Z * string)).
  Context (transform_response : string -> Z -> string * string).

Local Abbreviation cptr := (ptr (Command ptree)).
Local Abbreviation mongodb := (mongodb storage_type).
Local Abbreviation get_service_by_name :=
  (get_service_by_name read_json show database endpoint resource storage_type complete_info).
Local Abbreviation get_service_by_apiKey :=
  (get_service_by_apiKey read_json show database endpoint resource storage_type complete_info).
Local Abbreviation find_in := (find_in show database endpoint).

(** *** Publishing the state of a command *)

(** [CommandHandle::get_ngsi_operation]. *)
Definition get_ngsi_operation (operation : string) : outcome string :=
  let op := "/NGSI10/" ++ operation in
  ocatch (let! ngsi_url := config_get "ngsi_url" in
          let! has := HasMember ngsi_url operation in
          if has then let! v := member ngsi_url operation in GetString v else Ret op)
    (fun _ => Ret op).

(** [send]: the update is given to [async_send], which answers nothing. *)
Definition send (ce : ContextElement) (opSTR : string) (service : ptree) : FM Agent unit :=
  act! cb_url := flift (Some (broker_url service (get_ngsi_operation "updateContext"))) in
  then! fmmodify (with_update (mkUpdate ce opSTR service)) in
  on_net (async_send std_what "POST" cb_url (update_text ce opSTR) service 200).

(** The attributes of an element: the name, the suffix, the type and the value
    of each, with the time it is added; at last the time. *)
Fixpoint add_all (fuel : nat) (command_name : string) (atts : list (string * string * string))
    (ce : ContextElement) : FM Agent ContextElement :=
  match atts with
  | [] => fret ce
  | (att, type, value) :: rest =>
      act! n := reading in
      act! ce := flift (add_updateContext fuel (clock n) command_name att type value ce) in
      add_all fuel command_name rest ce
  end.

Definition publish (fuel : nat) (ce : ContextElement) (item_dev : option Device) (service : ptree)
    (opSTR : string) : FM Agent unit :=
  act! n := reading in
  act! ce := flift (add_attribute fuel ce (time_attribute (clock n))) in
  match item_dev with
  | Some d =>
      act! n := reading in
      act! ce := flift (set_env_info fuel (clock n) ce service (Some d)) in
      send ce opSTR service
  | None => fret tt
  end.

(** [send_updateContext] of one attribute; without a name the element is empty. *)
Definition send_updateContext (fuel : nat) (command_name command_att type value : string)
    (item_dev : option Device) (service : ptree) (opSTR : string) : FM Agent unit :=
  act! ce := (if negb (String.eqb command_name "")
              then add_all fuel command_name [(command_att, type, value)] empty_context_element
              else fret (new_context_element "" "" "false")) in
  publish fuel ce item_dev service opSTR.

(** [send_updateContext] of two attributes: the status and the information. *)
Definition send_updateContext_info (fuel : nat) (command_name status info_value : string)
    (item_dev : Device) (service : ptree) (opSTR : string) : FM Agent unit :=
  act! ce := add_all fuel command_name
    [(STATUS, STATUS_TYPE, status); (INFO, INFO_TYPE, info_value)] empty_context_element in
  publish fuel ce (Some item_dev) service opSTR.

Definition send_status (fuel : nat) (command_name status : string) (item_dev : Device)
    (service : ptree) : FM Agent unit :=
  send_updateContext fuel command_name STATUS STATUS_TYPE status (Some item_dev) service STATUS_OP.

Definition response_command (fuel : nat) (id_command response : string) (device : Device)
    (service_ptree : ptree) : FM Agent unit :=
  send_updateContext_info fuel id_command EXECUTED_MESSAGE response device service_ptree STATUS_OP.

(** *** The cache of commands and its database *)

(** [command_from_mongo] *)
Definition command_from_mongo (item : Command ptree) : FM Agent (option cptr) :=
  fmcatch
    (act! r := find_in Store.COMMAND_TABLE (CommandCollection.Obj2BSON item true) in
     match snd r with
     | d :: _ => act! p := new_object (CommandCollection.BSON2Obj d) in fret (Some p)
     | [] => fret None
     end)
    (fun _ => fret None).

(** A call of the cache; what it would load is loaded before, as in
    [RestHandle.cached]. *)
Definition cached_command {A} (hit : CommandCache.CommandCache -> Command ptree -> bool)
    (search : CommandCache.CommandCache -> Command ptree -> CommandCache.CommandCache * outcome A)
    (key : Command ptree) : FM Agent A :=
  act! a := fmget in
  act! loaded := (if mongodb && negb (hit (m_asyncCommands a) key) then command_from_mongo key
                  else fret None) in
  fun a =>
    let c := m_asyncCommands a in
    let load := if mongodb then Some (fun _ => loaded) else None in
    let c := CommandCache.set_functions c load load true in
    let c := if mongodb then CommandCache.set_entity_function c (fun _ => loaded) else c in
    let '(c, r) := search c key in Some (with_commands c a, r).

Definition command_key (command_id service service_path : string) : Command ptree :=
  CommandCollection.command_key command_id service service_path.

Definition get_command (command_id service service_path : string) : FM Agent (option cptr) :=
  cached_command (fun c key => is_some (CommandCache.find_id c key)) CommandCache.get_by_id
    (command_key command_id service service_path).

Definition get_command_from_mongo (command_id service service_path : string)
    : FM Agent (option cptr) :=
  cached_command (fun _ _ => false) (fun c key => (c, CommandCache.get_by_id_from_mongo c key))
    (command_key command_id service service_path).

(** [remove_command]: how many were removed, 1 without a database. *)
Definition remove_command (fuel : nat) (command_id service service_path : string) : FM Agent Z :=
  let item := command_key command_id service service_path in
  then! fmmodify (fun a => with_commands (CommandCache.remove (m_asyncCommands a) item) a) in
  if mongodb
  then on_db (Collection.remove database endpoint show fuel Store.COMMAND_TABLE
                (CommandCollection.Obj2BSON item true) 0)
  else fret 1.

Definition remove_all_command : FM Agent unit :=
  fmmodify (fun a => with_commands (CommandCache.remove_all (m_asyncCommands a)) a).

(** [save_command] *)
Definition save_command (fuel : nat) (command_name command_id : string) (timeout : Z)
    (command_to_send : ptree) (item_dev : Device) (entity_type a_endpoint : string)
    (service_ptree : ptree) (sequence : string) (status : Z) : FM Agent unit :=
  let service := pt_get_default service_ptree Store.SERVICE "" in
  let service_path := pt_get_default service_ptree Store.SERVICE_PATH "" in
  if String.eqb command_id "" then
    fthrow (IotaException RESPONSE_MESSAGE_INVALID_PARAMETER
              ("command is is empty " ++ command_name ++ " of device " ++ _name item_dev)
              RESPONSE_CODE_BAD_REQUEST)
  else
    act! item := flift (Some (stored_command command_id command_name service service_path sequence
      (get_real_name (pt_get service_ptree) item_dev) entity_type a_endpoint timeout None
      command_to_send)) in
    act! p := new_object (set_status item status) in
    then! fmmodify (fun a => with_commands (CommandCache.insert (m_asyncCommands a) p) a) in
    if mongodb
    then on_db (Collection.insert database endpoint show fuel Store.COMMAND_TABLE
                  (CommandCollection.Obj2BSON (snd p) true) 0)
    else fret tt.

(** The status of a stored command is set to delivered. *)
Definition update_delivered (fuel : nat) (query : document) : FM Agent Z :=
  on_db (Collection.update database endpoint show fuel Store.COMMAND_TABLE query
           [(Store.STATUS, BNum DELIVERED)] false).

(** [pt->set_status(DELIVERED)] *)
Definition deliver_in_cache (p : cptr) : FM Agent unit :=
  fmmodify (fun a => with_commands (fst (CommandCache.write_status (m_asyncCommands a) p DELIVERED)) a).

(** *** Answers of devices *)

Record CommandData : Type := mkCommandData {
  command_name : string;
  command_id : string;
  command_to_send : ptree;
  sequence : string;
  timeout : Z;
  item_dev : Device;
  entity_type : string;
  service : ptree
}.

Definition process_command_response (fuel : nat) (cmd : CommandData) (res_code : Z)
    (resp_cmd : string) : FM Agent unit :=
  let service_name := pt_get_default (service cmd) Store.SERVICE "" in
  let service_path := pt_get_default (service cmd) Store.SERVICE_PATH "" in
  if res_code =? 200 then
    then! remove_command fuel (command_id cmd) service_name service_path in
    if negb (String.eqb resp_cmd "")
    then send_updateContext_info fuel (command_name cmd) EXECUTED_MESSAGE resp_cmd (item_dev cmd)
           (service cmd) INFO_OP
    else send_status fuel (command_name cmd) EXECUTED_MESSAGE (item_dev cmd) (service cmd)
  else if res_code =? 202 then
    act! n := (if mongodb
               then update_delivered fuel [(Store.COMMAND_ID, BStr (command_id cmd))]
               else fret 1) in
    act! pt := get_command (command_id cmd) service_name service_path in
    then! (match pt with Some p => deliver_in_cache p | None => fret tt end) in
    if 0 <? n
    then send_status fuel (command_name cmd) DELIVERED_MESSAGE (item_dev cmd) (service cmd)
    else fret tt
  else
    then! remove_command fuel (command_id cmd) service_name service_path in
    send_updateContext_info fuel (command_name cmd) ERROR resp_cmd (item_dev cmd) (service cmd)
      STATUS_OP.

(** [receive_command_response]: what the device answers to a command that was
    sent with a callback; [remote] is its address. *)
Definition receive_command_response (fuel : nat) (cmd : CommandData) (remote : string)
    (response : option http_response) (error_message : option string) : FM Agent unit :=
  let '(res_code, command_response) :=
    match error_message, response with
    | None, Some r => (rs_code r, fst (transform_response (rs_content r) (rs_code r)))
    | message, _ => (RESPONSE_CODE_RECEIVER_INTERNAL_ERROR,
                     remote ++ " [" ++ default "Success" message ++ "]")
    end in
  process_command_response fuel cmd res_code command_response.

(** *** Commands from the context broker *)

(** [getCommandLine] *)
Definition getCommandLine (a_name updateCommand_value sequence_id : string)
    (d : Device) (service : ptree) : FM Agent (string * ptree) :=
  if String.eqb a_name "" then
    fthrow (IotaException RESPONSE_MESSAGE_INVALID_PARAMETER "need specify a command "
              RESPONSE_CODE_BAD_REQUEST)
  else
    match _commands d !! a_name with
    | None =>
        fthrow (IotaException RESPONSE_MESSAGE_NO_DEVICE_NO_COMMAND
                  ("Device " ++ _name d ++ " has not a command called " ++ a_name)
                  RESPONSE_CODE_CONTEXT_ELEMENT_NOT_FOUND)
    | Some strValueCommand =>
        transform_command a_name strValueCommand updateCommand_value sequence_id d service
    end.

(** The call of the plug-in; its answer is processed at once, unless it comes
    later.  A [runtime_error] of the call or of the processing is dropped. *)
Definition execute (fuel : nat) (cmd : CommandData) : FM Agent unit :=
  let x := mkExecution (_endpoint (item_dev cmd)) (command_id cmd) (command_to_send cmd)
             (timeout cmd) (item_dev cmd) (service cmd) in
  fmcatch
    (then! fmmodify (with_execution x) in
     act! r := execute_command x in
     if _callback then fret tt else process_command_response fuel cmd (fst r) (snd r))
    (fun e => match runtime_what e with Some _ => fret tt | None => fthrow e end).

Definition save (fuel : nat) (cmd : CommandData) : FM Agent unit :=
  save_command fuel (command_name cmd) (command_id cmd) (timeout cmd) (command_to_send cmd)
    (item_dev cmd) (entity_type cmd) (_endpoint (item_dev cmd)) (service cmd) (sequence cmd)
    READY_FOR_READ.

(** [updateCommand] *)
Definition updateCommand (fuel : nat) (a_name parameters : string) (d : Device)
    (a_entity_type a_sequence : string) (a_service : ptree) : FM Agent unit :=
  act! line := getCommandLine a_name parameters a_sequence d a_service in
  act! a_timeout := flift (Some get_timeout_commands) in
  let cmd := mkCommandData a_name (fst line) (snd line) a_sequence a_timeout d a_entity_type
               a_service in
  if is_push_type_of_command d then
    then! send_status fuel a_name PENDING d a_service in
    then! save fuel cmd in
    execute fuel cmd
  else
    then! send_status fuel a_name READY_FOR_READ_MESSAGE d a_service in
    save fuel cmd.
(** *** Commands that a device polls *)

(** [get_by_entityV], which gives the commands of an entity as delivered. *)
Definition deliver_cached (key : Command ptree) : FM Agent (list cptr) :=
  cached_command
    (fun c key => match key_tail Command.unique_entity (CommandCache._list c) (Command.unique_entity key) with
                  | [] => false
                  | _ => true
                  end)
    (fun c key => CommandCache.get_by_entityV c key DELIVERED) key.

(** The loop over the commands that are handed over. *)
Fixpoint report_delivered (fuel : nat) (res : list cptr) (dev : Device) (service_ptree : ptree)
    : FM Agent unit :=
  match res with
  | [] => fret tt
  | (_, c) :: rest =>
      then! (if mongodb
             then update_delivered fuel
                    [(Store.COMMAND_ID, BStr (_id c)); (Store.SERVICE, BStr (Command._service c));
                     (Store.SERVICE_PATH, BStr (Command._service_path c))]
             else fret 0) in
      then! send_status fuel (Command._name c) DELIVERED_MESSAGE dev service_ptree in
      report_delivered fuel rest dev service_ptree
  end.

(** [get_all_command] of a device. *)
Definition get_all_command (fuel : nat) (dev : option Device) (service_ptree : ptree)
    : FM Agent (list cptr) :=
  if negb (String.eqb storage_type CONF_FILE_MONGO) then fret []
  else
    match dev with
    | None => fret []
    | Some d =>
        let item := set_status (new_key pt_empty (get_real_name (pt_get service_ptree) d)
                      (pt_get_default service_ptree Store.SERVICE "")
                      (pt_get_default service_ptree Store.SERVICE_PATH "")) READY_FOR_READ in
        act! res := deliver_cached item in
        then! report_delivered fuel res d service_ptree in
        fret res
    end.

(** [get_all_command] of the name of a device and the key of its service. *)
Definition get_all_command_of (fuel : nat) (device_id apikey : string) : FM Agent (list cptr) :=
  act! pt_cb := get_service_by_apiKey apikey in
  act! dev := get_device show database endpoint resource storage_type device_id
                (pt_get_default pt_cb Store.SERVICE "") (pt_get_default pt_cb Store.SERVICE_PATH "") in
  get_all_command fuel (option_map snd dev) pt_cb.

(** *** Commands that time out *)

Definition expired_message (status : Z) : string :=
  if READY_FOR_READ =? status then EXPIRED_READ_MESSAGE
  else if DELIVERED =? status then EXPIRED_DELIVERY_MESSAGE
  else ERROR.

(** The device that a command names, for the update of its state. *)
Definition device_of (item : Command ptree) : Device :=
  RestHandle.with_entity (new_device "" (Command._service item)) (_entity item)
    (Command._entity_type item).

(** The command is removed, and its state is sent by the agent that removed it. *)
Definition report_timeout (fuel : nat) (item : Command ptree) (service_ptree : ptree)
    : FM Agent unit :=
  act! c := remove_command fuel (_id item) (Command._service item) (Command._service_path item) in
  if 0 <? c
  then send_status fuel (Command._name item) (expired_message (_status item)) (device_of item)
         service_ptree
  else fret tt.

(** The first part of [timeout_f]: the service of a command that is to be
    reported, and nothing when another agent has gone further with it or there
    is no database.  The debug message reads the status of the command of the
    database before the test that there is one. *)
Definition check_timeout (item : Command ptree) : FM Agent (option ptree) :=
  act! service_ptree := get_service_by_name (Command._service item) (Command._service_path item) in
  act! itemBBDD := get_command_from_mongo (_id item) (Command._service item)
                     (Command._service_path item) in
  match itemBBDD with
  | None => if log_debug then flift (Some Undefined) else fret None
  | Some stored => fret (if _status item <? _status (snd stored) then None else Some service_ptree)
  end.

(** [timeout_f] *)
Definition timeout_f (fuel : nat) (item : Command ptree) : FM Agent unit :=
  fmcatch
    (act! service_ptree := check_timeout item in
     match service_ptree with
     | Some service_ptree => report_timeout fuel item service_ptree
     | None => fret tt
     end)
    (fun _ => fret tt).

(** The command that a timer points to, as it is now. *)
Definition pointed (c : CommandCache.CommandCache) (timer : cptr) : Command ptree :=
  match List.find (fun p => Pos.eqb (fst p) (fst timer)) (items (CommandCache._list c)) with
  | Some p => snd p
  | None => snd timer
  end.

(** The timer of a command: [CommandCache::item_timeout]. *)
Definition command_timer (fuel : nat) (timer : cptr) (aborted : bool) : FM Agent unit :=
  act! a := fmget in
  let timer := (fst timer, pointed (m_asyncCommands a) timer) in
  then! (if aborted then fret tt else timeout_f fuel (snd timer)) in
  fmmodify (fun a => with_commands (CommandCache.item_timeout (m_asyncCommands a) timer aborted) a).
End CommandService.
