(* ===== verification/CommandNgsi.v ===== *)
(** * The requests of the context broker: [src/src/rest/command_handle.cc]

    [updateContext], which sends commands to devices, [queryContext], which
    says the commands of a device, and the two HTTP handlers that read these
    messages and answer them. *)
From stdpp Require Import base tactics list gmap strings.
From Stdlib Require Import ZArith Lia Ascii String.
From S2P Require Import Prelude CppString StdMap Boost Types FuncUtil Alarm IoTUrl Json Configurator.
From S2P Require Import NgsiAttribute NgsiContext NgsiMessages NgsiRegister Iso8601 CbComm.
From S2P Require Import MultiIndex Cache Command CommandCache CommandCollection DeviceCollection.
From S2P Require Import CommandHandle Device Bson Collection RestHandle CommandService.

Local Open Scope string_scope.
Local Open Scope Z_scope.

(** [pion::http::types::RESPONSE_CODE_SERVER_ERROR] *)
Definition RESPONSE_CODE_SERVER_ERROR : Z := 500.

(** What the handlers read of a request: the header of the service, if there
    is one, that of the path, and the content. *)
Record ngsi_request : Type := mkNgsiRequest {
  fiware_service : option string;
  fiware_service_path : string;
  ngsi_content : string
}.

Record ngsi_answer : Type := mkNgsiAnswer {
  ngsi_status : Z;
  ngsi_content_type : option string;
  ngsi_body : string
}.

Section CommandNgsi.
  Context `{HB : Boost} `{HJ : Rapidjson} `{HP : PropertyTree} `{HI : !PropertyTreeInt}
    `{HPI : !PropertyTreeIter} `{HR : BsonReader} `{HBJ : BsonJson} `{HM : Mongo} `{HC : Config}
    `{HN : Network} {HE : EqDecision ptree} `{CD : !Container Device}
    `{CC : !Container (Command ptree)}.
  (** the arguments of [CommandService] *)
  Context (read_json : string -> option ptree).
  Context (std_what : exn -> string) (show : document -> string).
  Context (database endpoint resource storage_type protocol : string).
  Context (complete_info : ptree -> ptree).
  Context (clock uuid : Z -> string) (_callback : bool).
  Context (transform_command : string -> string -> string -> string -> Device -> ptree ->
             FM Agent (string * ptree)).
  Context (execute_command : execution -> FM Agent (Z * string)).
  (** [boost::erase_all] of a text of more than one character *)
  Context (erase_text : string -> string -> string).

Local Abbreviation get_device_by_entity :=
  (RestHandle.get_device_by_entity show database endpoint storage_type protocol).
Local Abbreviation get_service_by_name :=
  (RestHandle.get_service_by_name read_json show database endpoint resource storage_type complete_info).
Local Abbreviation updateCommand :=
  (CommandService.updateCommand std_what show database endpoint storage_type clock _callback
     transform_command execute_command).
Local Abbreviation what := (exn_what std_what).
Local Abbreviation response := ContextResponse.ContextResponse.

(** ** Updates *)

(** What an exception writes in the response of an element, and its code. *)
Definition failed (e : exn) (res : response) : Z * response :=
  match e with
  | IotaException reason details code =>
      (code, ContextResponse.set_details
               (ContextResponse.set_reason (ContextResponse.set_int_code res code) reason) details)
  | _ =>
      (RESPONSE_CODE_RECEIVER_INTERNAL_ERROR,
       ContextResponse.set_int_code
         (ContextResponse.set_details
            (ContextResponse.set_reason res RESPONSE_MESSAGE_INTERNAL_ERROR) (what e))
         RESPONSE_CODE_SERVER_ERROR)
  end.

(** An attribute that is not a command. *)
Definition no_command (att : Attribute) (res : response) : Z * response :=
  (RESPONSE_CODE_BAD_REQUEST,
   ContextResponse.set_details
     (ContextResponse.set_reason
        (ContextResponse.set_int_code res RESPONSE_CODE_BAD_REQUEST) RESPONSE_MESSAGE_NO_COMMAND)
     (get_name att)).

(** The attributes of an element, each a command of the device.  An
    [IotaException] is written in the response and the loop goes on; another
    exception leaves it, with the response as it is then. *)
Fixpoint update_commands (fuel : nat) (atts : list Attribute) (item_dev : Device)
    (entity_type sequence : string) (service_ptree : ptree) (r : Z * response)
    : FM Agent ((Z * response) * option exn) :=
  match atts with
  | [] => fret (r, None)
  | att :: rest =>
      let go := update_commands fuel rest item_dev entity_type sequence service_ptree in
      if String.eqb (get_type att) COMMAND_TYPE then
        act! done := fmtry (updateCommand fuel (get_name att) (get_value att) item_dev entity_type
                              sequence service_ptree) in
        match done with
        | inl _ => go r
        | inr (IotaException _ _ _ as e) => go (failed e (snd r))
        | inr e => fret (r, Some e)
        end
      else go (no_command att (snd r))
  end.

(** One element: its response, and the code of the whole. *)
Definition update_element (fuel : nat) (entity : ContextElement) (service_ptree : ptree)
    (sequence : string) (iresponse : Z) : FM Agent (Z * response) :=
  let service := pt_get_default service_ptree Store.SERVICE "" in
  let service_path := pt_get_default service_ptree Store.SERVICE_PATH "" in
  let res := ContextResponse.add_context_element ContextResponse.default_response entity in
  act! found := fmtry (get_device_by_entity (NgsiContext._id entity) (NgsiContext._type entity)
                         service service_path) in
  match found with
  | inr e => fret (failed e res)
  | inl item_dev =>
      let entity_type := Device._entity_type (snd item_dev) in
      let entity_type := if String.eqb entity_type "" then pt_get_default service_ptree "entity_type" ""
                         else entity_type in
      act! r := update_commands fuel (NgsiContext._attributes entity) (snd item_dev) entity_type
                  sequence service_ptree (iresponse, res) in
      match r with
      | (r, None) => fret r
      | (r, Some e) => fret (failed e (snd r))
      end
  end.

(** [updateContext]: the code, and the responses. *)
Fixpoint update_elements (fuel : nat) (entities : list ContextElement) (service_ptree : ptree)
    (sequence : string) (iresponse : Z) (responses : list response)
    : FM Agent (Z * list response) :=
  match entities with
  | [] => fret (iresponse, responses)
  | entity :: rest =>
      act! r := update_element fuel entity service_ptree sequence iresponse in
      update_elements fuel rest service_ptree sequence (fst r)
        (ContextResponses.add_context_response responses (snd r))
  end.

Definition updateContext (fuel : nat) (update : UpdateContext.UpdateContext)
    (service_ptree : ptree) (sequence : string) : FM Agent (Z * list response) :=
  update_elements fuel (UpdateContext._context_elements update) service_ptree sequence 200 [].

(** ** Queries *)

(** [populate_command_attributes] *)
Fixpoint add_commands (fuel : nat) (commands : list (string * string)) (ce : ContextElement)
    : fueled ContextElement :=
  match commands with
  | [] => Some (Ret ce)
  | (name, value) :: rest =>
      let value := if String.eqb value "" then " " else value in
      fuel! ce := NgsiContext.add_attribute fuel ce (new_attribute name "command" value) in
      add_commands fuel rest ce
  end.

Definition populate_command_attributes (fuel : nat) (device : Device) (ce : ContextElement)
    : fueled ContextElement :=
  add_commands fuel (entries (Device._commands device)) ce.

Definition query_entity (fuel : nat) (entity : Entity.Entity) (service service_path : string)
    (iresponse : Z) : FM Agent (Z * response) :=
  let res := ContextResponse.default_response in
  act! r := fmtry
    (let id := Entity._id entity in
     let type := Entity._type entity in
     act! device := get_device_by_entity id type service service_path in
     flift (populate_command_attributes fuel (snd device)
              (new_context_element id type (Entity._is_pattern entity)))) in
  match r with
  | inl ce => fret (iresponse, ContextResponse.add_context_element res ce)
  | inr e => fret (failed e res)
  end.

Fixpoint query_entities (fuel : nat) (entities : list Entity.Entity) (service service_path : string)
    (iresponse : Z) (responses : list response) : FM Agent (Z * list response) :=
  match entities with
  | [] => fret (iresponse, responses)
  | entity :: rest =>
      act! r := query_entity fuel entity service service_path iresponse in
      query_entities fuel rest service service_path (fst r)
        (ContextResponses.add_context_response responses (snd r))
  end.

(** [queryContext] *)
Definition queryContext (fuel : nat) (query : QueryContext.QueryContext) (service_ptree : ptree)
    : FM Agent (Z * list response) :=
  let service := pt_get_default service_ptree Store.SERVICE "" in
  let service_path := pt_get_default service_ptree Store.SERVICE_PATH "" in
  if String.eqb service "" || String.eqb service_path "" then
    fthrow (IotaException RESPONSE_MESSAGE_BAD_REQUEST "Service or Sub_service are missing"
              RESPONSE_CODE_BAD_REQUEST)
  else query_entities fuel (QueryContext._entities query) service service_path 200 [].

(** ** The handlers *)

(** The answer to an exception. *)
Definition exception_text (e : exn) : string :=
  match e with
  | IotaException reason details code => create_ngsi_response code reason details
  | _ => create_ngsi_response 500 (what e) (what e)
  end.

(** The status is always 200: what [updateContext] and [queryContext] say is
    in the body. *)
Definition answer (text : string) : ngsi_answer :=
  mkNgsiAnswer 200
    (if String.eqb text "" then None else Some (IOT_CONTENT_TYPE_JSON ++ "; charset=UTF-8")) text.

(** The two handlers differ in what they do with the content of a request of a
    service. *)
Definition answered (body : ptree -> FM Agent string) (request : ngsi_request)
    : FM Agent ngsi_answer :=
  act! text := fmcatch
    (match fiware_service request with
     | Some service =>
         act! service_ptree := get_service_by_name service (fiware_service_path request) in
         body service_ptree
     | None => fret (create_ngsi_response RESPONSE_CODE_BAD_REQUEST
                       "you need a header with Fiware-Service" "")
     end)
    (fun e => fret (exception_text e)) in
  fret (answer text).

Definition escaped_quote : string := String (ascii_of_nat 92) quote.

(** [default_op_ngsi] *)
Definition default_op_ngsi (fuel : nat) (request : ngsi_request) : FM Agent ngsi_answer :=
  answered
    (fun service_ptree =>
       act! op_updateContext := flift (UpdateContext.update_of_string fuel (ngsi_content request)) in
       act! n := reading in
       act! r := updateContext fuel op_updateContext service_ptree (uuid n) in
       fret (erase_text (ContextResponses.get_string (snd r)) escaped_quote))
    request.

(** [default_queryContext_ngsi] *)
Definition default_queryContext_ngsi (fuel : nat) (request : ngsi_request) : FM Agent ngsi_answer :=
  answered
    (fun service_ptree =>
       act! op_queryContext := flift (Some (QueryContext.of_string (ngsi_content request))) in
       act! r := queryContext fuel op_queryContext service_ptree in
       fret (ContextResponses.get_string (snd r)))
    request.

(** [transform_command] of [CommandHandle], when a protocol has none of its
    own. *)
Definition default_transform_command (command_name command_value updateCommand_value sequence_id
    : string) (item_dev : Device) (service : ptree) : FM Agent (string * ptree) :=
  if String.eqb sequence_id "" then
    act! n := reading in
    flift (CommandHandle.transform_command (uuid n) command_value updateCommand_value sequence_id pt_empty)
  else
    flift (CommandHandle.transform_command "" command_value updateCommand_value sequence_id pt_empty).
End CommandNgsi.
