(* ===== verification/CommandRegister.v ===== *)
(** * Registrations of devices: [src/src/rest/command_handle.cc]

    The agent tells the context broker which commands its devices have, and
    does it again before the broker forgets: the devices of the database, or
    those of the file, each with the service it belongs to.  A thread does a
    round and sleeps for the duration of the last registration. *)
From stdpp Require Import base tactics list gmap strings.
From Stdlib Require Import ZArith Lia Ascii String.
From S2P Require Import Prelude CppString StdMap Boost Types FuncUtil Alarm IoTUrl Json Configurator.
From S2P Require Import NgsiAttribute NgsiContext NgsiMessages NgsiRegister Iso8601 CbComm.
From S2P Require Import MultiIndex Cache Command CommandCache CommandCollection DeviceCollection.
From S2P Require Import DevFile CommandHandle Device Bson Collection RestHandle CommandService.
From S2P Require Import CommandNgsi.

Local Open Scope string_scope.
Local Open Scope Z_scope.

Section CommandRegister.
  Context `{HB : Boost} `{HJ : Rapidjson} `{HP : PropertyTree} `{HI : !PropertyTreeInt}
    `{HPI : !PropertyTreeIter} `{HR : BsonReader} `{HBJ : BsonJson} `{HM : Mongo} `{HC : Config}
    `{HN : Network} {HE : EqDecision ptree} `{CD : !Container Device}
    `{CC : !Container (Command ptree)}.
  (** the arguments of [CommandService] *)
  Context (read_json : string -> option ptree).
  Context (std_what : exn -> string) (show : document -> string).
  Context (database endpoint resource storage_type protocol : string).
  Context (complete_info : ptree -> ptree).
  Context (clock : Z -> string).
  (** [_myProvidingApp], [_services_names] and the file of devices *)
  Context (_myProvidingApp : string) (_services_names : list string) (devices_file : DevicesFile).

Local Abbreviation get_service_by_name :=
  (RestHandle.get_service_by_name read_json show database endpoint resource storage_type complete_info).
Local Abbreviation fill_service_with_bson := (RestHandle.fill_service_with_bson read_json complete_info).
Local Abbreviation find_in := (RestHandle.find_in show database endpoint).
Local Abbreviation ContextRegistration := ContextRegistration.ContextRegistration.

(** The agent, and [_reg_timeout]. *)
Local Abbreviation State := (Agent * Z)%type.

Definition in_agent {A} (c : FM Agent A) : FM State A := fun s =>
  match c (fst s) with
  | Some (a, r) => Some ((a, snd s), r)
  | None => None
  end.
Definition set_reg_timeout (t : Z) : FM State unit := fmmodify (fun s => (fst s, t)).

(** [init_services_by_resource] *)
Definition init_services_by_resource : outcome (list string) :=
  ocatch
    (let! res := getResourceObject resource in
     match res with
     | JObject ms =>
         match find_name ms "services" with
         | Some (JArray services) =>
             omapM (fun v => let! s := member v "service" in GetString s) services
         | _ => Ret []
         end
     | _ => Ret []
     end)
    (fun _ => Ret []).

(** The URL that commands are sent to: the end of [enable_ngsi_service]. *)
Definition providing_app (url_ngsi_update : string) : outcome string :=
  let my_resource :=
    match CppString.find "/updateContext" url_ngsi_update 0 with
    | Some pos => str_take pos url_ngsi_update
    | None => url_ngsi_update
    end in
  let! public_ip := get_public_ip in
  Ret ((if starts_with public_ip "http" then public_ip else "http://" ++ public_ip) ++ my_resource).

(** ** One registration *)

(** The commands of a device as attributes; a command whose text is [status]
    or [info] keeps it as its type. *)
Definition command_attributes (d : Device) : list AttributeRegister.AttributeRegister :=
  map (fun c => AttributeRegister.mkAttributeRegister (fst c)
         (if negb (String.eqb (snd c) STATUS) && negb (String.eqb (snd c) INFO)
          then COMMAND_TYPE else snd c) "false")
    (entries (Device._commands d)).

(** The registration of a device, and the device with the names it is
    registered with. *)
Definition registration_of (service_ptree : ptree) (d : Device) : ContextRegistration * Device :=
  let ent := ContextRegistration.registered_entity service_ptree d in
  let cr := ContextRegistration.add_provider
              (fst (ContextRegistration.set_env_info ContextRegistration.empty_registration
                      service_ptree (Some d))) _myProvidingApp in
  (fold_left ContextRegistration.add_attribute (command_attributes d) cr,
   ContextRegistration.set_names d ent).

Definition register_text (r : RegisterContext.RegisterContext) : string := RegisterContext.get_string r.

(** [send_register]: with an identifier, it is cancelled first, by a
    registration of one second.  The tree of the service keeps the header that
    is put in it. *)
Definition send_register (fuel : nat) (context_registrations : list ContextRegistration)
    (pt_cb : ptree) (regId : string) : FM Agent (ptree * string) :=
  let cbrokerSTR := pt_get_default pt_cb "cbroker" "" in
  act! cb_url := flift (Some (if String.eqb cbrokerSTR "" then Ret ""
                              else let! op := CommandService.get_ngsi_operation "registerContext" in
                                   Ret (cbrokerSTR ++ op))) in
  let pt_cb := pt_put pt_cb IOT_HTTP_HEADER_ACCEPT IOT_CONTENT_TYPE_JSON in
  let reg := fold_left RegisterContext.add_context_registration context_registrations
               RegisterContext.empty_register in
  let post r := on_net (CbComm.send std_what fuel "POST" cb_url (register_text r) pt_cb 200) in
  then! (if negb (String.eqb regId "")
         then act! ignored := post (RegisterContext.add_duration
                                      (RegisterContext.add_registrationId reg regId) "PT1S") in fret tt
         else fret tt) in
  act! cb_response := post (RegisterContext.add_registrationId (RegisterContext.add_duration reg "") "") in
  fret (pt_cb, cb_response).

(** [send_unregister] has no [return] after what it sends. *)
Definition send_unregister (fuel : nat) (pt_cb : ptree) (device : Device) (regId : string)
    : FM Agent ptree :=
  let cbrokerSTR := pt_get_default pt_cb "cbroker" "" in
  act! cb_url := flift (Some (if String.eqb cbrokerSTR "" then Ret ""
                              else let! op := CommandService.get_ngsi_operation "registerContext" in
                                   Ret (cbrokerSTR ++ op))) in
  let entity_typeSTR := pt_get_default pt_cb "entity_type" "" in
  let entity_type := if String.eqb entity_typeSTR "" then "thing" else entity_typeSTR in
  let entity := Entity.mkEntity (get_real_name (pt_get pt_cb) device) entity_type "false" in
  let pt_cb := pt_put pt_cb IOT_HTTP_HEADER_ACCEPT IOT_CONTENT_TYPE_JSON in
  if String.eqb _myProvidingApp UNKOWN_PROVIDING_APP then fret pt_cb
  else
    let cr := ContextRegistration.add_provider
                (ContextRegistration.add_entity ContextRegistration.empty_registration entity)
                _myProvidingApp in
    let reg := RegisterContext.add_context_registration
                 (RegisterContext.add_duration
                    (RegisterContext.add_registrationId RegisterContext.empty_register regId) "PT1S") cr in
    then! on_net (CbComm.send std_what fuel "POST" cb_url (register_text reg) pt_cb 200) in
    fret pt_cb.

(** The registration of one device: the service as it is left, and what the
    context broker answers, which also says when the next round is. *)
Definition register (fuel : nat) (cr : ContextRegistration) (service_ptree : ptree) (reg_id : string)
    : FM State (ptree * string * Z) :=
  act! r := in_agent (send_register fuel [cr] service_ptree reg_id) in
  act! resp := flift (Some (RegisterResponse.of_string (snd r))) in
  act! t := flift (Some (get_duration_seconds (RegisterResponse._duration resp))) in
  then! set_reg_timeout t in
  fret (fst r, RegisterResponse._registrationId resp, t).

(** ** The devices of the database *)

Definition with_registration (d : Device) (reg_id : string) (duration : Z) : Device :=
  mkDevice (_name d) (_protocol d) (_service d) (_service_path d) (_entity_type d) (_entity_name d)
    (_timezone d) (_endpoint d) (_attributes d) (_commands d) (_static_attributes d) (_lazy d)
    (_model d) (_active d) reg_id duration (_timestamp_data d).

(** [dev_table.updated(dev_query, dev_update)]: the query has the name and the
    service, and no path. *)
Definition save_registration (fuel : nat) (d : Device) (reg_id : string) (duration : Z)
    : FM Agent Z :=
  on_db (Collection.update database endpoint show fuel Store.DEVICE_TABLE
    (DeviceCollection.Obj2BSON (new_device (_name d) (_service d)) true)
    (DeviceCollection.Obj2BSON (with_registration (new_device "" "") reg_id duration) true) false).

(** Whether a device has something to register. *)
Definition registrable (d : Device) : bool :=
  negb (Nat.eqb (base.size (_commands d)) 0) || negb (Nat.eqb (base.size (_lazy d)) 0).

Definition register_stored (fuel : nat) (d : Device) (service_ptree : ptree)
    : FM State (ptree * string) :=
  if registrable d then
    let '(cr, _) := registration_of service_ptree (copy_device d) in
    act! r := register fuel cr service_ptree (_registration_id d) in
    let '(service_ptree, reg_id, t) := r in
    then! in_agent (save_registration fuel d reg_id t) in
    fret (service_ptree, reg_id)
  else fret (service_ptree, _registration_id d).

Fixpoint register_all (fuel : nat) (devices : list Device) (service_ptree : ptree)
    : FM State unit :=
  match devices with
  | [] => fret tt
  | d :: rest =>
      act! r := register_stored fuel d service_ptree in
      register_all fuel rest (fst r)
  end.

(** The query of [find_devices_with_commands]. *)
Definition devices_with_commands (srv service_path : string) : document :=
  [(Store.SERVICE, BStr srv); (Store.SERVICE_PATH, BStr service_path);
   (Store.PROTOCOL, BStr protocol); (Store.COMMANDS, BObj [("$exists", BStr "true")])].

Fixpoint register_services (fuel : nat) (services : list document) : FM State unit :=
  match services with
  | [] => fret tt
  | srv_resu :: rest =>
      act! service_ptree := in_agent (fill_service_with_bson srv_resu) in
      act! found := in_agent (find_in Store.DEVICE_TABLE
        (devices_with_commands (getStringField srv_resu Store.SERVICE)
           (getStringField srv_resu Store.SERVICE_PATH))) in
      then! register_all fuel (map DeviceCollection.BSON2Obj (snd found)) service_ptree in
      register_services fuel rest
  end.

(** [send_all_registrations_from_mongo]: the first exception ends it. *)
Definition send_all_registrations_from_mongo (fuel : nat) : FM State unit :=
  fmcatch
    (act! found := in_agent (find_in Store.SERVICE_TABLE [("resource", BStr resource)]) in
     register_services fuel (snd found))
    (fun _ => fret tt).

(** [send_register_device]: the state of each device is published, and the
    device is registered. *)
Fixpoint register_found (fuel : nat) (devices : list Device) (srv service_path : string)
    (device : Device) : FM State Device :=
  match devices with
  | [] => fret device
  | d :: rest =>
      act! service_ptree := in_agent (get_service_by_name srv service_path) in
      then! in_agent (CommandService.send_updateContext std_what clock fuel "" "" "" ""
                        (Some (copy_device d)) service_ptree STATUS_OP) in
      act! r := register_stored fuel d service_ptree in
      register_found fuel rest srv service_path (with_registration d (snd r) (_duration_cb d))
  end.

Fixpoint register_in_services (fuel : nat) (services : list document) (device : Device)
    : FM State unit :=
  match services with
  | [] => fret tt
  | srv_resu :: rest =>
      act! found := in_agent (find_in Store.DEVICE_TABLE (DeviceCollection.Obj2BSON device true)) in
      act! device := register_found fuel (map DeviceCollection.BSON2Obj (snd found))
                       (getStringField srv_resu Store.SERVICE)
                       (getStringField srv_resu Store.SERVICE_PATH) device in
      register_in_services fuel rest device
  end.

Definition send_register_device (fuel : nat) (device : Device) : FM State unit :=
  fmcatch
    (act! found := in_agent (find_in Store.SERVICE_TABLE
       [(Store.SERVICE, BStr (_service device)); (Store.SERVICE_PATH, BStr (_service_path device));
        (Store.RESOURCE, BStr resource)]) in
     register_in_services fuel (snd found) device)
    (fun _ => fret tt).

(** ** The devices of the file *)

(** A device is written through its pointer. *)
Definition write_device (p : ptr Device) : FM Agent unit :=
  fmmodify (fun a => with_devices
    (Cache.set_list (registeredDevices a) (write_item (Cache._list (registeredDevices a)) p)) a).

(** A device found in the cache: the names it is registered with are written
    in it, and the identifier; when the names are new, a copy replaces it. *)
Definition register_cached (fuel : nat) (p : ptr Device) (service : string) : FM State unit :=
  act! service_ptree := in_agent (get_service_by_name service "") in
  let '(cr, named) := registration_of service_ptree (snd p) in
  then! in_agent (write_device (fst p, named)) in
  act! r := register fuel cr service_ptree (_registration_id (snd p)) in
  let '(_, reg_id, _) := r in
  let registered := with_registration named reg_id (_duration_cb named) in
  then! in_agent (write_device (fst p, registered)) in
  if negb (String.eqb (_entity_name (snd p)) (_entity_name registered))
     || negb (String.eqb (_entity_type (snd p)) (_entity_type registered))
  then
    act! item_new := in_agent (new_object (copy_device registered)) in
    in_agent (fmmodify (fun a => with_devices
      (Cache.insert (Cache.remove (registeredDevices a) registered) item_new) a))
  else fret tt.

Definition string_if (v : json) (name : string) : outcome string :=
  let! has := HasMember v name in
  if has then let! m := member v name in GetString m else Ret "".

(** The names of a device of the file. *)
Definition file_names (v : json) : outcome (string * string * string) :=
  let! dev_id := string_if v Store.DEVICE_ID in
  let! service := string_if v Store.SERVICE in
  let! service_path := string_if v Store.SERVICE_PATH in
  Ret (dev_id, service, service_path).

Fixpoint register_file (fuel : nat) (devices : list json) : FM State unit :=
  match devices with
  | [] => fret tt
  | v :: rest =>
      act! names := flift (Some (file_names v)) in
      let '(dev_id, service, service_path) := names in
      act! item_dev := in_agent (RestHandle.cache_get show database endpoint storage_type
        (with_path (new_device dev_id service) service_path)) in
      then! (match item_dev with
             | Some p => if find_service_name _services_names service
                         then register_cached fuel p service else fret tt
             | None => fret tt
             end) in
      register_file fuel rest
  end.

(** [send_all_registrations] *)
Definition send_all_registrations (fuel : nat) : FM State unit :=
  if String.eqb _myProvidingApp UNKOWN_PROVIDING_APP then fret tt
  else
    fmcatch
      (act! devices := flift (Some (getDevicesObject devices_file)) in
       match devices with
       | JArray es => register_file fuel es
       | _ => fret tt
       end)
      (fun _ => fret tt).

(** ** The rounds *)

(** A turn of the loop of [make_registrations], after its sleep. *)
Definition registration_round (fuel : nat) : FM State unit :=
  then! fmmodify (fun s => if snd s =? DEFAULT_REG_TIMEOUT then (fst s, DEFAULT_REG_TIMEOUT * 600) else s) in
  fmcatch
    (act! storage := flift (Some (config_get Store.STORAGE)) in
     act! has := flift (Some (HasMember storage Store.TYPE)) in
     if has then
       act! t := flift (Some (member storage Store.TYPE)) in
       act! type_store := flift (Some (GetString t)) in
       if String.eqb type_store "mongodb" then send_all_registrations_from_mongo fuel
       else if String.eqb type_store "file" then send_all_registrations fuel
       else fret tt
     else fret tt)
    (fun _ => fret tt).
End CommandRegister.
