(* ===== verification/CommandTheorems.v ===== *)
(** * What the life of a command guarantees

    The durations of the context broker, and the theorems on
    [CommandService], [CommandNgsi] and [RestHandle]: what an update of the
    context broker does to an agent, what an answer of a device does, and what
    happens to a command that nobody answers. *)
From stdpp Require Import base tactics list gmap strings pretty.
From Stdlib Require Import ZArith Lia Ascii String.
From S2P Require Import Prelude CppString StdMap Boost Types FuncUtil Alarm IoTUrl Json Configurator.
From S2P Require Import NgsiAttribute NgsiContext NgsiMessages NgsiRegister Iso8601 CbComm.
From S2P Require Import MultiIndex Cache Command CommandCache CommandCollection DeviceCollection.
From S2P Require Import CommandHandle Device Bson Collection RestHandle CommandService CommandNgsi.

Local Open Scope string_scope.
Local Open Scope Z_scope.

(** ** Durations *)

Lemma digits_without d s : isdigit d = false -> str_forall isdigit s = true ->
  str_forall (fun c => negb (Ascii.eqb c d)) s = true.
Proof.
  intros Hd. apply str_forall_impl. intros c Hc. apply negb_true_iff, Ascii.eqb_neq.
  intros ->. congruence.
Qed.

(** The first mark that is found is the one that ends the number. *)
Lemma before_mark_digits s m seconds marks :
  str_forall isdigit s = true ->
  Forall (fun mk => exists c, fst mk = String c "" /\ isdigit c = false) marks ->
  NoDup (map fst marks) -> (String m "", seconds) ∈ marks ->
  before_mark (s ++ String m "") marks = (s, seconds).
Proof.
  intros Hs Hm Hnd Hin. induction marks as [|[mark sec] marks IH]; [by apply not_elem_of_nil in Hin|].
  apply Forall_cons_1 in Hm as [(c & Hc & Hd) Hm]. cbn in Hc. subst mark.
  cbn [map fst] in Hnd. apply NoDup_cons in Hnd as [Hni Hnd]. cbn [before_mark].
  rewrite find_char. apply elem_of_cons in Hin as [E|Hin].
  - injection E as -> ->. rewrite find_if_app.
    + by rewrite str_take_app.
    + by apply digits_without.
    + apply Ascii.eqb_refl.
  - assert (Hne : m <> c).
    { intros ->. apply Hni. apply list_elem_of_fmap. by exists (String c "", seconds). }
    rewrite (proj2 (find_if_none _ _)); [by apply IH|].
    rewrite str_forall_app, (digits_without c) by done. cbn.
    apply Ascii.eqb_neq in Hne. by rewrite Hne.
Qed.

Lemma digits_no_nul s : str_forall isdigit s = true -> no_nul s = true.
Proof. intros Hs. by apply digits_without. Qed.

Lemma atoi_digits (n : N) : Z.of_N n < 2 ^ 31 -> atoi (c_string (pretty n)) = Ret (Z.of_N n).
Proof.
  intros Hn. destruct (pretty_N_digits n) as [Hd _]. rewrite c_string_id by (by apply digits_no_nul).
  rewrite <- (atoi_pretty (Z.of_N n)) by lia. by destruct n.
Qed.

(** The seconds of [n] units. *)
Definition seconds_of (n unit : Z) : outcome Z :=
  if 0 <? n then if n * unit <? 2 ^ 31 then Ret (n * unit) else Undefined
  else Ret DEFAULT_REG_TIMEOUT.

Lemma find_PT s : str_forall (fun c => negb (Ascii.eqb c "T")) s = true ->
  CppString.find "PT" s 0 = None.
Proof.
  intros Hs. destruct (CppString.find "PT" s 0) as [n|] eqn:E; [|done].
  apply find_some in E as (a & b & -> & _). rewrite !str_forall_app in Hs.
  apply andb_true_iff in Hs as [_ Hs]. by apply andb_true_iff in Hs as [Hs _].
Qed.

Lemma before_mark_unit s marks sresu tseg :
  Forall (fun mk => 0 < snd mk) marks -> before_mark s marks = (sresu, tseg) -> 0 < tseg.
Proof.
  induction 1 as [|[mark sec] marks Hs _ IH]; cbn [before_mark]; [by intros [= _ <-]|].
  destruct (CppString.find mark s 0); [by intros [= _ <-]|exact IH].
Qed.

Lemma duration_positive sresu tseg t : 0 < tseg ->
  (if String.eqb sresu "" then Ret DEFAULT_REG_TIMEOUT
   else let! naux := atoi (c_string sresu) in
        if 0 <? naux then if naux * tseg <? 2 ^ 31 then Ret (naux * tseg) else Undefined
        else Ret DEFAULT_REG_TIMEOUT) = Ret t -> 1 <= t < 2 ^ 31.
Proof.
  intros Hs. unfold DEFAULT_REG_TIMEOUT. destruct (String.eqb sresu ""); [intros [= <-]; lia|].
  destruct (atoi (c_string sresu)) as [n|e|]; cbn [obind]; [|done..].
  destruct (0 <? n) eqn:E0; [|intros [= <-]; lia].
  destruct (n * tseg <? 2 ^ 31) eqn:E1; [|done]. breflect. intros [= <-]. nia.
Qed.

(** C39. A duration of one unit, in time or in days, is its number of seconds; none
    of the answers is less than one second or more than an [int], but a number
    of units whose seconds are not an [int] is computed by an overflow, which
    the language does not define. *)
Theorem duration_seconds (n : N) (mark : string) (unit : Z) :
  Z.of_N n < 2 ^ 31 ->
  ((mark, unit) ∈ day_marks ->
     get_duration_seconds ("PT" ++ pretty n ++ mark) = seconds_of (Z.of_N n) unit)
  /\ ((mark, unit) ∈ date_marks ->
     get_duration_seconds ("P" ++ pretty n ++ mark) = seconds_of (Z.of_N n) unit)
  /\ (forall data t, get_duration_seconds data = Ret t -> 1 <= t < 2 ^ 31).
Proof.
  intros Hn. destruct (pretty_N_digits n) as [Hd Hne].
  assert (Hmarks : forall marks, marks = day_marks \/ marks = date_marks ->
    (mark, unit) ∈ marks -> before_mark (pretty n ++ mark) marks = (pretty n, unit)
      /\ str_forall (fun c => negb (Ascii.eqb c "T")) (pretty n ++ mark) = true).
  { intros marks Hm Hin. rewrite str_forall_app, (digits_without "T") by done.
    assert (Hs : exists c, mark = String c "" /\ c <> "T"%char).
    { destruct Hm as [-> | ->]; unfold day_marks, date_marks in Hin;
        repeat (apply elem_of_cons in Hin as [E|Hin]; [injection E as -> _; by eexists|]);
        by apply not_elem_of_nil in Hin. }
    destruct Hs as (c & -> & Hc). apply Ascii.eqb_neq in Hc. split; [|cbn; by rewrite Hc].
    apply before_mark_digits; [done| | |done];
      destruct Hm as [-> | ->]; unfold day_marks, date_marks; cbn [map fst];
      [repeat constructor; by eexists..| |];
      repeat (apply NoDup_cons; split; [set_solver|]); apply NoDup_nil_2. }
  assert (Hval : forall unit', (if String.eqb (pretty n) "" then Ret DEFAULT_REG_TIMEOUT
     else let! naux := atoi (c_string (pretty n)) in
          if 0 <? naux then if naux * unit' <? 2 ^ 31 then Ret (naux * unit') else Undefined
          else Ret DEFAULT_REG_TIMEOUT) = seconds_of (Z.of_N n) unit').
  { intros u. apply String.eqb_neq in Hne. by rewrite Hne, atoi_digits. }
  split; [|split].
  - intros Hin. destruct (Hmarks day_marks (or_introl eq_refl) Hin) as [Hb _].
    unfold get_duration_seconds. rewrite (find_prefix "PT"). cbn [Nat.add append str_drop].
    rewrite Hb. apply Hval.
  - intros Hin. destruct (Hmarks date_marks (or_intror eq_refl) Hin) as [Hb Ht].
    unfold get_duration_seconds. rewrite find_PT by exact Ht.
    rewrite (find_prefix "P"). cbn [Nat.add append str_drop]. rewrite Hb. apply Hval.
  - intros data t. unfold get_duration_seconds. destruct (match CppString.find "PT" data 0 with
      | Some pos => _ | None => _ end) as [sresu tseg] eqn:E.
    apply (duration_positive sresu tseg). revert E.
    destruct (CppString.find "PT" data 0); [|destruct (CppString.find "P" data 0)].
    + apply before_mark_unit. repeat constructor.
    + apply before_mark_unit. repeat constructor.
    + by intros [= _ <-].
Qed.

(** A duration in several units counts the first mark in the order of the
    tests, and takes the number before it up to the first letter. *)
Example duration_of_units :
  get_duration_seconds "PT1H30M" = Ret 3600 /\ get_duration_seconds "P1DT2H30M" = Ret (30 * 24 * 3600).
Proof. split; reflexivity. Qed.

Lemma duration_seconds_witness :
  Z.of_N 30 < 2 ^ 31 /\ get_duration_seconds "PT30M" = Ret 1800
  /\ get_duration_seconds "P30D" = Ret 2592000.
Proof.
  assert (Hn : Z.of_N 30 < 2 ^ 31) by lia. split; [exact Hn|]. split.
  - apply (duration_seconds 30 "M" 60 Hn). by right; left.
  - apply (duration_seconds 30 "D" (24 * 3600) Hn). by do 3 right; left.
Defined.

(** ** What the operations leave alone *)

Section Kept.
  Context `{HB : Boost} `{HJ : Rapidjson} `{HP : PropertyTree} `{HI : !PropertyTreeInt}
    `{HPI : !PropertyTreeIter} `{HR : BsonReader} `{HBJ : BsonJson} `{HM : Mongo} `{HC : Config}
    `{HN : Network} {HE : EqDecision ptree} `{CD : !Container Device}
    `{CC : !Container (Command ptree)}.
  Context (read_json : string -> option ptree).
  Context (std_what : exn -> string) (show : document -> string).
  Context (database endpoint resource storage_type protocol : string).
  Context (complete_info : ptree -> ptree).
  Context (clock : Z -> string).

  Context {X : Type} (f : Agent -> X).
  Context (Hdb : forall d a, f (with_database d a) = f a).
  Context (Hdev : forall c a, f (with_devices c a) = f a).
  Context (Hcmd : forall c a, f (with_commands c a) = f a).
  Context (Hnet : forall n a, f (with_net n a) = f a).
  Context (Hupd : forall u a, f (with_update u a) = f a).
  Context (Hnext : forall p a, f (with_next p a) = f a).
  Context (Hread : forall n a, f (with_readings n a) = f a).

Lemma on_db_keeps {A} (c : FM Database A) : keeps f (on_db c).
Proof.
  intros s s' r. unfold on_db. destruct (c _) as [[d o]|]; [|done]. intros [= <- <-]. apply Hdb.
Qed.

Lemma on_net_keeps {A} (c : FM Net A) : keeps f (on_net c).
Proof.
  intros s s' r. unfold on_net. destruct (c _) as [[n o]|]; [|done]. intros [= <- <-]. apply Hnet.
Qed.

Lemma new_object_keeps {A} (x : A) : keeps f (new_object x).
Proof. intros s s' r [= <- <-]. apply Hnext. Qed.

Lemma reading_keeps : keeps f reading.
Proof. intros s s' r [= <- <-]. apply Hread. Qed.

#[local] Hint Resolve on_db_keeps on_net_keeps new_object_keeps reading_keeps : keeps.

Lemma find_in_keeps table q : keeps f (find_in show database endpoint table q).
Proof. apply on_db_keeps. Qed.
#[local] Hint Resolve find_in_keeps : keeps.

Lemma get_service_by_name_keeps name path :
  keeps f (get_service_by_name read_json show database endpoint resource storage_type complete_info
             name path).
Proof.
  unfold get_service_by_name, get_service, get_service_by_name_bbdd, get_service_bbdd,
    get_service_file, fill_service_with_bson, read_ptree. keeps_tac.
Qed.

Lemma command_from_mongo_keeps key : keeps f (command_from_mongo show database endpoint key).
Proof. unfold command_from_mongo. keeps_tac. Qed.
#[local] Hint Resolve get_service_by_name_keeps command_from_mongo_keeps : keeps.

Lemma cached_command_keeps {A} hit (search : _ -> _ -> _ * outcome A) key :
  keeps f (cached_command show database endpoint storage_type hit search key).
Proof.
  unfold cached_command. keeps_tac. intros loaded s s' r.
  destruct (search _ key) as [c o]. intros [= <- <-]. apply Hcmd.
Qed.

Lemma send_keeps ce op service : keeps f (CommandService.send std_what ce op service).
Proof. unfold CommandService.send. keeps_tac. apply keeps_modify. intros. apply Hupd. Qed.
#[local] Hint Resolve cached_command_keeps send_keeps : keeps.

Lemma add_all_keeps fuel name atts ce : keeps f (add_all clock fuel name atts ce).
Proof. revert ce. induction atts as [|[[att type] v] atts IH]; intros ce; cbn [add_all]; keeps_tac. Qed.
#[local] Hint Resolve add_all_keeps : keeps.

Lemma publish_keeps fuel ce d service op : keeps f (publish std_what clock fuel ce d service op).
Proof. unfold publish. keeps_tac. Qed.
#[local] Hint Resolve publish_keeps : keeps.

Lemma send_updateContext_keeps fuel name att type value d service op :
  keeps f (CommandService.send_updateContext std_what clock fuel name att type value d service op).
Proof. unfold CommandService.send_updateContext. keeps_tac. Qed.

Lemma send_updateContext_info_keeps fuel name status info d service op :
  keeps f (send_updateContext_info std_what clock fuel name status info d service op).
Proof. unfold send_updateContext_info. keeps_tac. Qed.
#[local] Hint Resolve send_updateContext_keeps send_updateContext_info_keeps : keeps.

Lemma send_status_keeps fuel name status d service :
  keeps f (send_status std_what clock fuel name status d service).
Proof. apply send_updateContext_keeps. Qed.

Lemma commands_keeps c : keeps f (fmmodify (fun a => with_commands (c a) a)).
Proof. apply keeps_modify. intros. apply Hcmd. Qed.
#[local] Hint Resolve send_status_keeps commands_keeps : keeps.

Lemma remove_command_keeps fuel id service path :
  keeps f (remove_command show database endpoint storage_type fuel id service path).
Proof. unfold remove_command. keeps_tac. Qed.

Lemma save_command_keeps fuel name id timeout line d type a_endpoint service sequence status :
  keeps f (save_command show database endpoint storage_type fuel name id timeout line d type a_endpoint
             service sequence status).
Proof. unfold save_command. keeps_tac. Qed.
#[local] Hint Resolve remove_command_keeps save_command_keeps : keeps.

Lemma process_command_response_keeps fuel cmd code resp :
  keeps f (process_command_response std_what show database endpoint storage_type clock fuel cmd code resp).
Proof. unfold process_command_response, get_command, update_delivered, deliver_in_cache. keeps_tac. Qed.
End Kept.

(** ** Commands of the context broker and answers of devices *)

Section Effects.
  Context `{HB : Boost} `{HJ : Rapidjson} `{HP : PropertyTree} `{HI : !PropertyTreeInt}
    `{HPI : !PropertyTreeIter} `{HR : BsonReader} `{HBJ : BsonJson} `{HM : Mongo} `{HC : Config}
    `{HN : Network} {HE : EqDecision ptree} `{CD : !Container Device}
    `{CC : !Container (Command ptree)}.
  Context (read_json : string -> option ptree).
  Context (std_what : exn -> string) (show : document -> string).
  Context (database endpoint resource storage_type protocol : string).
  Context (complete_info : ptree -> ptree).
  Context (clock uuid : Z -> string) (log_debug _callback : bool).
  Context (transform_command : string -> string -> string -> string -> Device -> ptree ->
             FM Agent (string * ptree)).
  Context (execute_command : execution -> FM Agent (Z * string)).

(** One update is sent, or none and something is thrown. *)
Definition sent_one (us : list update) (action : string) (service : ptree) (r : outcome unit)
    (a : Agent) : Prop :=
  (exists ce, updates a = (us ++ [mkUpdate ce action service])%list) \/ (updates a = us /\ r <> Ret tt).

Lemma sent_none us action service r a : updates a = us -> r <> Ret tt -> sent_one us action service r a.
Proof. by right. Qed.

Lemma send_once us ce action service :
  runs (fun a => updates a = us) (CommandService.send std_what ce action service)
    (sent_one us action service).
Proof.
  unfold CommandService.send. apply keeps_then; [keeps_tac| |by intros; apply sent_none..]. intros url.
  apply (runs_bind _ (fun _ a => updates a = us ++ [mkUpdate ce action service])%list).
  - apply runs_modify. by intros a <-.
  - intros _. eapply runs_post; [apply keeps_runs, on_net_keeps; reflexivity|].
    intros r a Ha. left. by exists ce.
  - intros e a Ha. left. by exists ce.
  - intros a Ha. left. by exists ce.
Qed.

Lemma publish_once us fuel ce d action service :
  runs (fun a => updates a = us) (publish std_what clock fuel ce (Some d) service action)
    (sent_one us action service).
Proof.
  unfold publish.
  do 2 (apply keeps_then; [by apply reading_keeps| |by intros; apply sent_none..]; intros ?;
        apply keeps_then; [keeps_tac| |by intros; apply sent_none..]; intros ?).
  apply send_once.
Qed.

Lemma status_once us fuel name att type value d service op :
  runs (fun a => updates a = us)
    (CommandService.send_updateContext std_what clock fuel name att type value (Some d) service op)
    (sent_one us op service).
Proof.
  unfold CommandService.send_updateContext.
  apply keeps_then; [|intros; apply publish_once|by intros; apply sent_none..].
  keeps_tac. by apply add_all_keeps.
Qed.

Lemma info_once us fuel name status info d service op :
  runs (fun a => updates a = us)
    (send_updateContext_info std_what clock fuel name status info d service op)
    (sent_one us op service).
Proof.
  unfold send_updateContext_info.
  apply keeps_then; [by apply add_all_keeps|intros; apply publish_once|by intros; apply sent_none..].
Qed.

Local Abbreviation process_command_response :=
  (CommandService.process_command_response std_what show database endpoint storage_type clock).
Local Abbreviation updateCommand :=
  (CommandService.updateCommand std_what show database endpoint storage_type clock _callback
     transform_command execute_command).

(** The key of the command that is answered. *)
Definition answered_key (cmd : CommandData) : Command ptree :=
  command_key (command_id cmd) (pt_get_default (CommandService.service cmd) Store.SERVICE "")
    (pt_get_default (CommandService.service cmd) Store.SERVICE_PATH "").

(** What an answer with a code other than 202 leaves: the cache without the
    command, and one update. *)
Definition closed (us : list update) (c : CommandCache.CommandCache) (cmd : CommandData)
    (r : outcome unit) (a : Agent) : Prop :=
  m_asyncCommands a = CommandCache.remove c (answered_key cmd)
  /\ ((exists u, updates a = (us ++ [u])%list /\ u_service u = CommandService.service cmd)
      \/ (updates a = us /\ r <> Ret tt)).

Lemma remove_command_effect us c fuel id service path :
  runs (fun a => (updates a, m_asyncCommands a) = (us, c))
    (remove_command show database endpoint storage_type fuel id service path)
    (fun _ a => (updates a, m_asyncCommands a) = (us, CommandCache.remove c (command_key id service path))).
Proof.
  unfold remove_command. cbv zeta.
  apply (runs_bind _ (fun _ a => (updates a, m_asyncCommands a)
    = (us, CommandCache.remove c (command_key id service path)))); [| |done|done].
  - apply runs_modify. by intros a [= <- <-].
  - intros _. apply (keeps_runs (fun a => (updates a, m_asyncCommands a))).
    destruct (mongodb _); [by apply on_db_keeps|keeps_tac].
Qed.

Lemma closed_update us c cmd (send : FM Agent unit) op :
  runs (fun a => updates a = us) send (sent_one us op (CommandService.service cmd)) ->
  keeps m_asyncCommands send ->
  runs (fun a => (updates a, m_asyncCommands a) = (us, CommandCache.remove c (answered_key cmd))) send
    (closed us c cmd).
Proof.
  intros Hs Hk a a' r [= Hu Hc] E. split.
  - rewrite <- Hc. by eapply Hk.
  - destruct (Hs a a' r Hu E) as [[ce Hce]|]; [left; by eexists|by right].
Qed.


Context (Htransform : forall n v p q d s, keeps executions (transform_command n v p q d s))
  (Hexecute : forall x, keeps executions (execute_command x)).

Lemma getCommandLine_keeps name params sequence d service :
  keeps executions (getCommandLine transform_command name params sequence d service).
Proof. unfold getCommandLine. keeps_tac. Qed.

(** The call that sends a command to its device. *)
Definition call_of (d : Device) (service : ptree) (x : execution) : Prop :=
  x_device x = d /\ x_endpoint x = _endpoint d /\ x_service x = service
  /\ get_timeout_commands = Ret (x_timeout x).

Lemma execute_once xs fuel cmd :
  runs (fun a => executions a = xs)
    (execute std_what show database endpoint storage_type clock _callback execute_command fuel cmd)
    (fun _ a => executions a = xs ++ [mkExecution (_endpoint (item_dev cmd)) (command_id cmd)
       (command_to_send cmd) (timeout cmd) (item_dev cmd) (CommandService.service cmd)])%list.
Proof.
  unfold execute. cbv zeta. set (x := mkExecution _ _ _ _ _ _).
  apply (runs_catch _ (fun _ a => executions a = xs ++ [x])%list); [| |done|done].
  - apply (runs_bind _ (fun _ a => executions a = xs ++ [x])%list); [| |done|done].
    + apply runs_modify. by intros a <-.
    + intros _. apply keeps_runs. apply keeps_bind; [done|]. intros r.
      destruct _callback; [keeps_tac|]. by apply process_command_response_keeps.
  - intros e. apply keeps_runs. destruct (runtime_what e); keeps_tac.
Qed.

End Effects.

(** ** What the context broker is answered *)

(** [c] never throws, and what it returns has [Q]. *)
Definition answers {S A} (c : FM S A) (Q : A -> Prop) : Prop :=
  runs (fun _ => True) c (fun r _ => match r with Ret a => Q a | Throw _ => False | Undefined => True end).

Lemma answers_ret {S A} (a : A) (Q : A -> Prop) : Q a -> answers (S := S) (fret a) Q.
Proof. intros HQ. by apply runs_ret. Qed.

Lemma answers_bind {S A B} (c : FM S A) (k : A -> FM S B) (P : A -> Prop) (Q : B -> Prop) :
  answers c P -> (forall a, P a -> answers (k a) Q) -> answers (fmbind c k) Q.
Proof.
  intros Hc Hk. eapply runs_bind; [exact Hc| |done|done].
  intros a s s' r HP E. by eapply (Hk a HP s s' r I).
Qed.

Lemma answers_try {S A B} (c : FM S A) (k : A + exn -> FM S B) (Q : B -> Prop) :
  (forall x, answers (k x) Q) -> answers (fmbind (fmtry c) k) Q.
Proof.
  intros Hk. apply (answers_bind _ _ (fun _ => True)); [|auto].
  intros s s' r _ E. unfold fmtry in E.
  destruct (c s) as [[s1 [a|e|]]|]; try done; by injection E as <- <-.
Qed.

Section Answers.
  Context `{HB : Boost} `{HJ : Rapidjson} `{HP : PropertyTree} `{HI : !PropertyTreeInt}
    `{HPI : !PropertyTreeIter} `{HR : BsonReader} `{HBJ : BsonJson} `{HM : Mongo} `{HC : Config}
    `{HN : Network} {HE : EqDecision ptree} `{CD : !Container Device}
    `{CC : !Container (Command ptree)}.
  Context (read_json : string -> option ptree).
  Context (std_what : exn -> string) (show : document -> string).
  Context (database endpoint resource storage_type protocol : string).
  Context (complete_info : ptree -> ptree).
  Context (clock uuid : Z -> string) (_callback : bool).
  Context (transform_command : string -> string -> string -> string -> Device -> ptree ->
             FM Agent (string * ptree)).
  Context (execute_command : execution -> FM Agent (Z * string)).
  Context (erase_text : string -> string -> string).

Local Abbreviation update_commands :=
  (CommandNgsi.update_commands std_what show database endpoint storage_type clock _callback
     transform_command execute_command).
Local Abbreviation updateContext :=
  (CommandNgsi.updateContext std_what show database endpoint storage_type protocol clock _callback
     transform_command execute_command).
Local Abbreviation response := ContextResponse.ContextResponse.

(** The response keeps its element, and when it is written its code is the
    code of the whole. *)
Definition written (r r' : Z * response) : Prop :=
  ContextResponse._context_element (snd r') = ContextResponse._context_element (snd r)
  /\ (r' = r \/ ContextResponse._code (snd r') = lexical_cast (fst r')).

Lemma written_trans r1 r2 r3 : written r1 r2 -> written r2 r3 -> written r1 r3.
Proof.
  intros [E1 H1] [E2 H2]. split; [congruence|]. destruct H2 as [->|H2]; [exact H1|by right].
Qed.

Lemma failed_written e (r : Z * response) : written r (failed std_what e (snd r)).
Proof. destruct e; (split; [reflexivity|right; reflexivity]). Qed.

Lemma update_commands_written fuel atts d type sequence service : forall r,
  answers (update_commands fuel atts d type sequence service r) (fun x => written r (fst x)).
Proof.
  induction atts as [|att atts IH]; intros r; cbn [CommandNgsi.update_commands].
  - apply answers_ret. split; [done|by left].
  - assert (Hgo : forall r', written r r' ->
      answers (update_commands fuel atts d type sequence service r') (fun x => written r (fst x))).
    { intros r' Hr. eapply runs_post; [apply IH|]. intros [x|e|] s; [|done..].
      intros Hx. by apply (written_trans r r'). }
    destruct (String.eqb _ _); [|apply Hgo; split; [done|by right]].
    apply answers_try. intros [[]|e].
    + apply Hgo. split; [done|by left].
    + destruct e; try (apply answers_ret; split; [done|by left]). apply Hgo. apply failed_written.
Qed.

Lemma update_element_written fuel entity service_ptree sequence code :
  answers
    (update_element std_what show database endpoint storage_type protocol clock _callback
       transform_command execute_command fuel entity service_ptree sequence code)
    (written (code, ContextResponse.add_context_element ContextResponse.default_response entity)).
Proof.
  unfold update_element. cbv zeta. apply answers_try. intros [item_dev|e].
  - eapply answers_bind; [apply update_commands_written|]. intros [r [e|]] Hr; apply answers_ret.
    + eapply written_trans; [exact Hr|apply failed_written].
    + exact Hr.
  - apply answers_ret. apply (failed_written e (code, _)).
Qed.

(** What is true of the responses so far, and of their code. *)
Definition answered_each (ces : list ContextElement) (x : Z * list response) : Prop :=
  map ContextResponse._context_element (snd x) = ces
  /\ (fst x = 200 \/ exists r, r ∈ snd x /\ ContextResponse._code r = lexical_cast (fst x)).

Lemma update_elements_answered fuel service_ptree sequence entities : forall before code responses,
  answered_each before (code, responses) ->
  answers
    (update_elements std_what show database endpoint storage_type protocol clock _callback
       transform_command execute_command fuel entities service_ptree sequence code responses)
    (answered_each (before ++ entities)).
Proof.
  induction entities as [|e entities IH]; intros before code responses [Hm Hc]; cbn [update_elements].
  - rewrite app_nil_r. by apply answers_ret.
  - eapply answers_bind; [apply update_element_written|]. intros [code' r] [He Hr].
    cbn [fst snd] in *. replace (before ++ e :: entities)%list with ((before ++ [e]) ++ entities)%list
      by (by rewrite <- app_assoc). apply IH. split; cbn [fst snd].
    + unfold ContextResponses.add_context_response. rewrite map_app, Hm. cbn. by rewrite He.
    + unfold ContextResponses.add_context_response. destruct Hr as [[= -> ->]|Hr].
      * destruct Hc as [->|(r0 & Hin & Hr0)]; [by left|]. right. exists r0.
        split; [|done]. apply elem_of_app. by left.
      * right. exists r. split; [|done]. apply elem_of_app. right. by left.
Qed.

End Answers.
