(* ===== verification/CommandEnds.v ===== *)
(** * Where the command service ends

    The calls of the agent that end, whatever the state and whatever fails: the
    query of a context broker always, and the update of a command when the
    mappings of its device lead nowhere else, the plug-in ends, and the
    database does not lose the connection of its user in an update. *)
From stdpp Require Import base tactics list gmap strings.
From Stdlib Require Import ZArith Lia Ascii String.
From S2P Require Import Prelude CppString StdMap Boost Types FuncUtil Alarm IoTUrl Json Configurator.
From S2P Require Import NgsiAttribute NgsiContext NgsiMessages NgsiRegister Iso8601 CbComm.
From S2P Require Import MultiIndex Cache Command CommandCache CommandCollection DeviceCollection.
From S2P Require Import CommandHandle Device Bson Collection RestHandle CommandService CommandNgsi.
From S2P Require Import CommandTheorems.

Local Open Scope string_scope.
Local Open Scope Z_scope.

(** ** Mappings that are followed once *)

Section Mappings.
  Context `{HB : Boost} `{HJ : Rapidjson} `{HP : PropertyTree}.

(** No name that an attribute is mapped to has a mapping of its own. *)
Definition settled_by (mapping : string -> string) : Prop :=
  forall name d a m, json_parse (c_string (mapping name)) = Some d ->
    mapped_attribute a d = Ret m -> mapping (get_name m) = "".

(** The mapping of a name for a service and a device. *)
Definition mapping_of (service : ptree) (dev : option Device) (name : string) : string :=
  mapping_text (mkContextElement "" "" "" [] service dev) name.

(** The name of a mapped attribute is the one its mapping gives. *)
Lemma mapped_name a d m : mapped_attribute a d = Ret m ->
  exists att, attribute_of_json d = Ret att /\ get_name m = get_name (new_attribute (get_name att) "" "").
Proof.
  assert (Hmeta : forall l b, get_name (fold_left add_metadata l b) = get_name b).
  { induction l as [|x l IH]; intros b; cbn [fold_left]; [done|]. rewrite IH. by destruct b. }
  assert (Hval : forall v b, get_name (set_value b v) = get_name b) by (intros v [] ; done).
  assert (Hcomp : forall l b, get_name (fold_left (fun m v => add_value_compound m v false) l b) = get_name b).
  { induction l as [|x l IH]; intros b; cbn [fold_left]; [done|]. rewrite IH. by destruct b. }
  assert (Hadd : forall b x, get_name (add_metadata b x) = get_name b) by (intros [] x; done).
  unfold mapped_attribute. destruct (attribute_of_json d) as [att|e|]; [|done..]. cbn [obind].
  intros [= <-]. exists att. split; [done|]. rewrite !Hmeta. unfold new_attribute. cbn [get_name].
  repeat (match goal with |- context [if ?b then _ else _] => destruct b end);
    rewrite ?Hcomp, ?Hadd, ?Hval; done.
Qed.

(** What it gives is an element that shows the same. *)
Definition settles (ce : ContextElement) (c : fueled ContextElement) : Prop :=
  exists o, c = Some o /\ forall ce', o = Ret ce' -> same_view ce ce'.

Lemma settles_id ce : settles ce (Some (Ret ce)).
Proof. exists (Ret ce). split; [done|]. by intros ce' [= <-]. Qed.

Lemma settles_throw ce o : (forall ce', o <> Ret ce') -> settles ce (Some o).
Proof. intros Ho. exists o. split; [done|]. intros ce' ->. by destruct (Ho ce'). Qed.

Lemma settles_bind ce c k :
  settles ce c -> (forall ce', same_view ce ce' -> settles ce' (k ce')) -> settles ce (fbind c k).
Proof.
  intros (o & -> & Ho) Hk. destruct o as [ce1|e|]; cbn [fbind]; [|by apply settles_throw..].
  specialize (Ho ce1 eq_refl). destruct (Hk ce1 Ho) as (o & E & Ho'). exists o. split; [done|].
  intros ce' ->. etransitivity; [exact Ho|by apply Ho'].
Qed.

Lemma settled_view ce ce' :
  same_view ce ce' -> settled_by (mapping_text ce) -> settled_by (mapping_text ce').
Proof. intros (_ & _ & _ & _ & Hm) Hs name d a m. rewrite !Hm. by apply Hs. Qed.

(** Two units of fuel are enough: one for the attribute, one for the attribute
    it is mapped to. *)
Lemma add_attribute_settles fuel ce a :
  (2 <= fuel)%nat -> settled_by (mapping_text ce) -> settles ce (add_attribute fuel ce a).
Proof.
  intros Hf Hs. destruct fuel as [|[|fuel]]; [lia..|]. rewrite add_attribute_S.
  destruct (find_mapping_view ce (get_name a)) as [Hv _].
  destruct (empty_value _); [apply settles_id|].
  destruct (negb _); [|exists (Ret (push_attribute (fst (find_mapping ce (get_name a))) (default_type a)));
    split; [done|]; intros ce' [= <-]; etransitivity; [exact Hv|apply push_attribute_view]].
  destruct (json_parse _) as [d|] eqn:Ep;
    [|exists (Ret (fst (find_mapping ce (get_name a)))); split; [done|]; by intros ce' [= <-]].
  destruct (mapped_attribute (default_type a) d) as [m|e|] eqn:Em; cbn [fbind];
    [|by apply settles_throw..].
  pose proof (Hs _ _ _ _ Ep Em) as Hm. rewrite add_attribute_S.
  assert (Hm' : mapping_text (fst (find_mapping ce (get_name a))) (get_name m) = "")
    by (by rewrite (proj2 (proj2 (proj2 (proj2 Hv))))).
  destruct (find_mapping_view (fst (find_mapping ce (get_name a))) (get_name m)) as [Hv2 _].
  destruct (empty_value _); [exists (Ret (fst (find_mapping ce (get_name a)))); split; [done|];
    by intros ce' [= <-]|].
  rewrite Hm'. cbn [String.eqb negb]. eexists. split; [done|]. intros ce' [= <-].
  etransitivity; [exact Hv|]. etransitivity; [exact Hv2|apply push_attribute_view].
Qed.

Lemma add_device_static_settles fuel ts statics : (2 <= fuel)%nat -> forall ce,
  settled_by (mapping_text ce) -> settles ce (add_device_static fuel ts ce statics).
Proof.
  intros Hf. induction statics as [|[k text] statics IH]; intros ce Hs; cbn [add_device_static];
    [apply settles_id|].
  apply settles_bind; [|intros ce' Hv; by eapply IH, settled_view].
  destruct (json_parse _) as [d|]; [|apply settles_id].
  destruct (attribute_of_json d); cbn [fbind]; [|by apply settles_throw..].
  by apply add_attribute_settles.
Qed.

Lemma add_service_static_settles fuel ts statics : (2 <= fuel)%nat -> forall ce,
  settled_by (mapping_text ce) -> settles ce (add_service_static fuel ts ce statics).
Proof.
  intros Hf. induction statics as [|[k v] statics IH]; intros ce Hs; cbn [add_service_static];
    [apply settles_id|].
  apply settles_bind; [|intros ce' Hv; by eapply IH, settled_view].
  destruct (_ && _); [|apply settles_id]. destruct (nonempty _); [|apply settles_id].
  destruct (json_parse _) as [d|]; [|apply settles_id].
  destruct (attribute_of_json d); cbn [fbind]; [|by apply settles_throw..].
  by apply add_attribute_settles.
Qed.

(** The mapping of a name depends on the service and the device only. *)
Lemma mapping_of_element ce name :
  mapping_text ce name = mapping_of (_service_info ce) (_device_info ce) name.
Proof.
  unfold mapping_of, mapping_text, find_mapping. destruct ce as [i t p a s dev].
  cbn [_service_info _device_info set_device].
  destruct dev as [d|]; cbn [_device_info].
  - destruct (get_attribute d name) as [d' m]. cbn.
    destruct (String.eqb m ""); [by destruct (pt_get_child s _)|done].
  - cbn. by destruct (pt_get_child s _).
Qed.

Lemma set_env_info_ends fuel ts ce service dev :
  (2 <= fuel)%nat -> settled_by (mapping_of service dev) ->
  set_env_info fuel ts ce service dev <> None.
Proof.
  intros Hf Hs. unfold set_env_info. set (ce0 := format _).
  assert (Hs0 : settled_by (mapping_text ce0)).
  { intros name d a m. rewrite !mapping_of_element.
    replace (_service_info ce0) with service by (unfold ce0, format; by destruct dev).
    replace (_device_info ce0) with dev by (unfold ce0, format; by destruct dev).
    apply Hs. }
  destruct (settles_bind ce0
    (match dev with
     | Some d => add_device_static fuel ts ce0 (in_order (_static_attributes d))
     | None => Some (Ret ce0) end)
    (fun ce => match pt_get_child service Store.STATIC_ATTRIBUTES with
               | Some statics => add_service_static fuel ts ce statics
               | None => Some (Ret ce) end)) as (o & -> & _); [| |done].
  - destruct dev; [by apply add_device_static_settles|apply settles_id].
  - intros ce' Hv. destruct (pt_get_child _ _); [|apply settles_id].
    by eapply add_service_static_settles, settled_view.
Qed.

(** An element without a service and a device has no mappings. *)
Definition bare (ce : ContextElement) : Prop := forall name, mapping_text ce name = "".

Lemma bare_settled ce : bare ce -> settled_by (mapping_text ce).
Proof. intros Hb name d a m _ _. apply Hb. Qed.

Lemma bare_new `{HPL : !PropertyTreeLaws HP} ce :
  _service_info ce = pt_empty -> _device_info ce = None -> bare ce.
Proof.
  intros Es Ed name. rewrite mapping_of_element, Es, Ed. unfold mapping_of, mapping_text, find_mapping.
  cbn. by rewrite pt_get_child_empty.
Qed.

Lemma add_attribute_bare fuel ce a : (2 <= fuel)%nat -> bare ce ->
  exists o, add_attribute fuel ce a = Some o /\ forall ce', o = Ret ce' -> bare ce'.
Proof.
  intros Hf Hb. destruct (add_attribute_settles fuel ce a Hf (bare_settled _ Hb)) as (o & E & Ho).
  exists o. split; [done|]. intros ce' -> name.
  by rewrite (proj2 (proj2 (proj2 (proj2 (Ho ce' eq_refl))))).
Qed.
End Mappings.

(** ** The calls of an agent *)

Section Ends.
  Context `{HB : Boost} `{HJ : Rapidjson} `{HP : PropertyTree} `{HI : !PropertyTreeInt}
    `{HPI : !PropertyTreeIter} `{HR : BsonReader} `{HBJ : BsonJson} `{HM : Mongo} `{HC : Config}
    `{HN : Network} {HE : EqDecision ptree} `{CD : !Container Device}
    `{CC : !Container (Command ptree)}.
  Context `{HPL : !PropertyTreeLaws HP}.
  Context (read_json : string -> option ptree).
  Context (std_what : exn -> string) (show : document -> string).
  Context (database endpoint resource storage_type protocol : string).
  Context (complete_info : ptree -> ptree).
  Context (clock uuid : Z -> string) (_callback : bool).
  Context (transform_command : string -> string -> string -> string -> Device -> ptree ->
             FM Agent (string * ptree)).
  Context (execute_command : execution -> FM Agent (Z * string)).
  Context (erase_text : string -> string -> string).

Lemma on_db_ends {A} (c : FM Database A) : ends c -> ends (on_db c).
Proof. intros Hc a. unfold on_db. specialize (Hc (mkDatabase (a_conn a) (a_alarms a))). by destruct (c _) as [[d r]|]. Qed.

Lemma on_net_ends {A} (c : FM Net A) : ends c -> ends (on_net c).
Proof. intros Hc a. unfold on_net. specialize (Hc (mkNet (a_outside a) (a_alarms a) (a_in_flight a))). by destruct (c _) as [[d r]|]. Qed.

Lemma new_object_ends {A} (x : A) : ends (new_object x).
Proof. done. Qed.
Lemma reading_ends : ends reading.
Proof. done. Qed.
#[local] Hint Resolve on_db_ends on_net_ends new_object_ends reading_ends : ends.

Lemma call_ends {A} (c : db -> db * Bson.answer A) : ends (call c).
Proof. intros s. unfold call. by destruct (c (conn s)). Qed.
#[local] Hint Resolve call_ends : ends.

Lemma find_ends a q limit skip order : ends (Collection.find database endpoint show a q limit skip order).
Proof. unfold Collection.find. ends_tac. intros s. by apply handlers_ends. Qed.

Lemma find_in_ends table q : ends (find_in show database endpoint table q).
Proof. apply on_db_ends, find_ends. Qed.
#[local] Hint Resolve find_in_ends : ends.

Lemma get_service_by_name_ends name path :
  ends (get_service_by_name read_json show database endpoint resource storage_type complete_info name path).
Proof.
  unfold get_service_by_name, get_service, get_service_by_name_bbdd, get_service_bbdd,
    get_service_file, fill_service_with_bson, read_ptree. ends_tac.
Qed.

Lemma get_func_ends key : ends (get_func show database endpoint key).
Proof. unfold get_func. ends_tac. Qed.
#[local] Hint Resolve get_service_by_name_ends get_func_ends : ends.

Lemma cached_ends hit search key : ends (cached show database endpoint storage_type hit search key).
Proof.
  unfold cached. apply ends_bind; [done|intros a0]. apply ends_bind; [ends_tac|intros loaded]. intros a. by destruct (search _ _).
Qed.
#[local] Hint Resolve cached_ends : ends.

Lemma get_device_by_entity_ends name type service path :
  ends (get_device_by_entity show database endpoint storage_type protocol name type service path).
Proof.
  unfold get_device_by_entity, second_search, cache_get_by_entity, cache_get, active_or. ends_tac.
Qed.
#[local] Hint Resolve get_device_by_entity_ends : ends.

(** *** Queries *)

Lemma add_commands_ends fuel commands : (2 <= fuel)%nat -> forall ce, bare ce ->
  add_commands fuel commands ce <> None.
Proof.
  intros Hf. induction commands as [|[name value] commands IH]; intros ce Hb; cbn [add_commands]; [done|].
  destruct (add_attribute_bare fuel ce (new_attribute name "command"
    (if String.eqb value "" then " " else value)) Hf Hb) as (o & -> & Ho).
  destruct o as [ce'|e|]; cbn [fbind]; [|done..]. apply IH. by apply Ho.
Qed.

Lemma flift_ends {S A} (c : fueled A) : c <> None -> ends (S := S) (flift c).
Proof. intros Hc s. unfold flift. by destruct c. Qed.

Lemma query_entities_ends fuel entities service path : (2 <= fuel)%nat -> forall code responses,
  ends (query_entities std_what show database endpoint storage_type protocol fuel entities service path
          code responses).
Proof.
  intros Hf. induction entities as [|e entities IH]; intros code responses; cbn [query_entities]; [done|].
  apply ends_bind; [|intros r; apply IH]. unfold query_entity. ends_tac.
  intros dev. apply flift_ends, add_commands_ends; [done|]. by apply bare_new.
Qed.

(** An answer of the handlers: status 200 and a JSON body. *)
Definition answered_ok (a : ngsi_answer) : Prop :=
  ngsi_status a = 200
  /\ ngsi_content_type a = (if String.eqb (ngsi_body a) "" then None
                            else Some (IOT_CONTENT_TYPE_JSON ++ "; charset=UTF-8")).

Lemma answered_with body request :
  answers (answered read_json std_what show database endpoint resource storage_type complete_info body
             request) answered_ok.
Proof.
  unfold answered. eapply (answers_bind _ _ (fun _ => True)).
  - intros a a' r _ E. unfold fmcatch in E.
    destruct ((match fiware_service request with _ => _ end) a) as [[a1 [t|e|]]|]; try done;
      by injection E as <- <-.
  - intros t _. by apply answers_ret.
Qed.


(** *** Commands *)

Lemma insert_ends fuel table data retry : (2 <= fuel)%nat -> 0 <= retry ->
  ends (Collection.insert database endpoint show fuel table data retry).
Proof.
  intros Hf Hr. destruct fuel as [|[|fuel]]; [lia..|]. cbn [Collection.insert].
  apply ends_bind; [ends_tac|intros r]. destruct r as [le|e]; [done|].
  intros s. apply handlers_ends. intros _. revert s. cbn [Collection.insert].
  apply ends_bind; [ends_tac|intros r]. destruct r as [le|e']; [done|].
  intros s. apply handlers_ends. unfold MAX_RETRY. lia.
Qed.

Lemma remove_ends fuel table query retry : (2 <= fuel)%nat -> 0 <= retry ->
  ends (Collection.remove database endpoint show fuel table query retry).
Proof.
  intros Hf Hr. destruct fuel as [|[|fuel]]; [lia..|]. cbn [Collection.remove].
  apply ends_bind; [ends_tac|intros r]. destruct r as [le|e]; [intros s; apply getLastError_ends|].
  intros s. apply handlers_ends. intros _. revert s.
  apply ends_bind; [|ends_tac]. cbn [Collection.remove].
  apply ends_bind; [ends_tac|intros r]. destruct r as [le|e']; [intros s; apply getLastError_ends|].
  intros s. apply handlers_ends. unfold MAX_RETRY. lia.
Qed.

Lemma async_send_ends method url content ai code :
  ends (async_send std_what method url content ai code).
Proof.
  unfold async_send, no_cb_alarm. ends_tac. apply prepare_ends.
Qed.

Lemma send_ends' ce op service : ends (CommandService.send std_what ce op service).
Proof. unfold CommandService.send. ends_tac. intros _. apply on_net_ends, async_send_ends. Qed.
#[local] Hint Resolve send_ends' : ends.

Lemma add_all_yields fuel name atts : (2 <= fuel)%nat -> forall ce, bare ce ->
  yields (add_all clock fuel name atts ce) bare.
Proof.
  intros Hf. induction atts as [|[[att type] v] atts IH]; intros ce Hb; cbn [add_all];
    [by apply yields_ret|].
  apply (yields_bind _ _ (fun _ => True)); [intros s; by eexists _, _|intros n _].
  apply (yields_bind _ _ bare); [|intros ce'; apply IH].
  apply yields_lift. by apply add_attribute_bare.
Qed.

(** The parameters of a command are replaced in one turn for each mark. *)
Lemma replace_params_ends cv params n : forall i found1 result,
  (String.length cv < n + found1)%nat -> (0 < n)%nat ->
  replace_params n cv params i found1 (CppString.find "%s" cv found1) result <> None.
Proof.
  induction n as [|n IH]; intros i found1 result Hl Hn; [lia|]. cbn [replace_params].
  destruct (CppString.find "%s" cv found1) as [p|] eqn:E; [|by destruct (substr _ _ _)].
  rewrite find_drop in E. destruct (CppString.find "%s" (str_drop found1 cv) 0) as [k|] eqn:Ek; [|done].
  injection E as <-. apply find_some in Ek as (a & b & Eab & <-).
  assert (Hk : (found1 + String.length a + 2 <= String.length cv)%nat).
  { pose proof (f_equal String.length Eab) as El. rewrite str_length_drop, !str_length_app in El.
    cbn in El. lia. }
  destruct (substr cv found1 _); cbn [fbind]; [|done..]. destruct (vix params i); cbn [fbind]; [|done..].
  apply IH; lia.
Qed.

Lemma transform_command_ends u cv value seq line :
  CommandHandle.transform_command u cv value seq line <> None.
Proof.
  unfold CommandHandle.transform_command. destruct (negb _); [|done]. destruct (String.eqb cv RAW); [done|].
  destruct (_ =? 0); [done|]. destruct (_ <? _); [done|].
  pose proof (replace_params_ends cv (split "|" value) (S (String.length cv)) 0 0 "" ltac:(lia) ltac:(lia)) as H.
  by destruct (replace_params _ _ _ _ _ _ _) as [[r|e|]|].
Qed.

Lemma default_transform_ends name value text seq dev srv :
  ends (default_transform_command uuid name value text seq dev srv).
Proof.
  unfold default_transform_command. ends_tac; [intros n|];
    apply flift_ends; apply transform_command_ends.
Qed.

(** The service and the device of an update lead to no chain of mappings. *)
Context (fuel : nat) (Hf : (2 <= fuel)%nat).
Context (d : Device) (service : ptree).

(** The plug-in ends, and the database keeps the connection of its user. *)
Context (Htransform : forall name value text seq, ends (transform_command name value text seq d service)).
Context (Hexecute : forall x, ends (execute_command x)).
Context (Hdriver : mongodb storage_type = true ->
  forall m ns q s, snd (drv_update m ns false q s) <> Fails UserException).

Section Settled.
Context (Hs : settled_by (mapping_of service (Some d))).

Lemma publish_ends ce op : bare ce -> ends (publish std_what clock fuel ce (Some d) service op).
Proof.
  intros Hb. unfold publish. apply ends_bind; [done|intros n].
  apply (ends_yields_bind _ _ bare); [apply yields_lift; by apply add_attribute_bare|].
  intros ce' _. apply ends_bind; [done|intros n'].
  apply ends_bind; [by apply flift_ends, set_env_info_ends|ends_tac].
Qed.

Lemma send_updateContext_ends name att type value op :
  ends (CommandService.send_updateContext std_what clock fuel name att type value (Some d) service op).
Proof.
  unfold CommandService.send_updateContext.
  apply (ends_yields_bind _ _ bare); [|intros ce; apply publish_ends].
  destruct (negb _); [apply add_all_yields; [done|]|apply yields_ret]; by apply bare_new.
Qed.

Lemma send_status_ends name status : ends (send_status std_what clock fuel name status d service).
Proof. apply send_updateContext_ends. Qed.

Lemma send_updateContext_info_ends name status info op :
  ends (send_updateContext_info std_what clock fuel name status info d service op).
Proof.
  unfold send_updateContext_info.
  apply (ends_yields_bind _ _ bare); [|intros ce; apply publish_ends].
  apply add_all_yields; [done|]. by apply bare_new.
Qed.
#[local] Hint Resolve send_status_ends send_updateContext_info_ends : ends.

Lemma cached_command_ends {A} hit (search : _ -> _ -> _ * outcome A) key :
  ends (cached_command show database endpoint storage_type hit search key).
Proof.
  unfold cached_command. apply ends_bind; [done|intros a0].
  apply ends_bind; [unfold command_from_mongo; ends_tac|intros loaded].
  intros a. by destruct (search _ _).
Qed.
#[local] Hint Resolve cached_command_ends : ends.

Lemma remove_command_ends id srv path :
  ends (remove_command show database endpoint storage_type fuel id srv path).
Proof. unfold remove_command. ends_tac. apply on_db_ends, remove_ends; [done|lia]. Qed.

Lemma save_ends cmd : ends (save show database endpoint storage_type fuel cmd).
Proof. unfold save, save_command. ends_tac. apply on_db_ends, insert_ends; [done|lia]. Qed.
#[local] Hint Resolve remove_command_ends save_ends : ends.

Lemma update_delivered_ends q : mongodb storage_type = true ->
  ends (update_delivered show database endpoint fuel q).
Proof.
  intros Hm. apply on_db_ends. unfold Collection.update. destruct fuel as [|f]; [lia|].
  cbn [update_r]. intros s. unfold fmbind, call.
  pose proof (Hdriver Hm (conn s) (namespace database Store.COMMAND_TABLE) q
    [("$set", BObj [(Store.STATUS, BNum DELIVERED)])]) as Hu.
  destruct (drv_update _ _ _ _ _) as [m [le|e]]; [apply getLastError_ends|].
  cbn [snd] in Hu. destruct e; cbn [handlers]; try discriminate; [by destruct Hu|by destruct (_ || _)].
Qed.

Lemma process_command_response_ends cmd code resp :
  item_dev cmd = d -> CommandService.service cmd = service ->
  ends (process_command_response std_what show database endpoint storage_type clock fuel cmd code resp).
Proof.
  intros Ed Es. unfold process_command_response, get_command, deliver_in_cache. rewrite Ed, Es.
  destruct (code =? 200); [ends_tac|]. destruct (code =? 202); [|ends_tac].
  apply ends_bind; [|ends_tac]. destruct (mongodb storage_type) eqn:Hm in |- *; [|done].
  by apply update_delivered_ends.
Qed.

End Settled.
#[local] Hint Resolve send_status_ends save_ends : ends.

(** C12. The update of a command ends, whatever the device answers and whatever the
    database and the network do, when the mappings of the device and of its
    service lead nowhere else, the plug-in ends, and the database keeps the
    connection of its user in updates; two units of fuel are enough. *)
Theorem update_command_ends (name parameters type sequence : string) :
  settled_by (mapping_of service (Some d)) ->
  ends (updateCommand std_what show database endpoint storage_type clock _callback transform_command
          execute_command fuel name parameters d type sequence service).
Proof.
  intros Hs. unfold updateCommand, getCommandLine, execute. ends_tac. intros r.
  by apply process_command_response_ends.
Qed.
End Ends.
