(* ===== verification/CommandRace.v ===== *)
(** * Several agents, one database

    Agents that share a database each have their own caches and timers, and
    the same command may time out in all of them.  [timeout_f] asks the
    database twice, so the calls of the agents interleave; this file is the
    step relation of those calls, and what holds in every state reached: one
    agent at most reports that the command has timed out.  Without a database
    none does. *)
From stdpp Require Import base tactics list gmap strings.
From Stdlib Require Import ZArith Lia Ascii String Relations.
From S2P Require Import Prelude CppString StdMap Boost Types FuncUtil Alarm IoTUrl Json Configurator.
From S2P Require Import NgsiAttribute NgsiContext NgsiMessages NgsiRegister Iso8601 CbComm.
From S2P Require Import MultiIndex Cache Command CommandCache CommandCollection DeviceCollection.
From S2P Require Import CommandHandle Device Bson Collection RestHandle CommandService CommandNgsi.
From S2P Require Import CommandTheorems.

Local Open Scope string_scope.
Local Open Scope Z_scope.

(** No call but an insertion or an update adds documents, also when it fails. *)
Class MongoQuiet {D : Mongo} (L : MongoLaws D) : Prop := {
  remove_adds_none m ns q m' r ns' d :
    drv_remove m ns q = (m', r) -> d ∈ docs m' ns' -> d ∈ docs m ns';
  query_adds_none m ns q limit skip order m' r ns' d :
    drv_query m ns q limit skip order = (m', r) -> d ∈ docs m' ns' -> d ∈ docs m ns';
  reconnect_adds_none m ns' d : d ∈ docs (drv_reconnect m) ns' -> d ∈ docs m ns'
}.

Lemma mongo_reference_quiet : MongoQuiet mongo_reference_laws.
Proof.
  constructor.
  - intros m ns q m' r ns' d [= <- _]. cbn. destruct (String.eqb ns' ns); [|done].
    rewrite !list_elem_of_In. intros Hd. by apply filter_In in Hd as [? _].
  - by intros m ns q limit skip order m' r ns' d [= <- _].
  - done.
Qed.

Section Race.
  Context `{HB : Boost} `{HJ : Rapidjson} `{HP : PropertyTree} `{HI : !PropertyTreeInt}
    `{HPI : !PropertyTreeIter} `{HR : BsonReader} `{HBJ : BsonJson} `{HM : Mongo} `{HC : Config}
    `{HN : Network} {HE : EqDecision ptree} `{CD : !Container Device}
    `{CC : !Container (Command ptree)}.
  Context (read_json : string -> option ptree).
  Context (std_what : exn -> string) (show : document -> string).
  Context (database endpoint resource storage_type : string).
  Context (complete_info : ptree -> ptree).
  Context (clock : Z -> string) (log_debug : bool).

Local Abbreviation check_timeout :=
  (CommandService.check_timeout read_json show database endpoint resource storage_type complete_info
     log_debug).
Local Abbreviation timeout_f :=
  (CommandService.timeout_f read_json std_what show database endpoint resource storage_type
     complete_info clock log_debug).
Local Abbreviation report_timeout :=
  (CommandService.report_timeout std_what show database endpoint storage_type clock).
Local Abbreviation command_timer :=
  (CommandService.command_timer read_json std_what show database endpoint resource storage_type
     complete_info clock log_debug).

(** ** Without a database *)

Lemma no_stored_command (Hs : mongodb storage_type = false) id service path a :
  exists a', get_command_from_mongo show database endpoint storage_type id service path a
    = Some (a', Ret None) /\ updates a' = updates a.
Proof.
  unfold get_command_from_mongo, cached_command. rewrite Hs. cbn. by eexists.
Qed.

(** A call that sends no update. *)
Definition silent {A} (c : FM Agent A) : Prop := keeps updates c.

(** Without a database a command that times out is never reported: no update
    is sent and it is only dropped; when debug messages are written, the
    status of a command that does not exist is read. *)
Theorem timeout_without_database (fuel : nat) (timer : ptr (Command ptree)) (aborted : bool)
    (Hs : mongodb storage_type = false) :
  silent (command_timer fuel timer aborted)
  /\ forall a a' item service_ptree, log_debug = true ->
       get_service_by_name read_json show database endpoint resource storage_type complete_info
         (Command._service item) (Command._service_path item) a = Some (a', Ret service_ptree) ->
       exists a'', timeout_f fuel item a = Some (a'', Undefined).
Proof.
  assert (Hc : forall item a a' r, check_timeout item a = Some (a', r) ->
    updates a' = updates a /\ forall sp, r <> Ret (Some sp)).
  { intros item a a' r E. unfold CommandService.check_timeout, fmbind in E.
    pose proof (get_service_by_name_keeps read_json show database endpoint resource storage_type
      complete_info updates (fun _ _ => eq_refl) (Command._service item) (Command._service_path item) a)
      as Hk.
    destruct (get_service_by_name _ _ _ _ _ _ _ _ _ a) as [[a1 [sp|e|]]|]; try done;
      [|injection E as <- <-; split; [by eapply Hk|done]..].
    destruct (no_stored_command Hs (_id item) (Command._service item) (Command._service_path item) a1)
      as (a2 & E2 & Hu). rewrite E2 in E. rewrite <- (Hk _ _ eq_refl).
    destruct log_debug; injection E as <- <-; by split. }
  split.
  - assert (Ht : forall item, keeps updates (timeout_f fuel item)); [|by unfold silent, CommandService.command_timer; keeps_tac].
    intros item. unfold CommandService.timeout_f. apply keeps_catch; [|intros e; keeps_tac].
    intros a a' r E. unfold fmbind in E. destruct (check_timeout _ a) as [[a1 [[sp|]|e|]]|] eqn:E1;
      try done; destruct (Hc _ _ _ _ E1) as [Hu Hn].
    + by destruct (Hn sp).
    + by injection E as <- <-.
    + by injection E as <- <-.
    + by injection E as <- <-.
  - intros a a' item sp Hl E. unfold CommandService.timeout_f, CommandService.check_timeout, fmcatch, fmbind.
    rewrite E. destruct (no_stored_command Hs (_id item) (Command._service item)
      (Command._service_path item) a') as (a2 & E2 & _). rewrite E2, Hl. by eexists.
Qed.

(** ** The agents *)

Context {L : MongoLaws HM} {HQ : MongoQuiet L}.
Context (fuel : nat) (item : Command ptree).

(** The connection they share, and each agent with the service it is about to
    report for, when it has decided to. *)
Record World : Type := mkWorld { shared : db; agents : list (Agent * option ptree) }.

Definition with_shared (m : db) (a : Agent) : Agent := with_database (mkDatabase m (a_alarms a)) a.

Definition query : document :=
  CommandCollection.Obj2BSON
    (command_key (_id item) (Command._service item) (Command._service_path item)) true.
Definition stored (m : db) : list document := docs m (namespace database Store.COMMAND_TABLE).

(** No document is the command. *)
Definition gone (m : db) : Prop := forall d, d ∈ stored m -> matches query d = false.

(** An agent whose timer fires asks the database; then it removes the command
    and reports it; in between, anything else may happen to the other
    documents. *)
Inductive ha_step : World -> World -> Prop :=
| Checks m before a decided after a' r :
    check_timeout item (with_shared m a) = Some (a', r) ->
    ha_step (mkWorld m (before ++ (a, decided) :: after))
      (mkWorld (a_conn a') (before ++ (a', match r with Ret d => d | _ => None end) :: after))
| Reports m before a sp after a' r :
    report_timeout fuel item sp (with_shared m a) = Some (a', r) ->
    ha_step (mkWorld m (before ++ (a, Some sp) :: after))
      (mkWorld (a_conn a') (before ++ (a', None) :: after))
| Others m m' l :
    (forall d, d ∈ stored m' -> matches query d = true -> d ∈ stored m) ->
    ha_step (mkWorld m l) (mkWorld m' l).

Definition reported (l : list (Agent * option ptree)) : nat :=
  sum_list_with (fun ad => List.length (updates (fst ad))) l.

(** *** What a call does to the documents *)

(** [c] keeps [P], whatever its outcome. *)
Definition holds {S A} (P : S -> Prop) (c : FM S A) : Prop := runs P c (fun _ s => P s).

Lemma holds_bind {S A B} (P : S -> Prop) (c : FM S A) (k : A -> FM S B) :
  holds P c -> (forall a, holds P (k a)) -> holds P (fmbind c k).
Proof. intros Hc Hk. by apply (runs_bind _ (fun _ s => P s)). Qed.

Lemma holds_catch {S A} (P : S -> Prop) (c : FM S A) (h : exn -> FM S A) :
  holds P c -> (forall e, holds P (h e)) -> holds P (fmcatch c h).
Proof. intros Hc Hh. by apply (runs_catch _ (fun _ s => P s)). Qed.

Lemma holds_keeps {S X A} (f : S -> X) (P : X -> Prop) (c : FM S A) :
  keeps f c -> holds (fun s => P (f s)) c.
Proof. intros Hk s s' r Hs E. by rewrite (Hk s s' r E). Qed.

Local Abbreviation gone_db := (fun s : Database => gone (conn s)).
Local Abbreviation gone_agent := (fun a : Agent => gone (a_conn a)).

Lemma gone_less m m' : (forall ns d, d ∈ docs m' ns -> d ∈ docs m ns) -> gone m -> gone m'.
Proof. intros Hl Hg d Hd. by apply Hg, Hl. Qed.

Lemma call_gone {A} (c : db -> db * Bson.answer A) :
  (forall m ns d, d ∈ docs (fst (c m)) ns -> d ∈ docs m ns) -> holds gone_db (call c).
Proof.
  intros Hc s s' r Hs E. unfold call in E. specialize (Hc (conn s)).
  destruct (c (conn s)) as [m o]. injection E as <- <-. by apply (gone_less (conn s)).
Qed.

Lemma reconnect_gone : holds gone_db reconnect.
Proof.
  intros s s' r Hs [= <- <-]. cbn. eapply gone_less; [|exact Hs]. intros ns d.
  apply reconnect_adds_none.
Qed.

Lemma alarm_gone text : holds gone_db (alarm_error endpoint text).
Proof. apply (holds_keeps conn gone). unfold alarm_error; keeps_tac. Qed.

Lemma fail_gone {A} b text : holds gone_db (fail endpoint b text : FM Database A).
Proof.
  unfold fail. apply holds_bind; [apply alarm_gone|intros _].
  apply holds_bind; [|intros _; apply (holds_keeps conn gone); keeps_tac].
  destruct b; [apply reconnect_gone|apply (holds_keeps conn gone); keeps_tac].
Qed.

Lemma handlers_gone {A} b gave_up subject retry (again : FM Database A) e :
  holds gone_db again -> holds gone_db (handlers endpoint b gave_up subject retry again e).
Proof.
  intros Ha. destruct e; cbn [handlers]; try apply fail_gone.
  - destruct (retry <? MAX_RETRY); [exact Ha|apply fail_gone].
  - destruct (_ || _); [|apply fail_gone]. apply (holds_keeps conn gone). keeps_tac.
Qed.

Lemma getLastError_conn bbdd obj le : keeps conn (getLastError endpoint show bbdd obj le).
Proof. unfold getLastError, alarm_info. keeps_tac. Qed.

Lemma find_gone table q : holds gone_db (Collection.find database endpoint show table q 0 0 []).
Proof.
  unfold Collection.find. cbv zeta. apply holds_bind.
  - apply call_gone. intros m ns d Hd. destruct (drv_query m _ _ _ _ _) as [m' r] eqn:E.
    by apply (query_adds_none _ _ _ _ _ _ _ _ _ _ E).
  - intros [c|e]; [apply (holds_keeps conn gone); keeps_tac|]. apply handlers_gone.
    by intros s s' r Hs [= <- <-].
Qed.

Lemma remove_gone table q : forall fuel retry,
  holds gone_db (Collection.remove database endpoint show fuel table q retry).
Proof.
  induction fuel0 as [|fuel0 IH]; intros retry; cbn [Collection.remove]; [done|].
  apply holds_bind.
  - apply call_gone. intros m ns d Hd. destruct (drv_remove m _ _) as [m' r] eqn:E.
    by apply (remove_adds_none _ _ _ _ _ _ _ E).
  - intros [le|e]; [apply (holds_keeps conn gone), getLastError_conn|]. apply handlers_gone.
    apply holds_bind; [apply IH|]. intros n. apply (holds_keeps conn gone). keeps_tac.
Qed.

Lemma on_db_gone {A} (c : FM Database A) : holds gone_db c -> holds gone_agent (on_db c).
Proof.
  intros Hc a a' r Ha E. unfold on_db in E. destruct (c _) as [[d o]|] eqn:Ed; [|done].
  injection E as <- <-. exact (Hc (mkDatabase (a_conn a) (a_alarms a)) d o Ha Ed).
Qed.

Ltac gone_tac :=
  repeat (cbn zeta; intros;
    match goal with
    | |- holds _ (fmbind _ _) => apply holds_bind
    | |- holds _ (fmcatch _ _) => apply holds_catch
    | |- holds _ (find_in _ _ _ _ _) => apply on_db_gone, find_gone
    | |- holds _ (match ?x with _ => _ end) => destruct x
    | |- holds _ _ => solve [apply (holds_keeps a_conn gone); keeps_tac]
    end).

Lemma check_gone : holds gone_agent (check_timeout item).
Proof.
  assert (Hn : forall {A} (x : A), holds gone_agent (new_object x)).
  { intros A x. apply (holds_keeps a_conn gone). by apply new_object_keeps. }
  unfold CommandService.check_timeout, get_service_by_name, get_service, get_service_by_name_bbdd,
    get_service_bbdd, get_service_file, fill_service_with_bson, read_ptree, get_command_from_mongo,
    cached_command, command_from_mongo. gone_tac; try apply Hn.
  intros ? ? ? ? Hst [= <- _]. exact Hst.
Qed.

(** *** A removal that removes something *)

Context (Hplain : plain query = true).

Lemma handlers_ret {A} b gave_up subject retry (again : FM Database A) e s s' n :
  handlers endpoint b gave_up subject retry again e s = Some (s', Ret n) -> again s = Some (s', Ret n).
Proof.
  destruct e; cbn [handlers]; try discriminate.
  - by destruct (retry <? MAX_RETRY).
  - by destruct b.
  - by destruct (_ || _).
Qed.

Lemma remove_positive n s s' :
  Collection.remove database endpoint show fuel Store.COMMAND_TABLE query 0 s = Some (s', Ret n) ->
  0 < n -> gone (conn s') /\ ~ gone (conn s).
Proof.
  destruct fuel as [|k]; [done|]. rewrite remove_S. cbn zeta.
  destruct (drv_remove (conn s) (namespace database Store.COMMAND_TABLE) query) as [m [le|e]] eqn:E;
    cbn [fst snd].
  - destruct (remove_law _ _ _ _ _ Hplain E) as (Hd & -> & _). rewrite getLastError_ok.
    intros [= <- <-] Hn. split.
    + intros d. unfold stored. cbn [conn]. rewrite Hd, list_elem_of_In. intros Hin.
      apply filter_In in Hin as [_ Hm]. by apply negb_true_iff.
    + intros Hg. apply zlen_filter_pos in Hn as (d & Hin & Hm). by rewrite (Hg d Hin) in Hm.
  - intros Er Hn. apply handlers_ret in Er. unfold fmbind in Er.
    destruct (Collection.remove _ _ _ _ _ _ _ _) as [[s1 [z|ex|]]|]; try done.
    injection Er as _ <-. lia.
Qed.

(** *** A report *)

Definition one_more (us : list update) (a : Agent) : Prop :=
  updates a = us \/ exists u, updates a = (us ++ [u])%list.

Lemma send_status_most us name status d service :
  runs (fun a => updates a = us) (send_status std_what clock fuel name status d service)
    (fun _ a => one_more us a).
Proof.
  assert (Hl : forall a, updates a = us -> one_more us a) by (by left).
  unfold send_status, CommandService.send_updateContext.
  apply keeps_then; [keeps_tac; by apply add_all_keeps|intros ce|auto..].
  unfold publish.
  do 2 (apply keeps_then; [by apply reading_keeps|intros ?|auto..];
        apply keeps_then; [keeps_tac|intros ?|auto..]).
  unfold CommandService.send. apply keeps_then; [keeps_tac|intros url|auto..].
  apply (runs_bind _ (fun _ => one_more us)); [| |auto..].
  - apply runs_modify. intros st <-. right. by eexists.
  - intros _ st st' o Hst E. pose proof (on_net_keeps updates (fun _ _ => eq_refl) _ _ _ _ E) as Hu.
    unfold one_more in *. by rewrite Hu.
Qed.

Context (Hs : mongodb storage_type = true).

Lemma removed_count a a' n :
  remove_command show database endpoint storage_type fuel (_id item) (Command._service item)
    (Command._service_path item) a = Some (a', Ret n) ->
  0 < n -> gone (a_conn a') /\ ~ gone (a_conn a).
Proof.
  unfold remove_command. cbv zeta. rewrite Hs. unfold fmbind, fmmodify, on_db.
  destruct (Collection.remove _ _ _ _ _ _ _ _) as [[d o]|] eqn:E; [|done].
  intros [= <- ->] Hn. exact (remove_positive _ _ _ E Hn).
Qed.

Lemma remove_command_gone : holds gone_agent
  (remove_command show database endpoint storage_type fuel (_id item) (Command._service item)
    (Command._service_path item)).
Proof.
  unfold remove_command. cbv zeta. apply holds_bind; [apply (holds_keeps a_conn gone); keeps_tac|].
  intros _. destruct (mongodb _); [apply on_db_gone, remove_gone|].
  apply (holds_keeps a_conn gone). keeps_tac.
Qed.

(** One agent reports at most one update, and then the command is gone; when
    it is already gone, none. *)
Lemma report_effect us sp a a' r :
  updates a = us -> report_timeout fuel item sp a = Some (a', r) ->
  (gone (a_conn a) -> gone (a_conn a') /\ updates a' = us)
  /\ (updates a' = us \/ (gone (a_conn a') /\ exists u, updates a' = us ++ [u])%list).
Proof.
  intros Hu E. unfold CommandService.report_timeout, fmbind in E.
  pose proof (remove_command_keeps show database endpoint storage_type updates (fun _ _ => eq_refl)
    (fun _ _ => eq_refl) fuel (_id item) (Command._service item) (Command._service_path item)) as Hk.
  pose proof remove_command_gone as Hg. pose proof (removed_count a) as Hc.
  destruct (remove_command _ _ _ _ _ _ _ _ a) as [[a1 [n|e|]]|] eqn:E1; try done;
    specialize (Hk _ _ _ E1); rewrite Hu in Hk;
    assert (Hg1 : gone (a_conn a) -> gone (a_conn a1)) by (intros H; exact (Hg a a1 _ H E1)).
  - destruct (0 <? n) eqn:En.
    + breflect. destruct (Hc a1 n eq_refl En) as [H1 H2].
      pose proof (send_status_keeps std_what clock a_conn (fun _ _ => eq_refl) (fun _ _ => eq_refl)
        (fun _ _ => eq_refl) _ _ _ _ _ _ _ _ E) as Hconn.
      split; [intros H; by destruct H2|].
      destruct (send_status_most us _ _ _ _ _ _ _ Hk E) as [|Hone]; [by left|right].
      by rewrite Hconn.
    + injection E as <- <-. split; [|by left]. intros H. split; [by apply Hg1|done].
  - injection E as <- <-. split; [|by left]. intros H. split; [by apply Hg1|done].
  - injection E as <- <-. split; [|by left]. intros H. split; [by apply Hg1|done].
Qed.

(** *** What is true of every state *)

Lemma check_keeps : keeps updates (check_timeout item).
Proof.
  unfold CommandService.check_timeout. keeps_tac.
  - by apply get_service_by_name_keeps.
  - by apply cached_command_keeps.
Qed.

(** From agents that had sent [n] updates: one more at most, and then the
    command is gone. *)
Definition at_most_one (n : nat) (w : World) : Prop :=
  reported (agents w) = n \/ (reported (agents w) = S n /\ gone (shared w)).

Lemma reported_middle before x after :
  reported (before ++ x :: after) = (List.length (updates (fst x)) + reported (before ++ after))%nat.
Proof. unfold reported. rewrite !sum_list_with_app. cbn. lia. Qed.

Lemma ha_step_at_most_one n w w' : ha_step w w' -> at_most_one n w -> at_most_one n w'.
Proof.
  intros Hstep. destruct Hstep as [m before a decided after a' r E|m before a sp after a' r E|m m' l Hm];
    unfold at_most_one; cbn [agents shared]; rewrite ?reported_middle; cbn [fst].
  - pose proof (check_keeps _ _ _ E) as Hu. cbn in Hu. rewrite Hu.
    intros [H|[H Hg]]; [by left|right]. split; [done|].
    exact (check_gone (with_shared m a) a' r Hg E).
  - destruct (report_effect (updates a) sp (with_shared m a) _ _ eq_refl E) as [H1 H2].
    intros [H|[H Hg]].
    + destruct H2 as [->|[Hg [u ->]]]; [by left|right]. split; [|done].
      rewrite length_app. cbn. lia.
    + destruct (H1 Hg) as [Hg' ->]. by right.
  - intros [H|[H Hg]]; [by left|right]. split; [done|]. intros d Hd.
    destruct (matches query d) eqn:Ed; [|done]. by rewrite <- (Hg d), Ed; [|apply Hm].
Qed.

(** C1. However the agents that share a database interleave, the timeout of a
    command is reported at most once. *)
Theorem timeout_reported_once (w w' : World) :
  clos_refl_trans _ ha_step w w' ->
  (reported (agents w) <= reported (agents w') <= S (reported (agents w)))%nat.
Proof.
  intros Hrun. assert (H : at_most_one (reported (agents w)) w') ; [|destruct H as [->|[-> _]]; lia].
  apply clos_rt_rt1n in Hrun.
  assert (H0 : at_most_one (reported (agents w)) w) by (by left). revert H0.
  generalize (reported (agents w)) as n. induction Hrun as [w|w w1 w' Hs1 _ IH]; [done|].
  intros n Hn. apply IH. by eapply ha_step_at_most_one.
Qed.
End Race.
