(* ===== verification/AgentExample.v ===== *)
(** * An agent that can be run

    The interfaces instantiated by plain functions: a flat property tree, a
    configuration, a network where every request succeeds, and a database of
    one service, one device with two commands, and the command of a device
    that polls.  The theorems on agents are tried on it. *)
From stdpp Require Import base tactics list gmap strings pretty.
From Stdlib Require Import ZArith Lia Ascii String Relations.
From S2P Require Import Prelude CppString StdMap Boost Types FuncUtil Alarm IoTUrl Json Configurator.
From S2P Require Import NgsiAttribute NgsiContext NgsiMessages NgsiRegister Iso8601 CbComm.
From S2P Require Import MultiIndex Cache Command CommandCache CommandCollection DeviceCollection.
From S2P Require Import CommandHandle Device Bson Collection RestHandle CommandService CommandNgsi.
From S2P Require Import CommandTheorems CommandEnds CommandRace.

Local Open Scope string_scope.
Local Open Scope Z_scope.

Local Existing Instance boost_reference.
Local Existing Instance bson_reader_reference.
Local Existing Instance mongo_reference.
Local Existing Instance list_container.

(** Trees without children. *)
#[export] Instance flat_ptree : PropertyTree := {|
  ptree := list (string * string);
  pt_empty := [];
  pt_get := assoc;
  pt_put t k v := (k, v) :: t;
  pt_get_child _ _ := None;
  write_json _ := ""
|}.
#[export] Instance flat_ptree_laws : PropertyTreeLaws flat_ptree.
Proof. split; [|done]. intros t k v. cbn. by rewrite String.eqb_refl. Qed.
#[export] Instance flat_ptree_int : PropertyTreeInt := {|
  pt_get_int t k := match assoc t k with Some s => int_of_text s | None => None end;
  pt_put_int t k z := (k, pretty z) :: t;
  lexical_cast_int := int_of_text
|}.
#[export] Instance flat_ptree_iter : PropertyTreeIter := {|
  pt_children t := map (fun kv => (fst kv, [("", snd kv)])) (first_fields t []);
  pt_data t := default "" (assoc t "")
|}.
#[export] Instance flat_eq : EqDecision (@ptree flat_ptree).
Proof. unfold ptree, flat_ptree. apply _. Defined.

#[export] Instance agent_json : Rapidjson := rapidjson_table [].
#[export] Instance agent_bson : BsonJson := {|
  jsonString _ := "{}"; fromjson _ := None;
  numberLong d k := match field d k with Some (BNum z) => z | _ => 0 end
|}.

#[export] Instance agent_config : Config := {|
  config_get name :=
    if String.eqb name "timeout" then Ret (JNumber "10") else Throw (RuntimeError name);
  config_get_map name := Ret ∅;
  getService _ name _ := Throw (RuntimeError name);
  getServicebyApiKey _ key := Throw (RuntimeError key);
  getAllServicePath _ _ := Ret [];
  getResourceObject _ := Throw (RuntimeError "resource");
  getHttpMessage _ := "";
  listen_ip := "10.0.0.1"; listen_port := 8080; iotagent_name := "iota"; iotagent_identifier := ""
|}.

#[export] Instance agent_network : Network := {|
  network := unit;
  exchange n _ _ _ := (n, mkResult (Some (mkHttpResponse 200 "{}")) None "cb");
  get_token n _ _ _ _ _ := (n, Ret "token")
|}.

Definition service_tree : @ptree flat_ptree :=
  [("service", "s"); ("service_path", "/p"); ("cbroker", "http://cb"); ("timeout", "5")].
Definition read_service (_ : string) : option (@ptree flat_ptree) := Some service_tree.

Definition device_document (name entity a_endpoint : string) : document :=
  [("device_id", BStr name); ("service", BStr "s"); ("service_path", BStr "/p");
   ("entity_name", BStr entity); ("entity_type", BStr "thing"); ("endpoint", BStr a_endpoint);
   ("protocol", BStr "ul"); ("commands", BArr [BObj [("name", BStr "ping"); ("value", BStr "lamp@ping|%s")]])].

Definition agent_db : @db mongo_reference := fun ns =>
  if String.eqb ns "iot.SERVICE" then [[("service", BStr "s"); ("service_path", BStr "/p"); ("resource", BStr "/d")]]
  else if String.eqb ns "iot.DEVICE" then [device_document "lamp" "room" "http://lamp"; device_document "meter" "garden" ""]
  else [].

Definition agent_start : Agent :=
  mkAgent (Cache.new_cache 10 true 0) (CommandCache.new_command_cache 10 false) agent_db ∅ tt [] [] []
    1 0.

(** The agent calls the device when a command comes. *)
Definition clock (n : Z) : string := "now".
Definition uuid (n : Z) : string := "uuid" ++ pretty n.
Definition sent (x : execution) : FM Agent (Z * string) := fret (200, "pong").
Definition no_what (e : exn) : string := "".
Definition no_show (d : document) : string := "".

Definition ping (entity : string) : UpdateContext.UpdateContext :=
  UpdateContext.mkUpdateContext "UPDATE"
    [mkContextElement entity "thing" "false" [new_attribute "ping" "command" "now"] pt_empty None].

Definition update_agent (entity : string) : option (Agent * outcome (Z * list ContextResponse.ContextResponse)) :=
  CommandNgsi.updateContext no_what no_show "iot" "h" "mongodb" "ul" clock false
    (default_transform_command uuid) sent 2 (ping entity) service_tree "7" agent_start.
Definition agent_of {A} (r : option (Agent * A)) : Agent := default agent_start (fst <$> r).
Definition value_of {A} (r : option (Agent * A)) : option A := snd <$> r.

(** A command of a device with an endpoint is sent, answered and reported; one
    of a device without is kept, in the cache and in the database. *)
Definition statuses (a : Agent) : list (list string) :=
  map (fun u => map get_value (NgsiContext._attributes (u_element u))) (updates a).

Example push_run : let a := agent_of (update_agent "room") in
  statuses a = [["pending"; "now"]; ["OK"; "pong"; "now"]]
  /\ map x_endpoint (executions a) = ["http://lamp"] /\ map x_command (executions a) = [[("body", "lamp@ping|now")]]
  /\ items (CommandCache._list (m_asyncCommands a)) = [] /\ a_conn a "iot.COMMAND" = [].
Proof. vm_compute. repeat split. Qed.

Definition polled : Agent := agent_of (update_agent "garden").

Example poll_run :
  statuses polled = [["pending"; "now"]] /\ executions polled = []
  /\ map (fun p => _id (snd p)) (items (CommandCache._list (m_asyncCommands polled))) = ["7"]
  /\ List.length (a_conn polled "iot.COMMAND") = 1%nat.
Proof. vm_compute. repeat split. Qed.

(** The device polls: the command is delivered, in the cache and in the
    database; polling again gives nothing. *)
Definition garden : Device :=
  CommandService.device_of (set_status (new_key (@pt_empty flat_ptree) "garden" "s" "/p") 0).
Definition poll (a : Agent) : option (Agent * outcome (list (ptr (Command (@ptree flat_ptree))))) :=
  CommandService.get_all_command no_what no_show "iot" "h" "mongodb" clock 2
    (Some (RestHandle.with_entity garden "garden" "thing")) service_tree a.

Example poll_once :
  (match value_of (poll polled) with
   | Some (Ret l) => map (fun p => (_id (snd p), _status (snd p))) l
   | _ => []
   end) = [("7", DELIVERED)]
  /\ statuses (agent_of (poll polled)) = [["pending"; "now"]; ["delivered"; "now"]]
  /\ (match value_of (poll (agent_of (poll polled))) with Some (Ret l) => l | _ => [] end) = [].
Proof. vm_compute. repeat split. Qed.

(** *** Two agents *)

Definition waiting : Command (@ptree flat_ptree) :=
  match items (CommandCache._list (m_asyncCommands polled)) with
  | (_, c) :: _ => c
  | [] => command_key "" "" ""
  end.

Definition check (m : @db mongo_reference) (a : Agent) : option (Agent * outcome (option (@ptree flat_ptree))) :=
  CommandService.check_timeout read_service no_show "iot" "h" "/d" "mongodb" (fun t => t) false waiting
    (with_shared m a).
Definition service_found : @ptree flat_ptree := ("http_proxy", "") :: service_tree.
Definition report (m : @db mongo_reference) (a : Agent) : option (Agent * outcome unit) :=
  CommandService.report_timeout no_what no_show "iot" "h" "mongodb" clock 2 waiting service_found
    (with_shared m a).

#[local] Strategy expand [check report].

Lemma run_of {A} (r : option (Agent * A)) (v : A) : value_of r = Some v -> r = Some (agent_of r, v).
Proof. destruct r as [[a x]|]; [|done]. by intros [= ->]. Qed.

Definition race_step := ha_step (L := mongo_reference_laws) read_service no_what no_show "iot" "h" "/d"
  "mongodb" (fun t => t) clock false 2 waiting.

Definition agent1 : Agent := agent_of (check (a_conn polled) polled).
Definition agent2 : Agent := agent_of (check (a_conn agent1) agent_start).
Definition done1 : Agent := agent_of (report (a_conn agent2) agent1).
Definition done2 : Agent := agent_of (report (a_conn done1) agent2).

Definition world0 : World := mkWorld (a_conn polled) [(polled, None); (agent_start, None)].
Definition world4 : World := mkWorld (a_conn done2) [(done1, None); (done2, None)].

Lemma check1 : check (a_conn polled) polled = Some (agent1, Ret (Some service_found)).
Proof. unfold agent1. apply run_of. vm_compute. reflexivity. Qed.
Lemma check2 : check (a_conn agent1) agent_start = Some (agent2, Ret (Some service_found)).
Proof. unfold agent2. apply run_of. vm_compute. reflexivity. Qed.
Lemma report1 : report (a_conn agent2) agent1 = Some (done1, Ret tt).
Proof. unfold done1. apply run_of. vm_compute. reflexivity. Qed.
Lemma report2 : report (a_conn done1) agent2 = Some (done2, Ret tt).
Proof. unfold done2. apply run_of. vm_compute. reflexivity. Qed.

(** Both agents decide to report before either removes the command. *)
Lemma race_run : clos_refl_trans _ race_step world0 world4.
Proof.
  apply rt_trans with (mkWorld (a_conn agent1) [(agent1, Some service_found); (agent_start, None)]).
  { apply rt_step, (Checks _ _ _ _ _ _ _ _ _ _ _ _ _ [] polled None [(agent_start, None)] agent1
      (Ret (Some service_found))). exact check1. }
  apply rt_trans with (mkWorld (a_conn agent2) [(agent1, Some service_found); (agent2, Some service_found)]).
  { apply rt_step, (Checks _ _ _ _ _ _ _ _ _ _ _ _ _ [(agent1, Some service_found)] agent_start None []
      agent2 (Ret (Some service_found))). exact check2. }
  apply rt_trans with (mkWorld (a_conn done1) [(done1, None); (agent2, Some service_found)]).
  { apply rt_step, (Reports _ _ _ _ _ _ _ _ _ _ _ _ _ [] agent1 service_found [(agent2, Some service_found)]
      done1 (Ret tt)). exact report1. }
  apply rt_step, (Reports _ _ _ _ _ _ _ _ _ _ _ _ _ [(done1, None)] agent2 service_found [] done2 (Ret tt)).
  exact report2.
Qed.

Lemma timeout_reported_once_witness :
  clos_refl_trans _ race_step world0 world4 /\ reported (agents world0) = 1%nat
  /\ (1 <= reported (agents world4) <= 2)%nat /\ reported (agents world4) = 2%nat.
Proof.
  split; [exact race_run|]. split; [vm_compute; reflexivity|]. split; [|vm_compute; reflexivity].
  exact (timeout_reported_once (HQ := mongo_reference_quiet) read_service no_what no_show "iot" "h" "/d"
    "mongodb" (fun t => t) clock false 2 waiting eq_refl eq_refl world0 world4 race_run).
Defined.

(** *** The other theorems *)

Definition lamp : Device := DeviceCollection.BSON2Obj (device_document "lamp" "room" "http://lamp").
Definition lamp_update : option (Agent * outcome unit) :=
  CommandService.updateCommand no_what no_show "iot" "h" "mongodb" clock false
    (default_transform_command uuid) sent 2 "ping" "now" lamp "thing" "7" service_tree agent_start.

Lemma default_transform_keeps {X} (f : Agent -> X) n v p q d s :
  (forall z a, f (with_readings z a) = f a) -> keeps f (default_transform_command uuid n v p q d s).
Proof. intros Hf. unfold default_transform_command. keeps_tac. by apply reading_keeps. Qed.

Lemma sent_keeps {X} (f : Agent -> X) x : keeps f (sent x).
Proof. unfold sent. keeps_tac. Qed.


Definition answered_command : CommandData :=
  mkCommandData "ping" "7" (@pt_empty flat_ptree) "7" 10 garden "thing" service_tree.
Definition poll_answer (code : Z) : option (Agent * outcome unit) :=
  CommandService.process_command_response no_what no_show "iot" "h" "mongodb" clock 2
    answered_command code "pong" polled.


(** An agent whose store is the file. *)
Definition file_timer : option (Agent * outcome unit) :=
  CommandService.command_timer read_service no_what no_show "iot" "h" "/d" "file" (fun t => t) clock false
    2 (2%positive, waiting) false polled.

Lemma timeout_without_database_witness :
  mongodb "file" = false /\ value_of file_timer = Some (Ret tt)
  /\ updates (agent_of file_timer) = updates polled.
Proof.
  assert (Hs : mongodb "file" = false) by reflexivity.
  assert (Ev : value_of file_timer = Some (Ret tt)) by (vm_compute; reflexivity).
  split; [exact Hs|]. split; [exact Ev|].
  destruct (timeout_without_database read_service no_what no_show "iot" "h" "/d" "file" (fun t => t) clock
    false 2 (2%positive, waiting) false Hs) as [Hk _].
  exact (Hk polled (agent_of file_timer) (Ret tt) (run_of _ _ Ev)).
Defined.


Definition no_service : ngsi_request := mkNgsiRequest None "" "{}".
Definition op_answer : option (Agent * outcome ngsi_answer) :=
  default_op_ngsi read_service no_what no_show "iot" "h" "/d" "mongodb" "ul" (fun t => t) clock uuid false
    (default_transform_command uuid) sent (fun s _ => s) 2 no_service agent_start.


(** A lamp whose attribute [t] is published as [temperature]. *)
Definition mapped_json : Rapidjson :=
  rapidjson_table [("M1", JObject [("name", JString "temperature"); ("type", JString "float")])].
Definition mapped_lamp : Device := set_attributes lamp {["t" := "M1"]}.

Lemma mapping_of_lamp name :
  mapping_of service_tree (Some mapped_lamp) name = if String.eqb name "t" then "M1" else "".
Proof.
  unfold mapping_of, mapping_text, find_mapping, get_attribute, mapped_lamp.
  destruct (String.eqb_spec name "t") as [->|Hne]; [reflexivity|]. cbn [_device_info set_attributes _attributes].
  by rewrite lookup_singleton_ne.
Qed.

Lemma mapped_settled : settled_by (HJ := mapped_json) (mapping_of service_tree (Some mapped_lamp)).
Proof.
  intros name d a m. rewrite !mapping_of_lamp. destruct (String.eqb name "t"); [|done].
  intros [= <-] Hm. destruct (mapped_name (HJ := mapped_json) _ _ _ Hm) as (att & Ha & ->).
  vm_compute in Ha. injection Ha as <-. reflexivity.
Qed.

Lemma update_command_ends_witness :
  settled_by (HJ := mapped_json) (mapping_of service_tree (Some mapped_lamp))
  /\ ends (updateCommand (HJ := mapped_json) no_what no_show "iot" "h" "mongodb" clock false
            (default_transform_command uuid) sent 2 "ping" "now" mapped_lamp "thing" "7" service_tree).
Proof.
  split; [exact mapped_settled|].
  apply (update_command_ends (HJ := mapped_json) no_what no_show "iot" "h" "mongodb" clock false
    (default_transform_command uuid) sent 2 (Nat.le_refl 2) mapped_lamp service_tree).
  - intros n v t q. apply default_transform_ends.
  - done.
  - by intros _ m ns q s.
  - exact mapped_settled.
Defined.
