(* ===== verification/UltraLight.v ===== *)
(** * UltraLight 2.0: [src/src/ultra_light/ULInsertObservation.cc] and
    [ul20_service.cc]

    The translation of measures into context elements, and of commands and
    their responses. *)
From stdpp Require Import base tactics list gmap strings.
From Stdlib Require Import ZArith Lia Ascii String.
From S2P Require Import Prelude CppString Boost Types FuncUtil Device Json NgsiAttribute NgsiContext.
From S2P Require Import Iso8601 CommandHandle.

Local Open Scope string_scope.
Local Open Scope Z_scope.

#[local] Arguments render_identifier : simpl never.

Definition NUM_ELEMENTS_ULPROTOCOL : Z := 4.
Definition UL20_SEPARATOR : ascii := "|".
Definition UL20_MEASURE_SEPARATOR : ascii := "#".

Definition protocol_error (what : string) : exn :=
  IotaException RESPONSE_MESSAGE_INVALID_PARAMETER what RESPONSE_CODE_BAD_REQUEST.

(** ** Observations *)

(** [contentForSBCProtocol]: a measure [alias|value], or [time|alias|value],
    with its fields put in the places of the protocol. *)
Definition contentForSBCProtocol (io a_sampling_time a_res_query : string) : string :=
  let '(sampling_time_measure, alias, data) :=
    match find_first_of "|" io, find_last_of "|" io with
    | Some p_pipe, Some p_pipe_f =>
        if Nat.eqb p_pipe p_pipe_f then (a_sampling_time, str_take p_pipe io, io)
        else
          let data := str_drop (S p_pipe) io in
          (str_take p_pipe io,
           match find_first_of "|" data with Some p_alias => str_take p_alias data | None => "" end,
           data)
    | _, _ => ("", "", "")
    end in
  "|" ++ a_res_query ++ "|" ++ sampling_time_measure ++ "|" ++ alias ++ "||" ++ data.

(** The loop over the query: the concentrator, the device and the time. *)
Record query_names : Type := mkQueryNames { uc_query : string; device_name : string; samplingTime : string }.

Definition query_step (q : query_names) (p : KVP) : query_names :=
  if String.eqb (getKey p) "UC" then mkQueryNames (getValue p) (device_name q) (samplingTime q)
  else if String.eqb (getKey p) "ID" then mkQueryNames (uc_query q) (getValue p) (samplingTime q)
  else if String.eqb (getKey p) "URL" then q
  else if String.eqb (getKey p) "t" then mkQueryNames (uc_query q) (device_name q) (getValue p)
  else q.

Definition read_query (query : list KVP) : query_names :=
  fold_left query_step query (mkQueryNames "" "" "").

(** [catch (std::runtime_error& e)] around a measure. *)
Definition rethrow {A} (c : fueled A) : fueled A :=
  match c with
  | Some (Throw e) =>
      match runtime_what e with
      | Some what => Some (Throw (protocol_error what))
      | None => Some (Throw e)
      end
  | _ => c
  end.

Section Observations.
  Context `{Boost} `{Rapidjson} `{PropertyTree} `{PosixTime}.

(** [lexical_cast<double>] of a text, then [numeric_cast<long>]. *)
Context (double_to_long : string -> outcome Z).

(** The clock, read once for the whole request. *)
Context (now : RiotISO8601).

Definition now_string : outcome string := let! u := toUTC now in Ret (toString u).

(** The date of a measure: now, a time, or the start of a period. *)
Definition sampling_date (sampling_time : string) : outcome string :=
  match riot_tokenizer sampling_time " " with
  | [] => now_string
  | [t] =>
      match iso_of_string t with
      | Ret iso => Ret (toString iso)
      | Throw e => match runtime_what e with Some _ => now_string | None => Throw e end
      | Undefined => Undefined
      end
  | t0 :: t1 :: _ =>
      let period :=
        let! b := double_to_long t0 in
        let! d := double_to_long t1 in
        Ret (toString (iso_of_epoch b)) in
      match period with
      | Throw BadLexicalCast => Ret t0
      | r => r
      end
  end.

(** One attribute: an element with the attribute, stamped with the date, and
    the date as an attribute. *)
Definition observation (fuel : nat) (service_ptree : ptree) (dev : option Device)
    (device_name attr_name valueSTR date_to_cb : string) : fueled ContextElement :=
  let att := add_metadata (new_attribute attr_name "" valueSTR)
               (new_attribute "TimeInstant" "ISO8601" date_to_cb) in
  let cb_elto := new_context_element device_name "" "false" in
  fuel! timestamp := Some now_string in
  fuel! cb_elto := set_env_info fuel timestamp cb_elto service_ptree dev in
  fuel! cb_elto := add_attribute fuel cb_elto att in
  add_attribute fuel cb_elto (new_attribute "TimeInstant" "ISO8601" date_to_cb).

(** The loop over the fields from the fifth on, as a walk of the rest of the
    list: an empty field is skipped, then come a name and a value.  The vector
    is read without a check. *)
Section Loop.
  Context (fuel : nat) (service_ptree : ptree) (device_name date_to_cb : string).

Definition one_attribute (dev : option Device) (cb_eltos : list ContextElement)
    (attr_name valueSTR : string) : fueled (option Device * list ContextElement) :=
  if String.eqb valueSTR "" then
    Some (Throw (protocol_error "Protocol error, Empty values is not allowed "))
  else
    fuel! cb_elto := observation fuel service_ptree dev device_name attr_name valueSTR date_to_cb in
    Some (Ret (_device_info cb_elto, (cb_eltos ++ [cb_elto])%list)).

Fixpoint attributes_loop (tokens : list string) (dev : option Device)
    (cb_eltos : list ContextElement) : fueled (option Device * list ContextElement) :=
  match tokens with
  | [] => Some (Ret (dev, cb_eltos))
  | token :: rest =>
      if negb (String.eqb token "") then
        match rest with
        | valueSTR :: rest' =>
            fuel! r := one_attribute dev cb_eltos token valueSTR in
            attributes_loop rest' (fst r) (snd r)
        | [] => Some Undefined
        end
      else
        match rest with
        | attr_name :: valueSTR :: rest' =>
            fuel! r := one_attribute dev cb_eltos attr_name valueSTR in
            attributes_loop rest' (fst r) (snd r)
        | _ => Some Undefined
        end
  end.
End Loop.

(** A measure.  The resource and concentrator names the code composes here
    only go to the log, but for the tests that they are not empty. *)
Definition measure (fuel : nat) (service_ptree : ptree) (protocol : Z) (q : query_names)
    (device_name : string) (msg : string) (dev : option Device) (cb_eltos : list ContextElement)
    : fueled (option Device * list ContextElement) :=
  let msg := if protocol =? 0 then contentForSBCProtocol msg (samplingTime q) device_name else msg in
  let tokens_io := riot_tokenizer msg UL20_SEPARATOR in
  if zlen tokens_io <? NUM_ELEMENTS_ULPROTOCOL then
    Some (Throw (protocol_error "Protocol error, a measure is not complete "))
  else
    fuel! id := Some (vix tokens_io 1) in
    let id_resource :=
      if String.eqb id "" then device_name
      else if negb (String.eqb device_name "") then device_name ++ "." ++ id else id in
    fuel! sampling_time := Some (vix tokens_io 2) in
    fuel! observed_property := Some (vix tokens_io 3) in
    if String.eqb id_resource "" || String.eqb observed_property "" then
      Some (Throw (protocol_error "Protocol error, measurement has not got property or idResource "))
    else
      rethrow
        (fuel! date_to_cb := Some (sampling_date sampling_time) in
         attributes_loop fuel service_ptree device_name date_to_cb (drop 4 tokens_io) dev cb_eltos).

Fixpoint measures_loop (fuel : nat) (service_ptree : ptree) (protocol : Z) (q : query_names)
    (device_name : string) (msgs : list string) (dev : option Device)
    (cb_eltos : list ContextElement) : fueled (option Device * list ContextElement) :=
  match msgs with
  | [] => Some (Ret (dev, cb_eltos))
  | msg :: rest =>
      fuel! r := measure fuel service_ptree protocol q device_name msg dev cb_eltos in
      measures_loop fuel service_ptree protocol q device_name rest (fst r) (snd r)
  end.

(** [translate]; it returns the device too, which looking for mappings
    changes. *)
Definition translate (fuel : nat) (str_io : string) (dev : option Device) (service_ptree : ptree)
    (query : list KVP) (cb_eltos : list ContextElement) (protocol : Z)
    : fueled (option Device * list ContextElement) :=
  let str_io := erase_all (erase_all (trim str_io) (ascii_of_nat 10)) (ascii_of_nat 13) in
  let q := read_query query in
  let device_name := match dev with
                     | Some d => get_real_name (pt_get service_ptree) d
                     | None => device_name q
                     end in
  let tokens_msgs := riot_tokenizer str_io UL20_MEASURE_SEPARATOR in
  match tokens_msgs with
  | [] => Some (Throw (protocol_error "Protocol error, no measurements"))
  | _ =>
      fuel! r := measures_loop fuel service_ptree protocol q device_name tokens_msgs dev cb_eltos in
      if negb (zlen tokens_msgs =? zlen (snd r)) then
        Some (Throw (protocol_error "Protocol error, "))
      else Some (Ret r)
  end.
End Observations.

(** ** Commands and responses *)

(** [get_id_command]: what is before the first bar, if it has an at sign. *)
Definition get_id_command (str_command : string) : string :=
  let id_comando := str_upto str_command (find_first_of "|" str_command) in
  match find_first_of "@" id_comando with
  | None => ""
  | Some _ => id_comando
  end.

(** [isCommandResp]: the code, and the response and the identifier when it is
    a response; without one [command_response] keeps its value. *)
Definition isCommandResp (str_command_resp command_response : string) : Z * string * string :=
  let id_command := get_id_command str_command_resp in
  if nonempty id_command then (200, str_command_resp, id_command)
  else (-1, command_response, id_command).

Section Commands.
  Context `{Boost} `{Rapidjson} `{PropertyTree}.

(** The body of a command without a template; the arguments of [starts_with]
    are in the order of the source. *)
Definition default_body (name command_name updateCommand_value : string) : string :=
  name ++ "@" ++ command_name ++
  (if negb (String.eqb updateCommand_value "") then
     (if negb (starts_with "|" updateCommand_value) then "|" else "") ++ updateCommand_value
   else "").

Definition transform_command (uuid command_name a_command_value a_updateCommand_value sequence_id
    : string) (item_dev : Device) (command_line : ptree) : fueled (string * ptree) :=
  let command_value := trim a_command_value in
  let updateCommand_value := trim a_updateCommand_value in
  fuel! updateCommand_value := Some (json_value_to_ul updateCommand_value) in
  fuel! command_line :=
    if String.eqb command_value RAW then
      Some (Ret (pt_put command_line Store.BODY updateCommand_value))
    else if nonempty command_value then
      fuel! r := CommandHandle.transform_command uuid command_value updateCommand_value
                   sequence_id command_line in
      Some (Ret (snd r))
    else
      Some (Ret (pt_put command_line Store.BODY
                   (default_body (_name item_dev) command_name updateCommand_value))) in
  let body := pt_get_default command_line Store.BODY "" in
  let '(code, _, command_id) := isCommandResp body "" in
  if code =? -1 then
    Some (Throw (IotaException RESPONSE_MESSAGE_COMMAND_BAD
      ("UL20 Command is not correct, it must be  name_device@command_name, but it is " ++ body)
      RESPONSE_CODE_BAD_REQUEST))
  else Some (Ret (command_id, command_line)).

Definition transform_response (str_command_resp command_response : string) : Z * string * string :=
  let response := trim (url_decode str_command_resp) in
  let response := erase_all (erase_all response (ascii_of_nat 10)) (ascii_of_nat 13) in
  let '(code, command_response, id_command) := isCommandResp response command_response in
  if code <? 0 then (code, "no ul20 response command:" ++ response, id_command)
  else (code, command_response, id_command).
End Commands.

(** ** What a text of fields becomes *)

Definition plain_char (c : ascii) : bool :=
  negb (isspace c) && negb (Ascii.eqb c "|") && negb (Ascii.eqb c "#").

(** A field of a measure: not empty, without white space and separators. *)
Definition plain (s : string) : Prop := s <> "" /\ str_forall plain_char s = true.

Lemma plain_no_bar s : str_forall plain_char s = true -> no_char "|" s = true.
Proof. apply str_forall_impl. unfold plain_char. intros c. rewrite !andb_true_iff. tauto. Qed.

Lemma plain_no_hash s : str_forall plain_char s = true -> no_char "#" s = true.
Proof. apply str_forall_impl. unfold plain_char. intros c. rewrite !andb_true_iff. tauto. Qed.

Lemma plain_no_space s : str_forall plain_char s = true ->
  str_forall (fun c => negb (isspace c)) s = true.
Proof. apply str_forall_impl. unfold plain_char. intros c. rewrite !andb_true_iff. tauto. Qed.

Definition bars (fs : list string) : string := join_char "|" fs.

Lemma no_bar a : no_char "|" a = true -> find_first_of "|" a = None.
Proof.
  intros Ha. apply find_if_none. eapply str_forall_impl; [|exact Ha].
  intros c Hc. by rewrite in_set_char.
Qed.

Lemma find_bar a b : no_char "|" a = true -> find_first_of "|" (a ++ String "|" b) = Some (String.length a).
Proof.
  intros Ha. apply find_if_app; [|done].
  eapply str_forall_impl; [|exact Ha]. intros c Hc. by rewrite in_set_char.
Qed.

Lemma find_last_bar a b : exists n, find_last_of "|" (a ++ String "|" b) = Some n
  /\ (no_char "|" b = true -> n = String.length a)
  /\ (forall x y, b = x ++ String "|" y -> (String.length a < n)%nat).
Proof.
  unfold find_last_of. rewrite rfind_if_app_gen by done. eexists. split; [done|]. split.
  - intros Hb. destruct (rfind_if (in_set "|") b) as [m|] eqn:E; [|done].
    exfalso. clear - Hb E. revert m E. induction b as [|c b IH]; intros m; [done|].
    cbn in Hb. apply andb_true_iff in Hb as [Hc Hb]. cbn [rfind_if].
    destruct (rfind_if (in_set "|") b) as [k|]; [by destruct (IH Hb k)|].
    apply negb_true_iff in Hc. by rewrite in_set_char, Hc.
  - intros x y ->. rewrite rfind_if_app_gen by done. lia.
Qed.

(** The protocol fields of a measure of at least two fields. *)
Definition protocol_fields (st dn f : string) (fs : list string) : list string :=
  match fs with
  | [v] => [""; dn; st; f; ""; f; v]
  | f1 :: _ => "" :: dn :: f :: f1 :: "" :: fs
  | [] => []
  end%list.

Lemma contentForSBCProtocol_fields st dn f fs : fs <> [] ->
  Forall (fun w => no_char "|" w = true) (f :: fs) ->
  contentForSBCProtocol (bars (f :: fs)) st dn = bars (protocol_fields st dn f fs).
Proof.
  intros Hne Hf. apply Forall_cons_1 in Hf as [Hf Hfs].
  unfold contentForSBCProtocol. unfold bars.
  rewrite !(join_cons _ f) by done. rewrite find_bar by done.
  destruct (find_last_bar f (join_char "|" fs)) as (n & -> & H1 & H2).
  destruct fs as [|f1 [|f2 fs]]; [done| |].
  - apply Forall_cons_1 in Hfs as [Hf1 _]. rewrite H1 by done. rewrite Nat.eqb_refl.
    cbn [join_char]. by rewrite str_take_app.
  - apply Forall_cons_1 in Hfs as [Hf1 _].
    assert (Hn : Nat.eqb (String.length f) n = false).
    { apply Nat.eqb_neq. specialize (H2 f1 (join_char "|" (f2 :: fs))).
      rewrite join_cons in H2 by done. specialize (H2 eq_refl). lia. }
    rewrite Hn, str_take_app.
    assert (Hd : str_drop (S (String.length f)) (f ++ String "|" (join_char "|" (f1 :: f2 :: fs)))
                 = join_char "|" (f1 :: f2 :: fs)).
    { rewrite <- Nat.add_1_r, <- str_drop_drop, str_drop_app. reflexivity. }
    rewrite Hd. rewrite (join_cons _ f1) by done. rewrite find_bar, str_take_app by done.
    reflexivity.
Qed.

Lemma bars_message fs : fs <> [] -> Forall plain fs ->
  bars fs <> "" /\ str_forall (fun c => negb (isspace c) && negb (Ascii.eqb c "#")) (bars fs) = true.
Proof.
  intros Hne Hf. split.
  - destruct fs as [|a [|b fs]]; [done| |]; apply Forall_cons_1 in Hf as [[Ha _] _]; cbn; [done|].
    by destruct a.
  - apply str_forall_join; [done|]. eapply Forall_impl; [exact Hf|]. intros w [_ Hw].
    eapply str_forall_impl; [|exact Hw]. unfold plain_char. intros c. rewrite !andb_true_iff. tauto.
Qed.


(** ** Measures without mappings *)

Section Measures.
  Context `{HBL : BoostLaws} `{HR : Rapidjson} `{HP : PropertyTree} `{HTL : PosixTimeLaws}.
  Context (double_to_long : string -> outcome Z) (now : RiotISO8601).

(** A service and a device with neither mappings nor static attributes. *)
Definition quiet_service (service : ptree) : Prop :=
  pt_get_child service Store.ATTRIBUTES = None /\ pt_get_child service Store.STATIC_ATTRIBUTES = None.

Definition quiet_device (dev : option Device) : Prop :=
  match dev with
  | Some d => _static_attributes d = ∅ /\ forall name, snd (get_attribute d name) = ""
  | None => True
  end.

(** Devices that only differ in attributes without a mapping. *)
Definition same_device (dev dev' : option Device) : Prop :=
  match dev, dev' with
  | Some d, Some d' => exists m, d' = set_attributes d m
  | None, None => True
  | _, _ => False
  end.

#[local] Instance same_device_preorder : PreOrder same_device.
Proof.
  split.
  - intros [d|]; [|done]. exists (Device._attributes d). by destruct d.
  - intros [a|] [b|] [c|]; cbn; try done. intros [m ->] [m' ->]. by exists m'.
Qed.

(** An element and its device while attributes are added. *)
Definition quiet (ce : ContextElement) : Prop :=
  pt_get_child (_service_info ce) Store.ATTRIBUTES = None /\ quiet_device (_device_info ce).

Lemma add_attribute_quiet fuel ce a : (1 <= fuel)%nat -> quiet ce ->
  empty_value (default_type a) = false ->
  exists ce', add_attribute fuel ce a = Some (Ret ce')
    /\ _id ce' = _id ce /\ _type ce' = _type ce
    /\ _attributes ce' = (_attributes ce ++ [default_type a])%list
    /\ _service_info ce' = _service_info ce
    /\ same_device (_device_info ce) (_device_info ce') /\ quiet ce'.
Proof.
  intros Hf [Hs Hd] He. destruct fuel as [|fuel]; [lia|]. rewrite add_attribute_S, He.
  assert (Hm : mapping_text ce (get_name a) = "").
  { rewrite mapping_text_eq, Hs. destruct (_device_info ce) as [d|]; [|done].
    cbn in Hd. by rewrite (proj2 Hd). }
  rewrite Hm. cbn [String.eqb negb]. eexists. split; [done|].
  unfold find_mapping. destruct ce as [id type p atts si [d|]]; cbn in *.
  - unfold get_attribute. destruct Hd as [Hst Hd].
    destruct (Device._attributes d !! get_name a) as [v|] eqn:E; cbn.
    + pose proof (Hd (get_name a)) as Hv. unfold get_attribute in Hv. rewrite E in Hv. cbn in Hv.
      subst v. cbn. rewrite Hs. cbn. repeat split; try done; by exists (Device._attributes d); destruct d.
    + rewrite Hs. cbn. repeat split; try done; [by eexists|].
      intros name. pose proof (get_attribute_view d (get_name a) name) as Hv.
      unfold get_attribute at 2 in Hv. rewrite E in Hv. cbn in Hv. by rewrite Hv.
  - rewrite Hs. cbn. repeat split; done.
Qed.

(** The attributes of one observation. *)
Definition date_attribute (date : string) : Attribute := time_metadata date.

Definition measured (name value date : string) : Attribute :=
  default_type (add_metadata (new_attribute name "" value) (time_metadata date)).

(** The element of one observation. *)
Definition observed (service : ptree) (dev : option Device) (dn name value date : string)
    (ce : ContextElement) : Prop :=
  let named := format (mkContextElement (render_identifier dn) "" "false" [] service dev) in
  _id ce = _id named /\ _type ce = _type named
  /\ _attributes ce = [measured name value date; date_attribute date].

Lemma render_nil : render_identifier "" = "".
Proof. apply render_identifier_clean; [done|]. cbn. lia. Qed.

Lemma quiet_static d : _static_attributes d = ∅ -> in_order (_static_attributes d) = [].
Proof. intros ->. unfold in_order. by rewrite map_to_list_empty. Qed.

Lemma or_empty_nonempty s : or_empty_value s <> "".
Proof. unfold or_empty_value. destruct (String.eqb s "") eqn:E; [done|by apply String.eqb_neq]. Qed.

Lemma measured_value name value date :
  empty_value (measured name value date) = false.
Proof.
  unfold measured. apply default_type_scalar. unfold scalar, new_attribute.
  cbn [add_metadata get_value get_type]. rewrite render_nil.
  split; [apply or_empty_nonempty|]. split; [done|apply render_nil].
Qed.

Lemma date_attribute_ok date : default_type (date_attribute date) = date_attribute date
  /\ empty_value (date_attribute date) = false.
Proof.
  assert (Ht : get_type (date_attribute date) = "ISO8601").
  { cbn. apply render_identifier_clean; [done|]. unfold IDENTIFIER_MAX_LENGTH. cbn [String.length]. lia. }
  split.
  - apply default_type_id. by rewrite Ht.
  - unfold empty_value. rewrite Ht. cbn. apply String.eqb_neq, or_empty_nonempty.
Qed.

Lemma now_string_ok : exists ts, now_string now = Ret ts.
Proof. unfold now_string. rewrite toUTC_eq. by eexists. Qed.

Lemma observation_ok fuel service dev dn name value date :
  (1 <= fuel)%nat -> quiet_service service -> quiet_device dev ->
  exists ce, observation now fuel service dev dn name value date = Some (Ret ce)
    /\ observed service dev dn name value date ce
    /\ same_device dev (_device_info ce) /\ quiet_device (_device_info ce).
Proof.
  intros Hf [Hs1 Hs2] Hd. unfold observation. destruct now_string_ok as [ts ->]. cbn [fbind].
  unfold set_env_info, new_context_element. rewrite render_nil, Hs2.
  cbn [_id _type _is_pattern _attributes].
  set (ce0 := format _).
  assert (E0 : (match dev with
                | Some d => add_device_static fuel ts ce0 (in_order (_static_attributes d))
                | None => Some (Ret ce0)
                end) = Some (Ret ce0)).
  { destruct dev as [d|]; [|done]. rewrite quiet_static; [done|apply Hd]. }
  rewrite E0. cbn [fbind].
  assert (F : _service_info ce0 = service /\ _device_info ce0 = dev /\ _attributes ce0 = []).
  { unfold ce0, format. by destruct dev. }
  destruct F as (F1 & F2 & F3).
  change (new_attribute "TimeInstant" "ISO8601" date) with (time_metadata date).
  destruct (add_attribute_quiet fuel ce0
    (add_metadata (new_attribute name "" value) (time_metadata date))) as
    (ce1 & -> & I1 & T1 & A1 & S1 & D1 & Q1); [done|unfold quiet; by rewrite F1, F2|apply measured_value|].
  cbn [fbind].
  destruct (date_attribute_ok date) as [Hdt Hde].
  destruct (add_attribute_quiet fuel ce1 (date_attribute date)) as
    (ce2 & E2 & I2 & T2 & A2 & S2 & D2 & Q2); [done|done|by rewrite Hdt|].
  unfold date_attribute in E2. rewrite E2. exists ce2. split; [done|]. split.
  - unfold observed. fold ce0. rewrite I2, T2, A2, A1, F3, Hdt. done.
  - split; [|apply Q2]. rewrite <- F2. by etransitivity.
Qed.

(** The observed element only depends on what the device keeps. *)
Lemma observed_same service dev dev' dn name value date ce : same_device dev dev' ->
  observed service dev' dn name value date ce -> observed service dev dn name value date ce.
Proof. destruct dev as [d|], dev' as [d'|]; cbn; try done. intros [m ->]. done. Qed.

(** Pairs of fields. *)
Definition flatten (ps : list (string * string)) : list string :=
  List.concat (map (fun p => [fst p; snd p]) ps).

Lemma attributes_loop_pairs fuel service dn date (extra : list string) ps :
  (1 <= fuel)%nat -> quiet_service service ->
  Forall (fun p => fst p <> "" /\ snd p <> "") ps ->
  forall dev ces, quiet_device dev ->
  exists dev' new,
    attributes_loop now fuel service dn date (flatten ps ++ extra) dev ces
    = attributes_loop now fuel service dn date extra dev' (ces ++ new)
    /\ same_device dev dev' /\ quiet_device dev'
    /\ Forall2 (fun p ce => observed service dev dn (fst p) (snd p) date ce) ps new.
Proof.
  intros Hf Hs. induction 1 as [|[n v] ps [Hn Hv] Hps IH]; intros dev ces Hd.
  - exists dev, []. rewrite app_nil_r. cbn. repeat split; done.
  - cbn [fst snd] in *. destruct (observation_ok fuel service dev dn n v date Hf Hs Hd)
      as (ce & E & Ho & Hsd & Hqd).
    destruct (IH (_device_info ce) (ces ++ [ce])%list Hqd) as (dev' & new & El & Hsd' & Hq' & Hall).
    exists dev', (ce :: new). cbn [flatten map List.concat app attributes_loop fst snd].
    apply String.eqb_neq in Hn, Hv. rewrite Hn. cbn [negb]. unfold one_attribute at 1.
    rewrite Hv, E. cbn [fbind fst snd]. unfold flatten in El. rewrite El, <- app_assoc.
    split; [done|]. split; [by etransitivity|]. split; [done|]. constructor; [done|].
    eapply Forall2_impl; [exact Hall|]. intros p c. by apply observed_same.
Qed.

(** ** A measure, then a message *)

Definition loop_fields (f : string) (fs : list string) : list string :=
  match fs with [v] => [f; v] | _ => fs end.

Definition field_time (q : query_names) (f : string) (fs : list string) : string :=
  match fs with [_] => samplingTime q | _ => f end.

(** A name of the device that can stand between bars. *)
Definition name_ok (dn : string) : Prop := dn <> "" /\ no_char "|" dn = true.

Lemma tokenize_bars fs : (2 <= List.length fs)%nat ->
  Forall (fun w => no_char "|" w = true) fs -> riot_tokenizer (bars fs) "|" = fs.
Proof.
  intros Hl Hf. unfold riot_tokenizer, bars. rewrite tokenize_law.
  - apply split_join; [|done]. intros ->. cbn in Hl. lia.
  - destruct fs as [|a [|b fs]]; cbn in Hl; [lia|lia|]. by destruct a.
Qed.

(** The body of a measure, from its fields on. *)
Lemma measure_eq fuel service q dn msg st p rest dev ces :
  riot_tokenizer (contentForSBCProtocol msg (samplingTime q) dn) UL20_SEPARATOR
  = "" :: dn :: st :: p :: rest ->
  dn <> "" -> p <> "" ->
  measure double_to_long now fuel service 0 q dn msg dev ces
  = rethrow (fuel! date := Some (sampling_date double_to_long now st) in
             attributes_loop now fuel service dn date rest dev ces).
Proof.
  intros Ht Hdn Hp. unfold measure. change (0 =? 0) with true. cbn iota. rewrite Ht.
  assert (Hz : zlen ("" :: dn :: st :: p :: rest) <? NUM_ELEMENTS_ULPROTOCOL = false).
  { apply Z.ltb_ge. unfold zlen, NUM_ELEMENTS_ULPROTOCOL. cbn [List.length]. lia. }
  rewrite Hz, (vix_lookup _ 1 dn), (vix_lookup _ 2 st), (vix_lookup _ 3 p) by (lia || reflexivity).
  cbn [fbind]. apply String.eqb_neq in Hdn as Hdn'. apply String.eqb_neq in Hp. rewrite Hdn', Hp.
  cbn [negb]. destruct dn; done.
Qed.

Lemma measure_fields fuel service q dn f fs dev ces :
  name_ok dn -> no_char "|" (samplingTime q) = true -> fs <> [] ->
  Forall plain (f :: removelast fs) -> Forall (fun w => no_char "|" w = true) fs ->
  measure double_to_long now fuel service 0 q dn (bars (f :: fs)) dev ces
  = rethrow (fuel! date := Some (sampling_date double_to_long now (field_time q f fs)) in
             attributes_loop now fuel service dn date ("" :: loop_fields f fs) dev ces).
Proof.
  intros [Hdn Hdn'] Hq Hne Hp Hfs. apply Forall_cons_1 in Hp as [[Hfn Hf] Hp].
  apply plain_no_bar in Hf. assert (Hnil : no_char "|" "" = true) by done.
  assert (Hc := contentForSBCProtocol_fields (samplingTime q) dn f fs Hne
                  (Forall_cons_2 _ _ _ Hf Hfs)).
  destruct fs as [|f1 [|f2 fs]]; [done| |].
  - apply (measure_eq _ _ _ _ _ _ f); [|done|done]. rewrite Hc.
    apply tokenize_bars; [cbn [List.length]; lia|].
    inversion_clear Hfs. repeat (apply Forall_cons_2; [assumption|]). apply Forall_nil_2.
  - apply Forall_cons_1 in Hp as [[Hf1 _] _].
    apply (measure_eq _ _ _ _ _ _ f1); [|done|done]. rewrite Hc.
    apply tokenize_bars; [cbn [List.length]; lia|].
    assert (no_char "|" f1 = true) by (by inversion_clear Hfs).
    repeat (apply Forall_cons_2; [assumption|]). by inversion_clear Hfs.
Qed.

Lemma attributes_loop_skip fuel service dn date n rest dev ces : n <> "" ->
  attributes_loop now fuel service dn date ("" :: n :: rest) dev ces
  = attributes_loop now fuel service dn date (n :: rest) dev ces.
Proof.
  intros Hn. apply String.eqb_neq in Hn. cbn [attributes_loop].
  change (String.eqb "" "") with true. rewrite Hn. cbn [negb]. by destruct rest.
Qed.

(** The content of a message. *)
Lemma message_tokens texts : texts <> [] ->
  Forall (fun t => t <> "" /\ str_forall (fun c => negb (isspace c) && negb (Ascii.eqb c "#")) t = true)
    texts ->
  riot_tokenizer (erase_all (erase_all (trim (join_char "#" texts)) (ascii_of_nat 10))
                    (ascii_of_nat 13)) UL20_MEASURE_SEPARATOR = texts.
Proof.
  intros Hne Ht.
  assert (Hsp : str_forall (fun c => negb (isspace c)) (join_char "#" texts) = true).
  { apply str_forall_join; [done|]. eapply Forall_impl; [exact Ht|]. intros t [_ H].
    eapply str_forall_impl; [|exact H]. intros c Hc. by apply andb_true_iff in Hc as [? _]. }
  assert (Hno : forall x, isspace x = true -> no_char x (join_char "#" texts) = true).
  { intros x Hx. eapply str_forall_impl; [|exact Hsp]. intros c Hc.
    destruct (Ascii.eqb_spec c x) as [->|]; [by rewrite Hx in Hc|done]. }
  rewrite trim_no_space by done.
  rewrite (erase_all_no _ (ascii_of_nat 10)), (erase_all_no _ (ascii_of_nat 13)) by (by apply Hno).
  unfold riot_tokenizer, UL20_MEASURE_SEPARATOR. rewrite tokenize_law.
  - apply split_join; [done|]. eapply Forall_impl; [exact Ht|]. intros t [_ H].
    eapply str_forall_impl; [|exact H]. intros c Hc. by apply andb_true_iff in Hc as [_ ?].
  - destruct texts as [|t texts]; [done|]. apply Forall_cons_1 in Ht as [[Ht _] _].
    destruct texts; cbn; [done|]. by destruct t.
Qed.

(** ** The messages of the protocol *)

(** A measure as a device sends it: a time, if it has one, a name and a value. *)
Record sent : Type := mkSent { s_time : option string; s_name : string; s_value : string }.

Definition sent_fields (m : sent) : list string :=
  (match s_time m with Some t => [t] | None => [] end ++ [s_name m; s_value m])%list.

Definition sent_text (m : sent) : string := bars (sent_fields m).

Definition sent_ok (m : sent) : Prop := Forall plain (sent_fields m).

Lemma plain_fields fs : Forall plain fs -> Forall (fun w => no_char "|" w = true) fs.
Proof. intros Hf. eapply Forall_impl; [exact Hf|]. intros w [_ Hw]. by apply plain_no_bar. Qed.

Lemma measure_sent fuel service q dn m date dev ces :
  (1 <= fuel)%nat -> quiet_service service -> name_ok dn -> no_char "|" (samplingTime q) = true ->
  quiet_device dev -> sent_ok m ->
  sampling_date double_to_long now (default (samplingTime q) (s_time m)) = Ret date ->
  exists dev' ce,
    measure double_to_long now fuel service 0 q dn (sent_text m) dev ces
    = Some (Ret (dev', (ces ++ [ce])%list))
    /\ same_device dev dev' /\ quiet_device dev'
    /\ observed service dev dn (s_name m) (s_value m) date ce.
Proof.
  intros Hf Hs Hdn Hq Hd Hok Hdate. unfold sent_ok in Hok.
  destruct m as [[t|] n v]; unfold sent_text, sent_fields in *; cbn [s_time s_name s_value app default from_option id] in *.
  all: pose proof (plain_fields _ Hok) as Hbars; apply Forall_cons_1 in Hok as [H0 Hok];
    apply Forall_cons_1 in Hok as [H1 Hok].
  - apply Forall_cons_1 in Hok as [H2 _].
    rewrite measure_fields;
      [|done|done|done|repeat (apply Forall_cons_2; [done|]); apply Forall_nil_2|by inversion_clear Hbars].
    cbn [field_time loop_fields]. rewrite Hdate. cbn [fbind].
    rewrite attributes_loop_skip by apply H1.
    destruct (attributes_loop_pairs fuel service dn date [] [(n, v)] Hf Hs) with (dev := dev) (ces := ces)
      as (dev' & new & El & Hsd & Hqd & Hall); [by constructor; [split; [apply H1|apply H2]|]|done|].
    cbn [flatten map List.concat app fst snd] in El. rewrite El.
    apply Forall2_cons_inv_l in Hall as (ce & new' & Ho & Hnil & ->).
    apply Forall2_nil_inv_l in Hnil as ->. by exists dev', ce.
  - rewrite measure_fields;
      [|done|done|done|repeat (apply Forall_cons_2; [done|]); apply Forall_nil_2|by inversion_clear Hbars].
    cbn [field_time loop_fields]. rewrite Hdate. cbn [fbind].
    rewrite attributes_loop_skip by apply H0.
    destruct (attributes_loop_pairs fuel service dn date [] [(n, v)] Hf Hs) with (dev := dev) (ces := ces)
      as (dev' & new & El & Hsd & Hqd & Hall); [by constructor; [split; [apply H0|apply H1]|]|done|].
    cbn [flatten map List.concat app fst snd] in El. rewrite El.
    apply Forall2_cons_inv_l in Hall as (ce & new' & Ho & Hnil & ->).
    apply Forall2_nil_inv_l in Hnil as ->. by exists dev', ce.
Qed.

Lemma measures_loop_sent fuel service q dn ms dates :
  (1 <= fuel)%nat -> quiet_service service -> name_ok dn -> no_char "|" (samplingTime q) = true ->
  Forall sent_ok ms ->
  Forall2 (fun m date => sampling_date double_to_long now (default (samplingTime q) (s_time m))
                         = Ret date) ms dates ->
  forall dev ces, quiet_device dev ->
  exists dev' new,
    measures_loop double_to_long now fuel service 0 q dn (map sent_text ms) dev ces
    = Some (Ret (dev', (ces ++ new)%list))
    /\ same_device dev dev'
    /\ Forall2 (fun md ce => observed service dev dn (s_name (fst md)) (s_value (fst md)) (snd md) ce)
         (zip ms dates) new.
Proof.
  intros Hf Hs Hdn Hq Hms Hdates. revert Hms.
  induction Hdates as [|m date ms dates Hm Hdates IH]; intros Hms dev ces Hd.
  - exists dev, []. cbn. rewrite app_nil_r. split; [done|]. split; [reflexivity|constructor].
  - apply Forall_cons_1 in Hms as [Hok Hms].
    destruct (measure_sent fuel service q dn m date dev ces Hf Hs Hdn Hq Hd Hok Hm)
      as (dev1 & ce & E & Hsd & Hqd & Ho).
    destruct (IH Hms dev1 (ces ++ [ce])%list Hqd) as (dev' & new & El & Hsd' & Hall).
    exists dev', (ce :: new). cbn [map measures_loop zip zip_with]. rewrite E. cbn [fbind fst snd].
    rewrite El, <- app_assoc. split; [done|]. split; [by etransitivity|]. constructor; [done|].
    eapply Forall2_impl; [exact Hall|]. intros p c. by apply observed_same.
Qed.

(** The name of the device in [translate]. *)
Definition translated_name (dev : option Device) (service : ptree) (query : list KVP) : string :=
  match dev with
  | Some d => get_real_name (pt_get service) d
  | None => device_name (read_query query)
  end.

(** C31. A message of measures becomes one context element for each, in order.
    For a device and a service without mappings and static attributes, and
    fields without white space and separators, each element has the identifier
    and type [format] gives the device, the attribute measured with its value
    and its date as metadata, and the date as a second attribute; the date is
    the measure's, or the one of the query. *)
Theorem translate_measures (fuel : nat) (dev : option Device) (service : ptree)
    (query : list KVP) (ms : list sent) (dates : list string) :
  (1 <= fuel)%nat -> quiet_service service -> quiet_device dev ->
  name_ok (translated_name dev service query) ->
  no_char "|" (samplingTime (read_query query)) = true ->
  ms <> [] -> Forall sent_ok ms ->
  Forall2 (fun m date => sampling_date double_to_long now
             (default (samplingTime (read_query query)) (s_time m)) = Ret date) ms dates ->
  exists dev' ces,
    translate double_to_long now fuel (join_char "#" (map sent_text ms)) dev service query [] 0
    = Some (Ret (dev', ces))
    /\ same_device dev dev'
    /\ Forall2 (fun md ce => observed service dev (translated_name dev service query)
                              (s_name (fst md)) (s_value (fst md)) (snd md) ce)
         (zip ms dates) ces.
Proof.
  intros Hf Hs Hd Hdn Hq Hne Hok Hdates.
  destruct (measures_loop_sent fuel service _ _ ms dates Hf Hs Hdn Hq Hok Hdates dev [] Hd)
    as (dev' & ces & El & Hsd & Hall).
  exists dev', ces. split; [|done]. unfold translate.
  rewrite message_tokens.
  - assert (Hl : List.length ms = List.length ces).
    { rewrite <- (Forall2_length _ _ _ Hall), length_zip_with_l_eq; [done|].
      by eapply Forall2_length. }
    fold (translated_name dev service query). cbn [app] in El.
    destruct (map sent_text ms) as [|t ts] eqn:Em; [by destruct ms|].
    rewrite <- Em in *. destruct (map sent_text ms) as [|t' ts'] eqn:Em'; [done|]. rewrite El.
    cbn [fbind snd]. unfold zlen. rewrite <- Hl, <- Em', length_map, Z.eqb_refl. done.
  - by destruct ms.
  - apply Forall_map. eapply Forall_impl; [exact Hok|]. intros m Hm. apply bars_message; [|exact Hm].
    unfold sent_fields. by destruct (s_time m).
Qed.
End Measures.

(** ** Malformed messages, commands and responses *)

Section Malformed.
  Context `{HBL : BoostLaws} `{HR : Rapidjson} `{HP : PropertyTree} `{HTL : PosixTimeLaws}.
  Context (double_to_long : string -> outcome Z) (now : RiotISO8601).
  Context (fuel : nat) (dev : option Device) (service : ptree) (query : list KVP).

Notation run content := (translate double_to_long now fuel content dev service query [] 0).
Notation dn := (translated_name dev service query).
Notation q := (read_query query).

(** A message of one measure is the measure. *)
Lemma translate_one text :
  text <> "" -> str_forall (fun c => negb (isspace c) && negb (Ascii.eqb c "#")) text = true ->
  run text
  = fuel! r := measure double_to_long now fuel service 0 q dn text dev [] in
    if negb (1 =? zlen (snd r)) then Some (Throw (protocol_error "Protocol error, ")) else Some (Ret r).
Proof.
  intros Hne Ht. unfold translate.
  pose proof (message_tokens [text] ltac:(done) (Forall_cons_2 _ _ _ (conj Hne Ht) (Forall_nil_2 _))) as Hm.
  cbn [join_char] in Hm. rewrite Hm. cbn [measures_loop].
  fold (translated_name dev service query).
  destruct (measure _ _ _ _ _ _ _ text dev []) as [[[d ces]| |]|]; done.
Qed.

Lemma flatten_fields ps : Forall (fun p => plain (fst p) /\ plain (snd p)) ps -> Forall plain (flatten ps).
Proof.
  induction 1 as [|[n v] ps [Hn Hv] Hps IH]; [apply Forall_nil_2|].
  unfold flatten. cbn. by repeat apply Forall_cons_2.
Qed.

Lemma plain_pairs ps : Forall (fun p => plain (fst p) /\ plain (snd p)) ps ->
  Forall (fun p => fst p <> "" /\ snd p <> "") ps.
Proof. intros H. eapply Forall_impl; [exact H|]. intros p [[? _] [? _]]. done. Qed.

Lemma removelast_plain fs : Forall plain fs -> Forall plain (removelast fs).
Proof.
  induction 1 as [|f fs Hf Hfs IH]; [apply Forall_nil_2|].
  destruct fs; [apply Forall_nil_2|]. by apply Forall_cons_2.
Qed.

(** The measure of a time and the fields after it. *)
Lemma run_fields t n v ps extra :
  name_ok dn -> no_char "|" (samplingTime q) = true ->
  plain t -> Forall (fun p => plain (fst p) /\ plain (snd p)) ((n, v) :: ps) -> Forall plain extra ->
  run (bars (t :: flatten ((n, v) :: ps) ++ extra)%list)
  = fuel! r := rethrow (fuel! date := Some (sampling_date double_to_long now t) in
      attributes_loop now fuel service dn date (flatten ((n, v) :: ps) ++ extra)%list dev []) in
    if negb (1 =? zlen (snd r)) then Some (Throw (protocol_error "Protocol error, ")) else Some (Ret r).
Proof.
  intros Hdn Hq Ht Hps Hex.
  assert (Hall : Forall plain (flatten ((n, v) :: ps) ++ extra)%list).
  { apply Forall_app. split; [by apply flatten_fields|done]. }
  destruct (bars_message (t :: flatten ((n, v) :: ps) ++ extra)%list) as [Hne Hm];
    [done|by apply Forall_cons_2|].
  rewrite translate_one by done. rewrite measure_fields; try done.
  - apply Forall_cons_1 in Hps as [[[Hn _] _] _]. cbn [fst] in Hn.
    unfold flatten. cbn [map List.concat app fst snd field_time loop_fields].
    destruct (sampling_date double_to_long now t); cbn [fbind]; [|done..].
    by rewrite attributes_loop_skip.
  - apply Forall_cons_2; [done|]. by apply removelast_plain.
  - by apply plain_fields.
Qed.

(** A single field has no property. *)
Lemma run_single f : name_ok dn -> plain f ->
  run f = Some (Throw (protocol_error
        "Protocol error, measurement has not got property or idResource ")).
Proof.
  intros Hdn Hpf. destruct (bars_message [f]) as [Hne Hm]; [done|by constructor|].
  cbn [bars join_char] in Hne, Hm. rewrite translate_one by done.
  unfold measure. change (0 =? 0) with true. cbn iota.
  assert (Hnb := plain_no_bar _ (proj2 Hpf)).
  assert (Ec : contentForSBCProtocol f (samplingTime q) dn = bars [""; dn; ""; ""; ""; ""]).
  { unfold contentForSBCProtocol. by rewrite no_bar. }
  rewrite Ec. unfold UL20_SEPARATOR. rewrite tokenize_bars;
    [|cbn [List.length]; lia|repeat (apply Forall_cons_2; [try done; apply Hdn|]); apply Forall_nil_2].
  rewrite (vix_lookup _ 1 dn), (vix_lookup _ 2 ""), (vix_lookup _ 3 "") by (lia || reflexivity).
  cbn [fbind]. destruct Hdn as [Hdn _]. apply String.eqb_neq in Hdn. rewrite Hdn.
  change (zlen [""; dn; ""; ""; ""; ""] <? NUM_ELEMENTS_ULPROTOCOL) with false. cbn iota.
  cbn [negb]. by rewrite orb_true_r.
Qed.

(** A name without a value. *)
Lemma run_no_value f date : name_ok dn -> no_char "|" (samplingTime q) = true -> plain f ->
  sampling_date double_to_long now (samplingTime q) = Ret date ->
  run (f ++ "|") = Some (Throw (protocol_error "Protocol error, Empty values is not allowed ")).
Proof.
  intros Hdn Hq Hpf Hdate.
  destruct (bars_message [f]) as [_ Hm]; [done|by constructor|]. cbn [bars join_char] in Hm.
  assert (Et : f ++ "|" = bars [f; ""]) by done. rewrite Et.
  rewrite translate_one.
  + rewrite measure_fields; [|done|done|done|apply Forall_cons_2; [done|apply Forall_nil_2]
      |apply Forall_cons_2; [done|apply Forall_nil_2]].
    cbn [field_time loop_fields]. rewrite Hdate. cbn [fbind].
    rewrite attributes_loop_skip by apply Hpf. cbn [attributes_loop].
    destruct Hpf as [Hne _]. apply String.eqb_neq in Hne. by rewrite Hne.
  + cbn. by destruct f.
  + rewrite <- Et, str_forall_app, Hm. done.
Qed.

(** Messages that are not a measure.  An empty message, a single field
    and an empty value are refused; and of a measure with more than a time, a
    name and a value: with whole pairs after the time it is refused, as it
    makes more elements than measures, and with a field left over the code
    reads past the end of the vector. *)
Theorem translate_malformed :
  (1 <= fuel)%nat -> quiet_service service -> quiet_device dev -> name_ok dn ->
  no_char "|" (samplingTime q) = true ->
  run "" = Some (Throw (protocol_error "Protocol error, no measurements"))
  /\ (forall f, plain f -> run f = Some (Throw (protocol_error
        "Protocol error, measurement has not got property or idResource ")))
  /\ (forall f date, plain f -> sampling_date double_to_long now (samplingTime q) = Ret date ->
      run (f ++ "|") = Some (Throw (protocol_error "Protocol error, Empty values is not allowed ")))
  /\ (forall t p1 p2 ps date, plain t ->
      Forall (fun p => plain (fst p) /\ plain (snd p)) (p1 :: p2 :: ps) ->
      sampling_date double_to_long now t = Ret date ->
      run (bars (t :: flatten (p1 :: p2 :: ps)))
      = Some (Throw (protocol_error "Protocol error, ")))
  /\ (forall t p1 ps x date, plain t ->
      Forall (fun p => plain (fst p) /\ plain (snd p)) (p1 :: ps) -> plain x ->
      sampling_date double_to_long now t = Ret date ->
      run (bars (t :: flatten (p1 :: ps) ++ [x])%list) = Some Undefined).
Proof.
  intros Hf Hs Hd Hdn Hq. split; [|split; [|split; [|split]]].
  - unfold translate, riot_tokenizer.
    assert (E : erase_all (erase_all (trim "") (ascii_of_nat 10)) (ascii_of_nat 13) = "").
    { rewrite trim_no_space by done. by rewrite !(erase_all_no "") by done. }
    by rewrite E, tokenize_nil.
  - intros f. by apply run_single.
  - intros f date. by apply run_no_value.
  - intros t [n v] p2 ps date Ht Hps Hdate.
    pose proof (run_fields t n v (p2 :: ps) [] Hdn Hq Ht Hps (Forall_nil_2 _)) as Hr.
    rewrite !app_nil_r in Hr. rewrite Hr, Hdate. cbn [fbind].
    destruct (attributes_loop_pairs now fuel service dn date [] ((n, v) :: p2 :: ps) Hf Hs
                (plain_pairs _ Hps) dev [] Hd) as (dev' & new & El & _ & _ & Hall).
    rewrite app_nil_r in El. rewrite El. cbn [attributes_loop rethrow fbind snd app].
    apply Forall2_length in Hall. unfold zlen. rewrite <- Hall.
    destruct (Z.eqb_spec 1 (Z.of_nat (List.length ((n, v) :: p2 :: ps)))); [|done].
    cbn [List.length] in *. lia.
  - intros t [n v] ps x date Ht Hps Hx Hdate.
    rewrite (run_fields t n v ps [x] Hdn Hq Ht Hps) by (by constructor). rewrite Hdate. cbn [fbind].
    destruct (attributes_loop_pairs now fuel service dn date [x] ((n, v) :: ps) Hf Hs
                (plain_pairs _ Hps) dev [] Hd) as (dev' & new & El & _ & _ & Hall).
    rewrite El. cbn [attributes_loop]. destruct Hx as [Hx _]. apply String.eqb_neq in Hx.
    by rewrite Hx.
Qed.
End Malformed.

Section CommandResponse.
  Context `{HBL : BoostLaws} `{HR : Rapidjson} `{HPL : PropertyTreeLaws}.

Lemma get_id_command_bar a b : no_char "|" a = true ->
  get_id_command (a ++ String "|" b) = get_id_command a.
Proof.
  intros Ha. unfold get_id_command. rewrite find_bar, no_bar by done.
  cbn [str_upto]. by rewrite str_take_app.
Qed.

Lemma get_id_command_at a b : no_char "|" a = true -> no_char "|" b = true ->
  get_id_command (a ++ String "@" b) = (a ++ String "@" b)%string.
Proof.
  intros Ha Hb. assert (Hn : no_char "|" (a ++ String "@" b) = true).
  { unfold no_char in *. rewrite str_forall_app, Ha. exact Hb. }
  unfold get_id_command. rewrite no_bar by done.
  cbn [str_upto]. destruct (find_first_of "@" (a ++ String "@" b)) eqn:E; [done|].
  apply find_if_none in E. rewrite str_forall_app in E. apply andb_true_iff in E as [_ E].
  cbn in E. discriminate.
Qed.

(** The identifier of a command without a template. *)
Definition ul_id (d : Device) (command_name : string) : string :=
  _name d ++ String "@" command_name.

Lemma get_id_body d name value :
  no_char "|" (_name d) = true -> no_char "|" name = true ->
  get_id_command (default_body (_name d) name value)
  = if String.eqb value "" || negb (starts_with "|" value)
    then ul_id d name else get_id_command (ul_id d name ++ value).
Proof.
  intros Hd Hn. unfold default_body, ul_id.
  destruct (String.eqb value "") eqn:E; cbn [negb orb].
  - breflect. subst. rewrite !str_app_nil_r. by apply get_id_command_at.
  - destruct (starts_with "|" value); cbn [negb].
    + cbn. by rewrite <- str_app_assoc.
    + change (_name d ++ "@" ++ name ++ "|" ++ value)
        with (_name d ++ String "@" (name ++ String "|" value)).
      change (String "@" (name ++ String "|" value)) with (String "@" name ++ String "|" value).
      rewrite str_app_assoc, get_id_command_bar; [by apply get_id_command_at|].
      unfold no_char in *. by rewrite str_forall_app, Hd.
Qed.

Lemma ul_id_at d name : ul_id d name <> "".
Proof. unfold ul_id. by destruct (_name d). Qed.

(** The arguments are exchanged: only the empty text and a bar pass the test. *)
Lemma starts_with_bar value : value <> "" -> value <> "|" -> starts_with "|" value = false.
Proof.
  intros Hne Hbar. rewrite starts_with_law. destruct (String.prefix value "|") eqn:E; [|done].
  apply prefix_iff in E as [t Ht]. destruct value as [|c value]; [done|].
  injection Ht as <- Ht. destruct value; [done|discriminate].
Qed.

(** Commands and their responses agree on the identifier.  A command
    without a template, to a device and with a name without bars, is sent with
    the identifier [device@command], followed by a bar and the value unless the
    value is empty or just a bar; a response of that identifier, with any
    result after a bar, is taken as the response of that command, whole; and a
    text whose part before the first bar has no at sign is refused both as a
    command and as a response. *)
Theorem command_response_id (uuid name value seq : string) (d : Device) (line : ptree) :
  no_char "|" (_name d) = true -> no_char "|" name = true ->
  (forall update, json_value_to_ul (trim update) = Ret value ->
   (value <> "|" -> exists line', transform_command uuid name "" update seq d line
      = Some (Ret (ul_id d name, line'))
      /\ pt_get line' Store.BODY
         = Some (if String.eqb value "" then ul_id d name else ul_id d name ++ "|" ++ value)%string)
   /\ (find_first_of "@" (str_upto value (find_first_of "|" value)) = None ->
       exists e, transform_command uuid name RAW update seq d line = Some (Throw e)))
  /\ (forall result r, isCommandResp (ul_id d name ++ "|" ++ result) r
        = (200, ul_id d name ++ "|" ++ result, ul_id d name)%string)
  /\ (forall text r, find_first_of "@" (str_upto text (find_first_of "|" text)) = None ->
        isCommandResp text r = (-1, r, "")).
Proof.
  intros Hd Hn. assert (Hneg : forall text r,
    find_first_of "@" (str_upto text (find_first_of "|" text)) = None ->
    isCommandResp text r = (-1, r, "")).
  { intros text r Ht. unfold isCommandResp, get_id_command. by rewrite Ht. }
  split; [|split; [|done]].
  - intros update Hu. split.
    + intros Hv. unfold transform_command. rewrite Hu, (trim_no_space "") by done.
      cbn [fbind]. change (String.eqb "" RAW) with false. change (nonempty "") with false.
      cbn [fbind]. cbv iota. cbn [fbind].
      exists (pt_put line Store.BODY (default_body (_name d) name value)).
      assert (Hbody : default_body (_name d) name value
        = if String.eqb value "" then ul_id d name else (ul_id d name ++ "|" ++ value)%string).
      { unfold default_body, ul_id. destruct (String.eqb value "") eqn:E; cbn [negb].
        - by rewrite str_app_nil_r.
        - breflect. rewrite starts_with_bar by done. by rewrite <- str_app_assoc. }
      unfold pt_get_default. rewrite pt_get_put. unfold isCommandResp.
      rewrite get_id_body by done.
      assert (Hif : String.eqb value "" || negb (starts_with "|" value) = true).
      { destruct (String.eqb value "") eqn:E; [done|]. breflect. by rewrite starts_with_bar. }
      rewrite Hif, (proj2 (nonempty_true _) (ul_id_at d name)). split; [done|].
      by rewrite Hbody.
    + intros Ht. unfold transform_command. rewrite Hu.
      assert (Hraw : trim RAW = RAW) by (by apply trim_no_space). rewrite Hraw.
      change (String.eqb RAW RAW) with true. cbn [fbind].
      unfold pt_get_default. rewrite pt_get_put, Hneg by done. by eexists.
  - intros result r. unfold isCommandResp.
    change ("|" ++ result) with (String "|" result). rewrite get_id_command_bar.
    + assert (Hid : get_id_command (ul_id d name) = ul_id d name) by (by apply get_id_command_at).
      rewrite Hid. by rewrite (proj2 (nonempty_true _) (ul_id_at d name)).
    + unfold ul_id, no_char in *. by rewrite str_forall_app, Hd.
Qed.
End CommandResponse.

Section Examples.
  Local Existing Instance boost_reference.
  Local Existing Instance posix_reference.

#[local] Instance ul_rapidjson : Rapidjson := rapidjson_table [].
#[local] Instance ul_ptree : PropertyTree := ptree_reference (fun _ => "").

Definition ul_now : RiotISO8601 := utc 100%N.
Definition no_double (s : string) : outcome Z := Throw BadLexicalCast.
Definition ul_device : Device := new_device "dev" "srv".
Definition ul_query : list KVP := [mkKVP "ID" "dev"; mkKVP "t" "200Z"].

Lemma ul_quiet : quiet_service (Tree [] []) /\ quiet_device (Some ul_device).
Proof.
  split; [by split|]. split; [done|]. intros name. unfold get_attribute.
  change (Device._attributes ul_device) with (∅ : gmap string string).
  by rewrite lookup_empty.
Qed.

Lemma ul_date_200 : sampling_date no_double ul_now "200Z" = Ret "200Z".
Proof. reflexivity. Qed.

Lemma ul_date_300 : sampling_date no_double ul_now "300Z" = Ret "300Z".
Proof. reflexivity. Qed.

Lemma translate_measures_witness :
  let ms := [mkSent None "t" "15"; mkSent (Some "300Z") "h" "60"] in
  exists dev' ces,
    translate no_double ul_now 1 "t|15#300Z|h|60" (Some ul_device) (Tree [] []) ul_query [] 0
    = Some (Ret (dev', ces))
    /\ Forall2 (fun md ce => observed (Tree [] []) (Some ul_device) "thing:dev"
                               (s_name (fst md)) (s_value (fst md)) (snd md) ce)
         (zip ms ["200Z"; "300Z"]) ces.
Proof.
  intros ms.
  destruct (translate_measures (HBL := boost_reference_laws) (HP := ul_ptree)
    (HTL := posix_reference_laws)
    no_double ul_now 1 (Some ul_device) (Tree [] []) ul_query ms ["200Z"; "300Z"])
    as (dev' & ces & E & _ & Hall).
  - lia.
  - apply ul_quiet.
  - apply ul_quiet.
  - split; [discriminate|reflexivity].
  - reflexivity.
  - discriminate.
  - assert (Hp : forall s, negb (String.eqb s "") && str_forall plain_char s = true -> plain s).
    { intros s Hs. apply andb_true_iff in Hs as [H1 H2]. split; [|exact H2].
      intros ->. discriminate H1. }
    apply Forall_cons_2; [|apply Forall_cons_2; [|apply Forall_nil_2]].
    + apply Forall_cons_2; [by apply Hp|]. apply Forall_cons_2; [by apply Hp|apply Forall_nil_2].
    + apply Forall_cons_2; [by apply Hp|]. apply Forall_cons_2; [by apply Hp|].
      apply Forall_cons_2; [by apply Hp|apply Forall_nil_2].
  - constructor; [exact ul_date_200|]. constructor; [exact ul_date_300|constructor].
  - exists dev', ces. split; [exact E|exact Hall].
Defined.

Lemma translate_malformed_witness :
  let run content := translate no_double ul_now 1 content (Some ul_device) (Tree [] []) ul_query [] 0 in
  run "t" = Some (Throw (protocol_error
              "Protocol error, measurement has not got property or idResource "))
  /\ run "300Z|t|15|h|60" = Some (Throw (protocol_error "Protocol error, "))
  /\ run "300Z|t|15|h" = Some Undefined.
Proof.
  assert (Hp : forall s, negb (String.eqb s "") && str_forall plain_char s = true -> plain s).
  { intros s Hs. apply andb_true_iff in Hs as [H1 H2]. split; [|exact H2].
    intros ->. discriminate H1. }
  destruct (translate_malformed (HBL := boost_reference_laws) (HP := ul_ptree)
    (HTL := posix_reference_laws)
    no_double ul_now 1 (Some ul_device) (Tree [] []) ul_query) as (_ & H1 & _ & H2 & H3).
  - lia.
  - apply ul_quiet.
  - apply ul_quiet.
  - split; [discriminate|reflexivity].
  - reflexivity.
  - split; [|split].
    + apply H1. by apply Hp.
    + apply (H2 "300Z" ("t", "15") ("h", "60") [] "300Z"); [by apply Hp| |exact ul_date_300].
      repeat (apply Forall_cons_2; [split; by apply Hp|]). apply Forall_nil_2.
    + apply (H3 "300Z" ("t", "15") [] "h" "300Z");
        [by apply Hp| |by apply Hp|exact ul_date_300].
      repeat (apply Forall_cons_2; [split; by apply Hp|]). apply Forall_nil_2.
Defined.

Lemma command_response_id_witness :
  (exists line', transform_command "u" "ping" "" "on" "" ul_device (Tree [] [])
     = Some (Ret ("dev@ping", line')) /\ pt_get line' Store.BODY = Some "dev@ping|on")
  /\ isCommandResp "dev@ping|done" "" = (200, "dev@ping|done", "dev@ping").
Proof.
  destruct (command_response_id (HBL := boost_reference_laws)
    (HPL := ptree_reference_laws (fun _ => "")) "u" "ping" "on" "" ul_device (Tree [] [])
    eq_refl eq_refl) as (Hc & Hr & _).
  split.
  - apply (proj1 (Hc "on" eq_refl)). discriminate.
  - exact (Hr "done" "").
Defined.
End Examples.
