(* ===== verification/UlService.v ===== *)
(** * The UltraLight 2.0 service: the handler [service] of
    [src/src/ultra_light/ul20_service.cc]

    One HTTP request of a device: its query, the service and device it belongs
    to, the measures or the command response in its body, and the commands
    handed back.  The rest of the agent is an interface, [UlEnv], over the
    state of the program. *)
From stdpp Require Import base tactics list gmap strings.
From Stdlib Require Import ZArith Lia Ascii String.
From S2P Require Import Prelude CppString Boost Types FuncUtil IoTUrl Device Json NgsiAttribute.
From S2P Require Import NgsiContext Iso8601 CommandHandle UltraLight.

Local Open Scope string_scope.
Local Open Scope Z_scope.

(** ** The interface *)

(** The operations of [RestHandle] and [CommandHandle] the handler calls, on
    the state [W] of the program; [C] is a command. *)
Class UlEnv `{PropertyTree} (W C : Type) : Type := {
  get_service_by_apiKey : string -> FM W ptree;
  get_device : string -> string -> string -> FM W (option Device);
  update_endpoint_device : Device -> string -> FM W unit;
  send_append : ContextElement -> ptree -> FM W unit;
  get_command : string -> string -> string -> FM W (option C);
  cancel_command : C -> FM W unit;
  remove_command : string -> string -> string -> FM W unit;
  response_command : string -> string -> option Device -> ptree -> FM W unit;
  get_all_command : option Device -> ptree -> FM W (list C);
  database_alarm : string -> string -> FM W unit;
  storage_type : string;
  command_name : C -> string;
  command_body : C -> string
}.

(** The parts of the request the handler reads. *)
Record request : Type := mkRequest {
  method : string;
  query_string : string;
  content_length : Z;
  content_data : option string;
  content_encoding : string
}.

(** The response: a status, 200 unless it is set, a content type and a body. *)
Record response : Type := mkResponse {
  status : Z;
  content_type : option string;
  body : string
}.

Definition GET : string := "GET".

(** ** The query *)

Record ul_params : Type := mkParams {
  querySBC : list KVP;
  p_device : string;
  new_endpoint : string;
  url_update : bool;
  apikey : string;
  p_content : string;
  get_cmd : bool
}.

Definition params_step (method : string) (p : ul_params) (q : KVP) : ul_params :=
  let '(mkParams sbc dev ep upd key content cmd) := p in
  let v := getValue q in
  if String.eqb (getKey q) "i" then
    mkParams (sbc ++ [mkKVP "ID" v]) v ep upd key content cmd
  else if String.eqb (getKey q) "ip" then
    if nonempty v then mkParams (sbc ++ [mkKVP "URL" v]) dev v true key content cmd
    else mkParams sbc dev v upd key content cmd
  else if String.eqb (getKey q) "k" then
    mkParams (sbc ++ [mkKVP "apikey" v]) dev ep upd (key ++ v)%string content cmd
  else if String.eqb (getKey q) "d" && String.eqb method GET then
    mkParams sbc dev ep upd key ((if nonempty content then content ++ "#" else content) ++ v)%string cmd
  else if String.eqb (getKey q) "getCmd" then mkParams sbc dev ep upd key content true
  else mkParams (sbc ++ [mkKVP (getKey q) v]) dev ep upd key content cmd.

Definition read_params (method : string) (query : list KVP) : ul_params :=
  fold_left (params_step method) query (mkParams [] "" "" false "" "" false).

Section Service.
  Context `{Boost} `{Rapidjson} `{PropertyTree} `{PosixTime} {W C : Type} `{!UlEnv W C}.
  Context (double_to_long : string -> outcome Z) (now : RiotISO8601).

(** What the [try] block leaves in the variables of the handler. *)
Record locals : Type := mkLocals { l_service : ptree; l_dev : option Device }.

Definition set_service (s : ptree) : FM (W * locals) unit :=
  fun st => Some (fst st, mkLocals s (l_dev (snd st)), Ret tt).
Definition set_dev (d : option Device) : FM (W * locals) unit :=
  fun st => Some (fst st, mkLocals (l_service (snd st)) d, Ret tt).

(** An operation on the state of the program. *)
Definition world {A} (c : FM W A) : FM (W * locals) A := fun st =>
  match c (fst st) with Some (w, r) => Some (w, snd st, r) | None => None end.

Definition set_endpoint (d : Device) (endpoint : string) : Device :=
  mkDevice (Device._name d) (Device._protocol d) (Device._service d) (Device._service_path d) (Device._entity_type d)
    (Device._entity_name d) (Device._timezone d) endpoint (Device._attributes d) (Device._commands d) (Device._static_attributes d)
    (Device._lazy d) (Device._model d) (Device._active d) (Device._registration_id d) (Device._duration_cb d) (Device._timestamp_data d).

Definition set_service_path (d : Device) (path : string) : Device :=
  mkDevice (Device._name d) (Device._protocol d) (Device._service d) path (Device._entity_type d)
    (Device._entity_name d) (Device._timezone d) (Device._endpoint d) (Device._attributes d) (Device._commands d)
    (Device._static_attributes d) (Device._lazy d) (Device._model d) (Device._active d) (Device._registration_id d) (Device._duration_cb d)
    (Device._timestamp_data d).

Definition bad_request (details : string) : exn :=
  IotaException RESPONSE_MESSAGE_BAD_REQUEST details RESPONSE_CODE_BAD_REQUEST.

(** The endpoint of a registered device, when the query has a new one. *)
Definition change_endpoint (d : Device) (new_endpoint : string) : FM (W * locals) unit :=
  if check_forbidden_characters IOTA_FORBIDDEN_CHARACTERS new_endpoint then
    fthrow (bad_request "Invalid Characters")
  else
    act! endpoint := flift (Some (new_IoTUrl new_endpoint)) in
    if String.eqb (IoTUrl._host endpoint) "" || String.eqb (IoTUrl._protocol endpoint) "" then
      fthrow (bad_request "Not a valid IP")
    else
      let old_endpoint := Device._endpoint d in
      if nonempty old_endpoint && negb (String.eqb old_endpoint new_endpoint) then
        let d := set_endpoint d new_endpoint in
        then! set_dev (Some d) in
        if String.eqb storage_type Store.MONGODB then world (update_endpoint_device d new_endpoint)
        else fret tt
      else fret tt.

(** The service and the device of the request. *)
Definition find_device (p : ul_params) : FM (W * locals) unit :=
  act! service_ptree := world (get_service_by_apiKey (apikey p)) in
  then! set_service service_ptree in
  act! dev := world (get_device (p_device p) (pt_get_default service_ptree Store.SERVICE "")
                       (pt_get_default service_ptree Store.SERVICE_PATH FIWARE_SERVICEPATH_DEFAULT)) in
  match dev with
  | None =>
      set_dev (Some (set_service_path
                       (new_device (p_device p) (pt_get_default service_ptree Store.SERVICE ""))
                       (pt_get_default service_ptree Store.SERVICE_PATH "")))
  | Some d =>
      then! set_dev (Some d) in
      if url_update p then change_endpoint d (new_endpoint p) else fret tt
  end.

(** The content: the body of the request replaces the one of the query; a
    compressed body is not expanded. *)
Definition read_content (r : request) (p : ul_params) : string :=
  match content_data r with
  | Some data =>
      if negb (content_length r =? 0) then
        let e := to_lower_copy (content_encoding r) in
        if nonempty (content_encoding r) && (String.eqb "gzip" e || String.eqb "deflate" e)
        then "" else c_string data
      else p_content p
  | None => p_content p
  end.

(** The elements are published one after the other. *)
Fixpoint send_all (ces : list ContextElement) (service_ptree : ptree) : FM (W * locals) unit :=
  match ces with
  | [] => fret tt
  | ce :: rest =>
      then! world (send_append ce service_ptree) in
      send_all rest service_ptree
  end.

Definition process_measures (fuel : nat) (content : string) (p : ul_params) : FM (W * locals) unit :=
  fun st =>
    let '(mkLocals service_ptree dev) := snd st in
    (act! r := flift (translate double_to_long now fuel content dev service_ptree (querySBC p) [] 0) in
     then! set_dev (fst r) in
     send_all (snd r) service_ptree) st.

Definition process_response (id_command command_http_response_translate : string)
    : FM (W * locals) unit := fun st =>
  let '(mkLocals service_ptree dev) := snd st in
  let srv := pt_get_default service_ptree Store.SERVICE "" in
  let srv_path := pt_get_default service_ptree Store.SERVICE_PATH "" in
  (act! commandPtr := world (get_command id_command srv srv_path) in
   match commandPtr with
   | None => fret tt
   | Some c =>
       let command := command_name c in
       then! world (cancel_command c) in
       then! world (remove_command id_command srv srv_path) in
       world (response_command command command_http_response_translate dev service_ptree)
   end) st.

(** The [try] block. *)
Definition try_block (fuel : nat) (r : request) (p : ul_params) : FM (W * locals) unit :=
  then! find_device p in
  let content := read_content r p in
  if nonempty content then
    let '(code, command_http_response_translate, id_command) := isCommandResp content "" in
    if code =? -1 then process_measures fuel content p
    else process_response id_command command_http_response_translate
  else fret tt.

(** The handlers: every exception gives the same code; one of the database
    raises an alarm. *)
Definition guarded (fuel : nat) (r : request) (p : ul_params) : FM (W * locals) Z := fun st =>
  match try_block fuel r p st with
  | Some (st', Ret _) => Some (st', Ret RESPONSE_CODE_OK)
  | Some (st', Throw (IotaException reason details code)) =>
      if String.eqb reason RESPONSE_MESSAGE_DATABASE_ERROR then
        (then! world (database_alarm (apikey p) (p_device p)) in fret RESPONSE_CODE_BAD_REQUEST) st'
      else Some (st', Ret RESPONSE_CODE_BAD_REQUEST)
  | Some (st', Throw _) => Some (st', Ret RESPONSE_CODE_BAD_REQUEST)
  | Some (st', Undefined) => Some (st', Undefined)
  | None => None
  end.

(** The bodies of the commands handed over, separated by [#]. *)
Fixpoint commands_text (cmdPtes : list C) : string :=
  match cmdPtes with
  | [] => ""
  | [c] => command_body c
  | c :: rest => command_body c ++ "#" ++ commands_text rest
  end.

Definition service (fuel : nat) (r : request) (resp : response) : FM W response := fun w =>
  let query := snd (riot_getQueryParams (query_string r) []) in
  let p := read_params (method r) query in
  let run :=
    act! code_resp := guarded fuel r p in
    act! cmdPtes :=
      (if String.eqb (method r) GET || get_cmd p
       then fun st => world (get_all_command (l_dev (snd st)) (l_service (snd st))) st
       else fret []) in
    let status := if negb (code_resp =? RESPONSE_CODE_OK) then
                    if code_resp =? 503 then 503
                    else if code_resp =? RESPONSE_CODE_RECEIVER_INTERNAL_ERROR
                    then RESPONSE_CODE_RECEIVER_INTERNAL_ERROR
                    else RESPONSE_CODE_BAD_REQUEST
                  else status resp in
    if nonempty (body resp) || negb (Nat.eqb (List.length cmdPtes) 0) then
      fret (mkResponse status (Some "text/json; charset=UTF-8")
              (body resp ++ commands_text cmdPtes))
    else fret (mkResponse status (content_type resp) (body resp)) in
  match run (w, mkLocals pt_empty None) with
  | Some (st, o) => Some (fst st, o)
  | None => None
  end.
End Service.

(** ** What a request does *)

Section Theorems.
  Context `{HBL : BoostLaws} `{HR : Rapidjson} `{HP : PropertyTree} `{HTL : PosixTimeLaws}.
  Context {W C : Type} `{!UlEnv W C}.
  Context (double_to_long : string -> outcome Z) (now : RiotISO8601).

(** Publishing when no publication fails: [log] is the effect of one. *)
Lemma send_all_log (log : ContextElement -> W -> W) (sp : ptree) ces :
  (forall ce w, send_append ce sp w = Some (log ce w, Ret tt)) ->
  forall w l, send_all ces sp (w, l) = Some (fold_left (fun w ce => log ce w) ces w, l, Ret tt).
Proof.
  intros Hlog. induction ces as [|ce ces IH]; intros w l; [done|].
  cbn [send_all fold_left]. rewrite (fmbind_ret _ _ _ (log ce w, l) tt); [apply IH|].
  unfold world. cbn [fst snd]. by rewrite Hlog.
Qed.

(** A request without a poll for commands. *)
Definition no_poll (r : request) (p : ul_params) : Prop :=
  method r <> GET /\ get_cmd p = false.

Notation params r := (read_params (method r) (snd (riot_getQueryParams (query_string r) []))).

(** The answer of a request that does not poll. *)
Lemma service_no_poll fuel r resp w st code :
  no_poll r (params r) -> body resp = "" ->
  guarded double_to_long now fuel r (params r) (w, mkLocals pt_empty None) = Some (st, Ret code) ->
  code = RESPONSE_CODE_OK \/ code = RESPONSE_CODE_BAD_REQUEST ->
  service double_to_long now fuel r resp w
  = Some (fst st, Ret (mkResponse (if code =? RESPONSE_CODE_OK then status resp else code)
                         (content_type resp) "")).
Proof.
  intros [Hm Hc] Hb Hg Hcode. unfold service.
  rewrite (fmbind_ret _ _ _ st code Hg).
  apply String.eqb_neq in Hm. rewrite Hm, Hc. cbn [orb].
  unfold fmbind, fret. rewrite Hb. cbn [nonempty String.eqb negb List.length Nat.eqb orb].
  destruct st as [w1 l]. by destruct Hcode as [->| ->].
Qed.

(** The content of a request with a plain body. *)
Definition plain_body (r : request) (content : string) : Prop :=
  content_data r = Some content /\ content_length r <> 0 /\ content_encoding r = ""
  /\ no_nul content = true /\ content <> "".

Lemma read_plain_body r p content : plain_body r content -> read_content r p = content.
Proof.
  intros (Hd & Hl & He & Hn & _). unfold read_content. rewrite Hd, He.
  apply Z.eqb_neq in Hl. rewrite Hl. cbn. by apply c_string_id.
Qed.

(** The [try] block on measures. *)
Lemma try_block_measures fuel r p content w w1 sp dev :
  find_device p (w, mkLocals pt_empty None) = Some (w1, mkLocals sp dev, Ret tt) ->
  plain_body r content -> get_id_command content = "" ->
  try_block double_to_long now fuel r p (w, mkLocals pt_empty None)
  = process_measures double_to_long now fuel content p (w1, mkLocals sp dev).
Proof.
  intros Hf Hb Hid. unfold try_block. rewrite (fmbind_ret _ _ _ _ _ Hf).
  rewrite (read_plain_body _ _ _ Hb).
  rewrite (proj2 (nonempty_true content)) by apply Hb. unfold isCommandResp. rewrite Hid. done.
Qed.

End Theorems.

(** ** An example *)

Section Examples.
  Local Existing Instance boost_reference.
  Local Existing Instance posix_reference.
  Local Existing Instance ul_rapidjson.
  Local Existing Instance ul_ptree.

(** A program whose state is the list of elements published, with one device
    and no commands. *)
#[local] Instance example_env : UlEnv (H := ul_ptree) (list (ContextElement (H1 := ul_ptree))) string := {|
  get_service_by_apiKey _ := fret (Tree [("service", "srv")] []);
  get_device _ _ _ := fret (Some ul_device);
  update_endpoint_device _ _ := fret tt;
  send_append ce _ := fun w => Some (ce :: w, Ret tt)%list;
  get_command _ _ _ := fret None;
  cancel_command _ := fret tt;
  remove_command _ _ _ := fret tt;
  response_command _ _ _ _ := fret tt;
  get_all_command _ _ := fret [];
  database_alarm _ _ := fret tt;
  storage_type := "";
  command_name c := c;
  command_body c := c
|}.

Definition example_request (content : string) : request :=
  mkRequest "POST" "i=dev&k=key" 10 (Some content) "".

End Examples.
