(* ===== verification/OperationProcessor.v ===== *)
(** * Modbus operations: [src/src/modbus/operation_processor.cc]

    What a file says of the registers of a device: the operations that read
    them, with the names of the values, and the commands that write them, each
    of which is also an operation that reads its parameters back.  The
    documents are property trees; [Reader] is the JSON reader of Boost and the
    readings of numbers.  The file is a text that is there or not. *)
From stdpp Require Import base tactics list gmap strings pretty sorting.
From Stdlib Require Import ZArith Lia Ascii String.
From S2P Require Import Prelude CppString StdMap Boost Types FuncUtil Alarm Modbus.

Local Open Scope string_scope.
Local Open Scope Z_scope.

(** [read_json], which gives a tree or throws with a text; [get_child]; and the
    readings of [get<unsigned short>] and [get<float>]: nothing without the
    path, or when the text is not such a number. *)
Class Reader `{HP : PropertyTree} {F : Type} : Type := {
  read_json : string -> ptree + string;
  get_child : ptree -> string -> option ptree;
  get_unsigned_short : ptree -> string -> option Z;
  get_float : ptree -> string -> option F;
  float_one : F
}.
Arguments Reader {HP} F.

Record CommandParameter : Type := mkCommandParameter {
  cp_base_address : Z;
  cp_num_positions : Z;
  cp_name : string;
  cp_type : string
}.

(** [std::map<int, CommandParameter>], walked in the order of the addresses. *)
Local Abbreviation ParamsMap := (gmap Z CommandParameter).

Definition address_le (a b : Z * CommandParameter) : Prop := fst a <= fst b.
#[local] Instance address_le_dec : RelDecision address_le.
Proof. intros a b. apply Z_le_dec. Defined.
Definition params_in_order (m : ParamsMap) : list (Z * CommandParameter) :=
  merge_sort address_le (map_to_list m).

(** [insert] keeps the parameter of an address. *)
Definition params_insert (m : ParamsMap) (a : Z) (p : CommandParameter) : ParamsMap :=
  match m !! a with Some _ => m | None => <[a := p]> m end.

Section OperationProcessor.
  Context `{HB : Boost} `{HP : PropertyTree} `{HN : !PropertyTreeInt} `{HI : !PropertyTreeIter}
    {F : Type} {HR : Reader F}.

Local Abbreviation Position := (FloatPosition (F := F)).

(** The class; [alarms] is the singleton [Alarm::instance()]. *)
Record ModbusOperationProcessor : Type := mkProcessor {
  _operations : gmap string ptree;
  _position_map : gmap string (list Position);
  _commands : gmap string ptree;
  _ordered_parameters_map : gmap string ParamsMap;
  _config : ptree;
  alarms : gmap string string
}.

Definition new_processor : ModbusOperationProcessor := mkProcessor ∅ ∅ ∅ ∅ pt_empty ∅.

Implicit Type p : ModbusOperationProcessor.

Definition set_operations v p := mkProcessor v (_position_map p) (_commands p)
  (_ordered_parameters_map p) (_config p) (alarms p).
Definition set_position_map v p := mkProcessor (_operations p) v (_commands p)
  (_ordered_parameters_map p) (_config p) (alarms p).
Definition set_commands v p := mkProcessor (_operations p) (_position_map p) v
  (_ordered_parameters_map p) (_config p) (alarms p).
Definition set_ordered v p := mkProcessor (_operations p) (_position_map p) (_commands p)
  v (_config p) (alarms p).
Definition set_config v p := mkProcessor (_operations p) (_position_map p) (_commands p)
  (_ordered_parameters_map p) v (alarms p).
Definition set_alarms v p := mkProcessor (_operations p) (_position_map p) (_commands p)
  (_ordered_parameters_map p) (_config p) v.

(** The three [insert]s, which keep an entry that is there. *)
Definition insert_operation (k : string) (t : ptree) : M ModbusOperationProcessor unit :=
  smodify (fun p => set_operations (emplace (_operations p) k t) p).
Definition insert_positions (k : string) (l : list Position) : M ModbusOperationProcessor unit :=
  smodify (fun p => set_position_map (emplace (_position_map p) k l) p).
Definition insert_command (k : string) (t : ptree) : M ModbusOperationProcessor unit :=
  smodify (fun p => set_commands (emplace (_commands p) k t) p).
Definition insert_parameters (k : string) (m : ParamsMap) : M ModbusOperationProcessor unit :=
  smodify (fun p => set_ordered (emplace (_ordered_parameters_map p) k m) p).

(** [ptree_bad_path], [ptree_bad_data]: both are [std::exception]s and
    [boost::exception]s. *)
Definition bad_path (path : string) : exn := RuntimeError ("No such node (" ++ path ++ ")").
Definition get_or_throw {A} (v : option A) (path : string) : outcome A :=
  match v with Some a => Ret a | None => Throw (bad_path path) end.
Definition get_or_default {A} (v : option A) (d : A) : A :=
  match v with Some a => a | None => d end.

(** The outer handlers raise an alarm with [e.what()]. *)
Definition what (e : exn) : string := default "std::exception" (runtime_what e).
Definition configuration_alarm (endpoint : string) (c : M ModbusOperationProcessor unit)
    : M ModbusOperationProcessor unit := fun p =>
  match c p with
  | (p', Throw e) =>
      (set_alarms (Alarm.put (alarms p') ALARM_CODE_BAD_CONFIGURATION endpoint
                     "Modbus configuration" (what e)) p', Ret tt)
  | r => r
  end.

(** ** Operations *)

Definition read_position (v_p : ptree) : Position :=
  let name := pt_get_default v_p "name" "" in
  if negb (String.eqb name "") then
    mkFloatPosition name (get_or_default (get_float v_p "factor") float_one)
      ((number_of_decimals (pt_get_default v_p "factor" "1") + 2 ^ 15) mod 2 ^ 16 - 2 ^ 15)
  else mkFloatPosition (pt_data v_p) float_one 0.

Definition read_operation (v : ptree) : M ModbusOperationProcessor unit :=
  do! op := slift (get_or_throw (pt_get v "operation") "operation") in
  run! insert_operation op v in
  match get_child v "positions" with
  | Some positions =>
      match map (fun kv => read_position (snd kv)) (pt_children positions) with
      | [] => sret tt
      | labels_with_factor => insert_positions op labels_with_factor
      end
  | None => sret tt
  end.

Fixpoint read_each (f : ptree -> M ModbusOperationProcessor unit) (vs : list (string * ptree))
    : M ModbusOperationProcessor unit :=
  match vs with
  | [] => sret tt
  | v :: rest => run! f (snd v) in read_each f rest
  end.

Definition read_document (json : string) : outcome ptree :=
  match read_json json with inl t => Ret t | inr e => Throw (RuntimeError e) end.

Definition read (json_operations : string) : M ModbusOperationProcessor unit :=
  configuration_alarm "Modbus operations"
    (do! pt_operations := slift (read_document json_operations) in
     do! operations := slift (get_or_throw (get_child pt_operations "operations") "operations") in
     run! read_each read_operation (pt_children operations) in
     match get_child pt_operations "config" with
     | Some config => smodify (set_config config)
     | None => sret tt
     end).

(** ** Commands *)

Definition read_parameter (v_p : ptree) : outcome CommandParameter :=
  let! address := get_or_throw (pt_get_int v_p "address") "address" in
  let! name := get_or_throw (pt_get v_p "name") "name" in
  Ret (mkCommandParameter address
         (get_or_default (get_unsigned_short v_p "positions") 1) name
         (pt_get_default v_p "type" "numeric")).

Definition read_parameters (v : ptree) : outcome ParamsMap :=
  let! parameters := get_or_throw (get_child v "parameters") "parameters" in
  let! ps := omapM (fun kv => read_parameter (snd kv)) (pt_children parameters) in
  Ret (fold_left (fun m q => params_insert m (cp_base_address q) q) ps ∅).

(** [_ordered_parameters_map[command]], which is there afterwards. *)
Definition parameters_of (command : string) : M ModbusOperationProcessor ParamsMap :=
  run! insert_parameters command ∅ in
  do! p := sget in
  sret (default ∅ (_ordered_parameters_map p !! command)).

Definition get_base_address (command : string) : M ModbusOperationProcessor Z :=
  do! names_map := parameters_of command in
  sret match params_in_order names_map with (address, _) :: _ => address | [] => -1 end.

(** The read operation of a command: its tree, from the base address and the
    parameters in order. *)
Definition operation_head (command_name : string) : ptree :=
  pt_put (pt_put pt_empty "operation" command_name) "modbusOperation" (lexical_cast 3).

Definition is_wide (type : string) : bool := String.eqb type "string" || String.eqb type "numeric".

Definition operation_tree (command_name : string) (base_address : Z) (first : CommandParameter)
    (num_of_registers : Z) : ptree :=
  let pt_operation := pt_put (operation_head command_name) "modbusAddress" (lexical_cast base_address) in
  let '(pt_operation, num_of_positions) :=
    if is_wide (cp_type first)
    then (pt_put pt_operation "modbusRegisterType" (cp_type first), cp_num_positions first)
    else (pt_operation, num_of_registers) in
  pt_put (pt_put pt_operation "modbusNumberOfPositions" (lexical_cast num_of_positions))
    "modbusNumberOfRegisters" (lexical_cast num_of_registers).

Definition label_of (q : CommandParameter) : Position := mkFloatPosition (cp_name q) float_one 0.

Definition add_command_as_operation (command_name : string) : M ModbusOperationProcessor unit :=
  do! p := sget in
  match _commands p !! command_name, _ordered_parameters_map p !! command_name with
  | Some _, Some params_map =>
      do! base_address := get_base_address command_name in
      match params_in_order params_map with
      | [] => sret tt
      | (_, first) :: _ =>
          run! insert_operation command_name
                 (operation_tree command_name base_address first (Z.of_nat (base.size params_map))) in
          insert_positions command_name
            (map (fun aq => label_of (snd aq)) (params_in_order params_map))
      end
  | _, _ => sret tt
  end.

Definition read_command (v : ptree) : M ModbusOperationProcessor unit :=
  do! op := slift (get_or_throw (pt_get v "name") "name") in
  run! insert_command op v in
  run! match read_parameters v with
       | Ret names_map =>
           if 0 <? Z.of_nat (base.size names_map) then insert_parameters op names_map else sret tt
       | Throw _ => sret tt
       | Undefined => slift Undefined
       end in
  add_command_as_operation op.

Definition read_commands (json_commands : string) : M ModbusOperationProcessor unit :=
  configuration_alarm "Modbus commands"
    (do! pt_commands := slift (read_document json_commands) in
     do! commands := slift (get_or_throw (get_child pt_commands "commands") "commands") in
     read_each read_command (pt_children commands)).

Definition read_operations (modbus_operation_file : option string)
    : M ModbusOperationProcessor unit :=
  match modbus_operation_file with
  | Some text => run! read text in read_commands text
  | None => sret tt
  end.

(** ** What is asked *)

Definition get_operation (operation : string) : M ModbusOperationProcessor ptree :=
  run! insert_operation operation pt_empty in
  do! p := sget in
  sret (default pt_empty (_operations p !! operation)).

Definition get_config : M ModbusOperationProcessor ptree := do! p := sget in sret (_config p).

Definition get_mapped_labels (operation : string) : M ModbusOperationProcessor (list Position) :=
  run! insert_positions operation [] in
  do! p := sget in
  sret (default [] (_position_map p !! operation)).

Definition get_command (command : string) : M ModbusOperationProcessor ptree :=
  run! insert_command command pt_empty in
  do! p := sget in
  sret (default pt_empty (_commands p !! command)).

Definition get_mapped_parameters (command : string)
    : M ModbusOperationProcessor (list CommandParameter) :=
  do! names_map := parameters_of command in
  sret (map snd (params_in_order names_map)).

Definition quote : string := String (ascii_of_nat 34) "".
Definition command_text (k : string) : string :=
  "{" ++ quote ++ "name" ++ quote ++ ": " ++ quote ++ k ++ quote ++ ", " ++ quote ++ "type" ++ quote
  ++ ": " ++ quote ++ "command" ++ quote ++ ", " ++ quote ++ "value" ++ quote ++ ": "
  ++ quote ++ quote ++ "}".

Definition get_protocol_commands : M ModbusOperationProcessor string :=
  do! p := sget in
  sret match map (fun kv => command_text (fst kv)) (entries (_commands p)) with
       | [] => ""
       | texts => "{" ++ quote ++ "commands" ++ quote ++ ":[" ++ String.concat "," texts ++ "]}"
       end.

Definition get_commands : M ModbusOperationProcessor (gmap string ptree) :=
  do! p := sget in sret (_commands p).
End OperationProcessor.

(** ** Parameters in order *)

#[local] Instance address_le_total : Total address_le.
Proof. intros a b. unfold address_le. lia. Qed.
#[local] Instance address_le_trans : Transitive address_le.
Proof. intros a b c. unfold address_le. lia. Qed.

Lemma params_in_order_perm m : params_in_order m ≡ₚ map_to_list m.
Proof. apply merge_sort_Permutation. Qed.

Lemma elem_of_params m a q : (a, q) ∈ params_in_order m <-> m !! a = Some q.
Proof. rewrite params_in_order_perm. apply elem_of_map_to_list. Qed.

Lemma length_params m : List.length (params_in_order m) = base.size m.
Proof. rewrite params_in_order_perm. apply length_map_to_list. Qed.

Lemma params_keys m : NoDup (params_in_order m).*1.
Proof. rewrite params_in_order_perm. apply NoDup_fst_map_to_list. Qed.

Lemma fst_sorted (l : list (Z * CommandParameter)) :
  StronglySorted address_le l -> StronglySorted Z.le l.*1.
Proof.
  induction 1 as [|[a q] l Hs IH Hf]; cbn; [constructor|]. constructor; [done|].
  by apply Forall_map.
Qed.

Lemma seqZ_sorted (n : nat) : forall m, StronglySorted Z.le (seqZ m (Z.of_nat n)).
Proof.
  induction n as [|n IH]; intros m; [constructor|].
  rewrite seqZ_cons by lia. replace (Z.pred (Z.of_nat (S n))) with (Z.of_nat n) by lia.
  constructor; [done|]. apply Forall_forall. intros x Hx. apply elem_of_seqZ in Hx. lia.
Qed.

(** Addresses without a gap are in order from the first. *)
Definition contiguous (m : gmap Z CommandParameter) (base : Z) : Prop :=
  forall a, is_Some (m !! a) <-> base <= a < base + Z.of_nat (base.size m).

Lemma contiguous_keys m b : contiguous m b ->
  (params_in_order m).*1 = seqZ b (Z.of_nat (base.size m)).
Proof.
  intros Hc. apply (Sorted_unique Z.le).
  - apply StronglySorted_Sorted, fst_sorted, StronglySorted_merge_sort; apply _.
  - apply StronglySorted_Sorted, seqZ_sorted.
  - apply NoDup_Permutation; [apply params_keys|apply NoDup_seqZ|]. intros a.
    rewrite elem_of_seqZ, <- (Hc a). split.
    + intros Ha. apply list_elem_of_fmap in Ha as ([a' q] & -> & Hq). exists q. by apply elem_of_params.
    + intros [q Hq]. apply list_elem_of_fmap. exists (a, q). split; [done|]. by apply elem_of_params.
Qed.

Lemma contiguous_lookup m b a q : contiguous m b -> m !! a = Some q ->
  params_in_order m !! Z.to_nat (a - b) = Some (a, q).
Proof.
  intros Hc Hq. pose proof (proj1 (Hc a) (ltac:(by eexists))) as Ha.
  pose proof (contiguous_keys m b Hc) as Hk.
  apply (f_equal (fun l => l !! Z.to_nat (a - b))) in Hk.
  rewrite lookup_seqZ_lt in Hk by lia. rewrite list_lookup_fmap in Hk.
  destruct (params_in_order m !! Z.to_nat (a - b)) as [[a' q']|] eqn:E; [|done].
  cbn in Hk. injection Hk as Hk. replace a' with a in * by lia.
  apply list_elem_of_lookup_2, elem_of_params in E. congruence.
Qed.

(** ** Reading a command *)

Section Commands.
  Context `{HB : Boost} `{HP : PropertyTree} `{HN : !PropertyTreeInt} `{HI : !PropertyTreeIter}
    {F : Type} {HR : Reader F}.
  Context {HPL : PropertyTreeLaws HP} {HNL : PropertyTreeIntLaws}.

Local Abbreviation Processor := (ModbusOperationProcessor (F := F)).

Implicit Types p : Processor.

(** What a processor knows of a command: it is a command, and an operation
    with labels. *)
Definition readable (p : Processor) (c : string) : Prop :=
  is_Some (_operations p !! c) /\ is_Some (_position_map p !! c).

Definition keyed (m : gmap Z CommandParameter) : Prop :=
  forall a q, m !! a = Some q -> cp_base_address q = a.

(** Every command with parameters can be read, [but] for one that is being
    added; and parameters are kept by their address. *)
Definition processor_but (but : string -> Prop) (p : Processor) : Prop :=
  forall c m, _ordered_parameters_map p !! c = Some m -> m <> ∅ ->
    is_Some (_commands p !! c) /\ keyed m /\ (~ but c -> readable p c).

Definition processor_wf : Processor -> Prop := processor_but (fun _ => False).

Lemma emplace_some {A} (m : gmap string A) k v k' :
  is_Some (m !! k') -> is_Some (emplace m k v !! k').
Proof. intros [w Hw]. exists w. by apply emplace_old. Qed.

Lemma emplace_here {A} (m : gmap string A) k v : is_Some (emplace m k v !! k).
Proof. rewrite lookup_emplace, bool_decide_eq_true_2 by done. by eexists. Qed.

(** The three insertions of what is known keep what is known. *)
Lemma insert_operation_but b k t : preserves (processor_but b) (insert_operation k t).
Proof.
  intros p Hp c m Hm Hne. destruct (Hp c m Hm Hne) as (H1 & H2 & H3).
  split_and!; [done..|]. intros Hb. destruct (H3 Hb). split; [by apply emplace_some|done].
Qed.

Lemma insert_positions_but b k l : preserves (processor_but b) (insert_positions k l).
Proof.
  intros p Hp c m Hm Hne. destruct (Hp c m Hm Hne) as (H1 & H2 & H3).
  split_and!; [done..|]. intros Hb. destruct (H3 Hb). split; [done|by apply emplace_some].
Qed.

Lemma insert_command_but b k t : preserves (processor_but b) (insert_command k t).
Proof.
  intros p Hp c m Hm Hne. destruct (Hp c m Hm Hne) as (H1 & H2 & H3).
  split_and!; [by apply emplace_some|done..].
Qed.

Lemma insert_parameters_none b k : preserves (processor_but b) (insert_parameters k ∅).
Proof.
  intros p Hp c m Hm Hne. cbn in Hm. rewrite lookup_emplace in Hm.
  case_bool_decide as Hk; [subst k|exact (Hp c m Hm Hne)].
  destruct (_ordered_parameters_map p !! c) as [m'|] eqn:E; cbn in Hm; injection Hm as <-;
    [exact (Hp c _ E Hne)|done].
Qed.

Lemma insert_parameters_but k m p : keyed m -> is_Some (_commands p !! k) -> processor_wf p ->
  processor_but (eq k) (fst (insert_parameters k m p)).
Proof.
  intros Hk Hc Hp c m' Hm Hne. cbn in Hm. rewrite lookup_emplace in Hm.
  case_bool_decide as E; [subst k|].
  - split_and!; [done| |done].
    destruct (_ordered_parameters_map p !! c) as [m1|] eqn:E; cbn in Hm; injection Hm as <-;
      [exact (proj1 (proj2 (Hp c _ E Hne)))|done].
  - destruct (Hp c m' Hm Hne) as (H1 & H2 & H3). split_and!; [done..|]. intros _.
    apply H3. intros [].
Qed.

Lemma parameters_of_but b c : preserves (processor_but b) (parameters_of c).
Proof.
  apply preserves_bind; [apply insert_parameters_none|intros _].
  apply preserves_bind; [apply preserves_get|intros p]. apply preserves_ret.
Qed.

Lemma readable_wf k p : processor_but (eq k) p -> readable p k -> processor_wf p.
Proof.
  intros Hp Hk c m Hm Hne. destruct (Hp c m Hm Hne) as (H1 & H2 & H3). split_and!; [done..|].
  intros _. destruct (decide (k = c)) as [<-|E]; [done|by apply H3].
Qed.

Lemma params_nil m : params_in_order m = [] -> m = ∅.
Proof. intros H. apply map_size_empty_inv. by rewrite <- length_params, H. Qed.

(** What [add_command_as_operation] does with parameters. *)
Lemma add_command_eq p k m :
  is_Some (_commands p !! k) -> _ordered_parameters_map p !! k = Some m ->
  add_command_as_operation k p
  = match params_in_order m with
    | [] => (p, Ret tt)
    | (a, q) :: l =>
        sbind (insert_operation k (operation_tree k a q (Z.of_nat (base.size m))))
          (fun _ => insert_positions k (map (fun aq => label_of (snd aq)) ((a, q) :: l))) p
    end.
Proof.
  intros [v Hv] Hm. unfold add_command_as_operation, sbind at 1, sget. rewrite Hv, Hm.
  unfold sbind at 1. unfold get_base_address, parameters_of, sbind at 1 2 3, insert_parameters at 1,
    smodify, sget, sret.
  assert (E : set_ordered (emplace (_ordered_parameters_map p) k ∅) p = p).
  { unfold emplace. rewrite Hm. by destruct p. }
  rewrite E, Hm. cbn [default from_option]. unfold id.
  by destruct (params_in_order m) as [|[a q] l].
Qed.

Lemma add_command_wf k p : processor_but (eq k) p ->
  processor_wf (fst (add_command_as_operation k p)).
Proof.
  intros Hp.
  assert (Hw : default ∅ (_ordered_parameters_map p !! k) = ∅ -> processor_wf p).
  { intros H0 c m Hm Hne. destruct (Hp c m Hm Hne) as (H1 & H2 & H3). split_and!; [done..|].
    intros _. apply H3. intros <-. rewrite Hm in H0. done. }
  destruct (_ordered_parameters_map p !! k) as [m|] eqn:Hm.
  2: { unfold add_command_as_operation, sbind at 1, sget. rewrite Hm.
       destruct (_commands p !! k); by apply Hw. }
  destruct (_commands p !! k) as [v|] eqn:Hc.
  2: { unfold add_command_as_operation, sbind at 1, sget. rewrite Hc. apply Hw. cbn.
       destruct (decide (m = ∅)) as [|Hne]; [done|]. destruct (Hp k m Hm Hne) as ([w Hw'] & _). congruence. }
  rewrite (add_command_eq p k m ltac:(by eexists) Hm).
  destruct (params_in_order m) as [|[a q] l] eqn:Hl; [apply Hw; by apply params_nil|].
  apply (readable_wf k); [|split; apply emplace_here].
  apply preserves_bind; [apply insert_operation_but|intros; apply insert_positions_but|done].
Qed.

Lemma params_insert_keyed m q : keyed m -> keyed (params_insert m (cp_base_address q) q).
Proof.
  intros Hm a q'. unfold params_insert. destruct (m !! cp_base_address q) eqn:E; [apply Hm|].
  rewrite lookup_insert. case_decide as H; [by intros [= <-]|apply Hm].
Qed.

Lemma read_parameters_keyed v m : read_parameters v = Ret m -> keyed m.
Proof.
  unfold read_parameters. destruct (get_or_throw _ _) as [t|e|]; cbn; try done.
  destruct (omapM _ _) as [qs|e|]; cbn; try done. intros [= <-].
  assert (H : forall m0, keyed m0 -> keyed (fold_left (fun m q => params_insert m (cp_base_address q) q) qs m0)).
  { induction qs as [|q qs IH]; intros m0 H0; cbn; [done|]. by apply IH, params_insert_keyed. }
  by apply H.
Qed.

Lemma read_command_wf v : preserves processor_wf (read_command v).
Proof.
  unfold read_command. apply preserves_lift_bind. intros op _ p Hp.
  unfold sbind at 1, insert_command, smodify. cbn iota beta.
  set (p1 := set_commands _ p).
  assert (Hc : is_Some (_commands p1 !! op)) by apply emplace_here.
  assert (H1 : processor_wf p1) by by apply insert_command_but.
  assert (Hb : forall p', processor_wf p' -> processor_but (eq op) p').
  { intros p' H' c m Hm Hne. destruct (H' c m Hm Hne) as (H2 & H3 & H4). split_and!; [done..|].
    intros _. apply H4. intros []. }
  set (c2 := match read_parameters v with Ret _ => _ | _ => _ end).
  assert (Hs : processor_but (eq op) (fst (c2 p1)) /\ (snd (c2 p1) = Ret tt \/ fst (c2 p1) = p1)).
  { subst c2. destruct (read_parameters v) as [m|e|] eqn:Em; [|by split; [apply Hb|left]|
      by split; [apply Hb|right]].
    destruct (_ <? _); split; [|by left|by apply Hb|by left].
    apply (insert_parameters_but op m p1); [by eapply read_parameters_keyed|done..]. }
  clearbody c2. unfold sbind at 1. destruct (c2 p1) as [p2 [u|e|]]; cbn [fst snd] in *;
    destruct Hs as [Hs [E|E]]; try done; try (subst; exact H1); by apply add_command_wf.
Qed.

Lemma read_each_preserves (P : Processor -> Prop) f vs :
  (forall v, preserves P (f v)) -> preserves P (read_each f vs).
Proof.
  intros Hf. induction vs as [|v vs IH]; cbn; [apply preserves_ret|].
  apply preserves_bind; [apply Hf|by intros _].
Qed.

Lemma alarm_preserves endpoint c : preserves processor_wf c ->
  preserves processor_wf (configuration_alarm endpoint c).
Proof.
  intros Hc p Hp. specialize (Hc p Hp). unfold configuration_alarm.
  by destruct (c p) as [p' [a|e|]].
Qed.

Lemma read_operation_wf v : preserves processor_wf (read_operation v).
Proof.
  unfold read_operation. apply preserves_lift_bind. intros op _.
  apply preserves_bind; [apply insert_operation_but|intros _].
  destruct (get_child v "positions"); [|apply preserves_ret].
  destruct (map _ _); [apply preserves_ret|apply insert_positions_but].
Qed.

Lemma read_operations_wf file : preserves processor_wf (read_operations file).
Proof.
  destruct file as [text|]; cbn; [|apply preserves_ret].
  apply preserves_bind; [|intros _]; apply alarm_preserves.
  - apply preserves_lift_bind. intros t _. apply preserves_lift_bind. intros ops _.
    apply preserves_bind; [apply read_each_preserves, read_operation_wf|intros _].
    destruct (get_child t "config"); [by apply preserves_modify|apply preserves_ret].
  - apply preserves_lift_bind. intros t _. apply preserves_lift_bind. intros cs _.
    apply read_each_preserves, read_command_wf.
Qed.

(** The calls on a processor. *)
Inductive processor_call : Type :=
| call_read_operations (file : option string)
| call_operation (k : string)
| call_labels (k : string)
| call_command (k : string)
| call_parameters (k : string)
| call_base_address (k : string).

Definition processor_step (p : Processor) (c : processor_call) : Processor :=
  match c with
  | call_read_operations file => fst (read_operations file p)
  | call_operation k => fst (get_operation k p)
  | call_labels k => fst (get_mapped_labels k p)
  | call_command k => fst (get_command k p)
  | call_parameters k => fst (get_mapped_parameters k p)
  | call_base_address k => fst (get_base_address k p)
  end.

Lemma processor_step_wf p c : processor_wf p -> processor_wf (processor_step p c).
Proof.
  intros Hp. destruct c as [file|k|k|k|k|k]; cbn [processor_step]; [by apply read_operations_wf|..];
    revert p Hp; apply preserves_bind; try intros a.
  all: try apply preserves_ret.
  all: try (apply preserves_bind; [apply preserves_get|intros; apply preserves_ret]).
  all: first [apply insert_operation_but|apply insert_positions_but|apply insert_command_but
             |apply parameters_of_but].
Qed.

Lemma params_sorted (m : gmap Z CommandParameter) : StronglySorted Z.lt (params_in_order m).*1.
Proof.
  assert (H : StronglySorted address_le (params_in_order m)) by (apply StronglySorted_merge_sort; apply _).
  pose proof (params_keys m) as Hk. induction H as [|[a q] l Hs IH Hf]; cbn in *; [constructor|].
  apply NoDup_cons in Hk as [Ha Hk]. constructor; [by apply IH|].
  apply Forall_forall. intros b Hb. apply list_elem_of_fmap in Hb as ([b' q'] & -> & Hq).
  rewrite Forall_forall in Hf. specialize (Hf _ Hq). unfold address_le in Hf. cbn in *.
  enough (a <> b') by lia. intros <-. apply Ha, list_elem_of_fmap. by exists (a, q').
Qed.

Lemma keyed_addresses m : keyed m ->
  map (fun aq => cp_base_address (snd aq)) (params_in_order m) = (params_in_order m).*1.
Proof.
  intros Hm. apply map_ext_in. intros [a q] Hq. cbn.
  by apply Hm, elem_of_params, list_elem_of_In.
Qed.

Lemma parameters_of_eq c p :
  snd (parameters_of c p) = Ret (default ∅ (_ordered_parameters_map p !! c)).
Proof.
  unfold parameters_of, sbind, insert_parameters, smodify, sget, sret. cbn.
  rewrite lookup_emplace, bool_decide_eq_true_2 by done. by destruct (_ !! c).
Qed.

Lemma sbind_ret {S A B} (c : M S A) (f : A -> B) s a :
  snd (c s) = Ret a -> snd (sbind c (fun x => sret (f x)) s) = Ret (f a).
Proof. unfold sbind, sret. destruct (c s) as [s' r]. cbn. by intros ->. Qed.

Lemma get_mapped_parameters_eq c p :
  snd (get_mapped_parameters c p)
  = Ret (map snd (params_in_order (default ∅ (_ordered_parameters_map p !! c)))).
Proof. unfold get_mapped_parameters. by rewrite (sbind_ret _ _ _ _ (parameters_of_eq c p)). Qed.

Lemma get_base_address_eq c p :
  snd (get_base_address c p)
  = Ret match params_in_order (default ∅ (_ordered_parameters_map p !! c)) with
        | (address, _) :: _ => address
        | [] => -1
        end.
Proof. unfold get_base_address. by rewrite (sbind_ret _ _ _ _ (parameters_of_eq c p)). Qed.

(** C22. Whatever files are read and whatever is asked in between, the parameters
    of a command are answered in the order of their addresses, each address
    once; the base address is that of the first, -1 without parameters; and a
    command with parameters is known as a command, as an operation, and has
    labels for its values. *)
Theorem processor_invariant (calls : list processor_call) (c : string)
    (qs : list CommandParameter) :
  let p : Processor := fold_left processor_step calls new_processor in
  snd (get_mapped_parameters c p) = Ret qs ->
  StronglySorted Z.lt (map cp_base_address qs)
  /\ snd (get_base_address c p) = Ret (match qs with q :: _ => cp_base_address q | [] => -1 end)
  /\ (qs <> [] -> is_Some (_commands p !! c) /\ readable p c).
Proof.
  intros p Hq.
  assert (Hp : processor_wf p).
  { subst p. assert (H0 : processor_wf (new_processor : Processor)) by (intros c' m Hm; cbn in Hm; done).
    clear Hq. revert H0. generalize (new_processor : Processor). induction calls as [|x xs IH]; intros p0 H0; cbn;
      [done|]. by apply IH, processor_step_wf. }
  clearbody p. rewrite get_mapped_parameters_eq in Hq. injection Hq as <-. rewrite get_base_address_eq.
  set (m := default ∅ _).
  assert (Hm : keyed m /\ (m <> ∅ -> is_Some (_commands p !! c) /\ readable p c)).
  { subst m. destruct (_ordered_parameters_map p !! c) as [m|] eqn:E; cbn; [|done].
    destruct (decide (m = ∅)) as [->|Hne]; [done|].
    destruct (Hp c m E Hne) as (H1 & H2 & H3). split; [done|]. intros _. split; [done|].
    apply H3. intros []. }
  clearbody m. destruct Hm as [Hk Hr]. split_and!.
  - rewrite map_map, (keyed_addresses m Hk). apply params_sorted.
  - pose proof (keyed_addresses m Hk) as Ha. destruct (params_in_order m) as [|[a q] l]; [done|].
    cbn in Ha |- *. congruence.
  - intros Hne. apply Hr. intros ->. by apply Hne.
Qed.

(** ** Reading a command back from the device *)

Context (render_scaled : F -> Z -> Z -> string).

Lemma read_command_fresh v c m p :
  pt_get v "name" = Some c -> read_parameters v = Ret m -> m <> ∅ ->
  _ordered_parameters_map p !! c = None -> _operations p !! c = None ->
  _position_map p !! c = None ->
  exists a q l, params_in_order m = (a, q) :: l /\
    let p' := fst (read_command v p) in
    _operations p' !! c = Some (operation_tree c a q (Z.of_nat (base.size m)))
    /\ _position_map p' !! c = Some (map (fun aq => label_of (snd aq)) (params_in_order m)).
Proof.
  intros Hn Hr Hm Ho Hop Hl.
  destruct (params_in_order m) as [|[a q] l] eqn:El; [by apply params_nil in El|].
  exists a, q, l. split; [done|]. cbn zeta.
  assert (Hs : 0 < Z.of_nat (base.size m)).
  { rewrite <- length_params, El. cbn. lia. }
  apply Z.ltb_lt in Hs.
  set (p1 := set_ordered (emplace (_ordered_parameters_map p) c m)
               (set_commands (emplace (_commands p) c v) p)).
  assert (E : read_command v p = add_command_as_operation c p1).
  { unfold read_command. rewrite Hn, Hr, Hs. reflexivity. }
  rewrite E, (add_command_eq p1 c m); [|apply emplace_here|]; cycle 1.
  { cbn. rewrite lookup_emplace, bool_decide_eq_true_2, Ho by done. reflexivity. }
  rewrite El. cbn. rewrite !lookup_emplace, !bool_decide_eq_true_2, Hop, Hl by done. done.
Qed.

Lemma operation_tree_fields c a q n :
  let t := operation_tree c a q n in
  pt_get t "modbusOperation" = Some (lexical_cast 3)
  /\ pt_get t "modbusAddress" = Some (lexical_cast a)
  /\ pt_get t "modbusNumberOfRegisters" = Some (lexical_cast n)
  /\ pt_get t "modbusNumberOfPositions"
     = Some (lexical_cast (if is_wide (cp_type q) then cp_num_positions q else n)).
Proof.
  cbn zeta. unfold operation_tree, operation_head. destruct (is_wide (cp_type q));
    repeat split; repeat first [rewrite pt_get_put|rewrite pt_get_put_ne by done]; done.
Qed.

(** A command of new name becomes the operation that reads its parameters
    back: function 3 from the address of the first.  It asks for as many
    positions as there are parameters, unless the first is a string or a
    number (the default): then for the positions of the first only.  When the
    addresses leave no gap and the names differ, a slave that answers the
    positions asked for gives each parameter the register of its address, if
    as many positions as parameters were asked for; and otherwise no
    parameter gets any value. *)
Theorem command_read_back (v : ptree) (c : string) (m : gmap Z CommandParameter) (base : Z)
    (p : Processor) (slave : Z) (vs : list Z)
    (Hname : pt_get v "name" = Some c) (Hread : read_parameters v = Ret m) (Hm : m <> ∅)
    (Hnew : _ordered_parameters_map p !! c = None /\ _operations p !! c = None
            /\ _position_map p !! c = None)
    (Hbase : contiguous m base) (Hrange : 0 <= base /\ base + zlen vs < 65536 /\ zlen vs <= 127)
    (Hnames : NoDup (map (fun aq => cp_name (snd aq)) (params_in_order m))) :
  let p' := fst (read_command v p) in
  exists t first labels,
    m !! base = Some first /\ _operations p' !! c = Some t /\ _position_map p' !! c = Some labels
    /\ let n := Z.of_nat (base.size m) in
       let positions := if is_wide (cp_type first) then cp_num_positions first else n in
       pt_get t "modbusOperation" = Some (lexical_cast 3)
       /\ pt_get t "modbusAddress" = Some (lexical_cast base)
       /\ pt_get t "modbusNumberOfRegisters" = Some (lexical_cast n)
       /\ pt_get t "modbusNumberOfPositions" = Some (lexical_cast positions)
       /\ (zlen vs = positions ->
           let values := get_mapped_values render_scaled lexical_cast labels
                           (read_done slave base positions c vs) in
           (positions = n -> forall a q w, m !! a = Some q -> cp_name q <> "" ->
              vs !! Z.to_nat (a - base) = Some w ->
              values !! cp_name q = Some (render_scaled float_one w 0))
           /\ (positions <> n -> values = ∅)).
Proof.
  cbn zeta. destruct Hnew as (Ho & Hop & Hl).
  destruct (read_command_fresh v c m p Hname Hread Hm Ho Hop Hl) as (a & q & l & El & Ht & Hlab).
  assert (Hq : m !! base = Some q /\ a = base).
  { pose proof (contiguous_keys m base Hbase) as Hk. rewrite El in Hk. cbn in Hk.
    rewrite seqZ_cons in Hk by (rewrite <- length_params, El; cbn; lia). injection Hk as -> _.
    split; [|done]. apply elem_of_params. rewrite El. apply list_elem_of_here. }
  destruct Hq as [Hq ->]. eexists _, q, _. split; [exact Hq|]. split; [exact Ht|].
  split; [exact Hlab|].
  destruct (operation_tree_fields c base q (Z.of_nat (base.size m))) as (H1 & H2 & H3 & H4).
  do 4 (split; [done|]). intros Hn.
  set (labels := map _ _).
  assert (Hlen : List.length labels = base.size m) by (subst labels; by rewrite length_map, length_params).
  destruct (mapped_values_by_position render_scaled lexical_cast slave base
              (if is_wide (cp_type q) then cp_num_positions q else Z.of_nat (base.size m)) c vs labels)
    as [Hv He]; [lia..| | |].
  - subst labels. by rewrite map_map.
  - intros E. rewrite E in Hlen. cbn in Hlen. rewrite El in *. rewrite <- length_params, El in Hlen. done.
  - split.
    + intros Hp b r w Hr Hne Hw.
      refine (Hv _ (Z.to_nat (b - base)) (label_of r) w _ Hw Hne).
      * rewrite Hlen. unfold zlen in Hn. lia.
      * pose proof (contiguous_lookup m base b r Hbase Hr) as Hj. subst labels.
        change (map ?f ?l) with (f <$> l). by rewrite list_lookup_fmap, Hj.
    + intros Hne. apply He. rewrite Hlen. unfold zlen in Hn. lia.
Qed.
End Commands.

(** ** A file of operations, evaluated *)

(** Trees with a text and children: paths of one name. *)
Inductive node : Type := Node (data : string) (children : list (string * node)).

Definition node_data (t : node) : string := let '(Node d _) := t in d.
Definition node_children (t : node) : list (string * node) := let '(Node _ cs) := t in cs.

Fixpoint put_child (cs : list (string * node)) (k v : string) : list (string * node) :=
  match cs with
  | [] => [(k, Node v [])]
  | (k', t) :: cs' =>
      if String.eqb k' k then (k', Node v (node_children t)) :: cs'
      else (k', t) :: put_child cs' k v
  end.

Lemma assoc_put_child cs k v k' :
  option_map node_data (assoc (put_child cs k v) k')
  = if String.eqb k k' then Some v else option_map node_data (assoc cs k').
Proof.
  induction cs as [|[k1 t] cs IH]; cbn; [by destruct (String.eqb k k')|].
  destruct (String.eqb k1 k) eqn:E; cbn.
  - apply String.eqb_eq in E as ->. by destruct (String.eqb k k').
  - destruct (String.eqb k1 k') eqn:E'; [|done]. apply String.eqb_eq in E' as ->.
    rewrite String.eqb_sym in E. by rewrite E.
Qed.

#[local] Instance node_ptree : PropertyTree := {|
  ptree := node;
  pt_empty := Node "" [];
  pt_get t k := option_map node_data (assoc (node_children t) k);
  pt_put t k v := Node (node_data t) (put_child (node_children t) k v);
  pt_get_child t k := option_map node_children (assoc (node_children t) k);
  write_json t := node_data t
|}.

#[local] Instance node_ptree_laws : PropertyTreeLaws node_ptree.
Proof.
  constructor; [|done]. intros t k v. cbn. by rewrite assoc_put_child, String.eqb_refl.
Qed.

#[local] Instance node_int : PropertyTreeInt := {|
  pt_get_int t k := match pt_get t k with Some s => int_of_text s | None => None end;
  pt_put_int t k z := pt_put t k (pretty z);
  lexical_cast_int := int_of_text
|}.

#[local] Instance node_int_laws : @PropertyTreeIntLaws _ node_int.
Proof.
  constructor; intros t k v; intros; cbn; rewrite assoc_put_child.
  - rewrite String.eqb_refl. unfold int_of_text. by rewrite strtol10_pretty, String.eqb_refl.
  - by rewrite (proj2 (String.eqb_neq _ _)).
  - by rewrite (proj2 (String.eqb_neq _ _)).
  - by rewrite (proj2 (String.eqb_neq _ _)).
Qed.

#[local] Instance node_iter : PropertyTreeIter := {|
  pt_children t := node_children t;
  pt_data t := node_data t
|}.

Definition leaf (s : string) : node := Node s [].
Definition parameter_node (name address type : string) : string * node :=
  ("", Node "" [("name", leaf name); ("address", leaf address); ("type", leaf type)]).
Definition command_node (name type : string) : node :=
  Node "" [("name", leaf name);
           ("parameters", Node "" [parameter_node "high" "21" type; parameter_node "low" "20" type])].

(** The only text that is read. *)
#[local] Instance node_reader : Reader Z := {|
  read_json s :=
    if String.eqb s "file"
    then inl (Node "" [("operations", Node "" [("", Node "" [("operation", leaf "GetCode");
                          ("positions", Node "" [("", leaf "code")])])]);
                       ("commands", Node "" [("", command_node "limits" "switch")])])
    else inr "expected value";
  get_child t k := assoc (node_children t) k;
  get_unsigned_short t k := pt_get_int t k;
  get_float t k := pt_get_int t k;
  float_one := 1
|}.

#[local] Existing Instance boost_reference.

Definition limits (type : string) : gmap Z CommandParameter :=
  {[ 20 := mkCommandParameter 20 1 "low" type; 21 := mkCommandParameter 21 1 "high" type ]}.

Lemma limits_contiguous type : contiguous (limits type) 20.
Proof.
  intros a. unfold limits. change (base.size _) with 2%nat.
  rewrite lookup_insert, lookup_singleton. repeat case_decide; subst; split; intros Ha;
    try (by eexists); try lia; by destruct Ha.
Qed.

Lemma command_read_back_witness :
  let read type vs positions :=
    get_mapped_values (fun f v _ => pretty (f * v)) pretty
      (default [] (_position_map (fst (read_command (command_node "limits" type)
                     (new_processor (F := Z)))) !! "limits"))
      (read_done 1 20 positions "limits" vs) in
  read "switch" [10; 258] 2 !! "high" = Some "258" /\ read "numeric" [10] 1 = ∅.
Proof.
  pose proof (fun type vs => command_read_back (fun f v _ => pretty (f * v)) (command_node "limits" type)
    "limits" (limits type) 20 new_processor 1 vs) as H.
  cbn zeta. split.
  - destruct (H "switch" [10; 258] eq_refl eq_refl ltac:(discriminate) ltac:(done)
      (limits_contiguous _) ltac:(unfold zlen; cbn; lia) ltac:(apply (bool_decide_unpack _); vm_compute; exact I))
      as (t & first & labels & Hf & _ & -> & _ & _ & _ & _ & Hv).
    injection Hf as <-. destruct (Hv eq_refl) as [Hv' _]. exact (Hv' eq_refl 21 _ 258 eq_refl ltac:(done) eq_refl).
  - destruct (H "numeric" [10] eq_refl eq_refl ltac:(discriminate) ltac:(done)
      (limits_contiguous _) ltac:(unfold zlen; cbn; lia) ltac:(apply (bool_decide_unpack _); vm_compute; exact I))
      as (t & first & labels & Hf & _ & -> & _ & _ & _ & _ & Hv).
    injection Hf as <-. destruct (Hv eq_refl) as [_ Hv']. exact (Hv' ltac:(done)).
Defined.

Lemma processor_invariant_witness :
  let p := fold_left processor_step [call_read_operations (Some "file")] (new_processor (F := Z)) in
  snd (get_mapped_parameters "limits" p) = Ret (map snd (params_in_order (limits "switch")))
  /\ snd (get_base_address "limits" p) = Ret 20.
Proof.
  cbn zeta. split; [vm_compute; reflexivity|].
  destruct (processor_invariant [call_read_operations (Some "file")] "limits" _ eq_refl) as (_ & H & _).
  exact H.
Defined.
