(* ===== verification/EspXml.v ===== *)
(** * XML elements: [src/src/esp/source/ESP_XmlUtils.cpp]

    The elements of a document as TinyXML gives them: a name, attributes, and
    the child elements, without the comments and texts between them; and the
    functions that read their attributes. *)
From stdpp Require Import base tactics list strings pretty.
From Stdlib Require Import ZArith Lia Ascii String.
From S2P Require Import Prelude CppString EspStringUtils EspAttribute.

Local Open Scope string_scope.
Local Open Scope Z_scope.

Inductive TiXmlElement : Type :=
| Element (value : string) (attributes : list (string * string)) (children : list TiXmlElement).

Definition Value (e : TiXmlElement) : string := let '(Element v _ _) := e in v.
Definition Children (e : TiXmlElement) : list TiXmlElement := let '(Element _ _ cs) := e in cs.

Fixpoint find_attribute (l : list (string * string)) (name : string) : option string :=
  match l with
  | [] => None
  | (k, v) :: rest => if String.eqb k name then Some v else find_attribute rest name
  end.

(** [Attribute(name)], [None] for [NULL]. *)
Definition Attribute (e : TiXmlElement) (name : string) : option string :=
  let '(Element _ attributes _) := e in find_attribute attributes name.

(** [FirstChildElement(value)]. *)
Definition FirstChildElement (e : TiXmlElement) (value : string) : option TiXmlElement :=
  List.find (fun c => String.eqb (Value c) value) (Children e).

Definition queryIntValue (element : TiXmlElement) (attribute : string) : outcome Z :=
  match Attribute element attribute with Some value => atoi value | None => Ret 0 end.

Definition queryFloatValue `{FloatLib} (element : TiXmlElement) (attribute : string) : list Z :=
  match Attribute element attribute with
  | Some value => float_of_string value
  | None => le_bytes 4 0
  end.

Definition queryStringValue (element : TiXmlElement) (attribute : string) : string :=
  match Attribute element attribute with Some value => value | None => "" end.

Definition queryBoolValue (element : TiXmlElement) (attribute : string) : bool :=
  match Attribute element attribute with
  | Some value => String.eqb (strToLower value) "true"
  | None => false
  end.

Definition newline : string := String (ascii_of_nat 10) "".

Definition parseString (str : string) : fueled string :=
  fuel! str := replaceString str "\n " newline in
  replaceString str "\n" newline.

(** ** Tags *)

Definition getTagSub (element : TiXmlElement) : Z := if String.eqb (Value element) "sub" then 1 else 0.

Inductive ESP_TagTypeEnum : Type :=
| ESP_TagType_UNKNOWN | ESP_TagType_PARSER | ESP_TagType_CONSTRAINT | ESP_TagType_VALUE
| ESP_TagType_COMPOUNDVALUE | ESP_TagType_CONDITION | ESP_TagType_OPTION | ESP_TagType_STREAM
| ESP_TagType_LENGTH | ESP_TagType_DATASTREAM | ESP_TagType_CHECKSUM | ESP_TagType_ASCII
| ESP_TagType_REFERENCE | ESP_TagType_CONSTANT | ESP_TagType_LOOP | ESP_TagType_CLEAR
| ESP_TagType_SEND | ESP_TagType_SLEEP.

Definition tag_types : list (string * ESP_TagTypeEnum) :=
  [("constraint", ESP_TagType_CONSTRAINT); ("compoundvalue", ESP_TagType_COMPOUNDVALUE);
   ("value", ESP_TagType_VALUE); ("condition", ESP_TagType_CONDITION);
   ("option", ESP_TagType_OPTION); ("stream", ESP_TagType_STREAM);
   ("checksum", ESP_TagType_CHECKSUM); ("ascii", ESP_TagType_ASCII);
   ("reference", ESP_TagType_REFERENCE); ("constant", ESP_TagType_CONSTANT);
   ("loop", ESP_TagType_LOOP); ("clear", ESP_TagType_CLEAR); ("send", ESP_TagType_SEND);
   ("sleep", ESP_TagType_SLEEP)].

Fixpoint named {A} (l : list (string * A)) (s : string) : option A :=
  match l with
  | [] => None
  | (k, v) :: rest => if String.eqb s k then Some v else named rest s
  end.

Definition getTagType (element : TiXmlElement) : ESP_TagTypeEnum :=
  match Attribute element "type" with
  | Some type => default ESP_TagType_UNKNOWN (named tag_types type)
  | None => ESP_TagType_UNKNOWN
  end.

(** [ESP_TagOperationEnum], then [ESP_TagOptionOperationEnum]: the numbers of
    one are numbers of the other. *)
Definition tag_operations : list (string * Z) :=
  [("+", 1); ("-", 2); ("*", 3); ("/", 4); ("%", 5); ("saturate", 6);
   ("==", 1); ("<", 2); ("<=", 4); (">", 3); (">=", 5)].

Definition getTagOperation (element : TiXmlElement) : outcome Z :=
  match Attribute element "operation" with
  | Some type =>
      match named tag_operations type with
      | Some n => Ret n
      | None => if isIntegerNumber type then atoi type else Ret 1
      end
  | None => Ret 1
  end.

Definition getTagMode (element : TiXmlElement) : Z :=
  if String.eqb (Value element) "parser" then 1
  else if String.eqb (Value element) "calib" then 2 else 0.
