(* ===== verification/EspContext.v ===== *)
(** * The buffers of a parser: [ESP_Context] of [src/src/esp/source/TDA.cpp]

    The bytes read and not yet parsed, the bytes to be written, the attributes
    of the measure in progress and the measures found.  A pointer into the
    input is the block of bytes from there to its end.  A block is moved down
    with [memcpy], whose parts may overlap: it is taken to copy as [memmove]
    does. *)
From stdpp Require Import base tactics list gmap strings sorting.
From Stdlib Require Import ZArith Lia Ascii String.
From S2P Require Import Prelude CppString StdMap EspStringUtils EspAttribute.

Local Open Scope string_scope.
Local Open Scope Z_scope.

Record ESP_Context : Type := mkContext {
  input : list Z;
  input_size : Z;
  index_start : Z;
  index_end : Z;
  index_end_saved : Z;
  output : list Z;
  output_size : Z;
  close : bool;
  temp : CC_AttributesType;
  results : list CC_AttributesType
}.

Implicit Types c : ESP_Context.

(** [clear]: the saved index, the attributes and the results stay. *)
Definition clear c : ESP_Context :=
  mkContext [] 0 0 0 (index_end_saved c) [] 0 (close c) (temp c) (results c).

(** The constructor; [index_end_saved] has no value until [saveIndex]. *)
Definition new_context : ESP_Context := mkContext [] 0 0 0 0 [] 0 false ∅ [].

Definition set_input (b : list Z) (n : Z) c : ESP_Context :=
  mkContext b n (index_start c) (index_end c) (index_end_saved c) (output c) (output_size c)
    (close c) (temp c) (results c).
Definition set_index_end (i : Z) c : ESP_Context :=
  mkContext (input c) (input_size c) (index_start c) i (index_end_saved c) (output c)
    (output_size c) (close c) (temp c) (results c).
Definition set_saved (i : Z) c : ESP_Context :=
  mkContext (input c) (input_size c) (index_start c) (index_end c) i (output c) (output_size c)
    (close c) (temp c) (results c).
Definition set_output (b : list Z) (n : Z) c : ESP_Context :=
  mkContext (input c) (input_size c) (index_start c) (index_end c) (index_end_saved c) b n
    (close c) (temp c) (results c).
Definition set_close (b : bool) c : ESP_Context :=
  mkContext (input c) (input_size c) (index_start c) (index_end c) (index_end_saved c) (output c)
    (output_size c) b (temp c) (results c).
Definition set_temp (t : CC_AttributesType) c : ESP_Context :=
  mkContext (input c) (input_size c) (index_start c) (index_end c) (index_end_saved c) (output c)
    (output_size c) (close c) t (results c).
Definition set_results (r : list CC_AttributesType) c : ESP_Context :=
  mkContext (input c) (input_size c) (index_start c) (index_end c) (index_end_saved c) (output c)
    (output_size c) (close c) (temp c) r.

(** ** Attributes *)

(** The bytes of a string, and those at its [c_str()]. *)
Fixpoint string_block (s : string) : list Z :=
  match s with EmptyString => [] | String a s' => char_byte a :: string_block s' end.
Definition c_str_block (s : string) : list Z := (string_block s ++ [0])%list.

(** [map[name] = attribute]. *)
Definition assign_attribute (m : CC_AttributesType) (name : string) (a : ESP_Attribute)
    : outcome CC_AttributesType :=
  let! v := operator_assign (default new_attribute (m !! name)) a in
  Ret (<[name := v]> m).

(** [insert(CC_AttributesPair(name, attribute))]. *)
Definition insert_attribute (m : CC_AttributesType) (name : string) (a : ESP_Attribute)
    : outcome CC_AttributesType :=
  let! v := copy_attribute a in Ret (emplace m name v).

Section Context.
  Context `{FloatLib}.

Fixpoint add_params (params : list (string * string)) (t : CC_AttributesType)
    : outcome CC_AttributesType :=
  match params with
  | [] => Ret t
  | (k, v) :: rest =>
      let! a := setValue new_attribute k (Some (c_str_block v)) (slen v) ESP_DataType_STRING
                  ESP_DataCode_STRING in
      let! t := insert_attribute t k a in
      add_params rest t
  end.

Definition addParams (params : gmap string string) c : outcome ESP_Context :=
  let! t := add_params (entries params) (temp c) in Ret (set_temp t c).
End Context.

(** Attributes whose own name starts with an underscore are left out. *)
Fixpoint final_values (l : list (string * ESP_Attribute)) (acc : CC_AttributesType)
    : outcome CC_AttributesType :=
  match l with
  | [] => Ret acc
  | (k, a) :: rest =>
      if negb (startsWith (_name a) "_")
      then let! acc := insert_attribute acc k a in final_values rest acc
      else final_values rest acc
  end.

Definition addResultData c : outcome (ESP_Context * bool) :=
  let! finalValues := final_values (entries (temp c)) ∅ in
  if 0 <? Z.of_nat (base.size finalValues)
  then Ret (set_results (results c ++ [finalValues]) c, true)
  else Ret (c, false).

(** ** Input *)

Definition getInputSize c : Z := input_size c.
Definition getOutputSize c : Z := output_size c.
Definition getInputData c : list Z := input c.
Definition getOutputData c : list Z := output c.

(** [len] bytes at [data]; [realloc] keeps the block, [memcpy] fills the rest. *)
Definition addInputData (data : list Z) (len : Z) c : outcome ESP_Context :=
  if 0 <? len then
    let! d := read_block data len in
    let! b := read_block (input c) (input_size c) in
    Ret (set_input (b ++ d) (input_size c + len) c)
  else Ret c.

Definition getAvailableInputData c : Z := input_size c - index_end c.
Definition getAvailableOutputData c : Z := output_size c.
Definition inputDataIsAvailable (bytes : Z) c : bool := bytes <=? getAvailableInputData c.

(** The bytes from [input + i]: undefined before the block or past its end. *)
Definition pointer c (i : Z) : outcome (list Z) :=
  if (0 <=? i) && (i <=? zlen (input c)) then Ret (drop (Z.to_nat i) (input c)) else Undefined.

(** The pointer set, if any. *)
Definition readPInputData (bytes : Z) c : outcome (ESP_Context * option (list Z)) :=
  if (0 <? bytes) && inputDataIsAvailable bytes c then
    let! result := pointer c (index_end c) in
    Ret (set_index_end (index_end c + bytes) c, Some result)
  else Ret (c, None).

Definition validateInputData (offset : Z) c : outcome ESP_Context :=
  let index_end := if negb (offset =? 0) then offset else index_end c in
  let input_size := input_size c - index_end in
  let! from := pointer c index_end in
  let! b := read_block from input_size in
  Ret (set_index_end (index_start c) (set_input b input_size c)).

Definition saveIndex c : ESP_Context := set_saved (index_end c) c.
Definition restoreIndex c : ESP_Context := set_index_end (index_end_saved c) c.

(** [memcmp] at [input + i]: undefined past either block, or at [NULL] for a
    size. *)
Definition same_bytes c (i : Z) (value : option (list Z)) (datasize : Z) : outcome bool :=
  let! at_i := pointer c i in
  let! b := read_block at_i datasize in
  let! v := match value with
            | Some v => read_block v datasize
            | None => if datasize =? 0 then Ret [] else Undefined
            end in
  Ret (bool_decide (b = v)).

(** The loop over [i] up to [last], [n] turns. *)
Fixpoint search_loop (n : nat) (attribute : ESP_Attribute) (i : Z) c : outcome Z :=
  match n with
  | O => Ret (-1)
  | S n' =>
      if (0 <=? i) && (_datasize attribute <=? input_size c - i) then
        let! same := same_bytes c i (_value attribute) (_datasize attribute) in
        if same : bool then Ret i else search_loop n' attribute (i + 1) c
      else search_loop n' attribute (i + 1) c
  end.

Definition searchAttributeValueInRange (attribute : ESP_Attribute) (offset size : Z) c : outcome Z :=
  search_loop (Z.to_nat (size - offset)) attribute (index_end c + offset) c.

Definition searchAttributeValue (attribute : ESP_Attribute) c : outcome Z :=
  searchAttributeValueInRange attribute 0 (input_size c - index_end c) c.

Definition getSizeFromIndex (index : Z) c : Z := index - index_end c.

(** ** Output *)

(** [len] bytes at [data], [None] for [NULL]. *)
Definition addOutputData (data : option (list Z)) (len : Z) c : outcome ESP_Context :=
  let! d := match data with
            | Some d => read_block d len
            | None => if len =? 0 then Ret [] else Undefined
            end in
  let! b := read_block (output c) (output_size c) in
  Ret (set_output (b ++ d) (output_size c + len) c).

Definition removeOutputData (nbytes : Z) c : outcome ESP_Context :=
  if (0 <=? nbytes) && (nbytes <=? output_size c) then
    Ret (set_output (drop (Z.to_nat nbytes) (output c)) (output_size c - nbytes) c)
  else Undefined.

(** ** The invariant of a context *)

(** The sizes are those of the blocks, and the bytes read lie within. *)
Definition context_wf c : Prop :=
  input_size c = zlen (input c) /\ index_start c = 0 /\ 0 <= index_end c <= input_size c
  /\ output_size c = zlen (output c).

Lemma new_context_wf : context_wf new_context.
Proof. by repeat split. Qed.

Lemma pointer_wf c i : context_wf c -> 0 <= i <= input_size c ->
  pointer c i = Ret (drop (Z.to_nat i) (input c)).
Proof.
  intros (Hs & _) Hi. unfold pointer.
  rewrite (proj2 (Z.leb_le _ _)), (proj2 (Z.leb_le _ _)) by lia. done.
Qed.

Lemma zlen_drop {A} (l : list A) n : 0 <= n <= zlen l -> zlen (drop (Z.to_nat n) l) = zlen l - n.
Proof. intros Hn. unfold zlen in *. rewrite length_drop. lia. Qed.

Lemma read_block_ok (b : list Z) n : 0 <= n <= zlen b -> read_block b n = Ret (take (Z.to_nat n) b).
Proof.
  intros Hn. unfold read_block. rewrite (proj2 (Z.leb_le _ _)), (proj2 (Z.leb_le _ _)) by lia. done.
Qed.

Lemma take_zlen {A} (l : list A) : take (Z.to_nat (zlen l)) l = l.
Proof. unfold zlen. rewrite Nat2Z.id. apply firstn_all. Qed.

(** Reading some bytes: they are there, or nothing changes. *)
Lemma readPInputData_wf c n : context_wf c ->
  readPInputData n c
  = if (0 <? n) && (n <=? getAvailableInputData c)
    then Ret (set_index_end (index_end c + n) c, Some (drop (Z.to_nat (index_end c)) (input c)))
    else Ret (c, None).
Proof.
  intros Hc. unfold readPInputData, inputDataIsAvailable.
  destruct ((0 <? n) && (n <=? getAvailableInputData c)) eqn:E; [|done].
  rewrite pointer_wf; [done|done|]. destruct Hc as (_ & _ & Hi & _). lia.
Qed.

Lemma set_index_end_wf c i : context_wf c -> 0 <= i <= input_size c -> context_wf (set_index_end i c).
Proof. intros (H1 & H2 & H3 & H4) Hi. repeat split; cbn; (done || lia). Qed.

Lemma set_temp_wf c t : context_wf c -> context_wf (set_temp t c).
Proof. done. Qed.
Lemma set_results_wf c r : context_wf c -> context_wf (set_results r c).
Proof. done. Qed.
Lemma set_close_wf c b : context_wf c -> context_wf (set_close b c).
Proof. done. Qed.
Lemma saveIndex_wf c : context_wf c -> context_wf (saveIndex c).
Proof. done. Qed.

Lemma addInputData_wf c data : context_wf c ->
  exists c', addInputData data (zlen data) c = Ret c' /\ context_wf c'
    /\ input c' = (input c ++ data)%list /\ index_end c' = index_end c.
Proof.
  intros (H1 & H2 & H3 & H4). pose proof (zlen_nonneg data). unfold addInputData.
  destruct (0 <? zlen data) eqn:E.
  - rewrite !read_block_ok by lia. rewrite H1, !take_zlen. cbn. eexists. split; [done|].
    split; [|done]. repeat split; cbn; rewrite ?zlen_app; lia.
  - apply Z.ltb_ge in E. exists c. destruct data; [|rewrite zlen_cons in *; pose proof (zlen_nonneg data); lia].
    rewrite app_nil_r. done.
Qed.

(** The bytes read are left behind. *)
Lemma validateInputData_wf c n : context_wf c ->
  0 <= (if negb (n =? 0) then n else index_end c) <= input_size c ->
  exists c', validateInputData n c = Ret c' /\ context_wf c'
    /\ input c' = drop (Z.to_nat (if negb (n =? 0) then n else index_end c)) (input c)
    /\ index_end c' = 0 /\ temp c' = temp c /\ results c' = results c /\ output c' = output c
    /\ close c' = close c.
Proof.
  intros Hc Hn. unfold validateInputData. set (i := if negb (n =? 0) then n else index_end c) in *.
  rewrite pointer_wf by done. destruct Hc as (H1 & H2 & H3 & H4).
  assert (Hd : zlen (drop (Z.to_nat i) (input c)) = input_size c - i) by (rewrite zlen_drop; lia).
  cbn [obind]. rewrite read_block_ok by lia.
  assert (Ht : take (Z.to_nat (input_size c - i)) (drop (Z.to_nat i) (input c))
               = drop (Z.to_nat i) (input c)) by (rewrite <- Hd; apply take_zlen).
  rewrite Ht. eexists. split; [done|]. split; [|done].
  repeat split; cbn; lia.
Qed.

(** ** Searching *)

Lemma same_bytes_spec c i v : context_wf c -> 0 <= i -> i + zlen v <= input_size c ->
  same_bytes c i (Some v) (zlen v)
  = Ret (bool_decide (take (List.length v) (drop (Z.to_nat i) (input c)) = v)).
Proof.
  intros Hc Hi Hv. pose proof (zlen_nonneg v). unfold same_bytes. rewrite pointer_wf by (done || lia).
  destruct Hc as (H1 & _). cbn [obind].
  rewrite !read_block_ok by (rewrite ?zlen_drop; lia). cbn [obind]. rewrite take_zlen.
  unfold zlen. by rewrite Nat2Z.id.
Qed.

(** The search finds an index within the bytes not read, or none. *)
Lemma search_loop_range n : forall a i c j, context_wf c -> index_end c <= i ->
  search_loop n a i c = Ret j -> j = -1 \/ (i <= j /\ j + _datasize a <= input_size c).
Proof.
  induction n as [|n IH]; intros a i c j Hc Hi E; cbn in E; [injection E as <-; by left|].
  destruct ((0 <=? i) && (_datasize a <=? input_size c - i)) eqn:Ei.
  - destruct (same_bytes c i (_value a) (_datasize a)) as [[]|e|]; cbn in E; try done.
    + injection E as <-. breflect. right. lia.
    + apply IH in E; [|done|lia]. lia.
  - apply IH in E; [|done|lia]. lia.
Qed.
