(* ===== verification/EspParser.v ===== *)
(** * The parser of frames: the tags of [src/src/esp/source/TDA.cpp] and
    [src/src/esp/plugins/parser_basic/ESP_Plugin_Parser_Basic.cpp]

    A command is three trees of tags, run over a context until it gives a
    measure, waits for bytes or has to look further on.  A tag refers to its
    parents: running one takes the data of the tags above it, nearest first,
    and gives them back, for a break ends the loop it is in and an option
    marks its switch. *)
From stdpp Require Import base tactics list gmap strings sorting.
From Stdlib Require Import ZArith Lia Ascii String.
From S2P Require Import Prelude CppString StdMap EspStringUtils EspAttribute EspXml EspContext.

Local Open Scope string_scope.
Local Open Scope Z_scope.

Inductive ExecuteResultType : Type :=
| EXECUTE_RESULT_ERROR | EXECUTE_RESULT_IDLE | EXECUTE_RESULT_OK | EXECUTE_RESULT_OK_RETURN.

#[global] Instance ExecuteResultType_eq_dec : EqDecision ExecuteResultType.
Proof. solve_decision. Defined.

(** The classes derived from [ESP_Tag_Base]. *)
Inductive TagClass : Type :=
| ESP_Tag_Header | ESP_Tag_Body | ESP_Tag_Footer | ESP_Tag_Read | ESP_Tag_Write | ESP_Tag_Value
| ESP_Tag_Constraint | ESP_Tag_Close | ESP_Tag_Condition | ESP_Tag_Loop | ESP_Tag_Clear
| ESP_Tag_Result | ESP_Tag_Switch | ESP_Tag_Option | ESP_Tag_Break | ESP_Tag_CompoundValue.

#[global] Instance TagClass_eq_dec : EqDecision TagClass.
Proof. solve_decision. Defined.

(** The fields of the base class, then those of [ESP_Tag_Value],
    [ESP_Tag_Condition], [ESP_Tag_Loop], [ESP_Tag_Switch] and
    [ESP_Tag_Result]. *)
Record TagData : Type := mkTagData {
  t_class : TagClass;
  t_type : string;
  t_name : string;
  t_byteoffset : Z;
  t_datasize : Z;
  t_datatype : ESP_DataTypeEnum;
  t_datacode : ESP_DataCodeEnum;
  t_value : ESP_Attribute;
  t_loop : bool;
  t_valueref : string;
  t_parsed : bool;
  t_repeat : bool;
  t_nameref : string;
  t_resetend : bool;
  t_operation : string;
  t_breakonempty : bool;
  t_iterations : Z;
  t_iter : Z;
  t_niter : Z;
  t_evaluated : bool;
  t_nodata : bool
}.

(** A tag with its [subtags]. *)
Inductive Tag : Type := mkTag (d : TagData) (subtags : list Tag).

Definition data (t : Tag) : TagData := let '(mkTag d _) := t in d.
Definition subtags (t : Tag) : list Tag := let '(mkTag _ l) := t in l.

Implicit Types d : TagData.
Implicit Types t : Tag.

(** The constructors. *)
Definition new_tag (class : TagClass) (type name : string) : Tag :=
  mkTag (mkTagData class type name 0 0 ESP_DataType_UNKNOWN ESP_DataCode_UNKNOWN new_attribute false
           "" false false "" false "" false 0 0 0 false false) [].

Definition set_parsed (b : bool) d : TagData :=
  mkTagData (t_class d) (t_type d) (t_name d) (t_byteoffset d) (t_datasize d) (t_datatype d)
    (t_datacode d) (t_value d) (t_loop d) (t_valueref d) b (t_repeat d) (t_nameref d) (t_resetend d)
    (t_operation d) (t_breakonempty d) (t_iterations d) (t_iter d) (t_niter d) (t_evaluated d)
    (t_nodata d).
Definition set_repeat (b : bool) d : TagData :=
  mkTagData (t_class d) (t_type d) (t_name d) (t_byteoffset d) (t_datasize d) (t_datatype d)
    (t_datacode d) (t_value d) (t_loop d) (t_valueref d) (t_parsed d) b (t_nameref d) (t_resetend d)
    (t_operation d) (t_breakonempty d) (t_iterations d) (t_iter d) (t_niter d) (t_evaluated d)
    (t_nodata d).
Definition set_name (s : string) d : TagData :=
  mkTagData (t_class d) (t_type d) s (t_byteoffset d) (t_datasize d) (t_datatype d)
    (t_datacode d) (t_value d) (t_loop d) (t_valueref d) (t_parsed d) (t_repeat d) (t_nameref d)
    (t_resetend d) (t_operation d) (t_breakonempty d) (t_iterations d) (t_iter d) (t_niter d)
    (t_evaluated d) (t_nodata d).
Definition set_value (a : ESP_Attribute) d : TagData :=
  mkTagData (t_class d) (t_type d) (t_name d) (t_byteoffset d) (t_datasize d) (t_datatype d)
    (t_datacode d) a (t_loop d) (t_valueref d) (t_parsed d) (t_repeat d) (t_nameref d)
    (t_resetend d) (t_operation d) (t_breakonempty d) (t_iterations d) (t_iter d) (t_niter d)
    (t_evaluated d) (t_nodata d).
Definition set_datasize (n : Z) d : TagData :=
  mkTagData (t_class d) (t_type d) (t_name d) (t_byteoffset d) n (t_datatype d)
    (t_datacode d) (t_value d) (t_loop d) (t_valueref d) (t_parsed d) (t_repeat d) (t_nameref d)
    (t_resetend d) (t_operation d) (t_breakonempty d) (t_iterations d) (t_iter d) (t_niter d)
    (t_evaluated d) (t_nodata d).
Definition set_datatype (ty : ESP_DataTypeEnum) (code : ESP_DataCodeEnum) d : TagData :=
  mkTagData (t_class d) (t_type d) (t_name d) (t_byteoffset d) (t_datasize d) ty code (t_value d)
    (t_loop d) (t_valueref d) (t_parsed d) (t_repeat d) (t_nameref d) (t_resetend d)
    (t_operation d) (t_breakonempty d) (t_iterations d) (t_iter d) (t_niter d) (t_evaluated d)
    (t_nodata d).
Definition set_iter (iter niter : Z) d : TagData :=
  mkTagData (t_class d) (t_type d) (t_name d) (t_byteoffset d) (t_datasize d) (t_datatype d)
    (t_datacode d) (t_value d) (t_loop d) (t_valueref d) (t_parsed d) (t_repeat d) (t_nameref d)
    (t_resetend d) (t_operation d) (t_breakonempty d) (t_iterations d) iter niter (t_evaluated d)
    (t_nodata d).
Definition set_evaluated (b : bool) d : TagData :=
  mkTagData (t_class d) (t_type d) (t_name d) (t_byteoffset d) (t_datasize d) (t_datatype d)
    (t_datacode d) (t_value d) (t_loop d) (t_valueref d) (t_parsed d) (t_repeat d) (t_nameref d)
    (t_resetend d) (t_operation d) (t_breakonempty d) (t_iterations d) (t_iter d) (t_niter d) b
    (t_nodata d).

Definition on_data (f : TagData -> TagData) t : Tag := mkTag (f (data t)) (subtags t).

(** ** The base class *)

(** [reset], with what [ESP_Tag_Loop] and [ESP_Tag_Switch] add. *)
Definition reset_data d : TagData :=
  let d := set_repeat false (set_parsed false d) in
  match t_class d with
  | ESP_Tag_Loop => set_iter (t_iterations d) 0 d
  | ESP_Tag_Switch => set_evaluated false d
  | _ => d
  end.

Fixpoint reset t : Tag := let '(mkTag d l) := t in mkTag (reset_data d) (map reset l).

(** The first subtag that is not parsed: those before it, it, those after. *)
Fixpoint getNextTag (l : list Tag) : option (list Tag * Tag * list Tag) :=
  match l with
  | [] => None
  | t :: l' =>
      if negb (t_parsed (data t)) then Some ([], t, l')
      else match getNextTag l' with
           | Some (before, next, after) => Some (t :: before, next, after)
           | None => None
           end
  end.

Fixpoint set_all_parsed (status : bool) t : Tag :=
  let '(mkTag d l) := t in mkTag (set_parsed status d) (map (set_all_parsed status) l).

Definition setChildrenParsed (parent status : bool) t : Tag :=
  let '(mkTag d l) := t in
  mkTag (if parent then set_parsed status d else d) (map (set_all_parsed status) l).

(** [searchParent(this, _)]: the position of the nearest loop above. *)
Fixpoint searchParent (path : list TagData) : option nat :=
  match path with
  | [] => None
  | d :: rest =>
      if String.eqb (t_type d) "loop" then Some O
      else match searchParent rest with Some n => Some (S n) | None => None end
  end.

(** ** Executing a tag *)

(** The tag, the data of those above it, the context, and the result. *)
Definition step : Type := (Tag * list TagData * ESP_Context * ExecuteResultType).

Section Parser.
  Context `{FL : FloatLib}.

Implicit Types path : list TagData.
Implicit Types c : ESP_Context.

Definition execute_read path t c : outcome step :=
  let! r := readPInputData (t_datasize (data t)) c in
  Ret (t, path, fst r, if snd r then EXECUTE_RESULT_OK else EXECUTE_RESULT_IDLE).

(** [_value = *searchAttributeRefByName(&context->temp, _valueref)], if any. *)
Definition update_ref t c : outcome Tag :=
  if negb (String.eqb (t_valueref (data t)) "") then
    match searchAttributeRefByName (temp c) (t_valueref (data t)) with
    | Some attrtemp =>
        let! v := operator_assign (t_value (data t)) attrtemp in
        Ret (on_data (set_value v) t)
    | None => Ret t
    end
  else Ret t.

Definition execute_write path t c : outcome step :=
  let! t := update_ref t c in
  let! c := addOutputData (_value (t_value (data t))) (_datasize (t_value (data t))) c in
  Ret (t, path, c, EXECUTE_RESULT_OK).

Definition execute_constraint path t c : outcome step :=
  let d := data t in
  let! r := readPInputData (t_datasize d) c in
  match snd r with
  | Some result =>
      let! atri_result := setValue new_attribute (t_name d) (Some result) (t_datasize d)
                            (t_datatype d) (t_datacode d) in
      let! cmp := compareValue (Some (t_value d)) (Some atri_result) in
      Ret (t, path, fst r, if cmp =? 0 then EXECUTE_RESULT_OK else EXECUTE_RESULT_ERROR)
  | None => Ret (t, path, fst r, EXECUTE_RESULT_IDLE)
  end.

(** A [bool] as the [int] it is kept in. *)
Definition of_pointer {A} (p : option A) : Z := match p with Some _ => 1 | None => 0 end.

(** What [ESP_Tag_Value] reads: its own data, the context, the pointer, the
    size and what it calls [dataread]. *)
Definition value_from_ref d c : outcome (TagData * ESP_Context * option (list Z) * Z * Z) :=
  let! d := (if negb (String.eqb (t_nameref d) "") then
               match searchAttributeRefByName (temp c) (t_nameref d) with
               | Some nameref => let! s := getValueAsString nameref in Ret (set_name s d)
               | None => Undefined
               end
             else Ret d) in
  match searchAttributeRefByName (temp c) (t_valueref d) with
  | Some valueref =>
      if negb (String.eqb (t_name d) "") then
        let ty := if decide (t_datatype d = ESP_DataType_UNKNOWN) then _datatype valueref else t_datatype d in
        let code := match t_datacode d with ESP_DataCode_UNKNOWN => _datacode valueref | k => k end in
        Ret (set_datatype ty code d, c, _value valueref, _datasize valueref, _datasize valueref)
      else Ret (d, c, None, 0, 0)
  | None => Ret (d, c, None, 0, 0)
  end.

Definition value_read d (finalsize : Z) c
    : outcome (TagData * ESP_Context * option (list Z) * Z * Z) :=
  let! r := readPInputData finalsize c in
  Ret (d, fst r, snd r, finalsize, of_pointer (snd r)).

Definition value_delimited d c : outcome (TagData * ESP_Context * option (list Z) * Z * Z) :=
  let! index := searchAttributeValue (t_value d) c in
  if 0 <=? index then
    let finalsize := if _datasize (t_value d) =? 0 then getAvailableInputData c
                     else getSizeFromIndex index c in
    let! r := value_read d finalsize c in
    let '(d, c, result, finalsize, dataread) := r in
    let! delim := readPInputData (_datasize (t_value d)) c in
    Ret (d, fst delim, result, finalsize, dataread)
  else value_read d (getAvailableInputData c) c.

Definition value_data d c : outcome (TagData * ESP_Context * option (list Z) * Z * Z) :=
  if negb (String.eqb (t_valueref d) "") then value_from_ref d c
  else match t_datacode d with
       | ESP_DataCode_STRINGDELIM => value_delimited d c
       | _ => value_read d (t_datasize d) c
       end.

(** The name, with the turn of the loop above for each [$]. *)
Definition final_name path (name : string) : fueled string :=
  match find "$" name 0 with
  | None => Some (Ret name)
  | Some _ =>
      match searchParent path with
      | Some n =>
          match path !! n with
          | Some parentloop => replaceString name "$" (intToString (t_niter parentloop))
          | None => Some (Ret name)
          end
      | None => Some (Ret name)
      end
  end.

Definition execute_value path t c : fueled step :=
  let '(mkTag d l) := t in
  fuel! r := Some (value_data d (saveIndex c)) in
  let '(d, c, result, finalsize, dataread) := r in
  let c := if t_resetend d then restoreIndex c else c in
  if 0 <=? dataread then
    fuel! finalname := final_name path (t_name d) in
    Some (let! atri_result := setValue new_attribute finalname result finalsize (t_datatype d)
                                (t_datacode d) in
          let! tmp := assign_attribute (temp c) finalname atri_result in
          Ret (mkTag d l, path, set_temp tmp c, EXECUTE_RESULT_OK))
  else Some (Ret (mkTag d l, path, c, EXECUTE_RESULT_IDLE)).

Definition contains (s sub : string) : bool :=
  match find sub s 0 with Some _ => true | None => false end.

(** The test of a condition on an attribute. *)
Definition condition_holds (operation : string) (compare : Z) (valueref value : ESP_Attribute)
    : outcome bool :=
  if (String.eqb operation "" || String.eqb operation "equal") && (compare =? 0) then Ret true
  else if String.eqb operation "notequal" && negb (compare =? 0) then Ret true
  else
    let! s := if String.eqb operation "notcontains" || String.eqb operation "contains"
              then getValueAsString valueref else Ret "" in
    let! v := if String.eqb operation "notcontains" || String.eqb operation "contains"
              then getValueAsString value else Ret "" in
    Ret ((String.eqb operation "notcontains" && negb (contains s v))
         || (String.eqb operation "contains" && contains s v)
         || String.eqb operation "default").

Definition execute_condition path t c : outcome step :=
  let d := data t in
  let! ok := match searchAttributeRefByName (temp c) (t_valueref d) with
             | Some valueref =>
                 let! compare := compareValue (Some valueref) (Some (t_value d)) in
                 condition_holds (t_operation d) compare valueref (t_value d)
             | None =>
                 let! index := searchAttributeValueInRange (t_value d) (t_byteoffset d)
                                 (t_datasize d) c in
                 Ret (0 <=? index)
             end in
  Ret (if ok : bool then t else setChildrenParsed true true t, path, c, EXECUTE_RESULT_OK).

Definition execute_switch path t c : outcome step :=
  let! t := update_ref t c in Ret (t, path, c, EXECUTE_RESULT_OK).

Definition execute_option path t c : outcome step :=
  match path with
  | switchtag :: above =>
      if String.eqb (t_type switchtag) "switch" then
        let! compare := compareValue (searchAttributeRefByName (temp c) (t_valueref switchtag))
                          (Some (t_value (data t))) in
        if ((compare =? 0) || (_datasize (t_value (data t)) =? 0)) && negb (t_evaluated switchtag)
        then Ret (t, set_evaluated true switchtag :: above, c, EXECUTE_RESULT_OK)
        else Ret (setChildrenParsed true true t, path, c, EXECUTE_RESULT_OK)
      else Ret (t, path, c, EXECUTE_RESULT_ERROR)
  | [] => Ret (t, path, c, EXECUTE_RESULT_ERROR)
  end.

Definition execute_loop path t c : step :=
  let d := data t in
  if negb (t_iter d =? 0) && (negb (t_breakonempty d) || (0 <? getAvailableInputData c)) then
    let oldniter := t_niter d in
    let t := reset t in
    let t := on_data (set_repeat true) t in
    let iter := t_iter (data t) in
    (on_data (set_iter (if 0 <? iter then iter - 1 else iter) (i32 (oldniter + 1))) t, path, c,
     EXECUTE_RESULT_OK)
  else
    (setChildrenParsed true true (on_data (fun d => set_iter 0 (t_niter d) (set_repeat false d)) t),
     path, c, EXECUTE_RESULT_OK).

Definition execute_break path t c : step :=
  let path := match searchParent path with
              | Some n => alter (fun d => set_iter 0 (t_niter d) d) n path
              | None => path
              end in
  (t, path, c, EXECUTE_RESULT_OK).

Definition execute_result path t c : outcome step :=
  if negb (t_nodata (data t)) || (getAvailableInputData c =? 0) then
    let! r := addResultData c in Ret (t, path, fst r, EXECUTE_RESULT_OK)
  else Ret (t, path, c, EXECUTE_RESULT_OK).

Definition execute path t c : fueled step :=
  match t_class (data t) with
  | ESP_Tag_Read => Some (execute_read path t c)
  | ESP_Tag_Write => Some (execute_write path t c)
  | ESP_Tag_Value => execute_value path t c
  | ESP_Tag_Constraint => Some (execute_constraint path t c)
  | ESP_Tag_Close => Some (Ret (t, path, set_close true c, EXECUTE_RESULT_OK))
  | ESP_Tag_Condition => Some (execute_condition path t c)
  | ESP_Tag_Loop => Some (Ret (execute_loop path t c))
  | ESP_Tag_Clear => Some (Ret (t, path, set_temp ∅ c, EXECUTE_RESULT_OK))
  | ESP_Tag_Result => Some (execute_result path t c)
  | ESP_Tag_Switch => Some (execute_switch path t c)
  | ESP_Tag_Option => Some (execute_option path t c)
  | ESP_Tag_Break => Some (Ret (execute_break path t c))
  | ESP_Tag_Header | ESP_Tag_Body | ESP_Tag_Footer | ESP_Tag_CompoundValue =>
      Some (Ret (t, path, c, EXECUTE_RESULT_OK))
  end.

(** ** Running a tree *)

(** The loop over the subtags: each is run with its parent on the path, and
    the tag is put back together. *)
Fixpoint run_subtags (run : list TagData -> Tag -> ESP_Context -> fueled step) (n : nat) path t c
    : fueled step :=
  match n with
  | O => None
  | S n =>
      match getNextTag (subtags t) with
      | None => Some (Ret (t, path, c, EXECUTE_RESULT_OK))
      | Some (before, next, after) =>
          fuel! r := run (data t :: path) next c in
          let '(next, path', c, result) := r in
          match path' with
          | d :: path =>
              let t := mkTag d (before ++ next :: after)%list in
              if decide (result = EXECUTE_RESULT_OK) then run_subtags run n path t c
              else Some (Ret (t, path, c, result))
          | [] => Some Undefined
          end
      end
  end.

Fixpoint run (fuel : nat) path t c : fueled step :=
  match fuel with
  | O => None
  | S fuel =>
      if negb (t_parsed (data t)) then
        fuel! r := execute path t c in
        let '(t, path, c, result) := r in
        if decide (result = EXECUTE_RESULT_OK) then
          let t := on_data (set_parsed true) t in
          fuel! r := run_subtags (run fuel) fuel path t c in
          let '(t, path, c, result) := r in
          let t := if t_repeat (data t) then setChildrenParsed true false t else t in
          Some (Ret (t, path, c, result))
        else Some (Ret (t, path, c, result))
      else run_subtags (run fuel) fuel path t c
  end.

(** ** Commands *)

Record ESP_Command : Type := mkCommand {
  cmd_name : string;
  roe : bool;
  index : Z;
  header : Tag;
  body : Tag;
  footer : Tag;
  params : gmap string string
}.

Implicit Types k : ESP_Command.

Definition set_index (i : Z) k : ESP_Command :=
  mkCommand (cmd_name k) (roe k) i (header k) (body k) (footer k) (params k).
Definition set_header t k : ESP_Command :=
  mkCommand (cmd_name k) (roe k) (index k) t (body k) (footer k) (params k).
Definition set_body t k : ESP_Command :=
  mkCommand (cmd_name k) (roe k) (index k) (header k) t (footer k) (params k).
Definition set_footer t k : ESP_Command :=
  mkCommand (cmd_name k) (roe k) (index k) (header k) (body k) t (params k).

Definition command_reset k : ESP_Command :=
  mkCommand (cmd_name k) (roe k) 0 (reset (header k)) (reset (body k)) (reset (footer k)) (params k).

Definition command_step : Type := (ESP_Command * ESP_Context * ExecuteResultType).

(** One of the trees: its tag, the context and the result. *)
Definition run_tree (fuel : nat) t c : fueled (Tag * ESP_Context * ExecuteResultType) :=
  fuel! r := run fuel [] t c in
  let '(t, _, c, result) := r in Some (Ret (t, c, result)).

(** A measure is complete. *)
Definition new_data k t c : outcome command_step :=
  let k := if t_loop (data t) then set_index 1 (set_body (reset t) k)
           else set_index (index k + 1) (set_body t k) in
  let! c := validateInputData 0 c in
  let! r := addResultData c in
  Ret (k, set_temp ∅ (fst r), EXECUTE_RESULT_OK).

(** Nothing fits here: a byte is left behind and the body starts again. *)
Definition skip_byte k c : outcome (ESP_Command * ESP_Context) :=
  let! c := validateInputData 1 c in
  Ret (set_index 1 (command_reset k), set_temp ∅ c).

Fixpoint command_run (fuel : nat) k c : fueled command_step :=
  match fuel with
  | O => None
  | S fuel =>
      (* the end of the function, on the result of the header or footer, or of
         a body without new data *)
      let in_progress k c result :=
        match result with
        | EXECUTE_RESULT_OK => command_run fuel (set_index (index k + 1) k) c
        | EXECUTE_RESULT_ERROR =>
            fuel! r := Some (skip_byte k c) in command_run fuel (fst r) (snd r)
        | _ => Some (Ret (k, c, result))
        end in
      if index k =? 0 then
        fuel! r := run_tree fuel (header k) c in
        let '(t, c, result) := r in in_progress (set_header t k) c result
      else if index k =? 1 then
        fuel! r := run_tree fuel (body k) c in
        let '(t, c, result) := r in
        if decide (result = EXECUTE_RESULT_OK) then Some (new_data k t c)
        else in_progress (set_body t k) c result
      else if index k =? 2 then
        fuel! r := run_tree fuel (footer k) c in
        let '(t, c, result) := r in in_progress (set_footer t k) c result
      else Some (Ret (k, c, EXECUTE_RESULT_IDLE))
  end.

(** ** Reading a command from its element *)

Definition createParser (element : TiXmlElement) : option Tag :=
  let type := queryStringValue element "type" in
  let name := queryStringValue element "name" in
  match named [("read", ESP_Tag_Read); ("write", ESP_Tag_Write); ("value", ESP_Tag_Value);
               ("constraint", ESP_Tag_Constraint); ("close", ESP_Tag_Close);
               ("condition", ESP_Tag_Condition); ("loop", ESP_Tag_Loop); ("clear", ESP_Tag_Clear);
               ("result", ESP_Tag_Result); ("switch", ESP_Tag_Switch); ("option", ESP_Tag_Option);
               ("break", ESP_Tag_Break)] type with
  | Some class => Some (new_tag class type name)
  | None => None
  end.

(** The value of an attribute of the element; [valuehex] passes the [NULL] of
    [valuestring] to [strlen]. *)
Definition parse_value (element : TiXmlElement) (name : string) (value : ESP_Attribute)
    : outcome (option ESP_Attribute) :=
  let set s size ty :=
    let! a := setValue value name (Some (c_str_block s)) size ty ESP_DataCode_STRING in Ret (Some a) in
  match Attribute element "valueint", Attribute element "valuefloat",
        Attribute element "valuestring", Attribute element "valuehex" with
  | Some s, _, _, _ => set s 4 ESP_DataType_INT
  | None, Some s, _, _ => set s 4 ESP_DataType_FLOAT
  | None, None, Some s, _ => set s (slen s) ESP_DataType_STRING
  | None, None, None, Some _ => Undefined
  | None, None, None, None => Ret None
  end.

Definition parse_base (element : TiXmlElement) d : outcome TagData :=
  let! byteoffset := queryIntValue element "byteoffset" in
  let! datasize := queryIntValue element "datasize" in
  Ret (mkTagData (t_class d) (t_type d) (queryStringValue element "name") byteoffset
         (if datasize =? 0 then byteoffset else datasize)
         (getDataTypeFromString (queryStringValue element "datatype"))
         (getDataCodeFromString (queryStringValue element "datacode"))
         (t_value d) (queryBoolValue element "loop") (queryStringValue element "valueref")
         (t_parsed d) (t_repeat d) (t_nameref d) (t_resetend d) (t_operation d) (t_breakonempty d)
         (t_iterations d) (t_iter d) (t_niter d) (t_evaluated d) (t_nodata d)).

Definition parseCustomElement (element : TiXmlElement) d : outcome TagData :=
  let custom nameref resetend operation breakonempty iterations iter evaluated nodata :=
    mkTagData (t_class d) (t_type d) (t_name d) (t_byteoffset d) (t_datasize d) (t_datatype d)
      (t_datacode d) (t_value d) (t_loop d) (t_valueref d) (t_parsed d) (t_repeat d) nameref resetend
      operation breakonempty iterations iter (t_niter d) evaluated nodata in
  match t_class d with
  | ESP_Tag_Value =>
      Ret (custom (queryStringValue element "nameref") (queryBoolValue element "resetend")
             (t_operation d) (t_breakonempty d) (t_iterations d) (t_iter d) (t_evaluated d) (t_nodata d))
  | ESP_Tag_Condition =>
      Ret (custom (t_nameref d) (t_resetend d) (queryStringValue element "operation")
             (t_breakonempty d) (t_iterations d) (t_iter d) (t_evaluated d) (t_nodata d))
  | ESP_Tag_Switch =>
      Ret (custom (t_nameref d) (t_resetend d) (t_operation d) (t_breakonempty d) (t_iterations d)
             (t_iter d) false (t_nodata d))
  | ESP_Tag_Loop =>
      let! iterations := queryIntValue element "iterations" in
      Ret (custom (t_nameref d) (t_resetend d) (t_operation d)
             (queryBoolValue element "breakonempty") iterations iterations (t_evaluated d) (t_nodata d))
  | ESP_Tag_Result =>
      Ret (custom (t_nameref d) (t_resetend d) (t_operation d) (t_breakonempty d) (t_iterations d)
             (t_iter d) (t_evaluated d) (queryBoolValue element "nodata"))
  | _ => Ret d
  end.

Definition parseElement (element : TiXmlElement) d : outcome TagData :=
  let! d := parse_base element d in
  let! v := parse_value element (t_name d) (t_value d) in
  let d := match v with Some a => set_datasize (_datasize a) (set_value a d) | None => d end in
  parseCustomElement element d.

(** A tag with what the element says, and a subtag for each child a parser is
    known for. *)
Fixpoint createCommandDetails (element : TiXmlElement) (commandtag : Tag) : outcome Tag :=
  let create := fix create (children : list TiXmlElement) : outcome (list Tag) :=
    match children with
    | [] => Ret []
    | i :: rest =>
        match createParser i with
        | Some commandsubparser =>
            let! sub := createCommandDetails i commandsubparser in
            let! subs := create rest in Ret (sub :: subs)
        | None => create rest
        end
    end in
  let! d := parseElement element (data commandtag) in
  let! subs := create (Children element) in
  Ret (mkTag d (subtags commandtag ++ subs)%list).

(** [parseCommands]: the elements by name. *)
Fixpoint insert_commands (elements : list TiXmlElement) (m : gmap string TiXmlElement)
    : gmap string TiXmlElement :=
  match elements with
  | [] => m
  | i :: rest => insert_commands rest (emplace m (queryStringValue i "name") i)
  end.

Definition parseCommands (element : TiXmlElement) : gmap string TiXmlElement :=
  match FirstChildElement element "commands" with
  | Some commandsElement => insert_commands (Children commandsElement) ∅
  | None => ∅
  end.

Fixpoint default_params (elements : list TiXmlElement) (m : gmap string string) : gmap string string :=
  match elements with
  | [] => m
  | i :: rest =>
      default_params rest (emplace m (queryStringValue i "name") (queryStringValue i "value"))
  end.

Fixpoint create_trees (elements : list TiXmlElement) (k : ESP_Command) : outcome ESP_Command :=
  match elements with
  | [] => Ret k
  | i :: rest =>
      let type := queryStringValue i "type" in
      let! k := if String.eqb type "header"
                then let! t := createCommandDetails i (header k) in Ret (set_header t k)
                else Ret k in
      let! k := if String.eqb type "body"
                then let! t := createCommandDetails i (body k) in Ret (set_body t k)
                else Ret k in
      let! k := if String.eqb type "footer"
                then let! t := createCommandDetails i (footer k) in Ret (set_footer t k)
                else Ret k in
      create_trees rest k
  end.

Definition createCommand (commands : gmap string TiXmlElement) (name : string)
    : outcome (option ESP_Command) :=
  match commands !! name with
  | None => Ret None
  | Some e =>
      let params := match FirstChildElement e "params" with
                    | Some defaultparams => default_params (Children defaultparams) ∅
                    | None => ∅
                    end in
      let k := mkCommand (queryStringValue e "name") (queryBoolValue e "roe") 0
                 (new_tag ESP_Tag_Header "" "") (new_tag ESP_Tag_Body "" "")
                 (new_tag ESP_Tag_Footer "" "") params in
      match FirstChildElement e "parser" with
      | Some parser => let! k := create_trees (Children parser) k in Ret (Some k)
      | None => Ret (Some k)
      end
  end.
End Parser.
