(* ===== verification/EspParserSpec.v ===== *)
(** * What the parser of frames does

    The bytes a parser leaves behind, the loops that never end, the values that
    never wait, the fields of a text and the frames found among noise. *)
From stdpp Require Import base tactics list gmap strings sorting.
From Stdlib Require Import ZArith Lia Ascii String.
From S2P Require Import Prelude CppString StdMap EspStringUtils EspAttribute EspXml EspContext EspParser.

Local Open Scope string_scope.
Local Open Scope Z_scope.

(** Take apart [H : code = Ret _] or [Some (Ret _)]. *)
Ltac ret_inv H :=
  repeat (cbn [obind fbind] in H;
    match type of H with
    | Ret _ = Ret _ => injection H; clear H; intros; subst
    | Some (Ret _) = Some (Ret _) => injection H; clear H; intros; subst
    | Some _ = Some (Ret _) => injection H; clear H; intro H
    | Undefined = _ => discriminate H
    | Throw _ = _ => discriminate H
    | None = _ => discriminate H
    | obind ?e _ = _ => destruct e eqn:?; [|discriminate H|discriminate H]
    | fbind ?e _ = _ => destruct e as [[?|?|]|] eqn:?; [|discriminate H|discriminate H|discriminate H]
    | (if ?b then _ else _) = _ => destruct b eqn:?
    | match ?x with _ => _ end = _ => destruct x eqn:?
    | (let '_ := ?x in _) = _ => destruct x eqn:?
    end).

Section Spec.
  Context `{FL : FloatLib}.

(** The context after parsing: well formed, with the same bytes and the
    measures found before. *)
Definition parsed c c' : Prop :=
  context_wf c' /\ input c' = input c /\ results c `prefix_of` results c'.

Lemma parsed_same c c' : context_wf c' -> input c' = input c -> results c' = results c -> parsed c c'.
Proof. intros Hw Hi Hr. split; [done|]. split; [done|]. by rewrite Hr. Qed.

Lemma readP_parsed n c c' p : context_wf c -> readPInputData n c = Ret (c', p) ->
  parsed c c' /\ index_end_saved c' = index_end_saved c /\ index_end c <= index_end c'.
Proof.
  intros Hc. rewrite readPInputData_wf by done.
  destruct ((0 <? n) && (n <=? getAvailableInputData c)) eqn:E; intros [= <- <-].
  - breflect. unfold getAvailableInputData in *. destruct Hc as (H1 & H2 & H3 & H4).
    split; [|cbn; lia]. apply parsed_same; [|done..]. apply set_index_end_wf; [done|lia].
  - split; [|lia]. by apply parsed_same.
Qed.

Lemma parsed_refl c : context_wf c -> parsed c c.
Proof. intros Hc. by apply parsed_same. Qed.

Lemma parsed_trans c1 c2 c3 : parsed c1 c2 -> parsed c2 c3 -> parsed c1 c3.
Proof.
  intros (H1 & E1 & R1) (H2 & E2 & R2). split; [done|]. split; [congruence|]. by etrans.
Qed.

Lemma addOutputData_parsed d n c c' : context_wf c -> addOutputData d n c = Ret c' -> parsed c c'.
Proof.
  intros (H1 & H2 & H3 & H4) E. unfold addOutputData in E.
  assert (Hr : forall b m x, read_block b m = Ret x -> zlen x = m).
  { intros b m x Hx. by eapply read_block_size. }
  destruct (match d with Some _ => _ | None => _ end) as [b|e|] eqn:Eb; cbn [obind] in E; try done.
  destruct (read_block (output c) (output_size c)) as [o|e|] eqn:Eo; cbn [obind] in E; try done.
  injection E as <-. apply parsed_same; [|done..]. repeat split; cbn; try (done || lia).
  rewrite zlen_app, (Hr _ _ _ Eo). enough (zlen b = n) by lia.
  destruct d as [d|]; [by eapply Hr|]. destruct (n =? 0) eqn:En; [|done]. injection Eb as <-.
  breflect. by subst.
Qed.

Lemma value_data_parsed d c d' c' p n m : context_wf c -> value_data d c = Ret (d', c', p, n, m) ->
  parsed c c' /\ index_end_saved c' = index_end_saved c.
Proof.
  intros Hc E.
  assert (Hread : forall d n d' c' p k m, value_read d n c = Ret (d', c', p, k, m) ->
    parsed c c' /\ index_end_saved c' = index_end_saved c).
  { clear E. intros. unfold value_read in *.
    destruct (readPInputData _ c) as [[c1 p1]|e|] eqn:E1; cbn [obind] in *; try done.
    apply readP_parsed in E1 as (H1 & H2 & _); [|done]. by simplify_eq/=. }
  unfold value_data in E. destruct (negb _).
  - unfold value_from_ref in E.
    destruct (if negb _ then _ else _) as [d1|e|] eqn:E1; cbn [obind] in E; try done.
    clear E1. ret_inv E; (split; [by apply parsed_refl|done]).
  - destruct (t_datacode d); try by eapply Hread.
    unfold value_delimited in E. destruct (searchAttributeValue (t_value d) c) as [i|e|]; cbn [obind] in E;
      try done.
    destruct (0 <=? i); [|by eapply Hread].
    destruct (value_read d _ c) as [[[[[d1 c1] p1] n1] m1]|e|] eqn:E1; cbn [obind] in E; try done.
    destruct (readPInputData _ c1) as [[c2 p2]|e|] eqn:E2; cbn [obind] in E; try done.
    injection E as <- <- <- <- <-. apply Hread in E1 as [H1 H2].
    apply readP_parsed in E2 as (H3 & H4 & _); [|apply H1]. cbn.
    split; [by eapply parsed_trans|congruence].
Qed.

Lemma execute_value_parsed path t c t' path' c' r : context_wf c ->
  execute_value path t c = Some (Ret (t', path', c', r)) -> parsed c c'.
Proof.
  intros Hc E. unfold execute_value in E. destruct t as [d l].
  destruct (value_data d (saveIndex c)) as [[[[[d1 c1] p1] n1] m1]|e|] eqn:E1; cbn [fbind] in E; try done.
  apply value_data_parsed in E1 as [(H1 & H2 & H4) H3]; [|done].
  assert (Hr : parsed c (if t_resetend d1 then restoreIndex c1 else c1)).
  { destruct (t_resetend d1); [|done]. split; [|done]. unfold restoreIndex.
    apply set_index_end_wf; [done|]. rewrite H3. cbn. destruct H1 as (S1 & _). destruct Hc as (S2 & _ & S3 & _).
    rewrite S1, H2. cbn [input saveIndex set_saved]. rewrite <- S2. exact S3. }
  destruct (0 <=? m1); [|by ret_inv E].
  destruct (final_name path (t_name d1)) as [[fn|e|]|]; cbn [fbind] in E; try done.
  destruct (setValue _ _ _ _ _ _) as [a|e|]; cbn [obind] in E; try done.
  destruct (assign_attribute _ _ _) as [m|e|]; cbn [obind] in E; try done.
  injection E as <- <- <- <-. exact Hr.
Qed.

Lemma addResultData_parsed c c' b : context_wf c -> addResultData c = Ret (c', b) -> parsed c c'.
Proof.
  intros Hc E. unfold addResultData in E. destruct (final_values _ _) as [m|e|]; cbn [obind] in E; try done.
  destruct (0 <? _); injection E as <- _; [|by apply parsed_refl].
  split; [done|]. split; [done|]. by apply prefix_app_r.
Qed.

Lemma execute_parsed path t c t' path' c' r : context_wf c ->
  execute path t c = Some (Ret (t', path', c', r)) -> parsed c c'.
Proof.
  intros Hc E. unfold execute in E.
  destruct (t_class (data t)); try (by eapply execute_value_parsed);
    try (injection E as <- <- <- <-; by split).
  - unfold execute_read in E. destruct (readPInputData _ c) as [[c1 p]|e|] eqn:E1; cbn in E; try done.
    injection E as <- <- <- <-. by apply readP_parsed in E1 as [H1 _].
  - unfold execute_write in E. destruct (update_ref t c) as [t1|e|]; cbn [obind] in E; try done.
    destruct (addOutputData _ _ c) as [c1|e|] eqn:E1; cbn in E; try done.
    injection E as <- <- <- <-. by eapply addOutputData_parsed.
  - unfold execute_constraint in E. destruct (readPInputData _ c) as [[c1 p]|e|] eqn:E1; cbn [obind] in E; try done.
    apply readP_parsed in E1 as [H1 _]; [|done]. destruct p; cbn [fst snd] in E; [|by ret_inv E].
    destruct (setValue _ _ _ _ _ _) as [a|e|]; cbn [obind] in E; try done.
    destruct (compareValue _ _) as [z|e|]; cbn [obind] in E; try done. by ret_inv E.
  - unfold execute_condition in E.
    destruct (match searchAttributeRefByName _ _ with Some _ => _ | None => _ end) as [b|e|];
      cbn [obind] in E; try done. injection E as <- <- <- <-. by split.
  - injection E as E. unfold execute_loop in E. destruct (_ && _); injection E as <- <- <- <-; by split.
  - unfold execute_result in E. destruct (_ || _); [|by ret_inv E].
    destruct (addResultData c) as [[c1 b]|e|] eqn:E1; cbn in E; try done.
    injection E as <- <- <- <-. by eapply addResultData_parsed.
  - unfold execute_switch in E. destruct (update_ref t c) as [t1|e|]; cbn in E; try done.
    injection E as <- <- <- <-. by split.
  - unfold execute_option in E. destruct path as [|s above]; [by ret_inv E|].
    destruct (String.eqb _ _); [|by ret_inv E].
    destruct (compareValue _ _) as [z|e|]; cbn [obind] in E; try done.
    destruct (_ && _); by ret_inv E.
Qed.

Lemma run_subtags_parsed f n : (forall path t c t' path' c' r, context_wf c ->
    f path t c = Some (Ret (t', path', c', r)) -> parsed c c') ->
  forall path t c t' path' c' r, context_wf c ->
    run_subtags f n path t c = Some (Ret (t', path', c', r)) -> parsed c c'.
Proof.
  intros Hf. induction n as [|n IH]; intros path t c t' path' c' r Hc E; cbn in E; [done|].
  destruct (getNextTag (subtags t)) as [[[before next] after]|].
  2: { injection E as <- <- <- <-. by apply parsed_refl. }
  destruct (f _ next c) as [[[[[t1 path1] c1] r1]|e|]|] eqn:E1; cbn [fbind] in E; try done.
  apply Hf in E1; [|done]. destruct path1 as [|d path1]; [done|].
  destruct (decide _) as [Hok|Hok]; [|injection E as <- <- <- <-; done].
  eapply parsed_trans; [exact E1|]. eapply IH; [apply E1|exact E].
Qed.

(** A run of a tag leaves the bytes as they are, and what it has read within
    them. *)
Lemma run_parsed fuel : forall path t c t' path' c' r, context_wf c ->
  run fuel path t c = Some (Ret (t', path', c', r)) -> parsed c c'.
Proof.
  induction fuel as [|fuel IH]; intros path t c t' path' c' r Hc E; cbn in E; [done|].
  destruct (negb _); [|by eapply run_subtags_parsed].
  destruct (execute path t c) as [[[[[t1 path1] c1] r1]|e|]|] eqn:E1; cbn [fbind] in E; try done.
  apply execute_parsed in E1; [|done].
  destruct (decide _) as [Hok|Hok]; [|injection E as <- <- <- <-; done].
  destruct (run_subtags _ _ _ _ _) as [[[[[t2 path2] c2] r2]|e|]|] eqn:E2; cbn [fbind] in E; try done.
  injection E as <- <- <- <-. eapply parsed_trans; [exact E1|].
  eapply run_subtags_parsed; [exact IH|apply E1|exact E2].
Qed.

(** ** Commands leave bytes behind, and never others *)

Definition consumed c c' : Prop :=
  context_wf c' /\ results c `prefix_of` results c'
  /\ exists n, 0 <= n <= zlen (input c) /\ input c' = drop (Z.to_nat n) (input c).

Lemma parsed_consumed c c' : parsed c c' -> consumed c c'.
Proof.
  intros (H1 & H2 & H3). split; [done|]. split; [done|]. exists 0. pose proof (zlen_nonneg (input c)).
  split; [lia|]. by rewrite H2.
Qed.

Lemma consumed_trans c1 c2 c3 : consumed c1 c2 -> consumed c2 c3 -> consumed c1 c3.
Proof.
  intros (H1 & R1 & n & Hn & E1) (H2 & R2 & m & Hm & E2). split; [done|]. split; [by etrans|]. exists (n + m).
  rewrite E1, zlen_drop in Hm by lia. split; [lia|].
  rewrite E2, E1, drop_drop. f_equal. lia.
Qed.

Lemma validate_consumed n c c' : context_wf c -> validateInputData n c = Ret c' -> consumed c c'.
Proof.
  intros Hc E. set (i := if negb (n =? 0) then n else index_end c).
  assert (Hi : 0 <= i <= input_size c).
  { unfold validateInputData in E. fold i in E. unfold pointer in E.
    destruct ((0 <=? i) && _) eqn:Ei; cbn [obind] in E; [|done]. breflect.
    destruct Hc as (Hs & _). lia. }
  destruct (validateInputData_wf c n Hc Hi) as (c1 & E1 & Hw & Hin & _ & _ & Hr & _).
  rewrite E in E1. injection E1 as <-. split; [done|]. split; [by rewrite Hr|]. exists i.
  destruct Hc as (Hs & _). split; [lia|done].
Qed.

Lemma run_tree_consumed fuel t c t' c' r : context_wf c ->
  run_tree fuel t c = Some (Ret (t', c', r)) -> consumed c c'.
Proof.
  intros Hc E. unfold run_tree in E.
  destruct (run fuel [] t c) as [[[[[t1 p1] c1] r1]|e|]|] eqn:E1; cbn [fbind] in E; try done.
  injection E as <- <- <-. apply parsed_consumed. by eapply run_parsed.
Qed.

Lemma new_data_consumed k t c k' c' r : context_wf c -> new_data k t c = Ret (k', c', r) -> consumed c c'.
Proof.
  intros Hc E. unfold new_data in E. set (k1 := if t_loop (data t) then _ else _) in E. clearbody k1.
  destruct (validateInputData 0 c) as [c1|e|] eqn:E1; cbn [obind] in E; try done.
  apply validate_consumed in E1; [|done].
  destruct (addResultData c1) as [[c2 b]|e|] eqn:E2; cbn [obind fst] in E; try done.
  injection E as <- <- <-. eapply consumed_trans; [exact E1|].
  apply parsed_consumed. apply addResultData_parsed in E2; [exact E2|apply E1].
Qed.

(** C8. Whatever a command does with the bytes it is given, it takes them in order:
    what is left is the end of what there was, the sizes and indexes of the
    context stay within its blocks, and the measures found before are kept,
    the new ones after them. *)
Theorem command_consumes (fuel : nat) (k : ESP_Command) (c : ESP_Context) (k' : ESP_Command)
    (c' : ESP_Context) (r : ExecuteResultType) (Hc : context_wf c)
    (Hrun : command_run fuel k c = Some (Ret (k', c', r))) : consumed c c'.
Proof.
  revert k c k' c' r Hc Hrun. induction fuel as [|fuel IH]; intros k c k' c' r Hc E; [done|].
  assert (Hprog : forall k1 c1 r1, consumed c c1 ->
    match r1 with
    | EXECUTE_RESULT_OK => command_run fuel (set_index (index k1 + 1) k1) c1
    | EXECUTE_RESULT_ERROR =>
        fuel! r := Some (skip_byte k1 c1) in command_run fuel (fst r) (snd r)
    | _ => Some (Ret (k1, c1, r1))
    end = Some (Ret (k', c', r)) -> consumed c c').
  { intros k1 c1 r1 H1 E1. destruct r1; try (injection E1 as <- <- <-; exact H1).
    - unfold skip_byte in E1. destruct (validateInputData 1 c1) as [c2|e|] eqn:E2; cbn in E1; try done.
      apply validate_consumed in E2; [|apply H1].
      eapply consumed_trans; [exact H1|]. eapply consumed_trans; [exact E2|].
      exact (IH _ (set_temp ∅ c2) _ _ _ (proj1 E2) E1).
    - eapply consumed_trans; [exact H1|]. eapply IH; [apply H1|exact E1]. }
  cbn [command_run] in E. destruct (index k =? 0); [|destruct (index k =? 1); [|destruct (index k =? 2)]].
  - destruct (run_tree _ _ c) as [[[[t1 c1] r1]|e|]|] eqn:E1; cbn [fbind] in E; try done.
    apply run_tree_consumed in E1; [|done]. by eapply Hprog.
  - destruct (run_tree _ _ c) as [[[[t1 c1] r1]|e|]|] eqn:E1; cbn [fbind] in E; try done.
    apply run_tree_consumed in E1; [|done]. destruct (decide _) as [Hok|Hok].
    + injection E as E. eapply consumed_trans; [exact E1|]. eapply new_data_consumed; [apply E1|exact E].
    + by eapply Hprog.
  - destruct (run_tree _ _ c) as [[[[t1 c1] r1]|e|]|] eqn:E1; cbn [fbind] in E; try done.
    apply run_tree_consumed in E1; [|done]. by eapply Hprog.
  - injection E as <- <- <-. apply parsed_consumed. by apply parsed_refl.
Qed.

(** ** Values do not wait *)

Lemma assign_null m name a : _value a = None ->
  assign_attribute m name a
  = Ret (<[name := mkAttribute (_name a) None (_datasize a) (_datatype a) (_datacode a)]> m).
Proof.
  intros Ha. unfold assign_attribute, operator_assign. rewrite Ha, clearValue_null. done.
Qed.

Lemma final_name_plain path name : find "$" name 0 = None -> final_name path name = Some (Ret name).
Proof. intros H. unfold final_name. by rewrite H. Qed.

(** A tag that reads a value of the input, and not of another attribute. *)
Definition reads_input (t : Tag) : Prop := t_class (data t) = ESP_Tag_Value /\ t_valueref (data t) = "".

Lemma value_read_nonneg d n c x : value_read d n c = Ret x -> 0 <= snd x.
Proof.
  intros E. unfold value_read in E.
  destruct (readPInputData _ _) as [[c3 []]|e|]; cbn in E; try done; by injection E as <-.
Qed.

Lemma value_data_nonneg d c x : t_valueref d = "" -> value_data d c = Ret x -> 0 <= snd x.
Proof.
  intros Href E. unfold value_data in E. rewrite Href in E. cbn [String.eqb negb] in E.
  destruct (t_datacode d); try exact (value_read_nonneg _ _ _ _ E).
  unfold value_delimited in E. destruct (searchAttributeValue _ _) as [i|e|]; cbn [obind] in E; try done.
  destruct (0 <=? i); [|exact (value_read_nonneg _ _ _ _ E)].
  destruct (value_read _ _ _) as [[[[[d2 c2] p2] n2] m2]|e|] eqn:E2; cbn [obind] in E; try done.
  apply value_read_nonneg in E2. destruct (readPInputData _ c2) as [[c3 p3]|e|]; cbn [obind] in E; try done.
  by injection E as <-.
Qed.

(** A tag that reads a value of the input never waits for its bytes: whatever
    is there it succeeds, and when the bytes it was to read are not all there
    it consumes none and leaves an attribute of its name that has no value and
    reads as the empty text. *)
Theorem value_never_waits (path : list TagData) (t : Tag) (c : ESP_Context)
    (Hread : reads_input t) (Hc : context_wf c) :
  (forall t' path' c' r, execute path t c = Some (Ret (t', path', c', r)) -> r = EXECUTE_RESULT_OK)
  /\ (t_datacode (data t) <> ESP_DataCode_STRINGDELIM -> find "$" (t_name (data t)) 0 = None ->
      getAvailableInputData c < t_datasize (data t) ->
      exists c' a, execute path t c = Some (Ret (t, path, c', EXECUTE_RESULT_OK))
        /\ temp c' = <[t_name (data t) := a]> (temp c) /\ _value a = None
        /\ getValueAsString a = Ret "" /\ input c' = input c /\ index_end c' = index_end c).
Proof.
  destruct Hread as [Ht Href]. destruct t as [d l]. cbn [data] in *. split.
  - intros t' path' c' r E. unfold execute in E. cbn [data] in E. rewrite Ht in E. unfold execute_value in E.
    destruct (value_data d (saveIndex c)) as [[[[[d1 c1] p1] n1] m1]|e|] eqn:E1; cbn [fbind] in E; try done.
    apply value_data_nonneg in E1; [|done]. apply Z.leb_le in E1. cbn [snd] in E1. rewrite E1 in E. clear E1.
    destruct (final_name _ _) as [[fn|e|]|]; cbn [fbind] in E; try done.
    destruct (setValue _ _ _ _ _ _) as [a|e|]; cbn [obind] in E; try done.
    destruct (assign_attribute _ _ _) as [m|e|]; cbn [obind] in E; try done. by injection E as _ _ _ <-.
  - intros Hcode Hname Hn. unfold execute. cbn [data]. rewrite Ht. unfold execute_value, value_data.
    rewrite Href. cbn [String.eqb negb].
    assert (E : value_read d (t_datasize d) (saveIndex c) = Ret (d, saveIndex c, None, t_datasize d, 0)).
    { unfold value_read. rewrite readPInputData_wf by done.
      replace (t_datasize d <=? getAvailableInputData (saveIndex c)) with false;
        [by rewrite andb_false_r|]. symmetry. apply Z.leb_gt. exact Hn. }
    destruct (t_datacode d) eqn:Ed; try done; rewrite E; cbn [fbind Z.leb Z.compare];
      rewrite final_name_plain by done; cbn [fbind]; unfold setValue; cbn [obind]; rewrite assign_null by done;
      cbn [obind]; (eexists _, _; split; [reflexivity|]);
      destruct (t_resetend d); done.
Qed.

(** ** Loops do not count *)

Fixpoint no_break (t : Tag) : bool :=
  let '(mkTag d l) := t in
  negb (bool_decide (t_class d = ESP_Tag_Break)) && forallb no_break l.

Fixpoint tag_ind' (P : Tag -> Prop) (H : forall d l, Forall P l -> P (mkTag d l)) (t : Tag) : P t :=
  match t with
  | mkTag d l =>
      H d l ((fix all (l : list Tag) : Forall P l :=
                match l with
                | [] => List.Forall_nil P
                | t :: l => List.Forall_cons P t l (tag_ind' P H t) (all l)
                end) l)
  end.

Lemma forallb_map_same (f : Tag -> Tag) l :
  Forall (fun t => no_break (f t) = no_break t) l -> forallb no_break (map f l) = forallb no_break l.
Proof. induction 1 as [|t l Ht Hl IH]; cbn; [done|]. by rewrite Ht, IH. Qed.

Lemma reset_data_class d : t_class (reset_data d) = t_class d.
Proof. unfold reset_data. cbn. by destruct (t_class d) eqn:E. Qed.

Lemma no_break_reset t : no_break (reset t) = no_break t.
Proof.
  induction t as [d l IH] using tag_ind'. cbn. by rewrite reset_data_class, (forallb_map_same _ l IH).
Qed.

Lemma no_break_parsed b t : no_break (set_all_parsed b t) = no_break t.
Proof. induction t as [d l IH] using tag_ind'. cbn. by rewrite (forallb_map_same _ l IH). Qed.

Lemma no_break_children p b t : no_break (setChildrenParsed p b t) = no_break t.
Proof.
  destruct t as [d l]. cbn. rewrite forallb_map_same; [by destruct p|].
  apply Forall_forall. intros t _. apply no_break_parsed.
Qed.

Lemma no_break_on_data f t : (forall d, t_class (f d) = t_class d) -> no_break (on_data f t) = no_break t.
Proof. intros Hf. destruct t as [d l]. cbn. by rewrite Hf. Qed.

(** What running a tag does to the tags above it: an option marks its switch. *)
Definition same_loop d d' : Prop := exists b, d' = set_evaluated b d.
Definition same_above (path path' : list TagData) : Prop := Forall2 same_loop path path'.

Lemma same_loop_refl d : same_loop d d.
Proof. exists (t_evaluated d). by destruct d. Qed.

Lemma same_loop_trans d1 d2 d3 : same_loop d1 d2 -> same_loop d2 d3 -> same_loop d1 d3.
Proof. intros [b1 ->] [b2 ->]. by exists b2. Qed.

Lemma same_above_refl path : same_above path path.
Proof. induction path; constructor; [apply same_loop_refl|done]. Qed.

Lemma same_above_trans p1 p2 p3 : same_above p1 p2 -> same_above p2 p3 -> same_above p1 p3.
Proof.
  intros H. revert p3. induction H as [|d1 d2 p1 p2 Hd Hp IH]; intros p3 H3; inversion H3; subst;
    constructor; [by eapply same_loop_trans|by apply IH].
Qed.

Lemma update_ref_no_break t c t' : update_ref t c = Ret t' -> no_break t' = no_break t.
Proof.
  unfold update_ref. intros E. destruct (negb _); [|by injection E as <-].
  destruct (searchAttributeRefByName _ _); [|by injection E as <-].
  destruct (operator_assign _ _); cbn in E; try done. injection E as <-. by apply no_break_on_data.
Qed.

Lemma value_data_class d c d' c' p n m : value_data d c = Ret (d', c', p, n, m) -> t_class d' = t_class d.
Proof.
  assert (Hread : forall d n d' c c' p k m, value_read d n c = Ret (d', c', p, k, m) -> d' = d).
  { intros d0 n0 d1 c0 c1 p0 k0 m0 E. unfold value_read in E. destruct (readPInputData _ _); cbn in E; try done.
    by injection E. }
  intros E. unfold value_data in E. destruct (negb _).
  - unfold value_from_ref in E.
    destruct (if negb _ then _ else _) as [d1|e|] eqn:E1; cbn [obind] in E; try done.
    assert (t_class d1 = t_class d).
    { destruct (negb _); [|by injection E1 as <-]. destruct (searchAttributeRefByName _ _); [|done].
      destruct (getValueAsString _); cbn in E1; try done. by injection E1 as <-. }
    clear E1. by ret_inv E.
  - destruct (t_datacode d); try (by apply Hread in E as ->).
    unfold value_delimited in E. destruct (searchAttributeValue _ _); cbn [obind] in E; try done.
    destruct (0 <=? _); [|by apply Hread in E as ->].
    destruct (value_read _ _ _) as [[[[[d2 c2] p2] n2] m2]|e|] eqn:E2; cbn [obind] in E; try done.
    apply Hread in E2 as ->. destruct (readPInputData _ c2); cbn [obind] in E; try done.
    by injection E as <-.
Qed.

Lemma execute_loop_same path t c :
  snd (fst (fst (execute_loop path t c))) = path
  /\ no_break (fst (fst (fst (execute_loop path t c)))) = no_break t.
Proof.
  unfold execute_loop. destruct (_ && _); cbn [fst snd]; (split; [done|]).
  - by rewrite !no_break_on_data, no_break_reset.
  - by rewrite no_break_children, no_break_on_data.
Qed.

Lemma execute_same path t c t' path' c' r : no_break t = true ->
  execute path t c = Some (Ret (t', path', c', r)) -> same_above path path' /\ no_break t' = true.
Proof.
  intros Hb E. unfold execute in E.
  assert (Hs : forall path, same_above path path) by apply same_above_refl.
  destruct (t_class (data t)) eqn:Ec; try (injection E as <- <- <- <-; by split).
  - unfold execute_read in E. by ret_inv E.
  - unfold execute_write in E. destruct (update_ref t c) as [t1|e|] eqn:E1; cbn [obind] in E; try done.
    apply update_ref_no_break in E1. ret_inv E. split; [done|congruence].
  - unfold execute_value in E. destruct t as [d l].
    destruct (value_data d (saveIndex c)) as [[[[[d1 c1] p1] n1] m1]|e|] eqn:E1; cbn [fbind] in E; try done.
    apply value_data_class in E1.
    assert (Hb' : no_break (mkTag d1 l) = true) by (cbn in Hb |- *; by rewrite E1).
    destruct (0 <=? m1); [|injection E as <- <- <- <-; by split].
    destruct (final_name _ _) as [[fn|e|]|]; cbn [fbind] in E; try done.
    destruct (setValue _ _ _ _ _ _) as [a|e|]; cbn [obind] in E; try done.
    destruct (assign_attribute _ _ _) as [m|e|]; cbn [obind] in E; try done.
    injection E as <- <- <- <-. by split.
  - unfold execute_constraint in E. by ret_inv E.
  - unfold execute_condition in E.
    destruct (match searchAttributeRefByName _ _ with Some _ => _ | None => _ end) as [b|e|];
      cbn [obind] in E; try done. injection E as <- <- <- <-.
    split; [done|]. destruct b; [done|]. by rewrite no_break_children.
  - injection E as E. pose proof (execute_loop_same path t c) as [H1 H2]. rewrite E in H1, H2.
    cbn in H1, H2. split; [by rewrite H1|congruence].
  - unfold execute_result in E. by ret_inv E.
  - unfold execute_switch in E. destruct (update_ref t c) as [t1|e|] eqn:E1; cbn in E; try done.
    apply update_ref_no_break in E1. injection E as <- <- <- <-. split; [done|congruence].
  - unfold execute_option in E. destruct path as [|s above]; [by ret_inv E|].
    destruct (String.eqb _ _); [|by ret_inv E].
    destruct (compareValue _ _) as [z|e|]; cbn [obind] in E; try done.
    destruct (_ && _); injection E as <- <- <- <-.
    + split; [|done]. constructor; [by exists true|apply same_above_refl].
    + split; [done|]. by rewrite no_break_children.
  - destruct t as [d l]. cbn in Hb, Ec. by rewrite Ec in Hb.
Qed.

Lemma getNextTag_app l before next after : getNextTag l = Some (before, next, after) ->
  l = (before ++ next :: after)%list /\ t_parsed (data next) = false
  /\ Forall (fun t => t_parsed (data t) = true) before.
Proof.
  revert before. induction l as [|t l IH]; intros before E; cbn in E; [done|].
  destruct (t_parsed (data t)) eqn:Ep; cbn in E.
  - destruct (getNextTag l) as [[[b n] a]|]; [|done]. injection E as <- <- <-.
    destruct (IH b eq_refl) as (-> & H1 & H2). split; [done|]. split; [done|]. by constructor.
  - injection E as <- <- <-. done.
Qed.

(** What running a tag without breaks keeps of what is above it. *)
Definition keeps_above (f : list TagData -> Tag -> ESP_Context -> fueled step) : Prop :=
  forall path t c t' path' c' r, no_break t = true -> f path t c = Some (Ret (t', path', c', r)) ->
    same_above path path' /\ no_break t' = true.

(** Running the subtags also keeps the tag itself, but for the mark. *)
Lemma run_subtags_same f n : keeps_above f -> forall path t c t' path' c' r, no_break t = true ->
  run_subtags f n path t c = Some (Ret (t', path', c', r)) ->
  same_above path path' /\ no_break t' = true /\ same_loop (data t) (data t').
Proof.
  intros Hf. induction n as [|n IH]; intros path t c t' path' c' r Hb E; cbn in E; [done|].
  destruct t as [d l]. cbn [subtags data] in *.
  destruct (getNextTag l) as [[[before next] after]|] eqn:En.
  2: { injection E as <- <- <- <-. split_and!; [apply same_above_refl|done|apply same_loop_refl]. }
  apply getNextTag_app in En as (-> & _ & _). cbn in Hb. rewrite forallb_app in Hb. cbn in Hb. breflect.
  destruct (f _ next c) as [[[[[t1 path1] c1] r1]|e|]|] eqn:E1; cbn [fbind] in E; try done.
  apply Hf in E1 as [Hs Hn]; [|done]. inversion Hs as [|? d1 ? p1 Hd Hp]; subst.
  assert (Hb' : no_break (mkTag d1 (before ++ t1 :: after)) = true).
  { cbn. rewrite forallb_app. cbn. destruct Hd as [b ->]. cbn.
    repeat (apply andb_true_iff; split); try done. by apply negb_true_iff. }
  destruct (decide (r1 = _)) as [Hok|Hok].
  - apply IH in E as (H4 & H5 & H6); [|exact Hb'].
    split_and!; [by eapply same_above_trans|done|by eapply same_loop_trans].
  - injection E as <- <- <- <-. done.
Qed.

Lemma run_same fuel : keeps_above (run fuel).
Proof.
  induction fuel as [|fuel IH]; intros path t c t' path' c' r Hb E; cbn in E; [done|].
  destruct (negb _).
  - destruct (execute path t c) as [[[[[t1 path1] c1] r1]|e|]|] eqn:E1; cbn [fbind] in E; try done.
    apply execute_same in E1 as [H1 H2]; [|done].
    destruct (decide _) as [Hok|Hok]; [|injection E as <- <- <- <-; done].
    destruct (run_subtags _ _ _ _ _) as [[[[[t2 path2] c2] r2]|e|]|] eqn:E2; cbn [fbind] in E; try done.
    apply run_subtags_same in E2 as (H3 & H4 & _); [|done|by rewrite no_break_on_data].
    injection E as <- <- <- <-. split; [by eapply same_above_trans|].
    destruct (t_repeat _); [by rewrite no_break_children|done].
  - apply run_subtags_same in E as (H3 & H4 & _); done.
Qed.

Lemma getNextTag_parsed l : getNextTag (map (set_all_parsed true) l) = None.
Proof. induction l as [|[d l'] l IH]; cbn; [done|]. by rewrite IH. Qed.

(** A loop of several turns that has turns left. *)
Definition counting (t : Tag) : Prop :=
  t_class (data t) = ESP_Tag_Loop /\ t_parsed (data t) = false /\ t_iter (data t) <> 0
  /\ t_iterations (data t) <> 0 /\ t_iterations (data t) <> 1 /\ no_break t = true.

(** What [counting] asks of the data, with a turn of the loop begun. *)
Definition begun (t t1 : Tag) : Prop :=
  t_class (data t1) = ESP_Tag_Loop /\ t_repeat (data t1) = true /\ t_iter (data t1) <> 0
  /\ t_iterations (data t1) <> 0 /\ t_iterations (data t1) <> 1
  /\ t_breakonempty (data t1) = t_breakonempty (data t) /\ no_break t1 = true.

Lemma loop_begun path t c : counting t ->
  negb (t_iter (data t) =? 0) && (negb (t_breakonempty (data t)) || (0 <? getAvailableInputData c)) = true ->
  exists t1, execute_loop path t c = (t1, path, c, EXECUTE_RESULT_OK) /\ begun t (on_data (set_parsed true) t1).
Proof.
  intros (Hc & Hp & Hi & H0 & H1 & Hb) Et. unfold execute_loop. rewrite Et.
  eexists. split; [reflexivity|]. pose proof (no_break_reset t) as Hr. rewrite Hb in Hr.
  destruct t as [d l]. cbn [data] in *. unfold begun. rewrite !no_break_on_data, Hr by done.
  assert (Er : reset_data d = set_iter (t_iterations d) 0 (set_repeat false (set_parsed false d)))
    by (unfold reset_data; cbn; by rewrite Hc).
  cbn [on_data reset data]. rewrite Er. cbn. split_and!; try done.
  destruct (0 <? t_iterations d) eqn:Ei; breflect; lia.
Qed.

Lemma begun_counting t t1 t2 b : begun t t1 -> data t2 = set_evaluated b (data t1) -> no_break t2 = true ->
  t_repeat (data t2) = true /\ counting (setChildrenParsed true false t2)
  /\ t_breakonempty (data (setChildrenParsed true false t2)) = t_breakonempty (data t).
Proof.
  intros (Hc & Hr & Hi & H0 & H1 & He & _) Hd Hb.
  pose proof (no_break_children true false t2) as Hn. destruct t2 as [d2 l2]. cbn [data] in Hd. subst d2.
  unfold counting. rewrite Hn by done. cbn. done.
Qed.

(** A turn of the loop leaves it as it was, unless there is nothing to read. *)
Lemma loop_turn fuel path t c t' path' c' r : counting t ->
  run fuel path t c = Some (Ret (t', path', c', r)) ->
  (counting t' /\ t_breakonempty (data t') = t_breakonempty (data t))
  \/ (t_breakonempty (data t) = true /\ getAvailableInputData c <= 0 /\ c' = c
      /\ t_parsed (data t') = true).
Proof.
  intros Hl E. pose proof Hl as (Hc & Hp & Hi & _). destruct fuel as [|fuel]; [done|]. cbn [run] in E.
  rewrite Hp in E. cbn [negb] in E. unfold execute in E. rewrite Hc in E. cbn [fbind] in E.
  destruct (negb (t_iter (data t) =? 0) && (negb (t_breakonempty (data t)) || (0 <? getAvailableInputData c)))
    eqn:Et.
  - destruct (loop_begun path t c Hl Et) as (t1 & E1 & Hg). rewrite E1 in E. cbn [fbind] in E.
    destruct (decide _) as [_|Hn]; [|done]. left.
    destruct (run_subtags (run fuel) fuel path _ c) as [[[[[t2 path2] c2] r2]|e|]|] eqn:E2;
      cbn [fbind] in E; try done.
    apply run_subtags_same in E2 as (_ & H4 & [b Hd]); [|apply run_same|apply Hg].
    destruct (begun_counting _ _ _ b Hg Hd H4) as (Hr & Hg2). rewrite Hr in E. by injection E as <- <- <- <-.
  - right. unfold execute_loop in E. rewrite Et in E. cbn [fbind] in E.
    destruct (decide _) as [_|Hn]; [|done].
    apply andb_false_iff in Et as [Et|Et]; [breflect; lia|].
    apply orb_false_iff in Et as [Et1 Et2]. apply negb_false_iff in Et1. apply Z.ltb_ge in Et2.
    destruct t as [d l]. destruct fuel as [|fuel]; [done|].
    cbn [on_data setChildrenParsed run_subtags subtags data] in E.
    rewrite getNextTag_parsed in E. cbn in E. by injection E as <- <- <- <-.
Qed.

(** C30. The number of turns of a loop is not what it says: whatever number above
    one it is, or below zero, a loop without a break in it goes on for ever, or
    until one of its tags waits or fails; only [breakonempty] ends it, when all
    the input is read. *)
Theorem loop_never_counts (fuel : nat) (path : list TagData) (bd : TagData) (loop : Tag)
    (c : ESP_Context) (Hbody : t_class bd = ESP_Tag_Body /\ t_parsed bd = false)
    (Hloop : counting loop) (t' : Tag) (path' : list TagData) (c' : ESP_Context)
    (Hrun : run fuel path (mkTag bd [loop]) c = Some (Ret (t', path', c', EXECUTE_RESULT_OK))) :
  t_breakonempty (data loop) = true /\ getAvailableInputData c' <= 0.
Proof.
  destruct fuel as [|fuel]; [done|]. cbn in Hrun. destruct Hbody as [Hc Hp]. rewrite Hp in Hrun.
  unfold execute in Hrun. cbn [data negb] in Hrun. rewrite Hc in Hrun. cbn [fbind] in Hrun.
  destruct (decide _) as [_|Hn]; [|done].
  assert (Hs : forall n d path loop c t' path' c', counting loop ->
    run_subtags (run fuel) n path (mkTag d [loop]) c = Some (Ret (t', path', c', EXECUTE_RESULT_OK)) ->
    t_breakonempty (data loop) = true /\ getAvailableInputData c' <= 0).
  { clear. induction n as [|n IH]; intros d path loop c t' path' c' Hl E; cbn in E; [done|].
    pose proof Hl as (_ & Hp & _). rewrite Hp in E. cbn [negb] in E.
    destruct (run fuel (d :: path) loop c) as [[[[[t1 path1] c1] r1]|e|]|] eqn:E1; cbn [fbind] in E; try done.
    destruct path1 as [|d1 path1]; [done|]. destruct (decide _) as [->|Hn]; [|congruence].
    apply loop_turn in E1 as [[H1 H2]|(H1 & H2 & -> & H3)]; [| |done].
    - apply IH in E as [H3 H4]; [|done]. split; [congruence|done].
    - split; [done|]. destruct n as [|n]; [done|]. cbn in E. rewrite H3 in E. cbn in E.
      by injection E as <- <- <-. }
  destruct (run_subtags _ _ _ _ _) as [[[[[t2 path2] c2] r2]|e|]|] eqn:E2; cbn [fbind] in Hrun; try done.
  injection Hrun as <- <- <- ->. exact (Hs _ _ _ _ _ _ _ _ Hloop E2).
Qed.

(** ** Frames among noise *)

(** A context that has read nothing of [b]. *)
Definition holding (b : list Z) c : ESP_Context :=
  set_temp ∅ (set_index_end 0 (set_input b (zlen b) c)).

Lemma holding_wf b c : context_wf c -> context_wf (holding b c).
Proof. intros (H1 & H2 & H3 & H4). pose proof (zlen_nonneg b). repeat split; cbn; (done || lia). Qed.

Lemma block_string_inj a b : Forall is_byte a -> Forall is_byte b ->
  block_string a = block_string b -> a = b.
Proof.
  intros Ha. revert b. induction Ha as [|x a Hx Ha IH]; intros [|y b] Hb E; try done.
  cbn in E. injection E as E1 E2. inversion Hb as [|? ? Hy Hb']; subst.
  f_equal; [|by apply IH]. rewrite <- (char_byte_char x), <- (char_byte_char y) by done.
  by rewrite E1.
Qed.

(** The tag that looks for the bytes [m]. *)
Definition marker (m : list Z) (t : Tag) : Prop :=
  t_class (data t) = ESP_Tag_Constraint /\ t_datasize (data t) = zlen m
  /\ t_datatype (data t) = ESP_DataType_STRING /\ t_parsed (data t) = false
  /\ (exists n code, t_value (data t) = mkAttribute n (Some m) (zlen m) ESP_DataType_STRING code)
  /\ 0 < zlen m <= ESP_PARSER_MAX_VALUE_SIZE /\ Forall is_byte m.

Lemma string_attribute name b rest code : zlen b <= ESP_PARSER_MAX_VALUE_SIZE ->
  setValue new_attribute name (Some (b ++ rest)%list) (zlen b) ESP_DataType_STRING code
  = Ret (mkAttribute name (Some b) (zlen b) ESP_DataType_STRING code).
Proof.
  intros Hb. unfold setValue, converted, copied. rewrite read_block_app. cbn [obind].
  rewrite (proj2 (Z.ltb_ge _ _)) by done. cbn [obind].
  rewrite take_app_le by (unfold zlen; lia). by rewrite take_zlen.
Qed.

Lemma compare_strings n1 c1 n2 c2 a b :
  compareValue (Some (mkAttribute n1 (Some a) (zlen a) ESP_DataType_STRING c1))
    (Some (mkAttribute n2 (Some b) (zlen b) ESP_DataType_STRING c2))
  = Ret (string_compare (block_string a) (block_string b)).
Proof.
  unfold compareValue. cbn [_datatype]. destruct (decide _) as [_|Hn]; [|done].
  unfold getStringValue. cbn [_value _datasize]. by rewrite !read_block_all.
Qed.

Lemma string_compare_eq s t : (string_compare s t =? 0) = String.eqb s t.
Proof.
  unfold string_compare. destruct (String.eqb_spec s t) as [->|Hne].
  - pose proof (String.compare_antisym t t). by destruct (String.compare t t).
  - destruct (String.compare s t) eqn:E; try done. apply String.compare_eq_iff in E. done.
Qed.

(** The marker against as many bytes: found, or an error. *)
Lemma execute_marker m path t w rest c : marker m t -> context_wf c -> zlen w = zlen m ->
  Forall is_byte w -> drop (Z.to_nat (index_end c)) (input c) = (w ++ rest)%list ->
  execute path t c
  = Some (Ret (t, path, set_index_end (index_end c + zlen m) c,
               if bool_decide (w = m) then EXECUTE_RESULT_OK else EXECUTE_RESULT_ERROR)).
Proof.
  intros (Hc & Hs & Ht & _ & (n & code & Hv) & Hm & Hb) Hw Hl Hbw Hd.
  unfold execute. rewrite Hc. unfold execute_constraint. rewrite readPInputData_wf by done.
  assert (Ha : zlen m <= getAvailableInputData c).
  { unfold getAvailableInputData. destruct Hw as (-> & _ & Hi & _). rewrite <- zlen_drop by (unfold zlen in *; lia).
    rewrite Hd, zlen_app. pose proof (zlen_nonneg rest). lia. }
  rewrite Hs, (proj2 (Z.ltb_lt _ _)), (proj2 (Z.leb_le _ _)) by lia. cbn [andb obind fst snd].
  rewrite Hd, Ht. rewrite <- Hl, string_attribute by lia. cbn [obind].
  rewrite Hv, compare_strings. cbn [obind]. rewrite string_compare_eq.
  do 3 f_equal. destruct (String.eqb_spec (block_string m) (block_string w)) as [E|E].
  - apply block_string_inj in E; [|done..]. subst. by rewrite bool_decide_eq_true_2.
  - rewrite bool_decide_eq_false_2; [done|]. by intros ->.
Qed.

(** A command that waits for its body, with nothing parsed. *)
Definition at_body (k : ESP_Command) : Prop := set_index 1 (command_reset k) = k.

Lemma reset_data_parsed b d : reset_data (set_parsed b d) = reset_data d.
Proof. unfold reset_data. cbn. by destruct (t_class d). Qed.

Lemma skip_holding b s i c k : context_wf c ->
  skip_byte k (set_index_end i (holding (b :: s) c)) = Ret (set_index 1 (command_reset k), holding s c).
Proof.
  intros (_ & Hs & _). unfold skip_byte, validateInputData. cbn [Z.eqb negb holding].
  unfold pointer. cbn [input set_index_end holding set_temp set_input input_size index_start].
  pose proof (zlen_nonneg s). rewrite zlen_cons.
  rewrite (proj2 (Z.leb_le 0 1)), (proj2 (Z.leb_le 1 _)) by lia. cbn [andb obind].
  change (drop (Z.to_nat 1) (b :: s)) with s. replace (1 + zlen s - 1) with (zlen s) by lia.
  rewrite read_block_all by done. cbn [obind]. rewrite Hs. reflexivity.
Qed.

Lemma command_run_error fuel k c t c1 : index k = 1 ->
  run_tree fuel (body k) c = Some (Ret (t, c1, EXECUTE_RESULT_ERROR)) ->
  command_run (S fuel) k c
  = fbind (Some (skip_byte (set_body t k) c1)) (fun r => command_run fuel (fst r) (snd r)).
Proof. intros Hi Ht. cbn [command_run]. rewrite Hi. cbn [Z.eqb]. rewrite Ht. reflexivity. Qed.

Lemma noise_byte fuel k bd mt rest m b s c : (3 <= fuel)%nat -> at_body k ->
  body k = mkTag bd (mt :: rest) -> t_class bd = ESP_Tag_Body -> marker m mt -> context_wf c ->
  Forall is_byte (b :: s) -> zlen m <= zlen (b :: s) -> take (List.length m) (b :: s) <> m ->
  command_run (S fuel) k (holding (b :: s) c) = command_run fuel k (holding s c).
Proof.
  intros Hf Hk Hb Hcl Hm Hc Hby Hl Hne.
  destruct fuel as [|[|[|fuel]]]; [lia..|].
  assert (Hbd : reset_data bd = bd) by (pose proof (f_equal body Hk) as E; cbn in E; rewrite Hb in E;
    cbn in E; by injection E).
  assert (Hi : index k = 1) by exact (eq_sym (f_equal index Hk)).
  set (c1 := holding (b :: s) c).
  assert (Hx : forall path, execute path mt c1
    = Some (Ret (mt, path, set_index_end (zlen m) c1, EXECUTE_RESULT_ERROR))).
  { intros path. assert (Hw : zlen (take (List.length m) (b :: s)) = zlen m).
    { unfold zlen in *. rewrite length_take. lia. }
    rewrite (execute_marker m path mt (take (List.length m) (b :: s)) (drop (List.length m) (b :: s)) c1 Hm).
    - by rewrite bool_decide_eq_false_2.
    - by apply holding_wf.
    - exact Hw.
    - by apply Forall_take.
    - cbn. by rewrite take_drop. }
  assert (Ht : run_tree (S (S (S fuel))) (body k) c1
    = Some (Ret (mkTag (set_parsed true bd) (mt :: rest), set_index_end (zlen m) c1,
                 EXECUTE_RESULT_ERROR))).
  { unfold run_tree. cbn [run]. rewrite Hb. cbn [data].
    assert (Hp : t_parsed bd = false) by (rewrite <- Hbd; unfold reset_data; by destruct (t_class _)).
    assert (Hr : t_repeat bd = false) by (rewrite <- Hbd; unfold reset_data; by destruct (t_class _)).
    rewrite Hp. unfold execute at 1. cbn [data negb]. rewrite Hcl. cbn [fbind].
    destruct (decide _) as [_|Hn]; [|done]. cbn [run_subtags on_data subtags data getNextTag].
    destruct Hm as (_ & _ & _ & Hmp & _). rewrite Hmp. cbn [negb fbind]. cbn [run].
    rewrite Hmp, Hx. cbn [negb fbind]. do 2 (destruct (decide _) as [Hn|_]; [done|]; cbn).
    by rewrite Hr. }
  rewrite (command_run_error _ _ _ _ _ Hi Ht). subst c1. rewrite skip_holding by done.
  cbn [fbind fst snd]. f_equal. transitivity (set_index 1 (command_reset k)); [|exact Hk].
  unfold command_reset. cbn. rewrite Hb. cbn. by rewrite reset_data_parsed.
Qed.

(** Bytes before a frame are skipped, one by one: a command whose body starts
    by looking for the bytes [m], given bytes in which [m] does not occur
    followed by a frame that starts with [m], does what it does on the frame
    alone, with a turn more for each byte. *)
Theorem noise_skipped (fuel : nat) (k : ESP_Command) (bd : TagData) (mt : Tag) (tags : list Tag)
    (m noise frame : list Z) (c : ESP_Context) (Hf : (3 <= fuel)%nat) (Hk : at_body k)
    (Hb : body k = mkTag bd (mt :: tags)) (Hcl : t_class bd = ESP_Tag_Body) (Hm : marker m mt)
    (Hc : context_wf c) (Hby : Forall is_byte (noise ++ frame)) (Hl : zlen m <= zlen frame)
    (Hn : forall i, (i < List.length noise)%nat ->
          take (List.length m) (drop i (noise ++ frame)) <> m) :
  command_run (List.length noise + fuel) k (holding (noise ++ frame) c)
  = command_run fuel k (holding frame c).
Proof.
  induction noise as [|b noise IH]; [done|]. cbn [List.length app Nat.add].
  rewrite (noise_byte _ k bd mt tags m b (noise ++ frame) c); [|lia|done..| |].
  - apply IH; [by inversion Hby|]. intros i Hi. apply (Hn (S i)). cbn. lia.
  - rewrite zlen_cons, zlen_app. pose proof (zlen_nonneg noise). lia.
  - apply (Hn O). cbn. lia.
Qed.
End Spec.

(** ** Examples *)

(** A tag of a file. *)
Definition tag (type : string) (attributes : list (string * string)) (children : list TiXmlElement)
    : TiXmlElement := Element "tag" (("type", type) :: attributes) children.

(** A file of one command, with the tags of its body. *)
Definition body_file (tags : list TiXmlElement) : TiXmlElement :=
  Element "espsensor" []
    [Element "commands" []
       [Element "command" [("name", "main")] [Element "parser" [] [tag "body" [] tags]]]].

(** The command, at its body. *)
Definition body_command (tags : list TiXmlElement) : option ESP_Command :=
  match @createCommand float_zero (parseCommands (body_file tags)) "main" with
  | Ret (Some k) => Some (set_index 1 k)
  | _ => None
  end.

(** [#!], then a value of two bytes. *)
Definition frame_tags : list TiXmlElement :=
  [tag "constraint" [("datatype", "string"); ("valuestring", "#!")] [];
   tag "value" [("datatype", "string"); ("name", "t"); ("datasize", "2")] []].

(** Two turns of a value of one byte, while there is something to read. *)
Definition loop_tags : list TiXmlElement :=
  [tag "loop" [("iterations", "2"); ("breakonempty", "true")]
     [tag "value" [("datatype", "string"); ("name", "t"); ("datasize", "1")] []]].

Definition context_of (b : list Z) : ESP_Context := holding b new_context.

Lemma context_of_wf b : context_wf (context_of b).
Proof. apply holding_wf, new_context_wf. Qed.

Lemma command_consumes_witness :
  exists k k' c', body_command frame_tags = Some k
    /\ @command_run float_zero 9 k (context_of [33; 35; 33; 52; 50; 55]) = Some (Ret (k', c', EXECUTE_RESULT_OK))
    /\ input c' = [55] /\ consumed (context_of [33; 35; 33; 52; 50; 55]) c'.
Proof.
  destruct (body_command frame_tags) as [k|] eqn:Ek; [|vm_compute in Ek; done].
  destruct (@command_run float_zero 9 k (context_of [33; 35; 33; 52; 50; 55])) as [[[[k' c'] r]|e|]|] eqn:E;
    [|vm_compute in Ek; injection Ek as <-; vm_compute in E; discriminate..].
  exists k, k', c'. pose proof (@command_consumes float_zero 9 k _ k' c' r (context_of_wf _) E) as H.
  vm_compute in Ek. injection Ek as <-. vm_compute in E. injection E as <- <- <-.
  split; [reflexivity|]. split; [vm_compute; reflexivity|]. split; [reflexivity|exact H].
Defined.

Lemma noise_skipped_witness :
  exists k k', body_command frame_tags = Some k
    /\ @command_run float_zero (3 + 9) k (holding [7; 35; 35; 35; 33; 52; 50] new_context)
       = @command_run float_zero 9 k (holding [35; 33; 52; 50] new_context)
    /\ exists c', @command_run float_zero 9 k (holding [35; 33; 52; 50] new_context)
         = Some (Ret (k', c', EXECUTE_RESULT_OK)) /\ List.length (results c') = 1%nat.
Proof.
  destruct (body_command frame_tags) as [k|] eqn:Ek; [|vm_compute in Ek; done].
  vm_compute in Ek. injection Ek as Ek. eexists k, _. split; [by rewrite <- Ek|]. subst k. split.
  - match goal with |- command_run _ ?k _ = _ =>
      refine (@noise_skipped float_zero 9 k _ _ _ [35; 33] [7; 35; 35] [35; 33; 52; 50] new_context _ _ eq_refl
        eq_refl _ new_context_wf _ _ _) end.
    + lia.
    + reflexivity.
    + repeat split; try done; [do 2 eexists; reflexivity|solve_bytes].
    + solve_bytes.
    + done.
    + intros i Hi. cbn in Hi. do 3 (destruct i as [|i]; [done|]). lia.
  - eexists. split; [vm_compute; reflexivity|reflexivity].
Defined.

Lemma value_never_waits_witness :
  exists t, reads_input t
    /\ exists c' a, @execute float_zero [] t (context_of [52]) = Some (Ret (t, [], c', EXECUTE_RESULT_OK))
         /\ temp c' = {["t" := a]} /\ @getValueAsString float_zero a = Ret "".
Proof.
  exists (mkTag (mkTagData ESP_Tag_Value "value" "t" 0 2 ESP_DataType_STRING ESP_DataCode_STRING new_attribute
            false "" false false "" false "" false 0 0 0 false false) []).
  split; [split; reflexivity|].
  destruct (proj2 (@value_never_waits float_zero [] (mkTag (mkTagData ESP_Tag_Value "value" "t" 0 2
    ESP_DataType_STRING ESP_DataCode_STRING new_attribute false "" false false "" false "" false 0 0 0
    false false) []) (context_of [52]) (conj eq_refl eq_refl) (context_of_wf _))) as (c' & a & H1 & H2 & _ & H3 & _);
    [discriminate|reflexivity|reflexivity|].
  exists c', a. split; [exact H1|]. split; [exact H2|exact H3].
Defined.

Lemma loop_never_counts_witness :
  exists k t' path' c', body_command loop_tags = Some k
    /\ @run float_zero 9 [] (body k) (context_of [52; 50; 49; 48])
       = Some (Ret (t', path', c', EXECUTE_RESULT_OK))
    /\ getAvailableInputData c' <= 0.
Proof.
  destruct (body_command loop_tags) as [k|] eqn:Ek; [|vm_compute in Ek; done].
  vm_compute in Ek. injection Ek as Ek. eexists k, _, _, _. split; [by rewrite <- Ek|]. subst k.
  match goal with |- ?P /\ _ => assert (E : P) by (vm_compute; reflexivity) end. split; [exact E|].
  refine (proj2 (@loop_never_counts float_zero 9 [] _ _ _ _ _ _ _ _ E)); [by split|by repeat split].
Defined.
