(* ===== verification/EspFields.v ===== *)
(** * Delimited fields

    The topics and payloads of the agents are fields between delimiters, read
    by [value] tags with [datacode="stringdelim"].  This file relates what such
    tags leave in the measure to the fields of the text. *)
From stdpp Require Import base tactics list gmap strings sorting.
From Stdlib Require Import ZArith Lia Ascii String.
From S2P Require Import Prelude CppString StdMap EspStringUtils EspAttribute EspXml EspContext EspParser.
From S2P Require Import EspParserSpec.

Local Open Scope string_scope.
Local Open Scope Z_scope.

(** The fields joined by the delimiter. *)
Fixpoint join (dl : Z) (fs : list (list Z)) : list Z :=
  match fs with
  | [] => []
  | [f] => f
  | f :: rest => (f ++ dl :: join dl rest)%list
  end.

(** A tag that reads the field [name] up to [dl]. *)
Definition field_tag (dl : Z) (name : string) (t : Tag) : Prop :=
  subtags t = [] /\ t_class (data t) = ESP_Tag_Value /\ t_name (data t) = name
  /\ t_valueref (data t) = "" /\ t_datatype (data t) = ESP_DataType_STRING
  /\ t_datacode (data t) = ESP_DataCode_STRINGDELIM /\ t_resetend (data t) = false
  /\ t_parsed (data t) = false /\ t_repeat (data t) = false
  /\ exists n code, t_value (data t) = mkAttribute n (Some [dl]) 1 ESP_DataType_STRING code.

(** What it leaves: an empty field has no value. *)
Definition field_attribute (name : string) (f : list Z) : ESP_Attribute :=
  match f with
  | [] => mkAttribute name None 0 ESP_DataType_UNKNOWN ESP_DataCode_UNKNOWN
  | _ => mkAttribute name (Some f) (zlen f) ESP_DataType_STRING ESP_DataCode_STRINGDELIM
  end.

Definition plain_field (dl : Z) (f : list Z) : Prop :=
  dl ∉ f /\ zlen f <= ESP_PARSER_MAX_VALUE_SIZE.

Section Fields.
  Context `{FL : FloatLib}.

(** ** Searching the delimiter *)

Lemma at_position c i x rest : context_wf c -> 0 <= i -> drop (Z.to_nat i) (input c) = x :: rest ->
  i < input_size c.
Proof.
  intros (Hs & _) Hi Hd. apply (f_equal List.length) in Hd. rewrite length_drop in Hd. cbn in Hd.
  rewrite Hs. unfold zlen. lia.
Qed.

Lemma drop_next {A} (l : list A) i x rest : 0 <= i -> drop (Z.to_nat i) l = x :: rest ->
  drop (Z.to_nat (i + 1)) l = rest.
Proof.
  intros Hi Hd. replace (Z.to_nat (i + 1)) with (Z.to_nat i + 1)%nat by lia.
  rewrite <- drop_drop, Hd. done.
Qed.

Lemma search_step n a dl i c x rest : _value a = Some [dl] -> _datasize a = 1 -> context_wf c ->
  0 <= i -> drop (Z.to_nat i) (input c) = x :: rest ->
  search_loop (S n) a i c = if Z.eqb x dl then Ret i else search_loop n a (i + 1) c.
Proof.
  intros Hv Hs Hc Hi Hd. pose proof (at_position c i x rest Hc Hi Hd) as Hl. cbn [search_loop].
  rewrite Hs, (proj2 (Z.leb_le 0 i)), (proj2 (Z.leb_le 1 (input_size c - i))) by lia. cbn [andb].
  rewrite Hv. change (same_bytes c i (Some [dl]) 1) with (same_bytes c i (Some [dl]) (zlen [dl])).
  rewrite same_bytes_spec by (done || (unfold zlen; cbn; lia)).
  rewrite Hd. cbn. destruct (Z.eqb_spec x dl) as [->|Hne].
  - by rewrite bool_decide_eq_true_2.
  - rewrite bool_decide_eq_false_2; [done|]. by intros [=].
Qed.

Lemma search_found a dl f rest c : _value a = Some [dl] -> _datasize a = 1 -> context_wf c ->
  dl ∉ f -> forall n i, (List.length f < n)%nat -> 0 <= i ->
  drop (Z.to_nat i) (input c) = (f ++ dl :: rest)%list -> search_loop n a i c = Ret (i + zlen f).
Proof.
  intros Hv Hs Hc Hf. induction f as [|x f IH]; intros n i Hn Hi Hd; (destruct n as [|n]; [cbn in Hn; lia|]);
    cbn [app List.length] in *; rewrite (search_step n a dl i c _ _ Hv Hs Hc Hi Hd).
  - by rewrite Z.eqb_refl, Z.add_0_r.
  - apply not_elem_of_cons in Hf as [Hx Hf].
    destruct (Z.eqb_spec x dl) as [->|_]; [done|].
    rewrite IH; [by rewrite zlen_cons, Z.add_assoc|done|lia|lia|by eapply drop_next].
Qed.

Lemma search_none a dl f c : _value a = Some [dl] -> _datasize a = 1 -> context_wf c -> dl ∉ f ->
  forall i, 0 <= i -> drop (Z.to_nat i) (input c) = f -> search_loop (List.length f) a i c = Ret (-1).
Proof.
  intros Hv Hs Hc Hf. induction f as [|x f IH]; intros i Hi Hd; [done|].
  cbn [List.length]. rewrite (search_step _ a dl i c _ _ Hv Hs Hc Hi Hd).
  apply not_elem_of_cons in Hf as [Hx Hf]. destruct (Z.eqb_spec x dl) as [->|_]; [done|].
  apply IH; [done|lia|by eapply drop_next].
Qed.

(** ** A field *)

Lemma field_set m name f code : code = ESP_DataCode_STRINGDELIM ->
  zlen f <= ESP_PARSER_MAX_VALUE_SIZE -> forall rest,
  (let! a := setValue new_attribute name (if decide (f = []) then None else Some (f ++ rest)%list)
               (zlen f) ESP_DataType_STRING code in
   assign_attribute m name a) = Ret (<[name := field_attribute name f]> m).
Proof.
  intros -> Hf rest. destruct (decide (f = [])) as [->|Hne].
  - cbn [setValue obind]. rewrite assign_null by done. done.
  - rewrite string_attribute by done. cbn [obind]. unfold assign_attribute, operator_assign.
    cbn [_value _datasize]. destruct f as [|x f]; [done|].
    rewrite (proj2 (Z.ltb_lt _ _)) by (rewrite zlen_cons; pose proof (zlen_nonneg f); lia).
    rewrite read_block_all by done. done.
Qed.

Lemma unread_length c : context_wf c ->
  zlen (drop (Z.to_nat (index_end c)) (input c)) = getAvailableInputData c.
Proof.
  intros (Hs & _ & Hi & _). unfold getAvailableInputData. rewrite zlen_drop by lia. lia.
Qed.

(** Reading the first bytes of what is not read. *)
Lemma read_first c f r : context_wf c -> drop (Z.to_nat (index_end c)) (input c) = (f ++ r)%list ->
  readPInputData (zlen f) c
  = Ret (set_index_end (index_end c + zlen f) c, if decide (f = []) then None else Some (f ++ r)%list).
Proof.
  intros Hc Hd. rewrite readPInputData_wf by done.
  pose proof (unread_length c Hc) as Hl. rewrite Hd, zlen_app in Hl. pose proof (zlen_nonneg r).
  destruct f as [|x f]; cbn [decide].
  - change (zlen []) with 0. rewrite Z.add_0_r. cbn. by destruct c.
  - rewrite (proj2 (Z.leb_le _ _)) by lia.
    rewrite (proj2 (Z.ltb_lt _ _)) by (rewrite zlen_cons; pose proof (zlen_nonneg f); lia).
    cbn [andb]. by rewrite Hd.
Qed.

Lemma read_first_wf c f r : context_wf c -> drop (Z.to_nat (index_end c)) (input c) = (f ++ r)%list ->
  context_wf (set_index_end (index_end c + zlen f) c)
  /\ drop (Z.to_nat (index_end c + zlen f)) (input c) = r.
Proof.
  intros Hc Hd. pose proof (unread_length c Hc) as Hl. rewrite Hd, zlen_app in Hl.
  pose proof (zlen_nonneg r). pose proof (zlen_nonneg f). unfold getAvailableInputData in Hl.
  pose proof Hc as (_ & _ & Hi & _). split; [apply set_index_end_wf; [done|lia]|].
  rewrite Z2Nat.inj_add by lia. rewrite <- drop_drop, Hd. unfold zlen. rewrite Nat2Z.id. apply drop_app_length.
Qed.

(** What is left of the context: the name of the field, and the bytes read. *)
Definition field_read (name : string) (f : list Z) (n : Z) c : ESP_Context :=
  set_temp (<[name := field_attribute name f]> (temp c))
    (set_index_end (index_end c + n) (saveIndex c)).

Lemma field_read_wf name f n c : context_wf c -> 0 <= n <= getAvailableInputData c ->
  context_wf (field_read name f n c).
Proof.
  intros Hc Hn. unfold getAvailableInputData in Hn. apply set_temp_wf, set_index_end_wf; [done|].
  destruct Hc as (_ & _ & Hi & _). cbn. lia.
Qed.

(** The value read, once the data are known. *)
Lemma execute_value_eq path t c c' f r dataread name : t_resetend (data t) = false ->
  t_datatype (data t) = ESP_DataType_STRING -> t_datacode (data t) = ESP_DataCode_STRINGDELIM ->
  t_name (data t) = name -> find "$" name 0 = None -> zlen f <= ESP_PARSER_MAX_VALUE_SIZE ->
  0 <= dataread ->
  value_data (data t) (saveIndex c)
  = Ret (data t, c', if decide (f = []) then None else Some (f ++ r)%list, zlen f, dataread) ->
  execute_value path t c
  = Some (Ret (t, path, set_temp (<[name := field_attribute name f]> (temp c')) c', EXECUTE_RESULT_OK)).
Proof.
  intros Hr Ht Hcode Hn Hd Hf Hdr E. destruct t as [d l]. cbn [data] in *. unfold execute_value.
  rewrite E. cbn [fbind]. rewrite Hr, (proj2 (Z.leb_le _ _)) by done. rewrite Hn.
  rewrite final_name_plain by done. cbn [fbind]. rewrite Ht, Hcode.
  pose proof (field_set (temp c') name f _ eq_refl Hf r) as Hs. do 2 f_equal.
  destruct (setValue _ _ _ _ _ _) as [a|e|]; cbn [obind] in Hs |- *; [|done..]. by rewrite Hs.
Qed.

Lemma of_pointer_nonneg {A} (p : option A) : 0 <= of_pointer p.
Proof. by destruct p. Qed.

Lemma execute_field path dl name t f rest c : field_tag dl name t -> find "$" name 0 = None ->
  plain_field dl f -> context_wf c ->
  drop (Z.to_nat (index_end c)) (input c) = (f ++ dl :: rest)%list ->
  execute path t c = Some (Ret (t, path, field_read name f (zlen f + 1) c, EXECUTE_RESULT_OK)).
Proof.
  intros (_ & Hcl & Hn & Href & Hty & Hcode & Hre & _ & _ & n & code & Hv) Hd [Hdl Hf] Hc Hu.
  unfold execute. rewrite Hcl. set (c0 := saveIndex c).
  assert (Hu0 : drop (Z.to_nat (index_end c0)) (input c0) = (f ++ dl :: rest)%list) by exact Hu.
  pose proof (unread_length c0 Hc) as Hl. rewrite Hu0, zlen_app, zlen_cons in Hl.
  pose proof (zlen_nonneg rest). pose proof (zlen_nonneg f). pose proof Hc as (_ & _ & Hi & _).
  destruct (read_first_wf c0 f (dl :: rest) Hc Hu0) as [Hc1 Hu1].
  assert (E : value_data (data t) c0
    = Ret (data t, set_index_end (index_end c0 + zlen f + 1) c0,
           if decide (f = []) then None else Some (f ++ dl :: rest)%list, zlen f,
           of_pointer (if decide (f = []) then None else Some (f ++ dl :: rest)%list))).
  { unfold value_data. rewrite Href, Hcode. cbn [String.eqb negb]. unfold value_delimited.
    unfold searchAttributeValue, searchAttributeValueInRange. rewrite Z.add_0_r, Hv.
    rewrite (search_found _ dl f rest); [|done|done|done|done| |cbn; lia|exact Hu0].
    2: { unfold getAvailableInputData in Hl. unfold zlen in *. lia. }
    cbn [obind]. rewrite (proj2 (Z.leb_le _ _)) by (cbn; lia). cbn [_datasize Z.eqb].
    unfold getSizeFromIndex. replace (index_end c0 + zlen f - index_end c0) with (zlen f) by lia.
    unfold value_read. rewrite (read_first c0 f (dl :: rest) Hc Hu0). cbn [obind fst snd].
    rewrite Hv. cbn [_datasize]. change (readPInputData 1 ?x) with (readPInputData (zlen [dl]) x).
    rewrite (read_first _ [dl] rest Hc1 Hu1). reflexivity. }
  rewrite (execute_value_eq path t c _ f (dl :: rest) _ name Hre Hty Hcode Hn Hd Hf (of_pointer_nonneg _) E).
  unfold field_read. cbn. by rewrite <- Z.add_assoc.
Qed.

(** The last field has no delimiter after it. *)
Lemma execute_last path dl name t f c : field_tag dl name t -> find "$" name 0 = None ->
  plain_field dl f -> context_wf c -> drop (Z.to_nat (index_end c)) (input c) = f ->
  execute path t c = Some (Ret (t, path, field_read name f (zlen f) c, EXECUTE_RESULT_OK)).
Proof.
  intros (_ & Hcl & Hn & Href & Hty & Hcode & Hre & _ & _ & n & code & Hv) Hd [Hdl Hf] Hc Hu.
  unfold execute. rewrite Hcl. set (c0 := saveIndex c).
  assert (Hu0 : drop (Z.to_nat (index_end c0)) (input c0) = (f ++ [])%list) by (rewrite app_nil_r; exact Hu).
  pose proof (unread_length c0 Hc) as Hl. rewrite Hu0, app_nil_r in Hl. pose proof Hc as (_ & _ & Hi & _).
  assert (E : value_data (data t) c0
    = Ret (data t, set_index_end (index_end c0 + zlen f) c0,
           if decide (f = []) then None else Some (f ++ [])%list, zlen f,
           of_pointer (if decide (f = []) then None else Some (f ++ [])%list))).
  { unfold value_data. rewrite Href, Hcode. cbn [String.eqb negb]. unfold value_delimited.
    unfold searchAttributeValue, searchAttributeValueInRange. rewrite Z.add_0_r, Hv.
    replace (Z.to_nat (input_size c0 - index_end c0 - 0)) with (List.length f)
      by (unfold getAvailableInputData, zlen in Hl; lia).
    rewrite (search_none _ dl f); [|done|done|done|done|cbn; lia|by rewrite Hu0, app_nil_r].
    cbn [obind Z.leb Z.compare]. unfold value_read. rewrite <- Hl.
    rewrite (read_first c0 f [] Hc Hu0). reflexivity. }
  by rewrite (execute_value_eq path t c _ f [] _ name Hre Hty Hcode Hn Hd Hf
    (of_pointer_nonneg _) E).
Qed.

(** ** All the fields *)

Definition parsed_tag (t : Tag) : Tag := on_data (set_parsed true) t.

(** A tag that succeeds: its subtags are run. *)
Lemma run_executed F path t c t1 path1 c1 t2 path2 c2 r : t_parsed (data t) = false ->
  execute path t c = Some (Ret (t1, path1, c1, EXECUTE_RESULT_OK)) ->
  run_subtags (run F) F path1 (on_data (set_parsed true) t1) c1 = Some (Ret (t2, path2, c2, r)) ->
  t_repeat (data t2) = false -> run (S F) path t c = Some (Ret (t2, path2, c2, r)).
Proof.
  intros Hp E Es Hr. change (run (S F) path t c) with
    (if negb (t_parsed (data t)) then
        fuel! r := execute path t c in
        let '(t, path, c, result) := r in
        if decide (result = EXECUTE_RESULT_OK) then
          let t := on_data (set_parsed true) t in
          fuel! r := run_subtags (run F) F path t c in
          let '(t, path, c, result) := r in
          let t := if t_repeat (data t) then setChildrenParsed true false t else t in
          Some (Ret (t, path, c, result))
        else Some (Ret (t, path, c, result))
      else run_subtags (run F) F path t c).
  rewrite Hp, E. cbn [negb fbind]. destruct (decide _) as [_|Hn]; [|done]. rewrite Es. cbn [fbind]. by rewrite Hr.
Qed.

(** A tag that does not. *)
Lemma run_stopped F path t c t1 path1 c1 r : t_parsed (data t) = false -> r <> EXECUTE_RESULT_OK ->
  execute path t c = Some (Ret (t1, path1, c1, r)) -> run (S F) path t c = Some (Ret (t1, path1, c1, r)).
Proof.
  intros Hp Hr E. cbn [run]. rewrite Hp, E. cbn [negb fbind]. by destruct (decide _).
Qed.

Lemma getNextTag_here before t after : Forall (fun t => t_parsed (data t) = true) before ->
  t_parsed (data t) = false -> getNextTag (before ++ t :: after) = Some (before, t, after).
Proof.
  intros Hb Ht. induction Hb as [|b before Hb1 Hb2 IH]; cbn.
  - by rewrite Ht.
  - by rewrite Hb1, IH.
Qed.

Lemma getNextTag_none l : Forall (fun t => t_parsed (data t) = true) l -> getNextTag l = None.
Proof. induction 1 as [|t l Ht Hl IH]; cbn; [done|]. by rewrite Ht, IH. Qed.

(** The next of the subtags, when it succeeds and when it does not. *)
Lemma subtags_step f n d before t after path c t' d' path' c' :
  Forall (fun t => t_parsed (data t) = true) before -> t_parsed (data t) = false ->
  f (d :: path) t c = Some (Ret (t', d' :: path', c', EXECUTE_RESULT_OK)) ->
  run_subtags f (S n) path (mkTag d (before ++ t :: after)) c
  = run_subtags f n path' (mkTag d' ((before ++ [t']) ++ after)) c'.
Proof.
  intros Hb Ht E. cbn [run_subtags subtags data]. rewrite getNextTag_here, E by done. cbn [fbind].
  destruct (decide _) as [_|Hn]; [|done]. by rewrite <- app_assoc.
Qed.

Lemma subtags_stop f n d before t after path c t' d' path' c' r :
  Forall (fun t => t_parsed (data t) = true) before -> t_parsed (data t) = false -> r <> EXECUTE_RESULT_OK ->
  f (d :: path) t c = Some (Ret (t', d' :: path', c', r)) ->
  run_subtags f (S n) path (mkTag d (before ++ t :: after)) c
  = Some (Ret (mkTag d' (before ++ t' :: after), path', c', r)).
Proof.
  intros Hb Ht Hr E. cbn [run_subtags subtags data]. rewrite getNextTag_here, E by done. cbn [fbind].
  by destruct (decide _).
Qed.

Lemma subtags_done f n d l path c : Forall (fun t => t_parsed (data t) = true) l ->
  run_subtags f (S n) path (mkTag d l) c = Some (Ret (mkTag d l, path, c, EXECUTE_RESULT_OK)).
Proof. intros Hl. cbn [run_subtags subtags]. by rewrite getNextTag_none. Qed.

Lemma run_leaf fuel path t c c' : subtags t = [] -> t_parsed (data t) = false ->
  t_repeat (data t) = false -> execute path t c = Some (Ret (t, path, c', EXECUTE_RESULT_OK)) ->
  run (S (S fuel)) path t c = Some (Ret (parsed_tag t, path, c', EXECUTE_RESULT_OK)).
Proof.
  intros Hs Hp Hr E. destruct t as [d l]. cbn in Hs, Hr. subst l.
  apply (run_executed _ _ _ _ _ _ _ _ _ _ _ Hp E); [by apply subtags_done|done].
Qed.

Lemma field_leaf dl name t : field_tag dl name t ->
  subtags t = [] /\ t_parsed (data t) = false /\ t_repeat (data t) = false.
Proof. by intros (Hs & _ & _ & _ & _ & _ & _ & Hp & Hr & _). Qed.

Fixpoint insert_fields (names : list string) (fs : list (list Z)) (m : gmap string ESP_Attribute)
    : gmap string ESP_Attribute :=
  match names, fs with
  | name :: names, f :: fs => insert_fields names fs (<[name := field_attribute name f]> m)
  | _, _ => m
  end.

(** Everything read: the measure has the fields. *)
Definition all_read (names : list string) (fs : list (list Z)) c c' : Prop :=
  context_wf c' /\ input c' = input c /\ index_end c' = input_size c' /\ results c' = results c
  /\ temp c' = insert_fields names fs (temp c).

Lemma run_field_tags dl fuel names tags : Forall2 (field_tag dl) names tags ->
  Forall (fun name => find "$" name 0 = None) names -> forall fs done d path c n,
  List.length fs = List.length names -> fs <> [] -> Forall (plain_field dl) fs ->
  Forall (fun t => t_parsed (data t) = true) done -> (List.length names < n)%nat -> context_wf c ->
  drop (Z.to_nat (index_end c)) (input c) = join dl fs ->
  exists c', run_subtags (run (S (S fuel))) n path (mkTag d (done ++ tags)) c
    = Some (Ret (mkTag d (done ++ map parsed_tag tags), path, c', EXECUTE_RESULT_OK))
    /\ all_read names fs c c'.
Proof.
  induction 1 as [|name t names tags Ht Hts IH]; intros Hnames fs done d path c n Hlen Hne Hfs Hdone Hn Hc Hu;
    [by destruct fs|].
  apply Forall_cons in Hnames as [Hname Hnames].
  destruct fs as [|f fs]; [done|]. apply Forall_cons in Hfs as [Hf Hfs].
  destruct n as [|n]; [cbn in Hn; lia|].
  assert (Hp : forall c', execute (d :: path) t c = Some (Ret (t, d :: path, c', EXECUTE_RESULT_OK)) ->
    run_subtags (run (S (S fuel))) (S n) path (mkTag d (done ++ t :: tags)) c
    = run_subtags (run (S (S fuel))) n path (mkTag d ((done ++ [parsed_tag t]) ++ tags)) c').
  { intros c' E. destruct (field_leaf dl name t Ht) as (Hs & Hpt & Hrt).
    apply subtags_step; [done..|by apply run_leaf]. }
  assert (Hd1 : Forall (fun t => t_parsed (data t) = true) (done ++ [parsed_tag t])).
  { apply Forall_app. split; [done|]. constructor; [by destruct t|constructor]. }
  destruct fs as [|f1 fs].
  - destruct names as [|? ?]; [|done]. inversion Hts; subst. cbn [join] in Hu.
    set (c' := field_read name f (zlen f) c). exists c'.
    rewrite (Hp c') by by eapply execute_last. split.
    + destruct n as [|n]; [cbn in Hn; lia|]. cbn [run_subtags subtags].
      rewrite app_nil_r. by rewrite getNextTag_none by done.
    + pose proof (unread_length c Hc) as Hl. rewrite Hu in Hl. unfold getAvailableInputData in Hl.
      split; [apply field_read_wf; [done|unfold getAvailableInputData; pose proof (zlen_nonneg f); lia]|].
      split; [done|]. split; [cbn; lia|]. done.
  - cbn [join] in Hu. change (match fs with [] => f1 | _ :: _ => (f1 ++ dl :: join dl fs)%list end)
      with (join dl (f1 :: fs)) in Hu.
    set (c1 := field_read name f (zlen f + 1) c).
    rewrite (Hp c1) by by eapply execute_field.
    pose proof (unread_length c Hc) as Hl. rewrite Hu, zlen_app, zlen_cons in Hl.
    pose proof (zlen_nonneg f). pose proof (zlen_nonneg (join dl (f1 :: fs))).
    assert (Hc1 : context_wf c1) by (apply field_read_wf; [done|lia]).
    destruct (IH Hnames (f1 :: fs) (done ++ [parsed_tag t])%list d path c1 n) as (c' & E & Hw & Hi & He & Hr & Ht');
      [by injection Hlen|done|done|done|cbn in Hn; lia|done| |].
    + destruct (read_first_wf c f (dl :: join dl (f1 :: fs)) Hc Hu) as [Hw Hu1].
      destruct (read_first_wf _ [dl] _ Hw Hu1) as [_ Hu2]. cbn [index_end c1 field_read set_temp set_index_end].
      rewrite Z.add_assoc. exact Hu2.
    + exists c'. split; [rewrite E, <- app_assoc; done|].
      split; [done|]. split; [exact Hi|]. split; [done|]. by split.
Qed.

(** Fields that each end with the delimiter, with other bytes and other tags
    behind them. *)
Definition closed_fields (dl : Z) (fs : list (list Z)) : list Z :=
  List.concat (map (fun f => f ++ [dl])%list fs).

Definition read_up_to (names : list string) (fs : list (list Z)) (rest : list Z) c c' : Prop :=
  context_wf c' /\ input c' = input c /\ drop (Z.to_nat (index_end c')) (input c') = rest
  /\ results c' = results c /\ temp c' = insert_fields names fs (temp c)
  /\ output c' = output c /\ close c' = close c.

Lemma run_prefix dl fuel names tags : Forall2 (field_tag dl) names tags ->
  Forall (fun name => find "$" name 0 = None) names -> forall fs done d path c n more rest,
  List.length fs = List.length names -> Forall (plain_field dl) fs ->
  Forall (fun t => t_parsed (data t) = true) done -> context_wf c ->
  drop (Z.to_nat (index_end c)) (input c) = (closed_fields dl fs ++ rest)%list ->
  exists c', run_subtags (run (S (S fuel))) (List.length names + n) path (mkTag d (done ++ tags ++ more)) c
    = run_subtags (run (S (S fuel))) n path (mkTag d ((done ++ map parsed_tag tags) ++ more)) c'
    /\ read_up_to names fs rest c c'.
Proof.
  induction 1 as [|name t names tags Ht Hts IH]; intros Hnames fs done d path c n more rest Hlen Hfs Hdone Hc Hu.
  { destruct fs; [|done]. exists c. cbn [List.length Nat.add map]. by rewrite app_nil_r. }
  apply Forall_cons in Hnames as [Hname Hnames].
  destruct fs as [|f fs]; [done|]. apply Forall_cons in Hfs as [Hf Hfs].
  assert (Hu' : drop (Z.to_nat (index_end c)) (input c) = (f ++ dl :: closed_fields dl fs ++ rest)%list).
  { rewrite Hu. unfold closed_fields. cbn. by rewrite <- !app_assoc. }
  set (c1 := field_read name f (zlen f + 1) c).
  destruct (field_leaf dl name t Ht) as (Hs & Hpt & Hrt).
  pose proof (execute_field (d :: path) dl name t f _ c Ht Hname Hf Hc Hu') as E.
  pose proof (unread_length c Hc) as Hl. rewrite Hu', zlen_app, zlen_cons in Hl.
  pose proof (zlen_nonneg f). pose proof (zlen_nonneg (closed_fields dl fs ++ rest)%list).
  assert (Hc1 : context_wf c1) by (apply field_read_wf; [done|lia]).
  destruct (IH Hnames fs (done ++ [parsed_tag t])%list d path c1 n more rest) as (c' & E' & Hw & Hi & He & Hr & Ht' & Ho & Hcl);
    [by injection Hlen|done| |done| |].
  - apply Forall_app. split; [done|]. constructor; [by destruct t|constructor].
  - destruct (read_first_wf c f _ Hc Hu') as [Hw Hu1].
    destruct (read_first_wf _ [dl] _ Hw Hu1) as [_ Hu2]. cbn [index_end c1 field_read set_temp set_index_end].
    rewrite Z.add_assoc. exact Hu2.
  - exists c'. split.
    + cbn [List.length Nat.add app map].
      rewrite (subtags_step _ _ d done t (tags ++ more) path c (parsed_tag t) d path c1 Hdone Hpt)
        by (apply run_leaf; done).
      rewrite E'. by rewrite <- !app_assoc.
    + repeat (split; [done|]). done.
Qed.

(** ** The measure *)

(** A value that the copy into a measure keeps. *)
Definition published (a : ESP_Attribute) : Prop :=
  copy_attribute a = Ret a /\ startsWith (_name a) "_" = false.

Lemma field_published name f : startsWith name "_" = false -> published (field_attribute name f).
Proof.
  intros Hn. destruct f as [|x f]; (split; [|done]); [done|]. unfold copy_attribute, field_attribute.
  cbn [_value _datasize _name _datatype _datacode].
  rewrite (proj2 (Z.ltb_lt _ _)) by (rewrite zlen_cons; pose proof (zlen_nonneg f); lia).
  by rewrite read_block_all.
Qed.

Lemma field_text name f : getValueAsString (field_attribute name f) = Ret (block_string f).
Proof.
  destruct f as [|x f]; [done|]. unfold getValueAsString, getStringValue. cbn [_datatype field_attribute].
  cbn [_value _datasize]. by rewrite read_block_all.
Qed.

Lemma emplace_union (acc m : gmap string ESP_Attribute) k a : emplace acc k a ∪ m = acc ∪ <[k := a]> m.
Proof.
  apply map_eq. intros i. rewrite !lookup_union, lookup_emplace, lookup_insert.
  case_bool_decide as Hk; case_decide; try done. subst. by destruct (acc !! i), (m !! i).
Qed.

Lemma final_values_all l : Forall (fun e => published (snd e)) l -> forall acc,
  final_values l acc = Ret ((acc : gmap string ESP_Attribute) ∪ list_to_map l).
Proof.
  induction 1 as [|[k a] l [Hcopy Hname] Hl IH]; intros acc; cbn [final_values list_to_map foldr].
  - by rewrite map_union_empty.
  - cbn [snd] in *. rewrite Hname. cbn [negb]. unfold insert_attribute. rewrite Hcopy. cbn [obind].
    rewrite IH. f_equal. apply emplace_union.
Qed.

Lemma addResultData_all c : map_Forall (fun _ a => published a) (temp c) -> temp c <> ∅ ->
  addResultData c = Ret (set_results (results c ++ [temp c]) c, true).
Proof.
  intros Hall Hne.
  assert (E : final_values (entries (temp c)) ∅ = Ret (temp c)).
  { rewrite final_values_all, (map_empty_union (M := gmap string)).
    - f_equal. rewrite <- (list_to_map_to_list (temp c)) at 2. symmetry.
      apply list_to_map_proper; [apply NoDup_fst_map_to_list|]. symmetry. apply entries_perm.
    - apply Forall_forall. intros [k a] Hin. apply elem_of_entries in Hin. exact (Hall k a Hin). }
  unfold addResultData. rewrite E. cbn [obind]. rewrite (proj2 (Z.ltb_lt _ _)); [done|].
  enough (base.size (temp c) <> 0%nat) by lia.
  intros H0. by apply Hne, (map_size_empty_inv (M := gmap string)).
Qed.

Definition proper_name (name : string) : Prop :=
  find "$" name 0 = None /\ startsWith name "_" = false.

Lemma insert_fields_published names : Forall proper_name names -> forall fs m,
  map_Forall (fun _ a => published a) m -> map_Forall (fun _ a => published a) (insert_fields names fs m).
Proof.
  induction 1 as [|name names [_ Hn] Hns IH]; intros fs m Hm; [done|]. destruct fs as [|f fs]; [done|].
  cbn. apply IH, map_Forall_insert_2; [by apply field_published|done].
Qed.

Lemma insert_fields_other names fs m name : name ∉ names -> insert_fields names fs m !! name = m !! name.
Proof.
  revert fs m. induction names as [|n names IH]; intros fs m Hn; [done|]. destruct fs as [|f fs]; [done|].
  apply not_elem_of_cons in Hn as [Hne Hn]. cbn. rewrite IH by done. by apply lookup_insert_ne.
Qed.

Lemma insert_fields_lookup names fs m i name f : NoDup names -> names !! i = Some name -> fs !! i = Some f ->
  insert_fields names fs m !! name = Some (field_attribute name f).
Proof.
  intros Hnd. revert fs m i. induction Hnd as [|n names Hn Hnd IH]; intros fs m i Hi Hf; [done|].
  destruct fs as [|f0 fs]; [done|]. destruct i as [|i]; cbn in Hi, Hf |- *.
  - injection Hi as ->. injection Hf as ->. rewrite insert_fields_other by done. apply (lookup_insert_eq (M := gmap string)).
  - by apply (IH fs _ i).
Qed.

(** Running the body is running its tags. *)
Lemma run_body F path bd l c t path' c' r : t_class bd = ESP_Tag_Body -> t_parsed bd = false ->
  run_subtags (run F) F path (mkTag (set_parsed true bd) l) c = Some (Ret (t, path', c', r)) ->
  t_repeat (data t) = false -> run (S F) path (mkTag bd l) c = Some (Ret (t, path', c', r)).
Proof.
  intros Hcl Hp E Hr. apply (run_executed F path (mkTag bd l) c (mkTag bd l) path c); [done| |done|done].
  unfold execute. cbn [data]. by rewrite Hcl.
Qed.

(** What [command_run] does with a body that is done. *)
Lemma command_run_body fuel k c t c1 : index k = 1 ->
  run_tree fuel (body k) c = Some (Ret (t, c1, EXECUTE_RESULT_OK)) ->
  command_run (S fuel) k c = Some (new_data k t c1).
Proof. intros Hi Ht. cbn [command_run]. rewrite Hi. cbn [Z.eqb]. rewrite Ht. reflexivity. Qed.

(** A measure of which all the input is read. *)
Lemma new_data_all k t c : context_wf c -> index_end c = input_size c ->
  map_Forall (fun _ a => published a) (temp c) -> temp c <> ∅ ->
  exists k' c', new_data k t c = Ret (k', c', EXECUTE_RESULT_OK)
    /\ input c' = [] /\ temp c' = ∅ /\ results c' = (results c ++ [temp c])%list.
Proof.
  intros Hc He Hall Hne. unfold new_data. set (k' := if t_loop (data t) then _ else _).
  destruct (validateInputData_wf c 0 Hc) as (c1 & E & _ & Hi & _ & Ht & Hr & _);
    [cbn; destruct Hc as (_ & _ & H & _); lia|].
  rewrite E. cbn [obind]. rewrite addResultData_all by by rewrite Ht. cbn [obind fst].
  exists k'. eexists. split; [reflexivity|]. cbn. rewrite Hi, Ht, Hr. cbn. rewrite He.
  split; [|done]. apply drop_ge. destruct Hc as (-> & _). unfold zlen. lia.
Qed.

(** C18. A text of fields between delimiters gives one measure: the body of a
    command that reads them one after the other consumes all of it, and adds
    to the results a measure that has exactly the names of the fields, each
    reading as the text of its field, the empty ones and the last one, which
    has no delimiter after it, included. *)
Theorem delimited_fields (dl : Z) (fuel : nat) (k : ESP_Command) (bd : TagData) (names : list string)
    (tags : list Tag) (fs : list (list Z)) (c : ESP_Context)
    (Hk : at_body k) (Hb : body k = mkTag bd tags) (Hcl : t_class bd = ESP_Tag_Body)
    (Htags : Forall2 (field_tag dl) names tags) (Hnd : NoDup names) (Hnames : Forall proper_name names)
    (Hlen : List.length fs = List.length names) (Hne : fs <> []) (Hfs : Forall (plain_field dl) fs)
    (Hc : context_wf c) (Hf : (List.length names + 5 <= fuel)%nat) :
  exists k' c' m,
    command_run fuel k (holding (join dl fs) c) = Some (Ret (k', c', EXECUTE_RESULT_OK))
    /\ input c' = [] /\ temp c' = ∅ /\ results c' = (results c ++ [m])%list
    /\ (forall name, is_Some (m !! name) <-> name ∈ names)
    /\ forall i name f, names !! i = Some name -> fs !! i = Some f ->
         exists a, m !! name = Some a /\ getValueAsString a = Ret (block_string f).
Proof.
  assert (Hi : index k = 1) by exact (eq_sym (f_equal index Hk)).
  assert (Hbd : reset_data bd = bd) by (pose proof (f_equal body Hk) as E; cbn in E; rewrite Hb in E;
    cbn in E; by injection E).
  assert (Hp : t_parsed bd = false) by (rewrite <- Hbd; unfold reset_data; by destruct (t_class _)).
  assert (Hr : t_repeat bd = false) by (rewrite <- Hbd; unfold reset_data; by destruct (t_class _)).
  destruct fuel as [|[|[|[|fuel]]]]; [lia..|].
  set (c1 := holding (join dl fs) c).
  assert (Hw1 : context_wf c1) by by apply holding_wf.
  destruct (run_field_tags dl fuel names tags Htags (Forall_impl _ _ _ Hnames (fun _ H => proj1 H)) fs []
    (set_parsed true bd) [] c1 (S (S fuel)) Hlen Hne Hfs (List.Forall_nil _)) as (c2 & E & Hw & _ & He & Hres & Ht);
    [lia|done|done|].
  assert (Ht2 : run_tree (S (S (S fuel))) (body k) c1
    = Some (Ret (mkTag (set_parsed true bd) (map parsed_tag tags), c2, EXECUTE_RESULT_OK))).
  { unfold run_tree. rewrite Hb, (run_body _ [] bd tags c1 _ _ _ _ Hcl Hp E Hr). done. }
  rewrite (command_run_body _ _ _ _ _ Hi Ht2).
  assert (Hpub : map_Forall (fun _ a => published a) (temp c2)) by (rewrite Ht; by apply insert_fields_published).
  assert (Hm : forall i name f, names !! i = Some name -> fs !! i = Some f ->
    temp c2 !! name = Some (field_attribute name f)) 
    by (intros i n f Hn Hf1; rewrite Ht; by apply (insert_fields_lookup names fs _ i)).
  assert (Hin : forall name, is_Some (temp c2 !! name) <-> name ∈ names).
  { intros name. split.
    - intros Hs. destruct (decide (name ∈ names)) as [Hn|Hn]; [done|]. rewrite Ht in Hs.
      rewrite insert_fields_other in Hs by done. by destruct Hs.
    - intros Hn. apply list_elem_of_lookup in Hn as [i Hn].
      destruct (lookup_lt_is_Some_2 fs i) as [f Hf2];
        [rewrite Hlen; by eapply lookup_lt_Some|]. by rewrite (Hm i name f). }
  destruct (new_data_all k (mkTag (set_parsed true bd) (map parsed_tag tags)) c2 Hw He Hpub)
    as (k' & c' & E' & H1 & H2 & H3).
  { intros H0. destruct names as [|n names]; [by destruct fs|].
    destruct (proj2 (Hin n)) as [a Ha]; [set_solver|]. rewrite H0 in Ha. done. }
  exists k', c', (temp c2). rewrite E'. split_and!; [done..|by rewrite H3, Hres|done|].
  intros i name f Hi1 Hf1. exists (field_attribute name f). split; [by apply (Hm i)|apply field_text].
Qed.
End Fields.

(** ** An example *)

(** The topic of the agents: [apikey/sensorid/type]. *)
Definition topic_tags : list TiXmlElement :=
  map (fun name => tag "value" [("datatype", "string"); ("datacode", "stringdelim"); ("name", name);
                                ("valuestring", "/")] [])
    ["apikey"; "sensorid"; "type"].

Lemma delimited_fields_witness :
  exists k k' c' m, body_command topic_tags = Some k
    /\ @command_run float_zero 9 k (holding [107; 47; 47; 116; 116] new_context)
       = Some (Ret (k', c', EXECUTE_RESULT_OK))
    /\ results c' = [m] /\ is_Some (m !! "type")
    /\ exists a, m !! "sensorid" = Some a /\ @getValueAsString float_zero a = Ret "".
Proof.
  destruct (body_command topic_tags) as [k|] eqn:Ek; [|vm_compute in Ek; done].
  vm_compute in Ek. injection Ek as Ek.
  assert (Hk : at_body k /\ t_class (data (body k)) = ESP_Tag_Body
    /\ Forall2 (field_tag 47) ["apikey"; "sensorid"; "type"] (subtags (body k))).
  { subst k. split; [reflexivity|]. split; [reflexivity|].
    repeat (apply Forall2_cons; split; [repeat split; do 2 eexists; reflexivity|]). apply Forall2_nil_2. }
  destruct Hk as (Hk & Hcl & Htags).
  destruct (@delimited_fields float_zero 47 9 k (data (body k)) ["apikey"; "sensorid"; "type"]
    (subtags (body k)) [[107]; []; [116; 116]] new_context Hk) as (k' & c' & m & H1 & _ & _ & H2 & H3 & H4);
    [by destruct (body k)|exact Hcl|exact Htags|apply (bool_decide_unpack _); vm_compute; exact I
    |repeat constructor|reflexivity|discriminate
    |repeat apply Forall_cons_2; try apply Forall_nil_2; (split; [apply (bool_decide_unpack _); vm_compute; exact I|discriminate])
    |apply new_context_wf|cbn; lia|].
  exists k, k', c', m. split; [by rewrite <- Ek|]. split; [exact H1|]. split; [exact H2|]. split.
  - apply H3. apply (bool_decide_unpack _). vm_compute. exact I.
  - destruct (H4 1%nat "sensorid" [] eq_refl eq_refl) as (a & Ha & Hv). exists a. split; [exact Ha|exact Hv].
Defined.
