(* ===== verification/EspMqtt.v ===== *)
(** * The MQTT input: [src/src/esp/plugins/input_mqtt]

    The messages the library delivers are kept as bytes, the topic and the
    payload with [//] between them, in a queue that is read in pieces or
    message by message.  A wrapper follows the state of one connection, the
    plug-in keeps the wrappers and the brokers it started, and an input gives
    each message a client of its own.

    The mosquitto library is behind [IMosquitto]: a call gives a code and the
    callbacks made meanwhile, in order. *)
From stdpp Require Import base tactics list gmap strings pretty sorting.
From Stdlib Require Import ZArith Lia Ascii String.
From S2P Require Import Prelude CppString StdMap EspStringUtils EspAttribute EspXml EspContext.

Local Open Scope string_scope.
Local Open Scope Z_scope.

(** ** [ESP_MqttBuffer.cpp] *)

Definition ESP_MQTT_DELIM_END : string := "//".

(** [mosquitto_message]: the characters of the topic, and the payload. *)
Record mosquitto_message : Type := mkMessage {
  mid : Z;
  topic : string;
  payload : list Z;
  payloadlen : Z
}.

Record ESP_MqttMsg : Type := mkMqttMsg {
  readOffset : Z;
  buffSerialized : list Z;
  msg_length : Z
}.

(** The constructor, when [malloc] gives a block. *)
Definition new_msg (msg : mosquitto_message) : outcome ESP_MqttMsg :=
  let topicLen := slen (c_str (topic msg)) in
  let length := i32 (payloadlen msg + topicLen + slen ESP_MQTT_DELIM_END) in
  let! bytes := read_block (payload msg) (payloadlen msg) in
  Ret (mkMqttMsg 0
         (string_block (c_str (topic msg)) ++ string_block ESP_MQTT_DELIM_END ++ bytes)%list length).

Definition getTotalLength (m : ESP_MqttMsg) : Z := msg_length m.
Definition getRemainingLength (m : ESP_MqttMsg) : Z := msg_length m - readOffset m.

(** The bytes from the offset on, and their number. *)
Definition getBufferToBeCopied (m : ESP_MqttMsg) : list Z * Z :=
  (drop (Z.to_nat (readOffset m)) (buffSerialized m), getRemainingLength m).

Definition moveOffset (nbytes : Z) (m : ESP_MqttMsg) : ESP_MqttMsg :=
  mkMqttMsg (readOffset m + nbytes) (buffSerialized m) (msg_length m).

Record ESP_MqttBuffer : Type := mkBuffer {
  qMqttMsg : list ESP_MqttMsg;
  unreadBytes : Z
}.

Definition new_buffer : ESP_MqttBuffer := mkBuffer [] 0.

Definition addMsg (msg : ESP_MqttMsg) (b : ESP_MqttBuffer) : ESP_MqttBuffer :=
  mkBuffer (qMqttMsg b ++ [msg]) (i32 (unreadBytes b + getTotalLength msg)).

Definition decreaseUnreadBytes (bytes : Z) (b : ESP_MqttBuffer) : ESP_MqttBuffer :=
  mkBuffer (qMqttMsg b) (i32 (unreadBytes b - bytes)).

(** [front()] and [pop()] of an empty queue are undefined. *)
Definition removeMsg (b : ESP_MqttBuffer) : outcome ESP_MqttBuffer :=
  match qMqttMsg b with
  | [] => Undefined
  | _ :: q => Ret (mkBuffer q (unreadBytes b))
  end.

Definition isQueueEmpty (b : ESP_MqttBuffer) : bool :=
  match qMqttMsg b with [] => true | _ => false end.

Definition getFirstMqttMessage (b : ESP_MqttBuffer) : option (list Z) * Z :=
  match qMqttMsg b with
  | [] => (None, 0)
  | m :: _ => (Some (fst (getBufferToBeCopied m)), snd (getBufferToBeCopied m))
  end.

Definition deleteFirstMessage (b : ESP_MqttBuffer) : outcome ESP_MqttBuffer :=
  match qMqttMsg b with
  | [] => Undefined
  | m :: _ => removeMsg (decreaseUnreadBytes (snd (getBufferToBeCopied m)) b)
  end.

(** The bytes copied into [buffOutput]; their number is returned. *)
Definition getSerialized (lenRead : Z) (b : ESP_MqttBuffer) : outcome (list Z * Z * ESP_MqttBuffer) :=
  match qMqttMsg b with
  | [] => Ret ([], 0, b)
  | m :: q =>
      let '(auxBuff, nMsgLen) := getBufferToBeCopied m in
      let nBuffLen := if lenRead <? nMsgLen then lenRead else nMsgLen in
      let! bytes := read_block auxBuff nBuffLen in
      let b := decreaseUnreadBytes nBuffLen b in
      if nBuffLen <? nMsgLen then
        Ret (bytes, nBuffLen, mkBuffer (moveOffset nBuffLen m :: q) (unreadBytes b))
      else let! b := removeMsg b in Ret (bytes, nBuffLen, b)
  end.

(** ** [IMosquitto] and its callbacks *)

Definition MOSQ_ERR_SUCCESS : Z := 0.

Inductive callback : Type :=
| on_connect (rc : Z)
| on_disconnect (rc : Z)
| on_publish (mid : Z)
| on_message (message : option mosquitto_message)
| on_subscribe (mid qos_count : Z)
| on_unsubscribe (mid : Z)
| on_log (level : Z) (str : string)
| on_error.

Class IMosquitto := {
  mosq : Type;
  mqtt_reply : Type := (Z * list callback * mosq)%type;
  mqttConnect (host : string) (port keepalive : Z) : mosq -> mqtt_reply;
  mqttReconnect : mosq -> mqtt_reply;
  mqttLoop (timeout max_packets : Z) : mosq -> mqtt_reply;
  mqttPublish (topic : string) (payloadlen : Z) (payload : string) (qos : Z) (retain : bool) : mosq -> mqtt_reply;
  mqttSubscribe (sub : string) (qos : Z) : mosq -> mqtt_reply;
  mqttUnsubscribe (sub : string) : mosq -> mqtt_reply;
  mqttDisconnect : mosq -> mqtt_reply;
  mqttSetPassword (username password : string) : mosq -> mqtt_reply;
  ESP_MosquittoImpl (id : string) (cleanSession : bool) : mosq
}.

(** [ESP_MqttWrapper::StatusType]. *)
Inductive StatusType : Type := MQTT_CONNECTED | MQTT_DISCONNECTED | MQTT_CONNECTING.

#[global] Instance StatusType_eq_dec : EqDecision StatusType.
Proof. solve_decision. Defined.

Section Mqtt.
  Context `{IMosquitto}.

(** ** [ESP_MqttWrapper] *)

Record ESP_MqttWrapper : Type := mkWrapper {
  canPublish : bool;
  canSubscribe : bool;
  mqttBuffer : ESP_MqttBuffer;
  mqttObj : mosq;
  w_port : Z;
  w_host : string;
  topicPublish : string;
  topicSubscribe : string;
  w_status : StatusType
}.

Definition set_buffer (b : ESP_MqttBuffer) (w : ESP_MqttWrapper) : ESP_MqttWrapper :=
  mkWrapper (canPublish w) (canSubscribe w) b (mqttObj w) (w_port w) (w_host w) (topicPublish w)
    (topicSubscribe w) (w_status w).
Definition set_mosq (m : mosq) (w : ESP_MqttWrapper) : ESP_MqttWrapper :=
  mkWrapper (canPublish w) (canSubscribe w) (mqttBuffer w) m (w_port w) (w_host w) (topicPublish w)
    (topicSubscribe w) (w_status w).
Definition set_status (s : StatusType) (w : ESP_MqttWrapper) : ESP_MqttWrapper :=
  mkWrapper (canPublish w) (canSubscribe w) (mqttBuffer w) (mqttObj w) (w_port w) (w_host w)
    (topicPublish w) (topicSubscribe w) s.

(** The callbacks, which [ESP_MosquittoImpl] passes on. *)
Definition handle_callback (cb : callback) (w : ESP_MqttWrapper) : outcome ESP_MqttWrapper :=
  match cb with
  | on_connect _ => Ret (set_status MQTT_CONNECTED w)
  | on_disconnect _ =>
      Ret (if decide (w_status w = MQTT_CONNECTED) then set_status MQTT_DISCONNECTED w else w)
  | on_message (Some message) =>
      let! m := new_msg message in Ret (set_buffer (addMsg m (mqttBuffer w)) w)
  | on_message None | on_publish _ | on_subscribe _ _ | on_unsubscribe _ | on_log _ _ | on_error => Ret w
  end.

Fixpoint handle_callbacks (cbs : list callback) (w : ESP_MqttWrapper) : outcome ESP_MqttWrapper :=
  match cbs with
  | [] => Ret w
  | cb :: rest => let! w := handle_callback cb w in handle_callbacks rest w
  end.

(** A call of the library, with the callbacks it makes. *)
Definition call (f : mosq -> mqtt_reply) : M ESP_MqttWrapper Z := fun w =>
  let '(rc, cbs, m) := f (mqttObj w) in
  match handle_callbacks cbs (set_mosq m w) with
  | Ret w => (w, Ret rc)
  | Throw e => (w, Throw e)
  | Undefined => (w, Undefined)
  end.

Definition doSubscribe : M ESP_MqttWrapper unit :=
  do! w := sget in
  if negb (canSubscribe w) then sret tt
  else run! call (mqttSubscribe (c_str (topicSubscribe w)) 0) in sret tt.

(** [res] has no value when the wrapper is connected. *)
Definition doConnectHost : M ESP_MqttWrapper unit :=
  do! w := sget in
  do! res := match w_status w with
             | MQTT_CONNECTING =>
                 do! r := call (mqttConnect (c_str (w_host w)) (w_port w) 60) in sret (Some r)
             | MQTT_DISCONNECTED => do! r := call mqttReconnect in sret (Some r)
             | MQTT_CONNECTED => sret None
             end in
  run! call (mqttLoop 100 1) in
  match res with
  | None => slift Undefined
  | Some res => if res =? MOSQ_ERR_SUCCESS then doSubscribe else sret tt
  end.

(** The constructor. *)
Definition new_wrapper (m : mosq) (port : Z) (host topicPub topicSub user passwd : string)
    : outcome ESP_MqttWrapper :=
  let w := mkWrapper (negb (String.eqb topicPub "")) (negb (String.eqb topicSub "")) new_buffer m port
             host topicPub topicSub MQTT_CONNECTING in
  if 0 <? slen user
  then let '(w, r) := call (mqttSetPassword (c_str user) (c_str passwd)) w in let! _ := r in Ret w
  else Ret w.

Definition readFromChannel : M ESP_MqttWrapper Z :=
  do! rc := call (mqttLoop 0 1) in
  if negb (rc =? MOSQ_ERR_SUCCESS) then run! doConnectHost in sret rc else sret rc.

Definition getFirstMQTTMsg_w : M ESP_MqttWrapper (option (list Z) * Z) :=
  do! w := sget in sret (getFirstMqttMessage (mqttBuffer w)).

Definition doneWithFirstMQTTMsg : M ESP_MqttWrapper unit :=
  do! w := sget in
  do! b := slift (deleteFirstMessage (mqttBuffer w)) in
  smodify (set_buffer b).

Definition getBuffer (lenToCopy : Z) : M ESP_MqttWrapper (list Z * Z) :=
  do! w := sget in
  do! r := slift (getSerialized lenToCopy (mqttBuffer w)) in
  run! smodify (set_buffer (snd r)) in
  sret (fst r).

(** [std::string(buffer, len)], split at the first [//]. *)
Definition split_topic (str : string) : string * string :=
  match find "//" str 0 with
  | Some tpos => (str_take tpos str, str_drop (tpos + 2) str)
  | None => ("", "")
  end.

Definition publishMaskTopic (buffer : list Z) (len : Z) : M ESP_MqttWrapper Z :=
  do! w := sget in
  if decide (w_status w = MQTT_CONNECTED) then
    do! bytes := slift (read_block buffer len) in
    let '(topic, payload) := split_topic (block_string bytes) in
    do! res := call (mqttPublish (c_str topic) (slen payload) payload 0 false) in
    run! call (mqttLoop 100 1) in
    sret (if res =? MOSQ_ERR_SUCCESS then len else 0)
  else sret 0.

Definition stopSubscription : M ESP_MqttWrapper unit :=
  do! w := sget in
  if negb (bool_decide (w_status w = MQTT_CONNECTED)) then sret tt
  else if canSubscribe w then run! call (mqttUnsubscribe (c_str (topicSubscribe w))) in sret tt
  else sret tt.

Definition doDisconnect : M ESP_MqttWrapper unit :=
  do! w := sget in
  run! (if decide (w_status w = MQTT_CONNECTED) then call mqttDisconnect else sret 0) in
  smodify (set_status MQTT_DISCONNECTED).

(** ** [ESP_MQTT_Broker] and [ESP_Plugin_Input_Mqtt] *)

(** A broker launched as a process; [fork] gives its identifier. *)
Record ESP_MQTT_Broker : Type := mkBroker { pidBroker : Z }.

(** [launchBroker]: what it returns, with the broker. *)
Definition launchBroker (fork : Z) : ESP_MQTT_Broker * Z :=
  (mkBroker fork, if fork <? 0 then -1 else 1).

(** [ESP_MQTT_Broker::stopBroker]: the process that gets the signal, if any. *)
Definition stop_process (b : ESP_MQTT_Broker) : option Z :=
  if 0 <? pidBroker b then Some (pidBroker b) else None.

Record ESP_Plugin_Input_Mqtt : Type := mkPlugin {
  uniqueName : string;
  id : Z;
  nBrokers : Z;
  mapMqttClient : gmap Z ESP_MqttWrapper;
  mapMqttBroker : gmap Z ESP_MQTT_Broker;
  mapMosquitto : gmap string mosq;
  stopped : list Z (* the processes signalled so far *)
}.

Implicit Types p : ESP_Plugin_Input_Mqtt.

(** The constructor, [number] being [rand() % 10000]. *)
Definition new_plugin (number : Z) : ESP_Plugin_Input_Mqtt :=
  mkPlugin (intToString number) 0 0 ∅ ∅ ∅ [].

Definition set_clients (m : gmap Z ESP_MqttWrapper) p : ESP_Plugin_Input_Mqtt :=
  mkPlugin (uniqueName p) (id p) (nBrokers p) m (mapMqttBroker p) (mapMosquitto p) (stopped p).
Definition set_brokers (n : Z) (m : gmap Z ESP_MQTT_Broker) (l : list Z) p : ESP_Plugin_Input_Mqtt :=
  mkPlugin (uniqueName p) (id p) n (mapMqttClient p) m (mapMosquitto p) l.
Definition set_map (m : gmap string mosq) p : ESP_Plugin_Input_Mqtt :=
  mkPlugin (uniqueName p) (id p) (nBrokers p) (mapMqttClient p) (mapMqttBroker p) m (stopped p).

Definition getNewId : M ESP_Plugin_Input_Mqtt Z := fun p =>
  (mkPlugin (uniqueName p) (i32 (id p + 1)) (nBrokers p) (mapMqttClient p) (mapMqttBroker p)
     (mapMosquitto p) (stopped p), Ret (id p)).

(** [insert]: a key that is there keeps its value. *)
Definition insert_new {A} (m : gmap Z A) (k : Z) (v : A) : gmap Z A :=
  match m !! k with Some _ => m | None => <[k := v]> m end.

Definition setMosquitto (mosquitto : mosq) (inputName : string) : M ESP_Plugin_Input_Mqtt unit :=
  smodify (fun p => set_map (emplace (mapMosquitto p) inputName mosquitto) p).

Definition isThereRefMosquitto p : bool := 0 <? Z.of_nat (base.size (mapMosquitto p)).

Definition getAndRemoveIMosquitto (inputName : string) : M ESP_Plugin_Input_Mqtt (option mosq) :=
  do! p := sget in
  if isThereRefMosquitto p then
    match mapMosquitto p !! inputName with
    | Some obj => run! smodify (set_map (delete inputName (mapMosquitto p))) in sret (Some obj)
    | None => sret None
    end
  else sret None.

Definition findMqtt (k : Z) p : option ESP_MqttWrapper := mapMqttClient p !! k.

Definition removeClientFromMap (k : Z) : M ESP_Plugin_Input_Mqtt Z :=
  do! p := sget in
  match mapMqttClient p !! k with
  | Some _ => run! smodify (set_clients (delete k (mapMqttClient p))) in sret 1
  | None => sret 0
  end.

(** A method of the wrapper found at [k]. *)
Definition on_client {A} (k : Z) (w : ESP_MqttWrapper) (c : M ESP_MqttWrapper A)
    : M ESP_Plugin_Input_Mqtt A := fun p =>
  let '(w, r) := c w in (set_clients (<[k := w]> (mapMqttClient p)) p, r).

Definition initMQTT (port : Z) (host topicPub topicSub user passwd : string) (cleanSession : bool)
    (inputName : string) : M ESP_Plugin_Input_Mqtt Z :=
  do! idMqtt := getNewId in
  do! p := sget in
  let finalID := (uniqueName p ++ "-" ++ intToString idMqtt)%string in
  do! refIMosquitto :=
    if negb (isThereRefMosquitto p) then sret (Some (ESP_MosquittoImpl (c_str finalID) cleanSession))
    else getAndRemoveIMosquitto inputName in
  match refIMosquitto with
  | None => sret (-1)
  | Some m =>
      do! w := slift (new_wrapper m port host topicPub topicSub user passwd) in
      let '(w, r) := doConnectHost w in
      do! _ := slift r in
      run! smodify (fun p => set_clients (insert_new (mapMqttClient p) idMqtt w) p) in
      sret idMqtt
  end.

Definition publish (idClient : Z) (buffer : option (list Z)) (len : Z) : M ESP_Plugin_Input_Mqtt Z :=
  match buffer with
  | None => sret 0
  | Some b =>
      do! p := sget in
      match findMqtt idClient p with
      | Some w => on_client idClient w (publishMaskTopic b len)
      | None => sret 0
      end
  end.

Definition stopMQTT (idClient : Z) : M ESP_Plugin_Input_Mqtt bool :=
  do! p := sget in
  match findMqtt idClient p with
  | None => sret false
  | Some w =>
      run! on_client idClient w (run! stopSubscription in doDisconnect) in
      run! removeClientFromMap idClient in
      sret true
  end.

Definition readfromSubscription (k len : Z) : M ESP_Plugin_Input_Mqtt (list Z * Z) :=
  do! p := sget in
  match findMqtt k p with
  | Some w => on_client k w (run! readFromChannel in getBuffer len)
  | None => sret ([], 0)
  end.

(** The pointer and the length. *)
Definition getFirstMQTTMsg (k : Z) : M ESP_Plugin_Input_Mqtt (option (list Z) * Z) :=
  do! p := sget in
  match findMqtt k p with
  | Some w => on_client k w (run! readFromChannel in getFirstMQTTMsg_w)
  | None => sret (None, -1)
  end.

Definition removeFirstMQTTMsg (k : Z) : M ESP_Plugin_Input_Mqtt unit :=
  do! p := sget in
  match findMqtt k p with
  | Some w => on_client k w doneWithFirstMQTTMsg
  | None => sret tt
  end.

Definition findBroker (port : Z) p : option ESP_MQTT_Broker := mapMqttBroker p !! port.

Definition removeBrokerFromMap (port : Z) p : ESP_Plugin_Input_Mqtt * Z :=
  match mapMqttBroker p !! port with
  | Some _ => (set_brokers (nBrokers p) (delete port (mapMqttBroker p)) (stopped p) p, 1)
  | None => (p, 0)
  end.

Definition isBrokerRunning (port : Z) p : bool :=
  match findBroker port p with Some _ => true | None => false end.

(** [fork] is what the call of that name gives. *)
Definition initBroker (port fork : Z) : M ESP_Plugin_Input_Mqtt Z :=
  do! p := sget in
  if negb (isBrokerRunning port p) then
    let '(mqttBroker, res) := launchBroker fork in
    if res =? 1 then
      run! smodify (fun p => set_brokers (i32 (nBrokers p + 1))
                               (insert_new (mapMqttBroker p) port mqttBroker) (stopped p) p) in
      sret port
    else sret 0
  else sret port.

Definition stopBroker (port : Z) : M ESP_Plugin_Input_Mqtt unit :=
  smodify (fun p =>
    let p := set_brokers (i32 (nBrokers p - 1)) (mapMqttBroker p) (stopped p) p in
    let p :=
      if nBrokers p =? 0 then
        match findBroker port p with
        | Some b =>
            fst (removeBrokerFromMap port
                   (set_brokers (nBrokers p) (mapMqttBroker p)
                      (stopped p ++ option_list (stop_process b))%list p))
        | None => p
        end
      else p in
    if nBrokers p <? 0 then set_brokers 0 (mapMqttBroker p) (stopped p) p else p).

(** ** [ESP_Input_Mqtt] *)

Record ESP_Input_Mqtt : Type := mkInput {
  _sid : Z;
  i_name : string;
  _keepRunning : bool;
  host : string;
  port : Z;
  pub_topic : string;
  sub_topic : string;
  user : string;
  passwd : string;
  cleanSession : bool;
  clientid : Z;
  clients : gmap Z ESP_Context
}.

(** The input and the plug-in it calls. *)
Record World : Type := mkWorld { input_of : ESP_Input_Mqtt; plugin_of : ESP_Plugin_Input_Mqtt }.

Implicit Types i : ESP_Input_Mqtt.

Definition set_sid (n : Z) i : ESP_Input_Mqtt :=
  mkInput n (i_name i) (_keepRunning i) (host i) (port i) (pub_topic i) (sub_topic i) (user i) (passwd i)
    (cleanSession i) (clientid i) (clients i).
Definition set_keep (b : bool) i : ESP_Input_Mqtt :=
  mkInput (_sid i) (i_name i) b (host i) (port i) (pub_topic i) (sub_topic i) (user i) (passwd i)
    (cleanSession i) (clientid i) (clients i).
Definition set_input_clients (n : Z) (m : gmap Z ESP_Context) i : ESP_Input_Mqtt :=
  mkInput (_sid i) (i_name i) (_keepRunning i) (host i) (port i) (pub_topic i) (sub_topic i) (user i)
    (passwd i) (cleanSession i) n m.

(** The constructor, and [createInput]; the session is clean once the element
    is parsed. *)
Definition new_input (name : string) : ESP_Input_Mqtt :=
  mkInput (-1) name true "" 1883 "" "" "" "" true 1 ∅.

Definition parse_input (element : TiXmlElement) i : outcome ESP_Input_Mqtt :=
  let! nPort := queryIntValue element "port" in
  let cSession := queryStringValue element "clean-session" in
  Ret (mkInput (_sid i) (i_name i) (_keepRunning i) (queryStringValue element "host")
         (if 0 <? nPort then nPort else port i) (queryStringValue element "publish")
         (queryStringValue element "subscribe") (queryStringValue element "user")
         (queryStringValue element "password")
         (if 0 <? slen cSession then queryBoolValue element "clean-session" else true)
         (clientid i) (clients i)).

Definition in_plugin {A} (c : M ESP_Plugin_Input_Mqtt A) : M World A := fun w =>
  let '(p, r) := c (plugin_of w) in (mkWorld (input_of w) p, r).

Definition on_input (f : ESP_Input_Mqtt -> ESP_Input_Mqtt) : M World unit :=
  smodify (fun w => mkWorld (f (input_of w)) (plugin_of w)).

Definition init_input : M World Z :=
  do! w := sget in
  let i := input_of w in
  in_plugin (initMQTT (port i) (host i) (pub_topic i) (sub_topic i) (user i) (passwd i)
               (cleanSession i) (i_name i)).

Definition openServer : M World Z :=
  do! sid := init_input in
  run! on_input (set_sid sid) in
  sret sid.

(** The next client, which reads what [c] holds. *)
Definition new_client (c : ESP_Context) : M World Z :=
  do! w := sget in
  let k := clientid (input_of w) in
  run! on_input (fun i => set_input_clients (i32 (k + 1)) (insert_new (clients i) k c) i) in
  sret k.

(** One turn of the loop: the number of bytes and the client. *)
Definition accept_turn (k : Z) : M World (Z * Z) :=
  do! w := sget in
  let sid := _sid (input_of w) in
  do! first := in_plugin (getFirstMQTTMsg sid) in
  let ndata := snd first in
  if 0 <? ndata then
    do! c := slift (addInputData (default [] (fst first)) ndata new_context) in
    do! k := new_client c in
    run! in_plugin (removeFirstMQTTMsg sid) in
    sret (ndata, k)
  else sret (ndata, k).

Fixpoint accept_loop (fuel : nat) (ndata k : Z) : FM World Z := fun w =>
  match fuel with
  | O => None
  | S fuel =>
      if (ndata =? 0) && (0 <=? _sid (input_of w)) && _keepRunning (input_of w) then
        match accept_turn k w with
        | (w, Ret (ndata, k)) => accept_loop fuel ndata k w
        | (w, Throw e) => Some (w, Throw e)
        | (w, Undefined) => Some (w, Undefined)
        end
      else Some (w, Ret k)
  end.

Definition acceptServer (fuel : nat) : FM World Z := accept_loop fuel 0 (-1).

Definition stopServer : M World bool := run! on_input (set_keep false) in sret true.

Definition closeServer : M World bool :=
  do! w := sget in
  run! in_plugin (stopMQTT (_sid (input_of w))) in
  run! on_input (set_sid (-1)) in
  sret true.

Definition openClient : M World Z :=
  do! w := sget in
  if _sid (input_of w) <? 0 then init_input else new_client new_context.

Definition closeClient (k : Z) : M World bool :=
  do! w := sget in
  if _sid (input_of w) <? 0 then in_plugin (stopMQTT k)
  else
    run! on_input (fun i => set_input_clients (clientid i) (delete k (clients i)) i) in
    sret true.

(** The bytes copied into the buffer, and their number. *)
Definition readClient (k len : Z) : M World (list Z * Z) :=
  do! w := sget in
  let i := input_of w in
  if _sid i <? 0 then in_plugin (readfromSubscription k len)
  else
    match clients i !! k with
    | Some c =>
        if 0 <? getAvailableInputData c then
          let ndata := getAvailableInputData c in
          let ndata := if len <? ndata then len else ndata in
          do! r := slift (readPInputData ndata c) in
          do! bytes := slift (match snd r with
                              | Some b => read_block b ndata
                              | None => if ndata =? 0 then Ret [] else Undefined
                              end) in
          do! c := slift (validateInputData ndata (fst r)) in
          run! on_input (fun i => set_input_clients (clientid i) (<[k := c]> (clients i)) i) in
          sret (bytes, ndata)
        else sret ([], -1)
    | None => sret ([], -1)
    end.

Definition writeClient (k : Z) (buffer : list Z) (len : Z) : M World Z :=
  do! w := sget in
  let sid := _sid (input_of w) in
  in_plugin (publish (if sid <? 0 then k else sid) (Some buffer) len).

(** ** [ESP_Input_MqttBroker] *)

Record ESP_Input_MqttBroker : Type := mkBrokerInput {
  b_sid : Z;
  b_port : Z;
  pathToBroker : string;
  pathToConfig : string
}.

Definition new_broker_input : ESP_Input_MqttBroker := mkBrokerInput (-1) 1883 "mosquitto" "mosquitto.conf".

Definition parse_broker (element : TiXmlElement) (i : ESP_Input_MqttBroker) : outcome ESP_Input_MqttBroker :=
  let! nPort := queryIntValue element "port" in
  Ret (mkBrokerInput (b_sid i) (if 0 <? nPort then nPort else b_port i)
         (queryStringValue element "path") (queryStringValue element "config")).

Definition open_broker (fork : Z) (i : ESP_Input_MqttBroker)
    : M ESP_Plugin_Input_Mqtt (ESP_Input_MqttBroker * Z) :=
  do! sid := initBroker (b_port i) fork in
  sret (mkBrokerInput sid (b_port i) (pathToBroker i) (pathToConfig i), sid).

(** [stopServer] and [closeServer]. *)
Definition stop_broker (i : ESP_Input_MqttBroker) : M ESP_Plugin_Input_Mqtt bool :=
  run! stopBroker (b_sid i) in sret true.
Definition close_broker (i : ESP_Input_MqttBroker) : M ESP_Plugin_Input_Mqtt bool :=
  run! stopBroker (b_sid i) in sret true.

(** [createInput]: which of the two, by the type of the element. *)
Definition createInput (element : TiXmlElement) : option (ESP_Input_Mqtt + ESP_Input_MqttBroker) :=
  let type := queryStringValue element "type" in
  if String.eqb type "mqtt" then Some (inl (new_input (queryStringValue element "name")))
  else if String.eqb type "mqttbroker" then Some (inr new_broker_input) else None.
End Mqtt.
