(* ===== verification/EspMqttSpec.v ===== *)
(** * What the MQTT input does

    The bytes of the messages come out once and in order; a message gets a
    client that reads it whole; what is published is what would be received;
    of several brokers only the last to be stopped is. *)
From stdpp Require Import base tactics list gmap strings sorting.
From Stdlib Require Import ZArith Lia Ascii String.
From S2P Require Import Prelude CppString StdMap EspStringUtils EspAttribute EspXml EspContext EspMqtt.

Local Open Scope string_scope.
Local Open Scope Z_scope.

(** ** The buffer as a stream *)

(** The bytes of a message. *)
Definition serialized (msg : mosquitto_message) : list Z :=
  (string_block (c_str (topic msg)) ++ string_block ESP_MQTT_DELIM_END ++ payload msg)%list.

Definition message_ok (msg : mosquitto_message) : Prop :=
  payloadlen msg = zlen (payload msg) /\ zlen (serialized msg) < 2 ^ 31.

(** What is done with a buffer: a message arrives, some bytes are copied, or
    the first message is taken, as [acceptServer] does when there is one. *)
Inductive buffer_op : Type :=
| Arrive (msg : mosquitto_message)
| Copy (len : Z)
| TakeFirst.

Definition buffer_step (op : buffer_op) (b : ESP_MqttBuffer) : outcome (list Z * ESP_MqttBuffer) :=
  match op with
  | Arrive msg => let! m := new_msg msg in Ret ([], addMsg m b)
  | Copy len => let! r := getSerialized len b in Ret (fst (fst r), snd r)
  | TakeFirst =>
      let '(data, ndata) := getFirstMqttMessage b in
      if 0 <? ndata then
        let! bytes := read_block (default [] data) ndata in
        let! b := deleteFirstMessage b in Ret (bytes, b)
      else Ret ([], b)
  end.

(** The bytes given out, in order. *)
Fixpoint buffer_run (ops : list buffer_op) (b : ESP_MqttBuffer) : outcome (list Z * ESP_MqttBuffer) :=
  match ops with
  | [] => Ret ([], b)
  | op :: ops =>
      let! r := buffer_step op b in
      let! r' := buffer_run ops (snd r) in
      Ret ((fst r ++ fst r')%list, snd r')
  end.

Definition op_ok (op : buffer_op) : Prop :=
  match op with Arrive msg => message_ok msg | Copy len => 0 <= len | TakeFirst => True end.

(** The bytes that arrive. *)
Definition arrived (op : buffer_op) : list Z :=
  match op with Arrive msg => serialized msg | _ => [] end.

(** What is left of a message, and of a buffer. *)
Definition unread (m : ESP_MqttMsg) : list Z := fst (getBufferToBeCopied m).
Definition unread_all (b : ESP_MqttBuffer) : list Z := List.concat (map unread (qMqttMsg b)).

Definition msg_wf (m : ESP_MqttMsg) : Prop :=
  msg_length m = zlen (buffSerialized m) /\ 0 <= readOffset m < msg_length m.

Definition buffer_wf (b : ESP_MqttBuffer) : Prop :=
  Forall msg_wf (qMqttMsg b) /\ unreadBytes b = i32 (zlen (unread_all b)).

Lemma message_length m : msg_wf m -> zlen (unread m) = getRemainingLength m.
Proof. intros [Hl Hr]. unfold unread, getRemainingLength. cbn. rewrite zlen_drop by lia. lia. Qed.

Lemma zlen_string_block s : zlen (string_block s) = slen s.
Proof. unfold zlen, slen. f_equal. induction s as [|c s IH]; cbn; [done|]. by rewrite IH. Qed.

Lemma i32_add a b : i32 (i32 a + b) = i32 (a + b).
Proof.
  unfold i32. replace ((a + 2 ^ 31) mod 2 ^ 32 - 2 ^ 31 + b + 2 ^ 31) with ((a + 2 ^ 31) mod 2 ^ 32 + b) by lia.
  rewrite Z.add_mod_idemp_l by lia. do 2 f_equal. lia.
Qed.

Lemma new_msg_ok msg : message_ok msg ->
  exists m, new_msg msg = Ret m /\ msg_wf m /\ unread m = serialized msg
    /\ getTotalLength m = zlen (serialized msg).
Proof.
  intros [Hp Hl]. unfold new_msg. rewrite Hp, read_block_all by done. cbn [obind].
  pose proof Hl as Hs. unfold serialized in Hs. rewrite !zlen_app, !zlen_string_block in Hs.
  pose proof (zlen_nonneg (payload msg)).
  assert (Ht : 0 <= slen (c_str (topic msg))) by (unfold slen; lia).
  assert (Hd : slen ESP_MQTT_DELIM_END = 2) by reflexivity.
  rewrite i32_small by lia. fold (serialized msg).
  eexists. split; [reflexivity|]. unfold msg_wf, unread, getTotalLength. cbn [getBufferToBeCopied fst].
  cbn [msg_length buffSerialized readOffset].
  assert (Hz : zlen (serialized msg) = zlen (payload msg) + slen (c_str (topic msg)) + slen ESP_MQTT_DELIM_END)
    by (unfold serialized; rewrite !zlen_app, !zlen_string_block; lia).
  rewrite Hz. split_and!; (done || lia).
Qed.

(** ** One step *)

Lemma step_arrive msg b : message_ok msg -> buffer_wf b ->
  exists b', buffer_step (Arrive msg) b = Ret ([], b') /\ buffer_wf b'
    /\ unread_all b' = (unread_all b ++ serialized msg)%list.
Proof.
  intros Hm [Hf Hu]. destruct (new_msg_ok msg Hm) as (m & E & Hw & Hb & Ht).
  cbn. rewrite E. cbn [obind]. eexists. split; [reflexivity|].
  assert (Hall : unread_all (addMsg m b) = (unread_all b ++ serialized msg)%list).
  { unfold unread_all, addMsg. cbn [qMqttMsg]. rewrite map_app, concat_app. cbn [map List.concat]. by rewrite Hb, app_nil_r. }
  split; [|exact Hall]. split.
  - apply Forall_app. split; [done|]. by constructor.
  - rewrite Hall, zlen_app. cbn. by rewrite Hu, Ht, i32_add.
Qed.

Lemma unread_move m n : msg_wf m -> 0 <= n < getRemainingLength m ->
  msg_wf (moveOffset n m) /\ unread m = (take (Z.to_nat n) (unread m) ++ unread (moveOffset n m))%list.
Proof.
  intros [Hl Hr] Hn. unfold getRemainingLength in Hn. split; [split; cbn; lia|].
  unfold unread, getBufferToBeCopied. cbn [fst moveOffset readOffset buffSerialized].
  rewrite Z2Nat.inj_add, <- drop_drop by lia. by rewrite take_drop.
Qed.

(** The count follows the bytes taken. *)
Lemma buffer_wf_less b q bytes : buffer_wf b -> Forall msg_wf q ->
  unread_all b = (bytes ++ List.concat (map unread q))%list ->
  buffer_wf (mkBuffer q (i32 (unreadBytes b - zlen bytes))).
Proof.
  intros [_ Hu] Hq Hall. split; [done|]. cbn [unreadBytes]. rewrite Hu, Hall, zlen_app.
  unfold Z.sub. rewrite i32_add. f_equal. unfold unread_all. cbn [qMqttMsg]. lia.
Qed.

Lemma step_copy len b : 0 <= len -> buffer_wf b ->
  exists bytes b', buffer_step (Copy len) b = Ret (bytes, b') /\ buffer_wf b'
    /\ unread_all b = (bytes ++ unread_all b')%list.
Proof.
  intros Hlen Hb. pose proof Hb as [Hf Hu]. cbn. unfold getSerialized.
  destruct (qMqttMsg b) as [|m q] eqn:Eq; [by exists [], b|]. apply Forall_cons in Hf as [Hm Hq].
  pose proof (message_length m Hm) as Hl. unfold unread in Hl.
  assert (Hall : unread_all b = (unread m ++ List.concat (map unread q))%list) by (unfold unread_all; by rewrite Eq).
  destruct (getBufferToBeCopied m) as [aux n] eqn:Em. cbn [fst] in Hl.
  assert (Hn : n = zlen aux /\ unread m = aux).
  { unfold unread. rewrite Em. split; [|done]. rewrite Hl. unfold getBufferToBeCopied in Em. by injection Em. }
  destruct Hn as [-> Hun]. destruct (Z.ltb_spec len (zlen aux)) as [Hlt|Hge].
  - rewrite read_block_ok by lia. cbn [obind]. rewrite (proj2 (Z.ltb_lt _ _)) by lia. cbn [obind fst snd].
    destruct (unread_move m len Hm) as [Hw Hs]; [rewrite <- Hl; lia|]. rewrite Hun in Hs.
    eexists _, _. split; [reflexivity|].
    assert (Hrest : unread_all b = (take (Z.to_nat len) aux ++ unread (moveOffset len m) ++ List.concat (map unread q))%list)
      by (rewrite Hall, Hun, Hs at 1; by rewrite <- app_assoc).
    split; [|exact Hrest].
    replace (unreadBytes (decreaseUnreadBytes len b))
      with (i32 (unreadBytes b - zlen (take (Z.to_nat len) aux))).
    + apply (buffer_wf_less b (moveOffset len m :: q)); [done|by constructor|exact Hrest].
    + cbn. do 2 f_equal. unfold zlen in *. rewrite length_take. lia.
  - rewrite read_block_all by done. cbn [obind]. rewrite Z.ltb_irrefl. unfold removeMsg. cbn [qMqttMsg decreaseUnreadBytes].
    rewrite Eq. cbn [obind fst snd]. eexists _, _. split; [reflexivity|].
    split; [|by rewrite Hall, Hun]. apply (buffer_wf_less b q aux); [done..|by rewrite Hall, Hun].
Qed.

Lemma step_take b : buffer_wf b ->
  exists bytes b', buffer_step TakeFirst b = Ret (bytes, b') /\ buffer_wf b'
    /\ unread_all b = (bytes ++ unread_all b')%list
    /\ qMqttMsg b' = tail (qMqttMsg b) /\ bytes = default [] (unread <$> head (qMqttMsg b)).
Proof.
  intros Hb. pose proof Hb as [Hf Hu]. cbn. unfold getFirstMqttMessage, deleteFirstMessage, removeMsg.
  destruct (qMqttMsg b) as [|m q] eqn:Eq; [cbn; exists [], b; by rewrite Eq|].
  apply Forall_cons in Hf as [Hm Hq].
  pose proof (message_length m Hm) as Hl. change (snd (getBufferToBeCopied m)) with (getRemainingLength m).
  rewrite <- Hl. cbn [default]. fold (unread m).
  rewrite (proj2 (Z.ltb_lt _ _)) by (destruct Hm; rewrite Hl; unfold getRemainingLength; lia).
  rewrite read_block_all by done. cbn [obind qMqttMsg decreaseUnreadBytes]. rewrite Eq. cbn [obind].
  eexists _, _. split; [reflexivity|].
  assert (Hall : unread_all b = (unread m ++ List.concat (map unread q))%list) by (unfold unread_all; by rewrite Eq).
  split; [|by rewrite Hall]. by apply (buffer_wf_less b q (unread m)).
Qed.

Lemma step_stream op b : op_ok op -> buffer_wf b ->
  exists bytes b', buffer_step op b = Ret (bytes, b') /\ buffer_wf b'
    /\ (unread_all b ++ arrived op)%list = (bytes ++ unread_all b')%list.
Proof.
  intros Hop Hb. destruct op as [msg|len|]; cbn [arrived]; rewrite ?app_nil_r.
  - destruct (step_arrive msg b Hop Hb) as (b' & E & Hw & Hu). exists [], b'. by rewrite Hu.
  - by apply step_copy.
  - destruct (step_take b Hb) as (bytes & b' & E & Hw & Hu & _). by exists bytes, b'.
Qed.

(** C19. The buffer is a stream of bytes: however messages arrive, pieces are copied
    out and whole messages are taken, the bytes given out, followed by those
    still there, are the bytes of the messages, each with its topic, [//] and
    its payload, in the order they came; none is lost, repeated or mixed, and
    the count of unread bytes is that of the bytes still there. *)
Theorem buffer_stream (ops : list buffer_op) (Hops : Forall op_ok ops) :
  exists bytes b, buffer_run ops new_buffer = Ret (bytes, b)
    /\ (bytes ++ unread_all b)%list = List.concat (map arrived ops)
    /\ unreadBytes b = i32 (zlen (unread_all b)).
Proof.
  enough (G : forall b, buffer_wf b -> exists bytes b', buffer_run ops b = Ret (bytes, b') /\ buffer_wf b'
    /\ (unread_all b ++ List.concat (map arrived ops))%list = (bytes ++ unread_all b')%list).
  { destruct (G new_buffer) as (bytes & b & E & [_ Hu] & Hs); [by split; [constructor|]|].
    exists bytes, b. split; [done|]. by split; [symmetry|]. }
  induction Hops as [|op ops Hop Hops IH]; intros b Hb; cbn [buffer_run map List.concat].
  - exists [], b. rewrite app_nil_r. done.
  - destruct (step_stream op b Hop Hb) as (bytes & b1 & E & Hw & Hs). rewrite E. cbn [obind fst snd].
    destruct (IH b1 Hw) as (bytes' & b' & E' & Hw' & Hs'). rewrite E'. cbn [obind fst snd].
    eexists _, _. split; [reflexivity|]. split; [done|].
    by rewrite app_assoc, Hs, <- app_assoc, Hs', app_assoc.
Qed.

Lemma buffer_stream_witness :
  let msg := mkMessage 1 "k/d/t" [52; 50] 2 in
  Forall op_ok [Arrive msg; Copy 3; Arrive msg; TakeFirst; Copy 100]
  /\ buffer_run [Arrive msg; Copy 3; Arrive msg; TakeFirst; Copy 100] new_buffer
     = Ret ((serialized msg ++ serialized msg)%list, mkBuffer [] 0)
  /\ exists bytes b, buffer_run [Arrive msg; Copy 3; Arrive msg; TakeFirst] new_buffer = Ret (bytes, b)
      /\ (bytes ++ unread_all b)%list = (serialized msg ++ serialized msg)%list.
Proof.
  intros msg.
  assert (H : Forall op_ok [Arrive msg; Copy 3; Arrive msg; TakeFirst])
    by (repeat apply Forall_cons_2; try apply Forall_nil_2; (split; [reflexivity|reflexivity]) || (cbn; lia) || exact I).
  split; [apply (Forall_app_2 _ [Arrive msg; Copy 3; Arrive msg; TakeFirst] [Copy 100]); [exact H|]; repeat constructor; cbn; lia|].
  split; [reflexivity|].
  destruct (buffer_stream _ H) as (bytes & b & E & Hs & _). exists bytes, b. split; [exact E|].
  rewrite Hs. cbn. reflexivity.
Defined.

(** ** A client for each message *)

Section Input.
  Context `{IMosquitto}.

Definition callback_ok (cb : callback) : Prop :=
  match cb with on_message (Some msg) => message_ok msg | _ => True end.

(** The bytes of the messages of some callbacks. *)
Definition delivered (cbs : list callback) : list (list Z) :=
  List.concat (map (fun cb => match cb with on_message (Some msg) => [serialized msg] | _ => [] end) cbs).

(** The callbacks add to the queue the messages they bring, and nothing else. *)
Lemma handle_callbacks_ok cbs : Forall callback_ok cbs -> forall w, buffer_wf (mqttBuffer w) ->
  exists w' ms, handle_callbacks cbs w = Ret w' /\ buffer_wf (mqttBuffer w')
    /\ qMqttMsg (mqttBuffer w') = (qMqttMsg (mqttBuffer w) ++ ms)%list /\ map unread ms = delivered cbs.
Proof.
  induction 1 as [|cb cbs Hcb Hcbs IH]; intros w Hw; cbn [handle_callbacks].
  { exists w, []. by rewrite app_nil_r. }
  assert (Hstep : exists w1 ms1, handle_callback cb w = Ret w1 /\ buffer_wf (mqttBuffer w1)
    /\ qMqttMsg (mqttBuffer w1) = (qMqttMsg (mqttBuffer w) ++ ms1)%list /\ map unread ms1 = delivered [cb]).
  { destruct cb as [rc|rc|z|[msg|]|z1 z2|z|z str|];
      try (eexists _, []; rewrite app_nil_r; split; [reflexivity|]; cbn; by repeat case_decide).
    destruct (step_arrive msg (mqttBuffer w) Hcb Hw) as (b & E & Hb & _). cbn in E |- *.
    destruct (new_msg_ok msg Hcb) as (m & Em & _ & Hu & _). rewrite Em in E |- *. cbn [obind] in E |- *.
    injection E as <-. eexists _, [m]. split; [reflexivity|]. cbn [mqttBuffer set_buffer map].
    by rewrite Hu. }
  destruct Hstep as (w1 & ms1 & E1 & H1 & Hq1 & Hd1). rewrite E1. cbn [obind].
  destruct (IH w1 H1) as (w2 & ms2 & E2 & H2 & Hq2 & Hd2). exists w2, (ms1 ++ ms2)%list.
  split; [done|]. split; [done|]. split; [by rewrite Hq2, Hq1, app_assoc|].
  rewrite map_app, Hd1, Hd2. unfold delivered. cbn. by rewrite app_nil_r.
Qed.

(** A client that holds bytes gives them all to a buffer that is long enough. *)
Lemma readClient_all k len w c : 0 <= _sid (input_of w) -> clients (input_of w) !! k = Some c ->
  context_wf c -> index_end c = 0 -> 0 < zlen (input c) <= len ->
  exists w', readClient k len w = (w', Ret (input c, zlen (input c)))
    /\ readClient k len w' = (w', Ret ([], -1)) /\ _sid (input_of w') = _sid (input_of w).
Proof.
  intros Hs Hk Hc Hi Hlen. pose proof Hc as (Hsz & _).
  assert (Ha : getAvailableInputData c = zlen (input c)) by (unfold getAvailableInputData; lia).
  assert (Hr : readPInputData (zlen (input c)) c = Ret (set_index_end (zlen (input c)) c, Some (input c))).
  { rewrite readPInputData_wf, Ha, Hi by done.
    by rewrite (proj2 (Z.ltb_lt _ _)), (proj2 (Z.leb_le _ _)) by lia. }
  destruct (validateInputData_wf (set_index_end (zlen (input c)) c) (zlen (input c))) as (c' & Ev & Hw' & Hin' & Hi' & _).
  { apply set_index_end_wf; [done|lia]. }
  { destruct (negb _); cbn; lia. }
  rewrite (proj2 (negb_true_iff _)) in Hin' by (apply Z.eqb_neq; lia). cbn [input set_index_end] in Hin'.
  rewrite drop_ge in Hin' by (unfold zlen; lia).
  eexists. split.
  - unfold readClient, sbind at 1, sget. rewrite (proj2 (Z.ltb_ge _ _)), Hk, Ha by lia.
    rewrite (proj2 (Z.ltb_lt 0 _)) by lia. rewrite (proj2 (Z.ltb_ge len _)) by lia.
    unfold sbind, slift. rewrite Hr. cbn [snd fst]. rewrite read_block_all by done. rewrite Ev. reflexivity.
  - split; [|done]. unfold readClient, sbind at 1, sget. cbn [input_of]. cbn [_sid set_input_clients clients].
    rewrite (proj2 (Z.ltb_ge _ _)), lookup_insert_eq by lia.
    destruct Hw' as (Hsz' & _). unfold getAvailableInputData. rewrite Hsz', Hin', Hi'. done.
Qed.

Lemma call_ok f w rc cbs m : f (mqttObj w) = (rc, cbs, m) -> Forall callback_ok cbs -> buffer_wf (mqttBuffer w) ->
  exists w' ms, call f w = (w', Ret rc) /\ buffer_wf (mqttBuffer w')
    /\ qMqttMsg (mqttBuffer w') = (qMqttMsg (mqttBuffer w) ++ ms)%list /\ map unread ms = delivered cbs.
Proof.
  intros Hf Hcbs Hw. destruct (handle_callbacks_ok cbs Hcbs (set_mosq m w) Hw) as (w' & ms & E & H1 & H2 & H3).
  exists w', ms. unfold call. rewrite Hf, E. done.
Qed.

Lemma first_message b m q : msg_wf m -> qMqttMsg b = m :: q ->
  getFirstMqttMessage b = (Some (unread m), zlen (unread m)).
Proof.
  intros Hm Hq. unfold getFirstMqttMessage. rewrite Hq.
  change (snd (getBufferToBeCopied m)) with (getRemainingLength m). by rewrite <- message_length.
Qed.

(** Taking the first message of a wrapper. *)
Lemma done_with_first w m q : buffer_wf (mqttBuffer w) -> qMqttMsg (mqttBuffer w) = m :: q ->
  exists w', doneWithFirstMQTTMsg w = (w', Ret tt) /\ buffer_wf (mqttBuffer w')
    /\ qMqttMsg (mqttBuffer w') = q.
Proof.
  intros Hw Hq. pose proof Hw as [Hf _]. rewrite Hq in Hf. apply Forall_cons in Hf as [Hm Hf].
  unfold doneWithFirstMQTTMsg, sbind, sget, slift. unfold deleteFirstMessage, removeMsg. rewrite Hq.
  cbn [qMqttMsg decreaseUnreadBytes]. rewrite Hq. eexists. split; [reflexivity|]. cbn [mqttBuffer set_buffer unreadBytes].
  split; [|done]. change (snd (getBufferToBeCopied m)) with (getRemainingLength m).
  rewrite <- message_length by done. apply buffer_wf_less; [done..|]. unfold unread_all. by rewrite Hq.
Qed.

(** A turn of [acceptServer] with a message to take. *)
Lemma accept_turn_first w x m q cbs obj : mapMqttClient (plugin_of w) !! _sid (input_of w) = Some x ->
  buffer_wf (mqttBuffer x) -> qMqttMsg (mqttBuffer x) = m :: q ->
  mqttLoop 0 1 (mqttObj x) = (MOSQ_ERR_SUCCESS, cbs, obj) -> Forall callback_ok cbs ->
  clients (input_of w) !! clientid (input_of w) = None ->
  exists x1 x2 c ms, buffer_wf (mqttBuffer x2) /\ qMqttMsg (mqttBuffer x2) = (q ++ ms)%list
    /\ map unread ms = delivered cbs /\ addInputData (unread m) (zlen (unread m)) new_context = Ret c
    /\ accept_turn (-1) w
       = (mkWorld (set_input_clients (i32 (clientid (input_of w) + 1))
                     (<[clientid (input_of w) := c]> (clients (input_of w))) (input_of w))
            (set_clients (<[_sid (input_of w) := x2]> (<[_sid (input_of w) := x1]> (mapMqttClient (plugin_of w))))
               (plugin_of w)), Ret (zlen (unread m), clientid (input_of w))).
Proof.
  intros Hx Hwf Hq Hloop Hcbs Hnew. pose proof Hwf as [Hm _]. rewrite Hq in Hm. apply Forall_cons in Hm as [Hm _].
  assert (Hpos : 0 < zlen (unread m))
    by (pose proof (message_length m Hm) as Hl; destruct Hm; rewrite Hl; unfold getRemainingLength; lia).
  destruct (call_ok _ x _ cbs obj Hloop Hcbs Hwf) as (x1 & ms & E1 & Hw1 & Hq1 & Hms). rewrite Hq in Hq1.
  destruct (done_with_first x1 m (q ++ ms) Hw1 Hq1) as (x2 & E2 & Hw2 & Hq2).
  destruct (addInputData_wf new_context (unread m) new_context_wf) as (c & Ec & _).
  exists x1, x2, c, ms. do 4 (split; [done|]).
  unfold accept_turn, sbind, sget. unfold in_plugin at 1, getFirstMQTTMsg, sbind, sget, findMqtt. rewrite Hx.
  unfold on_client at 1, readFromChannel, sbind. rewrite E1. cbn [Z.eqb negb MOSQ_ERR_SUCCESS].
  unfold sret at 1, getFirstMQTTMsg_w, sbind, sget, sret. rewrite (first_message _ m (q ++ ms)) by done. cbn [snd fst].
  rewrite (proj2 (Z.ltb_lt _ _)) by lia. cbn [from_option]. unfold Datatypes.id, slift. rewrite Ec.
  unfold new_client, sbind, sget, on_input, smodify, sret. cbn [input_of plugin_of clientid]. unfold insert_new.
  rewrite Hnew. unfold in_plugin, removeFirstMQTTMsg, sbind, sget, findMqtt. cbn [plugin_of mapMqttClient set_clients].
  rewrite lookup_insert_eq. unfold on_client. rewrite E2. reflexivity.
Qed.

(** [acceptServer] with a message to take: its client holds the bytes. *)
Lemma accept_first w x m q cbs obj fuel : 0 <= _sid (input_of w) -> _keepRunning (input_of w) = true ->
  mapMqttClient (plugin_of w) !! _sid (input_of w) = Some x -> buffer_wf (mqttBuffer x) ->
  qMqttMsg (mqttBuffer x) = m :: q ->
  mqttLoop 0 1 (mqttObj x) = (MOSQ_ERR_SUCCESS, cbs, obj) -> Forall callback_ok cbs ->
  clients (input_of w) !! clientid (input_of w) = None -> (2 <= fuel)%nat ->
  exists w' c x', acceptServer fuel w = Some (w', Ret (clientid (input_of w)))
    /\ clients (input_of w') !! clientid (input_of w) = Some c /\ context_wf c /\ input c = unread m
    /\ index_end c = 0 /\ _sid (input_of w') = _sid (input_of w) /\ 0 < zlen (unread m)
    /\ mapMqttClient (plugin_of w') !! _sid (input_of w) = Some x'
    /\ map unread (qMqttMsg (mqttBuffer x')) = (map unread q ++ delivered cbs)%list.
Proof.
  intros Hsid Hkeep Hx Hwf Hq Hloop Hcbs Hnew Hf.
  pose proof Hwf as [Hm _]. rewrite Hq in Hm. apply Forall_cons in Hm as [Hm _].
  assert (Hpos : 0 < zlen (unread m))
    by (pose proof (message_length m Hm) as Hl; destruct Hm; rewrite Hl; unfold getRemainingLength; lia).
  destruct (accept_turn_first w x m q cbs obj Hx Hwf Hq Hloop Hcbs Hnew)
    as (x1 & x2 & c & ms & _ & Hq2 & Hms & Ec & Et).
  destruct (addInputData_wf new_context (unread m) new_context_wf) as (c' & Ec' & Hc & Hin & Hi).
  rewrite Ec in Ec'. injection Ec' as <-. cbn [app input new_context] in Hin.
  destruct fuel as [|[|fuel]]; [lia..|]. unfold acceptServer. cbn [accept_loop].
  rewrite (proj2 (Z.leb_le _ _)), Hkeep, Et by done. cbn [Z.eqb andb]. cbn [accept_loop].
  rewrite (proj2 (Z.eqb_neq _ _)) by lia. cbn [andb].
  eexists _, c, x2. split; [reflexivity|]. split; [apply lookup_insert_eq|]. do 3 (split; [done|]).
  split; [done|]. split; [done|]. split; [apply lookup_insert_eq|]. by rewrite Hq2, map_app, Hms.
Qed.

(** A server gives the first message to a client of its own: when a message
    waits and the connection works, one turn of [acceptServer] returns the next
    identifier, whose client reads the bytes of that message, all of them and
    no others, and then nothing; the messages behind it, and those that arrive
    meanwhile, stay in the queue in order. *)
Theorem accept_reads_message (w : World) (x : ESP_MqttWrapper) (m : ESP_MqttMsg) (q : list ESP_MqttMsg)
    (cbs : list callback) (obj : mosq) (fuel : nat) (len : Z)
    (Hsid : 0 <= _sid (input_of w)) (Hkeep : _keepRunning (input_of w) = true)
    (Hx : mapMqttClient (plugin_of w) !! _sid (input_of w) = Some x) (Hwf : buffer_wf (mqttBuffer x))
    (Hq : qMqttMsg (mqttBuffer x) = m :: q)
    (Hloop : mqttLoop 0 1 (mqttObj x) = (MOSQ_ERR_SUCCESS, cbs, obj)) (Hcbs : Forall callback_ok cbs)
    (Hnew : clients (input_of w) !! clientid (input_of w) = None)
    (Hf : (2 <= fuel)%nat) (Hlen : zlen (unread m) <= len) :
  exists w' w'' x', acceptServer fuel w = Some (w', Ret (clientid (input_of w)))
    /\ readClient (clientid (input_of w)) len w' = (w'', Ret (unread m, zlen (unread m)))
    /\ readClient (clientid (input_of w)) len w'' = (w'', Ret ([], -1))
    /\ mapMqttClient (plugin_of w') !! _sid (input_of w) = Some x'
    /\ map unread (qMqttMsg (mqttBuffer x')) = (map unread q ++ delivered cbs)%list.
Proof.
  destruct (accept_first w x m q cbs obj fuel Hsid Hkeep Hx Hwf Hq Hloop Hcbs Hnew Hf)
    as (w' & c & x' & E & Hcl & Hc & Hin & Hi & Hs & Hpos & Hx' & Hms).
  destruct (readClient_all (clientid (input_of w)) len w' c) as (w2 & R1 & R2 & _);
    [by rewrite Hs|done|done|done|by rewrite Hin|].
  rewrite Hin in R1. by exists w', w2, x'.
Qed.

(** ** Reconnecting *)

Lemma callbacks_no_throw cbs w e : handle_callbacks cbs w <> Throw e.
Proof.
  revert w. induction cbs as [|cb cbs IH]; intros w E; [done|]. cbn in E.
  assert (Hcb : handle_callback cb w <> Throw e).
  { destruct cb as [| | |[msg|]| | | |]; cbn; try done. unfold new_msg, read_block.
    by destruct (_ && _). }
  destruct (handle_callback cb w) as [w1|e'|]; cbn in E; [by apply IH in E|by injection E as ->|done].
Qed.

(** A call that fails while the wrapper is connected, and of which the library
    does not say that the connection is lost, makes [doConnectHost] test a
    result that nothing gave a value to. *)
Theorem connected_loop_error (w : ESP_MqttWrapper) (rc : Z) (cbs : list callback) (obj : mosq)
    (Hrc : rc <> MOSQ_ERR_SUCCESS) (Hloop : mqttLoop 0 1 (mqttObj w) = (rc, cbs, obj))
    (Hst : forall w1, handle_callbacks cbs (set_mosq obj w) = Ret w1 -> w_status w1 = MQTT_CONNECTED) :
  snd (readFromChannel w) = Undefined.
Proof.
  unfold readFromChannel, sbind, call. rewrite Hloop.
  destruct (handle_callbacks cbs (set_mosq obj w)) as [w1|e|] eqn:E; [|by apply callbacks_no_throw in E|done].
  rewrite (proj2 (Z.eqb_neq rc _)) by done. cbn [negb]. unfold doConnectHost, sbind, sget.
  rewrite (Hst w1) by done. unfold sret at 1, call.
  destruct (mqttLoop 100 1 (mqttObj w1)) as [[rc2 cbs2] obj2].
  destruct (handle_callbacks cbs2 _) as [w2|e|] eqn:E2; [done|by apply callbacks_no_throw in E2|done].
Qed.

(** ** Publishing *)

Lemma block_string_block s : block_string (string_block s) = s.
Proof. induction s as [|c s IH]; cbn; [done|]. by rewrite byte_char_byte, IH. Qed.

(** A topic: no [//] in it, no [/] at its end, no null character. *)
Definition topic_ok (t : string) : Prop := find "//" (t ++ "/") 0 = None /\ c_str t = t.

Lemma split_serialized msg : topic_ok (topic msg) ->
  split_topic (block_string (serialized msg)) = (topic msg, block_string (payload msg)).
Proof.
  intros [Ht Hc]. unfold serialized, split_topic. rewrite Hc, !block_string_app, !block_string_block.
  change ESP_MQTT_DELIM_END with "//". rewrite (find_before "/" "/") by done. f_equal; [apply str_take_app|].
  replace (String.length (topic msg) + 2)%nat with (String.length (topic msg ++ "//")).
  - rewrite str_app_assoc. apply str_drop_app.
  - by rewrite str_length_app.
Qed.

(** What is published is what would be received: given the bytes of a message,
    as a reader of its topic gets them, a connected wrapper publishes to that
    topic the payload of that message and no other bytes, and returns the
    number of bytes it was given when the library takes it; a wrapper that is
    not connected publishes nothing and returns zero. *)
Theorem publish_what_arrives (w : ESP_MqttWrapper) (msg : mosquitto_message) (Ht : topic_ok (topic msg))
    (rest : list Z) :
  publishMaskTopic (serialized msg ++ rest) (zlen (serialized msg)) w
  = if decide (w_status w = MQTT_CONNECTED) then
      (do! res := call (mqttPublish (topic msg) (zlen (payload msg)) (block_string (payload msg)) 0 false) in
       run! call (mqttLoop 100 1) in
       sret (if res =? MOSQ_ERR_SUCCESS then zlen (serialized msg) else 0)) w
    else (w, Ret 0).
Proof.
  unfold publishMaskTopic, sbind at 1, sget. destruct (decide _) as [Hs|Hs]; [|done].
  unfold sbind at 1, slift. rewrite read_block_app.
  rewrite split_serialized by done. destruct Ht as [_ Hc]. rewrite Hc.
  replace (slen (block_string (payload msg))) with (zlen (payload msg)); [done|].
  unfold slen, zlen. f_equal. induction (payload msg) as [|z l IH]; cbn; [done|]. by rewrite <- IH.
Qed.

(** ** Brokers *)

(** The count is that of the brokers, each a process. *)
Definition brokers_wf (p : ESP_Plugin_Input_Mqtt) : Prop :=
  nBrokers p = Z.of_nat (base.size (mapMqttBroker p)) /\ nBrokers p < 2 ^ 31
  /\ map_Forall (fun _ b => 0 < pidBroker b) (mapMqttBroker p).

(** Starting brokers on ports that are free. *)
Fixpoint start_all (l : list (Z * Z)) : M ESP_Plugin_Input_Mqtt unit :=
  match l with
  | [] => sret tt
  | (port, fork) :: l => run! initBroker port fork in start_all l
  end.

Fixpoint stop_all (ports : list Z) : M ESP_Plugin_Input_Mqtt unit :=
  match ports with
  | [] => sret tt
  | port :: l => run! stopBroker port in stop_all l
  end.

Lemma start_all_wf l : Forall (fun s => 0 < snd s) l -> NoDup l.*1 -> forall p, brokers_wf p ->
  nBrokers p + zlen l < 2 ^ 31 -> (forall port, port ∈ l.*1 -> mapMqttBroker p !! port = None) ->
  exists p', start_all l p = (p', Ret tt) /\ brokers_wf p' /\ stopped p' = stopped p
    /\ nBrokers p' = nBrokers p + zlen l
    /\ forall port fork, (port, fork) ∈ l -> mapMqttBroker p' !! port = Some (mkBroker fork).
Proof.
  intros Hl Hnd. cut (forall p, brokers_wf p -> nBrokers p + zlen l < 2 ^ 31 ->
    (forall port, port ∈ l.*1 -> mapMqttBroker p !! port = None) ->
    exists p', start_all l p = (p', Ret tt) /\ brokers_wf p' /\ stopped p' = stopped p
      /\ nBrokers p' = nBrokers p + zlen l
      /\ (forall port fork, (port, fork) ∈ l -> mapMqttBroker p' !! port = Some (mkBroker fork))
      /\ forall port, port ∉ l.*1 -> mapMqttBroker p' !! port = mapMqttBroker p !! port).
  { intros G p H1 H2 H3. destruct (G p H1 H2 H3) as (p' & ? & ? & ? & ? & ? & _). by exists p'. }
  induction Hl as [|[port fork] l Hfork Hl IH]; intros p Hp Hlt Hfree.
  { exists p. change (zlen (@nil (Z * Z))) with 0. split_and!; try done; [lia|]. intros ? ? Hin. by apply elem_of_nil in Hin. }
  apply NoDup_cons in Hnd as [Hport Hnd]. pose proof Hp as (Hn & Hb & Hall). rewrite zlen_cons in Hlt.
  pose proof (zlen_nonneg l). cbn [snd] in Hfork.
  assert (Hfp : mapMqttBroker p !! port = None) by (apply Hfree; left).
  set (p1 := set_brokers (nBrokers p + 1) (<[port := mkBroker fork]> (mapMqttBroker p)) (stopped p) p).
  assert (E1 : initBroker port fork p = (p1, Ret port)).
  { unfold initBroker, sbind, sget, isBrokerRunning, findBroker. rewrite Hfp. cbn [negb]. unfold launchBroker.
    rewrite (proj2 (Z.ltb_ge fork 0)) by lia. unfold smodify, sret, insert_new. cbn. rewrite Hfp.
    rewrite i32_small by lia. reflexivity. }
  assert (Hw1 : brokers_wf p1).
  { unfold brokers_wf, p1. cbn. rewrite (map_size_insert_None (M := gmap Z)) by done.
    split_and!; [lia|lia|]. by apply map_Forall_insert_2. }
  destruct (IH Hnd p1 Hw1) as (p' & E & Hw & Hs & Hn' & Hin & Hout); [cbn; lia| |].
  { intros q Hq. unfold p1. cbn. rewrite lookup_insert_ne by (intros ->; done). apply Hfree. by right. }
  exists p'. cbn [start_all]. unfold sbind. rewrite E1, E, Hn', zlen_cons. split_and!; try done; [cbn; lia|..].
  - intros q f Hq. apply elem_of_cons in Hq as [[= -> ->]|Hq]; [|by apply Hin].
    rewrite Hout by done. apply lookup_insert_eq.
  - intros q Hq. apply not_elem_of_cons in Hq as [Hne Hq]. rewrite Hout by done. by apply lookup_insert_ne.
Qed.

(** Stopping all the brokers but one only counts them down. *)
Lemma stop_all_counts ports : forall p, zlen ports < nBrokers p < 2 ^ 31 ->
  stop_all ports p = (set_brokers (nBrokers p - zlen ports) (mapMqttBroker p) (stopped p) p, Ret tt).
Proof.
  induction ports as [|port ports IH]; intros p Hp.
  - change (zlen (@nil Z)) with 0. rewrite Z.sub_0_r. by destruct p.
  - rewrite zlen_cons in Hp. pose proof (zlen_nonneg ports). cbn [stop_all]. unfold sbind, stopBroker, smodify.
    cbn [nBrokers set_brokers]. rewrite i32_small by lia.
    rewrite (proj2 (Z.eqb_neq (nBrokers p - 1) 0)) by lia. cbn [nBrokers set_brokers].
    rewrite (proj2 (Z.ltb_ge (nBrokers p - 1) 0)) by lia.
    rewrite IH by (cbn; lia). rewrite zlen_cons.
    unfold set_brokers. cbn. do 2 f_equal; lia.
Qed.

(** Of several brokers only the last one to be stopped is: brokers started on
    different ports are counted together, so stopping each of them, in
    whatever order, signals the process of the last one alone; the processes
    of the others run on and their ports stay taken. *)
Theorem last_broker_stops (number : Z) (l : list (Z * Z)) (first : list Z) (port fork : Z)
    (Hforks : Forall (fun s => 0 < snd s) l) (Hnd : NoDup l.*1) (Hlen : zlen l < 2 ^ 31)
    (Hstops : first ++ [port] ≡ₚ l.*1) (Hlast : (port, fork) ∈ l) :
  exists p, (run! start_all l in stop_all (first ++ [port])) (new_plugin number) = (p, Ret tt)
    /\ stopped p = [fork] /\ nBrokers p = 0
    /\ mapMqttBroker p !! port = None
    /\ forall q f, (q, f) ∈ l -> q <> port -> mapMqttBroker p !! q = Some (mkBroker f).
Proof.
  destruct (start_all_wf l Hforks Hnd (new_plugin number)) as (p1 & E1 & (Hn & Hb & Hall) & Hs & Hc & Hin);
    [by split_and!; [..|apply map_Forall_empty]|done|done|]. cbn [nBrokers new_plugin] in Hc.
  assert (Hl : zlen l = zlen first + 1).
  { apply Permutation_length in Hstops. rewrite length_fmap, length_app in Hstops. cbn in Hstops. unfold zlen. lia. }
  assert (Happ : forall a p, stop_all (a ++ [port]) p = (run! stop_all a in stopBroker port) p).
  { induction a as [|q a IH]; intros p; [by unfold stop_all, sbind; cbn|]. cbn [stop_all app]. unfold sbind in *.
    destruct (stopBroker q p) as [p2 [?|?|]]; [apply IH|done..]. }
  unfold sbind at 1. rewrite E1, Happ. unfold sbind. rewrite stop_all_counts by (pose proof (zlen_nonneg first); lia).
  unfold stopBroker, smodify. cbn [nBrokers set_brokers]. replace (nBrokers p1 - zlen first - 1) with 0 by lia.
  rewrite i32_small by lia. cbn [Z.eqb]. unfold findBroker, removeBrokerFromMap. cbn [mapMqttBroker set_brokers].
  rewrite (Hin _ _ Hlast). cbn [fst nBrokers set_brokers stopped Z.ltb Z.compare]. rewrite Hs.
  assert (Hf : 0 < fork) by (rewrite Forall_forall in Hforks; exact (Hforks _ Hlast)).
  unfold stop_process. cbn [pidBroker]. rewrite (proj2 (Z.ltb_lt _ _)) by done.
  eexists. split; [reflexivity|]. cbn. split; [done|]. split; [done|]. split; [apply lookup_delete_eq|].
  intros q f Hq Hne. rewrite lookup_delete_ne by done. by apply Hin.
Qed.
End Input.

(** ** Examples *)

(** A library whose calls answer what a list says. *)
Definition next_reply (m : list (Z * list callback)) : Z * list callback * list (Z * list callback) :=
  match m with [] => (0, [], []) | (rc, cbs) :: m => (rc, cbs, m) end.

#[export] Instance scripted_mosquitto : IMosquitto := {|
  mosq := list (Z * list callback);
  mqttConnect _ _ _ := next_reply;
  mqttReconnect := next_reply;
  mqttLoop _ _ := next_reply;
  mqttPublish _ _ _ _ _ := next_reply;
  mqttSubscribe _ _ := next_reply;
  mqttUnsubscribe _ := next_reply;
  mqttDisconnect := next_reply;
  mqttSetPassword _ _ := next_reply;
  ESP_MosquittoImpl _ _ := []
|}.

Definition example_message : mosquitto_message := mkMessage 1 "k/d/t" [52; 50] 2.

Definition example_wrapper (script : list (Z * list callback)) (b : ESP_MqttBuffer) : ESP_MqttWrapper :=
  mkWrapper true true b script 1883 "localhost" "" "#" MQTT_CONNECTED.

(** A message waits, another arrives. *)
Lemma accept_reads_message_witness :
  let m := mkMqttMsg 0 (serialized example_message) 9 in
  exists w w' w'' x', acceptServer 2 w = Some (w', Ret 1)
    /\ readClient 1 100 w' = (w'', Ret (serialized example_message, 9))
    /\ mapMqttClient (plugin_of w') !! 0 = Some x'
    /\ map unread (qMqttMsg (mqttBuffer x')) = [serialized example_message].
Proof.
  intros m.
  set (x := example_wrapper [(0, [on_message (Some example_message)])] (mkBuffer [m] 9)).
  set (w := mkWorld (set_sid 0 (new_input "runner")) (set_clients {[0 := x]} (new_plugin 7))).
  destruct (@accept_reads_message _ w x m [] [on_message (Some example_message)] [] 2 100)
    as (w' & w'' & x' & H1 & H2 & _ & H3 & H4);
    [discriminate|reflexivity|reflexivity
    |split; [repeat constructor; discriminate|reflexivity]|reflexivity|reflexivity
    |repeat constructor|reflexivity|lia|discriminate|].
  exists w, w', w'', x'. split; [exact H1|]. split; [exact H2|]. split; [exact H3|exact H4].
Defined.

Lemma connected_loop_error_witness :
  let w := example_wrapper [(3, [])] new_buffer in
  snd (readFromChannel w) = Undefined.
Proof.
  intros w. apply (@connected_loop_error _ w 3 [] []).
  - discriminate.
  - reflexivity.
  - intros w1 [= <-]. reflexivity.
Defined.

Lemma publish_what_arrives_witness :
  let w := example_wrapper [(0, [])] new_buffer in
  topic_ok (topic example_message)
  /\ snd (publishMaskTopic (serialized example_message) 9 w) = Ret 9.
Proof.
  intros w. assert (H : topic_ok (topic example_message)) by (split; reflexivity). split; [exact H|].
  pose proof (@publish_what_arrives _ w example_message H []) as E. rewrite app_nil_r in E.
  change 9 with (zlen (serialized example_message)). rewrite E. reflexivity.
Defined.

Lemma last_broker_stops_witness :
  exists p, (run! start_all [(1883, 51); (1884, 52)] in stop_all [1883; 1884]) (new_plugin 7) = (p, Ret tt)
    /\ stopped p = [52] /\ mapMqttBroker p !! 1883 = Some (mkBroker 51).
Proof.
  destruct (@last_broker_stops _ 7 [(1883, 51); (1884, 52)] [1883] 1884 52) as (p & H1 & H2 & _ & _ & H3);
    [repeat constructor|apply (bool_decide_unpack _); vm_compute; exact I|reflexivity|reflexivity
    |right; left|].
  exists p. split; [exact H1|]. split; [exact H2|]. apply H3; [left|discriminate].
Defined.
