(* ===== verification/EspSensor.v ===== *)
(** * Sensors: the measures of a parser and where they go

    The postprocessors and outputs of [src/src/esp/plugins] and the runners of
    [src/src/esp/source/TDA.cpp].  A runner reads an input, runs its command on
    what it has read, has each measure formatted by the postprocessors and
    gives it to the outputs.  The postprocessors belong to the sensor: the
    runners of all its clients share them, so what is done with them is a
    sequence of steps on a shared list. *)
From stdpp Require Import base tactics list gmap strings sorting.
From Stdlib Require Import ZArith Lia Ascii String.
From S2P Require Import Prelude CppString StdMap EspStringUtils EspAttribute EspXml EspContext EspParser.

Local Open Scope string_scope.
Local Open Scope Z_scope.

(** ** Postprocessors *)

(** The fields of [ESP_Postprocessor_json] and [ESP_Postprocessor_UL20];
    [bypass] has no value unless the element says so. *)
Inductive PostKind : Type :=
| Post_json (valueRef aliasRef bypassRef bypassCmdGet : string)
| Post_UL20 (measure alias : string) (bypass : option bool) (topicRef topicValue : string)
| Post_Text.

Record ESP_Postprocessor : Type := mkPost {
  kind : PostKind;
  p_name : string;
  p_result : string;
  resultValid : bool
}.

Implicit Types p : ESP_Postprocessor.

Definition set_result (s : string) p : ESP_Postprocessor := mkPost (kind p) (p_name p) s (resultValid p).
Definition set_valid (b : bool) p : ESP_Postprocessor := mkPost (kind p) (p_name p) (p_result p) b.

(** [queryStringValue] of a child of that name, if there is one. *)
Definition child_value (element : TiXmlElement) (child attribute : string) : string :=
  match FirstChildElement element child with
  | Some e => queryStringValue e attribute
  | None => ""
  end.

(** [createPostprocessor] of the three plug-ins, and [parseElement]. *)
Definition createPostprocessor (element : TiXmlElement) : option ESP_Postprocessor :=
  let type := queryStringValue element "type" in
  let post k := Some (mkPost k (queryStringValue element "name") "" false) in
  if String.eqb type "json" then
    post (Post_json (child_value element "measure" "ref") (child_value element "alias" "ref")
            (child_value element "bypass_cmdexe" "ref") (child_value element "bypass_cmdget" "ref"))
  else if String.eqb type "ul20" then
    post (Post_UL20 (child_value element "measure" "ref") (child_value element "alias" "ref")
            (match FirstChildElement element "bypass" with Some _ => Some true | None => None end)
            (child_value element "bypass" "ref") (child_value element "bypass" "value"))
  else if String.eqb type "text" then post Post_Text
  else None.

Definition initialize p : ESP_Postprocessor :=
  match kind p with Post_Text => p | _ => set_valid false (set_result "" p) end.

Definition isResultValid p : bool :=
  match kind p with Post_Text => 0 <? slen (p_result p) | _ => resultValid p end.

Definition quote : string := String (ascii_of_nat 34) "".

(** The text of a measure: the name and the value are copied as they are. *)
Definition measure_json (name value : string) : string :=
  "{" ++ quote ++ "name" ++ quote ++ " : " ++ quote ++ name ++ quote ++ "," ++ quote ++ "type" ++ quote
  ++ ":" ++ quote ++ "string" ++ quote ++ "," ++ quote ++ "value" ++ quote ++ " : " ++ quote ++ value
  ++ quote ++ "}".

Section Sensor.
  Context `{FL : FloatLib}.

Implicit Types attributes : CC_AttributesType.

Definition execute_json valueRef aliasRef bypassRef bypassCmdGet attributes p : outcome ESP_Postprocessor :=
  match attributes !! bypassRef with
  | Some a => let! s := getValueAsString a in Ret (set_valid true (set_result s p))
  | None =>
      match attributes !! bypassCmdGet with
      | Some _ => Ret (set_valid true (set_result "" p))
      | None =>
          match attributes !! aliasRef with
          | Some it =>
              match attributes !! valueRef with
              | Some it2 =>
                  let! name := getValueAsString it in
                  let! value := getValueAsString it2 in
                  Ret (set_valid true (set_result (p_result p ++ measure_json name value) p))
              | None => Ret p
              end
          | None => Ret p
          end
      end
  end.

Definition execute_ul20 measure alias (bypass : option bool) topicRef topicValue attributes p
    : outcome ESP_Postprocessor :=
  let! bypass := match bypass with Some b => Ret b | None => Undefined end in
  let! multi :=
    if bypass : bool then
      match attributes !! topicRef with
      | Some a => let! s := getValueAsString a in Ret (String.eqb s topicValue)
      | None => Ret false
      end
    else Ret false in
  let otherwise :=
    match attributes !! alias with
    | Some a =>
        let! s := getValueAsString a in
        match attributes !! measure with
        | Some v => let! s' := getValueAsString v in Ret (set_valid true (set_result (s ++ "|" ++ s') p))
        | None => Ret (set_result (s ++ "|") p)
        end
    | None => Ret p
    end in
  if multi : bool then
    match attributes !! measure with
    | Some v => let! s := getValueAsString v in Ret (set_valid true (set_result s p))
    | None => otherwise
    end
  else otherwise.

Fixpoint text_lines (l : list (string * ESP_Attribute)) : outcome string :=
  match l with
  | [] => Ret ""
  | (_, a) :: rest =>
      let! v := getValueAsString a in
      let! s := text_lines rest in
      Ret (_name a ++ ":" ++ v ++ newline ++ s)
  end.

Definition execute_post attributes p : outcome ESP_Postprocessor :=
  match kind p with
  | Post_json valueRef aliasRef bypassRef bypassCmdGet =>
      execute_json valueRef aliasRef bypassRef bypassCmdGet attributes p
  | Post_UL20 measure alias bypass topicRef topicValue =>
      execute_ul20 measure alias bypass topicRef topicValue attributes p
  | Post_Text => let! s := text_lines (entries attributes) in Ret (set_result s p)
  end.

(** ** Outputs *)

Inductive OutputKind : Type :=
| Output_File
| Output_IoT (apikeyAttribute idDeviceAttribute typeAttribute : string).

(** The postprocessors by their position in the sensor's. *)
Record ESP_Output : Type := mkOutput { o_kind : OutputKind; o_name : string; o_posts : list nat }.

(** The positions of the postprocessors of a name. *)
Definition posts_named (posts : list ESP_Postprocessor) (name : string) : list nat :=
  List.filter (fun j => match posts !! j with Some p => String.eqb name (p_name p) | None => false end)
    (seq 0 (List.length posts)).

(** [createOutput], [parseElement] and [updateOutputPostprocessors]. *)
Definition createOutput (posts : list ESP_Postprocessor) (element : TiXmlElement) : option ESP_Output :=
  let type := queryStringValue element "type" in
  let names := elements (newTokenizer (queryStringValue element "postprocessors") "," 0) in
  let output k :=
    Some (mkOutput k (queryStringValue element "name") (List.concat (map (posts_named posts) names))) in
  if String.eqb type "file" then output Output_File
  else if String.eqb type "iot" then
    output (Output_IoT (queryStringValue element "apikeyref") (queryStringValue element "sensoridref")
              (queryStringValue element "typeref"))
  else None.

(** What a sensor does that is seen outside: the callbacks of its user, a line
    in a file, a call of [handle_mqtt_message]. *)
Inductive event : Type :=
| DataCallback (buffer : list Z) (nread : Z)
| ResultCallback (results : list CC_AttributesType)
| FileLine (filename result : string)
| MqttMessage (apikey idDevice payload type : string).

(** [searchAttributeRefByName], and the value when there is one. *)
Definition attribute_text attributes (name : string) : outcome string :=
  match searchAttributeRefByName attributes name with
  | Some a => getValueAsString a
  | None => Ret ""
  end.

(** [publisher] is whether the user data have a [contextBrokerPublisher]. *)
Definition execute_output (publisher : bool) attributes p (o : ESP_Output) : outcome (list event) :=
  match o_kind o with
  | Output_File => Ret (if isResultValid p then [FileLine (o_name o) (c_str (p_result p))] else [])
  | Output_IoT apikeyAttribute idDeviceAttribute typeAttribute =>
      let! apikey := attribute_text attributes apikeyAttribute in
      let! idDevice := attribute_text attributes idDeviceAttribute in
      let! type := attribute_text attributes typeAttribute in
      Ret (if publisher && isResultValid p then [MqttMessage apikey idDevice (c_str (p_result p)) type] else [])
  end.

(** ** What is done with a measure *)

Inductive post_step : Type :=
| PInitialize (j : nat)
| PExecute (j : nat) (attributes : CC_AttributesType)
| PResult (j : nat) (* the copy of a valid result *)
| POutput (o : ESP_Output) (j : nat) (attributes : CC_AttributesType).

(** A step on the postprocessors: what they are after it, the results copied
    and the events. *)
Definition do_step (publisher : bool) (s : post_step) (posts : list ESP_Postprocessor)
    : outcome (list ESP_Postprocessor * list ESP_Attribute * list event) :=
  let on j f := match posts !! j with Some p => f p | None => Undefined end in
  match s with
  | PInitialize j => on j (fun p => Ret (<[j := initialize p]> posts, [], []))
  | PExecute j attributes =>
      on j (fun p => let! p := execute_post attributes p in Ret (<[j := p]> posts, [], []))
  | PResult j =>
      on j (fun p =>
        if isResultValid p then
          let! a := setValue new_attribute "" (Some (c_str_block (p_result p))) (slen (p_result p))
                      ESP_DataType_STRING ESP_DataCode_STRING in
          Ret (posts, [a], [])
        else Ret (posts, [], []))
  | POutput o j attributes =>
      on j (fun p => let! e := execute_output publisher attributes p o in Ret (posts, [], e))
  end.

Fixpoint do_steps (publisher : bool) (l : list post_step) (posts : list ESP_Postprocessor)
    : outcome (list ESP_Postprocessor * list ESP_Attribute * list event) :=
  match l with
  | [] => Ret (posts, [], [])
  | s :: l =>
      let! r := do_step publisher s posts in
      let '(posts, a, e) := r in
      let! r := do_steps publisher l posts in
      let '(posts, a', e') := r in
      Ret (posts, (a ++ a')%list, (e ++ e')%list)
  end.

(** The steps of a measure, with [n] postprocessors. *)
Definition measure_steps (n : nat) (outputs : list ESP_Output) attributes : list post_step :=
  (List.concat (map (fun j => [PInitialize j; PExecute j attributes; PResult j]) (seq 0 n))
   ++ List.concat (map (fun o => map (fun j => POutput o j attributes) (o_posts o)) outputs))%list.
End Sensor.
