(* ===== verification/EspRunner.v ===== *)
(** * Runners: [ESP_Runner_Client] of [src/src/esp/source/TDA.cpp] and
    [ESPLib::executeRunner] of [src/src/esp/source/ESPLib.cpp]

    The loop of a client: read, run the command, write what it wants written,
    give each measure to the postprocessors and outputs, and stop when the
    input is closed and the command is at its end. *)
From stdpp Require Import base tactics list gmap strings sorting.
From Stdlib Require Import ZArith Lia Ascii String.
From S2P Require Import Prelude CppString StdMap EspStringUtils EspAttribute EspXml EspContext EspParser EspSensor.

Local Open Scope string_scope.
Local Open Scope Z_scope.

Definition RUNNER_MAX_BUFFER : Z := 1024 * 100.

(** [ESP_Input_Base]: the client side of an input over a state of its own. *)
Class EspInput := {
  io : Type;
  input_open : M io Z;
  input_read (id len : Z) : M io (list Z * Z);
  input_write (id : Z) (buffer : list Z) (len : Z) : M io Z;
  input_close (id : Z) : M io bool
}.

(** What a runner uses of its sensor; a preprocessor gives new data or not. *)
Record ESP_Sensor : Type := mkSensor {
  preprocessors : list (ESP_Context -> ESP_Context * option (list Z));
  outputs : list ESP_Output;
  publisher : bool
}.

Record ESP_Result : Type := mkResult {
  attresults : list CC_AttributesType;
  ppresults : list ESP_Attribute
}.

(** The first result with the name; when [remove], that result is dropped. *)
Fixpoint find_result `{FloatLib} (name : string) (remove : bool) (before l : list CC_AttributesType)
    : outcome (string * list CC_AttributesType) :=
  match l with
  | [] => Ret ("", before)
  | m :: rest =>
      match m !! name with
      | Some a =>
          let! s := getValueAsString a in
          Ret (s, (before ++ if remove then rest else m :: rest)%list)
      | None => find_result name remove (before ++ [m])%list rest
      end
  end.

Definition findInputAttributeAsString `{FloatLib} (name : string) (remove : bool) (r : ESP_Result)
    : outcome (string * ESP_Result) :=
  let! f := find_result name remove [] (attresults r) in
  Ret (fst f, mkResult (snd f) (ppresults r)).

Definition getOutputSize (r : ESP_Result) : Z := zlen (ppresults r).

(** The index is compared with a size, which has no sign. *)
Definition getOutputResultAsString `{FloatLib} (index : Z) (r : ESP_Result) : outcome string :=
  if u64 index <? zlen (ppresults r) then
    let! a := vix (ppresults r) index in getValueAsString a
  else Ret "".

Section Runner.
  Context `{FL : FloatLib} `{IN : EspInput}.

Record Runner : Type := mkRunner {
  r_io : io;
  r_id : Z;
  keepRunning : bool;
  runOnce : bool;
  command : ESP_Command;
  context : ESP_Context;
  status : ExecuteResultType;
  posts : list ESP_Postprocessor;
  events : list event;
  result : ESP_Result
}.

Implicit Types r : Runner.

Definition set_io s r : Runner :=
  mkRunner s (r_id r) (keepRunning r) (runOnce r) (command r) (context r) (status r) (posts r) (events r) (result r).
Definition set_keep b r : Runner :=
  mkRunner (r_io r) (r_id r) b (runOnce r) (command r) (context r) (status r) (posts r) (events r) (result r).
Definition set_command k r : Runner :=
  mkRunner (r_io r) (r_id r) (keepRunning r) (runOnce r) k (context r) (status r) (posts r) (events r) (result r).
Definition set_context c r : Runner :=
  mkRunner (r_io r) (r_id r) (keepRunning r) (runOnce r) (command r) c (status r) (posts r) (events r) (result r).
Definition set_status s r : Runner :=
  mkRunner (r_io r) (r_id r) (keepRunning r) (runOnce r) (command r) (context r) s (posts r) (events r) (result r).
Definition set_posts l r : Runner :=
  mkRunner (r_io r) (r_id r) (keepRunning r) (runOnce r) (command r) (context r) (status r) l (events r) (result r).
Definition add_events l r : Runner :=
  mkRunner (r_io r) (r_id r) (keepRunning r) (runOnce r) (command r) (context r) (status r) (posts r)
    (events r ++ l)%list (result r).
Definition set_result_of x r : Runner :=
  mkRunner (r_io r) (r_id r) (keepRunning r) (runOnce r) (command r) (context r) (status r) (posts r) (events r) x.

(** A call of the input. *)
Definition call_io {A} (f : M io A) r : outcome (Runner * A) :=
  let '(s, x) := f (r_io r) in let! a := x in Ret (set_io s r, a).

(** The preprocessors, each of which may replace what was read; the buffer
    holds [RUNNER_MAX_BUFFER] bytes. *)
Fixpoint preprocess (l : list (ESP_Context -> ESP_Context * option (list Z))) (buffer : list Z) (nread : Z)
    (c : ESP_Context) : outcome (list Z * Z * ESP_Context) :=
  match l with
  | [] => Ret (buffer, nread, c)
  | f :: l =>
      let '(c, data) := f c in
      match data with
      | Some b => if RUNNER_MAX_BUFFER <? zlen b then Undefined else preprocess l b (zlen b) c
      | None => preprocess l buffer nread c
      end
  end.

Definition take_input (s : ESP_Sensor) (buffer : list Z) (nread : Z) r : outcome Runner :=
  if 0 <? nread then
    let! p := preprocess (preprocessors s) buffer nread (context r) in
    let '(buffer, nread, c) := p in
    let! c := addInputData buffer nread c in
    Ret (add_events [DataCallback buffer nread] (set_context c r))
  else Ret r.

(** The command is run on the context, without the results of the last time. *)
Definition run_command (fuel : nat) r : fueled Runner :=
  fuel! k := command_run fuel (command r) (set_results [] (context r)) in
  let '(k, c, st) := k in
  let r := set_status st (set_context c (set_command k r)) in
  Some (Ret (if roe (command r)
             then set_context (set_temp ∅ (context r)) (set_command (command_reset (command r)) r)
             else r)).

Definition write_output r : outcome Runner :=
  if 0 <? getAvailableOutputData (context r) then
    let! w := call_io (input_write (r_id r) (getOutputData (context r)) (EspContext.getOutputSize (context r))) r in
    let '(r, nwrite) := w in
    if 0 <=? nwrite then
      let! c := removeOutputData nwrite (context r) in Ret (set_context c r)
    else Ret (set_keep false r)
  else Ret r.

(** The measures, one after the other. *)
Fixpoint give_measures (s : ESP_Sensor) (l : list CC_AttributesType) r : outcome Runner :=
  match l with
  | [] => Ret r
  | m :: l =>
      let! d := do_steps (publisher s) (measure_steps (List.length (posts r)) (outputs s) m) (posts r) in
      let '(ps, copies, es) := d in
      let r := add_events es (set_posts ps r) in
      let r := if runOnce r
               then set_result_of (mkResult (attresults (result r)) (ppresults (result r) ++ copies)) r
               else r in
      give_measures s l r
  end.

Definition new_results (s : ESP_Sensor) r : outcome Runner :=
  if 0 <? zlen (results (context r)) then
    let l := results (context r) in
    let r := if runOnce r
             then set_result_of (mkResult (l ++ attresults (result r)) (ppresults (result r))) r else r in
    give_measures s l (add_events [ResultCallback l] r)
  else Ret r.

Definition close_if_asked r : Runner :=
  if close (context r) then set_context (set_close false (context r)) (set_keep false r) else r.

(** Nothing was read and the command waits. *)
Definition next_step (nread : Z) r : Runner :=
  if (nread <? 0) && bool_decide (status r = EXECUTE_RESULT_IDLE) then
    if index (command r) =? 3 then set_keep false r
    else set_status EXECUTE_RESULT_OK (set_command (set_index (index (command r) + 1) (command r)) r)
  else r.

(** A turn of the loop; whether it goes on. *)
Definition runner_turn (fuel : nat) (s : ESP_Sensor) r : fueled (Runner * bool) :=
  fuel! d := Some (call_io (input_read (r_id r) RUNNER_MAX_BUFFER) r) in
  let '(r, (buffer, nread)) := d in
  if (0 <? nread) || (0 <? getAvailableOutputData (context r))
     || bool_decide (status r = EXECUTE_RESULT_OK) then
    fuel! r := Some (take_input s buffer nread r) in
    fuel! r := run_command fuel r in
    fuel! r := Some (write_output r) in
    fuel! r := Some (new_results s r) in
    Some (Ret (close_if_asked r, true))
  else Some (Ret (next_step nread r, negb (runOnce r))).

(** The loop, [n] turns of it. *)
Fixpoint runner_loop (n fuel : nat) (s : ESP_Sensor) r : fueled Runner :=
  match n with
  | O => None
  | S n =>
      if keepRunning r && (0 <=? r_id r) then
        fuel! t := runner_turn fuel s r in
        if snd t : bool then runner_loop n fuel s (fst t) else Some (Ret (fst t))
      else Some (Ret r)
  end.

(** [runLoop] of a runner with a command. *)
Definition runLoop (n fuel : nat) (s : ESP_Sensor) r : fueled Runner :=
  fuel! r := Some (if r_id r <? 0 then
                     let! o := call_io input_open r in
                     let r := fst o in
                     Ret (mkRunner (r_io r) (snd o) (keepRunning r) (runOnce r) (command r) (context r)
                            (status r) (posts r) (events r) (result r))
                   else Ret r) in
  fuel! r := runner_loop n fuel s r in
  fuel! c := Some (call_io (input_close (r_id r)) r) in
  Some (Ret (fst c)).

(** A client of a server, on the identifier it was given. *)
Definition new_runner (s : io) (id : Z) (once : bool) (k : ESP_Command) (c : ESP_Context)
    (ps : list ESP_Postprocessor) : Runner :=
  mkRunner s id true once k c EXECUTE_RESULT_OK ps [] (mkResult [] []).

(** [ESPLib::executeRunner]. *)
Definition executeRunner (n fuel : nat) (s : ESP_Sensor) (commands : gmap string TiXmlElement)
    (name : string) (args : gmap string string) (ps : list ESP_Postprocessor) (inputid : Z) (w : io)
    : fueled (ESP_Result * list event * io) :=
  fuel! k := Some (createCommand commands name) in
  match k with
  | None => Some (Ret (mkResult [] [], [], w))
  | Some k =>
      fuel! c := Some (addParams (params k) new_context) in
      fuel! c := Some (addParams args c) in
      fuel! r := runLoop n fuel s (new_runner w inputid true k c ps) in
      Some (Ret (result r, events r, r_io r))
  end.
End Runner.
