(* ===== verification/EspMqttAgent.v ===== *)
(** * From an MQTT message to the service

    The sensor of [src/src/mqtt/config/sensormqtt.xml], its MQTT input, and
    what becomes of a message: it is accepted, read by a client, parsed,
    formatted and handed to the service. *)
From stdpp Require Import base tactics list gmap strings sorting.
From Stdlib Require Import ZArith Lia Ascii String.
From S2P Require Import Prelude CppString StdMap EspStringUtils EspAttribute EspXml EspContext EspParser.
From S2P Require Import EspParserSpec EspFields EspMqtt EspMqttSpec EspSensor EspRunner.

Local Open Scope string_scope.
Local Open Scope Z_scope.

(** ** The elements of the file *)

Definition value_tag (name delim : string) : TiXmlElement :=
  tag "value" [("datatype", "string"); ("datacode", "stringdelim"); ("name", name); ("valuestring", delim)] [].

Definition slash_tag : TiXmlElement :=
  tag "constraint" [("byteoffset", "1"); ("datatype", "string"); ("valuestring", "/")] [].

Definition option_tags : list TiXmlElement :=
  [tag "option" [("operation", "equal"); ("valueref", "type"); ("valuestring", "mul20")]
     [slash_tag;
      tag "loop" [("iterations", "-1"); ("breakonempty", "true")]
        [value_tag "measurename" "|"; value_tag "measurevalue" "#"; tag "result" [] []];
      tag "clear" [] []];
   tag "option" [("valuestring", "cmd")]
     [value_tag "cmdname" "//";
      tag "loop" [("iterations", "-1"); ("breakonempty", "true")]
        [value_tag "measure_name" "|"; value_tag "measure_value" "#";
         tag "value" [("datatype", "string"); ("datacode", "string"); ("nameref", "measure_name");
                      ("valueref", "measure_value")] []]];
   tag "option" [("valuestring", "cmdget")] [slash_tag; value_tag "cmdget-payload" ""];
   tag "option" [("valuestring", "cmdexe")]
     [value_tag "cmdname-res" "//";
      tag "value" [("datatype", "string"); ("datacode", "stringdelim"); ("name", "resultcommand");
                   ("valuestring", ""); ("resetend", "true")] []];
   tag "option" []
     [slash_tag;
      Element "tat" [("type", "value"); ("datatype", "string"); ("datacode", "stringdelim");
                     ("name", "payload"); ("valuestring", "")] []]].

Definition write_value (ref : string) : TiXmlElement := tag "write" [("valueref", ref)] [].
Definition write_text (s : string) : TiXmlElement := tag "write" [("valuestring", s)] [].

Definition sensormqtt_commands : list TiXmlElement :=
  [Element "command" [("name", "sendcmd")]
     [Element "parser" []
        [tag "body" []
           [write_value "apikey"; write_text "/"; write_value "sensorid"; write_text "/cmd/";
            write_value "cmdname"; write_text "//"; write_value "cmdparams"]]];
   Element "command" [("name", "main")]
     [Element "params" [] [];
      Element "parser" []
        [tag "header" [] [];
         tag "body" []
           [value_tag "apikey" "/"; value_tag "sensorid" "/"; value_tag "type" "/";
            tag "switch" [("valueref", "type")] option_tags];
         tag "footer" [] []]]].

Definition sensormqtt_posts : list TiXmlElement :=
  [Element "postprocessor" [("type", "json"); ("name", "post-json-multi")]
     [Element "measure" [("ref", "measurevalue")] []; Element "alias" [("ref", "measurename")] [];
      Element "apikey" [("ref", "apikey")] []];
   Element "postprocessor" [("type", "json"); ("name", "post-json")]
     [Element "measure" [("ref", "payload")] []; Element "alias" [("ref", "type")] [];
      Element "apikey" [("ref", "apikey")] []; Element "bypass_cmdexe" [("ref", "resultcommand")] [];
      Element "bypass_cmdget" [("ref", "cmdget-payload")] []]].

Definition sensormqtt_output : TiXmlElement :=
  Element "output" [("type", "iot"); ("postprocessors", "post-json,post-json-multi"); ("name", "IoT");
                    ("apikeyref", "apikey"); ("sensoridref", "sensorid"); ("typeref", "type")] [].

Definition sensormqtt : TiXmlElement :=
  Element "espsensor" [("name", "dcasensor"); ("vendor", "ios")]
    [Element "postprocessors" [] sensormqtt_posts; Element "outputs" [] [sensormqtt_output];
     Element "commands" [] sensormqtt_commands].

(** ** The sensor *)

Definition mqtt_posts : list ESP_Postprocessor := omap createPostprocessor sensormqtt_posts.

Definition mqtt_sensor : ESP_Sensor :=
  mkSensor [] (option_list (createOutput mqtt_posts sensormqtt_output)) true.

Section Agent.
  Context `{FL : FloatLib} `{MQ : IMosquitto}.

(** The MQTT input, as runners see it. *)
#[export] Instance mqtt_input : EspInput := {|
  io := World;
  input_open := openClient;
  input_read := readClient;
  input_write := writeClient;
  input_close := closeClient
|}.
End Agent.
