(* ===== verification/EspMqttAgentSpec.v ===== *)
(** * What the agent does with an MQTT message

    The [main] command of the sensor run on any message of a plain type, and
    the way of a message from the queue of the input to the service. *)
From stdpp Require Import base tactics list gmap strings sorting.
From Stdlib Require Import ZArith Lia Ascii String.
From S2P Require Import Prelude CppString StdMap EspStringUtils EspAttribute EspXml EspContext EspParser.
From S2P Require Import EspParserSpec EspFields EspMqtt EspMqttSpec EspSensor EspRunner EspMqttAgent.

Local Open Scope string_scope.
Local Open Scope Z_scope.

(** ** The command *)

Definition main_command : ESP_Command := Eval vm_compute in
  match @createCommand float_zero (parseCommands sensormqtt) "main" with
  | Ret (Some k) => k
  | _ => mkCommand "" false 0 (new_tag ESP_Tag_Header "" "") (new_tag ESP_Tag_Body "" "")
           (new_tag ESP_Tag_Footer "" "") ∅
  end.

Definition main_body : TagData := data (body main_command).
Definition nth_tag (n : nat) (l : list Tag) : Tag := default (new_tag ESP_Tag_Clear "" "") (l !! n).
Definition topic_fields : list Tag := take 3 (subtags (body main_command)).
Definition switch_tag : Tag := nth_tag 3 (subtags (body main_command)).
Definition last_option : Tag := nth_tag 4 (subtags switch_tag).

Definition topic_names : list string := ["apikey"; "sensorid"; "type"].
Definition special_types : list string := ["mul20"; "cmd"; "cmdget"; "cmdexe"].

Section Main.
  Context `{FL : FloatLib}.

Lemma main_created : createCommand (parseCommands sensormqtt) "main" = Ret (Some main_command).
Proof. vm_compute. reflexivity. Qed.

Lemma main_body_eq : body main_command = mkTag main_body (topic_fields ++ [switch_tag]).
Proof. reflexivity. Qed.

Lemma topic_fields_tags : Forall2 (field_tag 47) topic_names topic_fields.
Proof. repeat (apply Forall2_cons; split; [repeat split; do 2 eexists; reflexivity|]). apply Forall2_nil_2. Qed.

Lemma topic_names_plain : Forall (fun name => find "$" name 0 = None) topic_names.
Proof. repeat constructor. Qed.

(** The option of a type that is not the one that came: it is passed over. *)
Lemma option_passed F sw path opt c z : t_class (data opt) = ESP_Tag_Option -> t_parsed (data opt) = false ->
  t_repeat (data opt) = false -> t_type sw = "switch" ->
  compareValue (searchAttributeRefByName (temp c) (t_valueref sw)) (Some (t_value (data opt))) = Ret z ->
  z <> 0 -> _datasize (t_value (data opt)) <> 0 ->
  run (S (S F)) (sw :: path) opt c
  = Some (Ret (on_data (set_parsed true) (setChildrenParsed true true opt), sw :: path, c, EXECUTE_RESULT_OK)).
Proof.
  intros Hcl Hp Hr Hsw Hz H0 Hd.
  apply (run_executed _ _ _ _ (setChildrenParsed true true opt) (sw :: path) c); [done| | |].
  - unfold execute. rewrite Hcl. unfold execute_option. rewrite Hsw, Hz. cbn [String.eqb Ascii.eqb Bool.eqb obind].
    rewrite (proj2 (Z.eqb_neq _ _) H0), (proj2 (Z.eqb_neq _ _) Hd). reflexivity.
  - destruct opt as [d l]. cbn [setChildrenParsed on_data subtags data]. apply subtags_done.
    apply Forall_forall. intros t Ht. apply list_elem_of_fmap in Ht as ([d' l'] & -> & _). done.
  - by destruct opt.
Qed.

(** The value of a field, compared with another text. *)
Lemma compare_field name f b n code : Forall is_byte f -> Forall is_byte b -> f <> b ->
  exists z, compareValue (Some (field_attribute name f))
    (Some (mkAttribute n (Some b) (zlen b) ESP_DataType_STRING code)) = Ret z /\ z <> 0.
Proof.
  intros Hf Hb Hne. destruct f as [|x f].
  - exists (-1). split; [reflexivity|done].
  - cbn [field_attribute]. rewrite compare_strings. eexists. split; [reflexivity|].
    apply Z.eqb_neq. rewrite string_compare_eq. apply String.eqb_neq. intros E.
    by apply block_string_inj in E.
Qed.


Lemma assign_field a name f : exists v, operator_assign a (field_attribute name f) = Ret v.
Proof.
  destruct f as [|x f]; [by eexists|]. unfold operator_assign. cbn [_value _datasize field_attribute].
  rewrite (proj2 (Z.ltb_lt _ _)) by (rewrite zlen_cons; pose proof (zlen_nonneg f); lia).
  rewrite read_block_all by done. by eexists.
Qed.

Lemma reset_all_parsed b t : reset (set_all_parsed b t) = reset t.
Proof.
  induction t as [d l IH] using tag_ind'. cbn. rewrite reset_data_parsed, map_map. f_equal.
  apply map_ext_in. intros t Ht. rewrite Forall_forall in IH. apply IH, list_elem_of_In. done.
Qed.

Lemma reset_passed opt : reset (on_data (set_parsed true) (setChildrenParsed true true opt)) = reset opt.
Proof.
  destruct opt as [d l]. cbn. rewrite !reset_data_parsed, map_map. f_equal.
  apply map_ext. intros t. apply reset_all_parsed.
Qed.

(** An option with a text that is not the field [f]. *)
Definition other_option (f : list Z) (opt : Tag) : Prop :=
  t_class (data opt) = ESP_Tag_Option /\ t_parsed (data opt) = false /\ t_repeat (data opt) = false
  /\ exists b n code, t_value (data opt) = mkAttribute n (Some b) (zlen b) ESP_DataType_STRING code
       /\ b <> [] /\ f <> b /\ Forall is_byte b.

Lemma options_passed F sw path c name f opts : Forall (other_option f) opts -> Forall is_byte f ->
  t_type sw = "switch" -> searchAttributeRefByName (temp c) (t_valueref sw) = Some (field_attribute name f) ->
  forall before more n, Forall (fun t => t_parsed (data t) = true) before ->
  exists opts', Forall (fun t => t_parsed (data t) = true) opts' /\ map reset opts' = map reset opts
    /\ run_subtags (run (S (S F))) (List.length opts + n) path (mkTag sw (before ++ opts ++ more)) c
       = run_subtags (run (S (S F))) n path (mkTag sw ((before ++ opts') ++ more)) c.
Proof.
  intros Ho Hf Hsw Hs. induction Ho as [|opt opts (Hcl & Hp & Hr & b & m & code & Hv & Hb & Hne & Hbb) Ho IH];
    intros before more n Hbef.
  { exists []. split; [constructor|]. split; [done|]. cbn. by rewrite app_nil_r. }
  destruct (compare_field name f b m code Hf Hbb Hne) as (z & Hz & H0).
  set (opt' := on_data (set_parsed true) (setChildrenParsed true true opt)).
  assert (Ho' : t_parsed (data opt') = true) by by destruct opt.
  destruct (IH (before ++ [opt'])%list more n) as (opts' & Hp' & Hr' & E').
  { apply Forall_app. split; [done|]. by constructor. }
  exists (opt' :: opts'). split; [by constructor|].
  split; [cbn [map]; by rewrite Hr', (reset_passed opt : reset opt' = reset opt)|]. cbn [List.length Nat.add app].
  rewrite (subtags_step _ _ sw before opt (opts ++ more) path c opt' sw path c Hbef Hp).
  - rewrite E'. by rewrite <- !app_assoc.
  - apply (option_passed F sw path opt c z); try done; [by rewrite Hs, Hv|].
    rewrite Hv. cbn. destruct b as [|x b]; [done|]. rewrite zlen_cons. pose proof (zlen_nonneg b). lia.
Qed.

(** ** What is left of the input *)

(** A tag that reads all there is. *)
Definition rest_tag (name : string) (t : Tag) : Prop :=
  subtags t = [] /\ t_class (data t) = ESP_Tag_Value /\ t_name (data t) = name
  /\ t_valueref (data t) = "" /\ t_datatype (data t) = ESP_DataType_STRING
  /\ t_datacode (data t) = ESP_DataCode_STRINGDELIM /\ t_resetend (data t) = false
  /\ t_parsed (data t) = false /\ t_repeat (data t) = false
  /\ exists n code, t_value (data t) = mkAttribute n (Some []) 0 ESP_DataType_STRING code.

Lemma execute_rest path name t f c : rest_tag name t -> find "$" name 0 = None ->
  zlen f <= ESP_PARSER_MAX_VALUE_SIZE -> context_wf c -> drop (Z.to_nat (index_end c)) (input c) = f ->
  execute path t c = Some (Ret (t, path, field_read name f (zlen f) c, EXECUTE_RESULT_OK)).
Proof.
  intros (_ & Hcl & Hn & Href & Hty & Hcode & Hre & _ & _ & n & code & Hv) Hd Hf Hc Hu.
  unfold execute. rewrite Hcl. set (c0 := saveIndex c).
  assert (Hu0 : drop (Z.to_nat (index_end c0)) (input c0) = (f ++ [])%list) by (rewrite app_nil_r; exact Hu).
  pose proof (unread_length c0 Hc) as Hl. rewrite Hu0, app_nil_r in Hl. pose proof Hc as (_ & _ & Hi & _).
  assert (E : value_data (data t) c0
    = Ret (data t, set_index_end (index_end c0 + zlen f) c0,
           if decide (f = []) then None else Some (f ++ [])%list, zlen f,
           of_pointer (if decide (f = []) then None else Some (f ++ [])%list))).
  { unfold value_data. rewrite Href, Hcode. cbn [String.eqb negb]. unfold value_delimited.
    unfold searchAttributeValue, searchAttributeValueInRange. rewrite Z.add_0_r, Hv.
    replace (Z.to_nat (input_size c0 - index_end c0 - 0)) with (List.length f)
      by (unfold getAvailableInputData, zlen in Hl; lia).
    destruct f as [|x f]; cbn [List.length search_loop].
    - cbn [obind Z.leb Z.compare]. unfold value_read. rewrite <- Hl. by rewrite (read_first c0 [] [] Hc Hu0).
    - pose proof (zlen_nonneg f). unfold getAvailableInputData in Hl. rewrite zlen_cons in Hl.
      rewrite (proj2 (Z.leb_le 0 (index_end c0))) by exact (proj1 Hi). cbn [_datasize andb _value].
      rewrite (proj2 (Z.leb_le 0 (input_size c0 - index_end c0))) by lia.
      change (same_bytes c0 (index_end c0) (Some []) 0) with (same_bytes c0 (index_end c0) (Some []) (zlen (@nil Z))).
      rewrite (same_bytes_spec c0 (index_end c0) [] Hc (proj1 Hi)) by (change (zlen (@nil Z)) with 0; lia).
      cbn [List.length take obind].
      rewrite bool_decide_eq_true_2 by done. cbn [obind]. rewrite (proj2 (Z.leb_le 0 (index_end c0))) by exact (proj1 Hi).
      cbn [Z.eqb]. unfold value_read. replace (getAvailableInputData c0) with (zlen (x :: f))
        by (unfold getAvailableInputData; rewrite zlen_cons; lia).
      rewrite (read_first c0 (x :: f) [] Hc Hu0). cbn [obind fst snd]. by rewrite Hv. }
  by rewrite (execute_value_eq path t c _ f [] _ name Hre Hty Hcode Hn Hd Hf (of_pointer_nonneg _) E).
Qed.

(** ** The last option, for any other type *)

Definition slash_of_last : Tag := nth_tag 0 (subtags last_option).
Definition payload_tag : Tag := nth_tag 1 (subtags last_option).

Lemma slash_marker : marker [47] slash_of_last.
Proof. repeat split; try done; [do 2 eexists; reflexivity|solve_bytes]. Qed.

Lemma payload_rest : rest_tag "payload" payload_tag.
Proof. repeat split; do 2 eexists; reflexivity. Qed.

(** A switch that has found no option yet. *)
Definition open_switch (f : list Z) (sw : TagData) c : Prop :=
  t_type sw = "switch" /\ t_evaluated sw = false
  /\ exists name, searchAttributeRefByName (temp c) (t_valueref sw) = Some (field_attribute name f).

Lemma last_option_taken f sw path c : open_switch f sw c ->
  execute (sw :: path) last_option c
  = Some (Ret (last_option, set_evaluated true sw :: path, c, EXECUTE_RESULT_OK)).
Proof.
  intros (Hsw & Hev & name & Hs). unfold execute. change (t_class (data last_option)) with ESP_Tag_Option.
  unfold execute_option. rewrite Hsw, Hs, Hev. cbn [String.eqb Ascii.eqb Bool.eqb].
  assert (Hz : compareValue (Some (field_attribute name f)) (Some (t_value (data last_option))) = Ret (-1))
    by by destruct f.
  by rewrite Hz.
Qed.

(** The byte behind the type, and what follows from it. *)
Definition after_type (x : Z) (p : list Z) c : ESP_Context :=
  if decide (x = 47) then field_read "payload" p (zlen p) (set_index_end (index_end c + 1) c)
  else set_index_end (index_end c + 1) c.

Definition after_type_result (x : Z) : ExecuteResultType :=
  if decide (x = 47) then EXECUTE_RESULT_OK else EXECUTE_RESULT_ERROR.

Lemma last_option_run F f sw path c x p : open_switch f sw c -> context_wf c -> is_byte x ->
  drop (Z.to_nat (index_end c)) (input c) = x :: p -> zlen p <= ESP_PARSER_MAX_VALUE_SIZE ->
  exists t', run (S (S (S (S F)))) (sw :: path) last_option c
    = Some (Ret (t', set_evaluated true sw :: path, after_type x p c, after_type_result x))
    /\ t_parsed (data t') = true /\ reset t' = reset last_option.
Proof.
  intros Hsw Hc Hx Hu Hp. set (d := set_parsed true (data last_option)).
  pose proof (execute_marker [47] (d :: set_evaluated true sw :: path) slash_of_last [x] p c slash_marker Hc
    eq_refl (List.Forall_cons _ _ _ Hx (List.Forall_nil _)) Hu) as Es.
  pose proof (last_option_taken f sw path c Hsw) as El.
  unfold after_type, after_type_result. destruct (decide (x = 47)) as [->|Hne].
  - rewrite bool_decide_eq_true_2 in Es by done.
    destruct (read_first_wf c [47] p Hc Hu) as [Hc1 Hu1].
    pose proof (execute_rest (d :: set_evaluated true sw :: path) "payload" payload_tag p
      (set_index_end (index_end c + zlen [47]) c) payload_rest eq_refl Hp Hc1 Hu1) as Er.
    exists (mkTag d [parsed_tag slash_of_last; parsed_tag payload_tag]). split; [|by split].
    eapply (run_executed _ _ last_option c _ _ _ _ _ _ _ eq_refl El); [|done].
    change (on_data (set_parsed true) last_option) with (mkTag d ([] ++ slash_of_last :: [payload_tag])).
    rewrite (subtags_step _ _ d [] slash_of_last [payload_tag] _ c _ _ _ _ (List.Forall_nil _) eq_refl
      (run_leaf _ _ slash_of_last c _ eq_refl eq_refl eq_refl Es)).
    rewrite (subtags_step _ _ d [parsed_tag slash_of_last] payload_tag [] _ _ _ _ _ _
      ltac:(by repeat constructor) eq_refl
      (run_leaf _ _ payload_tag _ _ eq_refl eq_refl eq_refl Er)).
    apply subtags_done. repeat constructor.
  - rewrite bool_decide_eq_false_2 in Es by congruence.
    exists (mkTag d [slash_of_last; payload_tag]). split; [|by split].
    eapply (run_executed _ _ last_option c _ _ _ _ _ _ _ eq_refl El); [|done].
    change (on_data (set_parsed true) last_option) with (mkTag d ([] ++ slash_of_last :: [payload_tag])).
    apply (subtags_stop _ _ d [] slash_of_last [payload_tag] _ c slash_of_last d
      (set_evaluated true sw :: path) (set_index_end (index_end c + 1) c)); [constructor|done|done|].
    apply run_stopped; [done|done|exact Es].
Qed.

(** ** The switch and the body *)

Definition plain_type (t : list Z) : Prop := t ∉ map string_block special_types.

Definition other_options : list Tag := take 4 (subtags switch_tag).

Lemma literal_option t s opt : t_class (data opt) = ESP_Tag_Option -> t_parsed (data opt) = false ->
  t_repeat (data opt) = false -> s <> "" -> t <> string_block s ->
  t_value (data opt) = mkAttribute "" (Some (string_block s)) (zlen (string_block s)) ESP_DataType_STRING
                         ESP_DataCode_STRING -> other_option t opt.
Proof.
  intros Hcl Hp Hr Hs Hne Hv. do 3 (split; [done|]). eexists _, _, _. split; [exact Hv|].
  split; [by destruct s|]. split; [done|].
  clear. induction s as [|c s IH]; constructor; [apply char_byte_range|done].
Qed.

Lemma options_other t : plain_type t -> Forall (other_option t) other_options.
Proof.
  intros Ht. unfold plain_type, special_types in Ht. cbn [map] in Ht.
  repeat (apply not_elem_of_cons in Ht as [? Ht]). clear Ht.
  let l := eval vm_compute in other_options in change other_options with l.
  apply Forall_cons_2; [by apply (literal_option t "mul20")|].
  apply Forall_cons_2; [by apply (literal_option t "cmd")|].
  apply Forall_cons_2; [by apply (literal_option t "cmdget")|].
  apply Forall_cons_2; [by apply (literal_option t "cmdexe")|]. apply Forall_nil_2.
Qed.

(** The switch keeps the value it was last asked for. *)
Definition switch_with (v : ESP_Attribute) : Tag := on_data (set_value v) switch_tag.

Lemma switch_run F path c v t x p : plain_type t ->
  Forall is_byte t -> temp c !! "type" = Some (field_attribute "type" t) -> context_wf c -> is_byte x ->
  drop (Z.to_nat (index_end c)) (input c) = x :: p -> zlen p <= ESP_PARSER_MAX_VALUE_SIZE ->
  exists t' v', run (S (S (S (S (S (S (S F))))))) path (switch_with v) c
    = Some (Ret (t', path, after_type x p c, after_type_result x))
    /\ t_parsed (data t') = true /\ reset t' = switch_with v'.
Proof.
  intros Hpl Ht Htype Hc Hx Hu Hp. destruct (assign_field v "type" t) as [v' Hv].
  set (d := set_parsed true (data (switch_with v'))).
  assert (E : execute path (switch_with v) c = Some (Ret (switch_with v', path, c, EXECUTE_RESULT_OK))).
  { unfold execute. change (t_class (data (switch_with v))) with ESP_Tag_Switch. unfold execute_switch, update_ref.
    change (t_valueref (data (switch_with v))) with "type". cbn [String.eqb negb]. unfold searchAttributeRefByName.
    rewrite Htype. change (t_value (data (switch_with v))) with v. rewrite Hv. reflexivity. }
  assert (Hopen : open_switch t d c) by (split; [reflexivity|]; split; [reflexivity|]; by exists "type").
  destruct (options_passed (S (S (S (S F)))) d path c "type" t other_options (options_other t Hpl) Ht eq_refl Htype
    [] [last_option] (S (S F)) (List.Forall_nil _)) as (opts' & Hopts & Hreset & Eo).
  destruct (last_option_run (S (S F)) t d path c x p Hopen Hc Hx Hu Hp) as (t' & El & Hp' & Hreset').
  assert (Es : run_subtags (run (S (S (S (S (S (S F))))))) (S (S (S (S (S (S F)))))) path
      (on_data (set_parsed true) (switch_with v')) c
    = Some (Ret (mkTag (set_evaluated true d) (opts' ++ [t']), path, after_type x p c, after_type_result x))).
  { change (on_data (set_parsed true) (switch_with v')) with (mkTag d ([] ++ other_options ++ [last_option])).
    change (S (S (S (S (S (S F)))))) with (List.length other_options + S (S F))%nat at 2.
    rewrite Eo. cbn [app]. unfold after_type_result in *. destruct (decide (x = 47)) as [Hx47|Hx47].
    - rewrite (subtags_step _ _ d opts' last_option [] path c t' (set_evaluated true d) path _ Hopts eq_refl El).
      rewrite app_nil_r. apply subtags_done. apply Forall_app. split; [done|]. by repeat constructor.
    - by apply (subtags_stop _ _ d opts' last_option [] path c t' (set_evaluated true d) path). }
  exists (mkTag (set_evaluated true d) (opts' ++ [t'])), v'. split; [|split; [done|]].
  - by apply (run_executed _ _ (switch_with v) c _ _ _ _ _ _ _ eq_refl E Es).
  - cbn [reset]. rewrite map_app, Hreset. cbn [map]. rewrite Hreset'. reflexivity.
Qed.

(** The body, whose switch keeps a value. *)
Definition body_with (v : ESP_Attribute) : Tag := mkTag main_body (topic_fields ++ [switch_with v]).

(** The body on a text of three fields with more behind it. *)
Lemma main_run F v k d t x p c : Forall (plain_field 47) [k; d; t] -> plain_type t -> Forall is_byte t ->
  context_wf c -> is_byte x -> zlen p <= ESP_PARSER_MAX_VALUE_SIZE ->
  drop (Z.to_nat (index_end c)) (input c) = (closed_fields 47 [k; d; t] ++ x :: p)%list ->
  exists t' v' c1, run_tree (S (S (S (S (S (S (S (S F)))))))) (body_with v) c
      = Some (Ret (t', after_type x p c1, after_type_result x))
    /\ read_up_to topic_names [k; d; t] (x :: p) c c1 /\ t_loop (data t') = false
    /\ reset t' = body_with v'.
Proof.
  intros Hfs Hpl Ht Hc Hx Hp Hu. set (bd := set_parsed true main_body).
  destruct (run_prefix 47 (S (S (S (S (S F))))) topic_names topic_fields topic_fields_tags topic_names_plain
    [k; d; t] [] bd [] c (S (S (S (S F)))) [switch_with v] (x :: p) eq_refl Hfs (List.Forall_nil _) Hc Hu)
    as (c1 & E & Hr). pose proof Hr as (Hw & Hi & Hd & _ & Htemp & _).
  assert (Hty : temp c1 !! "type" = Some (field_attribute "type" t)).
  { rewrite Htemp. apply (insert_fields_lookup topic_names [k; d; t] _ 2); [|done..].
    apply (bool_decide_unpack _). vm_compute. exact I. }
  destruct (switch_run F [bd] c1 v t x p Hpl Ht Hty Hw Hx Hd Hp) as (t' & v' & Es & Hpt & Hreset).
  set (before := map parsed_tag topic_fields).
  assert (Hbef : Forall (fun t => t_parsed (data t) = true) before) by (repeat constructor).
  exists (mkTag bd (before ++ [t'])), v', c1.
  split; [|by (split; [done|]; split; [done|]; cbn [reset]; rewrite map_app; cbn [map]; rewrite Hreset)].
  unfold run_tree, body_with.
  rewrite (run_body _ [] main_body _ c (mkTag bd (before ++ [t'])) [] (after_type x p c1) (after_type_result x));
    [done|done|done| |done].
  assert (E2 : run_subtags (run (S (S (S (S (S (S (S F)))))))) (S (S (S (S (S (S (S F))))))) []
      (mkTag bd (topic_fields ++ [switch_with v])) c
    = run_subtags (run (S (S (S (S (S (S (S F)))))))) (S (S (S (S F)))) [] (mkTag bd (before ++ [switch_with v])) c1)
    by exact E.
  fold bd. rewrite E2. unfold after_type_result in *. destruct (decide (x = 47)) as [Hx47|Hx47].
  - rewrite (subtags_step _ _ bd before (switch_with v) [] [] c1 t' bd [] _ Hbef eq_refl Es).
    rewrite app_nil_r. apply subtags_done. apply Forall_app. split; [done|]. by repeat constructor.
  - by apply (subtags_stop _ _ bd before (switch_with v) [] [] c1 t' bd []).
Qed.

(** ** The command on a message *)

(** A context with nothing parsed. *)
Definition fresh (b : list Z) (rs : list CC_AttributesType) c : Prop :=
  context_wf c /\ input c = b /\ index_end c = 0 /\ temp c = ∅ /\ results c = rs /\ output c = []
  /\ close c = false.

(** The command at its body, whose switch may keep a value, and after it. *)
Definition at_main (v : ESP_Attribute) (q : ESP_Command) : Prop :=
  index q = 1 /\ body q = body_with v /\ footer q = footer main_command /\ roe q = false.
Definition after_main (q : ESP_Command) : Prop :=
  index q = 2 /\ footer q = footer main_command /\ roe q = false.

(** The measure of a message. *)
Definition main_measure (k d t p : list Z) : CC_AttributesType :=
  insert_fields ["apikey"; "sensorid"; "type"; "payload"] [k; d; t; p] ∅.

Lemma main_measure_published k d t p : map_Forall (fun _ a => published a) (main_measure k d t p).
Proof.
  apply insert_fields_published; [|apply map_Forall_empty]. repeat (apply Forall_cons_2; [by split|]).
  apply Forall_nil_2.
Qed.

Lemma main_measure_name k d t p i name f : ["apikey"; "sensorid"; "type"; "payload"] !! i = Some name ->
  [k; d; t; p] !! i = Some f -> main_measure k d t p !! name = Some (field_attribute name f).
Proof. apply insert_fields_lookup. apply (bool_decide_unpack _). vm_compute. exact I. Qed.

Lemma main_measure_other k d t p name : name ∉ ["apikey"; "sensorid"; "type"; "payload"] ->
  main_measure k d t p !! name = None.
Proof. intros Hn. unfold main_measure. by rewrite insert_fields_other. Qed.

(** The bytes of a message that the command takes for one of [k], [d], [t]. *)
Definition main_text (k d t p : list Z) : list Z := (closed_fields 47 [k; d; t] ++ 47 :: p)%list.

Definition message_fields (k d t p : list Z) : Prop :=
  Forall (plain_field 47) [k; d; t] /\ plain_type t /\ Forall is_byte t
  /\ zlen p <= ESP_PARSER_MAX_VALUE_SIZE.

Lemma fresh_text b rs c : fresh b rs c -> drop (Z.to_nat (index_end c)) (input c) = b.
Proof. by intros (_ & -> & -> & _). Qed.

(** The message gives its measure. *)
Lemma main_message F v q k d t p rs c : at_main v q -> message_fields k d t p ->
  fresh (main_text k d t p) rs c ->
  exists q' c', command_run (S (S (S (S (S (S (S (S (S F))))))))) q c = Some (Ret (q', c', EXECUTE_RESULT_OK))
    /\ after_main q' /\ fresh [] (rs ++ [main_measure k d t p]) c'.
Proof.
  intros (Hq & Hb & Hfoot & Hroe) (Hfs & Hpl & Ht & Hp) Hc. pose proof Hc as (Hw & _ & _ & Htemp & Hrs & Ho & Hcl).
  destruct (main_run F v k d t 47 p c Hfs Hpl Ht Hw) as (t' & v' & c1 & E & (Hw1 & Hi1 & Hd1 & Hr1 & Ht1 & Ho1 & Hcl1) & Hloop & _);
    [done|done|by rewrite (fresh_text _ _ _ Hc)|].
  rewrite <- Hb in E. rewrite (command_run_body _ _ _ _ _ Hq E).
  unfold after_type. rewrite decide_True by done.
  set (c2 := field_read "payload" p (zlen p) (set_index_end (index_end c1 + 1) c1)).
  destruct (read_first_wf c1 [47] p Hw1 Hd1) as [Hw2 Hd2].
  pose proof (unread_length _ Hw2) as Hl. cbn [index_end input set_index_end] in Hl.
  change (zlen [47]) with 1 in *. rewrite Hd2 in Hl.
  assert (Hw3 : context_wf c2) by (apply field_read_wf; [done|pose proof (zlen_nonneg p); lia]).
  assert (He3 : index_end c2 = input_size c2) by (unfold getAvailableInputData in Hl; cbn in Hl |- *; lia).
  assert (Htemp3 : temp c2 = main_measure k d t p) by (cbn; by rewrite Ht1, Htemp).
  unfold new_data. rewrite Hloop.
  destruct (validateInputData_wf c2 0 Hw3) as (c3 & Ev & Hw4 & Hi4 & He4 & Ht4 & Hr4 & Ho4 & Hcl4);
    [cbn [Z.eqb negb]; destruct Hw3 as (_ & _ & H & _); lia|].
  rewrite Ev. cbn [obind]. rewrite addResultData_all.
  - cbn [obind fst]. eexists _, _. split; [reflexivity|]. split; [split; [cbn; lia|by split]|].
    split; [exact Hw4|]. cbn. rewrite Hi4, Hr4, Ht4, Htemp3, Ho4, Hcl4. cbn. rewrite Hr1, Hrs, Ho1, Ho, Hcl1, Hcl.
    split; [|by split]. apply drop_ge. destruct Hw3 as (Hs & _). cbn in He3, Hs. unfold zlen in Hs. lia.
  - rewrite Ht4, Htemp3. apply main_measure_published.
  - rewrite Ht4, Htemp3. intros H0. pose proof (main_measure_name k d t p 0 "apikey" k eq_refl eq_refl) as Ha.
    by rewrite H0 in Ha.
Qed.

(** Other bytes behind the third field: a byte is left behind. *)
Lemma main_skip F v q f1 f2 f3 x rest b s rs c : at_main v q ->
  Forall (plain_field 47) [f1; f2; f3] -> plain_type f3 -> Forall is_byte f3 -> is_byte x -> x <> 47 ->
  zlen rest <= ESP_PARSER_MAX_VALUE_SIZE ->
  (b :: s = closed_fields 47 [f1; f2; f3] ++ x :: rest)%list -> fresh (b :: s) rs c ->
  exists v' q' c', at_main v' q' /\ fresh s rs c'
    /\ command_run (S (S (S (S (S (S (S (S (S F))))))))) q c = command_run (S (S (S (S (S (S (S (S F)))))))) q' c'.
Proof.
  intros (Hq & Hb & Hfoot & Hroe) Hfs Hpl Ht Hx Hne Hrest Hbs Hc.
  pose proof Hc as (Hw & Hin & _ & _ & Hrs & Ho & Hcl).
  destruct (main_run F v f1 f2 f3 x rest c Hfs Hpl Ht Hw Hx Hrest) as
    (t' & v' & c1 & E & (Hw1 & Hi1 & Hd1 & Hr1 & _ & Ho1 & Hcl1) & _ & Hreset);
    [by rewrite (fresh_text _ _ _ Hc)|].
  unfold after_type, after_type_result in E. rewrite !decide_False in E by done. rewrite <- Hb in E.
  set (c2 := set_index_end (index_end c1 + 1) c1) in *.
  assert (Hw2 : context_wf c2).
  { apply set_index_end_wf; [done|]. pose proof (unread_length _ Hw1) as Hl. rewrite Hd1, zlen_cons in Hl.
    unfold getAvailableInputData in Hl. pose proof (zlen_nonneg rest). destruct Hw1 as (_ & _ & Hx1 & _). lia. }
  assert (Hin2 : input c2 = b :: s) by (cbn; by rewrite Hi1, Hin).
  destruct (validateInputData_wf c2 1 Hw2) as (c3 & Ev & Hw3 & Hi3 & He3 & _ & Hr3 & Ho3 & Hcl3).
  { cbn [Z.eqb negb]. destruct Hw2 as (-> & _). rewrite Hin2, zlen_cons. pose proof (zlen_nonneg s). lia. }
  exists v', (set_index 1 (command_reset (set_body t' q))), (set_temp ∅ c3). split; [|split].
  - unfold at_main. cbn. rewrite Hfoot, Hroe, Hreset. by split_and!.
  - split; [exact Hw3|]. cbn. rewrite Hi3, He3, Hr3, Ho3, Hcl3. cbn [Z.eqb negb]. rewrite Hin2. cbn.
    rewrite Hr1, Hrs, Ho1, Ho, Hcl1, Hcl. by split_and!.
  - rewrite (command_run_error _ _ _ _ _ Hq E). unfold skip_byte. rewrite Ev. reflexivity.
Qed.

(** A topic with one more level before: the level is left behind, byte by byte,
    and the rest is parsed as a message of its own. *)
Lemma main_extra_level F a k d t p rs : Forall is_byte t -> t <> [] -> message_fields k d t p ->
  plain_field 47 a -> plain_type d -> Forall is_byte d ->
  zlen (main_text k d t p) <= ESP_PARSER_MAX_VALUE_SIZE ->
  forall v q c, at_main v q -> fresh (a ++ 47 :: main_text k d t p) rs c ->
  exists q' c', command_run (S (List.length a) + (S (S (S (S (S (S (S (S (S F)))))))))) q c
      = Some (Ret (q', c', EXECUTE_RESULT_OK))
    /\ after_main q' /\ fresh [] (rs ++ [main_measure k d t p]) c'.
Proof.
  intros Ht Hne Hm Ha Hd Hdb Hlen.
  destruct t as [|x t]; [done|]. pose proof Ht as Htb. apply Forall_cons in Htb as [Hx Htb].
  pose proof Hm as (Hfs & _ & _ & Hp).
  apply Forall_cons in Hfs as [Hk Hfs]. apply Forall_cons in Hfs as [Hd' Hfs]. apply Forall_cons in Hfs as [Ht' _].
  assert (Hx47 : x <> 47) by (intros ->; destruct Ht' as [Ht' _]; apply Ht'; left).
  assert (Htext : forall f, (f ++ 47 :: main_text k d (x :: t) p
    = closed_fields 47 [f; k; d] ++ x :: t ++ 47 :: 47 :: p)%list).
  { intros f. unfold main_text, closed_fields. cbn. repeat (rewrite <- !app_assoc; cbn). done. }
  assert (Hrest : zlen (t ++ 47 :: 47 :: p) <= ESP_PARSER_MAX_VALUE_SIZE).
  { assert (Hl : zlen (main_text k d (x :: t) p) = zlen k + zlen d + zlen t + zlen p + 5).
    { unfold main_text, closed_fields. cbn. repeat rewrite ?zlen_app, ?zlen_cons.
      change (zlen (@nil Z)) with 0. lia. }
    rewrite Hl in Hlen. rewrite zlen_app, !zlen_cons. pose proof (zlen_nonneg k). pose proof (zlen_nonneg d).
    lia. }
  induction a as [|y a IH]; intros v q c Hq Hc; cbn [List.length Nat.add].
  - destruct (main_skip (S F) v q [] k d x (t ++ 47 :: 47 :: p) 47 (main_text k d (x :: t) p) rs c Hq)
      as (v' & q' & c' & Hq' & Hc' & ->); [|done|done|done|done|done|by rewrite <- Htext|exact Hc|].
    { repeat (apply Forall_cons_2; [done|]). apply Forall_nil_2. }
    by apply (main_message F v' q' k d (x :: t) p rs c').
  - destruct Ha as [Hy Ha]. apply not_elem_of_cons in Hy as [Hy Hya]. rewrite zlen_cons in Ha.
    destruct (main_skip (S (List.length a + S F)) v q (y :: a) k d x (t ++ 47 :: 47 :: p) y
      (a ++ 47 :: main_text k d (x :: t) p) rs c Hq) as (v' & q' & c' & Hq' & Hc' & E);
      [|done|done|done|done|done|by rewrite <- Htext|exact Hc|].
    { apply Forall_cons_2; [|repeat (apply Forall_cons_2; [done|]); apply Forall_nil_2].
      split; [by apply not_elem_of_cons|by rewrite zlen_cons]. }
    destruct (IH ltac:(split; [done|lia]) v' q' c' Hq' Hc') as (q2 & c2 & E2 & H2).
    exists q2, c2. split; [|done]. rewrite <- E2.
    replace (S (S (List.length a + S (S (S (S (S (S (S (S (S F)))))))))))%nat
      with (S (S (S (S (S (S (S (S (S (S (List.length a + S F)))))))))))%nat by lia.
    rewrite E. f_equal; lia.
Qed.

(** The header before the body, and the footer after it. *)
Lemma command_run_header F q c t c1 : index q = 0 ->
  run_tree F (header q) c = Some (Ret (t, c1, EXECUTE_RESULT_OK)) ->
  command_run (S F) q c = command_run F (set_index (index q + 1) (set_header t q)) c1.
Proof. intros Hi Ht. cbn [command_run]. rewrite Hi. cbn [Z.eqb]. rewrite Ht. cbn [fbind]. by rewrite <- Hi. Qed.

Lemma command_run_footer F q c t c1 : index q = 2 ->
  run_tree F (footer q) c = Some (Ret (t, c1, EXECUTE_RESULT_OK)) ->
  command_run (S F) q c = command_run F (set_index (index q + 1) (set_footer t q)) c1.
Proof. intros Hi Ht. cbn [command_run]. rewrite Hi. cbn [Z.eqb Pos.eqb]. rewrite Ht. cbn [fbind]. by rewrite <- Hi. Qed.

Lemma command_run_finished F q c : index q = 3 ->
  command_run (S F) q c = Some (Ret (q, c, EXECUTE_RESULT_IDLE)).
Proof. intros Hi. cbn [command_run]. rewrite Hi. reflexivity. Qed.

Lemma main_header F c : exists v q, at_main v q
  /\ command_run (S (S (S F))) main_command c = command_run (S (S F)) q c.
Proof.
  exists (t_value (data switch_tag)), (set_index 1 (set_header (parsed_tag (header main_command)) main_command)).
  split; [by split_and!|].
  exact (command_run_header (S (S F)) main_command c (parsed_tag (header main_command)) c eq_refl eq_refl).
Qed.

Lemma main_footer F q c : after_main q ->
  exists q', command_run (S (S (S F))) q c = Some (Ret (q', c, EXECUTE_RESULT_IDLE))
    /\ index q' = 3 /\ roe q' = false.
Proof.
  intros (Hi & Hf & Hr). exists (set_index (index q + 1) (set_footer (parsed_tag (footer main_command)) q)).
  split; [|split; [cbn; lia|done]].
  rewrite (command_run_footer _ _ _ (parsed_tag (footer main_command)) c Hi) by by rewrite Hf.
  apply command_run_finished. cbn. lia.
Qed.
End Main.

(** ** The runner of a client *)

Section Client.
  Context `{FL : FloatLib} `{MQ : IMosquitto}.

(** The command makes one measure of these bytes. *)
Definition parses_to (F : nat) (b : list Z) (m : CC_AttributesType) : Prop :=
  forall v q c, at_main v q -> fresh b [] c ->
    exists q' c', command_run F q c = Some (Ret (q', c', EXECUTE_RESULT_OK))
      /\ after_main q' /\ fresh [] [m] c'.

Lemma add_new b : 0 < zlen b -> addInputData b (zlen b) new_context = Ret (set_input b (zlen b) new_context).
Proof.
  intros Hb. unfold addInputData. rewrite (proj2 (Z.ltb_lt _ _)), read_block_all by done. reflexivity.
Qed.

Lemma fresh_new b : fresh b [] (set_results [] (set_input b (zlen b) new_context)).
Proof. pose proof (zlen_nonneg b). split; [repeat split; cbn; (done || lia)|by split_and!]. Qed.

Lemma write_nothing (r : Runner) : context_wf (context r) -> output (context r) = [] -> write_output r = Ret r.
Proof.
  intros (_ & _ & _ & Hs) Ho. unfold write_output, getAvailableOutputData. by rewrite Hs, Ho.
Qed.

Lemma no_results s (r : Runner) : results (context r) = [] -> new_results s r = Ret r.
Proof. intros Hr. unfold new_results. by rewrite Hr. Qed.

(** The first turn: the bytes are read and their measure is given. *)
Lemma first_turn F w w1 id b m ps copies es : (2 <= F)%nat -> 0 < zlen b -> parses_to F b m ->
  readClient id RUNNER_MAX_BUFFER w = (w1, Ret (b, zlen b)) ->
  do_steps true (measure_steps 2 (outputs mqtt_sensor) m) mqtt_posts = Ret (ps, copies, es) ->
  exists q c, after_main q /\ fresh [] [m] c
    /\ runner_turn (S F) mqtt_sensor (new_runner w id false main_command new_context mqtt_posts)
       = Some (Ret (mkRunner w1 id true false q c EXECUTE_RESULT_OK ps
                      (DataCallback b (zlen b) :: ResultCallback [m] :: es) (mkResult [] []), true)).
Proof.
  intros HF Hb Hparse Hread Hsteps.
  destruct F as [|[|F]]; [lia..|].
  destruct (main_header F (set_results [] (set_input b (zlen b) new_context))) as (v & q & Hq & Eh).
  destruct (Hparse v q _ Hq (fresh_new b)) as (q' & c' & E & Hq' & Hc'). rewrite <- Eh in E.
  exists q', c'. split; [done|]. split; [done|].
  unfold runner_turn, call_io. cbn [r_id r_io new_runner input_read mqtt_input]. rewrite Hread. cbn [obind fbind].
  rewrite (proj2 (Z.ltb_lt _ _) Hb). cbn [orb]. unfold take_input. rewrite (proj2 (Z.ltb_lt _ _) Hb).
  cbn [preprocessors mqtt_sensor preprocess obind context set_io new_runner]. rewrite add_new by done.
  cbn [obind fbind]. unfold run_command. cbn [command context add_events set_context set_io new_runner].
  rewrite E. cbn [fbind]. destruct Hq' as (_ & _ & Hroe).
  cbn [command set_status set_context set_command]. rewrite Hroe. cbn [fbind].
  destruct Hc' as (Hw & Hin & Hi & Ht & Hr & Ho & Hcl). rewrite write_nothing by done. cbn [fbind].
  unfold new_results. cbn [context set_status set_context set_command]. rewrite Hr.
  change (0 <? zlen [m]) with true. cbn [runOnce set_status set_context set_command add_events set_io new_runner].
  unfold give_measures. cbn [posts add_events set_status set_context set_command set_io new_runner].
  change (List.length mqtt_posts) with 2%nat. change (publisher mqtt_sensor) with true. rewrite Hsteps.
  cbn [obind fbind runOnce add_events set_posts set_status set_context set_command set_io new_runner].
  unfold close_if_asked. cbn [context add_events set_posts set_status set_context set_command set_io]. rewrite Hcl.
  reflexivity.
Qed.

(** A turn in which nothing is read and the command ends. *)
Lemma idle_turn F (r : Runner) q : readClient (r_id r) RUNNER_MAX_BUFFER (r_io r) = (r_io r, Ret ([], -1)) ->
  status r = EXECUTE_RESULT_OK -> context_wf (context r) -> output (context r) = [] -> close (context r) = false ->
  command_run F (command r) (set_results [] (context r))
    = Some (Ret (q, set_results [] (context r), EXECUTE_RESULT_IDLE)) -> roe q = false ->
  runner_turn F mqtt_sensor r
  = Some (Ret (set_status EXECUTE_RESULT_IDLE (set_context (set_results [] (context r)) (set_command q r)), true)).
Proof.
  intros Hread Hst Hw Ho Hcl E Hroe.
  unfold runner_turn, call_io. cbn [input_read mqtt_input]. rewrite Hread. cbn [obind fbind].
  change (0 <? -1) with false. cbn [status set_io context]. rewrite Hst, bool_decide_eq_true_2, orb_true_r by done.
  unfold take_input. change (0 <? -1) with false. cbn [fbind]. unfold run_command. cbn [command context set_io].
  rewrite E. cbn [fbind]. cbn [command set_status set_context set_command]. rewrite Hroe. cbn [fbind].
  rewrite write_nothing by done. cbn [fbind]. rewrite no_results by done. cbn [fbind].
  unfold close_if_asked. cbn [context set_status set_context set_command set_io close set_results]. rewrite Hcl.
  by destruct r.
Qed.

(** The second: nothing is read, and the command ends. *)
Lemma second_turn F (r : Runner) : (3 <= F)%nat -> readClient (r_id r) RUNNER_MAX_BUFFER (r_io r) = (r_io r, Ret ([], -1)) ->
  status r = EXECUTE_RESULT_OK -> after_main (command r) -> (exists m, fresh [] [m] (context r)) ->
  exists q c, index q = 3 /\ output_size c = 0 /\ close c = false
    /\ runner_turn F mqtt_sensor r
       = Some (Ret (set_status EXECUTE_RESULT_IDLE (set_context c (set_command q r)), true)).
Proof.
  intros HF Hread Hst Hq [m Hc]. destruct F as [|[|[|F]]]; [lia..|].
  destruct Hc as (Hw & _ & _ & _ & _ & Ho & Hcl).
  destruct (main_footer F (command r) (set_results [] (context r)) Hq) as (q' & E & Hq' & Hroe).
  exists q', (set_results [] (context r)). split; [done|].
  split; [cbn; destruct Hw as (_ & _ & _ & Hs); by rewrite Hs, Ho|]. split; [done|].
  by apply idle_turn.
Qed.

(** The third: the command is at its end, and so is the loop. *)
Lemma third_turn F (r : Runner) : readClient (r_id r) RUNNER_MAX_BUFFER (r_io r) = (r_io r, Ret ([], -1)) ->
  status r = EXECUTE_RESULT_IDLE -> index (command r) = 3 -> output_size (context r) = 0 ->
  runner_turn F mqtt_sensor r = Some (Ret (set_keep false r, negb (runOnce r))).
Proof.
  intros Hread Hst Hq Ho. unfold runner_turn, call_io. cbn [input_read mqtt_input]. rewrite Hread.
  cbn [obind fbind]. change (0 <? -1) with false. cbn [status set_io context]. unfold getAvailableOutputData.
  rewrite Hst, Ho. cbn [Z.ltb Z.compare orb]. rewrite bool_decide_eq_false_2 by done.
  unfold next_step. cbn [status set_io command]. rewrite Hst, Hq. cbn. by destruct r.
Qed.

(** The runner of a client that holds the bytes of one message. *)
Lemma client_runs F b m ps copies es w id c : (3 <= F)%nat -> parses_to F b m ->
  do_steps true (measure_steps 2 (outputs mqtt_sensor) m) mqtt_posts = Ret (ps, copies, es) ->
  0 <= id -> 0 <= _sid (input_of w) -> clients (input_of w) !! id = Some c -> context_wf c -> index_end c = 0 ->
  input c = b -> 0 < zlen b <= RUNNER_MAX_BUFFER ->
  exists r, runLoop 4 (S F) mqtt_sensor (new_runner w id false main_command new_context mqtt_posts) = Some (Ret r)
    /\ events r = DataCallback b (zlen b) :: ResultCallback [m] :: es
    /\ clients (input_of (r_io r)) !! id = None.
Proof.
  intros HF Hparse Hsteps Hid Hsid Hcl Hw Hi Hin Hb. subst b.
  destruct (readClient_all id RUNNER_MAX_BUFFER w c Hsid Hcl Hw Hi Hb) as (w1 & R1 & R2 & Hs1).
  destruct (first_turn F w w1 id (input c) m ps copies es) as (q & c1 & Hq & Hc1 & E1); [lia|lia|done|done|done|].
  destruct (second_turn (S F) (mkRunner (IN := mqtt_input) w1 id true false q c1 EXECUTE_RESULT_OK ps
      (DataCallback (input c) (zlen (input c)) :: ResultCallback [m] :: es) (mkResult [] [])))
    as (q2 & c2 & Hq2 & Ho2 & Hcl2 & E2); [lia|exact R2|done|done|by exists m|].
  assert (E3 : forall r, runner_turn (S F) mqtt_sensor r = Some (Ret (set_keep false r, true)) ->
    keepRunning r = true -> 0 <= r_id r ->
    runner_loop 2 (S F) mqtt_sensor r = Some (Ret (set_keep false r))).
  { intros r E Hk Hr. cbn [runner_loop]. rewrite Hk, (proj2 (Z.leb_le _ _) Hr), E. done. }
  unfold runLoop. cbn [r_id new_runner]. rewrite (proj2 (Z.ltb_ge _ _)) by lia. cbn [fbind].
  assert (Hloop : forall n r r', runner_turn (S F) mqtt_sensor r = Some (Ret (r', true)) ->
    keepRunning r = true -> r_id r = id -> runner_loop (S n) (S F) mqtt_sensor r = runner_loop n (S F) mqtt_sensor r').
  { intros n r r' E Hk Hr. cbn [runner_loop]. by rewrite Hk, Hr, (proj2 (Z.leb_le _ _) Hid), E. }
  rewrite (Hloop 3%nat _ _ E1 eq_refl eq_refl), (Hloop 2%nat _ _ E2 eq_refl eq_refl).
  rewrite E3; [|by apply third_turn|done|done]. cbn [fbind].
  unfold call_io. cbn [r_io r_id set_keep set_status set_context set_command input_close mqtt_input].
  unfold closeClient, sbind, sget. rewrite Hs1, (proj2 (Z.ltb_ge _ _)) by lia. cbn [fbind obind].
  eexists. split; [reflexivity|]. split; [done|]. cbn. apply lookup_delete_eq.
Qed.

(** ** The measure at the postprocessors and the output *)

Definition multi_post : ESP_Postprocessor :=
  mkPost (Post_json "measurevalue" "measurename" "" "") "post-json-multi" "" false.
Definition single_post : ESP_Postprocessor :=
  mkPost (Post_json "payload" "type" "resultcommand" "cmdget-payload") "post-json" "" false.
Definition iot_output : ESP_Output := mkOutput (Output_IoT "apikey" "sensorid" "type") "IoT" [1%nat; 0%nat].

Lemma mqtt_posts_eq : mqtt_posts = [multi_post; single_post].
Proof. reflexivity. Qed.

Lemma outputs_eq : outputs mqtt_sensor = [iot_output].
Proof. reflexivity. Qed.

Lemma multi_not_valid k d t p : execute_post (main_measure k d t p) multi_post = Ret multi_post.
Proof.
  unfold execute_post, execute_json. cbn [kind multi_post].
  by rewrite !main_measure_other by (apply (bool_decide_unpack _); vm_compute; exact I).
Qed.

Lemma single_valid k d t p : execute_post (main_measure k d t p) single_post
  = Ret (set_valid true (set_result (measure_json (block_string t) (block_string p)) single_post)).
Proof.
  unfold execute_post, execute_json. cbn [kind single_post].
  rewrite !main_measure_other by (apply (bool_decide_unpack _); vm_compute; exact I).
  rewrite (main_measure_name k d t p 2 "type" t), (main_measure_name k d t p 3 "payload" p) by done.
  by rewrite !field_text.
Qed.

Lemma iot_event k d t p post : execute_output true (main_measure k d t p) post iot_output
  = Ret (if isResultValid post
         then [MqttMessage (block_string k) (block_string d) (c_str (p_result post)) (block_string t)] else []).
Proof.
  unfold execute_output, attribute_text, searchAttributeRefByName. cbn [o_kind iot_output].
  rewrite (main_measure_name k d t p 0 "apikey" k), (main_measure_name k d t p 1 "sensorid" d),
    (main_measure_name k d t p 2 "type" t) by done.
  by rewrite !field_text.
Qed.

Definition measure_of (K D T : string) (p : list Z) : CC_AttributesType :=
  main_measure (string_block K) (string_block D) (string_block T) p.

(** The single postprocessor after a measure. *)
Definition after_measure (T : string) (p : list Z) : ESP_Postprocessor :=
  set_valid true (set_result (measure_json T (block_string p)) single_post).

(** What is done before the output, and at it. *)
Definition format_steps (m : CC_AttributesType) : list post_step :=
  [PInitialize 0; PExecute 0 m; PResult 0; PInitialize 1; PExecute 1 m; PResult 1].
Definition output_steps (m : CC_AttributesType) : list post_step :=
  [POutput iot_output 1 m; POutput iot_output 0 m].

Lemma do_steps_app pub a b ps ps1 c1 e1 ps2 c2 e2 :
  do_steps pub a ps = Ret (ps1, c1, e1) -> do_steps pub b ps1 = Ret (ps2, c2, e2) ->
  do_steps pub (a ++ b) ps = Ret (ps2, (c1 ++ c2)%list, (e1 ++ e2)%list).
Proof.
  revert ps c1 e1. induction a as [|s a IH]; intros ps c1 e1 E1 E2; cbn [do_steps app] in *.
  - injection E1 as <- <- <-. done.
  - destruct (do_step pub s ps) as [[[ps' c'] e']|x|]; cbn [obind] in *; [|done..].
    destruct (do_steps pub a ps') as [[[ps'' c''] e'']|x|] eqn:E; cbn [obind] in *; [|done..].
    injection E1 as <- <- <-. rewrite (IH _ _ _ E E2). cbn [obind]. by rewrite <- !app_assoc.
Qed.

Lemma format_done K D T p s : kind s = kind single_post -> p_name s = p_name single_post ->
  slen (measure_json T (block_string p)) <= ESP_PARSER_MAX_VALUE_SIZE ->
  exists copies, do_steps true (format_steps (measure_of K D T p)) [multi_post; s]
    = Ret ([multi_post; after_measure T p], copies, []).
Proof.
  intros Hk Hn Hlen. set (j := measure_json T (block_string p)) in *. set (m := measure_of K D T p).
  set (a := mkAttribute "" (Some (string_block j)) (zlen (string_block j)) ESP_DataType_STRING ESP_DataCode_STRING).
  assert (Ej : setValue new_attribute "" (Some (c_str_block j)) (slen j) ESP_DataType_STRING ESP_DataCode_STRING = Ret a).
  { unfold c_str_block. rewrite <- zlen_string_block. apply string_attribute. by rewrite zlen_string_block. }
  assert (Hinit : initialize s = single_post) by (destruct s as [ks ns rs vs]; cbn in Hk, Hn; by subst).
  exists [a]. unfold format_steps. cbn [do_steps]. change (do_step true (PInitialize 0) [multi_post; s])
    with (Ret ([multi_post; s], @nil ESP_Attribute, @nil event)). cbn [obind].
  assert (S1 : do_step true (PExecute 0 m) [multi_post; s] = Ret ([multi_post; s], [], [])).
  { unfold do_step. cbv zeta. change ([multi_post; s] !! 0%nat) with (Some multi_post). cbv beta iota.
    by rewrite (multi_not_valid _ _ _ _ : execute_post m multi_post = _). }
  rewrite S1. cbn [obind]. change (do_step true (PResult 0) [multi_post; s])
    with (Ret ([multi_post; s], @nil ESP_Attribute, @nil event)). cbn [obind].
  change (do_step true (PInitialize 1) [multi_post; s])
    with (Ret ([multi_post; initialize s], @nil ESP_Attribute, @nil event)). cbn [obind]. rewrite Hinit.
  assert (S2 : do_step true (PExecute 1 m) [multi_post; single_post] = Ret ([multi_post; after_measure T p], [], [])).
  { unfold do_step. cbv zeta. change ([multi_post; single_post] !! 1%nat) with (Some single_post). cbv beta iota.
    rewrite (single_valid _ _ _ _ : execute_post m single_post = _). by rewrite block_string_block. }
  rewrite S2. cbn [obind]. unfold do_step. cbv zeta.
  change ([multi_post; after_measure T p] !! 1%nat) with (Some (after_measure T p)). cbv beta iota.
  change (isResultValid (after_measure T p)) with true. change (p_result (after_measure T p)) with j.
  rewrite Ej. reflexivity.
Qed.

Lemma output_step ps i q k d t p : ps !! i = Some q ->
  do_step true (POutput iot_output i (main_measure k d t p)) ps
  = Ret (ps, [], if isResultValid q
                 then [MqttMessage (block_string k) (block_string d) (c_str (p_result q)) (block_string t)]
                 else []).
Proof. intros Hq. unfold do_step. cbv zeta. rewrite Hq. cbv beta iota. by rewrite iot_event. Qed.

Lemma output_done K D T p T' p' :
  do_steps true (output_steps (measure_of K D T p)) [multi_post; after_measure T' p']
  = Ret ([multi_post; after_measure T' p'], [], [MqttMessage K D (c_str (measure_json T' (block_string p'))) T]).
Proof.
  unfold output_steps, measure_of. cbn [do_steps].
  rewrite (output_step _ 1 (after_measure T' p')) by done. cbn [obind].
  rewrite (output_step _ 0 multi_post) by done. cbn [obind]. by rewrite !block_string_block.
Qed.

(** A measure, from the first postprocessor to the output. *)
Lemma measure_given K D T p : slen (measure_json T (block_string p)) <= ESP_PARSER_MAX_VALUE_SIZE ->
  exists ps copies, do_steps true (measure_steps 2 (outputs mqtt_sensor) (measure_of K D T p)) mqtt_posts
    = Ret (ps, copies, [MqttMessage K D (c_str (measure_json T (block_string p))) T]).
Proof.
  intros Hlen. destruct (format_done K D T p single_post eq_refl eq_refl Hlen) as [c F]. eexists _, _.
  exact (do_steps_app _ _ _ _ _ _ _ _ _ _ F (output_done K D T p T p)).
Qed.

(** ** From the topic to the service *)

Lemma serialized_text msg tp : topic msg = tp -> c_str tp = tp ->
  serialized msg = (string_block tp ++ 47 :: 47 :: payload msg)%list.
Proof. intros Ht Hc. unfold serialized. by rewrite Ht, Hc. Qed.

Lemma string_block_app a b : string_block (a ++ b)%string = (string_block a ++ string_block b)%list.
Proof. induction a as [|c a IH]; cbn; [done|]. by rewrite IH. Qed.

Lemma string_block_bytes s : Forall is_byte (string_block s).
Proof. induction s as [|c s IH]; constructor; [apply char_byte_range|done]. Qed.

(** A level of a topic. *)
Definition level (s : string) : Prop := plain_field 47 (string_block s).

Lemma string_block_inj a b : string_block a = string_block b -> a = b.
Proof. intros E. rewrite <- (block_string_block a), <- (block_string_block b). by rewrite E. Qed.

Lemma plain_type_string T : T ∉ special_types -> plain_type (string_block T).
Proof.
  intros Hn Hin. apply Hn. apply list_elem_of_fmap in Hin as (s & E & Hs).
  by apply string_block_inj in E as ->.
Qed.

Lemma levels_fields K D T p : level K -> level D -> level T -> T ∉ special_types ->
  zlen p <= ESP_PARSER_MAX_VALUE_SIZE ->
  message_fields (string_block K) (string_block D) (string_block T) p.
Proof.
  intros HK HD HT Hsp Hp. split; [|split; [by apply plain_type_string|split; [apply string_block_bytes|done]]].
  repeat (apply Forall_cons_2; [done|]). apply Forall_nil_2.
Qed.

Lemma topic_text K D T p : main_text (string_block K) (string_block D) (string_block T) p
  = (string_block (K ++ "/" ++ D ++ "/" ++ T) ++ 47 :: 47 :: p)%list.
Proof.
  unfold main_text, closed_fields. rewrite !string_block_app. cbn. repeat (rewrite <- !app_assoc; cbn). done.
Qed.

(** What the service is told of a measure: the service key, the device, the
    measure and its type. *)
Definition told (K D T : string) (p : list Z) (es : list event) : Prop :=
  exists b m, es = [DataCallback b (zlen b); ResultCallback [m];
                    MqttMessage K D (c_str (measure_json T (block_string p))) T].

(** The runner of a client that holds a message which parses to a measure. *)
Lemma client_told F b K D T p w id c : (3 <= F)%nat ->
  parses_to F b (main_measure (string_block K) (string_block D) (string_block T) p) ->
  slen (measure_json T (block_string p)) <= ESP_PARSER_MAX_VALUE_SIZE ->
  0 <= id -> 0 <= _sid (input_of w) -> clients (input_of w) !! id = Some c -> context_wf c -> index_end c = 0 ->
  input c = b -> 0 < zlen b <= RUNNER_MAX_BUFFER ->
  exists r, runLoop 4 (S F) mqtt_sensor (new_runner w id false main_command new_context mqtt_posts) = Some (Ret r)
    /\ told K D T p (events r) /\ clients (input_of (r_io r)) !! id = None.
Proof.
  intros HF Hparse Hjson Hid Hsid Hcl Hw Hi Hin Hb.
  destruct (measure_given K D T p Hjson) as (ps & copies & Hsteps).
  destruct (client_runs F b _ ps copies _ w id c HF Hparse Hsteps Hid Hsid Hcl Hw Hi Hin Hb) as (r & E & He & Hn).
  exists r. split; [done|]. split; [|done]. exists b. eexists. by rewrite He.
Qed.

Lemma main_parses F k d t p : message_fields k d t p ->
  parses_to (S (S (S (S (S (S (S (S (S F))))))))) (main_text k d t p) (main_measure k d t p).
Proof. intros Hm v q c Hq Hc. by apply (main_message F v q k d t p []). Qed.

(** C7. From a topic to the service: a message on the topic [K/D/T], waiting in the
    queue of the agent's input, is taken by [acceptServer], and the runner of
    the client it is given to reads it, parses it with the [main] command of
    the sensor's file, has it formatted, ends, leaves no client behind, and
    calls the service once, with the key [K], the device [D], the type [T] and
    the measure of [T] that has the payload as its value. *)
Theorem message_reaches_service (w : World) (x : ESP_MqttWrapper) (m : ESP_MqttMsg) (q : list ESP_MqttMsg)
    (cbs : list callback) (obj : mosq) (msg : mosquitto_message) (K D T : string) (F : nat)
    (Hsid : 0 <= _sid (input_of w)) (Hkeep : _keepRunning (input_of w) = true)
    (Hx : mapMqttClient (plugin_of w) !! _sid (input_of w) = Some x) (Hwf : buffer_wf (mqttBuffer x))
    (Hq : qMqttMsg (mqttBuffer x) = m :: q) (Hm : unread m = serialized msg)
    (Hloop : mqttLoop 0 1 (mqttObj x) = (MOSQ_ERR_SUCCESS, cbs, obj)) (Hcbs : Forall callback_ok cbs)
    (Hnew : clients (input_of w) !! clientid (input_of w) = None) (Hid : 0 <= clientid (input_of w))
    (Htopic : topic msg = (K ++ "/" ++ D ++ "/" ++ T)%string) (Hstr : c_str (topic msg) = topic msg)
    (HK : level K) (HD : level D) (HT : level T) (Hsp : T ∉ special_types)
    (Hlen : zlen (serialized msg) <= RUNNER_MAX_BUFFER)
    (Hjson : slen (measure_json T (block_string (payload msg))) <= ESP_PARSER_MAX_VALUE_SIZE)
    (HF : (10 <= F)%nat) :
  createCommand (parseCommands sensormqtt) "main" = Ret (Some main_command)
  /\ exists w' r, acceptServer 2 w = Some (w', Ret (clientid (input_of w)))
    /\ runLoop 4 F mqtt_sensor (new_runner w' (clientid (input_of w)) false main_command new_context mqtt_posts)
       = Some (Ret r)
    /\ told K D T (payload msg) (events r)
    /\ clients (input_of (r_io r)) !! clientid (input_of w) = None.
Proof.
  split; [apply main_created|].
  destruct (accept_first w x m q cbs obj 2 Hsid Hkeep Hx Hwf Hq Hloop Hcbs Hnew (Nat.le_refl 2))
    as (w' & c & x' & E & Hcl & Hc & Hin & Hi & Hs & Hpos & _).
  pose proof (serialized_text msg _ Htopic) as Hser. rewrite Htopic in Hstr. specialize (Hser Hstr).
  rewrite <- topic_text in Hser. rewrite Hm in *.
  assert (Hp : zlen (payload msg) <= ESP_PARSER_MAX_VALUE_SIZE).
  { unfold serialized in Hlen. rewrite !zlen_app in Hlen. pose proof (zlen_nonneg (string_block (c_str (topic msg)))).
    pose proof (zlen_nonneg (string_block ESP_MQTT_DELIM_END)). unfold RUNNER_MAX_BUFFER, ESP_PARSER_MAX_VALUE_SIZE in *. lia. }
  do 10 (destruct F as [|F]; [lia|]).
  destruct (client_told (S (S (S (S (S (S (S (S (S F))))))))) (serialized msg) K D T (payload msg) w'
    (clientid (input_of w)) c) as (r & Er & Hr & Hn); try done; [lia| |by rewrite Hs|].
  - rewrite Hser. by apply main_parses, levels_fields.
  - exists w', r. done.
Qed.

(** A topic with a level more is taken for another device's: the message on
    [A/K/D/T] is told to the service as a measure [T] of the device [D] of the
    key [K], as one on [K/D/T] would be, for the parser leaves the first level
    behind and starts again. *)
Theorem extra_level_dropped (w : World) (c : ESP_Context) (id : Z) (msg : mosquitto_message)
    (A K D T : string) (F : nat) (Hid : 0 <= id) (Hsid : 0 <= _sid (input_of w))
    (Hcl : clients (input_of w) !! id = Some c) (Hc : context_wf c) (Hi : index_end c = 0)
    (Hin : input c = serialized msg)
    (Htopic : topic msg = (A ++ "/" ++ K ++ "/" ++ D ++ "/" ++ T)%string) (Hstr : c_str (topic msg) = topic msg)
    (HA : level A) (HK : level K) (HD : level D) (HT : level T)
    (HDsp : D ∉ special_types) (Hsp : T ∉ special_types) (HTne : T <> "")
    (Hlen : zlen (serialized msg) <= RUNNER_MAX_BUFFER)
    (Hjson : slen (measure_json T (block_string (payload msg))) <= ESP_PARSER_MAX_VALUE_SIZE)
    (HF : (String.length A + 12 <= F)%nat) :
  exists r, runLoop 4 F mqtt_sensor (new_runner w id false main_command new_context mqtt_posts) = Some (Ret r)
    /\ told K D T (payload msg) (events r).
Proof.
  pose proof (serialized_text msg _ Htopic) as Hser. rewrite Htopic in Hstr. specialize (Hser Hstr).
  rewrite string_block_app, (string_block_app "/") in Hser. change (string_block "/") with [47] in Hser.
  rewrite <- !app_assoc in Hser. cbn [app] in Hser. rewrite <- topic_text in Hser.
  assert (Hl : zlen (serialized msg) = slen A + 1
    + zlen (main_text (string_block K) (string_block D) (string_block T) (payload msg)))
    by (rewrite Hser, zlen_app, zlen_cons, zlen_string_block; lia).
  assert (Hmt : zlen (payload msg) <= zlen (main_text (string_block K) (string_block D) (string_block T) (payload msg))).
  { rewrite topic_text, zlen_app, !zlen_cons. pose proof (zlen_nonneg (string_block (K ++ "/" ++ D ++ "/" ++ T))). lia. }
  pose proof (slen_nonneg A). pose proof (zlen_nonneg (payload msg)).
  assert (HRE : RUNNER_MAX_BUFFER = ESP_PARSER_MAX_VALUE_SIZE) by reflexivity.
  assert (Hlb : List.length (string_block A) = String.length A)
    by (pose proof (zlen_string_block A) as E; unfold zlen, slen in E; lia).
  set (F0 := (F - String.length A - 11)%nat).
  replace F with (S (S (List.length (string_block A)) + (S (S (S (S (S (S (S (S (S F0))))))))))) by lia.
  destruct (client_told (S (List.length (string_block A)) + (S (S (S (S (S (S (S (S (S F0))))))))))
    (serialized msg) K D T (payload msg) w id c) as (r & Er & Hr & _); try done; [lia| |lia|by exists r].
  rewrite Hser. intros v q c' Hq Hc'.
  apply (main_extra_level F0 (string_block A) (string_block K) (string_block D) (string_block T) (payload msg) []
    (string_block_bytes T)) with (v := v); try done.
  - by destruct T.
  - apply levels_fields; try done. lia.
  - by apply plain_type_string.
  - apply string_block_bytes.
  - lia.
Qed.

(** ** Two clients at once *)

(** The steps of two runners, in some order that keeps each one's. *)
Inductive interleave {A} : list A -> list A -> list A -> Prop :=
| interleave_nil : interleave [] [] []
| interleave_left x l1 l2 l : interleave l1 l2 l -> interleave (x :: l1) l2 (x :: l)
| interleave_right x l1 l2 l : interleave l1 l2 l -> interleave l1 (x :: l2) (x :: l).

Lemma interleave_lefts {A} (a l1 l2 l : list A) : interleave l1 l2 l -> interleave (a ++ l1) l2 (a ++ l).
Proof. intros H. induction a as [|x a IH]; [done|]. cbn. by constructor. Qed.

Lemma interleave_rights {A} (a l1 l2 l : list A) : interleave l1 l2 l -> interleave l1 (a ++ l2) (a ++ l).
Proof. intros H. induction a as [|x a IH]; [done|]. cbn. by constructor. Qed.

Lemma interleave_app {A} (l1 l2 : list A) : interleave l1 l2 (l1 ++ l2).
Proof.
  rewrite <- (app_nil_r l1) at 1. apply interleave_lefts. rewrite <- (app_nil_r l2) at 1 2.
  apply interleave_rights. constructor.
Qed.

(** C10. Measures of two devices mix: the runners of two clients share the
    postprocessors of the sensor without a lock, and while one after the other
    gives the service each device's own measure, there is an order of their
    steps in which the service is told, of the first device, the measure of the
    second. *)
Theorem measures_mixed (K1 D1 T1 K2 D2 T2 : string) (p1 p2 : list Z)
    (H1 : slen (measure_json T1 (block_string p1)) <= ESP_PARSER_MAX_VALUE_SIZE)
    (H2 : slen (measure_json T2 (block_string p2)) <= ESP_PARSER_MAX_VALUE_SIZE) :
  let steps1 := measure_steps 2 (outputs mqtt_sensor) (measure_of K1 D1 T1 p1) in
  let steps2 := measure_steps 2 (outputs mqtt_sensor) (measure_of K2 D2 T2 p2) in
  let json T p := c_str (measure_json T (block_string p)) in
  (exists l ps copies, interleave steps1 steps2 l /\ do_steps true l mqtt_posts
     = Ret (ps, copies, [MqttMessage K1 D1 (json T1 p1) T1; MqttMessage K2 D2 (json T2 p2) T2]))
  /\ exists l ps copies, interleave steps1 steps2 l /\ do_steps true l mqtt_posts
     = Ret (ps, copies, [MqttMessage K1 D1 (json T2 p2) T1; MqttMessage K2 D2 (json T2 p2) T2]).
Proof.
  intros steps1 steps2 json. set (m1 := measure_of K1 D1 T1 p1) in *. set (m2 := measure_of K2 D2 T2 p2) in *.
  assert (E1 : steps1 = (format_steps m1 ++ output_steps m1)%list) by reflexivity.
  assert (E2 : steps2 = (format_steps m2 ++ output_steps m2)%list) by reflexivity.
  rewrite mqtt_posts_eq, E1, E2.
  destruct (format_done K1 D1 T1 p1 single_post eq_refl eq_refl H1) as [c1 F1]. fold m1 in F1.
  destruct (format_done K2 D2 T2 p2 (after_measure T1 p1) eq_refl eq_refl H2) as [c2 F2]. fold m2 in F2.
  pose proof (output_done K1 D1 T1 p1) as O1. pose proof (output_done K2 D2 T2 p2 T2 p2) as O2. fold m1 in O1. fold m2 in O2.
  split.
  - exists ((format_steps m1 ++ output_steps m1) ++ (format_steps m2 ++ output_steps m2))%list. eexists _, _.
    split; [apply interleave_app|].
    exact (do_steps_app _ _ _ _ _ _ _ _ _ _ (do_steps_app _ _ _ _ _ _ _ _ _ _ F1 (O1 T1 p1))
      (do_steps_app _ _ _ _ _ _ _ _ _ _ F2 O2)).
  - exists (format_steps m1 ++ (format_steps m2 ++ (output_steps m1 ++ output_steps m2)))%list. eexists _, _.
    split; [apply interleave_lefts, interleave_rights, interleave_app|].
    exact (do_steps_app _ _ _ _ _ _ _ _ _ _ F1 (do_steps_app _ _ _ _ _ _ _ _ _ _ F2
      (do_steps_app _ _ _ _ _ _ _ _ _ _ (O1 T2 p2) O2))).
Qed.
End Client.

(** ** Examples *)

Definition agent_world (c : ESP_Context) : World :=
  mkWorld (set_input_clients 2 {[1 := c]} (set_sid 0 (new_input "mqttrunner"))) (new_plugin 7).

Definition four_levels : mosquitto_message := mkMessage 2 "a/k/d/t" [52; 50] 2.

Lemma message_reaches_service_witness :
  exists w w' r, acceptServer 2 w = Some (w', Ret 1)
    /\ @runLoop float_zero mqtt_input 4 10 mqtt_sensor
         (new_runner w' 1 false main_command new_context mqtt_posts) = Some (Ret r)
    /\ told "k" "d" "t" [52; 50] (events r).
Proof.
  set (m := mkMqttMsg 0 (serialized example_message) 9).
  set (x := example_wrapper [(0, [])] (mkBuffer [m] 9)).
  set (w := mkWorld (set_sid 0 (new_input "mqttrunner")) (set_clients {[0 := x]} (new_plugin 7))).
  destruct (@message_reaches_service float_zero _ w x m [] [] [] example_message "k" "d" "t" 10)
    as (_ & w' & r & H1 & H2 & H3 & _);
    try (discriminate || reflexivity || lia || constructor);
    try (reflexivity || discriminate || (apply (bool_decide_unpack _); vm_compute; exact I)).
  exists w, w', r. split; [exact H1|]. split; [exact H2|exact H3].
Defined.

Lemma extra_level_dropped_witness :
  let w := agent_world (holding (serialized four_levels) new_context) in
  exists r, @runLoop float_zero mqtt_input 4 20 mqtt_sensor
         (new_runner w 1 false main_command new_context mqtt_posts) = Some (Ret r)
    /\ told "k" "d" "t" [52; 50] (events r).
Proof.
  intros w.
  apply (@extra_level_dropped float_zero _ w (holding (serialized four_levels) new_context) 1 four_levels
    "a" "k" "d" "t" 20); try (discriminate || reflexivity || apply context_of_wf || (cbn; lia));
    try (split; [apply (bool_decide_unpack _); vm_compute; exact I|discriminate]);
    apply (bool_decide_unpack _); vm_compute; exact I.
Defined.

Lemma measures_mixed_witness :
  exists l ps copies,
    @do_steps float_zero true l mqtt_posts
    = Ret (ps, copies, [MqttMessage "k" "d1" (measure_json "t" "2") "h"; MqttMessage "k" "d2" (measure_json "t" "2") "t"]).
Proof.
  destruct (@measures_mixed float_zero "k" "d1" "h" "k" "d2" "t" [49] [50])
    as [_ (l & ps & copies & _ & H)]; [discriminate|discriminate|].
  exists l, ps, copies. exact H.
Defined.
