(* ===== verification/MqttService.v ===== *)
(** * The MQTT service: [src/src/mqtt] and [src/src/util/TTCBPublisher.cc]

    What the output of the sensor calls with each message it parsed: a measure
    is published as an update of the context broker, the answer of a command
    closes the command.  Commands go the other way, through the [sendcmd]
    command of the sensor and the input [mqttwriter].

    The service is an [Agent]; the input belongs to the outside of the agent,
    where [writer] finds it. *)
From stdpp Require Import base tactics list gmap strings pretty.
From Stdlib Require Import ZArith Lia Ascii String.
From S2P Require Import Prelude CppString StdMap Boost Types FuncUtil Alarm IoTUrl Json Configurator.
From S2P Require Import NgsiAttribute NgsiContext NgsiMessages Iso8601 CbComm.
From S2P Require Import MultiIndex Cache Command CommandCache CommandCollection DeviceCollection.
From S2P Require Import CommandHandle Device Bson Collection RestHandle CommandService.
From S2P Require Import EspStringUtils EspAttribute EspXml EspContext EspParser EspSensor EspRunner EspMqtt.
From S2P Require Import EspMqttAgent.

Local Open Scope string_scope.
Local Open Scope Z_scope.

(** ** [IotaMqttService.h] and commands in payloads *)

Definition MQTT_COMMAND_RESPONSE : string := "cmdexe".
Definition MQTT_COMMAND_IGNORE : string := "cmd".

Definition CMDID : string := "cmdid|".

(** [extract_command_id]: the payload without the identifier, and the
    identifier. *)
Definition extract_command_id (payload : string) : outcome (string * string) :=
  match CppString.find CMDID payload 0 with
  | None => Throw ThrownPointer
  | Some cmd_id_pos =>
      let cmd_id := str_drop (cmd_id_pos + 6) payload in
      let '(out_id, separator) :=
        match CppString.find "#" cmd_id 0 with
        | None => (cmd_id, 0%nat)
        | Some end_pos => (str_take end_pos cmd_id, 1%nat)
        end in
      Ret (str_take cmd_id_pos payload
           ++ str_drop (cmd_id_pos + (6 + String.length out_id + separator)) payload, out_id)
  end.

(** What [execute_mqtt_command] sends: the identifier before the command. *)
Definition command_payload (command_id body : string) : string := CMDID ++ command_id ++ "#" ++ body.

(** [serializeMqttCommand] *)
Definition serializeMqttCommand (apikey device command payload : string) : string :=
  apikey ++ "/" ++ device ++ "/" ++ "cmd" ++ "/" ++ command ++ "//" ++ payload.

(** The parameters of the [sendcmd] command. *)
Definition sendcmd_params (apikey device name payload : string) : gmap string string :=
  <["cmdparams" := payload]> (<["cmdname" := name]> (<["sensorid" := device]> {["apikey" := apikey]})).

Section MqttService.
  Context `{HB : Boost} `{HJ : Rapidjson} `{HP : PropertyTree} `{HI : !PropertyTreeInt}
    `{HPI : !PropertyTreeIter} `{HR : BsonReader} `{HBJ : BsonJson} `{HM : Mongo} `{HC : Config}
    `{HN : Network} {HE : EqDecision ptree} `{CD : !Container Device}
    `{CC : !Container (Command ptree)} `{FL : FloatLib} `{MQ : IMosquitto}.
  Context (read_json : string -> option ptree).
  Context (std_what : exn -> string) (show : document -> string).
  Context (database endpoint resource storage_type protocol : string).
  Context (complete_info : ptree -> ptree).
  Context (clock uuid : Z -> string).
  (** [getInputFromName("mqttwriter")] of the sensor, in the outside *)
  Context (writer : network -> option World) (set_writer : World -> network -> network).
  (** the sensor: its commands, outputs and postprocessors *)
  Context (commands : gmap string TiXmlElement) (sensor : ESP_Sensor) (posts : list ESP_Postprocessor).

Local Abbreviation get_service_by_apiKey :=
  (get_service_by_apiKey read_json show database endpoint resource storage_type complete_info).
Local Abbreviation get_device := (get_device show database endpoint resource storage_type).
Local Abbreviation get_command := (get_command show database endpoint storage_type).
Local Abbreviation remove_command := (remove_command show database endpoint storage_type).

(** ** [TTCBPublisher.cc] *)

Definition buildcbURL (pt : ptree) : outcome string :=
  let cb_url := pt_get_default pt "cbroker" "" in
  if String.eqb cb_url "" then Ret ""
  else
    let updateContex := pt_get_default pt "updateContex" "" in
    if negb (String.eqb updateContex "") then Ret (cb_url ++ updateContex)
    else
      let! ngsi_urls := config_get "ngsi_url" in
      let! has := HasMember ngsi_urls "updateContext" in
      if has : bool then
        let! v := member ngsi_urls "updateContext" in
        let! s := GetString v in Ret (cb_url ++ s)
      else Throw (RuntimeError "Not Found [updateContext]").

Definition OP_STRING : string := "APPEND".

(** The attributes of the texts, each with the time. *)
Fixpoint add_jsons (fuel : nat) (timestamp : string) (vJsons : list string) (ce : ContextElement)
    : fueled ContextElement :=
  match vJsons with
  | [] => Some (Ret ce)
  | json :: rest =>
      fuel! att := Some (attribute_of_string json) in
      fuel! ce := add_attribute fuel ce (add_metadata att (time_metadata timestamp)) in
      add_jsons fuel timestamp rest ce
  end.

Definition doPublishContextBroker (fuel : nat) (ce : ContextElement) (vJsons : list string)
    (cb_url : string) (pt_cb : ptree) (timestamp : string) : FM Net string :=
  act! ce := flift (add_jsons fuel timestamp vJsons ce) in
  act! ce := flift (add_attribute fuel ce (time_metadata timestamp)) in
  CbComm.send std_what fuel "POST" cb_url (update_text ce OP_STRING) pt_cb 200.

Definition publishContextBroker (fuel : nat) (ce : ContextElement) (vJsons : list string) (pt : ptree)
    (timestamp : string) : FM Net string :=
  act! url := flift (Some (buildcbURL pt)) in
  doPublishContextBroker fuel ce vJsons url pt timestamp.

(** ** [IotaMqttServiceImpl.cc] and [IotaMqttService.cc] *)

(** The service of a key, its timeout a number; what is thrown again is a copy
    of the base of the exception. *)
Definition add_info (apiKey : string) : FM Agent ptree :=
  fmcatch
    (act! pt := get_service_by_apiKey apiKey in
     match lexical_cast_int (pt_get_default pt "timeout" "0") with
     | None => fthrow BadLexicalCast
     | Some timeout =>
         let service := pt_get_default pt "service" "" in
         let service_path := pt_get_default pt "service_path" "" in
         fret (pt_put (pt_put (pt_put_int pt "timeout" timeout) "service" service)
                 "service_path" service_path)
     end)
    (fun e => match e with ThrownPointer => fthrow e | _ => fthrow StdException end).

Definition missing_field (name : string) : exn :=
  IotaException ("Mandatory field missing: [" ++ name ++ "]") "" 400.

Definition doPublishCB (fuel : nat) (apikey idDevice json : string) : FM Agent string :=
  if String.eqb apikey "" then fthrow (missing_field "apikey")
  else if String.eqb idDevice "" then fthrow (missing_field "idDevice")
  else
    fmcatch
      (act! pt_cb := add_info apikey in
       act! dev := get_device idDevice (pt_get_default pt_cb "service" "") "" in
       act! n := reading in
       act! ce := flift (set_env_info fuel (clock n) (new_context_element idDevice "" "false") pt_cb
                           (option_map snd dev)) in
       act! n := reading in
       on_net (publishContextBroker fuel ce [json] pt_cb (clock n)))
      (fun e => match e with
                | ThrownPointer => fret ""
                | _ => fthrow (IotaException
                         ("Can't publish on ContextBroker:" ++ exn_what std_what e) "" 400)
                end).

(** ** [MqttService.cc] *)

(** [MQTT will always support PUSH command only.] *)
Definition is_push_type_of_command (device : Device) : bool := true.

(** [response_command] without a device. *)
Definition response_no_device (fuel : nat) (id_command response : string) (service_ptree : ptree)
    : FM Agent unit :=
  act! ce := add_all clock fuel id_command
    [(STATUS, STATUS_TYPE, EXECUTED_MESSAGE); (INFO, INFO_TYPE, response)] empty_context_element in
  act! n := reading in
  act! ce := flift (add_attribute fuel ce (time_attribute (clock n))) in
  act! n := reading in
  act! ce := flift (set_env_info fuel (clock n) ce service_ptree None) in
  CommandService.send std_what ce STATUS_OP service_ptree.

Definition respond_mqtt_command (fuel : nat) (apikey device command_payload command_id : string)
    : FM Agent unit :=
  act! service_ptree := get_service_by_apiKey apikey in
  let srv := pt_get_default service_ptree Store.SERVICE "" in
  let srv_path := pt_get_default service_ptree Store.SERVICE_PATH "" in
  act! dev := get_device device srv srv_path in
  act! commandPtr := get_command command_id srv srv_path in
  match commandPtr with
  | None => fret tt
  | Some p =>
      then! fmmodify (fun a => with_commands (CommandCache.cancel (m_asyncCommands a) p) a) in
      then! remove_command fuel command_id srv srv_path in
      match dev with
      | Some d => CommandService.response_command std_what clock fuel (Command._name (snd p))
                    command_payload (snd d) service_ptree
      | None => response_no_device fuel (Command._name (snd p)) command_payload service_ptree
      end
  end.

(** [processCommandResponse]: whatever is thrown is dropped. *)
Definition processCommandResponse (fuel : nat) (apikey idDevice raw_payload : string) : FM Agent unit :=
  fmcatch
    (act! r := flift (Some (extract_command_id raw_payload)) in
     respond_mqtt_command fuel apikey idDevice (fst r) (snd r))
    (fun _ => fret tt).

(** [handle_mqtt_message]: so is what it calls throws. *)
Definition handle_mqtt_message (fuel : nat) (apikey idDevice payload type : string) : FM Agent unit :=
  fmcatch
    (if String.eqb type MQTT_COMMAND_RESPONSE then processCommandResponse fuel apikey idDevice payload
     else if String.eqb type MQTT_COMMAND_IGNORE then fret tt
     else if negb (String.eqb payload "") then
       act! _ := doPublishCB fuel apikey idDevice payload in fret tt
     else fret tt)
    (fun _ => fret tt).

Definition with_writer (w : World) (a : Agent) : Agent :=
  with_net (mkNet (set_writer w (a_outside a)) (a_alarms a) (a_in_flight a)) a.

(** [executeRunnerFromInput] with the input of the sensor: [turns] of the
    runner. *)
Definition execute_mqtt_command (turns fuel : nat) (apikey device name body command_id : string)
    : FM Agent Z := fun a =>
  match writer (a_outside a) with
  | None => Some (a, Ret 400)
  | Some w =>
      match executeRunner (IN := mqtt_input) turns fuel sensor commands "sendcmd"
              (sendcmd_params apikey device name (command_payload command_id body)) posts
              (EspMqtt._sid (input_of w)) w with
      | Some (Ret (_, _, w)) => Some (with_writer w a, Ret 202)
      | Some (Throw e) => Some (a, Throw e)
      | Some Undefined => Some (a, Undefined)
      | None => None
      end
  end.

(** [execute_command]: the code; there is no answer. *)
Definition execute_command (turns fuel : nat) (x : execution) : FM Agent (Z * string) :=
  act! code := execute_mqtt_command turns fuel (pt_get_default (x_service x) Store.APIKEY "")
                 (unique_name (x_device x)) (pt_get_default (x_command x) Store.NAME "")
                 (pt_get_default (x_command x) Store.BODY "") (x_command_id x) in
  fret (code, "").

(** The body of a command; the arguments of [starts_with] are in the order of
    the source. *)
Definition command_body (name command_name command_value updateCommand_value : string) : string :=
  if String.eqb command_value RAW then updateCommand_value
  else name ++ "@" ++ command_name ++ (if negb (Boost.starts_with "|" updateCommand_value) then "|" else "")
       ++ updateCommand_value.

(** [transform_command]; an identifier is drawn when there is no sequence. *)
Definition transform_command (command_name a_command_value a_updateCommand_value sequence_id : string)
    (item_dev : Device) (service : ptree) : FM Agent (string * ptree) :=
  let command_value := Boost.trim a_command_value in
  act! updateCommand_value := flift (Some (json_value_to_ul (Boost.trim a_updateCommand_value))) in
  let command_line := pt_put pt_empty Store.NAME command_name in
  let result := command_body (Device._name item_dev) command_name command_value updateCommand_value in
  act! command_id := (if String.eqb sequence_id "" then act! n := reading in fret (uuid n)
                      else fret sequence_id) in
  fret (command_id, pt_put command_line Store.BODY result).

(** [updateCommand] of the command service, with the [is_push_type_of_command]
    of this one. *)
Definition updateCommand (turns fuel : nat) (a_name parameters : string) (d : Device)
    (a_entity_type a_sequence : string) (a_service : ptree) : FM Agent unit :=
  act! line := getCommandLine transform_command a_name parameters a_sequence d a_service in
  act! a_timeout := flift (Some get_timeout_commands) in
  let cmd := mkCommandData a_name (fst line) (snd line) a_sequence a_timeout d a_entity_type a_service in
  if is_push_type_of_command d then
    then! send_status std_what clock fuel a_name PENDING d a_service in
    then! save show database endpoint storage_type fuel cmd in
    CommandService.execute std_what show database endpoint storage_type clock false (execute_command turns fuel) fuel cmd
  else
    then! send_status std_what clock fuel a_name READY_FOR_READ_MESSAGE d a_service in
    save show database endpoint storage_type fuel cmd.

(** ** The events of the sensor *)

(** What the output of the sensor does with the service, in order. *)
Fixpoint handle_events (fuel : nat) (es : list EspSensor.event) : FM Agent unit :=
  match es with
  | [] => fret tt
  | MqttMessage apikey idDevice payload type :: rest =>
      then! handle_mqtt_message fuel apikey idDevice payload type in handle_events fuel rest
  | _ :: rest => handle_events fuel rest
  end.
End MqttService.
