(* ===== verification/MqttServiceSpec.v ===== *)
(** * What the MQTT service guarantees

    Identifiers of commands are read back from payloads; what a command makes
    of the input [mqttwriter]; the answer of a device closes its command once;
    a measure becomes one update of its device. *)
From stdpp Require Import base tactics list gmap strings pretty.
From Stdlib Require Import ZArith Lia Ascii String.
From S2P Require Import Prelude CppString StdMap Boost Types FuncUtil Alarm IoTUrl Json Configurator.
From S2P Require Import NgsiAttribute NgsiContext NgsiMessages Iso8601 CbComm.
From S2P Require Import MultiIndex Cache Command CommandCache CommandCollection DeviceCollection.
From S2P Require Import CommandHandle Device Bson Collection RestHandle CommandService CommandTheorems.
From S2P Require Import EspStringUtils EspAttribute EspXml EspContext EspParser EspParserSpec EspFields.
From S2P Require Import EspSensor EspRunner EspMqtt EspMqttSpec EspMqttAgent EspMqttAgentSpec MqttService.
From S2P Require Import AgentExample.

Local Open Scope string_scope.
Local Open Scope Z_scope.

(** ** Identifiers of commands *)

(** A text after which the mark of an identifier is the first. *)
Definition unmarked (s : string) : Prop := CppString.find CMDID (s ++ "cmdid") 0 = None.

Lemma find_marked s t : unmarked s -> CppString.find CMDID (s ++ CMDID ++ t) 0 = Some (String.length s).
Proof. apply (find_before "cmdid" "|"). Qed.

Lemma marked_drop s t : str_drop (String.length s + 6) (s ++ CMDID ++ t) = t.
Proof. rewrite <- str_drop_drop, str_drop_app. reflexivity. Qed.

Lemma find_hash id t : no_char "#" id = true -> CppString.find "#" (id ++ String "#" t) 0 = Some (String.length id).
Proof.
  intros H. rewrite find_char. induction id as [|c id IH]; cbn in *; [done|].
  apply andb_true_iff in H as [Hc H]. apply negb_true_iff in Hc. by rewrite Hc, IH.
Qed.

Lemma find_no_hash id : no_char "#" id = true -> CppString.find "#" id 0 = None.
Proof.
  intros H. rewrite find_char. induction id as [|c id IH]; cbn in *; [done|].
  apply andb_true_iff in H as [Hc H]. apply negb_true_iff in Hc. by rewrite Hc, IH.
Qed.

(** The identifier of a command survives the way to the device and back: a
    payload that has it after the mark [cmdid|], at the start as the service
    sends it, or anywhere in an answer, followed by [#] or at the end, gives
    the identifier, and the payload without the mark and the identifier; a
    payload without the mark throws what no handler but [catch (...)] gets. *)
Theorem command_id_read_back (before id after payload : string) (Hid : no_char "#" id = true)
    (Hb : unmarked before) :
  extract_command_id (command_payload id after) = Ret (after, id)
  /\ extract_command_id (before ++ command_payload id after) = Ret (before ++ after, id)
  /\ extract_command_id (before ++ CMDID ++ id) = Ret (before, id)
  /\ (CppString.find CMDID payload 0 = None -> extract_command_id payload = Throw ThrownPointer).
Proof.
  assert (H : forall s, unmarked s ->
    extract_command_id (s ++ command_payload id after) = Ret (s ++ after, id)).
  { intros s Hs. unfold extract_command_id, command_payload. rewrite find_marked, marked_drop by done.
    change ("#" ++ after) with (String "#" after). rewrite find_hash, !str_take_app by done. cbv zeta.
    do 2 f_equal. f_equal.
    replace (String.length s + (6 + String.length id + 1))%nat
      with ((String.length s + 6) + (String.length id + 1))%nat by lia.
    rewrite <- str_drop_drop, marked_drop, <- str_drop_drop, str_drop_app. done. }
  split; [by apply (H "")|]. split; [by apply H|]. split.
  - unfold extract_command_id. rewrite find_marked, marked_drop, find_no_hash, str_take_app by done.
    rewrite Nat.add_0_r, Nat.add_assoc, <- str_drop_drop, marked_drop.
    replace (str_drop (String.length id) id) with ""; [by rewrite str_app_nil_r|].
    rewrite <- (str_app_nil_r id) at 2. by rewrite str_drop_app.
  - intros Hp. unfold extract_command_id. by rewrite Hp.
Qed.

Lemma command_id_read_back_witness :
  extract_command_id "cmdid|2238#dev01@PING#param|value" = Ret ("dev01@PING#param|value", "2238")
  /\ extract_command_id "result|ok#cmdid|2238" = Ret ("result|ok#", "2238").
Proof.
  split.
  - exact (proj1 (command_id_read_back "" "2238" "dev01@PING#param|value" "" eq_refl eq_refl)).
  - exact (proj1 (proj2 (proj2 (command_id_read_back "result|ok#" "2238" "" "" eq_refl eq_refl)))).
Defined.

(** ** Answers of devices *)

Lemma runs_at {S A} (P : S -> Prop) (Q : outcome A -> S -> Prop) (c : FM S A) :
  (forall s, P s -> runs (fun s' => s' = s) c Q) -> runs P c Q.
Proof. intros H s s' r Hs. by apply (H s Hs s). Qed.

(** Whatever is thrown is dropped. *)
Lemma runs_swallow {S} (P : S -> Prop) (c : FM S unit) :
  runs P c (fun _ s => P s) ->
  runs P (fmcatch c (fun _ => fret tt)) (fun r s => (r = Ret tt \/ r = Undefined) /\ P s).
Proof.
  intros Hc. eapply runs_catch; [apply Hc|intros e; apply runs_ret|..].
  - intros s Hs. by split; [left|].
  - intros [] s Hs. by split; [left|].
  - intros s Hs. by split; [right|].
Qed.

(** A step that gives [o] and changes nothing. *)
Lemma runs_known {S A B} (P : S -> Prop) (o : outcome A) (c : FM S A) (k : A -> FM S B)
    (Q : outcome B -> S -> Prop) :
  (forall s, c s = Some (s, o)) ->
  match o with
  | Ret a => runs P (k a) Q
  | Throw e => forall s, P s -> Q (Throw e) s
  | Undefined => forall s, P s -> Q Undefined s
  end ->
  runs P (fmbind c k) Q.
Proof.
  intros Hc Hk s s' r Hs. unfold fmbind. rewrite Hc.
  destruct o; [by apply Hk|intros [= <- <-]; by apply Hk..].
Qed.

Section Answers.
  Context `{HB : Boost} `{HJ : Rapidjson} `{HP : PropertyTree} `{HI : !PropertyTreeInt}
    `{HPI : !PropertyTreeIter} `{HR : BsonReader} `{HBJ : BsonJson} `{HM : Mongo} `{HC : Config}
    `{HN : Network} {HE : EqDecision ptree} `{CD : !Container Device}
    `{CC : !Container (Command ptree)} {CL : ContainerLaws (Command ptree)}.
  Context (read_json : string -> option ptree).
  Context (std_what : exn -> string) (show : document -> string).
  Context (database endpoint resource storage_type : string).
  Context (complete_info : ptree -> ptree).
  Context (clock : Z -> string).
  (** the commands are kept in the cache only *)
  Context (Hfile : mongodb storage_type = false).

Local Abbreviation get_service_by_apiKey :=
  (get_service_by_apiKey read_json show database endpoint resource storage_type complete_info).
Local Abbreviation get_command := (get_command show database endpoint storage_type).
Local Abbreviation handle_events :=
  (handle_events read_json std_what show database endpoint resource storage_type complete_info clock).

(** The service of a key is in the files, so the same whatever the agent. *)
Lemma service_of_files apikey : exists o, forall a, get_service_by_apiKey apikey a = Some (a, o).
Proof.
  unfold RestHandle.get_service_by_apiKey, get_service, get_service_file, read_ptree. rewrite Hfile.
  destruct service_defaults as [d|e|]; [|eexists; intros a; reflexivity..].
  destruct (getServicebyApiKey resource apikey) as [v|e|]; [|eexists; intros a; reflexivity..].
  destruct (read_json (c_string (json_text (accept v)))) as [pt|] eqn:Ept.
  all: eexists; intros a; unfold fmbind, fret, flift, fthrow; cbv beta iota; cbn [fst]; rewrite Z.eqb_refl, Ept; reflexivity.
Qed.

Section DeviceKept.
  Context {X : Type} (f : Agent -> X).
  Context (Hdb : forall d a, f (with_database d a) = f a).
  Context (Hdev : forall c a, f (with_devices c a) = f a).
  Context (Hnext : forall p a, f (with_next p a) = f a).

Lemma get_func_keeps key : keeps f (get_func show database endpoint key).
Proof.
  assert (Hf : forall t q, keeps f (find_in show database endpoint t q)) by (intros; by apply on_db_keeps).
  assert (Hn : forall A (x : A), keeps f (new_object x)) by (intros; by apply new_object_keeps).
  unfold get_func. keeps_tac; auto.
Qed.

Lemma cached_keeps hit search key :
  keeps f (cached show database endpoint storage_type hit search key).
Proof.
  unfold cached. pose proof get_func_keeps. keeps_tac.
  intros loaded s s' r. destruct (search _ key) as [c o]. intros [= <- <-]. apply Hdev.
Qed.

Lemma first_path_keeps paths : forall d, keeps f (first_path show database endpoint storage_type paths d).
Proof.
  induction paths as [|p paths IH]; intros d; cbn [first_path]; [apply keeps_ret|].
  pose proof cached_keeps. unfold cache_get. keeps_tac; auto.
Qed.

Lemma get_device_keeps name service path :
  keeps f (RestHandle.get_device show database endpoint resource storage_type name service path).
Proof.
  unfold RestHandle.get_device, get_device_empty_service_path, active_or, cache_get_by_name, cache_get.
  pose proof cached_keeps. pose proof first_path_keeps. keeps_tac; auto.
Qed.
End DeviceKept.

(** No two commands of the cache have the same identifier. *)
Definition identified (c : CommandCache.CommandCache) : Prop :=
  forall p q, p ∈ items (CommandCache._list c) -> q ∈ items (CommandCache._list c) ->
    unique_id (snd p) = unique_id (snd q) -> p = q.

Lemma identified_sub c c' :
  (forall p, p ∈ items (CommandCache._list c') -> p ∈ items (CommandCache._list c)) ->
  identified c -> identified c'.
Proof. intros Hs Hc p q Hp Hq. apply Hc; auto. Qed.

(** Removing leaves no command of the identifier. *)
Lemma removed_absent c key : identified c ->
  CommandCache.find_id (CommandCache.remove c key) key = None.
Proof.
  intros Hc. unfold CommandCache.remove. destruct (CommandCache.find_id c key) as [q|] eqn:E; [|done].
  destruct (CommandCache.find_id_some c key q E) as [Hq Eq].
  destruct (CommandCache.find_id (with_list _ _) key) as [p|] eqn:E'; [exfalso|done].
  destruct (CommandCache.find_id_some _ _ _ E') as [Hp Ep]. cbn in Hp.
  rewrite erase_item_law in Hp by done. apply elem_erase in Hp as [Hp Hne].
  apply Hne, Hc; [done..|]. by rewrite Ep, Eq.
Qed.

(** What is sent is what was sent, or one update more. *)
Definition reported (us us' : list update) : Prop := us' = us \/ exists u, us' = (us ++ [u])%list.

Lemma sent_one_reported us op service r a : sent_one us op service r a -> reported us (updates a).
Proof. intros [[ce H]|[H _]]; [right; by eexists|by left]. Qed.

(** The command of [key] is waited for, and nothing was sent; or it is in the
    cache no more. *)
Definition open_or_closed (us : list update) (key : Command ptree) (a : Agent) : Prop :=
  (updates a = us /\ identified (m_asyncCommands a))
  \/ (reported us (updates a) /\ CommandCache.find_id (m_asyncCommands a) key = None).

Lemma get_command_cases us id service path :
  runs (open_or_closed us (command_key id service path)) (get_command id service path)
    (fun r a => match r with
                | Ret (Some _) => updates a = us /\ identified (m_asyncCommands a)
                | _ => open_or_closed us (command_key id service path) a
                end).
Proof.
  intros a a' r Ha. unfold CommandService.get_command, cached_command, fmbind, fmget, fret. rewrite Hfile.
  cbn [andb]. cbv zeta. unfold CommandCache.get_by_id.
  set (key := command_key id service path) in *. set (c := m_asyncCommands a) in *.
  change (CommandCache.find_id (CommandCache.set_functions c None None true) key)
    with (CommandCache.find_id c key).
  destruct (CommandCache.find_id c key) as [i|] eqn:Ei; cbn; intros [= <- <-].
  - destruct Ha as [[Hu Hc]|[_ Hn]]; [split; [done|]|unfold c in Ei; congruence].
    apply (identified_sub c); [|done]. cbn. intros p Hp.
    rewrite (proj1 (CommandCache.insert_spec _ i)) in Hp. apply insert_list_in in Hp as [->|Hp]; [|done].
    by apply (CommandCache.find_id_some c key).
  - destruct Ha as [[Hu Hc]|[Hu _]]; [left|right]; by split.
Qed.

Lemma no_device_once us fuel name text service :
  runs (fun a => updates a = us) (response_no_device std_what clock fuel name text service)
    (sent_one us STATUS_OP service).
Proof.
  unfold response_no_device.
  apply keeps_then; [by apply add_all_keeps|intros ?|by intros; apply sent_none..].
  do 2 (apply keeps_then; [by apply reading_keeps|intros ?|by intros; apply sent_none..];
        apply keeps_then; [keeps_tac|intros ?|by intros; apply sent_none..]).
  apply send_once.
Qed.

Lemma no_device_keeps fuel name text service :
  keeps m_asyncCommands (response_no_device std_what clock fuel name text service).
Proof.
  unfold response_no_device. assert (Hr : keeps m_asyncCommands reading) by (by apply reading_keeps).
  assert (Ha : forall n atts ce, keeps m_asyncCommands (add_all clock fuel n atts ce))
    by (intros; by apply add_all_keeps).
  assert (Hs : forall ce op, keeps m_asyncCommands (CommandService.send std_what ce op service))
    by (intros; by apply send_keeps).
  keeps_tac; auto.
Qed.

(** What reports the command, with its device or without. *)
Lemma report_closes us c key fuel (dev : option (ptr Device)) name text service :
  CommandCache.find_id c key = None ->
  runs (fun a => (updates a, m_asyncCommands a) = (us, c))
    (match dev with
     | Some d => CommandService.response_command std_what clock fuel name text (snd d) service
     | None => response_no_device std_what clock fuel name text service
     end)
    (fun _ a => open_or_closed us key a).
Proof.
  intros Hn a a' r [= Hu Hc] E. right. rewrite <- Hc in Hn. destruct dev as [d|].
  - split; [eapply sent_one_reported, (info_once _ _ us _ _ _ _ _ _ _ a a' r Hu E)|].
    by rewrite (send_updateContext_info_keeps _ _ m_asyncCommands (fun _ _ => eq_refl)
      (fun _ _ => eq_refl) (fun _ _ => eq_refl) _ _ _ _ _ _ _ a a' r E).
  - split; [eapply sent_one_reported, (no_device_once us _ _ _ _ a a' r Hu E)|].
    by rewrite (no_device_keeps _ _ _ _ a a' r E).
Qed.

Lemma open_or_closed_keeps {A} us key (c : FM Agent A) :
  keeps (fun a => (updates a, m_asyncCommands a)) c ->
  runs (open_or_closed us key) c (fun _ a => open_or_closed us key a).
Proof.
  intros Hc a a' r Ha E. pose proof (Hc a a' r E) as [= Eu Ec].
  unfold open_or_closed. by rewrite Eu, Ec.
Qed.

Lemma respond_cases us key apikey dev text id fuel o :
  (forall a, get_service_by_apiKey apikey a = Some (a, o)) ->
  (forall service, o = Ret service -> key = command_key id (pt_get_default service Store.SERVICE "")
                                        (pt_get_default service Store.SERVICE_PATH "")) ->
  runs (open_or_closed us key)
    (respond_mqtt_command read_json std_what show database endpoint resource storage_type complete_info
       clock fuel apikey dev text id)
    (fun _ a => open_or_closed us key a).
Proof.
  intros Hs Hk. unfold respond_mqtt_command. apply (runs_known _ o); [done|].
  destruct o as [service|e|]; [|done..]. rewrite (Hk service eq_refl). cbv zeta.
  eapply runs_bind; [apply open_or_closed_keeps; by apply get_device_keeps| |done|done]. intros d.
  eapply runs_bind; [apply get_command_cases| |done|done]. intros [p|]; [|by apply runs_ret].
  apply runs_at. intros a [Hu Hc]. set (c := CommandCache.cancel (m_asyncCommands a) p).
  assert (Hid : identified c) by (by apply (identified_sub (m_asyncCommands a))).
  apply (runs_bind _ (fun r a' => r = Ret tt /\ (updates a', m_asyncCommands a') = (us, c))); [| |naive_solver..].
  { apply runs_modify. intros a1 E. rewrite E. split; [done|]. by rewrite <- Hu. }
  intros ok. apply (runs_pre _ (fun a' => (updates a', m_asyncCommands a') = (us, c))); [naive_solver|].
  eapply runs_bind; [apply remove_command_effect| | |].
  - intros n. apply report_closes. by apply removed_absent.
  - intros e a1 [= E1 E2]. right. rewrite E2. split; [by left|by apply removed_absent].
  - intros a1 [= E1 E2]. right. rewrite E2. split; [by left|by apply removed_absent].
Qed.

Lemma answer_cases us key apikey dev raw text id fuel o :
  extract_command_id raw = Ret (text, id) ->
  (forall a, get_service_by_apiKey apikey a = Some (a, o)) ->
  (forall service, o = Ret service -> key = command_key id (pt_get_default service Store.SERVICE "")
                                        (pt_get_default service Store.SERVICE_PATH "")) ->
  runs (open_or_closed us key)
    (handle_mqtt_message read_json std_what show database endpoint resource storage_type complete_info
       clock fuel apikey dev raw MQTT_COMMAND_RESPONSE)
    (fun r a => (r = Ret tt \/ r = Undefined) /\ open_or_closed us key a).
Proof.
  intros Hr Hs Hk. unfold handle_mqtt_message, processCommandResponse. cbn [String.eqb]. rewrite Hr.
  apply runs_swallow. eapply runs_post; [apply runs_swallow|by intros r a []].
  eapply runs_bind; [by apply (runs_lift _ (fun r a => r = Ret (text, id) /\ open_or_closed us key a)); naive_solver| |naive_solver..].
  intros r. apply (runs_pre _ (fun a => r = (text, id) /\ open_or_closed us key a)); [naive_solver|].
  apply runs_at. intros a [-> Ha]. eapply runs_pre; [|by apply (respond_cases us key _ _ _ _ _ o)].
  by intros a' ->.
Qed.

(** The messages of answers, each of a device. *)
Definition answers (apikey : string) (l : list (string * string)) : list EspSensor.event :=
  map (fun m => MqttMessage apikey (fst m) (snd m) MQTT_COMMAND_RESPONSE) l.

End Answers.

(** An agent with the command [7] in its cache; its services are in a file. *)
Local Existing Instance boost_reference.
Local Existing Instance bson_reader_reference.
Local Existing Instance mongo_reference.
Local Existing Instance list_container.

#[local] Instance mqtt_config : Config := {|
  config_get := @config_get agent_config;
  config_get_map := @config_get_map agent_config;
  getService _ name _ := Throw (RuntimeError name);
  getServicebyApiKey _ key := Ret (JString key);
  getAllServicePath _ _ := Ret [];
  getResourceObject _ := Throw (RuntimeError "resource");
  getHttpMessage _ := "";
  listen_ip := "10.0.0.1"; listen_port := 8080; iotagent_name := "iota"; iotagent_identifier := ""
|}.

Definition two_answers : list (string * string) :=
  [("meter", "cmdid|7#pong"); ("lamp", "late#cmdid|7")].
Definition answer_run : option (Agent * outcome unit) :=
  handle_events (HC := mqtt_config) read_service no_what no_show "iot" "h" "/d" "file" (fun t => t)
    AgentExample.clock 2 (answers "key" two_answers) polled.

Example answer_once : value_of answer_run = Some (Ret tt)
  /\ statuses (agent_of answer_run) = [["pending"; "now"]; ["OK"; "pong"; "now"]].
Proof. vm_compute. done. Qed.

