(* ===== verification/MqttSendSpec.v ===== *)
(** * A command on its way to a device

    The [sendcmd] command of the sensor's file run on the parameters of a
    command, and what the MQTT service makes of it: one publication. *)
From stdpp Require Import base tactics list gmap strings sorting.
From Stdlib Require Import ZArith Lia Ascii String.
From S2P Require Import Prelude CppString StdMap Boost Types FuncUtil Alarm IoTUrl Json Configurator.
From S2P Require Import NgsiAttribute NgsiContext NgsiMessages Iso8601 CbComm.
From S2P Require Import MultiIndex Cache Command CommandCache CommandCollection DeviceCollection.
From S2P Require Import CommandHandle Device Bson Collection RestHandle CommandService.
From S2P Require Import EspStringUtils EspAttribute EspXml EspContext EspParser EspParserSpec EspFields.
From S2P Require Import EspMqtt EspMqttSpec EspSensor EspRunner EspMqttAgent EspMqttAgentSpec MqttService.
From S2P Require Import AgentExample.

Local Open Scope string_scope.
Local Open Scope Z_scope.

(** ** The command and its parameters *)

Definition sendcmd_command : ESP_Command := Eval vm_compute in
  match @createCommand float_zero (parseCommands sensormqtt) "sendcmd" with
  | Ret (Some k) => k
  | _ => main_command
  end.

Definition sendcmd_tags : list Tag := subtags (body sendcmd_command).

(** A parameter, as the context keeps it. *)
Definition text_attribute (name v : string) : ESP_Attribute :=
  match v with
  | EmptyString => mkAttribute name None 0 ESP_DataType_STRING ESP_DataCode_STRING
  | _ => mkAttribute name (Some (string_block v)) (slen v) ESP_DataType_STRING ESP_DataCode_STRING
  end.

Definition arguments (K D N P : string) : gmap string ESP_Attribute :=
  <["sensorid" := text_attribute "sensorid" D]> (<["cmdparams" := text_attribute "cmdparams" P]>
    (<["cmdname" := text_attribute "cmdname" N]> {["apikey" := text_attribute "apikey" K]})).

(** What the tags write. *)
Definition pieces (K D N P : string) : list string := [K; "/"; D; "/cmd/"; N; "//"; P].

Definition emit (s : string) (c : ESP_Context) : ESP_Context :=
  set_output (output c ++ string_block s) (output_size c + slen s) c.

Section Send.
  Context `{FL : FloatLib}.

Lemma sendcmd_created : createCommand (parseCommands sensormqtt) "sendcmd" = Ret (Some sendcmd_command).
Proof. vm_compute. reflexivity. Qed.

Lemma sendcmd_entries K D N P : entries (sendcmd_params K D N P)
  = [("apikey", K); ("cmdname", N); ("cmdparams", P); ("sensorid", D)].
Proof. vm_compute. reflexivity. Qed.

Lemma slen_pos x s : 0 < slen (String x s).
Proof. rewrite <- zlen_string_block. cbn [string_block]. rewrite zlen_cons. pose proof (zlen_nonneg (string_block s)). lia. Qed.

Lemma text_copy name v : copy_attribute (text_attribute name v) = Ret (text_attribute name v).
Proof.
  destruct v as [|x v]; [done|]. unfold copy_attribute, text_attribute. cbn [_value _datasize _name _datatype _datacode].
  rewrite (proj2 (Z.ltb_lt _ _)) by (by apply slen_pos). rewrite <- zlen_string_block. by rewrite read_block_all.
Qed.

Lemma text_value name v : getValueAsString (text_attribute name v) = Ret v.
Proof.
  destruct v as [|x v]; [done|]. unfold getValueAsString, getStringValue, text_attribute.
  cbn [_datatype _value _datasize]. rewrite <- zlen_string_block, read_block_all by done. cbn [obind].
  by rewrite block_string_block.
Qed.

Lemma add_param k v rest t : slen v <= ESP_PARSER_MAX_VALUE_SIZE ->
  add_params ((k, v) :: rest) t = add_params rest (emplace t k (text_attribute k v)).
Proof.
  intros Hv. cbn [add_params]. unfold c_str_block. rewrite <- zlen_string_block.
  rewrite string_attribute by by rewrite zlen_string_block. cbn [obind]. unfold insert_attribute.
  assert (E : copy_attribute (mkAttribute k (Some (string_block v)) (zlen (string_block v)) ESP_DataType_STRING
    ESP_DataCode_STRING) = Ret (text_attribute k v)).
  { destruct v as [|x v]; [done|]. rewrite zlen_string_block. exact (text_copy k (String x v)). }
  by rewrite E.
Qed.

Lemma add_arguments K D N P : Forall (fun v => slen v <= ESP_PARSER_MAX_VALUE_SIZE) [K; D; N; P] ->
  addParams (sendcmd_params K D N P) new_context = Ret (set_temp (arguments K D N P) new_context).
Proof.
  intros Hl. repeat (apply Forall_cons in Hl as [? Hl]).
  unfold addParams. rewrite sendcmd_entries. rewrite !add_param by done. reflexivity.
Qed.

Lemma arguments_published K D N P : map_Forall (fun _ a => published a) (arguments K D N P).
Proof.
  assert (Ht : forall name v, startsWith name "_" = false -> published (text_attribute name v)).
  { intros name v Hn. split; [apply text_copy|]. by destruct v. }
  unfold arguments. repeat (apply map_Forall_insert_2; [by apply Ht|]).
  apply map_Forall_empty.
Qed.

(** ** The tags *)

(** A tag that writes [s] when the attributes are [tm]. *)
Definition writes (tm : gmap string ESP_Attribute) (s : string) (t : Tag) : Prop :=
  t_class (data t) = ESP_Tag_Write /\ subtags t = [] /\ t_parsed (data t) = false /\ t_repeat (data t) = false
  /\ if String.eqb (t_valueref (data t)) ""
     then t_value (data t) = mkAttribute "" (Some (string_block s)) (slen s) ESP_DataType_STRING ESP_DataCode_STRING
     else exists name, tm !! t_valueref (data t) = Some (text_attribute name s).

Lemma add_text v s c : context_wf c ->
  (_value v = Some (string_block s) \/ _value v = None /\ s = "") -> _datasize v = slen s ->
  addOutputData (_value v) (_datasize v) c = Ret (emit s c).
Proof.
  intros (_ & _ & _ & Ho) Hv ->. unfold addOutputData, emit. rewrite Ho, read_block_all by done.
  destruct Hv as [->|[-> ->]]; cbn [obind].
  - by rewrite <- zlen_string_block, read_block_all.
  - reflexivity.
Qed.

Lemma emit_wf s c : context_wf c -> context_wf (emit s c).
Proof. intros (H1 & H2 & H3 & H4). do 3 (split; [done|]). unfold emit. cbn [output output_size set_output].
  by rewrite zlen_app, zlen_string_block, H4. Qed.

Lemma write_tag_done F path s t c : writes (temp c) s t -> context_wf c ->
  exists t', run (S (S F)) path t c = Some (Ret (t', path, emit s c, EXECUTE_RESULT_OK))
    /\ t_parsed (data t') = true.
Proof.
  intros (Hcl & Hs & Hp & Hr & Hv) Hc. destruct t as [d l]. cbn [data subtags] in *. subst l.
  assert (E : exists v, execute path (mkTag d []) c
    = Some (Ret (mkTag (set_value v d) [], path, emit s c, EXECUTE_RESULT_OK))).
  { unfold execute. cbn [data]. rewrite Hcl. unfold execute_write, update_ref. cbn [data].
    destruct (String.eqb (t_valueref d) ""); cbn [negb].
    - exists (t_value d). cbn [obind data]. rewrite (add_text _ s) by (rewrite ?Hv; by (left + done)). by destruct d.
    - destruct Hv as [name Hn].
      replace (searchAttributeRefByName (temp c) (t_valueref d)) with (Some (text_attribute name s)) by (symmetry; exact Hn).
      destruct s as [|x s]; unfold operator_assign, text_attribute; cbn [_value _datasize].
      + cbn [obind]. eexists. cbn [on_data data]. rewrite clearValue_null. rewrite (add_text _ "") by (done || by right). reflexivity.
      + rewrite (proj2 (Z.ltb_lt _ _)) by apply slen_pos. rewrite <- zlen_string_block, read_block_all by done.
        cbn [obind]. eexists. cbn [on_data data]. rewrite (add_text _ (String x s)); [reflexivity|done|by left|].
        apply zlen_string_block. }
  destruct E as [v E]. exists (mkTag (set_parsed true (set_value v d)) []). split; [|done].
  eapply run_executed; [exact Hp|exact E|by apply subtags_done|done].
Qed.

(** What a context is after the texts. *)
Definition emit_all (l : list string) (c : ESP_Context) : ESP_Context := fold_left (fun c s => emit s c) l c.

Lemma emit_all_spec l : forall c, context_wf c ->
  context_wf (emit_all l c) /\ output (emit_all l c) = (output c ++ string_block (String.concat "" l))%list
  /\ input (emit_all l c) = input c /\ index_end (emit_all l c) = index_end c /\ temp (emit_all l c) = temp c
  /\ results (emit_all l c) = results c /\ close (emit_all l c) = close c.
Proof.
  induction l as [|s l IH]; intros c Hc.
  - split; [done|]. split; [by rewrite app_nil_r|done].
  - destruct (IH (emit s c) (emit_wf s c Hc)) as (H1 & H2 & H3). cbn [emit_all fold_left].
    split; [exact H1|]. split; [|exact H3]. unfold emit_all in H2. rewrite H2. cbn [emit output set_output].
    rewrite <- app_assoc. f_equal. rewrite <- string_block_app. f_equal.
    destruct l as [|s' l]; [by rewrite str_app_nil_r|done].
Qed.

Lemma run_writes F tm ss tags : Forall2 (writes tm) ss tags -> forall before d path c n,
  Forall (fun t => t_parsed (data t) = true) before -> context_wf c -> temp c = tm ->
  (List.length tags < n)%nat ->
  exists tags', run_subtags (run (S (S F))) n path (mkTag d (before ++ tags)) c
    = Some (Ret (mkTag d tags', path, emit_all ss c, EXECUTE_RESULT_OK)).
Proof.
  induction 1 as [|s t ss tags Ht Hts IH]; intros before d path c n Hb Hc Htm Hn.
  - destruct n as [|n]; [cbn in Hn; lia|]. exists before. rewrite app_nil_r. by apply subtags_done.
  - destruct n as [|n]; [cbn in Hn; lia|]. subst tm.
    destruct (write_tag_done F (d :: path) s t c Ht Hc) as (t' & E & Ht').
    destruct (IH (before ++ [t'])%list d path (emit s c) n) as [tags' E'];
      [by apply Forall_app; split; [|constructor]|by apply emit_wf|done|cbn in Hn; lia|].
    exists tags'. rewrite (subtags_step _ _ d before t tags path c t' d path (emit s c)); [exact E'|done| |exact E].
    by destruct Ht as (_ & _ & Hp & _).
Qed.

Lemma sendcmd_writes K D N P : Forall2 (writes (arguments K D N P)) (pieces K D N P) sendcmd_tags.
Proof.
  unfold pieces. let l := eval vm_compute in sendcmd_tags in change sendcmd_tags with l.
  repeat (apply Forall2_cons; split; [repeat (split; [done|])|]); try apply Forall2_nil_2; cbn.
  all: first [reflexivity | eexists; reflexivity].
Qed.

(** ** The command *)

Definition sending (K D N P : string) : string := serializeMqttCommand K D N P.

Lemma sending_pieces K D N P : String.concat "" (pieces K D N P) = sending K D N P.
Proof. reflexivity. Qed.

(** The command at its footer. *)
Definition after_send (q : ESP_Command) : Prop :=
  index q = 2 /\ footer q = footer sendcmd_command /\ roe q = false.

Lemma sendcmd_run F K D N P : (11 <= F)%nat ->
  exists q c, command_run F sendcmd_command (set_results [] (set_temp (arguments K D N P) new_context))
      = Some (Ret (q, c, EXECUTE_RESULT_OK))
    /\ after_send q /\ context_wf c /\ output c = string_block (sending K D N P)
    /\ results c = [arguments K D N P : CC_AttributesType] /\ close c = false.
Proof.
  intros HF. do 11 (destruct F as [|F]; [lia|]). set (c0 := set_results [] _).
  set (q0 := set_index 1 (set_header (parsed_tag (header sendcmd_command)) sendcmd_command)).
  pose proof (command_run_header (S (S (S (S (S (S (S (S (S (S F)))))))))) sendcmd_command c0
    (parsed_tag (header sendcmd_command)) c0 eq_refl eq_refl) as Eh.
  change (set_index (index sendcmd_command + 1) _) with q0 in Eh. rewrite Eh. clear Eh.
  assert (Hc0 : context_wf c0) by (repeat split; cbn; lia).
  set (bd := data (body sendcmd_command)).
  destruct (run_writes (S (S (S (S (S (S F)))))) (arguments K D N P) _ _ (sendcmd_writes K D N P) [] (set_parsed true bd) [] c0
    (S (S (S (S (S (S (S (S F)))))))) (List.Forall_nil _) Hc0 eq_refl) as [tags' E]; [cbn; lia|].
  destruct (emit_all_spec (pieces K D N P) c0 Hc0) as (H1 & H2 & H3 & H4 & H5 & H6 & H7).
  set (c1 := emit_all (pieces K D N P) c0) in *. rewrite sending_pieces in H2.
  rewrite (command_run_body _ q0 c0 (mkTag (set_parsed true bd) tags') c1 eq_refl).
  2:{ unfold run_tree. change (body q0) with (mkTag bd sendcmd_tags).
      rewrite (run_body _ [] bd sendcmd_tags c0 _ _ _ _ eq_refl eq_refl E eq_refl). reflexivity. }
  unfold new_data. change (t_loop _) with false. cbv iota.
  destruct (validateInputData_wf c1 0 H1) as (c2 & Ev & G1 & G2 & G3 & G4 & G5 & G6 & G7);
    [cbn [Z.eqb negb]; destruct H1 as (_ & _ & H & _); lia|].
  rewrite Ev. cbn [obind]. rewrite addResultData_all.
  - cbn [obind fst]. eexists _, _. split; [reflexivity|]. split; [by split_and!|].
    split; [exact G1|]. cbn. rewrite G6, G7, G5, G4, H2, H5, H6, H7. by split_and!.
  - rewrite G4, H5. apply arguments_published.
  - rewrite G4, H5. unfold arguments. apply (insert_non_empty (M := gmap string)).
Qed.

Lemma sendcmd_footer F q c : (3 <= F)%nat -> after_send q ->
  exists q', command_run F q c = Some (Ret (q', c, EXECUTE_RESULT_IDLE)) /\ index q' = 3 /\ roe q' = false.
Proof.
  intros HF (Hi & Hf & Hr). destruct F as [|[|[|F]]]; [lia..|].
  exists (set_index (index q + 1) (set_footer (parsed_tag (footer sendcmd_command)) q)).
  split; [|split; [cbn; lia|done]].
  rewrite (command_run_footer _ _ _ (parsed_tag (footer sendcmd_command)) c Hi) by by rewrite Hf.
  apply command_run_finished. cbn. lia.
Qed.
End Send.

(** ** The runner *)

Section Runner.
  Context `{FL : FloatLib} `{MQ : IMosquitto}.

(** The parameters make a measure that no postprocessor gives to the service. *)
Lemma arguments_given K D N P :
  do_steps true (measure_steps 2 (outputs mqtt_sensor) (arguments K D N P)) mqtt_posts = Ret (mqtt_posts, [], []).
Proof.
  set (m := arguments K D N P : CC_AttributesType). rewrite mqtt_posts_eq, outputs_eq.
  assert (E0 : execute_post m multi_post = Ret multi_post) by reflexivity.
  assert (E1 : execute_post m single_post = Ret single_post) by reflexivity.
  assert (Eo : forall p, isResultValid p = false -> execute_output true m p iot_output = Ret []).
  { intros p Hp. unfold execute_output, attribute_text. cbn [o_kind iot_output].
    change (searchAttributeRefByName m "apikey") with (Some (text_attribute "apikey" K)).
    change (searchAttributeRefByName m "sensorid") with (Some (text_attribute "sensorid" D)).
    change (searchAttributeRefByName m "type") with (@None ESP_Attribute).
    cbv beta iota. rewrite !text_value. cbn [obind]. by rewrite Hp. }
  set (ps := [multi_post; single_post]).
  assert (D0 : forall j, (j < 2)%nat -> do_step true (PInitialize j) ps = Ret (ps, [], [])
    /\ do_step true (PExecute j m) ps = Ret (ps, [], []) /\ do_step true (PResult j) ps = Ret (ps, [], [])
    /\ do_step true (POutput iot_output j m) ps = Ret (ps, [], [])).
  { intros [|[|j]] Hj; [| |lia]; (split; [reflexivity|]); (split; [|split; [reflexivity|]]); unfold do_step; cbv zeta.
    - change (ps !! 0%nat) with (Some multi_post). cbv beta iota. rewrite E0. reflexivity.
    - change (ps !! 0%nat) with (Some multi_post). cbv beta iota. rewrite Eo by done. reflexivity.
    - change (ps !! 1%nat) with (Some single_post). cbv beta iota. rewrite E1. reflexivity.
    - change (ps !! 1%nat) with (Some single_post). cbv beta iota. rewrite Eo by done. reflexivity. }
  destruct (D0 0%nat) as (A1 & A2 & A3 & A4); [lia|]. destruct (D0 1%nat) as (B1 & B2 & B3 & B4); [lia|].
  change (measure_steps 2 [iot_output] m)
    with [PInitialize 0; PExecute 0 m; PResult 0; PInitialize 1; PExecute 1 m; PResult 1;
          POutput iot_output 1 m; POutput iot_output 0 m].
  cbn [do_steps]. rewrite A1. cbn [obind]. rewrite A2. cbn [obind]. rewrite A3. cbn [obind]. rewrite B1. cbn [obind].
  rewrite B2. cbn [obind]. rewrite B3. cbn [obind]. rewrite B4. cbn [obind]. rewrite A4. reflexivity.
Qed.

(** ** The publication *)

(** The library takes the publication, and its loop is called. *)
Definition publishes (x : ESP_MqttWrapper) (topic payload : string) (x' : ESP_MqttWrapper) : Prop :=
  exists x1 rc, call (mqttPublish topic (slen payload) payload 0 false) x = (x1, Ret MOSQ_ERR_SUCCESS)
    /\ call (mqttLoop 100 1) x1 = (x', Ret rc).

(** The world with another wrapper for the input. *)
Definition with_wrapper (x : ESP_MqttWrapper) (w : World) : World :=
  mkWorld (input_of w) (set_clients (<[_sid (input_of w) := x]> (mapMqttClient (plugin_of w))) (plugin_of w)).

Lemma publish_text x t p x' : topic_ok t -> w_status x = MQTT_CONNECTED -> publishes x t p x' ->
  publishMaskTopic (string_block (t ++ "//" ++ p)) (slen (t ++ "//" ++ p)) x = (x', Ret (slen (t ++ "//" ++ p))).
Proof.
  intros Ht Hs (x1 & rc & E1 & E2). set (msg := mkMessage 0 t (string_block p) 0).
  assert (Hser : serialized msg = string_block (t ++ "//" ++ p)).
  { rewrite (serialized_text msg t eq_refl (proj2 Ht)), string_block_app, (string_block_app "//"). done. }
  pose proof (publish_what_arrives x msg Ht []) as E. rewrite app_nil_r, Hser, zlen_string_block, Hs in E.
  rewrite E, decide_True by done. cbn [topic payload msg]. rewrite block_string_block, zlen_string_block.
  unfold sbind, sret. rewrite E1, E2. by rewrite Z.eqb_refl.
Qed.

Lemma write_text w k x t p x' : 0 <= _sid (input_of w) ->
  mapMqttClient (plugin_of w) !! _sid (input_of w) = Some x -> topic_ok t -> w_status x = MQTT_CONNECTED ->
  publishes x t p x' ->
  writeClient k (string_block (t ++ "//" ++ p)) (slen (t ++ "//" ++ p)) w
  = (with_wrapper x' w, Ret (slen (t ++ "//" ++ p))).
Proof.
  intros Hsid Hx Ht Hs Hp. unfold writeClient, sbind, sget. rewrite (proj2 (Z.ltb_ge _ _)) by done.
  unfold in_plugin, publish, sbind, sget, findMqtt. rewrite Hx. unfold on_client.
  by rewrite (publish_text x t p x').
Qed.

(** A wrapper that is not connected takes nothing. *)
Lemma write_refused w k x b n : 0 <= _sid (input_of w) ->
  mapMqttClient (plugin_of w) !! _sid (input_of w) = Some x -> w_status x <> MQTT_CONNECTED ->
  writeClient k b n w = (w, Ret 0).
Proof.
  intros Hsid Hx Hs. unfold writeClient, sbind, sget. rewrite (proj2 (Z.ltb_ge _ _)) by done.
  unfold in_plugin, publish, sbind, sget, findMqtt. rewrite Hx. unfold on_client, publishMaskTopic, sbind, sget.
  rewrite decide_False by done. cbn. rewrite insert_id by done. by destruct w as [i []].
Qed.

(** ** The turns of the runner *)

(** There is nothing to read for an identifier that is not a client's. *)
Lemma readClient_none w k len : 0 <= _sid (input_of w) -> clients (input_of w) !! k = None ->
  readClient k len w = (w, Ret ([], -1)).
Proof. intros Hs Hk. unfold readClient, sbind, sget. rewrite (proj2 (Z.ltb_ge _ _)) by done. by rewrite Hk. Qed.

Definition start_context (K D N P : string) : ESP_Context := set_temp (arguments K D N P) new_context.

(** A runner between the first turn and the last, with [out] left to write. *)
Definition sent_runner (w : World) (id : Z) (q : ESP_Command) (c : ESP_Context) (m : CC_AttributesType) : Runner :=
  mkRunner (IN := mqtt_input) w id true true q c EXECUTE_RESULT_OK mqtt_posts [ResultCallback [m]] (mkResult [m] []).

Lemma write_some (r : Runner) w' n : context_wf (context r) -> 0 < output_size (context r) ->
  writeClient (r_id r) (output (context r)) (output_size (context r)) (r_io r) = (w', Ret n) ->
  0 <= n <= output_size (context r) ->
  write_output r = Ret (set_context (set_output (drop (Z.to_nat n) (output (context r))) (output_size (context r) - n)
                          (context r)) (set_io w' r)).
Proof.
  intros Hc Ho Hw Hn. unfold write_output, getAvailableOutputData. rewrite (proj2 (Z.ltb_lt _ _) Ho).
  unfold call_io. cbn [input_write mqtt_input]. unfold getOutputData, EspContext.getOutputSize. rewrite Hw. cbn [obind].
  rewrite (proj2 (Z.leb_le _ _)) by lia. unfold removeOutputData. cbn [context set_io].
  rewrite (proj2 (Z.leb_le _ _)), (proj2 (Z.leb_le _ _)) by lia. done.
Qed.

Lemma output_dropped c n : context_wf c -> 0 <= n <= output_size c ->
  context_wf (set_output (drop (Z.to_nat n) (output c)) (output_size c - n) c).
Proof.
  intros (H1 & H2 & H3 & H4) Hn. do 3 (split; [done|]). cbn. rewrite zlen_drop; lia.
Qed.

Lemma first_send F w w' K D N P n : (11 <= F)%nat -> 0 <= _sid (input_of w) ->
  clients (input_of w) !! _sid (input_of w) = None ->
  writeClient (_sid (input_of w)) (string_block (sending K D N P)) (slen (sending K D N P)) w = (w', Ret n) ->
  0 <= n <= slen (sending K D N P) ->
  exists q c, after_send q /\ context_wf c /\ output c = drop (Z.to_nat n) (string_block (sending K D N P))
    /\ close c = false
    /\ runner_turn F mqtt_sensor (new_runner w (_sid (input_of w)) true sendcmd_command (start_context K D N P) mqtt_posts)
       = Some (Ret (sent_runner w' (_sid (input_of w)) q c (arguments K D N P), true)).
Proof.
  intros HF Hsid Hcl Hw Hn. destruct (sendcmd_run F K D N P HF) as (q & c & E & Hq & Hc & Ho & Hr & Hclose).
  assert (Hs : output_size c = slen (sending K D N P)) by (destruct Hc as (_ & _ & _ & ->); by rewrite Ho, zlen_string_block).
  assert (Hpos : 0 < output_size c).
  { rewrite Hs. unfold sending, serializeMqttCommand, slen. rewrite !str_length_app. cbn. lia. }
  rewrite <- Ho, <- Hs in Hw. rewrite <- Hs in Hn.
  exists q, (set_output (drop (Z.to_nat n) (output c)) (output_size c - n) c).
  split; [done|]. split; [by apply output_dropped|]. split; [by cbn; rewrite Ho|]. split; [done|].
  unfold runner_turn, call_io. cbn [r_id r_io new_runner input_read mqtt_input].
  rewrite (readClient_none w) by done. cbn [obind fbind]. change (0 <? -1) with false.
  cbn [status set_io new_runner]. rewrite bool_decide_eq_true_2, orb_true_r by done.
  unfold take_input. change (0 <? -1) with false. cbn [fbind]. unfold run_command.
  cbn [command context set_io new_runner]. unfold start_context. rewrite E. cbn [fbind].
  destruct Hq as (_ & _ & Hroe). cbn [command set_status set_context set_command]. rewrite Hroe. cbn [fbind].
  rewrite (write_some _ w' n) by done. cbn [fbind].
  unfold new_results. cbn [context set_status set_context set_command set_io results set_output]. rewrite Hr.
  change (0 <? zlen [(arguments K D N P : CC_AttributesType)]) with true.
  cbn [runOnce set_status set_context set_command add_events set_io new_runner result attresults app].
  unfold give_measures. cbn [posts set_result_of add_events set_status set_context set_command set_io new_runner].
  change (List.length mqtt_posts) with 2%nat. change (publisher mqtt_sensor) with true. rewrite arguments_given.
  cbn [obind fbind runOnce add_events set_posts set_status set_context set_command set_io new_runner set_result_of].
  unfold close_if_asked. cbn [context add_events set_posts set_status set_context set_command set_io set_result_of close set_output].
  rewrite Hclose. reflexivity.
Qed.

Lemma close_none w k : 0 <= _sid (input_of w) -> clients (input_of w) !! k = None ->
  closeClient k w = (w, Ret true).
Proof.
  intros Hs Hk. unfold closeClient, sbind, sget. rewrite (proj2 (Z.ltb_ge _ _)) by done.
  unfold on_input, smodify, sret. rewrite delete_id by done. by destruct w as [[] p].
Qed.

(** What is written at once ends the command, and the runner. *)
Lemma runner_ends F t w w' K D N P : (11 <= F)%nat -> 0 <= _sid (input_of w) ->
  clients (input_of w) !! _sid (input_of w) = None -> input_of w' = input_of w ->
  writeClient (_sid (input_of w)) (string_block (sending K D N P)) (slen (sending K D N P)) w
    = (w', Ret (slen (sending K D N P))) ->
  exists r, runLoop (3 + t) F mqtt_sensor
      (new_runner w (_sid (input_of w)) true sendcmd_command (start_context K D N P) mqtt_posts) = Some (Ret r)
    /\ r_io r = w'.
Proof.
  intros HF Hsid Hcl Hin Hw. set (id := _sid (input_of w)) in *.
  destruct (first_send F w w' K D N P (slen (sending K D N P)) HF Hsid Hcl Hw) as (q & c & Hq & Hc & Ho & Hclose & E1);
    [pose proof (slen_nonneg (sending K D N P)); lia|]. fold id in E1.
  rewrite drop_ge in Ho by (pose proof (zlen_string_block (sending K D N P)) as E; unfold zlen in E; lia).
  set (r1 := sent_runner w' id q c (arguments K D N P)) in *.
  assert (Hread : readClient id RUNNER_MAX_BUFFER w' = (w', Ret ([], -1))) by (apply readClient_none; by rewrite Hin).
  destruct (sendcmd_footer F q (set_results [] c) ltac:(lia) Hq) as (q' & E2 & Hq' & Hroe).
  pose proof (idle_turn F r1 q' Hread eq_refl Hc Ho Hclose E2 Hroe) as T2.
  set (r2 := set_status EXECUTE_RESULT_IDLE (set_context (set_results [] (context r1)) (set_command q' r1))) in *.
  assert (T3 : runner_turn F mqtt_sensor r2 = Some (Ret (set_keep false r2, false))).
  { apply (third_turn F r2 Hread eq_refl Hq'). cbn. destruct Hc as (_ & _ & _ & ->). by rewrite Ho. }
  exists (set_io (IN := mqtt_input) w' (set_keep false r2)). split; [|done].
  unfold runLoop. cbn [r_id new_runner]. rewrite (proj2 (Z.ltb_ge _ _)) by done. cbn [fbind].
  change (3 + t)%nat with (S (S (S t))).
  assert (Hloop : forall n r, keepRunning r = true -> r_id r = id ->
    runner_loop (S n) F mqtt_sensor r
    = fuel! t := runner_turn F mqtt_sensor r in
      if snd t : bool then runner_loop n F mqtt_sensor (fst t) else Some (Ret (fst t))).
  { intros n r Hk Hr. cbn [runner_loop]. by rewrite Hk, Hr, (proj2 (Z.leb_le _ _) Hsid). }
  rewrite Hloop, E1 by done. cbn [fbind snd fst]. rewrite Hloop, T2 by done. cbn [fbind snd fst].
  rewrite Hloop, T3 by done. cbn [fbind snd fst].
  unfold call_io. cbn [input_close mqtt_input]. change (r_id (set_keep false r2)) with id.
  change (r_io (set_keep false r2)) with w'. rewrite close_none by by rewrite Hin. reflexivity.
Qed.

(** What is never written keeps the runner going. *)
Definition stuck (w : World) (r : Runner) : Prop :=
  r_io r = w /\ r_id r = _sid (input_of w) /\ keepRunning r = true /\ (after_send (command r) \/ index (command r) = 3 /\ roe (command r) = false)
  /\ context_wf (context r) /\ 0 < output_size (context r) /\ close (context r) = false.

Lemma stuck_turn F w r : (3 <= F)%nat -> 0 <= _sid (input_of w) -> clients (input_of w) !! _sid (input_of w) = None ->
  (forall b n, writeClient (_sid (input_of w)) b n w = (w, Ret 0)) -> stuck w r ->
  exists r', runner_turn F mqtt_sensor r = Some (Ret (r', true)) /\ stuck w r'.
Proof.
  intros HF Hsid Hcl Hwr (Hio & Hid & Hk & Hq & Hc & Ho & Hclose).
  assert (E : exists q', command_run F (command r) (set_results [] (context r))
      = Some (Ret (q', set_results [] (context r), EXECUTE_RESULT_IDLE)) /\ index q' = 3 /\ roe q' = false).
  { destruct Hq as [Hq|[Hi Hroe]]; [by apply sendcmd_footer|]. exists (command r). split; [|done].
    destruct F; [lia|]. by apply command_run_finished. }
  destruct E as (q' & E & Hq' & Hroe).
  eexists. split.
  - unfold runner_turn, call_io. cbn [input_read mqtt_input]. rewrite Hid, Hio.
    rewrite (readClient_none w) by done. cbn [obind fbind]. change (0 <? -1) with false.
    cbn [context set_io]. unfold getAvailableOutputData. rewrite (proj2 (Z.ltb_lt _ _) Ho). cbn [orb].
    unfold take_input. change (0 <? -1) with false. cbn [fbind]. unfold run_command.
    cbn [command context set_io]. rewrite E. cbn [fbind]. cbn [command set_status set_context set_command].
    rewrite Hroe. cbn [fbind]. rewrite (write_some _ w 0); [|exact Hc|exact Ho| |cbn; lia].
    2:{ cbn [r_id r_io set_io set_status set_context set_command]. rewrite Hid. apply Hwr. }
    cbn [fbind]. rewrite no_results by done. cbn [fbind]. reflexivity.
  - unfold close_if_asked. cbn [context set_status set_context set_command set_io close set_output set_results].
    rewrite Hclose. split; [done|]. split; [done|]. split; [done|]. split; [by right|].
    split; [|split; [cbn; lia|done]]. apply (output_dropped (set_results [] (context r)) 0 Hc). cbn. lia.
Qed.

Lemma stuck_loop F w n : forall r, (3 <= F)%nat -> 0 <= _sid (input_of w) ->
  clients (input_of w) !! _sid (input_of w) = None ->
  (forall b n, writeClient (_sid (input_of w)) b n w = (w, Ret 0)) -> stuck w r ->
  runner_loop n F mqtt_sensor r = None.
Proof.
  induction n as [|n IH]; intros r HF Hsid Hcl Hwr Hr; [done|].
  destruct (stuck_turn F w r HF Hsid Hcl Hwr Hr) as (r' & E & Hr'). destruct Hr as (_ & Hid & Hk & _).
  cbn [runner_loop]. rewrite Hk, Hid, (proj2 (Z.leb_le _ _) Hsid), E. cbn [andb fbind snd fst]. by apply IH.
Qed.
End Runner.

(** ** The service *)

Definition command_topic (K D N : string) : string := K ++ "/" ++ D ++ "/cmd/" ++ N.

Lemma sending_topic K D N P : sending K D N P = command_topic K D N ++ "//" ++ P.
Proof. unfold sending, serializeMqttCommand, command_topic. by rewrite <- !str_app_assoc. Qed.

Section Sent.
  Context `{HP : PropertyTree} `{HM : Mongo} `{HN : Network} `{CD : !Container Device.Device}
    `{HE : !EqDecision ptree} `{CC : !Container (Command.Command ptree)} `{FL : FloatLib} `{MQ : IMosquitto}.
  Context (writer : network -> option World) (set_writer : World -> network -> network).

Local Abbreviation execute_mqtt_command :=
  (execute_mqtt_command writer set_writer (parseCommands sensormqtt) mqtt_sensor mqtt_posts).

(** The input for commands is connected. *)
Definition ready (w : World) (x : ESP_MqttWrapper) : Prop :=
  0 <= _sid (input_of w) /\ clients (input_of w) !! _sid (input_of w) = None
  /\ mapMqttClient (plugin_of w) !! _sid (input_of w) = Some x.

Lemma sendcmd_runner turns fuel w K D N P : Forall (fun v => slen v <= ESP_PARSER_MAX_VALUE_SIZE) [K; D; N; P] ->
  executeRunner (IN := mqtt_input) turns fuel mqtt_sensor (parseCommands sensormqtt) "sendcmd"
    (sendcmd_params K D N P) mqtt_posts (_sid (input_of w)) w
  = fuel! r := runLoop turns fuel mqtt_sensor
      (new_runner w (_sid (input_of w)) true sendcmd_command (start_context K D N P) mqtt_posts) in
    Some (Ret (result r, events r, r_io r)).
Proof.
  intros Hl. unfold executeRunner. rewrite sendcmd_created. cbn [fbind].
  change (addParams (params sendcmd_command) new_context) with (Ret new_context). cbn [fbind].
  by rewrite add_arguments.
Qed.

(** C16. A command that is sent is published once: when the input for commands is
    connected and the library takes the publication, the service answers 202
    after three turns of the runner, and has published, on the topic of the
    command of the device, the identifier and the body; nothing else of the
    agent or of the input changes.  When it is not connected, the runner goes
    on for ever, so the service does not answer. *)
Theorem command_published (a : Agent) (w : World) (x x' : ESP_MqttWrapper) (K D N body id : string)
    (turns fuel : nat) (Hw : writer (a_outside a) = Some w) (Hready : ready w x)
    (Hlen : Forall (fun v => slen v <= ESP_PARSER_MAX_VALUE_SIZE) [K; D; N; command_payload id body])
    (HF : (11 <= fuel)%nat) :
  (topic_ok (command_topic K D N) -> w_status x = MQTT_CONNECTED ->
   publishes x (command_topic K D N) (command_payload id body) x' ->
   execute_mqtt_command (3 + turns) fuel K D N body id a
   = Some (with_writer set_writer (with_wrapper x' w) a, Ret 202))
  /\ (w_status x <> MQTT_CONNECTED -> execute_mqtt_command turns fuel K D N body id a = None).
Proof.
  destruct Hready as (Hsid & Hcl & Hx). unfold MqttService.execute_mqtt_command. rewrite Hw.
  rewrite !sendcmd_runner by done. set (P := command_payload id body) in *. split.
  - intros Ht Hs Hp. pose proof (write_text w (_sid (input_of w)) x (command_topic K D N) P x' Hsid Hx Ht Hs Hp) as E.
    rewrite <- sending_topic in E.
    destruct (runner_ends fuel turns w (with_wrapper x' w) K D N P HF Hsid Hcl eq_refl E) as (r & Er & Hio).
    rewrite Er. cbn [fbind]. by rewrite Hio.
  - intros Hs. pose proof (fun b n => write_refused w (_sid (input_of w)) x b n Hsid Hx Hs) as Hwr.
    destruct (first_send fuel w w K D N P 0 HF Hsid Hcl (Hwr _ _)) as (q & c & Hq & Hc & Ho & Hclose & E);
      [split; [done|apply slen_nonneg]|].
    unfold runLoop. cbn [r_id new_runner]. rewrite (proj2 (Z.ltb_ge _ _)) by done. cbn [fbind].
    destruct turns as [|turns]; [done|]. cbn [runner_loop r_id new_runner keepRunning].
    rewrite (proj2 (Z.leb_le _ _) Hsid), E. cbn [andb fbind snd fst].
    rewrite (stuck_loop fuel w turns); [done|lia|done|done|exact Hwr|]. repeat (split; [done|]).
    split; [by left|]. split; [exact Hc|]. split; [|done]. destruct Hc as (_ & _ & _ & Hs').
    cbn [context sent_runner]. rewrite Hs', Ho. change (Z.to_nat 0) with 0%nat. rewrite drop_0.
    rewrite zlen_string_block. unfold sending, serializeMqttCommand, slen. rewrite !str_length_app. cbn. lia.
Qed.
End Sent.

(** ** Examples *)

Local Existing Instance boost_reference.
Local Existing Instance mongo_reference.
Local Existing Instance list_container.

(** A library that remembers what is published. *)
#[local] Instance recording_mosquitto : IMosquitto := {|
  mosq := list (string * string);
  mqttConnect _ _ _ l := (0, [on_connect 0], l);
  mqttReconnect l := (0, [on_connect 0], l);
  mqttLoop _ _ l := (0, [], l);
  mqttPublish topic _ payload _ _ l := (0, [on_publish 1], (l ++ [(topic, payload)])%list);
  mqttSubscribe _ _ l := (0, [], l);
  mqttUnsubscribe _ l := (0, [], l);
  mqttDisconnect l := (0, [on_disconnect 0], l);
  mqttSetPassword _ _ l := (0, [], l);
  ESP_MosquittoImpl _ _ := []
|}.

Definition recording_wrapper (l : list (string * string)) : ESP_MqttWrapper :=
  mkWrapper true false new_buffer l 1883 "localhost" "apikey/sensorid/type" "" MQTT_CONNECTED.
Definition writer_world : World :=
  mkWorld (set_sid 0 (new_input "mqttwriter")) (set_clients {[0 := recording_wrapper []]} (new_plugin 7)).

Lemma command_published_witness :
  let sent := recording_wrapper [("key/lamp/cmd/ping", "cmdid|7#lamp@ping|now")] in
  MqttService.execute_mqtt_command (FL := float_zero) (fun _ => Some writer_world) (fun _ n => n)
    (parseCommands sensormqtt) mqtt_sensor mqtt_posts 3 11 "key" "lamp" "ping" "lamp@ping|now" "7" agent_start
  = Some (with_writer (fun _ n => n) (with_wrapper sent writer_world) agent_start, Ret 202).
Proof.
  intros sent.
  destruct (@command_published _ _ _ _ _ _ float_zero _ (fun _ => Some writer_world) (fun _ n => n) agent_start
    writer_world (recording_wrapper []) sent "key" "lamp" "ping" "lamp@ping|now" "7" 0 11) as [H _].
  - reflexivity.
  - split; [discriminate|]. split; reflexivity.
  - repeat constructor; discriminate.
  - lia.
  - apply H; [split; reflexivity|reflexivity|]. exists sent, 0. split; reflexivity.
Defined.
