(* ===== verification/Statistic.v ===== *)
(** * Counters: [src/src/rest/iot_statistic.cc]

    Accumulators by hour and name, of the last hours in which something was
    counted.  The accumulator of Boost is a parameter, and so is the clock: the
    time of a call is its argument. *)
From stdpp Require Import base tactics list gmap strings sorting.
From Stdlib Require Import ZArith Lia Ascii String.
From S2P Require Import Prelude CppString StdMap.

Local Open Scope string_scope.
Local Open Scope Z_scope.

Section Statistic.
  (** the accumulator, the empty one, and a value added to one *)
  Context {V : Type} {A : Type} (acc0 : A) (accumulate : A -> V -> A).

Record IoTStatistic : Type := mkStatistic {
  _name : string;
  _enabled : bool;
  _accumulators_ : gmap Z (gmap string A)
}.

Implicit Types s : IoTStatistic.

Definition new_statistic (name : string) : IoTStatistic := mkStatistic name true ∅.
Definition set_enable (enabled : bool) s : IoTStatistic := mkStatistic (_name s) enabled (_accumulators_ s).
Definition set_accumulators (m : gmap Z (gmap string A)) s : IoTStatistic := mkStatistic (_name s) (_enabled s) m.

(** The hour of a time. *)
Definition acc_time (to : Z) : Z := Z.quot to 3600 * 3600.

(** The first key of a map of hours. *)
Definition first_hour (m : gmap Z (gmap string A)) : option Z :=
  fold_right (fun h o => match o with Some h' => Some (Z.min h h') | None => Some h end) None (map fst (map_to_list m)).

(** [reset]: the first hour goes when there are 24. *)
Definition reset s : IoTStatistic :=
  if (24 <=? base.size (_accumulators_ s))%nat then
    match first_hour (_accumulators_ s) with
    | Some h => set_accumulators (delete h (_accumulators_ s)) s
    | None => s
    end
  else s.

(** [map::insert] of an hour. *)
Definition insert_hour (m : gmap Z (gmap string A)) (h : Z) (accs : gmap string A) : gmap Z (gmap string A) :=
  match m !! h with Some _ => m | None => <[h := accs]> m end.

(** [operator[]]: the accumulator, made when there is none; none when the
    statistic is disabled. *)
Definition index (to : Z) (acc_name : string) s : IoTStatistic * option A :=
  if negb (_enabled s) then (s, None)
  else
    match _accumulators_ s !! acc_time to with
    | Some accs =>
        match accs !! acc_name with
        | Some acc => (s, Some acc)
        | None => (set_accumulators (<[acc_time to := <[acc_name := acc0]> accs]> (_accumulators_ s)) s, Some acc0)
        end
    | None =>
        let s := reset s in
        (set_accumulators (insert_hour (_accumulators_ s) (acc_time to) {[acc_name := acc0]}) s, Some acc0)
    end.

(** [add] *)
Definition add (to : Z) (acc_name : string) (value : V) s : IoTStatistic :=
  if negb (_enabled s) then s
  else
    match _accumulators_ s !! acc_time to with
    | Some accs =>
        let acc := default acc0 (accs !! acc_name) in
        set_accumulators (<[acc_time to := <[acc_name := accumulate acc value]> accs]> (_accumulators_ s)) s
    | None =>
        let s := reset s in
        set_accumulators (insert_hour (_accumulators_ s) (acc_time to) {[acc_name := accumulate acc0 value]}) s
    end.

(** The statistics of a resource, [rest_handle.cc]: one that is there stays. *)
Definition add_statistic_counter (name_stat : string) (enabled : bool) (_statistics : gmap string IoTStatistic)
    : gmap string IoTStatistic :=
  emplace _statistics name_stat (set_enable enabled (new_statistic name_stat)).

Definition get_statistic_counter (name_stat : string) (_statistics : gmap string IoTStatistic)
    : gmap string IoTStatistic * IoTStatistic :=
  let m := emplace _statistics name_stat (new_statistic name_stat) in
  (m, default (new_statistic name_stat) (m !! name_stat)).

(** ** The counters of the last hours *)

Definition hour_of (e : Z * string * V) : Z := acc_time (fst (fst e)).

(** What was added under a name in an hour. *)
Definition added (events : list (Z * string * V)) (h : Z) (name : string) : list V :=
  map snd (List.filter (fun e => Z.eqb (hour_of e) h && String.eqb (snd (fst e)) name) events).

(** The accumulators of a map are what was added in their hours, and the hours
    that are not there are before all of at least 24 that are. *)
Record last_hours (events : list (Z * string * V)) (m : gmap Z (gmap string A)) : Prop := {
  lh_size : (base.size m <= 24)%nat;
  lh_known h : is_Some (m !! h) -> exists e, In e events /\ hour_of e = h;
  lh_values h accs name : m !! h = Some accs ->
    accs !! name = match added events h name with
                   | [] => None
                   | vs => Some (fold_left accumulate vs acc0)
                   end;
  lh_gone e : In e events -> m !! hour_of e = None ->
    base.size m = 24%nat /\ forall h, is_Some (m !! h) -> hour_of e < h
}.

Definition add_all (events : list (Z * string * V)) s : IoTStatistic :=
  fold_left (fun s e => add (fst (fst e)) (snd (fst e)) (snd e) s) events s.

(** Calls in the order of time. *)
Fixpoint in_time (from : Z) (events : list (Z * string * V)) : Prop :=
  match events with
  | [] => True
  | e :: rest => from <= fst (fst e) /\ in_time (fst (fst e)) rest
  end.

Lemma acc_time_mono a b : a <= b -> acc_time a <= acc_time b.
Proof. unfold acc_time. intros H. pose proof (Z.quot_le_mono a b 3600). lia. Qed.

Lemma first_hour_spec m : m <> ∅ ->
  exists h, first_hour m = Some h /\ is_Some (m !! h) /\ forall k, is_Some (m !! k) -> h <= k.
Proof.
  intros Hm. unfold first_hour.
  assert (Hk : forall k, is_Some (m !! k) <-> In k (map fst (map_to_list m))).
  { intros k. rewrite in_map_iff. split.
    - intros [v Hv]. exists (k, v). split; [done|]. by apply list_elem_of_In, elem_of_map_to_list.
    - intros ([k' v] & <- & H). apply list_elem_of_In, elem_of_map_to_list in H. by exists v. }
  setoid_rewrite Hk. assert (Hn : map fst (map_to_list m) <> []).
  { destruct (map_to_list m) eqn:E; [by apply map_to_list_empty_iff in E|done]. }
  clear Hk Hm. induction (map fst (map_to_list m)) as [|h l IH]; [done|]. cbn.
  destruct l as [|h' l]; [exists h; split; [done|]; split; [by left|intros k [<-|[]]; lia]|].
  destruct IH as (x & -> & Hx & Hmin); [done|]. exists (Z.min h x). split; [done|]. split.
  - destruct (Z.min_spec h x) as [[_ ->]|[_ ->]]; [by left|by right].
  - intros k [<-|Hk]; [lia|]. specialize (Hmin k Hk). lia.
Qed.

Lemma added_snoc events t n v h name :
  added (events ++ [(t, n, v)])%list h name
  = (added events h name ++ (if Z.eqb (acc_time t) h && String.eqb n name then [v] else []))%list.
Proof.
  unfold added. rewrite List.filter_app, map_app. cbn. unfold hour_of. cbn.
  by destruct (Z.eqb (acc_time t) h && String.eqb n name).
Qed.

Lemma added_none events h name : (forall e, In e events -> hour_of e <> h) -> added events h name = [].
Proof.
  intros H. unfold added. induction events as [|e events IH]; [done|]. cbn.
  destruct (Z.eqb (hour_of e) h) eqn:E; [apply Z.eqb_eq in E; by destruct (H e (or_introl eq_refl))|].
  apply IH. intros e' He'. by apply H; right.
Qed.

Lemma fold_snoc vs v : match (vs ++ [v])%list with [] => None | ws => Some (fold_left accumulate ws acc0) end
  = Some (accumulate (fold_left accumulate vs acc0) v).
Proof. destruct vs as [|w vs]; [done|]. cbn. by rewrite fold_left_app. Qed.

(** An hour that has counters gets one value more. *)
Lemma same_hour events m accs t n v : last_hours events m -> m !! acc_time t = Some accs ->
  last_hours (events ++ [(t, n, v)])
    (<[acc_time t := <[n := accumulate (default acc0 (accs !! n)) v]> accs]> m).
Proof.
  intros [Hs Hk Hv Hg] Hm. split.
  - by rewrite map_size_insert_Some.
  - intros h. rewrite lookup_insert. case_decide as E; intros Hh.
    + exists (t, n, v). split; [apply in_app_iff; right; by left|done].
    + destruct (Hk h Hh) as (e & He & <-). exists e. split; [apply in_app_iff; by left|done].
  - intros h accs' name. rewrite added_snoc, lookup_insert. case_decide as E.
    + intros [= <-]. subst h. rewrite Z.eqb_refl. cbn. rewrite lookup_insert. case_decide as En.
      * subst name. rewrite String.eqb_refl, fold_snoc, (Hv _ _ n Hm).
        by destruct (added events (acc_time t) n).
      * apply String.eqb_neq in En. rewrite En, app_nil_r. by apply Hv.
    + intros Hh. apply Z.eqb_neq in E. rewrite E. cbn. rewrite app_nil_r. by apply Hv.
  - intros e. rewrite lookup_insert. case_decide as E; [done|].
    intros [He|[<-|[]]]%in_app_iff Hn; [|done]. destruct (Hg e He Hn) as [H24 Hlt].
    rewrite map_size_insert_Some by done. split; [done|]. intros h. rewrite lookup_insert.
    case_decide as Eh; [|apply Hlt]. intros _. subst h. apply Hlt. by exists accs.
Qed.

(** A new hour, when there is room. *)
Lemma new_hour events m t n v : last_hours events m -> m !! acc_time t = None -> (base.size m < 24)%nat ->
  last_hours (events ++ [(t, n, v)]) (<[acc_time t := {[n := accumulate acc0 v]}]> m).
Proof.
  intros [Hs Hk Hv Hg] Hm Hroom.
  assert (Hnew : forall e, In e events -> hour_of e <> acc_time t).
  { intros e He E. rewrite <- E in Hm. destruct (Hg e He Hm). lia. }
  split.
  - rewrite map_size_insert_None by done. lia.
  - intros h. rewrite lookup_insert. case_decide as E; intros Hh.
    + exists (t, n, v). split; [apply in_app_iff; right; by left|done].
    + destruct (Hk h Hh) as (e & He & <-). exists e. split; [apply in_app_iff; by left|done].
  - intros h accs' name. rewrite added_snoc, lookup_insert. case_decide as E.
    + intros [= <-]. subst h. rewrite Z.eqb_refl, (added_none _ _ _ Hnew). cbn.
      rewrite lookup_singleton. case_decide as En; [subst; by rewrite String.eqb_refl|].
      apply String.eqb_neq in En. by rewrite En.
    + intros Hh. apply Z.eqb_neq in E. rewrite E. cbn. rewrite app_nil_r. by apply Hv.
  - intros e. rewrite lookup_insert. case_decide as E; [done|].
    intros [He|[<-|[]]]%in_app_iff Hn; [|done]. destruct (Hg e He Hn). lia.
Qed.

(** A new hour, after the first of 24 has gone. *)
Lemma next_hour events m h0 t n v : last_hours events m -> base.size m = 24%nat -> m !! acc_time t = None ->
  is_Some (m !! h0) -> (forall k, is_Some (m !! k) -> h0 <= k) -> (forall e, In e events -> hour_of e <= acc_time t) ->
  last_hours (events ++ [(t, n, v)]) (<[acc_time t := {[n := accumulate acc0 v]}]> (delete h0 m)).
Proof.
  intros [Hs Hk Hv Hg] H24 Hm H0 Hmin Hle.
  assert (Hall : forall k, is_Some (m !! k) -> k < acc_time t).
  { intros k Hkm. destruct (Hk k Hkm) as (e & He & E). specialize (Hle e He). rewrite E in Hle.
    enough (k <> acc_time t) by lia. intros ->. by rewrite Hm in Hkm; destruct Hkm. }
  assert (Hnew : forall e, In e events -> hour_of e <> acc_time t).
  { intros e He E. rewrite <- E in Hm. destruct (Hg e He Hm) as [_ Hlt]. specialize (Hlt h0 H0).
    specialize (Hall h0 H0). lia. }
  assert (Hd : delete h0 m !! acc_time t = None) by (rewrite lookup_delete; by case_decide).
  assert (Hsize : base.size (delete h0 m) = 23%nat) by (rewrite map_size_delete_Some by done; lia).
  split.
  - rewrite map_size_insert_None by done. lia.
  - intros h. rewrite lookup_insert. case_decide as E; intros Hh.
    + exists (t, n, v). split; [apply in_app_iff; right; by left|done].
    + rewrite lookup_delete in Hh. case_decide as Eh; [by destruct Hh|].
      destruct (Hk h Hh) as (e & He & <-). exists e. split; [apply in_app_iff; by left|done].
  - intros h accs' name. rewrite added_snoc, lookup_insert. case_decide as E.
    + intros [= <-]. subst h. rewrite Z.eqb_refl, (added_none _ _ _ Hnew). cbn.
      rewrite lookup_singleton. case_decide as En; [subst; by rewrite String.eqb_refl|].
      apply String.eqb_neq in En. by rewrite En.
    + rewrite lookup_delete. case_decide; [done|]. intros Hh. apply Z.eqb_neq in E. rewrite E. cbn.
      rewrite app_nil_r. by apply Hv.
  - intros e He Hn. rewrite map_size_insert_None, Hsize by done. split; [done|].
    rewrite lookup_insert in Hn. case_decide as E; [done|].
    apply in_app_iff in He as [He|[<-|[]]]; [|done]. intros h. rewrite lookup_insert.
    case_decide as Eh; [intros _; subst h; pose proof (Hle e He); lia|].
    rewrite lookup_delete. case_decide as Ed; [by intros []|]. intros Hh.
    rewrite lookup_delete in Hn. case_decide as Ee.
    + rewrite <- Ee. specialize (Hmin h Hh). lia.
    + by apply (Hg e He Hn).
Qed.

Lemma add_keeps s events t n v : _enabled s = true -> last_hours events (_accumulators_ s) ->
  (forall e, In e events -> fst (fst e) <= t) ->
  last_hours (events ++ [(t, n, v)]) (_accumulators_ (add t n v s)) /\ _enabled (add t n v s) = true.
Proof.
  intros He Hl Hle. unfold add. rewrite He. cbn [negb].
  destruct (_accumulators_ s !! acc_time t) as [accs|] eqn:Em; [by split; [apply same_hour|]|].
  unfold reset. destruct (24 <=? base.size (_accumulators_ s))%nat eqn:E24.
  - apply Nat.leb_le in E24. pose proof (lh_size _ _ Hl).
    assert (H24 : base.size (_accumulators_ s) = 24%nat) by lia.
    destruct (first_hour_spec (_accumulators_ s)) as (h0 & Hf & H0 & Hmin).
    { intros E. by rewrite E, map_size_empty in H24. }
    rewrite Hf. cbn. unfold insert_hour. rewrite lookup_delete, Em.
    replace (if decide (h0 = acc_time t) then None else None) with (@None (gmap string A)) by by case_decide.
    split; [|done]. apply next_hour; try done. intros e Hin. apply acc_time_mono. by apply Hle.
  - apply Nat.leb_gt in E24. cbn. unfold insert_hour. rewrite Em. split; [by apply new_hour|done].
Qed.

Lemma counts_keep : forall events s before from, _enabled s = true -> last_hours before (_accumulators_ s) ->
  (forall e, In e before -> fst (fst e) <= from) -> in_time from events ->
  last_hours (before ++ events) (_accumulators_ (add_all events s)).
Proof.
  induction events as [|[[t n] v] events IH]; intros s before from He Hl Hb Ht; [by rewrite app_nil_r|].
  destruct Ht as [Hf Ht]. cbn in Hf, Ht.
  assert (Hb' : forall e, In e before -> fst (fst e) <= t) by (intros e Hin; specialize (Hb e Hin); lia).
  destruct (add_keeps s before t n v He Hl Hb') as [H1 H2].
  change ((t, n, v) :: events)%list with ([(t, n, v)] ++ events)%list. rewrite app_assoc.
  apply IH with (from := t); [done|done| |done].
  intros e [Hin|[<-|[]]]%in_app_iff; [by apply Hb'|done].
Qed.

(** Whatever is counted, in the order of time, the counters are those of the
    last hours, at most 24: each holds exactly what was added in its hour. *)
Theorem counts_last_hours name events from : in_time from events ->
  last_hours events (_accumulators_ (add_all events (new_statistic name))).
Proof.
  intros Ht. apply (counts_keep events (new_statistic name) [] from); [done| |done|done].
  split; cbn; [rewrite map_size_empty; lia|..]; try done; by intros h []; rewrite lookup_empty in *.
Qed.
End Statistic.
