(* ===== verification/OAuth.v ===== *)
(** * Tokens and roles: [src/src/util/oauth_comm.cc]

    An [OAuth] object asks the identity service, one request after the other:
    a token for the agent, the user of a token, the projects of the user's
    domain, the roles of the user.  Requests are asynchronous: each goes out
    with the handler of its response, and the handler sends the next.  The
    deprecated synchronous mode waits for the response instead.

    The connection is [HttpClient]; what it answers is a [reply].  The time of
    the token and the map of connections are not read by any code, and left
    out. *)
From stdpp Require Import base tactics list gmap strings pretty.
From Stdlib Require Import ZArith Lia Ascii String.
From S2P Require Import Prelude CppString StdMap Boost Types Alarm IoTUrl CbComm.

Local Open Scope string_scope.
Local Open Scope Z_scope.

(** ** [oauth_comm.h] *)

Definition CONTENT_TYPE_JSON : string := "application/json".
Definition HTTP_HEADER_ACCEPT : string := "Accept".
Definition HTTP_HEADER_FIWARE_SERVICE : string := "Fiware-Service".
Definition HTTP_HEADER_FIWARE_SERVICEPATH : string := "Fiware-ServicePath".
Definition HTTP_HEADER_AUTH : string := "X-Auth-Token".
Definition HTTP_HEADER_TOKEN : string := "X-Subject-Token".
Definition OAUTH_ON_BEHALF_TRUST : string := "OS-TRUST:trust".

(** [pion::http::types] *)
Definition HTTP_OK : Z := 200.
Definition HTTP_CREATED : Z := 201.
Definition HTTP_ACCEPTED : Z := 202.
Definition HTTP_BAD_REQUEST : Z := 400.
Definition HTTP_UNAUTHORIZED : Z := 401.
Definition HTTP_FORBIDDEN : Z := 403.

(** What ends a request: the response, if there is one, its header
    [X-Subject-Token], empty when there is none, and the address. *)
Record reply : Type := mkReply {
  r_response : option http_response;
  r_token : string;
  r_endpoint : string
}.

(** The functions a response is handled with. *)
Inductive handler : Type :=
| on_renew_token | on_get_user | on_get_subservice | on_get_user_roles | on_access_control.

#[global] Instance handler_eq_dec : EqDecision handler.
Proof. solve_decision. Defined.

Record sent : Type := mkSent { s_request : http_request; s_timeout : Z; s_handler : handler }.

(** Building trees: [add_child] and [add] with a name, [push_back] of a child
    without name. *)
Class PropertyTreeBuild `{PropertyTree} : Type := {
  pt_add_child : ptree -> string -> ptree -> ptree;
  pt_add : ptree -> string -> string -> ptree;
  pt_push_back : ptree -> string -> ptree
}.

(** A name without dots. *)
Definition is_key (k : string) : bool := negb (String.eqb k "") && no_char "." k.

(** [get] and [get_child] of a path look at the first child of the name before
    the first dot. *)
Class PropertyTreeBuildLaws `{PB : PropertyTreeBuild} : Prop := {
  get_empty p : p <> "" -> pt_get pt_empty p = None;
  get_child_empty k : k <> "" -> pt_get_child pt_empty k = None;
  get_add k v : is_key k = true -> pt_get (pt_add pt_empty k v) k = Some v;
  get_in_child t k c p : is_key k = true -> p <> "" -> pt_get_child t k = None ->
    pt_get (pt_add_child t k c) (k ++ "." ++ p) = pt_get c p;
  get_past_child t k c k' p : is_key k = true -> is_key k' = true -> k' <> k ->
    pt_get (pt_add_child t k c) (k' ++ "." ++ p) = pt_get t (k' ++ "." ++ p);
  get_child_past t k c k' : is_key k = true -> is_key k' = true -> k' <> k ->
    pt_get_child (pt_add_child t k c) k' = pt_get_child t k'
}.

Section OAuth.
  Context `{HB : Boost} `{HP : PropertyTree} `{HI : !PropertyTreeIter} `{PB : !PropertyTreeBuild}.
  (** [read_json] of a text *)
  Context (read_json : string -> option ptree).
  (** the synchronous [HttpClient::send], on the state of the outside *)
  Context {outside : Type} (send_sync : outside -> http_request -> Z -> outside * reply).

Record OAuth : Type := mkOAuth {
  _trust_token : string;
  _user_token : string;
  _domain : string;
  _project : string;
  _user_id : string;
  _subservice_id : string;
  _service_id : string;
  _user_roles : ptree;
  _subject_token : string;
  _oauth_validate : string;
  _oauth_roles : string;
  _oauth_projects : string;
  _oauth_trust : string;
  _auth : ptree;
  _timeout : Z;
  _sync : bool;
  _application_callback : bool (* whether it is set *)
}.

Implicit Types o : OAuth.

(** The constructors; the timeout is 5 when none is given. *)
Definition new_oauth (timeout : Z) : OAuth :=
  mkOAuth "" "" "" "" "" "" "" pt_empty "" "" "" "" "" pt_empty timeout false false.

(** The setters of the endpoints and of what the request asks for. *)
Definition set_oauth_validate (s : string) o : OAuth :=
  mkOAuth (_trust_token o) (_user_token o) (_domain o) (_project o) (_user_id o) (_subservice_id o)
    (_service_id o) (_user_roles o) (_subject_token o) s (_oauth_roles o) (_oauth_projects o)
    (_oauth_trust o) (_auth o) (_timeout o) (_sync o) (_application_callback o).
Definition set_oauth_roles (s : string) o : OAuth :=
  mkOAuth (_trust_token o) (_user_token o) (_domain o) (_project o) (_user_id o) (_subservice_id o)
    (_service_id o) (_user_roles o) (_subject_token o) (_oauth_validate o) s (_oauth_projects o)
    (_oauth_trust o) (_auth o) (_timeout o) (_sync o) (_application_callback o).
Definition set_oauth_projects (s : string) o : OAuth :=
  mkOAuth (_trust_token o) (_user_token o) (_domain o) (_project o) (_user_id o) (_subservice_id o)
    (_service_id o) (_user_roles o) (_subject_token o) (_oauth_validate o) (_oauth_roles o) s
    (_oauth_trust o) (_auth o) (_timeout o) (_sync o) (_application_callback o).
Definition set_oauth_trust (s : string) o : OAuth :=
  mkOAuth (_trust_token o) (_user_token o) (_domain o) (_project o) (_user_id o) (_subservice_id o)
    (_service_id o) (_user_roles o) (_subject_token o) (_oauth_validate o) (_oauth_roles o)
    (_oauth_projects o) s (_auth o) (_timeout o) (_sync o) (_application_callback o).
Definition set_domain (s : string) o : OAuth :=
  mkOAuth (_trust_token o) (_user_token o) s (_project o) (_user_id o) (_subservice_id o)
    (_service_id o) (_user_roles o) (_subject_token o) (_oauth_validate o) (_oauth_roles o)
    (_oauth_projects o) (_oauth_trust o) (_auth o) (_timeout o) (_sync o) (_application_callback o).
Definition set_project (s : string) o : OAuth :=
  mkOAuth (_trust_token o) (_user_token o) (_domain o) s (_user_id o) (_subservice_id o)
    (_service_id o) (_user_roles o) (_subject_token o) (_oauth_validate o) (_oauth_roles o)
    (_oauth_projects o) (_oauth_trust o) (_auth o) (_timeout o) (_sync o) (_application_callback o).
Definition set_trust_token (s : string) o : OAuth :=
  mkOAuth s (_user_token o) (_domain o) (_project o) (_user_id o) (_subservice_id o)
    (_service_id o) (_user_roles o) (_subject_token o) (_oauth_validate o) (_oauth_roles o)
    (_oauth_projects o) (_oauth_trust o) (_auth o) (_timeout o) (_sync o) (_application_callback o).
Definition set_sync_service o : OAuth :=
  mkOAuth (_trust_token o) (_user_token o) (_domain o) (_project o) (_user_id o) (_subservice_id o)
    (_service_id o) (_user_roles o) (_subject_token o) (_oauth_validate o) (_oauth_roles o)
    (_oauth_projects o) (_oauth_trust o) (_auth o) (_timeout o) true (_application_callback o).
Definition set_auth (t : ptree) o : OAuth :=
  mkOAuth (_trust_token o) (_user_token o) (_domain o) (_project o) (_user_id o) (_subservice_id o)
    (_service_id o) (_user_roles o) (_subject_token o) (_oauth_validate o) (_oauth_roles o)
    (_oauth_projects o) (_oauth_trust o) t (_timeout o) (_sync o) (_application_callback o).

(** What the handlers change. *)
Definition set_user_token (s : string) o : OAuth :=
  mkOAuth (_trust_token o) s (_domain o) (_project o) (_user_id o) (_subservice_id o)
    (_service_id o) (_user_roles o) (_subject_token o) (_oauth_validate o) (_oauth_roles o)
    (_oauth_projects o) (_oauth_trust o) (_auth o) (_timeout o) (_sync o) (_application_callback o).
Definition set_user (user service : string) o : OAuth :=
  mkOAuth (_trust_token o) (_user_token o) (_domain o) (_project o) user (_subservice_id o)
    service (_user_roles o) (_subject_token o) (_oauth_validate o) (_oauth_roles o)
    (_oauth_projects o) (_oauth_trust o) (_auth o) (_timeout o) (_sync o) (_application_callback o).
Definition set_subservice (s : string) o : OAuth :=
  mkOAuth (_trust_token o) (_user_token o) (_domain o) (_project o) (_user_id o) s
    (_service_id o) (_user_roles o) (_subject_token o) (_oauth_validate o) (_oauth_roles o)
    (_oauth_projects o) (_oauth_trust o) (_auth o) (_timeout o) (_sync o) (_application_callback o).
Definition set_roles (t : ptree) o : OAuth :=
  mkOAuth (_trust_token o) (_user_token o) (_domain o) (_project o) (_user_id o) (_subservice_id o)
    (_service_id o) t (_subject_token o) (_oauth_validate o) (_oauth_roles o)
    (_oauth_projects o) (_oauth_trust o) (_auth o) (_timeout o) (_sync o) (_application_callback o).
Definition set_subject_token (s : string) o : OAuth :=
  mkOAuth (_trust_token o) (_user_token o) (_domain o) (_project o) (_user_id o) (_subservice_id o)
    (_service_id o) (_user_roles o) s (_oauth_validate o) (_oauth_roles o)
    (_oauth_projects o) (_oauth_trust o) (_auth o) (_timeout o) (_sync o) (_application_callback o).
Definition set_callback (b : bool) o : OAuth :=
  mkOAuth (_trust_token o) (_user_token o) (_domain o) (_project o) (_user_id o) (_subservice_id o)
    (_service_id o) (_user_roles o) (_subject_token o) (_oauth_validate o) (_oauth_roles o)
    (_oauth_projects o) (_oauth_trust o) (_auth o) (_timeout o) (_sync o) b.

(** [set_identity] *)
Definition set_identity (scope_type username password : string) o : OAuth :=
  let '(domain, scope) :=
    if String.eqb scope_type OAUTH_ON_BEHALF_TRUST then
      (pt_add pt_empty "name" "Default", pt_add_child pt_empty scope_type (pt_add pt_empty "id" (_trust_token o)))
    else
      let domain := pt_add pt_empty "name" scope_type in (domain, pt_add_child pt_empty "domain" domain) in
  let user := pt_add (pt_add (pt_add_child pt_empty "domain" domain) "name" username) "password" password in
  let p_password := pt_add_child pt_empty "user" user in
  let methods := pt_push_back pt_empty "password" in
  let identity := pt_add_child (pt_add_child pt_empty "methods" methods) "password" p_password in
  let auth := pt_add_child (pt_add_child pt_empty "identity" identity) "scope" scope in
  set_auth (pt_add_child pt_empty "auth" auth) o.

Definition is_pep o : bool :=
  String.eqb (pt_get_default (_auth o) "auth.scope.OS-TRUST:trust.id" "") "".

(** [get_ptree]: a text that cannot be read gives the empty tree. *)
Definition get_ptree (data : string) : ptree := default pt_empty (read_json data).

(** ** Requests *)

(** The object, the requests without a response, how often the application
    was called back, the alarms of the process, the outside. *)
Record Client : Type := mkClient {
  oauth : OAuth;
  in_flight : list sent;
  calls : nat;
  c_alarms : gmap string string;
  c_outside : outside
}.

Implicit Types c : Client.

Definition on_oauth (f : OAuth -> OAuth) : M Client unit :=
  smodify (fun c => mkClient (f (oauth c)) (in_flight c) (calls c) (c_alarms c) (c_outside c)).
Definition push_request (x : sent) : M Client unit :=
  smodify (fun c => mkClient (oauth c) (in_flight c ++ [x])%list (calls c) (c_alarms c) (c_outside c)).
Definition raise_alarm (code : Z) (endpoint status text : string) : M Client unit :=
  smodify (fun c => mkClient (oauth c) (in_flight c) (calls c) (Alarm.put (c_alarms c) code endpoint status text) (c_outside c)).

(** [if (_application_callback != NULL) _application_callback(...)]: the last
    thing its callers do. *)
Definition call_application : M Client unit :=
  smodify (fun c => if _application_callback (oauth c)
                    then mkClient (oauth c) (in_flight c) (S (calls c)) (c_alarms c) (c_outside c) else c).

(** [create_request], with its method, and the headers that are added to it. *)
Definition create_request (method server : string) (port : Z) (resource content query : string)
    (headers : list (string * string)) : http_request :=
  mkHttpRequest method server port resource query content
    (if String.eqb content "" then "" else CONTENT_TYPE_JSON)
    ([(HTTP_HEADER_ACCEPT, CONTENT_TYPE_JSON); (HEADER_HOST, (server ++ ":" ++ lexical_cast port)%string)] ++ headers)%list.

(** The request for an endpoint, sent: [run] is the handler, which is called at
    once when the object is synchronous. *)
Definition send_on {A} (request : http_request) (h : handler) (run : reply -> M Client A) (none : A) : M Client A :=
  do! c := sget in
  if _sync (oauth c) then
    let '(w, r) := send_sync (c_outside c) request (_timeout (oauth c)) in
    run! smodify (fun c => mkClient (oauth c) (in_flight c) (calls c) (c_alarms c) w) in
    run r
  else
    run! push_request (mkSent request (_timeout (oauth c)) h) in sret none.

(** [send_request]; the query of the endpoint is not used. *)
Definition send_request (endpoint method content query : string) (headers : list (string * string))
    (h : handler) (run : reply -> M Client string) : M Client string :=
  do! dest := slift (new_IoTUrl endpoint) in
  send_on (create_request method (_host dest) (_port dest) (_path dest) content query headers) h run "".

Definition content_of (r : reply) : string :=
  match r_response r with Some response => rs_content response | None => "" end.

(** ** The chain of requests, from the last *)

Definition receive_event_get_user_roles (r : reply) : M Client string :=
  let str_response := content_of r in
  do! c := sget in
  run! (if is_pep (oauth c) && negb (_sync (oauth c)) then
          run! (if negb (String.eqb str_response "") then on_oauth (set_roles (get_ptree str_response)) else sret tt) in
          call_application
        else sret tt) in
  sret str_response.

Definition get_user_roles (user_id : string) : M Client ptree :=
  do! c := sget in
  if negb (is_pep (oauth c)) then sret pt_empty
  else
    do! str_response := send_request (_oauth_roles (oauth c)) "GET" "" ("user.id=" ++ user_id ++ "&effective")
        [(HTTP_HEADER_AUTH, _subject_token (oauth c))] on_get_user_roles receive_event_get_user_roles in
    sret (if negb (String.eqb str_response "") && _sync (oauth c) then get_ptree str_response else pt_empty).

(** The projects, one after the other: whether one was found, the status, and
    its identifier. *)
Fixpoint find_project (projects : list (string * ptree)) (project : string) (found : bool) (status_code : Z)
    (subservice : option string) : bool * Z * option string :=
  match projects with
  | [] => (found, status_code, subservice)
  | (_, v) :: rest =>
      if negb (String.eqb project "/") then
        if String.eqb (pt_get_default v "name" "") project
        then find_project rest project true HTTP_OK (Some (pt_get_default v "id" ""))
        else find_project rest project found (if found then status_code else HTTP_BAD_REQUEST) subservice
      else find_project rest project found status_code subservice
  end.

(** What a response says of the project: the status, and the identifier if it
    is found. *)
Definition read_projects (r : reply) (project : string) : Z * option string :=
  match r_response r with
  | None => (HTTP_BAD_REQUEST, None)
  | Some response =>
      if negb (String.eqb (rs_content response) "") && (rs_code response =? HTTP_OK) then
        match pt_get_child (get_ptree (rs_content response)) "projects" with
        | Some projects =>
            let '(_, status_code, subservice) := find_project projects project false HTTP_OK None in
            (status_code, subservice)
        | None => (HTTP_OK, None)
        end
      else (rs_code response, None)
  end.

Definition receive_event_get_subservice (r : reply) : M Client string :=
  do! c := sget in
  let '(status_code, subservice) := read_projects r (_project (oauth c)) in
  run! (match subservice with Some s => on_oauth (set_subservice s) | None => sret tt end) in
  run! (if is_pep (oauth c) && negb (_sync (oauth c)) then
          if status_code =? HTTP_BAD_REQUEST then call_application
          else run! get_user_roles (_user_id (oauth c)) in sret tt
        else sret tt) in
  sret (default "" subservice).

Definition get_subservice (domain project : string) : M Client string :=
  do! c := sget in
  send_request (_oauth_projects (oauth c)) "GET" "" ("domain_id=" ++ _service_id (oauth c))
    [(HTTP_HEADER_AUTH, _subject_token (oauth c))] on_get_subservice receive_event_get_subservice.

(** The user of a response, when it is one of the domain. *)
Definition read_user (r : reply) (domain : string) : outcome (option (string * string)) :=
  let ptree_user := get_ptree (content_of r) in
  match pt_children ptree_user with
  | [] => Ret None
  | _ =>
      match r_response r with
      | None => Undefined
      | Some response =>
          let user_id := pt_get_default ptree_user "token.user.id" "" in
          let name := pt_get_default ptree_user "token.user.domain.name" "" in
          Ret (if (rs_code response =? HTTP_OK) && negb (String.eqb user_id "") && negb (String.eqb name "")
                  && String.eqb name domain
               then Some (user_id, pt_get_default ptree_user "token.user.domain.id" "") else None)
      end
  end.

Definition receive_event_get_user (r : reply) : M Client string :=
  do! c := sget in
  do! user := slift (read_user r (_domain (oauth c))) in
  run! (match user with Some (user_id, service_id) => on_oauth (set_user user_id service_id) | None => sret tt end) in
  do! c := sget in
  run! (if is_pep (oauth c) && negb (_sync (oauth c)) then
          if String.eqb (_user_id (oauth c)) "" then call_application
          else run! get_subservice (_domain (oauth c)) (_project (oauth c)) in sret tt
        else sret tt) in
  sret (content_of r).

Definition get_user (token token_pep : string) : M Client string :=
  run! on_oauth (fun o => set_user "" (_service_id o) o) in
  do! c := sget in
  send_request (_oauth_validate (oauth c)) "GET" "" "" [(HTTP_HEADER_AUTH, token_pep); (HTTP_HEADER_TOKEN, token)]
    on_get_user receive_event_get_user.

(** The token of a response. *)
Definition read_token (r : reply) : string :=
  match r_response r with
  | Some response =>
      if (rs_code response =? HTTP_OK) || (rs_code response =? HTTP_ACCEPTED) || (rs_code response =? HTTP_CREATED)
      then r_token r else ""
  | None => ""
  end.

Definition receive_event_renew_token (r : reply) : M Client unit :=
  run! on_oauth (set_subject_token (read_token r)) in
  do! c := sget in
  let o := oauth c in
  run! (if is_pep o && String.eqb (_subject_token o) "" then
          raise_alarm ALARM_CODE_BAD_CONFIGURATION (r_endpoint r) RESPONSE_MESSAGE_BAD_CONFIG "No token as PEP user"
        else sret tt) in
  if is_pep o && negb (_sync o) then
    if String.eqb (_subject_token o) "" then call_application
    else run! get_user (_user_token o) (_subject_token o) in sret tt
  else sret tt.

Definition renew_token (scope : string) : M Client unit :=
  run! on_oauth (set_subject_token "") in
  do! dest := slift (new_IoTUrl scope) in
  do! c := sget in
  send_on (create_request "POST" (_host dest) (_port dest) (_path dest) (write_json (_auth (oauth c)))
             (_query dest) []) on_renew_token receive_event_renew_token tt.

Definition get_token (status_code : Z) : M Client string :=
  do! c := sget in
  run! (if negb (is_pep (oauth c)) then
          if (status_code =? HTTP_UNAUTHORIZED) || String.eqb (_subject_token (oauth c)) ""
          then renew_token (_oauth_trust (oauth c)) else sret tt
        else renew_token (_oauth_validate (oauth c))) in
  do! c := sget in sret (_subject_token (oauth c)).

(** [validate_user_token] with a callback or the empty one. *)
Definition validate_user_token (token : string) (callback : bool) : M Client ptree :=
  run! on_oauth (set_callback callback) in
  do! c := sget in
  if negb (String.eqb token "") then
    if negb (is_pep (oauth c)) then sret pt_empty
    else if _sync (oauth c) then
      do! pep_token := get_token HTTP_OK in
      do! s := get_user token pep_token in sret (get_ptree s)
    else
      run! on_oauth (set_user_token token) in
      run! get_token HTTP_OK in sret pt_empty
  else sret pt_empty.

(** The response of a request that waits for it. *)
Definition receive_event (h : handler) (r : reply) : M Client unit :=
  match h with
  | on_renew_token => receive_event_renew_token r
  | on_get_user => run! receive_event_get_user r in sret tt
  | on_get_subservice => run! receive_event_get_subservice r in sret tt
  | on_get_user_roles => run! receive_event_get_user_roles r in sret tt
  | on_access_control => sret tt
  end.
End OAuth.
