(* ===== verification/Filters.v ===== *)
(** * Filters of requests: [src/src/rest/http_filter.h], [media_filter.cc] and
    [rest_functions.cc]

    Patterns of URLs, the callbacks a filter keeps for the requests it is
    asked about, and the checks on headers and media types.  Regular
    expressions are those of Boost. *)
From stdpp Require Import base tactics list gmap strings pretty.
From Stdlib Require Import ZArith Lia Ascii String.
From S2P Require Import Prelude CppString StdMap Types FuncUtil.

Local Open Scope string_scope.
Local Open Scope Z_scope.

(** ** [rest_functions.cc] *)

(** [[a-zA-Z0-9_-]] *)
Definition is_name_char (c : ascii) : bool := isalnum c || Ascii.eqb c "_" || Ascii.eqb c "-".

(** The characters of a name at the start, and the rest. *)
Fixpoint span_name (s : string) : string * string :=
  match s with
  | String c rest =>
      if is_name_char c then let '(n, r) := span_name rest in (String c n, r) else ("", s)
  | EmptyString => ("", "")
  end.

(** The first match of [<([a-zA-Z0-9_-]+)>]: what is before it, the name, and
    what is after it. *)
Fixpoint search_placeholder (s : string) : option (string * string * string) :=
  match s with
  | EmptyString => None
  | String c rest =>
      let further := match search_placeholder rest with
                     | Some (prefix, name, suffix) => Some (String c prefix, name, suffix)
                     | None => None
                     end in
      if Ascii.eqb c "<" then
        match span_name rest with
        | (String _ _ as name, String ">" suffix) => Some ("", name, suffix)
        | _ => further
        end
      else further
  end.

(** [tmp_placeholders[k] != pos]: an iterator that was never set is at no
    position, and the entry is there from then on. *)
Definition unseen (m : gmap string (option nat)) (k : string) (pos : nat) : bool * gmap string (option nat) :=
  (negb (bool_decide (default None (m !! k) = Some pos)), emplace m k None).

(** The loop of [format_pattern], on [fuel]: the text, its position, the
    elements seen, the expression, the names, and the last suffix. *)
Fixpoint pattern_loop (fuel : nat) (s : string) (start : nat) (m : gmap string (option nat))
    (url_regex : string) (url_args : list string) (tmp_suffix : string) : fueled (string * list string) :=
  match fuel with
  | O => None
  | S fuel =>
      match search_placeholder s with
      | None => Some (Ret (url_regex ++ tmp_suffix, url_args))
      | Some (prefix, name, suffix) =>
          let '(new, m) := unseen m prefix start in
          let url_regex := if new then url_regex ++ prefix else url_regex in
          let m := if new then emplace m prefix (Some start) else m in
          let at_name := (start + String.length prefix)%nat in
          let '(new, m) := unseen m ("<" ++ name ++ ">") at_name in
          let url_regex := if new then url_regex ++ "([^/]+)" else url_regex in
          let m := if new then emplace m ("<" ++ name ++ ">") (Some at_name) else m in
          let url_args := if new then (url_args ++ [name])%list else url_args in
          let at_suffix := (at_name + String.length name + 2)%nat in
          let '(new, m) := unseen m suffix at_suffix in
          let m := if new then emplace m suffix (Some at_suffix) else m in
          let tmp_suffix := if new then suffix else tmp_suffix in
          pattern_loop fuel suffix at_suffix m url_regex url_args tmp_suffix
      end
  end.

(** [format_pattern] with an empty expression and no names: the expression
    and the names; the method is the only filter. *)
Definition format_pattern (url method : string) : fueled (string * list string) :=
  fuel! r := pattern_loop (S (String.length url)) url 0 ∅ "" [] "" in
  let '(url_regex, url_args) := r in
  let url_regex := if String.eqb url_regex "" then url else url_regex in
  Some (Ret ((if String.eqb method "" then ".+" else method) ++ "[[:space:]]+" ++ url_regex, url_args)).

Section Regex.
  (** [regex_match] of an expression: the groups, when it matches *)
  Context (regex_match : string -> string -> outcome (option (list string))).

(** The groups, each under the placeholder of its place. *)
Fixpoint store_groups (groups placeholders : list string) (resources : gmap string string)
    : outcome (gmap string string) :=
  match groups, placeholders with
  | [], _ => Ret resources
  | _ :: _, [] => Throw OutOfRange
  | g :: groups, p :: placeholders => store_groups groups placeholders (emplace resources p (url_decode g))
  end.

Definition restResourceParse (regex : string) (url_placeholders : list string) (url_resource : string)
    (resources : gmap string string) : outcome (bool * gmap string string) :=
  let! m := regex_match regex url_resource in
  match m with
  | None => Ret (false, resources)
  | Some groups =>
      match url_placeholders with
      | [] => Ret (true, resources)
      | _ => let! resources := store_groups groups url_placeholders resources in Ret (true, resources)
      end
  end.
End Regex.

(** ** [http_filter.h] *)

Section HTTPFilter.
  (** what is called with the status of a request *)
  Context {K : Type}.

(** [set_async_filter]: a callback that is there stays. *)
Definition set_async_filter (uuid_request : string) (callback : K) (_callbacks : gmap string K) : gmap string K :=
  emplace _callbacks uuid_request callback.

(** [call_to_callback]: the callback that is called, which is forgotten; a call
    of an empty function throws. *)
Definition call_to_callback (id_request : string) (_callbacks : gmap string K) : gmap string K * outcome K :=
  match _callbacks !! id_request with
  | Some my_callback => (delete id_request _callbacks, Ret my_callback)
  | None => (_callbacks, Throw (RuntimeError "call to empty boost::function"))
  end.
End HTTPFilter.

(** ** [media_filter.cc] *)

Definition HEADER_CONTENT_TYPE : string := "Content-Type".

(** A request, as filters see it: [q_headers] gives the value of a header that
    is there. *)
Record request : Type := mkRequest {
  q_method : string;
  q_resource : string;
  q_content : string;
  q_headers : string -> option string
}.

Definition get_header (q : request) (name : string) : string := default "" (q_headers q name).
Definition has_header (q : request) (name : string) : bool :=
  match q_headers q name with Some _ => true | None => false end.

Definition ADMIN_SERVICE_ABOUT : string := "/about".
Definition ADMIN_SERVICE_PROTOCOLS : string := "/protocols".

Section MediaFilter.
  (** [Process::get_url_base()] *)
  Context (url_base : string).

(** The two resources that are not filtered. *)
Definition is_open (q : request) : bool :=
  String.eqb (q_resource q) (url_base ++ ADMIN_SERVICE_ABOUT)
  || String.eqb (q_resource q) (url_base ++ ADMIN_SERVICE_PROTOCOLS).

Definition contains (s pat : string) : bool := match find pat s 0 with Some _ => true | None => false end.

Definition bad_accept (q : request) : bool :=
  has_header q IOT_HTTP_HEADER_ACCEPT
  && negb (contains (get_header q IOT_HTTP_HEADER_ACCEPT) IOT_CONTENT_SUBTYPE_JSON)
  && negb (contains (get_header q IOT_HTTP_HEADER_ACCEPT) "/*").

Definition bad_content_type (q : request) : bool :=
  negb (String.eqb (q_content q) "") && has_header q HEADER_CONTENT_TYPE
  && negb (contains (get_header q HEADER_CONTENT_TYPE) IOT_CONTENT_SUBTYPE_JSON).

Definition forbidden_headers (q : request) : bool :=
  check_forbidden_characters IOTA_FORBIDDEN_CHARACTERS (get_header q FIWARE_SERVICE)
  || check_forbidden_characters IOTA_FORBIDDEN_CHARACTERS (get_header q FIWARE_SERVICEPATH)
  || check_forbidden_characters IOTA_FORBIDDEN_CHARACTERS (q_resource q).

(** What is done in the [try]: the status. *)
Definition media_checks (q : request) : outcome Z :=
  let! _ := (if is_open q then Ret tt
             else let! _ := check_fiware_service_name (get_header q FIWARE_SERVICE) in
                  check_fiware_service_path_name (get_header q FIWARE_SERVICEPATH)) in
  let forbidden := forbidden_headers q in
  let resu := if forbidden then RESPONSE_CODE_FORBIDDEN_CHARACTERS else RESPONSE_CODE_OK in
  let resu := if negb forbidden && bad_accept q then RESPONSE_CODE_NOT_ACCEPTABLE else resu in
  Ret (if (resu =? RESPONSE_CODE_OK) && bad_content_type q then RESPONSE_CODE_UNSUPPORTED_MEDIA_TYPE else resu).

(** [handle_request]: the status the callback of the request is given. *)
Definition media_handle_request (q : request) : outcome Z :=
  match media_checks q with
  | Throw (IotaException _ _ status) => Ret status
  | r => r
  end.
End MediaFilter.
