(* ===== verification/OAuthFilter.v ===== *)
(** * Access control of requests: [src/src/util/access_control.cc] and
    [src/src/rest/oauth_filter.cc]

    A request the filter is asked about is a [Session]: the object that talks
    to the identity service, the requests without a response and the statuses
    posted for its callback.  [deliver] is a response that arrives. *)
From stdpp Require Import base tactics list gmap strings pretty.
From Stdlib Require Import ZArith Lia Ascii String.
From S2P Require Import Prelude CppString StdMap Boost Types FuncUtil Alarm IoTUrl CbComm Configurator OAuth Filters.

Local Open Scope string_scope.
Local Open Scope Z_scope.

(** The actions of [oauth_filter.cc], by method. *)
Definition actions : gmap string string :=
  <["GET" := "read"]> (<["POST" := "create"]> (<["PUT" := "update"]> (<["DELETE" := "delete"]> ∅))).

Definition NGSI_SERVICE : string := "ngsi".
Definition CONTENT_TYPE_XML : string := "text/xml".

(** [multimap::insert]: after the entries of the same key. *)
Fixpoint multimap_insert {A} (k : string) (v : A) (l : list (string * A)) : list (string * A) :=
  match l with
  | [] => [(k, v)]
  | (k', v') :: rest => if String.ltb k k' then (k, v) :: (k', v') :: rest else (k', v') :: multimap_insert k v rest
  end.

Record OAuthFilter : Type := mkOAuthFilter {
  _auth_endpoint_validate : string;
  _auth_endpoint_roles : string;
  _auth_endpoint_projects : string;
  _ac_endpoint : string;
  _user : string;
  _password : string;
  f_domain : string;
  f_timeout : Z;
  f_pep_rules : list (string * string);
  _uri_actions : list (string * string);
  _filter_url : string
}.

(** The constructor. *)
Definition new_filter : OAuthFilter :=
  let context := "POST[[:space:]]+" ++ "/" ++ NGSI_SERVICE ++ "/([^/]+)/" in
  mkOAuthFilter "" "" "" "" "" "" "" 3 []
    (multimap_insert "read" (context ++ "queryContext") (multimap_insert "create" (context ++ "updateContext") [])) "".

(** [set_configuration]; a timeout that is no integer throws, after the rest is
    set. *)
Definition set_configuration `{PropertyTreeInt} (oauth_conf : gmap string string) : M OAuthFilter unit :=
  let conf k := default "" (oauth_conf !! k) in
  run! smodify (fun f => mkOAuthFilter (conf CONF_FILE_OAUTH_VALIDATE_TOKEN_URL) (conf CONF_FILE_OAUTH_ROLES_URL)
    (conf CONF_FILE_OAUTH_PROJECTS_URL) (conf CONF_FILE_ACCESS_CONTROL) (conf CONF_FILE_PEP_USER)
    (conf CONF_FILE_PEP_PASSWORD) (conf CONF_FILE_PEP_DOMAIN) (f_timeout f) (f_pep_rules f) (_uri_actions f)
    (_filter_url f)) in
  do! timeout := slift (match lexical_cast_int (conf CONF_FILE_OAUTH_TIMEOUT) with
                        | Some t => Ret t
                        | None => Throw BadLexicalCast
                        end) in
  smodify (fun f => mkOAuthFilter (_auth_endpoint_validate f) (_auth_endpoint_roles f) (_auth_endpoint_projects f)
    (_ac_endpoint f) (_user f) (_password f) (f_domain f) timeout (f_pep_rules f) (_uri_actions f) (_filter_url f)).

Definition set_authorization_validate (s : string) (f : OAuthFilter) : OAuthFilter :=
  mkOAuthFilter s (_auth_endpoint_roles f) (_auth_endpoint_projects f) (_ac_endpoint f) (_user f) (_password f)
    (f_domain f) (f_timeout f) (f_pep_rules f) (_uri_actions f) (_filter_url f).
Definition set_authorization_roles (s : string) (f : OAuthFilter) : OAuthFilter :=
  mkOAuthFilter (_auth_endpoint_validate f) s (_auth_endpoint_projects f) (_ac_endpoint f) (_user f) (_password f)
    (f_domain f) (f_timeout f) (f_pep_rules f) (_uri_actions f) (_filter_url f).
Definition set_authorization_projects (s : string) (f : OAuthFilter) : OAuthFilter :=
  mkOAuthFilter (_auth_endpoint_validate f) (_auth_endpoint_roles f) s (_ac_endpoint f) (_user f) (_password f)
    (f_domain f) (f_timeout f) (f_pep_rules f) (_uri_actions f) (_filter_url f).
Definition set_access_control_endpoint (s : string) (f : OAuthFilter) : OAuthFilter :=
  mkOAuthFilter (_auth_endpoint_validate f) (_auth_endpoint_roles f) (_auth_endpoint_projects f) s (_user f) (_password f)
    (f_domain f) (f_timeout f) (f_pep_rules f) (_uri_actions f) (_filter_url f).
Definition set_pep_user_information (domain user password : string) (f : OAuthFilter) : OAuthFilter :=
  mkOAuthFilter (_auth_endpoint_validate f) (_auth_endpoint_roles f) (_auth_endpoint_projects f) (_ac_endpoint f)
    user password domain (f_timeout f) (f_pep_rules f) (_uri_actions f) (_filter_url f).
Definition set_filter_url_base (s : string) (f : OAuthFilter) : OAuthFilter :=
  mkOAuthFilter (_auth_endpoint_validate f) (_auth_endpoint_roles f) (_auth_endpoint_projects f) (_ac_endpoint f)
    (_user f) (_password f) (f_domain f) (f_timeout f) (f_pep_rules f) (_uri_actions f) s.
Definition with_rules (rules : list (string * string)) (f : OAuthFilter) : OAuthFilter :=
  mkOAuthFilter (_auth_endpoint_validate f) (_auth_endpoint_roles f) (_auth_endpoint_projects f) (_ac_endpoint f)
    (_user f) (_password f) (f_domain f) (f_timeout f) rules (_uri_actions f) (_filter_url f).

(** [set_pep_rules]: the pattern of each rule. *)
Fixpoint set_pep_rules (pep_rules : list (string * PepRule)) (f : OAuthFilter) : fueled OAuthFilter :=
  match pep_rules with
  | [] => Some (Ret f)
  | (action, rule) :: rest =>
      fuel! r := format_pattern (uri rule) (verb rule) in
      set_pep_rules rest (with_rules (multimap_insert action (fst r) (f_pep_rules f)) f)
  end.

Definition get_resource (service subservice path : string) : string :=
  "fiware:iotagent:" ++ service ++ ":" ++ subservice ++ ":" ++ path.

Definition get_relative_resource (resource : string) (f : OAuthFilter) : string :=
  let n := String.length (_filter_url f) in
  if String.eqb (String.substring 0 n resource) (_filter_url f)
  then String.substring n (String.length resource - n) resource else resource.

Section Action.
  Context (regex_match : string -> string -> outcome (option (list string))).

(** The first action whose expression matches; an empty one is passed over. *)
Fixpoint find_action (rules : list (string * string)) (uri_regex : string) : outcome string :=
  match rules with
  | [] => Ret ""
  | (action, regex) :: rest =>
      let! r := restResourceParse regex_match regex [] uri_regex ∅ in
      if fst r && negb (String.eqb action "") then Ret action else find_action rest uri_regex
  end.

Definition get_action (verb uri : string) (f : OAuthFilter) : outcome string :=
  let uri_regex := verb ++ " " ++ uri in
  let! action := find_action (f_pep_rules f) uri_regex in
  if negb (String.eqb action "") then Ret action
  else
    let! action := find_action (_uri_actions f) uri_regex in
    Ret (if negb (String.eqb action "") then action else default "" (actions !! verb)).
End Action.

(** The roles of an assignment list that are of a project, or of the domain. *)
Definition scope_roles `{PropertyTree} (project service_id subservice_id : string)
    (assignments : list (string * ptree)) : list string :=
  let path := if String.eqb project "/" then "scope.domain.id" else "scope.project.id" in
  let id := if String.eqb project "/" then service_id else subservice_id in
  map (fun v => pt_get_default (snd v) "role.id" "")
    (List.filter (fun v => String.eqb (pt_get_default (snd v) path "") id) assignments).

(** ** [access_control.cc] *)
Section AccessControl.
  Context `{HB : Boost} `{HP : PropertyTree} `{PB : !PropertyTreeBuild} `{HI : !PropertyTreeIter}.
  (** [write_xml] *)
  Context (write_xml : ptree -> string).

Definition put_all (l : list (string * string)) : ptree :=
  fold_left (fun t '(k, v) => pt_put t k v) l pt_empty.

(** An [Attribute] with its value. *)
Definition attribute_node (attribute_id value : string) : ptree :=
  pt_add_child
    (put_all [("<xmlattr>.IncludeInResult", "false"); ("<xmlattr>.AttributeId", attribute_id)])
    "AttributeValue"
    (put_all [("<xmlattr>.DataType", "http://www.w3.org/2001/XMLSchema#string"); ("", value)]).

Definition category_node (category : string) (attributes : list ptree) : ptree :=
  fold_left (fun t a => pt_add_child t "Attribute" a) attributes (put_all [("<xmlattr>.Category", category)]).

Definition create_xml_access_control (roles : list string) (resource_id action : string) : string :=
  let root_node := put_all
    [("<xmlattr>.xmlns", "urn:oasis:names:tc:xacml:3.0:core:schema:wd-17");
     ("<xmlattr>.xmlns:xsi", "http://www.w3.org/2001/XMLSchema-instance");
     ("<xmlattr>.xsi:schemaLocation", "urn:oasis:names:tc:xacml:3.0:core:schema:wd-17 http://docs.oasis-open.org/xacml/3.0/xacml-core-v3-schema-wd-17.xsd");
     ("<xmlattr>.ReturnPolicyIdList", "false");
     ("<xmlattr>.CombinedDecision", "false")] in
  let resource_node := category_node "urn:oasis:names:tc:xacml:3.0:attribute-category:resource"
    [attribute_node "urn:oasis:names:tc:xacml:1.0:resource:resource-id" resource_id] in
  let action_node := category_node "urn:oasis:names:tc:xacml:3.0:attribute-category:action"
    [attribute_node "urn:oasis:names:tc:xacml:1.0:action:action-id" action] in
  let roles_node := category_node "urn:oasis:names:tc:xacml:1.0:subject-category:access-subject"
    (map (attribute_node "urn:oasis:names:tc:xacml:1.0:subject:subject-id") roles) in
  let root_node := fold_left (fun t n => pt_add_child t "Attributes" n)
    [resource_node; action_node; roles_node] root_node in
  write_xml (pt_add_child pt_empty "Request" root_node).

Definition ac_create_request (dest : IoTUrl) (content : string) (additional_info : ptree) : http_request :=
  mkHttpRequest "POST" (_host dest) (_port dest) (_path dest) (_query dest) content CONTENT_TYPE_XML
    ((HEADER_HOST, (_host dest ++ ":" ++ lexical_cast (_port dest))%string)
       :: map (fun v => (fst v, pt_data (snd v))) (pt_children additional_info)).

(** [AccessControl::authorize]: the request it sends. *)
Definition ac_authorize (_endpoint_ac : string) (roles : list string) (resource_id action : string)
    (additional_info : ptree) : outcome http_request :=
  let! dest := new_IoTUrl _endpoint_ac in
  Ret (ac_create_request dest (create_xml_access_control roles resource_id action) additional_info).

(** [AccessControl::receive_event]: whether the request is authorized. *)
Definition ac_receive_event (r : reply) : bool :=
  match r_response r with
  | Some response => (rs_code response =? HTTP_OK) && contains (rs_content response) "Permit"
  | None => false
  end.
End AccessControl.

(** ** The filter at work *)
Section Filter.
  Context `{HB : Boost} `{HP : PropertyTree} `{HI : !PropertyTreeIter} `{PB : !PropertyTreeBuild}.
  Context (read_json : string -> option ptree) (write_xml : ptree -> string).
  Context {outside : Type} (send_sync : outside -> http_request -> Z -> outside * reply).
  Context (regex_match : string -> string -> outcome (option (list string))).
  (** [Process::get_url_base()] *)
  Context (url_base : string).

(** The statuses posted for [call_to_callback], each with the identifier of
    the request, and the user the request is given. *)
Record Session : Type := mkSession {
  client : @Client HP outside;
  posted : list (string * Z);
  q_user : option string
}.

Definition post (id : string) (status : Z) : M Session unit :=
  smodify (fun s => mkSession (client s) (posted s ++ [(id, status)])%list (q_user s)).
Definition set_request_user (user : string) : M Session unit :=
  smodify (fun s => mkSession (client s) (posted s) (Some user)).

(** Code of the object that asks the identity service. *)
Definition on_client {A} (m : M Client A) : M Session A :=
  fun s => let '(c, r) := m (client s) in (mkSession c (posted s) (q_user s), r).

Definition trace_of (q : request) : string := get_header q HEADER_TRACE_MESSAGES.

(** [handle_no_allowed] *)
Definition handle_no_allowed (q : request) (status : Z) : M Session unit := post (trace_of q) status.

(** [authorize]: what is done when the user and the roles are known, or are
    not to be had. *)
Definition authorize (f : OAuthFilter) (q : request) : M Session unit :=
  do! s := sget in
  let o := oauth (client s) in
  run! set_request_user (_user_id o ++ " " ++ _domain o ++ " " ++ _project o) in
  let relative := get_relative_resource (q_resource q) f in
  let resource_id := get_resource (_domain o) (_project o) relative in
  do! action := slift (get_action regex_match (q_method q) relative f) in
  let user_subservice_roles :=
    match pt_get_child (_user_roles o) "role_assignments" with
    | Some assignments => scope_roles (_project o) (_service_id o) (_subservice_id o) assignments
    | None => []
    end in
  if String.eqb (_user_id o) "" || Nat.eqb (List.length (pt_children (_user_roles o))) 0
     || String.eqb resource_id "" || String.eqb action "" || String.eqb (_ac_endpoint f) ""
  then handle_no_allowed q HTTP_UNAUTHORIZED
  else
    let headers := put_all (map (fun k => (k, get_header q k))
      [HEADER_TRACE_MESSAGES; HTTP_HEADER_FIWARE_SERVICE; HTTP_HEADER_FIWARE_SERVICEPATH; HTTP_HEADER_AUTH]) in
    do! x := slift (ac_authorize write_xml (_ac_endpoint f) user_subservice_roles resource_id action headers) in
    on_client (push_request (mkSent x 5 on_access_control)).

(** [access_control] *)
Definition access_control (q : request) (authorized : bool) : M Session unit :=
  post (trace_of q) (if authorized then HTTP_OK else HTTP_FORBIDDEN).

(** Code of the object, with the application called back when it asks for it:
    [authorize] is the last thing it does. *)
Definition with_callback {A} (f : OAuthFilter) (q : request) (m : M Client A) : M Session unit :=
  do! before := sget in
  run! on_client m in
  do! after := sget in
  if (calls (client before) <? calls (client after))%nat then authorize f q else sret tt.

(** The object [handle_request] makes. *)
Definition filter_oauth (f : OAuthFilter) (service servicepath : string) : OAuth :=
  set_project servicepath (set_domain service (set_identity (f_domain f) (_user f) (_password f)
    (set_oauth_projects (_auth_endpoint_projects f) (set_oauth_roles (_auth_endpoint_roles f)
      (set_oauth_validate (_auth_endpoint_validate f) (new_oauth (f_timeout f))))))).

Definition on_session (o : OAuth) : M Session unit :=
  smodify (fun s => mkSession (mkClient o (in_flight (client s)) (calls (client s)) (c_alarms (client s))
                                 (c_outside (client s))) (posted s) (q_user s)).

Definition service_path (q : request) : string :=
  let fiware_servicepath := get_header q HTTP_HEADER_FIWARE_SERVICEPATH in
  if String.eqb fiware_servicepath "" then "/" else fiware_servicepath.

(** What the filter and a request need before the user is asked for. *)
Definition incomplete (f : OAuthFilter) (q : request) : bool :=
  existsb (fun s => String.eqb s "")
    [get_header q HTTP_HEADER_FIWARE_SERVICE; service_path q; get_header q HTTP_HEADER_AUTH;
     _auth_endpoint_validate f; _auth_endpoint_roles f; _auth_endpoint_projects f;
     _user f; _password f; f_domain f; _ac_endpoint f].

Definition handle_request (f : OAuthFilter) (q : request) : M Session unit :=
  if is_open url_base q then post (trace_of q) HTTP_OK
  else if incomplete f q then handle_no_allowed q HTTP_UNAUTHORIZED
  else
    run! on_session (filter_oauth f (get_header q HTTP_HEADER_FIWARE_SERVICE) (service_path q)) in
    with_callback f q
      (validate_user_token read_json send_sync (get_header q HTTP_HEADER_AUTH) true).

(** A response to the [n]-th request without one. *)
Definition deliver (f : OAuthFilter) (q : request) (n : nat) (r : reply) : M Session unit :=
  do! s := sget in
  match in_flight (client s) !! n with
  | None => sret tt
  | Some x =>
      run! on_client (smodify (fun c => mkClient (oauth c) (delete n (in_flight c)) (calls c) (c_alarms c)
                                          (c_outside c))) in
      match s_handler x with
      | on_access_control => access_control q (ac_receive_event r)
      | h => with_callback f q (receive_event read_json send_sync h r)
      end
  end.

(** The request, and responses that arrive. *)
Fixpoint deliver_all (f : OAuthFilter) (q : request) (replies : list (nat * reply)) : M Session unit :=
  match replies with
  | [] => sret tt
  | (n, r) :: rest => run! deliver f q n r in deliver_all f q rest
  end.

Definition serve (f : OAuthFilter) (q : request) (replies : list (nat * reply)) : M Session unit :=
  run! handle_request f q in deliver_all f q replies.
End Filter.
