(* ===== verification/OAuthSpec.v ===== *)
(** * What the filter of access control promises

    A machine of stages, [advance], says what each response means; the object
    and the filter of [OAuthFilter] implement it ([deliver_simulates]), from
    which what a granted request went through, and that every request is
    answered once. *)
From stdpp Require Import base tactics list gmap strings pretty.
From Stdlib Require Import ZArith Lia Ascii String.
From S2P Require Import Prelude CppString StdMap Boost Types FuncUtil Alarm IoTUrl CbComm Configurator OAuth Filters OAuthFilter.

Local Open Scope string_scope.
Local Open Scope Z_scope.

Lemma obind_eq {A B} (c : outcome A) (a : A) (k : A -> outcome B) : c = Ret a -> obind c k = k a.
Proof. by intros ->. Qed.

(** The stages of a request: what is known, and what is asked. *)
Inductive stage : Type :=
| AskToken
| AskUser (token : string)
| AskProjects (token user service : string)
| AskRoles (token user service subservice : string)
| AskAccess (x : http_request)
| Finished (status : Z).

(** ** The object of the filter acts as a policy enforcement point *)
Section Identity.
  Context `{HB : Boost} `{HP : PropertyTree} `{PB : !PropertyTreeBuild} `{HL : !PropertyTreeBuildLaws}.

Lemma pep_path (identity scope : ptree) :
  pt_get (pt_add_child pt_empty "auth"
            (pt_add_child (pt_add_child pt_empty "identity" identity) "scope" scope))
         "auth.scope.OS-TRUST:trust.id"
  = pt_get scope "OS-TRUST:trust.id".
Proof.
  change "auth.scope.OS-TRUST:trust.id" with ("auth" ++ "." ++ "scope.OS-TRUST:trust.id").
  rewrite get_in_child; [|done|done|by apply get_child_empty].
  change "scope.OS-TRUST:trust.id" with ("scope" ++ "." ++ "OS-TRUST:trust.id").
  rewrite get_in_child; [done|done|done|].
  rewrite get_child_past by done. by apply get_child_empty.
Qed.

(** Without a trust token, whatever the domain. *)
Lemma identity_pep scope_type username password (o : OAuth) : _trust_token o = "" ->
  exists auth, set_identity scope_type username password o = set_auth auth o
    /\ String.eqb (pt_get_default auth "auth.scope.OS-TRUST:trust.id" "") "" = true.
Proof.
  intros Ht. unfold set_identity. destruct (String.eqb scope_type OAUTH_ON_BEHALF_TRUST) eqn:E.
  - eexists. split; [reflexivity|]. unfold pt_get_default. rewrite pep_path.
    apply String.eqb_eq in E. subst scope_type. rewrite Ht.
    change "OS-TRUST:trust.id" with (OAUTH_ON_BEHALF_TRUST ++ "." ++ "id").
    rewrite get_in_child; [|done|done|by apply get_child_empty]. by rewrite get_add.
  - eexists. split; [reflexivity|]. unfold pt_get_default. rewrite pep_path.
    change "OS-TRUST:trust.id" with ("OS-TRUST:trust" ++ "." ++ "id").
    rewrite get_past_child by done. by rewrite get_empty.
Qed.
End Identity.

Section Filter.
  Context `{HB : Boost} `{HP : PropertyTree} `{HI : !PropertyTreeIter} `{PB : !PropertyTreeBuild}.
  Context (read_json : string -> option ptree) (write_xml : ptree -> string).
  Context {outside : Type} (send_sync : outside -> http_request -> Z -> outside * reply).
  Context (regex_match : string -> string -> outcome (option (list string))).
  Context (url_base : string).
  Context (f : OAuthFilter) (q : request) (auth : ptree) (action : string).
  (** the URLs of the four endpoints *)
  Context (validate projects roles access : IoTUrl).

Let service : string := get_header q HTTP_HEADER_FIWARE_SERVICE.
Let path : string := service_path q.
Let user_token : string := get_header q HTTP_HEADER_AUTH.

(** ** The machine *)

Definition user_of (r : reply) : option (string * string) :=
  match read_user read_json r service with Ret u => u | _ => None end.

Definition resource_of : string := get_resource service path (get_relative_resource (q_resource q) f).

(** The roles the access control is asked about: those of an answer that are
    of the project, or of the domain. *)
Definition roles_of (tree : ptree) (service_id subservice_id : string) : list string :=
  match pt_get_child tree "role_assignments" with
  | Some assignments => scope_roles path service_id subservice_id assignments
  | None => []
  end.

Definition access_request (tree : ptree) (service_id subservice_id : string) : http_request :=
  ac_create_request access
    (create_xml_access_control write_xml (roles_of tree service_id subservice_id) resource_of action)
    (put_all (map (fun k => (k, get_header q k))
       [HEADER_TRACE_MESSAGES; HTTP_HEADER_FIWARE_SERVICE; HTTP_HEADER_FIWARE_SERVICEPATH; HTTP_HEADER_AUTH])).

Definition advance (st : stage) (r : reply) : stage :=
  match st with
  | AskToken => let t := read_token r in if String.eqb t "" then Finished HTTP_UNAUTHORIZED else AskUser t
  | AskUser t => match user_of r with
                 | Some (user, service_id) => AskProjects t user service_id
                 | None => Finished HTTP_UNAUTHORIZED
                 end
  | AskProjects t user service_id =>
      let '(code, subservice) := read_projects read_json r path in
      if code =? HTTP_BAD_REQUEST then Finished HTTP_UNAUTHORIZED
      else AskRoles t user service_id (default "" subservice)
  | AskRoles t user service_id subservice_id =>
      let tree := get_ptree read_json (content_of r) in
      if Nat.eqb (List.length (pt_children tree)) 0 || String.eqb action "" then Finished HTTP_UNAUTHORIZED
      else AskAccess (access_request tree service_id subservice_id)
  | AskAccess _ => Finished (if ac_receive_event r then HTTP_OK else HTTP_FORBIDDEN)
  | Finished status => Finished status
  end.

(** A response to another request than the one in flight is nothing. *)
Definition advance_at (st : stage) (x : nat * reply) : stage :=
  match fst x with O => advance st (snd x) | S _ => st end.

(** ** The stages in the program *)

Definition get_from (endpoint : IoTUrl) (query : string) (headers : list (string * string)) : http_request :=
  create_request "GET" (_host endpoint) (_port endpoint) (_path endpoint) "" query headers.

(** The request of a stage. *)
Definition request_of (st : stage) : list sent :=
  match st with
  | AskToken => [mkSent (create_request "POST" (_host validate) (_port validate) (_path validate)
                           (write_json auth) (_query validate) []) (f_timeout f) on_renew_token]
  | AskUser t => [mkSent (get_from validate "" [(HTTP_HEADER_AUTH, t); (HTTP_HEADER_TOKEN, user_token)])
                    (f_timeout f) on_get_user]
  | AskProjects t _ service_id =>
      [mkSent (get_from projects ("domain_id=" ++ service_id) [(HTTP_HEADER_AUTH, t)]) (f_timeout f) on_get_subservice]
  | AskRoles t user _ _ =>
      [mkSent (get_from roles ("user.id=" ++ user ++ "&effective") [(HTTP_HEADER_AUTH, t)])
         (f_timeout f) on_get_user_roles]
  | AskAccess x => [mkSent x 5 on_access_control]
  | Finished _ => []
  end.

Definition posted_of (st : stage) : list (string * Z) :=
  match st with Finished status => [(trace_of q, status)] | _ => [] end.

(** The object, once the request has been read. *)
Definition asking (token user service_id subservice_id : string) : OAuth :=
  mkOAuth "" user_token service path user subservice_id service_id pt_empty token
    (_auth_endpoint_validate f) (_auth_endpoint_roles f) (_auth_endpoint_projects f) "" auth (f_timeout f) false true.

Definition object_of (st : stage) (o : OAuth) : Prop :=
  match st with
  | AskToken => o = asking "" "" "" ""
  | AskUser t => o = asking t "" "" ""
  | AskProjects t user service_id => user <> "" /\ o = asking t user service_id ""
  | AskRoles t user service_id subservice_id => user <> "" /\ o = asking t user service_id subservice_id
  | AskAccess _ | Finished _ => True
  end.

(** A session is at a stage. *)
Definition at_stage (st : stage) (s : Session (outside := outside)) : Prop :=
  in_flight (client s) = request_of st /\ posted s = posted_of st /\ object_of st (oauth (client s)).

(** ** The simulation *)
  Hypothesis endpoint_validate : new_IoTUrl (_auth_endpoint_validate f) = Ret validate.
  Hypothesis endpoint_projects : new_IoTUrl (_auth_endpoint_projects f) = Ret projects.
  Hypothesis endpoint_roles : new_IoTUrl (_auth_endpoint_roles f) = Ret roles.
  Hypothesis endpoint_access : new_IoTUrl (_ac_endpoint f) = Ret access.
  Hypothesis auth_pep : String.eqb (pt_get_default auth "auth.scope.OS-TRUST:trust.id" "") "" = true.
  Hypothesis the_action : get_action regex_match (q_method q) (get_relative_resource (q_resource q) f) f = Ret action.
  Hypothesis read_empty : read_json "" = None.
  Hypothesis no_children : pt_children pt_empty = [].

Lemma endpoint_nonempty s u : new_IoTUrl s = Ret u -> String.eqb s "" = false.
Proof. by destruct s. Qed.

Lemma asking_pep t u sv sub : is_pep (asking t u sv sub) = true.
Proof. exact auth_pep. Qed.

Lemma tree_of_empty : get_ptree read_json "" = pt_empty.
Proof. unfold get_ptree. by rewrite read_empty. Qed.

(** A user is always read: without a response there is no tree. *)
Lemma user_read r : read_user read_json r service = Ret (user_of r).
Proof.
  unfold user_of. unfold read_user. destruct (r_response r) eqn:E.
  - destruct (pt_children (get_ptree read_json (content_of r))); reflexivity.
  - unfold content_of. rewrite E, tree_of_empty, no_children. done.
Qed.

Lemma user_known r u sv : user_of r = Some (u, sv) -> u <> "".
Proof.
  intros H. pose proof (user_read r) as E. rewrite H in E. unfold read_user in E.
  destruct (pt_children (get_ptree read_json (content_of r))); [done|]. destruct (r_response r); [|done]. cbn in E.
  destruct (_ && _) eqn:Ec; [|done]. simplify_eq. rewrite !andb_true_iff, negb_true_iff in Ec.
  destruct Ec as [[[_ Ec] _] _]. by apply String.eqb_neq in Ec.
Qed.

#[local] Arguments OAuthFilter.authorize : simpl never.
#[local] Arguments Nat.ltb : simpl never.
#[local] Arguments is_pep : simpl never.
#[local] Arguments get_ptree : simpl never.
#[local] Arguments create_request : simpl never.
#[local] Arguments send_request : simpl never.
#[local] Notation session o fl n al w p u := (mkSession (mkClient o fl n al w) p u).
#[local] Notation deliver := (deliver read_json write_xml send_sync regex_match).
#[local] Notation authorize := (authorize write_xml regex_match).
#[local] Notation with_callback := (with_callback write_xml regex_match).

(** Whether a request is refused before the access control is asked. *)
Definition refused (user : string) (tree : ptree) : bool :=
  String.eqb user "" || Nat.eqb (List.length (pt_children tree)) 0 || String.eqb action "".

Lemma authorize_eq t user service_id subservice_id tree n al (w : outside) u :
  let o := set_roles tree (asking t user service_id subservice_id) in
  exists u', authorize f q (session o [] n al w [] u)
  = (if refused user tree then session o [] n al w [(trace_of q, HTTP_UNAUTHORIZED)] u'
     else session o [mkSent (access_request tree service_id subservice_id) 5 on_access_control] n al w [] u', Ret tt).
Proof.
  intros o. eexists. unfold OAuthFilter.authorize, sbind, sget, set_request_user, smodify, slift. cbn.
  rewrite the_action. cbn. rewrite (endpoint_nonempty _ _ endpoint_access).
  rewrite !orb_false_r. unfold refused.
  destruct (String.eqb user "" || Nat.eqb (List.length (pt_children tree)) 0 || String.eqb action ""); [reflexivity|].
  unfold ac_authorize. rewrite endpoint_access. reflexivity.
Qed.

(** The application is called back, or is not. *)
Lemma with_callback_eq {A} (m : M (Client (outside := outside)) A) c c' (a : A) p u : m c = (c', Ret a) ->
  with_callback f q m (mkSession c p u)
  = if (calls c <? calls c')%nat then authorize f q (mkSession c' p u) else (mkSession c' p u, Ret tt).
Proof.
  intros E. unfold OAuthFilter.with_callback, sbind, sget, on_client. cbn. rewrite E. cbn.
  by destruct (calls c <? calls c')%nat.
Qed.

Lemma send_request_eq endpoint url method content query headers h run o fl n al (w : outside) :
  new_IoTUrl endpoint = Ret url -> _sync o = false ->
  send_request send_sync endpoint method content query headers h run (mkClient o fl n al w)
  = (mkClient o (fl ++ [mkSent (create_request method (_host url) (_port url) (_path url) content query headers)
                          (OAuth._timeout o) h])%list n al w, Ret "").
Proof.
  intros E Hs. unfold send_request, send_on, sbind, slift, sget, push_request, smodify. cbn. rewrite E. cbn.
  by rewrite Hs.
Qed.

(** The response a stage waits for is handled by the object. *)
Lemma deliver_head o x n al w p u r :
  deliver f q 0 r (session o [x] n al w p u)
  = (match s_handler x with
     | on_access_control => access_control q (ac_receive_event r)
     | h => with_callback f q (receive_event read_json send_sync h r)
     end) (session o [] n al w p u).
Proof. reflexivity. Qed.

Lemma deliver_other x n r (s : Session (outside := outside)) :
  in_flight (client s) = request_of x -> deliver f q (S n) r s = (s, Ret tt).
Proof.
  intros E. unfold OAuthFilter.deliver, sbind, sget. rewrite E. by destruct x.
Qed.

(** A handler that calls back: the request is refused, or the access control is
    asked. *)
Lemma called_back {A} (m : M (Client (outside := outside)) A) t user service_id subservice_id tree n al' (w : outside) u c (a : A) :
  calls c = n -> m c = (mkClient (set_roles tree (asking t user service_id subservice_id)) [] (S n) al' w, Ret a) ->
  exists s', with_callback f q m (mkSession c [] u) = (s', Ret tt)
    /\ at_stage (if refused user tree then Finished HTTP_UNAUTHORIZED
                 else AskAccess (access_request tree service_id subservice_id)) s'.
Proof.
  intros Hn Hm. rewrite (with_callback_eq _ _ _ _ _ _ Hm). cbn [calls]. rewrite Hn.
  replace (n <? S n)%nat with true by (symmetry; apply Nat.ltb_lt; lia).
  destruct (authorize_eq t user service_id subservice_id tree (S n) al' w u) as [u' ->].
  eexists. split; [reflexivity|]. by destruct (refused user tree).
Qed.

(** A handler that asks for more. *)
Lemma asked_on {A} (m : M (Client (outside := outside)) A) c c' (a : A) u st :
  m c = (c', Ret a) -> calls c' = calls c ->
  in_flight c' = request_of st -> posted_of st = [] -> object_of st (oauth c') ->
  exists s', with_callback f q m (mkSession c [] u) = (s', Ret tt) /\ at_stage st s'.
Proof.
  intros Hm Hc Hf Hp Ho. rewrite (with_callback_eq _ _ _ _ _ _ Hm), Hc, Nat.ltb_irrefl.
  eexists. by split; [reflexivity|repeat split].
Qed.

#[local] Notation client_of o fl n al w := (mkClient (outside := outside) o fl n al w).

Lemma token_handled r n al w :
  receive_event read_json send_sync on_renew_token r (client_of (asking "" "" "" "") [] n al w)
  = (if String.eqb (read_token r) "" then
       client_of (asking "" "" "" "") [] (S n)
         (Alarm.put al ALARM_CODE_BAD_CONFIGURATION (r_endpoint r) RESPONSE_MESSAGE_BAD_CONFIG "No token as PEP user") w
     else client_of (asking (read_token r) "" "" "") (request_of (AskUser (read_token r))) n al w, Ret tt).
Proof.
  cbn [receive_event]. unfold receive_event_renew_token, sbind, on_oauth, sget, smodify. cbn [oauth].
  change (is_pep (set_subject_token _ _)) with (is_pep (asking (read_token r) "" "" "")).
  rewrite asking_pep. cbn. destruct (String.eqb (read_token r) "") eqn:E; cbn.
  - apply String.eqb_eq in E. by rewrite E.
  - unfold get_user, sbind, on_oauth, sget, smodify. cbn.
    by rewrite (send_request_eq _ validate) by done.
Qed.

Lemma user_handled t r n al w :
  receive_event read_json send_sync on_get_user r (client_of (asking t "" "" "") [] n al w)
  = (match user_of r with
     | Some (user, service_id) =>
         client_of (asking t user service_id "") (request_of (AskProjects t user service_id)) n al w
     | None => client_of (asking t "" "" "") [] (S n) al w
     end, Ret tt).
Proof.
  cbn [receive_event]. unfold receive_event_get_user, sbind, on_oauth, sget, smodify, slift. cbn.
  rewrite user_read. destruct (user_of r) as [[user service_id]|] eqn:E; cbn.
  - change (is_pep _) with (is_pep (asking t user service_id "")). rewrite asking_pep. cbn.
    apply user_known in E. apply String.eqb_neq in E. rewrite E.
    unfold get_subservice, sbind, sget. cbn. by rewrite (send_request_eq _ projects) by done.
  - by rewrite asking_pep.
Qed.

Lemma projects_handled t user service_id r n al w :
  receive_event read_json send_sync on_get_subservice r (client_of (asking t user service_id "") [] n al w)
  = (let '(code, subservice) := read_projects read_json r path in
     let o := asking t user service_id (default "" subservice) in
     if code =? HTTP_BAD_REQUEST then client_of o [] (S n) al w
     else client_of o (request_of (AskRoles t user service_id (default "" subservice))) n al w, Ret tt).
Proof.
  cbn [receive_event]. unfold receive_event_get_subservice, sbind, on_oauth, sget, smodify. cbn [oauth].
  change (_project (asking t user service_id "")) with path.
  destruct (read_projects read_json r path) as [code subservice]. rewrite asking_pep.
  destruct subservice as [sub|]; cbn; destruct (code =? HTTP_BAD_REQUEST); try reflexivity.
  all: unfold get_user_roles, sbind, sget; cbn.
  - change (is_pep _) with (is_pep (asking t user service_id sub)). rewrite asking_pep. cbn [negb].
    by rewrite (send_request_eq _ roles) by done.
  - rewrite asking_pep. cbn [negb]. by rewrite (send_request_eq _ roles) by done.
Qed.

Lemma roles_handled t user service_id subservice_id r n al w :
  receive_event read_json send_sync on_get_user_roles r (client_of (asking t user service_id subservice_id) [] n al w)
  = (client_of (set_roles (get_ptree read_json (content_of r)) (asking t user service_id subservice_id)) [] (S n) al w,
     Ret tt).
Proof.
  cbn [receive_event]. unfold receive_event_get_user_roles, sbind, on_oauth, sget, smodify. cbn [oauth].
  rewrite asking_pep. cbn. destruct (String.eqb (content_of r) "") eqn:E; [|reflexivity].
  apply String.eqb_eq in E. rewrite E, tree_of_empty. reflexivity.
Qed.

(** The session of the right stage is the one of a lemma. *)
#[local] Ltac reach lem :=
  let s' := fresh "s" in let Hs := fresh "Hs" in let Ha := fresh "Ha" in
  destruct lem as (s' & Hs & Ha); exists s'; split; [exact Hs|exact Ha].

(** A response moves the program as it moves the machine. *)
Lemma deliver_head_simulates st r s : at_stage st s ->
  exists s', deliver f q 0 r s = (s', Ret tt) /\ at_stage (advance st r) s'.
Proof.
  destruct s as [[o fl n al w] p u]. intros (Hf & Hp & Ho). cbn in Hf, Hp, Ho. subst fl p.
  destruct st as [|t|t user sv|t user sv sub|x|status]; cbn [object_of] in Ho; cbn [request_of posted_of advance].
  - subst o. rewrite deliver_head. cbn [s_handler]. pose proof (token_handled r n al w) as E.
    destruct (String.eqb (read_token r) "") eqn:Et.
    + reach (called_back _ "" "" "" "" pt_empty _ _ _ u _ _ eq_refl E).
    + reach (asked_on _ _ _ _ u (AskUser _) E eq_refl eq_refl eq_refl eq_refl).
  - subst o. rewrite deliver_head. cbn [s_handler]. pose proof (user_handled t r n al w) as E.
    destruct (user_of r) as [[user sv]|] eqn:Eu.
    + reach (asked_on _ _ _ _ u (AskProjects t user sv) E eq_refl eq_refl eq_refl
               (conj (user_known _ _ _ Eu) eq_refl)).
    + reach (called_back _ t "" "" "" pt_empty _ _ _ u _ _ eq_refl E).
  - destruct Ho as [Hu ->]. rewrite deliver_head. cbn [s_handler].
    pose proof (projects_handled t user sv r n al w) as E.
    destruct (read_projects read_json r path) as [code subservice]. destruct (code =? HTTP_BAD_REQUEST) eqn:Ec.
    + destruct (called_back _ t user sv (default "" subservice) pt_empty _ _ _ u _ _ eq_refl E) as (s' & Hs & Ha).
      exists s'. split; [exact Hs|]. unfold refused in Ha. rewrite no_children in Ha. cbn in Ha.
      by rewrite orb_true_r in Ha.
    + reach (asked_on _ _ _ _ u (AskRoles t user sv (default "" subservice)) E eq_refl eq_refl eq_refl
               (conj Hu eq_refl)).
  - destruct Ho as [Hu ->]. rewrite deliver_head. cbn [s_handler].
    destruct (called_back _ t user sv sub _ _ _ _ u _ _ eq_refl (roles_handled t user sv sub r n al w))
      as (s' & Hs & Ha).
    exists s'. split; [exact Hs|]. unfold refused in Ha. apply String.eqb_neq in Hu. by rewrite Hu in Ha.
  - eexists. split; [reflexivity|]. by repeat split.
  - eexists. split; [reflexivity|]. by repeat split.
Qed.

Lemma deliver_simulates st x s : at_stage st s ->
  exists s', deliver f q (fst x) (snd x) s = (s', Ret tt) /\ at_stage (advance_at st x) s'.
Proof.
  intros Hs. destruct x as [[|n] r].
  - by apply deliver_head_simulates.
  - exists s. split; [by apply (deliver_other st), Hs|done].
Qed.

Lemma deliver_all_simulates replies : forall st s, at_stage st s ->
  exists s', deliver_all read_json write_xml send_sync regex_match f q replies s = (s', Ret tt)
    /\ at_stage (fold_left advance_at replies st) s'.
Proof.
  induction replies as [|x replies IH]; intros st s Hs; [by exists s|].
  destruct (deliver_simulates st x s Hs) as (s1 & E1 & H1). destruct (IH _ _ H1) as (s2 & E2 & H2).
  exists s2. split; [|exact H2]. destruct x as [n r]. cbn [OAuthFilter.deliver_all]. unfold sbind. cbn [fst snd] in E1.
  by rewrite E1.
Qed.

(** The object of the filter, with its identity. *)
Definition identified : OAuth :=
  set_oauth_projects (_auth_endpoint_projects f) (set_oauth_roles (_auth_endpoint_roles f)
    (set_oauth_validate (_auth_endpoint_validate f) (new_oauth (f_timeout f)))).

(** The request for a token of the agent. *)
Definition token_request (url : IoTUrl) (o : OAuth) : sent :=
  mkSent (create_request "POST" (_host url) (_port url) (_path url) (write_json (_auth o)) (_query url) [])
    (OAuth._timeout o) on_renew_token.

Lemma renew_token_eq scope url o n al w : new_IoTUrl scope = Ret url -> _sync o = false ->
  renew_token read_json send_sync scope (client_of o [] n al w)
  = (client_of (set_subject_token "" o) [token_request url o] n al w, Ret tt).
Proof.
  intros E Hs. unfold renew_token, send_on, sbind, slift, sget, push_request, on_oauth, smodify. rewrite E.
  cbn. by rewrite Hs.
Qed.

Lemma get_token_eq url o n al w : is_pep o = true -> new_IoTUrl (_oauth_validate o) = Ret url -> _sync o = false ->
  get_token read_json send_sync HTTP_OK (client_of o [] n al w)
  = (client_of (set_subject_token "" o) [token_request url o] n al w, Ret "").
Proof.
  intros Hp E Hs. unfold get_token, sbind, sget. cbn [oauth]. rewrite Hp. cbn [negb].
  by rewrite (renew_token_eq _ url o n al w E Hs).
Qed.

Lemma validate_user_token_eq token url o n al w : String.eqb token "" = false ->
  is_pep o = true -> new_IoTUrl (_oauth_validate o) = Ret url -> _sync o = false ->
  validate_user_token read_json send_sync token true (client_of o [] n al w)
  = (client_of (set_subject_token "" (set_user_token token (set_callback true o))) [token_request url o] n al w,
     Ret pt_empty).
Proof.
  intros Ht Hp E Hs. unfold validate_user_token, sbind, on_oauth, sget, smodify.
  cbn [oauth in_flight calls c_alarms c_outside].
  rewrite Ht. cbn [negb]. change (is_pep (set_callback true o)) with (is_pep o). rewrite Hp. cbn [negb].
  change (_sync (set_callback true o)) with (_sync o). rewrite Hs.
  cbn [oauth in_flight calls c_alarms c_outside].
  by rewrite (get_token_eq url (set_user_token token (set_callback true o)) n al w Hp E Hs).
Qed.

Lemma token_asked n al (w : outside) : String.eqb user_token "" = false ->
  validate_user_token read_json send_sync user_token true
    (client_of (set_project path (set_domain service (set_auth auth identified))) [] n al w)
  = (client_of (asking "" "" "" "") (request_of AskToken) n al w, Ret pt_empty).
Proof.
  intros Ht. rewrite (validate_user_token_eq _ validate); [reflexivity|exact Ht|exact auth_pep| |reflexivity].
  exact endpoint_validate.
Qed.

(** The request, when the filter and the request are complete: the token is
    asked for. *)
Lemma handle_request_asks (s : Session (outside := outside)) :
  is_open url_base q = false -> incomplete f q = false ->
  set_identity (f_domain f) (_user f) (_password f) identified = set_auth auth identified ->
  in_flight (client s) = [] -> posted s = [] ->
  exists s', handle_request read_json write_xml send_sync regex_match url_base f q s = (s', Ret tt)
    /\ at_stage AskToken s'.
Proof.
  destruct s as [[o fl n al w] p u]. intros Ho Hi Hid Hf Hp. cbn in Hf, Hp. subst fl p.
  unfold handle_request. rewrite Ho, Hi. unfold sbind at 1, on_session, smodify at 1. cbn.
  assert (Ht : String.eqb user_token "" = false).
  { unfold incomplete in Hi. cbn in Hi. rewrite !orb_false_iff in Hi. apply Hi. }
  unfold filter_oauth. unfold identified in Hid. rewrite Hid.
  reach (asked_on _ _ _ _ u AskToken (token_asked n al w Ht) eq_refl eq_refl eq_refl eq_refl).
Qed.
End Filter.

(** ** What the machine says of a request *)
Section Machine.
  Context `{HB : Boost} `{HP : PropertyTree} `{HI : !PropertyTreeIter} `{PB : !PropertyTreeBuild}.
  Context (read_json : string -> option ptree) (write_xml : ptree -> string).
  Context (f : OAuthFilter) (q : request) (action : string) (access : IoTUrl).

#[local] Notation advance := (advance read_json write_xml f q action access).
#[local] Notation advance_at := (advance_at read_json write_xml f q action access).

(** The responses to the request in flight. *)
Definition heads (replies : list (nat * reply)) : list reply :=
  map snd (List.filter (fun x => Nat.eqb (fst x) 0) replies).

Lemma fold_heads replies : forall st, fold_left advance_at replies st = fold_left advance (heads replies) st.
Proof. induction replies as [|[[|n] r] replies IH]; intros st; cbn; [done|apply IH|apply IH]. Qed.

Lemma fold_finished rs status : fold_left advance rs (Finished status) = Finished status.
Proof. by induction rs. Qed.

(** How far a stage is from the start, and what it may end in. *)
Definition rank (st : stage) : nat :=
  match st with
  | AskToken => 0
  | AskUser _ => 1
  | AskProjects _ _ _ => 2
  | AskRoles _ _ _ _ => 3
  | AskAccess _ => 4
  | Finished _ => 5
  end.

Definition ended_well (st : stage) : Prop :=
  match st with Finished status => status = HTTP_OK \/ status = HTTP_UNAUTHORIZED \/ status = HTTP_FORBIDDEN | _ => True end.

Lemma advance_moves st r : ended_well st -> ended_well (advance st r) /\ (Nat.min 5 (S (rank st)) <= rank (advance st r))%nat.
Proof.
  intros Hs. destruct st as [|t|t user sv|t user sv sub|x|status]; cbn [OAuthSpec.advance].
  - destruct (String.eqb (read_token r) ""); cbn; auto with lia.
  - destruct (user_of read_json q r) as [[user sv]|]; cbn; auto with lia.
  - destruct (read_projects _ _ _) as [code sub]. destruct (code =? HTTP_BAD_REQUEST); cbn; auto with lia.
  - destruct (_ || _); cbn; auto with lia.
  - destruct (ac_receive_event r); cbn; auto with lia.
  - cbn in *. auto with lia.
Qed.

(** Five responses end a request. *)
Lemma five_finish rs : forall st, ended_well st ->
  ended_well (fold_left advance rs st)
  /\ (Nat.min 5 (List.length rs + rank st) <= rank (fold_left advance rs st))%nat.
Proof.
  induction rs as [|r rs IH]; intros st Hs; [split; [done|]; cbn [fold_left List.length]; lia|].
  destruct (advance_moves st r Hs) as [H1 H2]. destruct (IH _ H1) as [H3 H4].
  cbn [fold_left List.length]. split; [done|]. lia.
Qed.

(** ** What the answers say *)

Lemma found_stays projects project : forall code sub found' code' sub',
  find_project projects project true code sub = (found', code', sub') -> found' = true.
Proof.
  induction projects as [|[k v] projects IH]; intros code sub found' code' sub' H; cbn in H; [by simplify_eq|].
  destruct (negb (String.eqb project "/")), (String.eqb (pt_get_default v "name" "") project); by eapply IH.
Qed.

(** A project that is found is one of the list, with its identifier; when none
    is, a list that is not empty leaves a status of 400. *)
Lemma find_project_spec projects project : project <> "/" -> forall code found' code' sub',
  find_project projects project false code None = (found', code', sub') ->
  (found' = false -> sub' = None /\ (projects <> [] -> code' = HTTP_BAD_REQUEST))
  /\ (found' = true -> exists v, In v projects /\ pt_get_default (snd v) "name" "" = project
                              /\ sub' = Some (pt_get_default (snd v) "id" "")).
Proof.
  intros Hp. pose proof Hp as Hp'. apply String.eqb_neq in Hp'.
  cut (forall found code sub found' code' sub', find_project projects project found code sub = (found', code', sub') ->
    (found' = false -> sub' = sub /\ (projects <> [] -> code' = HTTP_BAD_REQUEST))
    /\ (found' = true -> sub' = sub /\ found = true
       \/ exists v, In v projects /\ pt_get_default (snd v) "name" "" = project
                  /\ sub' = Some (pt_get_default (snd v) "id" ""))).
  { intros H code found' code' sub' E. destruct (H _ _ _ _ _ _ E) as [H1 H2]. split; [done|].
    intros Hf. by destruct (H2 Hf) as [[_ ?]|?]. }
  induction projects as [|[k v] projects IH]; intros found code sub found' code' sub' H; cbn in H.
  { simplify_eq. split; [done|]. intros ->. by left. }
  rewrite Hp' in H. cbn in H. destruct (String.eqb (pt_get_default v "name" "") project) eqn:Ev.
  - pose proof (found_stays _ _ _ _ _ _ _ H) as ->. split; [done|]. intros _. right.
    destruct (proj2 (IH _ _ _ _ _ _ H) eq_refl) as [[-> _]|(w & Hw & Hn & ->)].
    + apply String.eqb_eq in Ev. exists (k, v). by repeat split; [left|].
    + exists w. by repeat split; [right|].
  - destruct (IH _ _ _ _ _ _ H) as [H1 H2]. split.
    + intros ->. destruct (H1 eq_refl) as [-> Hc]. split; [done|]. intros _.
      destruct found; [by apply found_stays in H|]. destruct projects as [|x projects]; [by cbn in H; simplify_eq|].
      by apply Hc.
    + intros Hf. destruct (H2 Hf) as [?|(w & Hw & Hn & ->)]; [by left|]. right. exists w. by repeat split; [right|].
Qed.

(** What was answered to a request that is granted. *)
Record granted (rs : list reply) (tree : ptree) (service_id subservice_id : string) : Prop := {
  (** a token for the agent *)
  g_token : exists rt response, rs !! 0%nat = Some rt /\ r_response rt = Some response
              /\ In (rs_code response) [HTTP_OK; HTTP_ACCEPTED; HTTP_CREATED] /\ r_token rt <> "";
  (** the user, of the domain of the request *)
  g_user : exists ru response, rs !! 1%nat = Some ru /\ r_response ru = Some response /\ rs_code response = HTTP_OK
             /\ let t := get_ptree read_json (rs_content response) in
                pt_get_default t "token.user.id" "" <> ""
                /\ pt_get_default t "token.user.domain.name" "" = get_header q HTTP_HEADER_FIWARE_SERVICE
                /\ service_id = pt_get_default t "token.user.domain.id" "";
  (** the project, when the answer lists any *)
  g_project : exists rp response, rs !! 2%nat = Some rp /\ r_response rp = Some response
                /\ rs_code response <> HTTP_BAD_REQUEST
                /\ forall v projects, service_path q <> "/" -> rs_code response = HTTP_OK -> rs_content response <> "" ->
                     pt_get_child (get_ptree read_json (rs_content response)) "projects" = Some (v :: projects) ->
                     exists w, In w (v :: projects) /\ pt_get_default (snd w) "name" "" = service_path q
                               /\ subservice_id = pt_get_default (snd w) "id" "";
  (** roles, of which those of the project or of the domain count *)
  g_roles : exists rr, rs !! 3%nat = Some rr /\ tree = get_ptree read_json (content_of rr) /\ pt_children tree <> [];
  g_scope : forall role, In role (roles_of q tree service_id subservice_id) ->
              exists assignments v, pt_get_child tree "role_assignments" = Some assignments /\ In v assignments
                /\ role = pt_get_default (snd v) "role.id" ""
                /\ (service_path q = "/" -> pt_get_default (snd v) "scope.domain.id" "" = service_id)
                /\ (service_path q <> "/" -> pt_get_default (snd v) "scope.project.id" "" = subservice_id);
  g_action : action <> "";
  (** the decision *)
  g_access : exists ra response, rs !! 4%nat = Some ra /\ r_response ra = Some response
               /\ rs_code response = HTTP_OK /\ is_Some (CppString.find "Permit" (rs_content response) 0);
  g_asked : fold_left advance (take 4 rs) AskToken
            = AskAccess (access_request write_xml f q action access tree service_id subservice_id)
}.

Lemma token_spec r : read_token r <> "" ->
  exists response, r_response r = Some response
    /\ In (rs_code response) [HTTP_OK; HTTP_ACCEPTED; HTTP_CREATED] /\ r_token r <> "".
Proof.
  unfold read_token. destruct (r_response r) as [response|]; [|done]. intros H. exists response. split; [done|].
  destruct (_ || _) eqn:E in H; [|done]. split; [|done]. rewrite !orb_true_iff, !Z.eqb_eq in E. cbn. intuition.
Qed.

Lemma user_spec r user service_id : user_of read_json q r = Some (user, service_id) ->
  exists response, r_response r = Some response /\ rs_code response = HTTP_OK
    /\ let t := get_ptree read_json (rs_content response) in
       pt_get_default t "token.user.id" "" <> ""
       /\ pt_get_default t "token.user.domain.name" "" = get_header q HTTP_HEADER_FIWARE_SERVICE
       /\ service_id = pt_get_default t "token.user.domain.id" "".
Proof.
  unfold user_of, read_user, content_of. destruct (r_response r) as [response|]; [|by destruct (pt_children _)].
  destruct (pt_children _); [done|]. cbn. destruct (_ && _) eqn:E; [|done]. intros H. simplify_eq.
  rewrite !andb_true_iff, !negb_true_iff, Z.eqb_eq, !String.eqb_neq, String.eqb_eq in E.
  destruct E as [[[E1 E2] E3] E4]. by exists response.
Qed.

Lemma projects_spec r code sub : read_projects read_json r (service_path q) = (code, sub) -> code <> HTTP_BAD_REQUEST ->
  exists response, r_response r = Some response /\ rs_code response <> HTTP_BAD_REQUEST
    /\ forall v projects, service_path q <> "/" -> rs_code response = HTTP_OK -> rs_content response <> "" ->
         pt_get_child (get_ptree read_json (rs_content response)) "projects" = Some (v :: projects) ->
         exists w, In w (v :: projects) /\ pt_get_default (snd w) "name" "" = service_path q
                   /\ default "" sub = pt_get_default (snd w) "id" "".
Proof.
  unfold read_projects. destruct (r_response r) as [response|]; [|by intros [= <- <-]].
  destruct (negb (String.eqb (rs_content response) "") && (rs_code response =? HTTP_OK)) eqn:E; intros H Hc.
  - apply andb_true_iff in E as [Ec Eo]. apply Z.eqb_eq in Eo. exists response. split; [done|]. split; [by rewrite Eo|].
    intros v projects Hp _ _ Hl. rewrite Hl in H.
    destruct (find_project _ _ _ _ _) as [[found' code'] sub'] eqn:Ef. simplify_eq.
    destruct (find_project_spec _ _ Hp _ _ _ _ Ef) as [H2 H3].
    destruct found'; [|by destruct Hc; apply (H2 eq_refl)].
    destruct (H3 eq_refl) as (w & Hw & Hn & ->). by exists w.
  - simplify_eq. exists response. split; [done|]. split; [done|]. intros v projects _ Ho Hn _. exfalso.
    rewrite Ho in E. apply String.eqb_neq in Hn. by rewrite Hn in E.
Qed.

Lemma scope_spec tree service_id subservice_id role : In role (roles_of q tree service_id subservice_id) ->
  exists assignments v, pt_get_child tree "role_assignments" = Some assignments /\ In v assignments
    /\ role = pt_get_default (snd v) "role.id" ""
    /\ (service_path q = "/" -> pt_get_default (snd v) "scope.domain.id" "" = service_id)
    /\ (service_path q <> "/" -> pt_get_default (snd v) "scope.project.id" "" = subservice_id).
Proof.
  unfold roles_of. destruct (pt_get_child tree _) as [assignments|]; [|done]. unfold scope_roles.
  intros (v & Hr & Hv)%in_map_iff. apply filter_In in Hv as [Hv Hs]. exists assignments, v. rewrite <- Hr.
  destruct (String.eqb (service_path q) "/") eqn:Ep; apply String.eqb_eq in Hs.
  - apply String.eqb_eq in Ep. by repeat split.
  - apply String.eqb_neq in Ep. by repeat split.
Qed.

Lemma permit_spec r : ac_receive_event r = true ->
  exists response, r_response r = Some response
    /\ rs_code response = HTTP_OK /\ is_Some (CppString.find "Permit" (rs_content response) 0).
Proof.
  unfold ac_receive_event, contains. destruct (r_response r) as [response|]; [|done].
  intros [Hc Hp]%andb_true_iff. exists response. split; [done|]. split; [by apply Z.eqb_eq|].
  destruct (CppString.find _ _ _); [by eexists|done].
Qed.

Lemma machine_granted rs : fold_left advance rs AskToken = Finished HTTP_OK ->
  exists tree service_id subservice_id, granted rs tree service_id subservice_id.
Proof.
  intros H. destruct rs as [|rt rs]; [done|]. cbn in H. destruct (String.eqb (read_token rt) "") eqn:Et.
  { by rewrite fold_finished in H. }
  destruct rs as [|ru rs]; [done|]. cbn in H. destruct (user_of read_json q ru) as [[user sv]|] eqn:Eu.
  2: { by rewrite fold_finished in H. }
  destruct rs as [|rp rs]; [done|]. cbn in H. destruct (read_projects _ rp _) as [code sub] eqn:Ep.
  destruct (code =? HTTP_BAD_REQUEST) eqn:Ec.
  { by rewrite fold_finished in H. }
  destruct rs as [|rr rs]; [done|]. cbn in H. destruct (_ || _) eqn:Er in H.
  { by rewrite fold_finished in H. }
  destruct rs as [|ra rs]; [done|]. cbn in H. rewrite fold_finished in H.
  pose proof Er as Er'. apply orb_false_iff in Er' as [Er1 Er2].
  exists (get_ptree read_json (content_of rr)), sv, (default "" sub). split.
  - apply String.eqb_neq, token_spec in Et as (response & Hr & H1 & H2). by exists rt, response.
  - apply user_spec in Eu as (response & Hr & Hu). by exists ru, response.
  - apply Z.eqb_neq in Ec. destruct (projects_spec _ _ _ Ep Ec) as (response & Hr & Hu). by exists rp, response.
  - exists rr. repeat split. by destruct (pt_children _).
  - apply scope_spec.
  - by apply String.eqb_neq.
  - destruct (ac_receive_event ra) eqn:Ea; [|done]. apply permit_spec in Ea as (response & Hr & Hu).
    by exists ra, response.
  - cbn. rewrite Et. cbn. rewrite Eu. cbn. rewrite Ep, Ec. cbn. by rewrite Er.
Qed.
End Machine.

(** ** The promises *)
Section Promise.
  Context `{HB : Boost} `{HP : PropertyTree} `{HI : !PropertyTreeIter} `{PB : !PropertyTreeBuild}.
  Context (read_json : string -> option ptree) (write_xml : ptree -> string).
  Context {outside : Type} (send_sync : outside -> http_request -> Z -> outside * reply).
  Context (regex_match : string -> string -> outcome (option (list string))).
  Context (url_base : string).

#[local] Notation serve := (serve read_json write_xml send_sync regex_match url_base).

(** A filter whose four endpoints are URLs, with a request that is checked,
    and the action of the request. *)
Record settled (f : OAuthFilter) (q : request) (action : string) (validate projects roles access : IoTUrl) : Prop := {
  st_validate : new_IoTUrl (_auth_endpoint_validate f) = Ret validate;
  st_projects : new_IoTUrl (_auth_endpoint_projects f) = Ret projects;
  st_roles : new_IoTUrl (_auth_endpoint_roles f) = Ret roles;
  st_access : new_IoTUrl (_ac_endpoint f) = Ret access;
  st_action : get_action regex_match (q_method q) (get_relative_resource (q_resource q) f) f = Ret action;
  st_open : is_open url_base q = false;
  st_complete : incomplete f q = false
}.

(** A session of a new request. *)
Definition fresh_session (s : Session (outside := outside)) : Prop := in_flight (client s) = [] /\ posted s = [].

  Context `{HL : !PropertyTreeBuildLaws}.
  Context (f : OAuthFilter) (q : request) (action : string) (validate projects roles access : IoTUrl).
  Hypothesis Hst : settled f q action validate projects roles access.
  Hypothesis read_empty : read_json "" = None.
  Hypothesis no_children : pt_children pt_empty = [].

#[local] Notation advance := (advance read_json write_xml f q action access).
#[local] Notation advance_at := (advance_at read_json write_xml f q action access).

Lemma serve_stages : exists auth, forall s replies, fresh_session s ->
  exists s', serve f q replies s = (s', Ret tt)
    /\ at_stage f q auth validate projects roles (fold_left advance_at replies AskToken) s'.
Proof.
  destruct (identity_pep (f_domain f) (_user f) (_password f) (identified f) eq_refl) as (auth & Hid & Hpep).
  exists auth. intros s replies [Hf Hp]. destruct Hst as [Hv Hpr Hr Ha Hact Hop Hco].
  edestruct (handle_request_asks read_json write_xml send_sync regex_match) as (s1 & E1 & H1);
    [exact Hv|exact Hpep|exact Hop|exact Hco|exact Hid|exact Hf|exact Hp|].
  edestruct (deliver_all_simulates read_json write_xml send_sync regex_match) as (s2 & E2 & H2);
    [exact Hv|exact Hpr|exact Hr|exact Ha|exact Hpep|exact Hact|exact read_empty|exact no_children|exact H1|].
  exists s2. split; [|exact H2]. unfold OAuthFilter.serve, sbind. by rewrite E1.
Qed.

(** C13. What the filter sends and posts is what the machine of stages says: one
    request at a time, to the endpoint of the stage and with what is known at
    it, and then one status. *)
Theorem filter_follows_stages :
  exists auth, forall s replies, fresh_session s ->
    let st := fold_left advance_at replies AskToken in
    exists s', serve f q replies s = (s', Ret tt)
      /\ in_flight (client s') = request_of f q auth validate projects roles st
      /\ posted s' = posted_of q st.
Proof.
  destruct serve_stages as [auth H]. exists auth. intros s replies Hs st.
  destruct (H s replies Hs) as (s' & E & Hf & Hp & _). by exists s'.
Qed.

(** C6. A request is let through only when the identity service gave a token,
    knew the user of the request's token in the domain of the request and did
    not refuse the project, and the access control service, asked for exactly
    the user's roles in the project or domain, the resource and the action of
    the request, answered 200 and "Permit". *)
Theorem access_only_if_permitted s replies s' o id :
  fresh_session s -> serve f q replies s = (s', o) -> In (id, HTTP_OK) (posted s') ->
  id = trace_of q
  /\ exists tree service_id subservice_id,
       granted read_json write_xml f q action access (heads replies) tree service_id subservice_id
       /\ exists s4, serve f q (map (pair 0%nat) (take 4 (heads replies))) s = (s4, Ret tt)
            /\ posted s4 = []
            /\ in_flight (client s4)
               = [mkSent (access_request write_xml f q action access tree service_id subservice_id) 5 on_access_control].
Proof.
  intros Hs Hrun Hin. destruct serve_stages as [auth H].
  destruct (H s replies Hs) as (s1 & E & _ & Hp & _). rewrite Hrun in E. injection E as -> ->.
  rewrite Hp, fold_heads in Hin. destruct (fold_left advance (heads replies) AskToken) as [| | | | |status] eqn:Est;
    [done..|].
  destruct Hin as [Hin|[]]. injection Hin as <- ->. split; [done|].
  destruct (machine_granted _ _ _ _ _ _ _ Est) as (tree & sv & sub & Hg). exists tree, sv, sub. split; [done|].
  destruct (H s (map (pair 0%nat) (take 4 (heads replies))) Hs) as (s4 & E4 & Hf4 & Hp4 & _). exists s4.
  rewrite fold_heads in Hf4, Hp4. replace (heads (map _ _)) with (take 4 (heads replies)) in Hf4, Hp4.
  - rewrite (g_asked _ _ _ _ _ _ _ _ _ _ Hg) in Hf4, Hp4. by rewrite Hf4, Hp4.
  - generalize (take 4 (heads replies)). intros l. unfold heads. induction l as [|r l IH]; cbn; [done|by rewrite <- IH].
Qed.

(** C27. A request is answered once: it has one request in flight or one status
    posted, and after five responses the status, which is 200, 401 or 403. *)
Theorem request_answered_once s replies : fresh_session s ->
  exists s', serve f q replies s = (s', Ret tt)
    /\ (List.length (in_flight (client s')) + List.length (posted s') = 1)%nat
    /\ ((5 <= List.length (heads replies))%nat ->
        exists status, posted s' = [(trace_of q, status)]
          /\ (status = HTTP_OK \/ status = HTTP_UNAUTHORIZED \/ status = HTTP_FORBIDDEN)).
Proof.
  intros Hs. destruct serve_stages as [auth H]. destruct (H s replies Hs) as (s' & E & Hf & Hp & _).
  exists s'. split; [done|]. rewrite Hf, Hp, fold_heads.
  destruct (five_finish read_json write_xml f q action access (heads replies) AskToken I) as [Hw Hr].
  destruct (fold_left advance (heads replies) AskToken) as [| | | | |status];
    cbn [rank ended_well request_of posted_of List.length] in *; split; try done; try (intros; lia).
  intros _. by exists status.
Qed.
End Promise.
