(* ===== verification/OAuthExample.v ===== *)
(** * A request that the access control lets through

    Property trees with a name for each child, the laws of [OAuth], and a
    session of five responses, at which the theorems of [OAuthSpec] apply. *)
From stdpp Require Import base tactics list gmap strings pretty.
From Stdlib Require Import ZArith Lia Ascii String.
From S2P Require Import Prelude CppString StdMap Boost Types FuncUtil Alarm IoTUrl CbComm Configurator OAuth Filters OAuthFilter OAuthSpec.

Local Open Scope string_scope.
Local Open Scope Z_scope.

(** ** Property trees with named children *)

Inductive node : Type := Node (data : string) (kids : list (string * node)).

Definition node_data (t : node) : string := let '(Node d _) := t in d.
Definition node_kids (t : node) : list (string * node) := let '(Node _ l) := t in l.

(** The node a path of names leads to: the first child of each name. *)
Fixpoint walk (t : node) (names : list string) : option node :=
  match names with
  | [] => Some t
  | k :: rest => match assoc (node_kids t) k with Some c => walk c rest | None => None end
  end.

Definition names_of (path : string) : list string :=
  if String.eqb path "" then [] else split_char "." path.

Fixpoint set_first (k : string) (v : node) (l : list (string * node)) : list (string * node) :=
  match l with
  | [] => [(k, v)]
  | (k', v') :: rest => if String.eqb k' k then (k, v) :: rest else (k', v') :: set_first k v rest
  end.

Fixpoint put_at (t : node) (names : list string) (v : string) : node :=
  match names with
  | [] => Node v (node_kids t)
  | k :: rest =>
      Node (node_data t) (set_first k (put_at (default (Node "" []) (assoc (node_kids t) k)) rest v) (node_kids t))
  end.

Fixpoint show (t : node) : string :=
  let '(Node d l) := t in
  d ++ "{" ++ (fix show_kids l := match l with [] => "" | (k, t) :: rest => k ++ ":" ++ show t ++ ";" ++ show_kids rest end) l ++ "}".

Definition named_tree : PropertyTree := {|
  ptree := node;
  pt_empty := Node "" [];
  pt_get t path := match walk t (names_of path) with Some c => Some (node_data c) | None => None end;
  pt_put t path v := put_at t (names_of path) v;
  pt_get_child t path := match walk t (names_of path) with Some c => Some (node_kids c) | None => None end;
  write_json := show
|}.

Definition named_iter : @PropertyTreeIter named_tree := @Build_PropertyTreeIter named_tree node_kids node_data.

Definition named_build : @PropertyTreeBuild named_tree :=
  @Build_PropertyTreeBuild named_tree
    (fun t k c => Node (node_data t) (node_kids t ++ [(k, c)])%list)
    (fun t k v => Node (node_data t) (node_kids t ++ [(k, Node v [])])%list)
    (fun t v => Node (node_data t) (node_kids t ++ [("", Node v [])])%list).

Lemma assoc_app {A} (l l' : list (string * A)) k :
  assoc (l ++ l')%list k = match assoc l k with Some v => Some v | None => assoc l' k end.
Proof. induction l as [|[k' v] l IH]; cbn; [done|]. by destruct (String.eqb k' k). Qed.

Lemma is_key_spec k : is_key k = true -> k <> "" /\ no_char "." k = true.
Proof. unfold is_key. rewrite andb_true_iff, negb_true_iff, String.eqb_neq. done. Qed.

Lemma names_of_key k : is_key k = true -> names_of k = [k].
Proof.
  intros [Hk Hd]%is_key_spec. unfold names_of. apply String.eqb_neq in Hk. rewrite Hk. by apply split_char_no.
Qed.

Lemma names_of_in k p : is_key k = true -> p <> "" -> names_of (k ++ "." ++ p) = k :: names_of p.
Proof.
  intros [Hk Hd]%is_key_spec Hp. unfold names_of. apply String.eqb_neq in Hp. rewrite Hp.
  destruct (String.eqb (k ++ "." ++ p) "") eqn:E; [by destruct k|]. by apply (split_char_app "." k p).
Qed.

Lemma names_of_past k p : is_key k = true -> exists rest, names_of (k ++ "." ++ p) = k :: rest.
Proof.
  intros [Hk Hd]%is_key_spec. exists (split_char "." p). unfold names_of.
  destruct (String.eqb (k ++ "." ++ p) "") eqn:E; [by destruct k|]. by apply (split_char_app "." k p).
Qed.

Lemma names_of_some p : p <> "" -> exists k rest, names_of p = k :: rest.
Proof.
  intros Hp. unfold names_of. apply String.eqb_neq in Hp. rewrite Hp. pose proof (split_char_nonnil "." p).
  destruct (split_char "." p); [done|]. eauto.
Qed.

Lemma named_build_laws : @PropertyTreeBuildLaws named_tree named_build.
Proof.
  split; cbn.
  - intros p Hp. destruct (names_of_some p Hp) as (k & rest & ->). done.
  - intros p Hp. destruct (names_of_some p Hp) as (k & rest & ->). done.
  - intros k v Hk. rewrite (names_of_key k Hk). cbn. by rewrite String.eqb_refl.
  - intros t k c p Hk Hp. change (k ++ String "." p) with (k ++ "." ++ p).
    rewrite (names_of_in k p Hk Hp), (names_of_key k Hk). cbn. rewrite assoc_app.
    destruct (assoc (node_kids t) k); [done|]. cbn. by rewrite String.eqb_refl.
  - intros t k c k' p Hk Hk' Hne. change (k' ++ String "." p) with (k' ++ "." ++ p).
    destruct (names_of_past k' p Hk') as [rest ->]. cbn. rewrite assoc_app.
    destruct (assoc (node_kids t) k'); [done|]. cbn.
    apply not_eq_sym in Hne. apply String.eqb_neq in Hne. by rewrite Hne.
  - intros t k c k' Hk Hk' Hne. rewrite (names_of_key k' Hk'). cbn. rewrite assoc_app.
    destruct (assoc (node_kids t) k'); [done|]. cbn.
    apply not_eq_sym in Hne. apply String.eqb_neq in Hne. by rewrite Hne.
Qed.

(** ** A session *)

Definition leaf (v : string) : node := Node v [].

(** What the identity service answers, as trees. *)
Definition user_tree : node :=
  Node "" [("token", Node "" [("user", Node "" [("id", leaf "u7");
    ("domain", Node "" [("name", leaf "smartcity"); ("id", leaf "d1")])])])].
Definition projects_tree : node :=
  Node "" [("projects", Node "" [("", Node "" [("name", leaf "/parks"); ("id", leaf "p1")]);
                                 ("", Node "" [("name", leaf "/gardens"); ("id", leaf "p2")])])].
Definition role_of (project role : string) : node :=
  Node "" [("scope", Node "" [("project", Node "" [("id", leaf project)])]); ("role", Node "" [("id", leaf role)])].
Definition roles_tree : node :=
  Node "" [("role_assignments", Node "" [("", role_of "p1" "reader"); ("", role_of "p2" "admin")])].

Definition read_sample (s : string) : option (@ptree named_tree) :=
  assoc (A := node) [("user", user_tree); ("projects", projects_tree); ("roles", roles_tree)] s.

Definition write_sample : @ptree named_tree -> string := show.

Definition sample_filter : OAuthFilter :=
  set_filter_url_base "/iot" (set_pep_user_information "admin_domain" "pep" "secret"
    (set_access_control_endpoint "http://ac:7070/pdp/v3" (set_authorization_projects "http://ks:5001/v3/projects"
      (set_authorization_roles "http://ks:5001/v3/role_assignments"
        (set_authorization_validate "http://ks:5001/v3/auth/tokens" new_filter))))).

Definition sample_request : request :=
  mkRequest "POST" "/iot/devices" "" (assoc [("X-Trace-Message", "id1"); ("Fiware-Service", "smartcity");
    ("Fiware-ServicePath", "/gardens"); ("X-Auth-Token", "t-user")]).

Definition answer (code : Z) (content : string) : reply := mkReply (Some (mkHttpResponse code content)) "" "".
Definition sample_replies : list (nat * reply) :=
  map (pair 0%nat) [mkReply (Some (mkHttpResponse 201 "")) "t-pep" ""; answer 200 "user"; answer 200 "projects";
                    answer 200 "roles"; answer 200 "<Decision>Permit</Decision>"].

(** No rule of the configuration applies. *)
Definition no_match (regex text : string) : outcome (option (list string)) := Ret None.
Definition no_sync (w : unit) (x : http_request) (timeout : Z) : unit * reply := (w, mkReply None "" "").

#[local] Existing Instances boost_reference named_tree named_iter named_build named_build_laws.

Definition sample_session : Session (outside := unit) :=
  mkSession (mkClient (new_oauth 3) [] 0 ∅ tt) [] None.

#[local] Notation run_sample replies :=
  (serve read_sample write_sample no_sync no_match "/iot" sample_filter sample_request replies sample_session).

Lemma sample_fresh : fresh_session sample_session.
Proof. done. Qed.

(** The last request asks for the role of the project only. *)
Example sample_asks :
  map (fun x => rq_content (s_request x)) (in_flight (client (fst (run_sample (take 4 sample_replies)))))
  = [create_xml_access_control write_sample ["admin"] "fiware:iotagent:smartcity:/gardens:/devices" "create"].
Proof. vm_compute. reflexivity. Qed.

(** The URL of an endpoint. *)
Definition url_of_text (s : string) : IoTUrl := match new_IoTUrl s with Ret u => u | _ => mkIoTUrl "" "" "" 0 "" "" end.
Definition v_url : IoTUrl := url_of_text "http://ks:5001/v3/auth/tokens".
Definition p_url : IoTUrl := url_of_text "http://ks:5001/v3/projects".
Definition r_url : IoTUrl := url_of_text "http://ks:5001/v3/role_assignments".
Definition a_url : IoTUrl := url_of_text "http://ac:7070/pdp/v3".

Lemma sample_settled : settled no_match "/iot" sample_filter sample_request "create" v_url p_url r_url a_url.
Proof. split; vm_compute; reflexivity. Qed.

Lemma filter_follows_stages_witness :
  exists auth s', run_sample sample_replies = (s', Ret tt)
    /\ in_flight (client s') = request_of sample_filter sample_request auth v_url p_url r_url (Finished 200)
    /\ posted s' = [("id1", 200)].
Proof.
  destruct (filter_follows_stages (HI := named_iter) read_sample write_sample no_sync no_match "/iot" sample_filter sample_request "create"
              v_url p_url r_url a_url sample_settled eq_refl eq_refl) as [auth H].
  exists auth. destruct (H sample_session sample_replies sample_fresh) as (s' & E & Hf & Hp).
  exists s'. split; [exact E|]. split; [rewrite Hf; reflexivity|rewrite Hp; vm_compute; reflexivity].
Defined.

Lemma sample_granted : exists s', run_sample sample_replies = (s', Ret tt) /\ In ("id1", HTTP_OK) (posted s').
Proof.
  destruct (run_sample sample_replies) as [s' o] eqn:E. vm_compute in E. injection E as <- <-.
  eexists. split; [reflexivity|by left].
Qed.

Lemma access_only_if_permitted_witness :
  exists s', run_sample sample_replies = (s', Ret tt) /\ In ("id1", HTTP_OK) (posted s')
  /\ exists tree service_id subservice_id,
       granted read_sample write_sample sample_filter sample_request "create" a_url (heads sample_replies)
         tree service_id subservice_id.
Proof.
  destruct sample_granted as (s' & E & Hin). exists s'. split; [exact E|]. split; [exact Hin|].
  destruct (access_only_if_permitted (HI := named_iter) read_sample write_sample no_sync no_match "/iot"
              sample_filter sample_request "create" v_url p_url r_url a_url sample_settled eq_refl eq_refl
              sample_session sample_replies s' (Ret tt) "id1" sample_fresh E Hin)
    as (_ & tree & sv & sub & Hg & _).
  exists tree, sv, sub. exact Hg.
Defined.

Lemma request_answered_once_witness :
  (5 <= List.length (heads sample_replies))%nat
  /\ exists s' status, run_sample sample_replies = (s', Ret tt) /\ posted s' = [("id1", status)].
Proof.
  assert (Hn : (5 <= List.length (heads sample_replies))%nat) by (vm_compute; lia).
  split; [exact Hn|].
  destruct (request_answered_once (HI := named_iter) read_sample write_sample no_sync no_match "/iot"
              sample_filter sample_request "create" v_url p_url r_url a_url sample_settled eq_refl eq_refl
              sample_session sample_replies sample_fresh) as (s' & E & _ & H).
  destruct (H Hn) as (status & Hp & _). exists s', status. split; [exact E|exact Hp].
Defined.
