(* ===== verification/ServiceTables.v ===== *)
(** * Services and protocols in the database: [src/src/util/service_collection.cc],
    [protocol_collection.cc], [service_mgmt_collection.cc] and [protocol.cc]

    The queries of the tables of services, of protocols and of the services of
    each agent, over the calls of [Collection].  A document that is read has no
    [_id]: [Collection::find] always leaves it out. *)
From stdpp Require Import base tactics list gmap strings.
From Stdlib Require Import ZArith Lia Ascii String.
From S2P Require Import Prelude CppString StdMap Boost Types Alarm Bson Collection.

Local Open Scope string_scope.
Local Open Scope Z_scope.

(** The fields that are asked for; all of them when none is. *)
Definition project (fields : list string) (d : document) : document :=
  match fields with
  | [] => d
  | _ => List.filter (fun kv => existsb (String.eqb (fst kv)) fields) d
  end.

(** [getField(name).Array()] and [embeddedObject]: the driver throws when the
    element is something else. *)
Definition field_array (d : document) (name : string) : outcome (list bson) :=
  match field d name with
  | Some (BArr es) => Ret es
  | _ => Throw (RuntimeError "wrong type for field")
  end.

(** The elements of an array as fields, each named by its place. *)
Definition embeddedObject `{Boost} (e : bson) : outcome document :=
  match e with
  | BObj d => Ret d
  | BArr es => Ret (imap (fun i x => (lexical_cast (Z.of_nat i), x)) es)
  | _ => Throw (RuntimeError "invalid parameter: expected an object")
  end.

(** [removeField] *)
Definition remove_field (d : document) (name : string) : document :=
  List.filter (fun kv => negb (String.eqb (fst kv) name)) d.

(** [str] of an element. *)
Definition element_str (e : bson) : string := match e with BStr s => s | _ => "" end.

(** A service path of a request as a part of a query: none for all of them. *)
Definition addServicePath (data : string) : document :=
  if String.eqb data "" then [(Store.SERVICE_PATH, BStr FIWARE_SERVICEPATH_DEFAULT)]
  else if negb (String.eqb data "/*") && negb (String.eqb data "/#") then [(Store.SERVICE_PATH, BStr data)]
  else [].

(** ** [protocol.h] *)

Record resource_endpoint : Type := mkEndpoint { e_endpoint : string; e_resource : string }.

Record Protocol : Type := mkProtocol {
  p_id : string;
  p_description : string;
  p_name : string;
  _endpoints : list resource_endpoint
}.

Definition new_protocol (name : string) : Protocol := mkProtocol "" "" name [].
Definition set_description (description : string) (p : Protocol) : Protocol :=
  mkProtocol (p_id p) description (p_name p) (_endpoints p).
Definition add_endpoint (e : resource_endpoint) (p : Protocol) : Protocol :=
  mkProtocol (p_id p) (p_description p) (p_name p) (_endpoints p ++ [e])%list.

Section Tables.
  Context `{HB : Boost} `{HM : Mongo} `{HR : BsonReader}.
  Context (database endpoint : string) (show : document -> string) (what : driver_exception -> string).

(** A search with the fields that are asked for: the documents. *)
Definition find_fields (table : string) (query : document) (limit skip : Z) (order : document)
    (fields : list string) : FM Database (list document) :=
  act! r := Collection.find database endpoint show table query limit skip order in
  fret (map (project fields) (snd r)).

End Tables.

Definition ascending (fields : list string) : document := map (fun k => (k, BNum 1)) fields.

(** ** [ServiceCollection] *)
Module ServiceCollection.
Section Table.
  Context `{HB : Boost} `{HM : Mongo} `{HR : BsonReader}.
  Context (database endpoint : string) (show : document -> string) (what : driver_exception -> string).

#[local] Abbreviation find_fields := (find_fields database endpoint show).
#[local] Abbreviation createIndex := (Collection.createIndex database endpoint show what).

Definition get_resource_name : string := Store.RESOURCE.

(** [fill_all_resources] with an empty vector: the resources of a service. *)
Definition fill_all_resources (service service_path : string) : FM Database (list string) :=
  act! ds := find_fields Store.SERVICE_TABLE
               [(Store.SERVICE, BStr service); (Store.SERVICE_PATH, BStr service_path)] 0 0 [] [Store.RESOURCE] in
  fret (List.filter (fun r => negb (String.eqb r "")) (map (fun d => getStringField d Store.RESOURCE) ds)).

Definition createTableAndIndex : FM Database Z :=
  then! createIndex Store.SERVICE_TABLE (ascending ["apikey"; "resource"]) true in
  createIndex Store.SERVICE_TABLE (ascending ["service"; "service_path"; "resource"]) true.

Definition getElementsFromBSON (obj : document) : outcome (list document) :=
  let! be := field_array obj Store.SERVICES in omapM embeddedObject be.
End Table.
End ServiceCollection.

(** ** [ProtocolCollection] *)
Module ProtocolCollection.
Section Table.
  Context `{HB : Boost} `{HM : Mongo} `{HR : BsonReader}.
  Context (database endpoint : string) (show : document -> string) (what : driver_exception -> string).

#[local] Abbreviation find_fields := (find_fields database endpoint show).
#[local] Abbreviation createIndex := (Collection.createIndex database endpoint show what).

Definition Obj2BSON (protocol : Protocol) (withShardKey : bool) : document :=
  ((if withShardKey then append_str Store.PROTOCOL_ID (p_id protocol) else [])
   ++ append_str Store.PROTOCOL_NAME (p_name protocol)
   ++ append_str Store.PROTOCOL_DESCRIPTION (p_description protocol)
   ++ match _endpoints protocol with
      | [] => []
      | es => [(Store.ENDPOINTS, BArr (map (fun e => BObj [(Store.ENDPOINT, BStr (e_endpoint e));
                                                          (Store.RESOURCE, BStr (e_resource e))]) es))]
      end)%list.

(** [it.next().Obj()] *)
Definition element_obj (kv : string * bson) : outcome document := embeddedObject (snd kv).

Definition BSON2Obj (obj : document) : outcome Protocol :=
  let name := getStringField obj Store.PROTOCOL_NAME in
  let description := getStringField obj Store.PROTOCOL_DESCRIPTION in
  let! endpoints := omapM element_obj (getObjectField obj Store.ENDPOINTS) in
  Ret (fold_left (fun p e => add_endpoint (mkEndpoint (getStringField e Store.ENDPOINT)
                                             (getStringField e Store.RESOURCE)) p)
         endpoints (set_description description (new_protocol name))).

Definition createTableAndIndex : FM Database Z :=
  createIndex Store.PROTOCOL_TABLE (ascending [Store.PROTOCOL_NAME]) true.

Definition insert (fuel : nat) (obj : Protocol) : FM Database unit :=
  Collection.insert database endpoint show fuel Store.PROTOCOL_TABLE (Obj2BSON obj true) 0.
Definition update (fuel : nat) (query sett : Protocol) : FM Database Z :=
  Collection.update database endpoint show fuel Store.PROTOCOL_TABLE (Obj2BSON query true) (Obj2BSON sett true) false.
Definition find (query : Protocol) : FM Database (list document) :=
  find_fields Store.PROTOCOL_TABLE (Obj2BSON query true) 0 0 [] [].
Definition next (cursor : list document) : outcome (Protocol * list document) :=
  let! r := Collection.next cursor in let! p := BSON2Obj (fst r) in Ret (p, snd r).
Definition remove (fuel : nat) (query : Protocol) : FM Database Z :=
  Collection.remove database endpoint show fuel Store.PROTOCOL_TABLE (Obj2BSON query true) 0.
Definition count (query : Protocol) : FM Database Z :=
  Collection.count database endpoint show what Store.PROTOCOL_TABLE (Obj2BSON query true).

Definition get_all : FM Database (list Protocol) :=
  act! ds := find_fields Store.PROTOCOL_TABLE [] 0 0 (ascending [Store.PROTOCOL_NAME])
               [Store.PROTOCOL_NAME; Store.PROTOCOL_DESCRIPTION] in
  flift (Some (omapM BSON2Obj ds)).

Definition get_endpoint_by_protocol (protocol : string) : FM Database (list Protocol) :=
  act! ds := find_fields Store.PROTOCOL_TABLE [(Store.PROTOCOL_NAME, BStr protocol)] 0 0 [] [] in
  flift (Some (omapM BSON2Obj ds)).

(** [fillProtocols]: the description of each name, the first one. *)
Definition fillProtocols (protocols : gmap string string) : FM Database (gmap string string) :=
  act! ps := get_all in
  fret (fold_left (fun m p => emplace m (p_name p) (p_description p)) ps protocols).
End Table.
End ProtocolCollection.

(** ** [ServiceMgmtCollection] *)
Module ServiceMgmtCollection.
Section Table.
  Context `{HB : Boost} `{HM : Mongo} `{HR : BsonReader}.
  Context (database endpoint : string) (show : document -> string) (what : driver_exception -> string).

#[local] Abbreviation find_fields := (find_fields database endpoint show).
#[local] Abbreviation createIndex := (Collection.createIndex database endpoint show what).

Definition get_resource_name : string := Store.PROTOCOL.

Definition createTableAndIndex : FM Database Z :=
  createIndex Store.MANAGER_SERVICE_TABLE
    (ascending [Store.SERVICE; Store.SERVICE_PATH; Store.IOTAGENT; Store.PROTOCOL_NAME]) true.

(** [get_services_by_protocol]: the protocol is not a part of the query. *)
Definition get_services_by_protocol (protocol_name : string) (limit skip : Z) : FM Database (list (string * string)) :=
  act! ds := find_fields Store.MANAGER_SERVICE_TABLE [] limit skip
               (ascending [Store.SERVICE; Store.SERVICE_PATH]) [Store.SERVICE; Store.SERVICE_PATH] in
  fret (map (fun d => (getStringField d Store.SERVICE, getStringField d Store.SERVICE_PATH)) ds).

(** [get_services_group_protocol]: what is aggregated is not read. *)
Definition get_services_group_protocol (protocol_name : string) (limit skip : Z)
    : FM Database (list (string * string)) :=
  then! Collection.aggregate database endpoint show what Store.MANAGER_SERVICE_TABLE
    [[("$project", BObj (ascending ["service"; "service_path"; "protocol"]))];
     [("$group", BObj [("_id", BObj [("service", BStr "$service"); ("service_path", BStr "$service_path")]);
                       ("protocol", BObj [("$addToSet", BStr "$protocol")])])]] in
  fret [].

Definition get_iotagents_by_service (service service_path protocol_id : string) (limit skip : Z)
    : FM Database (list string) :=
  let query := ((Store.SERVICE, BStr service) :: addServicePath service_path
                ++ append_str Store.PROTOCOL_NAME protocol_id)%list in
  act! res := Collection.distinct database endpoint show what Store.MANAGER_SERVICE_TABLE "iotagent" query in
  let result := map (fun kv => element_str (snd kv)) (getObjectField res "values") in
  if Nat.eqb (List.length result) 0 && (limit =? 0) && (skip =? 0)
  then fthrow (IotaException RESPONSE_MESSAGE_MISSING_IOTAGENTS
                 ("[protocol:" ++ protocol_id ++ " service: " ++ service ++ " service_path:" ++ service_path ++ "]")
                 RESPONSE_CODE_DATA_NOT_FOUND)
  else fret result.

(** A service of a registration, once for each of its protocols. *)
Definition of_protocol (protocols : gmap string string) (obj : document) (e : bson) : outcome document :=
  let protocol_id := element_str e in
  match protocols !! protocol_id with
  | None => Throw (IotaException RESPONSE_MESSAGE_BAD_REQUEST ("No exists protocol " ++ protocol_id)
                     RESPONSE_CODE_BAD_REQUEST)
  | Some description =>
      Ret (remove_field obj Store.PROTOCOL_NAME
           ++ [(Store.PROTOCOL_NAME, BStr protocol_id); (Store.PROTOCOL_DESCRIPTION, BStr description)])%list
  end.

Definition by_protocol (protocols : gmap string string) (e : bson) : outcome (list document) :=
  let! obj := embeddedObject e in
  if has_field obj Store.PROTOCOL_NAME then
    let! proArr := field_array obj Store.PROTOCOL_NAME in omapM (of_protocol protocols obj) proArr
  else Ret [].

(** The services are read before the protocols; what is wrong in a service
    throws when it is its turn. *)
Definition getElementsFromBSON (obj : document) : FM Database (list document) :=
  act! be := flift (Some (field_array obj Store.SERVICES)) in
  act! protocols := ProtocolCollection.fillProtocols database endpoint show ∅ in
  act! ds := flift (Some (omapM (by_protocol protocols) be)) in
  fret (List.concat ds).

(** [fillServices]: the documents of an agent and a protocol, by service. *)
Definition fillServices (iotagent resource : string) (result : gmap string document)
    : FM Database (gmap string document) :=
  act! ds := find_fields Store.MANAGER_SERVICE_TABLE
               [(Store.IOTAGENT, BStr iotagent); (Store.PROTOCOL, BStr resource)] 0 0 [] [] in
  fret (fold_left (fun m d => emplace m (getStringField d Store.SERVICE ++ "|" ++ getStringField d Store.SERVICE_PATH) d)
          ds result).
End Table.
End ServiceMgmtCollection.
