(* ===== verification/AdminService.v ===== *)
(** * The administration of devices and services: [src/src/services/admin_service.cc]

    The handlers of the resources [devices], [device], [services] and
    [service], over the tables of [Collection] and the plug-ins of the
    process, which the class [Plugins] stands for: a plug-in is a [RestHandle]
    or a [CommandHandle], and what it is asked to do may change the database
    too.  Reading BSON from a text, the text of a document and the check
    against a JSON schema are libraries, given as parameters. *)
From stdpp Require Import base tactics list gmap strings.
From Stdlib Require Import ZArith Lia Ascii String.
From S2P Require Import Prelude CppString StdMap Boost Types Alarm IoTUrl Json Bson Collection MultiIndex Device DeviceCollection Configurator Filters ServiceTables.

Local Open Scope string_scope.
Local Open Scope Z_scope.

Record ProtocolData : Type := mkProtocolData { pd_description : string; pd_protocol : string }.

(** The plug-ins, and their state next to the database [D].  [unregister] is
    [get_service_by_name] followed by [send_unregister]. *)
Class Plugins (D : Type) : Type := {
  plugin : Type;
  plugins : Type;
  get_protocol_data : plugin -> ProtocolData;
  is_command_handle : plugin -> bool;
  check_provisioned_data : plugin -> string -> Z * string;
  get_protocol_commands : plugin -> string;
  remove_devices_from_cache : plugin -> Device -> plugins -> plugins;
  send_register_device : plugin -> Device -> FM (D * plugins) unit;
  unregister : plugin -> Device -> FM (D * plugins) unit;
  plugin_register_iota_manager : plugin -> FM (D * plugins) unit
}.

(** A response: its status, the message of it, the headers and the content. *)
Record response : Type := mkResponse {
  rsp_code : Z;
  rsp_message : string;
  rsp_headers : list (string * string);
  rsp_body : string
}.

Definition HEADER_LOCATION : string := "Location".
Definition HTTP_CREATED : Z := 201.
Definition HTTP_NO_CONTENT : Z := 204.
Definition HTTP_SERVER_ERROR : Z := 500.
Definition ADMIN_SERVICE_DEVICES : string := "/devices".
Definition ADMIN_SERVICE_SERVICES : string := "/services".
Definition _api_service_holder : string := "service".
Definition _api_device_holder : string := "device".

Definition add_header (name value : string) (r : response) : response :=
  mkResponse (rsp_code r) (rsp_message r) (rsp_headers r ++ [(name, value)])%list (rsp_body r).

(** The first value of a parameter of the query. *)
Definition find_param (query_parameters : list (string * string)) (name : string) : option string :=
  assoc query_parameters name.
Definition param (query_parameters : list (string * string)) (name : string) : string :=
  default "" (find_param query_parameters name).

Definition starts_with_slash (s : string) : bool := match s with String c _ => Ascii.eqb c "/" | EmptyString => false end.

Fixpoint skip_spaces (s : string) : string :=
  match s with String c rest => if isspace c then skip_spaces rest else s | EmptyString => EmptyString end.

(** [joinCommands]: the commands of a protocol before those of a device, as
    text; [find] of a text that is not there is [npos]. *)
Definition inner_text (obj2 : string) (first last : option nat) : outcome string :=
  match first, last with
  | Some ini, Some fin =>
      let! rest := substr_from obj2 (ini + 1) in
      Ret (if (fin <? ini + 1)%nat then rest else str_take (fin - ini - 1) rest)
  | _, _ => Ret ""
  end.

Definition joinCommands (obj1 obj2 : string) : outcome string :=
  let commands_name := String "034" ("commands" ++ String "034" "") in
  let commandit2 := CppString.find commands_name obj2 0 in
  let obj2_commands := match commandit2 with Some _ => true | None => false end in
  let commanditfin2 := match commandit2 with
                       | Some p => CppString.find "]" obj2 p
                       | None => find_last_of "}" obj2
                       end in
  let! resobj2 := inner_text obj2 (CppString.find "{" obj2 0) commanditfin2 in
  let join := if String.eqb resobj2 "" then "" else "," in
  match CppString.find commands_name obj1 0 with
  | Some commandit =>
      match CppString.find "[" obj1 commandit with
      | Some commanditf =>
          let! rest := substr_from obj1 (commanditf + 1) in
          Ret (str_take commandit obj1 ++ resobj2 ++ join ++ rest)
      | None => Ret ""
      end
  | None =>
      let resobj2 := if obj2_commands then resobj2 ++ "]" else resobj2 in
      let join := if String.eqb resobj2 "" then "" else "," in
      let! rest := substr_from obj1 (match CppString.find "{" obj1 0 with Some p => p + 1 | None => 0 end) in
      Ret ("{" ++ resobj2 ++ join ++ rest)
  end.

Section AdminService.
  Context `{HB : Boost} `{HM : Mongo} `{HR : BsonReader} `{HBJ : BsonJson} `{HJ : Rapidjson} `{HC : Config}.
  Context {HPl : Plugins Database}.
  Context (database endpoint : string) (show : document -> string) (what : driver_exception -> string)
    (std_what : exn -> string).
  (** [lexical_cast<int>], [None] when it throws *)
  Context (lexical_cast_int : string -> option Z).
  (** the error of a text against a schema, if there is one *)
  Context (validate_json_schema : string -> string -> option string).
  Context (_POST_DEVICE_SCHEMA _PUT_DEVICE_SCHEMA _POST_SERVICE_SCHEMA _PUT_SERVICE_SCHEMA : string).
  (** [Process::get_url_base()] *)
  Context (url_base : string).

(** The resources with their plug-ins, the database and the plug-ins. *)
Record Admin : Type := mkAdmin {
  _service_manager : gmap string plugin;
  a_database : Database;
  a_plugins : plugins
}.

Implicit Types a : Admin.

Definition on_db {A} (c : FM Database A) : FM Admin A := fun a =>
  match c (a_database a) with
  | Some (d, r) => Some (mkAdmin (_service_manager a) d (a_plugins a), r)
  | None => None
  end.
Definition on_plugins {A} (c : FM (Database * plugins) A) : FM Admin A := fun a =>
  match c (a_database a, a_plugins a) with
  | Some (s, r) => Some (mkAdmin (_service_manager a) (fst s) (snd s), r)
  | None => None
  end.
Definition lift {S A} (o : outcome A) : FM S A := flift (Some o).

(** [add_service], [get_service]: a resource that is there keeps its plug-in. *)
Definition add_service (resource : string) (service_ptr : plugin) a : Admin :=
  mkAdmin (emplace (_service_manager a) resource service_ptr) (a_database a) (a_plugins a).
Definition get_service (resource : string) : FM Admin (option plugin) :=
  act! a := fmget in fret (_service_manager a !! resource).

Definition check_existing_resource (resource : string) : FM Admin unit :=
  act! test_resource := get_service resource in
  match test_resource with
  | Some _ => fret tt
  | None => fthrow (IotaException RESPONSE_MESSAGE_BAD_REQUEST "Resource does not exist" RESPONSE_CODE_BAD_REQUEST)
  end.

Definition check_uri {S} (data : string) : FM S unit := lift (let! _ := new_IoTUrl data in Ret tt).

(** [mongo::fromjson], which throws. *)
Definition from_json {S} (text : string) : FM S document :=
  lift (match fromjson text with Some d => Ret d | None => Throw (RuntimeError "fromjson") end).

(** ** Responses *)

Definition create_response (status_code : Z) (content error_details : string) (r : response) : Z * response :=
  let body :=
    if 299 <=? status_code then
      if negb (String.eqb content "") && negb (String.eqb error_details "") then
        "{" ++ String "034" "reason" ++ String "034" ":" ++ String "034" (erase_all content "034") ++ String "034" ","
            ++ String "034" "details" ++ String "034" ":" ++ String "034" (erase_all error_details "034")
            ++ String "034" "}"
      else if negb (String.eqb content "") then content else rsp_body r
    else if String.eqb (rsp_body r) "" && negb (String.eqb content "") then content else rsp_body r in
  (status_code, mkResponse status_code (getHttpMessage status_code)
     (if String.eqb body "" then rsp_headers r
      else rsp_headers r ++ [(HEADER_CONTENT_TYPE, IOT_CONTENT_TYPE_JSON)])%list body).

Definition respond {S} (status_code : Z) (content error_details : string) (r : response) : FM S (Z * response) :=
  fret (create_response status_code content error_details r).

(** ** The plug-ins *)

(** For each plug-in in the order of the resources, whatever [std::exception]
    it throws. *)
Definition for_plugins (f : plugin -> FM Admin unit) : FM Admin unit :=
  act! a := fmget in
  fold_right (fun p rest =>
    then! fmcatch (f (snd p)) (fun e => match e with ThrownPointer => fthrow e | _ => fret tt end) in rest) (fret tt)
    (entries (_service_manager a)).

Definition of_protocol (protocol : string) (p : plugin) : bool :=
  is_command_handle p && String.eqb protocol (pd_protocol (get_protocol_data p)).

Definition deploy_device (device : Device) : FM Admin unit :=
  for_plugins (fun p => if of_protocol (_protocol device) p then on_plugins (send_register_device p device)
                        else fret tt).

Definition undeploy_device (device : Device) : FM Admin unit :=
  for_plugins (fun p => if of_protocol (_protocol device) p then on_plugins (unregister p device) else fret tt).

Definition register_iota_manager : FM Admin unit :=
  for_plugins (fun p => if negb (String.eqb (pd_description (get_protocol_data p)) "")
                        then on_plugins (plugin_register_iota_manager p) else fret tt).

Definition remove_from_cache (device : Device) : FM Admin unit :=
  fmmodify (fun a => mkAdmin (_service_manager a) (a_database a)
    (fold_left (fun w p => remove_devices_from_cache (snd p) device w) (entries (_service_manager a)) (a_plugins a))).

(** A device as the requests of the plug-ins name it. *)
Definition named_device (name service service_path protocol : string) : Device :=
  let d := new_device name service in
  mkDevice (_name d) protocol (_service d) service_path (_entity_type d) (_entity_name d) (_timezone d) (_endpoint d)
    (_attributes d) (_commands d) (_static_attributes d) (_lazy d) (_model d) (_active d)
    (_registration_id d) (_duration_cb d) (_timestamp_data d).

(** ** Tables *)

Local Abbreviation insert_in := (fun table d => on_db (Collection.insert database endpoint show 2 table d 0)).
Local Abbreviation remove_from := (fun table q => on_db (Collection.remove database endpoint show 2 table q 0)).
Local Abbreviation count_in := (fun table q => on_db (Collection.count database endpoint show what table q)).
Local Abbreviation find_in := (fun table q limit skip order fields =>
  on_db (find_fields database endpoint show table q limit skip order fields)).

Definition get_service_json (service service_path : string) : FM Admin string :=
  act! ds := find_in Store.SERVICE_TABLE
               [(Store.SERVICE_ID, BStr service); (Store.SERVICE_PATH, BStr service_path)] 0 0 [] [] in
  fret (match ds with elto :: _ => jsonString elto | [] => "" end).

(** [get_device_protocol]: the plug-in of a protocol among the resources of a
    service. *)
Definition plugin_of (manager : gmap string plugin) (protocol_name : string) (resources : list string)
    : option plugin :=
  List.find (fun p => String.eqb protocol_name (pd_protocol (get_protocol_data p)))
    (omap (fun r => manager !! r) resources).

Definition get_device_protocol (protocol_name service_name service_path : string) : FM Admin (option plugin) :=
  if String.eqb protocol_name "" then fret None
  else
    act! resources := on_db (ServiceCollection.fill_all_resources database endpoint show service_name service_path) in
    act! a := fmget in fret (plugin_of (_service_manager a) protocol_name resources).

(** The names of the commands of a document, in order. *)
Definition command_names (bsonobj : document) : list string :=
  omap (fun kv => match element_object (snd kv) with
                  | Some d => let name := getStringField d Store.NAME in
                              if String.eqb name "" then None else Some name
                  | None => None
                  end) (getObjectField bsonobj Store.COMMANDS).

(** The devices that have one of the commands for the same entity. *)
Definition commands_query (entity_name service_name service_path protocol_name : string) (names : list string)
    : document :=
  [(Store.ENTITY_NAME, BStr entity_name); (Store.SERVICE, BStr service_name);
   (Store.SERVICE_PATH, BStr service_path); (Store.PROTOCOL, BStr protocol_name);
   ("commands.name", match names with
                     | [n] => BStr n
                     | _ => BObj [("$in", BArr (map BStr names))]
                     end)].

Definition check_device_commands_duplicate (protocol_name service_name service_path : string) (bsonobj : document)
    : FM Admin bool :=
  let entity_name := getStringField bsonobj Store.ENTITY_NAME in
  if String.eqb entity_name "" then fret true
  else
    match command_names bsonobj with
    | [] => fret true
    | names =>
        act! ds := find_in Store.DEVICE_TABLE
                     (commands_query entity_name service_name service_path protocol_name names) 0 0 [] [] in
        fret (match ds with [] => true | _ => false end)
    end.

(** ** Devices *)

Definition bad_protocol (name : string) : exn :=
  IotaException RESPONSE_MESSAGE_BAD_PROTOCOL (" [ protocol: " ++ name ++ "]") RESPONSE_CODE_BAD_REQUEST.

(** The restrictions of the plug-in on the data of a device. *)
Definition check_provisioned (p : plugin) (data : string) (missing_too : bool) : FM Admin unit :=
  let '(error_check, error_provisioned_data) := check_provisioned_data p data in
  let refuse message := fthrow (IotaException message (" [" ++ (if missing_too then "" else " ")
                                  ++ error_provisioned_data ++ "]") RESPONSE_CODE_BAD_REQUEST) in
  if error_check =? RESPONSE_CODE_INVALID_PARAMETER then refuse RESPONSE_MESSAGE_INVALID_PARAMETER
  else if missing_too && (error_check =? RESPONSE_CODE_MISSING_PARAMETER) then refuse RESPONSE_MESSAGE_MISSING_PARAMETER
  else fret tt.

(** The document of a device with the commands of its plug-in. *)
Definition with_plugin_commands (p : plugin) (bo : document) : FM Admin document :=
  let commands_plugin := get_protocol_commands p in
  if String.eqb commands_plugin "" then fret bo
  else act! body2 := lift (joinCommands (jsonString bo) commands_plugin) in from_json body2.

(** The insertion of the document of a device, which its plug-in hears of. *)
Definition store_device (service service_path body protocol_name : string) (bo : document) : FM Admin string :=
  act! device_to_post := lift (match field bo Store.DEVICE_ID with
                               | Some (BStr s) => Ret s
                               | _ => Throw (RuntimeError "wrong type for field")
                               end) in
  let insertObj := (bo ++ [(Store.SERVICE, BStr service); (Store.SERVICE_PATH, BStr service_path)])%list in
  act! fresh := check_device_commands_duplicate protocol_name service service_path insertObj in
  if negb fresh then
    fthrow (IotaException RESPONSE_MESSAGE_ENTITY_COMMANDS_ALREADY_EXISTS (" [ " ++ body ++ "]")
              RESPONSE_CODE_ENTITY_ALREADY_EXISTS)
  else
    then! insert_in Store.DEVICE_TABLE insertObj in
    then! deploy_device (named_device device_to_post service service_path protocol_name) in
    fret device_to_post.

(** One device of a request: its identifier. *)
Definition post_device (service service_path body : string) (e : bson) : FM Admin string :=
  act! bo := lift (embeddedObject e) in
  let protocol_name := getStringField bo Store.PROTOCOL_NAME in
  act! plugin := get_device_protocol protocol_name service service_path in
  match plugin with
  | None => fthrow (bad_protocol protocol_name)
  | Some p =>
      then! check_provisioned p (jsonString bo) true in
      act! bo := with_plugin_commands p bo in
      store_device service service_path body protocol_name bo
  end.

(** The devices of a request, one after the other: the last identifier. *)
Fixpoint post_devices (service service_path body : string) (be : list bson) (device_to_post : string)
    : FM Admin string :=
  match be with
  | [] => fret device_to_post
  | e :: rest =>
      act! device_to_post := post_device service service_path body e in
      post_devices service service_path body rest device_to_post
  end.

Definition post_device_json (service service_path body : string) (r : response) : FM Admin (Z * response) :=
  act! service_exists := get_service_json service service_path in
  if String.eqb body "" then respond RESPONSE_CODE_BAD_REQUEST RESPONSE_MESSAGE_BAD_REQUEST "empty body" r
  else if String.eqb service_exists "" then
    respond RESPONSE_CODE_NO_SERVICE RESPONSE_MESSAGE_NO_SERVICE
      (" service:" ++ service ++ " service_path:" ++ service_path) r
  else
    match validate_json_schema body _POST_DEVICE_SCHEMA with
    | Some error_details => respond RESPONSE_CODE_BAD_REQUEST RESPONSE_MESSAGE_BAD_REQUEST error_details r
    | None =>
        act! obj := from_json body in
        act! be := lift (field_array obj Store.DEVICES) in
        act! device_to_post := post_devices service service_path body be "" in
        let r := match be with
                 | [_] => add_header HEADER_LOCATION (url_base ++ ADMIN_SERVICE_DEVICES ++ "/" ++ device_to_post) r
                 | _ => r
                 end in
        respond HTTP_CREATED "" "" r
    end.

(** The devices a request names. *)
Definition device_query (service service_path device_id protocol : string) : document :=
  ([(Store.SERVICE, BStr service); (Store.SERVICE_PATH, BStr service_path); (Store.DEVICE_ID, BStr device_id)]
   ++ append_str Store.PROTOCOL protocol)%list.

(** The update of a device, when the body is a document with fields; what
    [setbo.removeField] answers is dropped, so the protocol stays in it. *)
Definition put_device (fuel : nat) (service service_path device_id protocol body param_request : string)
    (setbo : document) : FM Admin unit :=
  let query := device_query service service_path device_id protocol in
  let entity_name := getStringField setbo Store.ENTITY_NAME in
  act! number_of_devices := count_in Store.DEVICE_TABLE query in
  then! (if 1 <? number_of_devices
         then fthrow (IotaException RESPONSE_MESSAGE_MISSING_PARAMETER "This operation needs protocol parameter"
                        RESPONSE_CODE_BAD_REQUEST) else fret tt) in
  act! found := find_in Store.DEVICE_TABLE query 0 0 [] [Store.PROTOCOL] in
  act! protocol_name := (match found with
    | [] => fret protocol
    | objDev :: _ =>
        let protocol_name := getStringField objDev Store.PROTOCOL in
        act! plugin := get_device_protocol protocol_name service service_path in
        match plugin with
        | None => fthrow (bad_protocol protocol)
        | Some p => then! check_provisioned p body false in fret protocol_name
        end
    end) in
  act! fresh := check_device_commands_duplicate protocol_name service service_path setbo in
  then! (if negb fresh
         then fthrow (IotaException RESPONSE_MESSAGE_ENTITY_COMMANDS_ALREADY_EXISTS
                        (" [ entity_name: " ++ entity_name ++ "]") RESPONSE_CODE_ENTITY_ALREADY_EXISTS)
         else fret tt) in
  act! count := on_db (Collection.update database endpoint show fuel Store.DEVICE_TABLE query setbo false) in
  if count =? 0 then
    fthrow (IotaException RESPONSE_MESSAGE_NO_DEVICE (" [ device: " ++ param_request ++ "]") RESPONSE_CODE_DATA_NOT_FOUND)
  else
    act! found := find_in Store.DEVICE_TABLE query 0 0 [] [Store.PROTOCOL] in
    match found with
    | objDev :: _ =>
        let dev := named_device device_id service service_path (getStringField objDev Store.PROTOCOL) in
        then! deploy_device dev in remove_from_cache dev
    | [] => remove_from_cache (named_device device_id service service_path "")
    end.

Definition put_device_json (fuel : nat) (service service_path device_id body protocol : string) (r : response)
    : FM Admin (Z * response) :=
  let param_request := "put_device_json service=" ++ service ++ " service_path=" ++ service_path ++ " device="
                         ++ device_id ++ " content=" ++ body in
  then! get_service_json service service_path in
  if String.eqb body "" then respond RESPONSE_CODE_BAD_REQUEST RESPONSE_MESSAGE_BAD_REQUEST "empty body" r
  else
    match validate_json_schema body _PUT_DEVICE_SCHEMA with
    | Some error_details => respond RESPONSE_CODE_BAD_REQUEST RESPONSE_MESSAGE_BAD_REQUEST error_details r
    | None =>
        act! setbo := from_json body in
        match setbo with
        | [] => respond RESPONSE_CODE_BAD_REQUEST RESPONSE_MESSAGE_BAD_REQUEST "empty body" r
        | _ =>
            then! put_device fuel service service_path device_id protocol body param_request setbo in
            respond HTTP_NO_CONTENT "" "" r
        end
    end.

(** The documents of a page, as text. *)
Definition page_text (name : string) (count : Z) (page : list document) : string :=
  "{ " ++ String "034" "count" ++ String "034" ": " ++ lexical_cast count ++ "," ++ String "034" name
       ++ String "034" ": [" ++ String.concat "," (map jsonString page) ++ "]}".

(** The fields of a page: [None] when [detailed] is neither on nor off. *)
Definition page_fields (detailed name : string) : option (list string) :=
  if String.eqb detailed "" || String.eqb detailed Store.OFF then Some [name]
  else if negb (String.eqb detailed Store.ON) then None
  else Some [].

(** A page of a table: nothing is looked for with a negative limit. *)
Definition page_of (table name id_field : string) (query : document) (order : list string) (limit offset : Z)
    (detailed : string) (r : response) : FM Admin (Z * response) :=
  act! count := count_in table query in
  match page_fields detailed id_field with
  | None => respond RESPONSE_CODE_BAD_REQUEST RESPONSE_MESSAGE_BAD_REQUEST "parameter detailed must be on or off" r
  | Some fields =>
      act! page := (if 0 <=? limit then find_in table query limit offset (ascending order) fields else fret []) in
      respond RESPONSE_CODE_OK (page_text name count page) "" r
  end.

Definition get_all_devices_json (service service_path : string) (limit offset : Z)
    (detailed entity protocol_filter : string) (r : response) : FM Admin (Z * response) :=
  let query := ((Store.SERVICE, BStr service) :: addServicePath service_path
                ++ append_str Store.ENTITY_NAME entity ++ append_str Store.PROTOCOL protocol_filter)%list in
  page_of Store.DEVICE_TABLE "devices" Store.DEVICE_ID query [Store.DEVICE_SORT; Store.SERVICE_PATH]
    limit offset detailed r.

(** [get_a_device_json]: the protocol is not a part of the query. *)
Definition get_a_device_json (service service_path device_id : string) (r : response) : FM Admin (Z * response) :=
  act! ds := find_in Store.DEVICE_TABLE
               [(Store.DEVICE_ID, BStr device_id); (Store.SERVICE, BStr service);
                (Store.SERVICE_PATH, BStr service_path)] 0 0 [] [] in
  match ds with
  | elto :: _ => respond RESPONSE_CODE_OK (jsonString elto) "" r
  | [] => respond RESPONSE_CODE_CONTEXT_ELEMENT_NOT_FOUND RESPONSE_MESSAGE_NO_DEVICE device_id r
  end.

(** [delete_device_json]: the device has no protocol when the plug-ins are
    asked, and the protocol is not a part of the query. *)
Definition delete_device_json (service service_path id_device : string) (r : response) : FM Admin (Z * response) :=
  let dev := named_device id_device service service_path "" in
  then! undeploy_device dev in
  then! remove_from Store.DEVICE_TABLE
    (append_str Store.DEVICE_ID id_device ++ append_str Store.SERVICE service
     ++ append_str Store.SERVICE_PATH service_path)%list in
  then! remove_from_cache dev in
  respond HTTP_NO_CONTENT "" "" r.

(** ** Services *)

(** One service of a request. *)
Definition post_service (service service_path : string) (be : document) : FM Admin unit :=
  let insObj := (be ++ [(Store.SERVICE_ID, BStr service); (Store.SERVICE_PATH, BStr service_path)])%list in
  let cbroker := getStringField insObj Store.CBROKER in
  then! (if negb (String.eqb cbroker "") then check_uri cbroker else fret tt) in
  let resource := getStringField insObj Store.RESOURCE in
  then! (if negb (String.eqb resource "") then check_existing_resource resource else fret tt) in
  insert_in Store.SERVICE_TABLE insObj.

Fixpoint post_services (service service_path : string) (be : list document) : FM Admin unit :=
  match be with
  | [] => fret tt
  | d :: rest => then! post_service service service_path d in post_services service service_path rest
  end.

Definition post_service_json (service service_path body : string) (r : response) : FM Admin (Z * response) :=
  if String.eqb body "" then respond RESPONSE_CODE_BAD_REQUEST RESPONSE_MESSAGE_BAD_REQUEST "empty body" r
  else
    match validate_json_schema body _POST_SERVICE_SCHEMA with
    | Some error_details => respond RESPONSE_CODE_BAD_REQUEST RESPONSE_MESSAGE_BAD_REQUEST error_details r
    | None =>
        act! obj := from_json body in
        act! be := lift (ServiceCollection.getElementsFromBSON obj) in
        then! post_services service service_path be in
        then! register_iota_manager in
        let r := match be with
                 | [_] => add_header HEADER_LOCATION (url_base ++ ADMIN_SERVICE_SERVICES ++ "/" ++ service) r
                 | _ => r
                 end in
        respond HTTP_CREATED "" "" r
    end.

Definition mandatory_resource : exn :=
  IotaException RESPONSE_MESSAGE_MISSING_PARAMETER "resource parameter is mandatory in PUT operation"
    RESPONSE_CODE_BAD_REQUEST.

Definition put_service_json (fuel : nat) (service service_path id apikey resource body : string) (r : response)
    : FM Admin (Z * response) :=
  let param_request := "put_service_json service=" ++ service ++ " service_path=" ++ service_path
                         ++ " service_id=" ++ id ++ " content=" ++ body ++ " resource=" ++ resource in
  then! (if String.eqb resource "" then fthrow mandatory_resource else check_existing_resource resource) in
  if String.eqb body "" then respond RESPONSE_CODE_BAD_REQUEST RESPONSE_MESSAGE_BAD_REQUEST "empty body" r
  else
    match validate_json_schema body _PUT_SERVICE_SCHEMA with
    | Some error_details => respond RESPONSE_CODE_BAD_REQUEST RESPONSE_MESSAGE_BAD_REQUEST error_details r
    | None =>
        act! setbo := from_json body in
        match setbo with
        | [] => respond RESPONSE_CODE_BAD_REQUEST RESPONSE_MESSAGE_BAD_REQUEST "empty body" r
        | _ =>
            let query := [(Store.SERVICE_ID, BStr id); (Store.SERVICE_PATH, BStr service_path);
                          (Store.APIKEY, BStr apikey); (Store.RESOURCE, BStr resource)] in
            let cbroker := getStringField setbo Store.CBROKER in
            then! (if negb (String.eqb cbroker "") then check_uri cbroker else fret tt) in
            let inner_resource := getStringField setbo Store.RESOURCE in
            then! (if negb (String.eqb inner_resource "") then check_existing_resource inner_resource else fret tt) in
            act! count := on_db (Collection.update database endpoint show fuel Store.SERVICE_TABLE query setbo false) in
            if count =? 0 then
              fthrow (IotaException RESPONSE_MESSAGE_NO_SERVICE (" [  " ++ param_request ++ "]")
                        RESPONSE_CODE_DATA_NOT_FOUND)
            else then! register_iota_manager in respond HTTP_NO_CONTENT "" "" r
        end
    end.

Definition get_all_services_json (service service_path : string) (limit offset : Z) (detailed resource : string)
    (r : response) : FM Admin (Z * response) :=
  let query := ((Store.SERVICE_ID, BStr service) :: addServicePath service_path
                ++ append_str ServiceCollection.get_resource_name resource)%list in
  page_of Store.SERVICE_TABLE "services" Store.SERVICE_ID query [Store.SERVICE; Store.SERVICE_PATH]
    limit offset detailed r.

Definition get_a_service_json (service service_path : string) (r : response) : FM Admin (Z * response) :=
  act! res := get_service_json service service_path in
  respond (if String.eqb res "" then 404 else RESPONSE_CODE_OK) res "" r.

(** All the service paths. *)
Definition all_paths (service_path : string) : bool :=
  String.eqb service_path "/*" || String.eqb service_path "/#".

Definition delete_service_json (service service_path id apikey resource : string) (remove_devices : bool)
    (r : response) : FM Admin (Z * response) :=
  then! (if String.eqb id ""
         then fthrow (IotaException RESPONSE_MESSAGE_BAD_REQUEST (" service:" ++ id) RESPONSE_CODE_BAD_REQUEST)
         else fret tt) in
  then! (if negb (starts_with_slash service_path)
         then fthrow (IotaException RESPONSE_MESSAGE_BAD_REQUEST ("service_path:" ++ service_path)
                        RESPONSE_CODE_BAD_REQUEST)
         else fret tt) in
  let b_path := if all_paths service_path then [] else [(Store.SERVICE_PATH, BStr service_path)] in
  let b_query_service_path := if all_paths service_path then "" else service_path in
  let obj_delete := ((Store.SERVICE_ID, BStr id) :: append_str Store.APIKEY apikey
                     ++ append_str Store.RESOURCE resource ++ b_path)%list in
  act! num_services := count_in Store.SERVICE_TABLE ((Store.SERVICE_ID, BStr id) :: b_path) in
  act! num_removed_services := remove_from Store.SERVICE_TABLE obj_delete in
  then! (if (num_services - num_removed_services =? 0) && remove_devices
         then then! remove_from Store.DEVICE_TABLE
                [(Store.SERVICE_ID, BStr id); (Store.SERVICE_PATH, BStr b_query_service_path)] in fret tt
         else fret tt) in
  then! register_iota_manager in
  respond HTTP_NO_CONTENT "" "" r.

(** ** The resources *)

(** [check_mongo_config] *)
Definition check_mongo_config {S} : FM S unit :=
  lift (let! storage := config_get Store.STORAGE in
        let! type := FindMember storage Store.TYPE in
        match type with
        | None => Throw (IotaException RESPONSE_MESSAGE_BAD_CONFIG " [ response:type ]" RESPONSE_CODE_BAD_CONFIG)
        | Some v =>
            let! t := GetString v in
            if negb (String.eqb t CONF_FILE_MONGO)
            then Throw (IotaException RESPONSE_MESSAGE_NOT_IMPLEMENTED
                          (" API Rest not implemented for this storage type [ " ++ t ++ "]") RESPONSE_CODE_BAD_CONFIG)
            else Ret tt
        end).

(** The headers of a request: a service, and a path that is empty or starts
    with a slash. *)
Definition bad_headers (service service_path : string) : bool :=
  String.eqb service "" || (negb (String.eqb service_path "") && negb (starts_with_slash service_path)).
Definition bad_headers_details : string := FIWARE_SERVICE ++ "/" ++ FIWARE_SERVICEPATH ++ " not present or invalid".
Definition path_or_default (service_path : string) : string :=
  if String.eqb service_path "" then FIWARE_SERVICEPATH_DEFAULT else service_path.

(** The handlers of exceptions; a cast that fails names the parameter read
    last. *)
Definition catch_with {S} (op_temp : option (string * string)) (r : response) (body : FM S (Z * response))
    : FM S (Z * response) :=
  fmcatch body (fun e =>
    match e, op_temp with
    | BadLexicalCast, Some (op, temp) =>
        respond 400 RESPONSE_MESSAGE_INVALID_PARAMETER (op ++ " must be a number but it is " ++ temp) r
    | IotaException reason details status, _ => respond status reason details r
    | ThrownPointer, _ => fthrow e
    | _, _ => respond HTTP_SERVER_ERROR RESPONSE_MESSAGE_INTERNAL_ERROR (std_what e) r
    end).

(** The limit and the offset of a page, and the parameter that was read last
    with its value. *)
Definition number_or (temp : string) (otherwise : Z) : outcome Z :=
  if String.eqb temp "" then Ret otherwise
  else match lexical_cast_int temp with Some n => Ret n | None => Throw BadLexicalCast end.

Definition page_limit (query_parameters : list (string * string)) : outcome Z :=
  match find_param query_parameters Store.LIMIT with
  | None => Ret LIMIT_DEFAULT
  | Some temp =>
      let! limit := number_or temp LIMIT_DEFAULT in
      Ret (if limit <? -1 then LIMIT_DEFAULT else if LIMIT_MAX <? limit then LIMIT_MAX else limit)
  end.

Definition page_offset (query_parameters : list (string * string)) : outcome Z :=
  match find_param query_parameters Store.OFFSET with
  | None => Ret 0
  | Some temp => let! offset := number_or temp 0 in Ret (if offset <? 0 then 0 else offset)
  end.

Definition last_read (query_parameters : list (string * string)) : string * string :=
  match find_param query_parameters Store.LIMIT, find_param query_parameters Store.OFFSET with
  | Some l, Some o => if returns (page_limit query_parameters) then ("offset", o) else ("limit", l)
  | Some l, None => ("limit", l)
  | None, Some o => ("offset", o)
  | None, None => ("", "")
  end.

(** [devices] *)
Definition devices (q : request) (query_parameters : list (string * string)) (r : response)
    : FM Admin (Z * response) :=
  let method := q_method q in
  catch_with (Some (if String.eqb method "GET" then last_read query_parameters else ("", ""))) r
    (then! check_mongo_config in
     let service := get_header q FIWARE_SERVICE in
     let service_path := get_header q FIWARE_SERVICEPATH in
     if bad_headers service service_path
     then respond RESPONSE_CODE_BAD_REQUEST RESPONSE_MESSAGE_INVALID_PARAMETER bad_headers_details r
     else
       let service_path := path_or_default service_path in
       if String.eqb method "POST" then post_device_json service service_path (trim (q_content q)) r
       else if String.eqb method "GET" then
         act! limit := lift (page_limit query_parameters) in
         act! offset := lift (page_offset query_parameters) in
         get_all_devices_json service service_path limit offset (param query_parameters Store.DETAILED)
           (param query_parameters Store.ENTITY) (param query_parameters Store.PROTOCOL) r
       else respond RESPONSE_CODE_METHOD_NOT_ALLOWED RESPONSE_MESSAGE_METHOD_NOT_ALLOWED "" r).

(** [device]: the configuration of the store is not checked. *)
Definition device (fuel : nat) (q : request) (url_args : gmap string string)
    (query_parameters : list (string * string)) (r : response) : FM Admin (Z * response) :=
  let method := q_method q in
  let device_in_url := default "" (url_args !! _api_device_holder) in
  catch_with None r
    (let service := get_header q FIWARE_SERVICE in
     let service_path := get_header q FIWARE_SERVICEPATH in
     let protocol_filter := param query_parameters Store.PROTOCOL in
     if bad_headers service service_path
     then respond RESPONSE_CODE_BAD_REQUEST RESPONSE_MESSAGE_INVALID_PARAMETER bad_headers_details r
     else
       let service_path := path_or_default service_path in
       if String.eqb method "PUT" then
         put_device_json fuel service service_path device_in_url (trim (q_content q)) protocol_filter r
       else if String.eqb method "GET" then get_a_device_json service service_path device_in_url r
       else if String.eqb method "DELETE" then delete_device_json service service_path device_in_url r
       else respond RESPONSE_CODE_METHOD_NOT_ALLOWED "" "" r).

(** [get_param_resource] *)
Definition get_param_resource (query_parameters : list (string * string)) (mandatory : bool) : outcome string :=
  let result := param query_parameters Store.RESOURCE in
  if mandatory && String.eqb result "" then
    Throw (IotaException RESPONSE_MESSAGE_MISSING_PARAMETER "resource parameter is mandatory" RESPONSE_CODE_BAD_REQUEST)
  else Ret result.

(** [istringstream(r_d) >> boolalpha >> remove_devices], from false. *)
Definition read_bool (s : string) : bool := String.prefix "true" (skip_spaces s).

Definition remove_devices_of (query_parameters : list (string * string)) : bool :=
  match find_param query_parameters Store.DEVICE_PAR with Some r_d => read_bool r_d | None => false end.

Definition two_chars (s : string) : bool := Nat.eqb (String.length s) 2.

(** [services] *)
Definition services (fuel : nat) (q : request) (query_parameters : list (string * string)) (r : response)
    : FM Admin (Z * response) :=
  let method := q_method q in
  catch_with (Some (if String.eqb method "GET" then last_read query_parameters else ("", ""))) r
    (then! check_mongo_config in
     let service := get_header q FIWARE_SERVICE in
     let service_path := get_header q FIWARE_SERVICEPATH in
     if bad_headers service service_path
     then respond RESPONSE_CODE_BAD_REQUEST RESPONSE_MESSAGE_INVALID_PARAMETER bad_headers_details r
     else
       let service_path := path_or_default service_path in
       let every_path := two_chars service_path && all_paths service_path in
       if String.eqb method "POST" then post_service_json service service_path (trim (q_content q)) r
       else if String.eqb method "GET" then
         act! limit := lift (page_limit query_parameters) in
         act! offset := lift (page_offset query_parameters) in
         act! resource := lift (get_param_resource query_parameters false) in
         get_all_services_json service service_path limit offset "on" resource r
       else if String.eqb method "PUT" then
         if every_path then
           respond RESPONSE_CODE_BAD_REQUEST RESPONSE_MESSAGE_INVALID_PARAMETER
             ("Fiware-ServicePath is invalid in PUT operation [" ++ service_path ++ "]") r
         else put_service_json fuel service service_path service (param query_parameters Store.APIKEY)
                (param query_parameters Store.RESOURCE) (trim (q_content q)) r
       else if String.eqb method "DELETE" then
         act! resource := lift (get_param_resource query_parameters true) in
         let remove_devices := remove_devices_of query_parameters in
         if every_path && remove_devices then
           respond RESPONSE_CODE_BAD_REQUEST RESPONSE_MESSAGE_INVALID_PARAMETER
             ("Fiware-ServicePath is invalid in DELETE operation [" ++ service_path ++ "] removing devices") r
         else
           act! answered := delete_service_json service service_path service (param query_parameters Store.APIKEY)
                              resource remove_devices r in
           respond (fst answered) "" "" (snd answered)
       else respond 404 "" "" r).

(** [service]; a page of no limit is the whole. *)
Definition service (fuel : nat) (q : request) (url_args : gmap string string)
    (query_parameters : list (string * string)) (r : response) : FM Admin (Z * response) :=
  let method := q_method q in
  let service_in_url := default "" (url_args !! _api_service_holder) in
  catch_with None r
    (then! check_mongo_config in
     let service := get_header q FIWARE_SERVICE in
     let service_path := get_header q FIWARE_SERVICEPATH in
     if bad_headers service service_path
     then respond RESPONSE_CODE_BAD_REQUEST RESPONSE_MESSAGE_INVALID_PARAMETER bad_headers_details r
     else if String.eqb service_in_url "" then
       respond RESPONSE_CODE_BAD_REQUEST RESPONSE_MESSAGE_INVALID_PARAMETER
         ("<service_id> not provided in url" ++ FIWARE_SERVICE) r
     else
       let service_path := path_or_default service_path in
       let every_path := two_chars service_path && all_paths service_path in
       if negb (String.eqb service service_in_url) then
         respond RESPONSE_CODE_BAD_REQUEST RESPONSE_MESSAGE_INVALID_PARAMETER
           ("service in url conflicts with " ++ FIWARE_SERVICE) r
       else if String.eqb method "PUT" then
         let resource := param query_parameters Store.RESOURCE in
         if String.eqb resource "" then
           respond RESPONSE_CODE_BAD_REQUEST RESPONSE_MESSAGE_MISSING_PARAMETER
             "resource parameter is mandatory in PUT operation" r
         else put_service_json fuel service service_path service_in_url (param query_parameters Store.APIKEY)
                resource (trim (q_content q)) r
       else if String.eqb method "GET" then
         get_all_services_json service service_path 0 0 "on" (param query_parameters Store.RESOURCE) r
       else if String.eqb method "DELETE" then
         act! resource := lift (get_param_resource query_parameters true) in
         let remove_devices := remove_devices_of query_parameters in
         if every_path && remove_devices then
           respond RESPONSE_CODE_BAD_REQUEST RESPONSE_MESSAGE_INVALID_PARAMETER
             ("Fiware-ServicePath is invalid in DELETE operation [" ++ service_path ++ "] removing devices") r
         else delete_service_json service service_path service_in_url (param query_parameters Store.APIKEY)
                resource remove_devices r
       else respond 404 "" "" r).
End AdminService.
