(* ===== verification/CollectionSpec.v ===== *)
(** * What the calls of a collection leave as it was

    The calls of [Collection] on a driver whose calls may fail half-way: what
    each of them keeps of the documents, whatever the driver answers
    ([MongoTouches]), and that each of them answers or throws ([settles])
    when the driver always finds its user ([MongoUser]). *)
From stdpp Require Import base tactics list gmap strings.
From Stdlib Require Import ZArith Lia Ascii String.
From S2P Require Import Prelude CppString Boost Types Alarm Bson Collection ServiceTables.

Local Open Scope string_scope.
Local Open Scope Z_scope.

(** A call of the driver does what it is asked or nothing to a document, also
    when it fails; the calls that read change no document. *)
Class MongoTouches {D : Mongo} (L : MongoLaws D) : Prop := {
  insert_touches m ns d m' r : drv_insert m ns d = (m', r) ->
    docs m' = docs m
    \/ docs m' ns = (docs m ns ++ [d])%list /\ forall ns', ns' <> ns -> docs m' ns' = docs m ns';
  update_touches m ns q s m' r : plain q = true -> drv_update m ns false q [("$set", BObj s)] = (m', r) ->
    docs m' = docs m
    \/ docs m' ns = fst (update_first q s (docs m ns)) /\ forall ns', ns' <> ns -> docs m' ns' = docs m ns';
  remove_touches m ns q m' r : plain q = true -> drv_remove m ns q = (m', r) ->
    List.filter (fun d => negb (matches q d)) (docs m' ns) = List.filter (fun d => negb (matches q d)) (docs m ns)
    /\ forall ns', ns' <> ns -> docs m' ns' = docs m ns';
  query_touches m ns q limit skip order : docs (fst (drv_query m ns q limit skip order)) = docs m;
  count_touches m ns q : docs (fst (drv_count m ns q)) = docs m;
  reconnect_touches m : docs (drv_reconnect m) = docs m;
  insert_refused m ns d m' : drv_insert m ns d = (m', Fails UserException) -> docs m' = docs m;
  count_done m ns q m' n : plain q = true -> drv_count m ns q = (m', Done n) ->
    n = zlen (List.filter (matches q) (docs m ns))
}.

Lemma filter_twice {A} (f : A -> bool) l : List.filter f (List.filter f l) = List.filter f l.
Proof. induction l as [|x l IH]; cbn; [done|]. destruct (f x) eqn:E; cbn; [rewrite E; by f_equal|done]. Qed.

Lemma mongo_reference_touches : MongoTouches mongo_reference_laws.
Proof.
  constructor; try done.
  4: by intros m ns q m' n _ [= _ <-].
  - intros m ns d m' r [= <- _]. right. destruct (insert_law (MongoLaws := mongo_reference_laws) m ns d _ eq_refl); done.
  - intros m ns q s m' r Hq [= <- _]. right.
    by destruct (update_law (MongoLaws := mongo_reference_laws) m ns q s _ _ Hq eq_refl) as (? & _ & ?).
  - intros m ns q m' r Hq [= <- _].
    destruct (remove_law (MongoLaws := mongo_reference_laws) m ns q _ _ Hq eq_refl) as (E & _ & E').
    split; [|exact E']. rewrite E. apply filter_twice.
Qed.

(** ** Calls that keep a view of the documents *)
Section Keeps.
  Context `{HB : Boost} `{HM : Mongo}.
  Context (database endpoint : string) (show : document -> string) (what : driver_exception -> string).
  Context {X : Type} (f : db -> X).
  Hypothesis f_reconnect : forall m, f (drv_reconnect m) = f m.

Local Abbreviation view := (fun s : Database => f (conn s)).

Lemma alarm_error_keeps text : keeps view (alarm_error endpoint text).
Proof. by apply keeps_modify. Qed.
Lemma alarm_info_keeps text : keeps view (alarm_info endpoint text).
Proof. by apply keeps_modify. Qed.
Lemma reconnect_keeps : keeps view reconnect.
Proof. apply keeps_modify. intros s. apply f_reconnect. Qed.

#[local] Hint Resolve alarm_error_keeps alarm_info_keeps reconnect_keeps : keeps.

Lemma fail_keeps {A} b details : keeps view (fail endpoint (A := A) b details).
Proof. unfold fail. keeps_tac. Qed.
#[local] Hint Resolve fail_keeps : keeps.

Lemma handlers_keeps {A} b g sub retry (again : FM Database A) e :
  keeps view again -> keeps view (handlers endpoint b g sub retry again e).
Proof. intros H. destruct e; cbn [handlers]; keeps_tac. Qed.

Lemma getLastError_keeps bbdd obj le : keeps view (getLastError endpoint show bbdd obj le).
Proof. unfold getLastError. keeps_tac. Qed.
#[local] Hint Resolve getLastError_keeps : keeps.

Lemma call_keeps {A} (c : db -> db * answer A) : (forall m, f (fst (c m)) = f m) -> keeps view (call c).
Proof. intros H s s' r. unfold call. specialize (H (conn s)). destruct (c (conn s)). by intros [= <- <-]. Qed.

Lemma insert_keeps fuel table d retry :
  (forall m, f (fst (drv_insert m (namespace database table) d)) = f m) ->
  keeps view (insert database endpoint show fuel table d retry).
Proof.
  intros H. revert retry. induction fuel as [|fuel IH]; intros retry; [by intros s s' r|].
  cbn [insert]. apply keeps_bind; [by apply call_keeps|].
  intros [u|e]; [auto with keeps|by apply handlers_keeps].
Qed.

Lemma remove_keeps fuel table q retry :
  (forall m, f (fst (drv_remove m (namespace database table) q)) = f m) ->
  keeps view (remove database endpoint show fuel table q retry).
Proof.
  intros H. revert retry. induction fuel as [|fuel IH]; intros retry; [by intros s s' r|].
  cbn [remove]. apply keeps_bind; [by apply call_keeps|].
  intros [le|e]; [auto with keeps|]. apply handlers_keeps, keeps_bind; [done|]. intros; auto with keeps.
Qed.

(** The second try of an update takes the document of [$set] as its data. *)
Lemma update_keeps fuel table q (P : document -> Prop) s0 :
  (forall s m, P s -> f (fst (drv_update m (namespace database table) false q [("$set", BObj s)])) = f m) ->
  P s0 -> (forall s, P s -> P [("$set", BObj s)]) ->
  keeps view (update database endpoint show fuel table q s0 false).
Proof.
  intros H H0 HP. unfold update. revert s0 H0. induction fuel as [|fuel IH]; intros s0 H0; [by intros s s' r|].
  cbn [update_r]. apply keeps_bind; [apply call_keeps; auto|].
  intros [le|e]; [auto with keeps|]. apply handlers_keeps, keeps_bind; [auto|]. intros; auto with keeps.
Qed.

Lemma find_keeps table q limit skip order :
  (forall m, f (fst (drv_query m (namespace database table) q limit skip order)) = f m) ->
  keeps view (find database endpoint show table q limit skip order).
Proof.
  intros H. unfold find. apply keeps_bind; [by apply call_keeps|].
  intros [l|e]; [auto with keeps|]. apply handlers_keeps. by intros s s' r [= <- <-].
Qed.

Lemma find_fields_keeps table q limit skip order fields :
  (forall m, f (fst (drv_query m (namespace database table) q limit skip order)) = f m) ->
  keeps view (find_fields database endpoint show table q limit skip order fields).
Proof. intros H. unfold find_fields. apply keeps_bind; [by apply find_keeps|]. intros; auto with keeps. Qed.

Lemma count_keeps table q :
  (forall m, f (fst (drv_count m (namespace database table) q)) = f m) ->
  keeps view (count database endpoint show what table q).
Proof.
  intros H. unfold count. apply keeps_bind; [by apply call_keeps|]. intros [n|e]; keeps_tac.
Qed.
End Keeps.

(** ** Insertions *)
Section Insertions.
  Context `{HB : Boost} `{HM : Mongo} {L : MongoLaws HM} {HT : MongoTouches L}.
  Context (database endpoint : string) (show : document -> string).

(** The documents after a call that inserts [d]: one more when it returns,
    perhaps one more when it does not. *)
Definition one_more (d : document) (before : list document) (r : outcome unit) (after : list document) : Prop :=
  after = (before ++ [d])%list \/ r <> Ret tt /\ after = before.

Lemma handlers_docs {A} b g sub retry (again : FM Database A) e s s' r :
  handlers endpoint b g sub retry again e s = Some (s', r) ->
  (docs (conn s') = docs (conn s) /\ forall x, r <> Ret x) \/ e = UserException /\ again s = Some (s', r).
Proof.
  intros E. destruct e; cbn [handlers] in E; try destruct (retry <? MAX_RETRY); auto; left.
  all: try destruct (_ || _); try destruct b; injection E as <- <-; split; try done; apply reconnect_touches.
Qed.

Lemma insert_adds fuel table d retry s s' r :
  insert database endpoint show fuel table d retry s = Some (s', r) ->
  one_more d (docs (conn s) (namespace database table)) r (docs (conn s') (namespace database table)).
Proof.
  revert retry s. induction fuel as [|fuel IH]; intros retry s; [done|]. rewrite insert_S. cbn zeta.
  destruct (drv_insert _ _ _) as [m [u|e]] eqn:Ed; cbn [fst snd]; intros E.
  - injection E as <- <-. cbn. left. destruct u. by apply insert_law in Ed as [-> _].
  - apply handlers_docs in E as [[E Hr]|[-> E]].
    + rewrite E. cbn [conn]. unfold one_more. destruct (insert_touches _ _ _ _ _ Ed) as [->|[-> _]]; auto.
    + apply IH in E. cbn [conn] in E. by rewrite (insert_refused _ _ _ _ Ed) in E.
Qed.
End Insertions.

(** ** Calls that answer or throw *)

(** [c] ends in every state, with [P] of what it returns or with an exception
    of the code: it is never undefined. *)
Definition settles {S A} (P : A -> Prop) (c : FM S A) : Prop :=
  forall s, exists s' r, c s = Some (s', r)
    /\ match r with Ret a => P a | Throw e => e <> ThrownPointer | Undefined => False end.

Lemma settles_on {S A B} (P : A -> Prop) (Q : B -> Prop) (c : FM S A) (k : A -> FM S B) :
  settles P c -> (forall a, P a -> settles Q (k a)) -> settles Q (fmbind c k).
Proof.
  intros Hc Hk s. destruct (Hc s) as (s1 & r & E & Hr). unfold fmbind. rewrite E.
  destruct r as [a|e|]; [by apply Hk|by eexists _, _|done].
Qed.

Lemma settles_then {S A B} (Q : B -> Prop) (c : FM S A) (k : A -> FM S B) :
  settles (fun _ => True) c -> (forall a, settles Q (k a)) -> settles Q (fmbind c k).
Proof. intros Hc Hk. apply (settles_on (fun _ => True)); [done|]. intros a _. apply Hk. Qed.

Lemma settles_catch {S A} (P : A -> Prop) (c : FM S A) (h : exn -> FM S A) :
  settles P c -> (forall e, e <> ThrownPointer -> settles P (h e)) -> settles P (fmcatch c h).
Proof.
  intros Hc Hh s. destruct (Hc s) as (s1 & r & E & Hr). unfold fmcatch. rewrite E.
  destruct r as [a|e|]; [by eexists _, _|by apply Hh|done].
Qed.

Lemma settles_weaken {S A} (P Q : A -> Prop) (c : FM S A) :
  settles P c -> (forall a, P a -> Q a) -> settles Q c.
Proof.
  intros Hc H s. destruct (Hc s) as (s1 & r & E & Hr). eexists _, _. split; [done|].
  destruct r; [by apply H|done..].
Qed.

Lemma settles_ret {S A} (P : A -> Prop) (a : A) : P a -> settles (S := S) P (fret a).
Proof. intros H s. by exists s, (Ret a). Qed.
Lemma settles_throws {S A} (P : A -> Prop) e : e <> ThrownPointer -> settles (S := S) P (fthrow e).
Proof. intros H s. by exists s, (Throw e). Qed.
Lemma settles_modify {S} (f : S -> S) : settles (fun _ => True) (fmmodify f).
Proof. intros s. by exists (f s), (Ret tt). Qed.
Lemma settles_get {S} : settles (S := S) (fun _ => True) fmget.
Proof. intros s. by exists s, (Ret s). Qed.

Create HintDb settles.
#[export] Hint Resolve settles_modify settles_get : settles.
#[export] Hint Extern 4 (_ <> ThrownPointer) => discriminate : settles.

(** The steps of code that answers or throws; what each operation does is in
    the base [settles]. *)
Ltac settles_tac :=
  repeat (cbn zeta; intros;
    match goal with
    | |- settles _ (fmbind _ _) => apply settles_then
    | |- settles _ (fmcatch _ _) => apply settles_catch
    | |- settles _ (match ?x with _ => _ end) => destruct x eqn:?
    | |- settles _ (fret _) => apply settles_ret; first [exact I | by eauto with settles]
    | |- settles _ (fthrow _) => apply settles_throws; discriminate
    | |- settles _ _ => by eauto with settles
    end).

(** The driver has a connection for the user whenever it reads or updates. *)
Class MongoUser (D : Mongo) : Prop := {
  update_has_user m ns b q s : snd (drv_update m ns b q s) <> Fails UserException;
  query_has_user m ns q limit skip order : snd (drv_query m ns q limit skip order) <> Fails UserException
}.

Lemma mongo_reference_user : MongoUser mongo_reference.
Proof. by constructor. Qed.

Section Settles.
  Context `{HB : Boost} `{HM : Mongo} {HU : MongoUser HM}.
  Context (database endpoint : string) (show : document -> string) (what : driver_exception -> string).

Lemma call_settles {A B} (c : db -> db * answer A) (k : answer A -> FM Database B) (P : B -> Prop) :
  (forall m, settles P (k (snd (c m)))) -> settles P (fmbind (call c) k).
Proof. intros H s. rewrite call_bind. apply H. Qed.

Lemma alarm_error_settles text : settles (fun _ => True) (alarm_error endpoint text).
Proof. apply settles_modify. Qed.
Lemma alarm_info_settles text : settles (fun _ => True) (alarm_info endpoint text).
Proof. apply settles_modify. Qed.
Lemma reconnect_settles : settles (fun _ => True) reconnect.
Proof. apply settles_modify. Qed.
#[local] Hint Resolve alarm_error_settles alarm_info_settles reconnect_settles : settles.

Lemma fail_settles {A} b details (P : A -> Prop) : settles P (fail endpoint b details).
Proof. unfold fail, database_error. settles_tac. Qed.
#[local] Hint Resolve fail_settles : settles.

Lemma handlers_settles {A} b g sub retry (again : FM Database A) e (P : A -> Prop) :
  (e = UserException -> retry < MAX_RETRY -> settles P again) ->
  settles P (handlers endpoint b g sub retry again e).
Proof.
  intros H. destruct e; cbn [handlers]; try (destruct (retry <? MAX_RETRY) eqn:Er); settles_tac.
  apply H; [done|]. by apply Z.ltb_lt.
Qed.

Lemma getLastError_settles bbdd obj le : settles (fun _ => True) (getLastError endpoint show bbdd obj le).
Proof. unfold getLastError, database_error. settles_tac. Qed.
#[local] Hint Resolve getLastError_settles : settles.

Lemma insert_settles fuel table d retry : (0 < fuel)%nat -> MAX_RETRY - retry < Z.of_nat fuel ->
  settles (fun _ => True) (insert database endpoint show fuel table d retry).
Proof.
  revert retry. induction fuel as [|fuel IH]; intros retry H0 Hf; [lia|]. cbn [insert].
  apply call_settles. intros m. destruct (snd _) as [u|e]; [auto with settles|].
  apply handlers_settles. intros _ Hr. apply IH; lia.
Qed.

Lemma remove_settles fuel table q retry : (0 < fuel)%nat -> MAX_RETRY - retry < Z.of_nat fuel ->
  settles (fun _ => True) (remove database endpoint show fuel table q retry).
Proof.
  revert retry. induction fuel as [|fuel IH]; intros retry H0 Hf; [lia|]. cbn [remove].
  apply call_settles. intros m. destruct (snd _) as [u|e]; [auto with settles|].
  apply handlers_settles. intros _ Hr. apply settles_then; [apply IH; lia|settles_tac].
Qed.

Lemma update_settles fuel table q s : (0 < fuel)%nat ->
  settles (fun _ => True) (update database endpoint show fuel table q s false).
Proof.
  intros Hf. unfold update. destruct fuel as [|fuel]; [lia|]. cbn [update_r].
  apply call_settles. intros m. pose proof (update_has_user m (namespace database table) false q [("$set", BObj s)]) as Hu.
  destruct (snd _) as [le|e]; [auto with settles|]. apply handlers_settles. by intros ->.
Qed.

Lemma find_settles table q limit skip order :
  settles (fun _ => True) (find database endpoint show table q limit skip order).
Proof.
  unfold find. apply call_settles. intros m.
  pose proof (query_has_user m (namespace database table) q limit skip order) as Hu.
  destruct (snd _) as [l|e]; [settles_tac|]. apply handlers_settles. by intros ->.
Qed.

Lemma find_fields_settles table q limit skip order fields :
  settles (fun _ => True) (find_fields database endpoint show table q limit skip order fields).
Proof. unfold find_fields. apply settles_then; [apply find_settles|]. settles_tac. Qed.

Lemma count_settles table q : settles (fun _ => True) (count database endpoint show what table q).
Proof.
  unfold count, database_error. apply call_settles. intros m. destruct (snd _); settles_tac.
Qed.
End Settles.
