(* ===== verification/AdminSpec.v ===== *)
(** * The tenants of the administration: what a request leaves alone

    The handlers of [AdminService] on a driver whose calls may fail half-way
    ([CollectionSpec]): a request of one [Fiware-Service] changes no document
    of another one, every request is answered, and what the requests that
    post and delete devices do to the table of devices. *)
From stdpp Require Import base tactics list gmap strings.
From Stdlib Require Import ZArith Lia Ascii String.
From S2P Require Import Prelude CppString StdMap Boost Types Alarm IoTUrl Json Bson Collection MultiIndex Device DeviceCollection Configurator Filters ServiceTables.
From S2P Require Import AdminService CollectionSpec.

Local Open Scope string_scope.
Local Open Scope Z_scope.

(** A document of the service [s]. *)
Definition of_service (s : string) (d : document) : bool := matches [(Store.SERVICE, BStr s)] d.

#[global] Arguments of_service : simpl never.
#[global] Arguments matches : simpl never.

(** A document that names no service, as the schemas want them. *)
Definition no_service (d : document) : Prop := field d Store.SERVICE = None.

Lemma of_service_field s d : of_service s d = match field d Store.SERVICE with
                                               | Some v => bson_eqb (BStr s) v
                                               | None => false
                                               end.
Proof. unfold of_service. rewrite matches_cons. cbn. apply andb_true_r. Qed.

Lemma own_document s d d' : no_service d -> of_service s (d ++ (Store.SERVICE, BStr s) :: d')%list = true.
Proof. intros H. rewrite of_service_field, field_app, H. cbn. apply String.eqb_refl. Qed.

Lemma matches_of_service s q d : (Store.SERVICE, BStr s) ∈ q -> matches q d = true -> of_service s d = true.
Proof.
  intros Hq Hm. unfold matches in Hm. rewrite forallb_forall in Hm. unfold of_service. rewrite matches_cons.
  specialize (Hm (Store.SERVICE, BStr s)). cbn in Hm |- *. rewrite Hm; [done|]. by apply list_elem_of_In.
Qed.

Lemma set_fields_service s setb d : no_service setb -> of_service s (set_fields setb d) = of_service s d.
Proof.
  unfold set_fields, no_service. revert d. induction setb as [|[k v] setb IH]; intros d; [done|]. cbn [field fold_left fst snd].
  destruct (String.eqb k Store.SERVICE) eqn:E; [done|]. intros H. rewrite IH by done.
  by rewrite !of_service_field, field_set_field, E.
Qed.

Section Tenants.
  Context `{HM : Mongo} {L : MongoLaws HM} {HT : MongoTouches L}.
  Context (s ns : string).

(** The documents of the other services in a table. *)
Definition others (m : db) : list document := List.filter (fun d => negb (of_service s d)) (docs m ns).

Lemma others_eq m m' : docs m' = docs m -> others m' = others m.
Proof. unfold others. by intros ->. Qed.

Lemma others_insert m table d : of_service s d = true -> others (fst (drv_insert m table d)) = others m.
Proof.
  intros Hd. destruct (drv_insert m table d) as [m' r] eqn:E. cbn.
  destruct (insert_touches _ _ _ _ _ E) as [E'|[E' Ho]]; [by apply others_eq|]. unfold others.
  destruct (decide (ns = table)) as [->|Hne]; [|by rewrite Ho].
  rewrite E', List.filter_app. cbn. rewrite Hd. cbn. apply app_nil_r.
Qed.

Lemma others_update m table q setb :
  plain q = true -> (Store.SERVICE, BStr s) ∈ q -> no_service setb ->
  others (fst (drv_update m table false q [("$set", BObj setb)])) = others m.
Proof.
  intros Hp Hq Hs. destruct (drv_update m table false q _) as [m' r] eqn:E. cbn.
  destruct (update_touches _ _ _ _ _ _ Hp E) as [E'|[E' Ho]]; [by apply others_eq|]. unfold others.
  destruct (decide (ns = table)) as [->|Hne]; [|by rewrite Ho].
  rewrite E'. clear E'. induction (docs m table) as [|d l IH]; [done|]. cbn [update_first].
  destruct (matches q d) eqn:Em.
  - cbn. by rewrite set_fields_service, (matches_of_service s q d Hq Em).
  - destruct (update_first q setb l) as [l' n]. cbn in IH |- *. by rewrite IH.
Qed.

Lemma others_remove m table q : plain q = true -> (Store.SERVICE, BStr s) ∈ q ->
  others (fst (drv_remove m table q)) = others m.
Proof.
  intros Hp Hq. destruct (drv_remove m table q) as [m' r] eqn:E. cbn.
  destruct (remove_touches _ _ _ _ _ Hp E) as [E' Ho]. unfold others.
  destruct (decide (ns = table)) as [->|Hne]; [|by rewrite Ho].
  assert (Hf : forall l, List.filter (fun d => negb (of_service s d)) l
    = List.filter (fun d => negb (of_service s d)) (List.filter (fun d => negb (matches q d)) l)).
  { intros l. induction l as [|d l IH]; [done|]. cbn. destruct (matches q d) eqn:Em; cbn.
    - by rewrite (matches_of_service s q d Hq Em).
    - by rewrite IH. }
  by rewrite Hf, E', <- Hf.
Qed.
End Tenants.

(** ** The handlers *)

Section Admin.
  Context `{HB : Boost} `{HM : Mongo} `{HR : BsonReader} `{HBJ : BsonJson} `{HJ : Rapidjson} `{HC : Config}.
  Context {L : MongoLaws HM} {HT : MongoTouches L}.
  Context {HPl : Plugins Database}.
  Context (database endpoint : string) (show : document -> string) (what : driver_exception -> string)
    (std_what : exn -> string).
  Context (lexical_cast_int : string -> option Z).
  Context (validate_json_schema : string -> string -> option string).
  Context (_POST_DEVICE_SCHEMA _PUT_DEVICE_SCHEMA _POST_SERVICE_SCHEMA _PUT_SERVICE_SCHEMA : string).
  Context (url_base : string).

Local Abbreviation devices := (AdminService.devices database endpoint show what std_what lexical_cast_int
  validate_json_schema _POST_DEVICE_SCHEMA url_base).
Local Abbreviation device := (AdminService.device database endpoint show what std_what
  validate_json_schema _PUT_DEVICE_SCHEMA).
Local Abbreviation services := (AdminService.services database endpoint show what std_what lexical_cast_int
  validate_json_schema _POST_SERVICE_SCHEMA _PUT_SERVICE_SCHEMA url_base).
Local Abbreviation service := (AdminService.service database endpoint show what std_what
  validate_json_schema _PUT_SERVICE_SCHEMA).

(** What a schema promises: no element of a request has a field for the
    service, which is not one of those it lists. *)
Definition elements_without_service (schema name : string) : Prop := forall body obj es e d,
  validate_json_schema body schema = None -> fromjson body = Some obj ->
  field_array obj name = Ret es -> e ∈ es -> embeddedObject e = Ret d -> no_service d.
Definition fields_without_service (schema : string) : Prop := forall body obj,
  validate_json_schema body schema = None -> fromjson body = Some obj -> no_service obj.

(** The commands of the plug-ins bring no service. *)
Definition commands_without_service : Prop := forall p d t d', no_service d ->
  joinCommands (jsonString d) (get_protocol_commands p) = Ret t -> fromjson t = Some d' -> no_service d'.

(** A plug-in that registers a device writes documents of its service only. *)
Definition plugins_own_service : Prop := forall s ns p d,
  let view := fun w : Database * plugins => others s ns (conn (fst w)) in
  (Device._service d = s -> keeps view (send_register_device p d))
  /\ (Device._service d = s -> keeps view (unregister p d))
  /\ keeps view (plugin_register_iota_manager p).

Section Isolation.
  Context (Hpost : elements_without_service _POST_DEVICE_SCHEMA Store.DEVICES).
  Context (Hput : fields_without_service _PUT_DEVICE_SCHEMA).
  Context (Hposts : elements_without_service _POST_SERVICE_SCHEMA Store.SERVICES).
  Context (Hputs : fields_without_service _PUT_SERVICE_SCHEMA).
  Context (Hmerge : commands_without_service).
  Context (Hown : plugins_own_service).
  Context (s ns : string).

Definition others_of (a : Admin) : list document := others s ns (conn (a_database a)).

Lemma on_db_others {A} (c : FM Database A) :
  keeps (fun d => others s ns (conn d)) c -> keeps others_of (on_db c).
Proof.
  intros H a a' r E. unfold on_db in E. destruct (c (a_database a)) as [[d x]|] eqn:Ec; [|done].
  injection E as <- <-. exact (H _ _ _ Ec).
Qed.

Lemma on_plugins_others {A} (c : FM (Database * plugins) A) :
  keeps (fun w : Database * plugins => others s ns (conn (fst w))) c -> keeps others_of (on_plugins c).
Proof.
  intros H a a' r E. unfold on_plugins in E.
  destruct (c (a_database a, a_plugins a)) as [[d x]|] eqn:Ec; [|done].
  injection E as <- <-. exact (H _ _ _ Ec).
Qed.

Lemma others_reconnect m : others s ns (drv_reconnect m) = others s ns m.
Proof. apply others_eq, reconnect_touches. Qed.

Lemma find_others table q limit skip order fields :
  keeps others_of (on_db (find_fields database endpoint show table q limit skip order fields)).
Proof.
  apply on_db_others, find_fields_keeps; [apply others_reconnect|]. intros m. apply others_eq, query_touches.
Qed.
Lemma count_others table q : keeps others_of (on_db (count database endpoint show what table q)).
Proof.
  apply on_db_others, count_keeps; [apply others_reconnect|]. intros m. apply others_eq, count_touches.
Qed.
Lemma insert_others fuel table d : of_service s d = true ->
  keeps others_of (on_db (insert database endpoint show fuel table d 0)).
Proof.
  intros Hd. apply on_db_others, insert_keeps; [apply others_reconnect|]. intros m. by apply others_insert.
Qed.
Lemma remove_others fuel table q : plain q = true -> (Store.SERVICE, BStr s) ∈ q ->
  keeps others_of (on_db (remove database endpoint show fuel table q 0)).
Proof.
  intros Hp Hq. apply on_db_others, remove_keeps; [apply others_reconnect|]. intros m. by apply others_remove.
Qed.
Lemma update_others fuel table q setb : plain q = true -> (Store.SERVICE, BStr s) ∈ q -> no_service setb ->
  keeps others_of (on_db (update database endpoint show fuel table q setb false)).
Proof.
  intros Hp Hq Hs. apply on_db_others, (update_keeps _ _ _ _ others_reconnect _ _ _ no_service); [..|done].
  - intros s' m Hs'. by apply others_update.
  - done.
Qed.

#[local] Hint Resolve find_others count_others insert_others remove_others update_others : keeps.

Lemma for_plugins_keeps f : (forall p, keeps others_of (f p)) -> keeps others_of (for_plugins f).
Proof.
  intros H. unfold for_plugins. apply keeps_bind; [auto with keeps|]. intros a.
  induction (entries (_service_manager a)) as [|p ps IH]; cbn [fold_right]; keeps_tac.
Qed.

Lemma deploy_others d : Device._service d = s -> keeps others_of (deploy_device d).
Proof.
  intros Hd. apply for_plugins_keeps. intros p. destruct (of_protocol _ p); [|auto with keeps].
  apply on_plugins_others. by apply (Hown s ns p d).
Qed.
Lemma undeploy_others d : Device._service d = s -> keeps others_of (undeploy_device d).
Proof.
  intros Hd. apply for_plugins_keeps. intros p. destruct (of_protocol _ p); [|auto with keeps].
  apply on_plugins_others. by apply (Hown s ns p d).
Qed.
Lemma register_manager_others : keeps others_of register_iota_manager.
Proof.
  apply for_plugins_keeps. intros p. destruct (negb _); [|auto with keeps].
  apply on_plugins_others. by apply (Hown s ns p (new_device "" "")).
Qed.
Lemma remove_from_cache_others d : keeps others_of (remove_from_cache d).
Proof. by apply keeps_modify. Qed.

#[local] Hint Resolve deploy_others undeploy_others register_manager_others remove_from_cache_others : keeps.

Lemma lift_keeps {A} (o : outcome A) : keeps others_of (lift o).
Proof. apply keeps_lift. Qed.
Lemma respond_keeps c b d r : keeps others_of (respond c b d r).
Proof. apply keeps_ret. Qed.
Lemma lift_then {A B} (o : outcome A) (k : A -> FM Admin B) :
  (forall x, o = Ret x -> keeps others_of (k x)) -> keeps others_of (fmbind (lift o) k).
Proof. intros H a a' r. unfold fmbind, lift, flift. destruct o; [by apply H|by intros [= <- <-]..]. Qed.
Lemma from_json_then {B} text (k : document -> FM Admin B) :
  (forall d, fromjson text = Some d -> keeps others_of (k d)) -> keeps others_of (fmbind (from_json text) k).
Proof. intros H. apply lift_then. intros d. destruct (fromjson text); [|done]. intros [= ->]. by apply H. Qed.
#[local] Hint Resolve lift_keeps respond_keeps : keeps.

Lemma get_service_json_others t p : keeps others_of (get_service_json database endpoint show t p).
Proof. unfold get_service_json. keeps_tac. Qed.
Lemma get_device_protocol_others n t p : keeps others_of (get_device_protocol database endpoint show n t p).
Proof.
  unfold get_device_protocol, ServiceCollection.fill_all_resources. destruct (String.eqb n ""); [keeps_tac|].
  apply keeps_bind; [|keeps_tac]. apply on_db_others, keeps_bind; [|intros; auto with keeps].
  apply find_fields_keeps; [apply others_reconnect|]. intros m. apply others_eq, query_touches.
Qed.
Lemma duplicate_others n t p d : keeps others_of (check_device_commands_duplicate database endpoint show n t p d).
Proof. unfold check_device_commands_duplicate. keeps_tac. Qed.
Lemma check_provisioned_others p d b : keeps others_of (check_provisioned p d b).
Proof. unfold check_provisioned. keeps_tac. Qed.
#[local] Hint Resolve get_service_json_others get_device_protocol_others duplicate_others
  check_provisioned_others : keeps.

Lemma store_device_others path body n bo : no_service bo ->
  keeps others_of (store_device database endpoint show s path body n bo).
Proof. intros Hbo. unfold store_device. keeps_tac. by apply insert_others, own_document. Qed.

Lemma post_device_others path body e : (forall d, embeddedObject e = Ret d -> no_service d) ->
  keeps others_of (post_device database endpoint show s path body e).
Proof.
  intros He. unfold post_device. apply lift_then. intros bo Ebo. specialize (He bo Ebo). cbn zeta.
  apply keeps_bind; [auto with keeps|]. intros [p|]; [|auto with keeps].
  apply keeps_bind; [auto with keeps|]. intros _. unfold with_plugin_commands. cbn zeta.
  destruct (String.eqb (get_protocol_commands p) ""); [by apply (store_device_others _ _ _ bo)|].
  intros a a' r E. revert E. unfold fmbind at 2. unfold lift, flift. destruct (joinCommands _ _) as [t|x|] eqn:Et.
  - revert a a' r. apply from_json_then. intros d Hd. apply store_device_others. by apply (Hmerge p bo t d).
  - by intros [= <- <-].
  - by intros [= <- <-].
Qed.

Lemma post_devices_others path body be last : (forall e d, e ∈ be -> embeddedObject e = Ret d -> no_service d) ->
  keeps others_of (post_devices database endpoint show s path body be last).
Proof.
  revert last. induction be as [|e be IH]; intros last He; cbn [post_devices]; [auto with keeps|].
  apply keeps_bind.
  - apply post_device_others. intros d. apply He. by left.
  - intros d. apply IH. intros e' d' He'. apply He. by right.
Qed.

Lemma post_device_json_others path body r :
  keeps others_of (post_device_json database endpoint show validate_json_schema _POST_DEVICE_SCHEMA url_base
                     s path body r).
Proof.
  unfold post_device_json. apply keeps_bind; [auto with keeps|]. intros found.
  destruct (String.eqb body ""); [auto with keeps|]. destruct (String.eqb found ""); [auto with keeps|].
  destruct (validate_json_schema body _POST_DEVICE_SCHEMA) eqn:Ev; [auto with keeps|].
  apply from_json_then. intros obj Eo. apply lift_then. intros es Ee.
  apply keeps_bind; [|intros; auto with keeps]. apply post_devices_others.
  intros e d He. by apply (Hpost body obj es e d).
Qed.

Lemma device_query_own path id protocol :
  plain (device_query s path id protocol) = true /\ (Store.SERVICE, BStr s) ∈ device_query s path id protocol.
Proof.
  unfold device_query. split; [|apply elem_of_app; left; by left].
  unfold append_str. by destruct (String.eqb protocol "").
Qed.

Lemma put_device_others fuel path id protocol body text setbo : no_service setbo ->
  keeps others_of (put_device database endpoint show what fuel s path id protocol body text setbo).
Proof.
  intros Hs. destruct (device_query_own path id protocol) as [Hp Hq]. unfold put_device. keeps_tac.
Qed.

Lemma put_device_json_others fuel path id body protocol r :
  keeps others_of (put_device_json database endpoint show what validate_json_schema _PUT_DEVICE_SCHEMA fuel
                     s path id body protocol r).
Proof.
  unfold put_device_json. cbn zeta. apply keeps_bind; [auto with keeps|]. intros _.
  destruct (String.eqb body ""); [auto with keeps|].
  destruct (validate_json_schema body _PUT_DEVICE_SCHEMA) eqn:Ev; [auto with keeps|].
  apply from_json_then. intros setbo Es. destruct setbo as [|kv setbo]; [auto with keeps|].
  apply keeps_bind; [|intros; auto with keeps]. apply put_device_others. by apply (Hput body).
Qed.

Lemma page_of_others table name id q order limit offset detailed r :
  keeps others_of (page_of database endpoint show what table name id q order limit offset detailed r).
Proof. unfold page_of. keeps_tac. Qed.

Lemma get_all_devices_others path limit offset detailed entity filter r :
  keeps others_of (get_all_devices_json database endpoint show what s path limit offset detailed entity filter r).
Proof. apply page_of_others. Qed.
Lemma get_all_services_others path limit offset detailed resource r :
  keeps others_of (get_all_services_json database endpoint show what s path limit offset detailed resource r).
Proof. apply page_of_others. Qed.

Lemma get_a_device_others path id r :
  keeps others_of (get_a_device_json database endpoint show s path id r).
Proof. unfold get_a_device_json. keeps_tac. Qed.

Lemma in_append_str name : name <> "" -> (Store.SERVICE, BStr name) ∈ append_str Store.SERVICE name.
Proof. intros H. unfold append_str. destruct (String.eqb_spec name ""); [done|]. by left. Qed.

Lemma plain_app q q' : plain (q ++ q')%list = plain q && plain q'.
Proof. apply forallb_app. Qed.
Lemma plain_append_str k v : plain (append_str k v) = true.
Proof. unfold append_str. by destruct (String.eqb v ""). Qed.

Lemma delete_device_others path id r : s <> "" ->
  keeps others_of (delete_device_json database endpoint show s path id r).
Proof.
  intros Hs. unfold delete_device_json. keeps_tac. apply remove_others.
  - by rewrite !plain_app, !plain_append_str.
  - apply elem_of_app; right. apply elem_of_app; left. by apply in_append_str.
Qed.
#[local] Hint Resolve get_all_devices_others get_all_services_others get_a_device_others post_device_json_others put_device_json_others
  delete_device_others : keeps.

Lemma post_services_others path be : Forall no_service be ->
  keeps others_of (post_services database endpoint show s path be).
Proof.
  induction 1 as [|d be Hd _ IH]; cbn [post_services]; [auto with keeps|].
  apply keeps_bind; [|intros; apply IH]. unfold post_service, check_uri, check_existing_resource, get_service.
  keeps_tac; intros; by apply insert_others, own_document.
Qed.

Lemma omapM_elements {A B} (f : A -> outcome B) (P : B -> Prop) l l' :
  (forall x y, x ∈ l -> f x = Ret y -> P y) -> omapM f l = Ret l' -> Forall P l'.
Proof.
  revert l'. induction l as [|x l IH]; intros l' H; cbn [omapM]; [by intros [= <-]|].
  destruct (f x) as [y| |] eqn:Ex; cbn; try discriminate.
  destruct (omapM f l) as [ys| |] eqn:El; cbn; try discriminate. intros [= <-].
  constructor; [apply (H x y); [by left|done]|]. apply IH; [|done]. intros z w Hz. apply H. by right.
Qed.

Lemma post_service_json_others path body r :
  keeps others_of (post_service_json database endpoint show validate_json_schema _POST_SERVICE_SCHEMA url_base
                     s path body r).
Proof.
  unfold post_service_json. destruct (String.eqb body ""); [auto with keeps|].
  destruct (validate_json_schema body _POST_SERVICE_SCHEMA) eqn:Ev; [auto with keeps|].
  apply from_json_then. intros obj Eo. apply lift_then. intros be Eb.
  unfold ServiceCollection.getElementsFromBSON in Eb. destruct (field_array obj _) as [es| |] eqn:Ea; try done.
  apply keeps_bind; [|intros; apply keeps_bind; intros; auto with keeps].
  apply post_services_others, (omapM_elements embeddedObject _ es); [|done].
  intros e d He. by apply (Hposts body obj es e d).
Qed.

Lemma put_service_json_others fuel path apikey resource body r :
  keeps others_of (put_service_json database endpoint show validate_json_schema _PUT_SERVICE_SCHEMA fuel
                     s path s apikey resource body r).
Proof.
  unfold put_service_json, check_existing_resource, check_uri, get_service. cbn zeta.
  apply keeps_bind; [keeps_tac|]. intros _. destruct (String.eqb body ""); [auto with keeps|].
  destruct (validate_json_schema body _PUT_SERVICE_SCHEMA) eqn:Ev; [auto with keeps|].
  apply from_json_then. intros setbo Es. destruct setbo as [|kv setbo]; [auto with keeps|].
  keeps_tac. apply update_others; [done|by left|by apply (Hputs body)].
Qed.

Lemma delete_service_json_others path apikey resource b r :
  keeps others_of (delete_service_json database endpoint show what s path s apikey resource b r).
Proof.
  unfold delete_service_json. keeps_tac; apply remove_others; try by left. 2: reflexivity.
  change (plain ([(Store.SERVICE_ID, BStr s)] ++ append_str Store.APIKEY apikey
    ++ append_str Store.RESOURCE resource
    ++ (if all_paths path then [] else [(Store.SERVICE_PATH, BStr path)]))%list = true).
  rewrite !plain_app, !plain_append_str. by destruct (all_paths path).
Qed.
#[local] Hint Resolve post_service_json_others put_service_json_others delete_service_json_others : keeps.

Lemma catch_with_others op r c : keeps others_of c -> keeps others_of (catch_with std_what op r c).
Proof. intros Hc. unfold catch_with. apply keeps_catch; [done|]. intros e. keeps_tac. Qed.

Lemma good_headers path : bad_headers s path = false -> s <> "".
Proof. unfold bad_headers. intros H ->. done. Qed.

Section Handlers.
  Context (fuel : nat) (q : request) (url_args : gmap string string)
    (query_parameters : list (string * string)) (r : response).
  Context (Hq : get_header q FIWARE_SERVICE = s).

Lemma devices_others : keeps others_of (devices q query_parameters r).
Proof.
  unfold AdminService.devices, check_mongo_config. apply catch_with_others. rewrite Hq. keeps_tac.
Qed.

Lemma device_others : keeps others_of (device fuel q url_args query_parameters r).
Proof.
  unfold AdminService.device. apply catch_with_others. rewrite Hq. cbn zeta.
  destruct (bad_headers _ _) eqn:Eb; [auto with keeps|]. apply good_headers in Eb. keeps_tac.
Qed.

Lemma services_others : keeps others_of (services fuel q query_parameters r).
Proof.
  unfold AdminService.services, check_mongo_config. apply catch_with_others. rewrite Hq. keeps_tac.
Qed.

Lemma service_others : keeps others_of (service fuel q url_args query_parameters r).
Proof.
  unfold AdminService.service, check_mongo_config. apply catch_with_others. rewrite Hq. cbn zeta.
  apply keeps_bind; [auto with keeps|]. intros _. destruct (bad_headers _ _); [auto with keeps|].
  destruct (String.eqb (default "" _) ""); [auto with keeps|].
  destruct (String.eqb_spec s (default "" (url_args !! _api_service_holder))) as [<-|]; cbn [negb]; keeps_tac.
Qed.
End Handlers.
End Isolation.


(** ** Every request is answered *)

(** The code that is returned is the one in the response. *)
Definition answer_code (x : Z * response) : Prop := rsp_code (snd x) = fst x.

(** The request is answered, whatever the state. *)
Definition answered (c : FM Admin (Z * response)) : Prop :=
  forall a, exists a' x, c a = Some (a', Ret x) /\ answer_code x.

(** The plug-ins answer or throw an exception of theirs. *)
Definition plugins_settle : Prop := forall p d,
  settles (fun _ => True) (send_register_device p d)
  /\ settles (fun _ => True) (unregister p d)
  /\ settles (fun _ => True) (plugin_register_iota_manager p).

(** The storage of the configuration has a type, which is a text. *)
Definition storage_typed : Prop := exists storage type t,
  config_get Store.STORAGE = Ret storage /\ FindMember storage Store.TYPE = Ret (Some type)
  /\ GetString type = Ret t.

Section Answers.
  Context {HU : MongoUser HM}.
  Context (Hpl : plugins_settle) (Hconf : storage_typed).

Local Abbreviation answers := (settles (S := Admin) answer_code).
Local Abbreviation goes_on := (settles (S := Admin) (fun _ => True)).

Lemma respond_answers c b d r : answers (respond c b d r).
Proof. by apply settles_ret. Qed.
Lemma respond_goes_on c b d r : goes_on (respond c b d r).
Proof. by apply settles_ret. Qed.
Lemma on_db_goes_on {A} (c : FM Database A) : settles (fun _ => True) c -> goes_on (on_db c).
Proof. intros H a. destruct (H (a_database a)) as (d & r & E & Hr). unfold on_db. rewrite E. by eexists _, _. Qed.
Lemma on_plugins_goes_on {A} (c : FM (Database * plugins) A) :
  settles (fun _ => True) c -> goes_on (on_plugins c).
Proof.
  intros H a. destruct (H (a_database a, a_plugins a)) as (d & r & E & Hr). unfold on_plugins. rewrite E.
  by eexists _, _.
Qed.

(** An outcome that is a value or an exception of the code. *)
Definition settled {A} (o : outcome A) : Prop :=
  match o with Ret _ => True | Throw e => e <> ThrownPointer | Undefined => False end.
Lemma lift_goes_on {A} (o : outcome A) : settled o -> goes_on (lift o).
Proof. intros H a. by exists a, o. Qed.
Lemma settled_bind {A B} (o : outcome A) (k : A -> outcome B) :
  settled o -> (forall x, settled (k x)) -> settled (obind o k).
Proof. destruct o; cbn; auto. Qed.

Lemma find_goes_on table q limit skip order fields :
  goes_on (on_db (find_fields database endpoint show table q limit skip order fields)).
Proof. apply on_db_goes_on, find_fields_settles. Qed.
Lemma count_goes_on table q : goes_on (on_db (count database endpoint show what table q)).
Proof. apply on_db_goes_on, count_settles. Qed.
Lemma insert_goes_on table d : goes_on (on_db (insert database endpoint show 2 table d 0)).
Proof. apply on_db_goes_on, insert_settles; unfold MAX_RETRY; lia. Qed.
Lemma remove_goes_on table q : goes_on (on_db (remove database endpoint show 2 table q 0)).
Proof. apply on_db_goes_on, remove_settles; unfold MAX_RETRY; lia. Qed.
Lemma update_goes_on fuel table q setb : (0 < fuel)%nat ->
  goes_on (on_db (update database endpoint show fuel table q setb false)).
Proof. intros Hf. by apply on_db_goes_on, update_settles. Qed.

#[local] Hint Resolve respond_answers respond_goes_on find_goes_on count_goes_on insert_goes_on remove_goes_on
  update_goes_on : settles.

Lemma for_plugins_goes_on f : (forall p, goes_on (f p)) -> goes_on (for_plugins f).
Proof.
  intros H. unfold for_plugins. apply settles_then; [auto with settles|]. intros a.
  induction (entries (_service_manager a)) as [|p ps IH]; cbn [fold_right]; [settles_tac|].
  apply settles_then; [|done]. apply settles_catch; [apply H|]. intros e He. destruct e; first [by apply settles_ret | done].
Qed.
Lemma deploy_goes_on d : goes_on (deploy_device d).
Proof.
  apply for_plugins_goes_on. intros p. destruct (of_protocol _ _); [|settles_tac].
  apply on_plugins_goes_on, (Hpl p d).
Qed.
Lemma undeploy_goes_on d : goes_on (undeploy_device d).
Proof.
  apply for_plugins_goes_on. intros p. destruct (of_protocol _ _); [|settles_tac].
  apply on_plugins_goes_on, (Hpl p d).
Qed.
Lemma register_manager_goes_on : goes_on register_iota_manager.
Proof.
  apply for_plugins_goes_on. intros p. destruct (negb _); [|settles_tac].
  apply on_plugins_goes_on, (Hpl p (new_device "" "")).
Qed.
Lemma remove_from_cache_goes_on d : goes_on (remove_from_cache d).
Proof. apply settles_modify. Qed.
#[local] Hint Resolve deploy_goes_on undeploy_goes_on register_manager_goes_on remove_from_cache_goes_on : settles.

Lemma field_array_settled d name : settled (field_array d name).
Proof. unfold field_array. destruct (field d name) as [[]|]; first [exact I|discriminate]. Qed.
Lemma embeddedObject_settled e : settled (embeddedObject e).
Proof. destruct e; first [exact I|discriminate]. Qed.
Lemma substr_from_settled t n : settled (substr_from t n).
Proof. unfold substr_from. destruct (Nat.leb _ _); first [exact I|discriminate]. Qed.
Lemma joinCommands_settled t u : settled (joinCommands t u).
Proof.
  unfold joinCommands. cbn zeta. apply settled_bind.
  - generalize (CppString.find "{" u 0) as first. intros first.
    match goal with |- settled (inner_text _ _ ?l) => generalize l as last end. intros [fin|]; destruct first as [ini|]; try exact I.
    apply settled_bind; [apply substr_from_settled|]. intros x. exact I.
  - intros inner. destruct (CppString.find _ t 0) as [p|].
    + destruct (CppString.find _ t p); [|done]. apply settled_bind; [apply substr_from_settled|done].
    + apply settled_bind; [apply substr_from_settled|done].
Qed.
Lemma from_json_goes_on text : goes_on (from_json text).
Proof. apply lift_goes_on. destruct (fromjson text); first [exact I|discriminate]. Qed.
#[local] Hint Resolve lift_goes_on field_array_settled embeddedObject_settled joinCommands_settled
  from_json_goes_on : settles.

Lemma get_service_json_goes_on t p : goes_on (get_service_json database endpoint show t p).
Proof. unfold get_service_json. settles_tac. Qed.
Lemma get_device_protocol_goes_on n t p : goes_on (get_device_protocol database endpoint show n t p).
Proof.
  unfold get_device_protocol, ServiceCollection.fill_all_resources. destruct (String.eqb n ""); [settles_tac|].
  apply settles_then; [|settles_tac]. apply on_db_goes_on, settles_then; [apply find_fields_settles|settles_tac].
Qed.
Lemma duplicate_goes_on n t p d : goes_on (check_device_commands_duplicate database endpoint show n t p d).
Proof. unfold check_device_commands_duplicate. settles_tac. Qed.
Lemma check_provisioned_goes_on p d b : goes_on (check_provisioned p d b).
Proof. unfold check_provisioned. settles_tac. Qed.
#[local] Hint Resolve get_service_json_goes_on get_device_protocol_goes_on duplicate_goes_on
  check_provisioned_goes_on : settles.

Lemma post_device_goes_on t path body e : goes_on (post_device database endpoint show t path body e).
Proof.
  unfold post_device, bad_protocol, with_plugin_commands. settles_tac.
  intros bo. unfold store_device. apply settles_then; [|settles_tac].
  apply lift_goes_on. destruct (field _ _) as [[]|]; first [exact I|discriminate].
Qed.

Lemma post_devices_goes_on t path body be last : goes_on (post_devices database endpoint show t path body be last).
Proof.
  revert last. induction be as [|e be IH]; intros last; cbn [post_devices]; [settles_tac|].
  apply settles_then; [apply post_device_goes_on|apply IH].
Qed.
#[local] Hint Resolve post_devices_goes_on : settles.

Lemma post_device_json_answers t path body r :
  answers (post_device_json database endpoint show validate_json_schema _POST_DEVICE_SCHEMA url_base t path body r).
Proof. unfold post_device_json. settles_tac. Qed.

Lemma put_device_goes_on fuel t path id protocol body text setbo : (0 < fuel)%nat ->
  goes_on (put_device database endpoint show what fuel t path id protocol body text setbo).
Proof. intros Hf. unfold put_device, bad_protocol. settles_tac. Qed.
#[local] Hint Resolve put_device_goes_on : settles.

Lemma put_device_json_answers fuel t path id body protocol r : (0 < fuel)%nat ->
  answers (put_device_json database endpoint show what validate_json_schema _PUT_DEVICE_SCHEMA fuel
             t path id body protocol r).
Proof. intros Hf. unfold put_device_json. settles_tac. Qed.

Lemma page_of_answers table name id q order limit offset detailed r :
  answers (page_of database endpoint show what table name id q order limit offset detailed r).
Proof. unfold page_of. settles_tac. Qed.
Lemma get_a_device_answers t path id r : answers (get_a_device_json database endpoint show t path id r).
Proof. unfold get_a_device_json. settles_tac. Qed.
Lemma delete_device_answers t path id r : answers (delete_device_json database endpoint show t path id r).
Proof. unfold delete_device_json. settles_tac. Qed.
Lemma delete_service_answers t path id apikey resource b r :
  answers (delete_service_json database endpoint show what t path id apikey resource b r).
Proof. unfold delete_service_json. settles_tac. Qed.
#[local] Hint Resolve post_device_json_answers put_device_json_answers page_of_answers get_a_device_answers
  delete_device_answers delete_service_answers : settles.

Lemma check_mongo_config_goes_on : goes_on check_mongo_config.
Proof.
  destruct Hconf as (storage & type & t & E1 & E2 & E3). unfold check_mongo_config. apply lift_goes_on.
  rewrite E1. cbn [obind]. rewrite E2. cbn [obind]. rewrite E3. cbn [obind].
  destruct (negb _); first [exact I|discriminate].
Qed.
Lemma page_limit_settled ps : settled (page_limit lexical_cast_int ps).
Proof.
  unfold page_limit. destruct (find_param ps Store.LIMIT); [|exact I]. apply settled_bind; [|done].
  unfold number_or. destruct (String.eqb _ _); [exact I|]. by destruct (lexical_cast_int _).
Qed.
Lemma page_offset_settled ps : settled (page_offset lexical_cast_int ps).
Proof.
  unfold page_offset. destruct (find_param ps Store.OFFSET); [|exact I]. apply settled_bind; [|done].
  unfold number_or. destruct (String.eqb _ _); [exact I|]. by destruct (lexical_cast_int _).
Qed.
Lemma get_param_resource_settled ps b : settled (get_param_resource ps b).
Proof. unfold get_param_resource. destruct (_ && _); first [exact I|discriminate]. Qed.
#[local] Hint Resolve check_mongo_config_goes_on page_limit_settled page_offset_settled
  get_param_resource_settled : settles.

Lemma catch_with_answers op r c : answers c -> answered (catch_with std_what op r c).
Proof.
  intros Hc a. destruct (Hc a) as (a' & o & E & Ho). unfold catch_with, fmcatch. rewrite E.
  destruct o as [x|e|]; [by eexists _, _| |done].
  destruct e; try done; destruct op as [[]|]; by eexists _, _.
Qed.
Lemma get_all_devices_answers t path limit offset detailed entity filter r :
  answers (get_all_devices_json database endpoint show what t path limit offset detailed entity filter r).
Proof. apply page_of_answers. Qed.
Lemma get_all_services_answers t path limit offset detailed resource r :
  answers (get_all_services_json database endpoint show what t path limit offset detailed resource r).
Proof. apply page_of_answers. Qed.
Lemma delete_service_goes_on t path id apikey resource b r :
  goes_on (delete_service_json database endpoint show what t path id apikey resource b r).
Proof. eapply settles_weaken; [apply delete_service_answers|done]. Qed.
#[local] Hint Resolve get_all_devices_answers get_all_services_answers delete_service_goes_on : settles.

Section Handlers.
  Context (fuel : nat) (q : request) (url_args : gmap string string)
    (query_parameters : list (string * string)) (r : response) (Hf : (0 < fuel)%nat).

Lemma devices_answered : answered (devices q query_parameters r).
Proof. apply catch_with_answers. settles_tac. Qed.
Lemma device_answered : answered (device fuel q url_args query_parameters r).
Proof. apply catch_with_answers. settles_tac. Qed.

Context (Hpost : q_method q <> "POST") (Hput : q_method q <> "PUT").
Lemma services_answered : answered (services fuel q query_parameters r).
Proof.
  apply String.eqb_neq in Hpost, Hput. apply catch_with_answers. cbn zeta. rewrite Hpost, Hput. settles_tac.
Qed.
Lemma service_answered : answered (service fuel q url_args query_parameters r).
Proof. apply String.eqb_neq in Hput. apply catch_with_answers. cbn zeta. rewrite Hput. settles_tac. Qed.
End Handlers.
End Answers.

End Admin.
