(* ===== verification/AdminDevices.v ===== *)
(** * What the requests of the administration do to its tables

    The devices a request posts, one after the other, those a request removes,
    and the services a request removes with their devices: what is in the
    tables afterwards, on a driver whose calls may fail half-way. *)
From stdpp Require Import base tactics list gmap strings.
From Stdlib Require Import ZArith Lia Ascii String.
From S2P Require Import Prelude CppString StdMap Boost Types Alarm IoTUrl Json Bson Collection MultiIndex Device DeviceCollection Configurator Filters ServiceTables.
From S2P Require Import AdminService CollectionSpec.

Local Open Scope string_scope.
Local Open Scope Z_scope.

(** What identifies a device in the table. *)
Definition identity (d : document) : list (option bson) :=
  map (field d) [Store.DEVICE_ID; Store.PROTOCOL_NAME; Store.SERVICE; Store.SERVICE_PATH].

Section Devices.
  Context `{HB : Boost} `{HM : Mongo} `{HR : BsonReader} `{HBJ : BsonJson} `{HJ : Rapidjson} `{HC : Config}.
  Context {L : MongoLaws HM} {HT : MongoTouches L}.
  Context {HPl : Plugins Database}.
  Context (database endpoint : string) (show : document -> string) (what : driver_exception -> string).
  Context (validate_json_schema : string -> string -> option string).
  Context (_POST_DEVICE_SCHEMA : string).
  Context (url_base : string).

Local Abbreviation post_device_json := (AdminService.post_device_json database endpoint show
  validate_json_schema _POST_DEVICE_SCHEMA url_base).

Definition device_documents (a : Admin) : list document :=
  docs (conn (a_database a)) (namespace database Store.DEVICE_TABLE).
Definition registered (a : Admin) : list (list (option bson)) := map identity (device_documents a).

(** A plug-in that registers a device changes at most the other fields of the
    documents. *)
Definition plugins_keep_devices : Prop := forall p d,
  keeps (fun w : Database * plugins => map identity (docs (conn (fst w)) (namespace database Store.DEVICE_TABLE)))
    (send_register_device p d).

(** The commands of the plug-ins are added to a document that keeps its
    identity. *)
Definition commands_keep_identity : Prop := forall p d t d' more,
  joinCommands (jsonString d) (get_protocol_commands p) = Ret t -> fromjson t = Some d' ->
  identity (d' ++ more)%list = identity (d ++ more)%list.

(** ** Posting *)

Section Posting.
  Context (Hpl : plugins_keep_devices) (Hmerge : commands_keep_identity).
  Context (service service_path body : string).

(** An element of a request, as the table has it. *)
Definition posted (e : bson) (i : list (option bson)) : Prop := exists d,
  embeddedObject e = Ret d
  /\ i = identity (d ++ [(Store.SERVICE, BStr service); (Store.SERVICE_PATH, BStr service_path)])%list.

Lemma on_db_registered {A} (c : FM Database A) :
  (forall f : db -> list document, (forall m m', docs m' = docs m -> f m' = f m) -> keeps (fun s => f (conn s)) c) ->
  keeps registered (on_db c).
Proof.
  intros H a a' r E. unfold on_db in E. destruct (c (a_database a)) as [[d x]|] eqn:Ec; [|done].
  injection E as <- <-. unfold registered, device_documents. f_equal.
  exact (H (fun m => docs m (namespace database Store.DEVICE_TABLE))
    (fun m m' (E : docs m' = docs m) => f_equal (fun g => g _) E) _ _ _ Ec).
Qed.

Lemma find_registered table q limit skip order fields :
  keeps registered (on_db (find_fields database endpoint show table q limit skip order fields)).
Proof.
  apply on_db_registered. intros f Hf. apply find_fields_keeps; intros; apply Hf;
    [apply reconnect_touches|apply query_touches].
Qed.
Lemma lift_registered {A} (o : outcome A) : keeps registered (lift o).
Proof. apply keeps_lift. Qed.
#[local] Hint Resolve find_registered lift_registered : keeps.

Lemma deploy_registered d : keeps registered (deploy_device d).
Proof.
  unfold deploy_device, for_plugins. apply keeps_bind; [auto with keeps|]. intros a.
  induction (entries (_service_manager a)) as [|p ps IH]; cbn [fold_right]; keeps_tac.
  intros a1 a2 r E. unfold on_plugins in E.
  destruct (send_register_device _ _ _) as [[w x]|] eqn:Ec; [|done]. injection E as <- <-.
  exact (Hpl _ _ _ _ _ Ec).
Qed.
Lemma duplicate_registered n t p d : keeps registered (check_device_commands_duplicate database endpoint show n t p d).
Proof. unfold check_device_commands_duplicate. keeps_tac. Qed.
Lemma get_device_protocol_registered n t p : keeps registered (get_device_protocol database endpoint show n t p).
Proof.
  unfold get_device_protocol, ServiceCollection.fill_all_resources. destruct (String.eqb n ""); [keeps_tac|].
  apply keeps_bind; [|keeps_tac]. apply on_db_registered. intros f Hf. apply keeps_bind; [|intros; auto with keeps].
  apply find_fields_keeps; intros; apply Hf; [apply reconnect_touches|apply query_touches].
Qed.
Lemma check_provisioned_registered p d b : keeps registered (check_provisioned p d b).
Proof. unfold check_provisioned. keeps_tac. Qed.
Lemma get_service_json_registered t p : keeps registered (get_service_json database endpoint show t p).
Proof. unfold get_service_json. keeps_tac. Qed.
#[local] Hint Resolve deploy_registered duplicate_registered get_device_protocol_registered
  check_provisioned_registered get_service_json_registered : keeps.

(** From a state with the devices [l], a call that adds the device [i] if it
    returns, and at most that one if it does not. *)
Definition adds {A} (i : list (option bson)) (c : FM Admin A) : Prop := forall l,
  runs (fun a => registered a = l) c
    (fun r a => registered a = (l ++ [i])%list \/ (forall x, r <> Ret x) /\ registered a = l).

Lemma keeps_adds {A B} (c : FM Admin A) (k : A -> FM Admin B) i :
  keeps registered c -> (forall x, adds i (k x)) -> adds i (fmbind c k).
Proof. intros Hc Hk l. apply keeps_then; [done|intros; by apply Hk|..]; intros; right; by split. Qed.

Lemma adds_keeps {A B} (c : FM Admin A) (k : A -> FM Admin B) i :
  adds i c -> (forall x, keeps registered (k x)) -> adds i (fmbind c k).
Proof.
  intros Hc Hk l a a' r Ha E. unfold fmbind in E. destruct (c a) as [[a1 [x|e|]]|] eqn:E1; try done.
  - destruct (Hc l _ _ _ Ha E1) as [H1|[H1 _]]; [|by destruct (H1 x)]. left. rewrite <- H1. by eapply Hk.
  - injection E as <- <-. destruct (Hc l _ _ _ Ha E1) as [H1|[_ H1]]; [by left|by right].
  - injection E as <- <-. destruct (Hc l _ _ _ Ha E1) as [H1|[_ H1]]; [by left|by right].
Qed.

Lemma adds_throw {A} i e : adds (A := A) i (fthrow e).
Proof. intros l a a' r Ha [= <- <-]. by right. Qed.

Lemma insert_registered d : adds (identity d) (on_db (insert database endpoint show 2 Store.DEVICE_TABLE d 0)).
Proof.
  intros l a a' r Ha E. unfold on_db in E. destruct (insert _ _ _ _ _ _ _ _) as [[s x]|] eqn:Ec; [|done].
  injection E as <- <-. unfold registered, device_documents in *. cbn [a_database].
  destruct (insert_adds _ _ _ _ _ _ _ _ _ _ Ec) as [->|[Hr ->]].
  - left. by rewrite map_app, Ha.
  - right. split; [|done]. by intros [].
Qed.

Lemma store_device_adds n bo : adds (identity (bo ++ [(Store.SERVICE, BStr service);
                                                      (Store.SERVICE_PATH, BStr service_path)])%list)
  (store_device database endpoint show service service_path body n bo).
Proof.
  unfold store_device. apply keeps_adds; [auto with keeps|]. intros id. cbn zeta.
  apply keeps_adds; [auto with keeps|]. intros fresh. destruct (negb fresh); [apply adds_throw|].
  apply adds_keeps; [apply insert_registered|]. keeps_tac.
Qed.

Lemma with_plugin_commands_spec p bo a a' r : with_plugin_commands p bo a = Some (a', r) ->
  a' = a /\ match r with
             | Ret bo' => forall more, identity (bo' ++ more)%list = identity (bo ++ more)%list
             | _ => True
             end.
Proof.
  unfold with_plugin_commands. cbn zeta. destruct (String.eqb _ ""); [by intros [= <- <-]|].
  unfold fmbind, from_json, lift, flift. destruct (joinCommands _ _) as [t|e|] eqn:Et; [|by intros [= <- <-]..].
  destruct (fromjson t) as [d'|] eqn:Ed; intros [= <- <-]; [|done]. split; [done|]. intros more.
  by apply (Hmerge p bo t d').
Qed.

Lemma provision_adds bo plugin : adds (identity (bo ++ [(Store.SERVICE, BStr service);
                                                         (Store.SERVICE_PATH, BStr service_path)])%list)
  (match plugin with
   | None => fthrow (bad_protocol (getStringField bo Store.PROTOCOL_NAME))
   | Some p =>
       then! check_provisioned p (jsonString bo) true in
       act! bo' := with_plugin_commands p bo in
       store_device database endpoint show service service_path body (getStringField bo Store.PROTOCOL_NAME) bo'
   end).
Proof.
  destruct plugin as [p|]; [|apply adds_throw]. apply keeps_adds; [auto with keeps|]. intros _ l a a' r Ha E.
  unfold fmbind in E. destruct (with_plugin_commands p bo a) as [[a1 [bo'|x|]]|] eqn:E1; try done;
    apply with_plugin_commands_spec in E1 as [-> Hi]; [|injection E as <- <-; by right..].
  rewrite <- Hi. by eapply store_device_adds.
Qed.

Lemma post_device_posts e l : runs (fun a => registered a = l)
  (post_device database endpoint show service service_path body e)
  (fun r a => (exists i, posted e i /\ registered a = (l ++ [i])%list)
              \/ (forall x, r <> Ret x) /\ registered a = l).
Proof.
  unfold post_device. intros a a' r Ha E. unfold fmbind at 1, lift, flift in E.
  destruct (embeddedObject e) as [bo|x|] eqn:Eb; [|right; by injection E as <- <-..].
  destruct (keeps_adds _ _ _ (get_device_protocol_registered _ _ _) (provision_adds bo) l a a' r Ha E)
    as [H|H]; [|by right].
  left. eexists. split; [by exists bo|exact H].
Qed.

Lemma post_devices_post be last l : runs (fun a => registered a = l)
  (post_devices database endpoint show service service_path body be last)
  (fun r a => exists new, registered a = (l ++ new)%list
              /\ match r with
                 | Ret _ => Forall2 posted be new
                 | _ => exists k, Forall2 posted (take k be) new
                 end).
Proof.
  revert last l. induction be as [|e be IH]; intros last l a a' r Ha E; cbn [post_devices] in E.
  - injection E as <- <-. exists []. split; [by rewrite app_nil_r|constructor].
  - unfold fmbind in E. destruct (post_device _ _ _ _ _ _ e a) as [[a1 o]|] eqn:E1; [|done].
    destruct (post_device_posts _ _ _ _ _ Ha E1) as [(i & Hi & H1)|[Ho H1]].
    + destruct o as [x|x|].
      * destruct (IH _ _ _ _ _ H1 E) as (new & Hn & Hr). exists (i :: new).
        split; [by rewrite Hn, <- app_assoc|].
        destruct r as [y|y|]; [by constructor| |]; destruct Hr as [k Hk]; exists (S k); by constructor.
      * injection E as <- <-. exists [i]. split; [done|]. exists 1%nat. constructor; [done|constructor].
      * injection E as <- <-. exists [i]. split; [done|]. exists 1%nat. constructor; [done|constructor].
    + exists []. destruct o as [x|x|]; [by destruct (Ho x)|..]; injection E as <- <-;
        (split; [by rewrite app_nil_r|]); by exists 0%nat.
Qed.
End Posting.

(** The devices a request has added, by its outcome. *)
Definition added_by (service service_path body : string) (r : outcome (Z * response))
    (new : list (list (option bson))) : Prop :=
  new = [] /\ (forall x, r = Ret x -> fst x <> HTTP_CREATED)
  \/ exists obj be, fromjson body = Some obj /\ field_array obj Store.DEVICES = Ret be
     /\ match r with
        | Ret x => fst x = HTTP_CREATED /\ Forall2 (posted service service_path) be new
        | _ => exists k, Forall2 (posted service service_path) (take k be) new
        end.

End Devices.

(** ** Removing *)

Section Removing.
  Context `{HB : Boost} `{HM : Mongo} `{HC : Config} {L : MongoLaws HM} {HT : MongoTouches L}.
  Context {HPl : Plugins Database}.
  Context (database endpoint : string) (show : document -> string) (what : driver_exception -> string).

Local Abbreviation device_documents := (device_documents database).
Local Abbreviation delete_device_json := (AdminService.delete_device_json database endpoint show).
Local Abbreviation delete_service_json := (AdminService.delete_service_json database endpoint show what).

Definition service_documents (a : Admin) : list document :=
  docs (conn (a_database a)) (namespace database Store.SERVICE_TABLE).

(** The devices of an identifier, whatever their protocol. *)
Definition named_query (service service_path id : string) : document :=
  [(Store.DEVICE_ID, BStr id); (Store.SERVICE, BStr service); (Store.SERVICE_PATH, BStr service_path)].

Lemma append_str_some k v : v <> "" -> append_str k v = [(k, BStr v)].
Proof. intros H. unfold append_str. by destruct (String.eqb_spec v ""). Qed.

(** A plug-in of a protocol is not asked about a device without one. *)
Lemma undeploy_nothing d a :
  (forall r p, _service_manager a !! r = Some p -> pd_protocol (get_protocol_data p) <> _protocol d) ->
  undeploy_device d a = Some (a, Ret tt).
Proof.
  intros H. unfold undeploy_device, for_plugins, fmbind at 1, fmget.
  assert (Hl : forall r p, (r, p) ∈ entries (_service_manager a) -> pd_protocol (get_protocol_data p) <> _protocol d)
    by (intros r p Hp; apply (H r), elem_of_entries, Hp).
  induction (entries (_service_manager a)) as [|[k p] ps IH]; [done|]. cbn [fold_right snd].
  assert (Ep : of_protocol (_protocol d) p = false).
  { unfold of_protocol. destruct (String.eqb_spec (_protocol d) (pd_protocol (get_protocol_data p))) as [E|];
      [|apply andb_false_r]. symmetry in E. apply (Hl k) in E; [done|by left]. }
  rewrite Ep. unfold fmbind, fmcatch, fret. apply IH. intros r p' Hp. apply (Hl r). by right.
Qed.

Lemma remove_done fuel table q s m le : drv_remove (conn s) (namespace database table) q = (m, Done le) ->
  plain q = true ->
  exists al, remove database endpoint show (S fuel) table q 0 s
    = Some (mkDatabase m al, Ret (zlen (List.filter (matches q) (docs (conn s) (namespace database table))))).
Proof.
  intros E Hp. rewrite remove_S. cbn zeta. rewrite E. cbn [fst snd].
  destruct (remove_law _ _ _ _ _ Hp E) as (_ & -> & _). rewrite getLastError_ok. by eexists.
Qed.

(** C23. A device is removed by its identifier alone: the documents of every
    protocol go, 204 is answered also when there were none, and the plug-ins
    forget it in their caches; none of them is asked to unregister it, since
    the device that is built for them has no protocol. *)
Theorem device_removed (service service_path id : string) (r : response) (a : Admin) (m : db) (le : last_error)
    (Hs : service <> "") (Hp : service_path <> "") (Hi : id <> "")
    (Hno : forall k p, _service_manager a !! k = Some p -> pd_protocol (get_protocol_data p) <> "")
    (E : drv_remove (conn (a_database a)) (namespace database Store.DEVICE_TABLE)
           (named_query service service_path id) = (m, Done le)) :
  exists a' x, delete_device_json service service_path id r a = Some (a', Ret x)
    /\ fst x = HTTP_NO_CONTENT
    /\ device_documents a' = List.filter (fun d => negb (matches (named_query service service_path id) d))
                                (device_documents a)
    /\ a_plugins a' = fold_left (fun w p => remove_devices_from_cache (snd p)
                                             (named_device id service service_path "") w)
                         (entries (_service_manager a)) (a_plugins a).
Proof.
  destruct (remove_done 1 _ _ _ _ _ E eq_refl) as [al E2].
  eexists _, _. split; [|split; [|split]].
  - unfold AdminService.delete_device_json. cbn zeta. unfold fmbind at 1. rewrite undeploy_nothing by exact Hno.
    rewrite !append_str_some by done. cbn [app]. unfold fmbind at 1, on_db at 1. unfold named_query in E2. rewrite E2. reflexivity.
  - done.
  - unfold device_documents. cbn [a_database conn].
    by destruct (remove_law _ _ _ _ _ (eq_refl : plain (named_query service service_path id) = true) E) as (<- & _).
  - done.
Qed.

(** ** Removing a service *)

(** The services of a path, and those of them a request names. *)
Definition path_query (service service_path : string) : document :=
  [(Store.SERVICE_ID, BStr service); (Store.SERVICE_PATH, BStr service_path)].
Definition removal_query (service service_path apikey resource : string) : document :=
  ((Store.SERVICE_ID, BStr service) :: append_str Store.APIKEY apikey ++ append_str Store.RESOURCE resource
   ++ [(Store.SERVICE_PATH, BStr service_path)])%list.

Lemma matches_app q q' d : matches (q ++ q')%list d = matches q d && matches q' d.
Proof. apply forallb_app. Qed.

Lemma removal_path service path apikey resource d :
  matches (removal_query service path apikey resource) d = true -> matches (path_query service path) d = true.
Proof.
  unfold removal_query, path_query. rewrite !matches_cons, !matches_app, ?matches_cons, !andb_true_iff. tauto.
Qed.

Lemma zlen_filter_both {A} (f g : A -> bool) l : (forall x, f x = true -> g x = true) ->
  zlen (List.filter g l) - zlen (List.filter f l) = zlen (List.filter g (List.filter (fun x => negb (f x)) l)).
Proof.
  intros H. induction l as [|x l IH]; [done|]. cbn. destruct (f x) eqn:Ef; cbn.
  - rewrite (H x Ef), !zlen_cons. lia.
  - destruct (g x); rewrite ?zlen_cons; lia.
Qed.

Lemma filter_none_exists {A} (g : A -> bool) l : (zlen (List.filter g l) =? 0) = negb (existsb g l).
Proof.
  induction l as [|x l IH]; [done|]. cbn. destruct (g x); [|done]. rewrite zlen_cons.
  pose proof (zlen_nonneg (List.filter g l)). apply Z.eqb_neq. lia.
Qed.

Lemma removal_plain service path apikey resource : plain (removal_query service path apikey resource) = true.
Proof.
  unfold removal_query, append_str. by destruct (String.eqb apikey ""), (String.eqb resource "").
Qed.

(** Announcing the services to the manager leaves the tables alone. *)
Definition plugins_announce : Prop := forall p ns,
  keeps (fun w : Database * plugins => docs (conn (fst w)) ns) (plugin_register_iota_manager p).

Lemma announce_docs (Hpl : plugins_announce) ns :
  keeps (fun a : Admin => docs (conn (a_database a)) ns) register_iota_manager.
Proof.
  unfold register_iota_manager, for_plugins. apply keeps_bind; [auto with keeps|]. intros a.
  induction (entries (_service_manager a)) as [|p ps IH]; cbn [fold_right]; keeps_tac.
  intros a1 a2 r E. unfold on_plugins in E.
  destruct (plugin_register_iota_manager _ _) as [[w x]|] eqn:Ec; [|done]. injection E as <- <-.
  exact (Hpl _ ns _ _ _ Ec).
Qed.

Lemma announce_end (Hpl : plugins_announce) c r a a' x :
  (then! register_iota_manager in respond c "" "" r) a = Some (a', Ret x) ->
  fst x = c /\ forall ns, docs (conn (a_database a')) ns = docs (conn (a_database a)) ns.
Proof.
  unfold fmbind. destruct (register_iota_manager a) as [[a1 [u|e|]]|] eqn:E; try done. intros [= <- <-].
  split; [done|]. intros ns. by apply (announce_docs Hpl ns) in E.
Qed.

Lemma on_db_ret {A} (c : FM Database A) a d y :
  c (a_database a) = Some (d, Ret y) -> on_db c a = Some (mkAdmin (_service_manager a) d (a_plugins a), Ret y).
Proof. intros E. unfold on_db. by rewrite E. Qed.

Lemma count_step table q m n s : drv_count (conn s) (namespace database table) q = (m, Done n) ->
  count database endpoint show what table q s = Some (mkDatabase m (alarms s), Ret n).
Proof. intros E. unfold count. rewrite call_bind, E. reflexivity. Qed.

Lemma two_tables : namespace database Store.SERVICE_TABLE <> namespace database Store.DEVICE_TABLE.
Proof. unfold namespace. intros Heq. apply str_app_inj_l in Heq. discriminate Heq. Qed.

(** The end of a removal: the devices go if they must, and the services are
    announced. *)
Lemma removal_end (Hpl : plugins_announce) (b : bool) q c r a a' x m le :
  plain q = true ->
  drv_remove (conn (a_database a)) (namespace database Store.DEVICE_TABLE) q = (m, Done le) ->
  (then! (if b then then! on_db (remove database endpoint show 2 Store.DEVICE_TABLE q 0) in fret tt else fret tt) in
   then! register_iota_manager in respond c "" "" r) a = Some (a', Ret x) ->
  fst x = c /\ service_documents a' = service_documents a
  /\ device_documents a' = if b then List.filter (fun d => negb (matches q d)) (device_documents a)
                           else device_documents a.
Proof.
  intros Hq Er E. unfold service_documents, device_documents. destruct b.
  - destruct (remove_done 1 _ _ _ _ _ Er Hq) as [al R]. destruct (remove_law _ _ _ _ _ Hq Er) as (Hd & _ & Ho).
    erewrite fmbind_ret in E by (erewrite fmbind_ret by (apply on_db_ret; exact R); reflexivity).
    cbn beta in E. apply (announce_end Hpl) in E as [Hx Hn]. split; [done|]. rewrite !Hn. cbn [a_database conn].
    split; [by apply Ho, two_tables|done].
  - unfold fmbind at 1, fret at 1 in E. cbn beta iota in E. apply (announce_end Hpl) in E as [Hx Hn].
    by rewrite !Hn.
Qed.

(** C15. A service is removed with its devices when no service of the path is left:
    then, and only then, the devices of the path go too.  The code tells by
    the number of services before and the number it removed. *)
Theorem service_removed (service service_path apikey resource : string) (r : response) (a a' : Admin)
    (x : Z * response) (m1 m2 m3 : db) (n : Z) (le2 le3 : last_error)
    (Hs : service <> "") (Hp : starts_with_slash service_path = true) (Hall : all_paths service_path = false)
    (Hpl : plugins_announce)
    (E1 : drv_count (conn (a_database a)) (namespace database Store.SERVICE_TABLE) (path_query service service_path)
          = (m1, Done n))
    (E2 : drv_remove m1 (namespace database Store.SERVICE_TABLE)
            (removal_query service service_path apikey resource) = (m2, Done le2))
    (E3 : drv_remove m2 (namespace database Store.DEVICE_TABLE) (path_query service service_path) = (m3, Done le3))
    (E : delete_service_json service service_path service apikey resource true r a = Some (a', Ret x)) :
  fst x = HTTP_NO_CONTENT
  /\ service_documents a' = List.filter (fun d => negb (matches (removal_query service service_path apikey resource) d))
                              (service_documents a)
  /\ device_documents a'
     = if existsb (matches (path_query service service_path)) (service_documents a')
       then device_documents a
       else List.filter (fun d => negb (matches (path_query service service_path) d)) (device_documents a).
Proof.
  set (q1 := path_query service service_path) in *. set (q2 := removal_query service service_path apikey resource) in *.
  assert (Hq1 : plain q1 = true) by reflexivity.
  assert (Hq2 : plain q2 = true) by (apply removal_plain).
  pose proof (count_done _ _ _ _ _ Hq1 E1) as Hn.
  pose proof (count_touches (conn (a_database a)) (namespace database Store.SERVICE_TABLE) q1) as Hd1.
  rewrite E1 in Hd1. cbn [fst] in Hd1.
  destruct (remove_law _ _ _ _ _ Hq2 E2) as (Hd2 & _ & Hd2'). destruct (remove_law _ _ _ _ _ Hq1 E3) as (Hd3 & _ & Hd3').
  unfold AdminService.delete_service_json in E. apply String.eqb_neq in Hs. rewrite Hs, Hp, Hall in E. cbn [negb] in E.
  unfold fmbind at 1 2 in E. cbn beta iota zeta delta [fret] in E. fold q1 q2 in E.
  erewrite fmbind_ret in E by (apply on_db_ret, count_step, E1). cbn beta in E.
  destruct (remove_done 1 Store.SERVICE_TABLE q2 (mkDatabase m1 (alarms (a_database a))) m2 le2 E2 Hq2) as [al2 R2].
  erewrite fmbind_ret in E by (apply on_db_ret; exact R2). cbn beta in E. cbn [conn] in E.
  rewrite Hd1 in Hd2, Hd2', E. rewrite Hn, (zlen_filter_both (matches q2) (matches q1)), andb_true_r in E
    by (intros d; apply removal_path).
  rewrite <- Hd2, filter_none_exists in E.
  eapply (removal_end Hpl) in E; [|exact Hq1|exact E3]. destruct E as (Hx & Hsv & Hdv). split; [done|].
  unfold service_documents, device_documents in *. cbn [a_database conn] in Hsv, Hdv. split; [by rewrite Hsv|].
  rewrite Hdv, Hsv, (Hd2' (namespace database Store.DEVICE_TABLE)) by (apply not_eq_sym, two_tables).
  by destruct (existsb _ _).
Qed.
End Removing.
