(* ===== verification/AdminExample.v ===== *)
(** * A small administration

    Two tenants, one plug-in and the reference database: an instance of each
    parameter of [AdminService], on which the theorems of [AdminSpec] and
    [AdminDevices] apply. *)
From stdpp Require Import base tactics list gmap strings.
From Stdlib Require Import ZArith Lia Ascii String.
From S2P Require Import Prelude CppString StdMap Boost Types Alarm IoTUrl Json Bson Collection MultiIndex Device DeviceCollection Configurator Filters ServiceTables.
From S2P Require Import AdminService CollectionSpec AdminSpec AdminDevices.

Local Open Scope string_scope.
Local Open Scope Z_scope.

Local Existing Instance boost_reference.
Local Existing Instance mongo_reference.
Local Existing Instance mongo_reference_laws.
Local Existing Instance mongo_reference_touches.
Local Existing Instance mongo_reference_user.
Local Existing Instance bson_reader_reference.

(** The bodies of the requests: two devices, the second of an unknown
    protocol; a service; an update. *)
Definition two_devices : document :=
  [("devices", BArr [BObj [("device_id", BStr "d1"); ("protocol", BStr "ul")];
                     BObj [("device_id", BStr "d2"); ("protocol", BStr "none")]])].
Definition one_service : document := [("services", BArr [BObj [("resource", BStr "/ul")]])].
Definition an_update : document := [("entity_name", BStr "room")].

#[local] Instance admin_json : BsonJson := {|
  jsonString _ := "{}";
  fromjson text := if String.eqb text "devices" then Some two_devices
                   else if String.eqb text "services" then Some one_service
                   else if String.eqb text "update" then Some an_update else None;
  numberLong _ _ := 0
|}.

#[local] Instance admin_config : Config := {|
  config_get _ := Ret (JObject [("type", JString "mongodb")]);
  config_get_map _ := Ret ∅;
  getService _ name _ := Throw (RuntimeError name);
  getServicebyApiKey _ key := Throw (RuntimeError key);
  getAllServicePath _ _ := Ret [];
  getResourceObject _ := Throw (RuntimeError "resource");
  getHttpMessage _ := "";
  listen_ip := "10.0.0.1"; listen_port := 8080; iotagent_name := "iota"; iotagent_identifier := ""
|}.

(** A plug-in, by its protocol; its state is the devices it was told to
    forget. *)
#[local] Instance admin_plugins : Plugins Database := {|
  plugin := string;
  plugins := list string;
  get_protocol_data p := mkProtocolData p p;
  is_command_handle _ := true;
  check_provisioned_data _ _ := (200, "");
  get_protocol_commands _ := "";
  remove_devices_from_cache _ d forgotten := (forgotten ++ [_name d])%list;
  send_register_device _ _ := fret tt;
  unregister _ _ := fret tt;
  plugin_register_iota_manager _ := fret tt
|}.

Definition accept_all (_ _ : string) : option string := None.
Definition no_text {A} (_ : A) : string := "".

(** The tables: a service and a device of each tenant. *)
Definition admin_tables : db := fun ns =>
  if String.eqb ns "iot.SERVICE" then
    [[("service", BStr "s1"); ("service_path", BStr "/"); ("resource", BStr "/ul")];
     [("service", BStr "s2"); ("service_path", BStr "/"); ("resource", BStr "/ul")]]
  else if String.eqb ns "iot.DEVICE" then
    [[("device_id", BStr "d0"); ("protocol", BStr "ul"); ("service", BStr "s1"); ("service_path", BStr "/")];
     [("device_id", BStr "d0"); ("protocol", BStr "ul"); ("service", BStr "s2"); ("service_path", BStr "/")]]
  else [].

#[local] Notation admin_state := (mkAdmin (HM := mongo_reference) (HPl := admin_plugins) {["/ul" := "ul"]} (mkDatabase admin_tables ∅) (@nil string)).
#[local] Notation empty_response := (mkResponse 200 "" [] "").
#[local] Notation removal := (mkRequest "DELETE" "/devices/d0" ""
  (fun name => if String.eqb name "Fiware-Service" then Some "s1" else None)).

Lemma fromjson_cases text d : fromjson text = Some d -> d = two_devices \/ d = one_service \/ d = an_update.
Proof. cbn. repeat destruct (String.eqb text _); intros [= <-]; auto. Qed.

Lemma accepted_elements name : elements_without_service accept_all "" name.
Proof.
  intros body obj es e d _ Ho Ha He Hd.
  apply fromjson_cases in Ho as [ -> | [ -> | -> ]]; unfold field_array, two_devices, one_service, an_update in Ha;
    cbn [field] in Ha;
    repeat match type of Ha with context [String.eqb ?k name] => destruct (String.eqb k name) end; try done;
    injection Ha as <-;
    repeat (apply elem_of_cons in He as [->|He]; [by injection Hd as <-|]); by apply elem_of_nil in He.
Qed.

Lemma accepted_fields : fields_without_service accept_all "".
Proof. intros body obj _ Ho. by apply fromjson_cases in Ho as [ -> | [ -> | -> ]]. Qed.

Lemma plugins_settled : plugins_settle.
Proof. intros p d. repeat split; by apply settles_ret. Qed.

Lemma storage_is_mongo : storage_typed.
Proof. by eexists _, _, _. Qed.



#[local] Notation post_two := (AdminService.post_device_json "iot" "h" no_text accept_all "" "" "s1" "/" "devices"
  empty_response).
#[local] Notation after_post := (mkAdmin (HM := mongo_reference) (HPl := admin_plugins) {["/ul" := "ul"]}
  (mkDatabase (fst (drv_insert admin_tables "iot.DEVICE"
     [("device_id", BStr "d1"); ("protocol", BStr "ul"); ("service", BStr "s1"); ("service_path", BStr "/")])) ∅) (@nil string)).

Lemma two_posted : post_two admin_state = Some (after_post, Throw (bad_protocol "none")).
Proof. vm_compute. reflexivity. Qed.


Lemma device_removed_witness :
  "s1" <> "" /\ "/" <> "" /\ "d0" <> ""
  /\ (forall k p, ({["/ul" := "ul"]} : gmap string string) !! k = Some p -> p <> "")
  /\ exists a' x, AdminService.delete_device_json "iot" "h" no_text "s1" "/" "d0" empty_response admin_state
                    = Some (a', Ret x)
     /\ fst x = 204
     /\ device_documents "iot" a'
        = [[("device_id", BStr "d0"); ("protocol", BStr "ul"); ("service", BStr "s2"); ("service_path", BStr "/")]]
     /\ a_plugins a' = ["d0"].
Proof.
  assert (Hno : forall k p, ({["/ul" := "ul"]} : gmap string string) !! k = Some p -> p <> "")
    by (intros k p [_ <-]%lookup_singleton_Some; discriminate).
  do 3 (split; [discriminate|]). split; [exact Hno|].
  destruct (device_removed "iot" "h" no_text "s1" "/" "d0" empty_response admin_state
    (fst (drv_remove admin_tables "iot.DEVICE" (named_query "s1" "/" "d0"))) (no_error 1)
    ltac:(discriminate) ltac:(discriminate) ltac:(discriminate) Hno eq_refl) as (a' & x & E & Ex & Ed & Ep).
  exists a', x. split; [exact E|]. split; [exact Ex|]. split; [exact Ed|exact Ep].
Defined.

#[local] Notation after_removal := (mkAdmin (HM := mongo_reference) (HPl := admin_plugins) {["/ul" := "ul"]}
  (mkDatabase (fst (drv_remove
     (fst (drv_remove admin_tables "iot.SERVICE" (removal_query "s1" "/" "" "/ul"))) "iot.DEVICE" (path_query "s1" "/"))) ∅) (@nil string)).

#[local] Notation remove_service := (AdminService.delete_service_json "iot" "h" no_text no_text "s1" "/" "s1" "" "/ul"
  true empty_response).

Lemma service_gone : remove_service admin_state = Some (after_removal, Ret (204, mkResponse 204 "" [] "")).
Proof. vm_compute. reflexivity. Qed.

Lemma service_removed_witness :
  "s1" <> "" /\ starts_with_slash "/" = true /\ all_paths "/" = false /\ plugins_announce
  /\ device_documents "iot" after_removal
     = [[("device_id", BStr "d0"); ("protocol", BStr "ul"); ("service", BStr "s2"); ("service_path", BStr "/")]].
Proof.
  assert (Ha : plugins_announce) by (intros p ns; apply keeps_ret).
  split; [discriminate|]. split; [reflexivity|]. split; [reflexivity|]. split; [exact Ha|].
  destruct (service_removed "iot" "h" no_text no_text "s1" "/" "" "/ul" empty_response admin_state after_removal
    (204, mkResponse 204 "" [] "") admin_tables
    (fst (drv_remove admin_tables "iot.SERVICE" (removal_query "s1" "/" "" "/ul")))
    (fst (drv_remove (fst (drv_remove admin_tables "iot.SERVICE" (removal_query "s1" "/" "" "/ul"))) "iot.DEVICE"
            (path_query "s1" "/"))) 1 (no_error 1) (no_error 1)
    ltac:(discriminate) eq_refl eq_refl Ha eq_refl eq_refl eq_refl service_gone) as (_ & _ & Hd).
  etransitivity; [exact Hd|]. vm_compute. reflexivity.
Defined.
