(* ===== verification/AdminMgmt.v ===== *)
(** * The administration of the manager: [src/src/services/admin_mgmt_service.cc]

    The manager keeps which agents serve each protocol and service, and sends
    the requests on devices and services to them: what it asks each agent, how
    it puts their answers together, and the registrations of the agents.  The
    network is the class [Network]; [AdminManagerService] derives from
    [AdminService], whose responses and configuration checks it uses. *)
From stdpp Require Import base tactics list gmap strings.
From Stdlib Require Import ZArith Lia Ascii String.
From S2P Require Import Prelude CppString StdMap Boost Types Alarm FuncUtil IoTUrl Json Bson Collection DeviceCollection Configurator CbComm Filters ServiceTables.
From S2P Require Import AdminService.

Local Open Scope string_scope.
Local Open Scope Z_scope.

(** [DeviceToBeAdded] *)
Record DeviceToBeAdded : Type := mkDeviceToBeAdded { _device_json : string; _endpoint : string }.

(** A member of an object, as text. *)
Definition quoted (s : string) : string := String "034" (s ++ String "034" "").

(** [create_request] *)
Definition create_request `{Boost} (method resource query content x_auth_token request_identifier service service_path
    host : string) (port : Z) : http_request :=
  mkHttpRequest method host port resource query content
    (if String.eqb content "" then "" else IOT_CONTENT_TYPE_JSON)
    ((IOT_HTTP_HEADER_ACCEPT, IOT_CONTENT_TYPE_JSON)
     :: (if String.eqb x_auth_token "" then [] else [(IOT_HTTP_HEADER_AUTH, x_auth_token)])
     ++ [(HEADER_TRACE_MESSAGES, request_identifier); (FIWARE_SERVICE, service);
         (FIWARE_SERVICEPATH, service_path); (HEADER_HOST, host ++ ":" ++ lexical_cast (port mod 2 ^ 16))%string])%list.

(** [error_manager]: what an agent answered, quoted when it is not JSON. *)
Definition error_manager `{Boost} `{Rapidjson} (code : Z) (message : string) : string :=
  quoted IOT_MANAGER_ERRORS_CODE ++ ": " ++ quoted (lexical_cast code) ++ "," ++ quoted IOT_MANAGER_ERRORS_DETAILS
    ++ ": " ++ match json_parse (c_string message) with
               | None => quoted message
               | Some _ => message
               end.

(** [add_errors_to_response]: the errors are a member of the last object of
    the response, or of a new one. *)
Definition errors_text `{Boost} (nok : gmap string string) : string :=
  match entries nok with
  | [] => ""
  | es =>
      erase_all (quoted IOT_MANAGER_ERRORS ++ ": ["
        ++ String.concat "," (map (fun e => "{" ++ quoted IOT_MANAGER_ERRORS_ENDPOINT ++ ": " ++ quoted (fst e) ++ ","
                                              ++ snd e ++ "}") es)
        ++ "]") "010"
  end.

Definition add_errors_to_response `{Boost} (response : string) (nok : gmap string string) : string :=
  let errors := errors_text nok in
  if String.eqb errors "" then response
  else if String.eqb response "" then "{" ++ errors ++ "}"
  else
    match find_last_of "}" response with
    | Some pos => str_take pos response ++ "," ++ errors ++ str_drop pos response
    | None => errors ++ response
    end.

(** The code of a request that several agents were sent: that of all of them,
    that of none, or 200 with the errors of some. *)
Definition outcome_code (all none : Z) (ok : gmap string string) (response : string) : Z :=
  if Nat.eqb (base.size ok) 0 then none
  else if negb (String.eqb response "") then RESPONSE_CODE_OK else all.

Section Manager.
  Context `{HB : Boost} `{HM : Mongo} `{HR : BsonReader} `{HBJ : BsonJson} `{HJ : Rapidjson} `{HC : Config}
    `{HN : Network}.
  Context (database endpoint : string) (show : document -> string) (what : driver_exception -> string)
    (std_what : exn -> string).
  Context (lexical_cast_int : string -> option Z).
  Context (validate_json_schema : string -> string -> option string).
  Context (_PUT_DEVICE_SCHEMA _POST_PROTOCOL_SCHEMA _POST_SERVICE_SCHEMA _PUT_SERVICE_SCHEMA : string).
  (** [pion::algorithm::url_encode], and the text of a [PrettyWriter] *)
  Context (url_encode : string -> string) (pretty : list event -> string).
  (** whether [woCompare] of two documents is 0 *)
  Context (same_object : document -> document -> bool).
  Context (_timeout : Z).

(** The tables with the alarms of the process, and the outside. *)
Record Manager : Type := mkManager { g_database : Database; g_network : network }.

Definition on_tables {A} (c : FM Database A) : FM Manager A := fun g =>
  match c (g_database g) with
  | Some (d, r) => Some (mkManager d (g_network g), r)
  | None => None
  end.
Definition on_alarms (f : gmap string string -> gmap string string) : FM Manager unit :=
  fmmodify (fun g => mkManager (mkDatabase (conn (g_database g)) (f (alarms (g_database g)))) (g_network g)).

(** ** Agents *)

Definition error_message (r : exchange_result) : string := default "Success" (snd <$> ex_error r).

(** [check_alarm]: the code of an answer, -1 without one, and the alarm of the
    agent. *)
Definition check_alarm (r : exchange_result) : FM Manager Z :=
  match ex_response r, ex_error r with
  | Some resp, None =>
      then! on_alarms (fun m => Alarm.remove m ALARM_CODE_NO_IOTA (ex_endpoint r) ERROR (error_message r)) in
      fret (rs_code resp)
  | _, _ =>
      then! on_alarms (fun m => Alarm.put m ALARM_CODE_NO_IOTA (ex_endpoint r) ERROR (error_message r)) in
      fret (-1)
  end.

(** A request to an agent: the code, and what it answered or the error. *)
Definition send_to (request : http_request) : FM Manager (Z * string) :=
  act! g := fmget in
  let '(n, r) := exchange (g_network g) request _timeout "" in
  then! fmmodify (fun g => mkManager (g_database g) n) in
  act! code_i := check_alarm r in
  fret (code_i, if code_i =? -1 then error_message r
                else match ex_response r with Some resp => rs_content resp | None => "" end).

(** The handlers of [std::exception&]. *)
Definition on_std {A} (c : FM Manager A) (h : exn -> FM Manager A) : FM Manager A :=
  fmcatch c (fun e => match e with ThrownPointer => fthrow e | _ => h e end).

Definition no_iota_alarm (url : string) (e : exn) : FM Manager unit :=
  on_alarms (fun m => Alarm.put m ALARM_CODE_NO_IOTA url ERROR (std_what e)).

(** [operation_device_iotagent] *)
Definition operation_device_iotagent (url_iotagent body service sub_service x_auth_token method : string)
    : FM Manager (Z * string) :=
  on_std
    (act! dest := lift (new_IoTUrl url_iotagent) in
     send_to (mkHttpRequest method (_host dest) (_port dest) (_path dest) (_query dest) body IOT_CONTENT_TYPE_JSON
       ([(IOT_HTTP_HEADER_ACCEPT, IOT_CONTENT_TYPE_JSON); (HEADER_HOST, _host dest); (FIWARE_SERVICE, service);
         (FIWARE_SERVICEPATH, sub_service)]
        ++ (if String.eqb x_auth_token "" then [] else [(IOT_HTTP_HEADER_AUTH, x_auth_token)]))%list))
    (fun e => then! no_iota_alarm url_iotagent e in fret (-1, "")).

(** ** Devices *)

(** The agents of a service; without limit and offset there must be some. *)
Definition get_iotagents (service service_path protocol_id : string) (limit skip : Z) : FM Manager (list string) :=
  on_tables (ServiceMgmtCollection.get_iotagents_by_service database endpoint show what service service_path
    protocol_id limit skip).

(** What is left to ask when agents are asked for a page one after the other,
    and what they have answered. *)
Record paging : Type := mkPaging {
  limitI : Z;
  offsetI : Z;
  total_count : Z;
  found_devices : list bson;
  errors_of : gmap string string
}.

Definition page_error (url : string) (code : Z) (message : string) (p : paging) : paging :=
  mkPaging (limitI p) (offsetI p) (total_count p) (found_devices p)
    (emplace (errors_of p) url (error_manager code message)).

(** The limit and the offset for the next agent, after one with [countI]
    devices. *)
Definition next_page (limit offset countI : Z) : Z * Z :=
  let '(offset', countI) :=
    if 0 <? offset then
      if countI <? offset then (offset - countI, countI) else (0, countI - offset)
    else (offset, countI) in
  (if 0 <? limit then if countI <? limit then limit - countI else -1 else limit, offset').

(** The request for a page of the devices of an agent; the parameters are in
    the order of the multimap. *)
Definition devices_request (dest : IoTUrl) (service service_path detailed entity protocol_filter x_auth_token
    request_identifier : string) (limit offset : Z) : http_request :=
  create_request "GET" (_path dest ++ ADMIN_SERVICE_DEVICES)
    (make_query_string url_encode
       [(Store.DETAILED, detailed); (Store.ENTITY, entity); (Store.LIMIT, lexical_cast limit);
        (Store.OFFSET, lexical_cast offset); (Store.PROTOCOL, protocol_filter)])
    "" x_auth_token request_identifier service service_path (_host dest) (_port dest).

(** The devices in the answer of an agent. *)
Definition add_page (url text : string) (p : paging) : FM Manager paging :=
  match fromjson text with
  | None => fret (page_error url (-1) (std_what (RuntimeError "fromjson")) p)
  | Some obj_mongo =>
      let countI := getIntField obj_mongo Store.COUNT in
      let p := mkPaging (limitI p) (offsetI p) (total_count p + countI) (found_devices p) (errors_of p) in
      match field_array obj_mongo Store.DEVICES with
      | Ret devices =>
          let '(limit, offset) := next_page (limitI p) (offsetI p) countI in
          fret (mkPaging limit offset (total_count p) (found_devices p ++ devices)%list (errors_of p))
      | Throw e => fret (page_error url (-1) (std_what e) p)
      | Undefined => lift Undefined
      end
  end.

(** The agents, one after the other. *)
Fixpoint ask_pages (service service_path detailed entity protocol_filter x_auth_token request_identifier : string)
    (all_dest : list string) (p : paging) : FM Manager paging :=
  match all_dest with
  | [] => fret p
  | url :: rest =>
      act! p :=
        on_std
          (act! dest := lift (new_IoTUrl url) in
           act! answer := send_to (devices_request dest service service_path detailed entity protocol_filter
                                     x_auth_token request_identifier (limitI p) (offsetI p)) in
           if fst answer =? RESPONSE_CODE_OK then add_page url (snd answer) p
           else fret (page_error url (fst answer) (snd answer) p))
          (fun e => fret (page_error url (-1) (std_what e) p)) in
      ask_pages service service_path detailed entity protocol_filter x_auth_token request_identifier rest p
  end.

Definition with_body (body : string) (r : response) : response :=
  mkResponse (rsp_code r) (rsp_message r) (rsp_headers r) body.

(** The devices of several agents, as a response. *)
Definition devices_answer (count : Z) (devices : list bson) (nok : gmap string string) (r : response)
    : FM Manager (Z * response) :=
  let body := jsonString [("count", BNum count); (Store.DEVICES, BArr devices)] in
  respond RESPONSE_CODE_OK "" "" (with_body (add_errors_to_response body nok) r).

Definition get_all_devices_json (service service_path : string) (limit offset : Z)
    (detailed entity request_identifier x_auth_token protocol_filter : string) (r : response)
    : FM Manager (Z * response) :=
  if negb (String.eqb detailed "") && negb (String.eqb detailed Store.ON) && negb (String.eqb detailed Store.OFF)
  then respond RESPONSE_CODE_BAD_REQUEST RESPONSE_MESSAGE_BAD_REQUEST "parameter detailed must be on or off" r
  else
    act! all_dest := fmcatch (get_iotagents service service_path protocol_filter 0 0)
                       (fun e => match e with IotaException _ _ _ => fret [] | _ => fthrow e end) in
    act! p := ask_pages service service_path detailed entity protocol_filter x_auth_token request_identifier all_dest
                (mkPaging limit offset 0 [] ∅) in
    devices_answer (total_count p) (found_devices p) (errors_of p) r.

(** The agents are asked for a device: what each answered, and the errors. *)
Fixpoint ask_device (service service_path device_id x_auth_token request_identifier : string)
    (all_dest : list string) (answers : gmap string string * gmap string string)
    : FM Manager (gmap string string * gmap string string) :=
  match all_dest with
  | [] => fret answers
  | url :: rest =>
      let nok code message := (fst answers, emplace (snd answers) url (error_manager code message)) in
      act! answers :=
        on_std
          (act! dest := lift (new_IoTUrl url) in
           act! answer := send_to (create_request "GET" (_path dest ++ ADMIN_SERVICE_DEVICES ++ "/" ++ device_id)
                                     (make_query_string url_encode []) "" x_auth_token request_identifier
                                     service service_path (_host dest) (_port dest)) in
           fret (if fst answer =? RESPONSE_CODE_OK then (emplace (fst answers) url (snd answer), snd answers)
                 else nok (fst answer) (snd answer)))
          (fun e => fret (nok (-1) (std_what e))) in
      ask_device service service_path device_id x_auth_token request_identifier rest answers
  end.

Definition get_a_device_json (service service_path device_id request_identifier x_auth_token protocol_filter : string)
    (r : response) : FM Manager (Z * response) :=
  act! all_dest := get_iotagents service service_path protocol_filter LIMIT_MAX 0 in
  act! answers := ask_device service service_path device_id x_auth_token request_identifier all_dest (∅, ∅) in
  let devices := omap (fun e => let text := trim (snd e) in
                                if String.eqb text "" then None else BObj <$> fromjson text) (entries (fst answers)) in
  devices_answer (Z.of_nat (List.length devices)) devices (snd answers) r.

(** A request for each agent: what those that gave [expected] answered, by URL,
    and the errors of the others. *)
Fixpoint operate_each (method service sub_service x_auth_token : string) (expected : Z)
    (requests : list (string * string)) (answers : gmap string string * gmap string string)
    : FM Manager (gmap string string * gmap string string) :=
  match requests with
  | [] => fret answers
  | (url_endpoint, content) :: rest =>
      act! answer := operation_device_iotagent url_endpoint content service sub_service x_auth_token method in
      let answers :=
        if fst answer =? expected then (emplace (fst answers) url_endpoint (snd answer), snd answers)
        else (fst answers, emplace (snd answers) url_endpoint (error_manager (fst answer) (snd answer))) in
      operate_each method service sub_service x_auth_token expected rest answers
  end.

(** The code for a request that went to several agents, and its response. *)
Definition operate (method service sub_service x_auth_token : string) (expected none : Z)
    (requests : list (string * string)) (response : string) : FM Manager (Z * string) :=
  act! answers := operate_each method service sub_service x_auth_token expected requests (∅, ∅) in
  let response := add_errors_to_response response (snd answers) in
  fret (outcome_code expected none (fst answers) response, response).

Definition post_multiple_devices (v_devices_endpoint_in : list DeviceToBeAdded)
    (service sub_service x_auth_token : string) : FM Manager (Z * string) :=
  operate "POST" service sub_service x_auth_token HTTP_CREATED HTTP_SERVER_ERROR
    (map (fun dev => (_endpoint dev ++ ADMIN_SERVICE_DEVICES,
                      "{" ++ quoted Store.DEVICES ++ ":[" ++ _device_json dev ++ "]}")) v_devices_endpoint_in) "".

Definition delete_multiple_devices (v_devices_endpoint_in : list DeviceToBeAdded)
    (device_id service sub_service x_auth_token response : string) : FM Manager (Z * string) :=
  operate "DELETE" service sub_service x_auth_token HTTP_NO_CONTENT 404
    (map (fun dev => (_endpoint dev ++ ADMIN_SERVICE_DEVICES ++ "/" ++ url_encode device_id, ""))
       v_devices_endpoint_in) response.

Definition put_multiple_devices (v_devices_endpoint_in : list DeviceToBeAdded)
    (device_id service sub_service protocol x_auth_token response : string) : FM Manager (Z * string) :=
  operate "PUT" service sub_service x_auth_token HTTP_NO_CONTENT 404
    (map (fun dev => (_endpoint dev ++ ADMIN_SERVICE_DEVICES ++ "/" ++ url_encode device_id
                        ++ (if String.eqb protocol "" then "" else "?protocol=" ++ url_encode protocol),
                      _device_json dev)) v_devices_endpoint_in) response.

Definition bad_request (details : string) : exn :=
  IotaException RESPONSE_MESSAGE_BAD_REQUEST details RESPONSE_CODE_BAD_REQUEST.

(** The response of a request that went to several agents. *)
Definition answer_with (r : response) (answer : Z * string) : FM Manager (Z * response) :=
  respond (fst answer) "" "" (with_body (snd answer) r).

Definition missing_path (service service_path : string) : bool := String.eqb service "" || String.eqb service_path "".

Definition missing_protocol : exn :=
  IotaException RESPONSE_MESSAGE_MISSING_PARAMETER "protocol parameter is mandatory" RESPONSE_CODE_BAD_REQUEST.

Definition delete_device_json (service service_path id_device token protocol : string) (r : response)
    : FM Manager (Z * response) :=
  if String.eqb protocol "" then fthrow missing_protocol
  else if missing_path service service_path then fthrow (bad_request "Service or Service path are missing")
  else
    act! v_endpoint := get_iotagents service service_path protocol 0 0 in
    act! answer := delete_multiple_devices (map (mkDeviceToBeAdded "") v_endpoint) id_device service service_path token
                     (rsp_body r) in
    answer_with r answer.

Definition put_device_json (service service_path device_id body token protocol : string) (r : response)
    : FM Manager (Z * response) :=
  if missing_path service service_path then fthrow (bad_request "Service or Service path are missing")
  else if String.eqb body "" then fthrow (bad_request "Body is missing")
  else if String.eqb protocol "" then fthrow missing_protocol
  else
    match validate_json_schema body _PUT_DEVICE_SCHEMA with
    | Some error_details => fthrow (bad_request error_details)
    | None =>
        act! v_endpoint := get_iotagents service service_path protocol 0 0 in
        act! answer := put_multiple_devices (map (mkDeviceToBeAdded body) v_endpoint) device_id service service_path
                         protocol token (rsp_body r) in
        answer_with r answer
    end.

(** [resolve_endpoints]: each device for each agent of its protocol; the agents
    of a protocol are looked for once.  The copy of the body is one byte too
    short for its terminator, which is not modelled. *)
Fixpoint resolve_devices (devices : list json) (map_endpoints : gmap string (list string))
    (service sub_service : string) : FM Manager (list DeviceToBeAdded) :=
  match devices with
  | [] => fret []
  | d :: rest =>
      act! has_protocol := lift (HasMember d "protocol") in
      if has_protocol then
        act! protocol := lift (let! m := member d "protocol" in GetString m) in
        act! v_endpoint := (match default [] (map_endpoints !! protocol) with
                            | [] => get_iotagents service sub_service protocol 0 0
                            | v_endpoint => fret v_endpoint
                            end) in
        act! v := resolve_devices rest (<[protocol := v_endpoint]> map_endpoints) service sub_service in
        fret (map (mkDeviceToBeAdded (pretty (accept d))) v_endpoint ++ v)%list
      else resolve_devices rest map_endpoints service sub_service
  end.

Definition resolve_endpoints (devices_protocols_in service sub_service : string) : FM Manager (list DeviceToBeAdded) :=
  match json_parse (c_string devices_protocols_in) with
  | None => fthrow (bad_request ("AdminManagerService: " ++ parse_error (c_string devices_protocols_in)))
  | Some document =>
      act! has_devices := lift (HasMember document "devices") in
      if has_devices then
        act! devices := lift (member document "devices") in
        match devices with
        | JArray es =>
            act! v := fmcatch (resolve_devices es ∅ service sub_service)
                        (fun e => match e with
                                  | IotaException _ details _ => fthrow (bad_request details)
                                  | _ => fthrow e
                                  end) in
            match v with
            | [] => fthrow (bad_request (RESPONSE_MESSAGE_MISSING_IOTAGENTS ++ "[service " ++ service
                              ++ " sub-service " ++ sub_service ++ "]"))
            | _ => fret v
            end
        | _ => fthrow (bad_request "not proper formatted [devices]: not an array")
        end
      else fthrow (bad_request "not proper formatted [devices] : not found")
  end.

Definition post_device_json (service service_path body token : string) (r : response) : FM Manager (Z * response) :=
  if missing_path service service_path then fthrow (bad_request "Service or Service path are missing")
  else
    act! v_endpoints := resolve_endpoints body service service_path in
    act! answer := post_multiple_devices v_endpoints service service_path token in
    answer_with r answer.

(** [get_param_resource] *)
Definition get_param_resource (query_parameters : list (string * string)) (mandatory : bool) : outcome string :=
  let result := param query_parameters Store.PROTOCOL in
  if mandatory && String.eqb result "" then Throw missing_protocol else Ret result.

(** ** Services *)

(** The agents of a protocol: those of the last document of its name. *)
Definition endpoints_of (protocols : list Protocol) : list resource_endpoint :=
  fold_left (fun _ p => _endpoints p) protocols [].

Definition get_endpoints (protocol_filter : string) : FM Manager (list Protocol) :=
  on_tables (ProtocolCollection.get_endpoint_by_protocol database endpoint show protocol_filter).

(** A request on services to each agent of a protocol. *)
Fixpoint send_services (method service service_path x_auth_token request_identifier : string) (expected : Z)
    (query_of content_of : resource_endpoint -> string) (all_dest : list resource_endpoint)
    (answers : gmap string string * gmap string string) : FM Manager (gmap string string * gmap string string) :=
  match all_dest with
  | [] => fret answers
  | d :: rest =>
      act! answers :=
        on_std
          (act! dest := lift (new_IoTUrl (e_endpoint d)) in
           act! answer := send_to (create_request method (_path dest ++ ADMIN_SERVICE_SERVICES) (query_of d)
                                     (content_of d) x_auth_token request_identifier service service_path
                                     (_host dest) (_port dest)) in
           fret (if fst answer =? expected then (emplace (fst answers) (e_endpoint d) (snd answer), snd answers)
                 else (fst answers, emplace (snd answers) (e_endpoint d) (error_manager (fst answer) (snd answer)))))
          (fun e => then! no_iota_alarm (e_endpoint d) e in fret answers) in
      send_services method service service_path x_auth_token request_identifier expected query_of content_of rest answers
  end.

(** The services of a request, each to the agents of its protocol. *)
Fixpoint send_protocols (method service service_path x_auth_token request_identifier : string) (expected : Z)
    (query_of content_of : document -> resource_endpoint -> string) (obj_protocols : list document)
    (answers : gmap string string * gmap string string) : FM Manager (gmap string string * gmap string string) :=
  match obj_protocols with
  | [] => fret answers
  | obj :: rest =>
      act! protocols := get_endpoints (getStringField obj Store.PROTOCOL_NAME) in
      act! answers := send_services method service service_path x_auth_token request_identifier expected
                        (query_of obj) (content_of obj) (endpoints_of protocols) answers in
      send_protocols method service service_path x_auth_token request_identifier expected query_of content_of rest answers
  end.

(** The response of a request on services, which has no type of content. *)
Definition services_answer (expected none : Z) (answers : gmap string string * gmap string string) (r : response)
    : Z * response :=
  let body := add_errors_to_response (rsp_body r) (snd answers) in
  let code := outcome_code expected none (fst answers) body in
  (code, mkResponse code (getHttpMessage code) (rsp_headers r) body).

(** A service as the agents take it: the protocol is not theirs. *)
Definition trim_obj (obj : document) : document :=
  remove_field (remove_field obj Store.PROTOCOL_DESCRIPTION) Store.PROTOCOL.

(** The elements of a request on services, once for each of their protocols. *)
Definition read_services (body schema : string) : FM Manager (list document) :=
  if String.eqb body "" then fthrow (bad_request "empty body")
  else
    match validate_json_schema body schema with
    | Some error_details => fthrow (bad_request error_details)
    | None =>
        act! obj := from_json body in
        on_tables (ServiceMgmtCollection.getElementsFromBSON database endpoint show obj)
    end.

Definition post_service_json (service service_path body x_auth_token request_identifier : string) (r : response)
    : FM Manager (Z * response) :=
  act! obj_protocols := read_services body _POST_SERVICE_SCHEMA in
  act! answers := send_protocols "POST" service service_path x_auth_token request_identifier HTTP_CREATED
    (fun _ _ => make_query_string url_encode [])
    (fun obj d => jsonString [(Store.SERVICES, BArr [BObj (trim_obj obj ++ [(Store.RESOURCE, BStr (e_resource d))])%list])])
    obj_protocols (∅, ∅) in
  fret (services_answer HTTP_CREATED HTTP_SERVER_ERROR answers r).

Definition put_service_json (service service_path apikey body x_auth_token request_identifier : string) (r : response)
    : FM Manager (Z * response) :=
  act! obj_protocols := read_services body _PUT_SERVICE_SCHEMA in
  act! answers := send_protocols "PUT" service service_path x_auth_token request_identifier HTTP_NO_CONTENT
    (fun _ d => make_query_string url_encode
       ((if String.eqb apikey "" then [] else [(Store.APIKEY, apikey)]) ++ [(Store.RESOURCE, e_resource d)])%list)
    (fun obj _ => jsonString (trim_obj obj)) obj_protocols (∅, ∅) in
  fret (services_answer HTTP_NO_CONTENT 404 answers r).

Definition delete_service_json (service service_path resource x_auth_token request_identifier : string) (r : response)
    : FM Manager (Z * response) :=
  if String.eqb resource "" then fthrow (bad_request "protocol is madatory")
  else
    act! protocols := get_endpoints resource in
    match protocols with
    | [] => fthrow (IotaException RESPONSE_MESSAGE_BAD_REQUEST ("Protocol does not exists [" ++ resource ++ "]")
                      RESPONSE_CODE_CONTEXT_ELEMENT_NOT_FOUND)
    | _ =>
        act! answers := send_services "DELETE" service service_path x_auth_token request_identifier HTTP_NO_CONTENT
          (fun d => make_query_string url_encode [(Store.RESOURCE, e_resource d)]) (fun _ => "")
          (endpoints_of protocols) (∅, ∅) in
        fret (services_answer HTTP_NO_CONTENT 404 answers r)
    end.

(** ** Protocols *)

Local Abbreviation update_protocol := (fun fuel q s =>
  on_tables (Collection.update_r database endpoint show fuel Store.PROTOCOL_TABLE q s true 0)).
Local Abbreviation remove_from := (fun table q =>
  on_tables (Collection.remove database endpoint show 2 table q 0)).

(** An update that may find nothing: its exceptions count as that. *)
Definition or_none (c : FM Manager Z) : FM Manager Z :=
  fmcatch c (fun e => match e with IotaException _ _ _ => fret 0 | _ => fthrow e end).

(** The agent is looked for in the protocol by its identifier, then by its
    address; a new one is added, with the description it brings. *)
Definition register_endpoint (fuel : nat) (protocol_name description iotagent endpoint_id resource : string)
    : FM Manager unit :=
  let named := (Store.PROTOCOL_NAME, BStr protocol_name) in
  let with_endpoint k v := [named; (Store.ENDPOINTS, BObj [("$elemMatch", BObj [(k, BStr v)])])] in
  act! num_ups := or_none (update_protocol fuel (with_endpoint Store.ENDPOINT_ID endpoint_id)
    [("$set", BObj [("endpoints.$.endpoint", BStr iotagent); ("endpoints.$.resource", BStr resource)])]) in
  act! num_ups := (if num_ups =? 0 then
    or_none (update_protocol fuel (with_endpoint Store.ENDPOINT iotagent)
      [("$set", BObj [("endpoints.$.identifier", BStr endpoint_id); ("endpoints.$.resource", BStr resource)])])
    else fret num_ups) in
  if num_ups =? 0 then
    then! update_protocol fuel [named]
      [("$set", BObj [(Store.PROTOCOL_DESCRIPTION, BStr description)]);
       ("$addToSet", BObj [(Store.ENDPOINTS, BObj [(Store.ENDPOINT, BStr iotagent); (Store.RESOURCE, BStr resource);
                                                   (Store.ENDPOINT_ID, BStr endpoint_id)])])] in
    fret tt
  else fret tt.

(** The services of a registration: one that differs from what is stored is
    updated or added; those that are left in the map are no longer served. *)
Fixpoint register_services (fuel : nat) (protocol_name description iotagent : string) (be : list bson)
    (services_in_mongo : gmap string document) : FM Manager (gmap string document) :=
  match be with
  | [] => fret services_in_mongo
  | e :: rest =>
      act! srvObj := lift (embeddedObject e) in
      let srv := getStringField srvObj Store.SERVICE in
      let srv_path := getStringField srvObj Store.SERVICE_PATH in
      let key := srv ++ "|" ++ srv_path in
      let same := match services_in_mongo !! key with Some d => same_object srvObj d | None => false end in
      then! (if same then fret 0
             else on_tables (Collection.update database endpoint show fuel Store.MANAGER_SERVICE_TABLE
                    [(Store.SERVICE, BStr srv); (Store.SERVICE_PATH, BStr srv_path); (Store.IOTAGENT, BStr iotagent);
                     (Store.PROTOCOL, BStr protocol_name)]
                    (remove_field (remove_field (remove_field srvObj Store.SERVICE) Store.SERVICE_PATH) Store.RESOURCE
                     ++ [(Store.PROTOCOL_DESCRIPTION, BStr description)])%list true)) in
      register_services fuel protocol_name description iotagent rest (delete key services_in_mongo)
  end.

Definition post_protocol_json (fuel : nat) (body : string) (r : response) : FM Manager (Z * response) :=
  if String.eqb body "" then respond RESPONSE_CODE_BAD_REQUEST RESPONSE_MESSAGE_BAD_REQUEST "empty body" r
  else
    match validate_json_schema body _POST_PROTOCOL_SCHEMA with
    | Some error_details => respond RESPONSE_CODE_BAD_REQUEST RESPONSE_MESSAGE_BAD_REQUEST error_details r
    | None =>
        act! obj := from_json body in
        let iotagent := getStringField obj Store.IOTAGENT in
        let identifier := getStringField obj Store.ENDPOINT_ID in
        let endpoint_id := if String.eqb identifier "" then iotagent else identifier in
        let resource := getStringField obj Store.RESOURCE in
        let description := getStringField obj Store.PROTOCOL_DESCRIPTION in
        let protocol_name := getStringField obj Store.PROTOCOL_NAME in
        then! register_endpoint fuel protocol_name description iotagent endpoint_id resource in
        act! services_in_mongo :=
          on_tables (ServiceMgmtCollection.fillServices database endpoint show iotagent protocol_name ∅) in
        act! left_over := (if has_field obj Store.SERVICES then
                             act! be := lift (field_array obj Store.SERVICES) in
                             register_services fuel protocol_name description iotagent be services_in_mongo
                           else fret services_in_mongo) in
        then! fold_right (fun d rest => then! remove_from Store.MANAGER_SERVICE_TABLE (snd d) in rest) (fret tt)
                (entries left_over) in
        respond HTTP_CREATED "" "" r
    end.

Definition delete_all_protocol_json (protocol_name : string) (r : response) : FM Manager (Z * response) :=
  let all := append_str Store.PROTOCOL_NAME protocol_name in
  then! remove_from Store.PROTOCOL_TABLE all in
  then! remove_from Store.MANAGER_SERVICE_TABLE all in
  respond HTTP_NO_CONTENT "" "" r.

(** [get_protocols_json]: always with every field. *)
Definition protocols_text (count : Z) (page : list document) : string :=
  "{ " ++ quoted "count" ++ ": " ++ lexical_cast count ++ "," ++ quoted "protocols" ++ ": ["
       ++ String.concat "," (map jsonString page) ++ "]}".

Definition get_protocols_json (limit offset : Z) (detailed : string) (r : response) : FM Manager (Z * response) :=
  act! count := on_tables (Collection.count database endpoint show what Store.PROTOCOL_TABLE []) in
  let find_page fields := on_tables (find_fields database endpoint show Store.PROTOCOL_TABLE [] limit offset
                                       (ascending [Store.PROTOCOL_NAME]) fields) in
  if String.eqb detailed "" || String.eqb detailed Store.OFF then
    act! page := find_page [Store.PROTOCOL_NAME; Store.PROTOCOL_DESCRIPTION] in
    respond RESPONSE_CODE_OK (protocols_text count page) "" r
  else if negb (String.eqb detailed Store.ON) then
    respond RESPONSE_CODE_BAD_REQUEST RESPONSE_MESSAGE_BAD_REQUEST "parameter detailed must be on or off" r
  else act! page := find_page [] in respond RESPONSE_CODE_OK (protocols_text count page) "" r.

(** The page of [protocols]: a negative limit is the default one, and the
    offset is any number. *)
Definition protocols_limit (query_parameters : list (string * string)) : outcome Z :=
  match find_param query_parameters Store.LIMIT with
  | None => Ret LIMIT_DEFAULT
  | Some temp =>
      let! limit := number_or lexical_cast_int temp LIMIT_DEFAULT in
      Ret (if limit <? 0 then LIMIT_DEFAULT else if LIMIT_MAX <? limit then LIMIT_MAX else limit)
  end.
Definition protocols_offset (query_parameters : list (string * string)) : outcome Z :=
  match find_param query_parameters Store.OFFSET with
  | None => Ret 0
  | Some temp => number_or lexical_cast_int temp 0
  end.

(** [protocols]: neither a service nor a token is asked for. *)
Definition protocols (fuel : nat) (q : request) (query_parameters : list (string * string)) (r : response)
    : FM Manager (Z * response) :=
  let method := q_method q in
  catch_with std_what (Some (if String.eqb method "GET" then last_read lexical_cast_int query_parameters else ("", ""))) r
    (then! check_mongo_config in
     if String.eqb method "POST" then post_protocol_json fuel (trim (q_content q)) r
     else if String.eqb method "GET" then
       act! limit := lift (protocols_limit query_parameters) in
       act! offset := lift (protocols_offset query_parameters) in
       get_protocols_json limit offset "on" r
     else respond 404 "" "" r).
End Manager.
