(* ===== verification/AdminMgmtSpec.v ===== *)
(** * What the manager answers for its agents

    A page of the devices of several agents, and the code of a request that
    went to several of them.  A manager with two agents closes the file. *)
From stdpp Require Import base tactics list gmap strings.
From Stdlib Require Import ZArith Lia Ascii String.
From S2P Require Import Prelude CppString StdMap Boost Types Alarm FuncUtil IoTUrl Json Bson Collection DeviceCollection Configurator CbComm Filters ServiceTables.
From S2P Require Import AdminService AdminMgmt.

Local Open Scope string_scope.
Local Open Scope Z_scope.

(** The page an agent gives: nothing for a negative limit, everything for 0. *)
Definition page {A} (limit offset : Z) (l : list A) : list A :=
  if limit <? 0 then []
  else if limit =? 0 then drop (Z.to_nat offset) l
  else take (Z.to_nat limit) (drop (Z.to_nat offset) l).

(** The devices of the agents that lie wholly before the offset. *)
Fixpoint skipped {A} (offset : nat) (agents : list (list A)) : nat :=
  match agents with
  | [] => 0
  | devices :: rest =>
      if (List.length devices <? offset)%nat then List.length devices + skipped (offset - List.length devices) rest
      else 0
  end%nat.

(** What is left of a page after the devices that were passed over. *)
Definition short_page {A} (limit offset : Z) (agents : list (list A)) : list A :=
  if limit <? 0 then []
  else if limit =? 0 then drop (Z.to_nat offset) (List.concat agents)
  else take (Z.to_nat limit - skipped (Z.to_nat offset) agents) (drop (Z.to_nat offset) (List.concat agents)).

(** The limit and the offset of the next request, in one case. *)
Lemma next_page_eq limit offset count :
  0 <= offset -> 0 <= count ->
  next_page limit offset count =
    (let given := if count <? offset then count else count - offset in
     if 0 <? limit then if given <? limit then limit - given else -1 else limit,
     Z.max 0 (offset - count)).
Proof.
  intros Ho Hc. unfold next_page. destruct (Z.ltb_spec 0 offset); [|replace offset with 0 by lia];
    destruct (Z.ltb_spec count offset); try (destruct (Z.ltb_spec count 0)); cbn zeta; f_equal;
    rewrite ?Z.sub_0_r; try lia; done.
Qed.

Lemma skipped_0 {A} (agents : list (list A)) : skipped 0 agents = 0%nat.
Proof. by destruct agents. Qed.

(** One more agent: its page, and the rest with the next limit and offset. *)
Lemma short_page_cons {A} limit offset (devices : list A) agents :
  0 <= offset ->
  let next := next_page limit offset (Z.of_nat (List.length devices)) in
  0 <= snd next
  /\ short_page limit offset (devices :: agents) = (page limit offset devices ++ short_page (fst next) (snd next) agents)%list.
Proof.
  intros Ho. cbn zeta. rewrite next_page_eq by lia. cbn [fst snd]. split; [lia|].
  unfold short_page, page. cbn [List.concat skipped]. rewrite skipn_app.
  replace (Z.to_nat (Z.max 0 (offset - Z.of_nat (List.length devices)))) with (Z.to_nat offset - List.length devices)%nat by lia.
  destruct (Z.ltb_spec 0 limit) as [Hl|Hl].
  - replace (limit <? 0) with false by lia. replace (limit =? 0) with false by lia.
    destruct (Nat.ltb_spec (List.length devices) (Z.to_nat offset)) as [Hd|Hd].
    + replace (Z.of_nat (List.length devices) <? offset) with true by lia.
      rewrite (skipn_all2 devices) by lia. rewrite take_nil. cbn [app].
      destruct (Z.ltb_spec (Z.of_nat (List.length devices)) limit).
      * replace (limit - _ <? 0) with false by lia. replace (limit - _ =? 0) with false by lia. f_equal. lia.
      * replace (-1 <? 0) with true by lia. replace (Z.to_nat limit - _)%nat with 0%nat by lia. apply take_0.
    + replace (Z.of_nat (List.length devices) <? offset) with false by lia.
      replace (Z.to_nat offset - List.length devices)%nat with 0%nat by lia. rewrite skipped_0, Nat.sub_0_r, firstn_app.
      f_equal. rewrite length_skipn.
      destruct (Z.ltb_spec (Z.of_nat (List.length devices) - offset) limit).
      * replace (limit - _ <? 0) with false by lia. replace (limit - _ =? 0) with false by lia. f_equal. lia.
      * replace (-1 <? 0) with true by lia. replace (Z.to_nat limit - _)%nat with 0%nat by lia. apply take_0.
  - destruct (Z.ltb_spec limit 0); [done|]. by replace (limit =? 0) with true by lia.
Qed.

Section ManagerSpec.
  Context `{HB : Boost} `{HM : Mongo} `{HR : BsonReader} `{HBJ : BsonJson} `{HJ : Rapidjson} `{HC : Config}
    `{HN : Network}.
  Context (database endpoint : string) (show : document -> string) (what : driver_exception -> string)
    (std_what : exn -> string).
  Context (url_encode : string -> string) (_timeout : Z).

(** ** A page of several agents *)

(** The limits and offsets that are asked for: those of the handler of the
    request, and -1 when the page is full. *)
Definition in_range (limit offset : Z) : Prop := - 1 <= limit <= LIMIT_MAX /\ 0 <= offset < 2 ^ 31.

(** In the states [up] of the outside, an agent answers a request for a page
    of its devices with that page, and with how many it has. *)
Definition serves_pages (up : network -> Prop) (service service_path detailed entity protocol_filter x_auth_token
    request_identifier : string) (devices_of : string -> list bson) (url : string) : Prop :=
  exists dest, new_IoTUrl url = Ret dest /\
    forall n limit offset, up n -> in_range limit offset -> exists n' text from obj,
      exchange n (devices_request url_encode dest service service_path detailed entity protocol_filter x_auth_token
                    request_identifier limit offset) _timeout ""
        = (n', mkResult (Some (mkHttpResponse RESPONSE_CODE_OK text)) None from)
      /\ up n'
      /\ fromjson text = Some obj
      /\ getIntField obj Store.COUNT = Z.of_nat (List.length (devices_of url))
      /\ field_array obj Store.DEVICES = Ret (page limit offset (devices_of url)).

Lemma next_in_range limit offset (n : nat) :
  in_range limit offset ->
  let next := next_page limit offset (Z.of_nat n) in in_range (fst next) (snd next).
Proof.
  intros [Hl Ho]. cbn zeta. rewrite next_page_eq by lia. cbn [fst snd]. split; [|lia].
  destruct (Z.ltb_spec (Z.of_nat n) offset), (Z.ltb_spec 0 limit); try lia;
    match goal with |- context [if ?b then _ else _] => destruct b eqn:E end; lia.
Qed.

Section Pages.
  Context (up : network -> Prop) (service service_path detailed entity protocol_filter x_auth_token
    request_identifier : string) (devices_of : string -> list bson).

Local Abbreviation ask := (ask_pages std_what url_encode _timeout service service_path detailed entity protocol_filter
  x_auth_token request_identifier).
Local Abbreviation serves :=
  (serves_pages up service service_path detailed entity protocol_filter x_auth_token request_identifier devices_of).

(** What an agent that serves its page adds. *)
Lemma page_of_agent url rest p g :
  serves url -> up (g_network g) -> in_range (limitI p) (offsetI p) ->
  exists g', up (g_network g') /\ conn (g_database g') = conn (g_database g)
    /\ ask (url :: rest) p g =
         (let next := next_page (limitI p) (offsetI p) (Z.of_nat (List.length (devices_of url))) in
          ask rest (mkPaging (fst next) (snd next) (total_count p + Z.of_nat (List.length (devices_of url)))
                      (found_devices p ++ page (limitI p) (offsetI p) (devices_of url))%list (errors_of p)) g').
Proof.
  intros (dest & Hdest & Hs) Hup Ho. destruct (Hs (g_network g) (limitI p) (offsetI p) Hup Ho)
    as (n' & text & from & obj & Hx & Hup' & Hj & Hc & Ha).
  exists (mkManager (mkDatabase (conn (g_database g))
    (Alarm.remove (alarms (g_database g)) ALARM_CODE_NO_IOTA from ERROR "Success")) n').
  split; [done|]. split; [done|]. cbn [ask_pages].
  apply fmbind_ret. unfold on_std, fmcatch, lift, flift, fmbind at 1. rewrite Hdest.
  unfold send_to, fmget, fmbind at 1 2. rewrite Hx. cbn.
  unfold add_page. rewrite Hj, Hc, Ha. cbn [limitI offsetI total_count found_devices errors_of].
  by destruct (next_page _ _ _).
Qed.

Lemma pages_of_agents all_dest p g :
  Forall serves all_dest -> up (g_network g) -> in_range (limitI p) (offsetI p) ->
  exists g' limit offset, up (g_network g') /\ conn (g_database g') = conn (g_database g)
    /\ ask all_dest p g = Some (g', Ret (mkPaging limit offset
         (total_count p + Z.of_nat (List.length (List.concat (map devices_of all_dest))))
         (found_devices p ++ short_page (limitI p) (offsetI p) (map devices_of all_dest))%list (errors_of p))).
Proof.
  revert p g. induction all_dest as [|url rest IH]; intros p g Hs Hup Ho.
  - exists g, (limitI p), (offsetI p). split; [done|]. split; [done|]. cbn [map List.concat List.length ask_pages].
    unfold fret, short_page. cbn [List.concat]. rewrite skipn_nil, firstn_nil, Z.add_0_r.
    destruct (limitI p <? 0), (limitI p =? 0); rewrite app_nil_r; by destruct p.
  - apply Forall_cons in Hs as [Hu Hr]. destruct (page_of_agent url rest p g Hu Hup Ho) as (g1 & Hup1 & Hc1 & ->).
    cbn [map]. rewrite (proj2 (short_page_cons (limitI p) (offsetI p) (devices_of url) (map devices_of rest) (proj1 (proj2 Ho)))).
    pose proof (next_in_range _ _ (List.length (devices_of url)) Ho) as Ho'. cbn zeta.
    destruct (IH (mkPaging (fst (next_page (limitI p) (offsetI p) (Z.of_nat (List.length (devices_of url)))))
      (snd (next_page (limitI p) (offsetI p) (Z.of_nat (List.length (devices_of url)))))
      (total_count p + Z.of_nat (List.length (devices_of url)))
      (found_devices p ++ page (limitI p) (offsetI p) (devices_of url))%list (errors_of p)) g1 Hr Hup1 Ho')
      as (g' & l & o & Hup' & Hc' & ->).
    exists g', l, o. split; [done|]. split; [congruence|]. cbn [total_count found_devices limitI offsetI errors_of].
    cbn [List.concat]. rewrite length_app, Nat2Z.inj_add, Z.add_assoc, app_assoc. done.
Qed.
End Pages.

Lemma short_page_whole {A} limit offset (agents : list (list A)) :
  limit <= 0 \/ skipped (Z.to_nat offset) agents = 0%nat -> short_page limit offset agents = page limit offset (List.concat agents).
Proof.
  intros [Hl|Hs]; unfold short_page, page; destruct (Z.ltb_spec limit 0), (Z.eqb_spec limit 0); try done; [lia|].
  by rewrite Hs, Nat.sub_0_r.
Qed.

Lemma no_errors response : add_errors_to_response response ∅ = response.
Proof. unfold add_errors_to_response, errors_text. by rewrite entries_empty. Qed.

(** What the manager answers, when its agents serve their pages. *)
Lemma devices_merged_eq up service service_path limit offset detailed entity request_identifier x_auth_token
    protocol_filter devices_of r all_dest g g1 :
  detailed = "" \/ detailed = Store.ON \/ detailed = Store.OFF ->
  get_iotagents database endpoint show what service service_path protocol_filter 0 0 g = Some (g1, Ret all_dest) ->
  Forall (serves_pages up service service_path detailed entity protocol_filter x_auth_token request_identifier
            devices_of) all_dest ->
  up (g_network g1) -> in_range limit offset ->
  let agents := map devices_of all_dest in
  exists g', conn (g_database g') = conn (g_database g1)
    /\ AdminMgmt.get_all_devices_json database endpoint show what std_what url_encode _timeout service service_path
         limit offset detailed entity request_identifier x_auth_token protocol_filter r g
       = Some (g', Ret (create_response RESPONSE_CODE_OK "" "" (with_body (jsonString
           [("count", BNum (Z.of_nat (List.length (List.concat agents))));
            (Store.DEVICES, BArr (short_page limit offset agents))]) r))).
Proof.
  intros Hd Ha Hs Hup Ho. cbn zeta.
  destruct (pages_of_agents up service service_path detailed entity protocol_filter x_auth_token request_identifier
    devices_of all_dest (mkPaging limit offset 0 [] ∅) g1 Hs Hup Ho) as (g' & l & o & _ & Hc & E).
  exists g'. split; [done|]. unfold AdminMgmt.get_all_devices_json.
  replace (negb (String.eqb detailed "") && _ && _) with false
    by (by destruct Hd as [ -> | [ -> | -> ]]; rewrite String.eqb_refl; rewrite ?andb_false_r).
  rewrite (fmbind_ret _ _ g g1 all_dest) by (unfold fmcatch; by rewrite Ha).
  rewrite (fmbind_ret _ _ _ _ _ E). unfold devices_answer. cbn [total_count found_devices errors_of app].
  by rewrite no_errors.
Qed.

(** C25. The devices that the manager answers are a page of those of all the
    agents of the service, in the order of the agents: with a limit, a page
    that is shorter by the devices of the agents before the offset, so that
    it is the whole page as long as the offset falls in the first agent, or
    when there is no limit. *)
Theorem devices_merged up service service_path limit offset detailed entity request_identifier x_auth_token
    protocol_filter devices_of r all_dest g g1
    (Hd : detailed = "" \/ detailed = Store.ON \/ detailed = Store.OFF)
    (Ha : get_iotagents database endpoint show what service service_path protocol_filter 0 0 g = Some (g1, Ret all_dest))
    (Hs : Forall (serves_pages up service service_path detailed entity protocol_filter x_auth_token request_identifier
                    devices_of) all_dest)
    (Hup : up (g_network g1)) (Ho : in_range limit offset) :
  let agents := map devices_of all_dest in
  (exists g', conn (g_database g') = conn (g_database g1)
     /\ AdminMgmt.get_all_devices_json database endpoint show what std_what url_encode _timeout service service_path
          limit offset detailed entity request_identifier x_auth_token protocol_filter r g
        = Some (g', Ret (create_response RESPONSE_CODE_OK "" "" (with_body (jsonString
            [("count", BNum (Z.of_nat (List.length (List.concat agents))));
             (Store.DEVICES, BArr (short_page limit offset agents))]) r))))
  /\ (limit <= 0 \/ skipped (Z.to_nat offset) agents = 0%nat ->
      short_page limit offset agents = page limit offset (List.concat agents)).
Proof.
  split; [|apply short_page_whole]. by eapply devices_merged_eq.
Qed.
End ManagerSpec.

(** ** A request for several agents *)

Section Agents.
  Context `{HB : Boost} `{HM : Mongo} `{HJ : Rapidjson} `{HN : Network}.
  Context (std_what : exn -> string) (_timeout : Z).

Section Operate.
  Context (method service sub_service x_auth_token : string).

Local Abbreviation ask := (fun url body =>
  operation_device_iotagent std_what _timeout url body service sub_service x_auth_token method).

(** What the agents answer, in the order they are asked. *)
Fixpoint answers_of (requests : list (string * string)) : FM Manager (list (string * (Z * string))) :=
  match requests with
  | [] => fret []
  | (url, body) :: rest => act! a := ask url body in act! l := answers_of rest in fret ((url, a) :: l)
  end.

Definition accepts (expected : Z) (a : string * (Z * string)) : bool := fst (snd a) =? expected.

(** One more answer. *)
Definition note (expected : Z) (answers : gmap string string * gmap string string) (a : string * (Z * string))
    : gmap string string * gmap string string :=
  if accepts expected a then (emplace (fst answers) (fst a) (snd (snd a)), snd answers)
  else (fst answers, emplace (snd answers) (fst a) (error_manager (fst (snd a)) (snd (snd a)))).

Definition notes (expected : Z) (l : list (string * (Z * string))) : gmap string string * gmap string string :=
  fold_left (note expected) l (∅, ∅).

Lemma operate_each_notes expected requests answers g :
  operate_each std_what _timeout method service sub_service x_auth_token expected requests answers g
    = fmbind (answers_of requests) (fun l => fret (fold_left (note expected) l answers)) g.
Proof.
  revert answers g. induction requests as [|[url body] rest IH]; intros answers g; [done|].
  cbn [operate_each answers_of]. unfold fmbind at 1 2 3.
  destruct (operation_device_iotagent _ _ url body _ _ _ _ g) as [[g1 [a|e|]]|]; try done.
  rewrite IH. unfold fmbind, fret. destruct (answers_of rest g1) as [[g2 [l|e|]]|]; try done.
Qed.

Lemma operation_answers url body g :
  new_IoTUrl url <> Undefined -> exists g' a, ask url body g = Some (g', Ret a).
Proof.
  intros Hu. unfold operation_device_iotagent, on_std, fmcatch, lift, flift, fmbind at 1.
  destruct (new_IoTUrl url) as [dest|e|] eqn:E; [| |done].
  - unfold send_to, fmget, fmbind at 1. cbv beta. destruct (exchange _ _ _ _) as [n r].
    unfold fmmodify, fmbind. unfold check_alarm.
    by destruct (ex_response r), (ex_error r); eexists _, _.
  - unfold new_IoTUrl, ocatch in E. destruct (negb _); [|destruct (parse_url url)]; injection E as <- || done; by eexists _, _.
Qed.

Lemma answers_total requests g :
  Forall (fun r => new_IoTUrl (fst r) <> Undefined) requests ->
  exists g' l, answers_of requests g = Some (g', Ret l) /\ map fst l = map fst requests.
Proof.
  revert g. induction requests as [|[url body] rest IH]; intros g H; [by exists g, []|].
  apply Forall_cons in H as [Hu Hr]. destruct (operation_answers url body g Hu) as (g1 & a & E).
  destruct (IH g1 Hr) as (g' & l & El & Hl). exists g', ((url, a) :: l). cbn [answers_of map fst].
  rewrite (fmbind_ret _ _ _ _ _ E), (fmbind_ret _ _ _ _ _ El). by rewrite Hl.
Qed.
End Operate.

Lemma emplace_known (m : gmap string string) k v u : is_Some (emplace m k v !! u) <-> k = u \/ is_Some (m !! u).
Proof.
  rewrite lookup_emplace. case_bool_decide as Hk; [|by intuition].
  split; [by left|]. intros _. by eexists.
Qed.

(** The agents that accepted, and those that did not. *)
Lemma note_known expected acc a u :
  (is_Some (fst (note expected acc a) !! u)
     <-> accepts expected a = true /\ fst a = u \/ is_Some (fst acc !! u))
  /\ (is_Some (snd (note expected acc a) !! u)
     <-> accepts expected a = false /\ fst a = u \/ is_Some (snd acc !! u)).
Proof. unfold note. destruct (accepts expected a); cbn [fst snd]; rewrite emplace_known; intuition congruence. Qed.

Lemma notes_known expected l acc u :
  (is_Some (fst (fold_left (note expected) l acc) !! u)
     <-> (exists a, In a l /\ accepts expected a = true /\ fst a = u) \/ is_Some (fst acc !! u))
  /\ (is_Some (snd (fold_left (note expected) l acc) !! u)
     <-> (exists a, In a l /\ accepts expected a = false /\ fst a = u) \/ is_Some (snd acc !! u)).
Proof.
  revert acc. induction l as [|a l IH]; intros acc; cbn [fold_left In]; [firstorder|].
  destruct (IH (note expected acc a)) as [-> ->]. destruct (note_known expected acc a u) as [-> ->].
  split; split; intros H; decompose [ex and or] H; subst; eauto 8.
Qed.

Lemma map_empty_known (m : gmap string string) : m = ∅ <-> forall u, ~ is_Some (m !! u).
Proof.
  split; [intros ->; intros u; rewrite lookup_empty; by intros [? [=]]|].
  intros H. apply map_eq. intros u. rewrite lookup_empty. apply eq_None_not_Some, H.
Qed.

Lemma errors_text_empty `{!BoostLaws HB} m : errors_text m = "" <-> m = ∅.
Proof.
  unfold errors_text. split; [|intros ->; by rewrite entries_empty].
  intros E. destruct (entries m) as [|e es] eqn:Em; [|by rewrite erase_all_law in E].
  apply map_size_empty_inv. by rewrite <- length_entries, Em.
Qed.

(** The code of the answers, and whose errors are told. *)
Lemma notes_code `{!BoostLaws HB} expected none l :
  let text := add_errors_to_response "" (snd (notes expected l)) in
  outcome_code expected none (fst (notes expected l)) text
    = (if negb (existsb (accepts expected) l) then none
       else if forallb (accepts expected) l then expected else RESPONSE_CODE_OK)
  /\ (text = "" <-> forallb (accepts expected) l = true).
Proof.
  cbn zeta. assert (Hok : Nat.eqb (base.size (fst (notes expected l))) 0 = negb (existsb (accepts expected) l)).
  { apply eq_true_iff_eq. rewrite Nat.eqb_eq, map_size_empty_iff, map_empty_known, negb_true_iff, <- not_true_iff_false,
      existsb_exists.
    unfold notes. setoid_rewrite (fun u => proj1 (notes_known expected l (∅, ∅) u)). cbn [fst]. setoid_rewrite lookup_empty.
    split; [intros H (a & Ha & Hx); apply (H (fst a)); left; by exists a
           |intros H u [(a & Ha & Hx & _)|[? [=]]]; apply H; by exists a]. }
  assert (Hnok : add_errors_to_response "" (snd (notes expected l)) = "" <-> forallb (accepts expected) l = true).
  { unfold add_errors_to_response. destruct (String.eqb_spec (errors_text (snd (notes expected l))) "") as [E|E].
    - apply errors_text_empty in E. split; [intros _|done]. apply forallb_forall. intros a Ha.
      apply not_false_iff_true. intros Hx. apply (proj1 (map_empty_known _) E (fst a)).
      apply (notes_known expected l (∅, ∅)). left. by exists a.
    - split; [done|]. intros H. destruct E. apply errors_text_empty, map_empty_known. intros u Hu.
      apply (notes_known expected l (∅, ∅)) in Hu as [(a & Ha & Hx & _)|Hu];
        [|cbn in Hu; rewrite lookup_empty in Hu; by destruct Hu].
      rewrite forallb_forall in H. by rewrite (H a Ha) in Hx. }
  split; [|done]. unfold outcome_code. rewrite Hok. destruct (existsb _ _); [|done]. cbn [negb].
  destruct (forallb _ l), (String.eqb_spec (add_errors_to_response "" (snd (notes expected l))) "") as [E|E]; try done.
  - by destruct E; apply Hnok.
  - by apply Hnok in E.
Qed.

(** C26. A request for several agents is always answered: with the code of success
    when all of them accepted it and without a body, with the code of failure
    when none did, and otherwise with 200; the body then holds the errors of
    the agents that did not accept it and of no other. *)
Theorem every_agent_counts `{!BoostLaws HB} method service sub_service x_auth_token expected none requests g
    (Hu : Forall (fun r => new_IoTUrl (fst r) <> Undefined) requests) :
  exists g' l, answers_of method service sub_service x_auth_token requests g = Some (g', Ret l)
    /\ map fst l = map fst requests
    /\ exists nok,
         (forall u, is_Some (nok !! u) <-> exists a, In a l /\ accepts expected a = false /\ fst a = u)
      /\ (add_errors_to_response "" nok = "" <-> forallb (accepts expected) l = true)
      /\ operate std_what _timeout method service sub_service x_auth_token expected none requests "" g
         = Some (g', Ret ((if negb (existsb (accepts expected) l) then none
                           else if forallb (accepts expected) l then expected else RESPONSE_CODE_OK),
                          add_errors_to_response "" nok)).
Proof.
  destruct (answers_total method service sub_service x_auth_token requests g Hu) as (g' & l & E & Hl).
  exists g', l. split; [done|]. split; [done|]. exists (snd (notes expected l)).
  destruct (notes_code expected none l) as [Hc Ht]. cbn zeta in Hc. split; [|split; [done|]].
  - intros u. destruct (notes_known expected l (∅, ∅) u) as [_ Hn]. cbn [snd] in Hn. unfold notes. rewrite Hn, lookup_empty.
    split; [by intros [H|[? [=]]]|by left].
  - unfold operate. rewrite (fmbind_ret _ _ g g' (notes expected l)).
    + unfold fret. by rewrite Hc.
    + rewrite operate_each_notes. by rewrite (fmbind_ret _ _ _ _ _ E).
Qed.
End Agents.
