(* ===== verification/AdminMgmtExample.v ===== *)
(** * A manager with two agents

    An instance of each parameter of [AdminMgmt], on which the theorems of
    [AdminMgmtSpec] apply: two agents of a service with two devices each. *)
From stdpp Require Import base tactics list gmap strings pretty.
From Stdlib Require Import ZArith Lia Ascii String.
From S2P Require Import Prelude CppString StdMap Boost Types Alarm FuncUtil IoTUrl Json Bson Collection DeviceCollection Configurator CbComm Filters ServiceTables.
From S2P Require Import AdminService AdminMgmt AdminMgmtSpec AdminExample.

Local Open Scope string_scope.
Local Open Scope Z_scope.

Local Existing Instance boost_reference.
Local Existing Instance bson_reader_reference.
Local Existing Instance boost_reference_laws.

(** The reference database, which answers [distinct] and pages as well. *)
#[local] Instance manager_mongo : Mongo := {|
  db := string -> list document;
  drv_insert := drv_insert (Mongo := mongo_reference);
  drv_update := drv_update (Mongo := mongo_reference);
  drv_remove := drv_remove (Mongo := mongo_reference);
  drv_query m ns q limit skip order := (m, Done (page limit skip (List.filter (matches q) (m ns))));
  drv_count := drv_count (Mongo := mongo_reference);
  drv_command m ns c :=
    match c with
    | [(_, BStr table); (_, BStr key); (_, BObj query)] =>
        (m, Done ([("values", BArr (omap (fun d => field d key) (List.filter (matches query) (m (ns ++ "." ++ table)))))],
                  no_error 0))
    | _ => (m, Done ([], no_error 0))
    end;
  drv_create_index := drv_create_index (Mongo := mongo_reference);
  drv_drop_indexes := drv_drop_indexes (Mongo := mongo_reference);
  drv_reconnect m := m
|}.

Definition manager_tables : @db manager_mongo := fun ns =>
  if String.eqb ns "iot.SERVICE_MGMT" then
    [[("service", BStr "s1"); ("service_path", BStr "/"); ("iotagent", BStr "http://a:1"); ("protocol", BStr "ul")];
     [("service", BStr "s1"); ("service_path", BStr "/"); ("iotagent", BStr "http://b:1"); ("protocol", BStr "ul")]]
  else [].

(** A number in a query as one character, and the number it stands for. *)
Definition encode_number (v : string) : string :=
  if String.eqb v "0" then "0" else if String.eqb v "1" then "1"
  else match v with String "-" _ => "n" | _ => "2" end.
Definition number_of (s : string) : Z :=
  if String.eqb s "0" then 0 else if String.eqb s "1" then 1 else if String.eqb s "n" then -1 else 2.

Definition agent_devices (url : string) : list bson :=
  if String.eqb url "http://a:1" then [BStr "a1"; BStr "a2"] else [BStr "b1"; BStr "b2"].

#[local] Instance manager_json : BsonJson := {|
  jsonString _ := "{}";
  fromjson text :=
    let devices := agent_devices ("http://" ++ substring 0 1 text ++ ":1") in
    Some [("count", BNum (Z.of_nat (List.length devices)));
          ("devices", BArr (page (number_of (substring 1 1 text)) (number_of (substring 2 1 text)) devices))];
  numberLong _ _ := 0
|}.

(** Both agents give their pages; one of them refuses the rest. *)
#[local] Instance manager_network : Network := {|
  network := unit;
  exchange n req _ _ :=
    (n, if String.eqb (rq_method req) "GET" then
          mkResult (Some (mkHttpResponse 200 (rq_host req ++ substring 2 1 (rq_query req) ++ substring 6 1 (rq_query req))))
            None (rq_host req)
        else mkResult (Some (mkHttpResponse (if String.eqb (rq_host req) "a" then 204 else 404) "none")) None (rq_host req));
  get_token n _ _ _ _ _ := (n, Ret "")
|}.

#[local] Instance manager_texts : Rapidjson := rapidjson_table [].

#[local] Instance manager_config : Config := {|
  config_get _ := Ret (JObject [("type", JString "mongodb")]);
  config_get_map _ := Ret ∅;
  getService _ name _ := Throw (RuntimeError name);
  getServicebyApiKey _ key := Throw (RuntimeError key);
  getAllServicePath _ _ := Ret [];
  getResourceObject _ := Throw (RuntimeError "resource");
  getHttpMessage _ := "";
  listen_ip := "10.0.0.1"; listen_port := 8080; iotagent_name := "manager"; iotagent_identifier := ""
|}.

Lemma encode_number_pretty z :
  encode_number (pretty z) = (if z <? 0 then "n" else if z =? 0 then "0" else if z =? 1 then "1" else "2")
  /\ nonempty (pretty z) = true.
Proof.
  destruct (pretty_Z_shape z) as (k & E & Hk). destruct (pretty_N_digits k) as [Hd Hne].
  destruct (Z.ltb_spec z 0) as [Hz|Hz]; rewrite E; [by destruct (pretty k)|]. cbn [String.append].
  destruct (Z.eqb_spec z 0) as [->|H0]; [by destruct k|].
  destruct (Z.eqb_spec z 1) as [->|H1]; [by replace k with 1%N by lia|].
  unfold encode_number.
  destruct (String.eqb_spec (pretty k) "0") as [E0|_]; [assert (k = 0%N) by (apply (inj pretty); exact E0); lia|].
  destruct (String.eqb_spec (pretty k) "1") as [E1|_]; [assert (k = 1%N) by (apply (inj pretty); exact E1); lia|].
  destruct (pretty k) as [|c t]; [done|]. split; [|done]. cbn in Hd. apply andb_true_iff in Hd as [Hc _].
  by destruct c as [[] [] [] [] [] [] [] []].
Qed.

Lemma page_of_two {A} (x y : A) limit offset :
  0 <= offset ->
  page (number_of (encode_number (pretty limit))) (number_of (encode_number (pretty offset))) [x; y]
    = page limit offset [x; y].
Proof.
  intros Ho. rewrite !(proj1 (encode_number_pretty _)). replace (offset <? 0) with false by lia.
  assert (Hd : drop (Z.to_nat (number_of (if offset =? 0 then "0" else if offset =? 1 then "1" else "2"))) [x; y]
               = drop (Z.to_nat offset) [x; y]).
  { destruct (Z.eqb_spec offset 0) as [ -> |]; [done|]. destruct (Z.eqb_spec offset 1) as [ -> |]; [done|].
    rewrite !skipn_all2; [done|cbn; lia..]. }
  unfold page. rewrite Hd. destruct (Z.ltb_spec limit 0); [done|]. destruct (Z.eqb_spec limit 0); [done|].
  destruct (Z.eqb_spec limit 1) as [ -> |]; [done|]. cbn [number_of String.eqb Z.ltb Z.eqb].
  rewrite !firstn_all2; [done|rewrite length_skipn; cbn; lia..].
Qed.

Lemma page_of_devices url limit offset :
  0 <= offset ->
  page (number_of (encode_number (pretty limit))) (number_of (encode_number (pretty offset))) (agent_devices url)
    = page limit offset (agent_devices url).
Proof. unfold agent_devices. destruct (String.eqb url _); apply page_of_two. Qed.

#[local] Notation manager_state :=
  (mkManager (HM := manager_mongo) (HN := manager_network) (mkDatabase (HM := manager_mongo) manager_tables ∅) tt).
#[local] Notation two_agents := ["http://a:1"; "http://b:1"].
#[local] Notation empty_response := (mkResponse 200 "" [] "").

(** What is asked for a page is in the query. *)
Lemma page_query limit offset :
  make_query_string encode_number
    [(Store.DETAILED, ""); (Store.ENTITY, ""); (Store.LIMIT, lexical_cast limit); (Store.OFFSET, lexical_cast offset);
     (Store.PROTOCOL, "")]
  = "2=" ++ encode_number (pretty limit) ++ "&2=" ++ encode_number (pretty offset).
Proof.
  change (lexical_cast limit) with (pretty limit). change (lexical_cast offset) with (pretty offset).
  unfold make_query_string. cbn [make_query_loop nonempty].
  rewrite (proj2 (encode_number_pretty limit)), (proj2 (encode_number_pretty offset)). cbn [Nat.eqb].
  by rewrite <- !str_app_assoc.
Qed.

Lemma number_character (z : Z) : exists c, encode_number (pretty z) = String c "".
Proof. rewrite (proj1 (encode_number_pretty z)). repeat destruct (_ =? _); destruct (_ <? _); by eexists. Qed.

Lemma agents_serve : Forall (serves_pages encode_number 10 (fun _ => True) "s1" "/" "" "" "" "" "" agent_devices) two_agents.
Proof.
  assert (H : forall h, h = "a" \/ h = "b" ->
    serves_pages encode_number 10 (fun _ => True) "s1" "/" "" "" "" "" "" agent_devices ("http://" ++ h ++ ":1")).
  { intros h Hh. exists (mkIoTUrl ("http://" ++ h ++ ":1") "http" h 1 "/" "").
    split; [by destruct Hh as [ -> | -> ]|]. intros n limit offset _ Ho.
    destruct (number_character limit) as [cl El], (number_character offset) as [co Eo].
    eexists _, (h ++ String cl (String co "")), _, _. split; [|split; [done|]].
    { cbn [exchange manager_network]. unfold devices_request, create_request. cbn [rq_method rq_host rq_query String.eqb].
      rewrite page_query, El, Eo. by destruct Hh as [ -> | -> ]. }
    destruct Hh as [ -> | -> ]; (split; [reflexivity|]); (split; [reflexivity|]);
      rewrite <- (page_of_devices _ limit offset (proj1 (proj2 Ho))), El, Eo; reflexivity. }
  repeat constructor; [exact (H "a" (or_introl eq_refl))|exact (H "b" (or_intror eq_refl))].
Qed.

(** The third device of the service is asked for, and is not in the page: two
    devices were passed over in the first agent. *)
Lemma devices_merged_witness :
  get_iotagents (HM := manager_mongo) "iot" "h" no_text no_text "s1" "/" "" 0 0 manager_state
    = Some (manager_state, Ret two_agents)
  /\ (exists g', conn (g_database g') = manager_tables
      /\ AdminMgmt.get_all_devices_json (HM := manager_mongo) "iot" "h" no_text no_text no_text encode_number 10
           "s1" "/" 2 3 "" "" "" "" "" empty_response manager_state
         = Some (g', Ret (create_response 200 "" "" (with_body (jsonString [("count", BNum 4); ("devices", BArr [])])
             empty_response))))
  /\ page 2 3 (List.concat (map agent_devices two_agents)) = [BStr "b2"].
Proof.
  assert (Ha : get_iotagents (HM := manager_mongo) "iot" "h" no_text no_text "s1" "/" "" 0 0 manager_state
    = Some (manager_state, Ret two_agents)) by reflexivity.
  split; [exact Ha|]. split; [|reflexivity].
  destruct (devices_merged "iot" "h" no_text no_text no_text encode_number 10 (fun _ => True) "s1" "/" 2 3 "" "" "" ""
    "" agent_devices empty_response two_agents manager_state manager_state (or_introl eq_refl) Ha agents_serve I
    ltac:(unfold in_range, LIMIT_MAX; lia)) as [H _].
  exact H.
Defined.

Lemma every_agent_counts_witness :
  Forall (fun r => new_IoTUrl (fst r) <> Undefined) [("http://a:1/devices/d1", ""); ("http://b:1/devices/d1", "")]
  /\ exists g' nok, is_Some (nok !! "http://b:1/devices/d1")
     /\ operate no_text 10 "DELETE" "s1" "/" "" 204 404
          [("http://a:1/devices/d1", ""); ("http://b:1/devices/d1", "")] "" manager_state
        = Some (g', Ret (200, add_errors_to_response "" nok)).
Proof.
  assert (Hu : Forall (fun r => new_IoTUrl (fst r) <> Undefined)
    [("http://a:1/devices/d1", ""); ("http://b:1/devices/d1", "")]) by (repeat constructor; discriminate).
  split; [exact Hu|].
  destruct (every_agent_counts no_text 10 "DELETE" "s1" "/" "" 204 404 _ manager_state Hu)
    as (g' & l & E & _ & nok & Hn & _ & Eo).
  vm_compute in E. injection E as <- <-. eexists _, nok. split; [|exact Eo].
  apply Hn. eexists. split; [right; left; reflexivity|]. split; reflexivity.
Defined.
