(* ===== verification/AdminPages.v ===== *)
(** * Agents behind a manager

    The pages that [AdminMgmtSpec] asks of the agents are those that the
    handler of [AdminService] answers: a manager whose agents run it answers
    the documents of all their tables. *)
From stdpp Require Import base tactics list gmap strings pretty.
From Stdlib Require Import ZArith Lia Ascii String.
From S2P Require Import Prelude CppString StdMap Boost Types Alarm FuncUtil IoTUrl Json Bson Collection DeviceCollection Configurator CbComm Filters ServiceTables.
From S2P Require Import AdminService AdminMgmt AdminMgmtSpec.

Local Open Scope string_scope.
Local Open Scope Z_scope.

Lemma page_map {A B} (f : A -> B) limit offset l : page limit offset (map f l) = map f (page limit offset l).
Proof. unfold page. destruct (limit <? 0), (limit =? 0); rewrite ?skipn_map, ?firstn_map, ?skipn_map; done. Qed.

Lemma skipped_map {A B} (f : A -> B) offset (agents : list (list A)) :
  skipped offset (map (map f) agents) = skipped offset agents.
Proof.
  revert offset. induction agents as [|l rest IH]; intros offset; [done|]. cbn [map skipped]. rewrite length_map.
  by rewrite IH.
Qed.

Lemma short_page_map {A B} (f : A -> B) limit offset (agents : list (list A)) :
  short_page limit offset (map (map f) agents) = map f (short_page limit offset agents).
Proof.
  unfold short_page. rewrite skipped_map, <- concat_map.
  destruct (limit <? 0), (limit =? 0); rewrite ?skipn_map, ?firstn_map, ?skipn_map; done.
Qed.

(** The fields that are asked for. *)
Lemma page_fields_of detailed name fields :
  page_fields detailed name = Some fields -> detailed = "" \/ detailed = Store.ON \/ detailed = Store.OFF.
Proof.
  unfold page_fields. destruct (String.eqb_spec detailed "") as [->|_]; [by left|].
  destruct (String.eqb_spec detailed Store.OFF) as [->|_]; [by right; right|].
  destruct (String.eqb_spec detailed Store.ON) as [->|_]; [by right; left|done].
Qed.

(** The parameters that have a value, as [make_query_string] writes them. *)
Definition with_value (ps : list (string * string)) : list (string * string) :=
  List.filter (fun kv => nonempty (snd kv)) ps.

(** The parameters of a request for a page. *)
Definition page_parameters `{Boost} (detailed entity protocol_filter : string) (limit offset : Z) : list (string * string) :=
  [(Store.DETAILED, detailed); (Store.ENTITY, entity); (Store.LIMIT, lexical_cast limit);
   (Store.OFFSET, lexical_cast offset); (Store.PROTOCOL, protocol_filter)].

Section Agents.
  Context `{HB : Boost} `{HBL : !BoostLaws HB} `{HM : Mongo} `{HR : BsonReader} `{HRL : !BsonReaderLaws HR}
    `{HBJ : BsonJson} `{HJ : Rapidjson} `{HC : Config} `{HN : Network}.
  Context {HPl : Plugins Database}.
  Context (database endpoint : string) (show : document -> string) (what : driver_exception -> string)
    (std_what : exn -> string).
  Context (lexical_cast_int : string -> option Z) (validate_json_schema : string -> string -> option string)
    (_POST_DEVICE_SCHEMA url_base : string).
  Context (url_encode : string -> string) (parse_query : string -> list (string * string)) (_timeout : Z).

Lemma nonempty_cast z : nonempty (lexical_cast z) = true.
Proof.
  rewrite lexical_cast_law. destruct (pretty_Z_shape z) as (k & -> & _). destruct (pretty_N_digits k) as [_ Hne].
  destruct (z <? 0); [done|]. cbn [String.append]. by destruct (pretty k).
Qed.

Lemma page_parameters_read detailed entity protocol_filter limit offset :
  let ps := with_value (page_parameters detailed entity protocol_filter limit offset) in
  find_param ps Store.LIMIT = Some (lexical_cast limit) /\ find_param ps Store.OFFSET = Some (lexical_cast offset)
  /\ param ps Store.DETAILED = detailed /\ param ps Store.ENTITY = entity /\ param ps Store.PROTOCOL = protocol_filter.
Proof.
  unfold with_value, page_parameters. cbn [List.filter snd]. rewrite !nonempty_cast.
  destruct detailed, entity, protocol_filter; cbn; done.
Qed.

(** ** The agent *)

(** The table of an agent gives the rows of a query, in an order, with their
    number and by pages. *)
Definition gives_rows (m : db) (ns : string) (query order : document) (rows : list document) : Prop :=
  drv_count m ns query = (m, Done (Z.of_nat (List.length rows)))
  /\ forall limit offset, 0 <= limit -> 0 <= offset ->
       drv_query m ns query limit offset order = (m, Done (page limit offset rows)).

Definition devices_query (service service_path entity protocol_filter : string) : document :=
  ((Store.SERVICE, BStr service) :: addServicePath service_path
   ++ append_str Store.ENTITY_NAME entity ++ append_str Store.PROTOCOL protocol_filter)%list.

Local Abbreviation gives := (fun a service service_path entity protocol_filter =>
  gives_rows (conn (a_database a)) (database ++ "." ++ Store.DEVICE_TABLE)
    (devices_query service service_path entity protocol_filter) (ascending [Store.DEVICE_SORT; Store.SERVICE_PATH])).

Lemma found_page (a : Admin) table query limit offset order fields rows :
  gives_rows (conn (a_database a)) (database ++ "." ++ table) query order rows -> 0 <= limit -> 0 <= offset ->
  on_db (find_fields database endpoint show table query limit offset order fields) a
    = Some (a, Ret (map (project fields) (page limit offset rows))).
Proof.
  intros [_ Hq] Hl Ho. unfold on_db, find_fields, Collection.find, Collection.call, Collection.namespace, fmbind.
  rewrite (Hq _ _ Hl Ho). by destruct a as [? [] ?].
Qed.

Lemma counted_rows (a : Admin) table query order rows :
  gives_rows (conn (a_database a)) (database ++ "." ++ table) query order rows ->
  on_db (Collection.count database endpoint show what table query) a
    = Some (a, Ret (Z.of_nat (List.length rows))).
Proof.
  intros [Hc _]. unfold on_db, Collection.count, Collection.call, Collection.namespace, fmbind.
  rewrite Hc. by destruct a as [? [] ?].
Qed.

(** A page of the devices of an agent, for the limits and offsets of the
    handler. *)
Lemma agent_page (a : Admin) service service_path limit offset detailed entity protocol_filter fields rows r :
  gives a service service_path entity protocol_filter rows -> page_fields detailed Store.DEVICE_ID = Some fields ->
  0 <= offset ->
  AdminService.get_all_devices_json database endpoint show what service service_path limit offset detailed entity
    protocol_filter r a
  = Some (a, Ret (create_response RESPONSE_CODE_OK (page_text "devices" (Z.of_nat (List.length rows))
      (page limit offset (map (project fields) rows))) "" r)).
Proof.
  intros Hg Hf Ho. unfold AdminService.get_all_devices_json, page_of.
  rewrite (fmbind_ret _ _ _ _ _ (counted_rows _ _ _ _ _ Hg)), Hf, page_map.
  destruct (Z.leb_spec 0 limit) as [Hl|Hl].
  - by rewrite (fmbind_ret _ _ _ _ _ (found_page _ _ _ _ _ _ fields _ Hg Hl Ho)).
  - unfold page. by replace (limit <? 0) with true by lia.
Qed.

(** The handler, on the parameters of the manager. *)
Lemma agent_answers (a : Admin) (q : request) service service_path limit offset detailed entity protocol_filter fields rows r :
  (forall z, - 2 ^ 31 <= z < 2 ^ 31 -> lexical_cast_int (lexical_cast z) = Some z) ->
  check_mongo_config a = Some (a, Ret tt) ->
  q_method q = "GET" -> get_header q FIWARE_SERVICE = service -> get_header q FIWARE_SERVICEPATH = service_path ->
  bad_headers service service_path = false -> service_path <> "" ->
  gives a service service_path entity protocol_filter rows -> page_fields detailed Store.DEVICE_ID = Some fields ->
  in_range limit offset ->
  AdminService.devices database endpoint show what std_what lexical_cast_int validate_json_schema _POST_DEVICE_SCHEMA
    url_base q (with_value (page_parameters detailed entity protocol_filter limit offset)) r a
  = Some (a, Ret (create_response RESPONSE_CODE_OK (page_text "devices" (Z.of_nat (List.length rows))
      (page limit offset (map (project fields) rows))) "" r)).
Proof.
  intros Hcast Hm Hq Hs Hp Hb Hne Hg Hf [Hl Ho]. unfold LIMIT_MAX in Hl.
  destruct (page_parameters_read detailed entity protocol_filter limit offset) as (El & Eo & Ed & Ee & Ep).
  unfold AdminService.devices, catch_with, fmcatch.
  rewrite (fmbind_ret _ _ _ _ _ Hm), Hq, Hs, Hp, Hb. cbn [String.eqb Ascii.eqb Bool.eqb].
  unfold path_or_default. replace (String.eqb service_path "") with false by (symmetry; by apply String.eqb_neq).
  unfold page_limit, page_offset, number_or. rewrite El, Eo, Ed, Ee, Ep.
  assert (Hn : forall z, String.eqb (lexical_cast z) "" = false)
    by (intros z; pose proof (nonempty_cast z); by destruct (lexical_cast z)).
  rewrite !Hn, !Hcast by lia. cbn [obind].
  replace (limit <? -1) with false by lia. replace (LIMIT_MAX <? limit) with false by (unfold LIMIT_MAX; lia).
  replace (offset <? 0) with false by lia. unfold lift, flift, fmbind at 1 2.
  by rewrite (agent_page a service service_path limit offset detailed entity protocol_filter fields rows r Hg Hf) by lia.
Qed.

(** ** The agents of a manager *)

(** A request as the server of an agent hands it to the handler; [parse_query]
    is pion's. *)
Definition received (req : http_request) : request :=
  mkRequest (rq_method req) (rq_resource req) (rq_content req) (assoc (rq_headers req)).
Definition blank : response := mkResponse RESPONSE_CODE_OK "" [] "".

(** A request for the devices that is sent to [url] is what the handler of
    [agent] gets, and its response comes back. *)
Definition runs_agent (up : network -> Prop) (agent : string -> Admin) (url : string) : Prop :=
  exists dest, new_IoTUrl url = Ret dest /\
    forall n req a x, up n ->
      rq_method req = "GET" -> rq_host req = _host dest -> rq_port req = _port dest ->
      rq_resource req = _path dest ++ ADMIN_SERVICE_DEVICES ->
      AdminService.devices database endpoint show what std_what lexical_cast_int validate_json_schema
        _POST_DEVICE_SCHEMA url_base (received req) (parse_query (rq_query req)) blank (agent url) = Some (a, Ret x) ->
      exists n' from, up n'
        /\ exchange n req _timeout ""
           = (n', mkResult (Some (mkHttpResponse (rsp_code (snd x)) (rsp_body (snd x)))) None from).

(** What the libraries promise: the parameters are read back from the query,
    numbers from their text, and the text of a page of a table as JSON. *)
Definition texts_read_back (detailed entity protocol_filter : string) (fields : list string)
    (tables : list (list document)) : Prop :=
  (forall limit offset, in_range limit offset ->
     let ps := page_parameters detailed entity protocol_filter limit offset in
     parse_query (make_query_string url_encode ps) = with_value ps)
  /\ (forall z, - 2 ^ 31 <= z < 2 ^ 31 -> lexical_cast_int (lexical_cast z) = Some z)
  /\ (forall rows limit offset, In rows tables -> in_range limit offset ->
        let count := Z.of_nat (List.length rows) in
        let docs := page limit offset (map (project fields) rows) in
        fromjson (page_text "devices" count docs) = Some [("count", BNum count); ("devices", BArr (map BObj docs))]).

Lemma agent_serves up agent url service service_path detailed entity protocol_filter x_auth_token request_identifier
    fields (rows_of : string -> list document) tables :
  texts_read_back detailed entity protocol_filter fields tables -> In (rows_of url) tables ->
  (forall a : Admin, check_mongo_config a = Some (a, Ret tt)) ->
  bad_headers service service_path = false -> service_path <> "" ->
  page_fields detailed Store.DEVICE_ID = Some fields -> Z.of_nat (List.length (rows_of url)) < 2 ^ 31 ->
  gives (agent url) service service_path entity protocol_filter (rows_of url) -> runs_agent up agent url ->
  serves_pages url_encode _timeout up service service_path detailed entity protocol_filter x_auth_token
    request_identifier (fun u => map (fun d => BObj (project fields d)) (rows_of u)) url.
Proof.
  intros (Hps & Hcast & Hj) Ht Hm Hb Hne Hf Hr Hg (dest & Hdest & Hrun). exists dest. split; [done|].
  intros n limit offset Hup Hin.
  set (req := devices_request _ _ _ _ _ _ _ _ _ _ _).
  destruct (Hrun n req (agent url) (create_response RESPONSE_CODE_OK
      (page_text "devices" (Z.of_nat (List.length (rows_of url)))
      (page limit offset (map (project fields) (rows_of url)))) "" blank)) as (n' & from & Hup' & Hx); try done.
  { unfold req, devices_request, create_request. cbn [rq_query].
    fold (page_parameters detailed entity protocol_filter limit offset). rewrite (Hps _ _ Hin).
    apply (agent_answers (agent url) _ service service_path limit offset detailed entity protocol_filter fields
      (rows_of url) blank Hcast); try done;
      unfold get_header, received; cbn [q_headers rq_headers]; by destruct (String.eqb x_auth_token ""). }
  eexists n', _, from, _. split; [exact Hx|]. split; [done|]. split; [by apply Hj|].
  split; [|by rewrite page_map, map_map, <- page_map].
  rewrite length_map. by apply getInt_some; [|lia].
Qed.

(** C24. The devices of a request to the manager are a page of the documents of all
    the tables of its agents, when the agents are this program: with a limit,
    the page is shorter by the documents of the agents before the offset; the
    count is that of all of them, and no error is told. *)
Theorem manager_pages_agents up agent service service_path limit offset detailed entity request_identifier x_auth_token
    protocol_filter fields (rows_of : string -> list document) r all_dest g g1
    (Htexts : texts_read_back detailed entity protocol_filter fields (map rows_of all_dest))
    (Hmongo : forall a : Admin, check_mongo_config a = Some (a, Ret tt))
    (Hheaders : bad_headers service service_path = false) (Hpath : service_path <> "")
    (Hfields : page_fields detailed Store.DEVICE_ID = Some fields)
    (Hagents : get_iotagents database endpoint show what service service_path protocol_filter 0 0 g
               = Some (g1, Ret all_dest))
    (Hrows : Forall (fun url => Z.of_nat (List.length (rows_of url)) < 2 ^ 31
                       /\ gives (agent url) service service_path entity protocol_filter (rows_of url)) all_dest)
    (Hrun : Forall (runs_agent up agent) all_dest)
    (Hup : up (g_network g1)) (Hpage : in_range limit offset) :
  let tables := map rows_of all_dest in
  exists g', conn (g_database g') = conn (g_database g1)
    /\ AdminMgmt.get_all_devices_json database endpoint show what std_what url_encode _timeout service service_path
         limit offset detailed entity request_identifier x_auth_token protocol_filter r g
       = Some (g', Ret (create_response RESPONSE_CODE_OK "" "" (with_body (jsonString
           [("count", BNum (Z.of_nat (List.length (List.concat tables))));
            (Store.DEVICES, BArr (map (fun d => BObj (project fields d)) (short_page limit offset tables)))]) r))).
Proof.
  destruct (devices_merged_eq database endpoint show what std_what url_encode _timeout up service service_path limit
    offset detailed entity request_identifier x_auth_token protocol_filter
    (fun u => map (fun d => BObj (project fields d)) (rows_of u)) r all_dest g g1) as (g' & Hc & E); try done.
  - by apply (page_fields_of _ _ _ Hfields).
  - rewrite Forall_forall in Hrows, Hrun |- *. intros url Hu. destruct (Hrows url Hu) as [Hr Hg].
    apply agent_serves with (agent := agent) (tables := map rows_of all_dest); try done; [|by apply Hrun].
    by apply in_map, list_elem_of_In.
  - exists g'. split; [done|]. rewrite E.
    rewrite <- (map_map rows_of (map (fun d => BObj (project fields d)))), short_page_map, <- concat_map, length_map. done.
Qed.
End Agents.
