(* ===== verification/AdminPagesExample.v ===== *)
(** * Two agents that run the program, behind a manager

    The network of this file hands a request to the handler of [AdminService]
    on the tables of the agent it is for, and [manager_pages_agents] applies. *)
From stdpp Require Import base tactics list gmap strings pretty.
From Stdlib Require Import ZArith Lia Ascii String.
From S2P Require Import Prelude CppString StdMap Boost Types Alarm FuncUtil IoTUrl Json Bson Collection DeviceCollection Configurator CbComm Filters ServiceTables.
From S2P Require Import AdminService AdminMgmt AdminMgmtSpec AdminExample AdminMgmtExample AdminPages.

Local Open Scope string_scope.
Local Open Scope Z_scope.

Local Existing Instance boost_reference.
Local Existing Instance boost_reference_laws.
Local Existing Instance bson_reader_reference.
Local Existing Instance manager_mongo.
Local Existing Instance manager_config.
Local Existing Instance manager_texts.

(** ** Texts *)

Definition read_query (q : string) : list (string * string) := pairs_of (snd (riot_getQueryParams q [])).

Lemma pretty_go_length k : forall x s, (x < 10 ^ N.of_nat k)%N ->
  (String.length (pretty_N_go x s) <= k + String.length s)%nat.
Proof.
  induction k as [|k IH]; intros x s Hx.
  - replace x with 0%N by (cbn in Hx; lia). by rewrite pretty_N_go_0.
  - destruct (decide (x = 0)%N) as [->|Hn]; [rewrite pretty_N_go_0; lia|].
    rewrite pretty_N_go_step by lia. etransitivity; [apply IH|cbn; lia].
    apply N.Div0.div_lt_upper_bound. rewrite Nat2N.inj_succ, N.pow_succ_r' in Hx. lia.
Qed.

Lemma pretty_length (z : Z) : - 2 ^ 31 <= z < 2 ^ 31 -> slen (pretty z) <= 11.
Proof.
  intros Hz. destruct (pretty_Z_shape z) as (n & -> & Hn).
  assert (H : (String.length (pretty n) <= 10)%nat).
  { unfold pretty, pretty_N. destruct (decide _); [cbn; lia|]. etransitivity; [apply (pretty_go_length 10); lia|cbn; lia]. }
  unfold slen. destruct (z <? 0); cbn; lia.
Qed.

Lemma pretty_characters (z : Z) : str_forall value_char (pretty z) = true /\ pretty z <> "".
Proof.
  destruct (pretty_Z_shape z) as (n & -> & _). destruct (pretty_N_digits n) as [Hd Hne].
  assert (Hv : str_forall value_char (pretty n) = true).
  { revert Hd. apply str_forall_impl. intros c. by destruct c as [[] [] [] [] [] [] [] []]. }
  destruct (z <? 0); cbn [String.append]; [|done]. split; [|done]. cbn [str_forall]. by rewrite Hv.
Qed.

(** The limit and the offset are read back from the query. *)
Lemma query_read_back limit offset :
  in_range limit offset ->
  let ps := page_parameters "" "" "" limit offset in read_query (make_query_string encode_all ps) = with_value ps.
Proof.
  intros [Hl Ho]. unfold LIMIT_MAX in Hl. cbn zeta.
  set (kvs := [mkKVP Store.LIMIT (pretty limit); mkKVP Store.OFFSET (pretty offset)]).
  assert (Hok : Forall kvp_ok kvs).
  { assert (H : forall k z, k = Store.LIMIT \/ k = Store.OFFSET -> - 2 ^ 31 <= z < 2 ^ 31 -> kvp_ok (mkKVP k (pretty z))).
    { intros k z Hk Hz. destruct (pretty_characters z) as [Hc Hne]. pose proof (pretty_length z Hz).
      unfold kvp_ok, QUERY_NAME_MAX, QUERY_VALUE_MAX. cbn [getKey getValue].
      repeat split; try assumption; try lia; by destruct Hk as [ -> | -> ]. }
    repeat constructor; apply H; auto; lia. }
  assert (Hnl : nonempty (pretty limit) = true) by (apply nonempty_true, pretty_characters).
  assert (Hno : nonempty (pretty offset) = true) by (apply nonempty_true, pretty_characters).
  assert (E : with_value (page_parameters "" "" "" limit offset) = pairs_of kvs).
  { unfold with_value, page_parameters. cbn [List.filter snd nonempty]. change (lexical_cast limit) with (pretty limit).
    change (lexical_cast offset) with (pretty offset). by rewrite Hnl, Hno. }
  assert (Eq : make_query_string encode_all (page_parameters "" "" "" limit offset) = make_query_string encode_all (pairs_of kvs)).
  { unfold make_query_string, page_parameters. cbn [pairs_of map kvs make_query_loop nonempty getKey getValue].
    change (lexical_cast limit) with (pretty limit). change (lexical_cast offset) with (pretty offset).
    by rewrite Hnl, Hno. }
  rewrite Eq, E. unfold read_query. rewrite (query_roundtrip encode_all kvs []); [done|assumption|done].
Qed.

(** ** The agents *)

#[local] Instance agent_plugins : Plugins Database := {|
  plugin := string;
  plugins := unit;
  get_protocol_data p := mkProtocolData p p;
  is_command_handle _ := true;
  check_provisioned_data _ _ := (200, "");
  get_protocol_commands _ := "";
  remove_devices_from_cache _ _ s := s;
  send_register_device _ _ := fret tt;
  unregister _ _ := fret tt;
  plugin_register_iota_manager _ := fret tt
|}.

(** The devices of an agent, by its host. *)
Definition device_row (id : string) : document :=
  [("device_id", BStr id); ("service", BStr "s1"); ("service_path", BStr "/")].
Definition agent_rows (host : string) : list document :=
  if String.eqb host "a" then [device_row "a1"; device_row "a2"] else [device_row "b1"; device_row "b2"].

#[local] Notation agent_at host :=
  (mkAdmin (HM := manager_mongo) (HPl := agent_plugins) ∅
     (mkDatabase (HM := manager_mongo) (fun ns => if String.eqb ns "iot.DEVICE" then agent_rows host else []) ∅) tt).
Definition host_of (url : string) : string := if String.eqb url "http://a:1" then "a" else "b".

(** A device as text, by its identifier; and the pages of the agents. *)
Definition device_text (d : document) : string :=
  match d with (_, BStr id) :: _ => "{" ++ id ++ "}" | _ => "{}" end.
Definition identifiers_only (host : string) : list document := map (project [Store.DEVICE_ID]) (agent_rows host).

Definition text_writer : BsonJson := {| jsonString := device_text; fromjson _ := None; numberLong _ _ := 0 |}.

Definition sublists {A} (l : list A) : list (list A) :=
  match l with [x; y] => [[]; [x]; [y]; [x; y]] | _ => [] end.
Definition known_pages : list (list document) := (sublists (identifiers_only "a") ++ sublists (identifiers_only "b"))%list.

#[local] Instance agents_json : BsonJson := {|
  jsonString := device_text;
  fromjson text :=
    match List.find (fun docs => String.eqb text (page_text (HBJ := text_writer) "devices" 2 docs)) known_pages with
    | Some docs => Some [("count", BNum 2); ("devices", BArr (map BObj docs))]
    | None => None
    end;
  numberLong _ _ := 0
|}.

Definition agent_devices_handler (q : request) (ps : list (string * string)) (host : string)
    : option (Admin * outcome (Z * response)) :=
  AdminService.devices (HM := manager_mongo) "iot" "h" no_text no_text no_text int_of_text accept_all "" "" q ps blank
    (agent_at host).

#[local] Instance agents_network : Network := {|
  network := unit;
  exchange n req _ _ :=
    (n, match agent_devices_handler (received req) (read_query (rq_query req)) (rq_host req) with
        | Some (_, Ret x) => mkResult (Some (mkHttpResponse (rsp_code (snd x)) (rsp_body (snd x)))) None (rq_host req)
        | _ => mkResult None (Some (1, "no answer")) (rq_host req)
        end);
  get_token n _ _ _ _ _ := (n, Ret "")
|}.

Lemma page_of_two_in {A} (x y : A) limit offset : In (page limit offset [x; y]) (sublists [x; y]).
Proof.
  unfold page. destruct (limit <? 0); [by left|].
  destruct (Z.to_nat offset) as [|[|[|n]]], (limit =? 0); cbn [drop sublists]; try (cbn; tauto);
    destruct (Z.to_nat limit) as [|[|[|m]]]; cbn; tauto.
Qed.

Lemma pages_read_back docs :
  In docs known_pages ->
  fromjson (page_text "devices" 2 docs) = Some [("count", BNum 2); ("devices", BArr (map BObj docs))].
Proof. intros H. repeat (destruct H as [<-|H]; [vm_compute; reflexivity|]). by destruct H. Qed.

#[local] Notation two_agents := ["http://a:1"; "http://b:1"].
#[local] Notation rows_at := (fun url => agent_rows (host_of url)).

Lemma agents_read_back :
  texts_read_back int_of_text encode_all read_query "" "" "" [Store.DEVICE_ID] (map rows_at two_agents).
Proof.
  split; [exact query_read_back|]. split.
  - intros z _. unfold int_of_text. change (lexical_cast z) with (pretty z). by rewrite strtol10_pretty, String.eqb_refl.
  - intros rows limit offset [<-|[<-|[]]] _; apply pages_read_back; unfold known_pages; apply in_or_app;
      [left|right]; apply page_of_two_in.
Qed.

Lemma agents_run :
  Forall (runs_agent (HM := manager_mongo) (HPl := agent_plugins) "iot" "h" no_text no_text no_text int_of_text
    accept_all "" "" read_query 10 (fun _ => True)
    (fun url => agent_at (host_of url))) two_agents.
Proof.
  assert (H : forall n req a x host, rq_host req = host ->
    agent_devices_handler (received req) (read_query (rq_query req)) host = Some (a, Ret x) ->
    exists n' from, True /\
      exchange n req 10 "" = (n', mkResult (Some (mkHttpResponse (rsp_code (snd x)) (rsp_body (snd x)))) None from)).
  { intros n req a x host Hh E. exists n, (rq_host req). split; [done|]. cbn [exchange agents_network]. by rewrite Hh, E. }
  apply Forall_cons. split; [|apply Forall_singleton].
  - exists (mkIoTUrl "http://a:1" "http" "a" 1 "/" ""). split; [reflexivity|]. intros n req a x _ _ Hh _ _ E.
    by apply (H n req a x "a").
  - exists (mkIoTUrl "http://b:1" "http" "b" 1 "/" ""). split; [reflexivity|]. intros n req a x _ _ Hh _ _ E.
    by apply (H n req a x "b").
Qed.

#[local] Notation manager_state :=
  (mkManager (HM := manager_mongo) (HN := agents_network) (mkDatabase (HM := manager_mongo) manager_tables ∅) tt).
#[local] Notation empty_response := (mkResponse 200 "" [] "").

Lemma agents_give :
  Forall (fun url => Z.of_nat (List.length (rows_at url)) < 2 ^ 31
    /\ gives_rows (HM := manager_mongo) (conn (a_database (HPl := agent_plugins) (agent_at (host_of url))))
         ("iot" ++ "." ++ Store.DEVICE_TABLE)
         (devices_query "s1" "/" "" "") (ascending [Store.DEVICE_SORT; Store.SERVICE_PATH]) (rows_at url)) two_agents.
Proof.
  apply Forall_cons. split; [|apply Forall_singleton]; (split; [cbn; lia|split; [reflexivity|by intros]]).
Qed.

Lemma page_in_range : in_range 3 1.
Proof. unfold in_range, LIMIT_MAX. lia. Qed.

(** A page that begins in the first agent and ends in the second. *)
Lemma manager_pages_agents_witness :
  texts_read_back int_of_text encode_all read_query "" "" "" [Store.DEVICE_ID] (map rows_at two_agents)
  /\ in_range 3 1
  /\ exists g', conn (g_database g') = manager_tables
     /\ AdminMgmt.get_all_devices_json (HM := manager_mongo) "iot" "h" no_text no_text no_text encode_all 10
          "s1" "/" 3 1 "" "" "" "" "" empty_response manager_state
        = Some (g', Ret (create_response 200 "" "" (with_body (jsonString
            [("count", BNum 4);
             ("devices", BArr [BObj [("device_id", BStr "a2")]; BObj [("device_id", BStr "b1")]; BObj [("device_id", BStr "b2")]])])
            empty_response))).
Proof.
  split; [exact agents_read_back|]. split; [exact page_in_range|].
  exact (manager_pages_agents (HM := manager_mongo) (HPl := agent_plugins) (HRL := bson_reader_reference_laws) "iot" "h"
    no_text no_text no_text int_of_text accept_all "" "" encode_all read_query 10 (fun _ => True)
    (fun url => agent_at (host_of url)) "s1" "/" 3 1 "" "" "" "" "" [Store.DEVICE_ID] rows_at empty_response two_agents
    manager_state manager_state agents_read_back (fun _ => eq_refl) eq_refl ltac:(discriminate) eq_refl eq_refl agents_give
    agents_run I page_in_range).
Defined.
